(* ===== verification/_CoqProject ===== *)
-Q . S2P
Prelude.v
Word.v
Float.v
PpcState.v
IntArith.v
IntLogic.v
PowerOps.v
CondReg.v
Timers.v
MemCtrl.v
HostMem.v
Machine.v
Branch.v
Mmu.v
MmuBat.v
Exceptions.v
Translate.v
PageWalk.v
VMem.v
VmFrame.v
LoadStore.v
Fpu.v
FpuMem.v
FpuProps.v
FpuType.v
FpuRound.v
FpuArith.v
FpuConv.v
SystemRegs.v
Invariant.v
VmInv.v
RealMode.v
LoadStoreInv.v
FpuInv.v
LoadStoreReal.v
FpuReal.v
RegSafe.v
Decode.v
Clock.v
Reset.v
Exec.v
ExecInv.v
ExecProps.v
Sleep.v
MacIo.v
MacIoProps.v
Dbdma.v
DbdmaProps.v
Adb.v
AdbProps.v
Nvram.v
NvramProps.v
