(* ===== verification/Prelude.v ===== *)
(** * chungusppc: a verification of the PowerPC emulator

    chungusppc emulates Power Macintosh computers.  Its heart is an interpreter of
    the PowerPC 601, 603, 604 and 750 (src/cpu/ppc), which runs on a map of memory
    regions (src/devices/memctrl/memctrlbase.cpp) and is driven by virtual timers
    (src/core/timermanager.cpp); the devices are clients of these three.  This
    development models the interpreter (decoding, every instruction, exceptions,
    address translation, memory accesses, the loop, reset), the memory map, the
    timers, the two devices through which all others reach the processor and
    memory - the interrupt controllers (src/devices/ioctrl) and the DMA channels
    (src/devices/common/dbdma.cpp) -, the desktop bus with its keyboard and mouse
    (src/devices/common/adb) and the non-volatile memory with the Open Firmware
    variables in it (src/devices/common/nvram.cpp, ofnvram.cpp), as executable
    definitions translated from the C++, and proves what makes them correct.

    ** How the program is modelled

    - Words are integers with their wrap-around written out: [u32], [u64], [s32]
      ([Word.v]), shifts and masks are [Z.shiftl], [Z.land] and so on.  A [double]
      is its bit pattern; the host's arithmetic on it is that of IEEE 754
      ([Float.v]).
    - The register files are finite maps from the index, [r.[i]] and
      [r.[i := v]] (this file); a location never written reads 0, as C++'s static
      storage does.  [ppc_state] ([PpcState.v]) is the code's [SetPRS]; [machine]
      ([Machine.v]) is every global of ppcexec.cpp, ppcmmu.cpp and ppcopcodes.cpp,
      grouped in records, with the memory controller and the timers.
    - An instruction that only touches registers is a function on [ppc_state];
      branches are functions on [machine]; everything that can raise an exception
      runs in the monad [M] of this file, whose outcome is a value, the [longjmp]
      to the main loop, or the end of the emulation ([ABORT_F]).  A name is the
      name the C++ has; C++ template parameters are arguments.
    - Host memory is a map from host addresses to bytes ([MemCtrl.v],
      [HostMem.v]); host pointers into regions, the offsets a TLB slot keeps and
      the interpreter's [pc_real] are such addresses.  A TLB slot is a value of
      [slot], a timer is the number of its [TimerInfo].
    - What a device answers and what its timers do is a parameter (class
      [Devices]); the host's clock is a field of the state, and what IEEE 754
      leaves open is the class [HostFpu].

    ** The files

    Foundations:
    - [Prelude.v]: notations, tactics, register files, finite checks, [M].
    - [Word.v]: machine words, core/bitops.h, core/mathutils.h,
      core/endianswap.h, with bit-level lemmas.
    - [Float.v]: binary64 and binary32, rounding once in each of the four
      directions, conversions, comparisons, host exceptions.
    - [PpcState.v]: the processor state, instruction fields (ppcdechelpers.h), CR0
      and XER updates, and [int_effect], the shape of the specifications of the
      integer instructions.

    Around the processor:
    - [Timers.v]: TimerManager, against the class [TimerHost] (where the manager
      lives, the clock, the notification) and [TimerInvoke] (what callbacks do);
      the machine provides the instances.
    - [MemCtrl.v]: the address map of MemCtrlBase.  [HostMem.v]: the byte-order
      accessors of core/memaccess.h.
    - [Machine.v]: the state, virtual time and the invariant on register widths.

    Instructions on registers:
    - [IntArith.v], [IntLogic.v], [CondReg.v]: the integer, logical and condition
      register instructions of ppcopcodes.cpp; [PowerOps.v]: those of
      poweropcodes.cpp; [Branch.v]: the branches.
    - [Fpu.v]: ppcfpopcodes.cpp without loads and stores; [FpuProps.v] (FPSCR and
      compares), [FpuType.v] (what an instruction may touch), [FpuRound.v] and
      [FpuArith.v] (correct rounding), [FpuConv.v] (conversions to integer).

    Memory:
    - [Mmu.v], [MmuBat.v]: block address translation, page table geometry, the
      software TLBs with their tracking and invalidation, the 603's own TLBs.
    - [Translate.v]: page address translation and the TLB refills; [PageWalk.v]:
      its specification and refinement.
    - [VMem.v]: mmu_read_vmem and mmu_write_vmem; [VmFrame.v]: what they leave
      alone; [LoadStore.v], [FpuMem.v]: the load, store, cache and TLB
      instructions.
    - [RealMode.v], [LoadStoreReal.v], [FpuReal.v]: what these do on flat memory.

    System:
    - [Exceptions.v]: ppcexceptions.cpp, changes of the MSR, sc, rfi, traps.
    - [SystemRegs.v]: segment registers, MSR, time base, real-time clock,
      decrementer, thermal sensors, mfspr, mtspr, mftb, and what the processor's
      timer callbacks do.

    The interpreter:
    - [Decode.v]: the opcode tables as the writes that fill them, dispatch.
    - [Clock.v]: the instruction clock, its rates, real time, process_events.
    - [Reset.v]: ppc_cpu_init.
    - [Exec.v]: ppc_exec_inner and the loops around it; [ExecProps.v] and
      [Sleep.v]: where it goes, and that it wakes up.

    Devices:
    - [MacIo.v]: the interrupt logic and registers of Grand Central and of the
      MacIO chips (O'Hare, Heathrow), against the classes [IntHost] (the
      processor's pin) and [SubDevices]; [MacIoProps.v]: its specification by
      sources, and the controller connected to the processor of [Exceptions.v].
    - [Dbdma.v]: mmu_map_dma_mem and a DMA channel, against [DmaEnv] (the device,
      other registers) and [TimerHost] (the interrupt); [DbdmaProps.v]: the channel
      as a stream.
    - [Adb.v]: AdbBus and its devices (AdbKeyboard, AdbMouse, AdbAppleJack), their
      virtual methods dispatched on the device's kind; [AdbProps.v]: what the host
      decodes from a Talk is what keyboard and mouse were told.  They share
      nothing with the processor's state.
    - [Nvram.v]: NVram with its backing file and the two layouts of the Open
      Firmware variables ([Appl], [Chrp], with OfConfigUtils over both);
      [NvramProps.v]: round trips of the file and of setenv and getenv.

    The invariant of the machine, for each layer above: [Invariant.v],
    [VmInv.v], [LoadStoreInv.v], [FpuInv.v], [RegSafe.v], [ExecInv.v].

    ** What the theorems show

    - The machine: every instruction of every table, every timer callback and every
      pass of the loops keeps widths, timer queue, decoded BATs, TLB tracking and
      pending invalidations ([interpreter_invariant]); [ppc_cpu_init] establishes
      them whatever the process did before ([cpu_init_establishes]).
    - The interpreter: an instruction word reaches the handler the architecture's
      opcode map gives it ([decode_correct]); the host pointer stays on the byte
      of the program counter ([host_pointer_follows_pc]); while instructions are
      the clock and interrupts are enabled, a sleeping processor wakes with the
      decrementer interrupt if no other timer is due by then ([sleep_ends]).
    - Integer instructions: results, carry, overflow and CR0 of every instruction
      for every operand; the 64-bit idioms; divisions on all their special cases;
      rotates and shifts bit by bit; compares and CR moves; the POWER
      instructions with MQ.
    - Floating point: arithmetic gives the nearest double; conversions round and
      saturate; comparisons are the order of the numbers; FPSCR bits.
    - Control: the decision and target of every conditional branch, a call
      returns, a counted loop terminates after CTR rounds; exception entry with
      everything it changes and the address it resumes at
      ([exception_entry_correct]), system call and return, pending interrupts at
      rfi and mtmsr; a privileged instruction in problem state is exactly that
      entry ([privileged_instructions_trap]).
    - Time: the time base and the decrementer count the ticks of a 32.32
      fixed-point frequency exactly, the decrementer's timer is the only one its
      writes touch; a pass over the timer queue terminates and runs the callbacks
      of the due timers, each once, in the order of their deadlines; while
      instructions are the clock, changing the rate keeps the time; the
      interpreter looks at the timers when the next one is due.
    - Memory: regions stay disjoint; block address translation and the page table
      walk are the architecture's; after a change of translation registers and a
      context synchronisation no stale translation is left; with translation off,
      loads and stores are those of a flat big-endian memory; [stwcx.] and its
      reservation, also when the store is interrupted ([stwcx_correct]).
    - Devices: the interrupt controller latches, masks and acknowledges as its
      specification says and drives the processor's pin
      ([interrupt_controller_refines]), an enabled interrupt enters the handler
      ([interrupt_delivered]); output through a DMA channel is a first-in
      first-out stream ([dma_output_stream]); what setenv stores getenv shows,
      when it fits ([chrp_setenv_getenv], [of_setenv_getenv]); the file keeps the
      memory ([nvram_file_roundtrip]); the bus delivers the mouse's motion and the
      keyboard's events ([adb_mouse_report], [adb_keyboard_fifo]).
    - Defects, stated as theorems: an interrupt leaves the old opcode table in use
      ([interrupt_keeps_stale_table]), as a reset does; execution wraps from the
      top of the address space without leaving the host page
      ([host_pointer_follows_pc]); entering real time, and the speed keys in real
      time, set the clock back ([rate_change_keeps_time]); a [stwcx.] whose store is
      interrupted has already changed CR0 ([stwcx_correct]); a thermal interrupt
      pending at rfi loses the return address ([rfi_pending_interrupts]); a thermal
      interrupt leaves the timer manager marked busy
      ([thermal_interrupt_blocks_notification]); a DMA command whose wait condition
      holds is repeated ([dma_wait_does_not_wait]); ADB collisions are never
      detected ([talk_no_collision]).

    ** Bounds

    - [process_loop] takes fuel because callbacks may keep timers due for ever;
      when they leave the timers alone, one more than the number of queued timers
      is enough ([process_timers_correct]).
    - The loops of the interpreter run until the machine is powered off; [Exec.v]
      makes their fuel a parameter and answers [None] when it runs out.  The
      waiting loop needs four rounds at most ([sleep_ends]).
    - [interpret] of [Dbdma.v] has fuel for the passes of its outer loop, which a
      device that calls back keeps going, and depth 2, since a nested call returns
      at once; one pass is enough for a device that pulls ([dma_output_stream]),
      and no fuel is for a transfer that waits ([dma_wait_does_not_wait]).
    - [find_partition] of [Nvram.v] has fuel, since a partition of length 0 keeps
      the code's search in place for ever; its round trip holds for every fuel
      with which the search answers ([chrp_setenv_getenv]).
    - [freq_loop] of [Reset.v] and the string loads are bounded by their operands.
      Every other loop is structural or over a literal range.

    ** What is not modelled

    The disassembler, the debugger and the test bench, profiling counters and log
    output, builds with [SUPPORTS_PPC_LITTLE_ENDIAN_MODE] (off by default), the
    other devices, and the host side (SDL, files, threads: the timer mutex protects
    against the audio thread only). *)
From Stdlib Require Export ZArith Lia Bool.
From stdpp Require Export base gmap list numbers.

(** ** Scope and reserved notations *)

Declare Scope cpp_scope.
Delimit Scope cpp_scope with cpp.
#[global] Open Scope Z_scope.
#[global] Open Scope cpp_scope.

(** ** Register files

    The emulator keeps its registers in zero-initialised C arrays that live in
    static storage ([ppc_state.gpr], [ppc_state.spr], ...).  A register file is
    a finite map from the index to the value; an index that was never written
    reads as the initial 0. *)

Definition rget (r : gmap Z Z) (i : Z) : Z := default 0 (r !! i).
Definition rset (r : gmap Z Z) (i v : Z) : gmap Z Z := <[i := v]> r.

Notation "r .[ i ]" := (rget r i)
  (at level 1, left associativity, format "r .[ i ]") : cpp_scope.
Notation "r .[ i := v ]" := (rset r i v)
  (at level 1, left associativity, format "r .[ i  :=  v ]") : cpp_scope.

#[global] Arguments rget : simpl never.
#[global] Arguments rset : simpl never.

Lemma rget_rset_eq (r : gmap Z Z) i v : r.[i := v].[i] = v.
Proof. unfold rget, rset. by rewrite lookup_insert_eq. Qed.

Lemma rget_rset_ne (r : gmap Z Z) i j v : i <> j -> r.[i := v].[j] = r.[j].
Proof. intros. unfold rget, rset. by rewrite lookup_insert_ne. Qed.

Lemma rget_rset (r : gmap Z Z) i j v :
  r.[i := v].[j] = if decide (i = j) then v else r.[j].
Proof. case_decide; subst; [apply rget_rset_eq | by apply rget_rset_ne]. Qed.

Lemma rset_rset (r : gmap Z Z) i v w : r.[i := v].[i := w] = r.[i := w].
Proof. unfold rset. by rewrite insert_insert_eq. Qed.

Lemma rget_empty i : rget ∅ i = 0.
Proof. reflexivity. Qed.

(** A register file all of whose values fit [w] bits. *)
Definition file_ok (w : Z) (r : gmap Z Z) : Prop := forall i, 0 <= r.[i] < 2 ^ w.

Lemma file_ok_get w r i : file_ok w r -> 0 <= r.[i] < 2 ^ w.
Proof. auto. Qed.

Lemma file_ok_set w r i v : file_ok w r -> 0 <= v < 2 ^ w -> file_ok w (r.[i := v]).
Proof. intros Hr Hv j. rewrite rget_rset. case_decide; auto. Qed.

Lemma file_ok_empty w : 0 <= w -> file_ok w ∅.
Proof. intros Hw i. rewrite rget_empty. lia. Qed.

(** ** Finite checks

    Many facts about 5-bit operand fields are decided by evaluating a boolean
    over a whole range; [range_forall] turns such an evaluation into the
    universally quantified statement. *)

Definition zrange (n : nat) : list Z := map Z.of_nat (seq 0 n).

Lemma range_forall (n : nat) (P : Z -> bool) :
  forallb P (zrange n) = true -> forall i, 0 <= i < Z.of_nat n -> P i = true.
Proof.
  intros H i Hi. rewrite forallb_forall in H. apply H.
  unfold zrange. apply in_map_iff. exists (Z.to_nat i). split; [lia|].
  apply in_seq. lia.
Qed.

Lemma existsb_same {A} (f g : A -> bool) l : (forall x, In x l -> f x = g x) -> existsb f l = existsb g l.
Proof.
  induction l as [|x l IH]; intros H; [done|]. cbn. rewrite H by (by left). by rewrite IH by (intros; apply H; by right).
Qed.

Lemma range_forall2 (n m : nat) (P : Z -> Z -> bool) :
  forallb (fun i => forallb (P i) (zrange m)) (zrange n) = true ->
  forall i j, 0 <= i < Z.of_nat n -> 0 <= j < Z.of_nat m -> P i j = true.
Proof.
  intros H i j Hi Hj.
  pose proof (range_forall n (fun i => forallb (P i) (zrange m)) H i Hi) as Hm.
  exact (range_forall m (P i) Hm j Hj).
Qed.

Lemma range_forall3 (n m k : nat) (P : Z -> Z -> Z -> bool) :
  forallb (fun i => forallb (fun j => forallb (P i j) (zrange k)) (zrange m)) (zrange n) = true ->
  forall i j l, 0 <= i < Z.of_nat n -> 0 <= j < Z.of_nat m -> 0 <= l < Z.of_nat k ->
  P i j l = true.
Proof.
  intros H i j l Hi Hj Hl.
  pose proof (range_forall2 n m (fun i j => forallb (P i j) (zrange k)) H i j Hi Hj) as Hm.
  exact (range_forall k (P i j) Hm l Hl).
Qed.

(** ** Tactics *)

(** Linear arithmetic with division and remainder. *)
Ltac zlia := Z.to_euclidean_division_equations; lia.
Ltac znia := Z.to_euclidean_division_equations; nia.

(** Split every boolean test of the goal that is the scrutinee of a
    conditional, reflecting the integer comparisons. *)
Ltac case_if :=
  match goal with
  | |- context [if Z.eqb ?a ?b then _ else _] => destruct (Z.eqb_spec a b)
  | |- context [if Z.ltb ?a ?b then _ else _] => destruct (Z.ltb_spec a b)
  | |- context [if Z.leb ?a ?b then _ else _] => destruct (Z.leb_spec a b)
  | |- context [if ?b then _ else _] => destruct b eqn:?
  end.

Ltac bool_to_prop :=
  repeat match goal with
  | H : andb _ _ = true |- _ => apply andb_true_iff in H; destruct H
  | H : andb _ _ = false |- _ => apply andb_false_iff in H
  | H : orb _ _ = true |- _ => apply orb_true_iff in H
  | H : orb _ _ = false |- _ => apply orb_false_iff in H; destruct H
  | H : negb _ = true |- _ => apply negb_true_iff in H
  | H : negb _ = false |- _ => apply negb_false_iff in H
  | H : Z.eqb _ _ = true |- _ => apply Z.eqb_eq in H
  | H : Z.eqb _ _ = false |- _ => apply Z.eqb_neq in H
  | H : Z.ltb _ _ = true |- _ => apply Z.ltb_lt in H
  | H : Z.ltb _ _ = false |- _ => apply Z.ltb_ge in H
  | H : Z.leb _ _ = true |- _ => apply Z.leb_le in H
  | H : Z.leb _ _ = false |- _ => apply Z.leb_gt in H
  end.

(** ** Outcomes and the state monad

    An interpreter routine either returns to its caller, leaves through
    [longjmp(exc_env, 2)] to the main loop with every global as it is, or stops
    the emulator ([ABORT_F]). *)

Inductive outcome (A : Type) : Type :=
| Ret (a : A)
| Longjmp
| Fatal.
Arguments Ret {A} a.
Arguments Longjmp {A}.
Arguments Fatal {A}.

Definition M (S A : Type) : Type := S -> outcome A * S.

Definition ret {S A} (a : A) : M S A := fun s => (Ret a, s).
Definition bind {S A B} (m : M S A) (k : A -> M S B) : M S B := fun s =>
  match m s with
  | (Ret a, s') => k a s'
  | (Longjmp, s') => (Longjmp, s')
  | (Fatal, s') => (Fatal, s')
  end.
Definition gets {S A} (f : S -> A) : M S A := fun s => (Ret (f s), s).
Definition modify {S} (f : S -> S) : M S unit := fun s => (Ret tt, f s).
Definition longjmp {S A} : M S A := fun s => (Longjmp, s).
Definition abort_f {S A} : M S A := fun s => (Fatal, s).
Definition when {S} (b : bool) (m : M S unit) : M S unit := if b then m else ret tt.

Notation "x <- m ;; k" := (bind m (fun x => k))
  (at level 100, m at next level, right associativity) : cpp_scope.
Notation "m ;;; k" := (bind m (fun _ => k))
  (at level 100, right associativity) : cpp_scope.

(** A loop with fuel answers [None] when it runs out. *)
Definition fuelled {S A B} (x : M S (option A)) (k : A -> M S (option B)) : M S (option B) :=
  bind x (fun o => match o with Some a => k a | None => ret None end).
Notation "x <-? m ;; k" := (fuelled m (fun x => k))
  (at level 100, m at next level, right associativity) : cpp_scope.

Section Monad.
Context {S A B C : Type}.
Implicit Types (m : M S A).

Lemma bind_ret_l (a : A) (k : A -> M S B) s : bind (ret a) k s = k a s.
Proof. reflexivity. Qed.

Lemma bind_gets (f : S -> A) (k : A -> M S B) s : bind (gets f) k s = k (f s) s.
Proof. reflexivity. Qed.

Lemma bind_modify (f : S -> S) (k : unit -> M S B) s : bind (modify f) k s = k tt (f s).
Proof. reflexivity. Qed.

Lemma bind_ret_r m s : bind m ret s = m s.
Proof. unfold bind. by destruct (m s) as [[]]. Qed.

Lemma bind_assoc m (f : A -> M S B) (g : B -> M S C) s :
    bind (bind m f) g s = bind m (fun x => bind (f x) g) s.
Proof. unfold bind. by destruct (m s) as [[]]. Qed.

Lemma bind_ret m (k : A -> M S B) s a s' : m s = (Ret a, s') -> bind m k s = k a s'.
Proof. unfold bind. by intros ->. Qed.

Lemma bind_longjmp m (k : A -> M S B) s s' :
    m s = (Longjmp, s') -> bind m k s = (Longjmp, s').
Proof. unfold bind. by intros ->. Qed.
End Monad.

(** A routine preserves a state predicate whatever its outcome. *)
Definition preserves {S A} (P : S -> Prop) (m : M S A) : Prop :=
  forall s, P s -> P (m s).2.

Section Preserves.
Context {S : Type} (P : S -> Prop).

Lemma preserves_ret {A} (a : A) : preserves P (ret a).
Proof. intros s Hs. exact Hs. Qed.
Lemma preserves_gets {A} (f : S -> A) : preserves P (gets f).
Proof. intros s Hs. exact Hs. Qed.
Lemma preserves_longjmp {A} : preserves P (@longjmp S A).
Proof. intros s Hs. exact Hs. Qed.
Lemma preserves_abort_f {A} : preserves P (@abort_f S A).
Proof. intros s Hs. exact Hs. Qed.
Lemma preserves_modify f : (forall s, P s -> P (f s)) -> preserves P (modify f).
Proof. intros H s Hs. exact (H s Hs). Qed.
Lemma preserves_bind {A B} (m : M S A) (k : A -> M S B) :
  preserves P m -> (forall a, preserves P (k a)) -> preserves P (bind m k).
Proof.
  intros Hm Hk s Hs. specialize (Hm s Hs). unfold bind.
  destruct (m s) as [[] s']; simpl in *; [by apply Hk | done..].
Qed.
Lemma preserves_if {A} (b : bool) (m1 m2 : M S A) :
    preserves P m1 -> preserves P m2 -> preserves P (if b then m1 else m2).
Proof. by destruct b. Qed.
Lemma preserves_fuelled {A B} (m : M S (option A)) (k : A -> M S (option B)) :
    preserves P m -> (forall a, preserves P (k a)) -> preserves P (fuelled m k).
Proof. intros Hm Hk. apply preserves_bind; [done|]. intros [a|]; [apply Hk | apply preserves_ret]. Qed.
Lemma preserves_when b (m : M S unit) : preserves P m -> preserves P (when b m).
Proof. intros H. destruct b; [exact H | apply preserves_ret]. Qed.
End Preserves.

(** A routine preserves a state predicate, and what it returns satisfies [Q]. *)
Definition yields {S A} (P : S -> Prop) (m : M S A) (Q : A -> Prop) : Prop :=
  forall s, P s -> P (m s).2 /\ forall a, (m s).1 = Ret a -> Q a.

Section Yields.
Context {S : Type} (P : S -> Prop).

Lemma yields_preserves {A} (m : M S A) Q : yields P m Q -> preserves P m.
Proof. intros H s Hs. apply H, Hs. Qed.
Lemma preserves_yields {A} (m : M S A) : preserves P m -> yields P m (fun _ => True).
Proof. intros H s Hs. split; [by apply H | done]. Qed.
Lemma yields_ret {A} (a : A) (Q : A -> Prop) : Q a -> yields P (ret a) Q.
Proof. intros Ha s Hs. split; [done|]. by intros b [= <-]. Qed.
Lemma yields_gets {A} (f : S -> A) (Q : A -> Prop) : (forall s, P s -> Q (f s)) -> yields P (gets f) Q.
Proof. intros Hf s Hs. split; [done|]. intros a [= <-]. by apply Hf. Qed.
Lemma yields_abort {A} (Q : A -> Prop) : yields P abort_f Q.
Proof. intros s Hs. split; [done|]. by intros a [=]. Qed.
Lemma yields_longjmp {A} (Q : A -> Prop) : yields P longjmp Q.
Proof. intros s Hs. split; [done|]. by intros a [=]. Qed.
Lemma yields_bind {A B} (m : M S A) (k : A -> M S B) Q R :
  yields P m Q -> (forall a, Q a -> yields P (k a) R) -> yields P (bind m k) R.
Proof.
  intros Hm Hk s Hs. destruct (Hm s Hs) as [H1 H2]. unfold bind.
  destruct (m s) as [[a| |] s']; cbn in *; [apply Hk; auto | by split..].
Qed.
Lemma yields_then {A B} (m : M S A) (k : A -> M S B) R :
  preserves P m -> (forall a, yields P (k a) R) -> yields P (bind m k) R.
Proof. intros Hm Hk. apply (yields_bind _ _ (fun _ => True)); [by apply preserves_yields | auto]. Qed.
Lemma yields_if {A} (b : bool) (m1 m2 : M S A) Q : yields P m1 Q -> yields P m2 Q -> yields P (if b then m1 else m2) Q.
Proof. by destruct b. Qed.
Lemma yields_weaken {A} (m : M S A) (Q R : A -> Prop) : yields P m Q -> (forall a, Q a -> R a) -> yields P m R.
Proof. intros H HR s Hs. destruct (H s Hs). split; auto. Qed.

(** Reading the state first: the continuation is run in the state read. *)
Lemma yields_at {A} (m : M S A) Q : (forall s, P s -> exists k, m s = k s /\ yields P k Q) -> yields P m Q.
Proof. intros H s Hs. destruct (H s Hs) as (k & -> & Hk). by apply Hk. Qed.
End Yields.

Create HintDb preserve.
#[export] Hint Resolve preserves_ret preserves_gets preserves_longjmp preserves_abort_f
  preserves_bind preserves_if preserves_when : preserve.
