(* ===== verification/Word.v ===== *)
(** * C integers and the low-level helpers of core/

    The fixed-width integers of the source are modelled as integers of [Z] with
    the wrap-around written out: [u32 x] is the conversion to [uint32_t],
    [s32 x] the reinterpretation as [int32_t].  The file then translates the
    helpers of core/bitops.h, core/mathutils.h and core/endianswap.h and proves
    them equal to their mathematical specification. *)
From S2P Require Import Prelude.

(** ** Conversions *)

Definition uwrap (w x : Z) : Z := x mod 2 ^ w.
Definition swrap (w x : Z) : Z := (x + 2 ^ (w - 1)) mod 2 ^ w - 2 ^ (w - 1).

Abbreviation u8 := (uwrap 8).
Abbreviation u16 := (uwrap 16).
Abbreviation u32 := (uwrap 32).
Abbreviation u64 := (uwrap 64).
Abbreviation s8 := (swrap 8).
Abbreviation s16 := (swrap 16).
Abbreviation s32 := (swrap 32).
Abbreviation s64 := (swrap 64).

(** C's [~x], [x << n] and [-x] on a [uint32_t]. *)
Definition not32 (x : Z) : Z := u32 (Z.lnot x).
Definition shl32 (x n : Z) : Z := u32 (Z.shiftl x n).

(** The truth value of [x & mask] in a condition. *)
Definition test (x mask : Z) : bool := negb (Z.land x mask =? 0).

(** The value of a C++ [bool] in arithmetic. *)
Abbreviation b2z := Z.b2z.

Lemma uwrap_range w x : 0 <= w -> 0 <= uwrap w x < 2 ^ w.
Proof. intros. apply Z.mod_pos_bound. lia. Qed.

Lemma u32_range x : 0 <= u32 x < 2 ^ 32.
Proof. apply uwrap_range. lia. Qed.
Lemma u64_range x : 0 <= u64 x < 2 ^ 64.
Proof. apply uwrap_range. lia. Qed.

Lemma uwrap_small w x : 0 <= x < 2 ^ w -> uwrap w x = x.
Proof. apply Z.mod_small. Qed.

Lemma uwrap_idem w x : 0 <= w -> uwrap w (uwrap w x) = uwrap w x.
Proof. intros. apply uwrap_small, uwrap_range; lia. Qed.

Lemma swrap_range w x : 0 < w -> - 2 ^ (w - 1) <= swrap w x < 2 ^ (w - 1).
Proof.
  intros. unfold swrap.
  pose proof (Z.mod_pos_bound (x + 2 ^ (w - 1)) (2 ^ w)).
  assert (2 ^ w = 2 * 2 ^ (w - 1)) by (rewrite <- Z.pow_succ_r by lia; f_equal; lia).
  lia.
Qed.

Lemma s32_range x : - 2 ^ 31 <= s32 x < 2 ^ 31.
Proof. apply (swrap_range 32). lia. Qed.

(** The congruences that make the conversions transparent to ring operations. *)
Lemma uwrap_add_l w x y : uwrap w (uwrap w x + y) = uwrap w (x + y).
Proof. apply Zplus_mod_idemp_l. Qed.
Lemma uwrap_add_r w x y : uwrap w (x + uwrap w y) = uwrap w (x + y).
Proof. apply Zplus_mod_idemp_r. Qed.

Lemma uwrap_eq_mod w x y k : x = y + k * 2 ^ w -> uwrap w x = uwrap w y.
Proof. intros ->. apply Z_mod_plus_full. Qed.

Lemma u32_u64 x : u32 (u64 x) = u32 x.
Proof.
  apply (uwrap_eq_mod 32 _ _ (- (x / 2 ^ 64) * 2 ^ 32)). unfold uwrap. rewrite Z.mod_eq; lia.
Qed.
Lemma uwrap_sub_r w x y : uwrap w (x - uwrap w y) = uwrap w (x - y).
Proof. apply Zminus_mod_idemp_r. Qed.

Lemma u32_s32 x : u32 (s32 x) = u32 x.
Proof.
  unfold uwrap, swrap. change (32 - 1) with 31.
  rewrite Zminus_mod_idemp_l. f_equal. lia.
Qed.

Lemma s32_alt x : 0 <= x < 2 ^ 32 -> s32 x = if x <? 2 ^ 31 then x else x - 2 ^ 32.
Proof.
  intros Hx. unfold swrap. change (32 - 1) with 31.
  destruct (Z.ltb_spec x (2 ^ 31)).
  - rewrite Z.mod_small; lia.
  - replace (x + 2 ^ 31) with ((x - 2 ^ 31) + 1 * 2 ^ 32) by lia.
    rewrite Z_mod_plus_full, Z.mod_small; lia.
Qed.

Lemma s32_small x : - 2 ^ 31 <= x < 2 ^ 31 -> s32 x = x.
Proof. intros. unfold swrap. rewrite Z.mod_small; lia. Qed.

Lemma s32_u32 x : s32 (u32 x) = s32 x.
Proof. unfold swrap, uwrap. by rewrite Zplus_mod_idemp_l. Qed.

(** The representative of a signed value that is known to be congruent. *)
Lemma s32_eq x y k : x = y + k * 2 ^ 32 -> - 2 ^ 31 <= y < 2 ^ 31 -> s32 x = y.
Proof.
  intros -> Hy. rewrite <- (s32_u32 (y + k * 2 ^ 32)), (uwrap_eq_mod 32 _ y k), s32_u32 by lia.
  by apply s32_small.
Qed.

Lemma u32_eq x y k : x = y + k * 2 ^ 32 -> 0 <= y < 2 ^ 32 -> u32 x = y.
Proof. intros -> Hy. rewrite (uwrap_eq_mod 32 _ y k) by lia. by apply uwrap_small. Qed.

Lemma not32_eq x : 0 <= x < 2 ^ 32 -> not32 x = 2 ^ 32 - 1 - x.
Proof. intros. unfold not32. apply (u32_eq _ _ (-1)); unfold Z.lnot; lia. Qed.

Lemma not32_range x : 0 <= not32 x < 2 ^ 32.
Proof. apply u32_range. Qed.

(** ** Bits *)

Lemma testbit_uwrap w x i : 0 <= w -> 0 <= i ->
  Z.testbit (uwrap w x) i = (i <? w) && Z.testbit x i.
Proof.
  intros. unfold uwrap. destruct (Z.ltb_spec i w); simpl.
  - by rewrite Z.mod_pow2_bits_low.
  - rewrite Z.mod_pow2_bits_high; [done | lia].
Qed.

Lemma testbit_not32 x i : 0 <= i < 32 -> Z.testbit (not32 x) i = negb (Z.testbit x i).
Proof.
  intros. unfold not32. rewrite testbit_uwrap, Z.lnot_spec by lia.
  by rewrite (proj2 (Z.ltb_lt _ _)) by lia.
Qed.

Lemma testbit_high w x i : 0 <= x < 2 ^ w -> w <= i -> Z.testbit x i = false.
Proof.
  intros Hx Hi. rewrite <- (uwrap_small w x) by done.
  assert (0 <= w) by (destruct (Z.lt_ge_cases w 0) as [Hw|]; [rewrite Z.pow_neg_r in Hx; lia | lia]).
  rewrite testbit_uwrap by lia. destruct (Z.ltb_spec i w); [lia | done].
Qed.

(** Bounds of the bitwise operations, from their bits. *)
Lemma bits_bound w x : 0 <= w ->
  (forall i, w <= i -> Z.testbit x i = false) -> 0 <= x -> x < 2 ^ w.
Proof.
  intros Hw H H0. rewrite <- (Z.mod_small x (2 ^ w)) at 1; [apply Z.mod_pos_bound; lia|].
  assert (x = x mod 2 ^ w) as ->; [|apply Z.mod_pos_bound; lia].
  apply Z.bits_inj'. intros i Hi. destruct (Z.lt_ge_cases i w).
  - by rewrite Z.mod_pow2_bits_low.
  - rewrite H, Z.mod_pow2_bits_high by lia. done.
Qed.

Lemma land_range_l w x y : 0 <= w -> 0 <= x < 2 ^ w -> 0 <= Z.land x y < 2 ^ w.
Proof.
  intros Hw Hx. assert (0 <= Z.land x y) by (apply Z.land_nonneg; lia).
  split; [done|]. apply bits_bound; [done| |done].
  intros i Hi. rewrite Z.land_spec, (testbit_high w) by done. done.
Qed.
Lemma land_range_r w x y : 0 <= w -> 0 <= y < 2 ^ w -> 0 <= Z.land x y < 2 ^ w.
Proof. rewrite Z.land_comm. apply land_range_l. Qed.

Lemma lor_range w x y :
  0 <= w -> 0 <= x < 2 ^ w -> 0 <= y < 2 ^ w -> 0 <= Z.lor x y < 2 ^ w.
Proof.
  intros Hw Hx Hy. assert (0 <= Z.lor x y) by (apply Z.lor_nonneg; lia).
  split; [done|]. apply bits_bound; [done| |done].
  intros i Hi. rewrite Z.lor_spec, !(testbit_high w) by done. done.
Qed.

Lemma lxor_range w x y :
  0 <= w -> 0 <= x < 2 ^ w -> 0 <= y < 2 ^ w -> 0 <= Z.lxor x y < 2 ^ w.
Proof.
  intros Hw Hx Hy. assert (0 <= Z.lxor x y) by (apply Z.lxor_nonneg; lia).
  split; [done|]. apply bits_bound; [done| |done].
  intros i Hi. rewrite Z.lxor_spec, !(testbit_high w) by done. done.
Qed.

Lemma shiftr_range w x n : 0 <= w -> 0 <= n -> 0 <= x < 2 ^ w -> 0 <= Z.shiftr x n < 2 ^ w.
Proof.
  intros Hw Hn Hx. assert (0 <= Z.shiftr x n) by (apply Z.shiftr_nonneg; lia).
  split; [done|]. apply bits_bound; [done| |done].
  intros i Hi. rewrite Z.shiftr_spec by lia. apply (testbit_high w); lia.
Qed.

(** [x & ((1 << n) - 1)] and other masks of low bits. *)
Lemma land_ones_mod x n : 0 <= n -> Z.land x (Z.ones n) = x mod 2 ^ n.
Proof. apply Z.land_ones. Qed.

Lemma land_field x n : 0 <= n -> 0 <= Z.land x (Z.ones n) < 2 ^ n.
Proof. intros. rewrite Z.land_ones by done. apply Z.mod_pos_bound. lia. Qed.

(** Clearing the low bits. *)
Lemma b2z_range b : 0 <= b2z b <= 1.
Proof. by destruct b. Qed.

Lemma testbit_b2z b i : 0 <= i -> Z.testbit (b2z b) i = b && (i =? 0).
Proof.
  intros. destruct b; simpl; [|apply Z.bits_0]. destruct (Z.eqb_spec i 0) as [->|]; [done|].
  change 1 with (2 ^ 0). by rewrite Z.pow2_bits_false by lia.
Qed.

Lemma land_lnot_ones x n : 0 <= n -> Z.land x (Z.lnot (Z.ones n)) = x - x mod 2 ^ n.
Proof.
  intros. rewrite <- Z.ldiff_land, Z.ldiff_ones_r, Z.shiftr_div_pow2, Z.shiftl_mul_pow2 by done.
  pose proof (Z.div_mod x (2 ^ n) ltac:(lia)). lia.
Qed.

(** Joining a low field to a multiple of a power of two. *)
Lemma lor_low a n v : 0 <= n -> 0 <= v < 2 ^ n -> Z.lor (2 ^ n * a) v = 2 ^ n * a + v.
Proof.
  intros Hn Hv. pose proof (Z.add_lor_land (2 ^ n * a) v). cut (Z.land (2 ^ n * a) v = 0); [lia|].
  apply Z.bits_inj_0. intros i. rewrite Z.land_spec.
  destruct (Z.lt_ge_cases i 0); [by rewrite !Z.testbit_neg_r|].
  rewrite Z.mul_comm, Z.mul_pow2_bits by lia. destruct (Z.lt_ge_cases i n).
  - by rewrite Z.testbit_neg_r by lia.
  - by rewrite (testbit_high n v i), andb_false_r by lia.
Qed.

Lemma land_0x1F x : 0 <= Z.land x 0x1F < 32.
Proof. apply (land_field x 5). lia. Qed.

Lemma test_pow2 x n : 0 <= n -> test x (2 ^ n) = Z.testbit x n.
Proof.
  intros Hn. unfold test. destruct (Z.testbit x n) eqn:E.
  - apply negb_true_iff, Z.eqb_neq. intros H0.
    apply (f_equal (fun v => Z.testbit v n)) in H0.
    rewrite Z.land_spec, Z.pow2_bits_true, E in H0 by done. simpl in H0. by rewrite Z.bits_0 in H0.
  - apply negb_false_iff, Z.eqb_eq, Z.bits_inj'. intros i Hi.
    rewrite Z.land_spec, Z.bits_0, Z.pow2_bits_eqb by done.
    destruct (Z.eqb_spec n i); [subst; by rewrite E | apply andb_false_r].
Qed.

(** The sign test [int32_t(x) < 0] looks at bit 31. *)
Lemma s32_neg_testbit x : 0 <= x < 2 ^ 32 -> (s32 x <? 0) = Z.testbit x 31.
Proof.
  intros Hx. rewrite s32_alt by done.
  destruct (Z.ltb_spec x (2 ^ 31)) as [H|H].
  - rewrite (testbit_high 31) by lia. apply Z.ltb_ge. lia.
  - assert (Z.testbit x 31 = true) as ->; [|apply Z.ltb_lt; lia].
    apply Z.testbit_true; [lia|].
    replace (x / 2 ^ 31) with 1; [done|]. apply Z.div_unique with (r := x - 2 ^ 31); lia.
Qed.

(** Normalisation of [Z.testbit] through the bitwise operations; [zbits] starts
    an equality of integers bit by bit. *)
Create Rewrite HintDb zbits.
#[export] Hint Rewrite Z.land_spec Z.lor_spec Z.lxor_spec Z.bits_0 : zbits.
#[export] Hint Rewrite Z.shiftl_spec Z.shiftr_spec Z.lnot_spec testbit_uwrap using lia : zbits.

Ltac zbits :=
  apply Z.bits_inj'; intros ?i ?Hi; unfold not32, shl32; autorewrite with zbits.

Create HintDb word.
#[export] Hint Resolve u32_range u64_range not32_range : word.

(** Replace an index known to be in a short range by its possible values. *)
Ltac each_index i n :=
  let rec go k :=
    match k with
    | O => fail
    | S ?k' =>
        let z := eval vm_compute in (Z.of_nat k') in
        destruct (Z.eq_dec i z) as [->|]; [|first [go k' | exfalso; lia]]
    end in
  go n.

Module Bitops.

(** ** core/bitops.h *)

(** The portable variants of the cyclic rotations; the compiler-specific ones
    are the machine instructions with the same meaning. *)
(* [core/bitops.h:49-54] *)
Definition ROTL_32 (x n : Z) : Z :=
  let n := Z.land n 0x1F in
  if negb (n =? 0) then Z.lor (shl32 x n) (Z.shiftr x (32 - n)) else x.

(* [core/bitops.h:56-61] *)
Definition ROTR_32 (x n : Z) : Z :=
  let n := Z.land n 0x1F in
  if negb (n =? 0) then Z.lor (Z.shiftr x n) (shl32 x (32 - n)) else x.

(** [T] is the unsigned type of [w] bits. *)
Definition field_mask (w len : Z) : Z :=
  if len =? w then uwrap w (-1) else uwrap w (uwrap w (Z.shiftl 1 len) - 1).

(* [core/bitops.h:65-68] *)
Definition extract_bits (w val pos len : Z) : Z :=
  Z.land (Z.shiftr val pos) (field_mask w len).

(* [core/bitops.h:70-74] *)
Definition insert_bits (w old_val new_val pos len : Z) : Z :=
  let mask := uwrap w (Z.shiftl (field_mask w len) pos) in
  uwrap w (Z.lor (Z.land old_val (Z.lnot mask)) (Z.land (Z.shiftl new_val pos) mask)).

(* [core/bitops.h:76-79] *)
Definition bit_changed (old_val new_val bit_num : Z) : bool :=
  test (Z.lxor old_val new_val) (Z.shiftl 1 bit_num).

(* [core/bitops.h:81-83] *)
Definition bit_set (val bit_num : Z) : bool := test val (Z.shiftl 1 bit_num).

(* [core/bitops.h:85-88] *)
Definition clear_bit (w val bit_num : Z) : Z :=
  uwrap w (Z.land val (Z.lnot (Z.shiftl 1 bit_num))).

(* [core/bitops.h:90-93] *)
Definition set_bit (w val bit_num : Z) : Z := uwrap w (Z.lor val (Z.shiftl 1 bit_num)).

(* [core/bitops.h:95-98] *)
Definition extract_with_wrap_around (val pos size : Z) : Z :=
  Z.land
    (u32 (Z.shiftr (Z.lor (u64 (Z.shiftl val 32)) val)
                   (Z.shiftl (8 - Z.land pos 3 - size) 3)))
    (Z.shiftl 1 (Z.shiftl size 3) - 1).

Lemma land_0x1F_mod n : Z.land n 0x1F = n mod 32.
Proof. change 0x1F with (Z.ones 5). apply Z.land_ones. lia. Qed.

(** A left rotation moves bit [j] to bit [(j + n) mod 32]. *)
Lemma ROTL_32_testbit x n i : 0 <= x < 2 ^ 32 -> 0 <= i < 32 ->
  Z.testbit (ROTL_32 x n) i = Z.testbit x ((i - n) mod 32).
Proof.
  intros Hx Hi. unfold ROTL_32. rewrite land_0x1F_mod.
  assert ((i - n) mod 32 = (i - n mod 32) mod 32) as -> by (by rewrite Zminus_mod_idemp_r).
  pose proof (Z.mod_pos_bound n 32 eq_refl) as Hn. revert Hn.
  generalize (n mod 32) as k. clear n. intros k Hk.
  destruct (Z.eqb_spec k 0) as [->|]; simpl.
  - rewrite Z.sub_0_r, Z.mod_small by lia. done.
  - unfold shl32. autorewrite with zbits.
    destruct (Z.ltb_spec i 32); [simpl|lia].
    destruct (Z.lt_ge_cases i k).
    + rewrite (Z.testbit_neg_r x (i - k)) by lia.
      replace (i - k) with ((i + (32 - k)) + (-1) * 32) by lia.
      rewrite Z_mod_plus_full, Z.mod_small by lia. done.
    + rewrite (testbit_high 32 x (i + (32 - k))), orb_false_r by lia.
      rewrite Z.mod_small by lia. done.
Qed.

Lemma ROTR_32_ROTL x n : ROTR_32 x n = ROTL_32 x (32 - n mod 32).
Proof.
  unfold ROTR_32, ROTL_32. rewrite !land_0x1F_mod.
  pose proof (Z.mod_pos_bound n 32 eq_refl) as Hn.
  destruct (Z.eqb_spec (n mod 32) 0) as [->|]; simpl; [done|].
  rewrite (Z.mod_small (32 - n mod 32)) by lia.
  destruct (Z.eqb_spec (32 - n mod 32) 0); [lia|]. simpl.
  rewrite Z.lor_comm. f_equal. f_equal. lia.
Qed.

Lemma ROTL_32_range x n : 0 <= x < 2 ^ 32 -> 0 <= ROTL_32 x n < 2 ^ 32.
Proof.
  intros. unfold ROTL_32. case_if; [|done].
  apply lor_range; [lia|apply u32_range|].
  apply shiftr_range; pose proof (land_0x1F n); lia.
Qed.

Lemma ROTR_32_range x n : 0 <= x < 2 ^ 32 -> 0 <= ROTR_32 x n < 2 ^ 32.
Proof. intros. rewrite ROTR_32_ROTL. by apply ROTL_32_range. Qed.

Lemma ROTR_32_testbit x n i : 0 <= x < 2 ^ 32 -> 0 <= i < 32 ->
  Z.testbit (ROTR_32 x n) i = Z.testbit x ((i + n) mod 32).
Proof.
  intros. rewrite ROTR_32_ROTL, ROTL_32_testbit by done. f_equal.
  replace (i - (32 - n mod 32)) with ((i + n mod 32) + (-1) * 32) by lia.
  by rewrite Z_mod_plus_full, Zplus_mod_idemp_r.
Qed.

(** 32-bit words are equal when their 32 bits are. *)
Lemma word_ext x y : 0 <= x < 2 ^ 32 -> 0 <= y < 2 ^ 32 ->
  (forall i, 0 <= i < 32 -> Z.testbit x i = Z.testbit y i) -> x = y.
Proof.
  intros Hx Hy H. apply Z.bits_inj'. intros i Hi.
  destruct (Z.lt_ge_cases i 32); [apply H; lia|].
  by rewrite !(testbit_high 32).
Qed.

Lemma ROTR_ROTL x n : 0 <= x < 2 ^ 32 -> ROTR_32 (ROTL_32 x n) n = x.
Proof.
  intros Hx. apply word_ext; auto using ROTR_32_range, ROTL_32_range.
  intros i Hi. rewrite ROTR_32_testbit, ROTL_32_testbit by
    (auto using ROTL_32_range; apply Z.mod_pos_bound; lia).
  f_equal. rewrite Zminus_mod_idemp_l, Z.add_simpl_r. apply Z.mod_small; lia.
Qed.

Lemma field_mask_ones w len : 0 <= len <= w -> 0 < w -> field_mask w len = Z.ones len.
Proof.
  intros Hl Hw. unfold field_mask. destruct (Z.eqb_spec len w) as [->|].
  - unfold uwrap. rewrite Z.ones_equiv, <- (Z_mod_plus_full (-1) 1 (2 ^ w)).
    rewrite Z.mod_small; lia.
  - assert (2 ^ len < 2 ^ w) by (apply Z.pow_lt_mono_r; lia).
    unfold uwrap. rewrite Z.shiftl_1_l, Z.ones_equiv.
    rewrite (Z.mod_small (2 ^ len)), Z.mod_small; lia.
Qed.

(** Inserting a field and reading the same field back gives the new value cut
    to the field's width; reading any bit outside it gives the old bit. *)
Lemma insert_bits_testbit w old new pos len i :
  0 <= pos -> 0 <= len -> pos + len <= w -> 0 < w -> 0 <= i < w ->
  Z.testbit (insert_bits w old new pos len) i =
  if (pos <=? i) && (i <? pos + len) then Z.testbit new (i - pos) else Z.testbit old i.
Proof.
  intros Hp Hl Hw Hw0 Hi. unfold insert_bits. rewrite field_mask_ones by lia.
  autorewrite with zbits.
  destruct (Z.ltb_spec i w); [simpl|lia].
  destruct (Z.leb_spec pos i); simpl.
  - destruct (Z.ltb_spec i (pos + len)).
    + rewrite Z.ones_spec_low by lia. simpl. rewrite andb_false_r, andb_true_r. done.
    + rewrite Z.ones_spec_high by lia. simpl. rewrite andb_true_r, andb_false_r, orb_false_r. done.
  - rewrite (Z.testbit_neg_r (Z.ones len)), (Z.testbit_neg_r new) by lia. simpl.
    by rewrite andb_true_r, orb_false_r.
Qed.

Lemma extract_bits_testbit w val pos len i : 0 <= pos -> 0 <= len <= w -> 0 < w -> 0 <= i ->
  Z.testbit (extract_bits w val pos len) i = (i <? len) && Z.testbit val (i + pos).
Proof.
  intros. unfold extract_bits. rewrite field_mask_ones by lia. autorewrite with zbits.
  destruct (Z.ltb_spec i len).
  - by rewrite Z.ones_spec_low, andb_true_r by lia.
  - by rewrite Z.ones_spec_high, andb_false_r by lia.
Qed.

Lemma bit_set_testbit val n : 0 <= n -> bit_set val n = Z.testbit val n.
Proof. intros. unfold bit_set. rewrite Z.shiftl_1_l. by apply test_pow2. Qed.

Lemma bit_changed_testbit x y n : 0 <= n ->
  bit_changed x y n = xorb (Z.testbit x n) (Z.testbit y n).
Proof. intros. unfold bit_changed. by rewrite Z.shiftl_1_l, test_pow2, Z.lxor_spec. Qed.

End Bitops.

Module MathUtils.

(** ** core/mathutils.h: long multiplication

    Both overloads of [_u32xu64] multiply a 32-bit by a 64-bit number; they
    differ in where they cut the 96-bit product. *)

(* [core/mathutils.h:27-33 _u32xu64] *)
Definition u32xu64_hi32 (a b : Z) : Z * Z :=
  let p0 := u64 (Z.land b 0xffffffff * a) in
  let p1 := u64 (Z.shiftr b 32 * a) in
  let lo := u64 (p0 + u64 (Z.shiftl p1 32)) in
  let hi := u32 (Z.shiftr p1 32 + b2z (lo <? p0)) in
  (hi, lo).

(* [core/mathutils.h:35-41 _u32xu64] *)
Definition u32xu64_lo32 (a b : Z) : Z * Z :=
  let p0 := u64 (Z.land b 0xffffffff * a) in
  let p1 := u64 (Z.shiftr b 32 * a) in
  let lo := u32 p0 in
  let hi := u64 (Z.shiftr p0 32 + p1) in
  (hi, lo).

(* [core/mathutils.h:43-49 _u64xu64] *)
Definition u64xu64 (a b : Z) : Z * Z :=
  let '(p0h, p0l) := u32xu64_hi32 (u32 b) a in
  let '(p1h, p1l) := u32xu64_lo32 (u32 (Z.shiftr b 32)) a in
  let lo := u64 (p0l + u64 (Z.shiftl p1l 32)) in
  let hi := u64 (u64 (p0h + p1h) + b2z (lo <? p0l)) in
  (hi, lo).

Lemma split32 b : b = 2 ^ 32 * Z.shiftr b 32 + Z.land b 0xffffffff.
Proof.
  change 0xffffffff with (Z.ones 32). rewrite Z.shiftr_div_pow2, Z.land_ones by lia.
  apply Z.div_mod. lia.
Qed.

(** The halves of a 64-bit number. *)
Lemma halves b : 0 <= b < 2 ^ 64 ->
  0 <= Z.shiftr b 32 < 2 ^ 32 /\ 0 <= Z.land b 0xffffffff < 2 ^ 32.
Proof.
  intros Hb. split.
  - rewrite Z.shiftr_div_pow2 by lia. split; [apply Z.div_pos; lia|].
    apply Z.div_lt_upper_bound; lia.
  - apply (land_field b 32). lia.
Qed.

(** [lo < p0] is the carry out of the 64-bit addition [lo = p0 + x]. *)
Lemma add_carry64 p x : 0 <= p < 2 ^ 64 -> 0 <= x < 2 ^ 64 ->
  u64 (p + x) + 2 ^ 64 * b2z (u64 (p + x) <? p) = p + x.
Proof.
  intros Hp Hx. unfold uwrap. destruct (Z.lt_ge_cases (p + x) (2 ^ 64)).
  - rewrite (Z.mod_small (p + x)) by lia. destruct (Z.ltb_spec (p + x) p); simpl; lia.
  - assert ((p + x) mod 2 ^ 64 = p + x - 2 ^ 64) as ->.
    { symmetry. apply Z.mod_unique with (q := 1); lia. }
    destruct (Z.ltb_spec (p + x - 2 ^ 64) p); simpl; lia.
Qed.

Lemma u32xu64_hi32_correct a b hi lo : 0 <= a < 2 ^ 32 -> 0 <= b < 2 ^ 64 ->
  u32xu64_hi32 a b = (hi, lo) ->
  2 ^ 64 * hi + lo = a * b /\ 0 <= hi < 2 ^ 32 /\ 0 <= lo < 2 ^ 64.
Proof.
  intros Ha Hb. unfold u32xu64_hi32.
  pose proof (split32 b) as Hs. destruct (halves b Hb) as [Hh Hl].
  revert Hs Hh Hl. generalize (Z.shiftr b 32) as bh, (Z.land b 0xffffffff) as bl.
  intros bh bl -> Hh Hl.
  rewrite (uwrap_small 64 (bl * a)), (uwrap_small 64 (bh * a)) by nia.
  intros [= <- <-].
  assert (0 <= bh * a < 2 ^ 64) as Hp1 by nia. assert (0 <= bl * a < 2 ^ 64) as Hp0 by nia.
  destruct (halves (bh * a) Hp1) as [Hq Hr]. pose proof (split32 (bh * a)) as Hs.
  assert (u64 (Z.shiftl (bh * a) 32) = 2 ^ 32 * Z.land (bh * a) 0xffffffff) as Hx.
  { rewrite Z.shiftl_mul_pow2 by lia. unfold uwrap. symmetry.
    apply Z.mod_unique with (q := Z.shiftr (bh * a) 32); lia. }
  pose proof (add_carry64 (bl * a) _ Hp0 (u64_range (Z.shiftl (bh * a) 32))) as Hc.
  set (lo := u64 (bl * a + _)) in *.
  pose proof (u64_range (bl * a + u64 (Z.shiftl (bh * a) 32))) as Hlo. fold lo in Hlo.
  rewrite Hx in Hc.
  rewrite (uwrap_small 32); [nia|].
  destruct (lo <? bl * a); simpl in *; nia.
Qed.

Lemma u32xu64_lo32_correct a b hi lo : 0 <= a < 2 ^ 32 -> 0 <= b < 2 ^ 64 ->
  u32xu64_lo32 a b = (hi, lo) ->
  2 ^ 32 * hi + lo = a * b /\ 0 <= hi < 2 ^ 64 /\ 0 <= lo < 2 ^ 32.
Proof.
  intros Ha Hb. unfold u32xu64_lo32.
  pose proof (split32 b) as Hs. destruct (halves b Hb) as [Hh Hl].
  revert Hs Hh Hl. generalize (Z.shiftr b 32) as bh, (Z.land b 0xffffffff) as bl.
  intros bh bl -> Hh Hl.
  rewrite (uwrap_small 64 (bl * a)), (uwrap_small 64 (bh * a)) by nia.
  intros [= <- <-].
  assert (0 <= bl * a < 2 ^ 64) as Hp0 by nia.
  destruct (halves (bl * a) Hp0) as [Hq Hr]. pose proof (split32 (bl * a)) as Hs.
  assert (u32 (bl * a) = Z.land (bl * a) 0xffffffff) as ->.
  { change 0xffffffff with (Z.ones 32). by rewrite Z.land_ones. }
  rewrite (uwrap_small 64); nia.
Qed.

Lemma u64xu64_correct a b hi lo : 0 <= a < 2 ^ 64 -> 0 <= b < 2 ^ 64 ->
  u64xu64 a b = (hi, lo) ->
  2 ^ 64 * hi + lo = a * b /\ 0 <= hi < 2 ^ 64 /\ 0 <= lo < 2 ^ 64.
Proof.
  intros Ha Hb. unfold u64xu64.
  destruct (u32xu64_hi32 (u32 b) a) as [p0h p0l] eqn:E0.
  destruct (u32xu64_lo32 (u32 (Z.shiftr b 32)) a) as [p1h p1l] eqn:E1.
  apply u32xu64_hi32_correct in E0 as (E0 & Hh0 & Hl0); [|apply u32_range|done].
  apply u32xu64_lo32_correct in E1 as (E1 & Hh1 & Hl1); [|apply u32_range|done].
  destruct (halves b Hb) as [Hh Hl]. pose proof (split32 b) as Hs.
  rewrite (uwrap_small 32 (Z.shiftr b 32)) in E1 by lia.
  assert (u32 b = Z.land b 0xffffffff) as Hu.
  { change 0xffffffff with (Z.ones 32). by rewrite Z.land_ones. }
  rewrite Hu in E0. intros [= <- <-].
  rewrite Z.shiftl_mul_pow2 by lia.
  rewrite (uwrap_small 64 (p1l * 2 ^ 32)) by lia.
  pose proof (add_carry64 p0l (p1l * 2 ^ 32) Hl0 ltac:(lia)) as Hc.
  pose proof (u64_range (p0l + p1l * 2 ^ 32)) as Hlo.
  set (lo := u64 _) in *. set (c := b2z _) in *.
  assert (2 ^ 64 * (p0h + p1h + c) + lo = a * b) as Hab by nia.
  assert (0 <= c <= 1) by (subst c; destruct (lo <? p0l); simpl; lia).
  assert (a * b < 2 ^ 64 * 2 ^ 64) by nia.
  rewrite uwrap_add_l, (uwrap_small 64) by lia. nia.
Qed.

End MathUtils.

Module Endian.

(** ** core/endianswap.h *)

(* [core/endianswap.h:65-68] *)
Definition byteswap_16_impl (x : Z) : Z := u16 (Z.lor (Z.shiftr x 8) (Z.shiftl x 8)).

(* [core/endianswap.h:70-78] *)
Definition byteswap_32_impl (x : Z) : Z :=
  Z.lor (Z.lor (Z.lor
    (shl32 (Z.land x 0x000000FF) 24)
    (shl32 (Z.land x 0x0000FF00) 8))
    (Z.shiftr (Z.land x 0x00FF0000) 8))
    (Z.shiftr (Z.land x 0xFF000000) 24).

(* [core/endianswap.h:80-92] *)
Definition byteswap_64_impl (x : Z) : Z :=
  Z.lor (Z.lor (Z.lor (Z.lor (Z.lor (Z.lor (Z.lor
    (u64 (Z.shiftl (Z.land x 0x00000000000000FF) 56))
    (u64 (Z.shiftl (Z.land x 0x000000000000FF00) 40)))
    (u64 (Z.shiftl (Z.land x 0x0000000000FF0000) 24)))
    (u64 (Z.shiftl (Z.land x 0x00000000FF000000) 8)))
    (Z.shiftr (Z.land x 0x000000FF00000000) 8))
    (Z.shiftr (Z.land x 0x0000FF0000000000) 24))
    (Z.shiftr (Z.land x 0x00FF000000000000) 40))
    (Z.shiftr (Z.land x 0xFF00000000000000) 56).

(* [core/endianswap.h:94-94] *)
Definition BYTESWAP_16 := byteswap_16_impl.
(* [core/endianswap.h:95-95] *)
Definition BYTESWAP_32 := byteswap_32_impl.
(* [core/endianswap.h:96-96] *)
Definition BYTESWAP_64 := byteswap_64_impl.

(* [core/endianswap.h:100-101] *)
Definition BYTESWAP_SIZED (val size : Z) : Z :=
  if size =? 2 then BYTESWAP_16 (u16 val) else if size =? 4 then BYTESWAP_32 (u32 val) else val.

(** Byte [k] of the swapped word is byte [3 - k] of the word. *)
Lemma byteswap_32_testbit x i : 0 <= i < 32 ->
  Z.testbit (BYTESWAP_32 x) i = Z.testbit x (8 * (3 - i / 8) + i mod 8).
Proof.
  intros Hi. unfold BYTESWAP_32, byteswap_32_impl, shl32. autorewrite with zbits.
  each_index i 32%nat; cbn -[Z.testbit];
    rewrite ?Z.testbit_neg_r by lia; cbn -[Z.testbit];
    repeat match goal with |- context [Z.testbit ?c ?k] =>
      match c with
      | Zpos _ => let v := eval vm_compute in (Z.testbit c k) in
                  change (Z.testbit c k) with v
      end end;
    rewrite ?andb_true_r, ?andb_false_r, ?orb_false_r; reflexivity.
Qed.

Lemma byteswap_32_range x : 0 <= x < 2 ^ 32 -> 0 <= BYTESWAP_32 x < 2 ^ 32.
Proof.
  intros. unfold BYTESWAP_32, byteswap_32_impl, shl32.
  repeat apply lor_range; try lia; try apply u32_range;
    apply shiftr_range; try lia; apply land_range_l; lia.
Qed.

Lemma byteswap_32_involutive x : 0 <= x < 2 ^ 32 -> BYTESWAP_32 (BYTESWAP_32 x) = x.
Proof.
  intros Hx. apply Bitops.word_ext; auto using byteswap_32_range.
  intros i Hi. rewrite !byteswap_32_testbit by zlia. f_equal. zlia.
Qed.

Lemma byteswap_16_testbit x i : 0 <= x < 2 ^ 16 -> 0 <= i < 16 ->
  Z.testbit (BYTESWAP_16 x) i = Z.testbit x (8 * (1 - i / 8) + i mod 8).
Proof.
  intros Hx Hi. unfold BYTESWAP_16, byteswap_16_impl. autorewrite with zbits.
  each_index i 16%nat; cbn -[Z.testbit];
    rewrite ?(Z.testbit_neg_r x) by lia; cbn -[Z.testbit];
    rewrite ?orb_false_r; try reflexivity;
    rewrite (testbit_high 16) by lia; reflexivity.
Qed.

Lemma byteswap_16_range x : 0 <= BYTESWAP_16 x < 2 ^ 16.
Proof. apply uwrap_range. lia. Qed.

End Endian.
