(* ===== verification/Float.v ===== *)
(** * The host's floating-point arithmetic

    ppcfpopcodes.cpp computes with C++'s [double] and [float].  This file models
    what it uses of them: IEEE 754 binary64 and binary32 as bit patterns, the
    arithmetic rounded exactly once in one of the four directions of [fesetround],
    the conversions between the formats and to integers, comparisons and
    classification, and the three exceptions of [fetestexcept] the program looks
    at.  IEEE 754 leaves two things to the implementation, which are a parameter
    (class [HostFpu]): the NaN an operation gives, and whether a result counts as
    tiny before or after rounding. *)
From S2P Require Import Prelude Word.

(** ** Formats *)

Record float_format := mk_format { frac_bits : Z; exp_bits : Z }.
Definition binary64 : float_format := mk_format 52 11.
Definition binary32 : float_format := mk_format 23 8.

Section Format.
Context (f : float_format).

Definition f_sign (x : Z) : bool := Z.testbit x (frac_bits f + exp_bits f).
Definition f_exp (x : Z) : Z := Z.land (Z.shiftr x (frac_bits f)) (Z.ones (exp_bits f)).
Definition f_frac (x : Z) : Z := Z.land x (Z.ones (frac_bits f)).

(** The exponent of the unit of a subnormal number. *)
Definition emin : Z := 2 - 2 ^ (exp_bits f - 1) - frac_bits f.

(** The bits of an infinity without the sign, one more than those of the largest
    finite number, and the weight of the sign. *)
Definition inf_bits : Z := Z.shiftl (Z.ones (exp_bits f)) (frac_bits f).
Definition sign_bit : Z := Z.shiftl 1 (frac_bits f + exp_bits f).

Definition with_sign (s : bool) (magnitude : Z) : Z := if s then sign_bit + magnitude else magnitude.

Definition is_nan (x : Z) : bool := (f_exp x =? Z.ones (exp_bits f)) && negb (f_frac x =? 0).
Definition is_inf (x : Z) : bool := (f_exp x =? Z.ones (exp_bits f)) && (f_frac x =? 0).
Definition is_zero (x : Z) : bool := (f_exp x =? 0) && (f_frac x =? 0).
Definition is_finite (x : Z) : bool := negb (f_exp x =? Z.ones (exp_bits f)).

(** The value of a finite [x] is [(-1)^sign * f_mant x * 2^(f_scale x)]. *)
Definition f_mant (x : Z) : Z := if f_exp x =? 0 then f_frac x else 2 ^ frac_bits f + f_frac x.
Definition f_scale (x : Z) : Z := emin + Z.max 0 (f_exp x - 1).

(** A signalling NaN made quiet. *)
Definition make_quiet (x : Z) : Z := Z.lor x (Z.shiftl 1 (frac_bits f - 1)).

(** ** Rounding

    The directions of [fesetround], numbered as FPSCR[RN] numbers them. *)

Definition round_up (mode : Z) (s : bool) (q r half : Z) : bool :=
  match mode with
  | 0 => (half <? r) || ((half =? r) && Z.odd q)
  | 1 => false
  | 2 => negb s && negb (r =? 0)
  | _ => s && negb (r =? 0)
  end.

(** [m * 2^e] in units of [2^e'], rounded; and whether that was inexact. *)
Definition round_at (mode : Z) (s : bool) (m e e' : Z) : Z * bool :=
  if e' <=? e then (Z.shiftl m (e - e'), false)
  else
    let sh := e' - e in
    let q := Z.shiftr m sh in
    let r := Z.land m (Z.ones sh) in
    (q + b2z (round_up mode s q r (2 ^ (sh - 1))), negb (r =? 0)).

Record fp_flags := mk_flags { fl_overflow : bool; fl_underflow : bool; fl_divbyzero : bool }.
Definition no_flags : fp_flags := mk_flags false false false.

(** The largest finite number or infinity, as the direction of rounding has it. *)
Definition overflow_bits (mode : Z) (s : bool) : Z :=
  match mode with
  | 0 => inf_bits
  | 1 => inf_bits - 1
  | 2 => if s then inf_bits - 1 else inf_bits
  | _ => if s then inf_bits else inf_bits - 1
  end.

(** [m * 2^e], with [m > 0], rounded to the format.  The unit of the result is the
    larger of the format's smallest unit and the one that leaves
    [frac_bits f + 1] bits; since a carry out of the fraction goes on into the
    exponent, the bits are a sum. *)
Definition fround (tiny_after_rounding : bool) (mode : Z) (s : bool) (m e : Z) : Z * fp_flags :=
  let len := Z.log2 m + 1 in
  let e' := Z.max (e + len - (frac_bits f + 1)) emin in
  let '(q, inexact) := round_at mode s m e e' in
  let bits := Z.shiftl (e' - emin) (frac_bits f) + q in
  let tiny :=
    (e + len <? emin + frac_bits f + 1) &&
    negb (tiny_after_rounding && (e + len =? emin + frac_bits f) &&
          ((round_at mode s m e (e + len - (frac_bits f + 1))).1 =? 2 ^ (frac_bits f + 1))) in
  if bits <? inf_bits then (with_sign s bits, mk_flags false (tiny && inexact) false)
  else (with_sign s (overflow_bits mode s), mk_flags true false false).

End Format.

(** ** What IEEE 754 leaves open *)

Inductive host_op := HAdd | HSub | HMul | HDiv | HFma | HSqrt.

Class HostFpu := {
  host_nan : host_op -> list Z -> Z;
  tiny_after_rounding : bool
}.

(** IEEE 754: the NaN delivered is quiet. *)
Class HostFpuOk `{HostFpu} := {
  host_nan_range : forall op l, 0 <= host_nan op l < 2 ^ 64;
  host_nan_quiet : forall op l, is_nan binary64 (host_nan op l) = true /\ Z.testbit (host_nan op l) 51 = true
}.

(** ** Arithmetic on binary64 *)

Abbreviation isnan := (is_nan binary64).
Abbreviation isinf := (is_inf binary64).
Abbreviation iszero := (is_zero binary64).
Abbreviation sign64 := (f_sign binary64).

Definition fneg (x : Z) : Z := Z.lxor x (sign_bit binary64).
Definition inf64 (s : bool) : Z := with_sign binary64 s (inf_bits binary64).
Definition zero64 (s : bool) : Z := with_sign binary64 s 0.

(** The mantissa with its sign. *)
Definition signed_mant (x : Z) : Z := if sign64 x then - f_mant binary64 x else f_mant binary64 x.

Section Arith.
Context `{HostFpu}.

Definition fround64 (mode : Z) (s : bool) (m e : Z) : Z * fp_flags :=
  fround binary64 tiny_after_rounding mode s m e.

(** The exact [n * 2^e] rounded; an exact zero has the sign [szero]. *)
Definition normalize (mode n e : Z) (szero : bool) : Z * fp_flags :=
  if n =? 0 then (zero64 szero, no_flags) else fround64 mode (n <? 0) (Z.abs n) e.

(** [n1 * 2^e1 + n2 * 2^e2], and the smaller of the two scales. *)
Definition aligned_sum (n1 e1 n2 e2 : Z) : Z * Z :=
  let e := Z.min e1 e2 in (Z.shiftl n1 (e1 - e) + Z.shiftl n2 (e2 - e), e).

(** The sign of a zero sum: that of the operands if they agree, otherwise minus
    only when rounding down. *)
Definition zero_sum_sign (mode : Z) (s1 s2 : bool) : bool := if eqb s1 s2 then s1 else mode =? 3.

Definition add_numbers (op : host_op) (operands : list Z) (mode x y : Z) : Z * fp_flags :=
  if isinf x then
    (if isinf y && negb (eqb (sign64 x) (sign64 y)) then host_nan op operands else x, no_flags)
  else if isinf y then (y, no_flags)
  else
    let '(n, e) := aligned_sum (signed_mant x) (f_scale binary64 x) (signed_mant y) (f_scale binary64 y) in
    normalize mode n e (zero_sum_sign mode (sign64 x) (sign64 y)).

Definition fadd (mode x y : Z) : Z * fp_flags :=
  if isnan x || isnan y then (host_nan HAdd [x; y], no_flags) else add_numbers HAdd [x; y] mode x y.

Definition fsub (mode x y : Z) : Z * fp_flags :=
  if isnan x || isnan y then (host_nan HSub [x; y], no_flags) else add_numbers HSub [x; y] mode x (fneg y).

Definition fmul (mode x y : Z) : Z * fp_flags :=
  let s := xorb (sign64 x) (sign64 y) in
  if isnan x || isnan y || isinf x && iszero y || iszero x && isinf y then (host_nan HMul [x; y], no_flags)
  else if isinf x || isinf y then (inf64 s, no_flags)
  else if iszero x || iszero y then (zero64 s, no_flags)
  else fround64 mode s (f_mant binary64 x * f_mant binary64 y) (f_scale binary64 x + f_scale binary64 y).

(** The quotient to two bits more than any result keeps, and a last bit that says
    whether there is a remainder. *)
Definition fdiv (mode x y : Z) : Z * fp_flags :=
  let s := xorb (sign64 x) (sign64 y) in
  if isnan x || isnan y || isinf x && isinf y || iszero x && iszero y then (host_nan HDiv [x; y], no_flags)
  else if isinf x then (inf64 s, no_flags)
  else if isinf y || iszero x then (zero64 s, no_flags)
  else if iszero y then (inf64 s, mk_flags false false true)
  else
    let k := Z.max 0 (56 + Z.log2 (f_mant binary64 y) - Z.log2 (f_mant binary64 x)) in
    let '(q, r) := Z.div_eucl (Z.shiftl (f_mant binary64 x) k) (f_mant binary64 y) in
    fround64 mode s (2 * q + b2z (negb (r =? 0))) (f_scale binary64 x - f_scale binary64 y - k - 1).

Definition ffma (mode x y z : Z) : Z * fp_flags :=
  let s := xorb (sign64 x) (sign64 y) in
  let operands := [x; y; z] in
  if isnan x || isnan y || isnan z || isinf x && iszero y || iszero x && isinf y then
    (host_nan HFma operands, no_flags)
  else if isinf x || isinf y then
    (if isinf z && negb (eqb s (sign64 z)) then host_nan HFma operands else inf64 s, no_flags)
  else if isinf z then (z, no_flags)
  else
    let '(n, e) := aligned_sum (signed_mant x * signed_mant y) (f_scale binary64 x + f_scale binary64 y)
                     (signed_mant z) (f_scale binary64 z) in
    normalize mode n e (zero_sum_sign mode s (sign64 z)).

(** The root of the mantissa scaled to an even exponent and at least 108 bits. *)
Definition fsqrt (mode x : Z) : Z * fp_flags :=
  if isnan x then (host_nan HSqrt [x], no_flags)
  else if iszero x then (x, no_flags)
  else if sign64 x then (host_nan HSqrt [x], no_flags)
  else if isinf x then (x, no_flags)
  else
    let k0 := Z.max 0 (108 - Z.log2 (f_mant binary64 x)) in
    let k := k0 + (f_scale binary64 x - k0) mod 2 in
    let '(q, r) := Z.sqrtrem (Z.shiftl (f_mant binary64 x) k) in
    fround64 mode false (2 * q + b2z (negb (r =? 0))) ((f_scale binary64 x - k) / 2 - 1).

(** ** Conversions between the formats *)

(** [(float)x]; a NaN keeps its sign and the top of its payload, made quiet. *)
Definition to_single (mode x : Z) : Z * fp_flags :=
  let s := sign64 x in
  if isnan x then
    (make_quiet binary32 (with_sign binary32 s (inf_bits binary32 + Z.shiftr (f_frac binary64 x) 29)), no_flags)
  else if isinf x then (with_sign binary32 s (inf_bits binary32), no_flags)
  else if iszero x then (with_sign binary32 s 0, no_flags)
  else fround binary32 tiny_after_rounding mode s (f_mant binary64 x) (f_scale binary64 x).

(** [(double)x] of a [float]: exact. *)
Definition of_single (x : Z) : Z :=
  let s := f_sign binary32 x in
  if is_nan binary32 x then
    make_quiet binary64 (with_sign binary64 s (inf_bits binary64 + Z.shiftl (f_frac binary32 x) 29))
  else if is_inf binary32 x then inf64 s
  else if is_zero binary32 x then zero64 s
  else (fround64 0 s (f_mant binary32 x) (f_scale binary32 x)).1.
End Arith.

(** ** Comparisons and integers *)

(** Numbers are ordered as their bits with the sign taken as in sign-magnitude. *)
Definition order_key (x : Z) : Z :=
  let magnitude := Z.land x (Z.ones 63) in if sign64 x then - magnitude else magnitude.

(** [x == y], [x < y] *)
Definition feq (x y : Z) : bool := negb (isnan x) && negb (isnan y) && (order_key x =? order_key y).
Definition flt (x y : Z) : bool := negb (isnan x) && negb (isnan y) && (order_key x <? order_key y).

(** [nearbyint], [trunc], [ceil] and [floor] of a finite number, as an integer. *)
Definition round_integral (mode x : Z) : Z :=
  let n := (round_at mode (sign64 x) (f_mant binary64 x) (f_scale binary64 x) 0).1 in
  if sign64 x then - n else n.

(** The constants of the program. *)
Definition DBL_MAX : Z := inf_bits binary64 - 1.
Definition infinity : Z := inf_bits binary64.
Definition quiet_NaN : Z := 0x7FF8000000000000.

(** ** The floating-point environment

    The direction [fesetround] chose and the exceptions raised since
    [feclearexcept]. *)
Record fp_env := mk_fp_env { fe_round : Z; fe_except : fp_flags }.

Definition raise_flags (a b : fp_flags) : fp_flags :=
  mk_flags (fl_overflow a || fl_overflow b) (fl_underflow a || fl_underflow b) (fl_divbyzero a || fl_divbyzero b).

(** ** Encoding and decoding *)

Definition format_ok (f : float_format) : Prop := 1 <= frac_bits f /\ 2 <= exp_bits f.

Lemma binary64_ok : format_ok binary64.
Proof. by split. Qed.
Lemma binary32_ok : format_ok binary32.
Proof. by split. Qed.

Section FormatLemmas.
Context (f : float_format) (Hf : format_ok f).
Local Abbreviation fb := (frac_bits f).
Local Abbreviation eb := (exp_bits f).

Lemma sign_bit_pow : sign_bit f = 2 ^ eb * 2 ^ fb.
Proof. destruct Hf. unfold sign_bit. rewrite Z.shiftl_1_l, <- Z.pow_add_r by lia. f_equal. lia. Qed.

Lemma inf_bits_pow : inf_bits f = (2 ^ eb - 1) * 2 ^ fb.
Proof. destruct Hf. unfold inf_bits. rewrite Z.shiftl_mul_pow2, Z.ones_equiv by lia. lia. Qed.

(** The fields of a word put together from a sign, an exponent and a fraction. *)
Lemma encode_fields s E F : 0 <= E < 2 ^ eb -> 0 <= F < 2 ^ fb ->
  let x := with_sign f s (E * 2 ^ fb + F) in
  f_sign f x = s /\ f_exp f x = E /\ f_frac f x = F /\ 0 <= x < 2 * sign_bit f.
Proof.
  intros HE HF x. destruct Hf as [H1 H2].
  assert (0 < 2 ^ fb) as Hp by (apply Z.pow_pos_nonneg; lia).
  assert (0 < 2 ^ eb) as Hq by (apply Z.pow_pos_nonneg; lia).
  assert (x = (b2z s * 2 ^ eb + E) * 2 ^ fb + F) as Ex.
  { unfold x, with_sign. rewrite sign_bit_pow. destruct s; unfold Z.b2z; ring. }
  assert (x / 2 ^ fb = b2z s * 2 ^ eb + E) as Ed.
  { rewrite Ex, Z.add_comm, Z.div_add by lia. rewrite (Z.div_small F) by lia. lia. }
  split_and!.
  - unfold f_sign. rewrite Z.testbit_odd, Z.shiftr_div_pow2, Z.pow_add_r, <- Z.div_div, Ed by lia.
    rewrite Z.add_comm, Z.div_add, (Z.div_small E) by lia. by destruct s.
  - unfold f_exp. rewrite Z.shiftr_div_pow2, Ed, Z.land_ones, Z.add_comm, Z.mod_add by lia. apply Z.mod_small. lia.
  - unfold f_frac. rewrite Z.land_ones, Ex, Z.add_comm, Z.mod_add by lia. apply Z.mod_small. lia.
  - unfold x, with_sign. rewrite sign_bit_pow. destruct s; nia.
  - unfold x, with_sign. rewrite sign_bit_pow. destruct s; nia.
Qed.

Lemma fields_range x : 0 <= f_exp f x < 2 ^ eb /\ 0 <= f_frac f x < 2 ^ fb.
Proof. destruct Hf. unfold f_exp, f_frac. rewrite !Z.land_ones by lia. split; apply Z.mod_pos_bound; apply Z.pow_pos_nonneg; lia. Qed.

Lemma decode_fields x : 0 <= x < 2 * sign_bit f ->
  x = with_sign f (f_sign f x) (f_exp f x * 2 ^ fb + f_frac f x).
Proof.
  intros Hx. destruct Hf as [H1 H2]. rewrite sign_bit_pow in Hx.
  assert (0 < 2 ^ fb) as Hp by (apply Z.pow_pos_nonneg; lia).
  assert (0 < 2 ^ eb) as Hq by (apply Z.pow_pos_nonneg; lia).
  unfold f_exp, f_frac. rewrite Z.shiftr_div_pow2, !Z.land_ones by lia.
  pose proof (Z.div_mod x (2 ^ fb)) as D1. pose proof (Z.mod_pos_bound x (2 ^ fb) Hp).
  pose proof (Z.div_mod (x / 2 ^ fb) (2 ^ eb)) as D2. pose proof (Z.mod_pos_bound (x / 2 ^ fb) (2 ^ eb) Hq).
  assert (f_sign f x = (x / 2 ^ fb / 2 ^ eb =? 1)) as Es.
  { unfold f_sign. rewrite Z.testbit_odd, Z.shiftr_div_pow2, Z.pow_add_r, <- Z.div_div by lia.
    assert (0 <= x / 2 ^ fb / 2 ^ eb < 2) by (rewrite Z.div_div by lia; split; [apply Z.div_pos; nia | apply Z.div_lt_upper_bound; nia]).
    assert (x / 2 ^ fb / 2 ^ eb = 0 \/ x / 2 ^ fb / 2 ^ eb = 1) as [-> | ->] by lia; done. }
  assert (0 <= x / 2 ^ fb / 2 ^ eb < 2) by (rewrite Z.div_div by lia; split; [apply Z.div_pos; nia | apply Z.div_lt_upper_bound; nia]).
  rewrite Es. unfold with_sign. rewrite sign_bit_pow.
  destruct (Z.eqb_spec (x / 2 ^ fb / 2 ^ eb) 1) as [E|E]; [|assert (x / 2 ^ fb / 2 ^ eb = 0) as E0 by lia]; nia.
Qed.

Lemma with_sign_range s b : 0 <= b < sign_bit f -> 0 <= with_sign f s b < 2 * sign_bit f.
Proof. unfold with_sign. destruct s; lia. Qed.

(** Rounding gives a number of the format or an infinity. *)
Lemma fround_range tiny mode s m e : 0 < m -> 0 <= (fround f tiny mode s m e).1 < 2 * sign_bit f.
Proof.
  intros Hm. destruct Hf as [H1 H2].
  assert (0 < 2 ^ fb) as Hp by (apply Z.pow_pos_nonneg; lia).
  assert (2 <= 2 ^ eb) as Hq by (change 2 with (2 ^ 1) at 1; apply Z.pow_le_mono_r; lia).
  assert (0 <= inf_bits f - 1 /\ inf_bits f < sign_bit f) as [Hi0 Hi].
  { rewrite inf_bits_pow, sign_bit_pow. nia. }
  unfold fround. destruct (round_at _ _ _ _ _) as [q inexact] eqn:Eq.
  set (e' := Z.max _ _) in *. assert (0 <= q) as Hq0.
  { revert Eq. unfold round_at. destruct (e' <=? e); intros [= <- _]; [apply Z.shiftl_nonneg; lia|].
    pose proof (b2z_range (round_up mode s (Z.shiftr m (e' - e)) (Z.land m (Z.ones (e' - e))) (2 ^ (e' - e - 1)))).
    assert (0 <= Z.shiftr m (e' - e)) by (apply Z.shiftr_nonneg; lia). lia. }
  assert (0 <= Z.shiftl (e' - emin f) fb) by (apply Z.shiftl_nonneg; lia).
  destruct (Z.ltb_spec (Z.shiftl (e' - emin f) fb + q) (inf_bits f)); cbn [fst]; apply with_sign_range; [lia|].
  unfold overflow_bits. repeat case_match; lia.
Qed.

(** An exact value is not changed by dropping zero bits. *)
Lemma round_at_exact mode s m e e' k : 0 <= k -> e' <= e ->
  round_at mode s (Z.shiftl m k) (e - k) e' = (Z.shiftl m (e - e'), false).
Proof.
  intros Hk He. unfold round_at. destruct (Z.leb_spec e' (e - k)) as [H|H].
  - rewrite Z.shiftl_shiftl by lia. repeat f_equal. lia.
  - assert (Z.land (Z.shiftl m k) (Z.ones (e' - (e - k))) = 0) as ->.
    { rewrite Z.land_ones, Z.shiftl_mul_pow2 by lia.
      replace k with (k - (e' - (e - k)) + (e' - (e - k))) at 1 by lia. rewrite Z.pow_add_r, Z.mul_assoc by lia.
      apply Z.mod_mul. pose proof (Z.pow_pos_nonneg 2 (e' - (e - k))). lia. }
    assert (0 < 2 ^ (e' - (e - k) - 1)) as Hh by (apply Z.pow_pos_nonneg; lia).
    assert (round_up mode s (Z.shiftr (Z.shiftl m k) (e' - (e - k))) 0 (2 ^ (e' - (e - k) - 1)) = false) as ->.
    { unfold round_up. rewrite (proj2 (Z.ltb_ge _ _)), (proj2 (Z.eqb_neq _ _)) by lia.
      repeat case_match; cbn; by rewrite ?andb_false_r. }
    cbn [Z.b2z]. rewrite Z.add_0_r, Z.shiftr_shiftl_r by lia. f_equal.
    rewrite <- (Z.opp_involutive (e' - (e - k) - k)), Z.shiftr_opp_r. f_equal. lia.
Qed.

(** A value the format has, however its mantissa is scaled, is its own rounding:
    [q] is the mantissa in units of the result. *)
Lemma fround_exact tiny mode s m e k : 0 < m -> 0 <= k ->
  let e' := Z.max (e + (Z.log2 m + 1) - (fb + 1)) (emin f) in
  e' <= e -> (e' - emin f) * 2 ^ fb + Z.shiftl m (e - e') < inf_bits f ->
  fround f tiny mode s (Z.shiftl m k) (e - k) =
    (with_sign f s ((e' - emin f) * 2 ^ fb + Z.shiftl m (e - e')), no_flags).
Proof.
  intros Hm Hk e' He Hb. destruct Hf. unfold fround. rewrite Z.log2_shiftl by lia.
  replace (e - k + (Z.log2 m + k + 1)) with (e + (Z.log2 m + 1)) by lia. fold e'.
  rewrite (round_at_exact mode s m e e' k Hk He), (Z.shiftl_mul_pow2 (e' - emin f)) by lia.
  rewrite (proj2 (Z.ltb_lt _ _)) by done. by rewrite andb_false_r.
Qed.

Lemma emin_shift : emin f + fb = 2 - 2 ^ (eb - 1).
Proof. unfold emin. lia. Qed.
End FormatLemmas.

(** ** Every operation gives a word of its format *)

Definition word64 (x : Z) : Prop := 0 <= x < 2 ^ 64.

Lemma mant_nonneg f x : format_ok f -> 0 <= f_mant f x.
Proof.
  intros Hf. destruct (fields_range f Hf x) as [_ ?]. unfold f_mant. case_match; [lia|].
  pose proof (Z.pow_nonneg 2 (frac_bits f)). lia.
Qed.

Lemma mant_pos f x : format_ok f -> is_zero f x = false -> 0 < f_mant f x.
Proof.
  intros Hf Hz. destruct (fields_range f Hf x) as [_ ?], Hf. unfold f_mant, is_zero in *.
  destruct (f_exp f x =? 0); [|pose proof (Z.pow_pos_nonneg 2 (frac_bits f)); lia].
  cbn [andb] in Hz. apply Z.eqb_neq in Hz. lia.
Qed.

Lemma fround64_word tiny mode s m e : 0 < m -> word64 (fround binary64 tiny mode s m e).1.
Proof. apply (fround_range binary64 binary64_ok). Qed.

Lemma zero64_word s : word64 (zero64 s).
Proof. by destruct s. Qed.
Lemma inf64_word s : word64 (inf64 s).
Proof. by destruct s. Qed.

Lemma fneg_word x : word64 x -> word64 (fneg x).
Proof. intros Hx. apply lxor_range; [lia | done | by vm_compute]. Qed.

Create HintDb fpword.
#[export] Hint Resolve zero64_word inf64_word fneg_word fround64_word : fpword.

Lemma odd_sticky q r y : 0 <= q -> 0 <= r -> 0 < q * y + r -> 0 < 2 * q + b2z (negb (r =? 0)).
Proof.
  intros Hq Hr Hs. destruct (Z.eqb_spec r 0) as [->|]; cbn [negb Z.b2z]; [|lia].
  destruct (Z.eq_dec q 0) as [->|]; lia.
Qed.

Section ArithLemmas.
Context `{HostFpuOk}.

Lemma nan_word op l : word64 (host_nan op l).
Proof. apply host_nan_range. Qed.

Lemma normalize_word mode n e szero : word64 (normalize mode n e szero).1.
Proof. unfold normalize. destruct (Z.eqb_spec n 0); [apply zero64_word | apply fround64_word; lia]. Qed.

Lemma add_numbers_word op l mode x y : word64 x -> word64 y -> word64 (add_numbers op l mode x y).1.
Proof.
  intros Hx Hy. unfold add_numbers. destruct (isinf x); [case_match; [apply nan_word | done]|].
  destruct (isinf y); [done|]. destruct (aligned_sum _ _ _ _). apply normalize_word.
Qed.

Lemma fadd_word mode x y : word64 x -> word64 y -> word64 (fadd mode x y).1.
Proof. intros. unfold fadd. case_match; [apply nan_word | by apply add_numbers_word]. Qed.

Lemma fsub_word mode x y : word64 x -> word64 y -> word64 (fsub mode x y).1.
Proof. intros. unfold fsub. case_match; [apply nan_word | by apply add_numbers_word; auto with fpword]. Qed.

Lemma fmul_word mode x y : word64 (fmul mode x y).1.
Proof.
  unfold fmul. case_match; [apply nan_word|]. case_match; [apply inf64_word|].
  destruct (iszero x) eqn:Ex; [apply zero64_word|]. destruct (iszero y) eqn:Ey; [apply zero64_word|].
  apply fround64_word, Z.mul_pos_pos; by apply mant_pos.
Qed.

Lemma fdiv_word mode x y : word64 (fdiv mode x y).1.
Proof.
  unfold fdiv. case_match; [apply nan_word|]. case_match; [apply inf64_word|].
  destruct (isinf y); [apply zero64_word|]. destruct (iszero x) eqn:Ex; [apply zero64_word|].
  destruct (iszero y) eqn:Ey; [apply inf64_word|]. cbn [orb].
  pose proof (mant_pos _ _ binary64_ok Ex). pose proof (mant_pos _ _ binary64_ok Ey) as Hy.
  match goal with |- context [Z.div_eucl ?a ?b] => pose proof (Z_div_mod a b) as Hd; destruct (Z.div_eucl a b) as [q r]; set (n := a) in * end.
  destruct Hd as [Hn Hr]; [lia|].
  assert (0 < n).
  { unfold n. rewrite Z.shiftl_mul_pow2 by lia. apply Z.mul_pos_pos; [done|]. apply Z.pow_pos_nonneg; lia. }
  apply fround64_word, (odd_sticky q r (f_mant binary64 y)); nia.
Qed.

Lemma ffma_word mode x y z : word64 z -> word64 (ffma mode x y z).1.
Proof.
  intros Hz. unfold ffma. case_match; [apply nan_word|].
  destruct (isinf x || isinf y); [case_match; [apply nan_word | apply inf64_word]|].
  destruct (isinf z); [done|]. destruct (aligned_sum _ _ _ _). apply normalize_word.
Qed.

Lemma fsqrt_word mode x : word64 x -> word64 (fsqrt mode x).1.
Proof.
  intros Hx. unfold fsqrt. case_match; [apply nan_word|]. destruct (iszero x) eqn:Ex; [done|].
  destruct (sign64 x); [apply nan_word|]. destruct (isinf x); [done|].
  match goal with |- context [Z.sqrtrem ?a] => pose proof (Z.sqrtrem_spec a) as Hd; destruct (Z.sqrtrem a) as [q r]; set (n := a) in * end.
  assert (0 < n).
  { unfold n. rewrite Z.shiftl_mul_pow2 by (pose proof (Z.mod_pos_bound (f_scale binary64 x - Z.max 0 (108 - Z.log2 (f_mant binary64 x))) 2); lia).
    apply Z.mul_pos_pos; [by apply mant_pos|]. apply Z.pow_pos_nonneg; [lia|].
    pose proof (Z.mod_pos_bound (f_scale binary64 x - Z.max 0 (108 - Z.log2 (f_mant binary64 x))) 2). lia. }
  destruct Hd as [Hn Hr]; [lia|]. assert (0 <= q) by (destruct (Z.le_gt_cases 0 q); [done|nia]).
  apply fround64_word, (odd_sticky q r q); nia.
Qed.

Lemma to_single_word mode x : 0 <= (to_single mode x).1 < 2 ^ 32.
Proof.
  unfold to_single. destruct (isnan x).
  { cbn [fst]. unfold make_quiet. apply lor_range; [lia| |by vm_compute].
    apply (with_sign_range binary32). destruct (fields_range binary64 binary64_ok x) as [_ Hr].
    assert (0 <= Z.shiftr (f_frac binary64 x) 29 < 2 ^ 23).
    { rewrite Z.shiftr_div_pow2 by lia. cbn [frac_bits binary64] in Hr. zlia. }
    change (inf_bits binary32) with 0x7F800000. change (sign_bit binary32) with 0x80000000. lia. }
  destruct (isinf x); [by destruct (sign64 x)|]. destruct (iszero x) eqn:Ez; [by destruct (sign64 x)|].
  apply (fround_range binary32 binary32_ok), mant_pos; [apply binary64_ok | done].
Qed.

Lemma of_single_word x : word64 (of_single x).
Proof.
  unfold of_single. destruct (is_nan binary32 x).
  { unfold make_quiet. apply lor_range; [lia| |by vm_compute].
    apply (with_sign_range binary64). destruct (fields_range binary32 binary32_ok x) as [_ Hr].
    assert (0 <= Z.shiftl (f_frac binary32 x) 29 < 2 ^ 52).
    { rewrite Z.shiftl_mul_pow2 by lia. cbn [frac_bits binary32] in Hr. lia. }
    change (inf_bits binary64) with 0x7FF0000000000000. change (sign_bit binary64) with 0x8000000000000000. lia. }
  destruct (is_inf binary32 x); [apply inf64_word|]. destruct (is_zero binary32 x) eqn:Ez; [apply zero64_word|].
  apply fround64_word, mant_pos; [apply binary32_ok | done].
Qed.
End ArithLemmas.

(** ** A single survives the registers

    Every [float] is a [double], so that [(float)(double)w] is [w]; NaNs are made
    quiet on the way. *)

Lemma make_quiet_fields f s E F : format_ok f -> 0 <= E < 2 ^ exp_bits f -> 0 <= F < 2 ^ frac_bits f ->
  make_quiet f (with_sign f s (E * 2 ^ frac_bits f + F)) =
    with_sign f s (E * 2 ^ frac_bits f + Z.lor F (2 ^ (frac_bits f - 1))) /\
  0 <= Z.lor F (2 ^ (frac_bits f - 1)) < 2 ^ frac_bits f.
Proof.
  intros Hf HE HF. pose proof (sign_bit_pow f Hf) as Hs. destruct Hf as [H1 H2].
  assert (0 <= 2 ^ (frac_bits f - 1) < 2 ^ frac_bits f) as HQ.
  { split; [apply Z.pow_nonneg; lia | apply Z.pow_lt_mono_r; lia]. }
  assert (0 <= Z.lor F (2 ^ (frac_bits f - 1)) < 2 ^ frac_bits f) as HL by (apply lor_range; lia). split; [|done].
  unfold make_quiet. rewrite Z.shiftl_1_l.
  assert (forall v, with_sign f s (E * 2 ^ frac_bits f + v) = 2 ^ frac_bits f * (b2z s * 2 ^ exp_bits f + E) + v) as Ew.
  { intros v. unfold with_sign. rewrite Hs. destruct s; unfold Z.b2z; ring. }
  rewrite !Ew, <- !lor_low by lia. by rewrite Z.lor_assoc.
Qed.

Lemma is_nan_fields f x : is_nan f x = true <-> f_exp f x = Z.ones (exp_bits f) /\ f_frac f x <> 0.
Proof. unfold is_nan. rewrite andb_true_iff, negb_true_iff, Z.eqb_eq, Z.eqb_neq. done. Qed.

(** What the conversion of a finite single computes, in the fields of the double. *)
Lemma of_single_finite `{HostFpu} w : 0 <= w < 2 ^ 32 -> f_exp binary32 w <> Z.ones 8 -> is_zero binary32 w = false ->
  let m := f_mant binary32 w in
  let e := f_scale binary32 w in
  let k := 52 - Z.log2 m in
  let x := of_single w in
  0 < m /\ 0 <= k /\ sign64 x = f_sign binary32 w /\ 0 < f_exp binary64 x < Z.ones 11 /\
  f_mant binary64 x = Z.shiftl m k /\ f_scale binary64 x = e - k.
Proof.
  intros Hw He Hz m e k x. pose proof (mant_pos _ _ binary32_ok Hz) as Hm. fold m in Hm.
  destruct (fields_range binary32 binary32_ok w) as [HE HF]. cbn [frac_bits exp_bits binary32] in HE, HF.
  assert (m < 2 ^ 24) as Hm'.
  { unfold m, f_mant. cbn [frac_bits binary32]. case_match; lia. }
  assert (0 <= Z.log2 m < 24) as Hl by (split; [apply Z.log2_nonneg | apply Z.log2_lt_pow2; lia]).
  assert (-149 <= e <= 104) as He'.
  { change (Z.ones 8) with 255 in He. unfold e, f_scale. change (emin binary32) with (-149). lia. }
  assert (2 ^ 52 <= Z.shiftl m k < 2 ^ 53) as Hq.
  { destruct (Z.log2_spec m Hm) as [L1 L2]. rewrite Z.shiftl_mul_pow2 by lia.
    replace (2 ^ 52) with (2 ^ Z.log2 m * 2 ^ k) by (rewrite <- Z.pow_add_r by lia; f_equal; lia).
    replace (2 ^ 53) with (2 ^ Z.succ (Z.log2 m) * 2 ^ k) by (rewrite <- Z.pow_add_r by lia; f_equal; lia).
    pose proof (Z.pow_pos_nonneg 2 k). nia. }
  assert (Z.max (e + (Z.log2 m + 1) - 53) (-1074) = e - k) as Ee by lia.
  assert (x = with_sign binary64 (f_sign binary32 w) ((e - k + 1075) * 2 ^ 52 + (Z.shiftl m k - 2 ^ 52))) as Ex.
  { unfold x, of_single. rewrite Hz. unfold is_nan, is_inf. cbn [exp_bits binary32].
    rewrite (proj2 (Z.eqb_neq _ _)) by done. cbn [andb]. unfold fround64. fold m e.
    pose proof (fround_exact binary64 binary64_ok tiny_after_rounding 0 (f_sign binary32 w) m e 0 Hm) as HR.
    cbn [frac_bits binary64] in HR. change (emin binary64) with (-1074) in HR. change (52 + 1) with 53 in HR. rewrite Ee in HR.
    rewrite Z.shiftl_0_r, Z.sub_0_r in HR. rewrite HR; [..|change (inf_bits binary64) with (2047 * 2 ^ 52)]; try lia.
    - cbn [fst]. f_equal. replace (e - (e - k)) with k by lia. lia.
    - replace (e - (e - k)) with k by lia. lia. }
  destruct (encode_fields binary64 binary64_ok (f_sign binary32 w) (e - k + 1075) (Z.shiftl m k - 2 ^ 52)) as (S1 & S2 & S3 & S4);
    cbn [frac_bits exp_bits binary64] in *; [lia..|]. rewrite <- Ex in S1, S2, S3.
  change (Z.ones 11) with 2047. split_and!; try lia; [done|..].
  - unfold f_mant. rewrite S2, S3, (proj2 (Z.eqb_neq _ _)) by lia. cbn [frac_bits binary64]. lia.
  - unfold f_scale. rewrite S2. change (emin binary64) with (-1074). lia.
Qed.

Lemma nan_roundtrip `{HostFpu} w mode : 0 <= w < 2 ^ 32 -> is_nan binary32 w = true ->
  to_single mode (of_single w) = (make_quiet binary32 w, no_flags).
Proof.
  intros Hw En.
  pose proof (decode_fields binary32 binary32_ok w Hw) as Ed.
  destruct (fields_range binary32 binary32_ok w) as [HE HF]. cbn [frac_bits exp_bits binary32] in HE, HF, Ed.
  pose proof (proj1 (is_nan_fields _ _) En) as [E1 E2]. unfold of_single. rewrite En.
  change (inf_bits binary64 + Z.shiftl (f_frac binary32 w) 29) with (2047 * 2 ^ 52 + Z.shiftl (f_frac binary32 w) 29).
  destruct (make_quiet_fields binary64 (f_sign binary32 w) 2047 (Z.shiftl (f_frac binary32 w) 29) binary64_ok) as [Eq Hq];
    cbn [exp_bits frac_bits binary64]; [lia | rewrite Z.shiftl_mul_pow2 by lia; lia|].
  cbn [exp_bits frac_bits binary64] in Eq, Hq. rewrite Eq. clear Eq.
  destruct (encode_fields binary64 binary64_ok (f_sign binary32 w) 2047 _ ltac:(cbn; lia) Hq) as (S1 & S2 & S3 & _).
  cbn [exp_bits frac_bits binary64] in S1, S2, S3. set (F := Z.lor _ _) in *. unfold to_single.
  set (x := with_sign binary64 _ _) in *.
  assert (isnan x = true) as ->.
  { apply is_nan_fields. rewrite S2, S3. split; [done|]. unfold F. intros H0%Z.lor_eq_0_iff. by destruct H0. }
  rewrite S1, S3. f_equal. unfold F. rewrite Z.shiftr_lor, Z.shiftr_shiftl_l, Z.shiftl_0_r by lia.
  change (Z.shiftr (2 ^ (52 - 1)) 29) with (2 ^ (23 - 1)). change (inf_bits binary32) with (255 * 2 ^ 23).
  assert (0 <= Z.lor (f_frac binary32 w) (2 ^ (23 - 1)) < 2 ^ 23) as HL by (apply lor_range; lia).
  rewrite E1 in Ed. cbn [exp_bits binary32] in Ed. change (Z.ones 8) with 255 in Ed.
  pose proof (proj1 (make_quiet_fields binary32 (f_sign binary32 w) 255 _ binary32_ok ltac:(cbn; lia) HL)) as Q1.
  pose proof (proj1 (make_quiet_fields binary32 (f_sign binary32 w) 255 _ binary32_ok ltac:(cbn; lia) HF)) as Q2.
  cbn [frac_bits binary32] in Q1, Q2. rewrite <- Ed in Q2. rewrite Q1, Q2. by rewrite <- Z.lor_assoc, Z.lor_diag.
Qed.

Lemma finite_roundtrip `{HostFpu} w mode : 0 <= w < 2 ^ 32 -> f_exp binary32 w <> Z.ones 8 -> is_zero binary32 w = false ->
  to_single mode (of_single w) = (w, no_flags).
Proof.
  intros Hw Ei Ez.
  pose proof (decode_fields binary32 binary32_ok w Hw) as Ed.
  destruct (fields_range binary32 binary32_ok w) as [HE HF]. cbn [frac_bits exp_bits binary32] in HE, HF, Ed.
  destruct (of_single_finite w Hw Ei Ez) as (Hm & Hk & S1 & S2 & S3 & S4).
  set (x := of_single w) in *. set (m := f_mant binary32 w) in *. set (e := f_scale binary32 w) in *.
  unfold to_single. unfold is_nan, is_inf, is_zero. cbn [exp_bits binary64].
  rewrite (proj2 (Z.eqb_neq (f_exp binary64 x) (Z.ones 11))), (proj2 (Z.eqb_neq (f_exp binary64 x) 0)) by lia. cbn [andb].
  rewrite S1, S3, S4.
  assert (Z.max (e + (Z.log2 m + 1) - 24) (-149) = e) as Ee.
  { unfold e, f_scale, m, f_mant. change (emin binary32) with (-149). cbn [frac_bits binary32].
    destruct (Z.eqb_spec (f_exp binary32 w) 0) as [E0|E0].
    - assert (0 < f_frac binary32 w).
      { revert Ez. unfold is_zero. rewrite E0. cbn [andb Z.eqb]. intros H0%Z.eqb_neq. lia. }
      assert (Z.log2 (f_frac binary32 w) < 23) by (apply Z.log2_lt_pow2; lia). lia.
    - rewrite (Z.log2_unique (2 ^ 23 + f_frac binary32 w) 23) by lia. lia. }
  pose proof (fround_exact binary32 binary32_ok tiny_after_rounding mode (f_sign binary32 w) m e _ Hm Hk) as HR.
  cbn [frac_bits binary32] in HR. change (emin binary32) with (-149) in HR. change (23 + 1) with 24 in HR. rewrite Ee in HR.
  rewrite Z.sub_diag, Z.shiftl_0_r in HR.
  assert ((e - -149) * 2 ^ 23 + m = f_exp binary32 w * 2 ^ 23 + f_frac binary32 w) as Eb.
  { unfold e, f_scale, m, f_mant. change (emin binary32) with (-149). cbn [frac_bits binary32].
    destruct (Z.eqb_spec (f_exp binary32 w) 0); lia. }
  rewrite Eb in HR. rewrite HR; [by rewrite <- Ed | lia|].
  change (Z.ones 8) with 255 in Ei. change (inf_bits binary32) with (255 * 2 ^ 23). lia.
Qed.

Lemma single_roundtrip `{HostFpu} w mode : 0 <= w < 2 ^ 32 ->
  to_single mode (of_single w) = (if is_nan binary32 w then make_quiet binary32 w else w, no_flags).
Proof.
  intros Hw. destruct (fields_range binary32 binary32_ok w) as [HE HF]. pose proof (decode_fields binary32 binary32_ok w Hw) as Ed.
  cbn [frac_bits exp_bits binary32] in HE, HF, Ed.
  destruct (is_nan binary32 w) eqn:En.
  { by apply nan_roundtrip. }
  destruct (Z.eq_dec (f_exp binary32 w) (Z.ones 8)) as [Ei|Ei].
  { assert (f_frac binary32 w = 0) as F0.
    { revert En. unfold is_nan. cbn [exp_bits binary32]. rewrite Ei, Z.eqb_refl. cbn [andb]. intros H0%negb_false_iff. by apply Z.eqb_eq. }
    unfold of_single. rewrite En. unfold is_inf. cbn [exp_bits binary32]. rewrite Ei, F0. cbn [Z.eqb andb].
    rewrite Ei, F0 in Ed. revert Ed. generalize (f_sign binary32 w). clear. intros sg ->. by destruct sg. }
  destruct (is_zero binary32 w) eqn:Ez.
  { assert (f_exp binary32 w = 0 /\ f_frac binary32 w = 0) as [E0 F0].
    { revert Ez. unfold is_zero. rewrite andb_true_iff, !Z.eqb_eq. done. }
    unfold of_single. rewrite En, Ez. unfold is_inf. rewrite E0. cbn [andb].
    rewrite E0, F0 in Ed. revert Ed. generalize (f_sign binary32 w). clear. intros sg ->. by destruct sg. }
  by apply finite_roundtrip.
Qed.
