(* ===== verification/PpcState.v ===== *)
(** * The processor state and the operand helpers

    cpu/ppc/ppcemu.h (state, register numbers, bit masks, template parameters),
    cpu/ppc/ppcdechelpers.h (operand extraction) and the flag helpers at the top
    of cpu/ppc/ppcopcodes.cpp. *)
From S2P Require Import Prelude Word.

(** ** Template parameters of the instruction routines *)

(* [cpu/ppc/ppcemu.h:439-448] *)
Inductive logical_fun :=
| ppc_and | ppc_andc | ppc_eqv | ppc_nand | ppc_nor | ppc_or | ppc_orc | ppc_xor.

(* [cpu/ppc/ppcemu.h:450-453] *)
Inductive field_lk := LK0 | LK1.
(* [cpu/ppc/ppcemu.h:455-458] *)
Inductive field_aa := AA0 | AA1.
(* [cpu/ppc/ppcemu.h:460-463] *)
Inductive field_shift := SHFT0 | SHFT1.
(* [cpu/ppc/ppcemu.h:465-468] *)
Inductive field_direction := RIGHT0 | LEFT1.
(* [cpu/ppc/ppcemu.h:470-473] *)
Inductive field_rc := RC0 | RC1.
(* [cpu/ppc/ppcemu.h:475-478] *)
Inductive field_ov := OV0 | OV1.
(* [cpu/ppc/ppcemu.h:480-483] *)
Inductive field_carry := CARRY0 | CARRY1.
(* [cpu/ppc/ppcemu.h:485-488] *)
Inductive field_601 := NOT601 | IS601.

(** The C truth value of such an enumerator ([RC0] is 0, [RC1] is 1, ...). *)
Definition lk (x : field_lk) : bool := match x with LK0 => false | LK1 => true end.
Definition aa (x : field_aa) : bool := match x with AA0 => false | AA1 => true end.
Definition shf (x : field_shift) : bool := match x with SHFT0 => false | SHFT1 => true end.
Definition dir (x : field_direction) : bool := match x with RIGHT0 => false | LEFT1 => true end.
Definition rc (x : field_rc) : bool := match x with RC0 => false | RC1 => true end.
Definition oe (x : field_ov) : bool := match x with OV0 => false | OV1 => true end.
Definition cy (x : field_carry) : bool := match x with CARRY0 => false | CARRY1 => true end.
Definition f601 (x : field_601) : bool := match x with NOT601 => false | IS601 => true end.

(** ** Special-purpose registers *)

Module SPR.
(* [cpu/ppc/ppcemu.h:94-94] *)
Definition MQ := 0.
(* [cpu/ppc/ppcemu.h:95-95] *)
Definition XER := 1.
(* [cpu/ppc/ppcemu.h:96-96] *)
Definition RTCU_U := 4.
(* [cpu/ppc/ppcemu.h:97-97] *)
Definition RTCL_U := 5.
(* [cpu/ppc/ppcemu.h:98-98] *)
Definition DEC_U := 6.
(* [cpu/ppc/ppcemu.h:99-99] *)
Definition LR := 8.
(* [cpu/ppc/ppcemu.h:100-100] *)
Definition CTR := 9.
(* [cpu/ppc/ppcemu.h:101-101] *)
Definition DSISR := 18.
(* [cpu/ppc/ppcemu.h:102-102] *)
Definition DAR := 19.
(* [cpu/ppc/ppcemu.h:103-103] *)
Definition RTCU_S := 20.
(* [cpu/ppc/ppcemu.h:104-104] *)
Definition RTCL_S := 21.
(* [cpu/ppc/ppcemu.h:105-105] *)
Definition DEC_S := 22.
(* [cpu/ppc/ppcemu.h:106-106] *)
Definition SDR1 := 25.
(* [cpu/ppc/ppcemu.h:107-107] *)
Definition SRR0 := 26.
(* [cpu/ppc/ppcemu.h:108-108] *)
Definition SRR1 := 27.
(* [cpu/ppc/ppcemu.h:109-109] *)
Definition TBL_U := 268.
(* [cpu/ppc/ppcemu.h:110-110] *)
Definition TBU_U := 269.
(* [cpu/ppc/ppcemu.h:115-115] *)
Definition EAR := 282.
(* [cpu/ppc/ppcemu.h:116-116] *)
Definition TBL_S := 284.
(* [cpu/ppc/ppcemu.h:117-117] *)
Definition TBU_S := 285.
(* [cpu/ppc/ppcemu.h:118-118] *)
Definition PVR := 287.
(* [cpu/ppc/ppcemu.h:119-119] *)
Definition DMISS := 976.
(* [cpu/ppc/ppcemu.h:120-120] *)
Definition DCMP := 977.
(* [cpu/ppc/ppcemu.h:121-121] *)
Definition HASH1 := 978.
(* [cpu/ppc/ppcemu.h:122-122] *)
Definition HASH2 := 979.
(* [cpu/ppc/ppcemu.h:123-123] *)
Definition IMISS := 980.
(* [cpu/ppc/ppcemu.h:124-124] *)
Definition ICMP := 981.
(* [cpu/ppc/ppcemu.h:125-125] *)
Definition RPA := 982.
(* [cpu/ppc/ppcemu.h:134-134] *)
Definition HID0 := 1008.
(* [cpu/ppc/ppcemu.h:136-136] *)
Definition THRM1 := 1020.
(* [cpu/ppc/ppcemu.h:137-137] *)
Definition THRM2 := 1021.
(* [cpu/ppc/ppcemu.h:138-138] *)
Definition THRM3 := 1022.
End SPR.

(** ** Bit masks *)

Module MSR.
(* [cpu/ppc/ppcemu.h:273-273] *)
Definition LE := 2 ^ (63 - 63).
(* [cpu/ppc/ppcemu.h:280-280] *)
Definition DR := 2 ^ (63 - 59).
(* [cpu/ppc/ppcemu.h:282-282] *)
Definition IR := 2 ^ (63 - 58).
(* [cpu/ppc/ppcemu.h:284-284] *)
Definition IP := 2 ^ (63 - 57).
(* [cpu/ppc/ppcemu.h:292-292] *)
Definition ME := 2 ^ (63 - 51).
(* [cpu/ppc/ppcemu.h:294-294] *)
Definition FP := 2 ^ (63 - 50).
(* [cpu/ppc/ppcemu.h:295-295] *)
Definition PR := 2 ^ (63 - 49).
(* [cpu/ppc/ppcemu.h:296-296] *)
Definition EE := 2 ^ (63 - 48).
(* [cpu/ppc/ppcemu.h:299-299] *)
Definition ILE := 2 ^ (63 - 47).
(* [cpu/ppc/ppcemu.h:300-300] *)
Definition TGPR := 2 ^ (63 - 46).
(* [cpu/ppc/ppcemu.h:301-301] *)
Definition POW := 2 ^ (63 - 45).
End MSR.

Module XERB.
(* [cpu/ppc/ppcemu.h:318-318] *)
Definition CA := 2 ^ 29.
(* [cpu/ppc/ppcemu.h:319-319] *)
Definition OV := 2 ^ 30.
(* [cpu/ppc/ppcemu.h:320-320] *)
Definition SO := 2 ^ 31.
End XERB.

Module CRx.
(* [cpu/ppc/ppcemu.h:219-219] *)
Definition CR_SO := 2 ^ 28.
(* [cpu/ppc/ppcemu.h:220-220] *)
Definition CR_EQ := 2 ^ 29.
(* [cpu/ppc/ppcemu.h:221-221] *)
Definition CR_GT := 2 ^ 30.
(* [cpu/ppc/ppcemu.h:222-222] *)
Definition CR_LT := 2 ^ 31.
End CRx.

Module EXEF.
(* [cpu/ppc/ppcemu.h:204-204] *)
Definition EXEF_BRANCH := 2 ^ 0.
(* [cpu/ppc/ppcemu.h:205-205] *)
Definition EXEF_EXCEPTION := 2 ^ 1.
(* [cpu/ppc/ppcemu.h:206-206] *)
Definition EXEF_RFI := 2 ^ 2.
(* [cpu/ppc/ppcemu.h:207-207] *)
Definition EXEF_OPC_DECODER := 2 ^ 3.
(* [cpu/ppc/ppcemu.h:208-208] *)
Definition EXEF_SLEEP := 2 ^ 4.
End EXEF.

(** ** The processor state

    [fpr] holds the integer view of [FPR_storage]; the two members that no
    integer instruction reads ([tbr] and [fpr]) are kept so that the record is
    the struct.  [is_LE] exists only in builds with
    [SUPPORTS_PPC_LITTLE_ENDIAN_MODE], which CMakeLists.txt leaves off. *)

(* [cpu/ppc/ppcemu.h:74-88] *)
Record ppc_state := mk_ppc_state {
  fpr : gmap Z Z;
  pc : Z;
  gpr : gmap Z Z;
  cr : Z;
  fpscr : Z;
  tbr : gmap Z Z;
  spr : gmap Z Z;
  msr : Z;
  sr : gmap Z Z;
  reserve : bool
}.

Definition with_gpr v s :=
  mk_ppc_state (fpr s) (pc s) v (cr s) (fpscr s) (tbr s) (spr s) (msr s) (sr s) (reserve s).
Definition with_cr v s :=
  mk_ppc_state (fpr s) (pc s) (gpr s) v (fpscr s) (tbr s) (spr s) (msr s) (sr s) (reserve s).
Definition with_spr v s :=
  mk_ppc_state (fpr s) (pc s) (gpr s) (cr s) (fpscr s) (tbr s) v (msr s) (sr s) (reserve s).
Definition with_msr v s :=
  mk_ppc_state (fpr s) (pc s) (gpr s) (cr s) (fpscr s) (tbr s) (spr s) v (sr s) (reserve s).
Definition with_sr v s :=
  mk_ppc_state (fpr s) (pc s) (gpr s) (cr s) (fpscr s) (tbr s) (spr s) (msr s) v (reserve s).
Definition with_reserve v s :=
  mk_ppc_state (fpr s) (pc s) (gpr s) (cr s) (fpscr s) (tbr s) (spr s) (msr s) (sr s) v.
Definition with_pc v s :=
  mk_ppc_state (fpr s) v (gpr s) (cr s) (fpscr s) (tbr s) (spr s) (msr s) (sr s) (reserve s).

(** Single-register updates: [ppc_state.gpr[i] = v] and so on. *)
Definition set_gpr i v s := with_gpr ((gpr s).[i := v]) s.
Definition set_spr i v s := with_spr ((spr s).[i := v]) s.
Definition set_sr i v s := with_sr ((sr s).[i := v]) s.

(** [cond b f s] is the statement [if (b) f();]. *)
Definition cond (b : bool) (f : ppc_state -> ppc_state) (s : ppc_state) : ppc_state :=
  if b then f s else s.

(** The type invariant: every register holds a value of its width. *)
Record ppc_ok (s : ppc_state) : Prop := mk_ppc_ok {
  ok_fpr : file_ok 64 (fpr s);
  ok_pc : 0 <= pc s < 2 ^ 32;
  ok_gpr : file_ok 32 (gpr s);
  ok_cr : 0 <= cr s < 2 ^ 32;
  ok_fpscr : 0 <= fpscr s < 2 ^ 32;
  ok_tbr : file_ok 32 (tbr s);
  ok_spr : file_ok 32 (spr s);
  ok_msr : 0 <= msr s < 2 ^ 32;
  ok_sr : file_ok 32 (sr s)
}.

(** The state of static storage before the program starts. *)
Definition ppc_zero : ppc_state := mk_ppc_state ∅ 0 ∅ 0 0 ∅ ∅ 0 ∅ false.

Lemma ppc_zero_ok : ppc_ok ppc_zero.
Proof. split; simpl; try apply file_ok_empty; lia. Qed.

Section Ok.
Context (s : ppc_state) (Hs : ppc_ok s).

Lemma ok_get_gpr i : 0 <= (gpr s).[i] < 2 ^ 32.
Proof. apply (ok_gpr s Hs). Qed.
Lemma ok_get_spr i : 0 <= (spr s).[i] < 2 ^ 32.
Proof. apply (ok_spr s Hs). Qed.
Lemma ok_get_sr i : 0 <= (sr s).[i] < 2 ^ 32.
Proof. apply (ok_sr s Hs). Qed.

Lemma set_gpr_ok i v : 0 <= v < 2 ^ 32 -> ppc_ok (set_gpr i v s).
Proof. intros. destruct Hs. split; simpl; auto using file_ok_set. Qed.
Lemma set_spr_ok i v : 0 <= v < 2 ^ 32 -> ppc_ok (set_spr i v s).
Proof. intros. destruct Hs. split; simpl; auto using file_ok_set. Qed.
Lemma set_sr_ok i v : 0 <= v < 2 ^ 32 -> ppc_ok (set_sr i v s).
Proof. intros. destruct Hs. split; simpl; auto using file_ok_set. Qed.
Lemma with_cr_ok v : 0 <= v < 2 ^ 32 -> ppc_ok (with_cr v s).
Proof. intros. destruct Hs. split; simpl; auto. Qed.
Lemma with_msr_ok v : 0 <= v < 2 ^ 32 -> ppc_ok (with_msr v s).
Proof. intros. destruct Hs. split; simpl; auto. Qed.
Lemma with_pc_ok v : 0 <= v < 2 ^ 32 -> ppc_ok (with_pc v s).
Proof. intros. destruct Hs. split; simpl; auto. Qed.
Lemma with_reserve_ok v : ppc_ok (with_reserve v s).
Proof. intros. destruct Hs. split; simpl; auto. Qed.
Lemma cond_ok b f : (ppc_ok s -> ppc_ok (f s)) -> ppc_ok (cond b f s).
Proof. intros. destruct b; simpl; auto. Qed.
End Ok.

(** [ppc_ok] goals follow from the ranges of the values written. *)
Create HintDb ppcok.
#[export] Hint Resolve set_gpr_ok set_spr_ok set_sr_ok with_cr_ok with_msr_ok with_pc_ok
  with_reserve_ok cond_ok : ppcok.
#[export] Hint Resolve ok_get_gpr ok_get_spr ok_get_sr ok_cr ok_msr ok_pc ok_fpscr : word.

(** ** Operand fields (cpu/ppc/ppcdechelpers.h)

    The macros declare locals; here each returns the tuple of the locals it
    declares, in the order of the declarations. *)

Definition field_d (opcode : Z) : Z := Z.land (Z.shiftr opcode 21) 0x1F.
Definition field_a (opcode : Z) : Z := Z.land (Z.shiftr opcode 16) 0x1F.
Definition field_b (opcode : Z) : Z := Z.land (Z.shiftr opcode 11) 0x1F.

(* [cpu/ppc/ppcdechelpers.h:29-31] *)
Definition decode_ops_sa (opcode : Z) : Z * Z := (field_d opcode, field_a opcode).
(* [cpu/ppc/ppcdechelpers.h:33-35] *)
Definition decode_ops_da (opcode : Z) : Z * Z := (field_d opcode, field_a opcode).
(* [cpu/ppc/ppcdechelpers.h:37-39] *)
Definition decode_ops_sab (opcode : Z) : Z * Z * Z :=
  (field_d opcode, field_a opcode, field_b opcode).
(* [cpu/ppc/ppcdechelpers.h:41-43] *)
Definition decode_ops_dab (opcode : Z) : Z * Z * Z :=
  (field_d opcode, field_a opcode, field_b opcode).
(* [cpu/ppc/ppcdechelpers.h:45-47] *)
Definition decode_ops_dasimm (opcode : Z) : Z * Z * Z :=
  (field_d opcode, field_a opcode, s16 opcode).
(* [cpu/ppc/ppcdechelpers.h:49-51] *)
Definition decode_ops_sauimm (opcode : Z) : Z * Z * Z :=
  (field_d opcode, field_a opcode, u16 opcode).

(* [cpu/ppc/ppcdechelpers.h:62-64] *)
Definition ppc_grab_regsdasimm (opcode : Z) (s : ppc_state) : Z * Z * Z * Z :=
  let '(reg_d, reg_a, simm) := decode_ops_dasimm opcode in
  (reg_d, reg_a, simm, (gpr s).[reg_a]).
(* [cpu/ppc/ppcdechelpers.h:70-73] *)
Definition ppc_grab_regsasimm (opcode : Z) (s : ppc_state) : Z * Z * Z :=
  let reg_a := field_a opcode in
  (reg_a, s16 opcode, (gpr s).[reg_a]).
(* [cpu/ppc/ppcdechelpers.h:75-78] *)
Definition ppc_grab_regssauimm (opcode : Z) (s : ppc_state) : Z * Z * Z * Z * Z :=
  let '(reg_s, reg_a, uimm) := decode_ops_sauimm opcode in
  (reg_s, reg_a, uimm, (gpr s).[reg_s], (gpr s).[reg_a]).
(* [cpu/ppc/ppcdechelpers.h:80-84] *)
Definition ppc_grab_crfd_regsauimm (opcode : Z) (s : ppc_state) : Z * Z * Z * Z :=
  let reg_a := field_a opcode in
  (Z.land (Z.shiftr opcode 21) 0x1C, reg_a, u16 opcode, (gpr s).[reg_a]).
(* [cpu/ppc/ppcdechelpers.h:86-87] *)
Definition ppc_grab_da (opcode : Z) : Z * Z := decode_ops_da opcode.
(* [cpu/ppc/ppcdechelpers.h:89-90] *)
Definition ppc_grab_dab (opcode : Z) : Z * Z * Z := decode_ops_dab opcode.
(* [cpu/ppc/ppcdechelpers.h:92-94] *)
Definition ppc_grab_s (opcode : Z) (s : ppc_state) : Z * Z :=
  let reg_s := field_d opcode in (reg_s, (gpr s).[reg_s]).
(* [cpu/ppc/ppcdechelpers.h:96-99] *)
Definition ppc_grab_regsdab (opcode : Z) (s : ppc_state) : Z * Z * Z * Z * Z :=
  let '(reg_d, reg_a, reg_b) := decode_ops_dab opcode in
  (reg_d, reg_a, reg_b, (gpr s).[reg_a], (gpr s).[reg_b]).
(* [cpu/ppc/ppcdechelpers.h:101-105] *)
Definition ppc_grab_regssab (opcode : Z) (s : ppc_state) : Z * Z * Z * Z * Z * Z :=
  let '(reg_s, reg_a, reg_b) := decode_ops_sab opcode in
  (reg_s, reg_a, reg_b, (gpr s).[reg_s], (gpr s).[reg_a], (gpr s).[reg_b]).
(* [cpu/ppc/ppcdechelpers.h:107-110] *)
Definition ppc_grab_regssab_stswx (opcode : Z) (s : ppc_state) : Z * Z * Z * Z * Z :=
  let '(reg_s, reg_a, reg_b) := decode_ops_sab opcode in
  (reg_s, reg_a, reg_b, (gpr s).[reg_a], (gpr s).[reg_b]).
(* [cpu/ppc/ppcdechelpers.h:112-116] *)
Definition ppc_grab_regsab (opcode : Z) (s : ppc_state) : Z * Z * Z * Z :=
  let reg_a := field_a opcode in
  let reg_b := field_b opcode in
  (reg_a, reg_b, (gpr s).[reg_a], (gpr s).[reg_b]).
(* [cpu/ppc/ppcdechelpers.h:118-121] *)
Definition ppc_grab_regssa (opcode : Z) (s : ppc_state) : Z * Z * Z * Z :=
  let '(reg_s, reg_a) := decode_ops_sa opcode in
  (reg_s, reg_a, (gpr s).[reg_s], (gpr s).[reg_a]).
(* [cpu/ppc/ppcdechelpers.h:123-125] *)
Definition ppc_grab_regssa_stmw (opcode : Z) (s : ppc_state) : Z * Z * Z :=
  let '(reg_s, reg_a) := decode_ops_sa opcode in (reg_s, reg_a, (gpr s).[reg_a]).
(* [cpu/ppc/ppcdechelpers.h:127-131] *)
Definition ppc_grab_regssash (opcode : Z) (s : ppc_state) : Z * Z * Z * Z * Z :=
  let '(reg_s, reg_a) := decode_ops_sa opcode in
  (reg_s, reg_a, field_b opcode, (gpr s).[reg_s], (gpr s).[reg_a]).
(* [cpu/ppc/ppcdechelpers.h:133-136] *)
Definition ppc_grab_regssash_stswi (opcode : Z) (s : ppc_state) : Z * Z * Z * Z :=
  let '(reg_s, reg_a) := decode_ops_sa opcode in
  (reg_s, reg_a, field_b opcode, (gpr s).[reg_a]).
(* [cpu/ppc/ppcdechelpers.h:138-142] *)
Definition ppc_grab_regssb (opcode : Z) (s : ppc_state) : Z * Z * Z * Z :=
  let reg_s := field_d opcode in
  let reg_b := field_b opcode in
  (reg_s, reg_b, (gpr s).[reg_s], (gpr s).[reg_b]).
(* [cpu/ppc/ppcdechelpers.h:144-146] *)
Definition ppc_grab_regsda (opcode : Z) (s : ppc_state) : Z * Z * Z :=
  let '(reg_d, reg_a) := decode_ops_da opcode in (reg_d, reg_a, (gpr s).[reg_a]).
(* [cpu/ppc/ppcdechelpers.h:148-151] *)
Definition ppc_grab_regsdb (opcode : Z) (s : ppc_state) : Z * Z * Z :=
  let reg_b := field_b opcode in (field_d opcode, reg_b, (gpr s).[reg_b]).
(* [cpu/ppc/ppcdechelpers.h:200-201] *)
Definition ppc_store_iresult_reg (reg ppc_result : Z) (s : ppc_state) : ppc_state :=
  set_gpr reg ppc_result s.

(** Every operand number indexes a register of the machine. *)
Lemma field_d_range opcode : 0 <= field_d opcode < 32.
Proof. apply land_0x1F. Qed.
Lemma field_a_range opcode : 0 <= field_a opcode < 32.
Proof. apply land_0x1F. Qed.
Lemma field_b_range opcode : 0 <= field_b opcode < 32.
Proof. apply land_0x1F. Qed.

(** ** Flag helpers (cpu/ppc/ppcopcodes.cpp) *)

(* [cpu/ppc/ppcopcodes.cpp:40-52] *)
Definition ppc_changecrf0 (set_result : Z) (s : ppc_state) : ppc_state :=
  with_cr
    (Z.lor (Z.lor (Z.land (cr s) 0x0FFFFFFF)
      (if set_result =? 0 then CRx.CR_EQ
       else if s32 set_result <? 0 then CRx.CR_LT
       else CRx.CR_GT))
      (Z.shiftr (Z.land (spr s).[SPR.XER] XERB.SO) 3)) s.

(* [cpu/ppc/ppcopcodes.cpp:55-57] *)
Definition ppc_carry (ppc_result_l : Z) (s : ppc_state) : ppc_state :=
  set_spr SPR.XER
    (Z.lor (Z.land (spr s).[SPR.XER] (Z.lnot XERB.CA))
           (u32 (Z.land (Z.shiftr ppc_result_l (32 - 29)) XERB.CA))) s.

(* [cpu/ppc/ppcopcodes.cpp:60-63] *)
Definition ppc_setsoov (a b d : Z) (s : ppc_state) : ppc_state :=
  set_spr SPR.XER
    (Z.lor (Z.land (spr s).[SPR.XER] (Z.lnot XERB.OV))
           (if s32 (Z.land (Z.lxor a b) (Z.lxor a d)) <? 0
            then Z.lor XERB.SO XERB.OV else 0)) s.

(** The statements [XER |= mask] and [XER &= ~mask]. *)
Definition xer_or (mask : Z) (s : ppc_state) : ppc_state :=
  set_spr SPR.XER (Z.lor (spr s).[SPR.XER] mask) s.
Definition xer_andc (mask : Z) (s : ppc_state) : ppc_state :=
  set_spr SPR.XER (Z.land (spr s).[SPR.XER] (Z.lnot mask)) s.

(** ** What the flag helpers do, bit by bit *)

Definition xer_bit (n : Z) (s : ppc_state) : bool := Z.testbit (spr s).[SPR.XER] n.
Abbreviation xer_ca := (xer_bit 29).
Abbreviation xer_ov := (xer_bit 30).
Abbreviation xer_so := (xer_bit 31).

(** Bit [n] of the condition register in the manual's numbering: bit 0 is the
    most significant one, field [k] is bits [4k .. 4k+3] (LT, GT, EQ, SO). *)
Definition cr_bit (n : Z) (s : ppc_state) : bool := Z.testbit (cr s) (31 - n).
Arguments xer_bit : simpl never.
Arguments cr_bit : simpl never.

Lemma testbit_2p k n : 0 <= k -> 0 <= n -> Z.testbit (2 ^ k) n = (n =? k).
Proof. intros. rewrite Z.pow2_bits_eqb by done. apply Z.eqb_sym. Qed.

Ltac flag_bits :=
  cbn [spr gpr cr msr set_spr set_gpr with_spr with_gpr with_cr];
  rewrite ?rget_rset_eq, ?Z.lor_spec, ?Z.land_spec;
  rewrite ?Z.lnot_spec by lia; rewrite ?Z.lor_spec;
  rewrite ?testbit_2p by lia.

Lemma xer_bit_carry l n s : 0 <= n ->
  xer_bit n (ppc_carry l s) = if n =? 29 then Z.testbit l 32 else xer_bit n s.
Proof.
  intros Hn. unfold xer_bit, ppc_carry, XERB.CA. flag_bits.
  rewrite testbit_uwrap, Z.land_spec, Z.shiftr_spec, testbit_2p by lia.
  destruct (Z.eqb_spec n 29) as [->|]; simpl.
  - by rewrite andb_false_r, andb_true_r.
  - by rewrite !andb_false_r, andb_true_r, orb_false_r.
Qed.

Lemma xer_bit_setsoov a b d n s : 0 <= n ->
  0 <= a < 2 ^ 32 -> 0 <= b < 2 ^ 32 -> 0 <= d < 2 ^ 32 ->
  let v := xorb (Z.testbit a 31) (Z.testbit b 31) && xorb (Z.testbit a 31) (Z.testbit d 31) in
  xer_bit n (ppc_setsoov a b d s) =
  if n =? 30 then v else if n =? 31 then v || xer_so s else xer_bit n s.
Proof.
  intros Hn Ha Hb Hd v. unfold xer_bit, ppc_setsoov, XERB.OV, XERB.SO.
  rewrite s32_neg_testbit by (apply land_range_l; [lia|]; by apply lxor_range).
  rewrite Z.land_spec, !Z.lxor_spec. fold v. flag_bits.
  destruct (Z.eqb_spec n 30) as [->|]; [|destruct (Z.eqb_spec n 31) as [->|]].
  - rewrite andb_false_r. destruct v; reflexivity.
  - rewrite andb_true_r. destruct v; simpl; [by rewrite orb_true_r|by rewrite orb_false_r].
  - rewrite andb_true_r. destruct v; flag_bits; rewrite ?Z.bits_0, ?orb_false_r; [|done].
    destruct (Z.eqb_spec n 31), (Z.eqb_spec n 30); [lia..|]. by rewrite orb_false_r.
Qed.

Lemma xer_bit_or mask n s : xer_bit n (xer_or mask s) = xer_bit n s || Z.testbit mask n.
Proof. unfold xer_bit, xer_or. by flag_bits. Qed.

Lemma xer_bit_andc mask n s : 0 <= n ->
  xer_bit n (xer_andc mask s) = xer_bit n s && negb (Z.testbit mask n).
Proof. intros. unfold xer_bit, xer_andc. by flag_bits. Qed.

Lemma cr_bit_changecrf0 r n s : ppc_ok s -> 0 <= r < 2 ^ 32 -> 0 <= n < 32 ->
  cr_bit n (ppc_changecrf0 r s) =
  if n =? 0 then s32 r <? 0 else if n =? 1 then 0 <? s32 r
  else if n =? 2 then r =? 0 else if n =? 3 then xer_so s else cr_bit n s.
Proof.
  intros Hs Hr Hn. unfold cr_bit, ppc_changecrf0, xer_bit, XERB.SO, CRx.CR_EQ, CRx.CR_LT, CRx.CR_GT.
  assert (Hr0 : (r =? 0) = (s32 r =? 0)).
  { rewrite s32_alt by done. destruct (Z.ltb_spec r (2 ^ 31)), (Z.eqb_spec r 0); try lia;
      symmetry; first [apply Z.eqb_eq; lia | apply Z.eqb_neq; lia]. }
  cbn [cr with_cr]. rewrite !Z.lor_spec, Z.shiftr_spec, !Z.land_spec, testbit_2p by lia.
  change 0x0FFFFFFF with (Z.ones 28).
  destruct (Z.eqb_spec n 0) as [->|]; [|destruct (Z.eqb_spec n 1) as [->|];
    [|destruct (Z.eqb_spec n 2) as [->|]; [|destruct (Z.eqb_spec n 3) as [->|]]]].
  all: try (change (Z.testbit (Z.ones 28) _) with false; rewrite andb_false_r;
    rewrite Hr0; destruct (Z.ltb_spec (s32 r) 0), (Z.eqb_spec (s32 r) 0), (Z.ltb_spec 0 (s32 r));
    try lia; rewrite ?testbit_2p by lia; simpl; rewrite ?andb_false_r, ?andb_true_r; reflexivity).
  rewrite Z.ones_spec_low, andb_true_r by lia.
  rewrite (proj2 (Z.eqb_neq (31 - n + 3) 31)), andb_false_r, orb_false_r by lia.
  destruct (Z.eqb r 0), (s32 r <? 0); rewrite testbit_2p by lia;
    rewrite (proj2 (Z.eqb_neq _ _)) by lia; by rewrite orb_false_r.
Qed.

(** The flag helpers touch one register. *)
Lemma gpr_changecrf0 r s : gpr (ppc_changecrf0 r s) = gpr s.
Proof. reflexivity. Qed.
Lemma gpr_carry l s : gpr (ppc_carry l s) = gpr s.
Proof. reflexivity. Qed.
Lemma gpr_setsoov a b d s : gpr (ppc_setsoov a b d s) = gpr s.
Proof. reflexivity. Qed.
Lemma gpr_cond b f s : gpr (f s) = gpr s -> gpr (cond b f s) = gpr s.
Proof. by destruct b. Qed.

Lemma ppc_changecrf0_ok r s : ppc_ok s -> ppc_ok (ppc_changecrf0 r s).
Proof.
  intros Hs. apply with_cr_ok; [done|]. repeat apply lor_range; try lia.
  - apply land_range_l; [lia|]. by apply ok_cr.
  - repeat case_if; vm_compute; split; congruence.
  - apply shiftr_range; try lia. apply land_range_l; [lia|]. by apply ok_get_spr.
Qed.

Lemma ppc_carry_ok l s : ppc_ok s -> ppc_ok (ppc_carry l s).
Proof.
  intros Hs. apply set_spr_ok; [done|]. apply lor_range; [lia| |apply u32_range].
  apply land_range_l; [lia|]. by apply ok_get_spr.
Qed.

Lemma ppc_setsoov_ok a b d s : ppc_ok s -> ppc_ok (ppc_setsoov a b d s).
Proof.
  intros Hs. apply set_spr_ok; [done|]. apply lor_range; [lia| |].
  - apply land_range_l; [lia|]. by apply ok_get_spr.
  - case_if; vm_compute; split; congruence.
Qed.

Lemma xer_or_ok mask s : ppc_ok s -> 0 <= mask < 2 ^ 32 -> ppc_ok (xer_or mask s).
Proof. intros. apply set_spr_ok; [done|]. apply lor_range; [lia| |done]. by apply ok_get_spr. Qed.

Lemma xer_andc_ok mask s : ppc_ok s -> ppc_ok (xer_andc mask s).
Proof. intros. apply set_spr_ok; [done|]. apply land_range_l; [lia|]. by apply ok_get_spr. Qed.

#[export] Hint Resolve ppc_changecrf0_ok ppc_carry_ok ppc_setsoov_ok xer_or_ok xer_andc_ok : ppcok.

(** ** The effect of an integer instruction

    [int_effect s s' reg d ca ov rec]: the instruction wrote [d] to GPR [reg],
    left the carry as it was or set it to [ca], left the overflow flags as they
    were or set OV to [ov] with SO sticky, recorded the result in CR field 0 when
    [rec], and changed nothing else. *)

Definition crf0_bit (n d : Z) (so : bool) : bool :=
  if n =? 0 then s32 d <? 0 else if n =? 1 then 0 <? s32 d
  else if n =? 2 then d =? 0 else so.

Record int_effect (s s' : ppc_state) (reg d : Z) (ca ov : option bool) (rec : bool) : Prop := {
  ie_gpr : gpr s' = (gpr s).[reg := d];
  ie_ca : xer_ca s' = default (xer_ca s) ca;
  ie_ov : xer_ov s' = default (xer_ov s) ov;
  ie_so : xer_so s' = xer_so s || default false ov;
  ie_cr : forall n, 0 <= n < 32 ->
    cr_bit n s' = if rec && (n <? 4) then crf0_bit n d (xer_so s') else cr_bit n s;
  ie_spr : forall i, i <> SPR.XER -> (spr s').[i] = (spr s).[i];
  ie_xer : forall n, 0 <= n < 29 -> xer_bit n s' = xer_bit n s;
  ie_fp : fpr s' = fpr s /\ fpscr s' = fpscr s /\ tbr s' = tbr s;
  ie_msr : msr s' = msr s;
  ie_pc : pc s' = pc s;
  ie_sr : sr s' = sr s;
  ie_reserve : reserve s' = reserve s;
  ie_ok : ppc_ok s'
}.

(** The carry and overflow updates of an instruction, before the record bit. *)
Record flags_effect (s s' : ppc_state) (ca ov : option bool) : Prop := {
  fe_gpr : gpr s' = gpr s;
  fe_ca : xer_ca s' = default (xer_ca s) ca;
  fe_ov : xer_ov s' = default (xer_ov s) ov;
  fe_so : xer_so s' = xer_so s || default false ov;
  fe_cr : cr s' = cr s;
  fe_spr : forall i, i <> SPR.XER -> (spr s').[i] = (spr s).[i];
  fe_xer : forall n, 0 <= n < 29 -> xer_bit n s' = xer_bit n s;
  fe_fp : fpr s' = fpr s /\ fpscr s' = fpscr s /\ tbr s' = tbr s;
  fe_msr : msr s' = msr s;
  fe_pc : pc s' = pc s;
  fe_sr : sr s' = sr s;
  fe_reserve : reserve s' = reserve s;
  fe_ok : ppc_ok s'
}.

Lemma flags_none s : ppc_ok s -> flags_effect s s None None.
Proof. intros. split; simpl; rewrite ?orb_false_r; auto. Qed.

(** Carry first, overflow second, as every instruction does it. *)
Lemma flags_then s s1 s2 ca ov :
  flags_effect s s1 ca None -> flags_effect s1 s2 None ov -> flags_effect s s2 ca ov.
Proof.
  intros H1 H2. pose proof (fe_ov _ _ _ _ H1) as Ho. pose proof (fe_so _ _ _ _ H1) as Hso.
  simpl in Ho, Hso. rewrite orb_false_r in Hso. split.
  - rewrite (fe_gpr _ _ _ _ H2). apply H1.
  - rewrite (fe_ca _ _ _ _ H2). apply H1.
  - rewrite (fe_ov _ _ _ _ H2). by rewrite Ho.
  - rewrite (fe_so _ _ _ _ H2). by rewrite Hso.
  - rewrite (fe_cr _ _ _ _ H2). apply H1.
  - intros i Hi. rewrite (fe_spr _ _ _ _ H2) by done. by apply H1.
  - intros n Hn. rewrite (fe_xer _ _ _ _ H2) by done. by apply H1.
  - destruct (fe_fp _ _ _ _ H1) as (? & ? & ?), (fe_fp _ _ _ _ H2) as (? & ? & ?).
    split_and!; congruence.
  - rewrite (fe_msr _ _ _ _ H2). apply H1.
  - rewrite (fe_pc _ _ _ _ H2). apply H1.
  - rewrite (fe_sr _ _ _ _ H2). apply H1.
  - rewrite (fe_reserve _ _ _ _ H2). apply H1.
  - apply H2.
Qed.

Lemma flags_carry b l s : ppc_ok s ->
  flags_effect s (cond b (ppc_carry l) s) (if b then Some (Z.testbit l 32) else None) None.
Proof.
  intros Hs. destruct b; [|by apply flags_none].
  split; simpl; rewrite ?orb_false_r; try rewrite xer_bit_carry by lia; auto with ppcok.
  - intros i Hi. by rewrite rget_rset_ne.
  - intros n Hn. rewrite xer_bit_carry by lia. by rewrite (proj2 (Z.eqb_neq n 29)) by lia.
Qed.

Lemma flags_setsoov b x y d s : ppc_ok s ->
  0 <= x < 2 ^ 32 -> 0 <= y < 2 ^ 32 -> 0 <= d < 2 ^ 32 ->
  flags_effect s (cond b (ppc_setsoov x y d) s) None
    (if b then Some (xorb (Z.testbit x 31) (Z.testbit y 31) &&
                     xorb (Z.testbit x 31) (Z.testbit d 31)) else None).
Proof.
  intros Hs Hx Hy Hd. destruct b; [|by apply flags_none].
  split; simpl; try (rewrite xer_bit_setsoov by (done || lia)); auto with ppcok.
  - apply orb_comm.
  - intros i Hi. by rewrite rget_rset_ne.
  - intros n Hn. rewrite xer_bit_setsoov by (done || lia).
    by rewrite (proj2 (Z.eqb_neq n 30)), (proj2 (Z.eqb_neq n 31)) by lia.
Qed.

Lemma flags_xer b mask_or v s : ppc_ok s ->
  mask_or = Z.lor XERB.SO XERB.OV ->
  flags_effect s (cond b (fun s => if (v : bool) then xer_or mask_or s else xer_andc XERB.OV s) s)
    None (if b then Some v else None).
Proof.
  intros Hs ->. destruct b; [|by apply flags_none].
  destruct v; split; simpl; rewrite ?xer_bit_or, ?xer_bit_andc by lia; try reflexivity.
  all: try (intros i Hi; by rewrite rget_rset_ne).
  all: try (cbn [Z.testbit]; by rewrite ?orb_true_r, ?orb_false_r, ?andb_true_r, ?andb_false_r).
  all: try (intros n Hn; rewrite ?xer_bit_or, ?xer_bit_andc by lia; unfold XERB.SO, XERB.OV;
    rewrite ?Z.lor_spec, !testbit_2p by lia;
    rewrite ?(proj2 (Z.eqb_neq n 30)), ?(proj2 (Z.eqb_neq n 31)) by lia;
    by rewrite ?orb_false_r, ?andb_true_r).
  - apply xer_or_ok; [done|]. vm_compute. split; congruence.
  - by apply xer_andc_ok.
Qed.

(** The common tail: record, then write the register. *)
Lemma effect_finish s s1 reg d ca ov rec : flags_effect s s1 ca ov -> 0 <= d < 2 ^ 32 ->
  int_effect s (ppc_store_iresult_reg reg d (cond rec (ppc_changecrf0 d) s1)) reg d ca ov rec.
Proof.
  intros H Hd. pose proof (fe_ok _ _ _ _ H) as Hok. unfold ppc_store_iresult_reg. split.
  all: try (destruct rec; apply H).
  - assert (gpr (cond rec (ppc_changecrf0 d) s1) = gpr s1) as E by (by destruct rec).
    simpl. rewrite E. f_equal. apply H.
  - intros n Hn. change (cr_bit n (set_gpr reg d ?x)) with (cr_bit n x).
    assert (Hcr : cr_bit n s1 = cr_bit n s) by (unfold cr_bit; by rewrite (fe_cr _ _ _ _ H)).
    destruct rec; simpl; [|done].
    change (xer_so (set_gpr reg d (ppc_changecrf0 d s1))) with (xer_so s1).
    rewrite cr_bit_changecrf0 by done. unfold crf0_bit.
    destruct (Z.ltb_spec n 4); repeat case_if; try lia; done.
  - apply set_gpr_ok; [|done]. destruct rec; simpl; auto with ppcok.
Qed.

(** The two ways the source sets the carry from a condition. *)
Lemma flags_ca_clear_set s b : ppc_ok s ->
  flags_effect s (cond b (xer_or XERB.CA) (xer_andc XERB.CA s)) (Some b) None.
Proof.
  intros Hs. assert (0 <= XERB.CA < 2 ^ 32) by (vm_compute; split; congruence).
  destruct b; split; simpl; rewrite ?xer_bit_or, ?xer_bit_andc by lia; try reflexivity.
  all: try (intros i Hi; by rewrite ?rget_rset_ne).
  all: try (unfold XERB.CA; rewrite ?testbit_2p by lia; simpl;
            by rewrite ?orb_true_r, ?orb_false_r, ?andb_true_r, ?andb_false_r).
  all: auto with ppcok.
  all: intros n Hn; rewrite ?xer_bit_or, ?xer_bit_andc by lia; unfold XERB.CA;
    rewrite testbit_2p, (proj2 (Z.eqb_neq n 29)) by lia;
    by rewrite ?orb_false_r, ?andb_true_r.
Qed.

Definition set_ca (b : bool) (s : ppc_state) : ppc_state :=
  if b then xer_or XERB.CA s else xer_andc XERB.CA s.

Lemma flags_ca s b : ppc_ok s -> flags_effect s (set_ca b s) (Some b) None.
Proof.
  intros Hs. assert (0 <= XERB.CA < 2 ^ 32) by (vm_compute; split; congruence).
  destruct b; split; simpl; rewrite ?xer_bit_or, ?xer_bit_andc by lia; try reflexivity.
  all: try (intros i Hi; by rewrite ?rget_rset_ne).
  all: try (unfold XERB.CA; rewrite ?testbit_2p by lia; simpl;
            by rewrite ?orb_true_r, ?orb_false_r, ?andb_true_r, ?andb_false_r).
  all: auto with ppcok.
  all: intros n Hn; rewrite ?xer_bit_or, ?xer_bit_andc by lia; unfold XERB.CA;
    rewrite testbit_2p, (proj2 (Z.eqb_neq n 29)) by lia;
    by rewrite ?orb_false_r, ?andb_true_r.
Qed.

(** ** A concrete state for examples and witnesses *)

Definition demo_state : ppc_state :=
  set_gpr 3 0xFFFFFFFF (set_gpr 4 0x80000000 (set_gpr 5 1 (set_gpr 6 0x12345678
    (set_gpr 7 0xFFFFFFF9 (set_gpr 8 2
      (set_spr SPR.XER 0x20000000 (set_spr SPR.CTR 3 (set_spr SPR.LR 0x1000
        (with_cr 0x48000002 (with_pc 0x2000 ppc_zero)))))))))).

Lemma demo_ok : ppc_ok demo_state.
Proof.
  unfold demo_state. repeat first [apply set_gpr_ok | apply set_spr_ok | apply with_cr_ok
    | apply with_pc_ok | apply ppc_zero_ok | lia].
Qed.
