(* ===== verification/IntArith.v ===== *)
(** * Integer arithmetic instructions (cpu/ppc/ppcopcodes.cpp)

    Add, subtract, negate, multiply, divide and count-leading-zeros: one
    definition per instruction template, from the operand macro to the register
    write, and what each computes in terms of integers. *)
From S2P Require Import Prelude Word PpcState.

(** ** The instructions *)

(* [cpu/ppc/ppcopcodes.cpp:87-97] *)
Definition ppc_addi (shift : field_shift) (opcode : Z) (s : ppc_state) : ppc_state :=
  let '(reg_d, reg_a, simm, ppc_result_a) := ppc_grab_regsdasimm opcode s in
  if shf shift then
    set_gpr reg_d (if reg_a =? 0 then u32 (Z.shiftl simm 16)
                   else u32 (ppc_result_a + Z.shiftl simm 16)) s
  else
    set_gpr reg_d (if reg_a =? 0 then u32 simm else u32 (ppc_result_a + simm)) s.

(* [cpu/ppc/ppcopcodes.cpp:99-111] *)
Definition ppc_addic (rec : field_rc) (opcode : Z) (s : ppc_state) : ppc_state :=
  let '(reg_d, reg_a, simm, ppc_result_a) := ppc_grab_regsdasimm opcode s in
  let ppc_result_l := u64 (ppc_result_a + u32 simm) in
  let ppc_result_d := u32 ppc_result_l in
  let s := ppc_carry ppc_result_l s in
  let s := cond (rc rec) (ppc_changecrf0 ppc_result_d) s in
  ppc_store_iresult_reg reg_d ppc_result_d s.

(* [cpu/ppc/ppcopcodes.cpp:113-134] *)
Definition ppc_add (carry : field_carry) (rec : field_rc) (ov : field_ov)
    (opcode : Z) (s : ppc_state) : ppc_state :=
  let '(reg_d, reg_a, reg_b, ppc_result_a, ppc_result_b) := ppc_grab_regsdab opcode s in
  let ppc_result_l := u64 (ppc_result_a + ppc_result_b) in
  let ppc_result_d := u32 ppc_result_l in
  let s := cond (cy carry) (ppc_carry ppc_result_l) s in
  let s := cond (oe ov) (ppc_setsoov ppc_result_a (not32 ppc_result_b) ppc_result_d) s in
  let s := cond (rc rec) (ppc_changecrf0 ppc_result_d) s in
  ppc_store_iresult_reg reg_d ppc_result_d s.

(** [!!(XER & CA)] *)
Definition xer_ca_z (s : ppc_state) : Z := b2z (test (spr s).[SPR.XER] XERB.CA).

(* [cpu/ppc/ppcopcodes.cpp:136-154] *)
Definition ppc_adde (rec : field_rc) (ov : field_ov) (opcode : Z) (s : ppc_state) : ppc_state :=
  let '(reg_d, reg_a, reg_b, ppc_result_a, ppc_result_b) := ppc_grab_regsdab opcode s in
  let xer_ca := xer_ca_z s in
  let ppc_result_l := u64 (ppc_result_a + ppc_result_b + xer_ca) in
  let ppc_result_d := u32 ppc_result_l in
  let s := ppc_carry ppc_result_l s in
  let s := cond (oe ov) (ppc_setsoov ppc_result_a (not32 ppc_result_b) ppc_result_d) s in
  let s := cond (rc rec) (ppc_changecrf0 ppc_result_d) s in
  ppc_store_iresult_reg reg_d ppc_result_d s.

(* [cpu/ppc/ppcopcodes.cpp:156-174] *)
Definition ppc_addme (rec : field_rc) (ov : field_ov) (opcode : Z) (s : ppc_state) : ppc_state :=
  let '(reg_d, reg_a, ppc_result_a) := ppc_grab_regsda opcode s in
  let xer_ca := xer_ca_z s in
  let ppc_result_l := u64 (ppc_result_a + xer_ca + u32 (-1)) in
  let ppc_result_d := u32 ppc_result_l in
  let s := ppc_carry ppc_result_l s in
  let s := cond (oe ov) (ppc_setsoov ppc_result_a 0 ppc_result_d) s in
  let s := cond (rc rec) (ppc_changecrf0 ppc_result_d) s in
  ppc_store_iresult_reg reg_d ppc_result_d s.

(* [cpu/ppc/ppcopcodes.cpp:176-194] *)
Definition ppc_addze (rec : field_rc) (ov : field_ov) (opcode : Z) (s : ppc_state) : ppc_state :=
  let '(reg_d, reg_a, ppc_result_a) := ppc_grab_regsda opcode s in
  let xer_ca := xer_ca_z s in
  let ppc_result_l := u64 (ppc_result_a + xer_ca) in
  let ppc_result_d := u32 ppc_result_l in
  let s := ppc_carry ppc_result_l s in
  let s := cond (oe ov) (ppc_setsoov ppc_result_a 0xFFFFFFFF ppc_result_d) s in
  let s := cond (rc rec) (ppc_changecrf0 ppc_result_d) s in
  ppc_store_iresult_reg reg_d ppc_result_d s.

(* [cpu/ppc/ppcopcodes.cpp:196-202] *)
Definition ppc_subfic (opcode : Z) (s : ppc_state) : ppc_state :=
  let '(reg_d, reg_a, simm, ppc_result_a) := ppc_grab_regsdasimm opcode s in
  let ppc_result_l := u64 (not32 ppc_result_a + u32 simm + 1) in
  let ppc_result_d := u32 ppc_result_l in
  let s := ppc_carry ppc_result_l s in
  ppc_store_iresult_reg reg_d ppc_result_d s.

(* [cpu/ppc/ppcopcodes.cpp:204-226] *)
Definition ppc_subf (carry : field_carry) (rec : field_rc) (ov : field_ov)
    (opcode : Z) (s : ppc_state) : ppc_state :=
  let '(reg_d, reg_a, reg_b, ppc_result_a, ppc_result_b) := ppc_grab_regsdab opcode s in
  let ppc_result_l := u64 (not32 ppc_result_a + ppc_result_b + 1) in
  let ppc_result_d := u32 ppc_result_l in
  let s := cond (cy carry) (ppc_carry ppc_result_l) s in
  let s := cond (oe ov) (ppc_setsoov ppc_result_b ppc_result_a ppc_result_d) s in
  let s := cond (rc rec) (ppc_changecrf0 ppc_result_d) s in
  ppc_store_iresult_reg reg_d ppc_result_d s.

(* [cpu/ppc/ppcopcodes.cpp:228-246] *)
Definition ppc_subfe (rec : field_rc) (ov : field_ov) (opcode : Z) (s : ppc_state) : ppc_state :=
  let '(reg_d, reg_a, reg_b, ppc_result_a, ppc_result_b) := ppc_grab_regsdab opcode s in
  let xer_ca := xer_ca_z s in
  let ppc_result_l := u64 (not32 ppc_result_a + ppc_result_b + xer_ca) in
  let ppc_result_d := u32 ppc_result_l in
  let s := ppc_carry ppc_result_l s in
  let s := cond (oe ov) (ppc_setsoov ppc_result_b ppc_result_a ppc_result_d) s in
  let s := cond (rc rec) (ppc_changecrf0 ppc_result_d) s in
  ppc_store_iresult_reg reg_d ppc_result_d s.

(** The [if (condition) XER |= SO | OV; else XER &= ~OV;] of the
    instructions that decide overflow themselves. *)
Definition set_ov (overflow : bool) (s : ppc_state) : ppc_state :=
  if overflow then xer_or (Z.lor XERB.SO XERB.OV) s else xer_andc XERB.OV s.

(* [cpu/ppc/ppcopcodes.cpp:248-271] *)
Definition ppc_subfme (rec : field_rc) (ov : field_ov) (opcode : Z) (s : ppc_state) : ppc_state :=
  let '(reg_d, reg_a, ppc_result_a) := ppc_grab_regsda opcode s in
  let xer_ca := xer_ca_z s in
  let ppc_result_l := u64 (not32 ppc_result_a + xer_ca + u32 (-1)) in
  let ppc_result_d := u32 ppc_result_l in
  let s := ppc_carry ppc_result_l s in
  let s := cond (oe ov)
    (set_ov ((ppc_result_d =? ppc_result_a) && (0 <? s32 ppc_result_d))) s in
  let s := cond (rc rec) (ppc_changecrf0 ppc_result_d) s in
  ppc_store_iresult_reg reg_d ppc_result_d s.

(* [cpu/ppc/ppcopcodes.cpp:273-296] *)
Definition ppc_subfze (rec : field_rc) (ov : field_ov) (opcode : Z) (s : ppc_state) : ppc_state :=
  let '(reg_d, reg_a, ppc_result_a) := ppc_grab_regsda opcode s in
  let xer_ca := xer_ca_z s in
  let ppc_result_l := u64 (not32 ppc_result_a + xer_ca) in
  let ppc_result_d := u32 ppc_result_l in
  let s := ppc_carry ppc_result_l s in
  let s := cond (oe ov)
    (set_ov (negb (ppc_result_d =? 0) && (ppc_result_d =? ppc_result_a))) s in
  let s := cond (rc rec) (ppc_changecrf0 ppc_result_d) s in
  ppc_store_iresult_reg reg_d ppc_result_d s.

(* [cpu/ppc/ppcopcodes.cpp:372-393] *)
Definition ppc_neg (rec : field_rc) (ov : field_ov) (opcode : Z) (s : ppc_state) : ppc_state :=
  let '(reg_d, reg_a, ppc_result_a) := ppc_grab_regsda opcode s in
  let ppc_result_d := u32 (not32 ppc_result_a + 1) in
  let s := cond (oe ov) (set_ov (ppc_result_a =? 0x80000000)) s in
  let s := cond (rc rec) (ppc_changecrf0 ppc_result_d) s in
  ppc_store_iresult_reg reg_d ppc_result_d s.

(** The portable loop of [ppc_cntlzw]: [fuel] bounds the iterations; the mask
    is 0 after 32 of them. *)
Fixpoint cntlzw_loop (fuel : nat) (bit_check mask lead : Z) : Z :=
  match fuel with
  | O => lead
  | S fuel =>
      if negb (mask =? 0) then
        if test bit_check mask then lead
        else cntlzw_loop fuel bit_check (Z.shiftr mask 1) (lead + 1)
      else lead
  end.

(* [cpu/ppc/ppcopcodes.cpp:395-423] *)
Definition ppc_cntlzw (rec : field_rc) (opcode : Z) (s : ppc_state) : ppc_state :=
  let '(reg_s, reg_a, ppc_result_d, _) := ppc_grab_regssa opcode s in
  let bit_check := ppc_result_d in
  let lead := cntlzw_loop 33 bit_check 0x80000000 0 in
  let ppc_result_a := lead in
  let s := cond (rc rec) (ppc_changecrf0 ppc_result_a) s in
  ppc_store_iresult_reg reg_a ppc_result_a s.

(* [cpu/ppc/ppcopcodes.cpp:425-438] *)
Definition ppc_mulhwu (rec : field_rc) (opcode : Z) (s : ppc_state) : ppc_state :=
  let '(reg_d, reg_a, reg_b, ppc_result_a, ppc_result_b) := ppc_grab_regsdab opcode s in
  let product := u64 (ppc_result_a * ppc_result_b) in
  let ppc_result_d := u32 (Z.shiftr product 32) in
  let s := cond (rc rec) (ppc_changecrf0 ppc_result_d) s in
  ppc_store_iresult_reg reg_d ppc_result_d s.

(* [cpu/ppc/ppcopcodes.cpp:440-453] *)
Definition ppc_mulhw (rec : field_rc) (opcode : Z) (s : ppc_state) : ppc_state :=
  let '(reg_d, reg_a, reg_b, ppc_result_a, ppc_result_b) := ppc_grab_regsdab opcode s in
  let product := s64 (s32 ppc_result_a * s32 ppc_result_b) in
  let ppc_result_d := u32 (Z.shiftr product 32) in
  let s := cond (rc rec) (ppc_changecrf0 ppc_result_d) s in
  ppc_store_iresult_reg reg_d ppc_result_d s.

(* [cpu/ppc/ppcopcodes.cpp:455-479] *)
Definition ppc_mullw (rec : field_rc) (ov : field_ov) (opcode : Z) (s : ppc_state) : ppc_state :=
  let '(reg_d, reg_a, reg_b, ppc_result_a, ppc_result_b) := ppc_grab_regsdab opcode s in
  let product := s64 (s32 ppc_result_a * s32 ppc_result_b) in
  let s := cond (oe ov) (set_ov (negb (product =? s32 product))) s in
  let ppc_result_d := u32 product in
  let s := cond (rc rec) (ppc_changecrf0 ppc_result_d) s in
  ppc_store_iresult_reg reg_d ppc_result_d s.

(* [cpu/ppc/ppcopcodes.cpp:481-486] *)
Definition ppc_mulli (opcode : Z) (s : ppc_state) : ppc_state :=
  let '(reg_d, reg_a, simm, ppc_result_a) := ppc_grab_regsdasimm opcode s in
  let product := s64 (s32 ppc_result_a * s32 simm) in
  let ppc_result_d := u32 product in
  ppc_store_iresult_reg reg_d ppc_result_d s.

(* [cpu/ppc/ppcopcodes.cpp:488-528] *)
Definition ppc_divw (is_601 : bool) (rec : field_rc) (ov : field_ov)
    (opcode : Z) (s : ppc_state) : ppc_state :=
  let '(reg_d, reg_a, reg_b, ppc_result_a, ppc_result_b) := ppc_grab_regsdab opcode s in
  let '(ppc_result_d, s) :=
    if ppc_result_b =? 0 then
      (if is_601 then (if s32 ppc_result_a <? 0 then 1 else u32 (-1)) else 0,
       cond (oe ov) (xer_or (Z.lor XERB.SO XERB.OV)) s)
    else if (ppc_result_a =? 0x80000000) && (ppc_result_b =? 0xFFFFFFFF) then
      (if is_601 then 0x80000000 else 0,
       cond (oe ov) (xer_or (Z.lor XERB.SO XERB.OV)) s)
    else
      (u32 (Z.quot (s32 ppc_result_a) (s32 ppc_result_b)),
       cond (oe ov) (xer_andc XERB.OV) s) in
  let s := cond (rc rec) (ppc_changecrf0 ppc_result_d) s in
  ppc_store_iresult_reg reg_d ppc_result_d s.

(* [cpu/ppc/ppcopcodes.cpp:530-562] *)
Definition ppc_divwu (is_601 : bool) (rec : field_rc) (ov : field_ov)
    (opcode : Z) (s : ppc_state) : ppc_state :=
  let '(reg_d, reg_a, reg_b, ppc_result_a, ppc_result_b) := ppc_grab_regsdab opcode s in
  let '(ppc_result_d, s) :=
    if ppc_result_b =? 0 then
      let s := cond (oe ov) (xer_or (Z.lor XERB.SO XERB.OV)) s in
      let s := cond (rc rec) (fun s => with_cr (Z.lor (cr s) 0x20000000) s) s in
      (if is_601 then u32 (-1) else 0, s)
    else
      (ppc_result_a / ppc_result_b, cond (oe ov) (xer_andc XERB.OV) s) in
  let s := cond (rc rec) (ppc_changecrf0 ppc_result_d) s in
  ppc_store_iresult_reg reg_d ppc_result_d s.

(** ** Smoke tests *)

(** add. r3,r4,r5 and divw r3,r4,r5 *)
Example add_7_8 : (gpr (ppc_add CARRY1 RC1 OV1 0x7C642A15
  (set_gpr 4 7 (set_gpr 5 8 ppc_zero)))).[3] = 15.
Proof. reflexivity. Qed.
Example divw_m7_2 : (gpr (ppc_divw false RC0 OV0 0x7C642BD6
  (set_gpr 4 (u32 (-7)) (set_gpr 5 2 ppc_zero)))).[3] = u32 (-3).
Proof. reflexivity. Qed.

(** ** Addition with carry

    Every add and subtract instruction computes [x + y + c] on 32-bit operands
    with a carry-in bit; a subtraction complements one operand. *)

Definition s32_fits (x : Z) : bool := (- 2 ^ 31 <=? x) && (x <? 2 ^ 31).

Section AddCarry.
Context (x y c : Z) (Hx : 0 <= x < 2 ^ 32) (Hy : 0 <= y < 2 ^ 32) (Hc : 0 <= c <= 1).

Lemma adc_low : u32 (u64 (x + y + c)) = (x + y + c) mod 2 ^ 32.
Proof. rewrite (uwrap_small 64); [done | lia]. Qed.

Lemma adc_carry : Z.testbit (u64 (x + y + c)) 32 = (2 ^ 32 <=? x + y + c).
Proof.
  rewrite (uwrap_small 64) by lia.
  destruct (Z.leb_spec (2 ^ 32) (x + y + c)).
  - apply Z.testbit_true; [lia|]. replace ((x + y + c) / 2 ^ 32) with 1; [done|].
    apply Z.div_unique with (r := x + y + c - 2 ^ 32); lia.
  - apply (testbit_high 32); lia.
Qed.

Lemma adc_overflow :
  let d := (x + y + c) mod 2 ^ 32 in
  xorb (Z.testbit x 31) (Z.testbit (not32 y) 31) && xorb (Z.testbit x 31) (Z.testbit d 31)
  = negb (s32_fits (s32 x + s32 y + c)).
Proof.
  intros d. assert (Hd : 0 <= d < 2 ^ 32) by (apply Z.mod_pos_bound; lia).
  assert (d = x + y + c \/ d = x + y + c - 2 ^ 32) as Hdx.
  { subst d. destruct (Z.lt_ge_cases (x + y + c) (2 ^ 32)).
    - left. apply Z.mod_small. lia.
    - right. symmetry. apply Z.mod_unique with (q := 1); lia. }
  pose proof (not32_eq y Hy) as En. pose proof (not32_range y) as Hn.
  rewrite <- !s32_neg_testbit by done.
  rewrite !s32_alt by done. unfold s32_fits.
  destruct (Z.ltb_spec x (2 ^ 31)), (Z.ltb_spec y (2 ^ 31)), (Z.ltb_spec (not32 y) (2 ^ 31)),
    (Z.ltb_spec d (2 ^ 31)); try lia;
  repeat match goal with
  | |- context [?a <? 0] => destruct (Z.ltb_spec a 0); try lia
  end; simpl; symmetry;
  first [ apply negb_true_iff; apply andb_false_iff; first [left; apply Z.leb_gt; lia | right; apply Z.ltb_ge; lia]
        | apply negb_false_iff; apply andb_true_iff; split; [apply Z.leb_le | apply Z.ltb_lt]; lia ].
Qed.

(** The whole tail shared by the add and subtract instructions. *)
Lemma adc_effect s reg b_cy b_oe b_rc ny : ppc_ok s -> ny = not32 y ->
  let l := u64 (x + y + c) in
  let d := u32 l in
  int_effect s
    (ppc_store_iresult_reg reg d (cond b_rc (ppc_changecrf0 d)
      (cond b_oe (ppc_setsoov x ny d) (cond b_cy (ppc_carry l) s))))
    reg ((x + y + c) mod 2 ^ 32)
    (if b_cy then Some (2 ^ 32 <=? x + y + c) else None)
    (if b_oe then Some (negb (s32_fits (s32 x + s32 y + c))) else None) b_rc.
Proof.
  intros Hs -> l d. subst d. replace (u32 l) with ((x + y + c) mod 2 ^ 32) by (symmetry; apply adc_low).
  assert (Hd : 0 <= (x + y + c) mod 2 ^ 32 < 2 ^ 32) by (apply Z.mod_pos_bound; lia).
  apply effect_finish; [|done].
  pose proof (flags_carry b_cy l s Hs) as H1. subst l. rewrite adc_carry in H1.
  eapply flags_then; [exact H1|]. rewrite <- adc_overflow.
  apply flags_setsoov; [apply (fe_ok _ _ _ _ H1) | done | apply not32_range | done].
Qed.
End AddCarry.

Lemma not32_involutive x : 0 <= x < 2 ^ 32 -> not32 (not32 x) = x.
Proof. intros. rewrite (not32_eq (not32 x)), (not32_eq x); [lia | done | apply not32_range]. Qed.

Lemma s32_not32 x : 0 <= x < 2 ^ 32 -> s32 (not32 x) = - s32 x - 1.
Proof.
  intros. pose proof (not32_range x). rewrite !s32_alt, not32_eq by done.
  destruct (Z.ltb_spec x (2 ^ 31)), (Z.ltb_spec (2 ^ 32 - 1 - x) (2 ^ 31)); lia.
Qed.

Lemma u32_s16_range opcode : 0 <= u32 (s16 opcode) < 2 ^ 32.
Proof. apply u32_range. Qed.

Lemma xer_ca_z_bit s : xer_ca_z s = b2z (xer_ca s).
Proof. unfold xer_ca_z, XERB.CA. by rewrite test_pow2. Qed.

Lemma xer_ca_z_range s : 0 <= xer_ca_z s <= 1.
Proof. rewrite xer_ca_z_bit. destruct (xer_ca s); simpl; lia. Qed.

Section Effects.
Context (s : ppc_state) (Hs : ppc_ok s) (opcode : Z).
Let D := field_d opcode.
Let A := (gpr s).[field_a opcode].
Let B := (gpr s).[field_b opcode].

Let HA : 0 <= A < 2 ^ 32 := ok_get_gpr s Hs _.
Let HB : 0 <= B < 2 ^ 32 := ok_get_gpr s Hs _.

(** [rD <- rA + rB]; carry out of bit 0; overflow of the signed sum. *)
Lemma add_effect carry rec ov :
  int_effect s (ppc_add carry rec ov opcode s) D ((A + B) mod 2 ^ 32)
    (if cy carry then Some (2 ^ 32 <=? A + B) else None)
    (if oe ov then Some (negb (s32_fits (s32 A + s32 B))) else None) (rc rec).
Proof.
  pose proof (adc_effect A B 0 HA HB ltac:(lia) s D (cy carry) (oe ov) (rc rec) _ Hs eq_refl) as H.
  rewrite !Z.add_0_r in H. exact H.
Qed.

Lemma addic_effect rec :
  int_effect s (ppc_addic rec opcode s) D ((A + u32 (s16 opcode)) mod 2 ^ 32)
    (Some (2 ^ 32 <=? A + u32 (s16 opcode))) None (rc rec).
Proof.
  pose proof (adc_effect A (u32 (s16 opcode)) 0 HA (u32_s16_range opcode) ltac:(lia)
    s D true false (rc rec) _ Hs eq_refl) as H.
  rewrite !Z.add_0_r in H. exact H.
Qed.

Lemma adde_effect rec ov :
  int_effect s (ppc_adde rec ov opcode s) D ((A + B + xer_ca_z s) mod 2 ^ 32)
    (Some (2 ^ 32 <=? A + B + xer_ca_z s))
    (if oe ov then Some (negb (s32_fits (s32 A + s32 B + xer_ca_z s))) else None) (rc rec).
Proof.
  exact (adc_effect A B _ HA HB (xer_ca_z_range s) s D true (oe ov) (rc rec) _ Hs eq_refl).
Qed.

Lemma addme_effect rec ov :
  int_effect s (ppc_addme rec ov opcode s) D ((A + xer_ca_z s - 1) mod 2 ^ 32)
    (Some (1 <=? A + xer_ca_z s))
    (if oe ov then Some (negb (s32_fits (s32 A + xer_ca_z s - 1))) else None) (rc rec).
Proof.
  pose proof (adc_effect A (2 ^ 32 - 1) _ HA ltac:(lia) (xer_ca_z_range s)
    s D true (oe ov) (rc rec) 0 Hs eq_refl) as H.
  unfold ppc_addme. cbn [ppc_grab_regsda decode_ops_da]. fold A D.
  change (u32 (-1)) with (2 ^ 32 - 1).
  change (s32 (2 ^ 32 - 1)) with (-1) in H.
  replace (A + xer_ca_z s + (2 ^ 32 - 1)) with (A + (2 ^ 32 - 1) + xer_ca_z s) by lia.
  replace ((A + xer_ca_z s - 1) mod 2 ^ 32) with ((A + (2 ^ 32 - 1) + xer_ca_z s) mod 2 ^ 32).
  2:{ rewrite <- (Z_mod_plus_full (A + xer_ca_z s - 1) 1 (2 ^ 32)). f_equal. lia. }
  replace (1 <=? A + xer_ca_z s) with (2 ^ 32 <=? A + (2 ^ 32 - 1) + xer_ca_z s).
  2:{ destruct (Z.leb_spec (2 ^ 32) (A + (2 ^ 32 - 1) + xer_ca_z s)), (Z.leb_spec 1 (A + xer_ca_z s)); lia. }
  replace (s32 A + xer_ca_z s - 1) with (s32 A + -1 + xer_ca_z s) by lia.
  exact H.
Qed.

Lemma addze_effect rec ov :
  int_effect s (ppc_addze rec ov opcode s) D ((A + xer_ca_z s) mod 2 ^ 32)
    (Some (2 ^ 32 <=? A + xer_ca_z s))
    (if oe ov then Some (negb (s32_fits (s32 A + xer_ca_z s))) else None) (rc rec).
Proof.
  pose proof (adc_effect A 0 _ HA ltac:(lia) (xer_ca_z_range s)
    s D true (oe ov) (rc rec) 0xFFFFFFFF Hs eq_refl) as H.
  change (s32 0) with 0 in H. rewrite !Z.add_0_r in H. exact H.
Qed.

(** [x - y - 1 + c] through the complement. *)
Lemma sub_mod x y c : 0 <= y < 2 ^ 32 ->
  (x + not32 y + c) mod 2 ^ 32 = (x - y - 1 + c) mod 2 ^ 32.
Proof.
  intros. rewrite not32_eq by done. rewrite <- (Z_mod_plus_full (x - y - 1 + c) 1 (2 ^ 32)).
  f_equal. lia.
Qed.

(** The general subtraction [y - x - 1 + c]: carry means no borrow. *)
Lemma sbc_effect x y c reg b_cy b_oe b_rc l :
  0 <= x < 2 ^ 32 -> 0 <= y < 2 ^ 32 -> 0 <= c <= 1 -> l = u64 (not32 x + y + c) ->
  int_effect s
    (ppc_store_iresult_reg reg (u32 l) (cond b_rc (ppc_changecrf0 (u32 l))
      (cond b_oe (ppc_setsoov y x (u32 l)) (cond b_cy (ppc_carry l) s))))
    reg ((y - x - 1 + c) mod 2 ^ 32)
    (if b_cy then Some (x + 1 <=? y + c) else None)
    (if b_oe then Some (negb (s32_fits (s32 y - s32 x - 1 + c))) else None) b_rc.
Proof.
  intros Hx Hy Hc ->.
  pose proof (adc_effect y (not32 x) c Hy (not32_range x) Hc s reg b_cy b_oe b_rc x Hs
    (eq_sym (not32_involutive x Hx))) as H.
  rewrite (Z.add_comm (not32 x) y), <- sub_mod by done.
  replace (x + 1 <=? y + c) with (2 ^ 32 <=? y + not32 x + c).
  2:{ rewrite not32_eq by done.
      destruct (Z.leb_spec (2 ^ 32) (y + (2 ^ 32 - 1 - x) + c)), (Z.leb_spec (x + 1) (y + c)); lia. }
  rewrite s32_not32 in H by done.
  replace (s32 y - s32 x - 1 + c) with (s32 y + (- s32 x - 1) + c) by lia.
  exact H.
Qed.

(** [rD <- rB - rA]; carry is the absence of a borrow. *)
Lemma subf_effect carry rec ov :
  int_effect s (ppc_subf carry rec ov opcode s) D ((B - A) mod 2 ^ 32)
    (if cy carry then Some (A <=? B) else None)
    (if oe ov then Some (negb (s32_fits (s32 B - s32 A))) else None) (rc rec).
Proof.
  pose proof (sbc_effect A B 1 D (cy carry) (oe ov) (rc rec) _ HA HB ltac:(lia) eq_refl) as H.
  replace (B - A - 1 + 1) with (B - A) in H by lia.
  replace (s32 B - s32 A - 1 + 1) with (s32 B - s32 A) in H by lia.
  replace (A + 1 <=? B + 1) with (A <=? B) in H; [exact H|].
  destruct (Z.leb_spec A B), (Z.leb_spec (A + 1) (B + 1)); lia.
Qed.

Lemma subfe_effect rec ov :
  int_effect s (ppc_subfe rec ov opcode s) D ((B - A - 1 + xer_ca_z s) mod 2 ^ 32)
    (Some (A + 1 <=? B + xer_ca_z s))
    (if oe ov then Some (negb (s32_fits (s32 B - s32 A - 1 + xer_ca_z s))) else None) (rc rec).
Proof.
  exact (sbc_effect A B _ D true (oe ov) (rc rec) _ HA HB (xer_ca_z_range s) eq_refl).
Qed.

Lemma subfic_effect :
  int_effect s (ppc_subfic opcode s) D ((s16 opcode - A) mod 2 ^ 32)
    (Some (A <=? u32 (s16 opcode))) None false.
Proof.
  pose proof (sbc_effect A (u32 (s16 opcode)) 1 D true false false _ HA
    (u32_s16_range opcode) ltac:(lia) eq_refl) as H.
  replace (u32 (s16 opcode) - A - 1 + 1) with (u32 (s16 opcode) - A) in H by lia.
  assert ((u32 (s16 opcode) - A) mod 2 ^ 32 = (s16 opcode - A) mod 2 ^ 32) as E
    by (unfold uwrap; apply Zminus_mod_idemp_l).
  rewrite E in H.
  replace (A + 1 <=? u32 (s16 opcode) + 1) with (A <=? u32 (s16 opcode)) in H; [exact H|].
  destruct (Z.leb_spec A (u32 (s16 opcode))), (Z.leb_spec (A + 1) (u32 (s16 opcode) + 1)); lia.
Qed.
End Effects.

(** ** Signed products and quotients *)

Lemma s32_prod_range x y : - 2 ^ 62 <= s32 x * s32 y <= 2 ^ 62.
Proof. pose proof (s32_range x). pose proof (s32_range y). nia. Qed.

Lemma s64_prod x y : s64 (s32 x * s32 y) = s32 x * s32 y.
Proof.
  pose proof (s32_prod_range x y). unfold swrap at 1. rewrite Z.mod_small; lia.
Qed.

Lemma s32_fixed x : (x =? s32 x) = s32_fits x.
Proof.
  unfold s32_fits. pose proof (s32_range x).
  destruct (Z.eqb_spec x (s32 x)), (Z.leb_spec (- 2 ^ 31) x), (Z.ltb_spec x (2 ^ 31));
    simpl; try lia; try done.
  exfalso. apply n. symmetry. apply s32_small. lia.
Qed.

Lemma quot_range a b : b <> 0 -> - 2 ^ 31 <= a < 2 ^ 31 -> ~ (a = - 2 ^ 31 /\ b = -1) ->
    - 2 ^ 31 <= Z.quot a b < 2 ^ 31.
Proof. intros. zlia || znia. Qed.

(** ** Instructions that decide overflow by inspection *)

Section Inspected.
Context (s : ppc_state) (Hs : ppc_ok s) (opcode : Z).
Let D := field_d opcode.
Let A := (gpr s).[field_a opcode].
Let B := (gpr s).[field_b opcode].
Let HA : 0 <= A < 2 ^ 32 := ok_get_gpr s Hs _.
Let HB : 0 <= B < 2 ^ 32 := ok_get_gpr s Hs _.

Lemma set_ov_effect b v : flags_effect s (cond b (set_ov v) s) None (if b then Some v else None).
Proof. exact (flags_xer b _ v s Hs eq_refl). Qed.

Lemma carry_set_ov_effect l b v :
  flags_effect s (cond b (set_ov v) (ppc_carry l s))
    (Some (Z.testbit l 32)) (if b then Some v else None).
Proof.
  eapply flags_then; [exact (flags_carry true l s Hs)|].
  apply (flags_xer b _ v); [by apply ppc_carry_ok | done].
Qed.

(** The overflow tests of [subfme] and [subfze] are exact. *)
Lemma subfme_overflow x c : 0 <= x < 2 ^ 32 -> 0 <= c <= 1 ->
  let d := (not32 x + (2 ^ 32 - 1) + c) mod 2 ^ 32 in
  (d =? x) && (0 <? s32 d) = negb (s32_fits (- s32 x - 2 + c)).
Proof.
  intros Hx Hc d. assert (Hd : 0 <= d < 2 ^ 32) by (apply Z.mod_pos_bound; lia).
  assert (d = 2 ^ 32 - 2 - x + c \/ d = 2 ^ 32 - 2 - x + c + 2 ^ 32 \/ d = 2 ^ 32 - 2 - x + c - 2 ^ 32) as He.
  { subst d. rewrite not32_eq by done. zlia. }
  rewrite !s32_alt by done. unfold s32_fits.
  destruct (Z.ltb_spec x (2 ^ 31)), (Z.ltb_spec d (2 ^ 31)), (Z.eqb_spec d x);
    repeat match goal with
    | |- context [?a <? ?b] => destruct (Z.ltb_spec a b); try lia
    | |- context [?a <=? ?b] => destruct (Z.leb_spec a b); try lia
    end; reflexivity || lia.
Qed.

Lemma subfze_overflow x c : 0 <= x < 2 ^ 32 -> 0 <= c <= 1 ->
  let d := (not32 x + c) mod 2 ^ 32 in
  negb (d =? 0) && (d =? x) = negb (s32_fits (- s32 x - 1 + c)).
Proof.
  intros Hx Hc d. assert (Hd : 0 <= d < 2 ^ 32) by (apply Z.mod_pos_bound; lia).
  assert (d = 2 ^ 32 - 1 - x + c \/ d = 2 ^ 32 - 1 - x + c - 2 ^ 32) as He.
  { subst d. rewrite not32_eq by done. zlia. }
  rewrite !s32_alt by done. unfold s32_fits.
  destruct (Z.ltb_spec x (2 ^ 31)), (Z.eqb_spec d 0), (Z.eqb_spec d x);
    repeat match goal with
    | |- context [?a <? ?b] => destruct (Z.ltb_spec a b); try lia
    | |- context [?a <=? ?b] => destruct (Z.leb_spec a b); try lia
    end; reflexivity || lia.
Qed.

Lemma subfme_effect rec ov :
  int_effect s (ppc_subfme rec ov opcode s) D ((- A - 2 + xer_ca_z s) mod 2 ^ 32)
    (Some (A + 2 <=? 2 ^ 32 + xer_ca_z s))
    (if oe ov then Some (negb (s32_fits (- s32 A - 2 + xer_ca_z s))) else None) (rc rec).
Proof.
  unfold ppc_subfme. cbn [ppc_grab_regsda decode_ops_da]. fold A D.
  pose proof (xer_ca_z_range s) as Hc. pose proof (not32_range A) as Hn.
  change (u32 (-1)) with (2 ^ 32 - 1).
  replace (not32 A + xer_ca_z s + (2 ^ 32 - 1)) with (not32 A + (2 ^ 32 - 1) + xer_ca_z s) by lia.
  rewrite <- subfme_overflow by done.
  rewrite adc_low by lia.
  replace ((- A - 2 + xer_ca_z s) mod 2 ^ 32) with ((not32 A + (2 ^ 32 - 1) + xer_ca_z s) mod 2 ^ 32).
  2:{ rewrite not32_eq by done. rewrite <- (Z_mod_plus_full (- A - 2 + xer_ca_z s) 2 (2 ^ 32)). f_equal. lia. }
  replace (A + 2 <=? 2 ^ 32 + xer_ca_z s) with (2 ^ 32 <=? not32 A + (2 ^ 32 - 1) + xer_ca_z s).
  2:{ rewrite not32_eq by done. destruct (Z.leb_spec (A + 2) (2 ^ 32 + xer_ca_z s));
      [apply Z.leb_le | apply Z.leb_gt]; lia. }
  rewrite <- adc_carry by lia.
  apply effect_finish; [apply carry_set_ov_effect | apply Z.mod_pos_bound; lia].
Qed.

Lemma subfze_effect rec ov :
  int_effect s (ppc_subfze rec ov opcode s) D ((- A - 1 + xer_ca_z s) mod 2 ^ 32)
    (Some (A + 1 <=? xer_ca_z s))
    (if oe ov then Some (negb (s32_fits (- s32 A - 1 + xer_ca_z s))) else None) (rc rec).
Proof.
  unfold ppc_subfze. cbn [ppc_grab_regsda decode_ops_da]. fold A D.
  pose proof (xer_ca_z_range s) as Hc. pose proof (not32_range A) as Hn.
  rewrite <- subfze_overflow by done.
  replace (not32 A + xer_ca_z s) with (not32 A + 0 + xer_ca_z s) by lia.
  rewrite adc_low by lia.
  replace ((- A - 1 + xer_ca_z s) mod 2 ^ 32) with ((not32 A + 0 + xer_ca_z s) mod 2 ^ 32).
  2:{ rewrite not32_eq by done. rewrite <- (Z_mod_plus_full (- A - 1 + xer_ca_z s) 1 (2 ^ 32)). f_equal. lia. }
  replace (A + 1 <=? xer_ca_z s) with (2 ^ 32 <=? not32 A + 0 + xer_ca_z s).
  2:{ rewrite not32_eq by done. destruct (Z.leb_spec (A + 1) (xer_ca_z s));
      [apply Z.leb_le | apply Z.leb_gt]; lia. }
  rewrite <- adc_carry by lia. rewrite Z.add_0_r.
  apply effect_finish; [apply carry_set_ov_effect | apply Z.mod_pos_bound; lia].
Qed.

Lemma neg_effect rec ov :
  int_effect s (ppc_neg rec ov opcode s) D ((- A) mod 2 ^ 32) None
    (if oe ov then Some (negb (s32_fits (- s32 A))) else None) (rc rec).
Proof.
  unfold ppc_neg. cbn [ppc_grab_regsda decode_ops_da]. fold A D.
  assert (u32 (not32 A + 1) = (- A) mod 2 ^ 32) as ->.
  { unfold uwrap. rewrite not32_eq by done. rewrite <- (Z_mod_plus_full (- A) 1 (2 ^ 32)). f_equal. lia. }
  assert (negb (s32_fits (- s32 A)) = (A =? 0x80000000)) as ->.
  { rewrite s32_alt by done. unfold s32_fits. destruct (Z.eqb_spec A 0x80000000), (Z.ltb_spec A (2 ^ 31));
      repeat match goal with
      | |- context [?a <? ?b] => destruct (Z.ltb_spec a b); try lia
      | |- context [?a <=? ?b] => destruct (Z.leb_spec a b); try lia
      end; reflexivity || lia. }
  apply effect_finish; [apply set_ov_effect | apply Z.mod_pos_bound; lia].
Qed.

(** ** Multiplication *)

Lemma mulhwu_effect rec :
  int_effect s (ppc_mulhwu rec opcode s) D (A * B / 2 ^ 32) None None (rc rec).
Proof.
  unfold ppc_mulhwu. cbn [ppc_grab_regsdab decode_ops_dab]. fold A B D.
  assert (0 <= A * B / 2 ^ 32 < 2 ^ 32).
  { split; [apply Z.div_pos; nia | apply Z.div_lt_upper_bound; nia]. }
  rewrite (uwrap_small 64), Z.shiftr_div_pow2, uwrap_small by nia.
  apply effect_finish; [by apply flags_none | done].
Qed.

Lemma mulhw_effect rec :
  int_effect s (ppc_mulhw rec opcode s) D ((s32 A * s32 B / 2 ^ 32) mod 2 ^ 32) None None (rc rec).
Proof.
  unfold ppc_mulhw. cbn [ppc_grab_regsdab decode_ops_dab]. fold A B D.
  rewrite s64_prod, Z.shiftr_div_pow2 by lia.
  apply effect_finish; [by apply flags_none | apply u32_range].
Qed.

Lemma mullw_effect rec ov :
  int_effect s (ppc_mullw rec ov opcode s) D ((s32 A * s32 B) mod 2 ^ 32) None
    (if oe ov then Some (negb (s32_fits (s32 A * s32 B))) else None) (rc rec).
Proof.
  unfold ppc_mullw. cbn [ppc_grab_regsdab decode_ops_dab]. fold A B D.
  rewrite s64_prod, s32_fixed.
  apply effect_finish; [apply set_ov_effect | apply u32_range].
Qed.

Lemma mulli_effect :
  int_effect s (ppc_mulli opcode s) D ((s32 A * s16 opcode) mod 2 ^ 32) None None false.
Proof.
  unfold ppc_mulli. cbn [ppc_grab_regsdasimm decode_ops_dasimm]. fold A D.
  rewrite s64_prod. pose proof (swrap_range 16 opcode ltac:(lia)).
  rewrite (s32_small (s16 opcode)) by lia.
  apply (effect_finish s s D _ None None false); [by apply flags_none | apply u32_range].
Qed.

(** ** Division *)

(** Signed division truncates; the two undefined cases set OV and give the
      result that depends on the processor version. *)
Lemma divw_effect is_601 rec ov :
  int_effect s (ppc_divw is_601 rec ov opcode s) D
    (if B =? 0 then (if is_601 then (if s32 A <? 0 then 1 else 2 ^ 32 - 1) else 0)
     else if (s32 A =? - 2 ^ 31) && (s32 B =? -1) then (if is_601 then 2 ^ 31 else 0)
     else Z.quot (s32 A) (s32 B) mod 2 ^ 32) None
    (if oe ov then Some ((B =? 0) || (s32 A =? - 2 ^ 31) && (s32 B =? -1)) else None) (rc rec).
Proof.
  unfold ppc_divw. cbn [ppc_grab_regsdab decode_ops_dab]. fold A B D.
  assert ((s32 A =? - 2 ^ 31) = (A =? 0x80000000)) as ->.
  { rewrite s32_alt by done. destruct (Z.ltb_spec A (2 ^ 31)), (Z.eqb_spec A 0x80000000);
      try lia; first [apply Z.eqb_eq; lia | apply Z.eqb_neq; lia]. }
  assert ((s32 B =? -1) = (B =? 0xFFFFFFFF)) as ->.
  { rewrite s32_alt by done. destruct (Z.ltb_spec B (2 ^ 31)), (Z.eqb_spec B 0xFFFFFFFF);
      try lia; first [apply Z.eqb_eq; lia | apply Z.eqb_neq; lia]. }
  pose proof (set_ov_effect (oe ov)) as Hf. change (u32 (-1)) with (2 ^ 32 - 1).
  destruct (B =? 0); simpl.
  - apply effect_finish; [apply (Hf true)|]. repeat case_if; lia.
  - destruct (_ && _).
    + apply effect_finish; [apply (Hf true)|]. repeat case_if; lia.
    + apply effect_finish; [apply (Hf false) | apply u32_range].
Qed.
End Inspected.

Lemma divwu_effect s (Hs : ppc_ok s) is_601 rec ov opcode :
  let A := (gpr s).[field_a opcode] in
  let B := (gpr s).[field_b opcode] in
  int_effect s (ppc_divwu is_601 rec ov opcode s) (field_d opcode)
    (if B =? 0 then (if is_601 then 2 ^ 32 - 1 else 0) else A / B) None
    (if oe ov then Some (B =? 0) else None) (rc rec).
Proof.
  intros A B. pose proof (ok_get_gpr s Hs (field_a opcode)) as HA. fold A in HA.
  pose proof (ok_get_gpr s Hs (field_b opcode)) as HB. fold B in HB.
  unfold ppc_divwu. cbn [ppc_grab_regsdab decode_ops_dab]. fold A B.
  pose proof (set_ov_effect s Hs (oe ov)) as Hf. change (u32 (-1)) with (2 ^ 32 - 1).
  destruct (Z.eqb_spec B 0).
  - assert (0 <= (if is_601 then 2 ^ 32 - 1 else 0) < 2 ^ 32) as Hd by (destruct is_601; lia).
    revert Hd. generalize (if is_601 then 2 ^ 32 - 1 else 0) as d. intros d Hd.
    pose proof (effect_finish s _ (field_d opcode) d _ _ (rc rec) (Hf true) Hd) as He.
    (* CR is overwritten in field 0 by the record step *)
    destruct (rc rec); simpl in *; [|exact He].
    replace (ppc_changecrf0 d (with_cr _ _)) with
      (ppc_changecrf0 d (cond (oe ov) (xer_or (Z.lor XERB.SO XERB.OV)) s)); [exact He|].
    unfold ppc_changecrf0, with_cr. simpl. f_equal. f_equal. f_equal.
    rewrite Z.land_lor_distr_l. change (Z.land 0x20000000 0x0FFFFFFF) with 0.
    by rewrite Z.lor_0_r.
  - apply effect_finish; [apply (Hf false)|].
    split; [apply Z.div_pos; lia|]. apply Z.div_lt_upper_bound; nia.
Qed.

(** ** Count leading zeros *)

(** The number of leading zeros of a 32-bit word. *)
Definition leading_zeros (x : Z) : Z := if x =? 0 then 32 else 31 - Z.log2 x.

(** The loop invariant: [lead] leading bits are clear and [mask] selects the next. *)
Lemma cntlzw_loop_correct k x : 0 <= x < 2 ^ (Z.of_nat k) ->
  (k <= 32)%nat ->
  cntlzw_loop (S k) x (if (k =? 0)%nat then 0 else 2 ^ (Z.of_nat k - 1)) (32 - Z.of_nat k)
  = leading_zeros x.
Proof.
  induction k as [|k IH]; intros Hx Hk.
  - assert (x = 0) as -> by (simpl in Hx; lia). reflexivity.
  - cbn [Nat.eqb]. replace (Z.of_nat (S k) - 1) with (Z.of_nat k) by lia.
    change (cntlzw_loop (S (S k)) x (2 ^ Z.of_nat k) (32 - Z.of_nat (S k))) with
      (if negb (2 ^ Z.of_nat k =? 0) then
         if test x (2 ^ Z.of_nat k) then 32 - Z.of_nat (S k)
         else cntlzw_loop (S k) x (Z.shiftr (2 ^ Z.of_nat k) 1) (32 - Z.of_nat (S k) + 1)
       else 32 - Z.of_nat (S k)).
    destruct (Z.eqb_spec (2 ^ Z.of_nat k) 0) as [E|_]; [lia|]. cbn [negb].
    rewrite test_pow2 by lia. destruct (Z.testbit x (Z.of_nat k)) eqn:Eb.
    + assert (2 ^ Z.of_nat k <= x) as Hlo.
      { destruct (Z.lt_ge_cases x (2 ^ Z.of_nat k)); [|lia].
        rewrite (testbit_high (Z.of_nat k)) in Eb by lia. done. }
      unfold leading_zeros. destruct (Z.eqb_spec x 0); [lia|].
      rewrite (Z.log2_unique x (Z.of_nat k)); [lia|lia|].
      rewrite Nat2Z.inj_succ in Hx. lia.
    + assert (x < 2 ^ Z.of_nat k) as Hlo.
      { apply bits_bound; [lia| |lia]. intros i Hi.
        destruct (Z.eq_dec i (Z.of_nat k)) as [->|]; [done|].
        apply (testbit_high (Z.of_nat (S k))); lia. }
      replace (32 - Z.of_nat (S k) + 1) with (32 - Z.of_nat k) by lia.
      rewrite <- IH by lia. f_equal.
      destruct k as [|k]; [done|]. cbn [Nat.eqb].
      rewrite Z.shiftr_div_pow2 by lia. rewrite Nat2Z.inj_succ, Z.pow_succ_r by lia.
      change (2 ^ 1) with 2. rewrite Z.mul_comm, Z.div_mul by lia. f_equal. lia.
Qed.

Lemma leading_zeros_range x : 0 <= x < 2 ^ 32 -> 0 <= leading_zeros x <= 32.
Proof.
  intros. unfold leading_zeros. destruct (Z.eqb_spec x 0); [lia|].
  pose proof (Z.log2_nonneg x). assert (Z.log2 x < 32) by (apply Z.log2_lt_pow2; lia). lia.
Qed.

Lemma cntlzw_effect s (Hs : ppc_ok s) rec opcode :
  int_effect s (ppc_cntlzw rec opcode s) (field_a opcode)
    (leading_zeros (gpr s).[field_d opcode]) None None (rc rec).
Proof.
  pose proof (ok_get_gpr s Hs (field_d opcode)) as HS.
  unfold ppc_cntlzw. cbn [ppc_grab_regssa decode_ops_sa].
  pose proof (cntlzw_loop_correct 32 _ HS ltac:(lia)) as E. cbn [Nat.eqb] in E.
  change (2 ^ (Z.of_nat 32 - 1)) with 0x80000000 in E. change (32 - Z.of_nat 32) with 0 in E.
  rewrite E. pose proof (leading_zeros_range _ HS).
  apply effect_finish; [by apply flags_none | lia].
Qed.

(** ** Properties *)

(** The pair of two registers as one 64-bit number. *)
Definition pair64 (hi lo : Z) : Z := 2 ^ 32 * hi + lo.

(** Splitting a sum or difference of words into its low word and the carry. *)
Lemma carry_split a b : 0 <= a < 2 ^ 32 -> 0 <= b < 2 ^ 32 ->
  a + b = 2 ^ 32 * b2z (2 ^ 32 <=? a + b) + (a + b) mod 2 ^ 32.
Proof.
  intros. destruct (Z.leb_spec (2 ^ 32) (a + b)); simpl.
  - replace ((a + b) mod 2 ^ 32) with (a + b - 2 ^ 32); [lia|].
    apply Z.mod_unique with (q := 1); lia.
  - rewrite Z.mod_small; lia.
Qed.

Lemma borrow_split a b : 0 <= a < 2 ^ 32 -> 0 <= b < 2 ^ 32 ->
  b - a = 2 ^ 32 * (b2z (a <=? b) - 1) + (b - a) mod 2 ^ 32.
Proof.
  intros. destruct (Z.leb_spec a b); simpl.
  - rewrite Z.mod_small; lia.
  - replace ((b - a) mod 2 ^ 32) with (b - a + 2 ^ 32); [lia|].
    apply Z.mod_unique with (q := -1); lia.
Qed.

(** A word computed modulo 2^32 above an exact low word. *)
Lemma pair64_mod x l v : 0 <= l < 2 ^ 32 -> v = 2 ^ 32 * x + l ->
  pair64 (x mod 2 ^ 32) l = v mod 2 ^ 64.
Proof.
  intros Hl ->. unfold pair64. pose proof (Z.mod_pos_bound x (2 ^ 32) ltac:(lia)).
  pose proof (Z.div_mod x (2 ^ 32) ltac:(lia)).
  apply Z.mod_unique with (q := x / 2 ^ 32); [left |]; nia.
Qed.

(** Both instructions of a two-word operation, and what the second one reads. *)
Lemma two_word_chain s s1 s2 lo hi dl dh c1 ov1 r1 ca2 ov2 r2 :
  int_effect s s1 lo dl (Some c1) ov1 r1 -> int_effect s1 s2 hi dh (Some ca2) ov2 r2 -> lo <> hi ->
  pair64 (gpr s2).[hi] (gpr s2).[lo] = pair64 dh dl /\ xer_ca s2 = ca2 /\
  xer_ca_z s1 = b2z c1 /\ forall i, i <> lo -> (gpr s1).[i] = (gpr s).[i].
Proof.
  intros H1 H2 Hne. rewrite (ie_gpr _ _ _ _ _ _ _ H2), (ie_ca _ _ _ _ _ _ _ H2).
  rewrite (ie_gpr _ _ _ _ _ _ _ H1), rget_rset_eq, rget_rset_ne, rget_rset_eq by done.
  rewrite xer_ca_z_bit, (ie_ca _ _ _ _ _ _ _ H1). split_and!; [done..|].
  intros i Hi. by rewrite rget_rset_ne.
Qed.

(** The immediate forms without flags: only the register changes. *)
Lemma addi_effect shift opcode s : ppc_ok s ->
  int_effect s (ppc_addi shift opcode s) (field_d opcode)
    (((if field_a opcode =? 0 then 0 else (gpr s).[field_a opcode]) +
      s16 opcode * (if shift is SHFT1 then 2 ^ 16 else 1)) mod 2 ^ 32) None None false.
Proof.
  intros Hs. pose proof (effect_finish s s (field_d opcode) (((if field_a opcode =? 0 then 0 else (gpr s).[field_a opcode]) +
    s16 opcode * (if shift is SHFT1 then 2 ^ 16 else 1)) mod 2 ^ 32) None None false (flags_none s Hs) (Z.mod_pos_bound _ (2 ^ 32) eq_refl)) as H.
  cbn [cond] in H. unfold ppc_store_iresult_reg in H.
  assert (ppc_addi shift opcode s = set_gpr (field_d opcode) (((if field_a opcode =? 0 then 0 else (gpr s).[field_a opcode]) +
    s16 opcode * (if shift is SHFT1 then 2 ^ 16 else 1)) mod 2 ^ 32) s) as ->; [|exact H].
  unfold ppc_addi. cbv beta iota zeta delta [ppc_grab_regsdasimm decode_ops_dasimm]. unfold uwrap.
  destruct shift; cbn [shf]; rewrite ?Z.shiftl_mul_pow2, ?Z.mul_1_r by lia; by destruct (field_a opcode =? 0).
Qed.

(** C29: every add and subtract instruction writes the exact two's-complement
    result, sets CA to the carry out (no borrow for a subtraction), and with OE
    sets OV exactly when the signed result does not fit 32 bits; the
    instructions that decide overflow by inspection ([subfme], [subfze], [neg])
    included.  The immediate forms add or subtract from the sign-extended immediate
    ([addis]: shifted left by 16), [addi] and [addis] to zero when RA is 0 and
    without any flag, [addic] and [subfic] with the carry, and only [addic.] with
    CR0. *)
Theorem add_sub_instructions_correct s opcode carry rec ov : ppc_ok s ->
  let D := field_d opcode in
  let A := (gpr s).[field_a opcode] in
  let B := (gpr s).[field_b opcode] in
  let c := b2z (xer_ca s) in
  let eff s' v ca sv :=
    int_effect s s' D (v mod 2 ^ 32) ca (if oe ov then Some (negb (s32_fits sv)) else None) (rc rec) in
  eff (ppc_add carry rec ov opcode s) (A + B)
    (if cy carry then Some (2 ^ 32 <=? A + B) else None) (s32 A + s32 B) /\
  eff (ppc_adde rec ov opcode s) (A + B + c) (Some (2 ^ 32 <=? A + B + c)) (s32 A + s32 B + c) /\
  eff (ppc_addme rec ov opcode s) (A + c - 1) (Some (1 <=? A + c)) (s32 A + c - 1) /\
  eff (ppc_addze rec ov opcode s) (A + c) (Some (2 ^ 32 <=? A + c)) (s32 A + c) /\
  eff (ppc_subf carry rec ov opcode s) (B - A)
    (if cy carry then Some (A <=? B) else None) (s32 B - s32 A) /\
  eff (ppc_subfe rec ov opcode s) (B - A - 1 + c) (Some (A + 1 <=? B + c)) (s32 B - s32 A - 1 + c) /\
  eff (ppc_subfme rec ov opcode s) (- A - 2 + c) (Some (A + 2 <=? 2 ^ 32 + c)) (- s32 A - 2 + c) /\
  eff (ppc_subfze rec ov opcode s) (- A - 1 + c) (Some (A + 1 <=? c)) (- s32 A - 1 + c) /\
  eff (ppc_neg rec ov opcode s) (- A) None (- s32 A) /\
  let simm := s16 opcode in let A0 := if field_a opcode =? 0 then 0 else A in
  int_effect s (ppc_addi SHFT0 opcode s) D ((A0 + simm) mod 2 ^ 32) None None false /\
  int_effect s (ppc_addi SHFT1 opcode s) D ((A0 + simm * 2 ^ 16) mod 2 ^ 32) None None false /\
  int_effect s (ppc_addic rec opcode s) D ((A + simm) mod 2 ^ 32) (Some (2 ^ 32 <=? A + simm mod 2 ^ 32)) None (rc rec) /\
  int_effect s (ppc_subfic opcode s) D ((simm - A) mod 2 ^ 32) (Some (A <=? simm mod 2 ^ 32)) None false.
Proof.
  intros Hs D A B c eff. unfold eff, c, D, A, B. rewrite <- xer_ca_z_bit.
  pose proof (addic_effect s Hs opcode rec) as Haddic. unfold uwrap in Haddic. rewrite Z.add_mod_idemp_r in Haddic by lia.
  pose proof (addi_effect SHFT0 opcode s Hs) as Haddi. rewrite Z.mul_1_r in Haddi.
  split_and!; [by apply add_effect | by apply adde_effect | by apply addme_effect
    | by apply addze_effect | by apply subf_effect | by apply subfe_effect
    | by apply subfme_effect | by apply subfze_effect | by apply neg_effect | exact Haddi | by apply (addi_effect SHFT1)
    | exact Haddic | by apply subfic_effect].
Qed.

(** addo. r9,r4,r4: the most negative number doubled overflows *)
Lemma add_sub_instructions_correct_witness :
  ppc_ok demo_state /\
  int_effect demo_state (ppc_add CARRY1 RC1 OV1 0x7D242415 demo_state) 9
    ((0x80000000 + 0x80000000) mod 2 ^ 32) (Some (2 ^ 32 <=? 0x80000000 + 0x80000000))
    (Some (negb (s32_fits (s32 0x80000000 + s32 0x80000000)))) true.
Proof.
  split; [exact demo_ok|].
  exact (proj1 (add_sub_instructions_correct demo_state 0x7D242415 CARRY1 RC1 OV1 demo_ok)).
Defined.

(** C33: the two-instruction idioms on register pairs are 64-bit arithmetic:
    [addc] then [adde] adds modulo 2^64 and leaves the carry out of the 64-bit
    sum in CA; [subfc] then [subfe] subtracts modulo 2^64 and leaves in CA
    whether there was no borrow. *)
Theorem carry_chains_64 s rec1 ov1 rec2 ov2 lo hi : ppc_ok s ->
  field_d lo <> field_a hi -> field_d lo <> field_b hi -> field_d lo <> field_d hi ->
  let x := pair64 (gpr s).[field_a hi] (gpr s).[field_a lo] in
  let y := pair64 (gpr s).[field_b hi] (gpr s).[field_b lo] in
  let sa := ppc_adde rec2 ov2 hi (ppc_add CARRY1 rec1 ov1 lo s) in
  let ss := ppc_subfe rec2 ov2 hi (ppc_subf CARRY1 rec1 ov1 lo s) in
  (pair64 (gpr sa).[field_d hi] (gpr sa).[field_d lo] = (x + y) mod 2 ^ 64 /\
   xer_ca sa = (2 ^ 64 <=? x + y)) /\
  (pair64 (gpr ss).[field_d hi] (gpr ss).[field_d lo] = (y - x) mod 2 ^ 64 /\
   xer_ca ss = (x <=? y)).
Proof.
  intros Hs Ha Hb Hd x y sa ss.
  pose proof (ok_get_gpr s Hs (field_a hi)). pose proof (ok_get_gpr s Hs (field_b hi)).
  pose proof (ok_get_gpr s Hs (field_a lo)) as Hal. pose proof (ok_get_gpr s Hs (field_b lo)) as Hbl.
  split.
  - pose proof (add_effect s Hs lo CARRY1 rec1 ov1) as H1.
    pose proof (adde_effect _ (ie_ok _ _ _ _ _ _ _ H1) hi rec2 ov2) as H2.
    destruct (two_word_chain _ _ _ _ _ _ _ _ _ _ _ _ _ H1 H2 Hd) as (E1 & E2 & E3 & E4).
    fold sa in E1, E2. rewrite E1, E2, !E4, E3 by done. clear - H H0 Hal Hbl.
    pose proof (carry_split _ _ Hal Hbl) as E. pose proof (b2z_range (2 ^ 32 <=? (gpr s).[field_a lo] + (gpr s).[field_b lo])).
    pose proof (Z.mod_pos_bound ((gpr s).[field_a lo] + (gpr s).[field_b lo]) (2 ^ 32) ltac:(lia)).
    split; [apply pair64_mod; [done|]; subst x y; unfold pair64; lia|].
    subst x y. unfold pair64. apply eq_true_iff_eq. rewrite !Z.leb_le. lia.
  - pose proof (subf_effect s Hs lo CARRY1 rec1 ov1) as H1.
    pose proof (subfe_effect _ (ie_ok _ _ _ _ _ _ _ H1) hi rec2 ov2) as H2.
    destruct (two_word_chain _ _ _ _ _ _ _ _ _ _ _ _ _ H1 H2 Hd) as (E1 & E2 & E3 & E4).
    fold ss in E1, E2. rewrite E1, E2, !E4, E3 by done. clear - H H0 Hal Hbl.
    pose proof (borrow_split _ _ Hal Hbl) as E. pose proof (b2z_range ((gpr s).[field_a lo] <=? (gpr s).[field_b lo])).
    pose proof (Z.mod_pos_bound ((gpr s).[field_b lo] - (gpr s).[field_a lo]) (2 ^ 32) ltac:(lia)).
    split; [apply pair64_mod; [done|]; subst x y; unfold pair64; lia|].
    subst x y. unfold pair64. apply eq_true_iff_eq. rewrite !Z.leb_le. lia.
Qed.

(** addc r10,r3,r5 ; adde r9,r6,r7 and the same subtraction *)
Lemma carry_chains_64_witness :
  ppc_ok demo_state /\
  let ss := ppc_subfe RC0 OV0 0x7D263910 (ppc_subf CARRY1 RC0 OV0 0x7D432810 demo_state) in
  pair64 (gpr ss).[9] (gpr ss).[10] = (0xFFFFFFF900000001 - 0x12345678FFFFFFFF) mod 2 ^ 64.
Proof.
  split; [exact demo_ok|].
  pose proof (carry_chains_64 demo_state RC0 OV0 RC0 OV0 0x7D432810 0x7D263910 demo_ok) as H.
  refine (proj1 (proj2 (H _ _ _))); vm_compute; congruence.
Defined.

(** [mulhwu] and [mullw] together give the full unsigned product of two
    registers, [mulhw] and [mullw] the full signed one, [mullwo] reports exactly
    the signed products that do not fit 32 bits. *)
Theorem multiply_full_product s opl oph rec1 rec2 ov : ppc_ok s ->
  field_a oph = field_a opl -> field_b oph = field_b opl ->
  let A := (gpr s).[field_a opl] in
  let B := (gpr s).[field_b opl] in
  let lo := (gpr (ppc_mullw rec1 ov opl s)).[field_d opl] in
  pair64 (gpr (ppc_mulhwu rec2 oph s)).[field_d oph] lo = A * B /\
  pair64 (s32 (gpr (ppc_mulhw rec2 oph s)).[field_d oph]) lo = s32 A * s32 B /\
  (oe ov = true -> xer_ov (ppc_mullw rec1 ov opl s) = negb (s32_fits (s32 A * s32 B))).
Proof.
  intros Hs Ea Eb A B lo.
  pose proof (ok_get_gpr s Hs (field_a opl)) as HA. pose proof (ok_get_gpr s Hs (field_b opl)) as HB.
  pose proof (mullw_effect s Hs opl rec1 ov) as Hl. pose proof (mulhwu_effect s Hs oph rec2) as Hu.
  pose proof (mulhw_effect s Hs oph rec2) as Hh.
  unfold lo. rewrite (ie_gpr _ _ _ _ _ _ _ Hl), (ie_gpr _ _ _ _ _ _ _ Hu),
    (ie_gpr _ _ _ _ _ _ _ Hh), !rget_rset_eq, Ea, Eb.
  fold A B in HA, HB |- *. unfold pair64. split_and!.
  - pose proof (u32_s32 A) as EA. pose proof (u32_s32 B) as EB. unfold uwrap in EA, EB.
    replace ((s32 A * s32 B) mod 2 ^ 32) with ((A * B) mod 2 ^ 32).
    2:{ rewrite (Z.mul_mod (s32 A)), EA, EB, <- Z.mul_mod by lia. done. }
    pose proof (Z.div_mod (A * B) (2 ^ 32) ltac:(lia)). lia.
  - pose proof (s32_prod_range A B). change ((?x) mod 2 ^ 32) with (u32 x) at 1.
    rewrite s32_u32, s32_small by zlia.
    pose proof (Z.div_mod (s32 A * s32 B) (2 ^ 32) ltac:(lia)). lia.
  - intros E. rewrite (ie_ov _ _ _ _ _ _ _ Hl), E. done.
Qed.

(** mullwo r9,r6,r6 ; mulhw r10,r6,r6 *)
Lemma multiply_full_product_witness :
  ppc_ok demo_state /\
  xer_ov (ppc_mullw RC0 OV1 0x7d2635d6 demo_state) = true /\
  pair64 (s32 (gpr (ppc_mulhw RC0 0x7d463096 demo_state)).[10])
    (gpr (ppc_mullw RC0 OV1 0x7d2635d6 demo_state)).[9] = 0x12345678 * 0x12345678.
Proof.
  split; [exact demo_ok|].
  destruct (multiply_full_product demo_state 0x7d2635d6 0x7d463096 RC0 RC0 OV1 demo_ok
    eq_refl eq_refl) as (_ & H2 & H3).
  split; [rewrite (H3 eq_refl); vm_compute; reflexivity | exact H2].
Defined.

(** [divw] truncates towards zero, [divwu] is unsigned division; a zero
    divisor and the one overflowing signed quotient set OV (with OE) and give
    the result of the emulated processor version; [cntlzw] counts the leading
    zeros, 32 of them for zero. *)
Theorem divide_count_correct s opcode is_601 rec ov : ppc_ok s ->
  let A := (gpr s).[field_a opcode] in
  let B := (gpr s).[field_b opcode] in
  int_effect s (ppc_divw is_601 rec ov opcode s) (field_d opcode)
    (if B =? 0 then (if is_601 then (if s32 A <? 0 then 1 else 2 ^ 32 - 1) else 0)
     else if (s32 A =? - 2 ^ 31) && (s32 B =? -1) then (if is_601 then 2 ^ 31 else 0)
     else Z.quot (s32 A) (s32 B) mod 2 ^ 32) None
    (if oe ov then Some ((B =? 0) || (s32 A =? - 2 ^ 31) && (s32 B =? -1)) else None) (rc rec) /\
  int_effect s (ppc_divwu is_601 rec ov opcode s) (field_d opcode)
    (if B =? 0 then (if is_601 then 2 ^ 32 - 1 else 0) else A / B) None
    (if oe ov then Some (B =? 0) else None) (rc rec) /\
  int_effect s (ppc_cntlzw rec opcode s) (field_a opcode)
    (let S := (gpr s).[field_d opcode] in if S =? 0 then 32 else 31 - Z.log2 S) None None (rc rec).
Proof.
  intros Hs A B. split_and!; [by apply divw_effect | by apply divwu_effect | by apply cntlzw_effect].
Qed.

(** divwo r9,r7,r8: -7 / 2 *)
Lemma divide_count_correct_witness :
  ppc_ok demo_state /\
  int_effect demo_state (ppc_divw false RC0 OV1 0x7D2747D6 demo_state) 9
    (Z.quot (s32 0xFFFFFFF9) (s32 2) mod 2 ^ 32) None (Some false) false.
Proof.
  split; [exact demo_ok|].
  exact (proj1 (divide_count_correct demo_state 0x7D2747D6 false RC0 OV1 demo_ok)).
Defined.
