(* ===== verification/IntLogic.v ===== *)
(** * Logical, shift and rotate instructions (cpu/ppc/ppcopcodes.cpp) *)
From S2P Require Import Prelude Word PpcState IntArith.

(** ** The instructions *)

(* [cpu/ppc/ppcopcodes.cpp:298-307] *)
Definition ppc_andirc (shift : field_shift) (opcode : Z) (s : ppc_state) : ppc_state :=
  let '(reg_s, reg_a, uimm, ppc_result_d, _) := ppc_grab_regssauimm opcode s in
  let ppc_result_a :=
    if shf shift then Z.land ppc_result_d (shl32 uimm 16) else Z.land ppc_result_d uimm in
  let s := ppc_changecrf0 ppc_result_a s in
  ppc_store_iresult_reg reg_a ppc_result_a s.

(* [cpu/ppc/ppcopcodes.cpp:309-317] *)
Definition ppc_ori (shift : field_shift) (opcode : Z) (s : ppc_state) : ppc_state :=
  let '(reg_s, reg_a, uimm, ppc_result_d, _) := ppc_grab_regssauimm opcode s in
  let ppc_result_a :=
    if shf shift then Z.lor ppc_result_d (shl32 uimm 16) else Z.lor ppc_result_d uimm in
  ppc_store_iresult_reg reg_a ppc_result_a s.

(* [cpu/ppc/ppcopcodes.cpp:319-327] *)
Definition ppc_xori (shift : field_shift) (opcode : Z) (s : ppc_state) : ppc_state :=
  let '(reg_s, reg_a, uimm, ppc_result_d, _) := ppc_grab_regssauimm opcode s in
  let ppc_result_a :=
    if shf shift then Z.lxor ppc_result_d (shl32 uimm 16) else Z.lxor ppc_result_d uimm in
  ppc_store_iresult_reg reg_a ppc_result_a s.

(** The chain of comparisons on the template parameter. *)
Definition logical_result (logical_op : logical_fun) (d b : Z) : Z :=
  match logical_op with
  | ppc_and => Z.land d b
  | ppc_andc => Z.land d (not32 b)
  | ppc_eqv => not32 (Z.lxor d b)
  | ppc_nand => not32 (Z.land d b)
  | ppc_nor => not32 (Z.lor d b)
  | ppc_or => Z.lor d b
  | ppc_orc => Z.lor d (not32 b)
  | ppc_xor => Z.lxor d b
  end.

(* [cpu/ppc/ppcopcodes.cpp:329-370] *)
Definition ppc_logical (logical_op : logical_fun) (rec : field_rc)
    (opcode : Z) (s : ppc_state) : ppc_state :=
  let '(reg_s, reg_a, reg_b, ppc_result_d, _, ppc_result_b) := ppc_grab_regssab opcode s in
  let ppc_result_a := logical_result logical_op ppc_result_d ppc_result_b in
  let s := cond (rc rec) (ppc_changecrf0 ppc_result_a) s in
  ppc_store_iresult_reg reg_a ppc_result_a s.

(* [cpu/ppc/ppcopcodes.cpp:566-586] *)
Definition ppc_shift (isleft : field_direction) (rec : field_rc)
    (opcode : Z) (s : ppc_state) : ppc_state :=
  let '(reg_s, reg_a, reg_b, ppc_result_d, _, ppc_result_b) := ppc_grab_regssab opcode s in
  let ppc_result_a :=
    if test ppc_result_b 0x20 then 0
    else if dir isleft then shl32 ppc_result_d (Z.land ppc_result_b 0x1F)
    else Z.shiftr ppc_result_d (Z.land ppc_result_b 0x1F) in
  let s := cond (rc rec) (ppc_changecrf0 ppc_result_a) s in
  ppc_store_iresult_reg reg_a ppc_result_a s.

(* [cpu/ppc/ppcopcodes.cpp:588-614] *)
Definition ppc_sraw (rec : field_rc) (opcode : Z) (s : ppc_state) : ppc_state :=
  let '(reg_s, reg_a, reg_b, ppc_result_d, _, ppc_result_b) := ppc_grab_regssab opcode s in
  let s := xer_andc XERB.CA s in
  let '(ppc_result_a, s) :=
    if test ppc_result_b 0x20 then
      let ppc_result_a := u32 (Z.shiftr (s32 ppc_result_d) 31) in
      (ppc_result_a, cond (negb (ppc_result_a =? 0)) (xer_or XERB.CA) s)
    else
      let shift := Z.land ppc_result_b 0x1F in
      (u32 (Z.shiftr (s32 ppc_result_d) shift),
       cond ((s32 ppc_result_d <? 0) && test ppc_result_d (u32 (shl32 1 shift - 1)))
         (xer_or XERB.CA) s) in
  let s := cond (rc rec) (ppc_changecrf0 ppc_result_a) s in
  ppc_store_iresult_reg reg_a ppc_result_a s.

(* [cpu/ppc/ppcopcodes.cpp:616-635] *)
Definition ppc_srawi (rec : field_rc) (opcode : Z) (s : ppc_state) : ppc_state :=
  let '(reg_s, reg_a, rot_sh, ppc_result_d, _) := ppc_grab_regssash opcode s in
  let s := xer_andc XERB.CA s in
  let s := cond ((s32 ppc_result_d <? 0) && test ppc_result_d (u32 (shl32 1 rot_sh - 1)))
             (xer_or XERB.CA) s in
  let ppc_result_a := u32 (Z.shiftr (s32 ppc_result_d) rot_sh) in
  let s := cond (rc rec) (ppc_changecrf0 ppc_result_a) s in
  ppc_store_iresult_reg reg_a ppc_result_a s.

(* [cpu/ppc/ppcopcodes.cpp:637-642] *)
Definition rot_mask (rot_mb rot_me : Z) : Z :=
  let m1 := Z.shiftr 0xFFFFFFFF rot_mb in
  let m2 := u32 (Z.shiftl 0xFFFFFFFF (31 - rot_me)) in
  if rot_mb <=? rot_me then Z.land m2 m1 else Z.lor m1 m2.

Definition field_mb (opcode : Z) : Z := Z.land (Z.shiftr opcode 6) 0x1F.
Definition field_me (opcode : Z) : Z := Z.land (Z.shiftr opcode 1) 0x1F.
(** [if (opcode & 1)] *)
Definition rc_bit (opcode : Z) : bool := test opcode 1.

(* [cpu/ppc/ppcopcodes.cpp:644-655] *)
Definition ppc_rlwimi (opcode : Z) (s : ppc_state) : ppc_state :=
  let '(reg_s, reg_a, rot_sh, ppc_result_d, ppc_result_a) := ppc_grab_regssash opcode s in
  let rot_mb := field_mb opcode in
  let rot_me := field_me opcode in
  let mask := rot_mask rot_mb rot_me in
  let r := Bitops.ROTL_32 ppc_result_d rot_sh in
  let ppc_result_a := Z.lor (Z.land ppc_result_a (not32 mask)) (Z.land r mask) in
  let s := cond (rc_bit opcode) (ppc_changecrf0 ppc_result_a) s in
  ppc_store_iresult_reg reg_a ppc_result_a s.

(* [cpu/ppc/ppcopcodes.cpp:657-668] *)
Definition ppc_rlwinm (opcode : Z) (s : ppc_state) : ppc_state :=
  let '(reg_s, reg_a, rot_sh, ppc_result_d, _) := ppc_grab_regssash opcode s in
  let rot_mb := field_mb opcode in
  let rot_me := field_me opcode in
  let mask := rot_mask rot_mb rot_me in
  let r := Bitops.ROTL_32 ppc_result_d rot_sh in
  let ppc_result_a := Z.land r mask in
  let s := cond (rc_bit opcode) (ppc_changecrf0 ppc_result_a) s in
  ppc_store_iresult_reg reg_a ppc_result_a s.

(* [cpu/ppc/ppcopcodes.cpp:670-681] *)
Definition ppc_rlwnm (opcode : Z) (s : ppc_state) : ppc_state :=
  let '(reg_s, reg_a, reg_b, ppc_result_d, _, ppc_result_b) := ppc_grab_regssab opcode s in
  let rot_mb := field_mb opcode in
  let rot_me := field_me opcode in
  let mask := rot_mask rot_mb rot_me in
  let r := Bitops.ROTL_32 ppc_result_d ppc_result_b in
  let ppc_result_a := Z.land r mask in
  let s := cond (rc_bit opcode) (ppc_changecrf0 ppc_result_a) s in
  ppc_store_iresult_reg reg_a ppc_result_a s.

(** [T] is the signed type of [w] bits, 8 or 16. *)
(* [cpu/ppc/ppcopcodes.cpp:1246-1260] *)
Definition ppc_exts (w : Z) (rec : field_rc) (opcode : Z) (s : ppc_state) : ppc_state :=
  let '(reg_s, reg_a, ppc_result_d, _) := ppc_grab_regssa opcode s in
  let ppc_result_a := u32 (swrap w ppc_result_d) in
  let s := cond (rc rec) (ppc_changecrf0 ppc_result_a) s in
  ppc_store_iresult_reg reg_a ppc_result_a s.

(** rlwinm r6,r6,8,24,31 takes the top byte; srawi r7,r7,1 halves -7 downwards. *)
Example rlwinm_top : (gpr (ppc_rlwinm 0x54C6463E demo_state)).[6] = 0x12.
Proof. reflexivity. Qed.
Example srawi_m7 : let s := ppc_srawi RC0 0x7CE70E70 demo_state in
  (gpr s).[7] = u32 (-4) /\ xer_ca s = true.
Proof. split; reflexivity. Qed.

(** ** Masks and rotations

    Bit positions below are the manual's: bit 0 is the most significant. *)

Definition ppc_bit (x i : Z) : bool := Z.testbit x (31 - i).

(** Position [i] lies in the circular range that starts at [mb] and ends at [me]. *)
Definition in_mask (mb me i : Z) : bool :=
  if mb <=? me then (mb <=? i) && (i <=? me) else (mb <=? i) || (i <=? me).

Lemma ppc_bit_ext x y : 0 <= x < 2 ^ 32 -> 0 <= y < 2 ^ 32 ->
  (forall i, 0 <= i < 32 -> ppc_bit x i = ppc_bit y i) -> x = y.
Proof.
  intros Hx Hy H. apply Bitops.word_ext; try done. intros i Hi.
  specialize (H (31 - i) ltac:(lia)). unfold ppc_bit in H.
  by replace (31 - (31 - i)) with i in H by lia.
Qed.

Lemma rot_mask_bit mb me i : 0 <= mb < 32 -> 0 <= me < 32 -> 0 <= i < 32 ->
  ppc_bit (rot_mask mb me) i = in_mask mb me i.
Proof.
  intros Hb He Hi. apply eqb_prop.
  refine (range_forall3 32 32 32
    (fun mb me i => Bool.eqb (ppc_bit (rot_mask mb me) i) (in_mask mb me i)) _ mb me i Hb He Hi).
  vm_compute. reflexivity.
Qed.

Lemma rot_mask_range mb me : 0 <= mb < 32 -> 0 <= me < 32 -> 0 <= rot_mask mb me < 2 ^ 32.
Proof.
  intros Hb He. unfold rot_mask.
  assert (0 <= Z.shiftr 0xFFFFFFFF mb < 2 ^ 32) by (apply shiftr_range; lia).
  pose proof (u32_range (Z.shiftl 0xFFFFFFFF (31 - me))).
  case_if; [by apply land_range_l | by apply lor_range].
Qed.

Lemma rotl_bit x n i : 0 <= x < 2 ^ 32 -> 0 <= i < 32 ->
  ppc_bit (Bitops.ROTL_32 x n) i = ppc_bit x ((i + n) mod 32).
Proof.
  intros. unfold ppc_bit. rewrite Bitops.ROTL_32_testbit by lia. f_equal. zlia.
Qed.

Lemma not32_bit x i : 0 <= i < 32 -> ppc_bit (not32 x) i = negb (ppc_bit x i).
Proof.
  intros. unfold ppc_bit, not32. rewrite testbit_uwrap, Z.lnot_spec by lia.
  by destruct (Z.ltb_spec (31 - i) 32); [|lia].
Qed.

Lemma field_mb_range opcode : 0 <= field_mb opcode < 32.
Proof. apply land_0x1F. Qed.
Lemma field_me_range opcode : 0 <= field_me opcode < 32.
Proof. apply land_0x1F. Qed.

(** What a rotate instruction may put in bit [i] of its result: the bit of the
    source [n] places to the right when the mask selects it, otherwise [keep]. *)
Definition rot_result (n mb me src : Z) (keep : Z -> bool) (r : Z) : Prop :=
  0 <= r < 2 ^ 32 /\
  forall i, 0 <= i < 32 ->
    ppc_bit r i = if in_mask mb me i then ppc_bit src ((i + n) mod 32) else keep i.

Lemma rot_and_mask n mb me src : 0 <= mb < 32 -> 0 <= me < 32 -> 0 <= src < 2 ^ 32 ->
  rot_result n mb me src (fun _ => false) (Z.land (Bitops.ROTL_32 src n) (rot_mask mb me)).
Proof.
  intros Hb He Hs. split; [apply land_range_l; [lia | by apply Bitops.ROTL_32_range]|].
  intros i Hi. unfold ppc_bit at 1. rewrite Z.land_spec.
  change (ppc_bit (Bitops.ROTL_32 src n) i && ppc_bit (rot_mask mb me) i
          = if in_mask mb me i then ppc_bit src ((i + n) mod 32) else false).
  rewrite rotl_bit, rot_mask_bit by done.
  destruct (in_mask mb me i); [apply andb_true_r | apply andb_false_r].
Qed.

Lemma rot_insert n mb me src old :
  0 <= mb < 32 -> 0 <= me < 32 -> 0 <= src < 2 ^ 32 -> 0 <= old < 2 ^ 32 ->
  rot_result n mb me src (ppc_bit old)
    (Z.lor (Z.land old (not32 (rot_mask mb me))) (Z.land (Bitops.ROTL_32 src n) (rot_mask mb me))).
Proof.
  intros Hb He Hs Ho. split.
  - apply lor_range; [lia| |]; apply land_range_l; try lia. by apply Bitops.ROTL_32_range.
  - intros i Hi. unfold ppc_bit at 1. rewrite Z.lor_spec, !Z.land_spec.
    change (ppc_bit old i && ppc_bit (not32 (rot_mask mb me)) i
            || ppc_bit (Bitops.ROTL_32 src n) i && ppc_bit (rot_mask mb me) i
            = if in_mask mb me i then ppc_bit src ((i + n) mod 32) else ppc_bit old i).
    rewrite not32_bit, rotl_bit, rot_mask_bit by done.
    destruct (in_mask mb me i); simpl;
      by rewrite ?andb_false_r, ?andb_true_r, ?orb_false_r.
Qed.

Section Rotate.
Context (s : ppc_state) (Hs : ppc_ok s) (opcode : Z).
Let S := (gpr s).[field_d opcode].
Let HS : 0 <= S < 2 ^ 32 := ok_get_gpr s Hs _.

Lemma rotate_effect d keep n :
    rot_result n (field_mb opcode) (field_me opcode) S keep d ->
    int_effect s
      (ppc_store_iresult_reg (field_a opcode) d (cond (rc_bit opcode) (ppc_changecrf0 d) s))
      (field_a opcode) d None None (rc_bit opcode).
Proof. intros [Hd _]. apply effect_finish; [by apply flags_none | done]. Qed.

Lemma rlwinm_effect : exists d,
  rot_result (field_b opcode) (field_mb opcode) (field_me opcode) S (fun _ => false) d /\
  int_effect s (ppc_rlwinm opcode s) (field_a opcode) d None None (rc_bit opcode).
Proof.
  eexists. split; [apply rot_and_mask; auto using field_mb_range, field_me_range|].
  eapply rotate_effect, rot_and_mask; auto using field_mb_range, field_me_range.
Qed.

Lemma rlwnm_effect : exists d,
  rot_result (gpr s).[field_b opcode] (field_mb opcode) (field_me opcode) S (fun _ => false) d /\
  int_effect s (ppc_rlwnm opcode s) (field_a opcode) d None None (rc_bit opcode).
Proof.
  eexists. split; [apply rot_and_mask; auto using field_mb_range, field_me_range|].
  eapply rotate_effect, rot_and_mask; auto using field_mb_range, field_me_range.
Qed.

Lemma rlwimi_effect : exists d,
  rot_result (field_b opcode) (field_mb opcode) (field_me opcode) S
    (ppc_bit (gpr s).[field_a opcode]) d /\
  int_effect s (ppc_rlwimi opcode s) (field_a opcode) d None None (rc_bit opcode).
Proof.
  pose proof (ok_get_gpr s Hs (field_a opcode)).
  eexists. split; [apply rot_insert; auto using field_mb_range, field_me_range|].
  eapply rotate_effect, rot_insert; auto using field_mb_range, field_me_range.
Qed.
End Rotate.

(** ** Shifts *)

Lemma test_low_bits x n : 0 <= n < 32 -> test x (u32 (shl32 1 n - 1)) = negb (x mod 2 ^ n =? 0).
Proof.
  intros Hn. unfold test, shl32. rewrite Z.shiftl_1_l.
  assert (2 ^ n < 2 ^ 32) by (apply Z.pow_lt_mono_r; lia).
  rewrite (uwrap_small 32 (2 ^ n)), uwrap_small by lia.
  replace (2 ^ n - 1) with (Z.ones n) by (rewrite Z.ones_equiv; lia).
  by rewrite Z.land_ones by lia.
Qed.

Lemma s32_mod_pow2 x n : 0 <= n <= 32 -> s32 x mod 2 ^ n = x mod 2 ^ n.
Proof.
  intros Hn. rewrite <- (Z.mod_mod_divide (s32 x) (2 ^ 32) (2 ^ n)).
  2:{ exists (2 ^ (32 - n)). rewrite <- Z.pow_add_r by lia. f_equal. lia. }
  rewrite <- (Z.mod_mod_divide x (2 ^ 32) (2 ^ n)).
  2:{ exists (2 ^ (32 - n)). rewrite <- Z.pow_add_r by lia. f_equal. lia. }
  f_equal. apply u32_s32.
Qed.

(** The shift amount of [sraw] and of the logical shifts: six bits of rB. *)
Definition shift_amount (b : Z) : Z := b mod 64.

Lemma shift_amount_split b :
  shift_amount b = Z.land b 0x1F + (if test b 0x20 then 32 else 0).
Proof.
  unfold shift_amount. change 0x20 with (2 ^ 5). rewrite test_pow2, Bitops.land_0x1F_mod by lia.
  rewrite Z.testbit_odd, Z.shiftr_div_pow2 by lia. change (2 ^ 5) with 32.
  pose proof (Zmod_odd (b / 32)) as Ho. destruct (Z.odd (b / 32)); zlia.
Qed.

Section Shift.
Context (s : ppc_state) (Hs : ppc_ok s) (opcode : Z).
Let S := (gpr s).[field_d opcode].
Let B := (gpr s).[field_b opcode].
Let HS : 0 <= S < 2 ^ 32 := ok_get_gpr s Hs _.

(** [slw] multiplies by a power of two, [srw] divides; amounts of 32 and more
      give 0. *)
Lemma shift_effect isleft rec :
  int_effect s (ppc_shift isleft rec opcode s) (field_a opcode)
    (if dir isleft then (S * 2 ^ shift_amount B) mod 2 ^ 32 else S / 2 ^ shift_amount B)
    None None (rc rec).
Proof.
  unfold ppc_shift. cbn [ppc_grab_regssab decode_ops_sab]. fold S B.
  pose proof (land_0x1F B) as Hn. rewrite shift_amount_split.
  assert ((if test B 0x20 then 0 else if dir isleft then shl32 S (Z.land B 0x1F)
           else Z.shiftr S (Z.land B 0x1F)) =
          if dir isleft then (S * 2 ^ (Z.land B 0x1F + (if test B 0x20 then 32 else 0))) mod 2 ^ 32
          else S / 2 ^ (Z.land B 0x1F + (if test B 0x20 then 32 else 0))) as ->.
  { destruct (test B 0x20), (dir isleft); rewrite ?Z.add_0_r.
    - symmetry. rewrite Z.pow_add_r, Z.mul_assoc by lia. apply Z.mod_mul. lia.
    - symmetry. apply Z.div_small. split; [lia|].
      eapply Z.lt_le_trans; [apply HS|]. apply Z.pow_le_mono_r; lia.
    - unfold shl32. by rewrite Z.shiftl_mul_pow2 by lia.
    - by rewrite Z.shiftr_div_pow2 by lia. }
  apply effect_finish; [by apply flags_none|].
  destruct (dir isleft); [apply Z.mod_pos_bound; lia|].
  destruct (test B 0x20);
    (split; [apply Z.div_pos; lia | apply Z.div_lt_upper_bound; nia]).
Qed.

(** The arithmetic shifts round towards minus infinity; the carry says that a
      negative number lost bits, i.e. that the quotient was inexact. *)
Definition sra_carry (x n : Z) : bool := (s32 x <? 0) && negb (s32 x mod 2 ^ n =? 0).

Lemma srawi_effect rec :
  let n := field_b opcode in
  int_effect s (ppc_srawi rec opcode s) (field_a opcode)
    ((s32 S / 2 ^ n) mod 2 ^ 32) (Some (sra_carry S n)) None (rc rec).
Proof.
  intros n. pose proof (field_b_range opcode) as Hn. fold n in Hn.
  unfold ppc_srawi. cbn [ppc_grab_regssash decode_ops_sa]. fold S n.
  rewrite test_low_bits, Z.shiftr_div_pow2 by lia.
  unfold sra_carry. rewrite s32_mod_pow2 by lia.
  apply effect_finish; [by apply flags_ca_clear_set | apply u32_range].
Qed.

Lemma sraw_effect rec :
  let n := shift_amount B in
  int_effect s (ppc_sraw rec opcode s) (field_a opcode)
    ((s32 S / 2 ^ n) mod 2 ^ 32) (Some (sra_carry S n)) None (rc rec).
Proof.
  intros n. subst n. rewrite shift_amount_split. pose proof (land_0x1F B) as Hn.
  unfold ppc_sraw. cbn [ppc_grab_regssab decode_ops_sab]. fold S B.
  pose proof (s32_range S) as HsS.
  destruct (test B 0x20).
  - set (n := Z.land B 0x1F + 32).
    assert (2 ^ 32 <= 2 ^ n) by (apply Z.pow_le_mono_r; lia).
    assert (s32 S / 2 ^ n = if s32 S <? 0 then -1 else 0) as ->.
    { destruct (Z.ltb_spec (s32 S) 0); [|apply Z.div_small; lia].
      symmetry. apply Z.div_unique with (r := s32 S + 2 ^ n); lia. }
    assert (Z.shiftr (s32 S) 31 = if s32 S <? 0 then -1 else 0) as ->.
    { rewrite Z.shiftr_div_pow2 by lia.
      destruct (Z.ltb_spec (s32 S) 0); [|apply Z.div_small; lia].
      symmetry. apply Z.div_unique with (r := s32 S + 2 ^ 31); lia. }
    assert (sra_carry S n = negb (u32 (if s32 S <? 0 then -1 else 0) =? 0)) as ->.
    { unfold sra_carry. destruct (Z.ltb_spec (s32 S) 0); [|done].
      assert (s32 S mod 2 ^ n = s32 S + 2 ^ n) as ->.
      { symmetry. apply Z.mod_unique with (q := -1); lia. }
      destruct (Z.eqb_spec (s32 S + 2 ^ n) 0); [lia | reflexivity]. }
    apply effect_finish; [by apply flags_ca_clear_set | apply u32_range].
  - rewrite Z.add_0_r, test_low_bits, Z.shiftr_div_pow2 by lia.
    unfold sra_carry. rewrite s32_mod_pow2 by lia.
    apply effect_finish; [by apply flags_ca_clear_set | apply u32_range].
Qed.

Lemma logical_range op d b : 0 <= d < 2 ^ 32 -> 0 <= b < 2 ^ 32 ->
  0 <= logical_result op d b < 2 ^ 32.
Proof.
  intros Hd Hb. pose proof (not32_range b).
  destruct op; simpl; auto using not32_range;
    first [apply land_range_l | apply lor_range | apply lxor_range]; lia.
Qed.

Lemma logical_effect op rec :
  int_effect s (ppc_logical op rec opcode s) (field_a opcode) (logical_result op S B)
    None None (rc rec).
Proof.
  apply effect_finish; [by apply flags_none|]. apply logical_range; [exact HS | exact (ok_get_gpr s Hs _)].
Qed.

Lemma exts_effect w rec : 0 < w <= 32 ->
    int_effect s (ppc_exts w rec opcode s) (field_a opcode) (swrap w S mod 2 ^ 32)
      None None (rc rec).
Proof. intros. apply effect_finish; [by apply flags_none | apply u32_range]. Qed.
End Shift.

(** ** Properties *)

(** C34: the rotate instructions move the source left by the shift amount, keep
    exactly the bits selected by the (possibly wrapping) mask MB..ME, take the
    others from 0 ([rlwinm], [rlwnm]) or from the old target ([rlwimi]), and
    change nothing but the target and, with Rc, CR field 0. *)
Theorem rotate_instructions_correct s opcode : ppc_ok s ->
  let S := (gpr s).[field_d opcode] in
  let mb := field_mb opcode in
  let me := field_me opcode in
  (exists d, rot_result (field_b opcode) mb me S (fun _ => false) d /\
     int_effect s (ppc_rlwinm opcode s) (field_a opcode) d None None (rc_bit opcode)) /\
  (exists d, rot_result (gpr s).[field_b opcode] mb me S (fun _ => false) d /\
     int_effect s (ppc_rlwnm opcode s) (field_a opcode) d None None (rc_bit opcode)) /\
  (exists d, rot_result (field_b opcode) mb me S (ppc_bit (gpr s).[field_a opcode]) d /\
     int_effect s (ppc_rlwimi opcode s) (field_a opcode) d None None (rc_bit opcode)).
Proof.
  intros Hs. split_and!; [by apply rlwinm_effect | by apply rlwnm_effect | by apply rlwimi_effect].
Qed.

Lemma rotate_instructions_correct_witness :
  ppc_ok demo_state /\
  exists d, rot_result 8 24 31 0x12345678 (fun _ => false) d /\
    int_effect demo_state (ppc_rlwinm 0x54C6463E demo_state) 6 d None None false.
Proof.
  split; [exact demo_ok|].
  exact (proj1 (rotate_instructions_correct demo_state 0x54C6463E demo_ok)).
Defined.

(** The shift instructions: [slw] is multiplication by 2^n modulo 2^32, [srw]
    is division, [sraw]/[srawi] are signed division rounding down, for every
    shift amount 0..63 of rB (0..31 of SH), with CA set exactly when a negative
    operand lost bits. *)
Theorem shift_instructions_correct s opcode rec isleft : ppc_ok s ->
  let S := (gpr s).[field_d opcode] in
  let n := (gpr s).[field_b opcode] mod 64 in
  let sh := field_b opcode in
  int_effect s (ppc_shift isleft rec opcode s) (field_a opcode)
    (if dir isleft then (S * 2 ^ n) mod 2 ^ 32 else S / 2 ^ n) None None (rc rec) /\
  int_effect s (ppc_sraw rec opcode s) (field_a opcode)
    ((s32 S / 2 ^ n) mod 2 ^ 32) (Some ((s32 S <? 0) && negb (s32 S mod 2 ^ n =? 0))) None (rc rec) /\
  int_effect s (ppc_srawi rec opcode s) (field_a opcode)
    ((s32 S / 2 ^ sh) mod 2 ^ 32) (Some ((s32 S <? 0) && negb (s32 S mod 2 ^ sh =? 0))) None (rc rec).
Proof.
  intros Hs. split_and!; [by apply shift_effect | by apply sraw_effect | by apply srawi_effect].
Qed.

Lemma shift_instructions_correct_witness :
  ppc_ok demo_state /\
  int_effect demo_state (ppc_sraw RC1 0x7CE44631 demo_state) 4
    ((s32 0xFFFFFFF9 / 2 ^ 2) mod 2 ^ 32)
    (Some ((s32 0xFFFFFFF9 <? 0) && negb (s32 0xFFFFFFF9 mod 2 ^ 2 =? 0))) None true.
Proof.
  split; [exact demo_ok|].
  exact (proj1 (proj2 (shift_instructions_correct demo_state 0x7CE44631 RC1 RIGHT0 demo_ok))).
Defined.

(** The low word of [quot] against the flooring shift plus its carry. *)
Lemma floor_plus_carry x n : 0 <= n ->
  x / 2 ^ n + (if (x <? 0) && negb (x mod 2 ^ n =? 0) then 1 else 0) = Z.quot x (2 ^ n).
Proof.
  intros Hn. assert (0 < 2 ^ n) by lia. generalize dependent (2 ^ n). intros p Hp.
  destruct (Z.ltb_spec x 0), (Z.eqb_spec (x mod p) 0); simpl; znia.
Qed.

(** The compiler idiom [srawi rT,rS,n] ; [addze rD,rT] divides a signed word
    by 2^n rounding towards zero, as C's [/] does. *)
Theorem srawi_addze_divides s rec1 rec2 ov op1 op2 : ppc_ok s ->
  field_a op1 = field_a op2 ->
  let x := (gpr s).[field_d op1] in
  let s' := ppc_addze rec2 ov op2 (ppc_srawi rec1 op1 s) in
  s32 (gpr s').[field_d op2] = Z.quot (s32 x) (2 ^ field_b op1).
Proof.
  intros Hs E x s'. pose proof (field_b_range op1) as Hn.
  pose proof (srawi_effect s Hs op1 rec1) as H1. simpl in H1. fold x in H1.
  pose proof (addze_effect _ (ie_ok _ _ _ _ _ _ _ H1) op2 rec2 ov) as H2. fold s' in H2.
  rewrite (ie_gpr _ _ _ _ _ _ _ H2), rget_rset_eq.
  rewrite (ie_gpr _ _ _ _ _ _ _ H1), E, rget_rset_eq.
  rewrite xer_ca_z_bit, (ie_ca _ _ _ _ _ _ _ H1). cbn [default from_option]. unfold id, sra_carry.
  rewrite <- floor_plus_carry by lia. pose proof (s32_range x) as Hx.
  change (b2z ?b) with (if b then 1 else 0).
  change ((?a mod 2 ^ 32 + ?c) mod 2 ^ 32) with (u32 (u32 a + c)).
  rewrite uwrap_add_l, s32_u32. apply s32_small.
  assert (0 < 2 ^ field_b op1) by lia. generalize dependent (2 ^ field_b op1). intros p Hp.
  case_if; [bool_to_prop|]; znia.
Qed.

Lemma srawi_addze_divides_witness :
  ppc_ok demo_state /\
  s32 (gpr (ppc_addze RC0 OV0 0x7D270194 (ppc_srawi RC0 0x7CE70E70 demo_state))).[9] = -3.
Proof.
  split; [exact demo_ok|].
  exact (srawi_addze_divides demo_state RC0 RC0 OV0 0x7CE70E70 0x7D270194 demo_ok eq_refl).
Defined.
