(* ===== verification/PowerOps.v ===== *)
(** * POWER compatibility instructions (cpu/ppc/poweropcodes.cpp)

    The instructions the 601 keeps from the POWER architecture: 64-bit multiply
    and divide through the MQ register, difference-or-zero, absolute values, mask
    generation, and the shifts that leave the rotated source in MQ.  [lscbx],
    which reads memory, is in [LoadStore.v]. *)
From S2P Require Import Prelude Word PpcState IntArith IntLogic.

(** ** The instructions *)

(* [cpu/ppc/poweropcodes.cpp:33-37] *)
Definition power_rot_mask (rot_mb rot_me : Z) : Z :=
  let m1 := Z.shiftr 0xFFFFFFFF rot_mb in
  let m2 := shl32 0xFFFFFFFF (31 - rot_me) in
  if rot_mb <=? rot_me then Z.land m2 m1 else Z.lor m1 m2.

(* [cpu/ppc/poweropcodes.cpp:39-57] *)
Definition power_abs (rec : field_rc) (ov : field_ov) (opcode : Z) (s : ppc_state) : ppc_state :=
  let '(reg_d, reg_a, ppc_result_a) := ppc_grab_regsda opcode s in
  let '(ppc_result_d, s) :=
    if ppc_result_a =? 0x80000000 then
      (ppc_result_a, cond (oe ov) (xer_or (Z.lor XERB.SO XERB.OV)) s)
    else
      (if s32 ppc_result_a <? 0 then u32 (- ppc_result_a) else ppc_result_a,
       cond (oe ov) (xer_andc XERB.OV) s) in
  let s := cond (rc rec) (ppc_changecrf0 ppc_result_d) s in
  ppc_store_iresult_reg reg_d ppc_result_d s.

(* [cpu/ppc/poweropcodes.cpp:64-88] *)
Definition power_clcs (is_601 : bool) (opcode : Z) (s : ppc_state) : ppc_state :=
  let '(reg_d, reg_a) := ppc_grab_da opcode in
  let k := Z.land reg_a 15 in
  let ppc_result_d :=
    if (k <=? 3) || (0xC <=? k) then (if is_601 then 0x40 else 0x20)
    else if k <=? 6 then 0x20
    else if k =? 7 then (if is_601 then 1 else 0)
    else if k <=? 9 then (if is_601 then 8 else 4)
    else (if is_601 then 0x8000 else 0x4000) in
  ppc_store_iresult_reg reg_d ppc_result_d s.

(** The 64-bit division of C++ is undefined when the quotient does not fit; the
    result is then [None].  The literal [0x80000000] does not fit an [int], so it
    is an [unsigned int] and its negation is 2^31. *)
Definition div64 (dividend divisor : Z) : option (Z * Z) :=
  if (dividend =? - 2 ^ 63) && (divisor =? -1) then None
  else Some (Z.quot dividend divisor, Z.rem dividend divisor).

(* [cpu/ppc/poweropcodes.cpp:90-128] *)
Definition power_div (rec : field_rc) (ov : field_ov) (opcode : Z) (s : ppc_state)
    : option ppc_state :=
  let '(reg_d, reg_a, reg_b, ppc_result_a, ppc_result_b) := ppc_grab_regsdab opcode s in
  let dividend := s64 (Z.lor (Z.shiftl ppc_result_a 32) (spr s).[SPR.MQ]) in
  let divisor := s32 ppc_result_b in
  let finish '(ppc_result_d, remainder, s) :=
    let s := cond (rc rec) (ppc_changecrf0 (u32 remainder)) s in
    let s := ppc_store_iresult_reg reg_d ppc_result_d s in
    set_spr SPR.MQ (u32 remainder) s in
  if (dividend =? u32 (- 0x80000000)) && (divisor =? -1) then
    Some (finish (0x80000000, 0, cond (oe ov) (xer_or (Z.lor XERB.SO XERB.OV)) s))
  else if divisor =? 0 then
    Some (finish (0x80000000, 0, cond (oe ov) (xer_or (Z.lor XERB.SO XERB.OV)) s))
  else
    match div64 dividend divisor with
    | None => None
    | Some (quotient, r) =>
        let remainder := s32 r in
        let ppc_result_d := u32 quotient in
        Some (finish (ppc_result_d, remainder,
          cond (oe ov)
            (set_ov (negb (Z.land (Z.shiftr quotient 31 + 1) (Z.lnot 1) =? 0))) s))
    end.

(* [cpu/ppc/poweropcodes.cpp:135-162] *)
Definition power_divs (rec : field_rc) (ov : field_ov) (opcode : Z) (s : ppc_state) : ppc_state :=
  let '(reg_d, reg_a, reg_b, ppc_result_a, ppc_result_b) := ppc_grab_regsdab opcode s in
  let '(ppc_result_d, remainder, s) :=
    if ppc_result_b =? 0 then
      (u32 (-1), s32 ppc_result_a, cond (oe ov) (xer_or (Z.lor XERB.SO XERB.OV)) s)
    else if (ppc_result_a =? 0x80000000) && (ppc_result_b =? 0xFFFFFFFF) then
      (0x80000000, 0, cond (oe ov) (xer_or (Z.lor XERB.SO XERB.OV)) s)
    else
      (u32 (Z.quot (s32 ppc_result_a) (s32 ppc_result_b)),
       Z.rem (s32 ppc_result_a) (s32 ppc_result_b),
       cond (oe ov) (xer_andc XERB.OV) s) in
  let s := cond (rc rec) (ppc_changecrf0 (u32 remainder)) s in
  let s := ppc_store_iresult_reg reg_d ppc_result_d s in
  set_spr SPR.MQ (u32 remainder) s.

(* [cpu/ppc/poweropcodes.cpp:169-186] *)
Definition power_doz (rec : field_rc) (ov : field_ov) (opcode : Z) (s : ppc_state) : ppc_state :=
  let '(reg_d, reg_a, reg_b, ppc_result_a, ppc_result_b) := ppc_grab_regsdab opcode s in
  let ppc_result_d :=
    if s32 ppc_result_a <? s32 ppc_result_b then u32 (ppc_result_b - ppc_result_a) else 0 in
  let s := cond (oe ov) (set_ov (s32 ppc_result_d <? 0)) s in
  let s := cond (rc rec) (ppc_changecrf0 ppc_result_d) s in
  ppc_store_iresult_reg reg_d ppc_result_d s.

(* [cpu/ppc/poweropcodes.cpp:193-202] *)
Definition power_dozi (opcode : Z) (s : ppc_state) : ppc_state :=
  let '(reg_d, reg_a, simm, ppc_result_a) := ppc_grab_regsdasimm opcode s in
  let ppc_result_d := if simm <? s32 ppc_result_a then 0 else u32 (simm - ppc_result_a) in
  ppc_store_iresult_reg reg_d ppc_result_d s.

(* [cpu/ppc/poweropcodes.cpp:258-281] *)
Definition power_maskg (rec : field_rc) (opcode : Z) (s : ppc_state) : ppc_state :=
  let '(reg_s, reg_a, reg_b, ppc_result_d, _, ppc_result_b) := ppc_grab_regssab opcode s in
  let mask_start := Z.land ppc_result_d 0x1F in
  let mask_end := Z.land ppc_result_b 0x1F in
  let insert_mask :=
    if mask_start <? mask_end + 1 then power_rot_mask mask_start mask_end
    else if mask_start =? mask_end + 1 then 0xFFFFFFFF
    else not32 (power_rot_mask (mask_end + 1) (mask_start - 1)) in
  let ppc_result_a := insert_mask in
  let s := cond (rc rec) (ppc_changecrf0 ppc_result_a) s in
  ppc_store_iresult_reg reg_a ppc_result_a s.

(* [cpu/ppc/poweropcodes.cpp:286-295] *)
Definition power_maskir (rec : field_rc) (opcode : Z) (s : ppc_state) : ppc_state :=
  let '(reg_s, reg_a, reg_b, ppc_result_d, ppc_result_a, ppc_result_b) :=
    ppc_grab_regssab opcode s in
  let ppc_result_a :=
    Z.lor (Z.land ppc_result_a (not32 ppc_result_b)) (Z.land ppc_result_d ppc_result_b) in
  let s := cond (rc rec) (ppc_changecrf0 ppc_result_a) s in
  ppc_store_iresult_reg reg_a ppc_result_a s.

(* [cpu/ppc/poweropcodes.cpp:300-317] *)
Definition power_mul (rec : field_rc) (ov : field_ov) (opcode : Z) (s : ppc_state) : ppc_state :=
  let '(reg_d, reg_a, reg_b, ppc_result_a, ppc_result_b) := ppc_grab_regsdab opcode s in
  let product := s64 (s32 ppc_result_a * s32 ppc_result_b) in
  let ppc_result_d := u32 (Z.shiftr (u64 product) 32) in
  let s := set_spr SPR.MQ (u32 product) s in
  let s := cond (oe ov)
    (set_ov (negb (Z.land (u64 (u64 (Z.shiftr product 31) + 1)) (u64 (Z.lnot 1)) =? 0))) s in
  let s := cond (rc rec) (ppc_changecrf0 (u32 product)) s in
  ppc_store_iresult_reg reg_d ppc_result_d s.

(* [cpu/ppc/poweropcodes.cpp:324-335] *)
Definition power_nabs (rec : field_rc) (ov : field_ov) (opcode : Z) (s : ppc_state) : ppc_state :=
  let '(reg_d, reg_a, ppc_result_a) := ppc_grab_regsda opcode s in
  let ppc_result_d := if s32 ppc_result_a <? 0 then ppc_result_a else u32 (- ppc_result_a) in
  let s := cond (oe ov) (xer_andc XERB.OV) s in
  let s := cond (rc rec) (ppc_changecrf0 ppc_result_d) s in
  ppc_store_iresult_reg reg_d ppc_result_d s.

(* [cpu/ppc/poweropcodes.cpp:342-356] *)
Definition power_rlmi (opcode : Z) (s : ppc_state) : ppc_state :=
  let '(reg_s, reg_a, reg_b, ppc_result_d, ppc_result_a, ppc_result_b) :=
    ppc_grab_regssab opcode s in
  let rot_mb := field_mb opcode in
  let rot_me := field_me opcode in
  let r := Bitops.ROTL_32 ppc_result_d ppc_result_b in
  let mask := power_rot_mask rot_mb rot_me in
  let ppc_result_a := Z.lor (Z.land r mask) (Z.land ppc_result_a (not32 mask)) in
  let s := cond (rc_bit opcode) (ppc_changecrf0 ppc_result_a) s in
  ppc_store_iresult_reg reg_a ppc_result_a s.

(* [cpu/ppc/poweropcodes.cpp:358-373] *)
Definition power_rrib (rec : field_rc) (opcode : Z) (s : ppc_state) : ppc_state :=
  let '(reg_s, reg_a, reg_b, ppc_result_d, ppc_result_a, ppc_result_b) :=
    ppc_grab_regssab opcode s in
  let rot_sh := Z.land ppc_result_b 0x1F in
  let ppc_result_a :=
    if s32 ppc_result_d <? 0 then Z.lor ppc_result_a (Z.shiftr 0x80000000 rot_sh)
    else Z.land ppc_result_a (not32 (Z.shiftr 0x80000000 rot_sh)) in
  let s := cond (rc rec) (ppc_changecrf0 ppc_result_a) s in
  ppc_store_iresult_reg reg_a ppc_result_a s.

(* [cpu/ppc/poweropcodes.cpp:378-392] *)
Definition power_sle (rec : field_rc) (opcode : Z) (s : ppc_state) : ppc_state :=
  let '(reg_s, reg_a, reg_b, ppc_result_d, _, ppc_result_b) := ppc_grab_regssab opcode s in
  let rot_sh := Z.land ppc_result_b 0x1F in
  let ppc_result_a := shl32 ppc_result_d rot_sh in
  let s := set_spr SPR.MQ (Bitops.ROTL_32 ppc_result_d rot_sh) s in
  let s := ppc_store_iresult_reg reg_a ppc_result_a s in
  let s := cond (rc rec) (ppc_changecrf0 ppc_result_a) s in
  ppc_store_iresult_reg reg_a ppc_result_a s.

(* [cpu/ppc/poweropcodes.cpp:397-411] *)
Definition power_sleq (rec : field_rc) (opcode : Z) (s : ppc_state) : ppc_state :=
  let '(reg_s, reg_a, reg_b, ppc_result_d, _, ppc_result_b) := ppc_grab_regssab opcode s in
  let rot_sh := Z.land ppc_result_b 0x1F in
  let r := Bitops.ROTL_32 ppc_result_d rot_sh in
  let mask := power_rot_mask 0 (31 - rot_sh) in
  let ppc_result_a := Z.lor (Z.land r mask) (Z.land (spr s).[SPR.MQ] (not32 mask)) in
  let s := set_spr SPR.MQ r s in
  let s := cond (rc rec) (ppc_changecrf0 ppc_result_a) s in
  ppc_store_iresult_reg reg_a ppc_result_a s.

(* [cpu/ppc/poweropcodes.cpp:416-427] *)
Definition power_sliq (rec : field_rc) (opcode : Z) (s : ppc_state) : ppc_state :=
  let '(reg_s, reg_a, rot_sh, ppc_result_d, _) := ppc_grab_regssash opcode s in
  let ppc_result_a := shl32 ppc_result_d rot_sh in
  let s := set_spr SPR.MQ (Bitops.ROTL_32 ppc_result_d rot_sh) s in
  let s := cond (rc rec) (ppc_changecrf0 ppc_result_a) s in
  ppc_store_iresult_reg reg_a ppc_result_a s.

(* [cpu/ppc/poweropcodes.cpp:432-445] *)
Definition power_slliq (rec : field_rc) (opcode : Z) (s : ppc_state) : ppc_state :=
  let '(reg_s, reg_a, rot_sh, ppc_result_d, _) := ppc_grab_regssash opcode s in
  let r := Bitops.ROTL_32 ppc_result_d rot_sh in
  let mask := power_rot_mask 0 (31 - rot_sh) in
  let ppc_result_a := Z.lor (Z.land r mask) (Z.land (spr s).[SPR.MQ] (not32 mask)) in
  let s := set_spr SPR.MQ r s in
  let s := cond (rc rec) (ppc_changecrf0 ppc_result_a) s in
  ppc_store_iresult_reg reg_a ppc_result_a s.

(* [cpu/ppc/poweropcodes.cpp:450-465] *)
Definition power_sllq (rec : field_rc) (opcode : Z) (s : ppc_state) : ppc_state :=
  let '(reg_s, reg_a, reg_b, ppc_result_d, _, ppc_result_b) := ppc_grab_regssab opcode s in
  let rot_sh := Z.land ppc_result_b 0x1F in
  let ppc_result_a :=
    if test ppc_result_b 0x20 then Z.land (spr s).[SPR.MQ] (shl32 (u32 (-1)) rot_sh)
    else Z.lor (shl32 ppc_result_d rot_sh)
           (Z.land (spr s).[SPR.MQ] (u32 (shl32 1 rot_sh - 1))) in
  let s := cond (rc rec) (ppc_changecrf0 ppc_result_a) s in
  ppc_store_iresult_reg reg_a ppc_result_a s.

(* [cpu/ppc/poweropcodes.cpp:470-486] *)
Definition power_slq (rec : field_rc) (opcode : Z) (s : ppc_state) : ppc_state :=
  let '(reg_s, reg_a, reg_b, ppc_result_d, _, ppc_result_b) := ppc_grab_regssab opcode s in
  let rot_sh := Z.land ppc_result_b 0x1F in
  let ppc_result_a := if test ppc_result_b 0x20 then 0 else shl32 ppc_result_d rot_sh in
  let s := cond (rc rec) (ppc_changecrf0 ppc_result_a) s in
  let s := set_spr SPR.MQ (Bitops.ROTL_32 ppc_result_d rot_sh) s in
  ppc_store_iresult_reg reg_a ppc_result_a s.

(* [cpu/ppc/poweropcodes.cpp:491-508] *)
Definition power_sraiq (rec : field_rc) (opcode : Z) (s : ppc_state) : ppc_state :=
  let '(reg_s, reg_a, rot_sh, ppc_result_d, _) := ppc_grab_regssash opcode s in
  let mask := u32 (shl32 1 rot_sh - 1) in
  let ppc_result_a := u32 (Z.shiftr (s32 ppc_result_d) rot_sh) in
  let s := set_spr SPR.MQ (Bitops.ROTR_32 ppc_result_d rot_sh) s in
  let s := set_ca ((s32 ppc_result_d <? 0) && test ppc_result_d mask) s in
  let s := cond (rc rec) (ppc_changecrf0 ppc_result_a) s in
  ppc_store_iresult_reg reg_a ppc_result_a s.

(* [cpu/ppc/poweropcodes.cpp:513-533] *)
Definition power_sraq (rec : field_rc) (opcode : Z) (s : ppc_state) : ppc_state :=
  let '(reg_s, reg_a, reg_b, ppc_result_d, _, ppc_result_b) := ppc_grab_regssab opcode s in
  let rot_sh := Z.land ppc_result_b 0x1F in
  let mask := if test ppc_result_b 0x20 then u32 (-1) else u32 (shl32 1 rot_sh - 1) in
  let ppc_result_a :=
    u32 (Z.shiftr (s32 ppc_result_d) (if test ppc_result_b 0x20 then 31 else rot_sh)) in
  let s := set_spr SPR.MQ (Bitops.ROTL_32 ppc_result_d rot_sh) s in
  let s := set_ca ((s32 ppc_result_d <? 0) && test ppc_result_d mask) s in
  let s := set_spr SPR.MQ (Bitops.ROTR_32 ppc_result_d rot_sh) s in
  let s := cond (rc rec) (ppc_changecrf0 ppc_result_a) s in
  ppc_store_iresult_reg reg_a ppc_result_a s.

(* [cpu/ppc/poweropcodes.cpp:538-551] *)
Definition power_sre (rec : field_rc) (opcode : Z) (s : ppc_state) : ppc_state :=
  let '(reg_s, reg_a, reg_b, ppc_result_d, _, ppc_result_b) := ppc_grab_regssab opcode s in
  let rot_sh := Z.land ppc_result_b 0x1F in
  let ppc_result_a := Z.shiftr ppc_result_d rot_sh in
  let s := set_spr SPR.MQ (Bitops.ROTR_32 ppc_result_d rot_sh) s in
  let s := cond (rc rec) (ppc_changecrf0 ppc_result_a) s in
  ppc_store_iresult_reg reg_a ppc_result_a s.

(* [cpu/ppc/poweropcodes.cpp:556-575] *)
Definition power_srea (rec : field_rc) (opcode : Z) (s : ppc_state) : ppc_state :=
  let '(reg_s, reg_a, reg_b, ppc_result_d, _, ppc_result_b) := ppc_grab_regssab opcode s in
  let rot_sh := Z.land ppc_result_b 0x1F in
  let ppc_result_a := u32 (Z.shiftr (s32 ppc_result_d) rot_sh) in
  let r := Bitops.ROTR_32 ppc_result_d rot_sh in
  let mask := Z.shiftr (u32 (-1)) rot_sh in
  let s := set_ca ((s32 ppc_result_d <? 0) && test r (not32 mask)) s in
  let s := cond (rc rec) (ppc_changecrf0 ppc_result_a) s in
  let s := ppc_store_iresult_reg reg_a ppc_result_a s in
  set_spr SPR.MQ r s.

(* [cpu/ppc/poweropcodes.cpp:580-593] *)
Definition power_sreq (rec : field_rc) (opcode : Z) (s : ppc_state) : ppc_state :=
  let '(reg_s, reg_a, reg_b, ppc_result_d, _, ppc_result_b) := ppc_grab_regssab opcode s in
  let rot_sh := Z.land ppc_result_b 0x1F in
  let mask := Z.shiftr (u32 (-1)) rot_sh in
  let ppc_result_a :=
    Z.lor (Z.shiftr ppc_result_d rot_sh) (Z.land (spr s).[SPR.MQ] (not32 mask)) in
  let s := set_spr SPR.MQ (Bitops.ROTR_32 ppc_result_d rot_sh) s in
  let s := cond (rc rec) (ppc_changecrf0 ppc_result_a) s in
  ppc_store_iresult_reg reg_a ppc_result_a s.

(* [cpu/ppc/poweropcodes.cpp:598-608] *)
Definition power_sriq (rec : field_rc) (opcode : Z) (s : ppc_state) : ppc_state :=
  let '(reg_s, reg_a, rot_sh, ppc_result_d, _) := ppc_grab_regssash opcode s in
  let ppc_result_a := Z.shiftr ppc_result_d rot_sh in
  let s := set_spr SPR.MQ (Bitops.ROTR_32 ppc_result_d rot_sh) s in
  let s := cond (rc rec) (ppc_changecrf0 ppc_result_a) s in
  ppc_store_iresult_reg reg_a ppc_result_a s.

(* [cpu/ppc/poweropcodes.cpp:613-626] *)
Definition power_srliq (rec : field_rc) (opcode : Z) (s : ppc_state) : ppc_state :=
  let '(reg_s, reg_a, rot_sh, ppc_result_d, _) := ppc_grab_regssash opcode s in
  let r := Bitops.ROTR_32 ppc_result_d rot_sh in
  let mask := power_rot_mask rot_sh 31 in
  let ppc_result_a := Z.lor (Z.land r mask) (Z.land (spr s).[SPR.MQ] (not32 mask)) in
  let s := set_spr SPR.MQ r s in
  let s := cond (rc rec) (ppc_changecrf0 ppc_result_a) s in
  ppc_store_iresult_reg reg_a ppc_result_a s.

(* [cpu/ppc/poweropcodes.cpp:631-648] *)
Definition power_srlq (rec : field_rc) (opcode : Z) (s : ppc_state) : ppc_state :=
  let '(reg_s, reg_a, reg_b, ppc_result_d, _, ppc_result_b) := ppc_grab_regssab opcode s in
  let rot_sh := Z.land ppc_result_b 0x1F in
  let r := Bitops.ROTR_32 ppc_result_d rot_sh in
  let mask := power_rot_mask rot_sh 31 in
  let ppc_result_a :=
    if test ppc_result_b 0x20 then Z.land (spr s).[SPR.MQ] mask
    else Z.lor (Z.land r mask) (Z.land (spr s).[SPR.MQ] (not32 mask)) in
  let s := cond (rc rec) (ppc_changecrf0 ppc_result_a) s in
  ppc_store_iresult_reg reg_a ppc_result_a s.

(* [cpu/ppc/poweropcodes.cpp:653-670] *)
Definition power_srq (rec : field_rc) (opcode : Z) (s : ppc_state) : ppc_state :=
  let '(reg_s, reg_a, reg_b, ppc_result_d, _, ppc_result_b) := ppc_grab_regssab opcode s in
  let rot_sh := Z.land ppc_result_b 0x1F in
  let ppc_result_a := if test ppc_result_b 0x20 then 0 else Z.shiftr ppc_result_d rot_sh in
  let s := set_spr SPR.MQ (Bitops.ROTR_32 ppc_result_d rot_sh) s in
  let s := cond (rc rec) (ppc_changecrf0 ppc_result_a) s in
  ppc_store_iresult_reg reg_a ppc_result_a s.

(** maskg r3 from bit 28 (r6=0x...78 -> 24) to bit 1 (r5) wraps; mul of -1 by -7. *)
Example maskg_wraps : (gpr (power_maskg RC0 0x7CC3283A demo_state)).[3] = 0xC00000FF.
Proof. reflexivity. Qed.
Example mul_m1_m7 : let s := power_mul RC0 OV0 0x7D2338D6 demo_state in
  (gpr s).[9] = 0 /\ (spr s).[SPR.MQ] = 7.
Proof. split; reflexivity. Qed.

(** ** The effect of a POWER instruction

    Like [int_effect], with two more degrees of freedom: MQ may be replaced, and
    the value recorded in CR field 0 may differ from the value written. *)

Definition with_mq (mq : option Z) (s : ppc_state) : ppc_state :=
  match mq with Some v => set_spr SPR.MQ v s | None => s end.

Definition power_effect (s s' : ppc_state) (reg d recorded : Z) (mq : option Z)
    (ca ov : option bool) (rec : bool) : Prop :=
  exists s1, int_effect (with_mq mq s) s1 reg recorded ca ov rec /\ s' = set_gpr reg d s1 /\
    0 <= d < 2 ^ 32.

Definition mq_ok (mq : option Z) : Prop := match mq with Some v => 0 <= v < 2 ^ 32 | None => True end.

Lemma with_mq_ok mq s : ppc_ok s -> mq_ok mq -> ppc_ok (with_mq mq s).
Proof. intros. destruct mq; simpl in *; [by apply set_spr_ok | done]. Qed.

Lemma power_effect_ok s s' reg d v mq ca ov rec :
  power_effect s s' reg d v mq ca ov rec -> ppc_ok s'.
Proof. intros (s1 & H & -> & Hd). apply set_gpr_ok; [apply H | done]. Qed.

Lemma power_effect_gpr s s' reg d v mq ca ov rec :
  power_effect s s' reg d v mq ca ov rec -> gpr s' = (gpr s).[reg := d].
Proof.
  intros (s1 & H & -> & _). simpl. rewrite (ie_gpr _ _ _ _ _ _ _ H).
  destruct mq; apply rset_rset.
Qed.

Lemma power_effect_mq s s' reg d v mq ca ov rec :
  power_effect s s' reg d v mq ca ov rec -> (spr s').[SPR.MQ] = default (spr s).[SPR.MQ] mq.
Proof.
  intros (s1 & H & -> & _). simpl. rewrite (ie_spr _ _ _ _ _ _ _ H) by done.
  destruct mq; [apply rget_rset_eq | done].
Qed.

(** Writing MQ commutes with the rest of an instruction. *)
Lemma set_mq_changecrf0 q v s :
  set_spr SPR.MQ q (ppc_changecrf0 v s) = ppc_changecrf0 v (set_spr SPR.MQ q s).
Proof. unfold ppc_changecrf0, set_spr, with_spr, with_cr. simpl. by rewrite rget_rset_ne. Qed.

Lemma rset_comm (r : gmap Z Z) i j v w : i <> j -> r.[i := v].[j := w] = r.[j := w].[i := v].
Proof. intros. unfold rset. by rewrite insert_insert_ne. Qed.

Lemma set_mq_xer_or q m s : set_spr SPR.MQ q (xer_or m s) = xer_or m (set_spr SPR.MQ q s).
Proof.
  unfold xer_or, set_spr, with_spr. simpl. rewrite rget_rset_ne by done. by rewrite rset_comm.
Qed.
Lemma set_mq_xer_andc q m s : set_spr SPR.MQ q (xer_andc m s) = xer_andc m (set_spr SPR.MQ q s).
Proof.
  unfold xer_andc, set_spr, with_spr. simpl. rewrite rget_rset_ne by done. by rewrite rset_comm.
Qed.
Lemma set_mq_cond q b f s :
  (forall s, set_spr SPR.MQ q (f s) = f (set_spr SPR.MQ q s)) ->
  set_spr SPR.MQ q (cond b f s) = cond b f (set_spr SPR.MQ q s).
Proof. intros H. by destruct b; simpl. Qed.
Lemma set_mq_set_ov q b s : set_spr SPR.MQ q (set_ov b s) = set_ov b (set_spr SPR.MQ q s).
Proof. destruct b; [apply set_mq_xer_or | apply set_mq_xer_andc]. Qed.
Lemma set_mq_set_ca q b s : set_spr SPR.MQ q (set_ca b s) = set_ca b (set_spr SPR.MQ q s).
Proof. destruct b; [apply set_mq_xer_or | apply set_mq_xer_andc]. Qed.
Lemma set_mq_mq q q' s : set_spr SPR.MQ q (set_spr SPR.MQ q' s) = set_spr SPR.MQ q s.
Proof. unfold set_spr, with_spr. simpl. by rewrite rset_rset. Qed.
Lemma set_mq_store q reg d s :
  set_spr SPR.MQ q (ppc_store_iresult_reg reg d s) = ppc_store_iresult_reg reg d (set_spr SPR.MQ q s).
Proof. reflexivity. Qed.

Create Rewrite HintDb mq.
#[export] Hint Rewrite set_mq_changecrf0 set_mq_xer_or set_mq_xer_andc set_mq_set_ov
  set_mq_set_ca set_mq_mq set_mq_store : mq.
#[export] Hint Rewrite set_mq_cond using (intros; by autorewrite with mq) : mq.

(** The common tail once MQ has been moved to the front. *)
Lemma power_finish s mq s1 reg d v ca ov rec :
  flags_effect (with_mq mq s) s1 ca ov -> 0 <= v < 2 ^ 32 -> 0 <= d < 2 ^ 32 ->
  power_effect s (ppc_store_iresult_reg reg d (cond rec (ppc_changecrf0 v) s1)) reg d v mq ca ov rec.
Proof.
  intros H Hv Hd. eexists. split; [by eapply effect_finish|]. split; [|done].
  unfold ppc_store_iresult_reg, set_gpr, with_gpr. simpl. by rewrite rset_rset.
Qed.

(** ** Shifts, bit by bit *)

Definition shl_result (n src : Z) (fill : Z -> bool) (r : Z) : Prop :=
  0 <= r < 2 ^ 32 /\
  forall i, 0 <= i < 32 -> ppc_bit r i = if i + n <? 32 then ppc_bit src (i + n) else fill i.

Definition shr_result (n src : Z) (fill : Z -> bool) (r : Z) : Prop :=
  0 <= r < 2 ^ 32 /\
  forall i, 0 <= i < 32 -> ppc_bit r i = if n <=? i then ppc_bit src (i - n) else fill i.

Lemma power_rot_mask_eq mb me : power_rot_mask mb me = rot_mask mb me.
Proof. reflexivity. Qed.

Lemma rot_result_shl n src keep r : 0 <= n < 32 ->
  rot_result n 0 (31 - n) src keep r -> shl_result n src keep r.
Proof.
  intros Hn [Hr H]. split; [done|]. intros i Hi. rewrite H by done. unfold in_mask.
  rewrite (proj2 (Z.leb_le 0 (31 - n))), (proj2 (Z.leb_le 0 i)) by lia. simpl.
  destruct (Z.leb_spec i (31 - n)), (Z.ltb_spec (i + n) 32); try lia; [|done].
  by rewrite Z.mod_small by lia.
Qed.

Lemma rot_result_shr n src keep r : 0 <= n < 32 ->
  rot_result (32 - n) n 31 src keep r -> shr_result n src keep r.
Proof.
  intros Hn [Hr H]. split; [done|]. intros i Hi. rewrite H by done. unfold in_mask.
  rewrite (proj2 (Z.leb_le n 31)), (proj2 (Z.leb_le i 31)), andb_true_r by lia.
  destruct (Z.leb_spec n i); [|done].
  f_equal. replace (i + (32 - n)) with ((i - n) + 1 * 32) by lia.
  rewrite Z_mod_plus_full. apply Z.mod_small. lia.
Qed.

Lemma rotl_insert n src old : 0 <= n < 32 -> 0 <= src < 2 ^ 32 -> 0 <= old < 2 ^ 32 ->
  let mask := power_rot_mask 0 (31 - n) in
  shl_result n src (ppc_bit old)
    (Z.lor (Z.land (Bitops.ROTL_32 src n) mask) (Z.land old (not32 mask))).
Proof.
  intros Hn Hs Ho mask. apply rot_result_shl; [done|]. rewrite Z.lor_comm.
  apply rot_insert; lia.
Qed.

Lemma rotr_insert n src old : 0 <= n < 32 -> 0 <= src < 2 ^ 32 -> 0 <= old < 2 ^ 32 ->
  let mask := power_rot_mask n 31 in
  shr_result n src (ppc_bit old)
    (Z.lor (Z.land (Bitops.ROTR_32 src n) mask) (Z.land old (not32 mask))).
Proof.
  intros Hn Hs Ho mask. apply rot_result_shr; [done|]. rewrite Z.lor_comm, Bitops.ROTR_32_ROTL.
  rewrite (Z.mod_small n) by lia. apply rot_insert; lia.
Qed.

Lemma shl32_result n src : 0 <= n < 32 -> 0 <= src < 2 ^ 32 ->
  shl_result n src (fun _ => false) (shl32 src n).
Proof.
  intros Hn Hs. split; [apply u32_range|]. intros i Hi. unfold ppc_bit, shl32.
  rewrite testbit_uwrap, Z.shiftl_spec by lia.
  destruct (Z.ltb_spec (31 - i) 32); [simpl|lia].
  destruct (Z.ltb_spec (i + n) 32); [f_equal; lia | apply Z.testbit_neg_r; lia].
Qed.

Lemma shiftr_result n src : 0 <= n < 32 -> 0 <= src < 2 ^ 32 ->
  shr_result n src (fun _ => false) (Z.shiftr src n).
Proof.
  intros Hn Hs. split; [apply shiftr_range; lia|]. intros i Hi. unfold ppc_bit.
  rewrite Z.shiftr_spec by lia.
  destruct (Z.leb_spec n i); [f_equal; lia | apply (testbit_high 32); lia].
Qed.

Lemma testbit_s32 x i : 0 <= x < 2 ^ 32 -> 0 <= i ->
  Z.testbit (s32 x) i = Z.testbit x (if i <? 32 then i else 31).
Proof.
  intros Hx Hi. destruct (Z.ltb_spec i 32).
  - rewrite <- (uwrap_small 32 x) at 2 by done. rewrite <- u32_s32, testbit_uwrap by lia.
    destruct (Z.ltb_spec i 32); [done|lia].
  - rewrite <- s32_neg_testbit by done. pose proof (s32_range x).
    destruct (Z.ltb_spec (s32 x) 0).
    + rewrite <- (Z.lnot_involutive (s32 x)), Z.lnot_spec, (testbit_high 31) by (unfold Z.lnot; lia).
      done.
    + apply (testbit_high 31); lia.
Qed.

Lemma sar_result n src : 0 <= n < 32 -> 0 <= src < 2 ^ 32 ->
  shr_result n src (fun _ => ppc_bit src 0) (u32 (Z.shiftr (s32 src) n)).
Proof.
  intros Hn Hs. split; [apply u32_range|]. intros i Hi. unfold ppc_bit.
  rewrite testbit_uwrap, Z.shiftr_spec, testbit_s32 by lia.
  rewrite (proj2 (Z.ltb_lt (31 - i) 32)) by lia. simpl.
  destruct (Z.leb_spec n i), (Z.ltb_spec (31 - i + n) 32); try lia; f_equal; lia.
Qed.

(** The low [n] bits of a word, as the carry of [srea] reads them after rotating. *)
Lemma rotated_out src n : 0 <= n < 32 -> 0 <= src < 2 ^ 32 ->
  test (Bitops.ROTR_32 src n) (not32 (Z.shiftr (u32 (-1)) n)) = test src (u32 (shl32 1 n - 1)).
Proof.
  intros Hn Hs. rewrite test_low_bits by done. unfold test. f_equal.
  assert (forall x y, (x = 0 <-> y = 0) -> (x =? 0) = (y =? 0)) as E.
  { intros x y Hxy. destruct (Z.eqb_spec x 0), (Z.eqb_spec y 0); tauto. }
  apply E. clear E.
  assert (Hmask : forall i, 0 <= i < 32 ->
    Z.testbit (not32 (Z.shiftr (u32 (-1)) n)) i = (32 <=? i + n)).
  { intros i Hi. rewrite testbit_not32, Z.shiftr_spec by lia. change (u32 (-1)) with (Z.ones 32).
    destruct (Z.leb_spec 32 (i + n)); [rewrite Z.ones_spec_high by lia | rewrite Z.ones_spec_low by lia];
      done. }
  split; intros H.
  - apply Z.bits_inj'. intros j Hj. rewrite Z.bits_0.
    destruct (Z.lt_ge_cases j n); [|by rewrite Z.mod_pow2_bits_high by lia].
    rewrite Z.mod_pow2_bits_low by lia.
    assert (Z.testbit (Z.land (Bitops.ROTR_32 src n) (not32 (Z.shiftr (u32 (-1)) n))) (j + 32 - n) = false)
      as Hj' by (by rewrite H, Z.bits_0).
    rewrite Z.land_spec, Hmask, Bitops.ROTR_32_testbit in Hj' by lia.
    rewrite (proj2 (Z.leb_le 32 (j + 32 - n + n))), andb_true_r in Hj' by lia.
    rewrite <- Hj'. f_equal. symmetry. zlia.
  - apply Z.bits_inj'. intros i Hi. rewrite Z.land_spec, Z.bits_0.
    destruct (Z.lt_ge_cases i 32).
    2:{ rewrite (testbit_high 32 (not32 _)), andb_false_r by (lia || apply not32_range). done. }
    rewrite Hmask by lia. destruct (Z.leb_spec 32 (i + n)); [|apply andb_false_r].
    rewrite andb_true_r, Bitops.ROTR_32_testbit by lia.
    replace ((i + n) mod 32) with (i + n - 32) by (symmetry; zlia).
    rewrite <- (Z.mod_pow2_bits_low src n) by lia. by rewrite H, Z.bits_0.
Qed.

(** [maskg] makes the circular mask in all three cases of the code. *)
Lemma maskg_mask st en : 0 <= st < 32 -> 0 <= en < 32 ->
  (if st <? en + 1 then power_rot_mask st en
   else if st =? en + 1 then 0xFFFFFFFF
   else not32 (power_rot_mask (en + 1) (st - 1))) = rot_mask st en.
Proof.
  intros Hs He. apply Z.eqb_eq.
  refine (range_forall2 32 32 (fun st en =>
    (if st <? en + 1 then power_rot_mask st en
     else if st =? en + 1 then 0xFFFFFFFF
     else not32 (power_rot_mask (en + 1) (st - 1))) =? rot_mask st en) _ st en Hs He).
  vm_compute. reflexivity.
Qed.

(** ** What each instruction computes *)

Section Effects.
Context (s : ppc_state) (Hs : ppc_ok s) (opcode : Z).
Let D := field_d opcode.
Let RA := field_a opcode.
Let A := (gpr s).[field_a opcode].
Let B := (gpr s).[field_b opcode].
Let S := (gpr s).[field_d opcode].
Let MQ := (spr s).[SPR.MQ].
Let HA : 0 <= A < 2 ^ 32 := ok_get_gpr s Hs _.
Let HB : 0 <= B < 2 ^ 32 := ok_get_gpr s Hs _.
Let HS : 0 <= S < 2 ^ 32 := ok_get_gpr s Hs _.
Let HMQ : 0 <= MQ < 2 ^ 32 := ok_get_spr s Hs _.

Lemma abs_effect rec ov :
  int_effect s (power_abs rec ov opcode s) D (Z.abs (s32 A) mod 2 ^ 32) None
    (if oe ov then Some (A =? 2 ^ 31) else None) (rc rec).
Proof.
  unfold power_abs. cbn [ppc_grab_regsda decode_ops_da]. fold A D.
  pose proof (set_ov_effect s Hs (oe ov)) as Hf. rewrite (s32_alt A) by done.
  change 0x80000000 with (2 ^ 31). destruct (Z.eqb_spec A (2 ^ 31)) as [E|].
  - rewrite E. apply (effect_finish _ _ _ _ _ _ _ (Hf true)). lia.
  - assert ((if (if A <? 2 ^ 31 then A else A - 2 ^ 32) <? 0 then u32 (- A) else A) =
            Z.abs (if A <? 2 ^ 31 then A else A - 2 ^ 32) mod 2 ^ 32) as ->.
    { destruct (Z.ltb_spec A (2 ^ 31)).
      - rewrite (proj2 (Z.ltb_ge A 0)), Z.abs_eq, Z.mod_small by lia. done.
      - rewrite (proj2 (Z.ltb_lt (A - 2 ^ 32) 0)), Z.abs_neq, Z.mod_small by lia.
        apply (u32_eq _ _ (-1)); lia. }
    apply (effect_finish _ _ _ _ _ _ _ (Hf false)). apply u32_range.
Qed.

Lemma nabs_effect rec ov :
  int_effect s (power_nabs rec ov opcode s) D ((- Z.abs (s32 A)) mod 2 ^ 32) None
    (if oe ov then Some false else None) (rc rec).
Proof.
  unfold power_nabs. cbn [ppc_grab_regsda decode_ops_da]. fold A D.
  assert ((if s32 A <? 0 then A else u32 (- A)) = (- Z.abs (s32 A)) mod 2 ^ 32) as ->.
  { rewrite (s32_alt A) by done. destruct (Z.ltb_spec A (2 ^ 31)).
    - rewrite (proj2 (Z.ltb_ge A 0)), Z.abs_eq by lia. done.
    - rewrite (proj2 (Z.ltb_lt (A - 2 ^ 32) 0)), Z.abs_neq by lia.
      symmetry. apply (u32_eq _ _ (-1)); lia. }
  apply (effect_finish _ _ _ _ _ _ _ (set_ov_effect s Hs (oe ov) false)). apply u32_range.
Qed.

(** Difference or zero, on signed operands. *)
Lemma doz_effect rec ov :
  int_effect s (power_doz rec ov opcode s) D (Z.max 0 (s32 B - s32 A) mod 2 ^ 32) None
    (if oe ov then Some (negb (s32_fits (Z.max 0 (s32 B - s32 A)))) else None) (rc rec).
Proof.
  unfold power_doz. cbn [ppc_grab_regsdab decode_ops_dab]. fold A B D.
  pose proof (s32_range A) as RA'. pose proof (s32_range B) as RB'.
  assert ((if s32 A <? s32 B then u32 (B - A) else 0) = Z.max 0 (s32 B - s32 A)) as ->.
  { destruct (Z.ltb_spec (s32 A) (s32 B)); [|lia]. rewrite Z.max_r by lia.
    rewrite !(s32_alt) in * by done.
    destruct (Z.ltb_spec A (2 ^ 31)), (Z.ltb_spec B (2 ^ 31));
      first [apply (u32_eq _ _ 0); lia | apply (u32_eq _ _ (-1)); lia]. }
  rewrite (Z.mod_small (Z.max _ _)) by lia.
  assert (negb (s32_fits (Z.max 0 (s32 B - s32 A))) = (s32 (Z.max 0 (s32 B - s32 A)) <? 0)) as ->.
  { set (m := Z.max 0 (s32 B - s32 A)). rewrite (s32_alt m) by lia. unfold s32_fits.
    rewrite (proj2 (Z.leb_le (- 2 ^ 31) m)) by lia. simpl.
    destruct (Z.ltb_spec m (2 ^ 31)); symmetry; [apply Z.ltb_ge | apply Z.ltb_lt]; lia. }
  apply effect_finish; [by apply set_ov_effect | lia].
Qed.

Lemma dozi_effect :
  int_effect s (power_dozi opcode s) D (Z.max 0 (s16 opcode - s32 A) mod 2 ^ 32) None None false.
Proof.
  unfold power_dozi. cbn [ppc_grab_regsdasimm decode_ops_dasimm]. fold A D.
  pose proof (s32_range A). pose proof (swrap_range 16 opcode ltac:(lia)).
  assert ((if s16 opcode <? s32 A then 0 else u32 (s16 opcode - A)) =
          Z.max 0 (s16 opcode - s32 A) mod 2 ^ 32) as ->.
  { rewrite Z.mod_small by lia. destruct (Z.ltb_spec (s16 opcode) (s32 A)); [lia|].
    rewrite Z.max_r by lia. rewrite !(s32_alt) in * by done.
    destruct (Z.ltb_spec A (2 ^ 31));
      first [apply (u32_eq _ _ 0); lia | apply (u32_eq _ _ (-1)); lia]. }
  apply (effect_finish s s D _ None None false); [by apply flags_none | apply u32_range].
Qed.

Lemma overflow_shift x : (Z.shiftr x 31 =? -1) || (Z.shiftr x 31 =? 0) = s32_fits x.
Proof.
  unfold s32_fits. rewrite Z.shiftr_div_pow2 by lia.
  destruct (Z.eqb_spec (x / 2 ^ 31) (-1)), (Z.eqb_spec (x / 2 ^ 31) 0),
    (Z.leb_spec (- 2 ^ 31) x), (Z.ltb_spec x (2 ^ 31)); simpl; try reflexivity; zlia.
Qed.

(** [x & ~1] is 0 exactly on 0 and 1. *)
Lemma land_lnot_1 x : (Z.land x (Z.lnot 1) =? 0) = (x =? 0) || (x =? 1).
Proof.
  change 1 with (Z.ones 1) at 1. rewrite land_lnot_ones by lia. change (2 ^ 1) with 2.
  destruct (Z.eqb_spec (x - x mod 2) 0), (Z.eqb_spec x 0), (Z.eqb_spec x 1); simpl;
    try reflexivity; zlia.
Qed.

Lemma div_overflow q : negb (Z.land (Z.shiftr q 31 + 1) (Z.lnot 1) =? 0) = negb (s32_fits q).
Proof.
  rewrite land_lnot_1, <- overflow_shift. f_equal.
  destruct (Z.eqb_spec (Z.shiftr q 31 + 1) 0), (Z.eqb_spec (Z.shiftr q 31 + 1) 1),
    (Z.eqb_spec (Z.shiftr q 31) (-1)), (Z.eqb_spec (Z.shiftr q 31) 0); simpl; reflexivity || lia.
Qed.

Lemma mul_overflow p : - 2 ^ 62 <= p <= 2 ^ 62 ->
  negb (Z.land (u64 (u64 (Z.shiftr p 31) + 1)) (u64 (Z.lnot 1)) =? 0) = negb (s32_fits p).
Proof.
  intros Hp. rewrite uwrap_add_l. rewrite <- div_overflow. f_equal.
  set (y := Z.shiftr p 31 + 1).
  assert (- 2 ^ 32 <= y <= 2 ^ 32) by (subst y; rewrite Z.shiftr_div_pow2 by lia; zlia).
  change (u64 (Z.lnot 1)) with (Z.ldiff (Z.ones 64) (Z.ones 1)).
  assert (Z.land (u64 y) (Z.ldiff (Z.ones 64) (Z.ones 1)) = u64 (Z.land y (Z.lnot 1))) as ->.
  { apply Z.bits_inj'. intros i Hi.
    rewrite Z.land_spec, Z.ldiff_spec, !testbit_uwrap, Z.land_spec, Z.lnot_spec by lia.
    rewrite Z.testbit_ones by lia. change (Z.testbit (Z.ones 1) i) with (Z.testbit 1 i).
    destruct (Z.ltb_spec i 64); simpl; [|done].
    rewrite (proj2 (Z.leb_le 0 i)) by lia. done. }
  change 1 with (Z.ones 1) at 1 2. rewrite land_lnot_ones by lia. change (2 ^ 1) with 2.
  unfold uwrap. destruct (Z.eqb_spec (y - y mod 2) 0) as [E|]; [by rewrite E|].
  apply Z.eqb_neq. zlia.
Qed.

(** [mul]: the 64-bit product, high half in rD, low half in MQ. *)
Lemma mul_effect rec ov :
  power_effect s (power_mul rec ov opcode s) D
    ((s32 A * s32 B / 2 ^ 32) mod 2 ^ 32) ((s32 A * s32 B) mod 2 ^ 32)
    (Some ((s32 A * s32 B) mod 2 ^ 32)) None
    (if oe ov then Some (negb (s32_fits (s32 A * s32 B))) else None) (rc rec).
Proof.
  unfold power_mul. cbn [ppc_grab_regsdab decode_ops_dab]. fold A B D.
  rewrite s64_prod, mul_overflow by apply s32_prod_range.
  assert (u32 (Z.shiftr (u64 (s32 A * s32 B)) 32) = (s32 A * s32 B / 2 ^ 32) mod 2 ^ 32) as ->.
  { rewrite Z.shiftr_div_pow2 by lia. unfold uwrap. zlia. }
  change (u32 (s32 A * s32 B)) with ((s32 A * s32 B) mod 2 ^ 32).
  assert (0 <= (s32 A * s32 B) mod 2 ^ 32 < 2 ^ 32) by apply u32_range.
  apply power_finish; [|done|apply u32_range].
  apply set_ov_effect. by apply set_spr_ok.
Qed.

(** [divs]: signed 32-bit division with the remainder in MQ. *)
Lemma divs_effect rec ov :
  let ok := negb (B =? 0) && negb ((s32 A =? - 2 ^ 31) && (s32 B =? -1)) in
  let d := if B =? 0 then 2 ^ 32 - 1 else Z.quot (s32 A) (s32 B) mod 2 ^ 32 in
  let r := if B =? 0 then A else Z.rem (s32 A) (s32 B) mod 2 ^ 32 in
  power_effect s (power_divs rec ov opcode s) D d r (Some r) None
    (if oe ov then Some (negb ok) else None) (rc rec).
Proof.
  intros ok d r. assert (0 <= r < 2 ^ 32) as Hr by (subst r; case_if; [done | apply u32_range]).
  unfold power_divs. cbn [ppc_grab_regsdab decode_ops_dab]. fold A B D.
  assert ((s32 A =? - 2 ^ 31) = (A =? 0x80000000)) as EA.
  { rewrite s32_alt by done. destruct (Z.ltb_spec A (2 ^ 31)), (Z.eqb_spec A 0x80000000);
      try lia; first [apply Z.eqb_eq; lia | apply Z.eqb_neq; lia]. }
  assert ((s32 B =? -1) = (B =? 0xFFFFFFFF)) as EB.
  { rewrite s32_alt by done. destruct (Z.ltb_spec B (2 ^ 31)), (Z.eqb_spec B 0xFFFFFFFF);
      try lia; first [apply Z.eqb_eq; lia | apply Z.eqb_neq; lia]. }
  assert (Hf := fun v => set_ov_effect (with_mq (Some r) s) (with_mq_ok (Some r) s Hs Hr) (oe ov) v).
  assert (0 <= d < 2 ^ 32) as Hd by (subst d; case_if; [lia | apply u32_range]).
  subst ok. rewrite EA, EB.
  destruct (Z.eqb_spec B 0) as [E0|E0]; [|destruct ((A =? 0x80000000) && (B =? 0xFFFFFFFF)) eqn:E];
    autorewrite with mq.
  - assert (u32 (s32 A) = r) as -> by (rewrite u32_s32; by apply uwrap_small).
    exact (power_finish s (Some r) _ D d r None _ (rc rec) (Hf true) Hr Hd).
  - bool_to_prop. assert (u32 0 = r) as -> by (subst r; by rewrite H, H0).
    assert (0x80000000 = d) as -> by (subst d; by rewrite H, H0).
    exact (power_finish s (Some r) _ D d r None _ (rc rec) (Hf true) Hr Hd).
  - exact (power_finish s (Some r) _ D d r None _ (rc rec) (Hf false) Hr Hd).
Qed.

(** [div] divides the 64-bit rA || MQ. *)
Definition mq_dividend (hi lo : Z) : Z := 2 ^ 32 * s32 hi + lo.

Lemma dividend_eq : s64 (Z.lor (Z.shiftl A 32) MQ) = mq_dividend A MQ.
Proof.
  rewrite Z.shiftl_mul_pow2, Z.mul_comm, lor_low by (lia || apply HMQ).
  unfold mq_dividend. rewrite (s32_alt A) by done. unfold swrap. change (64 - 1) with 63.
  destruct (Z.ltb_spec A (2 ^ 31)); [rewrite Z.mod_small; lia|].
  replace (2 ^ 32 * A + MQ + 2 ^ 63) with (2 ^ 32 * (A - 2 ^ 32) + MQ + 2 ^ 63 + 1 * 2 ^ 64) by lia.
  rewrite Z_mod_plus_full, Z.mod_small; lia.
Qed.

Definition div_remainder (n b : Z) : Z := if b =? 0 then 0 else Z.rem n b mod 2 ^ 32.
Definition div_quotient (n b : Z) : Z := if b =? 0 then 2 ^ 31 else Z.quot n b mod 2 ^ 32.
Definition div_overflows (n b : Z) : bool :=
  (b =? 0) || ((n =? 2 ^ 31) && (b =? -1)) || negb (s32_fits (Z.quot n b)).

Lemma div_effect rec ov :
  let n := mq_dividend A MQ in
  let b := s32 B in
  let r := div_remainder n b in
  ~ (n = - 2 ^ 63 /\ b = -1) ->
  exists s', power_div rec ov opcode s = Some s' /\
    power_effect s s' D (div_quotient n b) r (Some r) None
      (if oe ov then Some (div_overflows n b) else None) (rc rec).
Proof.
  intros n b r Hub. unfold power_div. cbn [ppc_grab_regsdab decode_ops_dab]. fold A B D MQ.
  rewrite dividend_eq. fold n b. unfold div64. change (u32 (- 0x80000000)) with (2 ^ 31).
  assert (0 <= r < 2 ^ 32) as Hr by (subst r; unfold div_remainder; case_if; [lia | apply u32_range]).
  assert (0 <= div_quotient n b < 2 ^ 32) as Hd
    by (unfold div_quotient; case_if; [lia | apply u32_range]).
  assert (Hf := fun v => set_ov_effect (with_mq (Some r) s) (with_mq_ok (Some r) s Hs Hr) (oe ov) v).
  assert (Hfin := fun v => power_finish s (Some r) _ D _ r None _ (rc rec) (Hf v) Hr Hd).
  unfold div_overflows.
  destruct ((n =? 2 ^ 31) && (b =? -1)) eqn:E1; [|destruct (Z.eqb_spec b 0) as [E0|E0]].
  - eexists; split; [reflexivity|]. autorewrite with mq. rewrite orb_true_r. bool_to_prop.
    assert (u32 0 = r /\ 0x80000000 = div_quotient n b) as [-> ->].
    { subst r. unfold div_remainder, div_quotient. by rewrite H, H0. }
    exact (Hfin true).
  - eexists; split; [reflexivity|]. autorewrite with mq.
    assert (u32 0 = r /\ 0x80000000 = div_quotient n b) as [-> ->].
    { subst r. unfold div_remainder, div_quotient. by rewrite E0. }
    exact (Hfin true).
  - destruct ((n =? - 2 ^ 63) && (b =? -1)) eqn:E2; [bool_to_prop; tauto|].
    eexists; split; [reflexivity|]. rewrite div_overflow. autorewrite with mq.
    assert (u32 (s32 (Z.rem n b)) = r /\ u32 (Z.quot n b) = div_quotient n b) as [-> ->].
    { subst r. unfold div_remainder, div_quotient. rewrite (proj2 (Z.eqb_neq b 0)) by done.
      by rewrite u32_s32. }
    exact (Hfin _).
Qed.

Lemma clcs_effect is_601 :
  gpr (power_clcs is_601 opcode s) =
    (gpr s).[D := match Z.land (field_a opcode) 15 with
                  | 4 | 5 | 6 => 0x20
                  | 7 => if is_601 then 1 else 0
                  | 8 | 9 => if is_601 then 8 else 4
                  | 10 | 11 => if is_601 then 0x8000 else 0x4000
                  | _ => if is_601 then 0x40 else 0x20
                  end].
Proof.
  unfold power_clcs. cbn [ppc_grab_da decode_ops_da]. fold D.
  unfold ppc_store_iresult_reg, set_gpr, with_gpr. cbn [gpr]. f_equal.
  set (k := Z.land (field_a opcode) 15).
  assert (0 <= k < 16) as Hk by (apply (land_field _ 4); lia). clearbody k.
  assert (k ∈ zrange 16) as Hin by (unfold zrange; apply list_elem_of_fmap; exists (Z.to_nat k);
    split; [lia | apply elem_of_seq; lia]).
  revert Hin. clear. intros Hin. repeat (apply elem_of_cons in Hin as [->|Hin]; [reflexivity|]).
  by apply elem_of_nil in Hin.
Qed.

(** *** Masks and inserts *)

Lemma maskg_effect rec :
  int_effect s (power_maskg rec opcode s) RA (rot_mask (S mod 32) (B mod 32)) None None (rc rec).
Proof.
  unfold power_maskg. cbn [ppc_grab_regssab decode_ops_sab]. fold S B RA.
  rewrite !Bitops.land_0x1F_mod.
  pose proof (Z.mod_pos_bound S 32 eq_refl). pose proof (Z.mod_pos_bound B 32 eq_refl).
  rewrite maskg_mask by done.
  apply effect_finish; [by apply flags_none | by apply rot_mask_range].
Qed.

Lemma maskir_effect rec : exists d,
  (forall i, 0 <= i < 32 -> ppc_bit d i = if ppc_bit B i then ppc_bit S i else ppc_bit A i) /\
  int_effect s (power_maskir rec opcode s) RA d None None (rc rec).
Proof.
  eexists. split; [|apply effect_finish; [by apply flags_none|]].
  2:{ apply lor_range; [lia| |]; apply land_range_l; done || lia. }
  intros i Hi. cbn [ppc_grab_regssab decode_ops_sab]. fold S B A. unfold ppc_bit at 1.
  rewrite Z.lor_spec, !Z.land_spec.
  change (ppc_bit A i && ppc_bit (not32 B) i || ppc_bit S i && ppc_bit B i
          = if ppc_bit B i then ppc_bit S i else ppc_bit A i).
  rewrite not32_bit by done.
  destruct (ppc_bit B i); by rewrite ?andb_false_r, ?andb_true_r, ?orb_false_r.
Qed.

Lemma rlmi_effect : exists d,
  rot_result B (field_mb opcode) (field_me opcode) S (ppc_bit A) d /\
  int_effect s (power_rlmi opcode s) RA d None None (rc_bit opcode).
Proof.
  pose proof (field_mb_range opcode). pose proof (field_me_range opcode).
  eexists. split; [by apply rot_insert|].
  unfold power_rlmi. cbn [ppc_grab_regssab decode_ops_sab]. fold S A B RA.
  rewrite power_rot_mask_eq, Z.lor_comm. apply effect_finish; [by apply flags_none|].
  by eapply (proj1 (rot_insert B (field_mb opcode) (field_me opcode) S A _ _ _ _)).
  Unshelve. all: done.
Qed.

Lemma rrib_effect rec :
  exists d,
  (forall i, 0 <= i < 32 -> ppc_bit d i = if i =? B mod 32 then ppc_bit S 0 else ppc_bit A i) /\
  int_effect s (power_rrib rec opcode s) RA d None None (rc rec).
Proof.
  unfold power_rrib. cbn [ppc_grab_regssab decode_ops_sab]. fold S A B RA.
  rewrite Bitops.land_0x1F_mod. pose proof (Z.mod_pos_bound B 32 eq_refl) as Hn.
  set (n := B mod 32) in *. clearbody n.
  assert (Hone : forall i, 0 <= i < 32 -> ppc_bit (Z.shiftr 0x80000000 n) i = (i =? n)).
  { intros i Hi. apply eqb_prop. refine (range_forall2 32 32 (fun n i =>
      Bool.eqb (ppc_bit (Z.shiftr 0x80000000 n) i) (i =? n)) _ n i Hn Hi). vm_compute. reflexivity. }
  assert (0 <= Z.shiftr 0x80000000 n < 2 ^ 32) by (apply shiftr_range; lia).
  eexists. split; [|apply effect_finish; [by apply flags_none|]].
  2:{ case_if; [by apply lor_range | by apply land_range_l]. }
  intros i Hi. rewrite s32_neg_testbit by done.
  change (Z.testbit S 31) with (ppc_bit S 0). unfold ppc_bit at 1.
  destruct (ppc_bit S 0); [rewrite Z.lor_spec | rewrite Z.land_spec];
    fold (ppc_bit A i); [fold (ppc_bit (Z.shiftr 0x80000000 n) i) | fold (ppc_bit (not32 (Z.shiftr 0x80000000 n)) i)];
    rewrite ?not32_bit, Hone by done; destruct (i =? n);
    by rewrite ?orb_true_r, ?orb_false_r, ?andb_true_r, ?andb_false_r.
Qed.

(** *** Shifts: the common endings *)

Let n5 := B mod 32.
Let n6 := B mod 64.
Let sh := field_b opcode.

Lemma n5_range : 0 <= n5 < 32.
Proof. apply Z.mod_pos_bound. lia. Qed.

Lemma n6_eq : n6 = n5 + (if test B 0x20 then 32 else 0).
Proof. subst n5. rewrite <- Bitops.land_0x1F_mod. apply shift_amount_split. Qed.

Lemma rotl_mod m : Bitops.ROTL_32 S (m mod 64) = Bitops.ROTL_32 S (m mod 32).
Proof.
  unfold Bitops.ROTL_32. rewrite !Bitops.land_0x1F_mod. by replace (m mod 64 mod 32) with (m mod 32 mod 32) by zlia.
Qed.
Lemma rotr_mod m : Bitops.ROTR_32 S (m mod 64) = Bitops.ROTR_32 S (m mod 32).
Proof.
  unfold Bitops.ROTR_32. rewrite !Bitops.land_0x1F_mod. by replace (m mod 64 mod 32) with (m mod 32 mod 32) by zlia.
Qed.

(** A shift that leaves [q] in MQ, or leaves MQ alone, and no flags. *)
Lemma shift_finish mq d rec : mq_ok mq -> 0 <= d < 2 ^ 32 ->
  power_effect s (ppc_store_iresult_reg RA d (cond (rc rec) (ppc_changecrf0 d) (with_mq mq s)))
    RA d d mq None None (rc rec).
Proof. intros Hq Hd. apply power_finish; [apply flags_none, with_mq_ok|..]; done. Qed.

(** The same with the carry of an arithmetic shift. *)
Lemma sra_finish q b d rec : 0 <= q < 2 ^ 32 -> 0 <= d < 2 ^ 32 ->
  power_effect s
    (ppc_store_iresult_reg RA d (cond (rc rec) (ppc_changecrf0 d) (set_ca b (set_spr SPR.MQ q s))))
    RA d d (Some q) (Some b) None (rc rec).
Proof.
  intros Hq Hd. apply power_finish; [|done..]. apply flags_ca. by apply (with_mq_ok (Some q)).
Qed.

Definition shift_spec (res : (Z -> bool) -> Z -> Prop) (fill : Z -> bool) (s' : ppc_state)
    (mq : option Z) (ca : option bool) (rec : field_rc) : Prop :=
  exists d, res fill d /\ power_effect s s' RA d d mq ca None (rc rec).

Lemma shl_ge n fill : 32 <= n -> (forall i, fill i = false) -> shl_result n S fill 0.
Proof.
  intros Hn Hf. split; [lia|]. intros i Hi. unfold ppc_bit. rewrite Z.bits_0.
  destruct (Z.ltb_spec (i + n) 32); [lia | by rewrite Hf].
Qed.
Lemma shr_ge n : 32 <= n -> shr_result n S (fun _ => false) 0.
Proof.
  intros Hn. split; [lia|]. intros i Hi. unfold ppc_bit. rewrite Z.bits_0.
  destruct (Z.leb_spec n i); [lia | done].
Qed.

(** [sraq] by 32 and more replicates the sign, as a shift by 31 does. *)
Lemma sar_ge n : 32 <= n ->
  shr_result n S (fun _ => ppc_bit S 0) (u32 (Z.shiftr (s32 S) 31)).
Proof.
  intros Hn. destruct (sar_result 31 S ltac:(lia) HS) as [Hr H]. split; [done|].
  intros i Hi. rewrite H by done.
  destruct (Z.leb_spec 31 i), (Z.leb_spec n i); try lia; [|done]. f_equal. lia.
Qed.

Lemma sra_carry_eq n : 0 <= n < 32 ->
  (s32 S <? 0) && test S (u32 (shl32 1 n - 1)) = sra_carry S n.
Proof. intros Hn. unfold sra_carry. by rewrite test_low_bits, s32_mod_pow2 by lia. Qed.

Lemma sra_carry_ge n : 32 <= n -> (s32 S <? 0) && test S (u32 (-1)) = sra_carry S n.
Proof.
  intros Hn. unfold sra_carry, test. pose proof (s32_range S).
  change (u32 (-1)) with (Z.ones 32). rewrite Z.land_ones, Z.mod_small by lia.
  destruct (Z.ltb_spec (s32 S) 0); simpl; [|done].
  assert (2 ^ 32 <= 2 ^ n) by (apply Z.pow_le_mono_r; lia).
  assert (S <> 0) by (intros E; rewrite E in *; vm_compute in H0; discriminate).
  assert (s32 S mod 2 ^ n = s32 S + 2 ^ n) as ->
    by (symmetry; apply Z.mod_unique with (q := -1); lia).
  by rewrite (proj2 (Z.eqb_neq S 0)), (proj2 (Z.eqb_neq (s32 S + 2 ^ n) 0)) by lia.
Qed.

(** *** Left shifts *)

Lemma sle_effect rec : shift_spec (shl_result n5 S) (fun _ => false) (power_sle rec opcode s)
    (Some (Bitops.ROTL_32 S n5)) None rec.
Proof.
  pose proof n5_range as Hn. pose proof (shl32_result n5 S Hn HS) as Hd.
  eexists. split; [exact Hd|].
  unfold power_sle. cbn [ppc_grab_regssab decode_ops_sab]. fold S B RA.
  rewrite Bitops.land_0x1F_mod. fold n5.
  pose proof (shift_finish (Some (Bitops.ROTL_32 S n5)) _ rec (Bitops.ROTL_32_range _ _ HS) (proj1 Hd)) as H.
  unfold power_effect in *. destruct H as (s1 & H1 & H2 & H3). exists s1. split; [done|]. split; [|done].
  rewrite <- H2. unfold ppc_store_iresult_reg, set_gpr. destruct (rc rec);
    unfold with_mq, ppc_changecrf0, set_spr, with_gpr, with_cr, with_spr; simpl; by rewrite rset_rset.
Qed.

Lemma sleq_effect rec : shift_spec (shl_result n5 S) (ppc_bit MQ) (power_sleq rec opcode s)
    (Some (Bitops.ROTL_32 S n5)) None rec.
Proof.
  pose proof n5_range as Hn. pose proof (rotl_insert n5 S MQ Hn HS HMQ) as Hd.
  eexists. split; [exact Hd|].
  unfold power_sleq. cbn [ppc_grab_regssab decode_ops_sab]. fold S B RA MQ.
  rewrite Bitops.land_0x1F_mod. fold n5.
  exact (shift_finish (Some _) _ rec (Bitops.ROTL_32_range _ _ HS) (proj1 Hd)).
Qed.

Lemma sliq_effect rec : shift_spec (shl_result sh S) (fun _ => false) (power_sliq rec opcode s)
    (Some (Bitops.ROTL_32 S sh)) None rec.
Proof.
  pose proof (shl32_result sh S (field_b_range opcode) HS) as Hd. eexists. split; [exact Hd|].
  exact (shift_finish (Some _) _ rec (Bitops.ROTL_32_range _ _ HS) (proj1 Hd)).
Qed.

Lemma slliq_effect rec : shift_spec (shl_result sh S) (ppc_bit MQ) (power_slliq rec opcode s)
    (Some (Bitops.ROTL_32 S sh)) None rec.
Proof.
  pose proof (rotl_insert sh S MQ (field_b_range opcode) HS HMQ) as Hd. eexists. split; [exact Hd|].
  exact (shift_finish (Some _) _ rec (Bitops.ROTL_32_range _ _ HS) (proj1 Hd)).
Qed.

Lemma slq_effect rec : shift_spec (shl_result n6 S) (fun _ => false) (power_slq rec opcode s)
    (Some (Bitops.ROTL_32 S n6)) None rec.
Proof.
  pose proof n5_range as Hn.
  assert (Bitops.ROTL_32 S n6 = Bitops.ROTL_32 S n5) as -> by apply rotl_mod. rewrite n6_eq.
  unfold power_slq, shift_spec. cbn [ppc_grab_regssab decode_ops_sab]. fold S B RA.
  rewrite Bitops.land_0x1F_mod. fold n5. autorewrite with mq.
  assert (shl_result (n5 + (if test B 0x20 then 32 else 0)) S (fun _ => false)
    (if test B 0x20 then 0 else shl32 S n5)) as Hd.
  { destruct (test B 0x20); [apply shl_ge; auto with lia|]. rewrite Z.add_0_r. by apply shl32_result. }
  eexists. split; [exact Hd|].
  exact (shift_finish (Some _) _ rec (Bitops.ROTL_32_range _ _ HS) (proj1 Hd)).
Qed.

(** [sllq] shifts in MQ; by 32 and more it only masks MQ. *)
Lemma sllq_effect rec :
  shift_spec (fun fill d =>
    if test B 0x20 then 0 <= d < 2 ^ 32 /\
      forall i, 0 <= i < 32 -> ppc_bit d i = (i + n5 <? 32) && fill i
    else shl_result n5 S fill d) (ppc_bit MQ) (power_sllq rec opcode s) None None rec.
Proof.
  pose proof n5_range as Hn. pose proof (u32_range (shl32 1 n5 - 1)) as Hm.
  unfold power_sllq, shift_spec. cbn [ppc_grab_regssab decode_ops_sab]. fold S B RA MQ.
  rewrite Bitops.land_0x1F_mod. fold n5.
  assert (Hpow : forall i, 0 <= i < 32 -> ppc_bit (u32 (shl32 1 n5 - 1)) i = negb (i + n5 <? 32)).
  { intros i Hi. apply eqb_prop. refine (range_forall2 32 32 (fun n i =>
      Bool.eqb (ppc_bit (u32 (shl32 1 n - 1)) i) (negb (i + n <? 32))) _ n5 i Hn Hi).
    vm_compute. reflexivity. }
  assert (Hneg : forall i, 0 <= i < 32 -> ppc_bit (shl32 (u32 (-1)) n5) i = (i + n5 <? 32)).
  { intros i Hi. apply eqb_prop. refine (range_forall2 32 32 (fun n i =>
      Bool.eqb (ppc_bit (shl32 (u32 (-1)) n) i) (i + n <? 32)) _ n5 i Hn Hi).
    vm_compute. reflexivity. }
  destruct (shl32_result n5 S Hn HS) as [Hr Hb].
  destruct (test B 0x20).
  - assert (0 <= Z.land MQ (shl32 (u32 (-1)) n5) < 2 ^ 32) as Hd
      by (apply land_range_l; [lia | exact HMQ]).
    eexists. split; [split; [exact Hd|]|by apply (shift_finish None)].
    intros i Hi. unfold ppc_bit at 1. rewrite Z.land_spec.
    change (Z.testbit MQ (31 - i)) with (ppc_bit MQ i).
    change (Z.testbit ?x (31 - i)) with (ppc_bit x i). rewrite Hneg by done. apply andb_comm.
  - assert (0 <= Z.lor (shl32 S n5) (Z.land MQ (u32 (shl32 1 n5 - 1))) < 2 ^ 32) as Hd
      by (apply lor_range; [lia|done|]; apply land_range_l; [lia | exact HMQ]).
    eexists. split; [split; [exact Hd|]|by apply (shift_finish None)].
    intros i Hi. unfold ppc_bit at 1. rewrite Z.lor_spec, Z.land_spec.
    change (Z.testbit ?x (31 - i)) with (ppc_bit x i). rewrite Hb, Hpow by done.
    destruct (i + n5 <? 32); simpl; by rewrite ?andb_false_r, ?andb_true_r, ?orb_false_r.
Qed.

(** *** Right shifts *)

Lemma sre_effect rec : shift_spec (shr_result n5 S) (fun _ => false) (power_sre rec opcode s)
    (Some (Bitops.ROTR_32 S n5)) None rec.
Proof.
  pose proof n5_range as Hn. pose proof (shiftr_result n5 S Hn HS) as Hd. eexists. split; [exact Hd|].
  unfold power_sre. cbn [ppc_grab_regssab decode_ops_sab]. fold S B RA.
  rewrite Bitops.land_0x1F_mod. fold n5.
  exact (shift_finish (Some _) _ rec (Bitops.ROTR_32_range _ _ HS) (proj1 Hd)).
Qed.

Lemma sriq_effect rec : shift_spec (shr_result sh S) (fun _ => false) (power_sriq rec opcode s)
    (Some (Bitops.ROTR_32 S sh)) None rec.
Proof.
  pose proof (shiftr_result sh S (field_b_range opcode) HS) as Hd. eexists. split; [exact Hd|].
  exact (shift_finish (Some _) _ rec (Bitops.ROTR_32_range _ _ HS) (proj1 Hd)).
Qed.

Lemma srliq_effect rec : shift_spec (shr_result sh S) (ppc_bit MQ) (power_srliq rec opcode s)
    (Some (Bitops.ROTR_32 S sh)) None rec.
Proof.
  pose proof (rotr_insert sh S MQ (field_b_range opcode) HS HMQ) as Hd. eexists. split; [exact Hd|].
  exact (shift_finish (Some _) _ rec (Bitops.ROTR_32_range _ _ HS) (proj1 Hd)).
Qed.

Lemma srq_effect rec : shift_spec (shr_result n6 S) (fun _ => false) (power_srq rec opcode s)
    (Some (Bitops.ROTR_32 S n6)) None rec.
Proof.
  pose proof n5_range as Hn.
  assert (Bitops.ROTR_32 S n6 = Bitops.ROTR_32 S n5) as -> by apply rotr_mod. rewrite n6_eq.
  unfold power_srq, shift_spec. cbn [ppc_grab_regssab decode_ops_sab]. fold S B RA.
  rewrite Bitops.land_0x1F_mod. fold n5.
  assert (shr_result (n5 + (if test B 0x20 then 32 else 0)) S (fun _ => false)
    (if test B 0x20 then 0 else Z.shiftr S n5)) as Hd.
  { destruct (test B 0x20); [apply shr_ge; lia|]. rewrite Z.add_0_r. by apply shiftr_result. }
  eexists. split; [exact Hd|].
  exact (shift_finish (Some _) _ rec (Bitops.ROTR_32_range _ _ HS) (proj1 Hd)).
Qed.

Lemma sreq_effect rec : shift_spec (shr_result n5 S) (ppc_bit MQ) (power_sreq rec opcode s)
    (Some (Bitops.ROTR_32 S n5)) None rec.
Proof.
  pose proof n5_range as Hn. destruct (shiftr_result n5 S Hn HS) as [Hr Hb].
  assert (shr_result n5 S (ppc_bit MQ)
    (Z.lor (Z.shiftr S n5) (Z.land MQ (not32 (Z.shiftr (u32 (-1)) n5))))) as Hd.
  { split; [apply lor_range; [lia|done|]; apply land_range_l; [lia | exact HMQ]|].
    intros i Hi. unfold ppc_bit at 1. rewrite Z.lor_spec, Z.land_spec.
    change (Z.testbit ?x (31 - i)) with (ppc_bit x i). rewrite Hb, not32_bit by done.
    assert (ppc_bit (Z.shiftr (u32 (-1)) n5) i = (n5 <=? i)) as ->.
    { apply eqb_prop. refine (range_forall2 32 32 (fun n i =>
        Bool.eqb (ppc_bit (Z.shiftr (u32 (-1)) n) i) (n <=? i)) _ n5 i Hn Hi). vm_compute. reflexivity. }
    destruct (n5 <=? i); simpl; by rewrite ?andb_false_r, ?andb_true_r, ?orb_false_r. }
  eexists. split; [exact Hd|].
  unfold power_sreq. cbn [ppc_grab_regssab decode_ops_sab]. fold S B RA MQ.
  rewrite Bitops.land_0x1F_mod. fold n5.
  exact (shift_finish (Some _) _ rec (Bitops.ROTR_32_range _ _ HS) (proj1 Hd)).
Qed.

(** [srlq] shifts in MQ; by 32 and more it only masks MQ. *)
Lemma srlq_effect rec :
  shift_spec (fun fill d =>
    if test B 0x20 then 0 <= d < 2 ^ 32 /\
      forall i, 0 <= i < 32 -> ppc_bit d i = (n5 <=? i) && fill i
    else shr_result n5 S fill d) (ppc_bit MQ) (power_srlq rec opcode s) None None rec.
Proof.
  pose proof n5_range as Hn. unfold power_srlq, shift_spec.
  cbn [ppc_grab_regssab decode_ops_sab]. fold S B RA MQ.
  rewrite Bitops.land_0x1F_mod. fold n5. destruct (test B 0x20).
  - assert (0 <= Z.land MQ (power_rot_mask n5 31) < 2 ^ 32) as Hd
      by (apply land_range_l; [lia | exact HMQ]).
    eexists. split; [split; [exact Hd|]|by apply (shift_finish None)].
    intros i Hi. unfold ppc_bit at 1. rewrite Z.land_spec.
    change (Z.testbit ?x (31 - i)) with (ppc_bit x i).
    rewrite power_rot_mask_eq, rot_mask_bit by lia. unfold in_mask.
    rewrite (proj2 (Z.leb_le n5 31)), (proj2 (Z.leb_le i 31)), andb_true_r by lia. apply andb_comm.
  - pose proof (rotr_insert n5 S MQ Hn HS HMQ) as Hd. eexists. split; [exact Hd|].
    exact (shift_finish None _ rec I (proj1 Hd)).
Qed.

Lemma sraiq_effect rec : shift_spec (shr_result sh S) (fun _ => ppc_bit S 0)
    (power_sraiq rec opcode s) (Some (Bitops.ROTR_32 S sh)) (Some (sra_carry S sh)) rec.
Proof.
  pose proof (field_b_range opcode) as Hn. pose proof (sar_result sh S Hn HS) as Hd.
  eexists. split; [exact Hd|]. unfold sh. rewrite <- sra_carry_eq by done.
  exact (sra_finish _ _ _ rec (Bitops.ROTR_32_range _ _ HS) (proj1 Hd)).
Qed.

Lemma srea_effect rec : shift_spec (shr_result n5 S) (fun _ => ppc_bit S 0)
    (power_srea rec opcode s) (Some (Bitops.ROTR_32 S n5)) (Some (sra_carry S n5)) rec.
Proof.
  pose proof n5_range as Hn. pose proof (sar_result n5 S Hn HS) as Hd.
  eexists. split; [exact Hd|]. rewrite <- sra_carry_eq by done.
  unfold power_srea. cbn [ppc_grab_regssab decode_ops_sab]. fold S B RA.
  rewrite Bitops.land_0x1F_mod. fold n5. rewrite rotated_out by done. autorewrite with mq.
  exact (sra_finish _ _ _ rec (Bitops.ROTR_32_range _ _ HS) (proj1 Hd)).
Qed.

Lemma sraq_effect rec : shift_spec (shr_result n6 S) (fun _ => ppc_bit S 0)
    (power_sraq rec opcode s) (Some (Bitops.ROTR_32 S n6)) (Some (sra_carry S n6)) rec.
Proof.
  pose proof n5_range as Hn.
  assert (Bitops.ROTR_32 S n6 = Bitops.ROTR_32 S n5) as -> by apply rotr_mod. rewrite n6_eq.
  unfold power_sraq, shift_spec. cbn [ppc_grab_regssab decode_ops_sab]. fold S B RA.
  rewrite Bitops.land_0x1F_mod. fold n5. autorewrite with mq.
  destruct (test B 0x20).
  - pose proof (sar_ge (n5 + 32) ltac:(lia)) as Hd. eexists. split; [exact Hd|].
    rewrite <- sra_carry_ge by lia.
    exact (sra_finish _ _ _ rec (Bitops.ROTR_32_range _ _ HS) (proj1 Hd)).
  - rewrite Z.add_0_r. pose proof (sar_result n5 S Hn HS) as Hd. eexists. split; [exact Hd|].
    rewrite <- sra_carry_eq by done.
    exact (sra_finish _ _ _ rec (Bitops.ROTR_32_range _ _ HS) (proj1 Hd)).
Qed.
End Effects.

(** ** Properties *)

(** C24: the POWER arithmetic instructions: [abs], [nabs] and [doz]/[dozi] on signed
    words with exact overflow, [mul] with the full 64-bit product over rD and MQ,
    [divs] and [div] (dividend rA || MQ) with quotient in rD, remainder in MQ and
    recorded, and the special cases of a zero divisor and an unrepresentable
    quotient; [div] is defined for every operand but -2^63 / -1. *)
Theorem power_arithmetic_correct s opcode rec ov : ppc_ok s ->
  let D := field_d opcode in
  let A := (gpr s).[field_a opcode] in
  let B := (gpr s).[field_b opcode] in
  let ovf v := if oe ov then Some v else None in
  let p := s32 A * s32 B in
  let n := mq_dividend A (spr s).[SPR.MQ] in
  int_effect s (power_abs rec ov opcode s) D (Z.abs (s32 A) mod 2 ^ 32) None (ovf (A =? 2 ^ 31)) (rc rec) /\
  int_effect s (power_nabs rec ov opcode s) D ((- Z.abs (s32 A)) mod 2 ^ 32) None (ovf false) (rc rec) /\
  int_effect s (power_doz rec ov opcode s) D (Z.max 0 (s32 B - s32 A) mod 2 ^ 32) None
    (ovf (negb (s32_fits (Z.max 0 (s32 B - s32 A))))) (rc rec) /\
  int_effect s (power_dozi opcode s) D (Z.max 0 (s16 opcode - s32 A) mod 2 ^ 32) None None false /\
  power_effect s (power_mul rec ov opcode s) D ((p / 2 ^ 32) mod 2 ^ 32) (p mod 2 ^ 32)
    (Some (p mod 2 ^ 32)) None (ovf (negb (s32_fits p))) (rc rec) /\
  (let r := if B =? 0 then A else Z.rem (s32 A) (s32 B) mod 2 ^ 32 in
   power_effect s (power_divs rec ov opcode s) D
     (if B =? 0 then 2 ^ 32 - 1 else Z.quot (s32 A) (s32 B) mod 2 ^ 32) r (Some r) None
     (ovf (negb (negb (B =? 0) && negb ((s32 A =? - 2 ^ 31) && (s32 B =? -1))))) (rc rec)) /\
  (~ (n = - 2 ^ 63 /\ s32 B = -1) -> exists s', power_div rec ov opcode s = Some s' /\
     power_effect s s' D (div_quotient n (s32 B)) (div_remainder n (s32 B))
       (Some (div_remainder n (s32 B))) None (ovf (div_overflows n (s32 B))) (rc rec)).
Proof.
  intros Hs. split_and!; [by apply abs_effect | by apply nabs_effect | by apply doz_effect
    | by apply dozi_effect | by apply mul_effect | by apply divs_effect | by apply div_effect].
Qed.

Lemma power_arithmetic_correct_witness :
  ppc_ok demo_state /\
  power_effect demo_state (power_mul RC1 OV1 0x7D2338D7 demo_state) 9 0 7 (Some 7) None (Some false) true.
Proof.
  split; [exact demo_ok|].
  exact (proj1 (proj2 (proj2 (proj2 (proj2
    (power_arithmetic_correct demo_state 0x7D2338D7 RC1 OV1 demo_ok)))))).
Defined.

(** What [div] gets wrong: a dividend of +2^31 divided by -1 is reported as an
    overflow although -2^31 is representable (the code compares the dividend with
    the unsigned [-0x80000000], that is +2^31), and -2^63 / -1 is left to the host's
    division, which is undefined. *)
Lemma power_div_edge_cases s opcode rec ov : ppc_ok s ->
  (gpr s).[field_b opcode] = 0xFFFFFFFF ->
  ((gpr s).[field_a opcode] = 0 -> (spr s).[SPR.MQ] = 0x80000000 ->
     s32_fits (Z.quot (2 ^ 31) (-1)) = true /\
     exists s', power_div rec OV1 opcode s = Some s' /\ xer_ov s' = true) /\
  ((gpr s).[field_a opcode] = 0x80000000 -> (spr s).[SPR.MQ] = 0 ->
     power_div rec ov opcode s = None).
Proof.
  intros Hs EB. split.
  - intros EA EM. split; [reflexivity|].
    pose proof (div_effect s Hs opcode rec OV1) as H. simpl in H. rewrite EA, EB, EM in H.
    destruct H as (s' & E & s1 & H & -> & _); [intros [H _]; discriminate H|].
    exists (set_gpr (field_d opcode) (div_quotient (mq_dividend 0 0x80000000) (s32 0xFFFFFFFF)) s1).
    split; [exact E|]. exact (ie_ov _ _ _ _ _ _ _ H).
  - intros EA EM. unfold power_div. cbn [ppc_grab_regsdab decode_ops_dab]. rewrite EA, EB, EM.
    reflexivity.
Qed.

(** C25: the POWER shift instructions.  Bit [i] of the result (bit 0 is the most
    significant) is the source bit [n] places to the right (left shifts) or to the
    left (right shifts) when there is one, and otherwise 0, the sign, or the same
    bit of the old MQ; MQ receives the rotated source, except in [sllq] and [srlq],
    which leave it; the arithmetic shifts set CA when a negative source lost bits.
    The amount is five bits of rB, the SH field, or six bits of rB. *)
Theorem power_shifts_correct s opcode rec : ppc_ok s ->
  let S := (gpr s).[field_d opcode] in
  let MQ := (spr s).[SPR.MQ] in
  let B := (gpr s).[field_b opcode] in
  let n5 := B mod 32 in
  let n6 := B mod 64 in
  let sh := field_b opcode in
  let zero := fun _ : Z => false in
  let old := ppc_bit MQ in
  let sign := fun _ : Z => ppc_bit S 0 in
  let left n fill s' := shift_spec s opcode (shl_result n S) fill s' (Some (Bitops.ROTL_32 S n)) None rec in
  let right n fill s' := shift_spec s opcode (shr_result n S) fill s' (Some (Bitops.ROTR_32 S n)) None rec in
  let arith n s' := shift_spec s opcode (shr_result n S) sign s' (Some (Bitops.ROTR_32 S n))
                      (Some (sra_carry S n)) rec in
  left n5 zero (power_sle rec opcode s) /\ left n5 old (power_sleq rec opcode s) /\
  left sh zero (power_sliq rec opcode s) /\ left sh old (power_slliq rec opcode s) /\
  left n6 zero (power_slq rec opcode s) /\
  right n5 zero (power_sre rec opcode s) /\ right n5 old (power_sreq rec opcode s) /\
  right sh zero (power_sriq rec opcode s) /\ right sh old (power_srliq rec opcode s) /\
  right n6 zero (power_srq rec opcode s) /\
  arith sh (power_sraiq rec opcode s) /\ arith n5 (power_srea rec opcode s) /\
  arith n6 (power_sraq rec opcode s) /\
  shift_spec s opcode (fun fill d =>
    if test B 0x20 then 0 <= d < 2 ^ 32 /\
      forall i, 0 <= i < 32 -> ppc_bit d i = (i + n5 <? 32) && fill i
    else shl_result n5 S fill d) old (power_sllq rec opcode s) None None rec /\
  shift_spec s opcode (fun fill d =>
    if test B 0x20 then 0 <= d < 2 ^ 32 /\
      forall i, 0 <= i < 32 -> ppc_bit d i = (n5 <=? i) && fill i
    else shr_result n5 S fill d) old (power_srlq rec opcode s) None None rec.
Proof.
  intros Hs. split_and!; [by apply sle_effect | by apply sleq_effect | by apply sliq_effect
    | by apply slliq_effect | by apply slq_effect | by apply sre_effect | by apply sreq_effect
    | by apply sriq_effect | by apply srliq_effect | by apply srq_effect | by apply sraiq_effect
    | by apply srea_effect | by apply sraq_effect | by apply sllq_effect | by apply srlq_effect].
Qed.

Lemma power_shifts_correct_witness :
  ppc_ok demo_state /\
  shift_spec demo_state 0x7CC44132 (shl_result 2 0x12345678) (fun _ => false)
    (power_sle RC0 0x7CC44132 demo_state) (Some (Bitops.ROTL_32 0x12345678 2)) None RC0.
Proof.
  split; [exact demo_ok|].
  exact (proj1 (power_shifts_correct demo_state 0x7CC44132 RC0 demo_ok)).
Defined.
