(* ===== verification/CondReg.v ===== *)
(** * The condition register (cpu/ppc/ppcopcodes.cpp)

    Compares, moves to and from CR, and the eight CR-logical instructions.
    Every instruction is specified by the value of each of the 32 CR bits after
    it ([cr_effect]); nothing but CR changes, except that [mcrxr] also clears
    the four XER bits it copies. *)
From S2P Require Import Prelude Word PpcState.

(** ** Moves *)

(* [cpu/ppc/ppcopcodes.cpp:683-686] *)
Definition ppc_mfcr (opcode : Z) (s : ppc_state) : ppc_state :=
  let reg_d := Z.land (Z.shiftr opcode 21) 0x1F in
  set_gpr reg_d (cr s) s.

(** The mask [ppc_mtcrf] builds from the 8-bit field mask. *)
(* [cpu/ppc/ppcopcodes.cpp:1222-1235 cr_mask] *)
Definition crm_mask (crm : Z) : Z :=
  if crm =? 0xFF then 0xFFFFFFFF
  else
    let pick bit m acc := if test crm bit then Z.lor acc m else acc in
    pick 0x01 0x0000000F (pick 0x02 0x000000F0 (pick 0x04 0x00000F00 (pick 0x08 0x0000F000
      (pick 0x10 0x000F0000 (pick 0x20 0x00F00000 (pick 0x40 0x0F000000 (pick 0x80 0xF0000000 0))))))).

(* [cpu/ppc/ppcopcodes.cpp:1218-1237] *)
Definition ppc_mtcrf (opcode : Z) (s : ppc_state) : ppc_state :=
  let '(_, ppc_result_d) := ppc_grab_s opcode s in
  let crm := Z.land (Z.shiftr opcode 12) 0xFF in
  let cr_mask := crm_mask crm in
  with_cr (Z.lor (Z.land (cr s) (not32 cr_mask)) (Z.land ppc_result_d cr_mask)) s.

(* [cpu/ppc/ppcopcodes.cpp:1239-1244] *)
Definition ppc_mcrxr (opcode : Z) (s : ppc_state) : ppc_state :=
  let crf_d := Z.land (Z.shiftr opcode 21) 0x1C in
  let s := with_cr (u32 (Z.lor (Z.land (cr s) (Z.lnot (Z.shiftr 0xF0000000 crf_d)))
                   (Z.shiftr (Z.land (spr s).[SPR.XER] 0xF0000000) crf_d))) s in
  set_spr SPR.XER (Z.land (spr s).[SPR.XER] 0x0FFFFFFF) s.

(* [cpu/ppc/ppcopcodes.cpp:1441-1449] *)
Definition ppc_mcrf (opcode : Z) (s : ppc_state) : ppc_state :=
  let crf_d := Z.land (Z.shiftr opcode 21) 0x1C in
  let crf_s := Z.land (Z.shiftr opcode 16) 0x1C in
  let grab_s := Z.land (Z.shiftr (cr s) (28 - crf_s)) 0xF in
  with_cr (u32 (Z.lor (Z.land (cr s) (Z.lnot (Z.shiftr 0xf0000000 crf_d)))
                      (shl32 grab_s (28 - crf_d)))) s.

(** ** Compares *)

(* [cpu/ppc/ppcopcodes.cpp:1377-1391] *)
Definition ppc_cmp (opcode : Z) (s : ppc_state) : ppc_state :=
  let crf_d := Z.land (Z.shiftr opcode 21) 0x1C in
  let '(_, _, ppc_result_a, ppc_result_b) := ppc_grab_regsab opcode s in
  let xercon := Z.shiftr (Z.land (spr s).[SPR.XER] XERB.SO) 3 in
  let cmp_c := if s32 ppc_result_a =? s32 ppc_result_b then 0x20000000
               else if s32 ppc_result_b <? s32 ppc_result_a then 0x40000000 else 0x80000000 in
  with_cr (u32 (Z.lor (Z.land (cr s) (Z.lnot (Z.shiftr 0xf0000000 crf_d)))
                      (Z.shiftr (u32 (cmp_c + xercon)) crf_d))) s.

(* [cpu/ppc/ppcopcodes.cpp:1393-1407] *)
Definition ppc_cmpi (opcode : Z) (s : ppc_state) : ppc_state :=
  let crf_d := Z.land (Z.shiftr opcode 21) 0x1C in
  let '(_, simm, ppc_result_a) := ppc_grab_regsasimm opcode s in
  let xercon := Z.shiftr (Z.land (spr s).[SPR.XER] XERB.SO) 3 in
  let cmp_c := if s32 ppc_result_a =? simm then 0x20000000
               else if simm <? s32 ppc_result_a then 0x40000000 else 0x80000000 in
  with_cr (u32 (Z.lor (Z.land (cr s) (Z.lnot (Z.shiftr 0xf0000000 crf_d)))
                      (Z.shiftr (u32 (cmp_c + xercon)) crf_d))) s.

(* [cpu/ppc/ppcopcodes.cpp:1409-1423] *)
Definition ppc_cmpl (opcode : Z) (s : ppc_state) : ppc_state :=
  let crf_d := Z.land (Z.shiftr opcode 21) 0x1C in
  let '(_, _, ppc_result_a, ppc_result_b) := ppc_grab_regsab opcode s in
  let xercon := Z.shiftr (Z.land (spr s).[SPR.XER] XERB.SO) 3 in
  let cmp_c := if ppc_result_a =? ppc_result_b then 0x20000000
               else if ppc_result_b <? ppc_result_a then 0x40000000 else 0x80000000 in
  with_cr (u32 (Z.lor (Z.land (cr s) (Z.lnot (Z.shiftr 0xf0000000 crf_d)))
                      (Z.shiftr (u32 (cmp_c + xercon)) crf_d))) s.

(* [cpu/ppc/ppcopcodes.cpp:1425-1437] *)
Definition ppc_cmpli (opcode : Z) (s : ppc_state) : ppc_state :=
  let '(crf_d, _, uimm, ppc_result_a) := ppc_grab_crfd_regsauimm opcode s in
  let xercon := Z.shiftr (Z.land (spr s).[SPR.XER] XERB.SO) 3 in
  let cmp_c := if ppc_result_a =? uimm then 0x20000000
               else if uimm <? ppc_result_a then 0x40000000 else 0x80000000 in
  with_cr (u32 (Z.lor (Z.land (cr s) (Z.lnot (Z.shiftr 0xf0000000 crf_d)))
                      (Z.shiftr (u32 (cmp_c + xercon)) crf_d))) s.

(** ** CR logic

    [cr_on] and [cr_off] are the two assignments every instruction of this
    group chooses between. *)

Definition cr_on (reg_d : Z) (s : ppc_state) : ppc_state :=
  with_cr (u32 (Z.lor (cr s) (Z.shiftr 0x80000000 reg_d))) s.
Definition cr_off (reg_d : Z) (s : ppc_state) : ppc_state :=
  with_cr (u32 (Z.land (cr s) (Z.lnot (Z.shiftr 0x80000000 reg_d)))) s.

(* [cpu/ppc/ppcopcodes.cpp:1451-1459] *)
Definition ppc_crand (opcode : Z) (s : ppc_state) : ppc_state :=
  let '(reg_d, reg_a, reg_b) := ppc_grab_dab opcode in
  let ir := u8 (Z.land (Z.shiftr (cr s) (31 - reg_a)) (Z.shiftr (cr s) (31 - reg_b))) in
  if test ir 1 then cr_on reg_d s else cr_off reg_d s.

(* [cpu/ppc/ppcopcodes.cpp:1461-1468] *)
Definition ppc_crandc (opcode : Z) (s : ppc_state) : ppc_state :=
  let '(reg_d, reg_a, reg_b) := ppc_grab_dab opcode in
  if test (cr s) (Z.shiftr 0x80000000 reg_a) && negb (test (cr s) (Z.shiftr 0x80000000 reg_b))
  then cr_on reg_d s else cr_off reg_d s.

(* [cpu/ppc/ppcopcodes.cpp:1469-1477] *)
Definition ppc_creqv (opcode : Z) (s : ppc_state) : ppc_state :=
  let '(reg_d, reg_a, reg_b) := ppc_grab_dab opcode in
  let ir := u8 (Z.lxor (Z.shiftr (cr s) (31 - reg_a)) (Z.shiftr (cr s) (31 - reg_b))) in
  if test ir 1 then cr_off reg_d s else cr_on reg_d s.

(* [cpu/ppc/ppcopcodes.cpp:1478-1486] *)
Definition ppc_crnand (opcode : Z) (s : ppc_state) : ppc_state :=
  let '(reg_d, reg_a, reg_b) := ppc_grab_dab opcode in
  let ir := u8 (Z.land (Z.shiftr (cr s) (31 - reg_a)) (Z.shiftr (cr s) (31 - reg_b))) in
  if test ir 1 then cr_off reg_d s else cr_on reg_d s.

(* [cpu/ppc/ppcopcodes.cpp:1488-1496] *)
Definition ppc_crnor (opcode : Z) (s : ppc_state) : ppc_state :=
  let '(reg_d, reg_a, reg_b) := ppc_grab_dab opcode in
  let ir := u8 (Z.lor (Z.shiftr (cr s) (31 - reg_a)) (Z.shiftr (cr s) (31 - reg_b))) in
  if test ir 1 then cr_off reg_d s else cr_on reg_d s.

(* [cpu/ppc/ppcopcodes.cpp:1498-1506] *)
Definition ppc_cror (opcode : Z) (s : ppc_state) : ppc_state :=
  let '(reg_d, reg_a, reg_b) := ppc_grab_dab opcode in
  let ir := u8 (Z.lor (Z.shiftr (cr s) (31 - reg_a)) (Z.shiftr (cr s) (31 - reg_b))) in
  if test ir 1 then cr_on reg_d s else cr_off reg_d s.

(* [cpu/ppc/ppcopcodes.cpp:1508-1515] *)
Definition ppc_crorc (opcode : Z) (s : ppc_state) : ppc_state :=
  let '(reg_d, reg_a, reg_b) := ppc_grab_dab opcode in
  if test (cr s) (Z.shiftr 0x80000000 reg_a) || negb (test (cr s) (Z.shiftr 0x80000000 reg_b))
  then cr_on reg_d s else cr_off reg_d s.

(* [cpu/ppc/ppcopcodes.cpp:1516-1524] *)
Definition ppc_crxor (opcode : Z) (s : ppc_state) : ppc_state :=
  let '(reg_d, reg_a, reg_b) := ppc_grab_dab opcode in
  let ir := u8 (Z.lxor (Z.shiftr (cr s) (31 - reg_a)) (Z.shiftr (cr s) (31 - reg_b))) in
  if test ir 1 then cr_on reg_d s else cr_off reg_d s.

(** ** Specification *)

(** [s'] is [s] with the CR bits given by [f]. *)
Record cr_effect (s s' : ppc_state) (f : Z -> bool) : Prop := mk_cr_effect {
  ce_ok : ppc_ok s';
  ce_frame : s' = with_cr (cr s') s;
  ce_bits : forall n, 0 <= n < 32 -> cr_bit n s' = f n
}.

(** The field a destination operand names, and the CR after writing the four
    bits [lt gt eq so] to it. *)
Definition crf_d (opcode : Z) : Z := field_d opcode / 4.
Definition crf_s (opcode : Z) : Z := field_a opcode / 4.
Definition field_write (s : ppc_state) (k : Z) (v : Z -> bool) (n : Z) : bool :=
  if n / 4 =? k then v (n mod 4) else cr_bit n s.
Definition compare_bits (a b : Z) (so : bool) (i : Z) : bool :=
  if i =? 0 then a <? b else if i =? 1 then b <? a else if i =? 2 then a =? b else so.

(** ** Lemmas *)

Lemma cr_effect_intro s v f : ppc_ok s -> 0 <= v < 2 ^ 32 ->
  (forall n, 0 <= n < 32 -> Z.testbit v (31 - n) = f n) -> cr_effect s (with_cr v s) f.
Proof. intros Hs Hv Hf. split; [by apply with_cr_ok | done | exact Hf]. Qed.

Lemma crf_d_shift opcode : Z.land (Z.shiftr opcode 21) 0x1C = 4 * crf_d opcode.
Proof.
  unfold crf_d, field_d. change 0x1C with (Z.land 0x1F 0x1C). rewrite Z.land_assoc.
  apply Z.eqb_eq. apply (range_forall 32 (fun x => Z.land x 0x1C =? 4 * (x / 4))); [by vm_compute|].
  apply land_0x1F.
Qed.

Lemma crf_s_shift opcode : Z.land (Z.shiftr opcode 16) 0x1C = 4 * crf_s opcode.
Proof.
  unfold crf_s, field_a. change 0x1C with (Z.land 0x1F 0x1C). rewrite Z.land_assoc.
  apply Z.eqb_eq. apply (range_forall 32 (fun x => Z.land x 0x1C =? 4 * (x / 4))); [by vm_compute|].
  apply land_0x1F.
Qed.

Lemma crf_d_range opcode : 0 <= crf_d opcode < 8.
Proof. pose proof (field_d_range opcode). unfold crf_d. zlia. Qed.
Lemma crf_s_range opcode : 0 <= crf_s opcode < 8.
Proof. pose proof (field_a_range opcode). unfold crf_s. zlia. Qed.

(** The mask of a CR field. *)
Lemma field_mask_bit k n : 0 <= k < 8 -> 0 <= n < 32 ->
  Z.testbit (Z.shiftr 0xF0000000 (4 * k)) (31 - n) = (n / 4 =? k).
Proof.
  intros Hk Hn. apply eqb_prop.
  apply (range_forall2 8 32 (fun k n =>
    eqb (Z.testbit (Z.shiftr 0xF0000000 (4 * k)) (31 - n)) (n / 4 =? k))); [by vm_compute|lia..].
Qed.

(** Writing a left-justified nibble to field [k]. *)
Lemma write_field_effect s k v : ppc_ok s -> 0 <= k < 8 -> 0 <= v < 2 ^ 32 -> v mod 2 ^ 28 = 0 ->
  cr_effect s (with_cr (u32 (Z.lor (Z.land (cr s) (Z.lnot (Z.shiftr 0xF0000000 (4 * k))))
                                   (Z.shiftr v (4 * k)))) s)
    (field_write s k (fun i => Z.testbit v (31 - i))).
Proof.
  intros Hs Hk Hv Hlow. apply cr_effect_intro; [done | apply u32_range|]. intros n Hn.
  rewrite testbit_uwrap, Z.lor_spec, Z.land_spec, Z.lnot_spec, field_mask_bit, Z.shiftr_spec by lia.
  rewrite (proj2 (Z.ltb_lt _ _)), andb_true_l by lia. unfold field_write, cr_bit.
  destruct (Z.eqb_spec (n / 4) k) as [E|E]; cbn [negb].
  - rewrite andb_false_r, orb_false_l. f_equal. zlia.
  - rewrite andb_true_r. replace (Z.testbit v (31 - n + 4 * k)) with false; [apply orb_false_r|].
    symmetry. destruct (Z.lt_ge_cases (n / 4) k).
    + apply (testbit_high 32); [done | zlia].
    + assert (0 <= 31 - n + 4 * k < 28) by zlia.
      rewrite <- (Z.mod_pow2_bits_low v 28), Hlow by lia. apply Z.bits_0.
Qed.

(** The nibble a compare writes. *)
Lemma compare_nibble c x : 0 <= x < 2 ^ 32 ->
  c = 0x20000000 \/ c = 0x40000000 \/ c = 0x80000000 ->
  let v := u32 (c + Z.shiftr (Z.land x XERB.SO) 3) in
  v mod 2 ^ 28 = 0 /\ forall i, 0 <= i < 4 ->
  Z.testbit v (31 - i) = if i =? 3 then Z.testbit x 31 else c =? 2 ^ (31 - i).
Proof.
  intros Hx Hc v. subst v.
  assert (Z.land x XERB.SO = if Z.testbit x 31 then 2 ^ 31 else 0) as ->.
  { unfold XERB.SO. rewrite <- test_pow2 by lia. unfold test.
    pose proof (test_pow2 x 31 ltac:(lia)) as Ht. unfold test in Ht. rewrite Ht.
    apply Z.bits_inj'. intros i Hi. rewrite Z.land_spec, testbit_2p by lia.
    destruct (Z.testbit x 31) eqn:E; rewrite ?testbit_2p, ?Z.bits_0 by lia.
    - destruct (Z.eqb_spec i 31) as [->|]; [by rewrite E | by rewrite andb_false_r].
    - destruct (Z.eqb_spec i 31) as [->|]; [by rewrite E | by rewrite andb_false_r]. }
  destruct (Z.testbit x 31), Hc as [-> | [-> | ->]]; (split; [done|]);
    intros i Hi; each_index i 4%nat; reflexivity.
Qed.

Lemma compare_effect s k (a b c : Z) : ppc_ok s -> 0 <= k < 8 ->
  c = (if a =? b then 0x20000000 else if b <? a then 0x40000000 else 0x80000000) ->
  cr_effect s
    (with_cr (u32 (Z.lor (Z.land (cr s) (Z.lnot (Z.shiftr 0xF0000000 (4 * k))))
      (Z.shiftr (u32 (c + Z.shiftr (Z.land (spr s).[SPR.XER] XERB.SO) 3)) (4 * k)))) s)
    (field_write s k (compare_bits a b (xer_so s))).
Proof.
  intros Hs Hk Hc.
  destruct (compare_nibble c (spr s).[SPR.XER]) as [Hv Hbits]; [apply ok_get_spr, Hs | |].
  { subst c. repeat case_if; auto. }
  destruct (write_field_effect s k _ Hs Hk (u32_range _) Hv) as [H1 H2 H3].
  split; [done..|]. intros n Hn. rewrite H3 by done. unfold field_write.
  case_if; [|done]. assert (0 <= n mod 4 < 4) as Hi by (apply Z.mod_pos_bound; lia).
  rewrite Hbits by done. unfold compare_bits, xer_bit. subst c.
  revert Hi. generalize (n mod 4). intros i Hi.
  destruct (Z.eqb_spec a b), (Z.ltb_spec b a), (Z.ltb_spec a b); try lia;
    each_index i 4%nat; reflexivity.
Qed.

Lemma cr_on_effect s d : ppc_ok s -> 0 <= d < 32 ->
  cr_effect s (cr_on d s) (fun n => if n =? d then true else cr_bit n s).
Proof.
  intros Hs Hd. apply cr_effect_intro; [done | apply u32_range|]. intros n Hn.
  change 0x80000000 with (2 ^ 31). rewrite testbit_uwrap, Z.lor_spec, Z.shiftr_spec, testbit_2p by lia.
  rewrite (proj2 (Z.ltb_lt _ _)), andb_true_l by lia. unfold cr_bit.
  replace (31 - n + d =? 31) with (n =? d) by (destruct (Z.eqb_spec n d), (Z.eqb_spec (31 - n + d) 31); lia).
  by destruct (n =? d); [rewrite orb_true_r | rewrite orb_false_r].
Qed.

Lemma cr_off_effect s d : ppc_ok s -> 0 <= d < 32 ->
  cr_effect s (cr_off d s) (fun n => if n =? d then false else cr_bit n s).
Proof.
  intros Hs Hd. apply cr_effect_intro; [done | apply u32_range|]. intros n Hn.
  change 0x80000000 with (2 ^ 31).
  rewrite testbit_uwrap, Z.land_spec, Z.lnot_spec, Z.shiftr_spec, testbit_2p by lia.
  rewrite (proj2 (Z.ltb_lt _ _)), andb_true_l by lia. unfold cr_bit.
  replace (31 - n + d =? 31) with (n =? d) by (destruct (Z.eqb_spec n d), (Z.eqb_spec (31 - n + d) 31); lia).
  by destruct (n =? d); [rewrite andb_false_r | rewrite andb_true_r].
Qed.

Lemma cr_choose_effect s d (b : bool) : ppc_ok s -> 0 <= d < 32 ->
  cr_effect s (if b then cr_on d s else cr_off d s) (fun n => if n =? d then b else cr_bit n s).
Proof. intros. destruct b; [by apply cr_on_effect | by apply cr_off_effect]. Qed.

Lemma cr_choose_not_effect s d (b : bool) : ppc_ok s -> 0 <= d < 32 ->
  cr_effect s (if b then cr_off d s else cr_on d s) (fun n => if n =? d then negb b else cr_bit n s).
Proof. intros. destruct b; [by apply cr_off_effect | by apply cr_on_effect]. Qed.

(** Bit 0 of the 8-bit intermediate result [ir]. *)
Lemma test_ir x : test (u8 x) 1 = Z.testbit x 0.
Proof. change 1 with (2 ^ 0). rewrite test_pow2, testbit_uwrap by lia. reflexivity. Qed.

Lemma test_cr_bit s n : 0 <= n < 32 -> test (cr s) (Z.shiftr 0x80000000 n) = cr_bit n s.
Proof.
  intros Hn. unfold cr_bit. rewrite <- test_pow2 by lia. f_equal.
  rewrite Z.shiftr_div_pow2 by lia. change 0x80000000 with (2 ^ 31).
  rewrite Z.pow_sub_r by lia. reflexivity.
Qed.

Lemma shiftr_cr_bit s n : n < 32 -> Z.testbit (Z.shiftr (cr s) (31 - n)) 0 = cr_bit n s.
Proof. intros. rewrite Z.shiftr_spec by lia. reflexivity. Qed.

(** ** Properties *)

(** The four compares write LT, GT, EQ (signed order for [cmp] and [cmpi],
    unsigned order for [cmpl] and [cmpli]) and a copy of XER[SO] to the CR field
    the opcode names, and change nothing else. *)
Theorem compare_instructions_correct s opcode : ppc_ok s ->
  let a := (gpr s).[field_a opcode] in
  let b := (gpr s).[field_b opcode] in
  let wr := field_write s (crf_d opcode) in
  cr_effect s (ppc_cmp opcode s) (wr (compare_bits (s32 a) (s32 b) (xer_so s))) /\
  cr_effect s (ppc_cmpi opcode s) (wr (compare_bits (s32 a) (s16 opcode) (xer_so s))) /\
  cr_effect s (ppc_cmpl opcode s) (wr (compare_bits a b (xer_so s))) /\
  cr_effect s (ppc_cmpli opcode s) (wr (compare_bits a (u16 opcode) (xer_so s))).
Proof.
  intros Hs a b wr. unfold ppc_cmp, ppc_cmpi, ppc_cmpl, ppc_cmpli,
    ppc_grab_regsab, ppc_grab_regsasimm, ppc_grab_crfd_regsauimm.
  rewrite !crf_d_shift. pose proof (crf_d_range opcode).
  split_and!; by apply compare_effect.
Qed.

(** cmpwi cr1,r7,-7 *)
Lemma compare_instructions_correct_witness :
  ppc_ok demo_state /\
  cr_effect demo_state (ppc_cmpi 0x2C87FFF9 demo_state)
    (field_write demo_state 1 (compare_bits (s32 0xFFFFFFF9) (-7) false)).
Proof.
  split; [exact demo_ok|].
  exact (proj1 (proj2 (compare_instructions_correct demo_state 0x2C87FFF9 demo_ok))).
Defined.

(** Each CR-logical instruction sets CR[crbD] to its truth table applied to
    CR[crbA] and CR[crbB] and leaves the other 31 bits alone. *)
Theorem cr_logical_correct s opcode : ppc_ok s ->
  let d := field_d opcode in
  let a := cr_bit (field_a opcode) s in
  let b := cr_bit (field_b opcode) s in
  let wr v := fun n => if n =? d then v else cr_bit n s in
  cr_effect s (ppc_crand opcode s) (wr (a && b)) /\
  cr_effect s (ppc_crandc opcode s) (wr (a && negb b)) /\
  cr_effect s (ppc_creqv opcode s) (wr (eqb a b)) /\
  cr_effect s (ppc_crnand opcode s) (wr (negb (a && b))) /\
  cr_effect s (ppc_crnor opcode s) (wr (negb (a || b))) /\
  cr_effect s (ppc_cror opcode s) (wr (a || b)) /\
  cr_effect s (ppc_crorc opcode s) (wr (a || negb b)) /\
  cr_effect s (ppc_crxor opcode s) (wr (xorb a b)).
Proof.
  intros Hs d a b wr.
  pose proof (field_d_range opcode). pose proof (field_a_range opcode).
  pose proof (field_b_range opcode).
  unfold ppc_crand, ppc_crandc, ppc_creqv, ppc_crnand, ppc_crnor, ppc_cror, ppc_crorc, ppc_crxor,
    ppc_grab_dab, decode_ops_dab.
  rewrite !test_ir, !Z.land_spec, !Z.lor_spec, !Z.lxor_spec, !shiftr_cr_bit, !test_cr_bit by lia.
  fold a b d. unfold wr.
  replace (eqb a b) with (negb (xorb a b)) by (by destruct a, b).
  split_and!; first [by apply cr_choose_effect | by apply cr_choose_not_effect].
Qed.

(** crorc 4,1,2: CR[1] is set in [demo_state] *)
Lemma cr_logical_correct_witness :
  ppc_ok demo_state /\
  cr_effect demo_state (ppc_crxor 0x4C812182 demo_state)
    (fun n => if n =? 4 then xorb (cr_bit 1 demo_state) (cr_bit 4 demo_state)
              else cr_bit n demo_state).
Proof.
  split; [exact demo_ok|].
  pose proof (cr_logical_correct demo_state 0x4C812182 demo_ok) as H.
  do 7 apply proj2 in H. exact H.
Defined.

Lemma crm_mask_bit crm n : 0 <= crm < 256 -> 0 <= n < 32 ->
  Z.testbit (crm_mask crm) (31 - n) = Z.testbit crm (7 - n / 4).
Proof.
  intros Hc Hn. apply eqb_prop.
  apply (range_forall2 256 32 (fun crm n =>
    eqb (Z.testbit (crm_mask crm) (31 - n)) (Z.testbit crm (7 - n / 4)))); [by vm_compute|lia..].
Qed.

Lemma mtcrf_effect s opcode : ppc_ok s ->
  cr_effect s (ppc_mtcrf opcode s) (fun n =>
    if Z.testbit opcode (19 - n / 4) then Z.testbit (gpr s).[field_d opcode] (31 - n)
    else cr_bit n s).
Proof.
  intros Hs. unfold ppc_mtcrf, ppc_grab_s.
  assert (Hc : 0 <= Z.land (Z.shiftr opcode 12) 0xFF < 256) by (apply (land_field _ 8); lia).
  apply cr_effect_intro; [done | |].
  - apply lor_range; [lia| |]; apply land_range_l; try lia; [apply Hs | by apply ok_get_gpr].
  - intros n Hn. rewrite Z.lor_spec, !Z.land_spec. unfold not32.
    rewrite testbit_uwrap, Z.lnot_spec, crm_mask_bit by lia.
    rewrite (proj2 (Z.ltb_lt _ _)), andb_true_l by lia.
    change 0xFF with (Z.ones 8). rewrite Z.land_spec, Z.shiftr_spec, Z.ones_spec_low by zlia.
    rewrite andb_true_r. replace (7 - n / 4 + 12) with (19 - n / 4) by lia. unfold cr_bit.
    destruct (Z.testbit opcode _); simpl;
      by rewrite ?andb_false_r, ?andb_true_r, ?orb_false_r.
Qed.

Lemma mcrf_effect s opcode : ppc_ok s ->
  cr_effect s (ppc_mcrf opcode s)
    (field_write s (crf_d opcode) (fun i => cr_bit (4 * crf_s opcode + i) s)).
Proof.
  intros Hs. unfold ppc_mcrf. rewrite crf_d_shift, crf_s_shift.
  pose proof (crf_d_range opcode) as Hd. pose proof (crf_s_range opcode) as Hsr.
  set (g := Z.land _ 0xF). assert (Hg : 0 <= g < 16) by (apply (land_field _ 4); lia).
  assert (Hv : shl32 g (28 - 4 * crf_d opcode) = Z.shiftr (shl32 g 28) (4 * crf_d opcode)).
  { clearbody g. apply Z.eqb_eq. apply (range_forall2 16 8 (fun g k =>
      shl32 g (28 - 4 * k) =? Z.shiftr (shl32 g 28) (4 * k))); [by vm_compute|lia..]. }
  rewrite Hv. clear Hv.
  assert (Hv : shl32 g 28 mod 2 ^ 28 = 0).
  { unfold shl32. rewrite (uwrap_small 32) by (rewrite Z.shiftl_mul_pow2; lia).
    rewrite Z.shiftl_mul_pow2 by lia. apply Z.mod_mul. lia. }
  destruct (write_field_effect s (crf_d opcode) (shl32 g 28) Hs Hd (u32_range _) Hv) as [H1 H2 H3].
  split; [done..|]. intros n Hn. rewrite H3 by done. unfold field_write. case_if; [|done].
  assert (0 <= n mod 4 < 4) by (apply Z.mod_pos_bound; lia).
  unfold shl32. rewrite testbit_uwrap, Z.shiftl_spec by lia. subst g.
  change 0xF with (Z.ones 4). rewrite Z.land_spec, Z.ones_spec_low, Z.shiftr_spec by lia.
  rewrite (proj2 (Z.ltb_lt _ _)), andb_true_l, andb_true_r by lia. unfold cr_bit. f_equal. lia.
Qed.

Lemma mcrxr_effect s opcode : ppc_ok s ->
  let s1 := with_cr (cr (ppc_mcrxr opcode s)) s in
  cr_effect s s1 (field_write s (crf_d opcode) (fun i => xer_bit (31 - i) s)) /\
  ppc_mcrxr opcode s = set_spr SPR.XER (Z.land (spr s).[SPR.XER] 0x0FFFFFFF) s1.
Proof.
  intros Hs s1. subst s1. unfold ppc_mcrxr. rewrite crf_d_shift.
  cbn [cr with_cr set_spr with_spr spr]. split; [|done].
  set (v := Z.land _ 0xF0000000).
  assert (Hv : 0 <= v < 2 ^ 32) by (apply land_range_r; lia).
  assert (Hlow : v mod 2 ^ 28 = 0).
  { apply Z.bits_inj'. intros i Hi. rewrite Z.bits_0, Z.testbit_mod_pow2 by lia.
    destruct (Z.ltb_spec i 28); [|done]. unfold v.
    change 0xF0000000 with (Z.shiftl 15 28).
    rewrite Z.land_spec, (Z.shiftl_spec_low 15 28 i) by lia. apply andb_false_r. }
  destruct (write_field_effect s (crf_d opcode) v Hs (crf_d_range _) Hv Hlow) as [H1 H2 H3].
  split; [done..|]. intros n Hn. rewrite H3 by done. unfold field_write. case_if; [|done].
  assert (Hi : 0 <= n mod 4 < 4) by (apply Z.mod_pos_bound; lia). unfold v, xer_bit.
  rewrite Z.land_spec. revert Hi. generalize (n mod 4). intros i Hi.
  each_index i 4%nat; apply andb_true_r.
Qed.

(** [mtcrf] replaces exactly the CR fields its mask selects, [mcrf] copies a
    field, [mcrxr] moves XER[0-3] to a field and clears it in XER; and writing a
    whole register with [mtcrf 0xFF] then reading it back with [mfcr] gives the
    register. *)
Theorem cr_moves_correct s opcode op2 : ppc_ok s ->
  cr_effect s (ppc_mtcrf opcode s) (fun n =>
    if Z.testbit opcode (19 - n / 4) then Z.testbit (gpr s).[field_d opcode] (31 - n)
    else cr_bit n s) /\
  cr_effect s (ppc_mcrf opcode s)
    (field_write s (crf_d opcode) (fun i => cr_bit (4 * crf_s opcode + i) s)) /\
  (let s1 := with_cr (cr (ppc_mcrxr opcode s)) s in
   cr_effect s s1 (field_write s (crf_d opcode) (fun i => xer_bit (31 - i) s)) /\
   ppc_mcrxr opcode s = set_spr SPR.XER (Z.land (spr s).[SPR.XER] 0x0FFFFFFF) s1) /\
  (Z.land (Z.shiftr opcode 12) 0xFF = 0xFF ->
   (gpr (ppc_mfcr op2 (ppc_mtcrf opcode s))).[field_d op2] = (gpr s).[field_d opcode]).
Proof.
  intros Hs. split_and!; [by apply mtcrf_effect | by apply mcrf_effect | by apply mcrxr_effect..|].
  intros E. unfold ppc_mfcr, ppc_mtcrf, ppc_grab_s. rewrite E.
  cbn [gpr set_gpr with_gpr with_cr cr]. fold (field_d op2). rewrite rget_rset_eq.
  change (crm_mask 0xFF) with (Z.ones 32). change (not32 (Z.ones 32)) with 0.
  rewrite Z.land_0_r, Z.lor_0_l, Z.land_ones by lia.
  apply Z.mod_small, ok_get_gpr, Hs.
Qed.

(** mtcrf 0xFF,r6 ; mfcr r9 *)
Lemma cr_moves_correct_witness :
  ppc_ok demo_state /\
  (gpr (ppc_mfcr 0x7D200026 (ppc_mtcrf 0x7CCFF120 demo_state))).[9] = 0x12345678.
Proof.
  split; [exact demo_ok|].
  pose proof (cr_moves_correct demo_state 0x7CCFF120 0x7D200026 demo_ok) as H.
  do 3 apply proj2 in H. exact (H eq_refl).
Defined.
