(* ===== verification/Timers.v ===== *)
(** * Virtual timers (core/timermanager.{h,cpp})

    A [TimerInfo] is identified by its address, here an integer: the comparator
    breaks ties on it.  The queue is the list of the addresses in the priority
    queue; [top] is its minimum for the comparator, which is what the C++ heap
    answers as long as no queued timer is rescheduled (the code logs an error
    when that is attempted).  The locks only protect against the audio thread
    and are not modelled: every operation runs on its own.

    The operations are generic in the program they run in ([TimerHost]): the
    clock, the listener and the callbacks belong to the machine. *)
From Stdlib Require Import Sorted.
From S2P Require Import Prelude Word.

(* [core/timermanager.h:95-100] *)
Record TimerInfo (CB : Type) : Type := mkTimerInfo {
  timeout_ns : Z;
  interval_ns : Z;
  active : bool;
  cb : CB
}.
Arguments mkTimerInfo {CB} timeout_ns interval_ns active cb.
Arguments timeout_ns {CB} t.
Arguments interval_ns {CB} t.
Arguments active {CB} t.
Arguments cb {CB} t.

(** The manager: the queue, the [TimerInfo] objects its pointers lead to, and
    whether a callback is running. *)
(* [core/timermanager.h:150-158 timer_queue] *)
Record TimerManager (CB : Type) : Type := mkTimerManager {
  timer_queue : list Z;
  infos : gmap Z (TimerInfo CB);
  cb_active : bool
}.
Arguments mkTimerManager {CB} timer_queue infos cb_active.
Arguments timer_queue {CB} t.
Arguments infos {CB} t.
Arguments cb_active {CB} t.

(** What the manager needs from the program: where it lives and the two
    registered functions. *)
Class TimerHost (S CB : Type) := {
  get_tm : S -> TimerManager CB;
  set_tm : TimerManager CB -> S -> S;
  get_time_now : S -> Z;
  notify_timer_changes : S -> S;
  default_cb : CB
}.

(** How a stored callback runs; its own class, because the callbacks themselves
    use the operations below. *)
Class TimerInvoke (S CB : Type) := invoke : CB -> Z -> Z -> M S unit.

(** The laws of the state components, proved by the machine. *)
Class TimerHostLaws (S CB : Type) `{TimerHost S CB} := {
  tm_get_set : forall t s, get_tm (set_tm t s) = t;
  tm_set_set : forall t u s, set_tm t (set_tm u s) = set_tm t s;
  tm_set_get : forall s, set_tm (get_tm s) s = s;
  time_set : forall t s, get_time_now (set_tm t s) = get_time_now s;
  notify_tm : forall s, get_tm (notify_timer_changes s) = get_tm s;
  notify_time : forall s, get_time_now (notify_timer_changes s) = get_time_now s
}.

Section Timers.
Context {S CB : Type} `{TimerHost S CB}.

(** A [TimerInfo] no operation has touched is zero-initialised. *)
Definition info (ti : Z) (t : TimerManager CB) : TimerInfo CB :=
  default (mkTimerInfo 0 0 false default_cb) (infos t !! ti).

Definition set_info (ti : Z) (i : TimerInfo CB) (t : TimerManager CB) : TimerManager CB :=
  mkTimerManager (timer_queue t) (<[ti := i]> (infos t)) (cb_active t).
Definition set_queue (q : list Z) (t : TimerManager CB) : TimerManager CB :=
  mkTimerManager q (infos t) (cb_active t).
Definition set_cb_active (b : bool) (t : TimerManager CB) : TimerManager CB :=
  mkTimerManager (timer_queue t) (infos t) b.
Definition set_active (ti : Z) (b : bool) (t : TimerManager CB) : TimerManager CB :=
  let i := info ti t in
  set_info ti (mkTimerInfo (timeout_ns i) (interval_ns i) b (cb i)) t.

Definition upd (f : TimerManager CB -> TimerManager CB) : M S unit :=
  modify (fun s => set_tm (f (get_tm s)) s).

(** ** The queue *)

(** [MyGtComparator(l, r)]: [l] expires after [r]. *)
(* [core/timermanager.h:103-109 operator] *)
Definition gt_comparator (t : TimerManager CB) (l r : Z) : bool :=
  (timeout_ns (info r t) <? timeout_ns (info l t)) ||
  ((timeout_ns (info l t) =? timeout_ns (info r t)) && (r <? l)).

Fixpoint least (t : TimerManager CB) (l : list Z) (best : Z) : Z :=
  match l with
  | [] => best
  | x :: l => least t l (if gt_comparator t best x then x else best)
  end.

Definition queue_top (t : TimerManager CB) : option Z :=
  match timer_queue t with
  | [] => None
  | x :: l => Some (least t l x)
  end.

Definition queue_push (ti : Z) (t : TimerManager CB) : TimerManager CB :=
  set_queue (ti :: timer_queue t) t.

Fixpoint remove_first (ti : Z) (l : list Z) : list Z :=
  match l with
  | [] => []
  | x :: l => if x =? ti then l else x :: remove_first ti l
  end.

(** [remove_by_id] erases one occurrence of the pointer, if there is one. *)
(* [core/timermanager.h:53-70] *)
Definition remove_by_id (ti : Z) (t : TimerManager CB) : TimerManager CB :=
  set_queue (remove_first ti (timer_queue t)) t.

(** ** The operations *)

(* [core/timermanager.cpp:33-50] *)
Definition add_absolute_timer (ti timeout interval : Z) (c : CB) : M S unit :=
  upd (set_info ti (mkTimerInfo timeout interval true c)) ;;;
  upd (queue_push ti) ;;;
  active <- gets (fun s => cb_active (get_tm s)) ;;
  when (negb active) (modify notify_timer_changes).

(* [core/timermanager.cpp:52-55] *)
Definition add_oneshot_timer (ti timeout : Z) (c : CB) : M S unit :=
  now <- gets get_time_now ;;
  add_absolute_timer ti (u64 (now + timeout)) 0 c.

(* [core/timermanager.cpp:57-60] *)
Definition add_immediate_timer (ti : Z) (c : CB) : M S unit :=
  add_absolute_timer ti 0 0 c.

(* [core/timermanager.cpp:62-65 add_cyclic_timer] *)
Definition add_cyclic_timer_delay (ti interval delay : Z) (c : CB) : M S unit :=
  now <- gets get_time_now ;;
  add_absolute_timer ti (u64 (now + delay)) interval c.

(* [core/timermanager.cpp:67-70] *)
Definition add_cyclic_timer (ti interval : Z) (c : CB) : M S unit :=
  add_cyclic_timer_delay ti interval interval c.

(* [core/timermanager.cpp:72-79] *)
Definition cancel_timer (ti : Z) : M S unit :=
  upd (remove_by_id ti) ;;;
  upd (set_active ti false) ;;;
  active <- gets (fun s => cb_active (get_tm s)) ;;
  when (negb active) (modify notify_timer_changes).

(** The next deadline of a cyclic timer: the first one of its phase that is
    after [time_now]. *)
(* [core/timermanager.cpp:103-111 timeout_ns_new] *)
Definition rearm (timeout interval time_now : Z) : Z :=
  let timeout_ns_new := u64 (timeout + interval) in
  if timeout_ns_new <=? time_now then
    let periods_to_skip := (time_now - timeout_ns_new) / interval + 1 in
    u64 (timeout_ns_new + u64 (periods_to_skip * interval))
  else timeout_ns_new.

(** One iteration of the loop: dequeue, re-arm or deactivate. *)
(* [core/timermanager.cpp:96-117 timer_queue] *)
Definition expire (cur_timer time_now : Z) (t : TimerManager CB) : TimerManager CB :=
  let i := info cur_timer t in
  let t := remove_by_id cur_timer t in
  if negb (interval_ns i =? 0) then
    queue_push cur_timer
      (set_info cur_timer
        (mkTimerInfo (rearm (timeout_ns i) (interval_ns i) time_now) (interval_ns i) (active i) (cb i)) t)
  else set_active cur_timer false t.

Context `{TimerInvoke S CB}.

(** The loop runs as long as the callbacks keep timers due: [fuel] bounds the
    iterations, and running out of it is not a return value ([None]). *)
(* [core/timermanager.cpp:95-138 timer_queue] *)
Fixpoint process_loop (fuel : nat) (time_now cur_timer : Z) : M S (option Z) :=
  match fuel with
  | O => ret None
  | Datatypes.S fuel =>
      i <- gets (fun s => info cur_timer (get_tm s)) ;;
      if timeout_ns i <=? time_now then
        upd (expire cur_timer time_now) ;;;
        upd (set_cb_active true) ;;;
        invoke (cb i) time_now (timeout_ns i) ;;;
        upd (set_cb_active false) ;;;
        next <- gets (fun s => queue_top (get_tm s)) ;;
        match next with
        | None => ret (Some 0)
        | Some cur_timer => process_loop fuel time_now cur_timer
        end
      else ret (Some (timeout_ns i))
  end.

(* [core/timermanager.cpp:81-139] *)
Definition process_timers (fuel : nat) : M S (option Z) :=
  time_now <- gets get_time_now ;;
  top <- gets (fun s => queue_top (get_tm s)) ;;
  match top with
  | None => ret (Some 0)
  | Some cur_timer => process_loop fuel time_now cur_timer
  end.

(* [core/timermanager.cpp:141-150] *)
Definition cancel_all_timers : M S unit :=
  upd (fun t => set_queue [] (foldr (fun ti t => set_active ti false t) t (timer_queue t))).

End Timers.

(** ** The queue is a set of active timers *)

Section Invariant.
Context {S CB : Type} `{TimerHost S CB}.
Implicit Types (t : TimerManager CB).

(** The invariant the comment in the header asks of the clients: a timer is
    queued once, and exactly while it is active. *)
Record timers_wf t : Prop := {
  wf_nodup : NoDup (timer_queue t);
  wf_active : forall ti, active (info ti t) = true <-> ti ∈ timer_queue t
}.

Lemma info_set_info ti i t : info ti (set_info ti i t) = i.
Proof. unfold info, set_info. cbn [infos]. by rewrite lookup_insert_eq. Qed.
Lemma info_set_info_ne ti tj i t : ti <> tj -> info tj (set_info ti i t) = info tj t.
Proof. intros. unfold info, set_info. cbn [infos]. by rewrite lookup_insert_ne. Qed.
Lemma info_set_active_ne ti tj b t : ti <> tj -> info tj (set_active ti b t) = info tj t.
Proof. apply info_set_info_ne. Qed.

Lemma elem_of_remove_first ti x l : NoDup l ->
  x ∈ remove_first ti l <-> x ∈ l /\ x <> ti.
Proof.
  intros Hl. induction Hl as [|y l Hy Hl IH]; simpl; [set_solver|].
  destruct (Z.eqb_spec y ti); [set_solver|]. rewrite elem_of_cons, IH. set_solver.
Qed.

Lemma NoDup_remove_first ti l : NoDup l -> NoDup (remove_first ti l).
Proof.
  intros Hl. induction Hl as [|y l Hy Hl IH]; simpl; [constructor|].
  destruct (y =? ti); [done|]. constructor; [|done].
  rewrite elem_of_remove_first by done. tauto.
Qed.

Lemma wf_enqueue ti timeout interval c t : timers_wf t -> active (info ti t) = false ->
  timers_wf (queue_push ti (set_info ti (mkTimerInfo timeout interval true c) t)).
Proof.
  intros [Hn Ha] Hi. assert (ti ∉ timer_queue t) as Hq by (rewrite <- Ha, Hi; done).
  split; cbn [queue_push set_queue timer_queue set_info].
  - by constructor.
  - intros tj. change (info tj (queue_push ti ?u)) with (info tj u).
    destruct (decide (ti = tj)) as [->|Hne].
    + rewrite info_set_info. set_solver.
    + rewrite info_set_info_ne, Ha by done. set_solver.
Qed.

Lemma wf_cancel ti t : timers_wf t -> timers_wf (set_active ti false (remove_by_id ti t)).
Proof.
  intros [Hn Ha]. split; cbn [set_active set_info remove_by_id set_queue timer_queue].
  - by apply NoDup_remove_first.
  - intros tj. rewrite elem_of_remove_first by done.
    destruct (decide (ti = tj)) as [->|Hne].
    + unfold set_active. rewrite info_set_info. naive_solver.
    + rewrite info_set_active_ne by done. change (info tj (remove_by_id ti t)) with (info tj t).
      rewrite Ha. naive_solver.
Qed.

Lemma wf_expire ti now t : timers_wf t -> ti ∈ timer_queue t -> timers_wf (expire ti now t).
Proof.
  intros Hwf Hin. unfold expire. destruct (interval_ns (info ti t) =? 0); cbn [negb].
  { by apply wf_cancel. }
  destruct Hwf as [Hn Ha]. split; cbn [queue_push set_info remove_by_id set_queue timer_queue].
  - constructor; [|by apply NoDup_remove_first]. rewrite elem_of_remove_first by done. tauto.
  - intros tj. change (info tj (queue_push ti ?u)) with (info tj u).
    rewrite elem_of_cons, elem_of_remove_first by done.
    destruct (decide (ti = tj)) as [->|Hne].
    + rewrite info_set_info. cbn [active]. rewrite Ha. naive_solver.
    + rewrite info_set_info_ne by done. change (info tj (remove_by_id ti t)) with (info tj t).
      rewrite Ha. naive_solver.
Qed.

Lemma deactivate_all (t : TimerManager CB) l :
  let t' := foldr (fun ti t => set_active ti false t) t l in
  timer_queue t' = timer_queue t /\
  forall ti, active (info ti t') = if decide (ti ∈ l) then false else active (info ti t).
Proof.
  induction l as [|x l [IH1 IH2]]; cbn [foldr].
  { split; [done|]. intros ti. by rewrite decide_False by set_solver. }
  split; [exact IH1|]. intros ti. destruct (decide (x = ti)) as [->|Hne].
  - unfold set_active. rewrite info_set_info, decide_True by set_solver. done.
  - rewrite info_set_active_ne, IH2 by done. by repeat case_decide; set_solver.
Qed.

Lemma wf_cancel_all t : timers_wf t ->
  timers_wf (set_queue [] (foldr (fun ti t => set_active ti false t) t (timer_queue t))).
Proof.
  intros [Hn Ha]. destruct (deactivate_all t (timer_queue t)) as [_ Hi].
  split; [constructor|]. intros ti. change (info ti (set_queue [] ?u)) with (info ti u).
  rewrite Hi. case_decide; [set_solver|]. rewrite Ha. set_solver.
Qed.

(** ** The minimum of the queue *)

Definition before t (l r : Z) : Prop := gt_comparator t l r = false.

Lemma gt_comparator_spec t l r : gt_comparator t l r = true <->
  timeout_ns (info r t) < timeout_ns (info l t) \/
  (timeout_ns (info l t) = timeout_ns (info r t) /\ r < l).
Proof.
  unfold gt_comparator. rewrite orb_true_iff, andb_true_iff, !Z.ltb_lt, Z.eqb_eq. done.
Qed.

Lemma before_spec t l r : before t l r <->
  timeout_ns (info l t) < timeout_ns (info r t) \/
  (timeout_ns (info l t) = timeout_ns (info r t) /\ l <= r).
Proof. unfold before. rewrite <- not_true_iff_false, gt_comparator_spec. lia. Qed.

Lemma least_spec t l best :
  (least t l best = best \/ least t l best ∈ l) /\
  before t (least t l best) best /\ forall x, x ∈ l -> before t (least t l best) x.
Proof.
  revert best. induction l as [|y l IH]; intros best; simpl.
  { split; [by left|]. split; [apply before_spec; lia | set_solver]. }
  destruct (gt_comparator t best y) eqn:E.
  - destruct (IH y) as (H1 & H2 & H3). apply gt_comparator_spec in E.
    split_and!; [set_solver| |].
    + apply before_spec. apply before_spec in H2. lia.
    + intros x [->|Hx]%elem_of_cons; auto.
  - destruct (IH best) as (H1 & H2 & H3). assert (before t best y) as E' by done.
    split_and!; [set_solver|done|]. intros x [->|Hx]%elem_of_cons; [|auto].
    apply before_spec. apply before_spec in H2, E'. lia.
Qed.

Lemma queue_top_spec t ti : queue_top t = Some ti ->
  ti ∈ timer_queue t /\ forall tj, tj ∈ timer_queue t -> before t ti tj.
Proof.
  unfold queue_top. destruct (timer_queue t) as [|x l]; [done|]. intros [= <-].
  destruct (least_spec t l x) as (H1 & H2 & H3). split.
  - destruct H1 as [->|]; set_solver.
  - intros tj [->|Hx]%elem_of_cons; auto.
Qed.

(** ** Re-arming *)

Lemma rearm_spec timeout interval now : 0 <= timeout <= now -> 0 < interval ->
  now + interval < 2 ^ 64 ->
  now < rearm timeout interval now <= now + interval /\
  exists k, 1 <= k /\ rearm timeout interval now = timeout + k * interval.
Proof.
  intros Ht Hi Ho. unfold rearm. rewrite !(uwrap_small 64 (timeout + interval)) by lia.
  destruct (Z.leb_spec (timeout + interval) now) as [Hle|Hgt].
  - set (q := (now - (timeout + interval)) / interval).
    assert (q * interval <= now - (timeout + interval) < (q + 1) * interval) as Hq.
    { unfold q. pose proof (Z.div_mod (now - (timeout + interval)) interval ltac:(lia)).
      pose proof (Z.mod_pos_bound (now - (timeout + interval)) interval ltac:(lia)). lia. }
    assert (0 <= q) by (apply Z.div_pos; lia).
    rewrite !(uwrap_small 64) by (rewrite ?(uwrap_small 64); nia).
    split; [lia|]. exists (q + 2). lia.
  - split; [lia|]. exists 1. lia.
Qed.
End Invariant.

(** ** A pass over the queue *)

Section Process.
Context {S CB : Type} `{TimerHostLaws S CB} `{TimerInvoke S CB}.
Implicit Types (t : TimerManager CB).

(** Callbacks that leave the timers alone. *)
Definition quiet : Prop := forall c a b s,
  exists s', invoke c a b s = (Ret tt, s') /\ get_tm s' = get_tm s.

(** Deadlines and periods are unsigned and stay below 2^64. *)
Definition sane (now : Z) t : Prop := forall ti, ti ∈ timer_queue t ->
  0 <= timeout_ns (info ti t) /\ 0 <= interval_ns (info ti t) /\
  now + interval_ns (info ti t) < 2 ^ 64.

Definition is_due (now : Z) t (ti : Z) : bool := timeout_ns (info ti t) <=? now.
Definition due_count (now : Z) t : nat := length (List.filter (is_due now t) (timer_queue t)).

(** What a pass does to a due timer. *)
Definition outcome_of (now : Z) t0 t (ti : Z) : Prop :=
  let i := info ti t0 in
  if (interval_ns i =? 0)
  then (ti ∉ timer_queue t) /\ info ti t = mkTimerInfo (timeout_ns i) (interval_ns i) false (cb i)
  else ti ∈ timer_queue t /\
       info ti t = mkTimerInfo (rearm (timeout_ns i) (interval_ns i) now) (interval_ns i) true (cb i).

Definition untouched t0 t (ti : Z) : Prop :=
  info ti t = info ti t0 /\ (ti ∈ timer_queue t <-> ti ∈ timer_queue t0).

Record progress (now : Z) t0 t : Prop := {
  pg_wf : timers_wf t;
  pg_timers : forall ti, untouched t0 t ti \/
    (ti ∈ timer_queue t0 /\ is_due now t0 ti = true /\ outcome_of now t0 t ti)
}.

Lemma progress_refl now t : timers_wf t -> progress now t t.
Proof. intros. split; [done|]. intros ti. by left. Qed.

Lemma progress_cb now t0 t b : progress now t0 t -> progress now t0 (set_cb_active b t).
Proof. intros [[Hn Ha] Hp]. by split; [split|]. Qed.

Lemma outcome_expire now t0 t ti : timers_wf t -> ti ∈ timer_queue t -> info ti t = info ti t0 ->
  outcome_of now t0 (expire ti now t) ti.
Proof.
  intros [Hn Ha] Hin Hi. unfold outcome_of, expire. rewrite <- Hi.
  destruct (interval_ns (info ti t) =? 0); cbn [negb].
  - split; [|unfold set_active; by rewrite info_set_info].
    cbn [set_active set_info remove_by_id set_queue timer_queue].
    rewrite elem_of_remove_first by done. tauto.
  - split; [cbn; set_solver|]. change (info ti (queue_push ti ?u)) with (info ti u).
    rewrite info_set_info. f_equal. by apply Ha.
Qed.

Lemma expire_ne ti tj now t : ti <> tj -> NoDup (timer_queue t) -> untouched t (expire ti now t) tj.
Proof.
  intros Hne Hn. unfold untouched, expire. destruct (interval_ns (info ti t) =? 0); cbn [negb].
  - rewrite info_set_active_ne by done. split; [done|].
    cbn [set_active set_info remove_by_id set_queue timer_queue].
    rewrite elem_of_remove_first by done. naive_solver.
  - change (info tj (queue_push ti ?u)) with (info tj u). rewrite info_set_info_ne by done.
    split; [done|]. cbn [queue_push set_info remove_by_id set_queue timer_queue].
    rewrite elem_of_cons, elem_of_remove_first by done. naive_solver.
Qed.

Lemma due_of_progress now t0 t ti : progress now t0 t -> sane now t0 -> 0 <= now ->
  ti ∈ timer_queue t -> is_due now t ti = true ->
  untouched t0 t ti /\ ti ∈ timer_queue t0 /\ is_due now t0 ti = true.
Proof.
  intros [_ Hp] Hs Hnow Hin Hdue. destruct (Hp ti) as [[Hi Hq]|(Hq & Hd & Ho)].
  - split; [done|]. split; [by apply Hq|]. unfold is_due in *. by rewrite <- Hi.
  - exfalso. unfold outcome_of in Ho. destruct (Hs ti Hq) as (Ht & Hiv & Ho3).
    destruct (Z.eqb_spec (interval_ns (info ti t0)) 0); [tauto|]. destruct Ho as [_ Ho].
    unfold is_due in *. rewrite Ho in Hdue. cbn [timeout_ns] in Hdue. bool_to_prop.
    destruct (rearm_spec (timeout_ns (info ti t0)) (interval_ns (info ti t0)) now) as [? _]; lia.
Qed.

Lemma progress_expire now t0 t ti : progress now t0 t -> sane now t0 -> 0 <= now ->
  ti ∈ timer_queue t -> is_due now t ti = true -> progress now t0 (expire ti now t).
Proof.
  intros Hp Hs Hnow Hin Hdue.
  destruct (due_of_progress now t0 t ti Hp Hs Hnow Hin Hdue) as ([Hi Hq] & Hin0 & Hd0).
  destruct Hp as [Hwf Hp]. split; [by apply wf_expire|]. intros tj.
  destruct (decide (ti = tj)) as [<-|Hne]; [right; split_and!; [done..|by apply outcome_expire]|].
  destruct (expire_ne ti tj now t Hne (wf_nodup t Hwf)) as [Ei Eq].
  destruct (Hp tj) as [[Hi' Hq']|(? & ? & Ho)].
  - left. split; [congruence | by rewrite Eq].
  - right. split_and!; [done..|]. unfold outcome_of in *. rewrite Ei.
    destruct (interval_ns (info tj t0) =? 0); split; try apply Ho; rewrite Eq; apply Ho.
Qed.

Lemma filter_remove_lt (f g : Z -> bool) ti l : NoDup l -> ti ∈ l -> g ti = true ->
  (forall x, x <> ti -> f x = g x) ->
  (length (List.filter f (remove_first ti l)) < length (List.filter g l))%nat.
Proof.
  intros Hl Hin Hg Hfg. induction Hl as [|y l Hy Hl IH]; [set_solver|].
  cbn [remove_first List.filter]. destruct (Z.eqb_spec y ti) as [->|Hne].
  - rewrite Hg. cbn [length]. rewrite (filter_ext_in f g); [lia|].
    intros a Ha%list_elem_of_In. apply Hfg. intros ->. done.
  - cbn [List.filter]. rewrite (Hfg y Hne). specialize (IH ltac:(set_solver)).
    destruct (g y); cbn [length]; lia.
Qed.

Lemma due_expire now t ti : timers_wf t -> 0 <= now -> ti ∈ timer_queue t ->
  0 <= timeout_ns (info ti t) /\ 0 <= interval_ns (info ti t) /\
    now + interval_ns (info ti t) < 2 ^ 64 ->
  is_due now t ti = true -> (due_count now (expire ti now t) < due_count now t)%nat.
Proof.
  intros [Hn Ha] Hnow Hin (Ht & Hiv & Ho3) Hd. unfold due_count.
  assert (forall x, x <> ti -> is_due now (expire ti now t) x = is_due now t x) as Hne.
  { intros x Hx. unfold is_due. by rewrite (proj1 (expire_ne ti x now t (not_eq_sym Hx) Hn)). }
  pose proof (filter_remove_lt _ _ ti _ Hn Hin Hd Hne) as Hlt.
  pose proof (outcome_expire now t t ti (Build_timers_wf _ Hn Ha) Hin eq_refl) as Ho.
  unfold outcome_of in Ho.
  assert (timer_queue (expire ti now t) = (if interval_ns (info ti t) =? 0 then [] else [ti]) ++
    remove_first ti (timer_queue t)) as ->.
  { unfold expire. by destruct (interval_ns (info ti t) =? 0). }
  destruct (Z.eqb_spec (interval_ns (info ti t)) 0); [exact Hlt|].
  cbn [app List.filter]. replace (is_due now (expire ti now t) ti) with false; [exact Hlt|].
  symmetry. unfold is_due in *. rewrite (proj2 Ho). cbn [timeout_ns]. bool_to_prop. apply Z.leb_gt.
  destruct (rearm_spec (timeout_ns (info ti t)) (interval_ns (info ti t)) now) as [? _]; lia.
Qed.

(** What the pass is to do: the due timers one after the other, each dequeued or
    re-armed and then its callback run, with the time of the pass and the deadline
    it was queued with. *)
Fixpoint run_timers (now : Z) (order : list Z) : M S unit :=
  match order with
  | [] => ret tt
  | ti :: order =>
      i <- gets (fun s => info ti (get_tm s)) ;;
      upd (expire ti now) ;;;
      upd (set_cb_active true) ;;;
      invoke (cb i) now (timeout_ns i) ;;;
      upd (set_cb_active false) ;;;
      run_timers now order
  end.

(** One of them, in the loop and in [run_timers]. *)
Lemma run_one (Hq : quiet) now ti s : exists s', get_tm s' = set_cb_active false (expire ti now (get_tm s)) /\
  (forall fuel, is_due now (get_tm s) ti = true -> process_loop (Datatypes.S fuel) now ti s =
    match queue_top (get_tm s') with
    | None => (Ret (Some 0), s')
    | Some cur => process_loop fuel now cur s'
    end) /\
  forall order, run_timers now (ti :: order) s = run_timers now order s'.
Proof.
  set (s1 := set_tm (expire ti now (get_tm s)) s).
  set (s2 := set_tm (set_cb_active true (get_tm s1)) s1).
  destruct (Hq (cb (info ti (get_tm s))) now (timeout_ns (info ti (get_tm s))) s2) as (s3 & E3 & T3).
  exists (set_tm (set_cb_active false (get_tm s3)) s3). split; [|split].
  - rewrite tm_get_set, T3. unfold s2. rewrite tm_get_set. unfold s1. by rewrite tm_get_set.
  - intros fuel Hd. unfold is_due in Hd. cbn [process_loop]. unfold bind, gets. rewrite Hd. unfold upd, modify. fold s1 s2. rewrite E3.
    by destruct (queue_top _).
  - intros order. cbn [run_timers]. unfold bind, gets, upd, modify. fold s1 s2. by rewrite E3.
Qed.

(** [order] lists the due timers of [t], the earliest deadline first and of equal
    deadlines the smallest address. *)
Definition due_order (now : Z) t (order : list Z) : Prop :=
  Permutation order (List.filter (is_due now t) (timer_queue t)) /\ StronglySorted (before t) order.

Lemma filter_remove (f g : Z -> bool) ti l : NoDup l -> ti ∈ l -> g ti = true -> (forall x, x <> ti -> f x = g x) ->
  Permutation (List.filter g l) (ti :: List.filter f (remove_first ti l)).
Proof.
  intros Hl Hin Hg Hfg. induction Hl as [|y l Hy Hl IH]; [set_solver|].
  cbn [remove_first List.filter]. destruct (Z.eqb_spec y ti) as [->|Hne].
  - rewrite Hg. constructor. rewrite (filter_ext_in f g); [done|].
    intros a Ha%list_elem_of_In. apply Hfg. intros ->. done.
  - cbn [List.filter]. rewrite (Hfg y Hne). specialize (IH ltac:(set_solver)).
    destruct (g y); [|exact IH]. etransitivity; [apply perm_skip, IH | apply perm_swap].
Qed.

Lemma due_expire_perm now t ti : timers_wf t -> 0 <= now -> ti ∈ timer_queue t ->
  0 <= timeout_ns (info ti t) /\ 0 <= interval_ns (info ti t) /\
    now + interval_ns (info ti t) < 2 ^ 64 ->
  is_due now t ti = true ->
  Permutation (List.filter (is_due now t) (timer_queue t))
    (ti :: List.filter (is_due now (expire ti now t)) (timer_queue (expire ti now t))).
Proof.
  intros [Hn Ha] Hnow Hin (Ht & Hiv & Ho3) Hd.
  etransitivity; [apply (filter_remove (is_due now (expire ti now t)) (is_due now t) ti); try done|].
  { intros x Hx. unfold is_due. by rewrite (proj1 (expire_ne ti x now t (not_eq_sym Hx) Hn)). }
  constructor. pose proof (outcome_expire now t t ti (Build_timers_wf _ Hn Ha) Hin eq_refl) as Ho.
  unfold outcome_of in Ho.
  assert (timer_queue (expire ti now t) = (if interval_ns (info ti t) =? 0 then [] else [ti]) ++
    remove_first ti (timer_queue t)) as ->.
  { unfold expire. by destruct (interval_ns (info ti t) =? 0). }
  destruct (Z.eqb_spec (interval_ns (info ti t)) 0); [done|].
  cbn [app List.filter]. replace (is_due now (expire ti now t) ti) with false; [done|].
  symmetry. unfold is_due in *. rewrite (proj2 Ho). cbn [timeout_ns]. bool_to_prop. apply Z.leb_gt.
  destruct (rearm_spec (timeout_ns (info ti t)) (interval_ns (info ti t)) now) as [? _]; lia.
Qed.

(** The earliest one runs, and the others are still to do. *)
Lemma due_order_cons now t ti order : timers_wf t -> 0 <= now -> queue_top t = Some ti -> is_due now t ti = true ->
  0 <= timeout_ns (info ti t) /\ 0 <= interval_ns (info ti t) /\ now + interval_ns (info ti t) < 2 ^ 64 ->
  due_order now (expire ti now t) order -> due_order now t (ti :: order).
Proof.
  intros Hwf Hnow Htop Hd Hs [Hp Hsort]. destruct (queue_top_spec _ _ Htop) as [Hin Hmin].
  pose proof (due_expire_perm now t ti Hwf Hnow Hin Hs Hd) as Hperm. rewrite <- Hp in Hperm.
  assert (forall x, x ∈ order -> x ∈ timer_queue t /\ x <> ti) as Hel.
  { intros x Hx. assert (List.NoDup (ti :: order)) as Hnd.
    { eapply Permutation_NoDup; [exact Hperm|]. apply List.NoDup_filter, NoDup_ListNoDup, Hwf. }
    apply List.NoDup_cons_iff in Hnd as [Hni _]. rewrite list_elem_of_In in Hx. split; [|by intros ->].
    apply list_elem_of_In. apply (proj1 (filter_In (is_due now t) x _)). rewrite Hperm. by right. }
  split; [by symmetry|]. constructor.
  - assert (forall x, x ∈ order -> info x (expire ti now t) = info x t) as Hinfo.
    { intros x Hx. destruct (Hel x Hx) as [_ Hne]. exact (proj1 (expire_ne ti x now t (not_eq_sym Hne) (wf_nodup t Hwf))). }
    clear - Hsort Hinfo. induction Hsort as [|x l Hs IH Hall]; constructor.
    + apply IH. intros y Hy. apply Hinfo. by right.
    + rewrite List.Forall_forall in *. intros y Hy. specialize (Hall y Hy). apply before_spec in Hall. apply before_spec.
      rewrite !Hinfo in Hall; [done | right; by apply list_elem_of_In | by left].
  - apply List.Forall_forall. intros x Hx%list_elem_of_In. by apply Hmin, Hel.
Qed.

Lemma due_order_nil now t : (forall ti, queue_top t = Some ti -> is_due now t ti = false) -> due_order now t [].
Proof.
  intros Hd. split; [|constructor].
  assert (List.filter (is_due now t) (timer_queue t) = []) as ->; [|done].
  assert (forall x, In x (timer_queue t) -> is_due now t x = false) as Hall.
  { intros x Hx%list_elem_of_In. destruct (queue_top t) as [ti|] eqn:Htop.
    - destruct (queue_top_spec _ _ Htop) as [_ Hmin]. specialize (Hmin x Hx). specialize (Hd ti eq_refl).
      apply before_spec in Hmin. unfold is_due in *. apply Z.leb_gt. apply Z.leb_gt in Hd. lia.
    - unfold queue_top in Htop. destruct (timer_queue t); [by apply elem_of_nil in Hx | done]. }
  revert Hall. generalize (timer_queue t) as l. induction l as [|y l IH]; intros Hall; [done|].
  cbn [List.filter]. rewrite Hall by (by left). apply IH. intros x Hx. apply Hall. by right.
Qed.

Lemma process_loop_terminates (Hq : quiet) n now t0 ti s :
  progress now t0 (get_tm s) -> sane now t0 -> 0 <= now ->
  queue_top (get_tm s) = Some ti -> (due_count now (get_tm s) < n)%nat ->
  exists r s', process_loop n now ti s = (Ret (Some r), s') /\
    (exists order, due_order now (get_tm s) order /\ run_timers now order s = (Ret tt, s')) /\
    progress now t0 (get_tm s') /\
    match queue_top (get_tm s') with
    | None => r = 0
    | Some tj => r = timeout_ns (info tj (get_tm s')) /\ now < r
    end.
Proof.
  intros Hp Hs Hnow. revert ti s Hp. induction n as [|n IH]; intros ti s Hp Htop Hn; [lia|].
  destruct (queue_top_spec _ _ Htop) as [Hin _].
  destruct (is_due now (get_tm s) ti) eqn:Hd.
  - destruct (run_one Hq now ti s) as (s' & Es' & Hloop & Hrun). rewrite (Hloop n Hd).
    pose proof (progress_expire now t0 _ ti Hp Hs Hnow Hin Hd) as Hp'.
    apply (progress_cb _ _ _ false) in Hp'. rewrite <- Es' in Hp'.
    destruct (due_of_progress now t0 _ ti Hp Hs Hnow Hin Hd) as ([Hi _] & Hin0 & _).
    pose proof (Hs ti Hin0) as Hsti. rewrite <- Hi in Hsti.
    assert (due_count now (get_tm s') < due_count now (get_tm s))%nat.
    { rewrite Es'. apply (due_expire now (get_tm s) ti); [apply Hp | done..]. }
    assert (forall order, due_order now (get_tm s') order -> due_order now (get_tm s) (ti :: order)) as Hord.
    { intros order Ho. apply due_order_cons; [apply Hp | done..|]. rewrite Es' in Ho. exact Ho. }
    destruct (queue_top (get_tm s')) as [tj|] eqn:Etop.
    + destruct (IH tj s' Hp' Etop ltac:(lia)) as (r & s'' & E & (order & Ho & Er) & Hrest).
      exists r, s''. split; [exact E|]. split; [|exact Hrest]. exists (ti :: order). split; [by apply Hord|]. by rewrite Hrun.
    + exists 0, s'. split; [done|]. split; [|split; [done | by rewrite Etop]]. exists [ti]. rewrite Hrun. split; [|done].
      apply Hord, due_order_nil. intros tj Htj. by rewrite Etop in Htj.
  - exists (timeout_ns (info ti (get_tm s))), s. cbn [process_loop]. unfold bind, gets.
    split; [unfold is_due in Hd; by rewrite Hd|].
    split; [exists []; split; [|done]; apply due_order_nil; intros tj Htj; by assert (tj = ti) as -> by congruence|].
    split; [done|]. rewrite Htop. split; [done|]. unfold is_due in Hd. by apply Z.leb_gt.
Qed.

End Process.

(** ** Adding and cancelling *)

Section Operations.
Context {S CB : Type} `{TimerHostLaws S CB}.
Implicit Types (t : TimerManager CB).

Lemma notify_step (s : S) :
  exists s', (active <- gets (fun s => cb_active (get_tm s)) ;;
    when (negb active) (modify notify_timer_changes)) s = (Ret tt, s') /\
  get_tm s' = get_tm s /\ s' = if cb_active (get_tm s) then s else notify_timer_changes s.
Proof.
  unfold bind, gets. destruct (cb_active (get_tm s)); simpl; eexists; split_and!; try done.
  apply notify_tm.
Qed.

Lemma add_absolute_timer_step ti timeout interval c (s : S) :
  exists s', add_absolute_timer ti timeout interval c s = (Ret tt, s') /\
  get_tm s' = queue_push ti (set_info ti (mkTimerInfo timeout interval true c) (get_tm s)).
Proof.
  unfold add_absolute_timer, upd, modify.
  destruct (notify_step (set_tm (queue_push ti (set_info ti (mkTimerInfo timeout interval true c)
    (get_tm s))) (set_tm (set_info ti (mkTimerInfo timeout interval true c) (get_tm s)) s)))
    as (s' & E & Et & _).
  exists s'. unfold bind at 1 2. rewrite tm_get_set. split; [exact E|]. by rewrite Et, tm_get_set.
Qed.

Lemma cancel_timer_step ti (s : S) :
  exists s', cancel_timer ti s = (Ret tt, s') /\
  get_tm s' = set_active ti false (remove_by_id ti (get_tm s)).
Proof.
  unfold cancel_timer, upd, modify.
  destruct (notify_step (set_tm (set_active ti false (remove_by_id ti (get_tm s)))
    (set_tm (remove_by_id ti (get_tm s)) s))) as (s' & E & Et & _).
  exists s'. unfold bind at 1 2. rewrite tm_get_set. split; [exact E|]. by rewrite Et, tm_get_set.
Qed.

(** Adding an inactive timer, cancelling any timer and cancelling all of them
    keep the queue a duplicate-free set of exactly the active timers; adding
    queues the timer with its deadline ([add_oneshot_timer] relative to now),
    cancelling removes it, and neither touches another timer. *)
Theorem timer_operations_correct ti timeout interval c (s : S) :
  let t := get_tm s in
  timers_wf t ->
  (active (info ti t) = false ->
   exists s', add_oneshot_timer ti timeout c s = (Ret tt, s') /\ timers_wf (get_tm s') /\
     info ti (get_tm s') = mkTimerInfo (u64 (get_time_now s + timeout)) 0 true c /\
     timer_queue (get_tm s') = ti :: timer_queue t /\
     forall tj, tj <> ti -> info tj (get_tm s') = info tj t) /\
  (active (info ti t) = false ->
   exists s', add_cyclic_timer ti interval c s = (Ret tt, s') /\ timers_wf (get_tm s') /\
     info ti (get_tm s') = mkTimerInfo (u64 (get_time_now s + interval)) interval true c /\
     timer_queue (get_tm s') = ti :: timer_queue t /\
     forall tj, tj <> ti -> info tj (get_tm s') = info tj t) /\
  (exists s', cancel_timer ti s = (Ret tt, s') /\ timers_wf (get_tm s') /\
     active (info ti (get_tm s')) = false /\
     (forall tj, tj ∈ timer_queue (get_tm s') <-> tj ∈ timer_queue t /\ tj <> ti) /\
     forall tj, tj <> ti -> info tj (get_tm s') = info tj t) /\
  (exists s', cancel_all_timers s = (Ret tt, s') /\ timers_wf (get_tm s') /\
     timer_queue (get_tm s') = []).
Proof.
  intros t Hwf. split_and!.
  - intros Hi. destruct (add_absolute_timer_step ti (u64 (get_time_now s + timeout)) 0 c s)
      as (s' & E & Et).
    exists s'. split; [exact E|]. rewrite Et. split; [by apply wf_enqueue|].
    split; [apply info_set_info|]. split; [done|]. intros. by apply info_set_info_ne.
  - intros Hi. destruct (add_absolute_timer_step ti (u64 (get_time_now s + interval)) interval c s)
      as (s' & E & Et).
    exists s'. split; [exact E|]. rewrite Et. split; [by apply wf_enqueue|].
    split; [apply info_set_info|]. split; [done|]. intros. by apply info_set_info_ne.
  - destruct (cancel_timer_step ti s) as (s' & E & Et). exists s'. split; [done|]. rewrite Et.
    split; [by apply wf_cancel|]. split; [unfold set_active; by rewrite info_set_info|].
    split; [intros tj; apply elem_of_remove_first, Hwf|].
    intros tj Hj. by rewrite info_set_active_ne by (intros ->; done).
  - unfold cancel_all_timers, upd, modify. eexists. split; [done|]. rewrite tm_get_set.
    split; [by apply wf_cancel_all | done].
Qed.

Context `{TimerInvoke S CB}.

(** A callback that leaves through [longjmp] takes the loop with it: the flag
    that suppresses notifications stays set. *)
Lemma process_loop_longjmp fuel now ti (s : S) s3 :
  is_due now (get_tm s) ti = true ->
  (let t1 := expire ti now (get_tm s) in
   let s2 := set_tm (set_cb_active true t1) (set_tm t1 s) in
   invoke (cb (info ti (get_tm s))) now (timeout_ns (info ti (get_tm s))) s2 = (Longjmp, s3)) ->
  process_loop (Datatypes.S fuel) now ti s = (Longjmp, s3).
Proof.
  intros Hd E. unfold is_due in Hd. cbn [process_loop]. unfold bind, gets. rewrite Hd.
  unfold upd, modify. rewrite tm_get_set. cbv zeta in E. by rewrite E.
Qed.
End Operations.

(** ** A small host for examples: a clock and a log of the callbacks. *)

Record demo_host := { dh_tm : TimerManager Z; dh_now : Z; dh_log : list (Z * Z); dh_notified : nat }.

#[export] Instance demo_timer_host : TimerHost demo_host Z := {
  get_tm := dh_tm;
  set_tm t s := {| dh_tm := t; dh_now := dh_now s; dh_log := dh_log s; dh_notified := dh_notified s |};
  get_time_now := dh_now;
  notify_timer_changes s :=
    {| dh_tm := dh_tm s; dh_now := dh_now s; dh_log := dh_log s; dh_notified := 1 + dh_notified s |};
  default_cb := 0
}.

#[export] Instance demo_timer_invoke : TimerInvoke demo_host Z := fun c now timeout =>
  modify (fun s =>
    {| dh_tm := dh_tm s; dh_now := dh_now s; dh_log := dh_log s ++ [(c, timeout)];
       dh_notified := dh_notified s |}).

#[export] Instance demo_timer_laws : TimerHostLaws demo_host Z.
Proof. by split; intros; try destruct s. Qed.

Lemma demo_quiet : @quiet demo_host Z _ _.
Proof. intros c a b s. by eexists. Qed.

(** Two one-shot timers and a cyclic one, at time 12. *)
Definition demo_timers : demo_host :=
  {| dh_tm := mkTimerManager [3; 1; 2]
       (list_to_map [(1, mkTimerInfo 5 0 true 101); (2, mkTimerInfo 3 4 true 102);
                     (3, mkTimerInfo 50 0 true 103)]) false;
     dh_now := 12; dh_log := []; dh_notified := 0 |}.

Example demo_pass : let '(r, s) := process_timers 4 demo_timers in
  (r, dh_log s, timer_queue (dh_tm s), timeout_ns (info 2 (dh_tm s))) =
  (Ret (Some 15), [(102, 3); (101, 5)], [2; 3], 15).
Proof. vm_compute. reflexivity. Qed.

Lemma demo_timers_info ti : info ti (dh_tm demo_timers) =
  if ti =? 1 then mkTimerInfo 5 0 true 101 else if ti =? 2 then mkTimerInfo 3 4 true 102
  else if ti =? 3 then mkTimerInfo 50 0 true 103 else mkTimerInfo 0 0 false 0.
Proof.
  unfold info, demo_timers. cbn [infos dh_tm list_to_map foldr uncurry fst snd].
  destruct (Z.eqb_spec ti 1) as [->|]; [by rewrite lookup_insert_eq|].
  rewrite lookup_insert_ne by done.
  destruct (Z.eqb_spec ti 2) as [->|]; [by rewrite lookup_insert_eq|].
  rewrite lookup_insert_ne by done.
  destruct (Z.eqb_spec ti 3) as [->|]; [by rewrite lookup_insert_eq|].
  by rewrite lookup_insert_ne, lookup_empty by done.
Qed.

Lemma demo_timers_wf : timers_wf (dh_tm demo_timers).
Proof.
  split.
  - unfold demo_timers. cbn. repeat constructor; set_solver by lia.
  - intros ti. rewrite demo_timers_info. cbn [timer_queue dh_tm demo_timers].
    rewrite !elem_of_cons, elem_of_nil.
    destruct (Z.eqb_spec ti 1), (Z.eqb_spec ti 2), (Z.eqb_spec ti 3); cbn [active]; naive_solver.
Qed.

Lemma demo_timers_sane : sane 12 (dh_tm demo_timers).
Proof.
  intros ti _. rewrite demo_timers_info. repeat case_if; cbn [timeout_ns interval_ns]; lia.
Qed.


Lemma timer_operations_correct_witness :
  timers_wf (dh_tm demo_timers) /\
  exists s', add_oneshot_timer 7 100 9 demo_timers = (Ret tt, s') /\
    timer_queue (dh_tm s') = [7; 3; 1; 2] /\ timers_wf (dh_tm s').
Proof.
  split; [exact demo_timers_wf|].
  destruct (proj1 (timer_operations_correct 7 100 0 9 demo_timers demo_timers_wf) eq_refl)
    as (s' & E & Hwf & _ & Hq & _).
  exists s'. exact (conj E (conj Hq Hwf)).
Defined.
