(* ===== verification/MemCtrl.v ===== *)
(** * Memory controllers (devices/memctrl/memctrlbase.{h,cpp})

    The physical address map of a machine: an ordered list of ranges, each
    backed by host memory or by a device.  Host memory is a map from host
    addresses to bytes; [new uint8_t[size]()] hands out fresh zeroed addresses
    in increasing order.  Entries carry the address of their heap object ([uid])
    because [remove_region] compares pointers.  Logging is not modelled. *)
From S2P Require Import Prelude Word.

Module RT.
(* [devices/memctrl/memctrlbase.h:46-46 RT_NONE] *)
Definition RT_NONE := 0.
(* [devices/memctrl/memctrlbase.h:47-47 RT_ROM] *)
Definition RT_ROM := 1.
(* [devices/memctrl/memctrlbase.h:48-48 RT_RAM] *)
Definition RT_RAM := 2.
(* [devices/memctrl/memctrlbase.h:49-49 RT_MMIO] *)
Definition RT_MMIO := 4.
(* [devices/memctrl/memctrlbase.h:50-51 RT_MIRROR] *)
Definition RT_MIRROR := 8.
End RT.

(* [devices/memctrl/memctrlbase.h:55-62] *)
Record AddressMapEntry := mkEntry {
  uid : Z;
  e_start : Z;
  e_end : Z;
  e_mirror : Z;
  e_type : Z;
  devobj : Z;  (* 0 is the null pointer *)
  mem_ptr : Z
}.

#[export] Instance AddressMapEntry_eq_dec : EqDecision AddressMapEntry.
Proof. solve_decision. Defined.

(* [devices/memctrl/memctrlbase.h:115-118 address_map] *)
Record MemCtrlBase := mkMemCtrl {
  mem_regions : list Z;
  address_map : list AddressMapEntry;
  host_mem : gmap Z Z;
  next_host : Z;
  next_uid : Z
}.

Definition with_map (l : list AddressMapEntry) (m : MemCtrlBase) : MemCtrlBase :=
  mkMemCtrl (mem_regions m) l (host_mem m) (next_host m) (next_uid m).
Definition with_host (h : gmap Z Z) (m : MemCtrlBase) : MemCtrlBase :=
  mkMemCtrl (mem_regions m) (address_map m) h (next_host m) (next_uid m).

(** ** Look-ups *)

(* [devices/memctrl/memctrlbase.cpp:91-97] *)
Definition match_mem_entry (entry : AddressMapEntry) (start end_ dev_instance : Z) : bool :=
  (start =? e_start entry) && (end_ =? e_end entry) &&
  ((dev_instance =? 0) || (dev_instance =? devobj entry)).

(* [devices/memctrl/memctrlbase.cpp:100-107] *)
Definition find_range (addr : Z) (m : MemCtrlBase) : option AddressMapEntry :=
  List.find (fun e => (e_start e <=? addr) && (addr <=? e_end e)) (address_map m).

(* [devices/memctrl/memctrlbase.cpp:110-122] *)
Definition find_range_exact (addr size dev_instance : Z) (m : MemCtrlBase) : option AddressMapEntry :=
  if negb (size =? 0) then
    let end_ := u32 (addr + size - 1) in
    List.find (fun e => match_mem_entry e addr end_ dev_instance) (address_map m)
  else None.

(* [devices/memctrl/memctrlbase.cpp:125-135] *)
Definition find_range_contains (addr size : Z) (m : MemCtrlBase) : option AddressMapEntry :=
  if negb (size =? 0) then
    let end_ := u32 (addr + size - 1) in
    List.find (fun e => (e_start e <=? addr) && (end_ <=? e_end e)) (address_map m)
  else None.

(* [devices/memctrl/memctrlbase.cpp:138-148] *)
Definition find_range_overlaps (addr size : Z) (m : MemCtrlBase) : option AddressMapEntry :=
  if negb (size =? 0) then
    let end_ := u32 (addr + size - 1) in
    List.find (fun e => (e_start e <=? end_) && (addr <=? e_end e)) (address_map m)
  else None.

(* [devices/memctrl/memctrlbase.cpp:151-189] *)
Definition is_range_free (addr size : Z) (m : MemCtrlBase) : bool :=
  if negb (size =? 0) then
    let end_ := u32 (addr + size - 1) in
    fold_left (fun result e =>
      if (addr =? e_start e) && (end_ =? e_end e) then false
      else if (e_start e <=? addr) && (end_ <=? e_end e) then false
      else if (e_start e <=? end_) && (addr <=? e_end e) then false
      else result) (address_map m) true
  else true.

(* [devices/memctrl/memctrlbase.cpp:442-451] *)
Definition find_rom_region (m : MemCtrlBase) : option AddressMapEntry :=
  List.find (fun e => e_type e =? RT.RT_ROM) (address_map m).

(** The difference of the two addresses is a 32-bit one. *)
(* [devices/memctrl/memctrlbase.cpp:453-462] *)
Definition get_region_hostmem_ptr (addr : Z) (m : MemCtrlBase) : option Z :=
  match find_range addr m with
  | None => None
  | Some reg_desc =>
      if e_type reg_desc =? RT.RT_MMIO then None
      else if e_type reg_desc =? RT.RT_MIRROR
      then Some (u32 (addr - e_mirror reg_desc) + mem_ptr reg_desc)
      else Some (u32 (addr - e_start reg_desc) + mem_ptr reg_desc)
  end.

(** ** Adding and removing ranges *)

(** [std::upper_bound] on a vector sorted by [start], then [insert]. *)
Fixpoint insert_upper_bound (entry : AddressMapEntry) (l : list AddressMapEntry)
    : list AddressMapEntry :=
  match l with
  | [] => [entry]
  | e :: l => if e_start entry <? e_start e then entry :: e :: l else e :: insert_upper_bound entry l
  end.

(** [new uint8_t[size]()] *)
Definition alloc_host (size : Z) (m : MemCtrlBase) : Z * MemCtrlBase :=
  (next_host m,
   mkMemCtrl (next_host m :: mem_regions m) (address_map m) (host_mem m)
     (next_host m + size) (next_uid m)).

(** [new AddressMapEntry] *)
Definition fresh_uid (m : MemCtrlBase) : Z * MemCtrlBase :=
  (next_uid m,
   mkMemCtrl (mem_regions m) (address_map m) (host_mem m) (next_host m) (next_uid m + 1)).

(* [devices/memctrl/memctrlbase.cpp:192-239] *)
Definition add_mem_region (start_addr size dest_addr type mem_ptr : Z) (m : MemCtrlBase)
    : option AddressMapEntry * MemCtrlBase :=
  if negb (is_range_free start_addr size m) then (None, m)
  else
    let '(mem_ptr, m) := if mem_ptr =? 0 then alloc_host size m else (mem_ptr, m) in
    let '(u, m) := fresh_uid m in
    let end_ := u32 (start_addr + size - 1) in
    let entry := mkEntry u start_addr end_ dest_addr type 0 mem_ptr in
    (Some entry, with_map (insert_upper_bound entry (address_map m)) m).

(* [devices/memctrl/memctrlbase.cpp:242-244] *)
Definition add_rom_region (start_addr size : Z) := add_mem_region start_addr size 0 RT.RT_ROM 0.

(* [devices/memctrl/memctrlbase.cpp:247-254] *)
Definition add_ram_region (start_addr size mem_ptr : Z) :=
  add_mem_region start_addr size 0 RT.RT_RAM mem_ptr.

(* [devices/memctrl/memctrlbase.cpp:257-302] *)
Definition add_mem_mirror_common (start_addr dest_addr offset size : Z) (m : MemCtrlBase)
    : option AddressMapEntry * MemCtrlBase :=
  match find_range dest_addr m with
  | None => (None, m)
  | Some ref_entry =>
      let size := if size =? 0 then u32 (e_end ref_entry - e_start ref_entry + 1) else size in
      if e_end ref_entry <? u32 (e_start ref_entry + offset + size - 1) then (None, m)
      else
        let '(u, m) := fresh_uid m in
        let end_ := u32 (start_addr + size - 1) in
        let entry := mkEntry u start_addr end_ dest_addr (Z.lor (e_type ref_entry) RT.RT_MIRROR) 0
                       (mem_ptr ref_entry + offset) in
        (Some entry, with_map (address_map m ++ [entry]) m)
  end.

(* [devices/memctrl/memctrlbase.cpp:305-307] *)
Definition add_mem_mirror (start_addr dest_addr : Z) := add_mem_mirror_common start_addr dest_addr 0 0.

(* [devices/memctrl/memctrlbase.cpp:310-313] *)
Definition add_mem_mirror_partial (start_addr dest_addr offset size : Z) :=
  add_mem_mirror_common start_addr dest_addr offset size.

(** [memcpy] into host memory. *)
Fixpoint memcpy (dst : Z) (data : list Z) (h : gmap Z Z) : gmap Z Z :=
  match data with
  | [] => h
  | b :: data => memcpy (dst + 1) data (h.[dst := b])
  end.

(** [data] holds the [size] bytes at the source pointer. *)
(* [devices/memctrl/memctrlbase.cpp:316-330] *)
Definition set_data (load_addr : Z) (data : list Z) (m : MemCtrlBase)
    : option AddressMapEntry * MemCtrlBase :=
  match find_range load_addr m with
  | None => (None, m)
  | Some ref_entry =>
      let load_offset := u32 (load_addr - e_start ref_entry) in
      let cpy_size := Z.min (u32 (e_end ref_entry - e_start ref_entry + 1)) (Z.of_nat (length data)) in
      (Some ref_entry,
       with_host (memcpy (mem_ptr ref_entry + load_offset) (take (Z.to_nat cpy_size) data) (host_mem m)) m)
  end.

(* [devices/memctrl/memctrlbase.cpp:333-362] *)
Definition add_mmio_region (start_addr size dev_instance : Z) (m : MemCtrlBase)
    : option AddressMapEntry * MemCtrlBase :=
  if negb (is_range_free start_addr size m) then (None, m)
  else
    let '(u, m) := fresh_uid m in
    let end_ := u32 (start_addr + size - 1) in
    let entry := mkEntry u start_addr end_ 0 RT.RT_MMIO dev_instance 0 in
    (Some entry, with_map (address_map m ++ [entry]) m).

(* [devices/memctrl/memctrlbase.cpp:365-404] *)
Definition remove_mmio_region (start_addr size dev_instance : Z) (m : MemCtrlBase) : bool * MemCtrlBase :=
  let end_ := u32 (start_addr + size - 1) in
  let hit e := match_mem_entry e start_addr end_ dev_instance in
  (existsb hit (address_map m), with_map (List.filter (fun e => negb (hit e)) (address_map m)) m).

(* [devices/memctrl/memctrlbase.cpp:407-433] *)
Definition remove_region (entry : AddressMapEntry) (m : MemCtrlBase) : option AddressMapEntry * MemCtrlBase :=
  let hit e := uid entry =? uid e in
  let m' := with_map (List.filter (fun e => negb (hit e)) (address_map m)) m in
  (if existsb hit (address_map m) then Some entry else None, m').

(** ** The invariant of an address map without mirrors *)

Definition covers (e : AddressMapEntry) (addr : Z) : Prop := e_start e <= addr <= e_end e.

Record map_wf (m : MemCtrlBase) : Prop := {
  mw_bounds : forall e, e ∈ address_map m -> 0 <= e_start e <= e_end e /\ e_end e < 2 ^ 32;
  mw_disjoint : forall e1 e2 addr, e1 ∈ address_map m -> e2 ∈ address_map m ->
    covers e1 addr -> covers e2 addr -> e1 = e2;
  mw_uid : forall e, e ∈ address_map m -> uid e < next_uid m
}.

Lemma find_range_spec addr m e : find_range addr m = Some e -> e ∈ address_map m /\ covers e addr.
Proof.
  unfold find_range. intros [Hin H]%find_some. apply list_elem_of_In in Hin.
  rewrite andb_true_iff, !Z.leb_le in H. done.
Qed.

Lemma find_range_none addr m : find_range addr m = None -> forall e, e ∈ address_map m -> ~ covers e addr.
Proof.
  unfold find_range. intros H e Hin%list_elem_of_In Hc.
  pose proof (find_none _ _ H e Hin) as Hn. unfold covers in Hc.
  rewrite andb_false_iff, !Z.leb_gt in Hn. lia.
Qed.

Lemma find_range_wf addr m e : map_wf m -> e ∈ address_map m -> covers e addr ->
  find_range addr m = Some e.
Proof.
  intros Hw Hin Hc. destruct (find_range addr m) as [e'|] eqn:E.
  - destruct (find_range_spec _ _ _ E) as [Hin' Hc']. f_equal.
    by apply (mw_disjoint m Hw e' e addr).
  - by destruct (find_range_none _ _ E e Hin).
Qed.

Lemma fold_left_false {A} (f : A -> bool) l :
  fold_left (fun r e => if f e then false else r) l false = false.
Proof. induction l as [|a l IH]; simpl; [done|]. by destruct (f a). Qed.

Lemma fold_left_forall {A} (f : A -> bool) l :
  fold_left (fun r e => if f e then false else r) l true = true <-> forall e, e ∈ l -> f e = false.
Proof.
  induction l as [|a l IH]; simpl; [set_solver|].
  destruct (f a) eqn:E.
  - rewrite fold_left_false. split; [done|]. intros H. specialize (H a ltac:(set_solver)). congruence.
  - rewrite IH. set_solver.
Qed.

(** The three tests of [is_range_free] amount to one: no byte is shared. *)
Lemma is_range_free_spec addr size m : map_wf m -> 0 <= addr -> 0 < size -> addr + size <= 2 ^ 32 ->
  is_range_free addr size m = true <->
  forall e a, e ∈ address_map m -> covers e a -> ~ (addr <= a < addr + size).
Proof.
  intros Hw Ha Hs Hb. unfold is_range_free. rewrite (proj2 (Z.eqb_neq size 0)) by lia. cbn [negb].
  rewrite (uwrap_small 32) by lia.
  set (f := fun e => (addr =? e_start e) && (addr + size - 1 =? e_end e)
    || (e_start e <=? addr) && (addr + size - 1 <=? e_end e)
    || (e_start e <=? addr + size - 1) && (addr <=? e_end e)).
  assert (forall l r, fold_left (fun r e =>
      if (addr =? e_start e) && (addr + size - 1 =? e_end e) then false
      else if (e_start e <=? addr) && (addr + size - 1 <=? e_end e) then false
      else if (e_start e <=? addr + size - 1) && (addr <=? e_end e) then false else r) l r =
    fold_left (fun r e => if f e then false else r) l r) as ->.
  { induction l as [|e l IH]; intros r; simpl; [done|]. rewrite <- IH. f_equal. unfold f.
    by destruct (_ && _), (_ && _), (_ && _). }
  rewrite fold_left_forall. split.
  - intros H e a Hin Hc Hr. specialize (H e Hin). unfold f, covers in *.
    rewrite !orb_false_iff, !andb_false_iff, !Z.leb_gt in H. lia.
  - intros H e Hin. destruct (mw_bounds m Hw e Hin). unfold f.
    rewrite !orb_false_iff, !andb_false_iff, !Z.leb_gt, !Z.eqb_neq.
    pose proof (H e (Z.max addr (e_start e)) Hin) as Hc. unfold covers in Hc. lia.
Qed.

Lemma elem_of_insert_upper_bound x entry l : x ∈ insert_upper_bound entry l <-> x = entry \/ x ∈ l.
Proof.
  induction l as [|e l IH]; simpl; [set_solver|]. destruct (_ <? _); [set_solver|].
  rewrite !elem_of_cons, IH. tauto.
Qed.

(** Extending a map with a range no byte of which is mapped. *)
Lemma map_wf_extend m l entry : map_wf m ->
  (forall x, x ∈ l <-> x = entry \/ x ∈ address_map m) ->
  0 <= e_start entry <= e_end entry -> e_end entry < 2 ^ 32 -> uid entry = next_uid m ->
  (forall e a, e ∈ address_map m -> covers e a -> ~ covers entry a) ->
  forall mr h nh, map_wf (mkMemCtrl mr l h nh (next_uid m + 1)).
Proof.
  intros [Hb Hd Hu] Hl Hbe He Hue Hfree mr h nh. split; cbn [address_map next_uid].
  - intros e [->|Hin]%Hl; [lia|]. by apply Hb.
  - intros e1 e2 a [->|H1]%Hl [->|H2]%Hl C1 C2; [done| | |by apply (Hd e1 e2 a)].
    + by destruct (Hfree e2 a).
    + by destruct (Hfree e1 a).
  - intros e [->|Hin]%Hl; [lia|]. specialize (Hu e Hin). lia.
Qed.

(** ** Properties *)

(** C35: in a map of disjoint ranges, adding a RAM, ROM or MMIO range succeeds
    exactly when no byte of it is mapped yet; the map stays a map of disjoint
    ranges; afterwards every address of the new range is found in the new entry
    and every other address is found where it was. *)
Theorem add_region_correct m start_addr size dest type p dev : map_wf m ->
  0 <= start_addr -> 0 < size -> start_addr + size <= 2 ^ 32 ->
  forall r, r = add_mem_region start_addr size dest type p m \/
            r = add_mmio_region start_addr size dev m ->
  match r with
  | (None, m') => m' = m /\ exists e a, e ∈ address_map m /\ covers e a /\ start_addr <= a < start_addr + size
  | (Some entry, m') =>
      map_wf m' /\ e_start entry = start_addr /\ e_end entry = start_addr + size - 1 /\
      forall a, find_range a m' =
        if (start_addr <=? a) && (a <? start_addr + size) then Some entry else find_range a m
  end.
Proof.
  intros Hw Ha Hs Hb r Hr.
  pose proof (is_range_free_spec start_addr size m Hw Ha Hs Hb) as Hfree.
  destruct (is_range_free start_addr size m) eqn:Ef.
  2:{ assert (r = (None, m)) as -> by (destruct Hr as [-> | ->];
        unfold add_mem_region, add_mmio_region; by rewrite Ef).
      split; [done|]. unfold is_range_free in Ef. rewrite (proj2 (Z.eqb_neq size 0)) in Ef by lia.
      destruct (find_range_overlaps start_addr size m) as [e|] eqn:Eo.
      - unfold find_range_overlaps in Eo. rewrite (proj2 (Z.eqb_neq size 0)) in Eo by lia.
        apply find_some in Eo. destruct Eo as [Hin%list_elem_of_In Ho].
        rewrite (uwrap_small 32), andb_true_iff, !Z.leb_le in Ho by lia.
        exists e, (Z.max start_addr (e_start e)). destruct (mw_bounds m Hw e Hin). unfold covers.
        split; [done|]. lia.
      - exfalso. enough (false = true) by done. apply Hfree. intros e a Hin Hc Hr'.
        unfold find_range_overlaps in Eo. rewrite (proj2 (Z.eqb_neq size 0)) in Eo by lia.
        apply list_elem_of_In in Hin. pose proof (find_none _ _ Eo e Hin) as Hn. unfold covers in Hc.
        rewrite (uwrap_small 32), andb_false_iff, !Z.leb_gt in Hn by lia. lia. }
  pose proof (proj1 Hfree eq_refl) as Hno.
  assert (exists entry m', r = (Some entry, m') /\ uid entry = next_uid m /\
    e_start entry = start_addr /\ e_end entry = start_addr + size - 1 /\
    next_uid m' = next_uid m + 1 /\ (forall x, x ∈ address_map m' <-> x = entry \/ x ∈ address_map m))
    as (entry & m' & -> & Eu & Es & Ee & En & Hl).
  { destruct Hr as [-> | ->]; unfold add_mem_region, add_mmio_region; rewrite Ef; cbn [negb];
      try (destruct (p =? 0)); cbn; do 2 eexists; (split; [reflexivity|]);
      rewrite (uwrap_small 32) by lia; split_and!; try done;
      intros x; cbn [address_map with_map];
      rewrite ?elem_of_insert_upper_bound, ?elem_of_app, ?list_elem_of_singleton; tauto. }
  assert (map_wf m') as Hw'.
  { pose proof (map_wf_extend m (address_map m') entry Hw Hl ltac:(lia) ltac:(lia) Eu) as He.
    destruct m'. cbn in En, Hl |- *. rewrite En. apply He.
    intros e a Hin Hc Hc'. apply (Hno e a Hin Hc). unfold covers in Hc'. lia. }
  split_and!; [done..|]. intros a.
  destruct ((start_addr <=? a) && (a <? start_addr + size)) eqn:Hin.
  - bool_to_prop. apply find_range_wf; [done|by apply Hl; left|]. unfold covers. lia.
  - destruct (find_range a m) as [e|] eqn:E.
    + destruct (find_range_spec _ _ _ E). apply find_range_wf; [done|by apply Hl; right|done].
    + destruct (find_range a m') as [e|] eqn:E'; [|done].
      destruct (find_range_spec _ _ _ E') as [[->|H1]%Hl H2].
      * unfold covers in H2. bool_to_prop. lia.
      * by destruct (find_range_none _ _ E e H1).
Qed.

(** An empty controller. *)
Definition empty_ctrl : MemCtrlBase := mkMemCtrl [] [] ∅ 0x10000 1.

Lemma empty_ctrl_wf : map_wf empty_ctrl.
Proof. split; set_solver. Qed.

Lemma add_region_correct_witness :
  map_wf empty_ctrl /\
  find_range 0x1234 (add_ram_region 0 0x4000 0 empty_ctrl).2 = (add_ram_region 0 0x4000 0 empty_ctrl).1.
Proof.
  split; [exact empty_ctrl_wf|].
  pose proof (add_region_correct empty_ctrl 0 0x4000 0 RT.RT_RAM 0 0 empty_ctrl_wf ltac:(lia)
    ltac:(lia) ltac:(lia) _ (or_introl eq_refl)) as (_ & _ & _ & H).
  exact (H 0x1234).
Defined.
