(* ===== verification/HostMem.v ===== *)
(** * Host memory accesses (core/memaccess.h)

    Words of two, four and eight bytes in a byte-addressed memory, in both byte
    orders.  The host is little-endian: the "aligned" macros load a native word
    and swap its bytes, the "unaligned" ones assemble bytes.  Everything is proved
    equal to the value of a list of bytes. *)
From S2P Require Import Prelude Word MemCtrl.
Import Endian.

(** ** Reading *)

Section Read.
Context (h : gmap Z Z) (addr : Z).

(* [core/memaccess.h:43-43] *)
Definition READ_WORD_BE_U : Z := Z.lor (Z.shiftl h.[addr] 8) h.[addr + 1].
(* [core/memaccess.h:46-48] *)
Definition READ_DWORD_BE_U : Z :=
  Z.lor (Z.shiftl h.[addr] 24) (Z.lor (Z.shiftl h.[addr + 1] 16)
    (Z.lor (Z.shiftl h.[addr + 2] 8) h.[addr + 3])).
(* [core/memaccess.h:51-55] *)
Definition READ_QWORD_BE_U : Z :=
  Z.lor (Z.shiftl h.[addr] 56) (Z.lor (Z.shiftl h.[addr + 1] 48)
    (Z.lor (Z.shiftl h.[addr + 2] 40) (Z.lor (Z.shiftl h.[addr + 3] 32)
    (Z.lor (Z.shiftl h.[addr + 4] 24) (Z.lor (Z.shiftl h.[addr + 5] 16)
    (Z.lor (Z.shiftl h.[addr + 6] 8) h.[addr + 7])))))).
(* [core/memaccess.h:58-58] *)
Definition READ_WORD_LE_U : Z := Z.lor (Z.shiftl h.[addr + 1] 8) h.[addr].
(* [core/memaccess.h:61-63] *)
Definition READ_DWORD_LE_U : Z :=
  Z.lor (Z.shiftl h.[addr + 3] 24) (Z.lor (Z.shiftl h.[addr + 2] 16)
    (Z.lor (Z.shiftl h.[addr + 1] 8) h.[addr])).
(* [core/memaccess.h:66-70] *)
Definition READ_QWORD_LE_U : Z :=
  Z.lor (Z.shiftl h.[addr + 7] 56) (Z.lor (Z.shiftl h.[addr + 6] 48)
    (Z.lor (Z.shiftl h.[addr + 5] 40) (Z.lor (Z.shiftl h.[addr + 4] 32)
    (Z.lor (Z.shiftl h.[addr + 3] 24) (Z.lor (Z.shiftl h.[addr + 2] 16)
    (Z.lor (Z.shiftl h.[addr + 1] 8) h.[addr])))))).

(** A native load on the little-endian host is [READ_*_LE_U]. *)
(* [core/memaccess.h:135-135] *)
Definition READ_WORD_LE_A : Z := READ_WORD_LE_U.
(* [core/memaccess.h:136-136] *)
Definition READ_DWORD_LE_A : Z := READ_DWORD_LE_U.
(* [core/memaccess.h:137-137] *)
Definition READ_QWORD_LE_A : Z := READ_QWORD_LE_U.
(* [core/memaccess.h:132-132] *)
Definition READ_WORD_BE_A : Z := BYTESWAP_16 READ_WORD_LE_U.
(* [core/memaccess.h:133-133] *)
Definition READ_DWORD_BE_A : Z := BYTESWAP_32 READ_DWORD_LE_U.
(* [core/memaccess.h:134-134] *)
Definition READ_QWORD_BE_A : Z := BYTESWAP_64 READ_QWORD_LE_U.

(* [core/memaccess.h:171-186] *)
Definition read_mem (size : Z) : Z :=
  if size =? 4 then READ_DWORD_BE_A else if size =? 2 then READ_WORD_BE_A
  else if size =? 1 then h.[addr] else 0.
(* [core/memaccess.h:191-206] *)
Definition read_mem_rev (size : Z) : Z :=
  if size =? 4 then READ_DWORD_LE_A else if size =? 2 then READ_WORD_LE_A
  else if size =? 1 then h.[addr] else 0.
End Read.

(** ** Writing *)

Section Write.
Context (addr val : Z) (h : gmap Z Z).

(* [core/memaccess.h:73-77] *)
Definition WRITE_WORD_BE_U : gmap Z Z := h.[addr := u8 (Z.shiftr val 8)].[addr + 1 := u8 val].
(* [core/memaccess.h:80-86] *)
Definition WRITE_DWORD_BE_U : gmap Z Z :=
  h.[addr := u8 (Z.shiftr val 24)].[addr + 1 := u8 (Z.shiftr val 16)]
   .[addr + 2 := u8 (Z.shiftr val 8)].[addr + 3 := u8 val].
(* [core/memaccess.h:89-99] *)
Definition WRITE_QWORD_BE_U : gmap Z Z :=
  h.[addr := u8 (Z.shiftr val 56)].[addr + 1 := u8 (Z.shiftr val 48)]
   .[addr + 2 := u8 (Z.shiftr val 40)].[addr + 3 := u8 (Z.shiftr val 32)]
   .[addr + 4 := u8 (Z.shiftr val 24)].[addr + 5 := u8 (Z.shiftr val 16)]
   .[addr + 6 := u8 (Z.shiftr val 8)].[addr + 7 := u8 val].
(* [core/memaccess.h:102-106] *)
Definition WRITE_WORD_LE_U : gmap Z Z := h.[addr := u8 val].[addr + 1 := u8 (Z.shiftr val 8)].
(* [core/memaccess.h:109-115] *)
Definition WRITE_DWORD_LE_U : gmap Z Z :=
  h.[addr := u8 val].[addr + 1 := u8 (Z.shiftr val 8)]
   .[addr + 2 := u8 (Z.shiftr val 16)].[addr + 3 := u8 (Z.shiftr val 24)].
(* [core/memaccess.h:118-128] *)
Definition WRITE_QWORD_LE_U : gmap Z Z :=
  h.[addr := u8 val].[addr + 1 := u8 (Z.shiftr val 8)]
   .[addr + 2 := u8 (Z.shiftr val 16)].[addr + 3 := u8 (Z.shiftr val 24)]
   .[addr + 4 := u8 (Z.shiftr val 32)].[addr + 5 := u8 (Z.shiftr val 40)]
   .[addr + 6 := u8 (Z.shiftr val 48)].[addr + 7 := u8 (Z.shiftr val 56)].
End Write.

(* [core/memaccess.h:141-141] *)
Definition WRITE_WORD_LE_A addr val := WRITE_WORD_LE_U addr (u16 val).
(* [core/memaccess.h:142-142] *)
Definition WRITE_DWORD_LE_A addr val := WRITE_DWORD_LE_U addr (u32 val).
(* [core/memaccess.h:143-143] *)
Definition WRITE_QWORD_LE_A addr val := WRITE_QWORD_LE_U addr (u64 val).
(* [core/memaccess.h:138-138] *)
Definition WRITE_WORD_BE_A addr val := WRITE_WORD_LE_U addr (BYTESWAP_16 (u16 val)).
(* [core/memaccess.h:139-139] *)
Definition WRITE_DWORD_BE_A addr val := WRITE_DWORD_LE_U addr (BYTESWAP_32 (u32 val)).
(* [core/memaccess.h:140-140] *)
Definition WRITE_QWORD_BE_A addr val := WRITE_QWORD_LE_U addr (BYTESWAP_64 (u64 val)).

(* [core/memaccess.h:211-225] *)
Definition write_mem (addr value size : Z) (h : gmap Z Z) : gmap Z Z :=
  if size =? 4 then WRITE_DWORD_BE_A addr value h
  else if size =? 2 then WRITE_WORD_BE_A addr (Z.land value 0xFFFF) h
  else if size =? 1 then h.[addr := Z.land value 0xFF] else h.
(* [core/memaccess.h:230-244] *)
Definition write_mem_rev (addr value size : Z) (h : gmap Z Z) : gmap Z Z :=
  if size =? 4 then WRITE_DWORD_LE_A addr value h
  else if size =? 2 then WRITE_WORD_LE_A addr (Z.land value 0xFFFF) h
  else if size =? 1 then h.[addr := Z.land value 0xFF] else h.

Example read_be : READ_DWORD_BE_A (WRITE_QWORD_BE_A 16 0x0102030405060708 ∅) 18 = 0x03040506.
Proof. reflexivity. Qed.

(** ** Lists of bytes *)

Definition be_val (l : list Z) : Z := fold_left (fun acc b => 256 * acc + b) l 0.
Definition le_val (l : list Z) : Z := be_val (rev l).
Definition bytes_at (h : gmap Z Z) (a : Z) (n : nat) : list Z := map (fun i => h.[a + i]) (zrange n).

(** The [n] bytes of [v], most significant first. *)
Fixpoint be_bytes (n : nat) (v : Z) : list Z :=
  match n with O => [] | S n => be_bytes n (v / 256) ++ [v mod 256] end.

Lemma be_val_snoc l b : be_val (l ++ [b]) = 256 * be_val l + b.
Proof. unfold be_val. by rewrite fold_left_app. Qed.

Lemma be_bytes_length n v : length (be_bytes n v) = n.
Proof. revert v. induction n; intros v; simpl; [done|]. rewrite length_app, IHn. simpl. lia. Qed.

Lemma be_val_bytes n v : be_val (be_bytes n v) = v mod 2 ^ (8 * Z.of_nat n).
Proof.
  revert v. induction n as [|n IH]; intros v; [by rewrite Z.mod_1_r|].
  cbn [be_bytes]. rewrite be_val_snoc, IH.
  replace (2 ^ (8 * Z.of_nat (S n))) with (256 * 2 ^ (8 * Z.of_nat n)).
  - rewrite Z.rem_mul_r by lia. lia.
  - replace (8 * Z.of_nat (S n)) with (8 + 8 * Z.of_nat n) by lia. by rewrite Z.pow_add_r by lia.
Qed.

Lemma be_bytes_range n v b : b ∈ be_bytes n v -> 0 <= b < 256.
Proof.
  revert v. induction n as [|n IH]; intros v; cbn [be_bytes]; [by intros ?%elem_of_nil|].
  rewrite elem_of_app, list_elem_of_singleton. intros [H| ->]; [by eapply IH | apply Z.mod_pos_bound; lia].
Qed.

Lemma be_val_range l : (forall b, b ∈ l -> 0 <= b < 256) -> 0 <= be_val l < 2 ^ (8 * Z.of_nat (length l)).
Proof.
  induction l as [|b l IH] using rev_ind; intros H; [cbn; lia|].
  rewrite be_val_snoc, length_app. cbn [length].
  assert (0 <= b < 256) by (apply H; set_solver).
  assert (0 <= be_val l < 2 ^ (8 * Z.of_nat (length l))) by (apply IH; set_solver).
  replace (8 * Z.of_nat (length l + 1)) with (8 * Z.of_nat (length l) + 8) by lia.
  rewrite Z.pow_add_r by lia. lia.
Qed.

Lemma bytes_at_range h a n b : file_ok 8 h -> b ∈ bytes_at h a n -> 0 <= b < 256.
Proof. intros Hh (i & -> & _)%list_elem_of_fmap. apply Hh. Qed.

Lemma memcpy_get a l h x :
  (memcpy a l h).[x] = if (a <=? x) && (x <? a + Z.of_nat (length l))
                       then nth (Z.to_nat (x - a)) l 0 else h.[x].
Proof.
  revert a h. induction l as [|b l IH]; intros a h; cbn [memcpy length].
  - destruct (Z.leb_spec a x), (Z.ltb_spec x (a + Z.of_nat 0)); simpl; done || lia.
  - rewrite IH, rget_rset. destruct (decide (a = x)) as [<-|Hne].
    + rewrite (proj2 (Z.leb_gt (a + 1) a)), (proj2 (Z.leb_le a a)),
        (proj2 (Z.ltb_lt a (a + Z.of_nat (S (length l))))) by lia. by rewrite Z.sub_diag.
    + destruct (Z.leb_spec (a + 1) x), (Z.ltb_spec x (a + 1 + Z.of_nat (length l))),
        (Z.leb_spec a x), (Z.ltb_spec x (a + Z.of_nat (S (length l)))); cbn [andb]; try lia; try done.
      by replace (Z.to_nat (x - a)) with (S (Z.to_nat (x - (a + 1)))) by lia.
Qed.

Lemma nth_map_seq (f : Z -> Z) n i : (i < n)%nat -> nth i (map f (zrange n)) 0 = f (Z.of_nat i).
Proof.
  intros Hi. unfold zrange. rewrite map_map, (nth_indep _ 0 (f (Z.of_nat 0))) by (by rewrite length_map, length_seq).
  rewrite (map_nth (fun x => f (Z.of_nat x))), seq_nth by done. done.
Qed.

Lemma bytes_at_length h a n : length (bytes_at h a n) = n.
Proof. unfold bytes_at, zrange. by rewrite !length_map, length_seq. Qed.

Lemma bytes_at_memcpy a l h : bytes_at (memcpy a l h) a (length l) = l.
Proof.
  apply (nth_ext _ _ 0 0); rewrite bytes_at_length; [done|]. intros i Hi.
  unfold bytes_at. rewrite nth_map_seq, memcpy_get by done.
  destruct (Z.leb_spec a (a + Z.of_nat i)), (Z.ltb_spec (a + Z.of_nat i) (a + Z.of_nat (length l)));
    cbn [andb]; try lia. f_equal. lia.
Qed.

Lemma bytes_at_memcpy_disjoint a l h b n : b + Z.of_nat n <= a \/ a + Z.of_nat (length l) <= b ->
  bytes_at (memcpy a l h) b n = bytes_at h b n.
Proof.
  intros Hd. unfold bytes_at. apply map_ext_in. intros i Hi.
  unfold zrange in Hi. apply in_map_iff in Hi as (k & <- & Hk). apply in_seq in Hk.
  rewrite memcpy_get. destruct (Z.leb_spec a (b + Z.of_nat k)),
    (Z.ltb_spec (b + Z.of_nat k) (a + Z.of_nat (length l))); cbn [andb]; done || lia.
Qed.

Lemma memcpy_ok a l h : file_ok 8 h -> (forall b, b ∈ l -> 0 <= b < 256) -> file_ok 8 (memcpy a l h).
Proof.
  revert a h. induction l as [|b l IH]; intros a h Hh Hl; [done|]. cbn [memcpy].
  apply IH; [apply file_ok_set; [done | apply Hl; set_solver] | set_solver].
Qed.

(** ** The macros in terms of lists of bytes *)

Lemma lor_step n A b : 0 <= n -> 0 <= b < 256 ->
  Z.lor (Z.shiftl A (n + 8)) (Z.shiftl b n) = Z.shiftl (256 * A + b) n.
Proof.
  intros Hn Hb. rewrite !Z.shiftl_mul_pow2 by lia.
  replace (A * 2 ^ (n + 8)) with (2 ^ n * (256 * A)) by (rewrite Z.pow_add_r by lia; lia).
  rewrite (Z.mul_comm b), (Z.mul_comm (256 * A + b)).
  apply Z.bits_inj'. intros i Hi. rewrite Z.lor_spec, !(Z.mul_comm (2 ^ n)), !Z.mul_pow2_bits by lia.
  replace (256 * A) with (2 ^ 8 * A) by lia. rewrite <- (lor_low A 8 b), Z.lor_spec by lia.
  done.
Qed.

(** Join the bytes of a chain of disjunctions. *)
Ltac join_byte n m :=
  let H := fresh in pose proof (lor_step n) as H; change (n + 8) with m in H; rewrite H by (lia || auto);
  clear H.
Ltac join_bytes :=
  rewrite ?Z.lor_assoc;
  try join_byte 48 56; try join_byte 40 48; try join_byte 32 40; try join_byte 24 32;
  try join_byte 16 24; try join_byte 8 16;
  match goal with |- context [Z.lor (Z.shiftl ?a 8) ?b] =>
    rewrite (Z.shiftl_mul_pow2 a 8), (Z.mul_comm a), lor_low by (lia || auto) end.

Section Values.
Context (h : gmap Z Z) (Hh : file_ok 8 h).

Lemma mem_byte i : 0 <= h.[i] < 256.
Proof. apply Hh. Qed.
#[local] Hint Resolve mem_byte : core.

Lemma bytes_at_S a n : bytes_at h a (S n) = bytes_at h a n ++ [h.[a + Z.of_nat n]].
Proof. unfold bytes_at, zrange. rewrite seq_S, !map_app. done. Qed.

Ltac nat_literals := repeat match goal with |- context [Z.of_nat ?k] =>
  let v := eval vm_compute in (Z.of_nat k) in change (Z.of_nat k) with v end.
Ltac read_bytes := unfold le_val; rewrite !bytes_at_S; cbn; nat_literals; rewrite ?Z.add_0_r; lia.

Lemma read_word_be_u a : READ_WORD_BE_U h a = be_val (bytes_at h a 2).
Proof. unfold READ_WORD_BE_U. join_bytes. read_bytes. Qed.
Lemma read_dword_be_u a : READ_DWORD_BE_U h a = be_val (bytes_at h a 4).
Proof. unfold READ_DWORD_BE_U. join_bytes. read_bytes. Qed.
Lemma read_qword_be_u a : READ_QWORD_BE_U h a = be_val (bytes_at h a 8).
Proof. unfold READ_QWORD_BE_U. join_bytes. read_bytes. Qed.
Lemma read_word_le_u a : READ_WORD_LE_U h a = le_val (bytes_at h a 2).
Proof. unfold READ_WORD_LE_U. join_bytes. read_bytes. Qed.
Lemma read_dword_le_u a : READ_DWORD_LE_U h a = le_val (bytes_at h a 4).
Proof. unfold READ_DWORD_LE_U. join_bytes. read_bytes. Qed.
Lemma read_qword_le_u a : READ_QWORD_LE_U h a = le_val (bytes_at h a 8).
Proof. unfold READ_QWORD_LE_U. join_bytes. read_bytes. Qed.
End Values.

(** *** Byte swaps *)

Lemma be_bytes_val l : (forall b, b ∈ l -> 0 <= b < 256) -> be_bytes (length l) (be_val l) = l.
Proof.
  induction l as [|b l IH] using rev_ind; intros H; [done|].
  rewrite be_val_snoc, length_app, Nat.add_1_r. cbn [be_bytes].
  assert (0 <= b < 256) by (apply H; set_solver).
  replace ((256 * be_val l + b) / 256) with (be_val l) by zlia.
  replace ((256 * be_val l + b) mod 256) with b by zlia. rewrite IH by set_solver. done.
Qed.

Lemma land_byte x k : 0 <= k -> Z.land x (Z.shiftl 255 k) = Z.shiftl (x / 2 ^ k mod 256) k.
Proof.
  intros Hk. apply Z.bits_inj'. intros i Hi. rewrite Z.land_spec.
  destruct (Z.lt_ge_cases i k).
  - rewrite !Z.shiftl_spec_low by lia. apply andb_false_r.
  - rewrite !Z.shiftl_spec by lia. change 255 with (Z.ones 8). change 256 with (2 ^ 8).
    rewrite <- (Z.land_ones _ 8), Z.land_spec by lia.
    rewrite <- Z.shiftr_div_pow2, Z.shiftr_spec by lia. by replace (i - k + k) with i by lia.
Qed.

Lemma swap_up w x k s : 0 <= k -> 0 <= s -> k + s + 8 <= w ->
  uwrap w (Z.shiftl (Z.land x (Z.shiftl 255 k)) s) = Z.shiftl (x / 2 ^ k mod 256) (k + s).
Proof.
  intros. rewrite land_byte, Z.shiftl_shiftl by lia. apply uwrap_small.
  pose proof (Z.mod_pos_bound (x / 2 ^ k) 256 eq_refl). rewrite Z.shiftl_mul_pow2 by lia.
  assert (256 * 2 ^ (k + s) <= 2 ^ w).
  { change 256 with (2 ^ 8). rewrite <- Z.pow_add_r by lia. apply Z.pow_le_mono_r; lia. }
  assert (0 < 2 ^ (k + s)) by lia. nia.
Qed.

Lemma swap_down x k s : 0 <= s <= k ->
  Z.shiftr (Z.land x (Z.shiftl 255 k)) s = Z.shiftl (x / 2 ^ k mod 256) (k - s).
Proof. intros. rewrite land_byte by lia. by rewrite Z.shiftr_shiftl_l by lia. Qed.

Lemma mod_256_range x : 0 <= x mod 256 < 256.
Proof. apply Z.mod_pos_bound. lia. Qed.
#[local] Hint Resolve mod_256_range : core.

Ltac swap_term w c k s r :=
  change c with (Z.shiftl 255 k);
  first [ change (Z.shiftl (Z.land ?x (Z.shiftl 255 k)) s) with (Z.shiftl (Z.land x (Z.shiftl 255 k)) s);
          rewrite (swap_up w _ k s) by lia; change (k + s) with r
        | rewrite (swap_down _ k s) by lia; change (k - s) with r ].

Ltac div_literals := rewrite ?Z.div_div by lia; rewrite ?Z.div_1_r;
  repeat match goal with |- context [_ / ?c] =>
    lazymatch c with
    | Zpos _ => fail
    | _ => let v := eval vm_compute in c in change c with v
    end end.

Lemma byteswap_32_bytes x : BYTESWAP_32 x = be_val (rev (be_bytes 4 x)).
Proof.
  unfold BYTESWAP_32, byteswap_32_impl, shl32.
  swap_term 32 0x000000FF 0 24 24. swap_term 32 0x0000FF00 8 8 16.
  swap_term 32 0x00FF0000 16 8 8. swap_term 32 0xFF000000 24 24 0. rewrite Z.shiftl_0_r.
  join_bytes. cbn. div_literals. lia.
Qed.

Lemma byteswap_64_bytes x : BYTESWAP_64 x = be_val (rev (be_bytes 8 x)).
Proof.
  unfold BYTESWAP_64, byteswap_64_impl.
  swap_term 64 0xFF 0 56 56. swap_term 64 0xFF00 8 40 48.
  swap_term 64 0xFF0000 16 24 40. swap_term 64 0xFF000000 24 8 32.
  swap_term 64 0xFF00000000 32 8 24. swap_term 64 0xFF0000000000 40 24 16.
  swap_term 64 0xFF000000000000 48 40 8. swap_term 64 0xFF00000000000000 56 56 0.
  rewrite Z.shiftl_0_r.
  join_bytes. cbn. div_literals. lia.
Qed.

Lemma byteswap_16_bytes x : 0 <= x < 2 ^ 16 -> BYTESWAP_16 x = be_val (rev (be_bytes 2 x)).
Proof.
  intros Hx. cbn. unfold BYTESWAP_16, byteswap_16_impl. rewrite Z.lor_comm.
  rewrite Z.shiftr_div_pow2, Z.shiftl_mul_pow2, (Z.mul_comm x), lor_low by zlia.
  change (2 ^ 8) with 256. unfold uwrap. zlia.
Qed.

(** *** Aligned reads, and writes *)

Section Aligned.
Context (h : gmap Z Z) (Hh : file_ok 8 h).

Lemma swapped l : (forall b, b ∈ l -> 0 <= b < 256) ->
  be_val (rev (be_bytes (length l) (le_val l))) = be_val l.
Proof.
  intros H. unfold le_val. rewrite <- (length_rev l), be_bytes_val; [by rewrite rev_involutive|].
  intros b Hb. apply H. by rewrite list_elem_of_In, in_rev, <- list_elem_of_In.
Qed.

Lemma read_word_be_a a : READ_WORD_BE_A h a = be_val (bytes_at h a 2).
Proof.
  unfold READ_WORD_BE_A. rewrite read_word_le_u by done. rewrite byteswap_16_bytes.
  - exact (swapped (bytes_at h a 2) (fun b => bytes_at_range h a 2 b Hh)).
  - unfold le_val. pose proof (be_val_range (rev (bytes_at h a 2))) as H.
    rewrite length_rev, bytes_at_length in H. apply H. intros b.
    rewrite list_elem_of_In, <- in_rev, <- list_elem_of_In. by apply bytes_at_range.
Qed.
Lemma read_dword_be_a a : READ_DWORD_BE_A h a = be_val (bytes_at h a 4).
Proof.
  unfold READ_DWORD_BE_A. rewrite read_dword_le_u, byteswap_32_bytes by done.
  exact (swapped (bytes_at h a 4) (fun b => bytes_at_range h a 4 b Hh)).
Qed.
Lemma read_qword_be_a a : READ_QWORD_BE_A h a = be_val (bytes_at h a 8).
Proof.
  unfold READ_QWORD_BE_A. rewrite read_qword_le_u, byteswap_64_bytes by done.
  exact (swapped (bytes_at h a 8) (fun b => bytes_at_range h a 8 b Hh)).
Qed.
End Aligned.

Lemma be_bytes_mod n v : be_bytes n (v mod 2 ^ (8 * Z.of_nat n)) = be_bytes n v.
Proof.
  rewrite <- be_val_bytes. rewrite <- (be_bytes_length n v) at 1.
  apply be_bytes_val. intros b. apply be_bytes_range.
Qed.

Lemma le_of_swapped n v : rev (be_bytes n (be_val (rev (be_bytes n v)))) = be_bytes n v.
Proof.
  rewrite <- (be_bytes_length n v) at 1. rewrite <- length_rev, be_bytes_val; [apply rev_involutive|].
  intros b. rewrite list_elem_of_In, <- in_rev, <- list_elem_of_In. apply be_bytes_range.
Qed.

Ltac write_bytes := cbn; unfold uwrap; rewrite ?Z.shiftr_div_pow2 by lia; div_literals;
  repeat match goal with |- context [?a + ?k + 1] =>
    let v := eval vm_compute in (k + 1) in replace (a + k + 1) with (a + v) by lia end;
  reflexivity.

Section WriteSpec.
Context (a v : Z) (h : gmap Z Z).

Lemma write_word_be_u : WRITE_WORD_BE_U a v h = memcpy a (be_bytes 2 v) h.
Proof. unfold WRITE_WORD_BE_U. write_bytes. Qed.
Lemma write_dword_be_u : WRITE_DWORD_BE_U a v h = memcpy a (be_bytes 4 v) h.
Proof. unfold WRITE_DWORD_BE_U. write_bytes. Qed.
Lemma write_qword_be_u : WRITE_QWORD_BE_U a v h = memcpy a (be_bytes 8 v) h.
Proof. unfold WRITE_QWORD_BE_U. write_bytes. Qed.
Lemma write_word_le_u : WRITE_WORD_LE_U a v h = memcpy a (rev (be_bytes 2 v)) h.
Proof. unfold WRITE_WORD_LE_U. write_bytes. Qed.
Lemma write_dword_le_u : WRITE_DWORD_LE_U a v h = memcpy a (rev (be_bytes 4 v)) h.
Proof. unfold WRITE_DWORD_LE_U. write_bytes. Qed.
Lemma write_qword_le_u : WRITE_QWORD_LE_U a v h = memcpy a (rev (be_bytes 8 v)) h.
Proof. unfold WRITE_QWORD_LE_U. write_bytes. Qed.
End WriteSpec.

Lemma write_word_be_a a v h : WRITE_WORD_BE_A a v h = memcpy a (be_bytes 2 v) h.
Proof.
  unfold WRITE_WORD_BE_A. rewrite write_word_le_u, byteswap_16_bytes by (apply uwrap_range; lia).
  rewrite le_of_swapped. f_equal. apply (be_bytes_mod 2).
Qed.
Lemma write_dword_be_a a v h : WRITE_DWORD_BE_A a v h = memcpy a (be_bytes 4 v) h.
Proof.
  unfold WRITE_DWORD_BE_A. rewrite write_dword_le_u, byteswap_32_bytes, le_of_swapped.
  f_equal. apply (be_bytes_mod 4).
Qed.
Lemma write_qword_be_a a v h : WRITE_QWORD_BE_A a v h = memcpy a (be_bytes 8 v) h.
Proof.
  unfold WRITE_QWORD_BE_A. rewrite write_qword_le_u, byteswap_64_bytes, le_of_swapped.
  f_equal. apply (be_bytes_mod 8).
Qed.
