(* ===== verification/Machine.v ===== *)
(** * The machine: every global of the interpreter

    One record per group of globals of cpu/ppc/ppcexec.cpp and
    cpu/ppc/ppcmmu.cpp, and [machine] for all of them together with the memory
    controller, the timers and the log of device accesses.  A routine that only
    touches the registers is a function on [ppc_state]; one that can raise an
    exception runs in [M machine]. *)
From S2P Require Import Prelude Word Float PpcState Timers MemCtrl.

(** ** Enumerations *)

(* [cpu/ppc/ppcemu.h:403-407] *)
Inductive PPCPowMode := PowNone | PowUnconditional | PowHID0.

(* [cpu/ppc/ppcemu.h:367-383] *)
Inductive Po_Cause :=
| po_none | po_starting_up | po_quit | po_quitting | po_shut_down | po_shutting_down
| po_restart | po_restarting | po_disassemble_on | po_disassemble_off | po_enter_debugger
| po_entered_debugger | po_signal_interrupt | po_benchmark_exception | po_endian_switch.

(* [cpu/ppc/ppcemu.h:333-353] *)
Inductive Except_Type :=
| EXC_SYSTEM_RESET | EXC_MACHINE_CHECK | EXC_DSI | EXC_ISI | EXC_EXT_INT | EXC_ALIGNMENT
| EXC_PROGRAM | EXC_NO_FPU | EXC_DECR | EXC_SYSCALL | EXC_TRACE | EXC_FP_ASSIST
| EXC_PERF_MON_INT | EXC_ITLB_MISS | EXC_DTLB_LOAD_MISS | EXC_DTLB_STORE_MISS
| EXC_INST_ADDR_BP | EXC_SYS_MGMT_INT | EXC_THRM_MGMT_INT.

#[export] Instance Except_Type_eq_dec : EqDecision Except_Type.
Proof. solve_decision. Defined.
#[export] Instance Po_Cause_eq_dec : EqDecision Po_Cause.
Proof. solve_decision. Defined.

(** The number of the exception, a multiple of 256 of which is its vector. *)
(* [cpu/ppc/ppcemu.h:334-352 EXC_SYSTEM_RESET] *)
Definition exc_code (e : Except_Type) : Z :=
  match e with
  | EXC_SYSTEM_RESET => 0x01 | EXC_MACHINE_CHECK => 0x02 | EXC_DSI => 0x03 | EXC_ISI => 0x04
  | EXC_EXT_INT => 0x05 | EXC_ALIGNMENT => 0x06 | EXC_PROGRAM => 0x07 | EXC_NO_FPU => 0x08
  | EXC_DECR => 0x09 | EXC_SYSCALL => 0x0C | EXC_TRACE => 0x0D | EXC_FP_ASSIST => 0x0E
  | EXC_PERF_MON_INT => 0x0F | EXC_ITLB_MISS => 0x10 | EXC_DTLB_LOAD_MISS => 0x11
  | EXC_DTLB_STORE_MISS => 0x12 | EXC_INST_ADDR_BP => 0x13 | EXC_SYS_MGMT_INT => 0x14
  | EXC_THRM_MGMT_INT => 0x17
  end.

(** Program exception causes, as SRR1 bits. *)
Module Exc_Cause.
(* [cpu/ppc/ppcemu.h:357-357] *)
Definition FPU_OFF := Z.shiftl 1 (31 - 11).
(* [cpu/ppc/ppcemu.h:358-358] *)
Definition ILLEGAL_OP := Z.shiftl 1 (31 - 12).
(* [cpu/ppc/ppcemu.h:359-359] *)
Definition NOT_ALLOWED := Z.shiftl 1 (31 - 13).
(* [cpu/ppc/ppcemu.h:360-360] *)
Definition TRAP := Z.shiftl 1 (31 - 14).
End Exc_Cause.

(** ** Data of the MMU *)

(* [cpu/ppc/ppcmmu.h:36-43] *)
Record PPC_BAT_entry := mkBAT {
  bat_valid : bool;
  bat_access : Z;
  bat_prot : Z;
  bat_phys_hi : Z;
  bat_hi_mask : Z;
  bat_bepi : Z
}.

(** Static storage is zero-initialised. *)
Definition bat_zero : PPC_BAT_entry := mkBAT false 0 0 0 0 0.

(* [cpu/ppc/ppcmmu.h:52-55] *)
Inductive TLBType := ITLB | DTLB.

#[export] Instance TLBType_eq_dec : EqDecision TLBType.
Proof. solve_decision. Defined.
#[export] Instance TLBType_countable : Countable TLBType.
Proof.
  refine (inj_countable' (fun t => match t with ITLB => true | DTLB => false end)
    (fun b => if (b : bool) then ITLB else DTLB) _). by intros [].
Defined.

(* [cpu/ppc/ppcmmu.cpp:282-287] *)
Record Tlb603Entry := mkTlb603 {
  t603_valid : bool;
  t603_vsid : Z;
  t603_ea_tag : Z;
  t603_pte_lo : Z
}.
Definition tlb603_zero : Tlb603Entry := mkTlb603 false 0 0 0.

(** The union of a TLB entry: host offsets for memory pages, the region and its
    base for device pages. *)
(* [cpu/ppc/ppcmmu.cpp:624-633 host_va_offs_r] *)
Inductive tlb_target :=
| TlbMem (host_va_offs_r host_va_offs_w : Z)
| TlbIo (rgn_desc : AddressMapEntry) (dev_base_va : Z).

(* [cpu/ppc/ppcmmu.cpp:620-636] *)
Record TLBEntry := mkTLBEntry {
  tag : Z;
  flags : Z;
  lru_bits : Z;
  target : tlb_target;
  phys_tag : Z
}.
Definition TLB_INVALID_TAG := 0xFFFFFFFF.

(** What [invalidate_tlb_entries] leaves in every slot. *)
Definition tlb_empty : TLBEntry := mkTLBEntry TLB_INVALID_TAG 0 0 (TlbMem 0 0) 0.

(** A slot of one of the twelve arrays, that is the value of a [TLBEntry *]:
    instruction or data, secondary level or primary, mode 1..3, index. *)
Record slot := mkSlot { sl_type : TLBType; sl_second : bool; sl_mode : Z; sl_index : Z }.

#[export] Instance slot_eq_dec : EqDecision slot.
Proof. solve_decision. Defined.
#[export] Instance slot_countable : Countable slot.
Proof.
  refine (inj_countable' (fun s => (sl_type s, sl_second s, sl_mode s, sl_index s))
    (fun '(a, b, c, d) => mkSlot a b c d) _). by intros [].
Defined.

(** The two actions [add_ctx_sync_action] is ever called with: the
    instantiations of [tlb_invalidate_tracked_entries]. *)
Inductive CtxSyncCallback :=
| sync_tlb_invalidate_tracked (t : TLBType).

(** The timer callbacks of the processor, and those of devices. *)
Inductive timer_callback :=
| cb_timed_decrementer
| cb_immediate_decrementer
| cb_update_thermal
| cb_device (id : Z).

(** The static [TimerInfo] objects of ppcopcodes.cpp. *)
Definition decrementer_timer := 1.
Definition thermal_timer := 2.

(** An access to a device register. *)
Inductive io_event :=
| IoRead (dev rgn_start offset size : Z)
| IoWrite (dev rgn_start offset value size : Z).

(** ** The state *)

(* [cpu/ppc/ppcexec.cpp:47-51 is_601] *)
Record cpu_config := mk_cpu_config {
  is_601 : bool;
  is_603 : bool;
  include_601 : bool;
  ppc_pow_mode : PPCPowMode;
  ppc_pow_hid0_mask : Z
}.
Definition set_is_601 (v : bool) (r : cpu_config) : cpu_config :=
  mk_cpu_config v (is_603 r) (include_601 r) (ppc_pow_mode r) (ppc_pow_hid0_mask r).
Definition set_is_603 (v : bool) (r : cpu_config) : cpu_config :=
  mk_cpu_config (is_601 r) v (include_601 r) (ppc_pow_mode r) (ppc_pow_hid0_mask r).
Definition set_include_601 (v : bool) (r : cpu_config) : cpu_config :=
  mk_cpu_config (is_601 r) (is_603 r) v (ppc_pow_mode r) (ppc_pow_hid0_mask r).
Definition set_ppc_pow_mode (v : PPCPowMode) (r : cpu_config) : cpu_config :=
  mk_cpu_config (is_601 r) (is_603 r) (include_601 r) v (ppc_pow_hid0_mask r).
Definition set_ppc_pow_hid0_mask (v : Z) (r : cpu_config) : cpu_config :=
  mk_cpu_config (is_601 r) (is_603 r) (include_601 r) (ppc_pow_mode r) v.

(** The execution control globals.  [fpu_grabber] is whether
    [ppc_opcode_grabber] points to [OpcodeGrabber] (and not to
    [OpcodeGrabberNoFPU]). *)
(* [cpu/ppc/ppcexec.cpp:112-120 exec_flags] *)
Record exec_state := mk_exec_state {
  ppc_next_instruction_address : Z;
  exec_flags : Z;
  exec_timer : bool;
  int_pin : bool;
  dec_exception_pending : bool;
  thrm_exception_pending : bool;
  power_on : bool;
  power_off_reason : Po_Cause;
  fpu_grabber : bool;
  ppc_shadow_gprs : gmap Z Z;
  gCtxSyncCallbacks : list CtxSyncCallback;
  junction_temperature : Z
}.
Definition set_ppc_next_instruction_address (v : Z) (r : exec_state) : exec_state :=
  mk_exec_state v (exec_flags r) (exec_timer r) (int_pin r) (dec_exception_pending r)
    (thrm_exception_pending r) (power_on r) (power_off_reason r) (fpu_grabber r)
    (ppc_shadow_gprs r) (gCtxSyncCallbacks r) (junction_temperature r).
Definition set_exec_flags (v : Z) (r : exec_state) : exec_state :=
  mk_exec_state (ppc_next_instruction_address r) v (exec_timer r) (int_pin r)
    (dec_exception_pending r) (thrm_exception_pending r) (power_on r) (power_off_reason r)
    (fpu_grabber r) (ppc_shadow_gprs r) (gCtxSyncCallbacks r) (junction_temperature r).
Definition set_exec_timer (v : bool) (r : exec_state) : exec_state :=
  mk_exec_state (ppc_next_instruction_address r) (exec_flags r) v (int_pin r)
    (dec_exception_pending r) (thrm_exception_pending r) (power_on r) (power_off_reason r)
    (fpu_grabber r) (ppc_shadow_gprs r) (gCtxSyncCallbacks r) (junction_temperature r).
Definition set_int_pin (v : bool) (r : exec_state) : exec_state :=
  mk_exec_state (ppc_next_instruction_address r) (exec_flags r) (exec_timer r) v
    (dec_exception_pending r) (thrm_exception_pending r) (power_on r) (power_off_reason r)
    (fpu_grabber r) (ppc_shadow_gprs r) (gCtxSyncCallbacks r) (junction_temperature r).
Definition set_dec_exception_pending (v : bool) (r : exec_state) : exec_state :=
  mk_exec_state (ppc_next_instruction_address r) (exec_flags r) (exec_timer r) (int_pin r) v
    (thrm_exception_pending r) (power_on r) (power_off_reason r) (fpu_grabber r)
    (ppc_shadow_gprs r) (gCtxSyncCallbacks r) (junction_temperature r).
Definition set_thrm_exception_pending (v : bool) (r : exec_state) : exec_state :=
  mk_exec_state (ppc_next_instruction_address r) (exec_flags r) (exec_timer r) (int_pin r)
    (dec_exception_pending r) v (power_on r) (power_off_reason r) (fpu_grabber r)
    (ppc_shadow_gprs r) (gCtxSyncCallbacks r) (junction_temperature r).
Definition set_power_on (v : bool) (r : exec_state) : exec_state :=
  mk_exec_state (ppc_next_instruction_address r) (exec_flags r) (exec_timer r) (int_pin r)
    (dec_exception_pending r) (thrm_exception_pending r) v (power_off_reason r) (fpu_grabber r)
    (ppc_shadow_gprs r) (gCtxSyncCallbacks r) (junction_temperature r).
Definition set_power_off_reason (v : Po_Cause) (r : exec_state) : exec_state :=
  mk_exec_state (ppc_next_instruction_address r) (exec_flags r) (exec_timer r) (int_pin r)
    (dec_exception_pending r) (thrm_exception_pending r) (power_on r) v (fpu_grabber r)
    (ppc_shadow_gprs r) (gCtxSyncCallbacks r) (junction_temperature r).
Definition set_fpu_grabber (v : bool) (r : exec_state) : exec_state :=
  mk_exec_state (ppc_next_instruction_address r) (exec_flags r) (exec_timer r) (int_pin r)
    (dec_exception_pending r) (thrm_exception_pending r) (power_on r) (power_off_reason r) v
    (ppc_shadow_gprs r) (gCtxSyncCallbacks r) (junction_temperature r).
Definition set_ppc_shadow_gprs (v : gmap Z Z) (r : exec_state) : exec_state :=
  mk_exec_state (ppc_next_instruction_address r) (exec_flags r) (exec_timer r) (int_pin r)
    (dec_exception_pending r) (thrm_exception_pending r) (power_on r) (power_off_reason r)
    (fpu_grabber r) v (gCtxSyncCallbacks r) (junction_temperature r).
Definition set_gCtxSyncCallbacks (v : list CtxSyncCallback) (r : exec_state) : exec_state :=
  mk_exec_state (ppc_next_instruction_address r) (exec_flags r) (exec_timer r) (int_pin r)
    (dec_exception_pending r) (thrm_exception_pending r) (power_on r) (power_off_reason r)
    (fpu_grabber r) (ppc_shadow_gprs r) v (junction_temperature r).
Definition set_junction_temperature (v : Z) (r : exec_state) : exec_state :=
  mk_exec_state (ppc_next_instruction_address r) (exec_flags r) (exec_timer r) (int_pin r)
    (dec_exception_pending r) (thrm_exception_pending r) (power_on r) (power_off_reason r)
    (fpu_grabber r) (ppc_shadow_gprs r) (gCtxSyncCallbacks r) v.

(** Virtual time.  [cpu_now_ns] is the host clock, an input. *)
(* [cpu/ppc/ppcexec.cpp:123-129 g_icycles] *)
Record virtual_time := mk_virtual_time {
  g_realtime : bool;
  g_nanoseconds_base : Z;
  g_icycles : Z;
  icnt_factor : Z;
  icnt_default_period_ns : Z;
  icnt_period_ns : Z;
  icnt_time_offset_ns : Z;
  cpu_now_ns : Z
}.
Definition set_g_realtime (v : bool) (r : virtual_time) : virtual_time :=
  mk_virtual_time v (g_nanoseconds_base r) (g_icycles r) (icnt_factor r) (icnt_default_period_ns
    r) (icnt_period_ns r) (icnt_time_offset_ns r) (cpu_now_ns r).
Definition set_g_nanoseconds_base (v : Z) (r : virtual_time) : virtual_time :=
  mk_virtual_time (g_realtime r) v (g_icycles r) (icnt_factor r) (icnt_default_period_ns r)
    (icnt_period_ns r) (icnt_time_offset_ns r) (cpu_now_ns r).
Definition set_g_icycles (v : Z) (r : virtual_time) : virtual_time :=
  mk_virtual_time (g_realtime r) (g_nanoseconds_base r) v (icnt_factor r)
    (icnt_default_period_ns r) (icnt_period_ns r) (icnt_time_offset_ns r) (cpu_now_ns r).
Definition set_icnt_factor (v : Z) (r : virtual_time) : virtual_time :=
  mk_virtual_time (g_realtime r) (g_nanoseconds_base r) (g_icycles r) v (icnt_default_period_ns
    r) (icnt_period_ns r) (icnt_time_offset_ns r) (cpu_now_ns r).
Definition set_icnt_default_period_ns (v : Z) (r : virtual_time) : virtual_time :=
  mk_virtual_time (g_realtime r) (g_nanoseconds_base r) (g_icycles r) (icnt_factor r) v
    (icnt_period_ns r) (icnt_time_offset_ns r) (cpu_now_ns r).
Definition set_icnt_period_ns (v : Z) (r : virtual_time) : virtual_time :=
  mk_virtual_time (g_realtime r) (g_nanoseconds_base r) (g_icycles r) (icnt_factor r)
    (icnt_default_period_ns r) v (icnt_time_offset_ns r) (cpu_now_ns r).
Definition set_icnt_time_offset_ns (v : Z) (r : virtual_time) : virtual_time :=
  mk_virtual_time (g_realtime r) (g_nanoseconds_base r) (g_icycles r) (icnt_factor r)
    (icnt_default_period_ns r) (icnt_period_ns r) v (cpu_now_ns r).
Definition set_cpu_now_ns (v : Z) (r : virtual_time) : virtual_time :=
  mk_virtual_time (g_realtime r) (g_nanoseconds_base r) (g_icycles r) (icnt_factor r)
    (icnt_default_period_ns r) (icnt_period_ns r) (icnt_time_offset_ns r) v.

(* [cpu/ppc/ppcexec.cpp:132-143 tbr_wr_value] *)
Record timebase := mk_timebase {
  tbr_wr_timestamp : Z;
  rtc_timestamp : Z;
  tbr_wr_value : Z;
  tbr_freq_ghz : Z;
  tbr_freq_shift : Z;
  tbr_period_ns : Z;
  dec_wr_timestamp : Z;
  dec_wr_value : Z;
  rtc_lo : Z;
  rtc_hi : Z
}.
Definition set_tbr_wr_timestamp (v : Z) (r : timebase) : timebase :=
  mk_timebase v (rtc_timestamp r) (tbr_wr_value r) (tbr_freq_ghz r) (tbr_freq_shift r)
    (tbr_period_ns r) (dec_wr_timestamp r) (dec_wr_value r) (rtc_lo r) (rtc_hi r).
Definition set_rtc_timestamp (v : Z) (r : timebase) : timebase :=
  mk_timebase (tbr_wr_timestamp r) v (tbr_wr_value r) (tbr_freq_ghz r) (tbr_freq_shift r)
    (tbr_period_ns r) (dec_wr_timestamp r) (dec_wr_value r) (rtc_lo r) (rtc_hi r).
Definition set_tbr_wr_value (v : Z) (r : timebase) : timebase :=
  mk_timebase (tbr_wr_timestamp r) (rtc_timestamp r) v (tbr_freq_ghz r) (tbr_freq_shift r)
    (tbr_period_ns r) (dec_wr_timestamp r) (dec_wr_value r) (rtc_lo r) (rtc_hi r).
Definition set_tbr_freq_ghz (v : Z) (r : timebase) : timebase :=
  mk_timebase (tbr_wr_timestamp r) (rtc_timestamp r) (tbr_wr_value r) v (tbr_freq_shift r)
    (tbr_period_ns r) (dec_wr_timestamp r) (dec_wr_value r) (rtc_lo r) (rtc_hi r).
Definition set_tbr_freq_shift (v : Z) (r : timebase) : timebase :=
  mk_timebase (tbr_wr_timestamp r) (rtc_timestamp r) (tbr_wr_value r) (tbr_freq_ghz r) v
    (tbr_period_ns r) (dec_wr_timestamp r) (dec_wr_value r) (rtc_lo r) (rtc_hi r).
Definition set_tbr_period_ns (v : Z) (r : timebase) : timebase :=
  mk_timebase (tbr_wr_timestamp r) (rtc_timestamp r) (tbr_wr_value r) (tbr_freq_ghz r)
    (tbr_freq_shift r) v (dec_wr_timestamp r) (dec_wr_value r) (rtc_lo r) (rtc_hi r).
Definition set_dec_wr_timestamp (v : Z) (r : timebase) : timebase :=
  mk_timebase (tbr_wr_timestamp r) (rtc_timestamp r) (tbr_wr_value r) (tbr_freq_ghz r)
    (tbr_freq_shift r) (tbr_period_ns r) v (dec_wr_value r) (rtc_lo r) (rtc_hi r).
Definition set_dec_wr_value (v : Z) (r : timebase) : timebase :=
  mk_timebase (tbr_wr_timestamp r) (rtc_timestamp r) (tbr_wr_value r) (tbr_freq_ghz r)
    (tbr_freq_shift r) (tbr_period_ns r) (dec_wr_timestamp r) v (rtc_lo r) (rtc_hi r).
Definition set_rtc_lo (v : Z) (r : timebase) : timebase :=
  mk_timebase (tbr_wr_timestamp r) (rtc_timestamp r) (tbr_wr_value r) (tbr_freq_ghz r)
    (tbr_freq_shift r) (tbr_period_ns r) (dec_wr_timestamp r) (dec_wr_value r) v (rtc_hi r).
Definition set_rtc_hi (v : Z) (r : timebase) : timebase :=
  mk_timebase (tbr_wr_timestamp r) (rtc_timestamp r) (tbr_wr_value r) (tbr_freq_ghz r)
    (tbr_freq_shift r) (tbr_period_ns r) (dec_wr_timestamp r) (dec_wr_value r) (rtc_lo r) v.

(** The MMU.  [pCurITLB] and [pCurDTLB] are the mode (1..3) of the arrays
    [pCurITLB1], [pCurITLB2] and [pCurDTLB1], [pCurDTLB2] point to: the code
    always switches both levels together. *)
(* [cpu/ppc/ppcmmu.cpp:641-646 gTrackedIEntries] *)
Record mmu_state := mk_mmu_state {
  ibat_array : gmap Z PPC_BAT_entry;
  dbat_array : gmap Z PPC_BAT_entry;
  tlb603 : gmap (TLBType * Z * Z) Tlb603Entry;
  tlb603_lru : gmap (TLBType * Z) Z;
  tlbs : gmap slot TLBEntry;
  gTrackedIEntries : list slot;
  gTrackedDEntries : list slot;
  gPendingIInvalidationSources : Z;
  gPendingDInvalidationSources : Z;
  pCurITLB : Z;
  pCurDTLB : Z;
  CurITLBMode : Z;
  CurDTLBMode : Z;
  last_ptab_area : AddressMapEntry
}.
Definition set_ibat_array (v : gmap Z PPC_BAT_entry) (r : mmu_state) : mmu_state :=
  mk_mmu_state v (dbat_array r) (tlb603 r) (tlb603_lru r) (tlbs r) (gTrackedIEntries r)
    (gTrackedDEntries r) (gPendingIInvalidationSources r) (gPendingDInvalidationSources r)
    (pCurITLB r) (pCurDTLB r) (CurITLBMode r) (CurDTLBMode r) (last_ptab_area r).
Definition set_dbat_array (v : gmap Z PPC_BAT_entry) (r : mmu_state) : mmu_state :=
  mk_mmu_state (ibat_array r) v (tlb603 r) (tlb603_lru r) (tlbs r) (gTrackedIEntries r)
    (gTrackedDEntries r) (gPendingIInvalidationSources r) (gPendingDInvalidationSources r)
    (pCurITLB r) (pCurDTLB r) (CurITLBMode r) (CurDTLBMode r) (last_ptab_area r).
Definition set_tlb603 (v : gmap (TLBType * Z * Z) Tlb603Entry) (r : mmu_state) : mmu_state :=
  mk_mmu_state (ibat_array r) (dbat_array r) v (tlb603_lru r) (tlbs r) (gTrackedIEntries r)
    (gTrackedDEntries r) (gPendingIInvalidationSources r) (gPendingDInvalidationSources r)
    (pCurITLB r) (pCurDTLB r) (CurITLBMode r) (CurDTLBMode r) (last_ptab_area r).
Definition set_tlb603_lru (v : gmap (TLBType * Z) Z) (r : mmu_state) : mmu_state :=
  mk_mmu_state (ibat_array r) (dbat_array r) (tlb603 r) v (tlbs r) (gTrackedIEntries r)
    (gTrackedDEntries r) (gPendingIInvalidationSources r) (gPendingDInvalidationSources r)
    (pCurITLB r) (pCurDTLB r) (CurITLBMode r) (CurDTLBMode r) (last_ptab_area r).
Definition set_tlbs (v : gmap slot TLBEntry) (r : mmu_state) : mmu_state :=
  mk_mmu_state (ibat_array r) (dbat_array r) (tlb603 r) (tlb603_lru r) v (gTrackedIEntries r)
    (gTrackedDEntries r) (gPendingIInvalidationSources r) (gPendingDInvalidationSources r)
    (pCurITLB r) (pCurDTLB r) (CurITLBMode r) (CurDTLBMode r) (last_ptab_area r).
Definition set_gTrackedIEntries (v : list slot) (r : mmu_state) : mmu_state :=
  mk_mmu_state (ibat_array r) (dbat_array r) (tlb603 r) (tlb603_lru r) (tlbs r) v
    (gTrackedDEntries r) (gPendingIInvalidationSources r) (gPendingDInvalidationSources r)
    (pCurITLB r) (pCurDTLB r) (CurITLBMode r) (CurDTLBMode r) (last_ptab_area r).
Definition set_gTrackedDEntries (v : list slot) (r : mmu_state) : mmu_state :=
  mk_mmu_state (ibat_array r) (dbat_array r) (tlb603 r) (tlb603_lru r) (tlbs r)
    (gTrackedIEntries r) v (gPendingIInvalidationSources r) (gPendingDInvalidationSources r)
    (pCurITLB r) (pCurDTLB r) (CurITLBMode r) (CurDTLBMode r) (last_ptab_area r).
Definition set_gPendingIInvalidationSources (v : Z) (r : mmu_state) : mmu_state :=
  mk_mmu_state (ibat_array r) (dbat_array r) (tlb603 r) (tlb603_lru r) (tlbs r)
    (gTrackedIEntries r) (gTrackedDEntries r) v (gPendingDInvalidationSources r) (pCurITLB r)
    (pCurDTLB r) (CurITLBMode r) (CurDTLBMode r) (last_ptab_area r).
Definition set_gPendingDInvalidationSources (v : Z) (r : mmu_state) : mmu_state :=
  mk_mmu_state (ibat_array r) (dbat_array r) (tlb603 r) (tlb603_lru r) (tlbs r)
    (gTrackedIEntries r) (gTrackedDEntries r) (gPendingIInvalidationSources r) v (pCurITLB r)
    (pCurDTLB r) (CurITLBMode r) (CurDTLBMode r) (last_ptab_area r).
Definition set_pCurITLB (v : Z) (r : mmu_state) : mmu_state :=
  mk_mmu_state (ibat_array r) (dbat_array r) (tlb603 r) (tlb603_lru r) (tlbs r)
    (gTrackedIEntries r) (gTrackedDEntries r) (gPendingIInvalidationSources r)
    (gPendingDInvalidationSources r) v (pCurDTLB r) (CurITLBMode r) (CurDTLBMode r)
    (last_ptab_area r).
Definition set_pCurDTLB (v : Z) (r : mmu_state) : mmu_state :=
  mk_mmu_state (ibat_array r) (dbat_array r) (tlb603 r) (tlb603_lru r) (tlbs r)
    (gTrackedIEntries r) (gTrackedDEntries r) (gPendingIInvalidationSources r)
    (gPendingDInvalidationSources r) (pCurITLB r) v (CurITLBMode r) (CurDTLBMode r)
    (last_ptab_area r).
Definition set_CurITLBMode (v : Z) (r : mmu_state) : mmu_state :=
  mk_mmu_state (ibat_array r) (dbat_array r) (tlb603 r) (tlb603_lru r) (tlbs r)
    (gTrackedIEntries r) (gTrackedDEntries r) (gPendingIInvalidationSources r)
    (gPendingDInvalidationSources r) (pCurITLB r) (pCurDTLB r) v (CurDTLBMode r) (last_ptab_area
    r).
Definition set_CurDTLBMode (v : Z) (r : mmu_state) : mmu_state :=
  mk_mmu_state (ibat_array r) (dbat_array r) (tlb603 r) (tlb603_lru r) (tlbs r)
    (gTrackedIEntries r) (gTrackedDEntries r) (gPendingIInvalidationSources r)
    (gPendingDInvalidationSources r) (pCurITLB r) (pCurDTLB r) (CurITLBMode r) v (last_ptab_area
    r).
Definition set_last_ptab_area (v : AddressMapEntry) (r : mmu_state) : mmu_state :=
  mk_mmu_state (ibat_array r) (dbat_array r) (tlb603 r) (tlb603_lru r) (tlbs r)
    (gTrackedIEntries r) (gTrackedDEntries r) (gPendingIInvalidationSources r)
    (gPendingDInvalidationSources r) (pCurITLB r) (pCurDTLB r) (CurITLBMode r) (CurDTLBMode r)
    v.

(** All of it. *)
Record machine := mk_machine {
  cpu : ppc_state;
  cfg : cpu_config;
  ex : exec_state;
  vt : virtual_time;
  tb : timebase;
  mmu : mmu_state;
  mem_ctrl : MemCtrlBase;
  timers : TimerManager timer_callback;
  io_log : list io_event;
  fenv : fp_env
}.
Definition set_cpu (v : ppc_state) (r : machine) : machine :=
  mk_machine v (cfg r) (ex r) (vt r) (tb r) (mmu r) (mem_ctrl r) (timers r) (io_log r) (fenv r).
Definition set_cfg (v : cpu_config) (r : machine) : machine :=
  mk_machine (cpu r) v (ex r) (vt r) (tb r) (mmu r) (mem_ctrl r) (timers r) (io_log r) (fenv r).
Definition set_ex (v : exec_state) (r : machine) : machine :=
  mk_machine (cpu r) (cfg r) v (vt r) (tb r) (mmu r) (mem_ctrl r) (timers r) (io_log r) (fenv r).
Definition set_vt (v : virtual_time) (r : machine) : machine :=
  mk_machine (cpu r) (cfg r) (ex r) v (tb r) (mmu r) (mem_ctrl r) (timers r) (io_log r) (fenv r).
Definition set_tb (v : timebase) (r : machine) : machine :=
  mk_machine (cpu r) (cfg r) (ex r) (vt r) v (mmu r) (mem_ctrl r) (timers r) (io_log r) (fenv r).
Definition set_mmu (v : mmu_state) (r : machine) : machine :=
  mk_machine (cpu r) (cfg r) (ex r) (vt r) (tb r) v (mem_ctrl r) (timers r) (io_log r) (fenv r).
Definition set_mem_ctrl (v : MemCtrlBase) (r : machine) : machine :=
  mk_machine (cpu r) (cfg r) (ex r) (vt r) (tb r) (mmu r) v (timers r) (io_log r) (fenv r).
Definition set_timers (v : TimerManager timer_callback) (r : machine) : machine :=
  mk_machine (cpu r) (cfg r) (ex r) (vt r) (tb r) (mmu r) (mem_ctrl r) v (io_log r) (fenv r).
Definition set_io_log (v : list io_event) (r : machine) : machine :=
  mk_machine (cpu r) (cfg r) (ex r) (vt r) (tb r) (mmu r) (mem_ctrl r) (timers r) v (fenv r).
Definition set_fenv (v : fp_env) (r : machine) : machine :=
  mk_machine (cpu r) (cfg r) (ex r) (vt r) (tb r) (mmu r) (mem_ctrl r) (timers r) (io_log r) v.

Definition upd_cfg (f : cpu_config -> cpu_config) (m : machine) : machine := set_cfg (f (cfg m)) m.
Definition upd_ex (f : exec_state -> exec_state) (m : machine) : machine := set_ex (f (ex m)) m.
Definition upd_vt (f : virtual_time -> virtual_time) (m : machine) : machine := set_vt (f (vt m)) m.
Definition upd_tb (f : timebase -> timebase) (m : machine) : machine := set_tb (f (tb m)) m.
Definition upd_mmu (f : mmu_state -> mmu_state) (m : machine) : machine := set_mmu (f (mmu m)) m.
Definition upd_fenv (f : fp_env -> fp_env) (m : machine) : machine := set_fenv (f (fenv m)) m.
Definition upd_cpu (f : ppc_state -> ppc_state) (m : machine) : machine := set_cpu (f (cpu m)) m.

(** ** Devices

    Devices are not part of this file: what reading or writing a device register
    does (given the device, the start of its region, the offset, the value and the
    size) and what a device's timer does to the machine is arbitrary. *)
Class Devices := {
  dev_read : Z -> Z -> Z -> Z -> M machine Z;
  dev_write : Z -> Z -> Z -> Z -> Z -> M machine unit;
  dev_timer : Z -> Z -> Z -> M machine unit
}.

(** ** Virtual time (cpu/ppc/ppcexec.cpp) *)

(* [cpu/ppc/ppcexec.cpp:368-375] *)
Definition get_virt_time_ns (m : machine) : Z :=
  if g_realtime (vt m) then u64 (cpu_now_ns (vt m) - g_nanoseconds_base (vt m))
  else u64 (icnt_time_offset_ns (vt m) + u64 (g_icycles (vt m) * icnt_period_ns (vt m))).

(* [cpu/ppc/ppcexec.cpp:422-426] *)
Definition force_cycle_counter_reload (m : machine) : machine :=
  upd_ex (set_exec_timer true) m.

#[export] Instance machine_timer_host : TimerHost machine timer_callback := {
  get_tm := timers;
  set_tm := set_timers;
  get_time_now := get_virt_time_ns;
  notify_timer_changes := force_cycle_counter_reload;
  default_cb := cb_device 0
}.

#[export] Instance machine_timer_laws : TimerHostLaws machine timer_callback.
Proof. by split; intros; try destruct s. Qed.

(** ** Lifting register operations *)

Definition mcpu (f : ppc_state -> ppc_state) : M machine unit := modify (upd_cpu f).
Definition set_nia (v : Z) : M machine unit := modify (upd_ex (set_ppc_next_instruction_address v)).
Definition set_flags (v : Z) : M machine unit := modify (upd_ex (set_exec_flags v)).
Definition set_m_spr (i v : Z) : M machine unit := mcpu (set_spr i v).

(** ** The type invariant *)

Record tb_ok (b : timebase) : Prop := mk_tb_ok {
  tbo_freq : 0 <= tbr_freq_ghz b < 2 ^ 32;
  tbo_shift : 0 <= tbr_freq_shift b <= 32;
  tbo_period : 0 <= tbr_period_ns b < 2 ^ 64;
  tbo_rtc_lo : 0 <= rtc_lo b < 2 ^ 32;
  tbo_rtc_hi : 0 <= rtc_hi b < 2 ^ 32;
  tbo_dec : 0 <= dec_wr_value b < 2 ^ 32;
  tbo_tbr : 0 <= tbr_wr_value b < 2 ^ 64
}.

Record machine_ok (m : machine) : Prop := mk_machine_ok {
  mo_cpu : ppc_ok (cpu m);
  mo_nia : 0 <= ppc_next_instruction_address (ex m) < 2 ^ 32;
  mo_flags : 0 <= exec_flags (ex m) < 2 ^ 32;
  mo_shadow : file_ok 32 (ppc_shadow_gprs (ex m));
  mo_tb : tb_ok (tb m)
}.

(** ** Preservation of the invariant

    One lemma per way of updating the machine; [machine_ok_tac] applies them. *)

Lemma mok_cpu f m : machine_ok m -> ppc_ok (f (cpu m)) -> machine_ok (upd_cpu f m).
Proof. intros [] ?. by split. Qed.
Lemma mok_mmu f m : machine_ok m -> machine_ok (upd_mmu f m).
Proof. intros []. by split. Qed.
Lemma mok_tb f m : machine_ok m -> (tb_ok (tb m) -> tb_ok (f (tb m))) -> machine_ok (upd_tb f m).
Proof. intros [] H. split; try done. by apply H. Qed.
Lemma mok_timers t m : machine_ok m -> machine_ok (set_timers t m).
Proof. intros []. by split. Qed.

(** What an update of the execution state may change freely. *)
Definition ex_ok (e : exec_state) : Prop :=
  0 <= ppc_next_instruction_address e < 2 ^ 32 /\ 0 <= exec_flags e < 2 ^ 32 /\
  file_ok 32 (ppc_shadow_gprs e).

Lemma mok_ex_ok m : machine_ok m -> ex_ok (ex m).
Proof. by intros []. Qed.
Lemma mok_ex f m : machine_ok m -> (ex_ok (ex m) -> ex_ok (f (ex m))) -> machine_ok (upd_ex f m).
Proof. intros [] H. destruct H as (?&?&?); [done|]. by split. Qed.

(** Updates of [exec_state] that leave the words alone. *)
Lemma mok_ex_frame f m : machine_ok m ->
  ppc_next_instruction_address (f (ex m)) = ppc_next_instruction_address (ex m) ->
  exec_flags (f (ex m)) = exec_flags (ex m) -> ppc_shadow_gprs (f (ex m)) = ppc_shadow_gprs (ex m) ->
  machine_ok (upd_ex f m).
Proof. intros Hm E1 E2 E3. apply mok_ex; [done|]. unfold ex_ok. by rewrite E1, E2, E3. Qed.

Lemma mok_nia v m : machine_ok m -> 0 <= v < 2 ^ 32 ->
  machine_ok (upd_ex (set_ppc_next_instruction_address v) m).
Proof. intros Hm Hv. apply mok_ex; [done|]. by intros (?&?&?). Qed.
Lemma mok_flags v m : machine_ok m -> 0 <= v < 2 ^ 32 -> machine_ok (upd_ex (set_exec_flags v) m).
Proof. intros Hm Hv. apply mok_ex; [done|]. by intros (?&?&?). Qed.

Lemma mok_spr i v m : machine_ok m -> 0 <= v < 2 ^ 32 -> machine_ok (upd_cpu (set_spr i v) m).
Proof. intros Hm Hv. apply mok_cpu; [done|]. apply set_spr_ok; [apply Hm | done]. Qed.
Lemma mok_gpr i v m : machine_ok m -> 0 <= v < 2 ^ 32 -> machine_ok (upd_cpu (set_gpr i v) m).
Proof. intros Hm Hv. apply mok_cpu; [done|]. apply set_gpr_ok; [apply Hm | done]. Qed.
Lemma mok_msr v m : machine_ok m -> 0 <= v < 2 ^ 32 -> machine_ok (upd_cpu (with_msr v) m).
Proof. intros Hm Hv. apply mok_cpu; [done|]. apply with_msr_ok; [apply Hm | done]. Qed.

Lemma mok_get_spr m i : machine_ok m -> 0 <= (spr (cpu m)).[i] < 2 ^ 32.
Proof. intros Hm. apply ok_get_spr, Hm. Qed.
Lemma mok_get_gpr m i : machine_ok m -> 0 <= (gpr (cpu m)).[i] < 2 ^ 32.
Proof. intros Hm. apply ok_get_gpr, Hm. Qed.
Lemma mok_get_msr m : machine_ok m -> 0 <= msr (cpu m) < 2 ^ 32.
Proof. intros Hm. apply Hm. Qed.

#[export] Hint Resolve mok_mmu mok_timers mok_nia mok_flags mok_spr mok_gpr mok_msr
  mok_get_spr mok_get_gpr mok_get_msr u32_range : preserve.

(** A machine in the middle of a program. *)
Definition demo_machine : machine :=
  mk_machine demo_state (mk_cpu_config false false false PowNone 0)
    (mk_exec_state 0 0 false false false false true po_none false ∅ [] 24)
    (mk_virtual_time false 0 0 4 16 16 0 0)
    (mk_timebase 0 0 0 0x06666666 0 (40 * 2 ^ 32) 0 0 0 0)
    (mk_mmu_state ∅ ∅ ∅ ∅ ∅ [] [] 0 0 1 1 0 0 (mkEntry 0 0xFFFFFFFF 0xFFFFFFFF 0 0 0 0))
    empty_ctrl (mkTimerManager [] ∅ false) [] (mk_fp_env 0 no_flags).

Lemma demo_machine_ok : machine_ok demo_machine.
Proof.
  split; try (cbn; lia); [exact demo_ok | by apply file_ok_empty | split; cbn; lia].
Qed.
