(* ===== verification/Branch.v ===== *)
(** * Branch instructions (cpu/ppc/ppcopcodes.cpp)

    A branch sets [ppc_next_instruction_address] and [exec_flags]; the
    interpreter loop then continues there.  A branch that is not taken leaves
    both alone. *)
From S2P Require Import Prelude Word PpcState Machine.

(** [ppc_next_instruction_address = a; exec_flags = EXEF_BRANCH;] *)
Definition take_branch (a : Z) (m : machine) : machine :=
  upd_ex (fun e => set_exec_flags EXEF.EXEF_BRANCH (set_ppc_next_instruction_address (u32 a) e)) m.

Definition mspr (m : machine) (i : Z) : Z := (spr (cpu m)).[i].

(* [cpu/ppc/ppcopcodes.cpp:1264-1277] *)
Definition ppc_b (l : field_lk) (a : field_aa) (opcode : Z) (m : machine) : machine :=
  let adr_li := Z.shiftr (s32 (Z.shiftl (Z.land opcode (Z.lnot 3)) 6)) 6 in
  let nia := if aa a then u32 adr_li else u32 (pc (cpu m) + adr_li) in
  let m := upd_ex (set_ppc_next_instruction_address nia) m in
  let m := if lk l then upd_cpu (set_spr SPR.LR (u32 (pc (cpu m) + 4))) m else m in
  upd_ex (set_exec_flags EXEF.EXEF_BRANCH) m.

(** The two conditions, as the code computes them. *)
Definition ctr_ok (br_bo ctr : Z) : Z :=
  Z.lor (Z.land br_bo 0x04) (b2z (eqb (negb (ctr =? 0)) (negb (test br_bo 0x02)))).
Definition cnd_ok (br_bo br_bi cr : Z) : Z :=
  Z.lor (Z.land br_bo 0x10)
    (b2z (eqb (negb (test cr (Z.shiftr 0x80000000 br_bi))) (negb (test br_bo 0x08)))).

(* [cpu/ppc/ppcopcodes.cpp:1284-1308] *)
Definition ppc_bc (l : field_lk) (a : field_aa) (opcode : Z) (m : machine) : machine :=
  let br_bo := Z.land (Z.shiftr opcode 21) 0x1F in
  let br_bi := Z.land (Z.shiftr opcode 16) 0x1F in
  let br_bd := s16 (Z.land opcode (Z.lnot 3)) in
  let m := if negb (test br_bo 0x04) then upd_cpu (set_spr SPR.CTR (u32 (mspr m SPR.CTR - 1))) m else m in
  let c_ok := ctr_ok br_bo (mspr m SPR.CTR) in
  let d_ok := cnd_ok br_bo br_bi (cr (cpu m)) in
  let m := if negb (c_ok =? 0) && negb (d_ok =? 0) then
             take_branch (if aa a then br_bd else pc (cpu m) + br_bd) m
           else m in
  if lk l then upd_cpu (set_spr SPR.LR (u32 (pc (cpu m) + 4))) m else m.

(* [cpu/ppc/ppcopcodes.cpp:1315-1343] *)
Definition ppc_bcctr (l : field_lk) (for601 : field_601) (opcode : Z) (m : machine) : machine :=
  let br_bo := Z.land (Z.shiftr opcode 21) 0x1F in
  let br_bi := Z.land (Z.shiftr opcode 16) 0x1F in
  let ctr := mspr m SPR.CTR in
  let new_ctr := if f601 for601 then u32 (ctr - 1) else ctr in
  let m := if f601 for601 && negb (test br_bo 0x04)
           then upd_cpu (set_spr SPR.CTR new_ctr) m else m in
  let c_ok := ctr_ok br_bo new_ctr in
  let d_ok := cnd_ok br_bo br_bi (cr (cpu m)) in
  let m := if negb (c_ok =? 0) && negb (d_ok =? 0) then take_branch (Z.land ctr (Z.lnot 3)) m else m in
  if lk l then upd_cpu (set_spr SPR.LR (u32 (pc (cpu m) + 4))) m else m.

(* [cpu/ppc/ppcopcodes.cpp:1350-1370] *)
Definition ppc_bclr (l : field_lk) (opcode : Z) (m : machine) : machine :=
  let br_bo := Z.land (Z.shiftr opcode 21) 0x1F in
  let br_bi := Z.land (Z.shiftr opcode 16) 0x1F in
  let m := if negb (test br_bo 0x04) then upd_cpu (set_spr SPR.CTR (u32 (mspr m SPR.CTR - 1))) m else m in
  let c_ok := ctr_ok br_bo (mspr m SPR.CTR) in
  let d_ok := cnd_ok br_bo br_bi (cr (cpu m)) in
  let m := if negb (c_ok =? 0) && negb (d_ok =? 0)
           then take_branch (Z.land (mspr m SPR.LR) (Z.lnot 3)) m else m in
  if lk l then upd_cpu (set_spr SPR.LR (u32 (pc (cpu m) + 4))) m else m.

(** ** Specification

    BO and BI as the manual numbers their bits: BO[0] ignores the condition,
    BO[1] is the value wanted, BO[2] ignores CTR, BO[3] wants CTR = 0. *)

Definition bo_bit (opcode n : Z) : bool := Z.testbit opcode (25 - n).
Definition branch_taken (opcode ctr cr : Z) : bool :=
  (bo_bit opcode 2 || xorb (negb (ctr =? 0)) (bo_bit opcode 3)) &&
  (bo_bit opcode 0 || eqb (Z.testbit cr (31 - field_a opcode)) (bo_bit opcode 1)).

(** CTR after a branch that counts. *)
Definition count_down (opcode ctr : Z) : Z := if bo_bit opcode 2 then ctr else (ctr - 1) mod 2 ^ 32.

(** The effect of a branch: decremented CTR, continuation, link. *)
Definition branch_effect (counts : bool) (link : bool) (taken : bool) (dest : Z)
    (opcode : Z) (m m' : machine) : Prop :=
  m' = (let m1 := if counts && negb (bo_bit opcode 2)
                  then upd_cpu (set_spr SPR.CTR ((mspr m SPR.CTR - 1) mod 2 ^ 32)) m else m in
        let m2 := if taken then take_branch dest m1 else m1 in
        if link then upd_cpu (set_spr SPR.LR ((pc (cpu m) + 4) mod 2 ^ 32)) m2 else m2).

(** ** Lemmas *)

Lemma bo_field opcode k : 0 <= k < 5 ->
  test (Z.land (Z.shiftr opcode 21) 0x1F) (2 ^ k) = bo_bit opcode (4 - k).
Proof.
  intros Hk. rewrite test_pow2, Z.land_spec, Z.shiftr_spec by lia. unfold bo_bit.
  change 0x1F with (Z.ones 5). rewrite Z.ones_spec_low, andb_true_r by lia. f_equal. lia.
Qed.

Lemma lor_nonzero x b : negb (Z.lor x (b2z b) =? 0) = negb (x =? 0) || b.
Proof.
  destruct (Z.eqb_spec (Z.lor x (b2z b)) 0) as [E|E]; simpl.
  - apply Z.lor_eq_0_iff in E as [-> Eb]. by destruct b.
  - destruct (Z.eqb_spec x 0) as [->|]; [|done]. rewrite Z.lor_0_l in E. by destruct b.
Qed.

Lemma ctr_ok_spec opcode ctr :
  negb (ctr_ok (Z.land (Z.shiftr opcode 21) 0x1F) ctr =? 0) =
  bo_bit opcode 2 || xorb (negb (ctr =? 0)) (bo_bit opcode 3).
Proof.
  unfold ctr_ok. rewrite lor_nonzero. change 0x02 with (2 ^ 1). rewrite (bo_field opcode 1) by lia.
  change (negb (Z.land ?x 0x04 =? 0)) with (test x (2 ^ 2)). rewrite (bo_field opcode 2) by lia.
  change (4 - 2) with 2. change (4 - 1) with 3.
  f_equal. by destruct (negb (ctr =? 0)), (bo_bit opcode 3).
Qed.

Lemma cnd_ok_spec opcode cr :
  negb (cnd_ok (Z.land (Z.shiftr opcode 21) 0x1F) (Z.land (Z.shiftr opcode 16) 0x1F) cr =? 0) =
  bo_bit opcode 0 || eqb (Z.testbit cr (31 - field_a opcode)) (bo_bit opcode 1).
Proof.
  unfold cnd_ok. rewrite lor_nonzero. change 0x08 with (2 ^ 3). rewrite (bo_field opcode 3) by lia.
  change (negb (Z.land ?x 0x10 =? 0)) with (test x (2 ^ 4)). rewrite (bo_field opcode 4) by lia.
  change (4 - 4) with 0. change (4 - 3) with 1. fold (field_a opcode).
  pose proof (field_a_range opcode).
  replace (Z.shiftr 0x80000000 (field_a opcode)) with (2 ^ (31 - field_a opcode)).
  2:{ rewrite Z.shiftr_div_pow2, Z.pow_sub_r by lia. reflexivity. }
  rewrite test_pow2 by lia. f_equal.
  by destruct (Z.testbit cr (31 - field_a opcode)), (bo_bit opcode 1).
Qed.

Lemma bo_counts opcode : negb (test (Z.land (Z.shiftr opcode 21) 0x1F) 0x04) = negb (bo_bit opcode 2).
Proof. change 0x04 with (2 ^ 2). by rewrite (bo_field opcode 2) by lia. Qed.

Lemma mspr_set i v m : mspr (upd_cpu (set_spr i v) m) i = v.
Proof. unfold mspr, upd_cpu, set_spr. cbn. apply rget_rset_eq. Qed.
Lemma mspr_set_ne i j v m : i <> j -> mspr (upd_cpu (set_spr i v) m) j = mspr m j.
Proof. intros. unfold mspr, upd_cpu, set_spr. cbn. by apply rget_rset_ne. Qed.

Lemma bc_effect l a opcode m :
  let ctr := count_down opcode (mspr m SPR.CTR) in
  branch_effect true (lk l) (branch_taken opcode ctr (cr (cpu m)))
    (if aa a then s16 (Z.land opcode (Z.lnot 3)) else pc (cpu m) + s16 (Z.land opcode (Z.lnot 3)))
    opcode m (ppc_bc l a opcode m).
Proof.
  intros ctr. unfold branch_effect, ppc_bc. rewrite bo_counts, ctr_ok_spec, cnd_ok_spec.
  subst ctr. unfold branch_taken, count_down. cbn [andb].
  destruct (bo_bit opcode 2) eqn:E2; cbn [negb andb orb].
  - by destruct (_ || _), (lk l).
  - rewrite mspr_set. cbn [cpu upd_cpu set_cpu cr set_spr with_spr pc].
    change (u32 ?x) with (x mod 2 ^ 32). by destruct (_ && _), (lk l).
Qed.

Lemma bclr_effect l opcode m :
  let ctr := count_down opcode (mspr m SPR.CTR) in
  branch_effect true (lk l) (branch_taken opcode ctr (cr (cpu m)))
    (Z.land (mspr m SPR.LR) (Z.lnot 3)) opcode m (ppc_bclr l opcode m).
Proof.
  intros ctr. unfold branch_effect, ppc_bclr. rewrite bo_counts, ctr_ok_spec, cnd_ok_spec.
  subst ctr. unfold branch_taken, count_down. cbn [andb].
  destruct (bo_bit opcode 2) eqn:E2; cbn [negb andb orb].
  - by destruct (_ || _), (lk l).
  - rewrite mspr_set, mspr_set_ne by done. cbn [cpu upd_cpu set_cpu cr set_spr with_spr pc].
    change (u32 ?x) with (x mod 2 ^ 32). by destruct (_ && _), (lk l).
Qed.

Lemma bcctr_effect l for601 opcode m :
  branch_effect (f601 for601) (lk l)
    (branch_taken opcode (if f601 for601 then (mspr m SPR.CTR - 1) mod 2 ^ 32 else mspr m SPR.CTR)
       (cr (cpu m)))
    (Z.land (mspr m SPR.CTR) (Z.lnot 3)) opcode m (ppc_bcctr l for601 opcode m).
Proof.
  unfold branch_effect, ppc_bcctr. rewrite bo_counts, ctr_ok_spec, cnd_ok_spec.
  unfold branch_taken. destruct (f601 for601); cbn [andb].
  - change (u32 ?x) with (x mod 2 ^ 32).
    destruct (bo_bit opcode 2) eqn:E2; cbn [negb andb orb];
      cbn [cpu upd_cpu set_cpu cr set_spr with_spr pc]; first
      [by destruct (_ || _), (lk l) | by destruct (_ && _), (lk l)].
  - by destruct (_ && _), (lk l).
Qed.

(** The displacement of [b]: the low 26 bits, sign-extended, word aligned. *)
Lemma b_displacement opcode :
  Z.shiftr (s32 (Z.shiftl (Z.land opcode (Z.lnot 3)) 6)) 6 =
  swrap 26 (Z.land opcode (Z.lnot 3)).
Proof.
  set (x := Z.land opcode (Z.lnot 3)). unfold swrap. rewrite Z.shiftl_mul_pow2, Z.shiftr_div_pow2 by lia.
  pose proof (Z.div_mod (x + 2 ^ (26 - 1)) (2 ^ 26) ltac:(lia)) as E.
  set (q := (x + 2 ^ (26 - 1)) / 2 ^ 26) in *.
  pose proof (Z.mod_pos_bound (x + 2 ^ (26 - 1)) (2 ^ 26) ltac:(lia)) as Hr.
  replace ((x * 2 ^ 6 + 2 ^ (32 - 1)) mod 2 ^ 32) with (((x + 2 ^ (26 - 1)) mod 2 ^ 26) * 2 ^ 6).
  - replace (_ * 2 ^ 6 - 2 ^ (32 - 1)) with (((x + 2 ^ (26 - 1)) mod 2 ^ 26 - 2 ^ (26 - 1)) * 2 ^ 6) by lia.
    apply Z.div_mul. lia.
  - apply Z.mod_unique with (q := q); lia.
Qed.

(** ** Properties *)

(** C30: every conditional branch decides as the architecture says: the branch is
    taken exactly when the CTR condition (after the decrement BO asks for) and the
    CR condition hold; it then continues at the word-aligned target in
    [exec_flags = EXEF_BRANCH]; LR receives pc + 4 whether or not it is taken;
    CTR is decremented exactly when BO counts ([bcctr] only on the 601); nothing
    else changes.  [b] always branches by its sign-extended 26-bit displacement. *)
Theorem branch_instructions_correct l a for601 opcode m :
  let ctr := count_down opcode (mspr m SPR.CTR) in
  let cr := cr (cpu m) in
  branch_effect true (lk l) (branch_taken opcode ctr cr)
    ((if aa a then 0 else pc (cpu m)) + s16 (Z.land opcode (Z.lnot 3))) opcode m (ppc_bc l a opcode m) /\
  branch_effect true (lk l) (branch_taken opcode ctr cr)
    (Z.land (mspr m SPR.LR) (Z.lnot 3)) opcode m (ppc_bclr l opcode m) /\
  branch_effect (f601 for601) (lk l)
    (branch_taken opcode (if f601 for601 then (mspr m SPR.CTR - 1) mod 2 ^ 32 else mspr m SPR.CTR) cr)
    (Z.land (mspr m SPR.CTR) (Z.lnot 3)) opcode m (ppc_bcctr l for601 opcode m) /\
  branch_effect false (lk l) true
    ((if aa a then 0 else pc (cpu m)) + swrap 26 (Z.land opcode (Z.lnot 3))) opcode m (ppc_b l a opcode m).
Proof.
  intros ctr cr'. split_and!.
  - pose proof (bc_effect l a opcode m) as H. by destruct (aa a).
  - apply bclr_effect.
  - apply bcctr_effect.
  - unfold branch_effect, ppc_b. rewrite b_displacement. cbn [andb].
    by destruct (aa a), (lk l).
Qed.

(** A subroutine call returns: after [bl], the return address of [blr] (with a
    BO that always branches) is the instruction after the call. *)
Theorem bl_blr_returns op_bl op_blr m f :
  bo_bit op_blr 0 = true -> bo_bit op_blr 2 = true ->
  pc (cpu m) mod 4 = 0 ->
  (forall m, mspr (f m) SPR.LR = mspr m SPR.LR) ->
  let m1 := f (ppc_b LK1 AA0 op_bl m) in
  let m2 := ppc_bclr LK0 op_blr m1 in
  ppc_next_instruction_address (ex m2) = (pc (cpu m) + 4) mod 2 ^ 32 /\
  exec_flags (ex m2) = EXEF.EXEF_BRANCH.
Proof.
  intros H0 H2 Hal Hf m1 m2.
  pose proof (bclr_effect LK0 op_blr m1) as He. cbv zeta in He. fold m2 in He.
  unfold branch_effect, branch_taken, count_down in He. rewrite H0, H2 in He.
  cbn [andb orb negb lk] in He. rewrite He. cbn. split; [|done].
  unfold m1. rewrite Hf. unfold ppc_b. cbn [lk].
  change (mspr (upd_ex ?f ?m) ?i) with (mspr m i). rewrite mspr_set.
  change (Z.lnot 3) with (Z.lnot (Z.ones 2)). rewrite land_lnot_ones by lia.
  change (pc (cpu (upd_ex ?f ?m))) with (pc (cpu m)). unfold uwrap. zlia.
Qed.

(** bl +0x40 ; blr *)
Lemma bl_blr_returns_witness :
  pc (cpu demo_machine) = 0x2000 /\
  ppc_next_instruction_address (ex (ppc_bclr LK0 0x4E800020 (ppc_b LK1 AA0 0x48000041 demo_machine))) = 0x2004.
Proof.
  split; [reflexivity|].
  exact (proj1 (bl_blr_returns 0x48000041 0x4E800020 demo_machine id eq_refl eq_refl eq_refl
    (fun _ => eq_refl))).
Defined.

(** ** Counted loops *)

(** The execution of a loop closed by the counting branch [op] at its end:
    [body] is the rest of the loop; the flag is cleared by the interpreter
    before every pass. *)
Fixpoint run_counted_loop (fuel : nat) (body : machine -> machine) (op : Z) (m : machine)
    : option (nat * machine) :=
  match fuel with
  | O => None
  | S fuel =>
      let m := ppc_bc LK0 AA0 op (upd_ex (set_exec_flags 0) (body m)) in
      if exec_flags (ex m) =? 0 then Some (1%nat, m)
      else option_map (fun '(n, m) => (S n, m)) (run_counted_loop fuel body op m)
  end.

Lemma bdnz_step op m :
  bo_bit op 0 = true -> bo_bit op 2 = false -> bo_bit op 3 = false ->
  let m' := ppc_bc LK0 AA0 op (upd_ex (set_exec_flags 0) m) in
  mspr m' SPR.CTR = (mspr m SPR.CTR - 1) mod 2 ^ 32 /\
  exec_flags (ex m') = if (mspr m SPR.CTR - 1) mod 2 ^ 32 =? 0 then 0 else EXEF.EXEF_BRANCH.
Proof.
  intros H0 H2 H3 m'. pose proof (bc_effect LK0 AA0 op (upd_ex (set_exec_flags 0) m)) as He.
  cbv zeta in He. fold m' in He. unfold branch_effect, branch_taken, count_down in He.
  rewrite H0, H2, H3 in He. cbn [andb orb negb lk] in He.
  change (mspr (upd_ex ?f ?m) ?i) with (mspr m i) in He. rewrite xorb_false_r, andb_true_r in He.
  rewrite He. destruct (_ =? 0); cbn [negb].
  - split; [apply mspr_set | done].
  - change (mspr (take_branch ?a ?m) ?i) with (mspr m i). split; [apply mspr_set | done].
Qed.

(** A loop closed by [bdnz] whose body leaves CTR alone terminates, after
    exactly CTR passes - 2^32 of them when CTR starts at zero - with CTR = 0. *)
Theorem bdnz_loop_terminates op body m :
  bo_bit op 0 = true -> bo_bit op 2 = false -> bo_bit op 3 = false ->
  (forall m, mspr (body m) SPR.CTR = mspr m SPR.CTR) ->
  0 <= mspr m SPR.CTR < 2 ^ 32 ->
  let n := if mspr m SPR.CTR =? 0 then 2 ^ 32 else mspr m SPR.CTR in
  forall fuel, (Z.to_nat n <= fuel)%nat ->
  exists m', run_counted_loop fuel body op m = Some (Z.to_nat n, m') /\ mspr m' SPR.CTR = 0.
Proof.
  intros H0 H2 H3 Hbody Hctr n fuel Hfuel.
  assert (1 <= n <= 2 ^ 32 /\ (n - 1) mod 2 ^ 32 = (mspr m SPR.CTR - 1) mod 2 ^ 32) as [Hn Hm].
  { unfold n. destruct (Z.eqb_spec (mspr m SPR.CTR) 0) as [->|]; [by vm_compute|]. split; [lia | done]. }
  clearbody n. clear Hctr. revert n m Hn Hm Hfuel. induction fuel as [|fuel IH]; intros n m Hn Hm Hfuel; [lia|].
  cbn [run_counted_loop]. destruct (bdnz_step op (body m) H0 H2 H3) as [E1 E2].
  rewrite Hbody, <- Hm, (Z.mod_small (n - 1)) in E1, E2 by lia.
  rewrite E2. destruct (Z.eqb_spec (n - 1) 0) as [E|E].
  - assert (n = 1) as -> by lia. eexists. split; [done|]. by rewrite E1.
  - change (EXEF.EXEF_BRANCH =? 0) with false. cbv iota.
    destruct (IH (n - 1) (ppc_bc LK0 AA0 op (upd_ex (set_exec_flags 0) (body m)))) as (m' & Er & Ec);
      [lia | rewrite E1; f_equal; lia | lia |].
    rewrite Er. exists m'. cbn [option_map]. split; [|done].
    f_equal. f_equal. lia.
Qed.

(** bdnz -4 with CTR = 3 *)
Lemma bdnz_loop_terminates_witness :
  mspr demo_machine SPR.CTR = 3 /\
  exists m', run_counted_loop 5 id 0x4200FFFC demo_machine = Some (3%nat, m') /\ mspr m' SPR.CTR = 0.
Proof.
  split; [reflexivity|].
  exact (bdnz_loop_terminates 0x4200FFFC id demo_machine eq_refl eq_refl eq_refl
    (fun _ => eq_refl) ltac:(vm_compute; split; congruence) 5%nat
    ltac:(apply Nat.leb_le; vm_compute; reflexivity)).
Defined.
