(* ===== verification/Mmu.v ===== *)
(** * Address translation data (cpu/ppc/ppcmmu.cpp)

    The parts of the MMU that cannot raise an exception: block address
    translation and its registers, the page table geometry, the software TLBs
    and their invalidation, the 603 TLBs. *)
From S2P Require Import Prelude Word PpcState Timers MemCtrl HostMem Machine.

(** ** Block address translation *)

(* [cpu/ppc/ppcmmu.h:58-62] *)
Record BATResult := mkBATResult { br_hit : bool; br_prot : Z; br_phys : Z }.

Definition bat_at (a : gmap Z PPC_BAT_entry) (i : Z) : PPC_BAT_entry := default bat_zero (a !! i).

Definition msr_bit (mask : Z) (m : machine) : bool := test (msr (cpu m)) mask.

(** [phys_hi | (la & ~hi_mask)] *)
Definition bat_phys (e : PPC_BAT_entry) (la : Z) : Z :=
  Z.lor (bat_phys_hi e) (Z.land la (not32 (bat_hi_mask e))).

(** The loop over the four entries: the first one that matches. *)
Fixpoint first_bat (hit : PPC_BAT_entry -> bool) (a : gmap Z PPC_BAT_entry) (l : list Z)
    : option PPC_BAT_entry :=
  match l with
  | [] => None
  | i :: l => if hit (bat_at a i) then Some (bat_at a i) else first_bat hit a l
  end.

Definition access_conv (i : Z) : Z := nth (Z.to_nat i) [2; 2; 2; 1; 0; 1; 2; 1] 0.

(* [cpu/ppc/ppcmmu.cpp:120-160] *)
Definition mpc601_block_address_translation (la : Z) (m : machine) : BATResult :=
  let msr_pr := b2z (msr_bit MSR.PR m) in
  if test (sr (cpu m)).[Z.land (Z.shiftr la 28) 0x0F] 0x80000000 then mkBATResult false 0 0
  else
    match first_bat (fun e => bat_valid e && (Z.land la (bat_hi_mask e) =? bat_bepi e))
            (ibat_array (mmu m)) [0; 1; 2; 3] with
    | Some e =>
        let key := Z.lor (Z.land (Z.land (bat_access e) 1) msr_pr)
                         (Z.land (Z.land (Z.shiftr (bat_access e) 1) 1) (Z.lxor msr_pr 1)) in
        let prot := access_conv (Z.lor (Z.shiftl key 2) (bat_prot e)) in
        mkBATResult true prot (bat_phys e la)
    | None => mkBATResult false 0 0
    end.

Inductive BATType := IBAT | DBAT.
#[export] Instance BATType_eq_dec : EqDecision BATType.
Proof. solve_decision. Defined.

(* [cpu/ppc/ppcmmu.cpp:163-197] *)
Definition ppc_block_address_translation (type : BATType) (la : Z) (m : machine) : BATResult :=
  let msr_pr := msr_bit MSR.PR m in
  let bat_array := match type with IBAT => ibat_array (mmu m) | DBAT => dbat_array (mmu m) end in
  let access_bits := Z.lor (Z.shiftl (b2z (negb msr_pr)) 1) (b2z msr_pr) in
  match first_bat (fun e => test (bat_access e) access_bits &&
                            (Z.land la (bat_hi_mask e) =? bat_bepi e)) bat_array [0; 1; 2; 3] with
  | Some e => mkBATResult true (bat_prot e) (bat_phys e la)
  | None => mkBATResult false 0 0
  end.

(** ** Scheduling of invalidations *)

(* [cpu/ppc/ppcmmu.cpp:602-602] *)
Definition TLB_SIZE := 4096.
(* [cpu/ppc/ppcmmu.cpp:603-603] *)
Definition TLB2_WAYS := 4.

Module TLBFlags.
(* [cpu/ppc/ppcmmu.cpp:607-607] *)
Definition PAGE_MEM := Z.shiftl 1 0.
(* [cpu/ppc/ppcmmu.cpp:608-608] *)
Definition PAGE_IO := Z.shiftl 1 1.
(* [cpu/ppc/ppcmmu.cpp:609-609] *)
Definition PAGE_NOPHYS := Z.shiftl 1 2.
(* [cpu/ppc/ppcmmu.cpp:610-610] *)
Definition TLBE_FROM_BAT := Z.shiftl 1 3.
(* [cpu/ppc/ppcmmu.cpp:611-611] *)
Definition TLBE_FROM_PAT := Z.shiftl 1 4.
(* [cpu/ppc/ppcmmu.cpp:612-612] *)
Definition PAGE_WRITABLE := Z.shiftl 1 5.
(* [cpu/ppc/ppcmmu.cpp:613-613] *)
Definition PTE_SET_C := Z.shiftl 1 6.
(* [cpu/ppc/ppcmmu.cpp:614-614] *)
Definition TLBE_CTX_TRACKED := Z.shiftl 1 7.
End TLBFlags.

(* [cpu/ppc/ppcmmu.cpp:617-618] *)
Definition TLBE_FROM_TRANSLATION := Z.lor TLBFlags.TLBE_FROM_BAT TLBFlags.TLBE_FROM_PAT.

Definition upd_m_mmu (f : mmu_state -> mmu_state) : machine -> machine := upd_mmu f.

Definition pending_sources (t : TLBType) (u : mmu_state) : Z :=
  match t with ITLB => gPendingIInvalidationSources u | DTLB => gPendingDInvalidationSources u end.
Definition set_pending_sources (t : TLBType) (v : Z) (u : mmu_state) : mmu_state :=
  match t with
  | ITLB => set_gPendingIInvalidationSources v u
  | DTLB => set_gPendingDInvalidationSources v u
  end.
Definition tracked_entries (t : TLBType) (u : mmu_state) : list slot :=
  match t with ITLB => gTrackedIEntries u | DTLB => gTrackedDEntries u end.
Definition set_tracked_entries (t : TLBType) (l : list slot) (u : mmu_state) : mmu_state :=
  match t with ITLB => set_gTrackedIEntries l u | DTLB => set_gTrackedDEntries l u end.

(** The vector of callbacks, last one first. *)
(* [cpu/ppc/ppcopcodes.cpp:76-78] *)
Definition add_ctx_sync_action (c : CtxSyncCallback) (m : machine) : machine :=
  upd_ex (fun e => set_gCtxSyncCallbacks (c :: gCtxSyncCallbacks e) e) m.

(* [cpu/ppc/ppcmmu.cpp:701-717] *)
Definition schedule_tlb_invalidation (t : TLBType) (sources_to_invalidate : Z) (m : machine) : machine :=
  let m := if pending_sources t (mmu m) =? 0
           then add_ctx_sync_action (sync_tlb_invalidate_tracked t) m else m in
  upd_mmu (fun u => set_pending_sources t (Z.lor (pending_sources t u) sources_to_invalidate) u) m.

(* [cpu/ppc/ppcmmu.cpp:1351-1357] *)
Definition mmu_pat_ctx_changed (m : machine) : machine :=
  let m := schedule_tlb_invalidation ITLB TLBFlags.TLBE_FROM_PAT m in
  schedule_tlb_invalidation DTLB TLBFlags.TLBE_FROM_PAT m.

(** ** BAT registers *)

Definition m_spr (m : machine) (i : Z) : Z := (spr (cpu m)).[i].

(* [cpu/ppc/ppcmmu.cpp:1267-1300] *)
Definition mpc601_bat_update (bat_reg : Z) (m : machine) : machine :=
  let upper_reg_num := Z.land bat_reg 0xFFFFFFFE in
  let i := Z.shiftr (bat_reg - 528) 1 in
  let ibat_entry := bat_at (ibat_array (mmu m)) i in
  let dbat_entry := bat_at (dbat_array (mmu m)) i in
  let '(ie, de) :=
    if test (m_spr m (Z.lor bat_reg 1)) 0x40 then
      let bsm := Z.land (m_spr m (upper_reg_num + 1)) 0x3F in
      let hi_mask := not32 (Z.lor (Z.shiftl bsm 17) 0x1FFFF) in
      let e := mkBAT true (Z.land (Z.shiftr (m_spr m upper_reg_num) 2) 3)
                 (Z.land (m_spr m upper_reg_num) 3) (Z.land (m_spr m (upper_reg_num + 1)) hi_mask)
                 hi_mask (Z.land (m_spr m upper_reg_num) hi_mask) in
      (e, e)
    else
      (mkBAT false (bat_access ibat_entry) (bat_prot ibat_entry) (bat_phys_hi ibat_entry)
         (bat_hi_mask ibat_entry) (bat_bepi ibat_entry),
       mkBAT false (bat_access dbat_entry) (bat_prot dbat_entry) (bat_phys_hi dbat_entry)
         (bat_hi_mask dbat_entry) (bat_bepi dbat_entry)) in
  let m := upd_mmu (fun u => set_ibat_array (<[i := ie]> (ibat_array u)) u) m in
  let m := upd_mmu (fun u => set_dbat_array (<[i := de]> (dbat_array u)) u) m in
  let m := schedule_tlb_invalidation ITLB TLBE_FROM_TRANSLATION m in
  schedule_tlb_invalidation DTLB TLBE_FROM_TRANSLATION m.

(* [cpu/ppc/ppcmmu.cpp:1302-1305] *)
Definition mpc601_dbat_update (bat_reg : Z) (m : machine) : machine := m.

(** The entry computed from a BAT register pair; [valid] is not written. *)
Definition ppc_bat_entry (upper_reg_num : Z) (valid : bool) (m : machine) : PPC_BAT_entry :=
  let bl := Z.land (Z.shiftr (m_spr m upper_reg_num) 2) 0x7FF in
  let hi_mask := not32 (Z.lor (Z.shiftl bl 17) 0x1FFFF) in
  mkBAT valid (Z.land (m_spr m upper_reg_num) 3) (Z.land (m_spr m (upper_reg_num + 1)) 3)
    (Z.land (m_spr m (upper_reg_num + 1)) hi_mask) hi_mask (Z.land (m_spr m upper_reg_num) hi_mask).

(* [cpu/ppc/ppcmmu.cpp:1307-1327] *)
Definition ppc_ibat_update (bat_reg : Z) (m : machine) : machine :=
  let upper_reg_num := Z.land bat_reg 0xFFFFFFFE in
  let i := Z.shiftr (bat_reg - 528) 1 in
  let e := ppc_bat_entry upper_reg_num (bat_valid (bat_at (ibat_array (mmu m)) i)) m in
  let m := upd_mmu (fun u => set_ibat_array (<[i := e]> (ibat_array u)) u) m in
  schedule_tlb_invalidation ITLB TLBE_FROM_TRANSLATION m.

(* [cpu/ppc/ppcmmu.cpp:1329-1349] *)
Definition ppc_dbat_update (bat_reg : Z) (m : machine) : machine :=
  let upper_reg_num := Z.land bat_reg 0xFFFFFFFE in
  let i := Z.shiftr (bat_reg - 536) 1 in
  let e := ppc_bat_entry upper_reg_num (bat_valid (bat_at (dbat_array (mmu m)) i)) m in
  let m := upd_mmu (fun u => set_dbat_array (<[i := e]> (dbat_array u)) u) m in
  schedule_tlb_invalidation DTLB TLBE_FROM_TRANSLATION m.

(** The function pointers [ibat_update], [dbat_update] are set by the version. *)
(* [cpu/ppc/ppcmmu.cpp:2204-2212 ibat_update] *)
Definition ibat_update (bat_reg : Z) (m : machine) : machine :=
  if is_601 (cfg m) then mpc601_bat_update bat_reg m else ppc_ibat_update bat_reg m.
(* [cpu/ppc/ppcmmu.cpp:2204-2212 dbat_update] *)
Definition dbat_update (bat_reg : Z) (m : machine) : machine :=
  if is_601 (cfg m) then mpc601_dbat_update bat_reg m else ppc_dbat_update bat_reg m.

(** ** Page table geometry *)

(* [cpu/ppc/ppcmmu.cpp:199-206] *)
Definition calc_pteg_phys (hash : Z) (m : machine) : Z :=
  let sdr1_val := m_spr m SPR.SDR1 in
  Z.lor (Z.lor (Z.land sdr1_val 0xFFFF0000)
               (Z.land (Z.shiftl (Z.land sdr1_val 0x1FF) 16) (Z.shiftl (Z.land hash 0x7FC00) 6)))
        (Z.shiftl (Z.land hash 0x3FF) 6).

(** The loop over the eight entries of a group. *)
Fixpoint search_pteg_loop (n : nat) (m : machine) (pteg_addr pte_check : Z) : option Z :=
  match n with
  | O => None
  | S n =>
      if pte_check =? READ_DWORD_BE_A (host_mem (mem_ctrl m)) pteg_addr then Some pteg_addr
      else search_pteg_loop n m (pteg_addr + 8) pte_check
  end.

(** The matching word of a page table entry. *)
Definition pte_check_word (vsid page_index pteg_num : Z) : Z :=
  Z.lor (Z.lor (Z.lor 0x80000000 (shl32 vsid 7)) (Z.shiftl pteg_num 6)) (Z.shiftr page_index 10).

(* [cpu/ppc/ppcmmu.cpp:231-274] *)
Definition search_pteg (pteg_addr vsid page_index pteg_num : Z) (m : machine) : option Z :=
  search_pteg_loop 8 m pteg_addr (pte_check_word vsid page_index pteg_num).

(** ** MMU modes *)

(* [cpu/ppc/ppcmmu.cpp:763-812] *)
Definition mmu_change_mode (m : machine) : machine :=
  let pr := b2z (msr_bit MSR.PR m) in
  let mmu_mode := Z.lor (Z.shiftl (b2z (msr_bit MSR.IR m)) 1) pr in
  let m :=
    if negb (CurITLBMode (mmu m) =? mmu_mode) then
      let '(mode, arr) := if mmu_mode =? 2 then (2, 2) else if mmu_mode =? 3 then (3, 3) else (0, 1) in
      upd_mmu (fun u => set_CurITLBMode mode (set_pCurITLB arr u)) m
    else m in
  let mmu_mode := Z.lor (Z.shiftl (b2z (msr_bit MSR.DR m)) 1) pr in
  if negb (CurDTLBMode (mmu m) =? mmu_mode) then
    let '(mode, arr) := if mmu_mode =? 2 then (2, 2) else if mmu_mode =? 3 then (3, 3) else (0, 1) in
    upd_mmu (fun u => set_CurDTLBMode mode (set_pCurDTLB arr u)) m
  else m.

(** ** The software TLBs *)

Definition tlb_at (u : mmu_state) (s : slot) : TLBEntry := default tlb_empty (tlbs u !! s).
Definition set_tlb (s : slot) (e : TLBEntry) (u : mmu_state) : mmu_state := set_tlbs (<[s := e]> (tlbs u)) u.
Definition upd_tlb (s : slot) (f : TLBEntry -> TLBEntry) (u : mmu_state) : mmu_state :=
  set_tlb s (f (tlb_at u s)) u.

Definition with_tag (v : Z) (e : TLBEntry) := mkTLBEntry v (flags e) (lru_bits e) (target e) (phys_tag e).
Definition with_flags (v : Z) (e : TLBEntry) := mkTLBEntry (tag e) v (lru_bits e) (target e) (phys_tag e).
Definition with_lru (v : Z) (e : TLBEntry) := mkTLBEntry (tag e) (flags e) v (target e) (phys_tag e).

Definition cur_mode (t : TLBType) (u : mmu_state) : Z :=
  match t with ITLB => pCurITLB u | DTLB => pCurDTLB u end.

(** [&pCurXTLB1[i]] and [&pCurXTLB2[i * TLB2_WAYS + way]]. *)
Definition page_index_of (va : Z) : Z := Z.land (Z.shiftr va 12) (TLB_SIZE - 1).
Definition tlb1_slot (t : TLBType) (va : Z) (u : mmu_state) : slot :=
  mkSlot t false (cur_mode t u) (page_index_of va).
Definition tlb2_slot (t : TLBType) (va way : Z) (u : mmu_state) : slot :=
  mkSlot t true (cur_mode t u) (page_index_of va * TLB2_WAYS + way).

Definition page_tag (va : Z) : Z := Z.land va (Z.lnot 0xFFF).

(* [cpu/ppc/ppcmmu.cpp:648-660] *)
Definition track_translated_entry (t : TLBType) (s : slot) (u : mmu_state) : mmu_state :=
  let e := tlb_at u s in
  if negb (test (flags e) TLBE_FROM_TRANSLATION) || test (flags e) TLBFlags.TLBE_CTX_TRACKED then u
  else
    let u := set_tlb s (with_flags (Z.lor (flags e) TLBFlags.TLBE_CTX_TRACKED) e) u in
    set_tracked_entries t (tracked_entries t u ++ [s]) u.

Definition untrack (e : TLBEntry) : TLBEntry :=
  with_flags (Z.land (flags e) (Z.lnot TLBFlags.TLBE_CTX_TRACKED)) e.

(** One pass of the loop, with the entries retained so far. *)
Definition invalidate_step (sources : Z) (acc : list slot * mmu_state) (s : slot) : list slot * mmu_state :=
  let '(retained, u) := acc in
  let source := Z.land (flags (tlb_at u s)) TLBE_FROM_TRANSLATION in
  if test source sources then (retained, upd_tlb s (fun e => untrack (with_tag TLB_INVALID_TAG e)) u)
  else if negb (source =? 0) then (retained ++ [s], u)
  else (retained, upd_tlb s untrack u).

(* [cpu/ppc/ppcmmu.cpp:662-678] *)
Definition tlb_invalidate_tracked_entries (t : TLBType) (sources : Z) (u : mmu_state) : mmu_state :=
  let '(retained, u) := fold_left (invalidate_step sources) (tracked_entries t u) ([], u) in
  set_tracked_entries t retained u.

(* [cpu/ppc/ppcmmu.cpp:680-699 tlb_invalidate_tracked_entries] *)
Definition tlb_invalidate_pending (t : TLBType) (u : mmu_state) : mmu_state :=
  if pending_sources t u =? 0 then u
  else set_pending_sources t 0 (tlb_invalidate_tracked_entries t (pending_sources t u) u).

(* [cpu/ppc/ppcmmu.cpp:1183-1191] *)
Definition tlb_flush_all_pat (m : machine) : machine :=
  upd_mmu (fun u => tlb_invalidate_tracked_entries DTLB TLBFlags.TLBE_FROM_PAT
                      (tlb_invalidate_tracked_entries ITLB TLBFlags.TLBE_FROM_PAT u)) m.

(** The registered actions run from the last one registered; the vector cannot
    grow meanwhile. *)
Definition run_ctx_sync (c : CtxSyncCallback) (m : machine) : machine :=
  match c with sync_tlb_invalidate_tracked t => upd_mmu (tlb_invalidate_pending t) m end.

(* [cpu/ppc/ppcopcodes.cpp:69-74] *)
Definition do_ctx_sync (m : machine) : machine :=
  let m := fold_left (fun m c => run_ctx_sync c m) (gCtxSyncCallbacks (ex m)) m in
  upd_ex (set_gCtxSyncCallbacks []) m.

(* [cpu/ppc/ppcmmu.cpp:719-727] *)
Definition promote_tlb_entry (t : TLBType) (tlb1_entry tlb2_entry : slot) (u : mmu_state) : mmu_state :=
  let tracked := Z.land (flags (tlb_at u tlb1_entry)) TLBFlags.TLBE_CTX_TRACKED in
  let e := untrack (tlb_at u tlb2_entry) in
  let u := set_tlb tlb1_entry (with_flags (Z.lor (flags e) tracked) e) u in
  track_translated_entry t tlb1_entry u.

(* [cpu/ppc/ppcmmu.cpp:814-833] *)
Definition tlb2_touch_way (t : TLBType) (va way : Z) (u : mmu_state) : mmu_state :=
  let upd i f := upd_tlb (tlb2_slot t va i u) (fun e => with_lru (f (lru_bits e)) e) in
  if way <? 2 then
    upd 3 (fun l => Z.land l 1) (upd 2 (fun l => Z.land l 1)
      (upd 1 (fun _ => if way =? 1 then 3 else 2) (upd 0 (fun _ => if way =? 0 then 3 else 2) u)))
  else
    upd 3 (fun _ => if way =? 3 then 3 else 2) (upd 2 (fun _ => if way =? 2 then 3 else 2)
      (upd 1 (fun l => Z.land l 1) (upd 0 (fun l => Z.land l 1) u))).

(* [cpu/ppc/ppcmmu.cpp:835-877] *)
Definition tlb2_target_entry (t : TLBType) (gp_va : Z) (u : mmu_state) : Z * mmu_state :=
  let entry i := tlb_at u (tlb2_slot t gp_va i u) in
  let use way := (way, tlb2_touch_way t gp_va way u) in
  if tag (entry 0) =? TLB_INVALID_TAG then use 0
  else if tag (entry 1) =? TLB_INVALID_TAG then use 1
  else if tag (entry 2) =? TLB_INVALID_TAG then use 2
  else if tag (entry 3) =? TLB_INVALID_TAG then use 3
  else if lru_bits (entry 0) =? 0 then use 0
  else if lru_bits (entry 1) =? 0 then use 1
  else if lru_bits (entry 2) =? 0 then use 2
  else use 3.

(* [cpu/ppc/ppcmmu.cpp:1032-1058] *)
Definition lookup_secondary_tlb (t : TLBType) (guest_va tg : Z) (u : mmu_state) : option slot * mmu_state :=
  let entry i := tlb_at u (tlb2_slot t guest_va i u) in
  let use way := (Some (tlb2_slot t guest_va way u), tlb2_touch_way t guest_va way u) in
  if tag (entry 0) =? tg then use 0
  else if tag (entry 1) =? tg then use 1
  else if tag (entry 2) =? tg then use 2
  else if tag (entry 3) =? tg then use 3
  else (None, u).

(* [cpu/ppc/ppcmmu.cpp:1059-1063] *)
Record TLBLookupResult := mkLookup {
  primary_entry : slot;
  matched_entry : option slot;
  primary_hit : bool
}.

(* [cpu/ppc/ppcmmu.cpp:1066-1085] *)
Definition lookup_tlb (t : TLBType) (guest_va tg : Z) (u : mmu_state) : TLBLookupResult * mmu_state :=
  let primary := tlb1_slot t guest_va u in
  if tag (tlb_at u primary) =? tg then (mkLookup primary (Some primary) true, u)
  else
    let '(matched, u) := lookup_secondary_tlb t guest_va tg u in
    (mkLookup primary matched false, u).

(** ** Flushing one page *)

Definition flush_slot (tg : Z) (u : mmu_state) (s : slot) : mmu_state :=
  let e := tlb_at u s in
  if (tag e =? tg) && test (flags e) TLBFlags.TLBE_FROM_PAT then set_tlb s (with_tag TLB_INVALID_TAG e) u
  else u.

(* [cpu/ppc/ppcmmu.cpp:1195-1219] *)
Definition tlb_flush_pat_page (t : TLBType) (ea : Z) (u : mmu_state) : mmu_state :=
  let tg := Z.land ea 0xFFFFF000 in
  let idx := page_index_of ea in
  let slots :=
    [mkSlot t false 2 idx; mkSlot t false 3 idx] ++
    map (fun w => mkSlot t true 2 (idx * TLB2_WAYS + w)) [0; 1; 2; 3] ++
    map (fun w => mkSlot t true 3 (idx * TLB2_WAYS + w)) [0; 1; 2; 3] in
  fold_left (flush_slot tg) slots u.

(** ** The 603 TLBs *)

(* [cpu/ppc/ppcmmu.cpp:289-289] *)
Definition TLB603_SETS := 32.

(* [cpu/ppc/ppcmmu.cpp:294-296] *)
Definition tlb603_set (ea : Z) : Z := Z.land (Z.shiftr ea 12) (TLB603_SETS - 1).

Definition t603_at (u : mmu_state) (t : TLBType) (set way : Z) : Tlb603Entry :=
  default tlb603_zero (tlb603 u !! (t, set, way)).
Definition set_t603 (t : TLBType) (set way : Z) (e : Tlb603Entry) (u : mmu_state) : mmu_state :=
  set_tlb603 (<[(t, set, way) := e]> (tlb603 u)) u.
Definition t603_lru_at (u : mmu_state) (t : TLBType) (set : Z) : Z := default 0 (tlb603_lru u !! (t, set)).
Definition set_t603_lru (t : TLBType) (set v : Z) (u : mmu_state) : mmu_state :=
  set_tlb603_lru (<[(t, set) := v]> (tlb603_lru u)) u.

Definition invalidate603 (e : Tlb603Entry) : Tlb603Entry :=
  mkTlb603 false (t603_vsid e) (t603_ea_tag e) (t603_pte_lo e).

(* [cpu/ppc/ppcmmu.cpp:1223-1254] *)
Definition mmu_603_tlb_load (t : TLBType) (ea : Z) (m : machine) : machine :=
  let set := tlb603_set ea in
  let way := Z.land (Z.shiftr (m_spr m SPR.SRR1) 17) 1 in
  let cmp := m_spr m (match t with ITLB => SPR.ICMP | DTLB => SPR.DCMP end) in
  let rpa := m_spr m SPR.RPA in
  upd_mmu (fun u =>
    let entry := t603_at u t set way in
    let u := if t603_valid entry then tlb_flush_pat_page t (t603_ea_tag entry) u else u in
    let entry := mkTlb603 (test cmp 0x80000000) (Z.land (Z.shiftr cmp 7) 0xFFFFFF)
                   (Z.land ea 0xFFFFF000) rpa in
    let u := set_t603 t set way entry u in
    let u := set_t603_lru t set (Z.lxor way 1) u in
    let other := t603_at u t set (Z.lxor way 1) in
    let u := if t603_valid other && (t603_vsid other =? t603_vsid entry) &&
                negb (test (Z.lxor (t603_ea_tag other) (t603_ea_tag entry)) 0x0FFFF000)
             then set_t603 t set (Z.lxor way 1) (invalidate603 other) u else u in
    tlb_flush_pat_page t (t603_ea_tag entry) u) m.

(* [cpu/ppc/ppcmmu.cpp:1258-1265] *)
Definition mmu_603_tlb_invalidate_set (ea : Z) (m : machine) : machine :=
  let set := tlb603_set ea in
  let inv t way u := set_t603 t set way (invalidate603 (t603_at u t set way)) u in
  upd_mmu (fun u => inv DTLB 1 (inv DTLB 0 (inv ITLB 1 (inv ITLB 0 u)))) m.

(** ** Reset *)

(** [is_601] is set before.  All TLB slots read as [tlb_empty] when the map is
    empty. *)
(* [cpu/ppc/ppcmmu.cpp:2190-2236] *)
Definition ppc_mmu_init (m : machine) : machine :=
  let m := upd_mmu (set_gPendingIInvalidationSources 0) m in
  let m := upd_mmu (set_gPendingDInvalidationSources 0) m in
  let m := upd_mmu (set_gTrackedIEntries []) m in
  let m := upd_mmu (set_gTrackedDEntries []) m in
  let m := upd_mmu (set_last_ptab_area (mkEntry 0 0xFFFFFFFF 0xFFFFFFFF 0 0 0 0)) m in
  let m := upd_mmu (set_tlb603 ∅) m in
  let m := upd_mmu (set_tlb603_lru ∅) m in
  let m := fold_left (fun m reg => ibat_update reg m) [528; 529; 530; 531; 532; 533; 534; 535] m in
  let m := fold_left (fun m reg => dbat_update reg m) [536; 537; 538; 539; 540; 541; 542; 543] m in
  let m := upd_mmu (set_tlbs ∅) m in
  mmu_change_mode m.

(** ** Tracking: no stale translation survives its invalidation *)

Lemma tlb_at_set s s' e u : tlb_at (set_tlb s e u) s' = if decide (s = s') then e else tlb_at u s'.
Proof.
  unfold tlb_at, set_tlb. cbn [tlbs set_tlbs]. case_decide as Hs.
  - subst. by rewrite lookup_insert_eq.
  - by rewrite lookup_insert_ne.
Qed.
Lemma tlb_at_pending t v u s : tlb_at (set_pending_sources t v u) s = tlb_at u s.
Proof. by destruct t. Qed.
Lemma tlb_at_tracked t l u s : tlb_at (set_tracked_entries t l u) s = tlb_at u s.
Proof. by destruct t. Qed.
Lemma tracked_set t l u : tracked_entries t (set_tracked_entries t l u) = l.
Proof. by destruct t. Qed.
Lemma tracked_set_tlb t s e u : tracked_entries t (set_tlb s e u) = tracked_entries t u.
Proof. by destruct t. Qed.
Lemma tracked_pending t t' v u : tracked_entries t (set_pending_sources t' v u) = tracked_entries t u.
Proof. by destruct t, t'. Qed.

Definition src (e : TLBEntry) : Z := Z.land (flags e) TLBE_FROM_TRANSLATION.
Definition is_tracked (e : TLBEntry) : bool := test (flags e) TLBFlags.TLBE_CTX_TRACKED.

(** The invariant behind the vectors of tracked slots: no slot is listed twice,
    the flag of a slot says whether it is listed, and every valid entry that
    came from a translation is. *)
Record tracked_wf (t : TLBType) (u : mmu_state) : Prop := {
  tw_nodup : NoDup (tracked_entries t u);
  tw_type : forall s, s ∈ tracked_entries t u -> sl_type s = t;
  tw_flag : forall s, sl_type s = t -> is_tracked (tlb_at u s) = true <-> s ∈ tracked_entries t u;
  tw_src : forall s, sl_type s = t -> src (tlb_at u s) <> 0 -> tag (tlb_at u s) <> TLB_INVALID_TAG ->
    s ∈ tracked_entries t u
}.

Lemma flags_tracked_bit f : test f TLBFlags.TLBE_CTX_TRACKED = Z.testbit f 7.
Proof. unfold TLBFlags.TLBE_CTX_TRACKED. by rewrite <- test_pow2. Qed.

Lemma is_tracked_untrack e : is_tracked (untrack e) = false.
Proof.
  unfold is_tracked. rewrite flags_tracked_bit. unfold untrack. cbn [flags with_flags].
  rewrite Z.land_spec, Z.lnot_spec by lia. unfold TLBFlags.TLBE_CTX_TRACKED. apply andb_false_r.
Qed.

Lemma land_assoc_mask f a b : Z.land a b = 0 -> Z.land (Z.land f (Z.lnot a)) b = Z.land f b.
Proof.
  intros Hab. apply Z.bits_inj'. intros i Hi.
  apply (f_equal (fun z => Z.testbit z i)) in Hab. rewrite Z.land_spec, Z.bits_0 in Hab.
  rewrite !Z.land_spec, Z.lnot_spec by lia.
  destruct (Z.testbit a i), (Z.testbit b i); simpl in *; try done; by rewrite ?andb_false_r, ?andb_true_r.
Qed.

Lemma src_untrack e : src (untrack e) = src e.
Proof. unfold src, untrack. cbn [flags with_flags]. by rewrite land_assoc_mask. Qed.

(** The effect of the loop on one slot, and which slots it retains. *)
Definition after_invalidate (sources : Z) (e : TLBEntry) : TLBEntry :=
  if test (src e) sources then untrack (with_tag TLB_INVALID_TAG e)
  else if negb (src e =? 0) then e else untrack e.
Definition retains (sources : Z) (e : TLBEntry) : bool := negb (test (src e) sources) && negb (src e =? 0).

Lemma invalidate_loop sources l acc u : NoDup l ->
  let r := fold_left (invalidate_step sources) l (acc, u) in
  r.1 = acc ++ List.filter (fun s => retains sources (tlb_at u s)) l /\
  (forall s, tlb_at r.2 s = if decide (s ∈ l) then after_invalidate sources (tlb_at u s) else tlb_at u s) /\
  (forall t, tracked_entries t r.2 = tracked_entries t u) /\
  (forall t, pending_sources t r.2 = pending_sources t u).
Proof.
  intros Hl. revert acc u. induction Hl as [|x l Hx Hl IH]; intros acc u.
  { cbn [fold_left]. rewrite app_nil_r. by split_and!. }
  cbn [fold_left]. set (e := tlb_at u x).
  assert (exists acc' u', invalidate_step sources (acc, u) x = (acc', u') /\
    acc' = acc ++ (if retains sources e then [x] else []) /\
    (forall s, tlb_at u' s = if decide (x = s) then after_invalidate sources e else tlb_at u s) /\
    (forall t, tracked_entries t u' = tracked_entries t u) /\
    (forall t, pending_sources t u' = pending_sources t u)) as (acc' & u' & -> & Ea & Eu & Et & Ep).
  { unfold invalidate_step, retains, after_invalidate. fold e. change (Z.land (flags e) _) with (src e).
    destruct (test (src e) sources); [|destruct (src e =? 0)]; cbn [negb andb]; do 2 eexists;
      (split; [reflexivity|]); rewrite ?app_nil_r; (split; [done|]).
    - split; [intros s; unfold upd_tlb; by rewrite tlb_at_set|]. split; intros []; done.
    - split; [intros s; unfold upd_tlb; by rewrite tlb_at_set|]. split; intros []; done.
    - split; [intros s; case_decide; by subst | done]. }
  destruct (IH acc' u') as (H1 & H2 & H3 & H4). split_and!.
  - rewrite H1, Ea, <- app_assoc. f_equal. cbn [List.filter]. fold e.
    replace (List.filter (fun s => retains sources (tlb_at u' s)) l)
      with (List.filter (fun s => retains sources (tlb_at u s)) l).
    + by destruct (retains sources e).
    + apply filter_ext_in. intros s Hs%list_elem_of_In. rewrite Eu, decide_False by (intros ->; done). done.
  - intros s. rewrite H2, Eu. destruct (decide (x = s)) as [<-|Hne].
    + rewrite decide_False by done. by rewrite decide_True by set_solver.
    + by repeat case_decide; set_solver.
  - intros t. by rewrite H3, Et.
  - intros t. by rewrite H4, Ep.
Qed.

Lemma invalidate_tracked_effect t sources u : tracked_wf t u ->
  let u' := tlb_invalidate_tracked_entries t sources u in
  tracked_wf t u' /\
  (forall s, tlb_at u' s = if decide (s ∈ tracked_entries t u)
                           then after_invalidate sources (tlb_at u s) else tlb_at u s) /\
  (forall s, sl_type s = t -> tag (tlb_at u' s) <> TLB_INVALID_TAG -> test (src (tlb_at u' s)) sources = false).
Proof.
  intros [Hn Hty Hf Hs] u'. unfold u', tlb_invalidate_tracked_entries.
  pose proof (invalidate_loop sources (tracked_entries t u) [] u Hn) as (H1 & H2 & H3 & _).
  destruct (fold_left _ _ _) as [ret u1]. cbn [fst snd app] in H1, H2, H3.
  assert (forall s, s ∈ ret <-> s ∈ tracked_entries t u /\ retains sources (tlb_at u s) = true) as Hret.
  { intros s. by rewrite H1, !list_elem_of_In, filter_In. }
  split_and!; [split| |].
  - rewrite tracked_set, H1. by apply NoDup_ListNoDup, NoDup_filter, NoDup_ListNoDup.
  - rewrite tracked_set. intros s [Hin _]%Hret. by apply Hty.
  - intros s Hst. rewrite tracked_set, tlb_at_tracked, H2, Hret. case_decide as Hin.
    + unfold after_invalidate, retains. destruct (test (src _) sources); [|destruct (src _ =? 0)]; cbn [negb andb];
        rewrite ?is_tracked_untrack; [naive_solver..|]. rewrite Hf by done. naive_solver.
    + rewrite Hf by done. naive_solver.
  - intros s Hst. rewrite tracked_set, tlb_at_tracked, H2, Hret. case_decide as Hin.
    + unfold after_invalidate, retains. destruct (test (src _) sources); [|destruct (Z.eqb_spec (src (tlb_at u s)) 0)];
        cbn [negb andb]; [done | rewrite src_untrack; done | done].
    + intros Hsrc Htag. destruct Hin. by apply Hs.
  - intros s. by rewrite tlb_at_tracked, H2.
  - intros s Hst. rewrite tlb_at_tracked, H2. case_decide as Hin.
    + unfold after_invalidate. destruct (test (src _) sources) eqn:Et; [done|].
      destruct (src _ =? 0); cbn [negb]; [by rewrite src_untrack | done].
    + intros Htag. destruct (Z.eqb_spec (src (tlb_at u s)) 0) as [->|Hne]; [done|].
      destruct Hin. by apply Hs.
Qed.

Lemma tracked_pending_ne t t' l u : pending_sources t (set_tracked_entries t' l u) = pending_sources t u.
Proof. by destruct t, t'. Qed.

(** Every type's tracking is well-formed. *)
Definition tracking_wf (u : mmu_state) : Prop := forall t, tracked_wf t u.

(** Two states that agree on the slots and the list of one type. *)
Lemma tracked_wf_ext t u u' : tracked_entries t u' = tracked_entries t u ->
  (forall s, sl_type s = t -> tlb_at u' s = tlb_at u s) -> tracked_wf t u -> tracked_wf t u'.
Proof.
  intros Ht Hs [Hn Hty Hf Hsrc]. split; rewrite ?Ht; try done.
  - intros s Hst. rewrite Hs by done. by apply Hf.
  - intros s Hst. rewrite Hs by done. by apply Hsrc.
Qed.

Lemma invalidate_other t t' sources u : t <> t' -> tracked_wf t' u ->
  let u' := tlb_invalidate_tracked_entries t' sources u in
  tracked_entries t u' = tracked_entries t u /\ pending_sources t u' = pending_sources t u /\
  (forall s, sl_type s = t -> tlb_at u' s = tlb_at u s).
Proof.
  intros Hne Hw u'. unfold u', tlb_invalidate_tracked_entries.
  pose proof (invalidate_loop sources (tracked_entries t' u) [] u (tw_nodup _ _ Hw)) as (_ & H2 & H3 & H4).
  destruct (fold_left _ _ _) as [ret u1]. cbn [snd] in H2, H3, H4. split_and!.
  - rewrite <- H3. by destruct t, t'.
  - by rewrite tracked_pending_ne, H4.
  - intros s Hs. rewrite tlb_at_tracked, H2. case_decide as Hin; [|done].
    apply (tw_type _ _ Hw) in Hin. congruence.
Qed.

(** No valid entry of type [t] comes from one of the sources. *)
Definition purged (t : TLBType) (sources : Z) (u : mmu_state) : Prop :=
  forall s, sl_type s = t -> tag (tlb_at u s) <> TLB_INVALID_TAG -> test (src (tlb_at u s)) sources = false.

Lemma invalidate_pending_effect t u : tracking_wf u ->
  let u' := tlb_invalidate_pending t u in
  tracking_wf u' /\ pending_sources t u' = 0 /\
  (pending_sources t u <> 0 -> purged t (pending_sources t u) u') /\
  (forall t', t' <> t -> pending_sources t' u' = pending_sources t' u /\
     forall s, sl_type s = t' -> tlb_at u' s = tlb_at u s) /\
  (pending_sources t u = 0 -> u' = u).
Proof.
  intros Hw u'. unfold u', tlb_invalidate_pending.
  destruct (Z.eqb_spec (pending_sources t u) 0) as [E|E]; [by split_and!|].
  destruct (invalidate_tracked_effect t (pending_sources t u) u (Hw t)) as (H1 & H2 & H3).
  set (v := tlb_invalidate_tracked_entries t (pending_sources t u) u) in *.
  split_and!.
  - intros t'. apply (tracked_wf_ext t' v); [apply tracked_pending | intros; apply tlb_at_pending|].
    destruct (decide (t' = t)) as [->|Hne]; [done|].
    destruct (invalidate_other t' t (pending_sources t u) u Hne (Hw t)) as (E1 & _ & E3).
    by apply (tracked_wf_ext t' u).
  - by destruct t.
  - intros _ s Hs. rewrite tlb_at_pending. by apply H3.
  - intros t' Hne. destruct (invalidate_other t' t (pending_sources t u) u Hne (Hw t)) as (_ & E2 & E3).
    split; [rewrite <- E2; by destruct t, t' | intros s Hs; rewrite tlb_at_pending; by apply E3].
  - done.
Qed.

(** Running the registered actions, whichever they are. *)
Lemma run_actions_effect l m t : tracking_wf (mmu m) ->
  let m' := fold_left (fun m c => run_ctx_sync c m) l m in
  tracking_wf (mmu m') /\
  (pending_sources t (mmu m') = pending_sources t (mmu m) \/ pending_sources t (mmu m') = 0) /\
  (sync_tlb_invalidate_tracked t ∈ l -> pending_sources t (mmu m) <> 0 ->
     pending_sources t (mmu m') = 0 /\ purged t (pending_sources t (mmu m)) (mmu m')) /\
  (forall p, purged t p (mmu m) -> pending_sources t (mmu m) = 0 -> purged t p (mmu m')).
Proof.
  revert m. induction l as [|[t0] l IH]; intros m Hw.
  { cbn. split_and!; [done | by left | set_solver | done]. }
  cbn [fold_left run_ctx_sync].
  destruct (invalidate_pending_effect t0 (mmu m) Hw) as (W & P0 & Pu & Po & P1).
  set (m1 := upd_mmu (tlb_invalidate_pending t0) m) in *. change (mmu m1) with (tlb_invalidate_pending t0 (mmu m)) in *.
  destruct (IH m1 W) as (I1 & I2 & I3 & I4). change (mmu m1) with (tlb_invalidate_pending t0 (mmu m)) in *.
  destruct (decide (t0 = t)) as [->|Hne].
  - rewrite P0 in I2, I3, I4. split_and!; [done | tauto | |].
    + intros _ Hp. split; [tauto|]. by apply I4, P0 || (apply I4; [by apply Pu | done]).
    + intros p Hp Hz. apply I4; [|done]. by rewrite (P1 Hz).
  - destruct (Po t (not_eq_sym Hne)) as [Ep Es]. rewrite Ep in I2, I3, I4. split_and!; [done | done | |].
    + intros [E|Hin]%elem_of_cons Hp; [congruence|]. by apply I3.
    + intros p Hp Hz. apply I4; [|done]. intros s Hs. rewrite Es by done. by apply Hp.
Qed.

(** An invalidation that is pending has its action registered. *)
Definition sync_wf (m : machine) : Prop :=
  forall t, pending_sources t (mmu m) <> 0 -> sync_tlb_invalidate_tracked t ∈ gCtxSyncCallbacks (ex m).

Lemma schedule_effect t sources m : sync_wf m ->
  let m' := schedule_tlb_invalidation t sources m in
  sync_wf m' /\ pending_sources t (mmu m') = Z.lor (pending_sources t (mmu m)) sources /\
  (forall s, tlb_at (mmu m') s = tlb_at (mmu m) s) /\
  (forall t', tracked_entries t' (mmu m') = tracked_entries t' (mmu m)) /\
  (forall t', t' <> t -> pending_sources t' (mmu m') = pending_sources t' (mmu m)) /\
  cpu m' = cpu m.
Proof.
  intros Hw m'. unfold m', schedule_tlb_invalidation.
  set (m1 := if pending_sources t (mmu m) =? 0 then add_ctx_sync_action (sync_tlb_invalidate_tracked t) m else m).
  assert (mmu m1 = mmu m /\ cpu m1 = cpu m) as [Em Ec] by (unfold m1; by destruct (_ =? 0)).
  split_and!.
  - intros t' Hp. cbn [ex upd_mmu set_mmu]. cbn [mmu upd_mmu set_mmu] in Hp. rewrite Em in Hp.
    unfold m1. destruct (decide (t' = t)) as [->|Hne].
    + destruct (Z.eqb_spec (pending_sources t (mmu m)) 0); [cbn; set_solver|]. by apply Hw.
    + assert (pending_sources t' (mmu m) <> 0) as Hp' by (by destruct t, t').
      specialize (Hw t' Hp'). destruct (_ =? 0); [cbn; set_solver | done].
  - cbn. rewrite Em. by destruct t.
  - intros s. cbn. by rewrite tlb_at_pending, Em.
  - intros t'. cbn. by rewrite tracked_pending, Em.
  - intros t' Hne. cbn. rewrite Em. by destruct t, t'.
  - exact Ec.
Qed.

(** A context synchronisation carries out everything that is pending. *)
Lemma do_ctx_sync_purges m : tracking_wf (mmu m) -> sync_wf m ->
  let m' := do_ctx_sync m in
  tracking_wf (mmu m') /\ gCtxSyncCallbacks (ex m') = [] /\
  (forall t, pending_sources t (mmu m') = 0) /\
  (forall t, pending_sources t (mmu m) <> 0 -> purged t (pending_sources t (mmu m)) (mmu m')).
Proof.
  intros Hw Hs m'. set (l := gCtxSyncCallbacks (ex m)).
  split; [exact (proj1 (run_actions_effect l m ITLB Hw))|]. split; [done|].
  split; intros t; destruct (run_actions_effect l m t Hw) as (_ & R2 & R3 & _).
  - destruct (Z.eq_dec (pending_sources t (mmu m)) 0) as [E|E]; [rewrite E in R2; tauto|].
    apply R3; [by apply Hs | done].
  - intros Hne. by apply R3; [apply Hs|].
Qed.

Lemma purged_sub t p sources u s : purged t (Z.lor p sources) u -> sl_type s = t ->
  tag (tlb_at u s) <> TLB_INVALID_TAG -> Z.land (src (tlb_at u s)) sources = 0.
Proof.
  intros Hpu Hst Htag. specialize (Hpu s Hst Htag). unfold test in Hpu. bool_to_prop.
  rewrite Z.land_lor_distr_r in Hpu. by apply Z.lor_eq_0_iff in Hpu as [_ ?].
Qed.

Lemma schedule_tracking_wf t sources m : tracking_wf (mmu m) -> sync_wf m ->
  tracking_wf (mmu (schedule_tlb_invalidation t sources m)).
Proof.
  intros Hw Hs t'. destruct (schedule_effect t sources m Hs) as (_ & _ & S3 & S4 & _).
  by apply (tracked_wf_ext t' (mmu m)).
Qed.

(** C28: a scheduled TLB invalidation takes effect at the next context
    synchronisation, whatever other actions are registered: afterwards no valid
    entry of that TLB, primary or secondary, in any MMU mode, comes from one of
    the invalidated sources (block or page translations); nothing stays
    pending, and the tracking of the remaining entries is intact. *)
Theorem context_sync_purges t sources m :
  tracking_wf (mmu m) -> sync_wf m -> sources <> 0 -> 0 <= pending_sources t (mmu m) -> 0 <= sources ->
  let m' := do_ctx_sync (schedule_tlb_invalidation t sources m) in
  (forall s, sl_type s = t -> tag (tlb_at (mmu m') s) <> TLB_INVALID_TAG ->
     Z.land (src (tlb_at (mmu m') s)) sources = 0) /\
  (forall t', pending_sources t' (mmu m') = 0) /\
  gCtxSyncCallbacks (ex m') = [] /\ tracking_wf (mmu m').
Proof.
  intros Hw Hs Hne Hp Hnn m'.
  destruct (schedule_effect t sources m Hs) as (S1 & S2 & _).
  destruct (do_ctx_sync_purges _ (schedule_tracking_wf t sources m Hw Hs) S1) as (R1 & R2 & R3 & R4).
  split_and!; [|done|done|exact R1].
  intros s Hst Htag. eapply purged_sub; [|done|done]. rewrite <- S2. apply R4.
  rewrite S2. intros E. by apply Z.lor_eq_0_iff in E as [_ ?].
Qed.

(** A change of segment registers or SDR1, then a context synchronisation: no
    cached translation that came from the page tables survives. *)
Lemma pat_change_purges m : tracking_wf (mmu m) -> sync_wf m ->
  let m' := do_ctx_sync (mmu_pat_ctx_changed m) in
  tracking_wf (mmu m') /\ (forall t, pending_sources t (mmu m') = 0) /\
  forall s, tag (tlb_at (mmu m') s) <> TLB_INVALID_TAG ->
    test (flags (tlb_at (mmu m') s)) TLBFlags.TLBE_FROM_PAT = false.
Proof.
  intros Hw Hs. unfold mmu_pat_ctx_changed.
  destruct (schedule_effect ITLB TLBFlags.TLBE_FROM_PAT m Hs) as (A1 & A2 & _ & _ & A5 & _).
  pose proof (schedule_tracking_wf ITLB TLBFlags.TLBE_FROM_PAT m Hw Hs) as W1.
  set (m1 := schedule_tlb_invalidation ITLB _ m) in *.
  destruct (schedule_effect DTLB TLBFlags.TLBE_FROM_PAT m1 A1) as (B1 & B2 & _ & _ & B5 & _).
  pose proof (schedule_tracking_wf DTLB TLBFlags.TLBE_FROM_PAT m1 W1 A1) as W2.
  set (m2 := schedule_tlb_invalidation DTLB _ m1) in *.
  destruct (do_ctx_sync_purges m2 W2 B1) as (R1 & _ & R3 & R4).
  assert (forall t, exists p, pending_sources t (mmu m2) = Z.lor p TLBFlags.TLBE_FROM_PAT) as Hp.
  { intros []; [exists (pending_sources ITLB (mmu m)); by rewrite B5, A2|eexists; exact B2]. }
  split_and!; [done|done|]. intros s Htag. destruct (Hp (sl_type s)) as [p Ep].
  assert (Z.land (src (tlb_at (mmu (do_ctx_sync m2)) s)) TLBFlags.TLBE_FROM_PAT = 0) as H.
  { eapply purged_sub; [|done|done]. rewrite <- Ep. apply R4. rewrite Ep.
    intros E. by apply Z.lor_eq_0_iff in E as [_ ?]. }
  unfold test, src in *. rewrite <- Z.land_assoc in H. by apply negb_false_iff, Z.eqb_eq.
Qed.

Lemma empty_tracking_wf : tracking_wf (mmu demo_machine).
Proof.
  intros t. assert (forall s, tlb_at (mmu demo_machine) s = tlb_empty) as E by done.
  split; [by destruct t; constructor | by destruct t; set_solver | |]; intros s Hs; rewrite E.
  - split; [by vm_compute | by destruct t; set_solver].
  - intros _. by destruct 1.
Qed.

Lemma context_sync_purges_witness :
  tracking_wf (mmu demo_machine) /\ sync_wf demo_machine /\
  forall t, pending_sources t (mmu (do_ctx_sync
    (schedule_tlb_invalidation ITLB TLBE_FROM_TRANSLATION demo_machine))) = 0.
Proof.
  assert (sync_wf demo_machine) as Hs by (intros []; by destruct 1).
  split; [exact empty_tracking_wf|]. split; [exact Hs|].
  exact (proj1 (proj2 (context_sync_purges ITLB TLBE_FROM_TRANSLATION demo_machine empty_tracking_wf Hs
    ltac:(vm_compute; congruence) ltac:(cbn; lia) ltac:(vm_compute; congruence)))).
Defined.

(** ** Filling and promoting entries keeps the tracking *)

Lemma tracked_wf_flags t u u' : tracked_entries t u' = tracked_entries t u ->
  (forall s, sl_type s = t -> flags (tlb_at u' s) = flags (tlb_at u s) /\
     (tag (tlb_at u' s) = tag (tlb_at u s) \/ tag (tlb_at u' s) = TLB_INVALID_TAG)) ->
  tracked_wf t u -> tracked_wf t u'.
Proof.
  intros Ht Hs [Hn Hty Hf Hsrc]. split; rewrite ?Ht; try done.
  - intros s Hst. unfold is_tracked. rewrite (proj1 (Hs s Hst)). by apply Hf.
  - intros s Hst. destruct (Hs s Hst) as [Ef Et]. unfold src. rewrite Ef. intros H1 H2.
    apply Hsrc; [done..|]. destruct Et as [<-|]; [done|]. done.
Qed.

Lemma is_tracked_set e : is_tracked (with_flags (Z.lor (flags e) TLBFlags.TLBE_CTX_TRACKED) e) = true.
Proof.
  unfold is_tracked. rewrite flags_tracked_bit. cbn [flags with_flags]. rewrite Z.lor_spec.
  apply orb_true_r.
Qed.

(** Storing an entry that keeps the tracking flag of its slot, then tracking it. *)
Lemma store_track_wf t s e u : tracking_wf u -> sl_type s = t ->
  is_tracked e = is_tracked (tlb_at u s) ->
  tracking_wf (track_translated_entry t s (set_tlb s e u)).
Proof.
  intros Hw Hst Htr t'. specialize (Hw t').
  destruct (decide (t' = t)) as [->|Hne].
  2:{ apply (tracked_wf_ext t' u); [| |done]; unfold track_translated_entry; destruct (_ || _).
      - by destruct t, t'.
      - by destruct t, t'.
      - intros s' Hs'. rewrite tlb_at_set, decide_False; [done|congruence].
      - intros s' Hs'. rewrite tlb_at_tracked, !tlb_at_set, !decide_False by congruence. done. }
  destruct Hw as [Hn Hty Hf Hsrc]. pose proof (Hf s Hst) as Hfs. rewrite <- Htr in Hfs.
  unfold track_translated_entry. rewrite tlb_at_set, decide_True by done.
  change (test (flags e) TLBFlags.TLBE_CTX_TRACKED) with (is_tracked e).
  change (test (flags e) TLBE_FROM_TRANSLATION) with (negb (src e =? 0)). rewrite negb_involutive.
  destruct ((src e =? 0) || is_tracked e) eqn:Ec.
  - split; rewrite ?tracked_set_tlb; try done; intros s' Hs'; rewrite tlb_at_set; case_decide as Hss;
      subst; auto. intros Hse _. bool_to_prop. destruct Ec as [Ec|Ec]; bool_to_prop; [done|]. by apply Hfs.
  - bool_to_prop. assert (s ∉ tracked_entries t u) as Hnin by (rewrite <- Hfs; congruence).
    split; rewrite ?tracked_set, ?tracked_set_tlb.
    + apply list.NoDup_app. split_and!; [done|set_solver|apply NoDup_singleton].
    + intros s' [Hin|Hin]%elem_of_app; [by apply Hty | set_solver].
    + intros s' Hs'. rewrite tlb_at_tracked, !tlb_at_set, elem_of_app, list_elem_of_singleton.
      case_decide as Hss; [subst; rewrite is_tracked_set; naive_solver|]. rewrite Hf by done. naive_solver.
    + intros s' Hs'. rewrite tlb_at_tracked, !tlb_at_set, elem_of_app, list_elem_of_singleton.
      case_decide as Hss; [by subst; right|]. left. by apply Hsrc.
Qed.

Lemma upd_tlb_wf s g u : (forall e, flags (g e) = flags e /\ tag (g e) = tag e) ->
  tracking_wf u -> tracking_wf (upd_tlb s g u).
Proof.
  intros Hg Hw t. apply (tracked_wf_flags t u); [by destruct t | |apply Hw].
  intros s' _. unfold upd_tlb. rewrite tlb_at_set. case_decide; subst; [|auto].
  split; [|left]; apply Hg.
Qed.

Lemma touch_way_wf t va way u : tracking_wf u -> tracking_wf (tlb2_touch_way t va way u).
Proof. intros Hw. unfold tlb2_touch_way. destruct (way <? 2); by repeat (apply upd_tlb_wf; [done|]). Qed.

Lemma promote_wf t s1 s2 u : tracking_wf u -> sl_type s1 = t -> tracking_wf (promote_tlb_entry t s1 s2 u).
Proof.
  intros Hw Hs. unfold promote_tlb_entry. apply store_track_wf; [done..|].
  unfold is_tracked. rewrite !flags_tracked_bit. cbn [flags with_flags].
  rewrite Z.lor_spec, Z.land_spec. pose proof (is_tracked_untrack (tlb_at u s2)) as E.
  unfold is_tracked in E. rewrite flags_tracked_bit in E. rewrite E. apply andb_true_r.
Qed.

Lemma flush_slot_wf tg s u : tracking_wf u -> tracking_wf (flush_slot tg u s).
Proof.
  intros Hw t. unfold flush_slot. destruct (_ && _); [|apply Hw].
  apply (tracked_wf_flags t u); [by destruct t | |apply Hw].
  intros s' _. rewrite tlb_at_set. case_decide; subst; auto.
Qed.

Lemma flush_page_wf t ea u : tracking_wf u -> tracking_wf (tlb_flush_pat_page t ea u).
Proof.
  unfold tlb_flush_pat_page. match goal with |- context [fold_left _ ?l _] => generalize l end.
  intros l. revert u. induction l as [|s l IH]; intros u Hw; [done|]. cbn [fold_left].
  apply IH. by apply flush_slot_wf.
Qed.

(** Only [tlbs], the tracked lists and the pending masks matter to the tracking. *)
Lemma tracking_wf_proj u u' : tlbs u' = tlbs u -> gTrackedIEntries u' = gTrackedIEntries u ->
  gTrackedDEntries u' = gTrackedDEntries u -> tracking_wf u -> tracking_wf u'.
Proof.
  intros E1 E2 E3 Hw t. apply (tracked_wf_ext t u); [by destruct t | |apply Hw].
  intros s _. unfold tlb_at. by rewrite E1.
Qed.

(** ** The shape of the entries

    A valid entry is a memory page with host offsets or, in a secondary data TLB
    only, a device page with its region. *)

Definition tlb_shape (s : slot) (e : TLBEntry) : Prop :=
  tag e = TLB_INVALID_TAG \/
  (test (flags e) TLBFlags.PAGE_MEM = true /\ test (flags e) TLBFlags.PAGE_IO = false /\
     match target e with TlbMem _ _ => True | TlbIo _ _ => False end) \/
  (test (flags e) TLBFlags.PAGE_MEM = false /\ test (flags e) TLBFlags.PAGE_IO = true /\
     sl_second s = true /\ sl_type s = DTLB /\
     match target e with TlbMem _ _ => False | TlbIo _ _ => True end).

Definition shapes_ok (u : mmu_state) : Prop := forall s, tlb_shape s (tlb_at u s).

(** The replacement bits of the 603 TLBs name a way. *)
Definition lru603_ok (u : mmu_state) : Prop := forall t set, 0 <= t603_lru_at u t set <= 1.

Lemma test_untrack e mask : Z.land TLBFlags.TLBE_CTX_TRACKED mask = 0 ->
  test (flags (untrack e)) mask = test (flags e) mask.
Proof. intros Hm. unfold test, untrack. cbn [flags with_flags]. by rewrite land_assoc_mask. Qed.

Lemma shape_untrack s e : tlb_shape s e -> tlb_shape s (untrack e).
Proof. unfold tlb_shape. by rewrite !test_untrack. Qed.

Lemma shape_invalid s e : tag e = TLB_INVALID_TAG -> tlb_shape s e.
Proof. by left. Qed.

Lemma shapes_set s e u : shapes_ok u -> tlb_shape s e -> shapes_ok (set_tlb s e u).
Proof. intros Hu He s'. rewrite tlb_at_set. case_decide; [by subst | apply Hu]. Qed.

Lemma shapes_ext u u' : (forall s, tlb_at u' s = tlb_at u s) -> shapes_ok u -> shapes_ok u'.
Proof. intros E Hu s. rewrite E. apply Hu. Qed.

Lemma shapes_invalidate t sources u : shapes_ok u -> shapes_ok (tlb_invalidate_tracked_entries t sources u).
Proof.
  intros Hu. unfold tlb_invalidate_tracked_entries.
  assert (forall l acc v, shapes_ok v -> shapes_ok (fold_left (invalidate_step sources) l (acc, v)).2) as H.
  { induction l as [|s l IH]; intros acc v Hv; [done|]. cbn [fold_left invalidate_step].
    destruct (test _ _); [|destruct (negb _)]; apply IH; try done.
    - apply shapes_set; [done|]. by apply shape_invalid.
    - apply shapes_set; [done|]. by apply shape_untrack. }
  specialize (H (tracked_entries t u) [] u Hu). destruct (fold_left _ _ _) as [r v].
  apply (shapes_ext v); [|done]. intros s. apply tlb_at_tracked.
Qed.

Lemma shapes_invalidate_pending t u : shapes_ok u -> shapes_ok (tlb_invalidate_pending t u).
Proof.
  intros Hu. unfold tlb_invalidate_pending. destruct (_ =? 0); [done|].
  apply (shapes_ext (tlb_invalidate_tracked_entries t (pending_sources t u) u)); [|by apply shapes_invalidate].
  intros s. apply tlb_at_pending.
Qed.

Lemma invalidate_pending_lru t u : tlb603_lru (tlb_invalidate_pending t u) = tlb603_lru u.
Proof.
  unfold tlb_invalidate_pending. destruct (_ =? 0); [done|]. unfold tlb_invalidate_tracked_entries.
  assert (forall l acc v sources, tlb603_lru (fold_left (invalidate_step sources) l (acc, v)).2 = tlb603_lru v) as H.
  { induction l as [|s l IH]; intros acc v sources; [done|]. cbn [fold_left invalidate_step].
    destruct (test _ _); [|destruct (negb _)]; rewrite IH; done. }
  specialize (H (tracked_entries t u) [] u (pending_sources t u)).
  destruct (fold_left _ _ _) as [r v]. by destruct t.
Qed.

(** ** The 603 TLBs hold one entry per page *)

(** Two entries answer for the same page. *)
Definition same_page603 (a b : Tlb603Entry) : Prop :=
  t603_valid a = true /\ t603_valid b = true /\ t603_vsid a = t603_vsid b /\
  Z.land (Z.lxor (t603_ea_tag a) (t603_ea_tag b)) 0x0FFFF000 = 0.

Definition no_duplicates603 (u : mmu_state) : Prop :=
  forall t set, ~ same_page603 (t603_at u t set 0) (t603_at u t set 1).

Lemma t603_set t set way e u t' set' way' :
  t603_at (set_t603 t set way e u) t' set' way' =
  if decide ((t, set, way) = (t', set', way')) then e else t603_at u t' set' way'.
Proof.
  unfold t603_at, set_t603. cbn [tlb603 set_tlb603]. case_decide as Hc.
  - rewrite Hc. by rewrite lookup_insert_eq.
  - by rewrite lookup_insert_ne.
Qed.

Lemma t603_flush_slot tg s u t set way : t603_at (flush_slot tg u s) t set way = t603_at u t set way.
Proof. unfold flush_slot. by destruct (_ && _). Qed.

Lemma t603_flush t ea u t' set way : t603_at (tlb_flush_pat_page t ea u) t' set way = t603_at u t' set way.
Proof.
  unfold tlb_flush_pat_page. match goal with |- context [fold_left _ ?l _] => generalize l end.
  intros l. revert u. induction l as [|s l IH]; intros u; [done|]. cbn [fold_left].
  by rewrite IH, t603_flush_slot.
Qed.

Lemma t603_lru_flush t ea u t' set : t603_lru_at (tlb_flush_pat_page t ea u) t' set = t603_lru_at u t' set.
Proof.
  unfold tlb_flush_pat_page. match goal with |- context [fold_left _ ?l _] => generalize l end.
  intros l. revert u. induction l as [|s l IH]; intros u; [done|]. cbn [fold_left]. rewrite IH.
  unfold flush_slot. by destruct (_ && _).
Qed.

Lemma t603_lru t set v u t' set' way : t603_at (set_t603_lru t set v u) t' set' way = t603_at u t' set' way.
Proof. done. Qed.

Lemma same_page_sym a b : same_page603 a b -> same_page603 b a.
Proof. intros (?&?&?&?). split_and!; try done. by rewrite Z.lxor_comm. Qed.

Lemma way_cases x : Z.land x 1 = 0 \/ Z.land x 1 = 1.
Proof. pose proof (land_field x 1 ltac:(lia)) as H. change (Z.ones 1) with 1 in H. lia. Qed.

(** Loading way [w] and dropping a duplicate in the other way. *)
Lemma load603_pair t set w e other u : w = 0 \/ w = 1 -> no_duplicates603 u ->
  other = t603_at u t set (Z.lxor w 1) ->
  (t603_valid other && (t603_vsid other =? t603_vsid e) &&
     negb (test (Z.lxor (t603_ea_tag other) (t603_ea_tag e)) 0x0FFFF000) = false ->
   no_duplicates603 (set_t603 t set w e u)) /\
  no_duplicates603 (set_t603 t set (Z.lxor w 1) (invalidate603 other) (set_t603 t set w e u)).
Proof.
  intros Hw Hn ->. split.
  - intros Hc t' set'. rewrite !t603_set.
    destruct Hw as [-> | ->]; change (Z.lxor 0 1) with 1 in *; change (Z.lxor 1 1) with 0 in *; repeat case_decide; simplify_eq; try apply Hn.
    + intros (Ha & Hb & Hv & Ht). rewrite Hb, Hv, Z.eqb_refl in Hc. unfold test in Hc.
      rewrite Z.lxor_comm, Ht in Hc. done.
    + intros (Ha & Hb & Hv & Ht). rewrite Ha, Hv, Z.eqb_refl in Hc. unfold test in Hc.
      rewrite Ht in Hc. done.
  - intros t' set'. rewrite !t603_set.
    destruct Hw as [-> | ->]; change (Z.lxor 0 1) with 1 in *; change (Z.lxor 1 1) with 0 in *; repeat case_decide; simplify_eq; try apply Hn;
      by intros (? & ? & _).
Qed.

(** [tlbld]/[tlbli] on the 603: the selected way of the set the address
    indexes holds exactly the ICMP/DCMP and RPA contents, the way to replace next
    is the other one, no other set is touched, and a set never holds two entries
    for one page (the newer one wins) - nor does it after [tlbie], which leaves
    both ways of the set invalid in both TLBs.  The software TLBs stay tracked. *)
Theorem tlb603_load_correct t ea m : no_duplicates603 (mmu m) -> tracking_wf (mmu m) ->
  let m' := mmu_603_tlb_load t ea m in
  let mi := mmu_603_tlb_invalidate_set ea m in
  let way := Z.land (Z.shiftr (m_spr m SPR.SRR1) 17) 1 in
  let cmp := m_spr m (match t with ITLB => SPR.ICMP | DTLB => SPR.DCMP end) in
  t603_at (mmu m') t (tlb603_set ea) way =
    mkTlb603 (test cmp 0x80000000) (Z.land (Z.shiftr cmp 7) 0xFFFFFF) (Z.land ea 0xFFFFF000) (m_spr m SPR.RPA) /\
  t603_lru_at (mmu m') t (tlb603_set ea) = 1 - way /\
  (forall t' set w, (t', set) <> (t, tlb603_set ea) -> t603_at (mmu m') t' set w = t603_at (mmu m) t' set w) /\
  no_duplicates603 (mmu m') /\ tracking_wf (mmu m') /\
  no_duplicates603 (mmu mi) /\
  (forall t' w, w = 0 \/ w = 1 -> t603_valid (t603_at (mmu mi) t' (tlb603_set ea) w) = false).
Proof.
  intros Hn Hw m' mi way cmp.
  pose proof (way_cases (Z.shiftr (m_spr m SPR.SRR1) 17)) as Hway. fold way in Hway.
  set (set := tlb603_set ea).
  set (e := mkTlb603 (test cmp 0x80000000) (Z.land (Z.shiftr cmp 7) 0xFFFFFF) (Z.land ea 0xFFFFF000)
    (m_spr m SPR.RPA)).
  set (u0 := if t603_valid (t603_at (mmu m) t set way)
             then tlb_flush_pat_page t (t603_ea_tag (t603_at (mmu m) t set way)) (mmu m) else mmu m).
  assert (forall t' s w, t603_at u0 t' s w = t603_at (mmu m) t' s w) as Eu0
    by (intros; unfold u0; destruct (t603_valid _); [apply t603_flush | done]).
  assert (no_duplicates603 u0) as Hn0 by (intros t' s'; rewrite !Eu0; apply Hn).
  assert (tracking_wf u0) as Hw0 by (unfold u0; destruct (t603_valid _); [by apply flush_page_wf | done]).
  destruct (load603_pair t set way e _ u0 Hway Hn0 eq_refl) as [L1 L2].
  set (other := t603_at u0 t set (Z.lxor way 1)) in *.
  set (drop := t603_valid other && (t603_vsid other =? t603_vsid e) &&
     negb (test (Z.lxor (t603_ea_tag other) (t603_ea_tag e)) 0x0FFFF000)) in *.
  set (u1 := set_t603_lru t set (Z.lxor way 1) (set_t603 t set way e u0)).
  set (u2 := if drop then set_t603 t set (Z.lxor way 1) (invalidate603 other) u1 else u1).
  assert (mmu m' = tlb_flush_pat_page t (t603_ea_tag e) u2) as Em.
  { unfold m', mmu_603_tlb_load. cbn [mmu upd_mmu set_mmu]. fold set way cmp e. fold u0.
    rewrite !t603_lru, !t603_set. rewrite decide_False by (destruct Hway as [-> | ->]; by intros [=]).
    reflexivity. }
  assert (forall t' s w, t603_at (mmu m') t' s w = t603_at u2 t' s w) as Em'
    by (intros; rewrite Em; apply t603_flush).
  assert (t603_lru_at (mmu m') t set = t603_lru_at u2 t set) as El.
  { rewrite Em. apply t603_lru_flush. }
  split_and!.
  - rewrite Em'. unfold u2. destruct drop; unfold u1; rewrite ?t603_set, ?t603_lru, ?t603_set.
    + rewrite decide_False by (destruct Hway as [-> | ->]; by intros [=]). by rewrite decide_True.
    + by rewrite decide_True.
  - rewrite El. assert (t603_lru_at u2 t set = Z.lxor way 1) as ->.
    { unfold u2. destruct drop; unfold t603_lru_at; cbn; by rewrite lookup_insert_eq. }
    by destruct Hway as [-> | ->].
  - intros t' s w Hne. rewrite Em'. unfold u2.
    destruct drop; unfold u1; rewrite ?t603_set, ?t603_lru, ?t603_set, ?decide_False by congruence; apply Eu0.
  - intros t' s. rewrite !Em'. unfold u2. destruct drop eqn:Ed; [apply (L2 t' s) | apply (L1 eq_refl t' s)].
  - rewrite Em. apply flush_page_wf. unfold u2. destruct drop; by apply (tracking_wf_proj u0).
  - intros t' s. unfold mi, mmu_603_tlb_invalidate_set. cbn [mmu upd_mmu set_mmu].
    rewrite !t603_set. repeat case_decide; simplify_eq; try (by intros (? & ? & _)); apply Hn.
  - intros t' w Hww. unfold mi, mmu_603_tlb_invalidate_set. cbn [mmu upd_mmu set_mmu].
    rewrite !t603_set. destruct t', Hww as [-> | ->]; repeat case_decide; simplify_eq; done.
Qed.

Lemma tlb603_load_correct_witness :
  no_duplicates603 (mmu demo_machine) /\ tracking_wf (mmu demo_machine) /\
  no_duplicates603 (mmu (mmu_603_tlb_load DTLB 0x12345000 demo_machine)).
Proof.
  assert (no_duplicates603 (mmu demo_machine)) as Hn by (intros t s (E & _); vm_compute in E; discriminate E).
  split; [exact Hn|]. split; [exact empty_tracking_wf|].
  exact (proj1 (proj2 (proj2 (proj2 (tlb603_load_correct DTLB 0x12345000 demo_machine Hn empty_tracking_wf))))).
Defined.
