(* ===== verification/MmuBat.v ===== *)
(** * Block address translation against the architecture

    The MMU keeps decoded copies of the BAT registers.  The invariant
    [bats_synced] says the copies are those of the register values; under it the
    translation is the one the architecture defines on the register bits. *)
From S2P Require Import Prelude Word PpcState Timers MemCtrl Machine Mmu.

(** ** The architecture's view of a register pair *)

(** BL, the block length mask, is bits 2..12 of the upper register; it extends
    the 17-bit offset. *)
Definition bat_offset_bit (upper j : Z) : bool := (j <? 17) || ((j <? 28) && Z.testbit upper (j - 15)).

(** The upper register recognises an address. *)
Definition bat_recognises (upper la : Z) : Prop :=
  forall j, 0 <= j < 32 -> bat_offset_bit upper j = false -> Z.testbit la j = Z.testbit upper j.

(** Vs for the supervisor, Vp for the user. *)
Definition bat_enabled (upper : Z) (msr_pr : bool) : bool := Z.testbit upper (if msr_pr then 0 else 1).

Definition bat_upper (type : BATType) (i : Z) (m : machine) : Z :=
  m_spr m ((match type with IBAT => 528 | DBAT => 536 end) + 2 * i).
Definition bat_lower (type : BATType) (i : Z) (m : machine) : Z :=
  m_spr m ((match type with IBAT => 528 | DBAT => 536 end) + 2 * i + 1).

(** Pair [i] answers for [la]. *)
Definition bat_hits (type : BATType) (la i : Z) (m : machine) : Prop :=
  bat_enabled (bat_upper type i m) (msr_bit MSR.PR m) = true /\ bat_recognises (bat_upper type i m) la.

(** ** The invariant *)

Definition bat_copy (type : BATType) (m : machine) : gmap Z PPC_BAT_entry :=
  match type with IBAT => ibat_array (mmu m) | DBAT => dbat_array (mmu m) end.

(** The decoded entry of a pair; the flag [valid] is only used by the 601. *)
Definition decodes (e : PPC_BAT_entry) (upper lower : Z) : Prop :=
  let hi_mask := not32 (Z.lor (Z.shiftl (Z.land (Z.shiftr upper 2) 0x7FF) 17) 0x1FFFF) in
  bat_access e = Z.land upper 3 /\ bat_prot e = Z.land lower 3 /\
  bat_phys_hi e = Z.land lower hi_mask /\ bat_hi_mask e = hi_mask /\ bat_bepi e = Z.land upper hi_mask.

Definition bats_synced (m : machine) : Prop := forall type i, 0 <= i < 4 ->
  decodes (bat_at (bat_copy type m) i) (bat_upper type i m) (bat_lower type i m).

(** ** Lemmas *)

Lemma hi_mask_bit upper j : 0 <= j < 32 ->
  Z.testbit (not32 (Z.lor (Z.shiftl (Z.land (Z.shiftr upper 2) 0x7FF) 17) 0x1FFFF)) j =
  negb (bat_offset_bit upper j).
Proof.
  intros Hj. unfold not32. rewrite testbit_uwrap, Z.lnot_spec, Z.lor_spec, Z.shiftl_spec by lia.
  rewrite (proj2 (Z.ltb_lt _ _)), andb_true_l by lia. f_equal. unfold bat_offset_bit.
  change 0x1FFFF with (Z.ones 17). change 0x7FF with (Z.ones 11).
  destruct (Z.ltb_spec j 17).
  - rewrite (Z.ones_spec_low 17) by lia. by rewrite orb_true_r.
  - rewrite (Z.ones_spec_high 17), orb_false_r, Z.land_spec, Z.shiftr_spec by lia. cbn [orb].
    destruct (Z.ltb_spec j 28).
    + rewrite Z.ones_spec_low, andb_true_r, andb_true_l by lia. f_equal. lia.
    + rewrite Z.ones_spec_high by lia. apply andb_false_r.
Qed.

Lemma bat_match_spec e upper lower la : decodes e upper lower -> 0 <= la < 2 ^ 32 -> 0 <= upper < 2 ^ 32 ->
  (Z.land la (bat_hi_mask e) =? bat_bepi e) = true <-> bat_recognises upper la.
Proof.
  intros (_ & _ & _ & -> & ->) Hla Hup. rewrite Z.eqb_eq. split.
  - intros E j Hj Hb. apply (f_equal (fun z => Z.testbit z j)) in E.
    rewrite !Z.land_spec, hi_mask_bit, Hb in E by done. by rewrite !andb_true_r in E.
  - intros H. apply Bitops.word_ext; [by apply land_range_l; lia..|].
    intros j Hj. rewrite !Z.land_spec, hi_mask_bit by done.
    destruct (bat_offset_bit upper j) eqn:E; cbn [negb]; [by rewrite !andb_false_r|].
    by rewrite (H j Hj E).
Qed.

Lemma bat_phys_bits e upper lower la j : decodes e upper lower -> 0 <= j < 32 ->
  Z.testbit (bat_phys e la) j = if bat_offset_bit upper j then Z.testbit la j else Z.testbit lower j.
Proof.
  intros (_ & _ & Hp & Hm & _) Hj. unfold bat_phys. rewrite Hp, Hm, Z.lor_spec, !Z.land_spec, hi_mask_bit by done.
  rewrite testbit_not32, hi_mask_bit by lia.
  destruct (bat_offset_bit upper j); cbn [negb andb]; by rewrite ?andb_false_r, ?andb_true_r, ?orb_false_r.
Qed.

Lemma bat_access_spec e upper lower m : decodes e upper lower ->
  test (bat_access e) (Z.lor (Z.shiftl (b2z (negb (msr_bit MSR.PR m))) 1) (b2z (msr_bit MSR.PR m))) =
  bat_enabled upper (msr_bit MSR.PR m).
Proof.
  intros (-> & _). unfold bat_enabled. destruct (msr_bit MSR.PR m); cbn [negb].
  - change (Z.lor _ _) with (2 ^ 0). rewrite test_pow2, Z.land_spec by lia. apply andb_true_r.
  - change (Z.lor _ _) with (2 ^ 1). rewrite test_pow2, Z.land_spec by lia. apply andb_true_r.
Qed.

Lemma first_bat_spec hit a l :
  match first_bat hit a l with
  | Some e => exists i l1 l2, l = l1 ++ i :: l2 /\ e = bat_at a i /\ hit e = true /\
      forall j, j ∈ l1 -> hit (bat_at a j) = false
  | None => forall j, j ∈ l -> hit (bat_at a j) = false
  end.
Proof.
  induction l as [|i l IH]; simpl; [set_solver|].
  destruct (hit (bat_at a i)) eqn:E.
  - exists i, [], l. split_and!; try done. set_solver.
  - destruct (first_bat hit a l) as [e|].
    + destruct IH as (k & l1 & l2 & -> & He & Hh & Hl). exists k, (i :: l1), l2. split_and!; try done. set_solver.
    + set_solver.
Qed.

Lemma prefix_below l1 k l2 i : [0; 1; 2; 3] = l1 ++ k :: l2 -> 0 <= i < k -> i ∈ l1.
Proof.
  intros E Hi. destruct l1 as [|a [|b [|c [|d l1]]]]; simplify_eq/=; rewrite ?elem_of_cons, ?elem_of_nil; try lia.
  by destruct l1.
Qed.

Lemma bat_at_insert i j e a : bat_at (<[i := e]> a) j = if decide (i = j) then e else bat_at a j.
Proof.
  unfold bat_at. case_decide as Hi; [subst; by rewrite lookup_insert_eq | by rewrite lookup_insert_ne].
Qed.

(** What writing a BAT register and updating the copy does. *)
Lemma schedule_frame t v m : let m' := schedule_tlb_invalidation t v m in
  cpu m' = cpu m /\ ibat_array (mmu m') = ibat_array (mmu m) /\ dbat_array (mmu m') = dbat_array (mmu m).
Proof. unfold schedule_tlb_invalidation. by destruct t, (_ =? 0). Qed.

Lemma ibat_write_synced i k v m : bats_synced m -> 0 <= i < 4 -> 0 <= k < 2 ->
  bats_synced (ppc_ibat_update (528 + 2 * i + k) (upd_cpu (set_spr (528 + 2 * i + k) v) m)).
Proof.
  intros Hs Hi Hk type j Hj. unfold ppc_ibat_update.
  assert (Z.land (528 + 2 * i + k) 0xFFFFFFFE = 528 + 2 * i) as ->.
  { apply Z.eqb_eq. apply (range_forall2 4 2 (fun i k => Z.land (528 + 2 * i + k) 0xFFFFFFFE =? 528 + 2 * i));
      [by vm_compute|lia..]. }
  assert (Z.shiftr (528 + 2 * i + k - 528) 1 = i) as ->.
  { rewrite Z.shiftr_div_pow2 by lia. change (2 ^ 1) with 2. zlia. }
  set (m1 := upd_cpu (set_spr (528 + 2 * i + k) v) m).
  set (e := ppc_bat_entry _ _ _).
  match goal with |- context [schedule_tlb_invalidation ?t ?v ?m2] =>
    destruct (schedule_frame t v m2) as (Ec & Ei & Ed); set (m2' := schedule_tlb_invalidation t v m2) in * end.
  assert (cpu m2' = cpu m1) as Ec' by (by rewrite Ec). clear Ec.
  unfold bat_upper, bat_lower, m_spr. rewrite Ec'. destruct type.
  - unfold bat_copy. rewrite Ei. cbn [mmu upd_mmu set_mmu set_ibat_array ibat_array]. rewrite bat_at_insert.
    case_decide as Hij; [subst j; by split_and!|].
    specialize (Hs IBAT j Hj). unfold bat_upper, bat_lower, m_spr in Hs.
    unfold m1. cbn [cpu upd_cpu set_cpu spr set_spr with_spr]. rewrite !rget_rset_ne by lia. exact Hs.
  - unfold bat_copy. rewrite Ed. specialize (Hs DBAT j Hj). unfold bat_upper, bat_lower, m_spr in Hs.
    unfold m1. cbn [cpu upd_cpu set_cpu spr set_spr with_spr]. rewrite !rget_rset_ne by lia. exact Hs.
Qed.

Lemma dbat_write_synced i k v m : bats_synced m -> 0 <= i < 4 -> 0 <= k < 2 ->
  bats_synced (ppc_dbat_update (536 + 2 * i + k) (upd_cpu (set_spr (536 + 2 * i + k) v) m)).
Proof.
  intros Hs Hi Hk type j Hj. unfold ppc_dbat_update.
  assert (Z.land (536 + 2 * i + k) 0xFFFFFFFE = 536 + 2 * i) as ->.
  { apply Z.eqb_eq. apply (range_forall2 4 2 (fun i k => Z.land (536 + 2 * i + k) 0xFFFFFFFE =? 536 + 2 * i));
      [by vm_compute|lia..]. }
  assert (Z.shiftr (536 + 2 * i + k - 536) 1 = i) as ->.
  { rewrite Z.shiftr_div_pow2 by lia. change (2 ^ 1) with 2. zlia. }
  set (m1 := upd_cpu (set_spr (536 + 2 * i + k) v) m).
  set (e := ppc_bat_entry _ _ _).
  match goal with |- context [schedule_tlb_invalidation ?t ?v ?m2] =>
    destruct (schedule_frame t v m2) as (Ec & Ei & Ed); set (m2' := schedule_tlb_invalidation t v m2) in * end.
  assert (cpu m2' = cpu m1) as Ec' by (by rewrite Ec). clear Ec.
  unfold bat_upper, bat_lower, m_spr. rewrite Ec'. destruct type.
  - unfold bat_copy. rewrite Ei. specialize (Hs IBAT j Hj). unfold bat_upper, bat_lower, m_spr in Hs.
    unfold m1. cbn [cpu upd_cpu set_cpu spr set_spr with_spr]. rewrite !rget_rset_ne by lia. exact Hs.
  - unfold bat_copy. rewrite Ed. cbn [mmu upd_mmu set_mmu set_dbat_array dbat_array]. rewrite bat_at_insert.
    case_decide as Hij; [subst j; by split_and!|].
    specialize (Hs DBAT j Hj). unfold bat_upper, bat_lower, m_spr in Hs.
    unfold m1. cbn [cpu upd_cpu set_cpu spr set_spr with_spr]. rewrite !rget_rset_ne by lia. exact Hs.
Qed.

(** ** Properties *)

(** C26: PowerPC block address translation is the architecture's: while the
    decoded copies agree with the registers, an address hits exactly when some
    enabled register pair recognises it; the first such pair gives the
    protection, the offset bits (17 plus the block length) come from the address
    and the others from the pair's lower register.  Writing any BAT register
    together with its update keeps the copies in agreement. *)
Theorem bat_translation_refines type la m : ppc_ok (cpu m) -> bats_synced m -> 0 <= la < 2 ^ 32 ->
  let r := ppc_block_address_translation type la m in
  (br_hit r = true <-> exists i, 0 <= i < 4 /\ bat_hits type la i m) /\
  (forall i, 0 <= i < 4 -> bat_hits type la i m -> (forall j, 0 <= j < i -> ~ bat_hits type la j m) ->
     br_hit r = true /\ br_prot r = Z.land (bat_lower type i m) 3 /\
     forall j, 0 <= j < 32 -> Z.testbit (br_phys r) j =
       if bat_offset_bit (bat_upper type i m) j then Z.testbit la j else Z.testbit (bat_lower type i m) j) /\
  (forall i k v, 0 <= i < 4 -> 0 <= k < 2 ->
     bats_synced (ppc_ibat_update (528 + 2 * i + k) (upd_cpu (set_spr (528 + 2 * i + k) v) m)) /\
     bats_synced (ppc_dbat_update (536 + 2 * i + k) (upd_cpu (set_spr (536 + 2 * i + k) v) m))).
Proof.
  intros Hok Hs Hla r.
  set (hit := fun e => test (bat_access e) (Z.lor (Z.shiftl (b2z (negb (msr_bit MSR.PR m))) 1)
      (b2z (msr_bit MSR.PR m))) && (Z.land la (bat_hi_mask e) =? bat_bepi e)).
  assert (forall i, 0 <= i < 4 -> hit (bat_at (bat_copy type m) i) = true <-> bat_hits type la i m) as Hhit.
  { intros i Hi. unfold hit. rewrite (bat_access_spec _ _ _ m (Hs type i Hi)), andb_true_iff.
    rewrite (bat_match_spec _ _ _ la (Hs type i Hi)); [done|done|]. apply ok_get_spr, Hok. }
  assert (forall j, j ∈ [0; 1; 2; 3] <-> 0 <= j < 4) as Hl
    by (intros j; rewrite !elem_of_cons, elem_of_nil; lia).
  assert (r = match first_bat hit (bat_copy type m) [0; 1; 2; 3] with
    | Some e => mkBATResult true (bat_prot e) (bat_phys e la) | None => mkBATResult false 0 0 end) as Er
    by (unfold r, ppc_block_address_translation; by destruct type).
  pose proof (first_bat_spec hit (bat_copy type m) [0; 1; 2; 3]) as Hf.
  split_and!; [| |intros i k v Hi Hk; split; [by apply ibat_write_synced | by apply dbat_write_synced]].
  - rewrite Er. destruct (first_bat _ _ _) as [e|]; cbn [br_hit].
    + destruct Hf as (i & l1 & l2 & Hll & -> & Hh & _). split; [|done]. intros _. exists i.
      assert (0 <= i < 4) as Hi by (apply Hl; rewrite Hll; set_solver). split; [done|]. by apply Hhit.
    + split; [done|]. intros (i & Hi & Hh). apply Hhit in Hh; [|done].
      rewrite Hf in Hh; [done|]. by apply Hl.
  - intros i Hi Hh Hmin. rewrite Er. destruct (first_bat _ _ _) as [e|].
    2:{ apply Hhit in Hh; [|done]. rewrite Hf in Hh; [done|]. by apply Hl. }
    destruct Hf as (k & l1 & l2 & Hll & -> & Hk & Hlt).
    assert (0 <= k < 4) as Hk4 by (apply Hl; rewrite Hll; set_solver).
    assert (k = i) as ->.
    { destruct (Z.lt_trichotomy k i) as [Hki|[->|Hki]]; [|done|].
      - destruct (Hmin k ltac:(lia)). by apply Hhit.
      - pose proof (Hlt i (prefix_below _ _ _ i Hll ltac:(lia))) as Hf.
        rewrite (proj2 (Hhit i Hi) Hh) in Hf. done. }
    cbn [br_hit br_prot br_phys]. split; [done|]. split; [apply (Hs type i Hi)|].
    intros j Hj. by apply (bat_phys_bits _ _ _ la j (Hs type i Hi)).
Qed.

(** IBAT0 maps the 256 KiB block at 0x00480000 to 0x01240000, supervisor only. *)
Definition bat_demo : machine :=
  ppc_mmu_init (upd_cpu (set_spr 528 0x00480006) (upd_cpu (set_spr 529 0x01240002) demo_machine)).

Lemma bat_demo_synced : bats_synced bat_demo.
Proof.
  intros type i Hi. destruct type; each_index i 4%nat; unfold decodes; split_and!; vm_compute; reflexivity.
Qed.

Lemma bat_demo_ok : ppc_ok (cpu bat_demo).
Proof.
  assert (cpu bat_demo = set_spr 528 0x00480006 (set_spr 529 0x01240002 demo_state)) as -> by by vm_compute.
  repeat (apply set_spr_ok; [|lia]). exact demo_ok.
Qed.

Lemma bat_translation_refines_witness :
  bats_synced bat_demo /\
  (br_hit (ppc_block_address_translation IBAT 0x004A1234 bat_demo) = true <->
   exists i, 0 <= i < 4 /\ bat_hits IBAT 0x004A1234 i bat_demo) /\
  ppc_block_address_translation IBAT 0x004A1234 bat_demo = mkBATResult true 2 0x01261234.
Proof.
  split; [exact bat_demo_synced|]. split; [|vm_compute; reflexivity].
  exact (proj1 (bat_translation_refines IBAT 0x004A1234 bat_demo bat_demo_ok bat_demo_synced ltac:(lia))).
Defined.
