(* ===== verification/Exceptions.v ===== *)
(** * Exceptions (cpu/ppc/ppcexceptions.cpp and the MSR part of ppcexec.cpp)

    [ppc_exception_handler] saves the state in SRR0 and SRR1, switches the MSR
    and leaves through [longjmp], except for the two interrupts that are
    delivered between instructions.  All routines run in [M machine]. *)
From S2P Require Import Prelude Word PpcState Timers MemCtrl Machine Mmu.

(** ** Changes of the machine state register *)

(* [cpu/ppc/ppcexec.cpp:97-100] *)
Definition power_off (new_reason : Po_Cause) (m : machine) : machine :=
  upd_ex (fun e => set_power_off_reason new_reason (set_power_on false e)) m.

(** The default build has no little-endian mode. *)
(* [cpu/ppc/ppcexec.cpp:271-284] *)
Definition ppc_change_endian (newLE : bool) (m : machine) : machine :=
  if newLE then power_off po_enter_debugger m else m.

Definition swap_shadow (i : Z) (m : machine) : machine :=
  let g := (gpr (cpu m)).[i] in
  let t := (ppc_shadow_gprs (ex m)).[i] in
  upd_ex (fun e => set_ppc_shadow_gprs ((ppc_shadow_gprs e).[i := g]) e) (upd_cpu (set_gpr i t) m).

(* [cpu/ppc/ppcexec.cpp:246-269] *)
Definition ppc_msr_did_change (old_msr_val new_msr_val : Z) (set_next_instruction_address : bool)
    (m : machine) : machine :=
  let m := upd_cpu (with_msr new_msr_val) m in
  let m := if is_603 (cfg m) && test (Z.lxor old_msr_val new_msr_val) MSR.TGPR
           then fold_left (fun m i => swap_shadow i m) [0; 1; 2; 3] m else m in
  if test (Z.lxor old_msr_val new_msr_val) MSR.FP then
    let newFP := test new_msr_val MSR.FP in
    let m := upd_ex (set_fpu_grabber newFP) m in
    let m := upd_ex (fun e => set_exec_flags (Z.lor (exec_flags e) EXEF.EXEF_OPC_DECODER) e) m in
    if set_next_instruction_address
    then upd_ex (set_ppc_next_instruction_address (u32 (pc (cpu m) + 4))) m else m
  else m.

(** ** The exception handler *)

(** SRR0, by the kind of exception; [None] is the [default] case. *)
(* [cpu/ppc/ppcexceptions.cpp:40-85 exception_type] *)
Definition exc_srr0 (e : Except_Type) (m : machine) : option Z :=
  let flags := exec_flags (ex m) in
  let other := test flags (Z.lnot EXEF.EXEF_OPC_DECODER) in
  let pc := pc (cpu m) in
  let nia := ppc_next_instruction_address (ex m) in
  match e with
  | EXC_SYSTEM_RESET | EXC_DSI | EXC_ALIGNMENT | EXC_PROGRAM | EXC_NO_FPU
  | EXC_DTLB_LOAD_MISS | EXC_DTLB_STORE_MISS => Some (Z.land pc 0xFFFFFFFC)
  | EXC_MACHINE_CHECK => Some (Z.land pc 0xFFFFFFFC)
  | EXC_ISI | EXC_ITLB_MISS => Some (if other then nia else Z.land pc 0xFFFFFFFC)
  | EXC_EXT_INT | EXC_DECR | EXC_THRM_MGMT_INT =>
      Some (if other then nia else u32 (Z.land pc 0xFFFFFFFC + 4))
  | EXC_SYSCALL | EXC_TRACE => Some (u32 (Z.land pc 0xFFFFFFFC + 4))
  | _ => None
  end.

(** The MSR of the handler. *)
(* [cpu/ppc/ppcexceptions.cpp:89-103 new_msr_val] *)
Definition exc_msr (e : Except_Type) (m : machine) : Z :=
  let v := Z.land (msr (cpu m)) 0xFFFB1041 in
  let v := if is_603 (cfg m) then
             let v := Z.land v (Z.lnot MSR.TGPR) in
             match e with
             | EXC_ITLB_MISS | EXC_DTLB_LOAD_MISS | EXC_DTLB_STORE_MISS => Z.lor v MSR.TGPR
             | _ => v
             end
           else v in
  if is_601 (cfg m) then v else Z.lor (Z.land v (Z.lnot MSR.LE)) (b2z (test v MSR.ILE)).

(* [cpu/ppc/ppcexceptions.cpp:35-127] *)
Definition ppc_exception_handler (e : Except_Type) (srr1_bits : Z) : M machine unit := fun m =>
  match exc_srr0 e m with
  | None => (Fatal, m)
  | Some srr0 =>
      let m := upd_cpu (set_spr SPR.SRR0 srr0) m in
      let m := upd_ex (set_ppc_next_instruction_address (Z.shiftl (exc_code e) 8)) m in
      let m := upd_cpu (set_spr SPR.SRR1 (Z.lor (Z.land (msr (cpu m)) 0x0000FF73) srr1_bits)) m in
      let old_msr_val := msr (cpu m) in
      let new_msr_val := exc_msr e m in
      let m := if is_601 (cfg m) then m else ppc_change_endian (test new_msr_val MSR.LE) m in
      let m := ppc_msr_did_change old_msr_val new_msr_val false m in
      let m := if test (msr (cpu m)) MSR.IP
               then upd_ex (fun x => set_ppc_next_instruction_address
                 (Z.lor (ppc_next_instruction_address x) 0xFFF00000) x) m else m in
      let m := upd_ex (set_exec_flags EXEF.EXEF_EXCEPTION) m in
      let m := match e with EXC_MACHINE_CHECK | EXC_SYSTEM_RESET => m | _ => do_ctx_sync m end in
      let m := mmu_change_mode m in
      match e with
      | EXC_EXT_INT | EXC_DECR => (Ret tt, m)
      | _ =>
          (Longjmp, if negb (power_on (ex m)) && bool_decide (power_off_reason (ex m) = po_endian_switch)
                    then upd_ex (set_power_on true) m else m)
      end
  end.

(** ** Causes *)

(* [cpu/ppc/ppcexec.cpp:290-304] *)
Definition ppc_illegalop (opcode : Z) : M machine unit :=
  ppc_exception_handler EXC_PROGRAM Exc_Cause.ILLEGAL_OP.

(* [cpu/ppc/ppcexec.cpp:306-308] *)
Definition ppc_fpu_off (opcode : Z) : M machine unit :=
  ppc_exception_handler EXC_NO_FPU Exc_Cause.FPU_OFF.

(* [cpu/ppc/ppcexec.cpp:310-318] *)
Definition ppc_assert_int : M machine unit :=
  modify (upd_ex (set_int_pin true)) ;;;
  ee <- gets (msr_bit MSR.EE) ;;
  when ee (ppc_exception_handler EXC_EXT_INT 0).

(* [cpu/ppc/ppcexec.cpp:320-322] *)
Definition ppc_release_int : M machine unit := modify (upd_ex (set_int_pin false)).

(** The instructions whose DSISR is taken from the X-form fields: the cases of
    the inner [switch], and dcbz. *)
Definition alignment_indexed : list Z :=
  [0x7c000028; 0x7c0002aa; 0x7c00042a; 0x7c0004aa; 0x7c00052a; 0x7c0005aa; 0x7c0002ea; 0x7c00012c;
   0x7c00042c; 0x7c00052c; 0x7c00062c; 0x7c00072c; 0x7c00026c; 0x7c00036c; 0x7c00002e; 0x7c00012e;
   0x7c00022e; 0x7c0002ae; 0x7c00032e; 0x7c00042e; 0x7c0004ae; 0x7c00052e; 0x7c0005ae; 0x7c00006e;
   0x7c00016e; 0x7c00026e; 0x7c0002ee; 0x7c00036e; 0x7c00046e; 0x7c0004ee; 0x7c00056e; 0x7c0005ee].
Definition alignment_immediate : list Z :=
  [0x80000000; 0x90000000; 0xa0000000; 0xa8000000; 0xb0000000; 0xb8000000; 0xc0000000; 0xc8000000;
   0xd0000000; 0xd8000000; 0x84000000; 0x94000000; 0xa4000000; 0xac000000; 0xb4000000; 0xbc000000;
   0xc4000000; 0xcc000000; 0xd4000000; 0xdc000000].
Definition one_of (x : Z) (l : list Z) : bool := existsb (Z.eqb x) l.

(* [cpu/ppc/ppcexceptions.cpp:213-316 dsisr] *)
Definition alignment_dsisr (opcode : Z) : Z :=
  let dsisr :=
    if one_of (Z.land opcode 0xfc000000) alignment_immediate then
      Z.lor (Z.land (Z.shiftr opcode 12) 0x00004000) (Z.land (Z.shiftr opcode 17) 0x00003c00)
    else if Z.land opcode 0xfc000000 =? 0x7c000000 then
      if one_of (Z.land opcode 0xfc0007ff) alignment_indexed ||
         ((Z.land opcode 0xfc0007ff =? 0x7c0007ec) && (Z.land opcode 0xffe007ff =? 0x7c0007ec))
      then Z.lor (Z.lor (Z.land (shl32 opcode 14) 0x00018000) (Z.land (shl32 opcode 8) 0x00004000))
             (Z.land (shl32 opcode 3) 0x00003c00)
      else 0
    else 0 in
  let dsisr := Z.lor dsisr (Z.land (Z.shiftr opcode 16) 0x000003e0) in
  if (Z.land opcode 0xfc000000 =? 0xb8000000) || (Z.land opcode 0xfc0007ff =? 0x7c0004aa) ||
     (Z.land opcode 0xfc0007ff =? 0x7c00042a) then dsisr
  else Z.lor dsisr (Z.land (Z.shiftr opcode 16) 0x0000001f).

(* [cpu/ppc/ppcexceptions.cpp:211-321] *)
Definition ppc_alignment_exception (opcode ea : Z) : M machine unit :=
  set_m_spr SPR.DSISR (alignment_dsisr opcode) ;;;
  set_m_spr SPR.DAR ea ;;;
  ppc_exception_handler EXC_ALIGNMENT 0.

(** A privileged instruction: what every one of them starts with. *)
Definition privileged (k : M machine unit) : M machine unit :=
  pr <- gets (msr_bit MSR.PR) ;;
  if pr then ppc_exception_handler EXC_PROGRAM Exc_Cause.NOT_ALLOWED else k.

(** ** Synchronisation, traps, system calls (cpu/ppc/ppcopcodes.cpp) *)

(* [cpu/ppc/ppcopcodes.cpp:1528-1578] *)
Definition ppc_rfi (opcode : Z) : M machine unit := privileged (fun m =>
  let msr_bits_to_replace := if is_603 (cfg m) then 0x0000FF73 else 0x87C0FF73 in
  let msr_bits_to_clear := MSR.POW in
  let bits_from_srr1 := Z.land (m_spr m SPR.SRR1)
    (Z.land msr_bits_to_replace (Z.lnot msr_bits_to_clear)) in
  let new_msr_val := Z.lor (Z.land (msr (cpu m)) (not32 (Z.lor msr_bits_to_replace msr_bits_to_clear)))
    bits_from_srr1 in
  let new_msr_val := if is_603 (cfg m) then Z.land new_msr_val (Z.lnot MSR.TGPR) else new_msr_val in
  let m := if is_601 (cfg m) then m else ppc_change_endian (test new_msr_val MSR.LE) m in
  let m := ppc_msr_did_change (msr (cpu m)) new_msr_val true m in
  if msr_bit MSR.EE m &&
     (int_pin (ex m) || dec_exception_pending (ex m) || thrm_exception_pending (ex m)) then
    let save_srr0 := Z.land (m_spr m SPR.SRR0) (Z.lnot 3) in
    (bind
      (if int_pin (ex m) then ppc_exception_handler EXC_EXT_INT 0
       else if dec_exception_pending (ex m) then
         modify (upd_ex (set_dec_exception_pending false)) ;;; ppc_exception_handler EXC_DECR 0
       else
         modify (upd_ex (set_thrm_exception_pending false)) ;;; ppc_exception_handler EXC_THRM_MGMT_INT 0)
      (fun _ => set_m_spr SPR.SRR0 save_srr0)) m
  else
    let m := upd_ex (set_ppc_next_instruction_address (Z.land (m_spr m SPR.SRR0) (Z.lnot 3))) m in
    let m := do_ctx_sync m in
    let m := mmu_change_mode m in
    (Ret tt, upd_ex (fun e => set_exec_flags (Z.lor (exec_flags e) EXEF.EXEF_RFI) e) m)).

(* [cpu/ppc/ppcopcodes.cpp:1580-1585] *)
Definition ppc_sc (opcode : Z) : M machine unit :=
  modify do_ctx_sync ;;; ppc_exception_handler EXC_SYSCALL 0.

(* [cpu/ppc/ppcopcodes.cpp:1587-1597] *)
Definition ppc_tw (opcode : Z) : M machine unit := fun m =>
  let '(_, _, ppc_result_a, ppc_result_b) := ppc_grab_regsab opcode (cpu m) in
  let ppc_to := Z.land (Z.shiftr opcode 21) 0x1F in
  if ((s32 ppc_result_a <? s32 ppc_result_b) && test ppc_to 0x10) ||
     ((s32 ppc_result_b <? s32 ppc_result_a) && test ppc_to 0x08) ||
     ((s32 ppc_result_a =? s32 ppc_result_b) && test ppc_to 0x04) ||
     ((ppc_result_a <? ppc_result_b) && test ppc_to 0x02) ||
     ((ppc_result_b <? ppc_result_a) && test ppc_to 0x01)
  then ppc_exception_handler EXC_PROGRAM Exc_Cause.TRAP m else (Ret tt, m).

(* [cpu/ppc/ppcopcodes.cpp:1599-1609] *)
Definition ppc_twi (opcode : Z) : M machine unit := fun m =>
  let '(_, simm, ppc_result_a) := ppc_grab_regsasimm opcode (cpu m) in
  let ppc_to := Z.land (Z.shiftr opcode 21) 0x1F in
  if ((s32 ppc_result_a <? simm) && test ppc_to 0x10) ||
     ((simm <? s32 ppc_result_a) && test ppc_to 0x08) ||
     ((s32 ppc_result_a =? simm) && test ppc_to 0x04) ||
     ((ppc_result_a <? u32 simm) && test ppc_to 0x02) ||
     ((u32 simm <? ppc_result_a) && test ppc_to 0x01)
  then ppc_exception_handler EXC_PROGRAM Exc_Cause.TRAP m else (Ret tt, m).

(* [cpu/ppc/ppcopcodes.cpp:1611-1613] *)
Definition ppc_eieio (opcode : Z) : M machine unit := ret tt.
(* [cpu/ppc/ppcopcodes.cpp:1615-1617] *)
Definition ppc_isync (opcode : Z) : M machine unit := modify do_ctx_sync.
(* [cpu/ppc/ppcopcodes.cpp:1619-1621] *)
Definition ppc_sync (opcode : Z) : M machine unit := ret tt.
(* [cpu/ppc/ppcopcodes.cpp:1623-1625] *)
Definition ppc_icbi (opcode : Z) : M machine unit := ret tt.
(* [cpu/ppc/ppcopcodes.cpp:1627-1629] *)
Definition ppc_dcbf (opcode : Z) : M machine unit := ret tt.
(* [cpu/ppc/ppcopcodes.cpp:1631-1640] *)
Definition ppc_dcbi (opcode : Z) : M machine unit := privileged (ret tt).
(* [cpu/ppc/ppcopcodes.cpp:1642-1644] *)
Definition ppc_dcbst (opcode : Z) : M machine unit := ret tt.
(* [cpu/ppc/ppcopcodes.cpp:1646-1649] *)
Definition ppc_dcbt (opcode : Z) : M machine unit := ret tt.
(* [cpu/ppc/ppcopcodes.cpp:1651-1654] *)
Definition ppc_dcbtst (opcode : Z) : M machine unit := ret tt.

(** ** Frames *)

(** What no routine of this file touches. *)
Definition same_environment (m m' : machine) : Prop :=
  cfg m' = cfg m /\ vt m' = vt m /\ tb m' = tb m /\ mem_ctrl m' = mem_ctrl m /\
  timers m' = timers m /\ io_log m' = io_log m /\ fenv m' = fenv m.

Lemma same_env_trans m1 m2 m3 : same_environment m1 m2 -> same_environment m2 m3 -> same_environment m1 m3.
Proof. unfold same_environment. intros (?&?&?&?&?&?&?) (?&?&?&?&?&?&?). split_and!; congruence. Qed.

Lemma run_ctx_sync_frame c m :
  cpu (run_ctx_sync c m) = cpu m /\ ex (run_ctx_sync c m) = ex m /\ same_environment m (run_ctx_sync c m).
Proof. by destruct c. Qed.

Lemma do_ctx_sync_frame m :
  let m' := do_ctx_sync m in
  cpu m' = cpu m /\ ex m' = set_gCtxSyncCallbacks [] (ex m) /\ same_environment m m'.
Proof.
  unfold do_ctx_sync. generalize (gCtxSyncCallbacks (ex m)) as l. intros l.
  assert (let m1 := fold_left (fun m c => run_ctx_sync c m) l m in
    cpu m1 = cpu m /\ ex m1 = ex m /\ same_environment m m1) as (E1 & E2 & E3).
  { revert m. induction l as [|c l IH]; intros m; [done|]. cbn [fold_left].
    destruct (IH (run_ctx_sync c m)) as (H1 & H2 & H3). by destruct c. }
  cbv zeta. cbn [cpu ex upd_ex set_ex]. rewrite E1, E2. done.
Qed.

Lemma mmu_change_mode_frame m :
  let m' := mmu_change_mode m in cpu m' = cpu m /\ ex m' = ex m /\ same_environment m m'.
Proof.
  unfold mmu_change_mode.
  repeat match goal with |- context [if ?b then _ else _] => destruct b end; done.
Qed.

Lemma swap_shadow_frame l m :
  let m' := fold_left (fun m i => swap_shadow i m) l m in
  msr (cpu m') = msr (cpu m) /\ spr (cpu m') = spr (cpu m) /\ pc (cpu m') = pc (cpu m) /\
  exec_flags (ex m') = exec_flags (ex m) /\
  ppc_next_instruction_address (ex m') = ppc_next_instruction_address (ex m) /\
  power_on (ex m') = power_on (ex m) /\ power_off_reason (ex m') = power_off_reason (ex m) /\
  gCtxSyncCallbacks (ex m') = gCtxSyncCallbacks (ex m) /\ int_pin (ex m') = int_pin (ex m) /\
  dec_exception_pending (ex m') = dec_exception_pending (ex m) /\
  thrm_exception_pending (ex m') = thrm_exception_pending (ex m) /\
  mmu m' = mmu m /\ same_environment m m'.
Proof.
  revert m. induction l as [|i l IH]; intros m; [done|]. cbn [fold_left].
  destruct (IH (swap_shadow i m)) as (H1&H2&H3&H4&H5&H6&H7&H8&H9&H10&H11&H12&H13). done.
Qed.

(** The part of the state [ppc_msr_did_change] is careful about. *)
Lemma msr_did_change_frame old new b m :
  let m' := ppc_msr_did_change old new b m in
  msr (cpu m') = new /\ spr (cpu m') = spr (cpu m) /\ pc (cpu m') = pc (cpu m) /\
  power_on (ex m') = power_on (ex m) /\ power_off_reason (ex m') = power_off_reason (ex m) /\
  gCtxSyncCallbacks (ex m') = gCtxSyncCallbacks (ex m) /\ int_pin (ex m') = int_pin (ex m) /\
  dec_exception_pending (ex m') = dec_exception_pending (ex m) /\
  thrm_exception_pending (ex m') = thrm_exception_pending (ex m) /\
  mmu m' = mmu m /\ same_environment m m' /\
  (b = false -> ppc_next_instruction_address (ex m') = ppc_next_instruction_address (ex m)) /\
  (test (Z.lxor old new) MSR.TGPR = false -> gpr (cpu m') = gpr (cpu m)).
Proof.
  unfold ppc_msr_did_change. set (m0 := upd_cpu (with_msr new) m).
  destruct (swap_shadow_frame [0; 1; 2; 3] m0) as (H1&H2&H3&H4&H5&H6&H7&H8&H9&H10&H11&H12&H13).
  set (m1 := if is_603 (cfg m0) && test (Z.lxor old new) MSR.TGPR then _ else _).
  assert (msr (cpu m1) = new /\ spr (cpu m1) = spr (cpu m) /\ pc (cpu m1) = pc (cpu m) /\
    ppc_next_instruction_address (ex m1) = ppc_next_instruction_address (ex m) /\
    power_on (ex m1) = power_on (ex m) /\ power_off_reason (ex m1) = power_off_reason (ex m) /\
    gCtxSyncCallbacks (ex m1) = gCtxSyncCallbacks (ex m) /\ int_pin (ex m1) = int_pin (ex m) /\
    dec_exception_pending (ex m1) = dec_exception_pending (ex m) /\
    thrm_exception_pending (ex m1) = thrm_exception_pending (ex m) /\
    mmu m1 = mmu m /\ same_environment m m1 /\
    (test (Z.lxor old new) MSR.TGPR = false -> gpr (cpu m1) = gpr (cpu m)))
    as (E1&E2&E3&E4&E5&E6&E7&E8&E9&E10&E11&E12&E13).
  { unfold m1. destruct (is_603 (cfg m0)); cbn [andb]; [|done].
    destruct (test _ MSR.TGPR); [|done]. by split_and!. }
  clearbody m1. destruct (test (Z.lxor old new) MSR.FP); [destruct b|]; by split_and!.
Qed.

(** The registers, in full. *)
Lemma swap_shadow_cpu l m : let m' := fold_left (fun m i => swap_shadow i m) l m in cpu m' = with_gpr (gpr (cpu m')) (cpu m).
Proof.
  revert m. induction l as [|i l IH]; intros m; [by destruct m as [[]]|]. cbn [fold_left]. cbv zeta. by rewrite IH.
Qed.

Lemma swap_four m i : let m' := fold_left (fun m i => swap_shadow i m) [0; 1; 2; 3] m in let other := (0 <=? i) && (i <? 4) in
  (gpr (cpu m')).[i] = (if other then (ppc_shadow_gprs (ex m)).[i] else (gpr (cpu m)).[i]) /\
  (ppc_shadow_gprs (ex m')).[i] = (if other then (gpr (cpu m)).[i] else (ppc_shadow_gprs (ex m)).[i]).
Proof.
  cbv zeta. cbn [fold_left swap_shadow cpu ex upd_cpu upd_ex set_cpu set_ex set_gpr with_gpr gpr set_ppc_shadow_gprs ppc_shadow_gprs].
  destruct (decide (i = 0 \/ i = 1 \/ i = 2 \/ i = 3)) as [[->|[->|[->| ->]]]|Hne];
    [repeat (rewrite rget_rset_eq || rewrite rget_rset_ne by done); by split..|].
  rewrite !rget_rset_ne by (intros <-; tauto).
  assert ((0 <=? i) && (i <? 4) = false) as ->; [|done]. destruct (Z.leb_spec 0 i), (Z.ltb_spec i 4); cbn [andb]; done || lia.
Qed.

(** What the other registers of the interpreter are left at. *)
Definition same_rest (x x' : exec_state) : Prop :=
  fpu_grabber x' = fpu_grabber x /\ ppc_shadow_gprs x' = ppc_shadow_gprs x /\ exec_timer x' = exec_timer x /\
  junction_temperature x' = junction_temperature x.

Lemma same_rest_trans x y z : same_rest x y -> same_rest y z -> same_rest x z.
Proof. unfold same_rest. intros (?&?&?&?) (?&?&?&?). split_and!; congruence. Qed.

Lemma msr_did_change_rest old new m :
  let m' := ppc_msr_did_change old new false m in
  cpu m' = with_gpr (gpr (cpu m')) (with_msr new (cpu m)) /\
  (forall i, let other := is_603 (cfg m) && test (Z.lxor old new) MSR.TGPR && (0 <=? i) && (i <? 4) in
    (gpr (cpu m')).[i] = (if other then (ppc_shadow_gprs (ex m)).[i] else (gpr (cpu m)).[i]) /\
    (ppc_shadow_gprs (ex m')).[i] = (if other then (gpr (cpu m)).[i] else (ppc_shadow_gprs (ex m)).[i])) /\
  fpu_grabber (ex m') = (if test (Z.lxor old new) MSR.FP then test new MSR.FP else fpu_grabber (ex m)) /\
  exec_timer (ex m') = exec_timer (ex m) /\ junction_temperature (ex m') = junction_temperature (ex m).
Proof.
  unfold ppc_msr_did_change. set (m0 := upd_cpu (with_msr new) m). change (cfg m0) with (cfg m).
  set (m1 := if is_603 (cfg m) && _ then _ else m0).
  assert (cpu m1 = with_gpr (gpr (cpu m1)) (with_msr new (cpu m)) /\
    (forall i, let other := is_603 (cfg m) && test (Z.lxor old new) MSR.TGPR && (0 <=? i) && (i <? 4) in
      (gpr (cpu m1)).[i] = (if other then (ppc_shadow_gprs (ex m)).[i] else (gpr (cpu m)).[i]) /\
      (ppc_shadow_gprs (ex m1)).[i] = (if other then (gpr (cpu m)).[i] else (ppc_shadow_gprs (ex m)).[i])) /\
    fpu_grabber (ex m1) = fpu_grabber (ex m) /\
    exec_timer (ex m1) = exec_timer (ex m) /\ junction_temperature (ex m1) = junction_temperature (ex m)) as (E1 & E2 & E3).
  { unfold m1. destruct (is_603 (cfg m) && test (Z.lxor old new) MSR.TGPR); cbn [andb].
    - split; [apply (swap_shadow_cpu [0; 1; 2; 3] m0)|]. split; [apply (swap_four m0) | done].
    - split; [by destruct m as [[]]|]. by split. }
  clearbody m1. destruct (test (Z.lxor old new) MSR.FP); [|exact (conj E1 (conj E2 E3))].
  split; [exact E1|]. split; [exact E2|]. split; [done|]. split; apply E3.
Qed.

Lemma change_mode_mmu m m' : msr (cpu m') = msr (cpu m) -> mmu m' = mmu m -> mmu (mmu_change_mode m') = mmu (mmu_change_mode m).
Proof.
  destruct m as [c ? ? ? ? u ? ? ? ?], m' as [c' ? ? ? ? u' ? ? ? ?]. cbn [cpu mmu]. intros Hc ->. unfold mmu_change_mode, msr_bit. cbn [cpu mmu]. rewrite Hc. cbv zeta.
  repeat match goal with |- context [if ?b then _ else _] =>
    lazymatch b with context [if _ then _ else _] => fail | _ => destruct b end;
    cbn [negb cpu mmu upd_mmu set_mmu CurDTLBMode set_CurITLBMode set_pCurITLB]; rewrite ?Hc end; reflexivity.
Qed.

Lemma ctx_sync_mmu m m' : mmu m' = mmu m -> gCtxSyncCallbacks (ex m') = gCtxSyncCallbacks (ex m) -> mmu (do_ctx_sync m') = mmu (do_ctx_sync m).
Proof.
  intros Hu Hx. unfold do_ctx_sync. cbn [mmu upd_ex set_ex]. rewrite Hx. generalize (gCtxSyncCallbacks (ex m)) as l. clear Hx. intros l.
  revert m m' Hu. induction l as [|c l IH]; intros m m' Hu; [done|]. cbn [fold_left]. apply IH. destruct c. cbn [run_ctx_sync mmu upd_mmu set_mmu]. by rewrite Hu.
Qed.

(** ** The MSR of a handler *)

Lemma exc_msr_bit e m i : 0 <= i < 32 ->
  Z.testbit (exc_msr e m) i =
  if i =? 0 then Z.testbit (msr (cpu m)) (if is_601 (cfg m) then 0 else 16)
  else if (i =? 17) && is_603 (cfg m) then
    match e with EXC_ITLB_MISS | EXC_DTLB_LOAD_MISS | EXC_DTLB_STORE_MISS => true | _ => false end
  else Z.testbit (msr (cpu m)) i && Z.testbit 0xFFFB1041 i.
Proof.
  intros Hi. unfold exc_msr, MSR.LE, MSR.ILE.
  change (2 ^ (63 - 63)) with (2 ^ 0). change (2 ^ (63 - 47)) with (2 ^ 16).
  set (x := msr (cpu m)). set (v0 := if is_603 (cfg m) then _ else _).
  assert (forall j, 0 <= j < 32 -> Z.testbit v0 j =
    if (j =? 17) && is_603 (cfg m) then
      match e with EXC_ITLB_MISS | EXC_DTLB_LOAD_MISS | EXC_DTLB_STORE_MISS => true | _ => false end
    else Z.testbit x j && Z.testbit 0xFFFB1041 j) as Hv.
  { intros j Hj. unfold v0, MSR.TGPR. change (2 ^ (63 - 46)) with (2 ^ 17).
    destruct (is_603 (cfg m)); rewrite ?andb_false_r, ?andb_true_r; [|apply Z.land_spec].
    destruct e; rewrite ?Z.lor_spec, !Z.land_spec, Z.lnot_spec, ?testbit_2p by lia;
      destruct (j =? 17); cbn [negb orb]; by rewrite ?andb_true_r, ?andb_false_r, ?orb_false_r, ?orb_true_r. }
  destruct (is_601 (cfg m)).
  - rewrite Hv by done. destruct (Z.eqb_spec i 0) as [->|]; [|done]. apply andb_true_r.
  - rewrite test_pow2, Z.lor_spec, Z.land_spec, Z.lnot_spec, testbit_2p, testbit_b2z, Hv, (Hv 16) by lia.
    destruct (Z.eqb_spec i 0) as [->|]; cbn [negb andb Z.eqb Pos.eqb];
      rewrite ?andb_false_r, ?andb_true_r, ?orb_false_r; done.
Qed.

(** ** Exception entry *)

Lemma change_endian_frame b m :
  let m' := ppc_change_endian b m in
  cpu m' = cpu m /\ mmu m' = mmu m /\ same_environment m m' /\
  ppc_next_instruction_address (ex m') = ppc_next_instruction_address (ex m) /\
  exec_flags (ex m') = exec_flags (ex m) /\ int_pin (ex m') = int_pin (ex m) /\
  dec_exception_pending (ex m') = dec_exception_pending (ex m) /\
  thrm_exception_pending (ex m') = thrm_exception_pending (ex m) /\
  gCtxSyncCallbacks (ex m') = gCtxSyncCallbacks (ex m).
Proof. by destruct b. Qed.

Definition delivered_between (e : Except_Type) : bool :=
  match e with EXC_EXT_INT | EXC_DECR => true | _ => false end.

(** Where the handler starts. *)
Definition vector (e : Except_Type) (m : machine) : Z :=
  (if Z.testbit (msr (cpu m)) 6 then 0xFFF00000 else 0) + 256 * exc_code e.

Lemma vector_prefix e :
  Z.lor (Z.shiftl (exc_code e) 8) 0xFFF00000 = 0xFFF00000 + 256 * exc_code e /\
  Z.shiftl (exc_code e) 8 = 256 * exc_code e.
Proof. by destruct e. Qed.

(** Whether the handler runs on the other set of registers 0 to 3. *)
Definition switches_gprs (e : Except_Type) (m : machine) : bool :=
  is_603 (cfg m) && test (Z.lxor (msr (cpu m)) (exc_msr e m)) MSR.TGPR.

(** The machine with the handler's MSR, its pending invalidations carried out. *)
Definition synchronised (e : Except_Type) (m : machine) : machine :=
  let m := upd_cpu (with_msr (exc_msr e m)) m in
  match e with EXC_MACHINE_CHECK | EXC_SYSTEM_RESET => m | _ => do_ctx_sync m end.

(** Everything the handler does that an instruction can observe: the registers, the
    MMU, what the interpreter goes on with, and that nothing else has changed. *)
Record exception_entry (e : Except_Type) (srr0 bits : Z) (m m' : machine) : Prop := {
  ee_srr0 : m_spr m' SPR.SRR0 = srr0;
  ee_srr1 : m_spr m' SPR.SRR1 = Z.lor (Z.land (msr (cpu m)) 0xFF73) bits;
  ee_spr : forall i, i <> SPR.SRR0 -> i <> SPR.SRR1 -> m_spr m' i = m_spr m i;
  ee_msr : msr (cpu m') = exc_msr e m;
  ee_pc : pc (cpu m') = pc (cpu m);
  ee_nia : ppc_next_instruction_address (ex m') = vector e m;
  ee_flags : exec_flags (ex m') = EXEF.EXEF_EXCEPTION;
  ee_gpr : test (Z.lxor (msr (cpu m)) (exc_msr e m)) MSR.TGPR = false -> gpr (cpu m') = gpr (cpu m);
  ee_sync : e <> EXC_MACHINE_CHECK -> e <> EXC_SYSTEM_RESET -> gCtxSyncCallbacks (ex m') = [];
  ee_pending : int_pin (ex m') = int_pin (ex m) /\
    dec_exception_pending (ex m') = dec_exception_pending (ex m) /\
    thrm_exception_pending (ex m') = thrm_exception_pending (ex m);
  ee_env : same_environment m m';
  ee_cpu : cpu m' = with_gpr (gpr (cpu m')) (with_msr (exc_msr e m)
    (set_spr SPR.SRR1 (Z.lor (Z.land (msr (cpu m)) 0xFF73) bits) (set_spr SPR.SRR0 srr0 (cpu m))));
  ee_banks : forall i, let other := switches_gprs e m && (0 <=? i) && (i <? 4) in
    (gpr (cpu m')).[i] = (if other then (ppc_shadow_gprs (ex m)).[i] else (gpr (cpu m)).[i]) /\
    (ppc_shadow_gprs (ex m')).[i] = (if other then (gpr (cpu m)).[i] else (ppc_shadow_gprs (ex m)).[i]);
  ee_mmu : mmu m' = mmu (mmu_change_mode (synchronised e m));
  ee_fpu : fpu_grabber (ex m') = fpu_grabber (ex m) && negb (test (msr (cpu m)) MSR.FP);
  ee_rest : exec_timer (ex m') = exec_timer (ex m) /\ junction_temperature (ex m') = junction_temperature (ex m);
  ee_power : let off := negb (is_601 (cfg m)) && test (exc_msr e m) MSR.LE in
    let reason := if off then po_enter_debugger else power_off_reason (ex m) in
    power_off_reason (ex m') = reason /\
    power_on (ex m') = (power_on (ex m) && negb off) || (negb (delivered_between e) && bool_decide (reason = po_endian_switch))
}.

Lemma exc_msr_spr e m f : (forall s, msr (f s) = msr s) -> exc_msr e (upd_cpu f m) = exc_msr e m.
Proof. intros Hf. unfold exc_msr. cbn [cpu upd_cpu set_cpu cfg]. by rewrite Hf. Qed.

Lemma fp_off e m : test (exc_msr e m) MSR.FP = false.
Proof. unfold MSR.FP. change (2 ^ (63 - 50)) with (2 ^ 13). rewrite test_pow2, exc_msr_bit by lia. apply andb_false_r. Qed.
Lemma lxor_fp e m : test (Z.lxor (msr (cpu m)) (exc_msr e m)) MSR.FP = test (msr (cpu m)) MSR.FP.
Proof.
  pose proof (fp_off e m) as H. revert H. unfold MSR.FP. change (2 ^ (63 - 50)) with (2 ^ 13). rewrite !test_pow2, Z.lxor_spec by lia.
  intros ->. apply xorb_false_r.
Qed.

Lemma exception_handler_entry e bits m srr0 : exc_srr0 e m = Some srr0 ->
  exists m', ppc_exception_handler e bits m = ((if delivered_between e then Ret tt else Longjmp), m') /\
    exception_entry e srr0 bits m m'.
Proof.
  intros E. unfold ppc_exception_handler. rewrite E.
  set (m1 := upd_cpu (set_spr SPR.SRR0 srr0) m).
  set (m2 := upd_ex (set_ppc_next_instruction_address (Z.shiftl (exc_code e) 8)) m1).
  set (m3 := upd_cpu (set_spr SPR.SRR1 (Z.lor (Z.land (msr (cpu m2)) 0xFF73) bits)) m2).
  assert (exc_msr e m3 = exc_msr e m) as Emsr by done. rewrite Emsr.
  change (msr (cpu m3)) with (msr (cpu m)).
  set (m4 := if is_601 (cfg m3) then m3 else ppc_change_endian (test (exc_msr e m) MSR.LE) m3).
  assert (cpu m4 = cpu m3 /\ mmu m4 = mmu m3 /\ same_environment m3 m4 /\
    ppc_next_instruction_address (ex m4) = ppc_next_instruction_address (ex m3) /\
    int_pin (ex m4) = int_pin (ex m3) /\
    dec_exception_pending (ex m4) = dec_exception_pending (ex m3) /\
    thrm_exception_pending (ex m4) = thrm_exception_pending (ex m3) /\
    same_rest (ex m3) (ex m4) /\ gCtxSyncCallbacks (ex m4) = gCtxSyncCallbacks (ex m3) /\
    let off := negb (is_601 (cfg m)) && test (exc_msr e m) MSR.LE in
    power_off_reason (ex m4) = (if off then po_enter_debugger else power_off_reason (ex m)) /\
    power_on (ex m4) = power_on (ex m) && negb off)
    as (F1&F2&F3&F4&F6&F7&F8&F9&F10&F11).
  { unfold m4. change (is_601 (cfg m3)) with (is_601 (cfg m)). destruct (is_601 (cfg m)); cbn [negb andb].
    - split_and!; try done. by rewrite andb_true_r.
    - destruct (test _ MSR.LE); split_and!; try done; [by rewrite andb_false_r | by rewrite andb_true_r]. }
  clearbody m4. cbv zeta in F11. destruct F11 as [F11 F12].
  destruct (msr_did_change_frame (msr (cpu m)) (exc_msr e m) false m4)
    as (G1&G2&G3&G4&G5&G6&G7&G8&G9&G10&G11&G12&G13).
  specialize (G12 eq_refl).
  destruct (msr_did_change_rest (msr (cpu m)) (exc_msr e m) m4) as (R1&R2&R3&R4&R5).
  set (m5 := ppc_msr_did_change (msr (cpu m)) (exc_msr e m) false m4) in *. clearbody m5.
  set (m6 := if test (msr (cpu m5)) MSR.IP then _ else m5).
  assert (cpu m6 = cpu m5 /\ same_environment m5 m6 /\ int_pin (ex m6) = int_pin (ex m5) /\
    dec_exception_pending (ex m6) = dec_exception_pending (ex m5) /\
    thrm_exception_pending (ex m6) = thrm_exception_pending (ex m5) /\
    ppc_next_instruction_address (ex m6) = vector e m /\ mmu m6 = mmu m5 /\ same_rest (ex m5) (ex m6) /\
    gCtxSyncCallbacks (ex m6) = gCtxSyncCallbacks (ex m5) /\ power_off_reason (ex m6) = power_off_reason (ex m5) /\
    power_on (ex m6) = power_on (ex m5)) as (I1&I2&I3&I4&I5&I6&I7&I8&I9&I10&I11).
  { unfold m6. assert (test (msr (cpu m5)) MSR.IP = Z.testbit (msr (cpu m)) 6) as ->.
    { rewrite G1. unfold MSR.IP. change (2 ^ (63 - 57)) with (2 ^ 6). rewrite test_pow2, exc_msr_bit by lia.
      apply andb_true_r. }
    unfold vector. destruct (vector_prefix e) as [V1 V2].
    destruct (Z.testbit (msr (cpu m)) 6); split_and!; try done.
    - cbn. rewrite G12, F4. exact V1.
    - rewrite G12, F4. exact V2. }
  clearbody m6.
  set (m7 := upd_ex (set_exec_flags EXEF.EXEF_EXCEPTION) m6).
  set (m8 := match e with EXC_MACHINE_CHECK | EXC_SYSTEM_RESET => m7 | _ => do_ctx_sync m7 end).
  destruct (do_ctx_sync_frame m7) as (S1&S2&S3).
  assert (cpu m8 = cpu m7 /\ same_environment m7 m8 /\ int_pin (ex m8) = int_pin (ex m7) /\
    dec_exception_pending (ex m8) = dec_exception_pending (ex m7) /\
    thrm_exception_pending (ex m8) = thrm_exception_pending (ex m7) /\
    ppc_next_instruction_address (ex m8) = ppc_next_instruction_address (ex m7) /\
    exec_flags (ex m8) = exec_flags (ex m7) /\
    (e <> EXC_MACHINE_CHECK -> e <> EXC_SYSTEM_RESET -> gCtxSyncCallbacks (ex m8) = []) /\
    same_rest (ex m7) (ex m8) /\ power_off_reason (ex m8) = power_off_reason (ex m7) /\ power_on (ex m8) = power_on (ex m7))
    as (J1&J2&J3&J4&J5&J6&J7&J8&J9&J10&J11).
  { assert (m8 = m7 /\ (e = EXC_MACHINE_CHECK \/ e = EXC_SYSTEM_RESET) \/ m8 = do_ctx_sync m7) as [[-> Hc]| ->]
      by (unfold m8; destruct e; auto).
    - split_and!; try done. intros N1 N2. by destruct Hc.
    - rewrite S1, S2. by split_and!. }
  assert (mmu m8 = mmu (synchronised e m)) as J12.
  { assert (mmu m7 = mmu m) as U by (change (mmu m7) with (mmu m6); by rewrite I7, G10, F2).
    assert (gCtxSyncCallbacks (ex m7) = gCtxSyncCallbacks (ex m)) as V
      by (change (gCtxSyncCallbacks (ex m7)) with (gCtxSyncCallbacks (ex m6)); by rewrite I9, G6, F10).
    unfold m8, synchronised. destruct e; solve [exact U | by apply ctx_sync_mmu]. }
  assert (msr (cpu (synchronised e m)) = exc_msr e m) as J13.
  { unfold synchronised. by destruct e; rewrite ?(proj1 (do_ctx_sync_frame _)). }
  clearbody m8. destruct (mmu_change_mode_frame m8) as (K1&K2&K3).
  pose proof (change_mode_mmu (synchronised e m) m8) as K4.
  set (m9 := mmu_change_mode m8) in *. clearbody m9.
  set (m10 := match e with EXC_EXT_INT | EXC_DECR => m9 | _ =>
    if negb (power_on (ex m9)) && bool_decide (power_off_reason (ex m9) = po_endian_switch)
    then upd_ex (set_power_on true) m9 else m9 end).
  exists m10. split; [unfold m10, delivered_between; by destruct e|].
  assert (cpu m10 = cpu m6 /\ same_environment m9 m10 /\ int_pin (ex m10) = int_pin (ex m9) /\
    dec_exception_pending (ex m10) = dec_exception_pending (ex m9) /\
    thrm_exception_pending (ex m10) = thrm_exception_pending (ex m9) /\
    ppc_next_instruction_address (ex m10) = ppc_next_instruction_address (ex m9) /\
    exec_flags (ex m10) = exec_flags (ex m9) /\ gCtxSyncCallbacks (ex m10) = gCtxSyncCallbacks (ex m9) /\
    same_rest (ex m9) (ex m10) /\ mmu m10 = mmu m9)
    as (L1&L2&L3&L4&L5&L6&L7&L8&L9&L10).
  { assert (m10 = m9 \/ m10 = upd_ex (set_power_on true) m9) as [-> | ->]
      by (unfold m10; clear; destruct e; try (by left);
        destruct (negb (power_on (ex m9)) && bool_decide (power_off_reason (ex m9) = po_endian_switch)); first [by left | by right]);
      cbn [cpu upd_ex set_ex]; rewrite ?K1, ?J1; by split_and!. }
  assert (power_off_reason (ex m10) = power_off_reason (ex m9) /\ power_on (ex m10) =
    power_on (ex m9) || (negb (delivered_between e) && bool_decide (power_off_reason (ex m9) = po_endian_switch))) as [L11 L12].
  { unfold m10. destruct (power_on (ex m9)) eqn:E1, (bool_decide (power_off_reason (ex m9) = po_endian_switch)) eqn:E2;
      destruct e; cbn [negb andb orb delivered_between]; split; done || by rewrite E1. }
  clearbody m10.
  assert (same_rest (ex m5) (ex m10)) as (Q1&Q2&Q3&Q4).
  { apply (same_rest_trans _ (ex m9)); [|done]. rewrite K2. apply (same_rest_trans _ (ex m7)); [|done].
    by apply (same_rest_trans _ (ex m6)). }
  destruct F9 as (P1&P2&P3&P4).
  assert (power_off_reason (ex m9) = (if negb (is_601 (cfg m)) && test (exc_msr e m) MSR.LE then po_enter_debugger else power_off_reason (ex m)) /\
    power_on (ex m9) = power_on (ex m) && negb (negb (is_601 (cfg m)) && test (exc_msr e m) MSR.LE)) as [Q5 Q6].
  { rewrite K2, J10, J11. change (power_off_reason (ex m7)) with (power_off_reason (ex m6)). change (power_on (ex m7)) with (power_on (ex m6)).
    rewrite I10, I11, G4, G5, F11, F12. done. }
  split; unfold m_spr; rewrite ?L1, ?I1, ?G2, ?G3, ?F1.
  - unfold m3, m2, m1. cbn. rewrite rget_rset_ne by done. apply rget_rset_eq.
  - unfold m3, m2, m1. cbn. apply rget_rset_eq.
  - intros i N0 N1. unfold m3, m2, m1. cbn. rewrite !rget_rset_ne by done. done.
  - exact G1.
  - done.
  - rewrite L6, K2, J6. exact I6.
  - by rewrite L7, K2, J7.
  - intros Ht. rewrite G13 by done. by rewrite F1.
  - intros N0 N1. rewrite L8, K2. by apply J8.
  - rewrite L3, L4, L5, K2, J3, J4, J5.
    change (int_pin (ex m7)) with (int_pin (ex m6)).
    change (dec_exception_pending (ex m7)) with (dec_exception_pending (ex m6)).
    change (thrm_exception_pending (ex m7)) with (thrm_exception_pending (ex m6)).
    rewrite I3, I4, I5, G7, G8, G9, F6, F7, F8. done.
  - apply (same_env_trans m m3); [done|]. apply (same_env_trans m3 m4); [done|].
    apply (same_env_trans m4 m5); [done|]. apply (same_env_trans m5 m6); [done|].
    apply (same_env_trans m6 m7); [done|]. apply (same_env_trans m7 m8); [done|].
    by apply (same_env_trans m8 m9).
  - rewrite R1 at 1. by rewrite F1.
  - intros i. cbv zeta. rewrite Q2. unfold switches_gprs. destruct F3 as (Ec & _). destruct (R2 i) as [R2a R2b].
    rewrite R2a, R2b, P2, F1. rewrite Ec. change (cfg m3) with (cfg m). by split.
  - rewrite L10. apply K4; [|exact J12]. rewrite J13, J1. change (cpu m7) with (cpu m6). by rewrite I1, G1.
  - rewrite Q1, R3, P1, lxor_fp, fp_off. change (fpu_grabber (ex m3)) with (fpu_grabber (ex m)).
    destruct (test (msr (cpu m)) MSR.FP); [by rewrite andb_false_r | by rewrite andb_true_r].
  - rewrite Q3, Q4, R4, R5, P3, P4. done.
  - cbv zeta. rewrite L11, L12, Q5, Q6. done.
Qed.

(** ** Return from interrupt *)

Definition rfi_replace (m : machine) : Z := if is_603 (cfg m) then 0x0000FF73 else 0x87C0FF73.

(** The MSR [rfi] installs. *)
Definition rfi_msr (m : machine) : Z :=
  let v := Z.lor (Z.land (msr (cpu m)) (not32 (Z.lor (rfi_replace m) MSR.POW)))
             (Z.land (m_spr m SPR.SRR1) (Z.land (rfi_replace m) (Z.lnot MSR.POW))) in
  if is_603 (cfg m) then Z.land v (Z.lnot MSR.TGPR) else v.

Lemma rfi_msr_bit m i : 0 <= i < 32 ->
  Z.testbit (rfi_msr m) i =
  if (i =? 18) || (is_603 (cfg m) && (i =? 17)) then false
  else if Z.testbit (rfi_replace m) i then Z.testbit (m_spr m SPR.SRR1) i
  else Z.testbit (msr (cpu m)) i.
Proof.
  intros Hi. unfold rfi_msr, MSR.POW, MSR.TGPR.
  change (2 ^ (63 - 45)) with (2 ^ 18). change (2 ^ (63 - 46)) with (2 ^ 17).
  set (x := msr (cpu m)). set (y := m_spr m SPR.SRR1).
  assert (Hv : Z.testbit (Z.lor (Z.land x (not32 (Z.lor (rfi_replace m) (2 ^ 18))))
      (Z.land y (Z.land (rfi_replace m) (Z.lnot (2 ^ 18))))) i =
    if i =? 18 then false else if Z.testbit (rfi_replace m) i then Z.testbit y i else Z.testbit x i).
  { rewrite Z.lor_spec, !Z.land_spec, testbit_not32, Z.lor_spec, Z.lnot_spec, testbit_2p by lia.
    destruct (i =? 18), (Z.testbit (rfi_replace m) i), (Z.testbit x i), (Z.testbit y i); done. }
  destruct (is_603 (cfg m)); rewrite ?Z.land_spec, ?Hv, ?Z.lnot_spec, ?testbit_2p by lia; cbn [andb].
  - destruct (i =? 18), (i =? 17); cbn [orb negb]; by rewrite ?andb_true_r, ?andb_false_r.
  - by rewrite orb_false_r.
Qed.

Lemma rfi_msr_range m : ppc_ok (cpu m) -> 0 <= rfi_msr m < 2 ^ 32.
Proof.
  intros Hok. unfold rfi_msr.
  assert (0 <= Z.lor (Z.land (msr (cpu m)) (not32 (Z.lor (rfi_replace m) MSR.POW)))
             (Z.land (m_spr m SPR.SRR1) (Z.land (rfi_replace m) (Z.lnot MSR.POW))) < 2 ^ 32).
  { apply lor_range; [lia| |]; apply land_range_l; try lia; [apply Hok | apply ok_get_spr, Hok]. }
  destruct (is_603 (cfg m)); [by apply land_range_l | done].
Qed.

(** The state of [rfi] once the MSR is installed. *)
Definition rfi_restored (m : machine) : machine :=
  let m1 := if is_601 (cfg m) then m else ppc_change_endian (test (rfi_msr m) MSR.LE) m in
  ppc_msr_did_change (msr (cpu m1)) (rfi_msr m) true m1.

Lemma rfi_restored_frame m : let m2 := rfi_restored m in
  msr (cpu m2) = rfi_msr m /\ spr (cpu m2) = spr (cpu m) /\ pc (cpu m2) = pc (cpu m) /\
  int_pin (ex m2) = int_pin (ex m) /\ dec_exception_pending (ex m2) = dec_exception_pending (ex m) /\
  thrm_exception_pending (ex m2) = thrm_exception_pending (ex m) /\ same_environment m m2 /\
  (test (Z.lxor (msr (cpu m)) (rfi_msr m)) MSR.TGPR = false -> gpr (cpu m2) = gpr (cpu m)).
Proof.
  unfold rfi_restored. set (m1 := if is_601 (cfg m) then m else _).
  assert (cpu m1 = cpu m /\ int_pin (ex m1) = int_pin (ex m) /\
    dec_exception_pending (ex m1) = dec_exception_pending (ex m) /\
    thrm_exception_pending (ex m1) = thrm_exception_pending (ex m) /\ same_environment m m1)
    as (E1&E2&E3&E4&E5) by (unfold m1; destruct (is_601 (cfg m)); [done|]; by destruct (test _ MSR.LE)).
  clearbody m1.
  destruct (msr_did_change_frame (msr (cpu m1)) (rfi_msr m) true m1) as (G1&G2&G3&_&_&_&G7&G8&G9&_&G11&_&G13).
  split_and!; try congruence.
  - by apply (same_env_trans m m1).
  - intros Ht. rewrite G13; [by rewrite E1 | by rewrite E1].
Qed.

Lemma ppc_rfi_eq opcode m : msr_bit MSR.PR m = false ->
  let m2 := rfi_restored m in
  ppc_rfi opcode m =
  if msr_bit MSR.EE m2 && (int_pin (ex m2) || dec_exception_pending (ex m2) || thrm_exception_pending (ex m2))
  then (bind
      (if int_pin (ex m2) then ppc_exception_handler EXC_EXT_INT 0
       else if dec_exception_pending (ex m2) then
         modify (upd_ex (set_dec_exception_pending false)) ;;; ppc_exception_handler EXC_DECR 0
       else
         modify (upd_ex (set_thrm_exception_pending false)) ;;; ppc_exception_handler EXC_THRM_MGMT_INT 0)
      (fun _ => set_m_spr SPR.SRR0 (Z.land (m_spr m2 SPR.SRR0) (Z.lnot 3)))) m2
  else
    let m3 := upd_ex (set_ppc_next_instruction_address (Z.land (m_spr m2 SPR.SRR0) (Z.lnot 3))) m2 in
    let m4 := mmu_change_mode (do_ctx_sync m3) in
    (Ret tt, upd_ex (fun e => set_exec_flags (Z.lor (exec_flags e) EXEF.EXEF_RFI) e) m4).
Proof.
  intros Hpr m2. unfold ppc_rfi, privileged. unfold bind at 1, gets at 1. rewrite Hpr.
  unfold m2, rfi_restored, rfi_msr, rfi_replace. by destruct (is_603 (cfg m)), (is_601 (cfg m)).
Qed.

(** [rfi] with nothing pending. *)
Lemma rfi_returns opcode m : msr_bit MSR.PR m = false ->
  (Z.testbit (rfi_msr m) 15 = false \/
   (int_pin (ex m) = false /\ dec_exception_pending (ex m) = false /\ thrm_exception_pending (ex m) = false)) ->
  exists m', ppc_rfi opcode m = (Ret tt, m') /\
    ppc_next_instruction_address (ex m') = Z.land (m_spr m SPR.SRR0) (Z.lnot 3) /\
    msr (cpu m') = rfi_msr m /\ spr (cpu m') = spr (cpu m) /\
    (test (Z.lxor (msr (cpu m)) (rfi_msr m)) MSR.TGPR = false -> gpr (cpu m') = gpr (cpu m)) /\
    gCtxSyncCallbacks (ex m') = [] /\ Z.testbit (exec_flags (ex m')) 2 = true.
Proof.
  intros Hpr Hq. rewrite ppc_rfi_eq by done.
  destruct (rfi_restored_frame m) as (R1&R2&R3&R4&R5&R6&R7&R8). set (m2 := rfi_restored m) in *.
  replace (msr_bit MSR.EE m2 && _) with false.
  2:{ symmetry. unfold msr_bit, MSR.EE. rewrite R1. change (2 ^ (63 - 48)) with (2 ^ 15).
      rewrite test_pow2 by lia. destruct Hq as [->|(H1&H2&H3)]; [done|].
      rewrite R4, R5, R6, H1, H2, H3. by rewrite andb_false_r. }
  cbv zeta. set (m3 := upd_ex _ m2). eexists. split; [reflexivity|].
  destruct (do_ctx_sync_frame m3) as (S1&S2&_).
  destruct (mmu_change_mode_frame (do_ctx_sync m3)) as (K1&K2&_).
  cbn [ex cpu upd_ex set_ex]. rewrite !K1, !K2, !S1, !S2. unfold m_spr. rewrite <- R2.
  split_and!; try done. cbn [exec_flags set_exec_flags]. rewrite Z.lor_spec. apply orb_true_r.
Qed.

(** ** The type invariant *)

Lemma mok_do_ctx_sync m : machine_ok m -> machine_ok (do_ctx_sync m).
Proof.
  intros Hm. unfold do_ctx_sync. apply mok_ex_frame; [|done..].
  generalize (gCtxSyncCallbacks (ex m)). intros l. revert m Hm.
  induction l as [|[t] l IH]; intros m Hm; [done|]. cbn [fold_left]. apply IH. by apply mok_mmu.
Qed.

Lemma mok_change_mode m : machine_ok m -> machine_ok (mmu_change_mode m).
Proof.
  intros Hm. unfold mmu_change_mode.
  repeat match goal with |- context [if ?b then _ else _] => destruct b end; auto using mok_mmu.
Qed.

Lemma mok_change_endian b m : machine_ok m -> machine_ok (ppc_change_endian b m).
Proof. intros Hm. destruct b; [|done]. by apply mok_ex_frame. Qed.

Lemma mok_swap_shadow i m : machine_ok m -> machine_ok (swap_shadow i m).
Proof.
  intros Hm. unfold swap_shadow. apply mok_ex.
  - apply mok_gpr; [done|]. apply Hm.
  - intros (?&?&?). refine (conj _ (conj _ _)); try done. apply file_ok_set; [done|]. by apply mok_get_gpr.
Qed.

Lemma mok_msr_did_change old new b m : machine_ok m -> 0 <= new < 2 ^ 32 ->
  machine_ok (ppc_msr_did_change old new b m).
Proof.
  intros Hm Hn. unfold ppc_msr_did_change. set (m1 := if _ && _ then _ else _).
  assert (machine_ok m1) as Hm1.
  { unfold m1. destruct (_ && _); [|by apply mok_msr]. cbn [fold_left].
    repeat apply mok_swap_shadow. by apply mok_msr. }
  clearbody m1. destruct (test _ MSR.FP); [|done].
  assert (machine_ok (upd_ex (fun e => set_exec_flags (Z.lor (exec_flags e) EXEF.EXEF_OPC_DECODER) e)
    (upd_ex (set_fpu_grabber (test new MSR.FP)) m1))) as Hm2.
  { apply mok_ex; [by apply mok_ex_frame|]. intros (?&?&?). refine (conj _ (conj _ _)); try done;
      cbn [exec_flags set_exec_flags]; apply lor_range; (lia || done || by unfold EXEF.EXEF_OPC_DECODER). }
  destruct b; [apply mok_nia; [done | apply u32_range] | done].
Qed.

Lemma exc_msr_range e m : machine_ok m -> 0 <= exc_msr e m < 2 ^ 32.
Proof.
  intros Hm. pose proof (mok_get_msr m Hm) as Hr. unfold exc_msr.
  set (v := Z.land (msr (cpu m)) 0xFFFB1041).
  assert (0 <= v < 2 ^ 32) as Hv by (by apply land_range_l). clearbody v.
  set (w := if is_603 (cfg m) then _ else _).
  assert (0 <= w < 2 ^ 32) as Hw.
  { unfold w. destruct (is_603 (cfg m)); [|done].
    assert (0 <= Z.land v (Z.lnot MSR.TGPR) < 2 ^ 32) by (by apply land_range_l).
    destruct e; try done; apply lor_range; (lia || done). }
  clearbody w. destruct (is_601 (cfg m)); [done|].
  apply lor_range; [lia|by apply land_range_l|]. by destruct (test _ _).
Qed.

Lemma exc_srr0_range e m v : machine_ok m -> exc_srr0 e m = Some v -> 0 <= v < 2 ^ 32.
Proof.
  intros Hm H. assert (0 <= Z.land (pc (cpu m)) 0xFFFFFFFC < 2 ^ 32) by (apply land_range_l; [lia | apply Hm]).
  pose proof (mo_nia m Hm). pose proof (u32_range (Z.land (pc (cpu m)) 0xFFFFFFFC + 4)).
  unfold exc_srr0 in H. cbv zeta in H.
  destruct (test (exec_flags (ex m)) (Z.lnot EXEF.EXEF_OPC_DECODER)); destruct e;
    first [discriminate H | injection H as <-; assumption].
Qed.

Lemma exception_handler_ok e bits : 0 <= bits < 2 ^ 32 ->
  preserves machine_ok (ppc_exception_handler e bits).
Proof.
  intros Hb m Hm. unfold ppc_exception_handler. destruct (exc_srr0 e m) as [srr0|] eqn:Es; [|done].
  cbv zeta. set (m1 := upd_cpu (set_spr SPR.SRR1 _) _).
  assert (machine_ok m1) as H1.
  { apply mok_spr.
    - apply mok_nia; [apply mok_spr; [done | by eapply exc_srr0_range]|]. by destruct e.
    - apply lor_range; [lia| |done]. apply land_range_l; [lia | exact (mok_get_msr m Hm)]. }
  clearbody m1. set (m2 := ppc_msr_did_change _ _ _ _).
  assert (machine_ok m2) as H2.
  { apply mok_msr_did_change; [|by apply exc_msr_range]. destruct (is_601 _); [done | by apply mok_change_endian]. }
  clearbody m2. set (m3 := if test _ MSR.IP then _ else _).
  assert (machine_ok m3) as H3.
  { unfold m3. destruct (test _ MSR.IP); [|done]. apply mok_ex; [done|]. intros (?&?&?).
    refine (conj _ (conj _ _)); try done; cbn [ppc_next_instruction_address set_ppc_next_instruction_address];
      apply lor_range; (lia || done). }
  clearbody m3. assert (machine_ok (upd_ex (set_exec_flags EXEF.EXEF_EXCEPTION) m3)) as H4
    by (by apply mok_flags). set (m4 := upd_ex _ m3) in *. clearbody m4.
  set (m5 := match e with EXC_MACHINE_CHECK | EXC_SYSTEM_RESET => m4 | _ => _ end).
  assert (machine_ok (mmu_change_mode m5)) as H5.
  { apply mok_change_mode. unfold m5. destruct e; auto using mok_do_ctx_sync. }
  set (m6 := mmu_change_mode m5) in *. clearbody m6.
  assert (machine_ok (if negb (power_on (ex m6)) && bool_decide (power_off_reason (ex m6) = po_endian_switch)
    then upd_ex (set_power_on true) m6 else m6)) by (case_if; [by apply mok_ex_frame | done]).
  by destruct e.
Qed.

Lemma privileged_ok k : preserves machine_ok k -> preserves machine_ok (privileged k).
Proof.
  intros Hk. apply preserves_bind; [auto with preserve|]. intros [].
  - by apply exception_handler_ok.
  - done.
Qed.

Lemma ppc_rfi_ok opcode : preserves machine_ok (ppc_rfi opcode).
Proof.
  unfold ppc_rfi. apply privileged_ok. intros m Hm. cbv zeta.
  set (v := Z.lor (Z.land (msr (cpu m)) _) _). set (w := if is_603 (cfg m) then Z.land v _ else v).
  assert (0 <= w < 2 ^ 32) as Hw.
  { assert (0 <= v < 2 ^ 32) by (apply lor_range; [lia| |];
      (apply land_range_l; [lia | first [by apply mok_get_msr | by apply mok_get_spr]])).
    unfold w. destruct (is_603 (cfg m)); [by apply land_range_l | done]. }
  clearbody w. set (m1 := if is_601 (cfg m) then m else _).
  assert (machine_ok m1) as H1 by (unfold m1; destruct (is_601 _); [done | by apply mok_change_endian]).
  clearbody m1. set (m2 := ppc_msr_did_change _ _ _ _).
  assert (machine_ok m2) as H2 by (by apply mok_msr_did_change). clearbody m2.
  assert (0 <= Z.land (m_spr m2 SPR.SRR0) (Z.lnot 3) < 2 ^ 32) as Hs
    by (apply land_range_l; [lia | by apply mok_get_spr]).
  case_if.
  - revert m2 H2 Hs Heqb. intros m2 H2 Hs _.
    refine (preserves_bind machine_ok _ _ _ _ m2 H2).
    + repeat apply preserves_if; try (by apply exception_handler_ok);
        (apply preserves_bind; [|intros; by apply exception_handler_ok]);
        apply preserves_modify; intros; by apply mok_ex_frame.
    + intros _. apply preserves_modify. intros. by apply mok_spr.
  - assert (machine_ok (mmu_change_mode (do_ctx_sync (upd_ex (set_ppc_next_instruction_address
      (Z.land (m_spr m2 SPR.SRR0) (Z.lnot 3))) m2)))) as H3
      by (by apply mok_change_mode, mok_do_ctx_sync, mok_nia).
    apply mok_ex; [done|]. intros (?&?&?). refine (conj _ (conj _ _)); try done; cbn [exec_flags set_exec_flags]; apply lor_range; (lia || done).
Qed.

(** ** Properties *)

(** Where the program goes on after an exception: at the instruction itself, at the
    one after it, or, for what comes between instructions or before one is fetched,
    wherever execution was about to go. *)
Inductive resume_point := At_instruction | After_instruction | Before_next | Before_fetch.
Definition resume_of (e : Except_Type) : option resume_point :=
  match e with
  | EXC_SYSTEM_RESET | EXC_MACHINE_CHECK | EXC_DSI | EXC_ALIGNMENT | EXC_PROGRAM | EXC_NO_FPU
  | EXC_DTLB_LOAD_MISS | EXC_DTLB_STORE_MISS => Some At_instruction
  | EXC_SYSCALL | EXC_TRACE => Some After_instruction
  | EXC_EXT_INT | EXC_DECR | EXC_THRM_MGMT_INT => Some Before_next
  | EXC_ISI | EXC_ITLB_MISS => Some Before_fetch
  | EXC_FP_ASSIST | EXC_PERF_MON_INT | EXC_INST_ADDR_BP | EXC_SYS_MGMT_INT => None
  end.
Definition resume_address (r : resume_point) (m : machine) : Z :=
  let this := pc (cpu m) - pc (cpu m) mod 4 in
  let going := existsb (fun i => negb (i =? 3) && Z.testbit (exec_flags (ex m)) i) (zrange 32) in
  match r with
  | At_instruction => this
  | After_instruction => (this + 4) mod 2 ^ 32
  | Before_next => if going then ppc_next_instruction_address (ex m) else (this + 4) mod 2 ^ 32
  | Before_fetch => if going then ppc_next_instruction_address (ex m) else this
  end.

Lemma word_aligned p : 0 <= p < 2 ^ 32 -> Z.land p 0xFFFFFFFC = p - p mod 4.
Proof.
  intros Hp. change 0xFFFFFFFC with (Z.ldiff (Z.ones 32) (Z.ones 2)).
  assert (Z.land p (Z.ldiff (Z.ones 32) (Z.ones 2)) = Z.ldiff p (Z.ones 2)) as ->.
  { rewrite <- (Z.mod_small p (2 ^ 32)) at 2 by done. rewrite <- Z.land_ones by lia. apply Z.bits_inj'. intros n Hn.
    rewrite !Z.land_spec, !Z.ldiff_spec, !Z.land_spec. by rewrite andb_assoc. }
  rewrite Z.ldiff_ones_r, Z.shiftl_mul_pow2, Z.shiftr_div_pow2 by lia. change (2 ^ 2) with 4.
  pose proof (Z.div_mod p 4 ltac:(lia)). lia.
Qed.

(** The code's flags are these addresses. *)
Lemma going_flags m : 0 <= exec_flags (ex m) < 2 ^ 32 ->
  test (exec_flags (ex m)) (Z.lnot EXEF.EXEF_OPC_DECODER) =
  existsb (fun i => negb (i =? 3) && Z.testbit (exec_flags (ex m)) i) (zrange 32).
Proof.
  intros Hf. set (x := exec_flags (ex m)) in *.
  assert (forall i, Z.testbit (Z.land x (Z.lnot EXEF.EXEF_OPC_DECODER)) i = (0 <=? i) && negb (i =? 3) && Z.testbit x i) as Hb.
  { intros i. destruct (Z.leb_spec 0 i); [|by rewrite Z.testbit_neg_r]. rewrite Z.land_spec, Z.lnot_spec by done. unfold EXEF.EXEF_OPC_DECODER.
    rewrite testbit_2p by lia. cbn [andb]. apply andb_comm. }
  apply eq_true_iff_eq. rewrite existsb_exists. unfold test. rewrite negb_true_iff, Z.eqb_neq. split.
  - intros Hne. destruct (Z.eq_dec (Z.land x (Z.lnot EXEF.EXEF_OPC_DECODER)) 0) as [|_]; [done|].
    set (y := Z.land x _) in *. assert (0 <= y < 2 ^ 32) as Hy by (by apply land_range_l).
    pose proof (Z.bit_log2 y ltac:(lia)) as Hlog. pose proof (Z.log2_lt_pow2 y 32 ltac:(lia)). pose proof (Z.log2_nonneg y).
    exists (Z.log2 y). split; [apply in_map_iff; exists (Z.to_nat (Z.log2 y)); split; [lia | apply in_seq; lia]|].
    rewrite Hb in Hlog. apply andb_true_iff in Hlog as [[_ H1]%andb_true_iff H2]. by rewrite H1, H2.
  - intros (i & (j & <- & Hj)%in_map_iff & Hi) E0. pose proof (Hb (Z.of_nat j)) as H1. rewrite E0, Z.bits_0 in H1.
    rewrite (proj2 (Z.leb_le 0 (Z.of_nat j))) in H1 by lia. cbn [andb] in H1. fold x in Hi. by rewrite Hi in H1.
Qed.

Lemma resume_srr0 e m : 0 <= pc (cpu m) < 2 ^ 32 -> 0 <= exec_flags (ex m) < 2 ^ 32 ->
  exc_srr0 e m = option_map (fun r => resume_address r m) (resume_of e).
Proof.
  intros Hpc Hf. assert (Z.land (pc (cpu m)) 0xFFFFFFFC = pc (cpu m) - pc (cpu m) mod 4) as Ea by (by apply word_aligned).
  unfold exc_srr0, resume_address. rewrite going_flags, Ea by done. by destruct e.
Qed.

(** C11: exception entry.  The resume address in SRR0 is the instruction itself for
    faults, the next one for system calls and traces, and for interrupts and
    instruction fetch faults the target when a branch or another change of context
    is under way.  SRR1 holds the MSR's recoverable bits with the cause bits;
    execution continues at the exception's vector (high when MSR[IP]), in the MSR in
    which everything but ILE, ME, IP and the high half without POW is cleared - so
    in supervisor mode, with interrupts, translation and the FPU off -, with TGPR set
    only for 603 TLB misses, and the registers 0 to 3 exchanged with the shadow ones
    when that changes TGPR; the MMU has changed to the new mode, after carrying out
    the pending invalidations (resets and machine checks excepted).  No other register
    of any kind, nor memory, timers or time, has changed.  Only
    external and decrementer interrupts return to their caller; an exception
    number the handler does not know stops the emulator. *)
Theorem exception_entry_correct e bits m : 0 <= pc (cpu m) < 2 ^ 32 -> 0 <= exec_flags (ex m) < 2 ^ 32 ->
  match resume_of e with
  | None => ppc_exception_handler e bits m = (Fatal, m)
  | Some r =>
      exists m', ppc_exception_handler e bits m = ((if delivered_between e then Ret tt else Longjmp), m') /\
      exception_entry e (resume_address r m) bits m m' /\
      forall i, 0 <= i < 32 -> Z.testbit (msr (cpu m')) i =
        if i =? 0 then Z.testbit (msr (cpu m)) (if is_601 (cfg m) then 0 else 16)
        else if (i =? 17) && is_603 (cfg m) then
          match e with EXC_ITLB_MISS | EXC_DTLB_LOAD_MISS | EXC_DTLB_STORE_MISS => true | _ => false end
        else ((i =? 6) || (i =? 12) || ((16 <=? i) && negb (i =? 18))) && Z.testbit (msr (cpu m)) i
  end.
Proof.
  intros Hpc Hfl. pose proof (resume_srr0 e m Hpc Hfl) as E. destruct (resume_of e) as [r|].
  - destruct (exception_handler_entry e bits m _ E) as (m' & H1 & H2). exists m'.
    split; [done|]. split; [done|]. intros i Hi. rewrite (ee_msr _ _ _ _ _ H2), exc_msr_bit by lia.
    destruct (Z.eqb_spec i 0); [done|]. destruct (_ && is_603 (cfg m)); [done|].
    rewrite andb_comm. f_equal. each_index i 32%nat; try done.
  - unfold ppc_exception_handler. by rewrite E.
Qed.

(** C12: a system call returns: after [sc] the kernel handler - any code that ends
    in supervisor mode with SRR0 and SRR1 restored - executing [rfi] with nothing
    pending continues at the instruction after [sc] with the caller's MSR, for
    callers whose MSR has none of the bits that exceptions do not save. *)
Theorem sc_rfi_roundtrip op1 op2 m : ppc_ok (cpu m) ->
  Z.land (msr (cpu m)) 0x87C7008C = 0 -> Z.testbit (msr (cpu m)) 0 = false ->
  exists m1, ppc_sc op1 m = (Longjmp, m1) /\
  forall k, ppc_ok (cpu k) ->
    m_spr k SPR.SRR0 = m_spr m1 SPR.SRR0 -> m_spr k SPR.SRR1 = m_spr m1 SPR.SRR1 ->
    msr (cpu k) = msr (cpu m1) -> cfg k = cfg m1 ->
    int_pin (ex k) = false -> dec_exception_pending (ex k) = false -> thrm_exception_pending (ex k) = false ->
  exists m2, ppc_rfi op2 k = (Ret tt, m2) /\
    ppc_next_instruction_address (ex m2) = (Z.land (pc (cpu m)) 0xFFFFFFFC + 4) mod 2 ^ 32 /\
    msr (cpu m2) = msr (cpu m).
Proof.
  intros Hok Hmask Hle.
  assert (forall i, 0 <= i -> Z.testbit (msr (cpu m)) i && Z.testbit 0x87C7008C i = false) as Hm.
  { intros i Hi. by rewrite <- Z.land_spec, Hmask, Z.bits_0. }
  unfold ppc_sc, bind, modify. destruct (do_ctx_sync_frame m) as (S1&S2&S3). set (m0 := do_ctx_sync m) in *.
  destruct (exception_handler_entry EXC_SYSCALL 0 m0 _ eq_refl) as (m1 & E1 & H1). rewrite E1.
  cbn [delivered_between]. exists m1. split; [done|]. intros k K1 K2 K3 K4 K5 K6 K7 K8.
  assert (forall i, 0 <= i < 32 -> Z.testbit (exc_msr EXC_SYSCALL m0) i =
    Z.testbit (msr (cpu m)) i && Z.testbit 0xFFFB1041 i) as Hexc.
  { intros i Hi. rewrite exc_msr_bit, S1 by done.
    destruct (Z.eqb_spec i 0) as [->|].
    - destruct (is_601 _); rewrite Hle; [done|]. specialize (Hm 16 ltac:(lia)). by rewrite andb_true_r in Hm.
    - destruct (Z.eqb_spec i 17) as [->|]; [|done]. specialize (Hm 17 ltac:(lia)). rewrite andb_true_r in Hm.
      rewrite Hm. by destruct (is_603 _). }
  assert (msr_bit MSR.PR k = false) as Hpr.
  { unfold msr_bit, MSR.PR. rewrite K4, (ee_msr _ _ _ _ _ H1). change (2 ^ (63 - 49)) with (2 ^ 14).
    rewrite test_pow2, Hexc by lia. apply andb_false_r. }
  destruct (rfi_returns op2 k Hpr (or_intror (conj K6 (conj K7 K8)))) as (m2 & E2 & N2 & M2 & _).
  exists m2. split; [done|]. split.
  - rewrite N2, K2, (ee_srr0 _ _ _ _ _ H1), S1. change (Z.lnot 3) with (Z.lnot (Z.ones 2)).
    rewrite land_lnot_ones by lia. change 0xFFFFFFFC with (Z.land (Z.ones 32) (Z.lnot (Z.ones 2))).
    rewrite Z.land_assoc, Z.land_ones, (Z.mod_small (pc _)), land_lnot_ones by (try lia; apply Hok).
    unfold uwrap. zlia.
  - rewrite M2. apply Bitops.word_ext; [by apply rfi_msr_range | apply Hok|]. intros i Hi.
    rewrite rfi_msr_bit, K3, K4, (ee_srr1 _ _ _ _ _ H1), (ee_msr _ _ _ _ _ H1), Hexc by done.
    rewrite Z.lor_0_r, Z.land_spec, S1. specialize (Hm i ltac:(lia)).
    unfold rfi_replace. destruct (is_603 (cfg k)); cbn [andb];
    each_index i 32%nat; cbn in Hm |- *;
      rewrite ?andb_true_r, ?andb_false_r in *; try done; by rewrite ?Hm.
Qed.

Definition rfi_demo : machine :=
  upd_ex (fun e => set_dec_exception_pending true (set_exec_flags 0 e))
    (upd_cpu (fun s => set_spr SPR.SRR1 0x8000 (set_spr SPR.SRR0 0x1234 (with_msr 0 s))) demo_machine).

Lemma exception_entry_correct_witness :
  exists m', ppc_exception_handler EXC_DSI 0 demo_machine = (Longjmp, m') /\ m_spr m' SPR.SRR0 = pc (cpu demo_machine) /\
    sr (cpu m') = sr (cpu demo_machine).
Proof.
  destruct (exception_entry_correct EXC_DSI 0 demo_machine ltac:(cbn; lia) ltac:(cbn; lia)) as (m' & E & H & _).
  exists m'. split; [exact E|]. split; [exact (ee_srr0 _ _ _ _ _ H)|]. rewrite (ee_cpu _ _ _ _ _ H). reflexivity.
Defined.

Lemma sc_rfi_roundtrip_witness :
  exists m1 m2, ppc_sc 0x44000002 demo_machine = (Longjmp, m1) /\ ppc_rfi 0x4C000064 m1 = (Ret tt, m2) /\
    ppc_next_instruction_address (ex m2) = pc (cpu demo_machine) + 4.
Proof.
  destruct (sc_rfi_roundtrip 0x44000002 0x4C000064 demo_machine demo_ok eq_refl eq_refl)
    as (m1 & E1 & H).
  assert (machine_ok m1) as Hok.
  { change m1 with (Longjmp (A := unit), m1).2. rewrite <- E1. unfold ppc_sc.
    apply preserves_bind; [apply preserves_modify, mok_do_ctx_sync | | exact demo_machine_ok].
    intros _. by apply exception_handler_ok. }
  assert (let m := (ppc_sc 0x44000002 demo_machine).2 in int_pin (ex m) = false /\
    dec_exception_pending (ex m) = false /\ thrm_exception_pending (ex m) = false) as Hq
    by (vm_compute; auto).
  rewrite E1 in Hq. destruct Hq as (Q1 & Q2 & Q3).
  destruct (H m1 (mo_cpu _ Hok) eq_refl eq_refl eq_refl eq_refl Q1 Q2 Q3) as (m2 & E2 & N2 & _).
  exists m1, m2. split; [exact E1|]. split; [exact E2|]. rewrite N2. vm_compute. reflexivity.
Defined.

(** C37: pending interrupts at [rfi].  When [rfi] enables interrupts with an
    external or decrementer interrupt pending, the interrupt is taken and SRR0
    holds the address [rfi] was returning to.  With a thermal interrupt pending
    the handler leaves through [longjmp] before that address is stored: SRR0
    keeps the address after the [rfi] instruction itself, and the return address
    is lost. *)
Theorem rfi_pending_interrupts opcode m : msr_bit MSR.PR m = false ->
  Z.testbit (rfi_msr m) 15 = true -> exec_flags (ex m) = 0 ->
  test (Z.lxor (msr (cpu m)) (rfi_msr m)) MSR.FP = false ->
  let target := Z.land (m_spr m SPR.SRR0) (Z.lnot 3) in
  (int_pin (ex m) = true \/ dec_exception_pending (ex m) = true ->
     exists m', ppc_rfi opcode m = (Ret tt, m') /\ m_spr m' SPR.SRR0 = target) /\
  (int_pin (ex m) = false -> dec_exception_pending (ex m) = false -> thrm_exception_pending (ex m) = true ->
     exists m', ppc_rfi opcode m = (Longjmp, m') /\ thrm_exception_pending (ex m') = false /\
       m_spr m' SPR.SRR0 = u32 (Z.land (pc (cpu m)) 0xFFFFFFFC + 4)).
Proof.
  intros Hpr Hee Hfl Hfp target.
  destruct (rfi_restored_frame m) as (R1&R2&R3&R4&R5&R6&R7&R8).
  assert (exec_flags (ex (rfi_restored m)) = 0) as Hf2.
  { unfold rfi_restored, ppc_msr_did_change. set (m1 := if is_601 (cfg m) then m else _).
    assert (cpu m1 = cpu m /\ exec_flags (ex m1) = exec_flags (ex m)) as [E1 E2]
      by (unfold m1; destruct (is_601 (cfg m)); [done|]; by destruct (test _ MSR.LE)).
    rewrite E1, Hfp. destruct (_ && _); [|cbn; congruence].
    destruct (swap_shadow_frame [0; 1; 2; 3] (upd_cpu (with_msr (rfi_msr m)) m1)) as (_&_&_&->&_).
    cbn. congruence. }
  pose proof (ppc_rfi_eq opcode m Hpr) as Eq. cbv zeta in Eq. set (m2 := rfi_restored m) in *.
  assert (msr_bit MSR.EE m2 = true) as Hee2.
  { unfold msr_bit, MSR.EE. rewrite R1. change (2 ^ (63 - 48)) with (2 ^ 15). by rewrite test_pow2. }
  rewrite Hee2, R4, R5, R6 in Eq. cbn [andb] in Eq.
  assert (m_spr m2 SPR.SRR0 = m_spr m SPR.SRR0) as Hs2 by (unfold m_spr; by rewrite R2).
  rewrite Hs2 in Eq. fold target in Eq. split.
  - intros Hp. replace (int_pin (ex m) || _ || _) with true in Eq by (by destruct Hp as [-> | ->]; rewrite ?orb_true_r).
    rewrite Eq. destruct (int_pin (ex m)).
    + destruct (exception_handler_entry EXC_EXT_INT 0 m2 _ eq_refl) as (m3 & E3 & _).
      unfold bind. rewrite E3. cbn [delivered_between]. eexists. split; [reflexivity|].
      unfold m_spr. cbn. apply rget_rset_eq.
    + destruct Hp as [Hp|Hp]; [done|]. rewrite Hp. unfold bind, modify.
      destruct (exception_handler_entry EXC_DECR 0 (upd_ex (set_dec_exception_pending false) m2) _ eq_refl) as (m3 & E3 & _).
      rewrite E3. cbn [delivered_between]. eexists. split; [reflexivity|].
      unfold m_spr. cbn. apply rget_rset_eq.
  - intros Hi Hd Ht. rewrite Hi, Hd, Ht in Eq. cbn [orb] in Eq. rewrite Eq. unfold bind, modify.
    destruct (exception_handler_entry EXC_THRM_MGMT_INT 0
      (upd_ex (set_thrm_exception_pending false) m2) _ eq_refl) as (m3 & E3 & H3).
    rewrite E3. cbn [delivered_between]. exists m3. split; [done|]. split.
    + apply (ee_pending _ _ _ _ _ H3).
    + rewrite (ee_srr0 _ _ _ _ _ H3). cbn [ex cpu upd_ex set_ex exec_flags set_thrm_exception_pending].
      rewrite Hf2, R3. reflexivity.
Qed.

Lemma rfi_pending_interrupts_witness :
  exists m', ppc_rfi 0x4C000064 rfi_demo = (Ret tt, m') /\ m_spr m' SPR.SRR0 = 0x1234.
Proof.
  destruct (rfi_pending_interrupts 0x4C000064 rfi_demo eq_refl eq_refl eq_refl eq_refl) as [H _].
  apply H. by right.
Defined.
