(* ===== verification/Translate.v ===== *)
(** * Address translation that can fault (cpu/ppc/ppcmmu.cpp)

    The page table walk with its updates of R and C, the 603's table walk by
    exception, the refills of the software TLBs and the instruction fetch path.
    Everything runs in [M machine]; [mmu_exception_handler] is the CPU's handler
    (the debugger, which swaps it, is not modelled). *)
From S2P Require Import Prelude Word PpcState Timers MemCtrl HostMem Machine Mmu Exceptions.

Definition mmu_exception_handler := ppc_exception_handler.

Definition upd_host (f : gmap Z Z -> gmap Z Z) (m : machine) : machine :=
  set_mem_ctrl (with_host (f (host_mem (mem_ctrl m))) (mem_ctrl m)) m.

(** ** Page address translation *)

(* [cpu/ppc/ppcmmu.h:65-69] *)
Record PATResult := mkPATResult { pat_phys : Z; pat_prot : Z; pte_c_status : Z }.

(** [last_ptab_area.mem_ptr + (pteg_addr - last_ptab_area.start)] *)
Definition area_host (e : AddressMapEntry) (pteg_addr : Z) : Z := mem_ptr e + (pteg_addr - e_start e).

(* [cpu/ppc/ppcmmu.cpp:208-229] *)
Definition calc_pteg_addr (hash : Z) : M machine Z := fun m =>
  let pteg_addr := calc_pteg_phys hash m in
  let area := last_ptab_area (mmu m) in
  if (e_start area <=? pteg_addr) && (pteg_addr <=? e_end area) then
    (Ret (area_host area pteg_addr), m)
  else
    match find_range pteg_addr (mem_ctrl m) with
    | Some entry =>
        if test (e_type entry) (Z.lor RT.RT_ROM RT.RT_RAM) then
          let area := mkEntry (uid area) (e_start entry) (e_end entry) (e_mirror area) (e_type area)
                        (devobj area) (mem_ptr entry) in
          (Ret (area_host area pteg_addr), upd_mmu (set_last_ptab_area area) m)
        else (Fatal, m)
    | None => (Fatal, m)
    end.

(** DSISR and DAR of a data storage interrupt, then the interrupt. *)
Definition data_storage (bits la : Z) (is_write : bool) : M machine unit :=
  set_m_spr SPR.DSISR (Z.lor bits (Z.shiftl (b2z is_write) 25)) ;;;
  set_m_spr SPR.DAR la ;;;
  mmu_exception_handler EXC_DSI 0.

(** The key of a segment, and the accesses PP and the key forbid. *)
Definition segment_key (sr_val msr_pr : Z) : Z :=
  Z.lor (Z.land (Z.land (Z.shiftr sr_val 29) 1) msr_pr)
        (Z.land (Z.land (Z.shiftr sr_val 30) 1) (Z.lxor msr_pr 1)).
Definition protected (key pp : Z) (is_write : bool) : bool :=
  (negb (key =? 0) && ((pp =? 0) || ((pp =? 1) && is_write))) || ((pp =? 3) && is_write).

(** The interrupt of a protection violation. *)
Definition protection_fault (la : Z) (is_instr_fetch is_write : bool) : M machine unit :=
  if is_instr_fetch then mmu_exception_handler EXC_ISI 0x08000000
  else data_storage 0x08000000 la is_write.

(* [cpu/ppc/ppcmmu.cpp:301-339] *)
Definition mpc603_tlb_miss (la sr_val : Z) (is_instr_fetch is_write : bool) (key hit_way : Z)
    : M machine unit :=
  let exc_type := if is_instr_fetch then EXC_ITLB_MISS
                  else if is_write then EXC_DTLB_STORE_MISS else EXC_DTLB_LOAD_MISS in
  let page_index := Z.land (Z.shiftr la 12) 0xFFFF in
  let hash1 := Z.lxor (Z.land sr_val 0x7FFFF) page_index in
  let cmp := Z.lor (Z.lor 0x80000000 (Z.shiftl (Z.land sr_val 0xFFFFFF) 7)) (Z.shiftr page_index 10) in
  (if is_instr_fetch then set_m_spr SPR.IMISS la ;;; set_m_spr SPR.ICMP cmp
   else set_m_spr SPR.DMISS la ;;; set_m_spr SPR.DCMP cmp) ;;;
  h1 <- gets (calc_pteg_phys hash1) ;;
  set_m_spr SPR.HASH1 h1 ;;;
  h2 <- gets (calc_pteg_phys (not32 hash1)) ;;
  set_m_spr SPR.HASH2 h2 ;;;
  let tlb_type := if is_instr_fetch then ITLB else DTLB in
  let set := tlb603_set la in
  way <- gets (fun m =>
    let ways := t603_at (mmu m) tlb_type set in
    if 0 <=? hit_way then hit_way
    else if negb (t603_valid (ways 0)) then 0
    else if negb (t603_valid (ways 1)) then 1
    else t603_lru_at (mmu m) tlb_type set) ;;
  srr1_bits <- gets (fun m =>
    Z.lor (Z.lor (Z.lor (Z.lor (Z.land (cr (cpu m)) 0xF0000000) (Z.shiftl key 19))
      (Z.shiftl (b2z is_instr_fetch) 18)) (Z.shiftl way 17)) (Z.shiftl (b2z is_write) 16)) ;;
  mmu_exception_handler exc_type srr1_bits.

Definition entry603_matches (vsid la : Z) (e : Tlb603Entry) : bool :=
  t603_valid e && (t603_vsid e =? vsid) && negb (test (Z.lxor (t603_ea_tag e) la) 0x0FFFF000).

(* [cpu/ppc/ppcmmu.cpp:341-387] *)
Definition mpc603_page_address_translation (la sr_val : Z) (is_instr_fetch : bool) (msr_pr : Z)
    (is_write : bool) : M machine PATResult :=
  let tlb_type := if is_instr_fetch then ITLB else DTLB in
  let vsid := Z.land sr_val 0xFFFFFF in
  let key := segment_key sr_val msr_pr in
  let set := tlb603_set la in
  ways <- gets (fun m => t603_at (mmu m) tlb_type set) ;;
  let way := if entry603_matches vsid la (ways 0) then 0
             else if entry603_matches vsid la (ways 1) then 1 else 2 in
  if way =? 2 then
    mpc603_tlb_miss la sr_val is_instr_fetch is_write key (-1) ;;;
    ret (mkPATResult 0 0 0)
  else
    modify (upd_mmu (set_t603_lru tlb_type set (Z.lxor way 1))) ;;;
    let pte_lo := t603_pte_lo (ways way) in
    let pp := Z.land pte_lo 3 in
    when (protected key pp is_write) (protection_fault la is_instr_fetch is_write) ;;;
    when (is_write && negb (test pte_lo 0x80))
      (mpc603_tlb_miss la sr_val false is_write key way) ;;;
    ret (mkPATResult (Z.lor (Z.land pte_lo 0xFFFFF000) (Z.land la 0x00000FFF))
           (Z.lor (Z.shiftl key 2) pp) (Z.land pte_lo 0x80)).

(** A host byte, read-modify-write. *)
Definition or_byte (a v : Z) : M machine unit :=
  modify (upd_host (fun h => h.[a := Z.lor h.[a] v])).

(** The two searches; when no entry is found the exception does not return. *)
(* [cpu/ppc/ppcmmu.cpp:422-432 search_pteg] *)
Definition search_page_table (la pteg_hash1 vsid page_index : Z) (is_instr_fetch is_write : bool)
    : M machine Z :=
  pteg <- calc_pteg_addr pteg_hash1 ;;
  found <- gets (search_pteg pteg vsid page_index 0) ;;
  match found with
  | Some a => ret a
  | None =>
      pteg <- calc_pteg_addr (not32 pteg_hash1) ;;
      found <- gets (search_pteg pteg vsid page_index 1) ;;
      match found with
      | Some a => ret a
      | None =>
          (if is_instr_fetch then mmu_exception_handler EXC_ISI 0x40000000
           else data_storage 0x40000000 la is_write) ;;; longjmp
      end
  end.

(** The access check, the R and C bits and the result. *)
(* [cpu/ppc/ppcmmu.cpp:451-498 pte_word2] *)
Definition use_pte (la sr_val pte_addr : Z) (is_instr_fetch : bool) (msr_pr : Z) (is_write : bool)
    : M machine PATResult :=
  pte_word2 <- gets (fun m => READ_DWORD_BE_A (host_mem (mem_ctrl m)) (pte_addr + 4)) ;;
  let key := segment_key sr_val msr_pr in
  let pp := Z.land pte_word2 3 in
  when (protected key pp is_write) (protection_fault la is_instr_fetch is_write) ;;;
  or_byte (pte_addr + 6) 0x01 ;;;
  when is_write (or_byte (pte_addr + 7) 0x80) ;;;
  ret (mkPATResult (Z.lor (Z.land pte_word2 0xFFFFF000) (Z.land la 0x00000FFF))
         (Z.lor (Z.shiftl key 2) pp) (Z.land pte_word2 0x80)).

(* [cpu/ppc/ppcmmu.cpp:389-499] *)
Definition page_address_translation (la : Z) (is_instr_fetch : bool) (msr_pr : Z) (is_write : bool)
    : M machine PATResult :=
  sr_val <- gets (fun m => (sr (cpu m)).[Z.land (Z.shiftr la 28) 0x0F]) ;;
  if test sr_val 0x80000000 then
    if Z.land (Z.shiftr sr_val 20) 0x1FF =? 0x7F then
      ret (mkPATResult (Z.lor (Z.land la 0x0FFFFFFF) (shl32 sr_val 28)) 0 1)
    else abort_f
  else
    when (test sr_val 0x10000000 && is_instr_fetch) (mmu_exception_handler EXC_ISI 0x10000000) ;;;
    is_603 <- gets (fun m => is_603 (cfg m)) ;;
    if (is_603 : bool) then mpc603_page_address_translation la sr_val is_instr_fetch msr_pr is_write
    else
      let page_index := Z.land (Z.shiftr la 12) 0xFFFF in
      let pteg_hash1 := Z.lxor (Z.land sr_val 0x7FFFF) page_index in
      let vsid := Z.land sr_val 0x0FFFFFF in
      pte_addr <- search_page_table la pteg_hash1 vsid page_index is_instr_fetch is_write ;;
      use_pte la sr_val pte_addr is_instr_fetch msr_pr is_write.

(** ** TLB refills *)

(** The host address of the static array [dummy_page]: below the addresses the
    memory controller allocates. *)
(* [cpu/ppc/ppcmmu.cpp:86-86] *)
Definition dummy_page : Z := - 8192.

Definition with_target (v : tlb_target) (e : TLBEntry) := mkTLBEntry (tag e) (flags e) (lru_bits e) v (phys_tag e).
Definition with_phys_tag (v : Z) (e : TLBEntry) := mkTLBEntry (tag e) (flags e) (lru_bits e) (target e) v.

Definition host_va_offs_r (e : TLBEntry) : Z := match target e with TlbMem r _ => r | TlbIo _ _ => 0 end.
Definition host_va_offs_w (e : TLBEntry) : Z := match target e with TlbMem _ w => w | TlbIo _ _ => 0 end.

Definition msr_pr_of (m : machine) : Z := b2z (msr_bit MSR.PR m).

(** [flags | new | (tlb_entry->flags & TLBE_CTX_TRACKED)] *)
Definition refill_flags (flags_ new : Z) (e : TLBEntry) : Z :=
  Z.lor (Z.lor flags_ new) (Z.land (flags e) TLBFlags.TLBE_CTX_TRACKED).

(* [cpu/ppc/ppcmmu.cpp:879-933] *)
Definition itlb2_refill (guest_va : Z) : M machine slot :=
  ir <- gets (msr_bit MSR.IR) ;;
  xlat <-
    (if ir then
       bat_res <- gets (fun m =>
         if is_601 (cfg m) then mpc601_block_address_translation guest_va m
         else ppc_block_address_translation IBAT guest_va m) ;;
       if br_hit bat_res then
         when (br_prot bat_res =? 0) (mmu_exception_handler EXC_ISI 0x08000000) ;;;
         ret (br_phys bat_res, TLBFlags.TLBE_FROM_BAT)
       else
         pr <- gets msr_pr_of ;;
         pat_res <- page_address_translation guest_va true pr false ;;
         ret (pat_phys pat_res, TLBFlags.TLBE_FROM_PAT)
     else ret (guest_va, 0)) ;;
  let '(phys_addr, flags_) := (xlat : Z * Z) in
  rgn_desc <- gets (fun m => find_range phys_addr (mem_ctrl m)) ;;
  match rgn_desc with
  | Some rgn_desc =>
      if test (e_type rgn_desc) RT.RT_MMIO then abort_f
      else fun m =>
        let tg := page_tag guest_va in
        let '(way, u) := tlb2_target_entry ITLB tg (mmu m) in
        let s := tlb2_slot ITLB tg way u in
        let e := tlb_at u s in
        let e := mkTLBEntry tg (refill_flags flags_ TLBFlags.PAGE_MEM e) (lru_bits e)
                   (TlbMem (mem_ptr rgn_desc - guest_va + (phys_addr - e_start rgn_desc))
                           (host_va_offs_w e)) (page_tag phys_addr) in
        (Ret s, set_mmu (track_translated_entry ITLB s (set_tlb s e u)) m)
  | None => abort_f
  end.

(** [None] is the address of [UnmappedMem]. *)
(* [cpu/ppc/ppcmmu.cpp:935-1030] *)
Definition dtlb2_refill (guest_va : Z) (is_write : bool) : M machine (option slot) :=
  let tg := page_tag guest_va in
  dr <- gets (msr_bit MSR.DR) ;;
  xlat <-
    (if dr then
       bat_res <- gets (fun m =>
         if is_601 (cfg m) then mpc601_block_address_translation guest_va m
         else ppc_block_address_translation DBAT guest_va m) ;;
       if br_hit bat_res then
         when ((br_prot bat_res =? 0) || (test (br_prot bat_res) 1 && is_write))
           (data_storage 0x08000000 guest_va is_write) ;;;
         let flags_ := Z.lor TLBFlags.PTE_SET_C TLBFlags.TLBE_FROM_BAT in
         let flags_ := if br_prot bat_res =? 2 then Z.lor flags_ TLBFlags.PAGE_WRITABLE else flags_ in
         ret (br_phys bat_res, flags_)
       else
         pr <- gets msr_pr_of ;;
         pat_res <- page_address_translation guest_va false pr is_write ;;
         let flags_ := TLBFlags.TLBE_FROM_PAT in
         let flags_ := if (pat_prot pat_res <=? 2) || (pat_prot pat_res =? 6)
                       then Z.lor flags_ TLBFlags.PAGE_WRITABLE else flags_ in
         let flags_ := if is_write || negb (pte_c_status pat_res =? 0)
                       then Z.lor flags_ TLBFlags.PTE_SET_C else flags_ in
         ret (pat_phys pat_res, flags_)
     else ret (guest_va, Z.lor TLBFlags.PTE_SET_C TLBFlags.PAGE_WRITABLE)) ;;
  let '(phys_addr, flags_) := (xlat : Z * Z) in
  rgn_desc <- gets (fun m => find_range phys_addr (mem_ctrl m)) ;;
  match rgn_desc with
  | Some rgn_desc => fun m =>
      let '(way, u) := tlb2_target_entry DTLB tg (mmu m) in
      let s := tlb2_slot DTLB tg way u in
      let e := tlb_at u s in
      let '(new, tgt) :=
        if test (e_type rgn_desc) RT.RT_MMIO then
          (TLBFlags.PAGE_IO, TlbIo rgn_desc (guest_va - (phys_addr - e_start rgn_desc)))
        else
          let offs_r := mem_ptr rgn_desc - guest_va + (phys_addr - e_start rgn_desc) in
          (TLBFlags.PAGE_MEM,
           TlbMem offs_r (if test (e_type rgn_desc) RT.RT_ROM then dummy_page - tg else offs_r)) in
      let e := mkTLBEntry tg (refill_flags flags_ new e) (lru_bits e) tgt (page_tag phys_addr) in
      (Ret (Some s), set_mmu (track_translated_entry DTLB s (set_tlb s e u)) m)
  | None => ret None
  end.

(** The flag [PTE_SET_C] of the entry, set. *)
Definition set_c_flag (s : slot) (u : mmu_state) : mmu_state :=
  upd_tlb s (fun e => with_flags (Z.lor (flags e) TLBFlags.PTE_SET_C) e) u.

(** [None] is [UnmappedMem], whose flags are [PAGE_NOPHYS]. *)
Definition entry_flags (s : option slot) (m : machine) : Z :=
  match s with Some s => flags (tlb_at (mmu m) s) | None => TLBFlags.PAGE_NOPHYS end.

(* [cpu/ppc/ppcmmu.cpp:1087-1103] *)
Definition prepare_dtlb_write (tlb_entry : slot) (guest_va : Z) : M machine bool :=
  fl <- gets (fun m => flags (tlb_at (mmu m) tlb_entry)) ;;
  when (negb (test fl TLBFlags.PAGE_WRITABLE))
    (set_m_spr SPR.DSISR (Z.lor 0x08000000 (Z.shiftl 1 25)) ;;;
     set_m_spr SPR.DAR guest_va ;;;
     mmu_exception_handler EXC_DSI 0) ;;;
  if test fl TLBFlags.PTE_SET_C then ret false
  else
    pr <- gets msr_pr_of ;;
    _ <- page_address_translation guest_va false pr true ;;
    modify (upd_mmu (set_c_flag tlb_entry)) ;;;
    ret true.

(** The lookups read and write the LRU bits of the secondary TLB. *)
Definition m_lookup (t : TLBType) (guest_va tg : Z) : M machine TLBLookupResult := fun m =>
  let '(r, u) := lookup_tlb t guest_va tg (mmu m) in (Ret r, set_mmu u m).

(** The host address and the physical address of an instruction. *)
(* [cpu/ppc/ppcmmu.cpp:1133-1181] *)
Definition mmu_translate_imem (vaddr : Z) : M machine (Z * Z) :=
  let tg := page_tag vaddr in
  tlb_lookup <- m_lookup ITLB vaddr tg ;;
  let tlb1_entry := primary_entry tlb_lookup in
  (if primary_hit tlb_lookup then ret tt
   else
     tlb2_entry <- match matched_entry tlb_lookup with
                   | Some s => ret s
                   | None => itlb2_refill vaddr
                   end ;;
     modify (upd_mmu (promote_tlb_entry ITLB tlb1_entry tlb2_entry))) ;;;
  e <- gets (fun m => tlb_at (mmu m) tlb1_entry) ;;
  ret (host_va_offs_r e + vaddr, Z.lor (phys_tag e) (Z.land vaddr 0xFFF)).
