(* ===== verification/PageWalk.v ===== *)
(** * The page table walk against the architecture (cpu/ppc/ppcmmu.cpp)

    A specification of page address translation on the fields of segment
    registers and page table entries, and the proof that
    [page_address_translation] implements it: which entry is found, when the
    access is refused and with what interrupt, the physical address, and the
    updates of the R and C bits. *)
From S2P Require Import Prelude Word PpcState Timers MemCtrl HostMem Machine Mmu Exceptions Translate.

(** ** The specification *)

(** Bit [i] of a segment register or PTE word in the manual's order is bit
    [31 - i]; [field w hi lo] is the number in bits [hi..lo] (0 is least
    significant). *)
Definition field (w hi lo : Z) : Z := w / 2 ^ lo mod 2 ^ (hi - lo + 1).

(** The first word of an entry: V, VSID, H, API. *)
Definition pte_matches (w vsid : Z) (h : bool) (api : Z) : bool :=
  Z.testbit w 31 && (field w 30 7 =? vsid) && Bool.eqb (Z.testbit w 6) h && (field w 5 0 =? api).

Definition host_word (m : machine) (a : Z) : Z := be_val (bytes_at (host_mem (mem_ctrl m)) a 4).

(** The first of the eight entries of a group that matches. *)
Definition group_entry (m : machine) (pteg vsid : Z) (h : bool) (api : Z) : option Z :=
  List.find (fun a => pte_matches (host_word m a) vsid h api) (map (fun j => pteg + 8 * j) (zrange 8)).

(** The host address that backs a physical address in RAM or ROM. *)
Definition phys_host (m : machine) (pa : Z) : option Z :=
  match find_range pa (mem_ctrl m) with
  | Some e => if test (e_type e) (Z.lor RT.RT_ROM RT.RT_RAM) then Some (area_host e pa) else None
  | None => None
  end.

Definition page_hash (sr_val la : Z) : Z := Z.lxor (field sr_val 18 0) (field la 27 12).

(** The host address of the entry that translates [la], searched in the primary
    and then in the secondary group. *)
Definition find_pte (m : machine) (sr_val la : Z) : option Z :=
  let find hash h :=
    match phys_host m (calc_pteg_phys hash m) with
    | Some pteg => group_entry m pteg (field sr_val 23 0) h (field la 27 22)
    | None => None
    end in
  match find (page_hash sr_val la) false with
  | Some a => Some a
  | None => find (not32 (page_hash sr_val la)) true
  end.

(** Ks applies to the supervisor, Kp to programs. *)
Definition access_key (sr_val : Z) (user : bool) : bool := Z.testbit sr_val (if user then 29 else 30).
Definition access_refused (key : bool) (pp : Z) (write : bool) : bool :=
  match pp with
  | 0 => key
  | 1 => key && write
  | 2 => false
  | _ => write
  end.

(** The storage interrupt of a failed access. *)
Definition storage_interrupt (bits la : Z) (fetch write : bool) (m m' : machine) : Prop :=
  if fetch then exists srr0, exc_srr0 EXC_ISI m = Some srr0 /\ exception_entry EXC_ISI srr0 bits m m'
  else exception_entry EXC_DSI (Z.land (pc (cpu m)) 0xFFFFFFFC) 0
         (upd_cpu (set_spr SPR.DAR la) (upd_cpu (set_spr SPR.DSISR (bits + (if write then 2 ^ 25 else 0))) m)) m'.

(** R is set, and C when writing. *)
Definition mark_used (pte : Z) (write : bool) (h : gmap Z Z) : gmap Z Z :=
  let h := h.[pte + 6 := Z.lor h.[pte + 6] 1] in
  if write then h.[pte + 7 := Z.lor h.[pte + 7] 0x80] else h.

(** The cached page table area agrees with the address map. *)
Definition area_ok (m : machine) : Prop := forall pa, pa mod 64 = 0 ->
  e_start (last_ptab_area (mmu m)) <= pa <= e_end (last_ptab_area (mmu m)) ->
  phys_host m pa = Some (area_host (last_ptab_area (mmu m)) pa).

(** ** The matching word *)

Lemma shl_small x n w : 0 <= n -> 0 <= w -> 0 <= x < 2 ^ w -> w + n <= 32 -> shl32 x n = 2 ^ n * x.
Proof.
  intros Hn H0 Hx Hw. unfold shl32. rewrite Z.shiftl_mul_pow2, Z.mul_comm by lia. apply uwrap_small.
  assert (0 < 2 ^ n) by lia. split; [nia|].
  apply Z.lt_le_trans with (2 ^ n * 2 ^ w); [nia|]. rewrite <- Z.pow_add_r by lia.
  apply Z.pow_le_mono_r; lia.
Qed.

Lemma check_word_value vsid pi (h : bool) : 0 <= vsid < 2 ^ 24 -> 0 <= pi < 2 ^ 16 ->
  pte_check_word vsid pi (b2z h) = 2 ^ 31 + 2 ^ 7 * vsid + 2 ^ 6 * b2z h + pi / 2 ^ 10.
Proof.
  intros Hv Hp. unfold pte_check_word. rewrite (shl_small vsid 7 24) by lia.
  rewrite Z.shiftr_div_pow2, Z.shiftl_mul_pow2, (Z.mul_comm (b2z h)) by lia.
  assert (0 <= b2z h <= 1) as Hh by (destruct h; cbn; lia). change 0x80000000 with (2 ^ 31 * 1).
  rewrite lor_low by lia.
  replace (2 ^ 31 * 1 + 2 ^ 7 * vsid) with (2 ^ 7 * (2 ^ 24 + vsid)) by lia.
  rewrite lor_low by lia.
  replace (2 ^ 7 * (2 ^ 24 + vsid) + 2 ^ 6 * b2z h) with (2 ^ 6 * (2 * (2 ^ 24 + vsid) + b2z h)) by lia.
  rewrite lor_low by zlia. lia.
Qed.

Lemma check_word_matches w vsid pi h : 0 <= w < 2 ^ 32 -> 0 <= vsid < 2 ^ 24 -> 0 <= pi < 2 ^ 16 ->
  (pte_check_word vsid pi (b2z h) =? w) = pte_matches w vsid h (pi / 2 ^ 10).
Proof.
  intros Hw Hv Hp. rewrite check_word_value by done. unfold pte_matches, field.
  assert (0 <= b2z h <= 1) as Hh by (destruct h; cbn; lia).
  assert (forall i, 0 <= i -> Z.testbit w i = (w / 2 ^ i mod 2 =? 1)) as Hbit.
  { intros i Hi. rewrite Z.testbit_odd, Z.shiftr_div_pow2 by lia. rewrite Zmod_odd.
    by destruct (Z.odd _). }
  rewrite !Hbit by lia.
  assert (Bool.eqb (w / 2 ^ 6 mod 2 =? 1) h = (w / 2 ^ 6 mod 2 =? b2z h)) as ->.
  { pose proof (Z.mod_pos_bound (w / 2 ^ 6) 2 eq_refl).
    destruct h; cbn [Z.b2z]; destruct (Z.eqb_spec (w / 2 ^ 6 mod 2) 1), (Z.eqb_spec (w / 2 ^ 6 mod 2) 0);
      done || lia. }
  change (30 - 7 + 1) with 24. change (5 - 0 + 1) with 6. rewrite Z.div_1_r.
  generalize dependent (b2z h). intros b Hb.
  destruct (Z.eqb_spec (2 ^ 31 + 2 ^ 7 * vsid + 2 ^ 6 * b + pi / 2 ^ 10) w),
    (Z.eqb_spec (w / 2 ^ 31 mod 2) 1), (Z.eqb_spec (w / 2 ^ 7 mod 2 ^ 24) vsid),
    (Z.eqb_spec (w / 2 ^ 6 mod 2) b), (Z.eqb_spec (w mod 2 ^ 6) (pi / 2 ^ 10));
    cbn [andb]; try reflexivity; exfalso; zlia.
Qed.

(** ** The search *)

Lemma search_pteg_spec pteg vsid pi h m : file_ok 8 (host_mem (mem_ctrl m)) ->
  0 <= vsid < 2 ^ 24 -> 0 <= pi < 2 ^ 16 ->
  search_pteg pteg vsid pi (b2z h) m = group_entry m pteg vsid h (pi / 2 ^ 10).
Proof.
  intros Hm Hv Hp. unfold search_pteg, group_entry.
  assert (forall a, (pte_check_word vsid pi (b2z h) =? READ_DWORD_BE_A (host_mem (mem_ctrl m)) a) =
    pte_matches (host_word m a) vsid h (pi / 2 ^ 10)) as E.
  { intros a. rewrite read_dword_be_a by done. apply check_word_matches; try done.
    pose proof (be_val_range (bytes_at (host_mem (mem_ctrl m)) a 4)) as H.
    rewrite bytes_at_length in H. apply H. intros b. by apply bytes_at_range. }
  change (map (fun j => pteg + 8 * j) (zrange 8)) with
    [pteg + 8 * 0; pteg + 8 * 1; pteg + 8 * 2; pteg + 8 * 3; pteg + 8 * 4; pteg + 8 * 5; pteg + 8 * 6; pteg + 8 * 7].
  cbn [search_pteg_loop List.find]. rewrite !E.
  rewrite !Z.add_0_r, <- !Z.add_assoc. reflexivity.
Qed.

Lemma calc_pteg_aligned hash m : calc_pteg_phys hash m mod 64 = 0.
Proof.
  unfold calc_pteg_phys. set (x := m_spr m SPR.SDR1).
  apply Z.bits_inj'. intros i Hi. rewrite Z.bits_0. change 64 with (2 ^ 6).
  destruct (Z.lt_ge_cases i 6); [|by rewrite Z.mod_pow2_bits_high by lia].
  rewrite Z.mod_pow2_bits_low by lia. rewrite !Z.lor_spec, !Z.land_spec, !Z.shiftl_spec_low by lia.
  rewrite andb_false_r, !orb_false_r. each_index i 6%nat; apply andb_false_r.
Qed.

Definition with_area (area : AddressMapEntry) : machine -> machine := upd_mmu (set_last_ptab_area area).

Lemma phys_host_area area m pa : phys_host (with_area area m) pa = phys_host m pa.
Proof. reflexivity. Qed.
Lemma calc_pteg_area area hash m : calc_pteg_phys hash (with_area area m) = calc_pteg_phys hash m.
Proof. reflexivity. Qed.
Lemma with_area_area a b m : with_area a (with_area b m) = with_area a m.
Proof. reflexivity. Qed.

Lemma calc_pteg_addr_spec hash m a : map_wf (mem_ctrl m) -> area_ok m ->
  phys_host m (calc_pteg_phys hash m) = Some a ->
  exists area, calc_pteg_addr hash m = (Ret a, with_area area m) /\ area_ok (with_area area m).
Proof.
  intros Hw Ha Hp. unfold calc_pteg_addr.
  destruct (_ && _) eqn:Ein.
  - bool_to_prop. exists (last_ptab_area (mmu m)). rewrite (Ha _ (calc_pteg_aligned hash m) (conj H H0)) in Hp.
    injection Hp as <-. destruct m as [? ? ? ? ? []]. done.
  - unfold phys_host in Hp. destruct (find_range _ _) as [e|] eqn:Ef; [|done].
    destruct (test (e_type e) _) eqn:Et; [|done]. injection Hp as <-.
    eexists. split; [reflexivity|]. intros pa Hal Hin.
    cbn [last_ptab_area mmu with_area upd_mmu set_mmu set_last_ptab_area e_start e_end] in Hin.
    destruct (find_range_spec _ _ _ Ef) as [Hmem _].
    unfold phys_host. change (mem_ctrl (with_area _ m)) with (mem_ctrl m).
    rewrite (find_range_wf pa (mem_ctrl m) e Hw Hmem Hin). by rewrite Et.
Qed.

(** ** Keys and protection *)

Lemma segment_key_spec sr_val user : 0 <= sr_val ->
  segment_key sr_val (b2z user) = b2z (access_key sr_val user).
Proof.
  intros Hs. unfold segment_key, access_key.
  assert (forall n, 0 <= n -> Z.land (Z.shiftr sr_val n) 1 = b2z (Z.testbit sr_val n)) as E.
  { intros n Hn. change 1 with (Z.ones 1). rewrite Z.land_ones by lia. change (2 ^ 1) with 2.
    rewrite Zmod_odd, <- Z.bit0_odd, Z.shiftr_spec by lia. by rewrite Z.add_0_l; destruct (Z.testbit _ _). }
  rewrite !E by lia. by destruct user, (Z.testbit sr_val 29), (Z.testbit sr_val 30).
Qed.

Lemma protected_spec key pp wr : 0 <= pp < 4 ->
  protected (b2z key) pp wr = access_refused key pp wr.
Proof.
  intros Hp. unfold protected, access_refused.
  assert (pp = 0 \/ pp = 1 \/ pp = 2 \/ pp = 3) as [-> | [-> | [-> | ->]]] by lia; by destruct key, wr.
Qed.

(** ** The interrupts *)

Lemma isi_longjmp bits m : exists m', mmu_exception_handler EXC_ISI bits m = (Longjmp, m') /\
  storage_interrupt bits 0 true false m m'.
Proof.
  assert (exists srr0, exc_srr0 EXC_ISI m = Some srr0) as [srr0 E]
    by (unfold exc_srr0; eexists; reflexivity).
  destruct (exception_handler_entry EXC_ISI bits m srr0 E) as (m' & H1 & H2).
  exists m'. split; [exact H1|]. by exists srr0.
Qed.

Lemma dsi_longjmp bits la wr m : (bits = 0x40000000 \/ bits = 0x08000000) ->
  exists m', data_storage bits la wr m = (Longjmp, m') /\ storage_interrupt bits la false wr m m'.
Proof.
  intros Hb. set (m1 := upd_cpu (set_spr SPR.DAR la)
    (upd_cpu (set_spr SPR.DSISR (bits + (if wr then 2 ^ 25 else 0))) m)).
  destruct (exception_handler_entry EXC_DSI 0 m1 (Z.land (pc (cpu m)) 0xFFFFFFFC) eq_refl) as (m' & H1 & H2).
  exists m'. split; [|exact H2]. unfold data_storage.
  assert (Z.lor bits (Z.shiftl (b2z wr) 25) = bits + (if wr then 2 ^ 25 else 0)) as ->
    by (destruct Hb as [-> | ->]; by destruct wr).
  exact H1.
Qed.

Lemma storage_longjmp bits la (fetch wr : bool) m : (bits = 0x40000000 \/ bits = 0x08000000) ->
  exists m', (if fetch then mmu_exception_handler EXC_ISI bits else data_storage bits la wr) m = (Longjmp, m') /\
    storage_interrupt bits la fetch wr m m'.
Proof. intros Hb. destruct fetch; [apply isi_longjmp | by apply dsi_longjmp]. Qed.

(** ** The two halves of the walk *)

Lemma land_field_0 x n : 0 <= n -> Z.land x (Z.ones (n + 1)) = field x n 0.
Proof. intros. unfold field. rewrite Z.land_ones, Z.div_1_r by lia. do 2 f_equal. lia. Qed.

Lemma page_index_field la : Z.land (Z.shiftr la 12) 0xFFFF = field la 27 12.
Proof. unfold field. change 0xFFFF with (Z.ones 16). by rewrite Z.land_ones, Z.shiftr_div_pow2 by lia. Qed.

Lemma api_field la : field la 27 12 / 2 ^ 10 = field la 27 22.
Proof. unfold field. change (27 - 12 + 1) with 16. change (27 - 22 + 1) with 6. zlia. Qed.

Lemma search_spec la (fetch wr : bool) m sr_val :
  file_ok 8 (host_mem (mem_ctrl m)) -> map_wf (mem_ctrl m) -> area_ok m ->
  (forall hash, hash = page_hash sr_val la \/ hash = not32 (page_hash sr_val la) ->
     phys_host m (calc_pteg_phys hash m) <> None) ->
  exists area, area_ok (with_area area m) /\
  let r := search_page_table la (page_hash sr_val la) (field sr_val 23 0) (field la 27 12) fetch wr m in
  match find_pte m sr_val la with
  | Some pte => r = (Ret pte, with_area area m)
  | None => exists m', r = (Longjmp, m') /\
      storage_interrupt 0x40000000 la fetch wr (with_area area m) m'
  end.
Proof.
  intros Hm Hw Ha Hmap.
  destruct (phys_host m (calc_pteg_phys (page_hash sr_val la) m)) as [g1|] eqn:E1;
    [|destruct (Hmap _ (or_introl eq_refl) E1)].
  destruct (phys_host m (calc_pteg_phys (not32 (page_hash sr_val la)) m)) as [g2|] eqn:E2;
    [|destruct (Hmap _ (or_intror eq_refl) E2)].
  assert (0 <= field sr_val 23 0 < 2 ^ 24) by (apply Z.mod_pos_bound; lia).
  assert (0 <= field la 27 12 < 2 ^ 16) by (apply Z.mod_pos_bound; lia).
  unfold find_pte. rewrite E1, E2.
  destruct (calc_pteg_addr_spec _ m g1 Hw Ha E1) as (area1 & C1 & A1).
  unfold search_page_table. rewrite (bind_ret _ _ _ _ _ C1), bind_gets.
  rewrite (search_pteg_spec _ _ _ false), api_field by done.
  change (group_entry (with_area area1 m)) with (group_entry m).
  destruct (group_entry m g1 _ false _) as [a|]; [by exists area1|].
  destruct (calc_pteg_addr_spec _ (with_area area1 m) g2 Hw A1 E2) as (area2 & C2 & A2).
  rewrite with_area_area in C2, A2. rewrite (bind_ret _ _ _ _ _ C2), bind_gets.
  rewrite (search_pteg_spec _ _ _ true), api_field by done.
  change (group_entry (with_area area2 m)) with (group_entry m).
  exists area2. split; [done|]. destruct (group_entry m g2 _ true _) as [a|]; [done|].
  destruct (storage_longjmp 0x40000000 la fetch wr (with_area area2 m)) as (m' & J & S); [by left|].
  exists m'. split; [exact (bind_longjmp _ _ _ _ J) | exact S].
Qed.

Lemma page_address w la : 0 <= w < 2 ^ 32 ->
  Z.lor (Z.land w 0xFFFFF000) (Z.land la 0xFFF) = 2 ^ 12 * field w 31 12 + field la 11 0.
Proof.
  intros Hw. change 0xFFF with (Z.ones (11 + 1)). rewrite land_field_0 by lia.
  assert (Z.land w 0xFFFFF000 = 2 ^ 12 * field w 31 12) as ->.
  { unfold field. change (31 - 12 + 1) with 20. rewrite Z.mod_small by zlia.
    replace (2 ^ 12 * (w / 2 ^ 12)) with (w - w mod 2 ^ 12) by zlia.
    rewrite <- land_lnot_ones by lia. apply Z.bits_inj'. intros i Hi.
    rewrite !Z.land_spec, Z.lnot_spec, Z.testbit_ones by lia.
    change 0xFFFFF000 with (Z.shiftl (Z.ones 20) 12).
    destruct (Z.lt_ge_cases i 32); [|by rewrite (testbit_high 32 w)].
    destruct (Z.lt_ge_cases i 12).
    - rewrite Z.shiftl_spec_low by lia. rewrite (proj2 (Z.leb_le 0 i)), (proj2 (Z.ltb_lt i 12)) by lia. done.
    - rewrite Z.shiftl_spec, Z.ones_spec_low, (proj2 (Z.ltb_ge i 12)) by lia. by rewrite andb_false_r. }
  apply lor_low; [lia|]. apply Z.mod_pos_bound. lia.
Qed.

Lemma use_pte_spec la sr_val pte (fetch user wr : bool) m :
  file_ok 8 (host_mem (mem_ctrl m)) -> 0 <= sr_val ->
  let w := host_word m (pte + 4) in
  let key := access_key sr_val user in
  let r := use_pte la sr_val pte fetch (b2z user) wr m in
  if access_refused key (field w 1 0) wr then
    exists m', r = (Longjmp, m') /\ storage_interrupt 0x08000000 la fetch wr m m'
  else
    r = (Ret (mkPATResult (2 ^ 12 * field w 31 12 + field la 11 0)
                (4 * b2z key + field w 1 0) (if Z.testbit w 7 then 0x80 else 0)),
         upd_host (mark_used pte wr) m).
Proof.
  intros Hm Hsr w key r. subst r. unfold use_pte. rewrite bind_gets, read_dword_be_a by done.
  fold (host_word m (pte + 4)). fold w. rewrite segment_key_spec by done. fold key. cbv zeta.
  assert (0 <= w < 2 ^ 32) as Hw.
  { pose proof (be_val_range (bytes_at (host_mem (mem_ctrl m)) (pte + 4) 4)) as H.
    rewrite bytes_at_length in H. apply H. intros b. by apply bytes_at_range. }
  change (Z.land w 3) with (Z.land w (Z.ones (1 + 1))). rewrite land_field_0 by lia.
  assert (0 <= field w 1 0 < 4) as Hpp by (apply Z.mod_pos_bound; lia).
  rewrite protected_spec by done. destruct (access_refused key _ wr).
  - destruct (storage_longjmp 0x08000000 la fetch wr m) as (m' & J & S); [by right|].
    exists m'. split; [exact (bind_longjmp _ _ _ _ J) | exact S].
  - cbn [when]. rewrite bind_ret_l. unfold or_byte. rewrite bind_modify, page_address by done.
    assert (Z.lor (Z.shiftl (b2z key) 2) (field w 1 0) = 4 * b2z key + field w 1 0) as ->.
    { rewrite Z.shiftl_mul_pow2, Z.mul_comm by lia. by apply lor_low. }
    assert (Z.land w 0x80 = if Z.testbit w 7 then 0x80 else 0) as ->.
    { apply Z.bits_inj'. intros i Hi. change 0x80 with (2 ^ 7). rewrite Z.land_spec, testbit_2p by lia.
      destruct (Z.eqb_spec i 7) as [->|]; [rewrite andb_true_r; by destruct (Z.testbit w 7)|].
      rewrite andb_false_r. destruct (Z.testbit w 7); [by rewrite testbit_2p, (proj2 (Z.eqb_neq i 7))|].
      by rewrite Z.bits_0. }
    by destruct wr.
Qed.

(** ** Properties *)

(** C14: page address translation on processors that search the table in hardware,
    for ordinary segments: the entry used is the first match (V, VSID, H, API) of
    the primary and then of the secondary group; without one the access takes the
    storage interrupt "not found", and with one that PP and the segment's key
    forbid it takes "protection", DAR and DSISR naming the address and whether it
    was a store; otherwise the physical page is the entry's, R is set, C is set by
    stores, and no other byte of memory changes. *)
Theorem page_walk_correct la (fetch user wr : bool) m :
  ppc_ok (cpu m) -> file_ok 8 (host_mem (mem_ctrl m)) -> map_wf (mem_ctrl m) -> area_ok m ->
  let sr_val := (sr (cpu m)).[Z.land (Z.shiftr la 28) 0x0F] in
  test sr_val 0x80000000 = false -> test sr_val 0x10000000 && fetch = false ->
  is_603 (cfg m) = false ->
  (forall hash, hash = page_hash sr_val la \/ hash = not32 (page_hash sr_val la) ->
     phys_host m (calc_pteg_phys hash m) <> None) ->
  exists area, area_ok (with_area area m) /\
  let r := page_address_translation la fetch (b2z user) wr m in
  match find_pte m sr_val la with
  | None => exists m', r = (Longjmp, m') /\
      storage_interrupt 0x40000000 la fetch wr (with_area area m) m'
  | Some pte =>
      let w := host_word m (pte + 4) in
      let key := access_key sr_val user in
      if access_refused key (field w 1 0) wr then
        exists m', r = (Longjmp, m') /\
          storage_interrupt 0x08000000 la fetch wr (with_area area m) m'
      else
        r = (Ret (mkPATResult (2 ^ 12 * field w 31 12 + field la 11 0)
                    (4 * b2z key + field w 1 0) (if Z.testbit w 7 then 0x80 else 0)),
             upd_host (mark_used pte wr) (with_area area m))
  end.
Proof.
  intros Hok Hm Hw Ha sr_val Ht Hn H603 Hmap.
  assert (0 <= sr_val < 2 ^ 32) as Hsr by (apply ok_get_sr, Hok).
  unfold page_address_translation. rewrite bind_gets. fold sr_val. rewrite Ht, Hn. cbn [when].
  rewrite bind_ret_l, bind_gets, H603. cbv zeta. rewrite page_index_field.
  change (Z.land sr_val 0x7FFFF) with (Z.land sr_val (Z.ones (18 + 1))).
  change (Z.land sr_val 0xFFFFFF) with (Z.land sr_val (Z.ones (23 + 1))).
  rewrite !land_field_0 by lia. fold (page_hash sr_val la).
  destruct (search_spec la fetch wr m sr_val Hm Hw Ha Hmap) as (area & Harea & Hs).
  exists area. split; [exact Harea|]. cbv zeta in Hs |- *.
  destruct (find_pte m sr_val la) as [pte|].
  - rewrite (bind_ret _ _ _ _ _ Hs).
    exact (use_pte_spec la sr_val pte fetch user wr (with_area area m) Hm ltac:(lia)).
  - destruct Hs as (m' & E & S). exists m'. split; [exact (bind_longjmp _ _ _ _ E) | exact S].
Qed.

(** A machine with a page table at 64K whose page 5 of segment 0 is frame 0x42. *)
Definition walk_entry : AddressMapEntry := mkEntry 1 0 0xFFFFF 0 RT.RT_RAM 0 0x100000.
Definition walk_ctrl : MemCtrlBase :=
  mkMemCtrl [0x100000] [walk_entry]
    (WRITE_DWORD_BE_A 0x110104 0x00042002 (WRITE_DWORD_BE_A 0x110100 0x80000080 ∅)) 0x200000 2.
Definition walk_demo : machine :=
  set_mem_ctrl walk_ctrl (upd_cpu (set_spr SPR.SDR1 0x00010000) (upd_cpu (set_sr 0 1) demo_machine)).

Lemma map_wf_single e h n u : 0 <= e_start e <= e_end e -> e_end e < 2 ^ 32 -> uid e < u ->
  map_wf (mkMemCtrl [] [e] h n u).
Proof.
  intros He1 He2 Hu. split; cbn [address_map next_uid].
  - intros e' ->%list_elem_of_singleton. done.
  - by intros e1 e2 a ->%list_elem_of_singleton ->%list_elem_of_singleton.
  - by intros e' ->%list_elem_of_singleton.
Qed.

Lemma walk_demo_wf : map_wf (mem_ctrl walk_demo).
Proof. destruct (map_wf_single walk_entry ∅ 0x200000 2) as [H1 H2 H3]; [cbn; lia..|]. by split. Qed.

Lemma walk_demo_bytes : file_ok 8 (host_mem (mem_ctrl walk_demo)).
Proof.
  cbn [mem_ctrl walk_demo set_mem_ctrl host_mem walk_ctrl]. rewrite !write_dword_be_a.
  repeat apply memcpy_ok; [by apply file_ok_empty | | ]; intros b; apply be_bytes_range.
Qed.

Lemma walk_demo_cpu : ppc_ok (cpu walk_demo).
Proof. apply set_spr_ok; [apply set_sr_ok; [exact demo_ok|]|]; lia. Qed.

Lemma page_walk_correct_witness :
  ppc_ok (cpu walk_demo) /\
  (page_address_translation 0x5123 false 0 true walk_demo).1 = Ret (mkPATResult 0x42123 2 0).
Proof.
  split; [exact walk_demo_cpu|].
  destruct (page_walk_correct 0x5123 false false true walk_demo walk_demo_cpu walk_demo_bytes walk_demo_wf)
    as (area & _ & H); [|reflexivity..| |].
  - intros pa Hal Hin. exfalso. cbn in Hin. zlia.
  - intros hash [-> | ->]; vm_compute; discriminate.
  - cbv zeta in H. change (find_pte walk_demo _ 0x5123) with (Some 0x110100) in H. cbv iota in H.
    change (host_word walk_demo (0x110100 + 4)) with 0x00042002 in H.
    change (access_refused _ _ true) with false in H. cbv iota in H.
    change (b2z false) with 0 in H. rewrite H. reflexivity.
Defined.
