(* ===== verification/VMem.v ===== *)
(** * Virtual memory accesses (cpu/ppc/ppcmmu.cpp)

    [mmu_read_vmem] and [mmu_write_vmem] for 1, 2, 4 and 8 bytes: the primary TLB
    hit, the secondary TLB, the refill; host memory, devices and unmapped memory;
    unaligned accesses inside a page and across pages.  The default build has
    neither endian mode. *)
From S2P Require Import Prelude Word PpcState Timers MemCtrl HostMem Machine Mmu Exceptions Translate.

Section VMem.
Context `{Devices}.

(** ** Devices

    The region and its base are read from the TLB entry at each access; an entry
    that is not a memory page holds a region. *)

Definition log_io (e : io_event) : M machine unit := modify (fun m => set_io_log (io_log m ++ [e]) m).

Definition devobj_read (s : slot) (addr size : Z) : M machine Z := fun m =>
  match target (tlb_at (mmu m) s) with
  | TlbIo rgn_desc dev_base_va =>
      let offset := u32 (addr - dev_base_va) in
      (log_io (IoRead (devobj rgn_desc) (e_start rgn_desc) offset size) ;;;
       v <- dev_read (devobj rgn_desc) (e_start rgn_desc) offset size ;; ret (u32 v)) m
  | TlbMem _ _ => (Fatal, m)
  end.

Definition devobj_write (s : slot) (addr value size : Z) : M machine unit := fun m =>
  match target (tlb_at (mmu m) s) with
  | TlbIo rgn_desc dev_base_va =>
      let offset := u32 (addr - dev_base_va) in
      (log_io (IoWrite (devobj rgn_desc) (e_start rgn_desc) offset value size) ;;;
       dev_write (devobj rgn_desc) (e_start rgn_desc) offset value size) m
  | TlbMem _ _ => (Fatal, m)
  end.

(** ** Host memory by size: the [switch (sizeof(T))] of the accessors *)

Definition host_read_a (sz host_va : Z) (h : gmap Z Z) : Z :=
  match sz with
  | 1 => h.[host_va]
  | 2 => READ_WORD_BE_A h host_va
  | 4 => READ_DWORD_BE_A h host_va
  | _ => READ_QWORD_BE_A h host_va
  end.
Definition host_read_u (sz host_va : Z) (h : gmap Z Z) : Z :=
  match sz with
  | 1 => h.[host_va]
  | 2 => READ_WORD_BE_U h host_va
  | 4 => READ_DWORD_BE_U h host_va
  | _ => READ_QWORD_BE_U h host_va
  end.
Definition host_write_a (sz host_va value : Z) (h : gmap Z Z) : gmap Z Z :=
  match sz with
  | 1 => h.[host_va := u8 value]
  | 2 => WRITE_WORD_BE_A host_va value h
  | 4 => WRITE_DWORD_BE_A host_va value h
  | _ => WRITE_QWORD_BE_A host_va value h
  end.
Definition host_write_u (sz host_va value : Z) (h : gmap Z Z) : gmap Z Z :=
  match sz with
  | 1 => h.[host_va := u8 value]
  | 2 => WRITE_WORD_BE_U host_va value h
  | 4 => WRITE_DWORD_BE_U host_va value h
  | _ => WRITE_QWORD_BE_U host_va value h
  end.

Definition host_mem_of (m : machine) : gmap Z Z := host_mem (mem_ctrl m).

(** ** Reading *)

(** [(sizeof(T) > 1) && (guest_va & (sizeof(T) - 1))], and whether an access
    continues in the next page. *)
Definition unaligned (sz guest_va : Z) : bool := (1 <? sz) && test guest_va (sz - 1).
Definition crosses_page (sz guest_va : Z) : bool := (1 <? sz) && (0x1000 <? Z.land guest_va 0xFFF + sz).

(** What the translation of an access ends in. *)
Inductive access := HostAt (host_va : Z) | Done (value : Z).

(* [cpu/ppc/ppcmmu.cpp:1453-1507 devobj] *)
Definition read_device (sz opcode guest_va : Z) (tlb2_entry : slot) : M machine Z :=
  if sz =? 8 then
    when (test guest_va 3) (ppc_alignment_exception opcode guest_va) ;;;
    valueLow <- devobj_read tlb2_entry guest_va 4 ;;
    valueHigh <- devobj_read tlb2_entry (guest_va + 4) 4 ;;
    ret (Z.lor (u64 (Z.shiftl valueLow 32)) valueHigh)
  else
    v <- devobj_read tlb2_entry guest_va sz ;; ret (uwrap (8 * sz) v).

(** The body of [mmu_read_vmem], with [read_unaligned] as an argument: for one
    byte it is never called. *)
Definition read_vmem (sz : Z) (read_unaligned : Z -> Z -> Z -> M machine Z) (opcode guest_va : Z)
    : M machine Z :=
  let tg := page_tag guest_va in
  tlb_lookup <- m_lookup DTLB guest_va tg ;;
  let tlb1_entry := primary_entry tlb_lookup in
  let at_tlb1 := gets (fun m => HostAt (host_va_offs_r (tlb_at (mmu m) tlb1_entry) + guest_va)) in
  a <-
    (if primary_hit tlb_lookup then at_tlb1
     else
       tlb2_entry <- match matched_entry tlb_lookup with
                     | Some s => ret (Some s)
                     | None => dtlb2_refill guest_va false
                     end ;;
       match tlb2_entry with
       | None => ret (Done (uwrap (8 * sz) (-1)))
       | Some tlb2_entry =>
           fl <- gets (fun m => flags (tlb_at (mmu m) tlb2_entry)) ;;
           if test fl TLBFlags.PAGE_MEM then
             modify (upd_mmu (promote_tlb_entry DTLB tlb1_entry tlb2_entry)) ;;; at_tlb1
           else
             v <- read_device sz opcode guest_va tlb2_entry ;; ret (Done v)
       end) ;;
  match a with
  | Done v => ret v
  | HostAt host_va =>
      if unaligned sz guest_va then read_unaligned opcode guest_va host_va
      else gets (fun m => host_read_a sz host_va (host_mem_of m))
  end.

Definition mmu_read_vmem8 : Z -> Z -> M machine Z := read_vmem 1 (fun _ _ _ => ret 0).

(** The bytewise loop: [n] bytes left. *)
Fixpoint read_bytes_loop (n : nat) (sz opcode guest_va result : Z) : M machine Z :=
  match n with
  | O => ret result
  | S n =>
      b <- mmu_read_vmem8 opcode guest_va ;;
      read_bytes_loop n sz opcode (u32 (guest_va + 1)) (Z.lor (uwrap (8 * sz) (Z.shiftl result 8)) b)
  end.

(* [cpu/ppc/ppcmmu.cpp:1725-1805] *)
Definition read_unaligned (sz opcode guest_va host_va : Z) : M machine Z :=
  when ((sz =? 8) && test guest_va 3) (ppc_alignment_exception opcode guest_va) ;;;
  if crosses_page sz guest_va then read_bytes_loop (Z.to_nat sz) sz opcode guest_va 0
  else gets (fun m => host_read_u sz host_va (host_mem_of m)).

(* [cpu/ppc/ppcmmu.cpp:1383-1546] *)
Definition mmu_read_vmem (sz opcode guest_va : Z) : M machine Z :=
  read_vmem sz (read_unaligned sz) opcode guest_va.

(** ** Writing *)

(* [cpu/ppc/ppcmmu.cpp:1630-1677 devobj] *)
Definition write_device (sz opcode guest_va value : Z) (tlb2_entry : slot) : M machine unit :=
  if sz =? 8 then
    when (test guest_va 3) (ppc_alignment_exception opcode guest_va) ;;;
    devobj_write tlb2_entry guest_va (u32 (Z.shiftr value 32)) 4 ;;;
    devobj_write tlb2_entry (guest_va + 4) (u32 value) 4
  else devobj_write tlb2_entry guest_va value sz.

Definition write_vmem (sz : Z) (write_unaligned : Z -> Z -> Z -> Z -> M machine unit)
    (opcode guest_va value : Z) : M machine unit :=
  let tg := page_tag guest_va in
  tlb_lookup <- m_lookup DTLB guest_va tg ;;
  let tlb1_entry := primary_entry tlb_lookup in
  let at_tlb1 := gets (fun m => HostAt (host_va_offs_w (tlb_at (mmu m) tlb1_entry) + guest_va)) in
  a <-
    (if primary_hit tlb_lookup then
       updated <- prepare_dtlb_write tlb1_entry guest_va ;;
       when updated (modify (upd_mmu (fun u =>
         let '(tlb2_entry, u) := lookup_secondary_tlb DTLB guest_va tg u in
         match tlb2_entry with Some s => set_c_flag s u | None => u end))) ;;;
       at_tlb1
     else
       tlb2_entry <- match matched_entry tlb_lookup with
                     | Some s => ret (Some s)
                     | None => dtlb2_refill guest_va true
                     end ;;
       match tlb2_entry with
       | None => ret (Done 0)
       | Some tlb2_entry =>
           _ <- prepare_dtlb_write tlb2_entry guest_va ;;
           fl <- gets (fun m => flags (tlb_at (mmu m) tlb2_entry)) ;;
           if test fl TLBFlags.PAGE_MEM then
             modify (upd_mmu (promote_tlb_entry DTLB tlb1_entry tlb2_entry)) ;;; at_tlb1
           else
             write_device sz opcode guest_va value tlb2_entry ;;; ret (Done 0)
       end) ;;
  match a with
  | Done _ => ret tt
  | HostAt host_va =>
      if unaligned sz guest_va then write_unaligned opcode guest_va host_va value
      else modify (upd_host (host_write_a sz host_va value))
  end.

Definition mmu_write_vmem8 : Z -> Z -> Z -> M machine unit := write_vmem 1 (fun _ _ _ _ => ret tt).

(** The bytewise loop; [shift] selects the byte. *)
Fixpoint write_bytes_loop (n : nat) (opcode guest_va value shift : Z) : M machine unit :=
  match n with
  | O => ret tt
  | S n =>
      mmu_write_vmem8 opcode guest_va (Z.land (Z.shiftr value shift) 0xFF) ;;;
      write_bytes_loop n opcode (u32 (guest_va + 1)) value (shift - 8)
  end.

(* [cpu/ppc/ppcmmu.cpp:1812-1884] *)
Definition write_unaligned (sz opcode guest_va host_va value : Z) : M machine unit :=
  when ((sz =? 8) && test guest_va 3) (ppc_alignment_exception opcode guest_va) ;;;
  if crosses_page sz guest_va then
    write_bytes_loop (Z.to_nat sz) opcode guest_va value ((sz - 1) * 8)
  else modify (upd_host (host_write_u sz host_va value)).

(* [cpu/ppc/ppcmmu.cpp:1554-1717] *)
Definition mmu_write_vmem (sz opcode guest_va value : Z) : M machine unit :=
  write_vmem sz (write_unaligned sz) opcode guest_va value.

(* [cpu/ppc/ppcmmu.cpp:1105-1131] *)
Definition mmu_dcbz (opcode guest_va : Z) : M machine unit :=
  let tg := page_tag guest_va in
  tlb_lookup <- m_lookup DTLB guest_va tg ;;
  tlb_entry <- match matched_entry tlb_lookup with
               | Some s => ret (Some s)
               | None => dtlb2_refill guest_va true
               end ;;
  fl <- gets (entry_flags tlb_entry) ;;
  if test fl TLBFlags.PAGE_IO then
    match tlb_entry with
    | Some tlb_entry => _ <- prepare_dtlb_write tlb_entry guest_va ;; ret tt
    | None => ret tt
    end
  else
    mmu_write_vmem 8 opcode (u32 (guest_va + 0)) 0 ;;;
    mmu_write_vmem 8 opcode (u32 (guest_va + 8)) 0 ;;;
    mmu_write_vmem 8 opcode (u32 (guest_va + 16)) 0 ;;;
    mmu_write_vmem 8 opcode (u32 (guest_va + 24)) 0.
End VMem.

(** ** Host accesses, byte by byte *)

Definition access_size (sz : Z) : Prop := sz = 1 \/ sz = 2 \/ sz = 4 \/ sz = 8.

Lemma access_sizes (P : Z -> Prop) sz : access_size sz -> P 1 -> P 2 -> P 4 -> P 8 -> P sz.
Proof. by intros [-> | [-> | [-> | ->]]]. Qed.

Lemma bytes_at_1 h a : be_val (bytes_at h a 1) = h.[a].
Proof. unfold bytes_at, be_val. cbn. by rewrite Z.add_0_r. Qed.

Lemma host_read_bytes sz a h : access_size sz -> file_ok 8 h ->
  host_read_a sz a h = be_val (bytes_at h a (Z.to_nat sz)) /\
  host_read_u sz a h = be_val (bytes_at h a (Z.to_nat sz)).
Proof.
  intros Hs Hh. revert Hs. intros [-> | [-> | [-> | ->]]]; unfold host_read_a, host_read_u;
    rewrite ?read_word_be_a, ?read_word_be_u, ?read_dword_be_a, ?read_dword_be_u, ?read_qword_be_a,
      ?read_qword_be_u by done; rewrite ?bytes_at_1; done.
Qed.

Lemma host_read_range sz a h : access_size sz -> file_ok 8 h -> 0 <= be_val (bytes_at h a (Z.to_nat sz)) < 2 ^ (8 * sz).
Proof.
  intros Hs Hh. pose proof (be_val_range (bytes_at h a (Z.to_nat sz))) as H. rewrite bytes_at_length in H.
  rewrite Z2Nat.id in H by (destruct Hs as [-> | [-> | [-> | ->]]]; lia). apply H.
  intros b. by apply bytes_at_range.
Qed.

Lemma host_write_bytes sz a v h : access_size sz ->
  host_write_a sz a v h = memcpy a (be_bytes (Z.to_nat sz) v) h /\
  host_write_u sz a v h = memcpy a (be_bytes (Z.to_nat sz) v) h.
Proof.
  intros [-> | [-> | [-> | ->]]]; unfold host_write_a, host_write_u;
    rewrite ?write_word_be_a, ?write_word_be_u, ?write_dword_be_a, ?write_dword_be_u, ?write_qword_be_a,
      ?write_qword_be_u; done.
Qed.

Lemma host_write_ok sz a v h : access_size sz -> file_ok 8 h -> file_ok 8 (memcpy a (be_bytes (Z.to_nat sz) v) h).
Proof. intros Hs Hh. apply memcpy_ok; [done|]. intros b. apply be_bytes_range. Qed.
