(* ===== verification/VmFrame.v ===== *)
(** * What a memory access cannot change (cpu/ppc/ppcmmu.cpp)

    Whether it succeeds or ends in an interrupt, a memory access leaves alone the
    program counter, the condition register, the reservation, the floating-point
    registers, the segment registers and the time base of the processor. *)
From S2P Require Import Prelude Word PpcState Timers MemCtrl HostMem Machine Mmu Exceptions Translate VMem.

(** The registers no access and no interrupt entry writes. *)
Definition core (s : ppc_state) := (fpr s, pc s, cr s, fpscr s, tbr s, sr s, reserve s).
Definition keeps c (m : machine) : Prop := core (cpu m) = c.

Lemma core_parts s s' : core s = core s' -> pc s = pc s' /\ cr s = cr s' /\ reserve s = reserve s' /\ sr s = sr s'.
Proof. unfold core. by intros [= _ ? ? _ _ ? ?]. Qed.

(** Devices have no access to them. *)
Class DevicesKeep `{Devices} := {
  dev_read_keeps : forall c dev start offset size, preserves (keeps c) (dev_read dev start offset size);
  dev_write_keeps : forall c dev start offset value size, preserves (keeps c) (dev_write dev start offset value size)
}.

Section Keeps.
Context (c : gmap Z Z * Z * Z * Z * gmap Z Z * gmap Z Z * bool).

Lemma handler_keeps e bits : preserves (keeps c) (ppc_exception_handler e bits).
Proof.
  intros m Hm. destruct (exc_srr0 e m) as [srr0|] eqn:E.
  - destruct (exception_handler_entry e bits m srr0 E) as (m' & -> & He). unfold keeps. cbn [snd].
    rewrite (ee_cpu _ _ _ _ _ He). exact Hm.
  - unfold ppc_exception_handler. by rewrite E.
Qed.

Lemma modify_keeps f : (forall m, cpu (f m) = cpu m) -> preserves (keeps c) (modify f).
Proof. intros Hf. apply preserves_modify. intros m Hm. unfold keeps. by rewrite Hf. Qed.
Lemma set_spr_keeps r v : preserves (keeps c) (set_m_spr r v).
Proof. by apply preserves_modify. Qed.

Create HintDb keeps.
Hint Resolve handler_keeps set_spr_keeps preserves_ret preserves_gets preserves_longjmp preserves_abort_f : keeps.

(** Through the monad's operations and the [if]s and [match]es between them. *)
Ltac keeps_step :=
  match goal with
  | |- preserves _ (bind _ _) => apply preserves_bind; [|intros ?]
  | |- preserves _ (when _ _) => apply preserves_when
  | |- preserves _ (modify _) => apply modify_keeps; intros ?; reflexivity
  | |- preserves _ (if ?b then _ else _) => destruct b
  | |- preserves _ (match ?x with _ => _ end) => destruct x
  end.
Ltac keeps := repeat (cbv zeta; first [solve [auto with keeps] | keeps_step]).

Lemma data_storage_keeps bits la wr : preserves (keeps c) (data_storage bits la wr).
Proof. unfold data_storage, mmu_exception_handler. keeps. Qed.
Hint Resolve data_storage_keeps : keeps.
Lemma protection_keeps la fetch wr : preserves (keeps c) (protection_fault la fetch wr).
Proof. unfold protection_fault, mmu_exception_handler. keeps. Qed.
Hint Resolve protection_keeps : keeps.
Lemma calc_pteg_keeps hash : preserves (keeps c) (calc_pteg_addr hash).
Proof.
  intros m Hm. unfold calc_pteg_addr. destruct (_ && _); [done|]. destruct (find_range _ _); [|done]. by destruct (test _ _).
Qed.
Hint Resolve calc_pteg_keeps : keeps.
Lemma tlb_miss_keeps la sr_val fetch wr key way : preserves (keeps c) (mpc603_tlb_miss la sr_val fetch wr key way).
Proof. unfold mpc603_tlb_miss, mmu_exception_handler. keeps. Qed.
Hint Resolve tlb_miss_keeps : keeps.
Lemma page_translation_keeps la fetch user wr : preserves (keeps c) (page_address_translation la fetch user wr).
Proof.
  unfold page_address_translation, mpc603_page_address_translation, search_page_table, use_pte, or_byte, mmu_exception_handler.
  keeps.
Qed.
Hint Resolve page_translation_keeps : keeps.

Lemma lookup_keeps t va tg : preserves (keeps c) (m_lookup t va tg).
Proof. intros m Hm. unfold m_lookup. by destruct (lookup_tlb _ _ _ _). Qed.
Hint Resolve lookup_keeps : keeps.

(** A refill ends in a write to the TLB. *)
Lemma dtlb2_refill_keeps va wr : preserves (keeps c) (dtlb2_refill va wr).
Proof.
  unfold dtlb2_refill. keeps. intros m Hm.
  destruct (tlb2_target_entry _ _ _) as [way u]. by destruct (test _ RT.RT_MMIO).
Qed.
Hint Resolve dtlb2_refill_keeps : keeps.
Lemma prepare_write_keeps s va : preserves (keeps c) (prepare_dtlb_write s va).
Proof. unfold prepare_dtlb_write, mmu_exception_handler. keeps. Qed.
Hint Resolve prepare_write_keeps : keeps.
Lemma alignment_keeps opcode ea : preserves (keeps c) (ppc_alignment_exception opcode ea).
Proof. unfold ppc_alignment_exception. keeps. Qed.
Hint Resolve alignment_keeps : keeps.

(** ** Accesses *)

Context `{DevicesKeep}.

Lemma devobj_read_keeps s addr size : preserves (keeps c) (devobj_read s addr size).
Proof.
  intros m Hm. unfold devobj_read. destruct (target _) as [|r b]; [done|]. revert m Hm.
  change (preserves (keeps c) (log_io (IoRead (devobj r) (e_start r) (u32 (addr - b)) size) ;;;
    v <- dev_read (devobj r) (e_start r) (u32 (addr - b)) size ;; ret (u32 v))).
  unfold log_io. keeps. apply dev_read_keeps.
Qed.
Lemma devobj_write_keeps s addr value size : preserves (keeps c) (devobj_write s addr value size).
Proof.
  intros m Hm. unfold devobj_write. destruct (target _) as [|r b]; [done|]. revert m Hm.
  change (preserves (keeps c) (log_io (IoWrite (devobj r) (e_start r) (u32 (addr - b)) value size) ;;;
    dev_write (devobj r) (e_start r) (u32 (addr - b)) value size)).
  unfold log_io. keeps. apply dev_write_keeps.
Qed.
Hint Resolve devobj_read_keeps devobj_write_keeps : keeps.

Lemma read_vmem_keeps sz ru opcode va : (forall o v h, preserves (keeps c) (ru o v h)) -> preserves (keeps c) (read_vmem sz ru opcode va).
Proof. intros Hr. unfold read_vmem, read_device. keeps. Qed.
Lemma write_vmem_keeps sz wu opcode va v : (forall o a h x, preserves (keeps c) (wu o a h x)) -> preserves (keeps c) (write_vmem sz wu opcode va v).
Proof. intros Hr. unfold write_vmem, write_device. keeps. Qed.

Lemma read_bytes_keeps n : forall sz opcode va r, preserves (keeps c) (read_bytes_loop n sz opcode va r).
Proof.
  induction n as [|n IH]; intros sz opcode va r; cbn [read_bytes_loop]; [auto with keeps|].
  apply preserves_bind; [|intros b; apply IH]. unfold mmu_read_vmem8. apply read_vmem_keeps. intros. auto with keeps.
Qed.
Lemma write_bytes_keeps n : forall opcode va v shift, preserves (keeps c) (write_bytes_loop n opcode va v shift).
Proof.
  induction n as [|n IH]; intros opcode va v shift; cbn [write_bytes_loop]; [auto with keeps|].
  apply preserves_bind; [|intros b; apply IH]. unfold mmu_write_vmem8. apply write_vmem_keeps. intros. auto with keeps.
Qed.
Hint Resolve read_bytes_keeps write_bytes_keeps : keeps.

Lemma mmu_read_keeps sz opcode va : preserves (keeps c) (mmu_read_vmem sz opcode va).
Proof. unfold mmu_read_vmem. apply read_vmem_keeps. intros. unfold read_unaligned. keeps. Qed.
Lemma mmu_write_keeps sz opcode va v : preserves (keeps c) (mmu_write_vmem sz opcode va v).
Proof. unfold mmu_write_vmem. apply write_vmem_keeps. intros. unfold write_unaligned. keeps. Qed.
End Keeps.
