(* ===== verification/LoadStore.v ===== *)
(** * Loads and stores (cpu/ppc/ppcopcodes.cpp, cpu/ppc/poweropcodes.cpp)

    Integer loads and stores of one register, of several, of strings, with
    reservation and to external devices; dcbz; the TLB instructions.  [sz] is the
    [sizeof(T)] of the templates.  The profiling counters are not in the default
    build. *)
From S2P Require Import Prelude Word PpcState IntArith Timers MemCtrl HostMem Machine Mmu Exceptions Translate VMem.
Import Endian.

Section LoadStore.
Context `{Devices}.

(** [reg_a ? ppc_result_a : 0] *)
Definition base_of (reg_a ppc_result_a : Z) : Z := if reg_a =? 0 then 0 else ppc_result_a.

Definition store_reg (reg v : Z) : M machine unit := mcpu (ppc_store_iresult_reg reg v).

(** An argument of type [T]. *)
Definition mmu_write_T (sz opcode ea v : Z) : M machine unit := mmu_write_vmem sz opcode ea (uwrap (8 * sz) v).

(* [cpu/ppc/ppcopcodes.cpp:1656-1663] *)
Definition ppc_dcbz (opcode : Z) : M machine unit :=
  s <- gets cpu ;;
  let '(reg_a, _, ppc_result_a, ppc_result_b) := ppc_grab_regsab opcode s in
  let ea := u32 (ppc_result_b + base_of reg_a ppc_result_a) in
  mmu_dcbz opcode (Z.land ea 0xFFFFFFE0).

(** ** One register *)

(* [cpu/ppc/ppcopcodes.cpp:1668-1677] *)
Definition ppc_st (sz opcode : Z) : M machine unit :=
  s <- gets cpu ;;
  let '(_, reg_a, ppc_result_d, ppc_result_a) := ppc_grab_regssa opcode s in
  let ea := u32 (s16 opcode + base_of reg_a ppc_result_a) in
  mmu_write_T sz opcode ea ppc_result_d.

(* [cpu/ppc/ppcopcodes.cpp:1683-1691] *)
Definition ppc_stx (sz opcode : Z) : M machine unit :=
  s <- gets cpu ;;
  let '(_, reg_a, _, ppc_result_d, ppc_result_a, ppc_result_b) := ppc_grab_regssab opcode s in
  let ea := u32 (ppc_result_b + base_of reg_a ppc_result_a) in
  mmu_write_T sz opcode ea ppc_result_d.

(* [cpu/ppc/ppcopcodes.cpp:1697-1718] *)
Definition ppc_stu (sz opcode : Z) : M machine unit :=
  s <- gets cpu ;;
  let '(_, reg_a, ppc_result_d, ppc_result_a) := ppc_grab_regssa opcode s in
  if negb (reg_a =? 0) then
    let ea := u32 (ppc_result_a + s16 opcode) in
    mmu_write_T sz opcode ea ppc_result_d ;;;
    mcpu (set_gpr reg_a ea)
  else
    is_601 <- gets (fun m => is_601 (cfg m)) ;;
    if (is_601 : bool) then mmu_write_T sz opcode (u32 (s16 opcode)) ppc_result_d
    else ppc_illegalop opcode.

(* [cpu/ppc/ppcopcodes.cpp:1724-1744] *)
Definition ppc_stux (sz opcode : Z) : M machine unit :=
  s <- gets cpu ;;
  let '(_, reg_a, _, ppc_result_d, ppc_result_a, ppc_result_b) := ppc_grab_regssab opcode s in
  if negb (reg_a =? 0) then
    let ea := u32 (ppc_result_a + ppc_result_b) in
    mmu_write_T sz opcode ea ppc_result_d ;;;
    mcpu (set_gpr reg_a ea)
  else
    is_601 <- gets (fun m => is_601 (cfg m)) ;;
    if (is_601 : bool) then mmu_write_T sz opcode ppc_result_b ppc_result_d
    else ppc_illegalop opcode.

(* [cpu/ppc/ppcopcodes.cpp:1750-1758] *)
Definition ppc_sthbrx (opcode : Z) : M machine unit :=
  s <- gets cpu ;;
  let '(_, reg_a, _, ppc_result_d, ppc_result_a, ppc_result_b) := ppc_grab_regssab opcode s in
  let ea := u32 (ppc_result_b + base_of reg_a ppc_result_a) in
  mmu_write_T 2 opcode ea (BYTESWAP_16 (u16 ppc_result_d)).

(* [cpu/ppc/ppcopcodes.cpp:1775-1783] *)
Definition ppc_stwbrx (opcode : Z) : M machine unit :=
  s <- gets cpu ;;
  let '(_, reg_a, _, ppc_result_d, ppc_result_a, ppc_result_b) := ppc_grab_regssab opcode s in
  let ea := u32 (ppc_result_b + base_of reg_a ppc_result_a) in
  mmu_write_T 4 opcode ea (BYTESWAP_32 ppc_result_d).

(* [cpu/ppc/ppcopcodes.cpp:1804-1814] *)
Definition ppc_lz (sz opcode : Z) : M machine unit :=
  s <- gets cpu ;;
  let '(reg_d, reg_a, simm, ppc_result_a) := ppc_grab_regsdasimm opcode s in
  let ea := u32 (simm + base_of reg_a ppc_result_a) in
  ppc_result_d <- mmu_read_vmem sz opcode ea ;;
  store_reg reg_d ppc_result_d.

(* [cpu/ppc/ppcopcodes.cpp:1820-1836] *)
Definition ppc_lzu (sz opcode : Z) : M machine unit :=
  s <- gets cpu ;;
  let '(reg_d, reg_a, simm, ppc_result_a) := ppc_grab_regsdasimm opcode s in
  if negb (reg_a =? reg_d) && negb (reg_a =? 0) then
    let ea := u32 (simm + ppc_result_a) in
    ppc_result_d <- mmu_read_vmem sz opcode ea ;;
    store_reg reg_d ppc_result_d ;;;
    store_reg reg_a ea
  else ppc_illegalop opcode.

(* [cpu/ppc/ppcopcodes.cpp:1842-1851] *)
Definition ppc_lzx (sz opcode : Z) : M machine unit :=
  s <- gets cpu ;;
  let '(reg_d, reg_a, _, ppc_result_a, ppc_result_b) := ppc_grab_regsdab opcode s in
  let ea := u32 (ppc_result_b + base_of reg_a ppc_result_a) in
  ppc_result_d <- mmu_read_vmem sz opcode ea ;;
  store_reg reg_d ppc_result_d.

(* [cpu/ppc/ppcopcodes.cpp:1857-1872] *)
Definition ppc_lzux (sz opcode : Z) : M machine unit :=
  s <- gets cpu ;;
  let '(reg_d, reg_a, _, ppc_result_a, ppc_result_b) := ppc_grab_regsdab opcode s in
  if negb (reg_a =? reg_d) && negb (reg_a =? 0) then
    let ea := u32 (ppc_result_a + ppc_result_b) in
    ppc_result_d <- mmu_read_vmem sz opcode ea ;;
    store_reg reg_d ppc_result_d ;;;
    store_reg reg_a ea
  else ppc_illegalop opcode.

(* [cpu/ppc/ppcopcodes.cpp:1878-1887] *)
Definition ppc_lha (opcode : Z) : M machine unit :=
  s <- gets cpu ;;
  let '(reg_d, reg_a, simm, ppc_result_a) := ppc_grab_regsdasimm opcode s in
  let ea := u32 (simm + base_of reg_a ppc_result_a) in
  val <- mmu_read_vmem 2 opcode ea ;;
  store_reg reg_d (u32 (s16 val)).

(* [cpu/ppc/ppcopcodes.cpp:1889-1904] *)
Definition ppc_lhau (opcode : Z) : M machine unit :=
  s <- gets cpu ;;
  let '(reg_d, reg_a, simm, ppc_result_a) := ppc_grab_regsdasimm opcode s in
  if negb (reg_a =? reg_d) && negb (reg_a =? 0) then
    let ea := u32 (simm + ppc_result_a) in
    val <- mmu_read_vmem 2 opcode ea ;;
    store_reg reg_d (u32 (s16 val)) ;;;
    store_reg reg_a ea
  else ppc_illegalop opcode.

(* [cpu/ppc/ppcopcodes.cpp:1906-1921] *)
Definition ppc_lhaux (opcode : Z) : M machine unit :=
  s <- gets cpu ;;
  let '(reg_d, reg_a, _, ppc_result_a, ppc_result_b) := ppc_grab_regsdab opcode s in
  if negb (reg_a =? reg_d) && negb (reg_a =? 0) then
    let ea := u32 (ppc_result_a + ppc_result_b) in
    val <- mmu_read_vmem 2 opcode ea ;;
    store_reg reg_d (u32 (s16 val)) ;;;
    store_reg reg_a ea
  else ppc_illegalop opcode.

(* [cpu/ppc/ppcopcodes.cpp:1923-1931] *)
Definition ppc_lhax (opcode : Z) : M machine unit :=
  s <- gets cpu ;;
  let '(reg_d, reg_a, _, ppc_result_a, ppc_result_b) := ppc_grab_regsdab opcode s in
  let ea := u32 (ppc_result_b + base_of reg_a ppc_result_a) in
  val <- mmu_read_vmem 2 opcode ea ;;
  store_reg reg_d (u32 (s16 val)).

(* [cpu/ppc/ppcopcodes.cpp:1933-1941] *)
Definition ppc_lhbrx (opcode : Z) : M machine unit :=
  s <- gets cpu ;;
  let '(reg_d, reg_a, _, ppc_result_a, ppc_result_b) := ppc_grab_regsdab opcode s in
  let ea := u32 (ppc_result_b + base_of reg_a ppc_result_a) in
  val <- mmu_read_vmem 2 opcode ea ;;
  store_reg reg_d (u32 (BYTESWAP_16 val)).

(* [cpu/ppc/ppcopcodes.cpp:1943-1951] *)
Definition ppc_lwbrx (opcode : Z) : M machine unit :=
  s <- gets cpu ;;
  let '(reg_d, reg_a, _, ppc_result_a, ppc_result_b) := ppc_grab_regsdab opcode s in
  let ea := u32 (ppc_result_b + base_of reg_a ppc_result_a) in
  val <- mmu_read_vmem 4 opcode ea ;;
  store_reg reg_d (BYTESWAP_32 val).

(** ** Reservations *)

(* [cpu/ppc/ppcopcodes.cpp:1953-1963] *)
Definition ppc_lwarx (opcode : Z) : M machine unit :=
  s <- gets cpu ;;
  let '(reg_d, reg_a, _, ppc_result_a, ppc_result_b) := ppc_grab_regsdab opcode s in
  let ea := u32 (ppc_result_b + base_of reg_a ppc_result_a) in
  mcpu (with_reserve true) ;;;
  ppc_result_d <- mmu_read_vmem 4 opcode ea ;;
  store_reg reg_d ppc_result_d.

(* [cpu/ppc/ppcopcodes.cpp:1760-1773] *)
Definition ppc_stwcx (opcode : Z) : M machine unit :=
  s <- gets cpu ;;
  let '(_, reg_a, _, ppc_result_d, ppc_result_a, ppc_result_b) := ppc_grab_regssab opcode s in
  let ea := if reg_a =? 0 then ppc_result_b else u32 (ppc_result_a + ppc_result_b) in
  mcpu (fun s => with_cr (Z.land (cr s) 0x0FFFFFFF) s) ;;;
  mcpu (fun s => with_cr (Z.lor (cr s) (Z.shiftr (Z.land (spr s).[SPR.XER] XERB.SO) 3)) s) ;;;
  reserve <- gets (fun m => reserve (cpu m)) ;;
  if (reserve : bool) then
    mmu_write_T 4 opcode ea ppc_result_d ;;;
    mcpu (with_reserve false) ;;;
    mcpu (fun s => with_cr (Z.lor (cr s) 0x20000000) s)
  else ret tt.

(** ** Several registers *)

(** [for (; reg_s <= 31; reg_s++)], [n] registers left. *)
Fixpoint stmw_loop (n : nat) (opcode reg_s ea : Z) : M machine unit :=
  match n with
  | O => ret tt
  | S n =>
      v <- gets (fun m => (gpr (cpu m)).[reg_s]) ;;
      mmu_write_T 4 opcode ea v ;;;
      stmw_loop n opcode (reg_s + 1) (u32 (ea + 4))
  end.

(* [cpu/ppc/ppcopcodes.cpp:1785-1802] *)
Definition ppc_stmw (opcode : Z) : M machine unit :=
  s <- gets cpu ;;
  let '(reg_s, reg_a, ppc_result_a) := ppc_grab_regssa_stmw opcode s in
  let ea := u32 (s16 opcode + base_of reg_a ppc_result_a) in
  when (test ea 3) (ppc_alignment_exception opcode ea) ;;;
  stmw_loop (Z.to_nat (32 - reg_s)) opcode reg_s ea.

(** [do ... while (reg_d < 32)]: at least one register, as [reg_d] is below 32. *)
Fixpoint lmw_loop (n : nat) (opcode reg_d ea : Z) : M machine unit :=
  match n with
  | O => ret tt
  | S n =>
      v <- mmu_read_vmem 4 opcode ea ;;
      mcpu (set_gpr reg_d v) ;;;
      lmw_loop n opcode (reg_d + 1) (u32 (ea + 4))
  end.

(* [cpu/ppc/ppcopcodes.cpp:1965-1978] *)
Definition ppc_lmw (opcode : Z) : M machine unit :=
  s <- gets cpu ;;
  let '(reg_d, reg_a, simm, ppc_result_a) := ppc_grab_regsdasimm opcode s in
  let ea := u32 (simm + base_of reg_a ppc_result_a) in
  lmw_loop (Z.to_nat (32 - reg_d)) opcode reg_d ea.

(** ** Strings

    [while (grab_inb >= 4)] runs [grab_inb / 4] times; the registers wrap. *)

Definition next_reg (reg : Z) : Z := if 32 <=? reg + 1 then 0 else reg + 1.

Fixpoint load_words (n : nat) (opcode reg_d ea : Z) (k : Z -> Z -> M machine unit) : M machine unit :=
  match n with
  | O => k reg_d ea
  | S n =>
      v <- mmu_read_vmem 4 opcode ea ;;
      mcpu (set_gpr reg_d v) ;;;
      load_words n opcode (next_reg reg_d) (u32 (ea + 4)) k
  end.

(* [cpu/ppc/ppcopcodes.cpp:1980-2014] *)
Definition ppc_lswi (opcode : Z) : M machine unit :=
  s <- gets cpu ;;
  let '(reg_d, reg_a, ppc_result_a) := ppc_grab_regsda opcode s in
  let ea := base_of reg_a ppc_result_a in
  let grab_inb := Z.land (Z.shiftr opcode 11) 0x1F in
  let grab_inb := if grab_inb =? 0 then 32 else grab_inb in
  load_words (Z.to_nat (grab_inb / 4)) opcode reg_d ea (fun reg_d ea =>
    let grab_inb := grab_inb mod 4 in
    if grab_inb =? 1 then
      b <- mmu_read_vmem 1 opcode ea ;; mcpu (set_gpr reg_d (shl32 b 24))
    else if grab_inb =? 2 then
      h <- mmu_read_vmem 2 opcode ea ;; mcpu (set_gpr reg_d (shl32 h 16))
    else if grab_inb =? 3 then
      h <- mmu_read_vmem 2 opcode ea ;;
      mcpu (set_gpr reg_d (shl32 h 16)) ;;;
      b <- mmu_read_vmem 1 opcode (u32 (ea + 2)) ;;
      mcpu (fun s => set_gpr reg_d (u32 ((gpr s).[reg_d] + Z.shiftl b 8)) s)
    else ret tt).

(** The loop of [lswx], with the number of bytes left; it ends after at most
    [grab_inb] rounds. *)
Fixpoint lswx_loop (n : nat) (opcode : Z) (skip : Z -> bool) (reg_d ea grab_inb : Z) : M machine unit :=
  match n with
  | O => ret tt
  | S n =>
      if negb (0 <? grab_inb) then ret tt
      else
        let next := lswx_loop n opcode skip (Z.land (reg_d + 1) 0x1F) (u32 (ea + 4)) (grab_inb - 4) in
        if skip reg_d then next
        else if grab_inb =? 1 then
          b <- mmu_read_vmem 1 opcode ea ;; mcpu (set_gpr reg_d (shl32 b 24))
        else if grab_inb =? 2 then
          h <- mmu_read_vmem 2 opcode ea ;; mcpu (set_gpr reg_d (shl32 h 16))
        else if grab_inb =? 3 then
          h <- mmu_read_vmem 2 opcode ea ;;
          b <- mmu_read_vmem 1 opcode (u32 (ea + 2)) ;;
          mcpu (set_gpr reg_d (Z.lor (shl32 h 16) (Z.shiftl b 8)))
        else
          v <- mmu_read_vmem 4 opcode ea ;;
          mcpu (set_gpr reg_d v) ;;; next
  end.

(* [cpu/ppc/ppcopcodes.cpp:2016-2056] *)
Definition ppc_lswx (opcode : Z) : M machine unit :=
  m <- gets (fun m => m) ;;
  let '(reg_d, reg_a, reg_b, ppc_result_a, ppc_result_b) := ppc_grab_regsdab opcode (cpu m) in
  let ea := u32 (ppc_result_b + base_of reg_a ppc_result_a) in
  let grab_inb := Z.land (spr (cpu m)).[SPR.XER] 0x7F in
  let skip reg_d := is_601 (cfg m) && ((reg_d =? reg_b) || (negb (reg_a =? 0) && (reg_d =? reg_a))) in
  lswx_loop (Z.to_nat grab_inb) opcode skip reg_d ea grab_inb.

Fixpoint store_words (n : nat) (opcode reg_s ea : Z) (k : Z -> Z -> M machine unit) : M machine unit :=
  match n with
  | O => k reg_s ea
  | S n =>
      v <- gets (fun m => (gpr (cpu m)).[reg_s]) ;;
      mmu_write_T 4 opcode ea v ;;;
      store_words n opcode (next_reg reg_s) (u32 (ea + 4)) k
  end.

(** The bytes that remain of a string to store. *)
(* [cpu/ppc/ppcopcodes.cpp:2077-2090 grab_inb] *)
Definition store_tail (opcode grab_inb reg_s ea : Z) : M machine unit :=
  v <- gets (fun m => (gpr (cpu m)).[reg_s]) ;;
  if grab_inb =? 1 then mmu_write_T 1 opcode ea (Z.shiftr v 24)
  else if grab_inb =? 2 then mmu_write_T 2 opcode ea (Z.shiftr v 16)
  else if grab_inb =? 3 then
    mmu_write_T 2 opcode ea (Z.shiftr v 16) ;;;
    v <- gets (fun m => (gpr (cpu m)).[reg_s]) ;;
    mmu_write_T 1 opcode (u32 (ea + 2)) (Z.land (Z.shiftr v 8) 0xFF)
  else ret tt.

(* [cpu/ppc/ppcopcodes.cpp:2058-2091] *)
Definition ppc_stswi (opcode : Z) : M machine unit :=
  s <- gets cpu ;;
  let '(reg_s, reg_a, rot_sh, ppc_result_a) := ppc_grab_regssash_stswi opcode s in
  let ea := base_of reg_a ppc_result_a in
  let grab_inb := if rot_sh =? 0 then 32 else rot_sh in
  store_words (Z.to_nat (grab_inb / 4)) opcode reg_s ea (store_tail opcode (grab_inb mod 4)).

(* [cpu/ppc/ppcopcodes.cpp:2093-2126] *)
Definition ppc_stswx (opcode : Z) : M machine unit :=
  s <- gets cpu ;;
  let '(reg_s, reg_a, _, ppc_result_a, ppc_result_b) := ppc_grab_regssab_stswx opcode s in
  let ea := u32 (ppc_result_b + base_of reg_a ppc_result_a) in
  let grab_inb := Z.land (spr s).[SPR.XER] 127 in
  store_words (Z.to_nat (grab_inb / 4)) opcode reg_s ea (store_tail opcode (grab_inb mod 4)).

(** ** Load string and compare bytes (POWER)

    [n] is the number of bytes remaining; the result is what the loop ends
    with: the register, its partial contents, the shift, the bytes left, and
    whether a byte matched. *)
Fixpoint lscbx_loop (n : nat) (opcode reg_a reg_b matching_byte reg_d ppc_result_d shift_amount ea : Z)
    : M machine (Z * Z * Z * Z * bool) :=
  match n with
  | O => ret (reg_d, ppc_result_d, shift_amount, 0, false)
  | S n =>
      return_value <- mmu_read_vmem 1 opcode ea ;;
      let ppc_result_d := Z.lor ppc_result_d (Z.shiftl return_value shift_amount) in
      (if shift_amount =? 0 then
         when (negb (reg_d =? reg_a) && negb (reg_d =? reg_b)) (store_reg reg_d ppc_result_d) else ret tt) ;;;
      let '(reg_d, ppc_result_d, shift_amount) :=
        if shift_amount =? 0 then (Z.land (reg_d + 1) 0x1F, 0, 24) else (reg_d, ppc_result_d, shift_amount - 8) in
      if return_value =? matching_byte then ret (reg_d, ppc_result_d, shift_amount, Z.of_nat n, true)
      else lscbx_loop n opcode reg_a reg_b matching_byte reg_d ppc_result_d shift_amount (u32 (ea + 1))
  end.

(* [cpu/ppc/poweropcodes.cpp:204-253] *)
Definition power_lscbx (rec : field_rc) (opcode : Z) : M machine unit :=
  s <- gets cpu ;;
  let '(reg_d, reg_a, reg_b, ppc_result_a, ppc_result_b) := ppc_grab_regsdab opcode s in
  let ea := u32 (ppc_result_b + base_of reg_a ppc_result_a) in
  let bytes_to_load := Z.land (spr s).[SPR.XER] 0x7F in
  let matching_byte := u8 (Z.shiftr (spr s).[SPR.XER] 8) in
  r <- lscbx_loop (Z.to_nat bytes_to_load) opcode reg_a reg_b matching_byte reg_d 0 24 ea ;;
  let '(reg_d, ppc_result_d, shift_amount, bytes_remaining, is_match) := (r : Z * Z * Z * Z * bool) in
  when (negb (shift_amount =? 24) && negb (reg_d =? reg_a) && negb (reg_d =? reg_b))
    (store_reg reg_d ppc_result_d) ;;;
  mcpu (fun s => set_spr SPR.XER (Z.lor (Z.land (spr s).[SPR.XER] (not32 0x7F)) (bytes_to_load - bytes_remaining)) s) ;;;
  when (match rec with RC1 => true | RC0 => false end)
    (mcpu (fun s => with_cr (Z.lor (Z.lor (Z.land (cr s) 0x0FFFFFFF) (if (is_match : bool) then CRx.CR_EQ else 0))
                                   (Z.shiftr (Z.land (spr s).[SPR.XER] XERB.SO) 3)) s)).

(** ** External control *)

(* [cpu/ppc/ppcopcodes.cpp:2128-2147] *)
Definition ppc_eciwx (opcode : Z) : M machine unit :=
  s <- gets cpu ;;
  if negb (test (spr s).[SPR.EAR] 0x80000000) then ppc_exception_handler EXC_DSI 0
  else
    let '(reg_d, reg_a, _, ppc_result_a, ppc_result_b) := ppc_grab_regsdab opcode s in
    let ea := u32 (ppc_result_b + base_of reg_a ppc_result_a) in
    when (test ea 3) (ppc_alignment_exception opcode ea) ;;;
    ppc_result_d <- mmu_read_vmem 4 opcode ea ;;
    store_reg reg_d ppc_result_d.

(* [cpu/ppc/ppcopcodes.cpp:2149-2167] *)
Definition ppc_ecowx (opcode : Z) : M machine unit :=
  s <- gets cpu ;;
  if negb (test (spr s).[SPR.EAR] 0x80000000) then
    set_m_spr SPR.DSISR 0x00100000 ;;; ppc_exception_handler EXC_DSI 0
  else
    let '(_, reg_a, _, ppc_result_d, ppc_result_a, ppc_result_b) := ppc_grab_regssab opcode s in
    let ea := u32 (ppc_result_b + base_of reg_a ppc_result_a) in
    when (test ea 3) (ppc_alignment_exception opcode ea) ;;;
    mmu_write_T 4 opcode ea ppc_result_d.
End LoadStore.

(** ** TLB instructions *)

(* [cpu/ppc/ppcopcodes.cpp:2171-2191] *)
Definition ppc_tlbie (opcode : Z) : M machine unit := privileged (fun m =>
  let m := if is_603 (cfg m) then mmu_603_tlb_invalidate_set (gpr (cpu m)).[field_b opcode] m else m in
  (Ret tt, tlb_flush_all_pat m)).

(* [cpu/ppc/ppcopcodes.cpp:2193-2204] *)
Definition ppc_tlbia (opcode : Z) : M machine unit := privileged (ret tt).

(* [cpu/ppc/ppcopcodes.cpp:2206-2216] *)
Definition ppc_tlbld (opcode : Z) : M machine unit := privileged (fun m =>
  (Ret tt, if is_603 (cfg m) then mmu_603_tlb_load DTLB (gpr (cpu m)).[field_b opcode] m else m)).

(* [cpu/ppc/ppcopcodes.cpp:2218-2228] *)
Definition ppc_tlbli (opcode : Z) : M machine unit := privileged (fun m =>
  (Ret tt, if is_603 (cfg m) then mmu_603_tlb_load ITLB (gpr (cpu m)).[field_b opcode] m else m)).

(* [cpu/ppc/ppcopcodes.cpp:2230-2239] *)
Definition ppc_tlbsync (opcode : Z) : M machine unit := privileged (ret tt).
