(* ===== verification/Fpu.v ===== *)
(** * Floating-point instructions (cpu/ppc/ppcfpopcodes.cpp)

    The arithmetic, rounding, conversion, move, compare and FPSCR instructions,
    on the host arithmetic of [Float.v].  The registers hold bit patterns: the
    [int64_r] member of [FPR_storage], of which [dbl64_r] is the same bits.  An
    arithmetic operation runs under the host's rounding direction and raises the
    host's exceptions, both in the [fenv] of the machine. *)
From S2P Require Import Prelude Word Float PpcState Timers MemCtrl Machine.

(** ** FPSCR bits *)

Module FPSCR.
(* [cpu/ppc/ppcemu.h:233-233] *)
Definition RN_MASK := 0x3.
(* [cpu/ppc/ppcemu.h:239-239] *)
Definition VE := 2 ^ 7.
(* [cpu/ppc/ppcemu.h:240-240] *)
Definition VXCVI := 2 ^ 8.
(* [cpu/ppc/ppcemu.h:241-241] *)
Definition VXSQRT := 2 ^ 9.
(* [cpu/ppc/ppcemu.h:242-242] *)
Definition VXSOFT := 2 ^ 10.
(* [cpu/ppc/ppcemu.h:243-243] *)
Definition FPCC_FUNAN := 2 ^ 12.
(* [cpu/ppc/ppcemu.h:244-244] *)
Definition FPCC_ZERO := 2 ^ 13.
(* [cpu/ppc/ppcemu.h:245-245] *)
Definition FPCC_POS := 2 ^ 14.
(* [cpu/ppc/ppcemu.h:246-246] *)
Definition FPCC_NEG := 2 ^ 15.
(* [cpu/ppc/ppcemu.h:247-247] *)
Definition FPCC_MASK := Z.lor (Z.lor (Z.lor FPCC_NEG FPCC_POS) FPCC_ZERO) FPCC_FUNAN.
(* [cpu/ppc/ppcemu.h:248-248] *)
Definition FPRCD := 2 ^ 16.
(* [cpu/ppc/ppcemu.h:250-250] *)
Definition FI := 2 ^ 17.
(* [cpu/ppc/ppcemu.h:251-251] *)
Definition FR := 2 ^ 18.
(* [cpu/ppc/ppcemu.h:252-252] *)
Definition VXVC := 2 ^ 19.
(* [cpu/ppc/ppcemu.h:253-253] *)
Definition VXIMZ := 2 ^ 20.
(* [cpu/ppc/ppcemu.h:254-254] *)
Definition VXZDZ := 2 ^ 21.
(* [cpu/ppc/ppcemu.h:255-255] *)
Definition VXIDI := 2 ^ 22.
(* [cpu/ppc/ppcemu.h:256-256] *)
Definition VXISI := 2 ^ 23.
(* [cpu/ppc/ppcemu.h:257-257] *)
Definition VXSNAN := 2 ^ 24.
(* [cpu/ppc/ppcemu.h:258-258] *)
Definition XX := 2 ^ 25.
(* [cpu/ppc/ppcemu.h:259-259] *)
Definition ZX := 2 ^ 26.
(* [cpu/ppc/ppcemu.h:260-260] *)
Definition UX := 2 ^ 27.
(* [cpu/ppc/ppcemu.h:261-261] *)
Definition OX := 2 ^ 28.
(* [cpu/ppc/ppcemu.h:262-262] *)
Definition VX := 2 ^ 29.
(* [cpu/ppc/ppcemu.h:263-263] *)
Definition FEX := 2 ^ 30.
(* [cpu/ppc/ppcemu.h:264-264] *)
Definition FX := 2 ^ 31.
End FPSCR.
Import FPSCR.

(* [cpu/ppc/ppcemu.h:213-213] *)
Definition CR1_field : Z := Z.shiftl 0xF 24.

(** Statements [a |= b | c | ...] of several masks. *)
Definition masks (l : list Z) : Z := fold_right Z.lor 0 l.

(** ** The two registers of the FPU *)

Definition with_fpr v s :=
  mk_ppc_state v (pc s) (gpr s) (cr s) (fpscr s) (tbr s) (spr s) (msr s) (sr s) (reserve s).
Definition with_fpscr v s :=
  mk_ppc_state (fpr s) (pc s) (gpr s) (cr s) v (tbr s) (spr s) (msr s) (sr s) (reserve s).

(** [ppc_store_fpresult_flt] stores the same bits through the other member. *)
(* [cpu/ppc/ppcdechelpers.h:203-204] *)
Definition ppc_store_fpresult_int (reg v : Z) (s : ppc_state) : ppc_state := with_fpr ((fpr s).[reg := v]) s.
(* [cpu/ppc/ppcdechelpers.h:206-207] *)
Definition ppc_store_fpresult_flt := ppc_store_fpresult_int.
(* [cpu/ppc/ppcdechelpers.h:209-210] *)
Definition GET_FPR (s : ppc_state) (reg : Z) : Z := (fpr s).[reg].
(* [cpu/ppc/ppcdechelpers.h:212-213] *)
Definition FPR_INT := GET_FPR.

Definition field_c (opcode : Z) : Z := Z.land (Z.shiftr opcode 6) 0x1F.

(* [cpu/ppc/ppcdechelpers.h:153-155] *)
Definition ppc_grab_regsfpdb (opcode : Z) : Z * Z := (field_d opcode, field_b opcode).
(* [cpu/ppc/ppcdechelpers.h:175-180] *)
Definition ppc_grab_regsfpsab (opcode : Z) (s : ppc_state) : Z * Z * Z * Z * Z :=
  (field_a opcode, field_b opcode, Z.land (Z.shiftr opcode 21) 0x1C,
   GET_FPR s (field_a opcode), GET_FPR s (field_b opcode)).
(* [cpu/ppc/ppcdechelpers.h:182-185] *)
Definition ppc_grab_regsfpdab (opcode : Z) (s : ppc_state) : Z * Z * Z * Z * Z :=
  let '(reg_d, reg_a, reg_b) := decode_ops_dab opcode in
  (reg_d, reg_a, reg_b, GET_FPR s reg_a, GET_FPR s reg_b).
(* [cpu/ppc/ppcdechelpers.h:187-191] *)
Definition ppc_grab_regsfpdac (opcode : Z) (s : ppc_state) : Z * Z * Z * Z * Z :=
  let '(reg_d, reg_a) := decode_ops_da opcode in
  let reg_c := field_c opcode in
  (reg_d, reg_a, reg_c, GET_FPR s reg_a, GET_FPR s reg_c).
(* [cpu/ppc/ppcdechelpers.h:193-198] *)
Definition ppc_grab_regsfpdabc (opcode : Z) (s : ppc_state) : Z * Z * Z * Z * Z * Z * Z :=
  let '(reg_d, reg_a, reg_b) := decode_ops_dab opcode in
  let reg_c := field_c opcode in
  (reg_d, reg_a, reg_b, reg_c, GET_FPR s reg_a, GET_FPR s reg_b, GET_FPR s reg_c).

(** ** FPSCR and CR1 updates *)

Definition fpscr_set (f : Z -> Z) (s : ppc_state) : ppc_state := with_fpscr (f (fpscr s)) s.
Definition fpscr_or (mask : Z) : M machine unit := mcpu (fpscr_set (fun v => Z.lor v mask)).
Definition fpscr_andc (mask : Z) : M machine unit := mcpu (fpscr_set (fun v => Z.land v (Z.lnot mask))).

(* [cpu/ppc/ppcfpopcodes.cpp:38-42] *)
Definition ppc_update_cr1 (s : ppc_state) : ppc_state :=
  with_cr (Z.lor (Z.land (cr s) (Z.lnot CR1_field)) (Z.land (Z.shiftr (fpscr s) 4) CR1_field)) s.

(* [cpu/ppc/ppcfpopcodes.cpp:48-63] *)
Definition set_host_rounding_mode (mode : Z) (m : machine) : machine :=
  upd_fenv (fun e => mk_fp_env (Z.land mode RN_MASK) (fe_except e)) m.

(* [cpu/ppc/ppcfpopcodes.cpp:65-70] *)
Definition update_fpscr (new_fpscr : Z) (m : machine) : machine :=
  let m := if Z.land new_fpscr RN_MASK =? Z.land (fpscr (cpu m)) RN_MASK then m
           else set_host_rounding_mode (Z.land new_fpscr RN_MASK) m in
  upd_cpu (with_fpscr new_fpscr) m.

(* [cpu/ppc/ppcfpopcodes.cpp:84-89] *)
Definition check_snan (check_int : Z) : bool :=
  (Z.land check_int (Z.shiftl 0x7FF 52) =? Z.shiftl 0x7FF 52) &&
  negb (Z.land check_int (Z.lnot (Z.shiftl 0xFFF 52)) =? 0) &&
  (Z.land check_int (Z.shiftl 1 51) =? 0).

(* [cpu/ppc/ppcfpopcodes.cpp:91-97] *)
Definition snan_single_check (reg_a : Z) : M machine bool :=
  s <- gets cpu ;;
  if check_snan (FPR_INT s reg_a) then fpscr_or (masks [FX; VX; VXSNAN]) ;;; ret true else ret false.

(* [cpu/ppc/ppcfpopcodes.cpp:99-105] *)
Definition snan_double_check (reg_a reg_b : Z) : M machine bool :=
  s <- gets cpu ;;
  if check_snan (FPR_INT s reg_a) || check_snan (FPR_INT s reg_b) then
    fpscr_or (masks [FX; VX; VXSNAN]) ;;; ret true
  else ret false.

(* [cpu/ppc/ppcfpopcodes.cpp:107-111] *)
Definition max_double_check (value_a value_b : Z) : M machine unit :=
  when (feq value_a DBL_MAX && feq value_b DBL_MAX || feq value_a (fneg DBL_MAX) && feq value_b (fneg DBL_MAX))
    (fpscr_or (masks [FX; OX; XX; FI])).

(* [cpu/ppc/ppcfpopcodes.cpp:113-117] *)
Definition check_qnan (check_int : Z) : bool :=
  (Z.land check_int (Z.shiftl 0x7FF 52) =? Z.shiftl 0x7FF 52) &&
  (Z.land check_int (Z.shiftl 1 51) =? Z.shiftl 1 51).

(* [cpu/ppc/ppcfpopcodes.cpp:119-122] *)
Definition set_endresult_nan : M machine Z := fpscr_or (Z.lor FX VX) ;;; ret quiet_NaN.

(* [cpu/ppc/ppcfpopcodes.cpp:125-141] *)
Definition test_and_clear_fp_exceptions : M machine fp_flags := fun m =>
  (Ret (fe_except (fenv m)), upd_fenv (fun e => mk_fp_env (fe_round e) no_flags) m).

(* [cpu/ppc/ppcfpopcodes.cpp:144-171] *)
Definition fpresult_update (set_result : Z) : M machine unit :=
  if isnan set_result then fpscr_or (Z.lor FPCC_FUNAN FPRCD)
  else
    fpscr_or (if flt 0 set_result then FPCC_POS else if flt set_result 0 then FPCC_NEG else FPCC_ZERO) ;;;
    exceptions <- test_and_clear_fp_exceptions ;;
    when (fl_overflow exceptions) (fpscr_or (OX + FX)) ;;;
    when (fl_underflow exceptions) (fpscr_or (UX + FX)) ;;;
    when (fl_divbyzero exceptions) (fpscr_or (ZX + FX)) ;;;
    when (isinf set_result) (fpscr_or FPCC_FUNAN).

(* [cpu/ppc/ppcfpopcodes.cpp:173-179] *)
Definition ppc_update_vx (s : ppc_state) : ppc_state :=
  fpscr_set (fun v => if test (fpscr s) 0x1F80700 then Z.lor v VX else Z.land v (Z.lnot VX)) s.

(* [cpu/ppc/ppcfpopcodes.cpp:181-187] *)
Definition ppc_update_fex (s : ppc_state) : ppc_state :=
  fpscr_set (fun v => if test (Z.shiftr (fpscr s) 22) 0x0F8 then Z.lor v FEX else Z.land v (Z.lnot FEX)) s.

(** ** Pieces the arithmetic instructions share *)

(** A host operation: under the host's rounding direction, raising exceptions. *)
Definition host_fp (f : Z -> Z * fp_flags) : M machine Z := fun m =>
  let '(r, fl) := f (fe_round (fenv m)) in
  (Ret r, upd_fenv (fun e => mk_fp_env (fe_round e) (raise_flags (fe_except e) fl)) m).

(** [if (c) { fpscr |= flag; if (std::isnan(r)) r = set_endresult_nan(); }] *)
Definition invalid_operation (c : bool) (flag r : Z) : M machine Z :=
  if c then fpscr_or flag ;;; (if isnan r then set_endresult_nan else ret r) else ret r.

(** [if (snan) store 0x7FFC000000000000 else store r] *)
Definition store_fpresult (snan : bool) (reg_d r : Z) : M machine unit :=
  mcpu (if snan then ppc_store_fpresult_int reg_d 0x7FFC000000000000 else ppc_store_fpresult_flt reg_d r).

(** [snan_single_check(a) || snan_single_check(b) || snan_single_check(c)] *)
Definition snan_checks (reg_a reg_b reg_c : Z) : M machine bool :=
  x <- snan_single_check reg_a ;;
  if (x : bool) then ret true else
  y <- snan_single_check reg_b ;;
  if (y : bool) then ret true else snan_single_check reg_c.

(** [fpresult_update(r); if (rec) ppc_update_cr1();] *)
Definition record_cr1 (rec : field_rc) : M machine unit := when (rc rec) (mcpu ppc_update_cr1).
Definition fp_finish (rec : field_rc) (r : Z) : M machine unit := fpresult_update r ;;; record_cr1 rec.

(** Conditions on the operands. *)
Definition opposite_infinities (a b : Z) : bool :=
  feq a infinity && feq b (fneg infinity) || feq a (fneg infinity) && feq b infinity.
Definition inf_times_zero (a c : Z) : bool := isinf a && feq c 0 || isinf c && feq a 0.

Section Fpu.
Context `{HostFpu}.

(** [(float)x] as a [double]. *)
Definition to_float (x : Z) : M machine Z := w <- host_fp (fun rm => to_single rm x) ;; ret (of_single w).

(** ** Arithmetic *)

(* [cpu/ppc/ppcfpopcodes.cpp:190-219] *)
Definition ppc_fadd (rec : field_rc) (opcode : Z) : M machine unit :=
  s <- gets cpu ;;
  let '(reg_d, reg_a, reg_b, val_reg_a, val_reg_b) := ppc_grab_regsfpdab opcode s in
  max_double_check val_reg_a val_reg_b ;;;
  r <- host_fp (fun rm => fadd rm val_reg_a val_reg_b) ;;
  r <- invalid_operation (opposite_infinities val_reg_a val_reg_b) VXISI r ;;
  snan <- snan_double_check reg_a reg_b ;;
  store_fpresult snan reg_d r ;;;
  fp_finish rec r.

(* [cpu/ppc/ppcfpopcodes.cpp:224-249] *)
Definition ppc_fsub (rec : field_rc) (opcode : Z) : M machine unit :=
  s <- gets cpu ;;
  let '(reg_d, reg_a, reg_b, val_reg_a, val_reg_b) := ppc_grab_regsfpdab opcode s in
  r <- host_fp (fun rm => fsub rm val_reg_a val_reg_b) ;;
  r <- invalid_operation (feq val_reg_a infinity && feq val_reg_b infinity) VXISI r ;;
  snan <- snan_double_check reg_a reg_b ;;
  store_fpresult snan reg_d r ;;;
  fp_finish rec r.

(* [cpu/ppc/ppcfpopcodes.cpp:254-299] *)
Definition ppc_fdiv (rec : field_rc) (opcode : Z) : M machine unit :=
  m <- gets (fun m => m) ;;
  let s := cpu m in
  let '(reg_d, reg_a, reg_b, val_reg_a, val_reg_b) := ppc_grab_regsfpdab opcode s in
  if is_601 (cfg m) && (FPR_INT s reg_b =? 0x8000000000000000) && flt 0 val_reg_a then fp_finish rec val_reg_b
  else
    r <- host_fp (fun rm => fdiv rm val_reg_a val_reg_b) ;;
    when (feq val_reg_b 0) (fpscr_or (Z.lor FX VX)) ;;;
    when (isinf val_reg_a && isinf val_reg_b) (fpscr_or VXIDI) ;;;
    r <- invalid_operation (feq val_reg_a 0 && feq val_reg_b 0) VXZDZ r ;;
    snan <- snan_double_check reg_a reg_b ;;
    store_fpresult snan reg_d r ;;;
    fp_finish rec r.

(* [cpu/ppc/ppcfpopcodes.cpp:304-333] *)
Definition ppc_fmul (rec : field_rc) (opcode : Z) : M machine unit :=
  s <- gets cpu ;;
  let '(reg_d, reg_a, reg_c, val_reg_a, val_reg_c) := ppc_grab_regsfpdac opcode s in
  r <- host_fp (fun rm => fmul rm val_reg_a val_reg_c) ;;
  r <- invalid_operation (inf_times_zero val_reg_a val_reg_c) VXIMZ r ;;
  let r := if isnan val_reg_a || isnan val_reg_c then quiet_NaN else r in
  snan <- snan_double_check reg_a reg_c ;;
  store_fpresult snan reg_d r ;;;
  fp_finish rec r.

(* [cpu/ppc/ppcfpopcodes.cpp:338-372] *)
Definition ppc_fmadd (rec : field_rc) (opcode : Z) : M machine unit :=
  s <- gets cpu ;;
  let '(reg_d, reg_a, reg_b, reg_c, val_reg_a, val_reg_b, val_reg_c) := ppc_grab_regsfpdabc opcode s in
  r <- host_fp (fun rm => ffma rm val_reg_a val_reg_c val_reg_b) ;;
  r <- invalid_operation (opposite_infinities val_reg_a val_reg_b) VXISI r ;;
  r <- invalid_operation (inf_times_zero val_reg_a val_reg_c) VXIMZ r ;;
  snan <- snan_checks reg_a reg_b reg_c ;;
  store_fpresult snan reg_d r ;;;
  fp_finish rec r.

(* [cpu/ppc/ppcfpopcodes.cpp:377-414] *)
Definition ppc_fmsub (rec : field_rc) (opcode : Z) : M machine unit :=
  s <- gets cpu ;;
  let '(reg_d, reg_a, reg_b, reg_c, val_reg_a, val_reg_b, val_reg_c) := ppc_grab_regsfpdabc opcode s in
  r <- host_fp (fun rm => ffma rm val_reg_a val_reg_c (fneg val_reg_b)) ;;
  r <- invalid_operation (inf_times_zero val_reg_a val_reg_c) VXIMZ r ;;
  r <- invalid_operation (opposite_infinities val_reg_a val_reg_b) VXISI r ;;
  let r := if isnan val_reg_a || isnan val_reg_b || isnan val_reg_c then quiet_NaN else r in
  snan <- snan_checks reg_a reg_b reg_c ;;
  store_fpresult snan reg_d r ;;;
  fp_finish rec r.

(* [cpu/ppc/ppcfpopcodes.cpp:419-457] *)
Definition ppc_fnmadd (rec : field_rc) (opcode : Z) : M machine unit :=
  s <- gets cpu ;;
  let '(reg_d, reg_a, reg_b, reg_c, val_reg_a, val_reg_b, val_reg_c) := ppc_grab_regsfpdabc opcode s in
  r <- host_fp (fun rm => ffma rm val_reg_a val_reg_c val_reg_b) ;;
  let r := fneg r in
  let r := if isnan r then quiet_NaN else r in
  r <- invalid_operation (opposite_infinities val_reg_a val_reg_b) VXISI r ;;
  r <- invalid_operation (inf_times_zero val_reg_a val_reg_c) VXIMZ r ;;
  snan <- snan_checks reg_a reg_b reg_c ;;
  store_fpresult snan reg_d r ;;;
  fp_finish rec r.

(* [cpu/ppc/ppcfpopcodes.cpp:462-495] *)
Definition ppc_fnmsub (rec : field_rc) (opcode : Z) : M machine unit :=
  s <- gets cpu ;;
  let '(reg_d, reg_a, reg_b, reg_c, val_reg_a, val_reg_b, val_reg_c) := ppc_grab_regsfpdabc opcode s in
  r <- host_fp (fun rm => ffma rm val_reg_a val_reg_c (fneg val_reg_b)) ;;
  let r := fneg r in
  r <- invalid_operation (inf_times_zero val_reg_a val_reg_c) VXIMZ r ;;
  r <- invalid_operation (opposite_infinities val_reg_a val_reg_b) VXISI r ;;
  snan <- snan_checks reg_a reg_b reg_c ;;
  store_fpresult snan reg_d r ;;;
  fp_finish rec r.

(** ** Single precision *)

(* [cpu/ppc/ppcfpopcodes.cpp:500-527] *)
Definition ppc_fadds (rec : field_rc) (opcode : Z) : M machine unit :=
  s <- gets cpu ;;
  let '(reg_d, reg_a, reg_b, val_reg_a, val_reg_b) := ppc_grab_regsfpdab opcode s in
  max_double_check val_reg_a val_reg_b ;;;
  r <- host_fp (fun rm => fadd rm val_reg_a val_reg_b) ;;
  r <- to_float r ;;
  r <- invalid_operation (opposite_infinities val_reg_a val_reg_b) VXISI r ;;
  snan <- snan_double_check reg_a reg_b ;;
  store_fpresult snan reg_d r ;;;
  fp_finish rec r.

(* [cpu/ppc/ppcfpopcodes.cpp:532-558] *)
Definition ppc_fsubs (rec : field_rc) (opcode : Z) : M machine unit :=
  s <- gets cpu ;;
  let '(reg_d, reg_a, reg_b, val_reg_a, val_reg_b) := ppc_grab_regsfpdab opcode s in
  r <- host_fp (fun rm => fsub rm val_reg_a val_reg_b) ;;
  r <- to_float r ;;
  r <- invalid_operation (feq val_reg_a infinity && feq val_reg_b infinity ||
                          feq val_reg_a (fneg infinity) && feq val_reg_b (fneg infinity)) VXISI r ;;
  snan <- snan_double_check reg_a reg_b ;;
  store_fpresult snan reg_d r ;;;
  fp_finish rec r.

(* [cpu/ppc/ppcfpopcodes.cpp:563-598] *)
Definition ppc_fdivs (rec : field_rc) (opcode : Z) : M machine unit :=
  s <- gets cpu ;;
  let '(reg_d, reg_a, reg_b, val_reg_a, val_reg_b) := ppc_grab_regsfpdab opcode s in
  r <- host_fp (fun rm => fdiv rm val_reg_a val_reg_b) ;;
  r <- to_float r ;;
  when (feq val_reg_b 0) (fpscr_or (Z.lor FX VX)) ;;;
  when (isinf val_reg_a && isinf val_reg_b) (fpscr_or VXIDI) ;;;
  r <- invalid_operation (feq val_reg_a 0 && feq val_reg_b 0) VXZDZ r ;;
  let r := if isnan val_reg_a || isnan val_reg_b then quiet_NaN else r in
  snan <- snan_double_check reg_a reg_b ;;
  store_fpresult snan reg_d r ;;;
  fp_finish rec r.

(* [cpu/ppc/ppcfpopcodes.cpp:603-632] *)
Definition ppc_fmuls (rec : field_rc) (opcode : Z) : M machine unit :=
  s <- gets cpu ;;
  let '(reg_d, reg_a, reg_c, val_reg_a, val_reg_c) := ppc_grab_regsfpdac opcode s in
  r <- host_fp (fun rm => fmul rm val_reg_a val_reg_c) ;;
  r <- to_float r ;;
  r <- invalid_operation (inf_times_zero val_reg_a val_reg_c) VXIMZ r ;;
  let r := if isnan val_reg_a || isnan val_reg_c then quiet_NaN else r in
  snan <- snan_double_check reg_a reg_c ;;
  store_fpresult snan reg_d r ;;;
  fp_finish rec r.

(* [cpu/ppc/ppcfpopcodes.cpp:637-666] *)
Definition ppc_fmadds (rec : field_rc) (opcode : Z) : M machine unit :=
  s <- gets cpu ;;
  let '(reg_d, reg_a, reg_b, reg_c, val_reg_a, val_reg_b, val_reg_c) := ppc_grab_regsfpdabc opcode s in
  r <- host_fp (fun rm => ffma rm val_reg_a val_reg_c val_reg_b) ;;
  r <- to_float r ;;
  when (opposite_infinities val_reg_a val_reg_b) (fpscr_or VXISI) ;;;
  r <- invalid_operation (inf_times_zero val_reg_a val_reg_c) VXIMZ r ;;
  snan <- snan_checks reg_a reg_b reg_c ;;
  store_fpresult snan reg_d r ;;;
  fp_finish rec r.

(* [cpu/ppc/ppcfpopcodes.cpp:671-700] *)
Definition ppc_fmsubs (rec : field_rc) (opcode : Z) : M machine unit :=
  s <- gets cpu ;;
  let '(reg_d, reg_a, reg_b, reg_c, val_reg_a, val_reg_b, val_reg_c) := ppc_grab_regsfpdabc opcode s in
  r <- host_fp (fun rm => ffma rm val_reg_a val_reg_c (fneg val_reg_b)) ;;
  r <- to_float r ;;
  r <- invalid_operation (inf_times_zero val_reg_a val_reg_c) VXIMZ r ;;
  when (feq val_reg_a infinity && feq val_reg_b infinity) (fpscr_or VXISI) ;;;
  snan <- snan_checks reg_a reg_b reg_c ;;
  store_fpresult snan reg_d r ;;;
  fp_finish rec r.

(* [cpu/ppc/ppcfpopcodes.cpp:705-737] *)
Definition ppc_fnmadds (rec : field_rc) (opcode : Z) : M machine unit :=
  s <- gets cpu ;;
  let '(reg_d, reg_a, reg_b, reg_c, val_reg_a, val_reg_b, val_reg_c) := ppc_grab_regsfpdabc opcode s in
  r <- host_fp (fun rm => ffma rm val_reg_a val_reg_c val_reg_b) ;;
  r <- to_float r ;;
  let r := fneg r in
  let r := if isnan r then quiet_NaN else r in
  when (opposite_infinities val_reg_a val_reg_b) (fpscr_or VXISI) ;;;
  r <- invalid_operation (inf_times_zero val_reg_a val_reg_c) VXIMZ r ;;
  snan <- snan_checks reg_a reg_b reg_c ;;
  store_fpresult snan reg_d r ;;;
  fp_finish rec r.

(* [cpu/ppc/ppcfpopcodes.cpp:742-778] *)
Definition ppc_fnmsubs (rec : field_rc) (opcode : Z) : M machine unit :=
  s <- gets cpu ;;
  let '(reg_d, reg_a, reg_b, reg_c, val_reg_a, val_reg_b, val_reg_c) := ppc_grab_regsfpdabc opcode s in
  _ <- snan_double_check reg_a reg_c ;;
  _ <- snan_single_check reg_b ;;
  r <- host_fp (fun rm => ffma rm val_reg_a val_reg_c (fneg val_reg_b)) ;;
  r <- to_float r ;;
  let r := fneg r in
  r <- invalid_operation (inf_times_zero val_reg_a val_reg_c) VXIMZ r ;;
  when (feq val_reg_a infinity && feq val_reg_b infinity) (fpscr_or VXISI) ;;;
  let r := if isnan val_reg_a || isnan val_reg_b || isnan val_reg_c then quiet_NaN else r in
  snan <- snan_checks reg_a reg_b reg_c ;;
  store_fpresult snan reg_d r ;;;
  fp_finish rec r.

(** ** Sign operations, selection, roots and estimates *)

(* [cpu/ppc/ppcfpopcodes.cpp:783-793] *)
Definition ppc_fabs (rec : field_rc) (opcode : Z) : M machine unit :=
  let '(reg_d, reg_b) := ppc_grab_regsfpdb opcode in
  mcpu (fun s => ppc_store_fpresult_int reg_d (Z.land (FPR_INT s reg_b) (Z.lnot 0x8000000000000000)) s) ;;;
  record_cr1 rec.

(* [cpu/ppc/ppcfpopcodes.cpp:798-808] *)
Definition ppc_fnabs (rec : field_rc) (opcode : Z) : M machine unit :=
  let '(reg_d, reg_b) := ppc_grab_regsfpdb opcode in
  mcpu (fun s => ppc_store_fpresult_int reg_d (Z.lor (FPR_INT s reg_b) 0x8000000000000000) s) ;;;
  record_cr1 rec.

(* [cpu/ppc/ppcfpopcodes.cpp:813-823] *)
Definition ppc_fneg (rec : field_rc) (opcode : Z) : M machine unit :=
  let '(reg_d, reg_b) := ppc_grab_regsfpdb opcode in
  mcpu (fun s => ppc_store_fpresult_int reg_d (Z.lxor (FPR_INT s reg_b) 0x8000000000000000) s) ;;;
  record_cr1 rec.

(* [cpu/ppc/ppcfpopcodes.cpp:828-838] *)
Definition ppc_fsel (rec : field_rc) (opcode : Z) : M machine unit :=
  s <- gets cpu ;;
  let '(reg_d, _, _, _, val_reg_a, val_reg_b, val_reg_c) := ppc_grab_regsfpdabc opcode s in
  mcpu (ppc_store_fpresult_flt reg_d (if isnan val_reg_a || flt val_reg_a 0 then val_reg_b else val_reg_c)) ;;;
  record_cr1 rec.

(* [cpu/ppc/ppcfpopcodes.cpp:843-859] *)
Definition ppc_fsqrt (rec : field_rc) (opcode : Z) : M machine unit :=
  s <- gets cpu ;;
  let '(reg_d, reg_b) := ppc_grab_regsfpdb opcode in
  r <- host_fp (fun rm => fsqrt rm (GET_FPR s reg_b)) ;;
  snan <- snan_single_check reg_b ;;
  store_fpresult snan reg_d r ;;;
  record_cr1 rec.

(* [cpu/ppc/ppcfpopcodes.cpp:864-880] *)
Definition ppc_fsqrts (rec : field_rc) (opcode : Z) : M machine unit :=
  s <- gets cpu ;;
  let '(reg_d, reg_b) := ppc_grab_regsfpdb opcode in
  r <- host_fp (fun rm => fsqrt rm (GET_FPR s reg_b)) ;;
  r <- to_float r ;;
  snan <- snan_single_check reg_b ;;
  store_fpresult snan reg_d r ;;;
  record_cr1 rec.

(** The bits of [1.0]. *)
Definition float_one : Z := 0x3FF0000000000000.

(* [cpu/ppc/ppcfpopcodes.cpp:885-901] *)
Definition ppc_frsqrte (rec : field_rc) (opcode : Z) : M machine unit :=
  s <- gets cpu ;;
  let '(reg_d, reg_b) := ppc_grab_regsfpdb opcode in
  q <- host_fp (fun rm => fsqrt rm (GET_FPR s reg_b)) ;;
  r <- host_fp (fun rm => fdiv rm float_one q) ;;
  snan <- snan_single_check reg_b ;;
  store_fpresult snan reg_d r ;;;
  record_cr1 rec.

(* [cpu/ppc/ppcfpopcodes.cpp:906-921] *)
Definition ppc_frsp (rec : field_rc) (opcode : Z) : M machine unit :=
  s <- gets cpu ;;
  let '(reg_d, reg_b) := ppc_grab_regsfpdb opcode in
  r <- to_float (GET_FPR s reg_b) ;;
  snan <- snan_single_check reg_b ;;
  store_fpresult snan reg_d r ;;;
  record_cr1 rec.

(* [cpu/ppc/ppcfpopcodes.cpp:926-953] *)
Definition ppc_fres (rec : field_rc) (opcode : Z) : M machine unit :=
  s <- gets cpu ;;
  let '(reg_d, reg_b) := ppc_grab_regsfpdb opcode in
  let start_num := GET_FPR s reg_b in
  q <- host_fp (fun rm => fdiv rm float_one start_num) ;;
  r <- to_float q ;;
  (if feq start_num 0 then fpscr_or ZX
   else if isnan start_num then fpscr_or VXSNAN
   else when (isinf start_num) (mcpu (fpscr_set (fun v => Z.land v 0xFFF9FFFF)) ;;; fpscr_or VXSNAN)) ;;;
  snan <- snan_single_check reg_b ;;
  store_fpresult snan reg_d r ;;;
  record_cr1 rec.

(** ** Conversion to integer *)

(** The bits of [(double)0x7fffffff] and [-(double)0x80000000]. *)
Definition int_max : Z := 0x41DFFFFFFFC00000.
Definition int_min : Z := 0xC1E0000000000000.

(** Logs the event. *)
(* [cpu/ppc/ppcexceptions.cpp:205-209] *)
Definition ppc_floating_point_exception (opcode : Z) : M machine unit := ret tt.

(** [if (VE) { FEX; ppc_floating_point_exception(); } else store result] *)
Definition invalid_conversion (opcode reg_d result : Z) : M machine unit :=
  s <- gets cpu ;;
  if test (fpscr s) VE then fpscr_or FEX ;;; ppc_floating_point_exception opcode
  else mcpu (ppc_store_fpresult_int reg_d result).

(* [cpu/ppc/ppcfpopcodes.cpp:44-46] *)
Definition round_to_nearest (f : Z) (m : machine) : Z := round_integral (fe_round (fenv m)) f.
(* [cpu/ppc/ppcfpopcodes.cpp:72-74] *)
Definition round_to_zero (f : Z) : Z := round_integral 1 f.
(* [cpu/ppc/ppcfpopcodes.cpp:76-78] *)
Definition round_to_pos_inf (f : Z) : Z := round_integral 2 f.
(* [cpu/ppc/ppcfpopcodes.cpp:80-82] *)
Definition round_to_neg_inf (f : Z) : Z := round_integral 3 f.

(* [cpu/ppc/ppcfpopcodes.cpp:958-1013] *)
Definition round_to_int (opcode mode : Z) (rec : field_rc) : M machine unit :=
  m <- gets (fun m => m) ;;
  let s := cpu m in
  let '(reg_d, reg_b) := ppc_grab_regsfpdb opcode in
  let val_reg_b := GET_FPR s reg_b in
  (if isnan val_reg_b then
     fpscr_andc (Z.lor FR FI) ;;;
     fpscr_or (Z.lor VXCVI VX) ;;;
     when (check_snan (FPR_INT s reg_b)) (fpscr_or VXSNAN) ;;;
     invalid_conversion opcode reg_d 0xFFF8000080000000
   else if flt int_max val_reg_b || flt val_reg_b int_min then
     fpscr_andc (Z.lor FR FI) ;;;
     fpscr_or (Z.lor VXCVI VX) ;;;
     invalid_conversion opcode reg_d (if flt val_reg_b 0 then 0xFFF8000080000000 else 0xFFF800007FFFFFFF)
   else
     let i := match Z.land mode 0x3 with
              | 0 => round_to_nearest val_reg_b m
              | 1 => round_to_zero val_reg_b
              | 2 => round_to_pos_inf val_reg_b
              | _ => round_to_neg_inf val_reg_b
              end in
     mcpu (ppc_store_fpresult_int reg_d (Z.lor (u32 i) 0xFFF8000000000000))) ;;;
  record_cr1 rec.

(* [cpu/ppc/ppcfpopcodes.cpp:1015-1018] *)
Definition ppc_fctiw (rec : field_rc) (opcode : Z) : M machine unit :=
  s <- gets cpu ;; round_to_int opcode (Z.land (fpscr s) 0x3) rec.

(* [cpu/ppc/ppcfpopcodes.cpp:1023-1026] *)
Definition ppc_fctiwz (rec : field_rc) (opcode : Z) : M machine unit := round_to_int opcode 1 rec.
End Fpu.

(** ** Register transfer *)

(* [cpu/ppc/ppcfpopcodes.cpp:1214-1221] *)
Definition ppc_fmr (rec : field_rc) (opcode : Z) : M machine unit :=
  let '(reg_d, reg_b) := ppc_grab_regsfpdb opcode in
  mcpu (fun s => ppc_store_fpresult_flt reg_d (GET_FPR s reg_b) s) ;;;
  record_cr1 rec.

(* [cpu/ppc/ppcfpopcodes.cpp:1226-1234] *)
Definition ppc_mffs (for601 : field_601) (rec : field_rc) (opcode : Z) : M machine unit :=
  let reg_d := field_d opcode in
  mcpu (fun s => ppc_store_fpresult_int reg_d
          (Z.lor (fpscr s) (if f601 for601 then 0xFFFFFFFF00000000 else 0xFFF8000000000000)) s) ;;;
  record_cr1 rec.

(** The eight [if]s of [mtfsf]. *)
Definition mtfsf_mask (fm : Z) : Z :=
  if fm =? 0xFF then 0xFFFFFFFF
  else masks
    [if test fm 0x80 then 0xF0000000 else 0; if test fm 0x40 then 0x0F000000 else 0;
     if test fm 0x20 then 0x00F00000 else 0; if test fm 0x10 then 0x000F0000 else 0;
     if test fm 0x08 then 0x0000F000 else 0; if test fm 0x04 then 0x00000F00 else 0;
     if test fm 0x02 then 0x000000F0 else 0; if test fm 0x01 then 0x0000000F else 0].

(** What follows every write of FPSCR by an instruction. *)
Definition update_summaries (s : ppc_state) : ppc_state := ppc_update_fex (ppc_update_vx s).

(* [cpu/ppc/ppcfpopcodes.cpp:1241-1272] *)
Definition ppc_mtfsf (rec : field_rc) (opcode : Z) : M machine unit :=
  let reg_b := field_b opcode in
  let fm := Z.land (Z.shiftr opcode 17) 0xFF in
  let cr_mask := Z.land (mtfsf_mask fm) (Z.lnot (Z.lor FEX VX)) in
  mcpu (fun s => fpscr_set (fun v =>
    Z.lor (Z.land v (Z.lnot cr_mask)) (Z.land (FPR_INT s reg_b) cr_mask)) s) ;;;
  mcpu update_summaries ;;;
  record_cr1 rec.

(* [cpu/ppc/ppcfpopcodes.cpp:1277-1294] *)
Definition ppc_mtfsfi (rec : field_rc) (opcode : Z) : M machine unit :=
  let crf_d := Z.land (Z.shiftr opcode 21) 0x1C in
  let imm := Z.land (shl32 opcode 16) 0xF0000000 in
  let mask := Z.land (Z.shiftr 0xF0000000 crf_d) (Z.lnot (Z.lor FEX VX)) in
  mcpu (fpscr_set (fun v => Z.lor (Z.land v (Z.lnot mask)) (Z.land (Z.shiftr imm crf_d) mask))) ;;;
  mcpu update_summaries ;;;
  record_cr1 rec.

(* [cpu/ppc/ppcfpopcodes.cpp:1299-1311] *)
Definition ppc_mtfsb0 (rec : field_rc) (opcode : Z) : M machine unit :=
  let crf_d := field_d opcode in
  when ((crf_d =? 0) || (2 <? crf_d)) (fpscr_andc (Z.shiftr 0x80000000 crf_d)) ;;;
  mcpu update_summaries ;;;
  record_cr1 rec.

(* [cpu/ppc/ppcfpopcodes.cpp:1316-1328] *)
Definition ppc_mtfsb1 (rec : field_rc) (opcode : Z) : M machine unit :=
  let crf_d := field_d opcode in
  when ((crf_d =? 0) || (2 <? crf_d)) (fpscr_or (Z.shiftr 0x80000000 crf_d)) ;;;
  mcpu update_summaries ;;;
  record_cr1 rec.

(** The FPSCR bits that [mcrfs] clears. *)
Definition clearable : Z :=
  masks [FX; OX; UX; ZX; XX; VXSNAN; VXISI; VXIDI; VXZDZ; VXIMZ; VXVC; VXSOFT; VXSQRT; VXCVI].

(* [cpu/ppc/ppcfpopcodes.cpp:1333-1350] *)
Definition ppc_mcrfs (opcode : Z) : M machine unit :=
  let crf_d := Z.land (Z.shiftr opcode 21) 0x1C in
  let crf_s := Z.land (Z.shiftr opcode 16) 0x1C in
  mcpu (fun s => with_cr
    (Z.lor (Z.land (cr s) (Z.lnot (Z.shiftr 0xF0000000 crf_d)))
           (Z.shiftr (Z.land (shl32 (fpscr s) crf_s) 0xF0000000) crf_d)) s) ;;;
  fpscr_andc (Z.land (Z.shiftr 0xF0000000 crf_s) clearable) ;;;
  mcpu update_summaries.

(** ** Comparisons *)

(** The common end of the comparisons: clear VE ("kludge to pass tests"), update
    FPCC and the CR field. *)
Definition compare_finish (cmp_c crf_d : Z) (s : ppc_state) : ppc_state :=
  let s := fpscr_set (fun v => Z.land v (Z.lnot VE)) s in
  let s := fpscr_set (fun v => Z.lor (Z.land v (Z.lnot FPCC_MASK)) (Z.shiftr cmp_c 16)) s in
  with_cr (Z.lor (Z.land (cr s) (Z.lnot (Z.shiftr 0xF0000000 crf_d))) (Z.shiftr cmp_c crf_d)) s.

Definition ordered_compare (a b : Z) : Z :=
  if flt a b then CRx.CR_LT else if flt b a then CRx.CR_GT else CRx.CR_EQ.

(* [cpu/ppc/ppcfpopcodes.cpp:1354-1382] *)
Definition ppc_fcmpo (opcode : Z) : M machine unit :=
  s <- gets cpu ;;
  let '(reg_a, reg_b, crf_d, db_test_a, db_test_b) := ppc_grab_regsfpsab opcode s in
  if isnan db_test_a || isnan db_test_b then
    fpscr_or (Z.lor FX VX) ;;;
    when (check_snan (FPR_INT s reg_a) || check_snan (FPR_INT s reg_b)) (fpscr_or VXSNAN) ;;;
    s' <- gets cpu ;;
    when (negb (test (fpscr s') FEX) || check_qnan (FPR_INT s reg_a) || check_qnan (FPR_INT s reg_b))
      (fpscr_or VXVC) ;;;
    mcpu (compare_finish CRx.CR_SO crf_d)
  else mcpu (compare_finish (ordered_compare db_test_a db_test_b) crf_d).

(* [cpu/ppc/ppcfpopcodes.cpp:1384-1408] *)
Definition ppc_fcmpu (opcode : Z) : M machine unit :=
  s <- gets cpu ;;
  let '(reg_a, reg_b, crf_d, db_test_a, db_test_b) := ppc_grab_regsfpsab opcode s in
  if isnan db_test_a || isnan db_test_b then
    when (check_snan (FPR_INT s reg_a) || check_snan (FPR_INT s reg_b)) (fpscr_or (masks [FX; VX; VXSNAN])) ;;;
    mcpu (compare_finish CRx.CR_SO crf_d)
  else mcpu (compare_finish (ordered_compare db_test_a db_test_b) crf_d).
