(* ===== verification/FpuMem.v ===== *)
(** * Floating-point loads and stores (cpu/ppc/ppcfpopcodes.cpp)

    Single-precision operands are converted on the way, which the host's [float]
    does; double-precision operands are moved as 64-bit integers.  The operand
    macros of the stores ([ppc_grab_regsfpsia], [ppc_grab_regsfpsiab]) extract the
    same fields as those of the loads and are not repeated. *)
From S2P Require Import Prelude Word Float PpcState Timers MemCtrl HostMem Machine Mmu Exceptions Translate VMem LoadStore Fpu.

(* [cpu/ppc/ppcdechelpers.h:162-164] *)
Definition ppc_grab_regsfpdia (opcode : Z) (s : ppc_state) : Z * Z * Z :=
  let '(reg_d, reg_a) := decode_ops_da opcode in (reg_d, reg_a, (gpr s).[reg_a]).
(* [cpu/ppc/ppcdechelpers.h:157-160] *)
Definition ppc_grab_regsfpdiab (opcode : Z) (s : ppc_state) : Z * Z * Z * Z :=
  let '(reg_d, reg_a, reg_b) := decode_ops_dab opcode in (reg_d, reg_a, (gpr s).[reg_a], (gpr s).[reg_b]).
(** [int32_t(int16_t(opcode))] plus the base. *)
Definition fp_disp (opcode base : Z) : Z := u32 (u32 (s16 opcode) + base).

Section FpuMem.
Context `{Devices} `{HostFpu}.

(** The four transfers: a word read is taken as a [float] and becomes a [double]. *)
Definition load_single (opcode ea reg_d : Z) : M machine unit :=
  result <- mmu_read_vmem 4 opcode ea ;; mcpu (ppc_store_fpresult_flt reg_d (of_single result)).
Definition load_double (opcode ea reg_d : Z) : M machine unit :=
  result <- mmu_read_vmem 8 opcode ea ;; mcpu (ppc_store_fpresult_int reg_d result).
Definition store_single (opcode ea reg_s : Z) : M machine unit :=
  s <- gets cpu ;;
  result <- host_fp (fun rm => to_single rm (GET_FPR s reg_s)) ;;
  mmu_write_vmem 4 opcode ea result.
Definition store_double (opcode ea reg_s : Z) : M machine unit :=
  s <- gets cpu ;; mmu_write_vmem 8 opcode ea (FPR_INT s reg_s).

(** The four addressing forms around a transfer. *)
Definition fp_d_form (transfer : Z -> Z -> Z -> M machine unit) (opcode : Z) : M machine unit :=
  s <- gets cpu ;;
  let '(reg_d, reg_a, val_reg_a) := ppc_grab_regsfpdia opcode s in
  transfer opcode (fp_disp opcode (base_of reg_a val_reg_a)) reg_d.
Definition fp_d_update (transfer : Z -> Z -> Z -> M machine unit) (opcode : Z) : M machine unit :=
  s <- gets cpu ;;
  let '(reg_d, reg_a, val_reg_a) := ppc_grab_regsfpdia opcode s in
  if reg_a =? 0 then ppc_illegalop opcode
  else
    let ea := fp_disp opcode val_reg_a in
    transfer opcode ea reg_d ;;; mcpu (ppc_store_iresult_reg reg_a ea).
Definition fp_x_form (transfer : Z -> Z -> Z -> M machine unit) (opcode : Z) : M machine unit :=
  s <- gets cpu ;;
  let '(reg_d, reg_a, val_reg_a, val_reg_b) := ppc_grab_regsfpdiab opcode s in
  transfer opcode (u32 (val_reg_b + base_of reg_a val_reg_a)) reg_d.
Definition fp_x_update (transfer : Z -> Z -> Z -> M machine unit) (opcode : Z) : M machine unit :=
  s <- gets cpu ;;
  let '(reg_d, reg_a, val_reg_a, val_reg_b) := ppc_grab_regsfpdiab opcode s in
  if reg_a =? 0 then ppc_illegalop opcode
  else
    let ea := u32 (val_reg_a + val_reg_b) in
    transfer opcode ea reg_d ;;; mcpu (ppc_store_iresult_reg reg_a ea).

(* [cpu/ppc/ppcfpopcodes.cpp:1033-1039] *)
Definition ppc_lfs := fp_d_form load_single.
(* [cpu/ppc/ppcfpopcodes.cpp:1041-1054] *)
Definition ppc_lfsu := fp_d_update load_single.
(* [cpu/ppc/ppcfpopcodes.cpp:1056-1061] *)
Definition ppc_lfsx := fp_x_form load_single.
(* [cpu/ppc/ppcfpopcodes.cpp:1063-1076] *)
Definition ppc_lfsux := fp_x_update load_single.
(* [cpu/ppc/ppcfpopcodes.cpp:1078-1084] *)
Definition ppc_lfd := fp_d_form load_double.
(* [cpu/ppc/ppcfpopcodes.cpp:1086-1099] *)
Definition ppc_lfdu := fp_d_update load_double.
(* [cpu/ppc/ppcfpopcodes.cpp:1101-1106] *)
Definition ppc_lfdx := fp_x_form load_double.
(* [cpu/ppc/ppcfpopcodes.cpp:1108-1120] *)
Definition ppc_lfdux := fp_x_update load_double.
(* [cpu/ppc/ppcfpopcodes.cpp:1122-1128] *)
Definition ppc_stfs := fp_d_form store_single.
(* [cpu/ppc/ppcfpopcodes.cpp:1130-1143] *)
Definition ppc_stfsu := fp_d_update store_single.
(* [cpu/ppc/ppcfpopcodes.cpp:1145-1150] *)
Definition ppc_stfsx := fp_x_form store_single.
(* [cpu/ppc/ppcfpopcodes.cpp:1152-1164] *)
Definition ppc_stfsux := fp_x_update store_single.
(* [cpu/ppc/ppcfpopcodes.cpp:1166-1171] *)
Definition ppc_stfd := fp_d_form store_double.
(* [cpu/ppc/ppcfpopcodes.cpp:1173-1185] *)
Definition ppc_stfdu := fp_d_update store_double.
(* [cpu/ppc/ppcfpopcodes.cpp:1187-1191] *)
Definition ppc_stfdx := fp_x_form store_double.
(* [cpu/ppc/ppcfpopcodes.cpp:1193-1204] *)
Definition ppc_stfdux := fp_x_update store_double.

(* [cpu/ppc/ppcfpopcodes.cpp:1206-1210] *)
Definition ppc_stfiwx := fp_x_form (fun opcode ea reg_s =>
  s <- gets cpu ;; mmu_write_vmem 4 opcode ea (u32 (FPR_INT s reg_s))).
End FpuMem.
