(* ===== verification/FpuProps.v ===== *)
(** * Correctness of the floating-point instructions

    The FPSCR instructions and its summary bits, and the comparisons against the
    order of the numbers. *)
From S2P Require Import Prelude Word Float PpcState CondReg Timers MemCtrl Machine Fpu.
Import FPSCR.

(** ** Bits of FPSCR *)

Definition fpscr_bit (n : Z) (s : ppc_state) : bool := Z.testbit (fpscr s) n.

(** The causes of an invalid operation, and the other exceptions with an enable
    bit (inexact, zero divide, underflow, overflow). *)
Definition vx_bits : list Z := [8; 9; 10; 19; 20; 21; 22; 23; 24].
Definition exc_bits : list Z := [25; 26; 27; 28].

(** FPSCR with its summary bits VX (29) and FEX (30) recomputed. *)
Definition summarised (wr : Z -> bool) (n : Z) : bool :=
  let vx := existsb wr vx_bits in
  if n =? 29 then vx else if n =? 30 then existsb wr exc_bits || vx else wr n.

(** Field 1 of CR replaced by the top four FPSCR bits when recording. *)
Definition cr1_recorded (rec : field_rc) (s : ppc_state) (bits : Z -> bool) (n : Z) : bool :=
  if rc rec && ((4 <=? n) && (n <? 8)) then bits (35 - n) else cr_bit n s.

Definition vx_cause (n : Z) : bool := (8 <=? n) && (n <=? 10) || (19 <=? n) && (n <=? 24).

(** The instruction changed FPSCR and CR to the given bits and nothing else. *)
Record fpscr_effect (s s' : ppc_state) (fp cr' : Z -> bool) : Prop := mk_fpscr_effect {
  fse_frame : s' = with_cr (cr s') (with_fpscr (fpscr s') s);
  fse_fpscr : forall n, 0 <= n < 32 -> fpscr_bit n s' = fp n;
  fse_cr : forall n, 0 <= n < 32 -> cr_bit n s' = cr' n;
  fse_ok : ppc_ok s'
}.

Lemma with_fpscr_ok v s : ppc_ok s -> 0 <= v < 2 ^ 32 -> ppc_ok (with_fpscr v s).
Proof. intros [] ?. by split. Qed.

Lemma with_fpr_ok v s : ppc_ok s -> file_ok 64 v -> ppc_ok (with_fpr v s).
Proof. intros [] ?. by split. Qed.

(** A mask tested is a disjunction over its bits. *)
Lemma test_bits x mask l : 0 <= mask < 2 ^ 32 -> l = List.filter (Z.testbit mask) (zrange 32) ->
  test x mask = existsb (Z.testbit x) l.
Proof.
  intros Hm ->. apply eq_true_iff_eq. rewrite existsb_exists. unfold test. rewrite negb_true_iff, Z.eqb_neq. split.
  - intros Hne. destruct (existsb (fun i => Z.testbit (Z.land x mask) i) (zrange 32)) eqn:E.
    + apply existsb_exists in E as (i & Hi & Hb). rewrite Z.land_spec, andb_true_iff in Hb. exists i.
      rewrite filter_In. tauto.
    + exfalso. apply Hne. apply Z.bits_inj'. intros i Hi. rewrite Z.bits_0.
      destruct (Z.lt_ge_cases i 32); [|rewrite Z.land_spec, (testbit_high 32 mask) by lia; apply andb_false_r].
      apply not_true_iff_false. intros Ht. apply not_true_iff_false in E. apply E, existsb_exists. exists i. split; [|done].
      unfold zrange. apply in_map_iff. exists (Z.to_nat i). split; [lia|]. apply in_seq. lia.
  - intros (i & [Hi Hm']%filter_In & Hx) H0. apply (f_equal (fun z => Z.testbit z i)) in H0.
    rewrite Z.land_spec, Hx, Hm', Z.bits_0 in H0. done.
Qed.

Lemma fpscr_bit_vx n s : 0 <= n ->
  fpscr_bit n (ppc_update_vx s) = if n =? 29 then existsb (fun i => fpscr_bit i s) vx_bits else fpscr_bit n s.
Proof.
  intros Hn. unfold fpscr_bit, ppc_update_vx, fpscr_set, VX. cbn [fpscr with_fpscr].
  rewrite (test_bits _ 0x1F80700 vx_bits) by (reflexivity || lia).
  change (existsb (fun i => Z.testbit (fpscr s) i) vx_bits) with (existsb (Z.testbit (fpscr s)) vx_bits).
  destruct (existsb _ vx_bits); flag_bits; destruct (Z.eqb_spec n 29) as [->|]; cbn;
    by rewrite ?orb_true_r, ?orb_false_r, ?andb_true_r, ?andb_false_r.
Qed.

Lemma fpscr_bit_fex n s : 0 <= n ->
  fpscr_bit n (ppc_update_fex s) =
    if n =? 30 then existsb (fun i => fpscr_bit i s) (exc_bits ++ [29]) else fpscr_bit n s.
Proof.
  intros Hn. unfold fpscr_bit, ppc_update_fex, fpscr_set, FEX. cbn [fpscr with_fpscr].
  rewrite (test_bits _ 0x0F8 [3; 4; 5; 6; 7]) by (reflexivity || lia).
  assert (existsb (Z.testbit (Z.shiftr (fpscr s) 22)) [3; 4; 5; 6; 7] =
          existsb (fun i => Z.testbit (fpscr s) i) (exc_bits ++ [29])) as ->.
  { cbn [existsb exc_bits app]. rewrite !Z.shiftr_spec by lia. done. }
  destruct (existsb _ (exc_bits ++ [29])); flag_bits; destruct (Z.eqb_spec n 30) as [->|]; cbn;
    by rewrite ?orb_true_r, ?orb_false_r, ?andb_true_r, ?andb_false_r.
Qed.

Lemma summaries_bits n s : 0 <= n ->
  fpscr_bit n (update_summaries s) = summarised (fun i => fpscr_bit i s) n.
Proof.
  intros Hn. unfold update_summaries, summarised. rewrite fpscr_bit_fex by done. unfold exc_bits. cbn [app existsb].
  rewrite !fpscr_bit_vx by lia. cbn [Z.eqb Pos.eqb]. rewrite ?orb_false_r.
  destruct (Z.eqb_spec n 30) as [->|]; [|destruct (n =? 29); done]. cbn [Z.eqb Pos.eqb existsb vx_bits].
  by rewrite ?orb_assoc, ?orb_false_r.
Qed.

Lemma update_vx_ok s : ppc_ok s -> ppc_ok (ppc_update_vx s).
Proof.
  intros Hs. apply with_fpscr_ok; [done|]. destruct (test _ _).
  - apply lor_range; [lia | apply Hs | by vm_compute].
  - apply land_range_l; [lia | apply Hs].
Qed.
Lemma update_fex_ok s : ppc_ok s -> ppc_ok (ppc_update_fex s).
Proof.
  intros Hs. apply with_fpscr_ok; [done|]. destruct (test _ _).
  - apply lor_range; [lia | apply Hs | by vm_compute].
  - apply land_range_l; [lia | apply Hs].
Qed.
Lemma update_cr1_ok s : ppc_ok s -> ppc_ok (ppc_update_cr1 s).
Proof.
  intros Hs. apply with_cr_ok; [done|]. apply lor_range; [lia | apply land_range_l; [lia | apply Hs]|].
  apply land_range_r; [lia | by vm_compute].
Qed.

Lemma cr1_bits n s : ppc_ok s -> 0 <= n < 32 ->
  cr_bit n (ppc_update_cr1 s) = if (4 <=? n) && (n <? 8) then fpscr_bit (35 - n) s else cr_bit n s.
Proof.
  intros Hs Hn. unfold cr_bit, ppc_update_cr1, fpscr_bit. cbn [cr with_cr].
  rewrite Z.lor_spec, !Z.land_spec, Z.lnot_spec, Z.shiftr_spec by lia. replace (31 - n + 4) with (35 - n) by lia.
  assert (Z.testbit CR1_field (31 - n) = ((4 <=? n) && (n <? 8))) as ->.
  { apply eqb_prop. apply (range_forall 32 (fun n => eqb (Z.testbit CR1_field (31 - n)) ((4 <=? n) && (n <? 8)))); [by vm_compute | lia]. }
  destruct ((4 <=? n) && (n <? 8)); by rewrite ?andb_false_r, ?andb_true_r, ?orb_false_r.
Qed.

(** What every instruction that writes FPSCR ends with. *)
Lemma fpscr_write_effect rec v s wr : ppc_ok s -> 0 <= v < 2 ^ 32 ->
  (forall n, 0 <= n < 32 -> Z.testbit v n = wr n) ->
  fpscr_effect s (cond (rc rec) ppc_update_cr1 (update_summaries (with_fpscr v s)))
    (summarised wr) (cr1_recorded rec s (summarised wr)).
Proof.
  intros Hs Hv Hw. set (s1 := update_summaries (with_fpscr v s)).
  assert (ppc_ok s1) as H1 by (by apply update_fex_ok, update_vx_ok, with_fpscr_ok).
  assert (forall n, 0 <= n < 32 -> fpscr_bit n s1 = summarised wr n) as B1.
  { intros n Hn. unfold s1. rewrite summaries_bits by lia. unfold summarised.
    assert (forall l, (forall i, In i l -> 0 <= i < 32) -> existsb (fun i => fpscr_bit i (with_fpscr v s)) l = existsb wr l) as E.
    { induction l as [|i l IH]; intros Hl; [done|]. cbn [existsb]. unfold fpscr_bit at 1. cbn [fpscr with_fpscr].
      rewrite Hw by (apply Hl; by left). f_equal. apply IH. intros j Hj. apply Hl. by right. }
    rewrite !E by (cbn; lia). unfold fpscr_bit. cbn [fpscr with_fpscr]. by rewrite Hw. }
  split; [by destruct rec | intros n Hn; destruct rec; by apply B1 | |destruct rec; [done | by apply update_cr1_ok]].
  intros n Hn. unfold cr1_recorded. destruct rec; [done|]. cbn [rc cond andb]. rewrite cr1_bits by done.
  case_match; [|done]. apply B1. apply andb_true_iff in H as [?%Z.leb_le ?%Z.ltb_lt]. lia.
Qed.

(** ** The instructions on FPSCR *)

Definition mtfsf_fm (opcode : Z) : Z := Z.land (Z.shiftr opcode 17) 0xFF.

Lemma mtfsf_mask_bit fm n : 0 <= fm < 256 -> 0 <= n < 32 -> Z.testbit (mtfsf_mask fm) n = Z.testbit fm (n / 4).
Proof.
  intros Hf Hn. apply eqb_prop.
  apply (range_forall2 256 32 (fun fm n => eqb (Z.testbit (mtfsf_mask fm) n) (Z.testbit fm (n / 4)))); [by vm_compute | lia..].
Qed.

(** The mask of a field: crf_d is four times a field number. *)
Lemma fpscr_field_bit k n : 0 <= k < 8 -> 0 <= n < 32 -> Z.testbit (Z.shiftr 0xF0000000 (4 * k)) n = (n / 4 =? 7 - k).
Proof.
  intros Hk Hn. apply eqb_prop.
  apply (range_forall2 8 32 (fun k n => eqb (Z.testbit (Z.shiftr 0xF0000000 (4 * k)) n) (n / 4 =? 7 - k))); [by vm_compute | lia..].
Qed.

Lemma summary_mask_bit n : 0 <= n -> Z.testbit (Z.lor FEX VX) n = ((n =? 29) || (n =? 30)).
Proof. intros Hn. unfold FEX, VX. rewrite Z.lor_spec, !testbit_2p by lia. apply orb_comm. Qed.

(** Bits 29 and 30 of what is written do not matter: they are recomputed. *)
Lemma effect_ext s s' f g c c' : (forall n, 0 <= n < 32 -> f n = g n) -> (forall n, 0 <= n < 32 -> c n = c' n) ->
  fpscr_effect s s' f c -> fpscr_effect s s' g c'.
Proof. intros H1 H2 [F1 F2 F3 F4]. split; [done | | | done]; intros n Hn; rewrite <- ?H1, <- ?H2 by done; auto. Qed.

Lemma summarised_ext f g n : (forall i, 0 <= i < 32 -> i <> 29 -> i <> 30 -> f i = g i) -> 0 <= n < 32 ->
  summarised f n = summarised g n.
Proof.
  intros H Hn. unfold summarised. cbn [existsb vx_bits exc_bits]. rewrite !H by lia.
  destruct (Z.eqb_spec n 29); [done|]. destruct (Z.eqb_spec n 30); [done|]. by apply H.
Qed.

Lemma recorded_ext rec s f g n : (forall i, 0 <= i < 32 -> f i = g i) -> 0 <= n < 32 ->
  cr1_recorded rec s f n = cr1_recorded rec s g n.
Proof.
  intros H Hn. unfold cr1_recorded. destruct (rc rec); [|done]. cbn [andb].
  destruct (Z.leb_spec 4 n), (Z.ltb_spec n 8); cbn [andb]; try done. apply H. lia.
Qed.

(** The monadic tail, as a function. *)
Lemma tail_run rec f m : bind (mcpu f) (fun _ => bind (mcpu update_summaries) (fun _ => record_cr1 rec)) m =
  (Ret tt, upd_cpu (fun s => cond (rc rec) ppc_update_cr1 (update_summaries (f s))) m).
Proof. by destruct rec. Qed.

Definition writes_fpscr (rec : field_rc) (wr : Z -> bool) (k : M machine unit) (m : machine) : Prop :=
  exists s', k m = (Ret tt, set_cpu s' m) /\
    fpscr_effect (cpu m) s' (summarised wr) (cr1_recorded rec (cpu m) (summarised wr)).

Lemma writes_intro rec v wr m f : ppc_ok (cpu m) -> f (cpu m) = with_fpscr v (cpu m) -> 0 <= v < 2 ^ 32 ->
  (forall n, 0 <= n < 32 -> n <> 29 -> n <> 30 -> Z.testbit v n = wr n) ->
  writes_fpscr rec wr (bind (mcpu f) (fun _ => bind (mcpu update_summaries) (fun _ => record_cr1 rec))) m.
Proof.
  intros Hs Hf Hv Hw. eexists. rewrite tail_run. unfold upd_cpu. rewrite Hf. split; [done|].
  eapply effect_ext; [..|apply (fpscr_write_effect rec v _ (Z.testbit v)); done].
  - intros n Hn. by apply summarised_ext.
  - intros n Hn. apply recorded_ext; [|done]. intros i Hi. by apply summarised_ext.
Qed.

Lemma masked_write_range a v mask : 0 <= v < 2 ^ 32 -> 0 <= mask < 2 ^ 32 ->
  0 <= Z.lor (Z.land v (Z.lnot mask)) (Z.land a mask) < 2 ^ 32.
Proof. intros. apply lor_range; [lia | by apply land_range_l | by apply land_range_r]. Qed.

Lemma masked_write_bit a v mask n : 0 <= n ->
  Z.testbit (Z.lor (Z.land v (Z.lnot mask)) (Z.land a mask)) n = if Z.testbit mask n then Z.testbit a n else Z.testbit v n.
Proof.
  intros Hn. rewrite Z.lor_spec, !Z.land_spec, Z.lnot_spec by done.
  by destruct (Z.testbit mask n); rewrite ?andb_true_r, ?andb_false_r, ?orb_false_r.
Qed.

Lemma mtfsf_writes rec opcode m : ppc_ok (cpu m) ->
  writes_fpscr rec (fun n => if Z.testbit (mtfsf_fm opcode) (n / 4) then Z.testbit (fpr (cpu m)).[field_b opcode] n
                             else fpscr_bit n (cpu m)) (ppc_mtfsf rec opcode) m.
Proof.
  intros Hs. assert (0 <= mtfsf_fm opcode < 256) as Hfm by (apply (land_field _ 8); lia).
  eapply writes_intro; [done | reflexivity | |].
  - apply masked_write_range; [apply Hs|]. apply land_range_l; [lia|]. fold (mtfsf_fm opcode).
    revert Hfm. generalize (mtfsf_fm opcode). intros fm Hfm.
    pose proof (range_forall 256 (fun fm => (0 <=? mtfsf_mask fm) && (mtfsf_mask fm <? 2 ^ 32)) ltac:(by vm_compute) fm ltac:(lia)) as Hr.
    cbv beta in Hr. apply andb_true_iff in Hr as [?%Z.leb_le ?%Z.ltb_lt]. lia.
  - intros n Hn N1 N2. rewrite masked_write_bit, Z.land_spec, Z.lnot_spec, summary_mask_bit by lia.
    fold (mtfsf_fm opcode). rewrite mtfsf_mask_bit by done.
    rewrite (proj2 (Z.eqb_neq n 29)), (proj2 (Z.eqb_neq n 30)) by done. by rewrite andb_true_r.
Qed.

Lemma mtfsfi_writes rec opcode m : ppc_ok (cpu m) ->
  writes_fpscr rec (fun n => if n / 4 =? 7 - crf_d opcode then Z.testbit opcode (12 + n mod 4) else fpscr_bit n (cpu m))
    (ppc_mtfsfi rec opcode) m.
Proof.
  intros Hs. pose proof (crf_d_range opcode) as Hk.
  assert (Z.land (Z.shiftr opcode 21) 0x1C = 4 * crf_d opcode) as E by apply crf_d_shift.
  unfold ppc_mtfsfi. rewrite E. eapply writes_intro; [done | reflexivity | |].
  - apply masked_write_range; [apply Hs|]. apply land_range_l; [lia|]. apply shiftr_range; lia.
  - intros n Hn N1 N2. rewrite masked_write_bit, Z.land_spec, Z.lnot_spec, summary_mask_bit, fpscr_field_bit by lia.
    rewrite (proj2 (Z.eqb_neq n 29)), (proj2 (Z.eqb_neq n 30)) by done. rewrite andb_true_r.
    destruct (Z.eqb_spec (n / 4) (7 - crf_d opcode)) as [Ef|]; [|done].
    rewrite Z.shiftr_spec by lia. assert (n + 4 * crf_d opcode = 28 + n mod 4) as -> by zlia.
    assert (0 <= n mod 4 < 4) as H4 by zlia. revert H4. generalize (n mod 4). intros j Hj.
    rewrite Z.land_spec. unfold shl32. rewrite testbit_uwrap, Z.shiftl_spec by lia.
    rewrite (proj2 (Z.ltb_lt _ _)) by lia. cbn [andb]. replace (28 + j - 16) with (12 + j) by lia.
    assert (Z.testbit 0xF0000000 (28 + j) = true) as ->; [|apply andb_true_r].
    apply (range_forall 4 (fun j => Z.testbit 0xF0000000 (28 + j))); [by vm_compute | lia].
Qed.

Lemma bit_mask k n : 0 <= k < 32 -> 0 <= n < 32 -> Z.testbit (Z.shiftr 0x80000000 k) n = (n =? 31 - k).
Proof.
  intros Hk Hn. apply eqb_prop.
  apply (range_forall2 32 32 (fun k n => eqb (Z.testbit (Z.shiftr 0x80000000 k) n) (n =? 31 - k))); [by vm_compute | lia..].
Qed.

Lemma crb_mask_range k : 0 <= k < 32 -> 0 <= Z.shiftr 0x80000000 k < 2 ^ 32.
Proof. intros. apply shiftr_range; lia. Qed.

Lemma when_mcpu b f : when b (mcpu f) = (if b then mcpu f else ret tt).
Proof. done. Qed.

Lemma mtfsb_writes rec opcode m (v : bool) : ppc_ok (cpu m) ->
  writes_fpscr rec (fun n => if n =? 31 - field_d opcode then v else fpscr_bit n (cpu m))
    ((if v then ppc_mtfsb1 rec else ppc_mtfsb0 rec) opcode) m.
Proof.
  intros Hs. pose proof (field_d_range opcode) as Hk.
  set (act := (field_d opcode =? 0) || (2 <? field_d opcode)).
  set (mask := Z.shiftr 0x80000000 (field_d opcode)).
  set (g := fun w => if act then (if v then Z.lor w mask else Z.land w (Z.lnot mask)) else w).
  assert ((if v then ppc_mtfsb1 rec else ppc_mtfsb0 rec) opcode m =
    bind (mcpu (fpscr_set g)) (fun _ => bind (mcpu update_summaries) (fun _ => record_cr1 rec)) m) as Em.
  { rewrite tail_run. unfold g, act, mask. destruct m as [[] ? ? ? ? ? ? ? ? ?].
    destruct v, rec; unfold ppc_mtfsb1, ppc_mtfsb0; cbv zeta; by destruct ((field_d opcode =? 0) || (2 <? field_d opcode)). }
  unfold writes_fpscr. rewrite Em. apply (writes_intro rec (g (fpscr (cpu m)))); [done | done | |].
  - unfold g. destruct act, v; try apply Hs.
    + apply lor_range; [lia | apply Hs | by apply crb_mask_range].
    + apply land_range_l; [lia | apply Hs].
  - intros n Hn N1 N2. unfold g, fpscr_bit, mask, act.
    destruct (Z.eqb_spec (field_d opcode) 0) as [E0|E0]; [|destruct (Z.ltb_spec 2 (field_d opcode)) as [E2|E2]]; cbn [orb].
    3: by rewrite (proj2 (Z.eqb_neq _ _)) by lia.
    all: destruct v; rewrite ?Z.lor_spec, ?Z.land_spec, ?Z.lnot_spec, bit_mask by lia;
      destruct (n =? 31 - field_d opcode); by rewrite ?orb_true_r, ?orb_false_r, ?andb_true_r, ?andb_false_r.
Qed.

Lemma clearable_bit n : 0 <= n < 32 ->
  Z.testbit clearable n = (vx_cause n || (25 <=? n) && (n <=? 28) || (n =? 31)).
Proof.
  intros Hn. apply eqb_prop.
  apply (range_forall 32 (fun n => eqb (Z.testbit clearable n) (vx_cause n || (25 <=? n) && (n <=? 28) || (n =? 31))));
    [by vm_compute | lia].
Qed.

(** [mcrfs]: copies field crfS of FPSCR to CR and clears the exception bits copied. *)
Lemma mcrfs_writes opcode m : ppc_ok (cpu m) ->
  exists s', ppc_mcrfs opcode m = (Ret tt, set_cpu s' m) /\
    fpscr_effect (cpu m) s'
      (summarised (fun n => fpscr_bit n (cpu m) &&
         negb ((n / 4 =? 7 - crf_s opcode) && (vx_cause n || (25 <=? n) && (n <=? 28) || (n =? 31)))))
      (field_write (cpu m) (crf_d opcode) (fun i => fpscr_bit (31 - (4 * crf_s opcode + i)) (cpu m))).
Proof.
  intros Hs. set (s := cpu m). pose proof (crf_d_range opcode) as Hd. pose proof (crf_s_range opcode) as Hk.
  unfold ppc_mcrfs. rewrite crf_d_shift, crf_s_shift. set (mask := Z.land (Z.shiftr 0xF0000000 (4 * crf_s opcode)) clearable).
  set (nib := Z.land (shl32 (fpscr s) (4 * crf_s opcode)) 0xF0000000).
  set (c := Z.lor (Z.land (cr s) (Z.lnot (Z.shiftr 0xF0000000 (4 * crf_d opcode)))) (Z.shiftr nib (4 * crf_d opcode))).
  assert (0 <= nib < 2 ^ 32) as Hnib by (apply land_range_l; [lia | apply u32_range]).
  assert (0 <= c < 2 ^ 32) as Hc by (apply lor_range; [lia | apply land_range_l; [lia | apply Hs] | apply shiftr_range; lia]).
  assert (nib mod 2 ^ 28 = 0) as Hlow.
  { apply Z.bits_inj'. intros i Hi. rewrite Z.bits_0. destruct (Z.lt_ge_cases i 28); [|apply Z.mod_pow2_bits_high; lia].
    unfold nib. rewrite Z.mod_pow2_bits_low, Z.land_spec by lia.
    assert (Z.testbit 0xF0000000 i = false) as ->; [|apply andb_false_r].
    apply negb_true_iff, (range_forall 28 (fun i => negb (Z.testbit 0xF0000000 i))); [by vm_compute | lia]. }
  pose proof (write_field_effect s (crf_d opcode) nib Hs Hd Hnib Hlow) as He. rewrite uwrap_small in He by done. fold c in He.
  destruct He as [He1 _ He3]. set (v := Z.land (fpscr s) (Z.lnot mask)).
  assert (0 <= v < 2 ^ 32) as Hv by (apply land_range_l; [lia | apply Hs]).
  pose proof (fpscr_write_effect RC0 v _ (Z.testbit v) He1 Hv ltac:(done)) as [F1 F2 F3 F4].
  cbn [rc cond] in F1, F2, F3, F4. exists (update_summaries (with_fpscr v (with_cr c s))). split; [done|]. split.
  - rewrite F1 at 1. done.
  - intros n Hn. etransitivity; [apply F2; done|]. apply summarised_ext; [|done]. intros i Hi _ _.
    unfold v, mask. rewrite !Z.land_spec, Z.lnot_spec, Z.land_spec, fpscr_field_bit, clearable_bit by lia. done.
  - intros n Hn. etransitivity; [apply F3; done|]. unfold cr1_recorded. cbn [rc andb]. rewrite He3 by done.
    unfold field_write. case_match; [|done]. assert (0 <= n mod 4 < 4) as Hj by zlia. revert Hj. generalize (n mod 4). intros j Hj.
    unfold nib, fpscr_bit. rewrite Z.land_spec. unfold shl32. rewrite testbit_uwrap, Z.shiftl_spec by lia.
    rewrite (proj2 (Z.ltb_lt _ _)) by lia. cbn [andb]. replace (31 - j - 4 * crf_s opcode) with (31 - (4 * crf_s opcode + j)) by lia.
    assert (Z.testbit 0xF0000000 (31 - j) = true) as ->; [|apply andb_true_r].
    apply (range_forall 4 (fun j => Z.testbit 0xF0000000 (31 - j))); [by vm_compute | lia].
  - done.
Qed.

(** C23: the instructions on FPSCR.  [mtfsf] replaces the fields its mask selects by
    those of FPR[frB], [mtfsfi] one field by an immediate, [mtfsb0] and [mtfsb1] one
    bit, [mcrfs] copies a field to CR and clears the exception bits it copied;
    VX is then whether any invalid-operation bit is set, and FEX whether any of XX,
    ZX, UX, OX or VX is - enabled or not - and the record forms copy FX, FEX, VX
    and OX to CR field 1.  [mffs] reads FPSCR. *)
Theorem fpscr_instructions_correct rec opcode for601 m : ppc_ok (cpu m) ->
  let old n := fpscr_bit n (cpu m) in
  let exception n := vx_cause n || (25 <=? n) && (n <=? 28) || (n =? 31) in
  writes_fpscr rec (fun n => if Z.testbit (mtfsf_fm opcode) (n / 4) then Z.testbit (fpr (cpu m)).[field_b opcode] n
                             else old n) (ppc_mtfsf rec opcode) m /\
  writes_fpscr rec (fun n => if n / 4 =? 7 - crf_d opcode then Z.testbit opcode (12 + n mod 4) else old n)
    (ppc_mtfsfi rec opcode) m /\
  writes_fpscr rec (fun n => if n =? 31 - field_d opcode then true else old n) (ppc_mtfsb1 rec opcode) m /\
  writes_fpscr rec (fun n => if n =? 31 - field_d opcode then false else old n) (ppc_mtfsb0 rec opcode) m /\
  (exists s', ppc_mcrfs opcode m = (Ret tt, set_cpu s' m) /\
     fpscr_effect (cpu m) s'
       (summarised (fun n => old n && negb ((n / 4 =? 7 - crf_s opcode) && exception n)))
       (field_write (cpu m) (crf_d opcode) (fun i => old (31 - (4 * crf_s opcode + i))))) /\
  ppc_mffs for601 rec opcode m = (Ret tt, upd_cpu (fun s => cond (rc rec) ppc_update_cr1
    (with_fpr ((fpr s).[field_d opcode :=
       (if f601 for601 then 0xFFFFFFFF * 2 ^ 32 else 0xFFF80000 * 2 ^ 32) + fpscr s]) s)) m).
Proof.
  intros Hs old exception. split_and!.
  - by apply mtfsf_writes.
  - by apply mtfsfi_writes.
  - by apply (mtfsb_writes rec opcode m true).
  - by apply (mtfsb_writes rec opcode m false).
  - by apply mcrfs_writes.
  - pose proof (ok_fpscr _ Hs) as Hr.
    assert (Z.lor (fpscr (cpu m)) (if f601 for601 then 0xFFFFFFFF00000000 else 0xFFF8000000000000) =
            (if f601 for601 then 0xFFFFFFFF * 2 ^ 32 else 0xFFF80000 * 2 ^ 32) + fpscr (cpu m)) as E.
    { rewrite Z.lor_comm. destruct for601; cbn [f601].
      - pose proof (lor_low 0xFFF80000 32 (fpscr (cpu m)) ltac:(lia) Hr) as El. rewrite (Z.mul_comm _ (2 ^ 32)). exact El.
      - pose proof (lor_low 0xFFFFFFFF 32 (fpscr (cpu m)) ltac:(lia) Hr) as El. rewrite (Z.mul_comm _ (2 ^ 32)). exact El. }
    unfold ppc_mffs, upd_cpu. rewrite <- E. by destruct rec.
Qed.

Lemma fpscr_instructions_correct_witness : exists s', ppc_mtfsb1 RC1 0xFFE0004D demo_machine = (Ret tt, set_cpu s' demo_machine) /\
  fpscr_bit 0 s' = true.
Proof.
  destruct (fpscr_instructions_correct RC1 0xFFE0004D NOT601 demo_machine demo_ok) as (_ & _ & (s' & E & F) & _).
  exists s'. split; [exact E|]. rewrite (fse_fpscr _ _ _ _ F) by lia. reflexivity.
Defined.

(** ** The order of the numbers

    The value of a double in units of 2^-1074, the smallest unit a double has, so
    that every finite one is an integer; infinity counts as 2^1024. *)
Definition f_value (x : Z) : Z := signed_mant x * 2 ^ (f_scale binary64 x + 1074).

Definition magnitude (E F : Z) : Z := if E =? 0 then F else (2 ^ 52 + F) * 2 ^ (E - 1).

Lemma magnitude_mono E F E' F' : 0 <= E -> 0 <= E' -> 0 <= F < 2 ^ 52 -> 0 <= F' < 2 ^ 52 ->
  E * 2 ^ 52 + F < E' * 2 ^ 52 + F' -> magnitude E F < magnitude E' F'.
Proof.
  intros HE HE' HF HF' Hlt. unfold magnitude. destruct (Z.eq_dec E E') as [->|Hne].
  - destruct (Z.eqb_spec E' 0); [lia|]. pose proof (Z.pow_pos_nonneg 2 (E' - 1)). nia.
  - assert (E < E') as He by nia. rewrite (proj2 (Z.eqb_neq E' 0)) by lia.
    assert (0 < 2 ^ (E' - 1)) by (apply Z.pow_pos_nonneg; lia).
    destruct (Z.eqb_spec E 0) as [->|]; [nia|].
    assert (2 ^ E = 2 * 2 ^ (E - 1)) by (rewrite <- Z.pow_succ_r by lia; f_equal; lia).
    assert (2 ^ E <= 2 ^ (E' - 1)) by (apply Z.pow_le_mono_r; lia).
    assert (0 < 2 ^ (E - 1)) by (apply Z.pow_pos_nonneg; lia). nia.
Qed.

Lemma f_value_fields x : f_value x =
  (if sign64 x then -1 else 1) * magnitude (f_exp binary64 x) (f_frac binary64 x).
Proof.
  unfold f_value, signed_mant, f_mant, f_scale, magnitude. change (emin binary64) with (-1074). cbn [frac_bits binary64].
  destruct (fields_range binary64 binary64_ok x) as [? _]. destruct (Z.eqb_spec (f_exp binary64 x) 0) as [->|].
  - change (2 ^ (-1074 + Z.max 0 (0 - 1) + 1074)) with 1. destruct (sign64 x); ring.
  - replace (-1074 + Z.max 0 (f_exp binary64 x - 1) + 1074) with (f_exp binary64 x - 1) by lia. destruct (sign64 x); ring.
Qed.

Lemma order_key_fields x : word64 x -> order_key x =
  (if sign64 x then -1 else 1) * (f_exp binary64 x * 2 ^ 52 + f_frac binary64 x).
Proof.
  intros Hx. pose proof (decode_fields binary64 binary64_ok x Hx) as E. destruct (fields_range binary64 binary64_ok x).
  cbn [frac_bits exp_bits binary64] in *. unfold order_key. rewrite Z.land_ones by lia.
  assert (x mod 2 ^ 63 = f_exp binary64 x * 2 ^ 52 + f_frac binary64 x) as ->; [|destruct (sign64 x); ring].
  rewrite E at 1. unfold with_sign. change (sign_bit binary64) with (1 * 2 ^ 63). set (b := f_exp binary64 x * 2 ^ 52 + _) in *.
  assert (0 <= b < 2 ^ 63) by (unfold b; lia).
  destruct (sign64 x); [rewrite Z.add_comm, Z.mod_add by lia|]; by apply Z.mod_small.
Qed.

(** Comparing the bits compares the values. *)
Lemma order_key_correct x y : word64 x -> word64 y ->
  (order_key x < order_key y <-> f_value x < f_value y) /\ (order_key x = order_key y <-> f_value x = f_value y).
Proof.
  intros Hx Hy. rewrite !order_key_fields, !f_value_fields by done.
  destruct (fields_range binary64 binary64_ok x) as [E1 F1], (fields_range binary64 binary64_ok y) as [E2 F2].
  cbn [frac_bits exp_bits binary64] in *.
  set (Ex := f_exp binary64 x) in *. set (Fx := f_frac binary64 x) in *.
  set (Ey := f_exp binary64 y) in *. set (Fy := f_frac binary64 y) in *.
  pose proof (magnitude_mono Ex Fx Ey Fy ltac:(lia) ltac:(lia) F1 F2) as M1.
  pose proof (magnitude_mono Ey Fy Ex Fx ltac:(lia) ltac:(lia) F2 F1) as M2.
  assert (Ex * 2 ^ 52 + Fx = Ey * 2 ^ 52 + Fy -> magnitude Ex Fx = magnitude Ey Fy) as M3.
  { intros H. assert (Ex = Ey) as -> by nia. by assert (Fx = Fy) as -> by lia. }
  pose proof (magnitude_mono 0 0 Ex Fx ltac:(lia) ltac:(lia) ltac:(lia) F1) as P1.
  pose proof (magnitude_mono 0 0 Ey Fy ltac:(lia) ltac:(lia) ltac:(lia) F2) as P2.
  assert (Ex * 2 ^ 52 + Fx = 0 -> magnitude Ex Fx = 0) as Z1.
  { intros H. assert (Ex = 0) as -> by nia. by assert (Fx = 0) as -> by lia. }
  assert (Ey * 2 ^ 52 + Fy = 0 -> magnitude Ey Fy = 0) as Z2.
  { intros H. assert (Ey = 0) as -> by nia. by assert (Fy = 0) as -> by lia. }
  change (magnitude 0 0) with 0 in *.
  assert (0 <= Ex * 2 ^ 52 + Fx /\ 0 <= Ey * 2 ^ 52 + Fy) as [N1 N2] by lia.
  revert M1 M2 M3 P1 P2 Z1 Z2 N1 N2. generalize (magnitude Ex Fx) (magnitude Ey Fy) (Ex * 2 ^ 52 + Fx) (Ey * 2 ^ 52 + Fy).
  clear. intros a b n k. destruct (sign64 x), (sign64 y); lia.
Qed.

(** ** Comparisons *)

Definition signalling (x : Z) : bool := isnan x && negb (Z.testbit x 51).
Definition quietnan (x : Z) : bool := isnan x && Z.testbit x 51.

Lemma land_shiftl x mask k : 0 <= k -> Z.land x (Z.shiftl mask k) = Z.shiftl (Z.land (Z.shiftr x k) mask) k.
Proof.
  intros Hk. apply Z.bits_inj'. intros i Hi. rewrite Z.land_spec, !Z.shiftl_spec by lia.
  destruct (Z.lt_ge_cases i k).
  - rewrite !(Z.testbit_neg_r _ (i - k)) by lia. apply andb_false_r.
  - rewrite Z.land_spec, Z.shiftr_spec by lia. do 2 f_equal. lia.
Qed.

Lemma shiftl_eqb a b k : 0 <= k -> (Z.shiftl a k =? Z.shiftl b k) = (a =? b).
Proof.
  intros Hk. rewrite !Z.shiftl_mul_pow2 by done. pose proof (Z.pow_pos_nonneg 2 k).
  destruct (Z.eqb_spec a b) as [->|]; [apply Z.eqb_refl | apply Z.eqb_neq; nia].
Qed.

Lemma exp_mask x : (Z.land x (Z.shiftl 0x7FF 52) =? Z.shiftl 0x7FF 52) = (f_exp binary64 x =? Z.ones 11).
Proof. rewrite land_shiftl, shiftl_eqb by lia. done. Qed.

Lemma bit_mask_eqb x : (Z.land x (Z.shiftl 1 51) =? 0) = negb (Z.testbit x 51).
Proof.
  rewrite land_shiftl by lia. replace 0 with (Z.shiftl 0 51) by done. rewrite shiftl_eqb by lia.
  change 1 with (Z.ones 1). rewrite Z.land_ones by lia. rewrite Z.testbit_odd.
  change (2 ^ 1) with 2. rewrite Zmod_odd. by destruct (Z.odd _).
Qed.

Lemma check_snan_correct x : word64 x -> check_snan x = signalling x.
Proof.
  intros Hx. unfold check_snan, signalling, is_nan. rewrite exp_mask, bit_mask_eqb. cbn [exp_bits binary64].
  assert (Z.land x (Z.lnot (Z.shiftl 0xFFF 52)) = f_frac binary64 x) as ->; [|done].
  unfold f_frac. cbn [frac_bits binary64]. apply Z.bits_inj'. intros i Hi. rewrite !Z.land_spec, Z.lnot_spec by lia.
  destruct (Z.lt_ge_cases i 64); [|by rewrite (testbit_high 64 x) by (done || lia)]. f_equal. apply eqb_prop.
  apply (range_forall 64 (fun i => eqb (negb (Z.testbit (Z.shiftl 4095 52) i)) (Z.testbit (Z.ones 52) i))); [by vm_compute | lia].
Qed.

Lemma check_qnan_correct x : check_qnan x = quietnan x.
Proof.
  unfold check_qnan, quietnan, is_nan. rewrite exp_mask. cbn [exp_bits binary64]. destruct (f_exp binary64 x =? Z.ones 11); [|done].
  cbn [andb]. assert ((Z.land x (Z.shiftl 1 51) =? Z.shiftl 1 51) = Z.testbit x 51) as ->.
  { rewrite land_shiftl, shiftl_eqb by lia. change 1 with (Z.ones 1). rewrite Z.land_ones by lia. rewrite Z.testbit_odd.
    change (2 ^ 1) with 2. rewrite Zmod_odd. by destruct (Z.odd _). }
  destruct (Z.testbit x 51) eqn:E; [|by rewrite andb_false_r]. destruct (Z.eqb_spec (f_frac binary64 x) 0) as [E0|]; [|done].
  exfalso. apply (f_equal (fun z => Z.testbit z 51)) in E0. unfold f_frac in E0. cbn [frac_bits binary64] in E0.
  rewrite Z.land_spec, E in E0. done.
Qed.

(** The four bits a comparison delivers: less, greater, equal, unordered. *)
Definition unordered (a b : Z) : bool := isnan a || isnan b.
Definition relation_bits (a b i : Z) : bool :=
  if unordered a b then i =? 3
  else compare_bits (f_value a) (f_value b) false i.

Definition relation_word (a b : Z) : Z := if unordered a b then CRx.CR_SO else ordered_compare a b.

Lemma relation_word_bits a b n : word64 a -> word64 b -> 0 <= n < 32 ->
  Z.testbit (relation_word a b) n = if n <? 28 then false else relation_bits a b (31 - n).
Proof.
  intros Ha Hb Hn. unfold relation_word, relation_bits, unordered, ordered_compare, compare_bits, flt.
  destruct (isnan a), (isnan b); cbn [orb negb andb].
  4: { destruct (order_key_correct a b Ha Hb) as [L1 L2]. destruct (order_key_correct b a Hb Ha) as [L3 _].
    assert ((order_key a <? order_key b) = (f_value a <? f_value b)) as -> by (apply eq_true_iff_eq; rewrite !Z.ltb_lt; done).
    assert ((order_key b <? order_key a) = (f_value b <? f_value a)) as -> by (apply eq_true_iff_eq; rewrite !Z.ltb_lt; done).
    destruct (Z.ltb_spec (f_value a) (f_value b)), (Z.ltb_spec (f_value b) (f_value a)), (Z.eqb_spec (f_value a) (f_value b)); try lia.
    all: apply eqb_prop.
    - apply (range_forall 32 (fun n => eqb (Z.testbit CRx.CR_LT n) (if n <? 28 then false else if 31 - n =? 0 then true else if 31 - n =? 1 then false else if 31 - n =? 2 then false else false))); [by vm_compute | lia].
    - apply (range_forall 32 (fun n => eqb (Z.testbit CRx.CR_GT n) (if n <? 28 then false else if 31 - n =? 0 then false else if 31 - n =? 1 then true else if 31 - n =? 2 then false else false))); [by vm_compute | lia].
    - apply (range_forall 32 (fun n => eqb (Z.testbit CRx.CR_EQ n) (if n <? 28 then false else if 31 - n =? 0 then false else if 31 - n =? 1 then false else if 31 - n =? 2 then true else false))); [by vm_compute | lia]. }
  all: apply eqb_prop, (range_forall 32 (fun n => eqb (Z.testbit CRx.CR_SO n) (if n <? 28 then false else 31 - n =? 3))); [by vm_compute | lia].
Qed.

Lemma relation_word_range a b : 0 <= relation_word a b < 2 ^ 32.
Proof. unfold relation_word, ordered_compare. repeat case_match; by vm_compute. Qed.

Definition compared (a b : Z) (wr : Z -> bool) (n : Z) : bool :=
  if (12 <=? n) && (n <=? 15) then relation_bits a b (15 - n) else if n =? 7 then false else wr n.

Lemma compare_finish_effect a b opcode v s wr : ppc_ok s -> word64 a -> word64 b -> 0 <= v < 2 ^ 32 ->
  (forall n, 0 <= n < 32 -> Z.testbit v n = wr n) ->
  fpscr_effect s (compare_finish (relation_word a b) (Z.land (Z.shiftr opcode 21) 0x1C) (with_fpscr v s))
    (compared a b wr) (field_write s (crf_d opcode) (relation_bits a b)).
Proof.
  intros Hs Ha Hb Hv Hw. rewrite crf_d_shift. pose proof (crf_d_range opcode) as Hk. pose proof (relation_word_range a b) as Hr.
  assert (relation_word a b mod 2 ^ 28 = 0) as Hlow.
  { apply Z.bits_inj'. intros i Hi. rewrite Z.bits_0. destruct (Z.lt_ge_cases i 28); [|apply Z.mod_pow2_bits_high; lia].
    rewrite Z.mod_pow2_bits_low, relation_word_bits by (done || lia). by rewrite (proj2 (Z.ltb_lt _ _)) by lia. }
  pose proof (write_field_effect s (crf_d opcode) _ Hs Hk Hr Hlow) as [C1 _ C3].
  assert (0 <= Z.lor (Z.land (cr s) (Z.lnot (Z.shiftr 0xF0000000 (4 * crf_d opcode)))) (Z.shiftr (relation_word a b) (4 * crf_d opcode)) < 2 ^ 32) as Hc.
  { apply lor_range; [lia | apply land_range_l; [lia | apply Hs] | apply shiftr_range; lia]. }
  rewrite uwrap_small in C1, C3 by exact Hc.
  assert (0 <= Z.lor (Z.land (Z.land v (Z.lnot VE)) (Z.lnot FPCC_MASK)) (Z.shiftr (relation_word a b) 16) < 2 ^ 32) as Hf.
  { apply lor_range; [lia | do 2 (apply land_range_l; [lia|]); done | apply shiftr_range; lia]. }
  split; [done | | |].
  - intros n Hn. unfold fpscr_bit, compare_finish, fpscr_set. cbn [fpscr with_fpscr with_cr].
    rewrite Z.lor_spec, !Z.land_spec, !Z.lnot_spec, Z.shiftr_spec, Hw by lia. unfold compared, VE.
    rewrite testbit_2p by lia.
    assert (Z.testbit FPCC_MASK n = ((12 <=? n) && (n <=? 15))) as ->.
    { apply eqb_prop, (range_forall 32 (fun n => eqb (Z.testbit FPCC_MASK n) ((12 <=? n) && (n <=? 15)))); [by vm_compute | lia]. }
    destruct (Z.leb_spec 12 n), (Z.leb_spec n 15); cbn [andb negb].
    2: rewrite (testbit_high 32 (relation_word a b)) by lia.
    1: rewrite relation_word_bits, (proj2 (Z.ltb_ge _ _)), andb_false_r by (done || lia); cbn [orb]; f_equal; lia.
    2, 3: rewrite relation_word_bits, (proj2 (Z.ltb_lt _ _)) by (done || lia).
    all: rewrite andb_true_r, orb_false_r; destruct (n =? 7); by rewrite ?andb_false_r, ?andb_true_r.
  - intros n Hn. etransitivity; [apply C3; done|]. unfold field_write. case_match; [|done].
    assert (0 <= n mod 4 < 4) by zlia. rewrite relation_word_bits, (proj2 (Z.ltb_ge _ _)) by (done || lia). f_equal. lia.
  - unfold compare_finish. apply with_cr_ok; [|done]. apply with_fpscr_ok; [|done]. apply with_fpscr_ok; [by apply with_fpscr_ok|].
    apply land_range_l; [lia | done].
Qed.

(** C22: the comparisons.  The CR field named and the FPCC bits of FPSCR get exactly
    one of less, greater, equal - which compare the exact values of the operands,
    with the infinities beyond every number and the zeros equal - or unordered, when
    an operand is a NaN; VE is cleared; a NaN compared with [fcmpo] sets FX and VX,
    and a signalling one VXSNAN with either; VXVC is set by [fcmpo] unless FEX is on
    and no operand is a quiet NaN.  Nothing else changes. *)
Theorem fp_compare_correct opcode m : ppc_ok (cpu m) ->
  let a := (fpr (cpu m)).[field_a opcode] in
  let b := (fpr (cpu m)).[field_b opcode] in
  let old n := fpscr_bit n (cpu m) in
  let snan := signalling a || signalling b in
  let vxvc := negb (old 30) || quietnan a || quietnan b in
  let compares k wr := exists s', k opcode m = (Ret tt, set_cpu s' m) /\
    fpscr_effect (cpu m) s' (compared a b wr) (field_write (cpu m) (crf_d opcode) (relation_bits a b)) in
  compares ppc_fcmpu (fun n => old n || unordered a b && snan && ((n =? 31) || (n =? 29) || (n =? 24))) /\
  compares ppc_fcmpo (fun n => old n || unordered a b &&
    ((n =? 31) || (n =? 29) || snan && (n =? 24) || vxvc && (n =? 19))).
Proof.
  intros Hs a b old snan vxvc compares.
  assert (word64 a) as Ha by (apply (ok_fpr _ Hs)). assert (word64 b) as Hb by (apply (ok_fpr _ Hs)).
  pose proof (ok_fpscr _ Hs) as Hf.
  assert (forall l, 0 <= masks l < 2 ^ 32 -> 0 <= Z.lor (fpscr (cpu m)) (masks l) < 2 ^ 32) as Hr by (intros; by apply lor_range).
  split.
  - unfold compares, ppc_fcmpu, gets, bind at 1. cbv beta iota zeta delta [ppc_grab_regsfpsab]. unfold GET_FPR, FPR_INT, GET_FPR. fold a b.
    rewrite !check_snan_correct by done. fold snan. change (isnan a || isnan b) with (unordered a b).
    set (v := if unordered a b && snan then Z.lor (fpscr (cpu m)) (masks [FX; VX; VXSNAN]) else fpscr (cpu m)).
    exists (compare_finish (relation_word a b) (Z.land (Z.shiftr opcode 21) 0x1C) (with_fpscr v (cpu m))). split.
    + unfold v, relation_word. destruct m as [[] ? ? ? ? ? ? ? ? ?]. by destruct (unordered a b), snan.
    + apply compare_finish_effect; try done; unfold v.
      * destruct (unordered a b && snan); [apply lor_range; [lia | done | by vm_compute] | done].
      * intros n Hn. destruct (unordered a b && snan); cbn [andb]; [|by rewrite orb_false_r].
        unfold masks, FX, VX, VXSNAN. cbn [fold_right]. rewrite !Z.lor_spec, !testbit_2p, Z.bits_0 by lia.
        unfold old, fpscr_bit. by rewrite orb_false_r, !orb_assoc.
  - unfold compares, ppc_fcmpo, gets, bind at 1. cbv beta iota zeta delta [ppc_grab_regsfpsab]. unfold GET_FPR, FPR_INT, GET_FPR. fold a b.
    rewrite !check_snan_correct, !check_qnan_correct by done. fold snan. change (isnan a || isnan b) with (unordered a b).
    set (w1 := Z.lor (fpscr (cpu m)) (Z.lor FX VX)). set (w2 := if snan then Z.lor w1 VXSNAN else w1).
    set (v := if unordered a b then (if vxvc then Z.lor w2 VXVC else w2) else fpscr (cpu m)).
    assert (test w2 FEX = old 30) as Et.
    { unfold FEX. rewrite test_pow2 by lia. unfold w2, w1, FX, VX, VXSNAN, old, fpscr_bit.
      destruct snan; rewrite !Z.lor_spec, !testbit_2p by lia; by rewrite !orb_false_r. }
    exists (compare_finish (relation_word a b) (Z.land (Z.shiftr opcode 21) 0x1C) (with_fpscr v (cpu m))). split.
    + unfold relation_word. destruct (unordered a b) eqn:Eu.
      * transitivity (if negb (test w2 FEX) || quietnan a || quietnan b
          then (Ret tt, set_cpu (compare_finish CRx.CR_SO (Z.land (Z.shiftr opcode 21) 0x1C) (with_fpscr (Z.lor w2 VXVC) (cpu m))) m)
          else (Ret tt, set_cpu (compare_finish CRx.CR_SO (Z.land (Z.shiftr opcode 21) 0x1C) (with_fpscr w2 (cpu m))) m)).
        { unfold w2, w1. clear -m. generalize (quietnan a) (quietnan b). intros qa qb.
          destruct m as [[c1 c2 c3 c4 c5 c6 c7 c8 c9 c10] n1 n2 n3 n4 n5 n6 n7 n8 n9].
          destruct snan;
            cbv beta iota zeta delta [when fpscr_or mcpu modify bind gets upd_cpu set_cpu cpu fpscr_set fpscr with_fpscr ret];
            by match goal with |- context [if ?c then _ else _] => destruct c end. }
        rewrite Et. fold vxvc. unfold v. by destruct vxvc.
      * unfold v. by destruct m as [[] ? ? ? ? ? ? ? ? ?].
    + assert (0 <= w2 < 2 ^ 32) as H2.
      { unfold w2, w1. destruct snan; repeat apply lor_range; first [lia | done | by vm_compute]. }
      apply compare_finish_effect; try done; unfold v.
      * destruct (unordered a b); [|done]. destruct vxvc; [apply lor_range; [lia | done | by vm_compute] | done].
      * intros n Hn. destruct (unordered a b); cbn [andb]; [|by rewrite orb_false_r]. unfold w2, w1, FX, VX, VXSNAN, VXVC, old, fpscr_bit.
        destruct snan, vxvc; cbn [andb]; rewrite !Z.lor_spec, !testbit_2p by lia; by rewrite ?orb_false_r, ?orb_assoc.
Qed.

Lemma fp_compare_correct_witness : exists s', ppc_fcmpu 0xFC011000 demo_machine = (Ret tt, set_cpu s' demo_machine) /\
  fpscr_bit 13 s' = true.
Proof.
  destruct (fp_compare_correct 0xFC011000 demo_machine demo_ok) as [(s' & E & F) _].
  exists s'. split; [exact E|]. rewrite (fse_fpscr _ _ _ _ F) by lia. by vm_compute.
Defined.
