(* ===== verification/FpuType.v ===== *)
(** * What the floating-point instructions may touch

    Every floating-point instruction returns without an interrupt and changes only
    the floating-point registers, FPSCR, CR and the exceptions of the host, whose
    rounding direction it keeps; the registers keep their widths. *)
From S2P Require Import Prelude Word Float PpcState CondReg Timers MemCtrl Machine Fpu FpuProps.
Import FPSCR.

(** ** What a floating-point instruction may do

    [fp_step m m']: only floating-point registers, FPSCR, CR and the exceptions of
    the host changed, and the registers keep their widths.  In particular the
    host's rounding direction is the one it was. *)
Definition fp_step (m m' : machine) : Prop :=
  exists f v c fl, m' = set_fenv (mk_fp_env (fe_round (fenv m)) fl)
                          (set_cpu (with_cr c (with_fpscr v (with_fpr f (cpu m)))) m) /\
    ppc_ok (cpu m').

(** [k] always returns, with a result in [Q], after such a change. *)
Definition fp_runs {A} (Q : A -> Prop) (k : M machine A) : Prop :=
  forall m, ppc_ok (cpu m) -> exists a m', k m = (Ret a, m') /\ fp_step m m' /\ Q a.

Ltac fp_step_tac := do 4 eexists; split; [reflexivity | done].

Lemma fp_step_refl m : ppc_ok (cpu m) -> fp_step m m.
Proof. intros H. destruct m as [[] ? ? ? ? ? ? ? ? []]. fp_step_tac. Qed.

Lemma fp_step_trans m1 m2 m3 : fp_step m1 m2 -> fp_step m2 m3 -> fp_step m1 m3.
Proof. intros (? & ? & ? & ? & -> & _) (? & ? & ? & ? & -> & H). fp_step_tac. Qed.

Lemma fp_step_ok m m' : fp_step m m' -> ppc_ok (cpu m').
Proof. by intros (? & ? & ? & ? & _ & H). Qed.

Lemma fr_ret {A} (Q : A -> Prop) a : Q a -> fp_runs Q (ret a).
Proof. intros Ha m Hm. exists a, m. split; [done|]. split; [by apply fp_step_refl | done]. Qed.

Lemma fr_bind {A B} (P : A -> Prop) (Q : B -> Prop) (x : M machine A) k :
  fp_runs P x -> (forall a, P a -> fp_runs Q (k a)) -> fp_runs Q (bind x k).
Proof.
  intros Hx Hk m Hm. destruct (Hx m Hm) as (a & m1 & E1 & S1 & Pa).
  destruct (Hk a Pa m1 (fp_step_ok _ _ S1)) as (b & m2 & E2 & S2 & Qb).
  exists b, m2. split; [by rewrite (bind_ret x k m a m1)|]. split; [by eapply fp_step_trans | done].
Qed.

Lemma fr_if {A} (Q : A -> Prop) (b : bool) (x y : M machine A) : fp_runs Q x -> fp_runs Q y -> fp_runs Q (if b then x else y).
Proof. by destruct b. Qed.

Lemma fr_weaken {A} (P Q : A -> Prop) (k : M machine A) : fp_runs P k -> (forall a, P a -> Q a) -> fp_runs Q k.
Proof. intros Hk HPQ m Hm. destruct (Hk m Hm) as (a & m' & ? & ? & ?). exists a, m'. auto. Qed.

Definition any {A} (_ : A) : Prop := True.

Lemma fr_when b k : fp_runs any k -> fp_runs any (when b k).
Proof. destruct b; [done|]. intros _. by apply fr_ret. Qed.

Lemma fr_gets {A} (f : machine -> A) : fp_runs any (gets f).
Proof. intros m Hm. exists (f m), m. split; [done|]. split; [by apply fp_step_refl | done]. Qed.

Lemma fr_cpu : fp_runs ppc_ok (gets cpu).
Proof. intros m Hm. exists (cpu m), m. split; [done|]. by split; [apply fp_step_refl|]. Qed.

Lemma fr_machine : fp_runs (fun m => ppc_ok (cpu m)) (gets (fun m => m)).
Proof. intros m Hm. exists m, m. split; [done|]. by split; [apply fp_step_refl|]. Qed.

Lemma fr_mcpu f : (forall s, ppc_ok s -> ppc_ok (f s) /\ f s = with_cr (cr (f s)) (with_fpscr (fpscr (f s)) (with_fpr (fpr (f s)) s))) ->
  fp_runs any (mcpu f).
Proof.
  intros Hf m Hm. destruct (Hf _ Hm) as [H1 H2]. exists tt, (upd_cpu f m). split; [done|]. split; [|done].
  exists (fpr (f (cpu m))), (fpscr (f (cpu m))), (cr (f (cpu m))), (fe_except (fenv m)). split; [|done].
  unfold upd_cpu. rewrite H2 at 1. by destruct m as [? ? ? ? ? ? ? ? ? []].
Qed.

Lemma fr_fpscr f : (forall v, 0 <= v < 2 ^ 32 -> 0 <= f v < 2 ^ 32) -> fp_runs any (mcpu (fpscr_set f)).
Proof.
  intros Hf. apply fr_mcpu. intros s Hs. split; [apply with_fpscr_ok; [done|]; apply Hf, Hs|]. by destruct s.
Qed.

Lemma fr_or mask : 0 <= mask < 2 ^ 32 -> fp_runs any (fpscr_or mask).
Proof. intros Hm. apply fr_fpscr. intros v Hv. by apply lor_range. Qed.

Lemma fr_andc mask : fp_runs any (fpscr_andc mask).
Proof. apply fr_fpscr. intros v Hv. by apply land_range_l. Qed.

Lemma fr_store reg v : word64 v -> fp_runs any (mcpu (ppc_store_fpresult_int reg v)).
Proof.
  intros Hv. apply fr_mcpu. intros s Hs. split; [|by destruct s]. apply with_fpr_ok; [done|]. apply file_ok_set; [apply Hs | done].
Qed.

Lemma fr_store_of reg g : (forall s, ppc_ok s -> word64 (g s)) -> fp_runs any (mcpu (fun s => ppc_store_fpresult_int reg (g s) s)).
Proof.
  intros Hg. apply fr_mcpu. intros s Hs. split; [|by destruct s]. apply with_fpr_ok; [done|]. apply file_ok_set; [apply Hs | by apply Hg].
Qed.

Lemma fr_record rec : fp_runs any (record_cr1 rec).
Proof. apply fr_when, fr_mcpu. intros s Hs. split; [by apply update_cr1_ok | by destruct s]. Qed.

Lemma fr_host f : (forall rm, word64 (f rm).1) -> fp_runs word64 (host_fp f).
Proof.
  intros Hf m Hm. unfold host_fp. specialize (Hf (fe_round (fenv m))). destruct (f _) as [r fl]. eexists r, _.
  split; [done|]. split; [|done]. destruct m as [[] ? ? ? ? ? ? ? ? []]. fp_step_tac.
Qed.

Lemma fpr_word s reg : ppc_ok s -> word64 (GET_FPR s reg).
Proof. intros Hs. apply (ok_fpr _ Hs). Qed.

#[export] Hint Resolve fr_or fr_andc fr_store fr_record fr_when fr_cpu fpr_word : fpword.
#[export] Hint Extern 1 (0 <= _ < 2 ^ 32) => (by vm_compute) : fpword.
Lemma if_word (b : bool) x y : word64 x -> word64 y -> word64 (if b then x else y).
Proof. by destruct b. Qed.
Lemma quiet_NaN_word : word64 quiet_NaN.
Proof. done. Qed.
Lemma float_one_word : word64 float_one.
Proof. done. Qed.
#[export] Hint Resolve if_word quiet_NaN_word float_one_word : fpword.

Lemma fr_snan_single reg : fp_runs any (snan_single_check reg).
Proof.
  eapply fr_bind; [apply fr_cpu|]. intros s _. apply fr_if; [|by apply fr_ret].
  eapply fr_bind; [auto with fpword|]. intros _ _. by apply fr_ret.
Qed.

Lemma fr_snan_double a b : fp_runs any (snan_double_check a b).
Proof.
  eapply fr_bind; [apply fr_cpu|]. intros s _. apply fr_if; [|by apply fr_ret].
  eapply fr_bind; [auto with fpword|]. intros _ _. by apply fr_ret.
Qed.

Lemma fr_snan_checks a b c : fp_runs any (snan_checks a b c).
Proof.
  eapply fr_bind; [apply fr_snan_single|]. intros x _. apply fr_if; [by apply fr_ret|].
  eapply fr_bind; [apply fr_snan_single|]. intros y _. apply fr_if; [by apply fr_ret | apply fr_snan_single].
Qed.

Lemma fr_invalid c flag r : 0 <= flag < 2 ^ 32 -> word64 r -> fp_runs word64 (invalid_operation c flag r).
Proof.
  intros Hf Hr. apply fr_if; [|by apply fr_ret]. eapply fr_bind; [by apply fr_or|]. intros _ _.
  apply fr_if; [|by apply fr_ret]. eapply fr_bind; [auto with fpword|]. intros _ _. by apply fr_ret.
Qed.

Lemma fr_store_result snan reg r : word64 r -> fp_runs any (store_fpresult snan reg r).
Proof. intros Hr. unfold store_fpresult. destruct snan; by apply fr_store. Qed.

Lemma fr_then (k k' : M machine unit) : fp_runs any k -> fp_runs any k' -> fp_runs any (bind k (fun _ => k')).
Proof. intros H1 H2. eapply fr_bind; [exact H1 | by intros _ _]. Qed.

Lemma fr_test : fp_runs any test_and_clear_fp_exceptions.
Proof. intros m Hm. do 2 eexists. split; [reflexivity|]. split; [|done]. destruct m as [[] ? ? ? ? ? ? ? ? []]. fp_step_tac. Qed.

Lemma fr_finish rec r : fp_runs any (fp_finish rec r).
Proof.
  apply fr_then; [|apply fr_record]. apply fr_if; [auto with fpword|].
  apply fr_then; [repeat case_match; auto with fpword|]. eapply fr_bind; [apply fr_test|]. intros fl _.
  repeat apply fr_then; auto with fpword.
Qed.

Lemma fr_max a b : fp_runs any (max_double_check a b).
Proof. apply fr_when. auto with fpword. Qed.

#[export] Hint Resolve fr_snan_single fr_snan_double fr_snan_checks fr_invalid fr_store_result fr_finish fr_max : fpword.

Section Instructions.
Context `{HostFpuOk}.

Lemma single_word64 rm x : word64 (to_single rm x).1.
Proof. pose proof (to_single_word rm x). unfold word64. lia. Qed.

Lemma fr_to_float x : fp_runs word64 (to_float x).
Proof.
  eapply fr_bind; [apply fr_host; intros; apply single_word64|]. intros w _. apply fr_ret, of_single_word.
Qed.
Hint Resolve fr_to_float fadd_word fsub_word fmul_word fdiv_word ffma_word fsqrt_word of_single_word : fpword.

(** One step of the proof that an instruction runs. *)
Ltac fr_step :=
  match goal with
  | |- fp_runs _ (bind (gets cpu) _) => eapply fr_bind; [apply fr_cpu|]; intros ? ?
  | |- fp_runs _ (bind (gets (fun m => m)) _) => eapply fr_bind; [apply fr_machine|]; intros ? ?
  | |- fp_runs any (bind (host_fp _) _) => eapply fr_bind; [apply fr_host; intros; cbv beta; auto with fpword|]; intros ? ?
  | |- fp_runs any (bind (to_float _) _) => eapply fr_bind; [apply fr_to_float|]; intros ? ?
  | |- fp_runs any (bind (invalid_operation _ _ _) _) => eapply fr_bind; [apply fr_invalid; [by vm_compute|]; auto with fpword|]; intros ? ?
  | |- fp_runs any (bind (snan_checks _ _ _) _) => eapply fr_bind; [apply fr_snan_checks|]; intros ? ?
  | |- fp_runs any (bind (snan_double_check _ _) _) => eapply fr_bind; [apply fr_snan_double|]; intros ? ?
  | |- fp_runs any (bind (snan_single_check _) _) => eapply fr_bind; [apply fr_snan_single|]; intros ? ?
  | |- fp_runs any (bind _ (fun _ => _)) => apply fr_then
  | |- fp_runs any (if _ then _ else _) => apply fr_if
  | |- fp_runs any (let '(_, _) := ?x in _) => destruct x eqn:?
  end.

(** An instruction once unfolded, with the decoding of its operands. *)
Ltac fr_instruction :=
  cbv beta iota zeta delta [ppc_grab_regsfpdab ppc_grab_regsfpdac ppc_grab_regsfpdabc ppc_grab_regsfpdb decode_ops_dab decode_ops_da ppc_store_fpresult_flt FPR_INT];
  repeat fr_step; auto with fpword.

Lemma fr_adds rec opcode : fp_runs any (ppc_fadd rec opcode) /\ fp_runs any (ppc_fsub rec opcode) /\
  fp_runs any (ppc_fadds rec opcode) /\ fp_runs any (ppc_fsubs rec opcode).
Proof. unfold ppc_fadd, ppc_fsub, ppc_fadds, ppc_fsubs. split_and!; fr_instruction. Qed.

Lemma fr_products rec opcode : fp_runs any (ppc_fmul rec opcode) /\ fp_runs any (ppc_fmuls rec opcode) /\
  fp_runs any (ppc_fdiv rec opcode) /\ fp_runs any (ppc_fdivs rec opcode).
Proof. unfold ppc_fmul, ppc_fmuls, ppc_fdiv, ppc_fdivs. split_and!; fr_instruction. Qed.

Lemma fr_fused rec opcode : fp_runs any (ppc_fmadd rec opcode) /\ fp_runs any (ppc_fmsub rec opcode) /\
  fp_runs any (ppc_fnmadd rec opcode) /\ fp_runs any (ppc_fnmsub rec opcode).
Proof. unfold ppc_fmadd, ppc_fmsub, ppc_fnmadd, ppc_fnmsub. split_and!; fr_instruction. Qed.

Lemma fr_fused_single rec opcode : fp_runs any (ppc_fmadds rec opcode) /\ fp_runs any (ppc_fmsubs rec opcode) /\
  fp_runs any (ppc_fnmadds rec opcode) /\ fp_runs any (ppc_fnmsubs rec opcode).
Proof. unfold ppc_fmadds, ppc_fmsubs, ppc_fnmadds, ppc_fnmsubs. split_and!; fr_instruction. Qed.

Lemma fr_estimates rec opcode : fp_runs any (ppc_fsqrt rec opcode) /\ fp_runs any (ppc_fsqrts rec opcode) /\
  fp_runs any (ppc_frsqrte rec opcode) /\ fp_runs any (ppc_frsp rec opcode) /\ fp_runs any (ppc_fres rec opcode).
Proof.
  unfold ppc_fsqrt, ppc_fsqrts, ppc_frsqrte, ppc_frsp, ppc_fres. split_and!; fr_instruction.
  apply fr_when, fr_then; [|auto with fpword]. apply fr_fpscr. intros v Hv. by apply land_range_l.
Qed.

Lemma fr_signs rec opcode : fp_runs any (ppc_fabs rec opcode) /\ fp_runs any (ppc_fnabs rec opcode) /\
  fp_runs any (ppc_fneg rec opcode) /\ fp_runs any (ppc_fmr rec opcode) /\ fp_runs any (ppc_fsel rec opcode).
Proof.
  unfold ppc_fabs, ppc_fnabs, ppc_fneg, ppc_fmr, ppc_fsel. split_and!; fr_instruction.
  all: apply fr_store_of; intros s Hs; pose proof (fpr_word s (field_b opcode) Hs) as Hb.
  - by apply land_range_l.
  - by apply lor_range.
  - by apply lxor_range.
  - done.
Qed.

Lemma fr_invalid_conversion opcode reg r : word64 r -> fp_runs any (invalid_conversion opcode reg r).
Proof.
  intros Hr. unfold invalid_conversion. fr_step. apply fr_if; [|by apply fr_store]. apply fr_then; [auto with fpword | by apply fr_ret].
Qed.

Lemma fr_round_to_int opcode mode rec : fp_runs any (round_to_int opcode mode rec).
Proof.
  unfold round_to_int. fr_step. cbv beta iota zeta delta [ppc_grab_regsfpdb]. apply fr_then; [|auto with fpword].
  apply fr_if; [|apply fr_if].
  - repeat apply fr_then; auto with fpword. by apply fr_invalid_conversion.
  - repeat apply fr_then; auto with fpword. apply fr_invalid_conversion. by case_match.
  - apply fr_store, lor_range; [lia | | done]. pose proof (u32_range (match Z.land mode 3 with 0 => round_to_nearest (GET_FPR (cpu a) (field_b opcode)) a
      | 1 => round_to_zero (GET_FPR (cpu a) (field_b opcode)) | 2 => round_to_pos_inf (GET_FPR (cpu a) (field_b opcode))
      | _ => round_to_neg_inf (GET_FPR (cpu a) (field_b opcode)) end)). lia.
Qed.

Lemma fr_conversions rec opcode : fp_runs any (ppc_fctiw rec opcode) /\ fp_runs any (ppc_fctiwz rec opcode).
Proof.
  unfold ppc_fctiw, ppc_fctiwz. split; [fr_step|]; apply fr_round_to_int.
Qed.
Lemma fr_compare_finish c opcode : 0 <= c < 2 ^ 32 -> fp_runs any (mcpu (compare_finish c (Z.land (Z.shiftr opcode 21) 0x1C))).
Proof.
  intros Hc. rewrite crf_d_shift. pose proof (crf_d_range opcode). apply fr_mcpu. intros s Hs. split; [|by destruct s].
  pose proof (ok_fpscr _ Hs). pose proof (ok_cr _ Hs). unfold compare_finish, fpscr_set.
  apply with_cr_ok; [apply with_fpscr_ok; [apply with_fpscr_ok; [done | by apply land_range_l]|]|]; cbn [fpscr with_fpscr cr].
  all: apply lor_range; [lia | repeat (apply land_range_l; [lia|]); done | apply shiftr_range; lia].
Qed.

Lemma ordered_compare_range a b : 0 <= ordered_compare a b < 2 ^ 32.
Proof. unfold ordered_compare. repeat case_match; by vm_compute. Qed.

Lemma fr_compares opcode : fp_runs any (ppc_fcmpo opcode) /\ fp_runs any (ppc_fcmpu opcode).
Proof.
  unfold ppc_fcmpo, ppc_fcmpu. split; fr_step; cbv beta iota zeta delta [ppc_grab_regsfpsab].
  all: apply fr_if; [|apply fr_compare_finish, ordered_compare_range]; repeat first [fr_step | apply fr_compare_finish; by vm_compute];
    auto with fpword.
Qed.

(** An instruction on FPSCR, by its effect. *)
Lemma fr_effect k : (forall m, ppc_ok (cpu m) -> exists s' wr c, k m = (Ret tt, set_cpu s' m) /\ fpscr_effect (cpu m) s' wr c) ->
  fp_runs any k.
Proof.
  intros Hk m Hm. destruct (Hk m Hm) as (s' & wr & c & E & [F _ _ Hok]). exists tt, (set_cpu s' m). split; [done|]. split; [|done].
  exists (fpr (cpu m)), (fpscr s'), (cr s'), (fe_except (fenv m)). split; [|done].
  rewrite F at 1. by destruct m as [[] ? ? ? ? ? ? ? ? []].
Qed.

Lemma fr_fpscr_instructions rec opcode for601 : fp_runs any (ppc_mtfsf rec opcode) /\ fp_runs any (ppc_mtfsfi rec opcode) /\
  fp_runs any (ppc_mtfsb0 rec opcode) /\ fp_runs any (ppc_mtfsb1 rec opcode) /\ fp_runs any (ppc_mcrfs opcode) /\
  fp_runs any (ppc_mffs for601 rec opcode).
Proof.
  split_and!; [apply fr_effect; intros m Hm.. |].
  - destruct (mtfsf_writes rec opcode m Hm) as (s' & ? & ?). eauto.
  - destruct (mtfsfi_writes rec opcode m Hm) as (s' & ? & ?). eauto.
  - destruct (mtfsb_writes rec opcode m false Hm) as (s' & ? & ?). eauto.
  - destruct (mtfsb_writes rec opcode m true Hm) as (s' & ? & ?). eauto.
  - destruct (mcrfs_writes opcode m Hm) as (s' & ? & ?). eauto.
  - unfold ppc_mffs. apply fr_then; [|apply fr_record]. apply fr_store_of. intros s Hs.
    pose proof (ok_fpscr _ Hs). apply lor_range; [lia | lia | by destruct for601].
Qed.

End Instructions.

(** C20: every floating-point arithmetic, conversion, move, comparison and FPSCR
    instruction returns - it never raises an interrupt, whatever the operands - and
    changes only the floating-point registers, FPSCR, CR and the exceptions pending
    in the host; the registers keep their widths and the host its rounding
    direction. *)
Theorem fp_instructions_typed `{HostFpuOk} rec opcode for601 k :
  In k [ppc_fadd rec; ppc_fsub rec; ppc_fmul rec; ppc_fdiv rec; ppc_fmadd rec; ppc_fmsub rec; ppc_fnmadd rec; ppc_fnmsub rec;
        ppc_fadds rec; ppc_fsubs rec; ppc_fmuls rec; ppc_fdivs rec; ppc_fmadds rec; ppc_fmsubs rec; ppc_fnmadds rec;
        ppc_fnmsubs rec; ppc_fabs rec; ppc_fnabs rec; ppc_fneg rec; ppc_fmr rec; ppc_fsel rec; ppc_fsqrt rec; ppc_fsqrts rec;
        ppc_frsqrte rec; ppc_frsp rec; ppc_fres rec; ppc_fctiw rec; ppc_fctiwz rec; ppc_fcmpo; ppc_fcmpu; ppc_mcrfs;
        ppc_mtfsf rec; ppc_mtfsfi rec; ppc_mtfsb0 rec; ppc_mtfsb1 rec; ppc_mffs for601 rec] ->
  forall m, ppc_ok (cpu m) -> exists m', k opcode m = (Ret tt, m') /\ fp_step m m'.
Proof.
  intros Hk m Hm. enough (fp_runs any (k opcode)) as Hr by (destruct (Hr m Hm) as ([] & m' & ? & ? & _); eauto).
  pose proof (fr_adds rec opcode) as (?&?&?&?). pose proof (fr_products rec opcode) as (?&?&?&?).
  pose proof (fr_fused rec opcode) as (?&?&?&?). pose proof (fr_fused_single rec opcode) as (?&?&?&?).
  pose proof (fr_estimates rec opcode) as (?&?&?&?&?). pose proof (fr_signs rec opcode) as (?&?&?&?&?).
  pose proof (fr_conversions rec opcode) as (?&?). pose proof (fr_compares opcode) as (?&?).
  pose proof (fr_fpscr_instructions rec opcode for601) as (?&?&?&?&?&?).
  cbn [In] in Hk. decompose [or] Hk; subst; try done.
Qed.

(** A host that answers every NaN with the default one. *)
Definition default_fpu : HostFpu := {| host_nan := fun _ _ => quiet_NaN; tiny_after_rounding := true |}.

Lemma default_fpu_ok : @HostFpuOk default_fpu.
Proof. by split. Qed.

Lemma fp_instructions_typed_witness : exists m', @ppc_fadd default_fpu RC1 0xFC01102B demo_machine = (Ret tt, m') /\
  fp_step demo_machine m'.
Proof.
  apply (@fp_instructions_typed default_fpu default_fpu_ok RC1 0xFC01102B IS601 (@ppc_fadd default_fpu RC1));
    [by left | exact demo_ok].
Defined.
