(* ===== verification/FpuRound.v ===== *)
(** * Rounding to the nearest double

    The rounding of [Float.v] in the host's default direction gives the double
    nearest to the exact value, the even one of two equally near, with 2^1024
    standing for infinity. *)
From S2P Require Import Prelude Word Float PpcState CondReg Timers MemCtrl Machine Fpu FpuProps.

(** ** Rounding to the nearest multiple *)

Lemma nearest_multiple s m sh (z : Z) : 0 <= m -> 0 < sh ->
  let q := (round_at 0 s m 0 sh).1 in
  Z.abs (m - q * 2 ^ sh) <= Z.abs (m - z * 2 ^ sh) /\
  (Z.abs (m - q * 2 ^ sh) = Z.abs (m - z * 2 ^ sh) -> z = q \/ Z.even q = true).
Proof.
  intros Hm Hs q. unfold q, round_at. rewrite (proj2 (Z.leb_gt _ _)) by lia. rewrite Z.sub_0_r. cbn [fst]. clear q.
  rewrite Z.shiftr_div_pow2, Z.land_ones by lia.
  assert (2 ^ sh = 2 * 2 ^ (sh - 1)) as EU by (rewrite <- Z.pow_succ_r by lia; f_equal; lia).
  pose proof (Z.pow_pos_nonneg 2 (sh - 1) ltac:(lia) ltac:(lia)) as Hh. revert EU Hh. generalize (2 ^ (sh - 1)) (2 ^ sh). intros h U -> Hh.
  pose proof (Z.div_mod m (2 * h) ltac:(lia)) as Hd. pose proof (Z.mod_pos_bound m (2 * h) ltac:(lia)) as Hr.
  revert Hd Hr. generalize (m / (2 * h)) (m mod (2 * h)). intros q r -> Hr. unfold round_up.
  replace (2 * h * q + r - z * (2 * h)) with (r - 2 * (h * (z - q))) by ring.
  assert (z - q = 0 \/ z - q = 1 \/ h * (z - q) <= - h \/ 2 * h <= h * (z - q)) as Hz.
  { destruct (Z.lt_trichotomy (z - q) 0) as [?|[?|?]]; [right; right; left; nia | by left|].
    destruct (Z.eq_dec (z - q) 1); [by right; left | right; right; right; nia]. }
  assert (z - q = 0 -> h * (z - q) = 0) as Z0 by (intros ->; lia).
  assert (z - q = 1 -> h * (z - q) = h) as Z1 by (intros ->; lia).
  revert Hz Z0 Z1. generalize (h * (z - q)). intros t Hz Z0 Z1.
  assert (Z.odd q = true -> Z.even (q + 1) = true) as He1 by (rewrite Z.even_add, <- Z.negb_odd; by intros ->).
  assert (Z.odd q = false -> Z.even q = true) as He0 by (rewrite <- Z.negb_odd; by intros ->).
  destruct (Z.ltb_spec h r), (Z.eqb_spec h r); cbn [orb andb]; try lia; cbn [Z.b2z].
  2: destruct (Z.odd q) eqn:Eo; cbn [Z.b2z].
  1, 2: replace (2 * h * q + r - (q + 1) * (2 * h)) with (r - 2 * h) by ring.
  3, 4: replace (2 * h * q + r - (q + 0) * (2 * h)) with r by ring; rewrite Z.add_0_r.
  all: split; [lia|]; intros E; first [left; lia | right; auto].
Qed.

(** ** The doubles as a grid *)

Lemma magnitude_bits j q : 0 <= j -> (j = 0 /\ 0 <= q) \/ 2 ^ 52 <= q -> q <= 2 ^ 53 ->
  magnitude ((j * 2 ^ 52 + q) / 2 ^ 52) ((j * 2 ^ 52 + q) mod 2 ^ 52) = q * 2 ^ j.
Proof.
  intros Hj Hq Hu. rewrite Z.add_comm, Z.div_add, Z.mod_add by lia. unfold magnitude.
  assert (q < 2 ^ 52 \/ 2 ^ 52 <= q < 2 ^ 53 \/ q = 2 ^ 53) as [H|[H|H]] by lia.
  - destruct Hq as [[-> Hq]|]; [|lia]. rewrite Z.div_small, Z.mod_small by lia. rewrite Z.eqb_refl. lia.
  - assert (q / 2 ^ 52 = 1) as -> by zlia. assert (q mod 2 ^ 52 = q - 2 ^ 52) as -> by zlia.
    rewrite (proj2 (Z.eqb_neq _ _)) by lia. f_equal; [lia|]. f_equal. lia.
  - subst q. change (2 ^ 53 / 2 ^ 52) with 2. change (2 ^ 53 mod 2 ^ 52) with 0.
    rewrite (proj2 (Z.eqb_neq _ _)) by lia. replace (2 + j - 1) with (Z.succ j) by lia. rewrite Z.pow_succ_r by lia. ring.
Qed.

(** A double is below 53 bits of a unit, or a multiple of that unit. *)
Lemma magnitude_grid E F j : 0 <= E -> 0 <= F < 2 ^ 52 -> 0 <= j ->
  0 <= magnitude E F < 2 ^ 52 * 2 ^ j \/ exists z, magnitude E F = z * 2 ^ j.
Proof.
  intros HE HF Hj. unfold magnitude. pose proof (Z.pow_pos_nonneg 2 j ltac:(lia) Hj).
  destruct (Z.eqb_spec E 0); [left; nia|]. destruct (Z.le_gt_cases j (E - 1)).
  - right. exists ((2 ^ 52 + F) * 2 ^ (E - 1 - j)). rewrite <- Z.mul_assoc, <- Z.pow_add_r by lia. do 2 f_equal. lia.
  - left. assert (2 ^ j = 2 * 2 ^ (j - 1)) by (rewrite <- Z.pow_succ_r by lia; f_equal; lia).
    assert (2 ^ (E - 1) <= 2 ^ (j - 1)) by (apply Z.pow_le_mono_r; lia). pose proof (Z.pow_pos_nonneg 2 (E - 1)). nia.
Qed.

(** The largest magnitude, that of an infinity. *)
Definition inf_value : Z := 2 ^ 2098.

Lemma magnitude_max E F : 0 <= E <= 2047 -> 0 <= F < 2 ^ 52 -> (E = 2047 -> F = 0) -> magnitude E F <= inf_value.
Proof.
  intros HE HF Hi. change inf_value with (magnitude 2047 0).
  destruct (Z.eq_dec E 2047) as [->|]; [rewrite Hi by done; lia|]. apply Z.lt_le_incl, magnitude_mono; lia.
Qed.

Lemma f_value_grid y j : word64 y -> isnan y = false -> 0 <= j ->
  exists Y, f_value y = (if sign64 y then -1 else 1) * Y /\ 0 <= Y <= inf_value /\ (Y < 2 ^ 52 * 2 ^ j \/ exists z, Y = z * 2 ^ j).
Proof.
  intros Hy Hn Hj. destruct (fields_range binary64 binary64_ok y) as [HE HF]. cbn [frac_bits exp_bits binary64] in *.
  exists (magnitude (f_exp binary64 y) (f_frac binary64 y)). split; [apply f_value_fields|]. split.
  - split.
    + unfold magnitude. case_match; [lia|]. pose proof (Z.pow_nonneg 2 (f_exp binary64 y - 1)). nia.
    + apply magnitude_max; [lia..|]. intros E. unfold is_nan in Hn. change (Z.ones (exp_bits binary64)) with 2047 in Hn.
      rewrite E in Hn. destruct (Z.eqb_spec (f_frac binary64 y) 0); [done|discriminate].
  - destruct (magnitude_grid (f_exp binary64 y) (f_frac binary64 y) j) as [?|?]; [lia..|left; lia | by right].
Qed.

(** ** Rounding to a double *)

Lemma round_at_bound s m e e' : 0 < m -> e + (Z.log2 m + 1) - 53 <= e' ->
  let q := (round_at 0 s m e e').1 in
  0 <= q <= 2 ^ 53 /\ (e + (Z.log2 m + 1) - 53 = e' -> 2 ^ 52 <= q).
Proof.
  intros Hm He q. destruct (Z.log2_spec m Hm) as [L1 L2]. pose proof (Z.log2_nonneg m) as L0.
  unfold q, round_at. destruct (Z.leb_spec e' e) as [H|H]; cbn [fst].
  - rewrite Z.shiftl_mul_pow2 by lia. pose proof (Z.pow_pos_nonneg 2 (e - e') ltac:(lia) ltac:(lia)).
    assert (2 ^ Z.log2 m * 2 ^ (e - e') = 2 ^ (Z.log2 m + e - e')) as E1 by (rewrite <- Z.pow_add_r by lia; f_equal; lia).
    assert (2 ^ Z.succ (Z.log2 m) * 2 ^ (e - e') = 2 ^ (Z.succ (Z.log2 m) + e - e')) as E2 by (rewrite <- Z.pow_add_r by lia; f_equal; lia).
    assert (2 ^ (Z.succ (Z.log2 m) + e - e') <= 2 ^ 53) by (apply Z.pow_le_mono_r; lia).
    split; [nia|]. intros Ee. replace (2 ^ 52) with (2 ^ (Z.log2 m + e - e')) by (f_equal; lia). nia.
  - rewrite Z.shiftr_div_pow2 by lia. pose proof (Z.pow_pos_nonneg 2 (e' - e) ltac:(lia) ltac:(lia)) as HU.
    match goal with |- context [Z.b2z ?b] => pose proof (b2z_range b) end.
    assert (0 <= m / 2 ^ (e' - e) < 2 ^ 53).
    { split; [apply Z.div_pos; lia|]. apply Z.div_lt_upper_bound; [done|]. rewrite <- Z.pow_add_r by lia.
      eapply Z.lt_le_trans; [exact L2|]. apply Z.pow_le_mono_r; lia. }
    split; [unfold Z.b2z in *; lia|]. intros Ee. assert (2 ^ 52 <= m / 2 ^ (e' - e)); [|lia]. apply Z.div_le_lower_bound; [done|].
    rewrite <- Z.pow_add_r by lia. eapply Z.le_trans; [|exact L1]. apply Z.pow_le_mono_r; lia.
Qed.

Lemma with_sign_even s b : Z.even (with_sign binary64 s b) = Z.even b.
Proof. destruct s; [|done]. unfold with_sign. rewrite Z.even_add. change (Z.even (sign_bit binary64)) with true. by destruct (Z.even b). Qed.

Lemma magnitude_capped j q : 0 <= j -> 0 <= q <= 2 ^ 53 -> j = 0 \/ 2 ^ 52 <= q ->
  let b := Z.min (j * 2 ^ 52 + q) (2047 * 2 ^ 52) in
  magnitude (b / 2 ^ 52) (b mod 2 ^ 52) = Z.min (q * 2 ^ j) inf_value /\ (inf_value <= q * 2 ^ j -> b = 2047 * 2 ^ 52).
Proof.
  intros Hj Hq Hjq b. destruct (Z.le_gt_cases j 2045).
  - assert (b = j * 2 ^ 52 + q) as -> by lia. rewrite magnitude_bits by lia.
    assert (2 ^ j <= 2 ^ 2045) by (apply Z.pow_le_mono_r; lia). pose proof (Z.pow_pos_nonneg 2 j ltac:(lia) Hj).
    assert (q * 2 ^ j <= inf_value) as Hi by (change inf_value with (2 ^ 53 * 2 ^ 2045); nia). split; [lia|]. intros Ho.
    assert (q * 2 ^ j = inf_value) as E by lia. change inf_value with (2 ^ 53 * 2 ^ 2045) in E.
    assert (q = 2 ^ 53) as -> by nia. assert (2 ^ j = 2 ^ 2045) as Ej by nia. apply Z.pow_inj_r in Ej; lia.
  - assert (b = 2047 * 2 ^ 52) as -> by lia. split; [|done]. change (magnitude _ _) with inf_value.
    assert (2 ^ 2046 <= 2 ^ j) by (apply Z.pow_le_mono_r; lia). assert (inf_value <= q * 2 ^ j); [|lia].
    change inf_value with (2 ^ 52 * 2 ^ 2046). nia.
Qed.

Lemma fround_value tiny s m e : 0 < m ->
  let j := Z.max (e + (Z.log2 m + 1) - 53) (-1074) + 1074 in
  let q := (round_at 0 s m e (j - 1074)).1 in
  let r := (fround binary64 tiny 0 s m e).1 in
  (j = 0 \/ 2 ^ 52 <= q) /\ isnan r = false /\
  f_value r = (if s then -1 else 1) * Z.min (q * 2 ^ j) inf_value /\
  (Z.even q = true \/ inf_value <= q * 2 ^ j -> Z.even r = true).
Proof.
  intros Hm j q r. assert (0 <= j) as Hj by lia.
  destruct (round_at_bound s m e (j - 1074) Hm ltac:(lia)) as [Hq Hq']. fold q in Hq, Hq'.
  assert (j = 0 \/ 2 ^ 52 <= q) as Hjq by lia. split; [done|].
  assert (exists b, r = with_sign binary64 s b /\ b = Z.min (j * 2 ^ 52 + q) (inf_bits binary64)) as (b & Er & Eb).
  { unfold r, fround. change (emin binary64) with (-1074). change (frac_bits binary64 + 1) with 53.
    replace (Z.max (e + (Z.log2 m + 1) - 53) (-1074)) with (j - 1074) by lia.
    unfold q. destruct (round_at 0 s m e (j - 1074)) as [q0 inexact] eqn:Eq. cbn [fst].
    change (frac_bits binary64) with 52. rewrite Z.shiftl_mul_pow2 by lia. replace (j - 1074 - -1074) with j by lia.
    destruct (Z.ltb_spec (j * 2 ^ 52 + q0) (inf_bits binary64)); cbn [fst]; eexists; (split; [reflexivity|]); [lia|].
    unfold overflow_bits. lia. }
  change (inf_bits binary64) with (2047 * 2 ^ 52) in Eb.
  assert (0 <= b / 2 ^ 52 < 2 ^ 11) as HE by (split; [apply Z.div_pos; lia | apply Z.div_lt_upper_bound; lia]).
  pose proof (Z.mod_pos_bound b (2 ^ 52) ltac:(lia)) as HF.
  destruct (encode_fields binary64 binary64_ok s (b / 2 ^ 52) (b mod 2 ^ 52) HE HF) as (S1 & S2 & S3 & S4).
  cbn [frac_bits binary64] in S1, S2, S3, S4. replace (b / 2 ^ 52 * 2 ^ 52 + b mod 2 ^ 52) with b in * by (pose proof (Z.div_mod b (2 ^ 52)); lia).
  rewrite <- Er in *.
  assert (magnitude (b / 2 ^ 52) (b mod 2 ^ 52) = Z.min (q * 2 ^ j) inf_value /\ (inf_value <= q * 2 ^ j -> b = 2047 * 2 ^ 52)) as [Em Eo].
  { subst b. by apply magnitude_capped. }
  split_and!.
  - unfold is_nan. rewrite S2, S3. change (Z.ones (exp_bits binary64)) with 2047. destruct (Z.eqb_spec (b / 2 ^ 52) 2047); [|done].
    assert (b mod 2 ^ 52 = 0) as -> by (pose proof (Z.div_mod b (2 ^ 52)); lia). done.
  - rewrite f_value_fields, S1, S2, S3, Em. done.
  - intros [He|He]; rewrite Er, with_sign_even.
    + rewrite Eb. destruct (Z.min_spec (j * 2 ^ 52 + q) (2047 * 2 ^ 52)) as [[_ ->]|[_ ->]]; [|done].
      by rewrite Z.even_add, Z.even_mul, He, orb_true_r.
    + by rewrite Eo.
Qed.

(** [r] is the double nearest to [V / M] in units of 2^-1074, the even one of two
    equally near. *)
Definition nearest (V M r : Z) : Prop :=
  isnan r = false /\
  forall y, word64 y -> isnan y = false ->
    Z.abs (V - f_value r * M) <= Z.abs (V - f_value y * M) /\
    (Z.abs (V - f_value r * M) = Z.abs (V - f_value y * M) -> f_value y = f_value r \/ Z.even r = true).

(** The integer [m] stands for [N / D]: it is that number, or an odd one next to it
    when the rounding drops at least two bits. *)
Definition stands_for (m e e' N D : Z) : Prop :=
  0 < D /\ (N = m * D \/ Z.odd m = true /\ e + 2 <= e' /\ (m - 1) * D < N < (m + 1) * D).

Definition on_grid (j Y : Z) : Prop := 0 <= Y /\ (Y < 2 ^ 52 * 2 ^ j \/ exists z, Y = z * 2 ^ j).

Lemma round_at_shift s m e e' : e < e' -> (round_at 0 s m e e').1 = (round_at 0 s m 0 (e' - e)).1.
Proof. intros H. unfold round_at. rewrite !(proj2 (Z.leb_gt _ _)) by lia. by rewrite Z.sub_0_r. Qed.

Lemma stands_for_ge m e e' N D b : stands_for m e e' N D -> e < e' -> 0 <= b -> b * 2 ^ (e' - e) <= m -> b * 2 ^ (e' - e) * D <= N.
Proof.
  intros [HD Hs] He Hb Hm. assert (2 ^ (e' - e) = 2 * 2 ^ (e' - e - 1)) as EU by (rewrite <- Z.pow_succ_r by lia; f_equal; lia).
  destruct Hs as [->|(Ho & _ & HN)]; [nia|]. apply Z.odd_spec in Ho as [o ->].
  assert (b * 2 ^ (e' - e) <= 2 * o); [|nia]. rewrite EU in *. lia.
Qed.

(** The nearest multiple of the number stood for. *)
Lemma sticky_multiple s m e e' N D z : 0 <= m -> e < e' -> stands_for m e e' N D ->
  let q := (round_at 0 s m e e').1 in
  let U := 2 ^ (e' - e) in
  Z.abs (N - q * U * D) <= Z.abs (N - z * U * D) /\
  (Z.abs (N - q * U * D) = Z.abs (N - z * U * D) -> z = q \/ Z.even q = true).
Proof.
  intros Hm He [HD Hs] q U. unfold q. rewrite round_at_shift by done. clear q.
  destruct (nearest_multiple s m (e' - e) z Hm ltac:(lia)) as [H1 H2]. fold U in H1, H2.
  set (q := (round_at 0 s m 0 (e' - e)).1) in *. destruct Hs as [->|(Ho & H4 & HN)].
  - replace (m * D - q * U * D) with ((m - q * U) * D) by ring. replace (m * D - z * U * D) with ((m - z * U) * D) by ring.
    rewrite !Z.abs_mul, (Z.abs_eq D) by lia. split; [nia|]. intros E. apply H2. nia.
  - assert (exists u, U = 4 * u) as [u Eu].
    { exists (2 ^ (e' - e - 2)). change 4 with (2 ^ 2). unfold U. rewrite <- Z.pow_add_r by lia. f_equal. lia. }
    assert (0 < U) as HU by (apply Z.pow_pos_nonneg; lia).
    apply Z.odd_spec in Ho as [o Eo]. rewrite Eu in *. clear Eu. clearbody q.
    destruct (Z.eq_dec z q) as [->|Hne]; [split; [lia | auto]|].
    assert (Z.abs (m - q * (4 * u)) + 2 <= Z.abs (m - z * (4 * u))) as Hgap.
    { subst m. replace (2 * o + 1 - q * (4 * u)) with (2 * (o - 2 * (q * u)) + 1) in * by ring.
      replace (2 * o + 1 - z * (4 * u)) with (2 * (o - 2 * (z * u)) + 1) in * by ring.
      assert (q * u <> z * u) by (rewrite Z.mul_cancel_r by lia; lia). lia. }
    assert (Z.abs (N - m * D) < D) as Hc by lia.
    assert (Z.abs (N - q * (4 * u) * D) < Z.abs (N - z * (4 * u) * D)); [|lia].
    assert (Z.abs ((m - q * (4 * u)) * D) + 2 * D <= Z.abs ((m - z * (4 * u)) * D)).
    { rewrite !Z.abs_mul, (Z.abs_eq D) by lia. nia. }
    replace (N - q * (4 * u) * D) with (N - m * D + (m - q * (4 * u)) * D) by ring.
    replace (N - z * (4 * u) * D) with (N - m * D + (m - z * (4 * u)) * D) by ring. lia.
Qed.

(** Among the values of the grid the rounded one, before overflow, is nearest. *)
Lemma grid_nearest s m e K N D Y : 0 < m -> 0 <= K -> 0 <= e + 1074 + K ->
  let j := Z.max (e + (Z.log2 m + 1) - 53) (-1074) + 1074 in
  let q := (round_at 0 s m e (j - 1074)).1 in
  let V := N * 2 ^ (e + 1074 + K) in
  let M := 2 ^ K * D in
  stands_for m e (j - 1074) N D -> on_grid j Y ->
  Z.abs (V - q * 2 ^ j * M) <= Z.abs (V - Y * M) /\
  (Z.abs (V - q * 2 ^ j * M) = Z.abs (V - Y * M) -> Y = q * 2 ^ j \/ Z.even q = true).
Proof.
  intros Hm HK He j q V M Hst [HY Hg]. assert (0 <= j) as Hj by lia. assert (0 < D) as HD by apply Hst.
  pose proof (Z.pow_pos_nonneg 2 K ltac:(lia) HK) as HP. pose proof (Z.pow_pos_nonneg 2 j ltac:(lia) Hj) as HJ.
  assert (0 < M) as HM by (unfold M; nia).
  destruct (Z.le_gt_cases (j - 1074) e) as [H|H].
  - assert (V = q * 2 ^ j * M) as ->.
    { destruct Hst as [_ [->|(_ & ? & _)]]; [|lia]. unfold V, q, M, round_at. rewrite (proj2 (Z.leb_le _ _)) by done. cbn [fst].
      rewrite Z.shiftl_mul_pow2 by lia. replace (m * 2 ^ (e - (j - 1074)) * 2 ^ j * (2 ^ K * D)) with
        (m * D * (2 ^ (e - (j - 1074)) * 2 ^ j * 2 ^ K)) by ring. rewrite <- !Z.pow_add_r by lia. do 2 f_equal. lia. }
    rewrite Z.sub_diag. split; [lia|]. intros E. left. nia.
  - set (S := 2 ^ (e + 1074 + K)) in *. assert (0 < S) as HS by (apply Z.pow_pos_nonneg; lia).
    assert (2 ^ j * 2 ^ K = 2 ^ (j - 1074 - e) * S) as ES by (unfold S; rewrite <- !Z.pow_add_r by lia; f_equal; lia).
    assert (forall z, V - z * 2 ^ j * M = S * (N - z * 2 ^ (j - 1074 - e) * D)) as EV.
    { intros z. unfold V, M. replace (z * 2 ^ j * (2 ^ K * D)) with (z * D * (2 ^ j * 2 ^ K)) by ring. rewrite ES. ring. }
    assert (forall z, let a := Z.abs (V - q * 2 ^ j * M) in let b := Z.abs (V - z * 2 ^ j * M) in
      a <= b /\ (a = b -> z = q \/ Z.even q = true)) as Hz.
    { intros z. cbv zeta. rewrite !EV, !Z.abs_mul, (Z.abs_eq S) by lia.
      destruct (sticky_multiple s m e (j - 1074) N D z ltac:(lia) ltac:(lia) Hst) as [H1 H2]. fold q in H1, H2.
      split; [nia|]. intros E. apply H2. nia. }
    assert (Y < 2 ^ 52 * 2 ^ j /\ j <> 0 \/ exists z, Y = z * 2 ^ j) as [[Hl Hn]|[z ->]].
    { destruct Hg as [Hl|Hz']; [|by right]. destruct (Z.eq_dec j 0) as [->|]; [|by left]. right. exists Y. lia. }
    + destruct (Hz (2 ^ 52)) as [H1 _]. assert (2 ^ 52 * 2 ^ j * M <= V) as HV.
      { enough (0 <= V - 2 ^ 52 * 2 ^ j * M) by lia. rewrite EV. apply Z.mul_nonneg_nonneg; [lia|].
        enough (2 ^ 52 * 2 ^ (j - 1074 - e) * D <= N) by lia. apply (stands_for_ge m e (j - 1074)); [done | lia | lia|].
        destruct (Z.log2_spec m Hm) as [L1 _]. rewrite <- Z.pow_add_r by lia. eapply Z.le_trans; [|exact L1].
        apply Z.pow_le_mono_r; lia. }
      assert (Y * M < 2 ^ 52 * 2 ^ j * M) by (apply Z.mul_lt_mono_pos_r; lia). lia.
    + destruct (Hz z) as [H1 H2]. split; [done|]. intros E. destruct (H2 E) as [->|]; auto.
Qed.

Lemma on_grid_double j y : word64 y -> isnan y = false -> 0 <= j ->
  exists Y, f_value y = (if sign64 y then -1 else 1) * Y /\ on_grid j Y /\ Y <= inf_value.
Proof. intros Hy Hn Hj. destruct (f_value_grid y j Hy Hn Hj) as (Y & E & Hr & Hg). exists Y. unfold on_grid. split_and!; [done | lia | done | lia]. Qed.

(** ... and with overflow to infinity. *)
Lemma capped_nearest s m e K N D Y : 0 < m -> 0 <= K -> 0 <= e + 1074 + K ->
  let j := Z.max (e + (Z.log2 m + 1) - 53) (-1074) + 1074 in
  let q := (round_at 0 s m e (j - 1074)).1 in
  let V := N * 2 ^ (e + 1074 + K) in
  let M := 2 ^ K * D in
  let R := Z.min (q * 2 ^ j) inf_value in
  stands_for m e (j - 1074) N D -> on_grid j Y -> Y <= inf_value ->
  Z.abs (V - R * M) <= Z.abs (V - Y * M) /\
  (Z.abs (V - R * M) = Z.abs (V - Y * M) -> Y = R \/ Z.even q = true \/ inf_value <= q * 2 ^ j).
Proof.
  intros Hm HK He j q V M R Hst Hg Hi. pose proof (Z.pow_pos_nonneg 2 K ltac:(lia) HK) as HP.
  assert (0 < M) as HM by (unfold M; destruct Hst; nia).
  destruct (grid_nearest s m e K N D Y Hm HK He Hst Hg) as [H1 H2]. fold j q V M in H1, H2.
  destruct (Z.le_gt_cases (q * 2 ^ j) inf_value) as [Hle|Hgt].
  - assert (R = q * 2 ^ j) as -> by (unfold R; lia). split; [done|]. intros E. destruct (H2 E); auto.
  - assert (R = inf_value) as -> by (unfold R; lia). split; [|intros _; right; right; lia].
    destruct (on_grid_double j infinity) as (I & EI & HgI & _); [by vm_compute | by vm_compute | lia |].
    assert (I = inf_value) as -> by (revert EI; change (sign64 infinity) with false; change (f_value infinity) with inf_value; cbv iota; lia).
    destruct (grid_nearest s m e K N D inf_value Hm HK He Hst HgI) as [H3 _]. fold j q V M in H3.
    assert (inf_value * M < q * 2 ^ j * M) by (apply Z.mul_lt_mono_pos_r; lia).
    assert (Y * M <= inf_value * M) by (apply Z.mul_le_mono_nonneg_r; lia). lia.
Qed.

Lemma signed_distance (s t : bool) V R Y : 0 < V -> 0 <= Y -> Z.abs (V - R) <= Z.abs (V - Y) -> Z.abs (V - R) <= Z.abs (V - 0) ->
  let sg b x := (if b : bool then -1 else 1) * x in
  Z.abs (sg s V - sg s R) <= Z.abs (sg s V - sg t Y) /\
  (Z.abs (sg s V - sg s R) = Z.abs (sg s V - sg t Y) ->
     s = t /\ Z.abs (V - R) = Z.abs (V - Y) \/ Y = 0 /\ Z.abs (V - R) = Z.abs (V - 0)).
Proof. intros HV HY H1 H2 sg. unfold sg. destruct s, t; (split; [lia|]); intros E; [left|right|right|left]; split; try done; lia. Qed.

Lemma fround_nearest_ratio tiny (s : bool) m e K N D : 0 < m -> 0 < N -> 0 <= K -> 0 <= e + 1074 + K ->
  stands_for m e (Z.max (e + (Z.log2 m + 1) - 53) (-1074)) N D ->
  nearest ((if s then -1 else 1) * (N * 2 ^ (e + 1074 + K))) (2 ^ K * D) (fround binary64 tiny 0 s m e).1.
Proof.
  intros Hm HN HK He Hst. destruct (fround_value tiny s m e Hm) as (_ & F2 & F3 & F4).
  pose proof (Z.pow_pos_nonneg 2 K ltac:(lia) HK) as HP. pose proof (Z.pow_pos_nonneg 2 (e + 1074 + K) ltac:(lia) He) as HQ.
  assert (0 < 2 ^ K * D) as HM by (destruct Hst; nia).
  set (r := (fround binary64 tiny 0 s m e).1) in *. split; [done|]. intros y Hy Hn. rewrite F3.
  replace (Z.max (e + (Z.log2 m + 1) - 53) (-1074)) with (Z.max (e + (Z.log2 m + 1) - 53) (-1074) + 1074 - 1074) in Hst by lia.
  set (j := Z.max (e + (Z.log2 m + 1) - 53) (-1074) + 1074) in *. set (q := (round_at 0 s m e (j - 1074)).1) in *.
  destruct (on_grid_double j y Hy Hn ltac:(lia)) as (Y & -> & Hg & Hi).
  destruct (capped_nearest s m e K N D Y Hm HK He Hst Hg Hi) as [H1 H2].
  destruct (capped_nearest s m e K N D 0 Hm HK He Hst) as [Z1 Z2]; [split; [lia | right; exists 0; lia] | unfold inf_value; lia |].
  fold j q in H1, H2, Z1, Z2. assert (0 <= Y) as HY by apply Hg. rewrite Z.mul_0_l in Z1, Z2.
  destruct (signed_distance s (sign64 y) (N * 2 ^ (e + 1074 + K)) (Z.min (q * 2 ^ j) inf_value * (2 ^ K * D)) (Y * (2 ^ K * D)))
    as [D1 D2]; [nia | nia | done | done |].
  rewrite <- !(Z.mul_assoc (if _ : bool then _ else _)). split; [exact D1|]. intros E. destruct (D2 E) as [[-> E']|[Y0 E']].
  - destruct (H2 E') as [->|?]; auto.
  - assert (Y = 0) as -> by nia. destruct (Z2 E') as [<-|?]; [|auto]. left. by destruct s, (sign64 y).
Qed.

Lemma fround_nearest tiny (s : bool) m e K : 0 < m -> 0 <= K -> 0 <= e + 1074 + K ->
  nearest ((if s then -1 else 1) * (m * 2 ^ (e + 1074 + K))) (2 ^ K) (fround binary64 tiny 0 s m e).1.
Proof.
  intros Hm HK He. rewrite <- (Z.mul_1_r (2 ^ K)). apply fround_nearest_ratio; try done. split; [lia|]. left. lia.
Qed.
