(* ===== verification/FpuArith.v ===== *)
(** * The floating-point arithmetic is correctly rounded

    Under the host's default direction, which is the one the program runs with, the
    result of an addition, subtraction, multiplication or fused multiply-add of
    numbers is the double nearest to the exact value; the conversions to integer
    round in the direction asked for and saturate. *)
From S2P Require Import Prelude Word Float PpcState CondReg Timers MemCtrl Machine Fpu FpuProps FpuType FpuRound.
Import FPSCR.

(** ** The host's operations *)

Definition finite (x : Z) : Prop := word64 x /\ isnan x = false /\ isinf x = false.

Lemma zero_nearest M s : nearest 0 M (zero64 s).
Proof. split; [by destruct s|]. intros y _ _. assert (f_value (zero64 s) = 0) as -> by (by destruct s). split; [lia|]. intros _. right. by destruct s. Qed.

Lemma scale_min x : -1074 <= f_scale binary64 x.
Proof. unfold f_scale. change (emin binary64) with (-1074). lia. Qed.

Lemma f_value_fneg x : word64 x -> f_value (fneg x) = - f_value x /\ isnan (fneg x) = isnan x /\ isinf (fneg x) = isinf x /\
  Z.even (fneg x) = Z.even x /\ fneg (fneg x) = x.
Proof.
  intros Hx. unfold fneg. change (sign_bit binary64) with (2 ^ 63).
  assert (Z.land (Z.shiftr (Z.lxor x (2 ^ 63)) 52) (Z.ones 11) = Z.land (Z.shiftr x 52) (Z.ones 11)) as E1.
  { apply Z.bits_inj'. intros i Hi. rewrite !Z.land_spec, !Z.shiftr_spec, Z.lxor_spec, testbit_2p by lia.
    destruct (Z.lt_ge_cases i 11); [|by rewrite Z.ones_spec_high, !andb_false_r by lia].
    rewrite (proj2 (Z.eqb_neq _ _)) by lia. by rewrite xorb_false_r. }
  assert (Z.land (Z.lxor x (2 ^ 63)) (Z.ones 52) = Z.land x (Z.ones 52)) as E2.
  { apply Z.bits_inj'. intros i Hi. rewrite !Z.land_spec, Z.lxor_spec, testbit_2p by lia.
    destruct (Z.lt_ge_cases i 52); [|by rewrite Z.ones_spec_high, !andb_false_r by lia].
    rewrite (proj2 (Z.eqb_neq _ _)) by lia. by rewrite xorb_false_r. }
  assert (f_exp binary64 (Z.lxor x (2 ^ 63)) = f_exp binary64 x) as F1 by exact E1.
  assert (f_frac binary64 (Z.lxor x (2 ^ 63)) = f_frac binary64 x) as F2 by exact E2.
  split_and!.
  - unfold f_value, signed_mant, f_mant, f_scale. rewrite F1, F2.
    assert (sign64 (Z.lxor x (2 ^ 63)) = negb (sign64 x)) as ->; [|destruct (sign64 x); cbn [negb]; ring].
    unfold f_sign. cbn [frac_bits exp_bits binary64]. rewrite Z.lxor_spec. change (Z.testbit (2 ^ 63) (52 + 11)) with true.
    by destruct (Z.testbit x _).
  - unfold is_nan. by rewrite F1, F2.
  - unfold is_inf. by rewrite F1, F2.
  - rewrite <- !Z.negb_odd, <- !Z.bit0_odd, Z.lxor_spec. change (Z.testbit (2 ^ 63) 0) with false. by rewrite xorb_false_r.
  - by rewrite Z.lxor_assoc, Z.lxor_nilpotent, Z.lxor_0_r.
Qed.

Lemma finite_fneg x : finite x -> finite (fneg x).
Proof. intros (H1 & H2 & H3). unfold finite. destruct (f_value_fneg x H1) as (_ & -> & -> & _). split_and!; [by apply fneg_word | done..]. Qed.

Lemma nearest_neg V M r : word64 r -> nearest V M r -> nearest (- V) M (fneg r).
Proof.
  intros Hr [H1 H2]. destruct (f_value_fneg r Hr) as (E1 & E2 & _ & E4 & _). split; [by rewrite E2|]. intros y Hy Hn.
  destruct (f_value_fneg y Hy) as (Y1 & Y2 & _). destruct (H2 (fneg y)) as [N1 N2]; [by apply fneg_word | by rewrite Y2|].
  rewrite Y1 in N1, N2. rewrite E1, E4.
  replace (- V - - f_value r * M) with (- (V - f_value r * M)) by ring.
  replace (- V - f_value y * M) with (- (V - - f_value y * M)) by ring. rewrite !Z.abs_opp. split; [done|].
  intros E. destruct (N2 E); [left; lia | by right].
Qed.

Section Host.
Context `{HostFpuOk}.

Lemma normalize_nearest n e K szero : 0 <= K -> 0 <= e + 1074 + K ->
  nearest (n * 2 ^ (e + 1074 + K)) (2 ^ K) (normalize 0 n e szero).1.
Proof.
  intros HK He. unfold normalize. destruct (Z.eqb_spec n 0) as [->|Hn]; [apply zero_nearest|].
  assert (n * 2 ^ (e + 1074 + K) = (if n <? 0 then -1 else 1) * (Z.abs n * 2 ^ (e + 1074 + K))) as ->.
  { destruct (Z.ltb_spec n 0); [rewrite Z.abs_neq by lia | rewrite Z.abs_eq by lia]; ring. }
  apply fround_nearest; lia.
Qed.

Lemma aligned_value n1 e1 n2 e2 b : 0 <= Z.min e1 e2 + b ->
  let '(n, e) := aligned_sum n1 e1 n2 e2 in e = Z.min e1 e2 /\ n * 2 ^ (e + b) = n1 * 2 ^ (e1 + b) + n2 * 2 ^ (e2 + b).
Proof.
  intros Hb. unfold aligned_sum. split; [done|]. rewrite !Z.shiftl_mul_pow2, Z.mul_add_distr_r, <- !Z.mul_assoc, <- !Z.pow_add_r by lia.
  f_equal; do 2 f_equal; lia.
Qed.

Lemma add_nearest op l x y : finite x -> finite y -> nearest (f_value x + f_value y) 1 (add_numbers op l 0 x y).1.
Proof.
  intros (_ & _ & Hx) (_ & _ & Hy). unfold add_numbers. rewrite Hx, Hy. pose proof (scale_min x). pose proof (scale_min y).
  pose proof (aligned_value (signed_mant x) (f_scale binary64 x) (signed_mant y) (f_scale binary64 y) 1074 ltac:(lia)) as Ha.
  destruct (aligned_sum _ _ _ _) as [n e]. destruct Ha as [He Hv]. unfold f_value. rewrite <- Hv.
  replace (e + 1074) with (e + 1074 + 0) by lia. apply (normalize_nearest n e 0); lia.
Qed.

Lemma fadd_nearest x y : finite x -> finite y -> nearest (f_value x + f_value y) 1 (fadd 0 x y).1.
Proof. intros Hx Hy. unfold fadd. rewrite (proj1 (proj2 Hx)), (proj1 (proj2 Hy)). by apply add_nearest. Qed.

Lemma fsub_nearest x y : finite x -> finite y -> nearest (f_value x - f_value y) 1 (fsub 0 x y).1.
Proof.
  intros Hx Hy. unfold fsub. rewrite (proj1 (proj2 Hx)), (proj1 (proj2 Hy)). cbn [orb].
  replace (f_value x - f_value y) with (f_value x + f_value (fneg y)) by (rewrite (proj1 (f_value_fneg y (proj1 Hy))); ring).
  by apply add_nearest, finite_fneg.
Qed.

Lemma f_value_mul x y : f_value x * f_value y =
  signed_mant x * signed_mant y * 2 ^ (f_scale binary64 x + f_scale binary64 y + 2148).
Proof.
  unfold f_value. pose proof (scale_min x). pose proof (scale_min y).
  replace (f_scale binary64 x + f_scale binary64 y + 2148) with ((f_scale binary64 x + 1074) + (f_scale binary64 y + 1074)) by lia.
  rewrite (Z.pow_add_r 2 (f_scale binary64 x + 1074) (f_scale binary64 y + 1074)) by lia. ring.
Qed.

Lemma mant_zero x : iszero x = true -> f_mant binary64 x = 0.
Proof. unfold is_zero, f_mant. intros [H1 H2]%andb_true_iff. rewrite H1. by apply Z.eqb_eq. Qed.

Lemma signed_mant_zero x : iszero x = true -> signed_mant x = 0.
Proof. intros Hx. unfold signed_mant. rewrite mant_zero by done. by destruct (sign64 x). Qed.

Lemma fmul_nearest x y : finite x -> finite y -> nearest (f_value x * f_value y) (2 ^ 1074) (fmul 0 x y).1.
Proof.
  intros (_ & Nx & Ix) (_ & Ny & Iy). unfold fmul. rewrite Nx, Ny, Ix, Iy. cbn [andb orb]. rewrite andb_false_r. cbn [orb].
  rewrite f_value_mul. pose proof (scale_min x). pose proof (scale_min y).
  destruct (iszero x) eqn:Zx; [rewrite (signed_mant_zero x), !Z.mul_0_l by done; apply zero_nearest|].
  destruct (iszero y) eqn:Zy; [rewrite (signed_mant_zero y), !Z.mul_0_r, Z.mul_0_l by done; apply zero_nearest|]. cbn [orb].
  pose proof (mant_pos _ _ binary64_ok Zx). pose proof (mant_pos _ _ binary64_ok Zy).
  assert (signed_mant x * signed_mant y = (if xorb (sign64 x) (sign64 y) then -1 else 1) * (f_mant binary64 x * f_mant binary64 y)) as ->.
  { unfold signed_mant. destruct (sign64 x), (sign64 y); cbn [xorb]; ring. }
  rewrite <- Z.mul_assoc. replace 2148 with (1074 + 1074) by lia. rewrite Z.add_assoc. apply fround_nearest; nia.
Qed.

Lemma ffma_nearest x y z : finite x -> finite y -> finite z ->
  nearest (f_value x * f_value y + f_value z * 2 ^ 1074) (2 ^ 1074) (ffma 0 x y z).1.
Proof.
  intros (_ & Nx & Ix) (_ & Ny & Iy) (_ & Nz & Iz). unfold ffma. rewrite Nx, Ny, Nz, Ix, Iy, Iz. cbn [andb orb].
  rewrite andb_false_r. cbn [orb]. rewrite f_value_mul. pose proof (scale_min x). pose proof (scale_min y). pose proof (scale_min z).
  pose proof (aligned_value (signed_mant x * signed_mant y) (f_scale binary64 x + f_scale binary64 y) (signed_mant z)
    (f_scale binary64 z) 2148 ltac:(lia)) as Ha.
  destruct (aligned_sum _ _ _ _) as [n e]. destruct Ha as [He Hv].
  replace (f_value z * 2 ^ 1074) with (signed_mant z * 2 ^ (f_scale binary64 z + 2148)).
  - rewrite <- Hv. replace (e + 2148) with (e + 1074 + 1074) by lia. apply normalize_nearest; lia.
  - unfold f_value. rewrite <- Z.mul_assoc, <- Z.pow_add_r by lia. do 2 f_equal. lia.
Qed.

Lemma quotient_stands mx my k : 0 < mx -> 0 < my -> k = Z.max 0 (56 + Z.log2 my - Z.log2 mx) ->
  let '(q, r) := Z.div_eucl (Z.shiftl mx k) my in
  let m := 2 * q + b2z (negb (r =? 0)) in
  0 < m /\ forall e, stands_for m e (Z.max (e + (Z.log2 m + 1) - 53) (-1074)) (2 * (mx * 2 ^ k)) my.
Proof.
  intros Hx Hy Hk. pose proof (Z.log2_nonneg mx). pose proof (Z.log2_nonneg my). assert (0 <= k) as Hk0 by lia.
  rewrite Z.shiftl_mul_pow2 by lia. pose proof (Z_div_mod (mx * 2 ^ k) my ltac:(lia)) as Hd.
  destruct (Z.div_eucl _ _) as [q r]. destruct Hd as [Hn Hr].
  assert (2 ^ 55 <= q) as Hq.
  { destruct (Z.log2_spec mx Hx) as [L1 _], (Z.log2_spec my Hy) as [_ L2].
    assert (2 ^ 55 * my < mx * 2 ^ k + 1); [|nia]. apply Z.lt_le_trans with (2 ^ 55 * 2 ^ Z.succ (Z.log2 my)); [lia|].
    rewrite <- Z.pow_add_r by lia. apply Z.le_trans with (2 ^ (Z.log2 mx + k)); [apply Z.pow_le_mono_r; lia|].
    rewrite Z.pow_add_r by lia. pose proof (Z.pow_pos_nonneg 2 k ltac:(lia) Hk0). nia. }
  cbv zeta. rewrite Hn. split; [pose proof (b2z_range (negb (r =? 0))); lia|]. intros e. split; [done|].
  destruct (Z.eqb_spec r 0) as [->|Hr0]; cbn [negb Z.b2z]; [left; ring|]. right. split_and!.
  - rewrite Z.odd_add, Z.odd_mul. done.
  - assert (56 <= Z.log2 (2 * q + 1)); [|lia]. apply Z.log2_le_pow2; lia.
  - nia.
  - nia.
Qed.

Lemma nearest_scale c V M r : 0 < c -> nearest (c * V) (c * M) r -> nearest V M r.
Proof.
  intros Hc [H1 H2]. split; [done|]. intros y Hy Hn. destruct (H2 y Hy Hn) as [N1 N2].
  assert (forall a, c * V - a * (c * M) = c * (V - a * M)) as E by (intros; ring).
  rewrite !E, !Z.abs_mul, (Z.abs_eq c) in N1, N2 by lia. split; [nia|]. intros Ea. apply N2. by rewrite Ea.
Qed.

Lemma nearest_signs (sx sy : bool) V M r : nearest ((if xorb sx sy then -1 else 1) * V) M r ->
  nearest ((if sx then -1 else 1) * V) ((if sy then -1 else 1) * M) r.
Proof.
  intros [H1 H2]. split; [done|]. intros y Hy Hn. destruct (H2 y Hy Hn) as [N1 N2].
  assert (forall a, Z.abs ((if sx then -1 else 1) * V - a * ((if sy then -1 else 1) * M)) =
                    Z.abs ((if xorb sx sy then -1 else 1) * V - a * M)) as E.
  { intros a. replace (a * ((if sy then -1 else 1) * M)) with ((if sy then -1 else 1) * (a * M)) by ring. generalize (a * M). intros b.
    destruct sx, sy; cbn [xorb]; lia. }
  by rewrite !E.
Qed.

Lemma fdiv_nearest x y : finite x -> finite y -> iszero y = false ->
  nearest (f_value x * 2 ^ 1074) (f_value y) (fdiv 0 x y).1.
Proof.
  intros (_ & Nx & Ix) (_ & Ny & Iy) Zy. unfold fdiv. rewrite Nx, Ny, Ix, Iy, Zy. cbn [andb orb]. rewrite !andb_false_r. cbn [orb].
  destruct (iszero x) eqn:Zx; [unfold f_value at 1; rewrite (signed_mant_zero x), !Z.mul_0_l by done; apply zero_nearest|].
  pose proof (scale_min x). pose proof (scale_min y).
  pose proof (mant_pos _ _ binary64_ok Zx) as Hx. pose proof (mant_pos _ _ binary64_ok Zy) as Hy.
  assert (f_value x * 2 ^ 1074 = (if sign64 x then -1 else 1) * (f_mant binary64 x * 2 ^ (f_scale binary64 x + 1074) * 2 ^ 1074)) as ->
    by (unfold f_value, signed_mant; destruct (sign64 x); ring).
  assert (f_value y = (if sign64 y then -1 else 1) * (f_mant binary64 y * 2 ^ (f_scale binary64 y + 1074))) as ->
    by (unfold f_value, signed_mant; destruct (sign64 y); ring).
  apply nearest_signs. cbv zeta. set (k := Z.max 0 _). pose proof (quotient_stands _ _ k Hx Hy eq_refl) as Hq.
  destruct (Z.div_eucl _ _) as [q r]. destruct Hq as [Hm Hst]. assert (0 <= k) by lia.
  set (K := f_scale binary64 y + k + 1 + 1074). set (e := f_scale binary64 x - f_scale binary64 y - k - 1).
  assert (0 < 2 * (f_mant binary64 x * 2 ^ k)) as HN by (pose proof (Z.pow_pos_nonneg 2 k); nia).
  pose proof (fround_nearest_ratio tiny_after_rounding (xorb (sign64 x) (sign64 y)) _ e K _ _ Hm HN
    ltac:(unfold K; lia) ltac:(unfold e, K; lia) (Hst e)) as Hf.
  apply (nearest_scale (2 ^ (k + 1))); [apply Z.pow_pos_nonneg; lia|].
  match type of Hf with nearest ?V ?M _ => match goal with |- nearest ?V' ?M' _ =>
    replace V' with V; [replace M' with M; [exact Hf|]|] end end.
  - unfold K. replace (2 ^ (k + 1) * (f_mant binary64 y * 2 ^ (f_scale binary64 y + 1074))) with
      (2 ^ (k + 1) * 2 ^ (f_scale binary64 y + 1074) * f_mant binary64 y) by ring. rewrite <- Z.pow_add_r by lia. do 2 f_equal. lia.
  - unfold e, K. match goal with |- ?s * _ = _ => generalize s end. intros s.
    replace (2 ^ (k + 1) * (s * (f_mant binary64 x * 2 ^ (f_scale binary64 x + 1074) * 2 ^ 1074))) with
      (s * f_mant binary64 x * (2 ^ (k + 1) * 2 ^ (f_scale binary64 x + 1074) * 2 ^ 1074)) by ring.
    rewrite (Z.pow_add_r 2 k 1) by lia. change (2 ^ 1) with 2.
    replace (f_scale binary64 x - f_scale binary64 y - k - 1 + 1074 + (f_scale binary64 y + k + 1 + 1074)) with
      (f_scale binary64 x + 1074 + 1074) by lia. rewrite (Z.pow_add_r 2 (f_scale binary64 x + 1074)) by lia. ring.
Qed.
End Host.

(** ** The instructions *)

Lemma finite_not_inf a : finite a -> feq a infinity = false /\ feq a (fneg infinity) = false.
Proof.
  intros (Ha & Hn & Hi). assert (word64 infinity /\ word64 (fneg infinity)) as [Hp Hm] by (by split).
  unfold feq. rewrite !order_key_fields, Hn by done. destruct (fields_range binary64 binary64_ok a) as [HE HF].
  cbn [frac_bits exp_bits binary64] in *. unfold is_nan in Hn. unfold is_inf in Hi.
  change (Z.ones (exp_bits binary64)) with 2047 in *.
  change (sign64 infinity) with false. change (sign64 (fneg infinity)) with true.
  change (f_exp binary64 infinity) with 2047. change (f_exp binary64 (fneg infinity)) with 2047.
  change (f_frac binary64 infinity) with 0. change (f_frac binary64 (fneg infinity)) with 0.
  change (isnan infinity) with false. change (isnan (fneg infinity)) with false. cbn [negb andb].
  assert (f_exp binary64 a <> 2047) as Hne.
  { intros E. rewrite E, Z.eqb_refl in Hn, Hi. cbn [andb] in *. by rewrite Hi in Hn. }
  split; apply Z.eqb_neq; destruct (sign64 a); lia.
Qed.

Lemma finite_no_snan a : finite a -> check_snan a = false.
Proof. intros (Ha & Hn & _). rewrite check_snan_correct by done. unfold signalling. by rewrite Hn. Qed.

(** [k] returns having stored [r] in register [d] and no other floating-point register. *)
Definition gives (k : M machine unit) (m : machine) (d r : Z) : Prop :=
  exists m', k m = (Ret tt, m') /\ fpr (cpu m') = (fpr (cpu m)).[d := r].

Lemma gives_after {A} (x : M machine A) k m a m1 d r :
  x m = (Ret a, m1) -> fpr (cpu m1) = fpr (cpu m) -> gives (k a) m1 d r -> gives (bind x k) m d r.
Proof. intros Ex Ef (m' & E & F). exists m'. split; [by rewrite (bind_ret x k m a m1)|]. by rewrite <- Ef. Qed.

Lemma gives_then k k' m d r : gives k m d r -> (forall m1, exists m', k' m1 = (Ret tt, m') /\ fpr (cpu m') = fpr (cpu m1)) ->
  gives (bind k (fun _ => k')) m d r.
Proof.
  intros (m1 & E & F) Hk. destruct (Hk m1) as (m' & E' & F'). exists m'. split; [|by rewrite F'].
  by rewrite (bind_ret k (fun _ => k') m tt m1).
Qed.

(** What keeps the floating-point registers. *)
Definition keeps_fpr (k : M machine unit) : Prop := forall m, exists m', k m = (Ret tt, m') /\ fpr (cpu m') = fpr (cpu m).

Lemma keeps_mcpu f : (forall s, fpr (f s) = fpr s) -> keeps_fpr (mcpu f).
Proof. intros Hf m. exists (upd_cpu f m). split; [done | apply Hf]. Qed.

Lemma keeps_when b k : keeps_fpr k -> keeps_fpr (when b k).
Proof. intros Hk m. destruct b; [apply Hk | by exists m]. Qed.

Lemma keeps_bind {A} (x : M machine A) k : (forall m, exists a m', x m = (Ret a, m') /\ fpr (cpu m') = fpr (cpu m)) ->
  (forall a, keeps_fpr (k a)) -> keeps_fpr (bind x k).
Proof.
  intros Hx Hk m. destruct (Hx m) as (a & m1 & E1 & F1). destruct (Hk a m1) as (m2 & E2 & F2). exists m2.
  split; [by rewrite (bind_ret x k m a m1)|]. by rewrite F2.
Qed.

Lemma keeps_then k k' : keeps_fpr k -> keeps_fpr k' -> keeps_fpr (bind k (fun _ => k')).
Proof. intros Hk Hk'. apply keeps_bind; [|done]. intros m. exists tt. apply Hk. Qed.

Lemma keeps_finish rec r : keeps_fpr (fp_finish rec r).
Proof.
  apply keeps_then; [|by apply keeps_when, keeps_mcpu]. unfold fpresult_update. destruct (isnan r); [by apply keeps_mcpu|].
  apply keeps_then; [by apply keeps_mcpu|]. apply keeps_bind; [intros m; by do 2 eexists|]. intros fl.
  repeat apply keeps_then; by apply keeps_when, keeps_mcpu.
Qed.

Lemma gives_store d r rec m : gives (bind (store_fpresult false d r) (fun _ => fp_finish rec r)) m d r.
Proof. apply gives_then; [|apply keeps_finish]. exists (upd_cpu (ppc_store_fpresult_flt d r) m). done. Qed.

(** The end of an instruction none of whose operands is a signalling NaN. *)
Lemma gives_double rec m a b d r : check_snan (FPR_INT (cpu m) a) = false -> check_snan (FPR_INT (cpu m) b) = false ->
  gives (snan <- snan_double_check a b ;; store_fpresult snan d r ;;; fp_finish rec r) m d r.
Proof.
  intros Ha Hb. apply (gives_after _ _ m false m); [|done | apply gives_store]. unfold snan_double_check, bind at 1.
  cbn [gets]. by rewrite Ha, Hb.
Qed.

Lemma single_quiet m a : check_snan (FPR_INT (cpu m) a) = false -> snan_single_check a m = (Ret false, m).
Proof. intros Ha. unfold snan_single_check, bind at 1. cbn [gets]. by rewrite Ha. Qed.

Lemma gives_triple rec m a b c d r : check_snan (FPR_INT (cpu m) a) = false -> check_snan (FPR_INT (cpu m) b) = false ->
  check_snan (FPR_INT (cpu m) c) = false ->
  gives (snan <- snan_checks a b c ;; store_fpresult snan d r ;;; fp_finish rec r) m d r.
Proof.
  intros Ha Hb Hc. apply (gives_after _ _ m false m); [|done | apply gives_store]. unfold snan_checks.
  rewrite (bind_ret _ _ m false m) by (by apply single_quiet). rewrite (bind_ret _ _ m false m) by (by apply single_quiet).
  by apply single_quiet.
Qed.

Lemma gives_host (f : Z -> Z * fp_flags) k m d r rm : fe_round (fenv m) = rm ->
  (forall m1, cpu m1 = cpu m -> gives (k (f rm).1) m1 d r) -> gives (bind (host_fp f) k) m d r.
Proof.
  intros <- Hk. unfold host_fp. destruct (f (fe_round (fenv m))) as [v fl] eqn:E. cbn [fst] in Hk.
  eapply gives_after; [by rewrite E | done|]. by apply Hk.
Qed.

(** [k] stores in register [d] the double nearest to [V / M]. *)
Definition rounds_to (k : M machine unit) (m : machine) (d V M : Z) : Prop := exists r, gives k m d r /\ nearest V M r.

Lemma host_double rec m a b c flag d f : c = false -> check_snan (FPR_INT (cpu m) a) = false ->
  check_snan (FPR_INT (cpu m) b) = false -> fe_round (fenv m) = 0 ->
  gives (r <- host_fp f ;; r <- invalid_operation c flag r ;; snan <- snan_double_check a b ;;
         store_fpresult snan d r ;;; fp_finish rec r) m d (f 0).1.
Proof.
  intros -> Ha Hb Hr. apply (gives_host _ _ m d _ 0 Hr). intros m1 E. rewrite <- E in Ha, Hb.
  by apply (gives_after _ _ m1 (f 0).1 m1); [..|apply gives_double].
Qed.

Lemma host_triple rec m a b c c1 c2 flag1 flag2 d f (post : Z -> Z) : c1 = false -> c2 = false -> check_snan (FPR_INT (cpu m) a) = false ->
  check_snan (FPR_INT (cpu m) b) = false -> check_snan (FPR_INT (cpu m) c) = false -> fe_round (fenv m) = 0 ->
  gives (r <- host_fp f ;; r <- invalid_operation c1 flag1 (post r) ;; r <- invalid_operation c2 flag2 r ;; snan <- snan_checks a b c ;;
         store_fpresult snan d r ;;; fp_finish rec r) m d (post (f 0).1).
Proof.
  intros -> -> Ha Hb Hc Hr. apply (gives_host _ _ m d _ 0 Hr). intros m1 E. rewrite <- E in Ha, Hb, Hc.
  apply (gives_after _ _ m1 (post (f 0).1) m1); [done..|]. by apply (gives_after _ _ m1 (post (f 0).1) m1); [..|apply gives_triple].
Qed.

Lemma no_opposite a b : finite a -> opposite_infinities a b = false.
Proof. intros Ha. unfold opposite_infinities. destruct (finite_not_inf a Ha) as [-> ->]. done. Qed.

Lemma no_inf_zero a c : finite a -> finite c -> inf_times_zero a c = false.
Proof. intros (_ & _ & Ha) (_ & _ & Hc). unfold inf_times_zero. by rewrite Ha, Hc. Qed.

Lemma feq_zero b : finite b -> feq b 0 = iszero b.
Proof.
  intros (Hb & Hn & _). unfold feq. rewrite Hn. change (isnan 0) with false. cbn [negb andb]. rewrite !order_key_fields by done.
  change (sign64 0) with false. change (f_exp binary64 0) with 0. change (f_frac binary64 0) with 0.
  destruct (fields_range binary64 binary64_ok b). cbn [frac_bits exp_bits binary64] in *. unfold is_zero.
  destruct (Z.eqb_spec (f_exp binary64 b) 0), (Z.eqb_spec (f_frac binary64 b) 0); cbn [andb].
  1: apply Z.eqb_eq; destruct (sign64 b); lia.
  all: apply Z.eqb_neq; destruct (sign64 b); lia.
Qed.

Section Instructions.
Context `{HostFpuOk} (rec : field_rc) (opcode : Z) (m : machine).
Let a := GET_FPR (cpu m) (field_a opcode).
Let b := GET_FPR (cpu m) (field_b opcode).
Let c := GET_FPR (cpu m) (field_c opcode).
Context (Hr : fe_round (fenv m) = 0) (Ha : finite a).

Ltac operands := eapply gives_after; [done..|];
  cbv beta iota zeta delta [ppc_grab_regsfpdab ppc_grab_regsfpdac ppc_grab_regsfpdabc decode_ops_dab decode_ops_da]; fold a b c.

Lemma fadd_rounds : finite b -> rounds_to (ppc_fadd rec opcode) m (field_d opcode) (f_value a + f_value b) 1.
Proof.
  intros Hb. exists (fadd 0 a b).1. split; [|by apply fadd_nearest]. unfold ppc_fadd. operands.
  unfold max_double_check, when. destruct (_ || _);
    (eapply gives_after; [done..|]); by apply host_double; [apply no_opposite | apply finite_no_snan..|].
Qed.

Lemma fsub_rounds : finite b -> rounds_to (ppc_fsub rec opcode) m (field_d opcode) (f_value a - f_value b) 1.
Proof.
  intros Hb. exists (fsub 0 a b).1. split; [|by apply fsub_nearest]. unfold ppc_fsub. operands.
  by apply host_double; [rewrite (proj1 (finite_not_inf a Ha)) | apply finite_no_snan..|].
Qed.

Lemma fmul_rounds : finite c -> rounds_to (ppc_fmul rec opcode) m (field_d opcode) (f_value a * f_value c) (2 ^ 1074).
Proof.
  intros Hc. exists (fmul 0 a c).1. split; [|by apply fmul_nearest]. unfold ppc_fmul. operands.
  rewrite (proj1 (proj2 Ha)), (proj1 (proj2 Hc)).
  by apply (host_double rec m _ _ _ VXIMZ _ (fun rm => fmul rm a c)); [apply no_inf_zero | apply finite_no_snan..|].
Qed.

Lemma fdiv_rounds : finite b -> iszero b = false ->
  rounds_to (ppc_fdiv rec opcode) m (field_d opcode) (f_value a * 2 ^ 1074) (f_value b).
Proof.
  intros Hb Hz. exists (fdiv 0 a b).1. split; [|by apply fdiv_nearest]. unfold ppc_fdiv. operands.
  assert ((FPR_INT (cpu m) (field_b opcode) =? 0x8000000000000000) = false) as ->.
  { apply Z.eqb_neq. intros E. unfold b, FPR_INT in *. by rewrite E in Hz. }
  rewrite andb_false_r. cbn [andb]. rewrite (feq_zero b Hb), Hz, (proj2 (proj2 Ha)). cbn [andb when]. rewrite andb_false_r.
  apply (gives_host _ _ m _ _ 0 Hr). intros m1 E. do 2 (eapply gives_after; [done..|]). eapply gives_after; [done..|].
  apply gives_double; rewrite E; by apply finite_no_snan.
Qed.

Lemma fma_rounds : finite b -> finite c ->
  let add := f_value a * f_value c + f_value b * 2 ^ 1074 in
  let sub := f_value a * f_value c - f_value b * 2 ^ 1074 in
  let stores k V := rounds_to (k rec opcode) m (field_d opcode) V (2 ^ 1074) in
  stores ppc_fmadd add /\ stores ppc_fmsub sub /\ stores ppc_fnmadd (- add) /\ stores ppc_fnmsub (- sub).
Proof.
  intros Hb Hc add sub stores. pose proof (finite_no_snan a Ha) as Sa. pose proof (finite_no_snan b Hb) as Sb. pose proof (finite_no_snan c Hc) as Sc.
  assert (nearest add (2 ^ 1074) (ffma 0 a c b).1) as Nadd by (by apply ffma_nearest).
  assert (nearest sub (2 ^ 1074) (ffma 0 a c (fneg b)).1) as Nsub.
  { replace sub with (f_value a * f_value c + f_value (fneg b) * 2 ^ 1074)
      by (rewrite (proj1 (f_value_fneg b (proj1 Hb))); unfold sub; ring). by apply ffma_nearest; [..|apply finite_fneg]. }
  assert (word64 (ffma 0 a c b).1 /\ word64 (ffma 0 a c (fneg b)).1) as [Wadd Wsub].
  { split; apply ffma_word; [apply Hb | apply fneg_word, Hb]. }
  split_and!.
  - exists (ffma 0 a c b).1. split; [|done]. unfold ppc_fmadd. operands.
    by apply (host_triple rec m _ _ _ _ _ VXISI VXIMZ _ (fun rm => ffma rm a c b) (fun r => r)); [apply no_opposite | apply no_inf_zero|..].
  - exists (ffma 0 a c (fneg b)).1. split; [|done]. unfold ppc_fmsub. operands.
    rewrite (proj1 (proj2 Ha)), (proj1 (proj2 Hb)), (proj1 (proj2 Hc)).
    by apply (host_triple rec m _ _ _ _ _ VXIMZ VXISI _ (fun rm => ffma rm a c (fneg b)) (fun r => r)); [apply no_inf_zero | apply no_opposite|..].
  - exists (fneg (ffma 0 a c b).1). split; [|by apply nearest_neg]. unfold ppc_fnmadd. operands.
    pose proof (host_triple rec m (field_a opcode) (field_b opcode) (field_c opcode) _ _ VXISI VXIMZ (field_d opcode) (fun rm => ffma rm a c b)
      (fun r => if isnan (fneg r) then quiet_NaN else fneg r) (no_opposite a b Ha) (no_inf_zero a c Ha Hc) Sa Sb Sc Hr) as Hg.
    cbv beta in Hg. rewrite (proj1 (proj2 (f_value_fneg _ Wadd))), (proj1 Nadd) in Hg. exact Hg.
  - exists (fneg (ffma 0 a c (fneg b)).1). split; [|by apply nearest_neg]. unfold ppc_fnmsub. operands.
    by apply (host_triple rec m _ _ _ _ _ VXIMZ VXISI _ (fun rm => ffma rm a c (fneg b)) fneg); [apply no_inf_zero | apply no_opposite|..].
Qed.
End Instructions.

(** C19: the double-precision arithmetic is correctly rounded.  With numbers as
    operands and the host in its default direction, [fadd], [fsub], [fmul], [fdiv]
    (by a number other than zero) and the four fused multiply-adds store in FPR[frD],
    and in no other register, the double nearest to the exact result - the even one
    of two equally near, an infinity standing for 2^1024 - the fused ones rounding
    once.  The values are in units of 2^-1074, products in units of 2^-2148. *)
Theorem arithmetic_nearest `{HostFpuOk} rec opcode m : fe_round (fenv m) = 0 ->
  let a := (fpr (cpu m)).[field_a opcode] in
  let b := (fpr (cpu m)).[field_b opcode] in
  let c := (fpr (cpu m)).[field_c opcode] in
  let stores k V M := rounds_to (k rec opcode) m (field_d opcode) V M in
  let product := f_value a * f_value c in
  let addend := f_value b * 2 ^ 1074 in
  finite a ->
  (finite b -> stores ppc_fadd (f_value a + f_value b) 1 /\ stores ppc_fsub (f_value a - f_value b) 1) /\
  (finite c -> stores ppc_fmul product (2 ^ 1074)) /\
  (finite b -> iszero b = false -> stores ppc_fdiv (f_value a * 2 ^ 1074) (f_value b)) /\
  (finite b -> finite c ->
     stores ppc_fmadd (product + addend) (2 ^ 1074) /\ stores ppc_fmsub (product - addend) (2 ^ 1074) /\
     stores ppc_fnmadd (- (product + addend)) (2 ^ 1074) /\ stores ppc_fnmsub (- (product - addend)) (2 ^ 1074)).
Proof.
  intros Hr a b c stores product addend Ha. split; [|split; [|split]].
  - intros Hb. split; [exact (fadd_rounds rec opcode m Hr Ha Hb) | exact (fsub_rounds rec opcode m Hr Ha Hb)].
  - exact (fmul_rounds rec opcode m Hr Ha).
  - exact (fdiv_rounds rec opcode m Hr Ha).
  - exact (fma_rounds rec opcode m Hr Ha).
Qed.

(** FPR 1 and FPR 2 hold 1.0 and 3.0. *)
Definition demo_quotient : machine :=
  upd_cpu (with_fpr (((fpr (cpu demo_machine)).[1 := 0x3FF0000000000000]).[2 := 0x4008000000000000])) demo_machine.

Lemma arithmetic_nearest_witness :
  rounds_to (@ppc_fdiv default_fpu RC0 0xFC611024) demo_quotient (field_d 0xFC611024)
    (f_value 0x3FF0000000000000 * 2 ^ 1074) (f_value 0x4008000000000000).
Proof.
  destruct (@arithmetic_nearest default_fpu default_fpu_ok RC0 0xFC611024 demo_quotient eq_refl ltac:(by vm_compute)) as (_ & _ & H & _).
  apply H; by vm_compute.
Defined.
