(* ===== verification/FpuConv.v ===== *)
(** * Conversion of doubles to integers (cpu/ppc/ppcfpopcodes.cpp)

    [fctiw] and [fctiwz] round in the direction asked for, and saturate what does
    not fit 32 bits. *)
From S2P Require Import Prelude Word Float PpcState CondReg Timers MemCtrl Machine Fpu FpuProps FpuType FpuRound.
Import FPSCR.

(** [n] is [V / U] rounded to an integer. *)
Definition rounded (mode V U n : Z) : Prop :=
  match mode with
  | 0 => 2 * Z.abs (V - n * U) <= U /\ (2 * Z.abs (V - n * U) = U -> Z.even n = true)
  | 1 => n = Z.quot V U
  | 2 => n = - (- V / U)
  | _ => n = V / U
  end.

Lemma rounded_exact mode n U : 0 < U -> rounded mode (n * U) U n.
Proof.
  intros HU. unfold rounded. repeat case_match; rewrite ?Z.sub_diag, ?Z.quot_mul, ?Z.div_mul by lia; try done.
  all: try (rewrite <- Z.mul_opp_l, Z.div_mul by lia; lia). cbn. split; [lia|]. intros. lia.
Qed.

(** The magnitude rounded as [round_at] does, with its sign. *)
Lemma rounded_signed mode (s : bool) m h : 0 <= m -> 0 < h -> 0 <= mode < 4 ->
  let U := 2 * h in
  let n := m / U + b2z (round_up mode s (m / U) (m mod U) h) in
  let sg x := if s then - x else x in
  rounded mode (sg m) U (sg n).
Proof.
  intros Hm Hh Hmode U n sg. unfold n. clear n. pose proof (Z.div_mod m U ltac:(lia)) as Hd. pose proof (Z.mod_pos_bound m U ltac:(lia)) as Hr.
  assert (0 <= m / U) as Hq by (apply Z.div_pos; lia).
  assert (- m / U = if m mod U =? 0 then - (m / U) else - (m / U) - 1) as Ho.
  { destruct (Z.eqb_spec (m mod U) 0) as [E|E]; symmetry;
      [apply (Z.div_unique_pos _ _ _ 0) | apply (Z.div_unique_pos _ _ _ (U - m mod U))]; lia. }
  assert (Z.quot m U = m / U) as Hq1 by (apply Z.quot_div_nonneg; lia).
  assert (mode = 0 \/ mode = 1 \/ mode = 2 \/ mode = 3) as [-> |[-> |[-> | ->]]] by lia; cbn [rounded round_up].
  - revert Hd Hr. clear. generalize (m / U) (m mod U). intros q r -> Hr.
    assert (forall u, sg (U * q + r) - sg (q + u) * U = sg (r - u * U)) as E by (intros u; unfold sg; destruct s; ring).
    rewrite !E. assert (forall x, Z.abs (sg x) = Z.abs x) as -> by (intros; unfold sg; destruct s; lia).
    assert (forall x, Z.even (sg x) = Z.even x) as -> by (intros; unfold sg; destruct s; [apply Z.even_opp | done]).
    rewrite Z.even_add, <- (Z.negb_odd q). unfold U in *.
    destruct (Z.ltb_spec h r), (Z.eqb_spec h r); cbn [orb andb]; try lia; destruct (Z.odd q); cbn [Z.b2z negb eqb Z.even]; (split; [lia|]); intros; try done; lia.
  - cbn [Z.b2z]. rewrite Z.add_0_r. unfold sg. destruct s; [rewrite Z.quot_opp_l by lia|]; by rewrite Hq1.
  - unfold sg. destruct s; cbn [negb andb].
    + rewrite Z.opp_involutive. cbn [Z.b2z]. lia.
    + rewrite Ho. destruct (m mod U =? 0); cbn [negb Z.b2z]; lia.
  - unfold sg. destruct s; cbn [andb Z.b2z]; [|lia]. rewrite Ho. destruct (m mod U =? 0); cbn [negb Z.b2z]; lia.
Qed.

Lemma rounded_scale mode V U n c : 0 < c -> 0 < U -> rounded mode V U n -> rounded mode (V * c) (U * c) n.
Proof.
  intros Hc HU. unfold rounded. assert (V * c - n * (U * c) = (V - n * U) * c) as -> by ring. rewrite Z.abs_mul, (Z.abs_eq c) by lia.
  rewrite <- Z.mul_opp_l, Z.quot_mul_cancel_r, !Z.div_mul_cancel_r by lia. repeat case_match; try done. intros [H1 H2]. split; [nia|].
  intros E. apply H2. nia.
Qed.

Lemma round_integral_rounded mode x : 0 <= mode < 4 -> rounded mode (f_value x) (2 ^ 1074) (round_integral mode x).
Proof.
  intros Hm. assert (-1074 <= f_scale binary64 x) as Hs by (unfold f_scale; change (emin binary64) with (-1074); lia).
  pose proof (mant_nonneg binary64 x binary64_ok) as H0. unfold f_value, signed_mant, round_integral, round_at.
  revert Hs H0. generalize (f_scale binary64 x) (f_mant binary64 x) (sign64 x). intros e m s Hs H0.
  destruct (Z.leb_spec 0 e); cbn [fst].
  - rewrite Z.shiftl_mul_pow2, Z.sub_0_r by lia. rewrite Z.pow_add_r, Z.mul_assoc by lia.
    assert ((if s then - (m * 2 ^ e) else m * 2 ^ e) = (if s then - m else m) * 2 ^ e) as -> by (destruct s; ring).
    apply rounded_exact. by vm_compute.
  - rewrite Z.shiftr_div_pow2, Z.land_ones by lia. replace (0 - e) with (- e) by lia.
    assert (2 ^ 1074 = 2 ^ (- e) * 2 ^ (e + 1074)) as -> by (rewrite <- Z.pow_add_r by lia; f_equal; lia).
    assert (2 ^ (- e) = 2 * 2 ^ (- e - 1)) as Eh by (rewrite <- Z.pow_succ_r by lia; f_equal; lia).
    pose proof (Z.pow_pos_nonneg 2 (- e - 1) ltac:(lia) ltac:(lia)) as Hh.
    apply rounded_scale; [apply Z.pow_pos_nonneg; lia | lia |]. rewrite Eh. by apply rounded_signed.
Qed.

(** What fits 32 bits before rounding does after it. *)
Lemma rounded_fits mode V U n : 0 <= mode < 4 -> 0 < U -> - 2 ^ 31 * U <= V <= (2 ^ 31 - 1) * U -> rounded mode V U n -> - 2 ^ 31 <= n < 2 ^ 31.
Proof.
  intros Hm HU HV. assert (mode = 0 \/ mode = 1 \/ mode = 2 \/ mode = 3) as [-> |[-> |[-> | ->]]] by lia; cbn [rounded].
  - intros [H _]. destruct (Z.le_gt_cases (n * U) V); [|assert (n * U <= 2 ^ 31 * U) by nia]; nia.
  - intros ->. pose proof (Z.quot_le_mono (- 2 ^ 31 * U) V U HU ltac:(lia)). pose proof (Z.quot_le_mono V ((2 ^ 31 - 1) * U) U HU ltac:(lia)).
    rewrite Z.quot_mul in * by lia. lia.
  - intros ->. assert (- (2 ^ 31 - 1) <= - V / U) by (apply Z.div_le_lower_bound; lia).
    assert (- V / U <= 2 ^ 31) by (apply Z.div_le_upper_bound; lia). lia.
  - intros ->. assert (- 2 ^ 31 <= V / U) by (apply Z.div_le_lower_bound; lia).
    assert (V / U <= 2 ^ 31 - 1) by (apply Z.div_le_upper_bound; lia). lia.
Qed.

Definition conversion_invalid (x : Z) : bool :=
  isnan x || ((2 ^ 31 - 1) * 2 ^ 1074 <? f_value x) || (f_value x <? - 2 ^ 31 * 2 ^ 1074).

(** FPSCR after an invalid conversion, and the integer it gives. *)
Definition invalid_fpscr (x v : Z) : Z :=
  Z.lor (Z.land v (Z.lnot (Z.lor FR FI)))
    (masks ([VXCVI; VX] ++ (if signalling x then [VXSNAN] else []) ++ (if Z.testbit v 7 then [FEX] else []))).
Definition saturated (x : Z) : Z := if isnan x || (f_value x <? 0) then - 2 ^ 31 else 2 ^ 31 - 1.

(** The bits [fctiw] puts in a register for the integer [n]. *)
Definition integer_bits (n : Z) : Z := 0xFFF80000 * 2 ^ 32 + n mod 2 ^ 32.

Definition conversion_written (opcode n : Z) (s : ppc_state) : ppc_state :=
  let x := (fpr s).[field_b opcode] in
  if conversion_invalid x then
    let s' := with_fpscr (invalid_fpscr x (fpscr s)) s in
    if fpscr_bit 7 s then s' else with_fpr ((fpr s).[field_d opcode := integer_bits (saturated x)]) s'
  else with_fpr ((fpr s).[field_d opcode := integer_bits n]) s.

Definition converted (opcode : Z) (rec : field_rc) (n : Z) (s : ppc_state) : ppc_state :=
  cond (rc rec) ppc_update_cr1 (conversion_written opcode n s).

Lemma flt_values a b : word64 a -> word64 b -> isnan a = false -> isnan b = false -> flt a b = (f_value a <? f_value b).
Proof.
  intros Ha Hb Na Nb. unfold flt. rewrite Na, Nb. cbn [negb andb]. destruct (order_key_correct a b Ha Hb) as [H _].
  apply eq_true_iff_eq. by rewrite !Z.ltb_lt.
Qed.

Lemma conversion_checks x : word64 x -> isnan x = false ->
  flt int_max x = ((2 ^ 31 - 1) * 2 ^ 1074 <? f_value x) /\ flt x int_min = (f_value x <? - 2 ^ 31 * 2 ^ 1074) /\
  flt x 0 = (f_value x <? 0).
Proof.
  intros Hx Hn. assert (word64 int_max /\ word64 int_min /\ word64 0) as (H1 & H2 & H3) by (by split_and!).
  rewrite !flt_values by done. replace (f_value int_max) with ((2 ^ 31 - 1) * 2 ^ 1074) by (by vm_compute).
  replace (f_value int_min) with (- 2 ^ 31 * 2 ^ 1074) by (by vm_compute). done.
Qed.

Lemma integer_word i : Z.lor (u32 i) 0xFFF8000000000000 = integer_bits i.
Proof.
  rewrite Z.lor_comm. pose proof (u32_range i) as Hr. unfold integer_bits.
  pose proof (lor_low 0xFFF80000 32 (u32 i) ltac:(lia) Hr) as El. rewrite (Z.mul_comm _ (2 ^ 32)). exact El.
Qed.

(** The register and FPSCR writes of an invalid conversion. *)
Definition invalid_written (snan : bool) (d bits : Z) (s : ppc_state) : ppc_state :=
  let s' := with_fpscr (Z.lor (Z.land (fpscr s) (Z.lnot (Z.lor FR FI)))
    (masks ([VXCVI; VX] ++ (if snan then [VXSNAN] else []) ++ (if Z.testbit (fpscr s) 7 then [FEX] else [])))) s in
  if fpscr_bit 7 s then s' else with_fpr ((fpr s).[d := bits]) s'.

Lemma invalid_run snan opcode d bits m :
  bind (fpscr_andc (Z.lor FR FI)) (fun _ => bind (fpscr_or (Z.lor VXCVI VX)) (fun _ =>
    bind (when snan (fpscr_or VXSNAN)) (fun _ => invalid_conversion opcode d bits))) m =
  (Ret tt, upd_cpu (invalid_written snan d bits) m).
Proof.
  destruct m as [[c1 c2 c3 c4 v c6 c7 c8 c9 c10] n1 n2 n3 n4 n5 n6 n7 n8 n9].
  set (w := if snan then Z.lor (Z.lor (Z.land v (Z.lnot (Z.lor FR FI))) (Z.lor VXCVI VX)) VXSNAN
            else Z.lor (Z.land v (Z.lnot (Z.lor FR FI))) (Z.lor VXCVI VX)).
  assert (test w VE = Z.testbit v 7) as Hve.
  { unfold VE, w. rewrite test_pow2 by lia. destruct snan; rewrite ?Z.lor_spec, Z.land_spec, Z.lnot_spec by lia;
      change (Z.testbit (Z.lor VXCVI VX) 7) with false; change (Z.testbit (Z.lor FR FI) 7) with false; change (Z.testbit VXSNAN 7) with false;
      by rewrite ?orb_false_r, andb_true_r. }
  unfold invalid_written, fpscr_bit. cbn [fpscr upd_cpu set_cpu cpu].
  transitivity (if test w VE
     then (Ret tt, mk_machine (mk_ppc_state c1 c2 c3 c4 (Z.lor w FEX) c6 c7 c8 c9 c10) n1 n2 n3 n4 n5 n6 n7 n8 n9)
     else (@Ret unit tt, mk_machine (mk_ppc_state (c1.[d := bits]) c2 c3 c4 w c6 c7 c8 c9 c10) n1 n2 n3 n4 n5 n6 n7 n8 n9)).
  { unfold w. destruct snan; cbv beta iota zeta delta [fpscr_andc fpscr_or invalid_conversion mcpu modify bind gets when ret upd_cpu set_cpu cpu fpscr_set fpscr with_fpscr ppc_floating_point_exception ppc_store_fpresult_int with_fpr fpr pc gpr cr tbr spr msr sr reserve];
      by match goal with |- context [test ?a VE] => destruct (test a VE) end. }
  rewrite Hve. unfold w, upd_cpu. cbn [cpu fpscr]. destruct snan, (Z.testbit v 7); unfold masks; cbn [app fold_right]; rewrite ?Z.lor_0_r, ?Z.lor_assoc; done.
Qed.

Lemma run_record (k : M machine unit) f rec m : k m = (Ret tt, upd_cpu f m) ->
  bind k (fun _ => record_cr1 rec) m = (Ret tt, upd_cpu (fun s => cond (rc rec) ppc_update_cr1 (f s)) m).
Proof. intros E. rewrite (bind_ret k (fun _ => record_cr1 rec) m tt (upd_cpu f m) E). by destruct rec. Qed.

Lemma round_to_int_run opcode mode rec m : ppc_ok (cpu m) -> 0 <= mode < 4 ->
  let x := (fpr (cpu m)).[field_b opcode] in
  let n := round_integral (if mode =? 0 then fe_round (fenv m) else mode) x in
  round_to_int opcode mode rec m = (Ret tt, upd_cpu (converted opcode rec n) m).
Proof.
  intros Hs Hm x n. assert (word64 x) as Hx by (apply (ok_fpr _ Hs)). unfold round_to_int.
  rewrite (bind_ret (gets (fun m => m)) _ m m m) by done. cbv beta iota zeta delta [ppc_grab_regsfpdb]. apply run_record.
  fold (GET_FPR (cpu m) (field_b opcode)) in x. fold x.
  assert (check_snan (FPR_INT (cpu m) (field_b opcode)) = signalling x) as -> by (by apply check_snan_correct).
  assert (forall f, f (cpu m) = conversion_written opcode n (cpu m) -> (@Ret unit tt, upd_cpu f m) = (Ret tt, upd_cpu (conversion_written opcode n) m))
    as Hext by (intros f Hf; unfold upd_cpu; by rewrite Hf).
  assert (conversion_written opcode n (cpu m) = if conversion_invalid x then invalid_written (signalling x) (field_d opcode) (integer_bits (saturated x)) (cpu m)
    else with_fpr ((fpr (cpu m)).[field_d opcode := integer_bits n]) (cpu m)) as Ew by done.
  destruct (isnan x) eqn:En.
  - rewrite invalid_run. apply Hext. rewrite Ew. unfold conversion_invalid, saturated. rewrite En. done.
  - destruct (conversion_checks x Hx En) as (-> & -> & ->). unfold conversion_invalid, saturated, signalling in Ew. rewrite En in Ew. cbn [orb andb] in Ew.
    destruct (_ || _) eqn:Eo.
    + transitivity (@Ret unit tt, upd_cpu (invalid_written false (field_d opcode) (if f_value x <? 0 then 0xFFF8000080000000 else 0xFFF800007FFFFFFF)) m).
      { rewrite <- invalid_run with (opcode := opcode). done. }
      apply Hext. rewrite Ew. by destruct (f_value x <? 0).
    + apply Hext. rewrite Ew. unfold ppc_store_fpresult_int. do 2 f_equal. rewrite integer_word. f_equal. unfold n.
      change 3 with (Z.ones 2). rewrite Z.land_ones, Z.mod_small by lia.
      assert (mode = 0 \/ mode = 1 \/ mode = 2 \/ mode = 3) as [-> |[-> |[-> | ->]]] by lia; done.
Qed.

(** C21: the conversions to integer.  A number between -2^31 and 2^31-1 is rounded in
    the direction FPSCR[RN] names - to nearest even, towards zero, up or down - or
    towards zero for [fctiwz], and the result, which fits 32 bits, goes to the low
    word of FPR[frD].  A NaN or a number outside those bounds is invalid: FR and FI
    are cleared, VXCVI and VX (VXSNAN for a signalling NaN) set, and the register
    gets the nearest bound - the lower one for a NaN - unless VE is on, when FEX is
    set instead.  The record form copies FPSCR to CR1. *)
Theorem conversions_correct rec opcode m : ppc_ok (cpu m) -> fe_round (fenv m) = 0 ->
  let x := (fpr (cpu m)).[field_b opcode] in
  let converts k mode := exists n, k opcode m = (Ret tt, upd_cpu (converted opcode rec n) m) /\
    (conversion_invalid x = false -> rounded mode (f_value x) (2 ^ 1074) n /\ - 2 ^ 31 <= n < 2 ^ 31) in
  converts (ppc_fctiwz rec) 1 /\ converts (ppc_fctiw rec) (fpscr (cpu m) mod 4).
Proof.
  intros Hs Hr x converts.
  assert (forall mode, 0 <= mode < 4 -> let n := round_integral (if mode =? 0 then fe_round (fenv m) else mode) x in
    conversion_invalid x = false -> rounded mode (f_value x) (2 ^ 1074) n /\ - 2 ^ 31 <= n < 2 ^ 31) as Hn.
  { intros mode Hm n Hi. assert (rounded mode (f_value x) (2 ^ 1074) n) as H.
    { unfold n. destruct (Z.eqb_spec mode 0) as [->|]; [rewrite Hr|]; by apply round_integral_rounded. }
    split; [done|]. apply (rounded_fits mode (f_value x) (2 ^ 1074)); [done | by vm_compute | | done].
    unfold conversion_invalid in Hi. apply orb_false_iff in Hi as [[_ H1%Z.ltb_ge]%orb_false_iff H2%Z.ltb_ge]. lia. }
  split.
  - eexists. split; [exact (round_to_int_run opcode 1 rec m Hs ltac:(lia))|]. exact (Hn 1 ltac:(lia)).
  - assert (Z.land (fpscr (cpu m)) 0x3 = fpscr (cpu m) mod 4) as E by apply (Z.land_ones _ 2 ltac:(lia)).
    assert (0 <= fpscr (cpu m) mod 4 < 4) as Hm by (apply Z.mod_pos_bound; lia).
    eexists. split; [|exact (Hn _ Hm)]. unfold ppc_fctiw. rewrite (bind_ret (gets cpu) _ m (cpu m) m) by done. rewrite E.
    exact (round_to_int_run opcode _ rec m Hs Hm).
Qed.

(** FPR 2 holds -2.5. *)
Definition demo_conversion : machine := upd_cpu (with_fpr ((fpr (cpu demo_machine)).[2 := 0xC004000000000000])) demo_machine.

Lemma conversions_correct_witness : exists n, ppc_fctiwz RC0 0xFC60101E demo_conversion = (Ret tt, upd_cpu (converted 0xFC60101E RC0 n) demo_conversion) /\
  n = -2.
Proof.
  destruct (conversions_correct RC0 0xFC60101E demo_conversion) as [(n & E & H) _].
  - apply with_fpr_ok; [exact demo_ok|]. apply file_ok_set; [apply demo_ok | by vm_compute].
  - reflexivity.
  - exists n. split; [exact E|]. destruct H as [H _]; [by vm_compute|]. rewrite H. by vm_compute.
Defined.
