(* ===== verification/SystemRegs.v ===== *)
(** * System registers (cpu/ppc/ppcopcodes.cpp)

    Segment registers and the MSR, the time base, the 601 real-time clock, the
    decrementer with its timer, the thermal sensors, and the moves to and from
    special purpose registers.  The file also says what the processor's own timer
    callbacks do ([machine_timer_invoke]). *)
From S2P Require Import Prelude Word PpcState Timers MemCtrl Machine Mmu MmuBat Exceptions.

(** ** Segment registers and MSR *)

Definition write_sr (grab_sr v : Z) : M machine unit := fun m =>
  if (sr (cpu m)).[grab_sr] =? v then (Ret tt, m)
  else (Ret tt, mmu_pat_ctx_changed (upd_cpu (set_sr grab_sr v) m)).

(* [cpu/ppc/ppcopcodes.cpp:688-702] *)
Definition ppc_mtsr (opcode : Z) : M machine unit := privileged (fun m =>
  let '(_, ppc_result_d) := ppc_grab_s opcode (cpu m) in
  let grab_sr := Z.land (Z.shiftr opcode 16) 0x0F in
  write_sr grab_sr ppc_result_d m).

(* [cpu/ppc/ppcopcodes.cpp:704-718] *)
Definition ppc_mtsrin (opcode : Z) : M machine unit := privileged (fun m =>
  let '(_, _, ppc_result_d, ppc_result_b) := ppc_grab_regssb opcode (cpu m) in
  let grab_sr := Z.shiftr ppc_result_b 28 in
  write_sr grab_sr ppc_result_d m).

(* [cpu/ppc/ppcopcodes.cpp:720-731] *)
Definition ppc_mfsr (opcode : Z) : M machine unit := privileged (mcpu (fun s =>
  let reg_d := Z.land (Z.shiftr opcode 21) 0x1F in
  let grab_sr := Z.land (Z.shiftr opcode 16) 0x0F in
  set_gpr reg_d (sr s).[grab_sr] s)).

(* [cpu/ppc/ppcopcodes.cpp:733-744] *)
Definition ppc_mfsrin (opcode : Z) : M machine unit := privileged (mcpu (fun s =>
  let '(reg_d, _, ppc_result_b) := ppc_grab_regsdb opcode s in
  let grab_sr := Z.shiftr ppc_result_b 28 in
  set_gpr reg_d (sr s).[grab_sr] s)).

(* [cpu/ppc/ppcopcodes.cpp:746-756] *)
Definition ppc_mfmsr (opcode : Z) : M machine unit := privileged (mcpu (fun s =>
  let reg_d := Z.land (Z.shiftr opcode 21) 0x1F in
  set_gpr reg_d (msr s) s)).

Definition enter_sleep (m : machine) : bool :=
  match ppc_pow_mode (cfg m) with
  | PowUnconditional => true
  | PowHID0 => negb (Z.land (m_spr m SPR.HID0) (ppc_pow_hid0_mask (cfg m)) =? 0)
  | PowNone => false
  end.

(* [cpu/ppc/ppcopcodes.cpp:758-809] *)
Definition ppc_mtmsr (opcode : Z) : M machine unit := privileged (fun m =>
  let '(_, ppc_result_d) := ppc_grab_s opcode (cpu m) in
  let old_msr_val := msr (cpu m) in
  let new_msr_val := ppc_result_d in
  let m := if is_601 (cfg m) then m else ppc_change_endian (test new_msr_val MSR.LE) m in
  let m := ppc_msr_did_change old_msr_val new_msr_val true m in
  if msr_bit MSR.EE m && int_pin (ex m) then ppc_exception_handler EXC_EXT_INT 0 m
  else if msr_bit MSR.EE m && dec_exception_pending (ex m) then
    ppc_exception_handler EXC_DECR 0 (upd_ex (set_dec_exception_pending false) m)
  else if msr_bit MSR.EE m && thrm_exception_pending (ex m) then
    ppc_exception_handler EXC_THRM_MGMT_INT 0 (upd_ex (set_thrm_exception_pending false) m)
  else if msr_bit MSR.POW m then
    if enter_sleep m then
      let m := upd_ex (fun e => set_exec_flags (Z.lor (exec_flags e) EXEF.EXEF_SLEEP) e) m in
      (Ret tt, upd_ex (set_ppc_next_instruction_address (u32 (Z.land (pc (cpu m)) 0xFFFFFFFC + 4))) m)
    else (Ret tt, mmu_change_mode m)
  else (Ret tt, mmu_change_mode m)).

(** ** Time base, real-time clock and decrementer values *)

(** The scaling all three share: the integer part of the elapsed time in
    periods of the driving frequency, a 32.32 fixed-point number with an
    additional shift. *)
(* [cpu/ppc/ppcopcodes.cpp:828-834 adj] *)
Definition adjust (diff : Z) (b : timebase) : Z :=
  let '(adj, adj_lo) := MathUtils.u32xu64_lo32 (tbr_freq_ghz b) diff in
  if negb (tbr_freq_shift b =? 0)
  then u64 (u64 (Z.shiftl adj (tbr_freq_shift b)) + Z.shiftr adj_lo (32 - tbr_freq_shift b))
  else adj.

Definition ONE_BILLION_NS := 1000000000.

(* [cpu/ppc/ppcopcodes.cpp:826-844] *)
Definition calc_rtcl_value (m : machine) : machine :=
  let new_ts := get_virt_time_ns m in
  let diff := u64 (new_ts - rtc_timestamp (tb m)) in
  let rtc_l := u64 (adjust diff (tb m) + rtc_lo (tb m)) in
  let b := if ONE_BILLION_NS <=? rtc_l
           then set_rtc_lo (rtc_l mod ONE_BILLION_NS)
                  (set_rtc_hi (u32 (rtc_hi (tb m) + u32 (rtc_l / ONE_BILLION_NS))) (tb m))
           else set_rtc_lo (u32 rtc_l) (tb m) in
  set_tb (set_rtc_timestamp new_ts b) m.

(* [cpu/ppc/ppcopcodes.cpp:847-856] *)
Definition calc_tbr_value (m : machine) : Z :=
  let diff := u64 (get_virt_time_ns m - tbr_wr_timestamp (tb m)) in
  u64 (tbr_wr_value (tb m) + adjust diff (tb m)).

(* [cpu/ppc/ppcopcodes.cpp:858-866] *)
Definition calc_dec_value (m : machine) : Z :=
  let diff := u64 (get_virt_time_ns m - dec_wr_timestamp (tb m)) in
  u32 (dec_wr_value (tb m) - u32 (adjust diff (tb m))).

(* [cpu/ppc/ppcopcodes.cpp:868-873] *)
Definition update_timebase (mask new_val : Z) (m : machine) : machine :=
  let tbr_value := calc_tbr_value m in
  upd_tb (fun b => set_tbr_wr_timestamp (get_virt_time_ns m)
                     (set_tbr_wr_value (Z.lor (Z.land tbr_value mask) new_val) b)) m.

(** ** The decrementer *)

(* [cpu/ppc/ppcopcodes.cpp:879-889] *)
Definition trigger_decrementer_exception : M machine unit := fun m =>
  if msr_bit MSR.EE m then
    ppc_exception_handler EXC_DECR 0 (upd_ex (set_dec_exception_pending false) m)
  else (Ret tt, upd_ex (set_dec_exception_pending true) m).

Definition timer_active (ti : Z) (m : machine) : bool := active (info ti (timers m)).

(** The number of ticks until the exception: one more than the count, in steps
    of 128 on the 601, unless it would overflow. *)
(* [cpu/ppc/ppcopcodes.cpp:925-933 newval] *)
Definition dec_ticks (newval : Z) (m : machine) : Z :=
  if is_601 (cfg m) then (if newval <? 0xFFFFFF80 then newval + 0x80 else newval)
  else if newval <? 0xFFFFFFFF then newval + 1 else newval.

(* [cpu/ppc/ppcopcodes.cpp:905-942] *)
Definition update_decrementer (update_time_stamp : bool) (oldval newval : Z) : M machine unit :=
  modify (fun m => if update_time_stamp
                   then upd_tb (fun b => set_dec_wr_timestamp (get_virt_time_ns m)
                                           (set_dec_wr_value newval b)) m else m) ;;;
  modify (upd_ex (set_dec_exception_pending false)) ;;;
  act <- gets (timer_active decrementer_timer) ;;
  when act (cancel_timer decrementer_timer) ;;;
  if Bitops.bit_changed oldval newval 31 && Bitops.bit_set newval 31 then
    add_immediate_timer decrementer_timer cb_immediate_decrementer
  else
    newval <- gets (dec_ticks newval) ;;
    period <- gets (fun m => tbr_period_ns (tb m)) ;;
    let '(time_out, time_out_lo) := MathUtils.u32xu64_lo32 newval period in
    add_oneshot_timer decrementer_timer time_out cb_timed_decrementer.

(* [cpu/ppc/ppcopcodes.cpp:891-898] *)
Definition trigger_timed_decrementer_exception : M machine unit :=
  new_val <- gets calc_dec_value ;;
  let new_val := if (0 <=? new_val) && negb (new_val =? 0xFFFFFFFF) then 0xFFFFFFFF else new_val in
  update_decrementer true new_val new_val ;;;
  trigger_decrementer_exception.

(* [cpu/ppc/ppcopcodes.cpp:900-903] *)
Definition trigger_immediate_decrementer_exception : M machine unit :=
  dec <- gets (fun m => m_spr m SPR.DEC_S) ;;
  update_decrementer false dec dec ;;;
  trigger_decrementer_exception.

(** ** The thermal sensors *)

(** The new value of THRM1 or THRM2, and whether it asks for an interrupt. *)
(* [cpu/ppc/ppcopcodes.cpp:953-973 t_interrupt] *)
Definition thermal_compare (junction_temperature val : Z) : Z * bool :=
  let threshold := Z.land (Z.shiftr val 23) 0x7F in
  let t_int_direction := test val 4 in
  let t_int_enable := test val 2 in
  let valid := test val 1 in
  let t_interrupt :=
    valid && (if t_int_direction then u32 junction_temperature <? threshold
              else threshold <? u32 junction_temperature) in
  let t_int_valid := valid in
  (Z.lor (Z.lor (Z.shiftl (b2z t_interrupt) 31) (Z.shiftl (b2z t_int_valid) 30)) (Z.land val 0x3FFFFFFF),
   t_int_enable && t_interrupt).

(* [cpu/ppc/ppcopcodes.cpp:944-983] *)
Definition update_thermal : M machine unit := fun m =>
  let enabled := test (m_spr m SPR.THRM3) 1 in
  let '(v1, i1) := thermal_compare (junction_temperature (ex m)) (m_spr m SPR.THRM1) in
  let m := upd_cpu (set_spr SPR.THRM1 v1) m in
  let '(v2, i2) := thermal_compare (junction_temperature (ex m)) (m_spr m SPR.THRM2) in
  let m := upd_cpu (set_spr SPR.THRM2 v2) m in
  if (i1 || i2) && enabled then
    if msr_bit MSR.EE m then
      ppc_exception_handler EXC_THRM_MGMT_INT 0 (upd_ex (set_thrm_exception_pending false) m)
    else (Ret tt, upd_ex (set_thrm_exception_pending true) m)
  else (Ret tt, m).

(** ** What the timers of the processor do *)

#[export] Instance machine_timer_invoke `{Devices} : TimerInvoke machine timer_callback :=
  fun c time_now timeout =>
    match c with
    | cb_timed_decrementer => trigger_timed_decrementer_exception
    | cb_immediate_decrementer => trigger_immediate_decrementer_exception
    | cb_update_thermal => update_thermal
    | cb_device id => dev_timer id time_now timeout
    end.

(** ** Moves to and from special purpose registers *)

Definition spr_field (opcode : Z) : Z :=
  let '(_, reg_a, reg_b) := ppc_grab_dab opcode in Z.lor (Z.shiftl reg_b 5) reg_a.

(** Bit 4 of the number marks the supervisor registers. *)
Definition spr_access (ref_spr : Z) (k : M machine unit) : M machine unit :=
  if test ref_spr 0x10 then privileged k else k.

(** Both halves of the time base registers are refreshed by a read of either. *)
Definition read_tbr (reg_d : Z) (upper : bool) : M machine unit := fun m =>
  let tbr_value := calc_tbr_value m in
  let l := u32 tbr_value in
  let h := u32 (Z.shiftr tbr_value 32) in
  mcpu (fun s => set_gpr reg_d (if upper then h else l) (set_spr SPR.TBU_S h (set_spr SPR.TBL_S l s))) m.

Definition copy_spr (reg_d ref_spr : Z) : M machine unit :=
  mcpu (fun s => set_gpr reg_d (spr s).[ref_spr] s).

Definition read_dec (reg_d : Z) : M machine unit := fun m =>
  let val := calc_dec_value m in
  let val := if is_601 (cfg m) then Z.land val (Z.lnot 0x7F) else val in
  mcpu (fun s => set_gpr reg_d val (set_spr SPR.DEC_S val s)) m.

Definition only_601 (opcode : Z) (k : M machine unit) : M machine unit :=
  b <- gets (fun m => is_601 (cfg m)) ;; if b then k else ppc_illegalop opcode.

(* [cpu/ppc/ppcopcodes.cpp:985-1070] *)
Definition ppc_mfspr (opcode : Z) : M machine unit :=
  let '(reg_d, _, _) := ppc_grab_dab opcode in
  let ref_spr := spr_field opcode in
  spr_access ref_spr (
    if ref_spr =? SPR.MQ then
      b <- gets (fun m => is_601 (cfg m) || include_601 (cfg m)) ;;
      if b then copy_spr reg_d ref_spr else ppc_illegalop opcode
    else if ref_spr =? SPR.RTCL_U then only_601 opcode (
      modify calc_rtcl_value ;;;
      fun m =>
        let lo := Z.land (rtc_lo (tb m)) 0x3FFFFF80 in
        mcpu (fun s => set_spr SPR.RTCU_S (rtc_hi (tb m)) (set_gpr reg_d lo (set_spr SPR.RTCL_S lo s))) m)
    else if ref_spr =? SPR.RTCU_U then only_601 opcode (
      modify calc_rtcl_value ;;;
      fun m =>
        let hi := rtc_hi (tb m) in
        mcpu (fun s => set_spr SPR.RTCL_S (rtc_lo (tb m)) (set_gpr reg_d hi (set_spr SPR.RTCU_S hi s))) m)
    else if ref_spr =? SPR.DEC_U then only_601 opcode (read_dec reg_d)
    else if ref_spr =? SPR.DEC_S then read_dec reg_d
    else if (ref_spr =? SPR.TBL_U) || (ref_spr =? SPR.TBL_S) then read_tbr reg_d false
    else if (ref_spr =? SPR.TBU_U) || (ref_spr =? SPR.TBU_S) then read_tbr reg_d true
    else copy_spr reg_d ref_spr).

Definition restart_thermal_timer : M machine unit :=
  act <- gets (timer_active thermal_timer) ;;
  when act (cancel_timer thermal_timer) ;;;
  add_oneshot_timer thermal_timer (20 * 1000) cb_update_thermal.

Definition in_range (a b x : Z) : bool := (a <=? x) && (x <=? b).

(* [cpu/ppc/ppcopcodes.cpp:1072-1194] *)
Definition ppc_mtspr (opcode : Z) : M machine unit :=
  let '(reg_d, _, _) := ppc_grab_dab opcode in
  let ref_spr := spr_field opcode in
  spr_access ref_spr (
    val <- gets (fun m => (gpr (cpu m)).[reg_d]) ;;
    if ref_spr =? SPR.MQ then
      b <- gets (fun m => is_601 (cfg m) || include_601 (cfg m)) ;;
      if b then set_m_spr ref_spr val else ppc_illegalop opcode
    else if (ref_spr =? SPR.RTCL_U) || (ref_spr =? SPR.RTCU_U) || (ref_spr =? SPR.DEC_U) then
      only_601 opcode (ret tt)
    else if ref_spr =? SPR.XER then set_m_spr ref_spr (Z.land val 0xe000ff7f)
    else if ref_spr =? SPR.SDR1 then fun m =>
      if m_spr m ref_spr =? val then (Ret tt, m)
      else (Ret tt, mmu_pat_ctx_changed (upd_cpu (set_spr ref_spr val) m))
    else if ref_spr =? SPR.RTCL_S then
      modify calc_rtcl_value ;;;
      let lo := Z.land val 0x3FFFFF80 in
      modify (upd_tb (set_rtc_lo lo)) ;;;
      fun m => mcpu (fun s => set_spr SPR.RTCU_S (rtc_hi (tb m)) (set_spr SPR.RTCL_S lo s)) m
    else if ref_spr =? SPR.RTCU_S then
      modify calc_rtcl_value ;;;
      modify (upd_tb (set_rtc_hi val)) ;;;
      fun m => mcpu (fun s => set_spr SPR.RTCU_S val (set_spr SPR.RTCL_S (rtc_lo (tb m)) s)) m
    else if ref_spr =? SPR.DEC_S then
      b <- gets (fun m => is_601 (cfg m)) ;;
      let val := if b then Z.land val (Z.lnot 0x7F) else val in
      old <- gets calc_dec_value ;;
      update_decrementer true old val ;;;
      set_m_spr SPR.DEC_S val
    else if ref_spr =? SPR.TBL_S then
      modify (update_timebase 0xFFFFFFFF00000000 val) ;;;
      set_m_spr SPR.TBL_S val ;;;
      fun m => set_m_spr SPR.TBU_S (u32 (Z.shiftr (tbr_wr_value (tb m)) 32)) m
    else if ref_spr =? SPR.TBU_S then
      modify (update_timebase 0x00000000FFFFFFFF (Z.shiftl val 32)) ;;;
      (fun m => set_m_spr SPR.TBL_S (u32 (tbr_wr_value (tb m))) m) ;;;
      set_m_spr SPR.TBU_S val
    else if ref_spr =? SPR.PVR then ret tt
    else if in_range 528 535 ref_spr then fun m =>
      if m_spr m ref_spr =? val then (Ret tt, m)
      else (Ret tt, ibat_update ref_spr (upd_cpu (set_spr ref_spr val) m))
    else if in_range 536 543 ref_spr then fun m =>
      if m_spr m ref_spr =? val then (Ret tt, m)
      else (Ret tt, dbat_update ref_spr (upd_cpu (set_spr ref_spr val) m))
    else if ref_spr =? SPR.HID0 then
      set_m_spr ref_spr val ;;;
      b <- gets (fun m => is_601 (cfg m)) ;;
      when b (modify (ppc_change_endian (test val 0x10000000)))
    else if (ref_spr =? SPR.THRM1) || (ref_spr =? SPR.THRM2) then
      set_m_spr ref_spr (Z.land val 0x3F800007) ;;;
      restart_thermal_timer
    else if ref_spr =? SPR.THRM3 then
      set_m_spr ref_spr (Z.land val 0x00003FFF) ;;;
      mcpu (fun s => set_spr SPR.THRM1 (Z.land (spr s).[SPR.THRM1] 0x3FFFFFFF) s) ;;;
      mcpu (fun s => set_spr SPR.THRM2 (Z.land (spr s).[SPR.THRM2] 0x3FFFFFFF) s) ;;;
      restart_thermal_timer
    else set_m_spr ref_spr val).

(* [cpu/ppc/ppcopcodes.cpp:1196-1216] *)
Definition ppc_mftb (opcode : Z) : M machine unit :=
  let '(reg_d, _, _) := ppc_grab_dab opcode in
  let ref_spr := spr_field opcode in
  if ref_spr =? SPR.TBL_U then read_tbr reg_d false
  else if ref_spr =? SPR.TBU_U then read_tbr reg_d true
  else ppc_illegalop opcode.

(** ** Elapsed ticks *)

(** The ticks of the time base frequency in [diff] nanoseconds. *)
Definition ticks (b : timebase) (diff : Z) : Z :=
  tbr_freq_ghz b * 2 ^ tbr_freq_shift b * diff / 2 ^ 32.

Lemma adjust_correct b diff : tb_ok b -> 0 <= diff < 2 ^ 64 -> adjust diff b = u64 (ticks b diff).
Proof.
  intros Hb Hd. unfold adjust, ticks.
  pose proof (tbo_shift b Hb) as Hs. pose proof (tbo_freq b Hb) as Hf.
  destruct (MathUtils.u32xu64_lo32 (tbr_freq_ghz b) diff) as [hi lo] eqn:E.
  apply MathUtils.u32xu64_lo32_correct in E as (E & Hhi & Hlo); [|done..].
  set (f := tbr_freq_ghz b) in *. set (n := tbr_freq_shift b) in *.
  rewrite <- (Z.mul_assoc f), (Z.mul_comm (2 ^ n)), Z.mul_assoc, <- E.
  destruct (Z.eqb_spec n 0) as [Hn|Hn]; cbn [negb].
  - rewrite Hn, Z.mul_1_r, uwrap_small; [|split; [apply Z.div_pos | apply Z.div_lt_upper_bound]; lia].
    rewrite (Z.mul_comm (2 ^ 32)), Z.div_add_l, Z.div_small; lia.
  - rewrite Z.shiftl_mul_pow2, Z.shiftr_div_pow2, uwrap_add_l by lia. f_equal.
    replace ((2 ^ 32 * hi + lo) * 2 ^ n) with ((hi * 2 ^ n) * 2 ^ 32 + lo * 2 ^ n) by ring.
    rewrite Z.div_add_l by lia. f_equal.
    replace (2 ^ 32) with (2 ^ (32 - n) * 2 ^ n) by (rewrite <- Z.pow_add_r by lia; f_equal; lia).
    by rewrite Z.div_mul_cancel_r by lia.
Qed.

Lemma ticks_range b diff : tb_ok b -> 0 <= diff -> 0 <= ticks b diff.
Proof.
  intros Hb Hd. unfold ticks. pose proof (tbo_freq b Hb). pose proof (tbo_shift b Hb).
  apply Z.div_pos; [|lia]. pose proof (Z.pow_pos_nonneg 2 (tbr_freq_shift b)). nia.
Qed.

Lemma calc_tbr_spec m : tb_ok (tb m) ->
  calc_tbr_value m =
  u64 (tbr_wr_value (tb m) + ticks (tb m) (u64 (get_virt_time_ns m - tbr_wr_timestamp (tb m)))).
Proof.
  intros Hb. unfold calc_tbr_value. rewrite adjust_correct by (done || apply u64_range).
  by rewrite uwrap_add_r.
Qed.

Lemma calc_dec_spec m : tb_ok (tb m) ->
  calc_dec_value m =
  u32 (dec_wr_value (tb m) - ticks (tb m) (u64 (get_virt_time_ns m - dec_wr_timestamp (tb m)))).
Proof.
  intros Hb. unfold calc_dec_value. rewrite adjust_correct by (done || apply u64_range).
  by rewrite u32_u64, uwrap_sub_r.
Qed.

Lemma virt_time_range m : 0 <= get_virt_time_ns m < 2 ^ 64.
Proof. unfold get_virt_time_ns. case_if; apply u64_range. Qed.

Lemma calc_tbr_range m : 0 <= calc_tbr_value m < 2 ^ 64.
Proof. apply u64_range. Qed.
Lemma calc_dec_range m : 0 <= calc_dec_value m < 2 ^ 32.
Proof. apply u32_range. Qed.

(** A supervisor access is allowed in supervisor mode. *)
Lemma spr_access_supervisor r k m : msr_bit MSR.PR m = false -> spr_access r k m = k m.
Proof.
  intros Hpr. unfold spr_access. destruct (test r 0x10); [|done].
  unfold privileged, bind, gets. by rewrite Hpr.
Qed.

Lemma grab_dab_d opcode : exists a b, ppc_grab_dab opcode = (field_d opcode, a, b).
Proof. by do 2 eexists. Qed.

(** The branch [ppc_mtspr] takes, once the number is known. *)
Ltac mtspr_branch H :=
  unfold ppc_mtspr; cbv zeta beta iota delta [ppc_grab_dab decode_ops_dab];
  rewrite H, spr_access_supervisor by done;
  cbn [SPR.MQ SPR.XER SPR.RTCU_U SPR.RTCL_U SPR.DEC_U SPR.SDR1 SPR.RTCL_S SPR.RTCU_S SPR.DEC_S
       SPR.TBL_S SPR.TBU_S SPR.PVR SPR.HID0 SPR.THRM1 SPR.THRM2 SPR.THRM3 Z.eqb Pos.eqb orb];
  unfold bind at 1; cbn [gets].

(** ** The time base *)

(** A write of one half stops the clock at the value with that half replaced. *)
Definition tbr_written (upper : bool) (v t : Z) : Z :=
  if upper then 2 ^ 32 * v + t mod 2 ^ 32 else 2 ^ 32 * (t / 2 ^ 32) + v.

Lemma tbr_written_range upper v t : 0 <= t < 2 ^ 64 -> 0 <= v < 2 ^ 32 -> 0 <= tbr_written upper v t < 2 ^ 64.
Proof. intros Ht Hv. unfold tbr_written. destruct upper; zlia. Qed.

Lemma tb_ok_tbr ts v b : tb_ok b -> 0 <= v < 2 ^ 64 -> tb_ok (set_tbr_wr_timestamp ts (set_tbr_wr_value v b)).
Proof. intros [] Hv. by split. Qed.

Lemma update_timebase_lower t v : 0 <= t < 2 ^ 64 -> 0 <= v < 2 ^ 32 ->
  Z.lor (Z.land t 0xFFFFFFFF00000000) v = tbr_written false v t.
Proof.
  intros Ht Hv. change 0xFFFFFFFF00000000 with (Z.land (Z.ones 64) (Z.lnot (Z.ones 32))).
  rewrite Z.land_assoc, Z.land_ones, Z.mod_small, land_lnot_ones by lia.
  rewrite (Z.mod_eq t) by lia. replace (t - (t - 2 ^ 32 * (t / 2 ^ 32))) with (2 ^ 32 * (t / 2 ^ 32)) by lia.
  by rewrite lor_low by lia.
Qed.

Lemma update_timebase_upper t v : 0 <= v < 2 ^ 32 ->
  Z.lor (Z.land t 0x00000000FFFFFFFF) (Z.shiftl v 32) = tbr_written true v t.
Proof.
  intros Hv. change 0x00000000FFFFFFFF with (Z.ones 32).
  rewrite Z.land_ones, Z.shiftl_mul_pow2, Z.lor_comm, Z.mul_comm by lia.
  apply lor_low; [lia|]. apply Z.mod_pos_bound. lia.
Qed.

Lemma mtspr_tbr opcode (upper : bool) m : machine_ok m -> msr_bit MSR.PR m = false ->
  spr_field opcode = (if upper then SPR.TBU_S else SPR.TBL_S) ->
  exists m', ppc_mtspr opcode m = (Ret tt, m') /\
    tb m' = set_tbr_wr_timestamp (get_virt_time_ns m)
      (set_tbr_wr_value (tbr_written upper (gpr (cpu m)).[field_d opcode] (calc_tbr_value m)) (tb m)).
Proof.
  intros Hok Hpr Hf. pose proof (mok_get_gpr m (field_d opcode) Hok) as Hg.
  destruct upper; mtspr_branch Hf.
  - eexists. split; [reflexivity|]. cbn [tb upd_cpu set_cpu mcpu modify upd_tb set_tb update_timebase].
    by rewrite update_timebase_upper.
  - eexists. split; [reflexivity|]. cbn [tb upd_cpu set_cpu mcpu modify upd_tb set_tb update_timebase].
    rewrite update_timebase_lower; [done | apply calc_tbr_range | done].
Qed.

Lemma mftb_reads opcode (upper : bool) k : spr_field opcode = (if upper then SPR.TBU_U else SPR.TBL_U) ->
  exists k', ppc_mftb opcode k = (Ret tt, k') /\ tb k' = tb k /\
    (gpr (cpu k')).[field_d opcode] =
      if upper then calc_tbr_value k / 2 ^ 32 else calc_tbr_value k mod 2 ^ 32.
Proof.
  intros Hf. unfold ppc_mftb. cbv zeta beta iota delta [ppc_grab_dab decode_ops_dab]. rewrite Hf.
  pose proof (calc_tbr_range k) as Hr.
  destruct upper; cbn [SPR.TBU_U SPR.TBL_U Z.eqb Pos.eqb]; eexists; (split; [reflexivity|]); (split; [done|]);
    cbn; rewrite rget_rset_eq; [|done].
  rewrite Z.shiftr_div_pow2 by lia. apply uwrap_small. split; [apply Z.div_pos | apply Z.div_lt_upper_bound]; lia.
Qed.

(** C32: the time base counts.  A privileged write of either half replaces that
    half at the moment of the write; [mftb] executed [d] nanoseconds later
    delivers the halves of the value written plus the number of ticks of the
    driving frequency in [d], modulo 2^64 - whatever happened to the rest of the
    machine in between. *)
Theorem timebase_correct opcode (upper : bool) m : machine_ok m -> msr_bit MSR.PR m = false ->
  spr_field opcode = (if upper then SPR.TBU_S else SPR.TBL_S) ->
  exists m', ppc_mtspr opcode m = (Ret tt, m') /\
  forall k d op2 (half : bool), tb k = tb m' -> get_virt_time_ns k = u64 (get_virt_time_ns m + d) ->
    0 <= d < 2 ^ 64 -> spr_field op2 = (if half then SPR.TBU_U else SPR.TBL_U) ->
  let v := (tbr_written upper (gpr (cpu m)).[field_d opcode] (calc_tbr_value m)
            + tbr_freq_ghz (tb m) * 2 ^ tbr_freq_shift (tb m) * d / 2 ^ 32) mod 2 ^ 64 in
  exists k', ppc_mftb op2 k = (Ret tt, k') /\ tb k' = tb k /\
    (gpr (cpu k')).[field_d op2] = if half then v / 2 ^ 32 else v mod 2 ^ 32.
Proof.
  intros Hok Hpr Hf. destruct (mtspr_tbr opcode upper m Hok Hpr Hf) as (m' & E & Et).
  exists m'. split; [done|]. intros k d op2 half Ek Etime Hd Hf2 v.
  destruct (mftb_reads op2 half k Hf2) as (k' & E2 & Et2 & Hg). exists k'. split_and!; [done..|].
  rewrite Hg. replace (calc_tbr_value k) with v; [done|].
  unfold calc_tbr_value. rewrite Ek, Et, Etime. cbn [tbr_wr_timestamp set_tbr_wr_timestamp].
  replace (u64 (u64 (get_virt_time_ns m + d) - get_virt_time_ns m)) with d.
  - rewrite adjust_correct; [by rewrite uwrap_add_r | | done].
    apply tb_ok_tbr; [apply Hok|]. apply tbr_written_range; [apply calc_tbr_range | by apply mok_get_gpr].
  - unfold uwrap. rewrite Zminus_mod_idemp_l. replace (_ + d - _) with d by lia. by rewrite Z.mod_small.
Qed.

(** ** Timer operations of the machine *)

(** What scheduling a timer leaves alone. *)
Definition timer_frame (m m' : machine) : Prop :=
  cpu m' = cpu m /\ cfg m' = cfg m /\ mmu m' = mmu m /\ vt m' = vt m /\ tb m' = tb m /\
  mem_ctrl m' = mem_ctrl m /\ io_log m' = io_log m /\ exists b, ex m' = set_exec_timer b (ex m).

Lemma timer_frame_trans m1 m2 m3 : timer_frame m1 m2 -> timer_frame m2 m3 -> timer_frame m1 m3.
Proof.
  unfold timer_frame. intros (?&?&?&?&?&?&?&b&E) (?&?&?&?&?&?&?&c&F). split_and!; try congruence.
  exists c. by rewrite F, E.
Qed.

Lemma notify_frame t m : timer_frame m (snd ((active <- gets (fun s => cb_active (get_tm s)) ;;
    when (negb active) (modify notify_timer_changes)) (set_timers t m))).
Proof.
  unfold bind, gets, when, timer_frame. destruct (cb_active _); cbn [negb]; repeat (split; [done|]).
  - exists (exec_timer (ex m)). cbn. by destruct (ex m).
  - by exists true.
Qed.

Lemma add_timer_frame ti timeout c m m' :
  add_absolute_timer ti timeout 0 c m = (Ret tt, m') -> timer_frame m m'.
Proof.
  intros E. change m' with (Ret (A := unit) tt, m').2. rewrite <- E.
  exact (notify_frame (queue_push ti (set_info ti (mkTimerInfo timeout 0 true c) (timers m))) m).
Qed.

Lemma cancel_timer_frame ti m m' : cancel_timer ti m = (Ret tt, m') -> timer_frame m m'.
Proof.
  intros E. change m' with (Ret (A := unit) tt, m').2. rewrite <- E.
  exact (notify_frame (set_active ti false (remove_by_id ti (timers m))) m).
Qed.

(** Exactly timer [ti] has changed, to [i], and is queued. *)
Record rescheduled (ti : Z) (i : TimerInfo timer_callback) (m m' : machine) : Prop := {
  rs_frame : timer_frame m m';
  rs_wf : timers_wf (timers m');
  rs_info : info ti (timers m') = i;
  rs_others : forall tj, tj <> ti -> info tj (timers m') = info tj (timers m) /\
    (tj ∈ timer_queue (timers m') <-> tj ∈ timer_queue (timers m))
}.

Lemma cancel_if_active ti m : timers_wf (timers m) ->
  exists m', (act <- gets (timer_active ti) ;; when act (cancel_timer ti)) m = (Ret tt, m') /\
  timer_frame m m' /\ timers_wf (timers m') /\ active (info ti (timers m')) = false /\
  forall tj, tj <> ti -> info tj (timers m') = info tj (timers m) /\
    (tj ∈ timer_queue (timers m') <-> tj ∈ timer_queue (timers m)).
Proof.
  intros Hwf. unfold bind, gets, timer_active, when. destruct (active (info ti (timers m))) eqn:Ea.
  - destruct (cancel_timer_step ti m) as (m' & E & Et). exists m'. split; [done|].
    split; [by eapply cancel_timer_frame|]. change (get_tm m') with (timers m') in Et. rewrite Et.
    change (get_tm m) with (timers m). split; [by apply wf_cancel|].
    split; [unfold set_active; by rewrite info_set_info|]. intros tj Hj. split.
    + by rewrite info_set_active_ne.
    + cbn [timer_queue set_active set_info remove_by_id set_queue]. rewrite elem_of_remove_first by apply Hwf.
      tauto.
  - exists m. split; [done|]. split; [|done]. split_and!; try done. exists (exec_timer (ex m)). by destruct (ex m).
Qed.

Lemma add_rescheduled ti timeout c m : timers_wf (timers m) -> active (info ti (timers m)) = false ->
  exists m', add_absolute_timer ti timeout 0 c m = (Ret tt, m') /\
  rescheduled ti (mkTimerInfo timeout 0 true c) m m'.
Proof.
  intros Hwf Ha. destruct (add_absolute_timer_step ti timeout 0 c m) as (m' & E & Et).
  exists m'. split; [done|]. change (get_tm m') with (timers m') in Et. change (get_tm m) with (timers m) in Et.
  split; [by eapply add_timer_frame| | |]; rewrite Et.
  - by apply wf_enqueue.
  - apply info_set_info.
  - intros tj Hj. split; [by apply info_set_info_ne|]. cbn. rewrite elem_of_cons. naive_solver.
Qed.

(** Cancelling a timer if it is active, then scheduling it again. *)
Lemma restart_timer ti timeout c m : timers_wf (timers m) ->
  exists m', ((act <- gets (timer_active ti) ;; when act (cancel_timer ti)) ;;;
              add_absolute_timer ti timeout 0 c) m = (Ret tt, m') /\
  rescheduled ti (mkTimerInfo timeout 0 true c) m m'.
Proof.
  intros Hwf. destruct (cancel_if_active ti m Hwf) as (m1 & E1 & F1 & W1 & A1 & O1).
  destruct (add_rescheduled ti timeout c m1 W1 A1) as (m2 & E2 & [F2 W2 I2 O2]).
  exists m2. unfold bind at 1. rewrite E1. split; [exact E2|]. split; [by eapply timer_frame_trans|done..|].
  intros tj Hj. destruct (O1 tj Hj) as [H1 H2], (O2 tj Hj) as [H3 H4]. by rewrite H3, H4.
Qed.

(** ** The decrementer *)

(** When a count of [newval] is due, as a timer deadline. *)
Definition dec_deadline (newval : Z) (m : machine) : Z :=
  u64 (get_virt_time_ns m + dec_ticks newval m * tbr_period_ns (tb m) / 2 ^ 32).

(** The timer of the decrementer after a change from [oldval] to [newval]. *)
Definition dec_timer (oldval newval : Z) (m : machine) : TimerInfo timer_callback :=
  if negb (Z.testbit oldval 31) && Z.testbit newval 31
  then mkTimerInfo 0 0 true cb_immediate_decrementer
  else mkTimerInfo (dec_deadline newval m) 0 true cb_timed_decrementer.

Lemma dec_ticks_range v m : 0 <= v < 2 ^ 32 -> 0 <= dec_ticks v m < 2 ^ 32.
Proof. intros Hv. unfold dec_ticks. destruct (is_601 _); case_if; lia. Qed.

(** The state in which the timer is scheduled. *)
Definition dec_written (ts : bool) (newval : Z) (m : machine) : machine :=
  upd_ex (set_dec_exception_pending false)
    (if ts then upd_tb (fun b => set_dec_wr_timestamp (get_virt_time_ns m) (set_dec_wr_value newval b)) m
     else m).

Lemma update_decrementer_effect ts oldval newval m : timers_wf (timers m) ->
  0 <= newval < 2 ^ 32 -> 0 <= tbr_period_ns (tb m) < 2 ^ 64 ->
  exists m', update_decrementer ts oldval newval m = (Ret tt, m') /\
  rescheduled decrementer_timer (dec_timer oldval newval m) (dec_written ts newval m) m'.
Proof.
  intros Hwf Hv Hp. unfold update_decrementer. unfold bind at 1 2, modify at 1 2.
  change (upd_ex (set_dec_exception_pending false) _) with (dec_written ts newval m).
  set (m0 := dec_written ts newval m).
  assert (timers m0 = timers m) as Et by (unfold m0; by destruct ts).
  assert (dec_ticks newval m0 = dec_ticks newval m /\ tbr_period_ns (tb m0) = tbr_period_ns (tb m) /\
    get_time_now m0 = get_virt_time_ns m) as (E1 & E2 & E3) by (unfold m0; by destruct ts).
  unfold dec_timer. rewrite Bitops.bit_changed_testbit, Bitops.bit_set_testbit by lia.
  replace (xorb _ _ && _) with (negb (Z.testbit oldval 31) && Z.testbit newval 31)
    by (by destruct (Z.testbit oldval 31), (Z.testbit newval 31)).
  destruct (negb _ && _).
  - apply restart_timer. by rewrite Et.
  - destruct (cancel_if_active decrementer_timer m0) as (m1 & C1 & F1 & W1 & A1 & O1); [by rewrite Et|].
    destruct (add_rescheduled decrementer_timer (dec_deadline newval m) cb_timed_decrementer m1 W1 A1)
      as (m2 & C2 & [F2 W2 I2 O2]).
    exists m2. split.
    + match goal with |- bind ?g ?k ?s = ?r => change (bind (bind g (fun a => when a (cancel_timer decrementer_timer)))
        (fun _ => newval <- gets (dec_ticks newval) ;; period <- gets (fun m => tbr_period_ns (tb m)) ;;
           let '(time_out, _) := MathUtils.u32xu64_lo32 newval period in
           add_oneshot_timer decrementer_timer time_out cb_timed_decrementer) s = r) end.
      unfold bind at 1. rewrite C1. destruct F1 as (_ & Fc & _ & Fv & Ft & _).
      unfold bind at 1 2, gets at 1 2. unfold dec_ticks at 1. rewrite Fc, Ft.
      change (if is_601 (cfg m0) then _ else _) with (dec_ticks newval m0). rewrite E1, E2.
      destruct (MathUtils.u32xu64_lo32 (dec_ticks newval m) (tbr_period_ns (tb m))) as [t lo] eqn:Em.
      apply MathUtils.u32xu64_lo32_correct in Em as (Em & Ht & Hlo); [|by apply dec_ticks_range|done].
      rewrite <- C2. unfold add_oneshot_timer, bind at 1, gets at 1. f_equal. unfold dec_deadline. f_equal.
      change (get_time_now m1) with (get_virt_time_ns m1). change (get_time_now m0) with (get_virt_time_ns m0) in E3.
      unfold get_virt_time_ns at 1. rewrite Fv. change (get_virt_time_ns m0 + t = get_virt_time_ns m + dec_ticks newval m * tbr_period_ns (tb m) / 2 ^ 32).
      rewrite E3, <- Em. f_equal. symmetry. rewrite Z.mul_comm, Z.div_add_l, Z.div_small; lia.
    + split; [by eapply timer_frame_trans|done..|].
      intros tj Hj. destruct (O1 tj Hj) as [H1 H2], (O2 tj Hj) as [H3 H4]. by rewrite H3, H4.
Qed.

Lemma tb_ok_dec ts v b : tb_ok b -> 0 <= v < 2 ^ 32 -> tb_ok (set_dec_wr_timestamp ts (set_dec_wr_value v b)).
Proof. intros [] Hv. by split. Qed.

(** Reading the decrementer [d] nanoseconds after it was written. *)
Lemma calc_dec_later m k v d : tb_ok (tb m) -> 0 <= v < 2 ^ 32 ->
  tb k = set_dec_wr_timestamp (get_virt_time_ns m) (set_dec_wr_value v (tb m)) ->
  get_virt_time_ns k = u64 (get_virt_time_ns m + d) -> 0 <= d < 2 ^ 64 ->
  calc_dec_value k = (v - ticks (tb m) d) mod 2 ^ 32.
Proof.
  intros Hb Hv Ek Et Hd. rewrite calc_dec_spec by (rewrite Ek; by apply tb_ok_dec).
  rewrite Et, Ek. cbn [dec_wr_timestamp set_dec_wr_timestamp dec_wr_value set_dec_wr_value].
  replace (u64 (u64 (get_virt_time_ns m + d) - get_virt_time_ns m)) with d; [done|].
  unfold uwrap. rewrite Zminus_mod_idemp_l. replace (_ + d - _) with d by lia. by rewrite Z.mod_small.
Qed.

(** The value [mtspr] stores: the 601 has no low seven bits. *)
Definition dec_operand (opcode : Z) (m : machine) : Z :=
  let v := (gpr (cpu m)).[field_d opcode] in if is_601 (cfg m) then v - v mod 128 else v.

Lemma mtspr_dec opcode m : machine_ok m -> timers_wf (timers m) -> msr_bit MSR.PR m = false ->
  spr_field opcode = SPR.DEC_S ->
  let v := dec_operand opcode m in
  exists m1, rescheduled decrementer_timer (dec_timer (calc_dec_value m) v m) (dec_written true v m) m1 /\
    ppc_mtspr opcode m = (Ret tt, upd_cpu (set_spr SPR.DEC_S v) m1) /\ 0 <= v < 2 ^ 32.
Proof.
  intros Hok Hwf Hpr Hf v. pose proof (mok_get_gpr m (field_d opcode) Hok) as Hg.
  assert (0 <= v < 2 ^ 32) as Hv by (unfold v, dec_operand; destruct (is_601 _); zlia).
  destruct (update_decrementer_effect true (calc_dec_value m) v m Hwf Hv) as (m1 & E & R);
    [apply Hok|]. exists m1. split; [done|]. split; [|done].
  mtspr_branch Hf. unfold bind at 1 2, gets at 1 2.
  replace (if is_601 (cfg m) then _ else _) with v; cycle 1.
  { unfold v, dec_operand. change 0x7F with (Z.ones 7). by rewrite land_lnot_ones. }
  unfold bind. by rewrite E.
Qed.

(** Setting the decrementer.  A privileged write of DEC withdraws a pending
    decrementer exception and restarts the count: [d] nanoseconds later it reads
    the value written (less its low seven bits on the 601) minus the ticks in
    [d].  The decrementer's timer - and no other - is rescheduled: to fire at once
    when the write makes the count negative, otherwise after the count plus one,
    and then no more than that many ticks have passed if the period is the
    inverse of the frequency rounded down. *)
Theorem decrementer_write opcode m : machine_ok m -> timers_wf (timers m) -> msr_bit MSR.PR m = false ->
  spr_field opcode = SPR.DEC_S ->
  let v := dec_operand opcode m in
  exists m', ppc_mtspr opcode m = (Ret tt, m') /\
    dec_exception_pending (ex m') = false /\ (spr (cpu m')).[SPR.DEC_S] = v /\ timers_wf (timers m') /\
    info decrementer_timer (timers m') =
      (if negb (Z.testbit (calc_dec_value m) 31) && Z.testbit v 31
       then mkTimerInfo 0 0 true cb_immediate_decrementer
       else mkTimerInfo (dec_deadline v m) 0 true cb_timed_decrementer) /\
    (forall ti, ti <> decrementer_timer -> info ti (timers m') = info ti (timers m)) /\
    (forall k d, tb k = tb m' -> get_virt_time_ns k = u64 (get_virt_time_ns m + d) -> 0 <= d < 2 ^ 64 ->
       calc_dec_value k = (v - ticks (tb m) d) mod 2 ^ 32) /\
    (tbr_freq_ghz (tb m) * 2 ^ tbr_freq_shift (tb m) * tbr_period_ns (tb m) <= 2 ^ 64 ->
       ticks (tb m) (dec_ticks v m * tbr_period_ns (tb m) / 2 ^ 32) <= dec_ticks v m).
Proof.
  intros Hok Hwf Hpr Hf v. destruct (mtspr_dec opcode m Hok Hwf Hpr Hf) as (m1 & [F W I O] & E & Hv).
  fold v in F, W, I, O, E, Hv. exists (upd_cpu (set_spr SPR.DEC_S v) m1). split; [done|].
  destruct F as (Fc & Ff & Fm & Fv & Ft & Fr & Fl & b & Fe). split_and!.
  - cbn [ex upd_cpu set_cpu]. by rewrite Fe.
  - apply rget_rset_eq.
  - done.
  - done.
  - intros ti Hti. by apply O.
  - intros k d Ek Et Hd. eapply calc_dec_later; try done; [apply Hok|]. rewrite Ek. exact Ft.
  - intros Hp. pose proof (dec_ticks_range v m Hv) as Hn. set (n := dec_ticks v m) in *.
    unfold ticks. set (f := _ * 2 ^ _) in *. set (p := tbr_period_ns (tb m)) in *.
    assert (0 <= f) by (unfold f; pose proof (tbo_freq _ (mo_tb _ Hok)); pose proof (tbo_shift _ (mo_tb _ Hok));
      pose proof (Z.pow_pos_nonneg 2 (tbr_freq_shift (tb m))); nia).
    assert (0 <= p) by apply (mo_tb _ Hok).
    apply Z.div_le_upper_bound; [lia|]. assert (2 ^ 32 * (n * p / 2 ^ 32) <= n * p) by (apply Z.mul_div_le; lia).
    assert (f * (2 ^ 32 * (n * p / 2 ^ 32)) <= f * (n * p)) by (by apply Z.mul_le_mono_nonneg_l).
    assert (f * p * n <= 2 ^ 64 * n) by (apply Z.mul_le_mono_nonneg_r; lia). lia.
Qed.

(** The decrementer fires.  When its timer runs out the count is restarted
    from -1 and the timer set for another full cycle; with interrupts enabled the
    exception is entered at vector 0x900 with nothing pending, and returns to the
    timer loop; otherwise it stays pending and nothing else happens. *)
Theorem decrementer_fires m : machine_ok m -> timers_wf (timers m) ->
  exists m1 m', rescheduled decrementer_timer
      (mkTimerInfo (dec_deadline 0xFFFFFFFF m) 0 true cb_timed_decrementer) (dec_written true 0xFFFFFFFF m) m1 /\
    trigger_timed_decrementer_exception m = (Ret tt, m') /\
    timers m' = timers m1 /\ tb m' = tb m1 /\ calc_dec_value m' = 0xFFFFFFFF /\
    (if msr_bit MSR.EE m
     then exception_entry EXC_DECR (if test (exec_flags (ex m)) (Z.lnot EXEF.EXEF_OPC_DECODER)
                                    then ppc_next_instruction_address (ex m)
                                    else u32 (Z.land (pc (cpu m)) 0xFFFFFFFC + 4)) 0 m1 m'
     else m' = upd_ex (set_dec_exception_pending true) m1).
Proof.
  intros Hok Hwf. unfold trigger_timed_decrementer_exception.
  destruct (update_decrementer_effect true 0xFFFFFFFF 0xFFFFFFFF m Hwf ltac:(lia)) as (m1 & E & R); [apply Hok|].
  pose proof (rs_frame _ _ _ _ R) as (Fc & Ff & Fm & Fv & Ft & Fr & Fl & b & Fe).
  assert (forall k, tb k = tb m1 -> vt k = vt m1 -> calc_dec_value k = 0xFFFFFFFF) as Hread.
  { intros k Ek Ev. rewrite (calc_dec_later m k 0xFFFFFFFF 0); [|apply Hok|lia| | |lia].
    - unfold ticks. rewrite Z.mul_0_r. reflexivity.
    - rewrite Ek. exact Ft.
    - unfold get_virt_time_ns. rewrite Ev, Fv, Z.add_0_r. symmetry. apply uwrap_small, virt_time_range. }
  unfold bind, gets.
  replace (if (0 <=? calc_dec_value m) && _ then _ else _) with 0xFFFFFFFF; cycle 1.
  { pose proof (calc_dec_range m). destruct (Z.leb_spec 0 (calc_dec_value m)); [|lia].
    by destruct (Z.eqb_spec (calc_dec_value m) 0xFFFFFFFF) as [->|]. }
  rewrite E. unfold trigger_decrementer_exception.
  assert (msr_bit MSR.EE m1 = msr_bit MSR.EE m) as -> by (unfold msr_bit; by rewrite Fc).
  exists m1. destruct (msr_bit MSR.EE m).
  - replace (upd_ex (set_dec_exception_pending false) m1) with m1; cycle 1.
    { destruct m1 as [? ? e ? ? ? ? ? ?]. cbn in Fe. subst e. reflexivity. }
    destruct (exception_handler_entry EXC_DECR 0 m1 _ eq_refl) as (m2 & E2 & H2). rewrite E2.
    exists m2. split; [exact R|]. split; [done|]. 
    destruct (ee_env _ _ _ _ _ H2) as (_ & Gv & Gt & _ & Gm & _). split_and!; [done|done|by apply Hread|].
    replace (if test _ _ then _ else _) with
      (if test (exec_flags (ex m1)) (Z.lnot EXEF.EXEF_OPC_DECODER) then ppc_next_instruction_address (ex m1)
       else u32 (Z.land (pc (cpu m1)) 0xFFFFFFFC + 4)); [exact H2|]. rewrite Fe, Fc. reflexivity.
  - eexists. split; [exact R|]. split; [done|]. split_and!; try done. by apply Hread.
Qed.

(** ** The real-time clock of the 601 *)

Lemma calc_rtcl_spec m : tb_ok (tb m) ->
  let total := rtc_lo (tb m) + ticks (tb m) (u64 (get_virt_time_ns m - rtc_timestamp (tb m))) in
  total < 2 ^ 64 ->
  let b := tb (calc_rtcl_value m) in
  rtc_lo b = total mod ONE_BILLION_NS /\
  rtc_hi b = (rtc_hi (tb m) + total / ONE_BILLION_NS) mod 2 ^ 32 /\
  rtc_timestamp b = get_virt_time_ns m.
Proof.
  intros Hb total Ht. unfold calc_rtcl_value. rewrite adjust_correct by (done || apply u64_range).
  pose proof (u64_range (get_virt_time_ns m - rtc_timestamp (tb m))) as Hd.
  pose proof (ticks_range _ _ Hb (proj1 Hd)) as Hr.
  assert (u64 (u64 (ticks (tb m) (u64 (get_virt_time_ns m - rtc_timestamp (tb m)))) + rtc_lo (tb m)) = total) as ->.
  { rewrite uwrap_add_l, Z.add_comm. apply uwrap_small. split; [|done]. unfold total.
    pose proof (tbo_rtc_lo _ Hb). lia. }
  assert (0 <= total) as H0 by (unfold total; pose proof (tbo_rtc_lo _ Hb); lia). clearbody total.
  pose proof (tbo_rtc_hi _ Hb). unfold ONE_BILLION_NS in *. cbv zeta. destruct (Z.leb_spec 1000000000 total).
  - cbn [tb set_tb rtc_lo set_rtc_timestamp set_rtc_lo rtc_hi set_rtc_hi rtc_timestamp]. split_and!; try done.
    by rewrite uwrap_add_r.
  - cbn [tb set_tb rtc_lo set_rtc_timestamp set_rtc_lo rtc_hi set_rtc_hi rtc_timestamp].
    rewrite Z.mod_small, Z.div_small, Z.add_0_r, uwrap_small, (Z.mod_small (rtc_hi _)) by lia. done.
Qed.

Lemma rtcl_frame m : cpu (calc_rtcl_value m) = cpu m /\ cfg (calc_rtcl_value m) = cfg m /\
  vt (calc_rtcl_value m) = vt m.
Proof. unfold calc_rtcl_value. cbv zeta. by split_and!. Qed.

(** The 601's real-time clock.  Reading RTCU or RTCL (user registers 4 and 5)
    first brings the clock forward: the nanoseconds stay below one billion, and
    seconds and nanoseconds together advance by exactly the ticks since the last
    update, modulo 2^32 seconds.  RTCL reads without its low seven bits.  On other
    processors the instruction is illegal. *)
Theorem rtc_read opcode (upper : bool) m : machine_ok m ->
  spr_field opcode = (if upper then SPR.RTCU_U else SPR.RTCL_U) ->
  rtc_lo (tb m) + ticks (tb m) (u64 (get_virt_time_ns m - rtc_timestamp (tb m))) < 2 ^ 64 ->
  if is_601 (cfg m) then
    exists m', ppc_mfspr opcode m = (Ret tt, m') /\
      let b := tb m' in
      0 <= rtc_lo b < 10 ^ 9 /\ rtc_timestamp b = get_virt_time_ns m /\
      10 ^ 9 * rtc_hi b + rtc_lo b =
        (10 ^ 9 * rtc_hi (tb m) + rtc_lo (tb m) +
         ticks (tb m) (u64 (get_virt_time_ns m - rtc_timestamp (tb m)))) mod (10 ^ 9 * 2 ^ 32) /\
      (gpr (cpu m')).[field_d opcode] = if upper then rtc_hi b else rtc_lo b - rtc_lo b mod 128
  else ppc_mfspr opcode m = ppc_illegalop opcode m.
Proof.
  intros Hok Hf Ht. destruct (calc_rtcl_spec m (mo_tb _ Hok) Ht) as (E1 & E2 & E3).
  rewrite <- (Z.add_assoc (10 ^ 9 * rtc_hi (tb m))).
  set (total := rtc_lo (tb m) + ticks _ _) in *. assert (0 <= rtc_lo (tb (calc_rtcl_value m)) < 10 ^ 9) as Hlo.
  { rewrite E1. apply Z.mod_pos_bound. lia. }
  assert (10 ^ 9 * rtc_hi (tb (calc_rtcl_value m)) + rtc_lo (tb (calc_rtcl_value m)) =
    (10 ^ 9 * rtc_hi (tb m) + total) mod (10 ^ 9 * 2 ^ 32)) as Hsum.
  { rewrite E1, E2. unfold ONE_BILLION_NS. change (10 ^ 9) with 1000000000.
    generalize total (rtc_hi (tb m)). intros x y. rewrite Z.rem_mul_r by lia.
    rewrite (Z.mul_comm 1000000000 y), Z.div_add_l by lia.
    rewrite (Z.add_comm (y * 1000000000)), Z.mod_add by lia. lia. }
  unfold ppc_mfspr. cbv zeta beta iota delta [ppc_grab_dab decode_ops_dab]. rewrite Hf.
  destruct (is_601 (cfg m)) eqn:E601; destruct upper;
    cbn [SPR.MQ SPR.XER SPR.RTCU_U SPR.RTCL_U Z.eqb Pos.eqb]; unfold spr_access;
    try change (test SPR.RTCU_U 0x10) with false; try change (test SPR.RTCL_U 0x10) with false;
    cbv iota; unfold only_601, bind at 1, gets at 1; rewrite E601; try done.
  - eexists. split; [reflexivity|]. cbv zeta. split; [exact Hlo|]. split; [exact E3|]. split; [exact Hsum|].
    cbn [cpu mcpu modify upd_cpu set_cpu gpr set_spr with_spr set_gpr with_gpr snd tb].
    by rewrite rget_rset_eq.
  - eexists. split; [reflexivity|]. cbv zeta. split; [exact Hlo|]. split; [exact E3|]. split; [exact Hsum|].
    cbn [cpu mcpu modify upd_cpu set_cpu gpr set_spr with_spr set_gpr with_gpr snd tb].
    rewrite rget_rset_eq. revert Hlo. generalize (rtc_lo (tb (calc_rtcl_value m))). intros x Hx.
    change 0x3FFFFF80 with (Z.land (Z.ones 30) (Z.lnot (Z.ones 7))).
    by rewrite Z.land_assoc, Z.land_ones, Z.mod_small, land_lnot_ones by lia.
Qed.

(** ** Translation registers *)

(** What a write to a register that page translation depends on does. *)
Definition translation_write (unchanged : bool) (f : ppc_state -> ppc_state) (m m1 : machine) : Prop :=
  m1 = if unchanged then m else mmu_pat_ctx_changed (upd_cpu f m).

Lemma pat_ctx_changed_cpu m : cpu (mmu_pat_ctx_changed m) = cpu m.
Proof.
  unfold mmu_pat_ctx_changed. destruct (schedule_frame DTLB TLBFlags.TLBE_FROM_PAT
    (schedule_tlb_invalidation ITLB TLBFlags.TLBE_FROM_PAT m)) as (-> & _).
  apply schedule_frame.
Qed.

Lemma supervisor_runs k m : msr_bit MSR.PR m = false -> privileged k m = k m.
Proof. intros Hpr. unfold privileged, bind, gets. by rewrite Hpr. Qed.

(** C27: segment registers and the page table base.  In supervisor mode mtsr,
    mtsrin and mtspr to SDR1 store the operand; when that changes the register, a
    following isync leaves no instruction or data TLB entry, primary or
    secondary, that was filled from the page tables, and an unchanged value
    leaves the machine as it was. *)
Theorem translation_change_purges opcode m op2 : msr_bit MSR.PR m = false ->
  tracking_wf (mmu m) -> sync_wf m ->
  let v := (gpr (cpu m)).[field_d opcode] in
  let check (op : Z -> M machine unit) (get : machine -> Z) :=
    exists m1 m2, op opcode m = (Ret tt, m1) /\ get m1 = v /\ (get m = v -> m1 = m) /\
      ppc_isync op2 m1 = (Ret tt, m2) /\ tracking_wf (mmu m2) /\
      (get m <> v -> forall s, tag (tlb_at (mmu m2) s) <> TLB_INVALID_TAG ->
         test (flags (tlb_at (mmu m2) s)) TLBFlags.TLBE_FROM_PAT = false) in
  check ppc_mtsr (fun m => (sr (cpu m)).[Z.land (Z.shiftr opcode 16) 0x0F]) /\
  check ppc_mtsrin (fun m' => (sr (cpu m')).[Z.shiftr (gpr (cpu m)).[field_b opcode] 28]) /\
  (spr_field opcode = SPR.SDR1 -> check ppc_mtspr (fun m => m_spr m SPR.SDR1)).
Proof.
  intros Hpr Hw Hs v check.
  assert (forall (op : Z -> M machine unit) get f, (forall m, get (upd_cpu f m) = v) ->
    (forall m m', cpu m = cpu m' -> get m = get m') ->
    op opcode m = (Ret tt, if get m =? v then m else mmu_pat_ctx_changed (upd_cpu f m)) -> check op get)
    as Hcase.
  { intros op get f Hg Hext E. do 2 eexists. split; [exact E|]. split; [|split].
    - destruct (Z.eqb_spec (get m) v) as [Hv|]; [done|]. rewrite (Hext _ (upd_cpu f m)); [apply Hg|].
      apply pat_ctx_changed_cpu.
    - intros Hv. by rewrite Hv, Z.eqb_refl.
    - split; [reflexivity|]. destruct (Z.eqb_spec (get m) v) as [Hv|Hv].
      + split; [by apply do_ctx_sync_purges | done].
      + destruct (pat_change_purges (upd_cpu f m) Hw Hs) as (P1 & _ & P3). by split. }
  split_and!.
  - apply (Hcase _ _ (set_sr (Z.land (Z.shiftr opcode 16) 0x0F) v)).
    + intros m'. apply rget_rset_eq.
    + by intros m1 m2 ->.
    + unfold ppc_mtsr. rewrite supervisor_runs by done.
      cbv zeta beta iota delta [ppc_grab_s write_sr]. fold v. by destruct (_ =? v).
  - apply (Hcase _ _ (set_sr (Z.shiftr (gpr (cpu m)).[field_b opcode] 28) v)).
    + intros m'. apply rget_rset_eq.
    + by intros m1 m2 ->.
    + unfold ppc_mtsrin. rewrite supervisor_runs by done.
      cbv zeta beta iota delta [ppc_grab_regssb write_sr]. fold v. by destruct (_ =? v).
  - intros Hf. apply (Hcase _ _ (set_spr SPR.SDR1 v)).
    + intros m'. apply rget_rset_eq.
    + unfold m_spr. by intros m1 m2 ->.
    + mtspr_branch Hf. unfold gets. fold v. by destruct (m_spr m SPR.SDR1 =? v).
Qed.

(** ** The thermal sensors *)

(** Whether a sensor register's comparison holds. *)
Definition thermal_trip (temp val : Z) : bool :=
  let threshold := val / 2 ^ 23 mod 2 ^ 7 in
  Z.testbit val 0 && (if Z.testbit val 2 then temp <? threshold else threshold <? temp).

Lemma thermal_compare_spec temp val i : 0 <= temp < 2 ^ 32 -> 0 <= i < 32 ->
  Z.testbit (thermal_compare temp val).1 i =
    (if i =? 31 then thermal_trip temp val else if i =? 30 then Z.testbit val 0 else Z.testbit val i) /\
  (thermal_compare temp val).2 = Z.testbit val 1 && thermal_trip temp val.
Proof.
  intros Ht Hi. unfold thermal_compare. cbn [fst snd].
  change (test val 1) with (test val (2 ^ 0)). change (test val 2) with (test val (2 ^ 1)).
  change (test val 4) with (test val (2 ^ 2)). rewrite !test_pow2, (uwrap_small 32 temp) by lia.
  replace (Z.land (Z.shiftr val 23) 0x7F) with (val / 2 ^ 23 mod 2 ^ 7)
    by (change 0x7F with (Z.ones 7); by rewrite Z.land_ones, Z.shiftr_div_pow2 by lia).
  change (Z.testbit val 0 && _) with (thermal_trip temp val). split; [|done].
  rewrite !Z.lor_spec, !Z.shiftl_spec, Z.land_spec by lia. change 0x3FFFFFFF with (Z.ones 30).
  destruct (Z.lt_ge_cases i 30).
  - rewrite !Z.testbit_neg_r, Z.ones_spec_low, andb_true_r by lia.
    rewrite (proj2 (Z.eqb_neq i 31)), (proj2 (Z.eqb_neq i 30)) by lia. done.
  - rewrite Z.ones_spec_high, andb_false_r, orb_false_r by lia.
    destruct (Z.eqb_spec i 31) as [->|]; [|replace i with 30 by lia].
    + rewrite !testbit_b2z by lia. cbn. by rewrite andb_true_r, andb_false_r, orb_false_r.
    + rewrite (Z.testbit_neg_r _ (30 - 31)), testbit_b2z by lia. cbn. by rewrite andb_true_r.
Qed.

Definition thermal_interrupt (m : machine) : bool :=
  let t := junction_temperature (ex m) in
  let asks v := Z.testbit v 1 && thermal_trip t v in
  (asks (m_spr m SPR.THRM1) || asks (m_spr m SPR.THRM2)) && Z.testbit (m_spr m SPR.THRM3) 0.

(** The state [update_thermal] has reached when it decides on the interrupt. *)
Definition thermal_updated (m : machine) : machine :=
  let t := junction_temperature (ex m) in
  upd_cpu (set_spr SPR.THRM2 (thermal_compare t (m_spr m SPR.THRM2)).1)
    (upd_cpu (set_spr SPR.THRM1 (thermal_compare t (m_spr m SPR.THRM1)).1) m).

Lemma update_thermal_eq m : 0 <= junction_temperature (ex m) < 2 ^ 32 ->
  update_thermal m =
  let m1 := thermal_updated m in
  if thermal_interrupt m then
    if msr_bit MSR.EE m
    then ppc_exception_handler EXC_THRM_MGMT_INT 0 (upd_ex (set_thrm_exception_pending false) m1)
    else (Ret tt, upd_ex (set_thrm_exception_pending true) m1)
  else (Ret tt, m1).
Proof.
  intros Ht. unfold update_thermal, thermal_updated, thermal_interrupt.
  pose proof (proj2 (thermal_compare_spec _ (m_spr m SPR.THRM1) 0 Ht ltac:(lia))) as E1.
  pose proof (proj2 (thermal_compare_spec _ (m_spr m SPR.THRM2) 0 Ht ltac:(lia))) as E2.
  change (test (m_spr m SPR.THRM3) 1) with (test (m_spr m SPR.THRM3) (2 ^ 0)). rewrite test_pow2 by lia.
  destruct (thermal_compare _ (m_spr m SPR.THRM1)) as [v1 i1]. cbn [fst snd] in *.
  change (junction_temperature (ex (upd_cpu _ m))) with (junction_temperature (ex m)).
  change (m_spr (upd_cpu (set_spr SPR.THRM1 v1) m) SPR.THRM2) with
    ((spr (cpu m)).[SPR.THRM1 := v1].[SPR.THRM2]). rewrite rget_rset_ne by done.
  change ((spr (cpu m)).[SPR.THRM2]) with (m_spr m SPR.THRM2).
  destruct (thermal_compare _ (m_spr m SPR.THRM2)) as [v2 i2]. cbn [fst snd] in *. by rewrite E1, E2.
Qed.

(** The thermal sensors.  An update sets each sensor's valid bit (30) to its
    enable bit and its interrupt bit (31) to whether the temperature is beyond
    the 7-bit threshold in the direction selected, leaving the other bits; an
    interrupt is raised exactly when sampling is enabled and a tripped sensor
    asks for it: delivered through the exception vector 0x1700 with interrupts
    enabled, left pending otherwise. *)
Theorem thermal_sensors_correct m : 0 <= junction_temperature (ex m) < 2 ^ 32 ->
  exists m1, (forall n i, n ∈ [SPR.THRM1; SPR.THRM2] -> 0 <= i < 32 ->
      Z.testbit (m_spr m1 n) i =
        if i =? 31 then thermal_trip (junction_temperature (ex m)) (m_spr m n)
        else if i =? 30 then Z.testbit (m_spr m n) 0 else Z.testbit (m_spr m n) i) /\
    (forall n, n ∉ [SPR.THRM1; SPR.THRM2] -> m_spr m1 n = m_spr m n) /\
    gpr (cpu m1) = gpr (cpu m) /\ msr (cpu m1) = msr (cpu m) /\ ex m1 = ex m /\ timers m1 = timers m /\
    if thermal_interrupt m then
      if msr_bit MSR.EE m then exists srr0 m', update_thermal m = (Longjmp, m') /\
        exception_entry EXC_THRM_MGMT_INT srr0 0 (upd_ex (set_thrm_exception_pending false) m1) m'
      else update_thermal m = (Ret tt, upd_ex (set_thrm_exception_pending true) m1)
    else update_thermal m = (Ret tt, m1).
Proof.
  intros Ht. exists (thermal_updated m).
  assert (forall n, m_spr (thermal_updated m) n =
    if decide (SPR.THRM2 = n) then (thermal_compare (junction_temperature (ex m)) (m_spr m SPR.THRM2)).1
    else if decide (SPR.THRM1 = n) then (thermal_compare (junction_temperature (ex m)) (m_spr m SPR.THRM1)).1
    else m_spr m n) as Hspr.
  { intros n. unfold m_spr at 1, thermal_updated. cbn [cpu upd_cpu set_cpu spr set_spr with_spr].
    by rewrite !rget_rset. }
  split_and!; try done.
  - intros n i Hn Hi. rewrite Hspr. rewrite !elem_of_cons, elem_of_nil in Hn.
    destruct Hn as [->|[->|[]]]; cbn [decide]; apply thermal_compare_spec; done.
  - intros n Hn. rewrite Hspr, !decide_False by set_solver. done.
  - rewrite update_thermal_eq by done. cbv zeta. destruct (thermal_interrupt m); [|done].
    destruct (msr_bit MSR.EE m); [|done].
    destruct (exception_handler_entry EXC_THRM_MGMT_INT 0
      (upd_ex (set_thrm_exception_pending false) (thermal_updated m)) _ eq_refl) as (m' & E & H).
    by do 2 eexists.
Qed.

(** C39: a thermal interrupt leaves the timer manager marked busy.  When the
    thermal timer is the next one due and its interrupt can be delivered, the
    exception leaves [process_timers] through [longjmp]: no later timer of the
    pass is run, and the manager's flag that a callback is running stays set, so
    that scheduling a timer afterwards no longer asks for the cycle counter to be
    reloaded. *)
Theorem thermal_interrupt_blocks_notification `{Devices} fuel m :
  queue_top (timers m) = Some thermal_timer ->
  timeout_ns (info thermal_timer (timers m)) <= get_virt_time_ns m ->
  cb (info thermal_timer (timers m)) = cb_update_thermal ->
  0 <= junction_temperature (ex m) < 2 ^ 32 -> thermal_interrupt m = true -> msr_bit MSR.EE m = true ->
  exists m', process_timers (S fuel) m = (Longjmp, m') /\ cb_active (timers m') = true /\
  forall ti timeout c, exists m2, add_oneshot_timer ti timeout c m' = (Ret tt, m2) /\
    exec_timer (ex m2) = exec_timer (ex m').
Proof.
  intros Htop Hdue Hcb Ht Hi Hee.
  set (t1 := expire thermal_timer (get_virt_time_ns m) (timers m)).
  set (s2 := set_timers (set_cb_active true t1) (set_timers t1 m)).
  assert (update_thermal s2 = ppc_exception_handler EXC_THRM_MGMT_INT 0
    (upd_ex (set_thrm_exception_pending false) (thermal_updated s2))) as E.
  { rewrite update_thermal_eq by done. cbv zeta.
    change (thermal_interrupt s2) with (thermal_interrupt m). change (msr_bit MSR.EE s2) with (msr_bit MSR.EE m).
    by rewrite Hi, Hee. }
  destruct (exception_handler_entry EXC_THRM_MGMT_INT 0
    (upd_ex (set_thrm_exception_pending false) (thermal_updated s2)) _ eq_refl) as (m' & E' & H').
  exists m'. destruct (ee_env _ _ _ _ _ H') as (_ & _ & _ & _ & Htm & _).
  assert (cb_active (timers m') = true) as Hact by (by rewrite Htm). split; [|split; [exact Hact|]].
  - unfold process_timers, bind, gets. change (get_tm m) with (timers m). rewrite Htop.
    apply process_loop_longjmp.
    + unfold is_due. by apply Z.leb_le.
    + cbv zeta. change (get_tm m) with (timers m). rewrite Hcb. change (update_thermal s2 = (Longjmp, m')).
      by rewrite E, E'.
  - intros ti timeout c. unfold add_oneshot_timer, add_absolute_timer, bind, gets, upd, modify.
    cbn [get_tm machine_timer_host set_tm timers set_timers queue_push set_queue set_info cb_active].
    rewrite Hact. cbn [negb when]. by eexists.
Qed.

(** ** Moves to the MSR *)

(** The state of [mtmsr] once the new value is installed. *)
Definition mtmsr_installed (v : Z) (m : machine) : machine :=
  ppc_msr_did_change (msr (cpu m)) v true
    (if is_601 (cfg m) then m else ppc_change_endian (test v MSR.LE) m).

Lemma mtmsr_installed_frame v m : let m1 := mtmsr_installed v m in
  msr (cpu m1) = v /\ spr (cpu m1) = spr (cpu m) /\ pc (cpu m1) = pc (cpu m) /\
  int_pin (ex m1) = int_pin (ex m) /\ dec_exception_pending (ex m1) = dec_exception_pending (ex m) /\
  thrm_exception_pending (ex m1) = thrm_exception_pending (ex m) /\ same_environment m m1 /\
  (test (exec_flags (ex m)) (Z.lnot EXEF.EXEF_OPC_DECODER) = false ->
   test (exec_flags (ex m1)) (Z.lnot EXEF.EXEF_OPC_DECODER) = false).
Proof.
  unfold mtmsr_installed. set (m0 := if is_601 (cfg m) then m else _).
  assert (cpu m0 = cpu m /\ int_pin (ex m0) = int_pin (ex m) /\
    dec_exception_pending (ex m0) = dec_exception_pending (ex m) /\
    thrm_exception_pending (ex m0) = thrm_exception_pending (ex m) /\ same_environment m m0 /\
    exec_flags (ex m0) = exec_flags (ex m)) as (E1&E2&E3&E4&E5&E6).
  { unfold m0. destruct (is_601 (cfg m)); [done|]. destruct (change_endian_frame (test v MSR.LE) m)
      as (A1&A2&A3&A4&A5&A6&A7&A8&A9). by split_and!. }
  clearbody m0. destruct (msr_did_change_frame (msr (cpu m)) v true m0) as (G1&G2&G3&_&_&_&G7&G8&G9&_&G11&_).
  split_and!; try congruence; [by apply (same_env_trans m m0)|]. rewrite <- E6. intros Hf.
  unfold ppc_msr_did_change. set (m1 := if is_603 _ && _ then _ else _).
  assert (exec_flags (ex m1) = exec_flags (ex m0)) as Hm1.
  { unfold m1. destruct (_ && _); [|done].
    destruct (swap_shadow_frame [0; 1; 2; 3] (upd_cpu (with_msr v) m0)) as (_&_&_&->&_). done. }
  clearbody m1. destruct (test _ MSR.FP); [|by rewrite Hm1]. cbn. rewrite Hm1.
  unfold test in *. rewrite Z.land_lor_distr_l. bool_to_prop. by rewrite Hf.
Qed.

Lemma ppc_mtmsr_eq opcode m : msr_bit MSR.PR m = false ->
  let m1 := mtmsr_installed (gpr (cpu m)).[field_d opcode] m in
  ppc_mtmsr opcode m =
  if msr_bit MSR.EE m1 && int_pin (ex m1) then ppc_exception_handler EXC_EXT_INT 0 m1
  else if msr_bit MSR.EE m1 && dec_exception_pending (ex m1) then
    ppc_exception_handler EXC_DECR 0 (upd_ex (set_dec_exception_pending false) m1)
  else if msr_bit MSR.EE m1 && thrm_exception_pending (ex m1) then
    ppc_exception_handler EXC_THRM_MGMT_INT 0 (upd_ex (set_thrm_exception_pending false) m1)
  else if msr_bit MSR.POW m1 then
    if enter_sleep m1 then
      let m2 := upd_ex (fun e => set_exec_flags (Z.lor (exec_flags e) EXEF.EXEF_SLEEP) e) m1 in
      (Ret tt, upd_ex (set_ppc_next_instruction_address (u32 (Z.land (pc (cpu m2)) 0xFFFFFFFC + 4))) m2)
    else (Ret tt, mmu_change_mode m1)
  else (Ret tt, mmu_change_mode m1).
Proof.
  intros Hpr m1. unfold ppc_mtmsr. rewrite supervisor_runs by done. cbv beta iota delta [ppc_grab_s].
  unfold m1, mtmsr_installed. cbv zeta. by destruct (is_601 (cfg m)).
Qed.

(** Interrupts pending at mtmsr.  When a privileged mtmsr sets MSR[EE], the
    first of a pending external, decrementer and thermal interrupt is taken
    before the next instruction: SRR0 is the address after the mtmsr, SRR1 holds
    the value just written, and only the interrupt taken stops being pending.
    With nothing pending and no power saving, the MSR is the operand and
    execution goes on. *)
Theorem mtmsr_pending_interrupts opcode m : msr_bit MSR.PR m = false ->
  let v := (gpr (cpu m)).[field_d opcode] in
  Z.testbit v 15 = true -> Z.testbit v 18 = false ->
  test (exec_flags (ex m)) (Z.lnot EXEF.EXEF_OPC_DECODER) = false ->
  let e := ex m in
  let taken := if int_pin e then Some EXC_EXT_INT else if dec_exception_pending e then Some EXC_DECR
               else if thrm_exception_pending e then Some EXC_THRM_MGMT_INT else None in
  match taken with
  | Some i =>
      exists m', ppc_mtmsr opcode m = ((if delivered_between i then Ret tt else Longjmp), m') /\
        m_spr m' SPR.SRR0 = (Z.land (pc (cpu m)) 0xFFFFFFFC + 4) mod 2 ^ 32 /\
        m_spr m' SPR.SRR1 = Z.land v 0xFF73 /\
        int_pin (ex m') = int_pin e /\
        dec_exception_pending (ex m') = dec_exception_pending e && negb (bool_decide (i = EXC_DECR)) /\
        thrm_exception_pending (ex m') = thrm_exception_pending e && negb (bool_decide (i = EXC_THRM_MGMT_INT))
  | None => exists m', ppc_mtmsr opcode m = (Ret tt, m') /\ msr (cpu m') = v /\ spr (cpu m') = spr (cpu m)
  end.
Proof.
  intros Hpr v Hee Hpow Hfl e taken. pose proof (ppc_mtmsr_eq opcode m Hpr) as Eq. cbv zeta in Eq. fold v in Eq.
  destruct (mtmsr_installed_frame v m) as (F1&F2&F3&F4&F5&F6&F7&F8). specialize (F8 Hfl).
  set (m1 := mtmsr_installed v m) in *.
  assert (msr_bit MSR.EE m1 = true) as H1.
  { unfold msr_bit, MSR.EE. rewrite F1. change (2 ^ (63 - 48)) with (2 ^ 15). by rewrite test_pow2. }
  assert (msr_bit MSR.POW m1 = false) as H2.
  { unfold msr_bit, MSR.POW. rewrite F1. change (2 ^ (63 - 45)) with (2 ^ 18). by rewrite test_pow2. }
  rewrite H1, H2, F4, F5, F6 in Eq. cbn [andb] in Eq. rewrite Eq. clear Eq. unfold taken. fold e.
  destruct (int_pin e) eqn:Ei; [|destruct (dec_exception_pending e) eqn:Ed;
    [|destruct (thrm_exception_pending e) eqn:Et]].
  - destruct (exception_handler_entry EXC_EXT_INT 0 m1 _ eq_refl) as (m' & E & H). exists m'.
    destruct H as [G0 G1 _ _ _ _ _ _ _ (G2 & G3 & G4) _]. split; [exact E|].
    rewrite G0, G1, G2, G3, G4, F8, F3, F1, F4, F5, F6, Z.lor_0_r. cbn. by rewrite !andb_true_r.
  - destruct (exception_handler_entry EXC_DECR 0 (upd_ex (set_dec_exception_pending false) m1) _ eq_refl)
      as (m' & E & H). exists m'.
    destruct H as [G0 G1 _ _ _ _ _ _ _ (G2 & G3 & G4) _]. split; [exact E|].
    rewrite G0, G1, G2, G3, G4. cbn [ex cpu upd_ex set_ex exec_flags set_dec_exception_pending int_pin
      dec_exception_pending thrm_exception_pending]. rewrite F8, F3, F1, F4, F6, Z.lor_0_r. cbn.
    by rewrite !andb_true_r.
  - destruct (exception_handler_entry EXC_THRM_MGMT_INT 0 (upd_ex (set_thrm_exception_pending false) m1) _ eq_refl)
      as (m' & E & H). exists m'.
    destruct H as [G0 G1 _ _ _ _ _ _ _ (G2 & G3 & G4) _]. split; [exact E|].
    rewrite G0, G1, G2, G3, G4. cbn [ex cpu upd_ex set_ex exec_flags set_thrm_exception_pending int_pin
      dec_exception_pending thrm_exception_pending]. by rewrite F8, F3, F1, F4, F5, Z.lor_0_r.
  - eexists. split; [reflexivity|]. destruct (mmu_change_mode_frame m1) as (K1 & _ & _). by rewrite K1, F1, F2.
Qed.

(** ** Concrete runs *)

Lemma timebase_correct_witness : machine_ok demo_machine /\
  exists m', ppc_mtspr 0x7C1C43A6 demo_machine = (Ret tt, m').
Proof.
  split; [exact demo_machine_ok|].
  destruct (timebase_correct 0x7C1C43A6 false demo_machine demo_machine_ok eq_refl eq_refl) as (m' & E & _).
  exists m'. exact E.
Defined.

Lemma demo_timers_empty_wf : timers_wf (timers demo_machine).
Proof. split; [constructor|]. intros ti. split; [done | set_solver]. Qed.

Lemma decrementer_write_witness : machine_ok demo_machine /\ timers_wf (timers demo_machine) /\
  exists m', ppc_mtspr 0x7C1603A6 demo_machine = (Ret tt, m') /\ dec_exception_pending (ex m') = false.
Proof.
  split; [exact demo_machine_ok|]. split; [exact demo_timers_empty_wf|].
  destruct (decrementer_write 0x7C1603A6 demo_machine demo_machine_ok demo_timers_empty_wf eq_refl eq_refl)
    as (m' & E & H & _). exists m'. exact (conj E H).
Defined.

Lemma decrementer_fires_witness : machine_ok demo_machine /\
  exists m', trigger_timed_decrementer_exception demo_machine = (Ret tt, m') /\ calc_dec_value m' = 0xFFFFFFFF.
Proof.
  split; [exact demo_machine_ok|].
  destruct (decrementer_fires demo_machine demo_machine_ok demo_timers_empty_wf) as (m1 & m' & _ & E & _ & _ & H & _).
  exists m'. exact (conj E H).
Defined.

Definition demo_601 : machine := upd_cfg (set_is_601 true) demo_machine.

Lemma demo_601_ok : machine_ok demo_601.
Proof. destruct demo_machine_ok. by split. Qed.

Lemma rtc_read_witness : machine_ok demo_601 /\
  exists m', ppc_mfspr 0x7C0502A6 demo_601 = (Ret tt, m') /\ 0 <= rtc_lo (tb m') < 10 ^ 9.
Proof.
  split; [exact demo_601_ok|].
  destruct (rtc_read 0x7C0502A6 false demo_601 demo_601_ok eq_refl eq_refl) as (m' & E & H & _).
  exists m'. exact (conj E H).
Defined.

Lemma demo_sync_wf : sync_wf demo_machine.
Proof. intros []; by destruct 1. Qed.

Lemma translation_change_purges_witness : sync_wf demo_machine /\
  exists m1 m2, ppc_mtsr 0x7C2301A4 demo_machine = (Ret tt, m1) /\ ppc_isync 0x4C00012C m1 = (Ret tt, m2) /\
    (sr (cpu m1)).[3] = (gpr (cpu demo_machine)).[1].
Proof.
  split; [exact demo_sync_wf|].
  destruct (proj1 (translation_change_purges 0x7C2301A4 demo_machine 0x4C00012C eq_refl empty_tracking_wf demo_sync_wf))
    as (m1 & m2 & E1 & Hv & _ & E2 & _).
  exists m1, m2. exact (conj E1 (conj E2 Hv)).
Defined.

(** Sensor 1 trips above 16 degrees, with the thermal timer due and interrupts on. *)
Definition demo_thermal : machine :=
  set_timers (mkTimerManager [thermal_timer] {[ thermal_timer := mkTimerInfo 0 0 true cb_update_thermal ]} false)
    (upd_cpu (fun s => set_spr SPR.THRM3 1 (set_spr SPR.THRM1 0x08000003 (with_msr 0x8000 s))) demo_machine).

Lemma thermal_sensors_correct_witness :
  exists m1 m', update_thermal demo_thermal = (Longjmp, m') /\ m_spr m1 SPR.THRM1 = 0xC8000003.
Proof.
  destruct (thermal_sensors_correct demo_thermal ltac:(cbn; lia)) as (m1 & Hb & _ & _ & _ & _ & _ & Hi).
  change (thermal_interrupt demo_thermal) with true in Hi. change (msr_bit MSR.EE demo_thermal) with true in Hi.
  destruct Hi as (srr0 & m' & E & _). exists (thermal_updated demo_thermal), m'. split; [exact E|].
  vm_compute. reflexivity.
Defined.

(** Devices that never do anything. *)
Definition silent_devices : Devices := {| dev_read := fun _ _ _ _ => ret 0; dev_write := fun _ _ _ _ _ => ret tt;
     dev_timer := fun _ _ _ => ret tt |}.

Lemma thermal_interrupt_blocks_notification_witness :
  exists m', @process_timers _ _ _ (@machine_timer_invoke silent_devices) 1 demo_thermal = (Longjmp, m') /\ cb_active (timers m') = true.
Proof.
  destruct (@thermal_interrupt_blocks_notification silent_devices 0 demo_thermal eq_refl ltac:(vm_compute; congruence) eq_refl
    ltac:(cbn; lia) eq_refl eq_refl) as (m' & E & Ha & _).
  exists m'. exact (conj E Ha).
Defined.

(** GPR 1 holds an MSR value with EE set; the interrupt line is asserted. *)
Definition demo_mtmsr : machine :=
  upd_ex (set_int_pin true) (upd_cpu (set_gpr 1 0x8000) demo_machine).

Lemma mtmsr_pending_interrupts_witness :
  exists m', ppc_mtmsr 0x7C200124 demo_mtmsr = (Ret tt, m') /\ m_spr m' SPR.SRR1 = 0x8000.
Proof.
  destruct (mtmsr_pending_interrupts 0x7C200124 demo_mtmsr eq_refl eq_refl eq_refl eq_refl)
    as (m' & E & _ & H & _).
  exists m'. exact (conj E H).
Defined.
