(* ===== verification/Invariant.v ===== *)
(** * The invariant of the machine

    Every operation of the exception, branch and system register components keeps
    the widths of all registers ([machine_ok]), the timer queue a set of exactly
    the active timers, the decoded BAT copies in agreement with the BAT registers,
    the tracking of cached translations, and the registration of pending
    invalidations: the properties the theorems of those components assume. *)
From S2P Require Import Prelude Word PpcState Timers MemCtrl HostMem Machine Branch Mmu MmuBat Exceptions SystemRegs.

(** ** Widths *)

Lemma cancel_timer_ok ti : preserves machine_ok (cancel_timer ti).
Proof.
  unfold cancel_timer, upd. repeat (apply preserves_bind; [|intros ?]); auto with preserve;
    try (apply preserves_modify; intros; by apply mok_timers).
  apply preserves_when, preserves_modify. intros. by apply mok_ex_frame.
Qed.

Lemma add_absolute_timer_ok ti timeout interval c : preserves machine_ok (add_absolute_timer ti timeout interval c).
Proof.
  unfold add_absolute_timer, upd. repeat (apply preserves_bind; [|intros ?]); auto with preserve;
    try (apply preserves_modify; intros; by apply mok_timers).
  apply preserves_when, preserves_modify. intros. by apply mok_ex_frame.
Qed.

Lemma add_oneshot_timer_ok ti timeout c : preserves machine_ok (add_oneshot_timer ti timeout c).
Proof. apply preserves_bind; [auto with preserve | intros; apply add_absolute_timer_ok]. Qed.

#[local] Hint Resolve cancel_timer_ok add_absolute_timer_ok add_oneshot_timer_ok : preserve.

Lemma mok_schedule t v m : machine_ok m -> machine_ok (schedule_tlb_invalidation t v m).
Proof.
  intros Hm. unfold schedule_tlb_invalidation. apply mok_mmu. case_if; [by apply mok_ex_frame | done].
Qed.

Lemma mok_pat m : machine_ok m -> machine_ok (mmu_pat_ctx_changed m).
Proof. intros Hm. by apply mok_schedule, mok_schedule. Qed.

Lemma mok_bat_update r m : machine_ok m -> machine_ok (ibat_update r m) /\ machine_ok (dbat_update r m).
Proof.
  intros Hm. unfold ibat_update, dbat_update, mpc601_bat_update, mpc601_dbat_update, ppc_ibat_update, ppc_dbat_update.
  destruct (is_601 (cfg m)); cbv zeta; split; try done; try destruct (test _ 0x40);
    repeat apply mok_schedule; by repeat apply mok_mmu.
Qed.

Lemma update_decrementer_ok ts oldval newval : 0 <= newval < 2 ^ 32 ->
  preserves machine_ok (update_decrementer ts oldval newval).
Proof.
  intros Hv. unfold update_decrementer. apply preserves_bind; [|intros _].
  { apply preserves_modify. intros m Hm. destruct ts; [|done]. apply mok_tb; [done|]. intros. by apply tb_ok_dec. }
  apply preserves_bind; [apply preserves_modify; intros; by apply mok_ex_frame|intros _].
  apply preserves_bind; [auto with preserve|intros act].
  apply preserves_bind; [auto with preserve|intros _]. apply preserves_if; [apply add_absolute_timer_ok|].
  do 2 (apply preserves_bind; [auto with preserve|intros ?]).
  destruct (MathUtils.u32xu64_lo32 _ _). auto with preserve.
Qed.

Lemma trigger_decrementer_ok : preserves machine_ok trigger_decrementer_exception.
Proof.
  intros m Hm. unfold trigger_decrementer_exception. destruct (msr_bit MSR.EE m).
  - apply exception_handler_ok; [lia|]. by apply mok_ex_frame.
  - by apply mok_ex_frame.
Qed.

Lemma thermal_compare_range temp val : 0 <= val < 2 ^ 32 -> 0 <= (thermal_compare temp val).1 < 2 ^ 32.
Proof.
  intros Hv. unfold thermal_compare. cbn [fst].
  assert (forall b k, 0 <= k <= 31 -> 0 <= Z.shiftl (b2z b) k < 2 ^ 32) as Hb.
  { intros b k Hk. rewrite Z.shiftl_mul_pow2 by lia. pose proof (Z.pow_pos_nonneg 2 k).
    assert (2 ^ k <= 2 ^ 31) by (apply Z.pow_le_mono_r; lia). destruct b; cbn; lia. }
  repeat apply lor_range; try lia; try (apply Hb; lia). by apply land_range_l.
Qed.

Lemma update_thermal_ok : preserves machine_ok update_thermal.
Proof.
  intros m Hm. unfold update_thermal.
  pose proof (thermal_compare_range (junction_temperature (ex m)) _ (mok_get_spr m SPR.THRM1 Hm)) as H1.
  change (spr (cpu m)).[SPR.THRM1] with (m_spr m SPR.THRM1) in H1.
  destruct (thermal_compare _ (m_spr m SPR.THRM1)) as [v1 i1]. cbn [fst] in H1.
  pose proof (mok_spr SPR.THRM1 v1 m Hm H1) as Hm1. set (m1 := upd_cpu (set_spr SPR.THRM1 v1) m) in *.
  pose proof (thermal_compare_range (junction_temperature (ex m1)) _ (mok_get_spr m1 SPR.THRM2 Hm1)) as H2.
  change (spr (cpu m1)).[SPR.THRM2] with (m_spr m1 SPR.THRM2) in H2.
  destruct (thermal_compare _ (m_spr m1 SPR.THRM2)) as [v2 i2]. cbn [fst] in H2.
  pose proof (mok_spr SPR.THRM2 v2 m1 Hm1 H2) as Hm2. set (m2 := upd_cpu (set_spr SPR.THRM2 v2) m1) in *.
  destruct (_ && _); [|done]. destruct (msr_bit MSR.EE m2); [|by apply mok_ex_frame].
  apply exception_handler_ok; [lia|]. by apply mok_ex_frame.
Qed.

Lemma trigger_timed_ok : preserves machine_ok trigger_timed_decrementer_exception.
Proof.
  intros m Hm. unfold trigger_timed_decrementer_exception, bind at 1, gets at 1.
  refine (preserves_bind machine_ok _ _ (update_decrementer_ok true _ _ _) (fun _ => trigger_decrementer_ok) m Hm).
  pose proof (calc_dec_range m). case_if; lia.
Qed.

Lemma trigger_immediate_ok : preserves machine_ok trigger_immediate_decrementer_exception.
Proof.
  intros m Hm. unfold trigger_immediate_decrementer_exception, bind at 1, gets at 1.
  refine (preserves_bind machine_ok _ _ (update_decrementer_ok false _ _ _) (fun _ => trigger_decrementer_ok) m Hm).
  by apply mok_get_spr.
Qed.

Lemma machine_timer_ok `{Devices} c a b : (forall id x y, preserves machine_ok (dev_timer id x y)) ->
  preserves machine_ok (machine_timer_invoke c a b).
Proof.
  intros Hd. destruct c; [apply trigger_timed_ok | apply trigger_immediate_ok | apply update_thermal_ok | apply Hd].
Qed.

Lemma mcpu_ok f : (forall s, ppc_ok s -> ppc_ok (f s)) -> preserves machine_ok (mcpu f).
Proof. intros Hf. apply preserves_modify. intros m Hm. apply mok_cpu; [done|]. apply Hf, Hm. Qed.

Lemma write_sr_ok i v : 0 <= v < 2 ^ 32 -> preserves machine_ok (write_sr i v).
Proof.
  intros Hv m Hm. unfold write_sr. case_if; [done|]. apply mok_pat. apply mok_cpu; [done|].
  apply set_sr_ok; [apply Hm | done].
Qed.

Lemma mtsr_family_ok opcode :
  preserves machine_ok (ppc_mtsr opcode) /\ preserves machine_ok (ppc_mtsrin opcode) /\
  preserves machine_ok (ppc_mfsr opcode) /\ preserves machine_ok (ppc_mfsrin opcode) /\
  preserves machine_ok (ppc_mfmsr opcode).
Proof.
  split_and!; apply privileged_ok; try (apply mcpu_ok; intros s Hs; apply set_gpr_ok; [done | apply Hs]);
    intros m Hm; apply write_sr_ok; try done; by apply mok_get_gpr.
Qed.

Lemma ppc_mtmsr_ok opcode : preserves machine_ok (ppc_mtmsr opcode).
Proof.
  apply privileged_ok. intros m Hm. cbv beta iota zeta delta [ppc_grab_s].
  set (m1 := if is_601 (cfg m) then m else ppc_change_endian _ m).
  assert (machine_ok m1) as H1 by (unfold m1; destruct (is_601 _); [done | by apply mok_change_endian]).
  assert (machine_ok (ppc_msr_did_change (msr (cpu m)) (gpr (cpu m)).[field_d opcode] true m1)) as H2
    by (apply mok_msr_did_change; [done | by apply mok_get_gpr]).
  set (m2 := ppc_msr_did_change _ _ _ _) in *. clearbody m2.
  repeat case_if; try (by apply mok_change_mode); try (apply exception_handler_ok; [lia|]; by try apply mok_ex_frame).
  apply mok_nia; [|apply u32_range]. apply mok_ex; [done|]. intros (?&?&?).
  refine (conj _ (conj _ _)); try done. cbn [exec_flags set_exec_flags]. apply lor_range; (lia || done).
Qed.

Lemma spr_access_ok r k : preserves machine_ok k -> preserves machine_ok (spr_access r k).
Proof. intros Hk. apply preserves_if; [by apply privileged_ok | done]. Qed.

Lemma ppc_illegalop_ok opcode : preserves machine_ok (ppc_illegalop opcode).
Proof. by apply exception_handler_ok. Qed.

Lemma only_601_ok opcode k : preserves machine_ok k -> preserves machine_ok (only_601 opcode k).
Proof.
  intros Hk. apply preserves_bind; [auto with preserve|intros b]. apply preserves_if; [done | apply ppc_illegalop_ok].
Qed.

Lemma read_tbr_ok d b : preserves machine_ok (read_tbr d b).
Proof.
  intros m Hm. unfold read_tbr. cbv zeta. apply mcpu_ok; [|done]. intros s Hs.
  destruct b; repeat first [apply set_gpr_ok | apply set_spr_ok | apply u32_range | done].
Qed.

Lemma read_dec_ok d : preserves machine_ok (read_dec d).
Proof.
  intros m Hm. unfold read_dec. cbv zeta. apply mcpu_ok; [|done]. intros s Hs.
  pose proof (calc_dec_range m). set (v := if is_601 _ then _ else _).
  assert (0 <= v < 2 ^ 32) by (unfold v; destruct (is_601 _); [by apply land_range_l | done]).
  by apply set_gpr_ok; [apply set_spr_ok|].
Qed.

Lemma mok_rtcl m : machine_ok m -> machine_ok (calc_rtcl_value m).
Proof.
  intros Hm. destruct (mo_tb m Hm) as [? ? ? ? ? ? ?]. unfold calc_rtcl_value, ONE_BILLION_NS. cbv zeta.
  set (x := u64 (adjust _ _ + _)). assert (0 <= x mod 1000000000 < 2 ^ 32) by zlia.
  pose proof (u32_range (rtc_hi (tb m) + u32 (x / 1000000000))). pose proof (u32_range x).
  destruct Hm. case_if; (split; [done..|]); by split.
Qed.

Lemma ppc_mfspr_ok opcode : preserves machine_ok (ppc_mfspr opcode).
Proof.
  unfold ppc_mfspr. cbv zeta beta iota delta [ppc_grab_dab decode_ops_dab]. apply spr_access_ok.
  assert (forall d r, preserves machine_ok (copy_spr d r)) as Hc.
  { intros d r. apply mcpu_ok. intros s Hs. apply set_gpr_ok; [done | by apply ok_get_spr]. }
  repeat apply preserves_if; try apply read_tbr_ok; try apply read_dec_ok; try apply only_601_ok; try apply Hc;
    try apply read_dec_ok.
  - apply preserves_bind; [auto with preserve|intros b]. apply preserves_if; [apply Hc | apply ppc_illegalop_ok].
  - apply preserves_bind; [apply preserves_modify, mok_rtcl|intros _]. intros m Hm. cbv zeta.
    apply mcpu_ok; [|done]. intros s Hs.
    repeat first [apply set_gpr_ok | apply set_spr_ok | done | apply (land_range_l 32); [lia|] | apply (mo_tb m Hm)].
  - apply preserves_bind; [apply preserves_modify, mok_rtcl|intros _]. intros m Hm. cbv zeta.
    apply mcpu_ok; [|done]. intros s Hs.
    repeat first [apply set_gpr_ok | apply set_spr_ok | done | apply (mo_tb m Hm)].
Qed.

Lemma restart_thermal_ok : preserves machine_ok restart_thermal_timer.
Proof.
  apply preserves_bind; [auto with preserve|intros act].
  apply preserves_bind; [auto with preserve|intros _]. apply add_oneshot_timer_ok.
Qed.

Lemma set_m_spr_ok i v : 0 <= v < 2 ^ 32 -> preserves machine_ok (set_m_spr i v).
Proof. intros Hv. apply mcpu_ok. intros s Hs. by apply set_spr_ok. Qed.

Lemma update_timebase_ok (upper : bool) v : 0 <= v < 2 ^ 32 -> preserves machine_ok (modify (update_timebase
  (if upper then 0x00000000FFFFFFFF else 0xFFFFFFFF00000000) (if upper then Z.shiftl v 32 else v))).
Proof.
  intros Hv. apply preserves_modify. intros m Hm. pose proof (calc_tbr_range m).
  apply mok_tb; [done|]. intros Hb. apply tb_ok_tbr; [done|]. destruct upper.
  - rewrite update_timebase_upper by done. by apply tbr_written_range.
  - rewrite update_timebase_lower by done. by apply tbr_written_range.
Qed.

(** The moves are checked branch by branch, for an operand in range. *)
Lemma mtspr_branches_ok opcode val r : 0 <= val < 2 ^ 32 ->
  preserves machine_ok (fun m =>
    if m_spr m r =? val then (Ret tt, m) else (Ret tt, mmu_pat_ctx_changed (upd_cpu (set_spr r val) m))) /\
  preserves machine_ok (fun m =>
    if m_spr m r =? val then (Ret tt, m) else (Ret tt, ibat_update r (upd_cpu (set_spr r val) m))) /\
  preserves machine_ok (fun m =>
    if m_spr m r =? val then (Ret tt, m) else (Ret tt, dbat_update r (upd_cpu (set_spr r val) m))) /\
  preserves machine_ok (ppc_illegalop opcode).
Proof.
  intros Hv. split_and!; try apply ppc_illegalop_ok; intros m Hm; (case_if; [done|]).
  - by apply mok_pat, mok_spr.
  - by apply mok_bat_update, mok_spr.
  - by apply mok_bat_update, mok_spr.
Qed.

Lemma ppc_mtspr_ok opcode : preserves machine_ok (ppc_mtspr opcode).
Proof.
  unfold ppc_mtspr. cbv zeta beta iota delta [ppc_grab_dab decode_ops_dab]. apply spr_access_ok.
  intros m Hm. unfold bind at 1, gets at 1. set (val := (gpr (cpu m)).[field_d opcode]).
  assert (0 <= val < 2 ^ 32) as Hv by (by apply mok_get_gpr). clearbody val. revert m Hm. 
  match goal with |- forall m, machine_ok m -> machine_ok (?k m).2 => change (preserves machine_ok k) end.
  destruct (mtspr_branches_ok opcode val (spr_field opcode) Hv) as (B1 & B2 & B3 & B4).
  repeat (apply preserves_if; [try done|]); try done; try apply preserves_ret; try (by apply set_m_spr_ok).
  - apply preserves_bind; [auto with preserve|intros b]. apply preserves_if; [by apply set_m_spr_ok | done].
  - apply only_601_ok, preserves_ret.
  - apply set_m_spr_ok. by apply land_range_l.
  - apply preserves_bind; [apply preserves_modify, mok_rtcl|intros _].
    apply preserves_bind; [|intros _].
    + apply preserves_modify. intros m Hm. apply mok_tb; [done|]. intros []. split; try done. by apply (land_range_l 32).
    + intros m Hm. apply mcpu_ok; [|done]. intros s Hs.
      apply set_spr_ok; [apply set_spr_ok; [done | by apply land_range_l] | apply (mo_tb m Hm)].
  - apply preserves_bind; [apply preserves_modify, mok_rtcl|intros _].
    apply preserves_bind; [|intros _].
    + apply preserves_modify. intros m Hm. apply mok_tb; [done|]. intros []. by split.
    + intros m Hm. apply mcpu_ok; [|done]. intros s Hs.
      apply set_spr_ok; [apply set_spr_ok; [done | apply (mo_tb m Hm)] | done].
  - apply preserves_bind; [auto with preserve|intros b].
    assert (0 <= (if b then Z.land val (Z.lnot 0x7F) else val) < 2 ^ 32) as Hw
      by (destruct b; [by apply land_range_l | done]).
    apply preserves_bind; [auto with preserve|intros old].
    apply preserves_bind; [by apply update_decrementer_ok | intros _; by apply set_m_spr_ok].
  - apply preserves_bind; [by apply (update_timebase_ok false)|intros _].
    apply preserves_bind; [by apply set_m_spr_ok|intros _ m Hm]. apply set_m_spr_ok; [apply u32_range | done].
  - apply preserves_bind; [by apply (update_timebase_ok true)|intros _].
    apply preserves_bind; [|intros _; by apply set_m_spr_ok]. intros m Hm. apply set_m_spr_ok; [apply u32_range | done].
  - apply preserves_bind; [by apply set_m_spr_ok|intros _]. apply preserves_bind; [auto with preserve|intros b].
    apply preserves_when, preserves_modify. intros. by apply mok_change_endian.
  - apply preserves_bind; [|intros _; apply restart_thermal_ok]. apply set_m_spr_ok. by apply land_range_l.
  - apply preserves_bind; [apply set_m_spr_ok; by apply land_range_l|intros _].
    do 2 (apply preserves_bind; [apply mcpu_ok; intros s Hs; apply set_spr_ok; [done|];
      apply land_range_l; [lia | by apply ok_get_spr]|intros _]).
    apply restart_thermal_ok.
Qed.

Lemma ppc_mftb_ok opcode : preserves machine_ok (ppc_mftb opcode).
Proof.
  unfold ppc_mftb. cbv zeta beta iota delta [ppc_grab_dab decode_ops_dab].
  repeat apply preserves_if; try apply read_tbr_ok. apply ppc_illegalop_ok.
Qed.

(** ** Structure *)

(** Memory holds bytes, valid TLB entries have a shape the accesses can use, and
    the replacement bits of the 603 TLBs are bits. *)
Definition mem_inv (m : machine) : Prop :=
  file_ok 8 (host_mem (mem_ctrl m)) /\ shapes_ok (mmu m) /\ lru603_ok (mmu m).

Lemma mem_inv_ext m m' : mem_ctrl m' = mem_ctrl m -> (forall s, tlb_at (mmu m') s = tlb_at (mmu m) s) ->
  tlb603_lru (mmu m') = tlb603_lru (mmu m) -> mem_inv m -> mem_inv m'.
Proof.
  intros E1 E2 E3 (H1 & H2 & H3). split_and!; [by rewrite E1 | by apply (shapes_ext (mmu m))|].
  intros t set. unfold t603_lru_at. rewrite E3. apply H3.
Qed.

Record struct_inv (m : machine) : Prop := mk_struct_inv {
  si_timers : timers_wf (timers m);
  si_tracking : tracking_wf (mmu m);
  si_sync : sync_wf m;
  si_bats : is_601 (cfg m) = false -> bats_synced m;
  si_mem : mem_inv m
}.

(** The parts of the machine the structure depends on. *)
Definition struct_frame (m m' : machine) : Prop :=
  timers m' = timers m /\ mmu m' = mmu m /\ gCtxSyncCallbacks (ex m') = gCtxSyncCallbacks (ex m) /\
  cfg m' = cfg m /\ mem_ctrl m' = mem_ctrl m /\ forall r, 528 <= r <= 543 -> m_spr m' r = m_spr m r.

Lemma bats_synced_ext m m' : ibat_array (mmu m') = ibat_array (mmu m) -> dbat_array (mmu m') = dbat_array (mmu m) ->
  (forall r, 528 <= r <= 543 -> m_spr m' r = m_spr m r) -> bats_synced m -> bats_synced m'.
Proof.
  intros E1 E2 E3 Hb t i Hi. specialize (Hb t i Hi). unfold bat_upper, bat_lower, bat_copy in *.
  destruct t; rewrite ?E1, ?E2, !E3 by lia; exact Hb.
Qed.

Lemma si_frame m m' : struct_frame m m' -> struct_inv m -> struct_inv m'.
Proof.
  intros (E1 & E2 & E3 & E4 & E6 & E5) [Ht Hw Hs Hb Hx]. split.
  - by rewrite E1.
  - by rewrite E2.
  - intros t. rewrite E2, E3. apply Hs.
  - rewrite E4. intros H. apply (bats_synced_ext m); [by rewrite E2.. | done | auto].
  - by apply (mem_inv_ext m); rewrite ?E2.
Qed.

Lemma frame_spr r v m : ~ (528 <= r <= 543) -> struct_frame m (upd_cpu (set_spr r v) m).
Proof. intros Hr. split_and!; try done. intros r' Hr'. apply rget_rset_ne. lia. Qed.

Lemma frame_cpu f m : (forall s, spr (f s) = spr s) -> struct_frame m (upd_cpu f m).
Proof. intros Hf. split_and!; try done. intros r _. unfold m_spr. cbn. by rewrite Hf. Qed.

Lemma frame_ex f m : gCtxSyncCallbacks (f (ex m)) = gCtxSyncCallbacks (ex m) -> struct_frame m (upd_ex f m).
Proof. by intros. Qed.

Lemma frame_refl m : struct_frame m m.
Proof. by split_and!. Qed.

Lemma frame_trans m1 m2 m3 : struct_frame m1 m2 -> struct_frame m2 m3 -> struct_frame m1 m3.
Proof.
  intros (A1&A2&A3&A4&A6&A5) (B1&B2&B3&B4&B6&B5). split_and!; try congruence.
  intros r Hr. by rewrite B5, A5.
Qed.

Lemma frame_change_endian b m : struct_frame m (ppc_change_endian b m).
Proof. by destruct b. Qed.

Lemma frame_msr_did_change old new b m : struct_frame m (ppc_msr_did_change old new b m).
Proof.
  destruct (msr_did_change_frame old new b m) as (_&G2&_&_&_&G6&_&_&_&G10&(Gc&_&_&Gm&Gt&_)&_).
  split_and!; try done. intros r _. unfold m_spr. by rewrite G2.
Qed.

Lemma invalidate_pending_bats t u : ibat_array (tlb_invalidate_pending t u) = ibat_array u /\
  dbat_array (tlb_invalidate_pending t u) = dbat_array u.
Proof.
  unfold tlb_invalidate_pending. destruct (_ =? 0); [done|]. unfold tlb_invalidate_tracked_entries.
  assert (forall l acc v sources, let '(_, v') := fold_left (invalidate_step sources) l (acc, v) in
    ibat_array v' = ibat_array v /\ dbat_array v' = dbat_array v) as H.
  { induction l as [|s l IH]; intros acc v sources; [done|]. cbn [fold_left invalidate_step].
    destruct (test _ _); [|destruct (negb _)];
      [specialize (IH acc (upd_tlb s (fun e => untrack (with_tag TLB_INVALID_TAG e)) v) sources)
      |specialize (IH (acc ++ [s]) v sources) | specialize (IH acc (upd_tlb s untrack v) sources)];
      destruct (fold_left _ l _); exact IH. }
  specialize (H (tracked_entries t u) [] u (pending_sources t u)).
  destruct (fold_left _ _ _) as [r v]. by destruct t.
Qed.

Lemma si_do_ctx_sync m : struct_inv m -> struct_inv (do_ctx_sync m).
Proof.
  intros [Ht Hw Hs Hb Hx]. destruct (do_ctx_sync_purges m Hw Hs) as (P1 & P2 & P3 & _).
  destruct (do_ctx_sync_frame m) as (F1 & _ & (F3 & _ & _ & _ & F4 & _)). split.
  - by rewrite F4.
  - done.
  - intros t. by rewrite P3.
  - rewrite F3. intros H. specialize (Hb H). revert Hb. unfold do_ctx_sync.
    generalize (gCtxSyncCallbacks (ex m)). intros l Hb.
    enough (bats_synced (fold_left (fun m c => run_ctx_sync c m) l m)) by done.
    clear -Hb. revert m Hb. induction l as [|[t] l IH]; intros m Hb; [done|]. cbn [fold_left]. apply IH.
    destruct (invalidate_pending_bats t (mmu m)) as [E1 E2]. by apply (bats_synced_ext m).
  - unfold do_ctx_sync. generalize (gCtxSyncCallbacks (ex m)). intros l.
    enough (mem_inv (fold_left (fun m c => run_ctx_sync c m) l m)) by done.
    clear -Hx. revert m Hx. induction l as [|[t] l IH]; intros m Hx; [done|]. cbn [fold_left]. apply IH.
    destruct Hx as (H1 & H2 & H3). split_and!; [done | by apply shapes_invalidate_pending|].
    intros t' set. unfold t603_lru_at. cbn. rewrite invalidate_pending_lru. apply H3.
Qed.

(** Updates of the MMU that leave the TLBs and their bookkeeping alone. *)
Lemma si_mmu f m : (forall u, tlbs (f u) = tlbs u /\ gTrackedIEntries (f u) = gTrackedIEntries u /\
    gTrackedDEntries (f u) = gTrackedDEntries u /\
    gPendingIInvalidationSources (f u) = gPendingIInvalidationSources u /\
    gPendingDInvalidationSources (f u) = gPendingDInvalidationSources u /\
    ibat_array (f u) = ibat_array u /\ dbat_array (f u) = dbat_array u /\ tlb603_lru (f u) = tlb603_lru u) ->
  struct_inv m -> struct_inv (upd_mmu f m).
Proof.
  intros Hf [Ht Hw Hs Hb Hx]. destruct (Hf (mmu m)) as (E1&E2&E3&E4&E5&E6&E7&E8). split.
  - done.
  - by apply (tracking_wf_proj (mmu m)).
  - intros []; cbn; rewrite ?E4, ?E5; [apply (Hs ITLB) | apply (Hs DTLB)].
  - intros H. by apply (bats_synced_ext m); auto.
  - apply (mem_inv_ext m); try done. intros s. unfold tlb_at. cbn. by rewrite E1.
Qed.

Lemma si_change_mode m : struct_inv m -> struct_inv (mmu_change_mode m).
Proof.
  intros Hm. unfold mmu_change_mode. cbv zeta.
  set (m1 := if negb (CurITLBMode (mmu m) =? _) then _ else m). assert (struct_inv m1) as H1.
  { unfold m1. destruct (negb _); [|done].
    destruct (_ =? 2); [by apply si_mmu|]. destruct (_ =? 3); by apply si_mmu. }
  clearbody m1. destruct (negb _); [|done].
  destruct (_ =? 2); [by apply si_mmu|]. destruct (_ =? 3); by apply si_mmu.
Qed.

Lemma schedule_mem t v m : mem_ctrl (schedule_tlb_invalidation t v m) = mem_ctrl m /\
  tlb603_lru (mmu (schedule_tlb_invalidation t v m)) = tlb603_lru (mmu m).
Proof. unfold schedule_tlb_invalidation. destruct (_ =? 0), t; done. Qed.

Lemma si_schedule t v m : struct_inv m -> struct_inv (schedule_tlb_invalidation t v m).
Proof.
  intros [Ht Hw Hs Hb Hx]. destruct (schedule_effect t v m Hs) as (S1 & _ & S3 & _).
  destruct (schedule_frame t v m) as (F1 & F2 & F3).
  assert (timers (schedule_tlb_invalidation t v m) = timers m /\ cfg (schedule_tlb_invalidation t v m) = cfg m)
    as [E1 E2] by (unfold schedule_tlb_invalidation; by destruct (_ =? 0)).
  destruct (schedule_mem t v m) as [E3 E4].
  split; [by rewrite E1 | by apply schedule_tracking_wf | done| | by apply (mem_inv_ext m)].
  rewrite E2. intros H. apply (bats_synced_ext m); [done..| |auto]. intros r _. unfold m_spr. by rewrite F1.
Qed.

Lemma si_pat m : struct_inv m -> struct_inv (mmu_pat_ctx_changed m).
Proof. intros Hm. by apply si_schedule, si_schedule. Qed.

Lemma exception_handler_struct e bits : preserves struct_inv (ppc_exception_handler e bits).
Proof.
  intros m Hm. unfold ppc_exception_handler. destruct (exc_srr0 e m) as [srr0|] eqn:Es; [|done].
  cbv zeta. set (m1 := upd_cpu (set_spr SPR.SRR1 _) _).
  assert (struct_inv m1) as H1.
  { apply (si_frame m); [|done]. eapply frame_trans; [|apply frame_spr; unfold SPR.SRR1; lia].
    eapply frame_trans; [|by apply frame_ex]. apply frame_spr. unfold SPR.SRR0. lia. }
  clearbody m1. set (m2 := ppc_msr_did_change _ _ _ _).
  assert (struct_inv m2) as H2.
  { apply (si_frame m1); [|done]. eapply frame_trans; [|apply frame_msr_did_change].
    destruct (is_601 _); [apply frame_refl | apply frame_change_endian]. }
  clearbody m2. set (m3 := upd_ex (set_exec_flags EXEF.EXEF_EXCEPTION) _).
  assert (struct_inv m3) as H3.
  { apply (si_frame m2); [|done]. by destruct (test _ MSR.IP). }
  clearbody m3. set (m5 := match e with EXC_MACHINE_CHECK | EXC_SYSTEM_RESET => m3 | _ => _ end).
  assert (struct_inv (mmu_change_mode m5)) as H5.
  { apply si_change_mode. unfold m5. destruct e; auto using si_do_ctx_sync. }
  set (m6 := mmu_change_mode m5) in *. clearbody m6.
  assert (struct_inv (if negb (power_on (ex m6)) && bool_decide (power_off_reason (ex m6) = po_endian_switch)
    then upd_ex (set_power_on true) m6 else m6)) by (case_if; [by apply (si_frame m6) | done]).
  by destruct e.
Qed.

(** ** Both together *)

Definition machine_inv (m : machine) : Prop := machine_ok m /\ struct_inv m.

Lemma inv_both {A} (k : M machine A) : preserves machine_ok k -> preserves struct_inv k -> preserves machine_inv k.
Proof. intros H1 H2 m [Ha Hb]. split; auto. Qed.

Lemma inv_modify f : (forall m, machine_ok m -> machine_ok (f m)) -> (forall m, struct_inv m -> struct_inv (f m)) ->
  preserves machine_inv (modify f).
Proof. intros H1 H2. apply inv_both; by apply preserves_modify. Qed.

Lemma handler_inv e bits : 0 <= bits < 2 ^ 32 -> preserves machine_inv (ppc_exception_handler e bits).
Proof. intros Hb. apply inv_both; [by apply exception_handler_ok | apply exception_handler_struct]. Qed.

Lemma struct_mcpu f : (forall s, spr (f s) = spr s) -> preserves struct_inv (mcpu f).
Proof. intros Hf. apply preserves_modify. intros m Hm. by apply (si_frame m); [apply frame_cpu|]. Qed.

Lemma struct_set_spr r v : ~ (528 <= r <= 543) -> preserves struct_inv (set_m_spr r v).
Proof. intros Hr. apply preserves_modify. intros m Hm. by apply (si_frame m); [apply frame_spr|]. Qed.

Lemma struct_ex f : (forall e, gCtxSyncCallbacks (f e) = gCtxSyncCallbacks e) -> preserves struct_inv (modify (upd_ex f)).
Proof. intros Hf. apply preserves_modify. intros m Hm. by apply (si_frame m); [apply frame_ex|]. Qed.

Lemma struct_privileged k : preserves struct_inv k -> preserves struct_inv (privileged k).
Proof.
  intros Hk. apply preserves_bind; [auto with preserve|]. intros []; [apply exception_handler_struct | done].
Qed.

Lemma struct_illegalop opcode : preserves struct_inv (ppc_illegalop opcode).
Proof. apply exception_handler_struct. Qed.

(** Timers are rescheduled one at a time. *)
Lemma struct_rescheduled ti i m m' : rescheduled ti i m m' -> struct_inv m -> struct_inv m'.
Proof.
  intros [(Fc & Ff & Fm & _ & _ & Fx & _ & b & Fe) W _ _] [Ht Hw Hs Hb Hx]. split.
  - done.
  - by rewrite Fm.
  - intros t. rewrite Fm, Fe. apply Hs.
  - rewrite Ff. intros H. apply (bats_synced_ext m); [by rewrite Fm.. | | auto].
    intros r _. unfold m_spr. by rewrite Fc.
  - by apply (mem_inv_ext m); rewrite ?Fm.
Qed.

Lemma update_decrementer_inv ts oldval newval : 0 <= newval < 2 ^ 32 ->
  preserves machine_inv (update_decrementer ts oldval newval).
Proof.
  intros Hv m [Hok Hs]. split; [by apply update_decrementer_ok|].
  destruct (update_decrementer_effect ts oldval newval m (si_timers m Hs) Hv) as (m' & E & R); [apply Hok|].
  rewrite E. apply (struct_rescheduled _ _ _ _ R). apply (si_frame m); [|done].
  unfold dec_written. by destruct ts.
Qed.

Lemma restart_thermal_inv : preserves struct_inv restart_thermal_timer.
Proof.
  intros m Hm. unfold restart_thermal_timer.
  destruct (cancel_if_active thermal_timer m (si_timers m Hm)) as (m1 & C1 & F1 & W1 & A1 & O1).
  destruct (add_rescheduled thermal_timer (u64 (get_virt_time_ns m1 + 20 * 1000)) cb_update_thermal m1 W1 A1)
    as (m2 & C2 & [F2 W2 I2 O2]).
  match goal with |- struct_inv (bind ?g ?k ?s).2 =>
    change (struct_inv (bind (bind g (fun a => when a (cancel_timer thermal_timer)))
      (fun _ => add_oneshot_timer thermal_timer (20 * 1000) cb_update_thermal) s).2) end.
  unfold bind at 1. rewrite C1.
  change (add_oneshot_timer thermal_timer (20 * 1000) cb_update_thermal m1) with
    (add_absolute_timer thermal_timer (u64 (get_virt_time_ns m1 + 20 * 1000)) 0 cb_update_thermal m1).
  rewrite C2. cbn [snd]. apply (struct_rescheduled thermal_timer (info thermal_timer (timers m2)) m m2); [|done].
  split; [by eapply timer_frame_trans | done | done|].
  intros tj Hj. destruct (O1 tj Hj) as [H1 H2], (O2 tj Hj) as [H3 H4]. by rewrite H3, H4.
Qed.

Lemma struct_write_sr i v : preserves struct_inv (write_sr i v).
Proof.
  intros m Hm. unfold write_sr. case_if; [done|]. apply si_pat. by apply (si_frame m); [apply frame_cpu|].
Qed.

Lemma struct_mtmsr opcode : preserves struct_inv (ppc_mtmsr opcode).
Proof.
  apply struct_privileged. intros m Hm. cbv beta iota zeta delta [ppc_grab_s].
  set (m1 := if is_601 (cfg m) then m else ppc_change_endian _ m).
  assert (struct_inv m1) as H1 by (unfold m1; destruct (is_601 _); [done|];
    by apply (si_frame m); [apply frame_change_endian|]).
  set (m2 := ppc_msr_did_change _ _ _ m1).
  assert (struct_inv m2) as H2 by (by apply (si_frame m1); [apply frame_msr_did_change|]). clearbody m2.
  repeat case_if; try (by apply si_change_mode); try (apply exception_handler_struct; by try apply (si_frame m2)).
  by apply (si_frame m2).
Qed.

Lemma struct_rfi opcode : preserves struct_inv (ppc_rfi opcode).
Proof.
  apply struct_privileged. intros m Hm. cbv zeta.
  set (m1 := if is_601 (cfg m) then m else ppc_change_endian _ m).
  assert (struct_inv m1) as H1 by (unfold m1; destruct (is_601 _); [done|];
    by apply (si_frame m); [apply frame_change_endian|]).
  set (m2 := ppc_msr_did_change _ _ _ m1).
  assert (struct_inv m2) as H2 by (by apply (si_frame m1); [apply frame_msr_did_change|]). clearbody m2.
  case_if.
  - match goal with |- struct_inv (?k m2).2 => cut (preserves struct_inv k); [auto|] end.
    apply preserves_bind; [|intros _; apply struct_set_spr; unfold SPR.SRR0; lia].
    repeat apply preserves_if; try apply exception_handler_struct;
      (apply preserves_bind; [by apply struct_ex | intros; apply exception_handler_struct]).
  - apply (si_frame (mmu_change_mode (do_ctx_sync (upd_ex (set_ppc_next_instruction_address
      (Z.land (m_spr m2 SPR.SRR0) (Z.lnot 3))) m2)))); [by split_and!|].
    apply si_change_mode, si_do_ctx_sync. by apply (si_frame m2).
Qed.

Lemma struct_mcpu_spr f : (forall s r, 528 <= r <= 543 -> (spr (f s)).[r] = (spr s).[r]) ->
  preserves struct_inv (mcpu f).
Proof. intros Hf. apply preserves_modify. intros m Hm. apply (si_frame m); [|done]. split_and!; try done.
  intros r Hr. by apply Hf. Qed.

(** Register numbers outside the BAT registers. *)
Ltac not_bat := intros; cbn [spr set_spr set_gpr with_spr with_gpr]; rewrite ?rget_rset_ne; try done;
  unfold SPR.RTCU_S, SPR.RTCL_S, SPR.TBU_S, SPR.TBL_S, SPR.DEC_S, SPR.THRM1, SPR.THRM2; lia.

Lemma frame_rtcl m : struct_frame m (calc_rtcl_value m).
Proof. unfold calc_rtcl_value. cbv zeta. by split_and!. Qed.

Lemma struct_rtcl : preserves struct_inv (modify calc_rtcl_value).
Proof. apply preserves_modify. intros m Hm. by apply (si_frame m); [apply frame_rtcl|]. Qed.

Lemma struct_mfspr opcode : preserves struct_inv (ppc_mfspr opcode).
Proof.
  unfold ppc_mfspr. cbv zeta beta iota delta [ppc_grab_dab decode_ops_dab].
  assert (forall r k, preserves struct_inv k -> preserves struct_inv (spr_access r k)) as Ha.
  { intros r k Hk. apply preserves_if; [by apply struct_privileged | done]. }
  assert (forall k, preserves struct_inv k -> preserves struct_inv (only_601 opcode k)) as H6.
  { intros k Hk. apply preserves_bind; [auto with preserve|intros b]. apply preserves_if; [done | apply struct_illegalop]. }
  assert (forall d r, preserves struct_inv (copy_spr d r)) as Hc by (intros; by apply struct_mcpu).
  assert (forall d, preserves struct_inv (read_dec d)) as Hd
    by (intros d m Hm; apply struct_mcpu_spr; [not_bat | done]).
  assert (forall d b, preserves struct_inv (read_tbr d b)) as Ht
    by (intros d b m Hm; apply struct_mcpu_spr; [not_bat | done]).
  apply Ha. repeat apply preserves_if; auto.
  - apply preserves_bind; [auto with preserve|intros b]. apply preserves_if; [done | apply struct_illegalop].
  - apply H6. apply preserves_bind; [apply struct_rtcl|intros _ m Hm]. apply struct_mcpu_spr; [not_bat | done].
  - apply H6. apply preserves_bind; [apply struct_rtcl|intros _ m Hm]. apply struct_mcpu_spr; [not_bat | done].
Qed.

(** A BAT register written together with its decoded copy. *)
Definition core_inv (m : machine) : Prop :=
  timers_wf (timers m) /\ tracking_wf (mmu m) /\ sync_wf m /\ mem_inv m.

Lemma core_mmu f m : (forall u, tlbs (f u) = tlbs u /\ gTrackedIEntries (f u) = gTrackedIEntries u /\
    gTrackedDEntries (f u) = gTrackedDEntries u /\
    gPendingIInvalidationSources (f u) = gPendingIInvalidationSources u /\
    gPendingDInvalidationSources (f u) = gPendingDInvalidationSources u /\ tlb603_lru (f u) = tlb603_lru u) ->
  core_inv m -> core_inv (upd_mmu f m).
Proof.
  intros Hf (Ht & Hw & Hs & Hx). destruct (Hf (mmu m)) as (E1&E2&E3&E4&E5&E6). refine (conj _ (conj _ (conj _ _))).
  - done.
  - by apply (tracking_wf_proj (mmu m)).
  - intros []; cbn; rewrite ?E4, ?E5; [apply (Hs ITLB) | apply (Hs DTLB)].
  - apply (mem_inv_ext m); try done. intros s. unfold tlb_at. cbn. by rewrite E1.
Qed.

Lemma schedule_env t v m : timers (schedule_tlb_invalidation t v m) = timers m /\
  cfg (schedule_tlb_invalidation t v m) = cfg m.
Proof. unfold schedule_tlb_invalidation. by destruct (_ =? 0). Qed.

Lemma core_schedule t v m : core_inv m -> core_inv (schedule_tlb_invalidation t v m).
Proof.
  intros (Ht & Hw & Hs & Hx). destruct (schedule_effect t v m Hs) as (S1 & _ & S3 & _).
  destruct (schedule_mem t v m) as [E3 E4]. refine (conj _ (conj _ (conj _ _))); [..|by apply (mem_inv_ext m)].
  - by rewrite (proj1 (schedule_env t v m)).
  - by apply schedule_tracking_wf.
  - done.
Qed.

Lemma bat_update_core r m : core_inv m ->
  core_inv (ibat_update r m) /\ core_inv (dbat_update r m) /\
  cfg (ibat_update r m) = cfg m /\ cfg (dbat_update r m) = cfg m.
Proof.
  intros Hm. unfold ibat_update, dbat_update, mpc601_bat_update, mpc601_dbat_update, ppc_ibat_update, ppc_dbat_update.
  destruct (is_601 (cfg m)); cbv zeta; try destruct (test _ 0x40);
    rewrite ?(fun t v m => proj2 (schedule_env t v m)); refine (conj _ (conj _ (conj _ _))); try done;
    repeat apply core_schedule; by repeat apply core_mmu.
Qed.

Lemma struct_bat_write (data : bool) r v m : (if data then 536 <= r <= 543 else 528 <= r <= 535) ->
  struct_inv m ->
  struct_inv ((if data then dbat_update else ibat_update) r (upd_cpu (set_spr r v) m)).
Proof.
  intros Hr [Ht Hw Hs Hb Hx].
  destruct (bat_update_core r (upd_cpu (set_spr r v) m) (conj Ht (conj Hw (conj Hs Hx))))
    as ((I1 & I2 & I3 & I4) & (D1 & D2 & D3 & D4) & EI & ED).
  pose (b := if data then 536 else 528). pose (i := (r - b) / 2). pose (j := (r - b) mod 2).
  assert (r = b + 2 * i + j /\ 0 <= i < 4 /\ 0 <= j < 2) as (Er & Hi & Hj) by (unfold i, j, b; destruct data; zlia).
  destruct data; split; try done; rewrite ?EI, ?ED; cbn [cfg upd_cpu set_cpu]; intros H6; specialize (Hb H6);
    unfold dbat_update, ibat_update; cbn [cfg upd_cpu set_cpu]; rewrite H6, Er;
    [by apply dbat_write_synced | by apply ibat_write_synced].
Qed.

Lemma update_timebase_frame a b m : struct_frame m (update_timebase a b m).
Proof. by split_and!. Qed.

(** The branches of [ppc_mtspr], one after another. *)
Lemma struct_mtspr opcode m : machine_inv m -> struct_inv (ppc_mtspr opcode m).2.
Proof.
  intros [Hok Hm]. unfold ppc_mtspr. cbv zeta beta iota delta [ppc_grab_dab decode_ops_dab].
  generalize (spr_field opcode). intros r.
  match goal with |- struct_inv (spr_access r ?k m).2 => enough (struct_inv (k m).2) as Hk end.
  { unfold spr_access, privileged, bind, gets. destruct (test r 0x10); [|exact Hk].
    destruct (msr_bit MSR.PR m); [by apply exception_handler_struct | exact Hk]. }
  unfold bind at 1, gets at 1. pose proof (mok_get_gpr m (field_d opcode) Hok) as Hv.
  set (val := (gpr (cpu m)).[field_d opcode]) in *. clearbody val.
  assert (forall k : M machine unit, preserves struct_inv k -> struct_inv (k m).2) as Hp by auto.
  destruct (r =? SPR.MQ) eqn:E1.
  { apply Hp, preserves_bind; [auto with preserve|intros b].
    apply preserves_if; [apply struct_set_spr; apply Z.eqb_eq in E1 as ->; unfold SPR.MQ; lia | apply struct_illegalop]. }
  destruct (_ || (r =? SPR.DEC_U)).
  { apply Hp, preserves_bind; [auto with preserve|intros b]. apply preserves_if; [apply preserves_ret | apply struct_illegalop]. }
  destruct (r =? SPR.XER) eqn:E2.
  { apply Hp, struct_set_spr. apply Z.eqb_eq in E2 as ->. unfold SPR.XER. lia. }
  destruct (r =? SPR.SDR1) eqn:E3.
  { apply Z.eqb_eq in E3 as ->. destruct (m_spr m SPR.SDR1 =? val); [done|].
    apply si_pat. apply (si_frame m); [apply frame_spr; unfold SPR.SDR1; lia | done]. }
  destruct (r =? SPR.RTCL_S).
  { apply Hp, preserves_bind; [apply struct_rtcl|intros _]. apply preserves_bind; [by apply preserves_modify; intros; apply (si_frame s)|intros _ k Hk].
    apply struct_mcpu_spr; [not_bat | done]. }
  destruct (r =? SPR.RTCU_S).
  { apply Hp, preserves_bind; [apply struct_rtcl|intros _]. apply preserves_bind; [by apply preserves_modify; intros; apply (si_frame s)|intros _ k Hk].
    apply struct_mcpu_spr; [not_bat | done]. }
  destruct (r =? SPR.DEC_S).
  { unfold bind at 1 2, gets at 1 2. set (w := if is_601 (cfg m) then _ else val).
    assert (0 <= w < 2 ^ 32) as Hw by (unfold w; destruct (is_601 _); [by apply land_range_l | done]).
    pose proof (proj2 (update_decrementer_inv true (calc_dec_value m) w Hw m (conj Hok Hm))) as Hd.
    unfold bind. destruct (update_decrementer true (calc_dec_value m) w m) as [[] m1]; [|exact Hd..].
    apply struct_set_spr; [unfold SPR.DEC_S; lia | exact Hd]. }
  destruct (r =? SPR.TBL_S).
  { apply Hp, preserves_bind; [apply preserves_modify; intros k Hk; by apply (si_frame k)|intros _].
    apply preserves_bind; [apply struct_set_spr; unfold SPR.TBL_S; lia|intros _ k Hk].
    apply struct_set_spr; [unfold SPR.TBU_S; lia | done]. }
  destruct (r =? SPR.TBU_S).
  { apply Hp, preserves_bind; [apply preserves_modify; intros k Hk; by apply (si_frame k)|intros _].
    apply preserves_bind; [intros k Hk; apply struct_set_spr; [unfold SPR.TBL_S; lia | done]|intros _].
    apply struct_set_spr. unfold SPR.TBU_S. lia. }
  destruct (r =? SPR.PVR); [done|].
  destruct (in_range 528 535 r) eqn:E4.
  { unfold in_range in E4. bool_to_prop. destruct (m_spr m r =? val); [done|]. by apply (struct_bat_write false). }
  destruct (in_range 536 543 r) eqn:E5.
  { unfold in_range in E5. bool_to_prop. destruct (m_spr m r =? val); [done|]. by apply (struct_bat_write true). }
  assert (~ (528 <= r <= 543)) as Hr by (unfold in_range in *; lia).
  assert (forall v, preserves struct_inv (set_m_spr r v)) as Hset by (intros v; by apply struct_set_spr).
  destruct (r =? SPR.HID0).
  { apply Hp, preserves_bind; [apply Hset|intros _]. apply preserves_bind; [auto with preserve|intros b].
    apply preserves_when, preserves_modify. intros k Hk. apply (si_frame k); [apply frame_change_endian | done]. }
  destruct (_ || (r =? SPR.THRM2)).
  { apply Hp, preserves_bind; [apply Hset | intros _; apply restart_thermal_inv]. }
  destruct (r =? SPR.THRM3).
  { apply Hp, preserves_bind; [apply Hset|intros _].
    do 2 (apply preserves_bind; [apply struct_mcpu_spr; not_bat|intros _]). apply restart_thermal_inv. }
  by apply Hset.
Qed.

Lemma struct_trigger_dec : preserves struct_inv trigger_decrementer_exception.
Proof.
  intros m Hm. unfold trigger_decrementer_exception. destruct (msr_bit MSR.EE m); [|by apply (si_frame m)].
  apply exception_handler_struct. by apply (si_frame m).
Qed.

Lemma decrementer_callbacks_inv v b m : 0 <= v < 2 ^ 32 -> machine_inv m ->
  machine_inv ((update_decrementer b v v ;;; trigger_decrementer_exception) m).2.
Proof.
  intros Hv Hm.
  refine (preserves_bind machine_inv _ _ (update_decrementer_inv b v v Hv) (fun _ => _) m Hm).
  apply inv_both; [apply trigger_decrementer_ok | apply struct_trigger_dec].
Qed.

(** The operations of the exception and system register groups. *)
Definition system_operations : list (Z -> M machine unit) :=
  [ppc_rfi; ppc_sc; ppc_isync; ppc_dcbi; ppc_mtsr; ppc_mtsrin; ppc_mfsr; ppc_mfsrin; ppc_mfmsr; ppc_mtmsr;
   ppc_mfspr; ppc_mtspr; ppc_mftb].

Lemma system_operations_inv op : op ∈ system_operations -> forall opcode, preserves machine_inv (op opcode).
Proof.
  intros Hop opcode. destruct (mtsr_family_ok opcode) as (O1 & O2 & O3 & O4 & O5).
  unfold system_operations in Hop. rewrite !elem_of_cons, elem_of_nil in Hop.
  destruct Hop as [->|[->|[->|[->|[->|[->|[->|[->|[->|[->|[->|[->|[->|[]]]]]]]]]]]]]].
  - apply inv_both; [apply ppc_rfi_ok | apply struct_rfi].
  - apply preserves_bind; [apply inv_modify; [apply mok_do_ctx_sync | apply si_do_ctx_sync]|].
    intros _. by apply handler_inv.
  - apply inv_modify; [apply mok_do_ctx_sync | apply si_do_ctx_sync].
  - apply inv_both; [apply privileged_ok, preserves_ret | apply struct_privileged, preserves_ret].
  - apply inv_both; [done|]. apply struct_privileged. intros m Hm. by apply struct_write_sr.
  - apply inv_both; [done|]. apply struct_privileged. intros m Hm. by apply struct_write_sr.
  - apply inv_both; [done|]. by apply struct_privileged, struct_mcpu.
  - apply inv_both; [done|]. by apply struct_privileged, struct_mcpu.
  - apply inv_both; [done|]. by apply struct_privileged, struct_mcpu.
  - apply inv_both; [apply ppc_mtmsr_ok | apply struct_mtmsr].
  - apply inv_both; [apply ppc_mfspr_ok | apply struct_mfspr].
  - intros m Hm. split; [apply ppc_mtspr_ok, Hm | by apply struct_mtspr].
  - apply inv_both; [apply ppc_mftb_ok|]. unfold ppc_mftb.
    cbv zeta beta iota delta [ppc_grab_dab decode_ops_dab].
    repeat apply preserves_if; try apply struct_illegalop; intros m Hm; (apply struct_mcpu_spr; [not_bat | done]).
Qed.

Lemma struct_thermal : preserves struct_inv update_thermal.
Proof.
  intros m Hm. unfold update_thermal. destruct (thermal_compare _ (m_spr m SPR.THRM1)) as [v1 i1].
  set (m1 := upd_cpu (set_spr SPR.THRM1 v1) m).
  destruct (thermal_compare _ (m_spr m1 SPR.THRM2)) as [v2 i2]. set (m2 := upd_cpu (set_spr SPR.THRM2 v2) m1).
  assert (struct_inv m2) as H2.
  { apply (si_frame m1); [apply frame_spr; unfold SPR.THRM2; lia|].
    apply (si_frame m); [apply frame_spr; unfold SPR.THRM1; lia | done]. }
  clearbody m2. destruct (_ && _); [|done]. destruct (msr_bit MSR.EE m2); [|by apply (si_frame m2)].
  apply exception_handler_struct. by apply (si_frame m2).
Qed.

(** The invariant of the machine.  The registers keep their widths, the timer
    queue stays a duplicate-free set of exactly the active timers, the decoded
    block address translations agree with their registers, cached translations
    stay tracked and every pending invalidation registered, through every
    exception, every instruction of the exception and system register groups, and
    the processor's own timer callbacks - whether they return, leave for an
    exception or stop the emulator. *)
Theorem machine_invariant m : machine_inv m ->
  (forall op opcode, op ∈ system_operations -> machine_inv (op opcode m).2) /\
  (forall e bits, 0 <= bits < 2 ^ 32 -> machine_inv (ppc_exception_handler e bits m).2) /\
  machine_inv (trigger_timed_decrementer_exception m).2 /\
  machine_inv (trigger_immediate_decrementer_exception m).2 /\
  machine_inv (update_thermal m).2.
Proof.
  intros Hm. split_and!.
  - intros op opcode Hop. by apply system_operations_inv.
  - intros e bits Hb. by apply handler_inv.
  - unfold trigger_timed_decrementer_exception, bind at 1, gets at 1.
    apply decrementer_callbacks_inv; [|done]. pose proof (calc_dec_range m). case_if; lia.
  - unfold trigger_immediate_decrementer_exception, bind at 1, gets at 1.
    apply decrementer_callbacks_inv; [|done]. apply mok_get_spr, Hm.
  - apply (inv_both update_thermal); [apply update_thermal_ok | apply struct_thermal | done].
Qed.

(** ** Reset *)

Definition bat_ok (t : BATType) (i : Z) (m : machine) : Prop :=
  decodes (bat_at (bat_copy t m) i) (bat_upper t i m) (bat_lower t i m).

Definition bat_update_of (t : BATType) (r : Z) (m : machine) : machine :=
  match t with IBAT => ppc_ibat_update r m | DBAT => ppc_dbat_update r m end.
Definition bat_base (t : BATType) : Z := match t with IBAT => 528 | DBAT => 536 end.

(** Decoding a register pair again makes its copy right and spoils no other. *)
Lemma bat_update_decodes t i k m : 0 <= i < 4 -> 0 <= k < 2 ->
  let m' := bat_update_of t (bat_base t + 2 * i + k) m in
  cpu m' = cpu m /\ bat_ok t i m' /\ forall t' j, bat_ok t' j m -> bat_ok t' j m'.
Proof.
  intros Hi Hk m'.
  assert (Z.land (bat_base t + 2 * i + k) 0xFFFFFFFE = bat_base t + 2 * i) as Hup.
  { apply Z.eqb_eq. destruct t;
      [apply (range_forall2 4 2 (fun i k => Z.land (528 + 2 * i + k) 0xFFFFFFFE =? 528 + 2 * i))
      |apply (range_forall2 4 2 (fun i k => Z.land (536 + 2 * i + k) 0xFFFFFFFE =? 536 + 2 * i))];
      (by vm_compute) || lia. }
  assert (Z.shiftr (bat_base t + 2 * i + k - bat_base t) 1 = i) as Hix.
  { rewrite Z.shiftr_div_pow2 by lia. change (2 ^ 1) with 2. zlia. }
  assert (exists v, cpu m' = cpu m /\
    (forall t', bat_copy t' m' = if decide (t' = t)
       then <[i := ppc_bat_entry (bat_base t + 2 * i) v m]> (bat_copy t m) else bat_copy t' m)) as (v & Ec & Eb).
  { unfold m', bat_update_of, ppc_ibat_update, ppc_dbat_update.
    destruct t; cbn [bat_base] in *; rewrite Hup, Hix; cbv zeta;
      match goal with |- context [schedule_tlb_invalidation ?t ?s ?m2] => destruct (schedule_frame t s m2) as (F1 & F2 & F3) end;
      eexists; (split; [exact F1|]); intros []; unfold bat_copy; rewrite ?F2, ?F3; reflexivity. }
  assert (forall t' j, bat_upper t' j m' = bat_upper t' j m /\ bat_lower t' j m' = bat_lower t' j m) as Er
    by (intros; unfold bat_upper, bat_lower, m_spr; by rewrite Ec).
  split; [exact Ec|]. split.
  - unfold bat_ok. destruct (Er t i) as [-> ->]. rewrite Eb, decide_True, bat_at_insert, decide_True by done.
    destruct t; by split_and!.
  - intros t' j Hj. unfold bat_ok in *. destruct (Er t' j) as [-> ->]. rewrite Eb. case_decide as Ht; [|done].
    subst t'. rewrite bat_at_insert. case_decide as Hij; [|done]. subst j. destruct t; by split_and!.
Qed.

Lemma bats_reset m : is_601 (cfg m) = false ->
  bats_synced (fold_left (fun m reg => dbat_update reg m) [536; 537; 538; 539; 540; 541; 542; 543]
    (fold_left (fun m reg => ibat_update reg m) [528; 529; 530; 531; 532; 533; 534; 535] m)).
Proof.
  intros H6. assert (forall t (l : list (Z * Z)) m, is_601 (cfg m) = false ->
    (forall i k, (i, k) ∈ l -> 0 <= i < 4 /\ 0 <= k < 2) ->
    let m' := fold_left (fun m reg => (match t with IBAT => ibat_update | DBAT => dbat_update end) reg m)
                ((fun '(i, k) => bat_base t + 2 * i + k) <$> l) m in
    is_601 (cfg m') = false /\ (forall t' j, bat_ok t' j m -> bat_ok t' j m') /\
    forall i k, (i, k) ∈ l -> bat_ok t i m') as Hfold.
  { intros t l. induction l as [|[i k] l IH]; intros m0 H60 Hl; [split_and!; [done | done | set_solver]|].
    cbn [fmap list_fmap fold_left]. destruct (Hl i k ltac:(set_solver)) as [Hi Hk].
    destruct (bat_update_decodes t i k m0 Hi Hk) as (_ & B1 & B2).
    assert ((match t with IBAT => ibat_update | DBAT => dbat_update end) (bat_base t + 2 * i + k) m0 =
      bat_update_of t (bat_base t + 2 * i + k) m0) as ->
      by (destruct t; cbn [bat_update_of]; unfold ibat_update, dbat_update; by rewrite H60).
    set (m1 := bat_update_of t _ m0) in *.
    assert (is_601 (cfg m1) = false) as H61.
    { unfold m1, bat_update_of, ppc_ibat_update, ppc_dbat_update. destruct t; cbv zeta;
        by rewrite (proj2 (schedule_env _ _ _)). }
    destruct (IH m1 H61) as (I1 & I2 & I3); [set_solver|]. split_and!; [done | auto|].
    intros i' k' [E|Hin]%elem_of_cons; [|by eapply I3]. simplify_eq. auto. }
  set (l := [(0, 0); (0, 1); (1, 0); (1, 1); (2, 0); (2, 1); (3, 0); (3, 1)]).
  assert (forall i k, (i, k) ∈ l -> 0 <= i < 4 /\ 0 <= k < 2) as Hl.
  { intros i k. unfold l. rewrite !elem_of_cons, elem_of_nil. intros H. naive_solver lia. }
  destruct (Hfold IBAT l m H6 Hl) as (A1 & _ & A3).
  change ((fun '(i, k) => bat_base IBAT + 2 * i + k) <$> l) with [528; 529; 530; 531; 532; 533; 534; 535] in A1, A3.
  set (m1 := fold_left (fun m reg => ibat_update reg m) _ m) in *. clearbody m1.
  destruct (Hfold DBAT l m1 A1 Hl) as (_ & B2 & B3).
  change ((fun '(i, k) => bat_base DBAT + 2 * i + k) <$> l) with [536; 537; 538; 539; 540; 541; 542; 543] in B2, B3.
  set (m2 := fold_left (fun m reg => dbat_update reg m) _ m1) in *. clearbody m2.
  intros t i Hi. assert ((i, 0) ∈ l) as Hin by (unfold l; rewrite !elem_of_cons; each_index i 4%nat; naive_solver).
  destruct t; [apply B2; exact (A3 i 0 Hin) | exact (B3 i 0 Hin)].
Qed.
(** What the BAT updates of a reset keep. *)
Lemma bat_update_quiet r m : sync_wf m ->
  let ok m' := sync_wf m' /\ (forall t, tracked_entries t (mmu m') = tracked_entries t (mmu m)) /\
    timers m' = timers m /\ cfg m' = cfg m /\ cpu m' = cpu m /\ mem_ctrl m' = mem_ctrl m /\
    tlb603_lru (mmu m') = tlb603_lru (mmu m) in
  ok (ibat_update r m) /\ ok (dbat_update r m).
Proof.
  intros Hs ok.
  assert (forall t v m1, ok m1 -> ok (schedule_tlb_invalidation t v m1)) as Hsch.
  { intros t v m1 (O1 & O2 & O3 & O4 & O5 & O6 & O7).
    destruct (schedule_effect t v m1 O1) as (S1 & _ & _ & S4 & _ & S6).
    destruct (schedule_env t v m1) as [E1 E2], (schedule_mem t v m1) as [E3 E4]. split; [done|].
    split; [intros t'; by rewrite S4 | split_and!; congruence]. }
  assert (forall f m1, ok m1 -> (forall u, gPendingIInvalidationSources (f u) = gPendingIInvalidationSources u /\
    gPendingDInvalidationSources (f u) = gPendingDInvalidationSources u /\
    gTrackedIEntries (f u) = gTrackedIEntries u /\ gTrackedDEntries (f u) = gTrackedDEntries u /\
    tlb603_lru (f u) = tlb603_lru u) -> ok (upd_mmu f m1)) as Hu.
  { intros f m1 (O1 & O2 & O3 & O4 & O5 & O6 & O7) Hf. destruct (Hf (mmu m1)) as (E1 & E2 & E3 & E4 & E5).
    split_and!; try done; [..|by cbn; rewrite E5].
    - intros []; cbn; rewrite ?E1, ?E2; [apply (O1 ITLB) | apply (O1 DTLB)].
    - intros []; cbn; rewrite ?E3, ?E4; [apply (O2 ITLB) | apply (O2 DTLB)]. }
  assert (ok m) as Hm by done.
  unfold ibat_update, dbat_update, mpc601_bat_update, mpc601_dbat_update, ppc_ibat_update, ppc_dbat_update.
  destruct (is_601 (cfg m)); cbv zeta; try destruct (test _ 0x40); split; try exact Hm;
    repeat apply Hsch; repeat (apply Hu; [|done]); exact Hm.
Qed.

Lemma bat_updates_quiet l1 l2 m : sync_wf m ->
  let m' := fold_left (fun m reg => dbat_update reg m) l2 (fold_left (fun m reg => ibat_update reg m) l1 m) in
  sync_wf m' /\ (forall t, tracked_entries t (mmu m') = tracked_entries t (mmu m)) /\
  timers m' = timers m /\ cfg m' = cfg m /\ cpu m' = cpu m /\ mem_ctrl m' = mem_ctrl m /\
  tlb603_lru (mmu m') = tlb603_lru (mmu m).
Proof.
  revert m. induction l1 as [|r l1 IH]; intros m Hs; cbn [fold_left].
  - revert m Hs. induction l2 as [|r l2 IH]; intros m Hs; [done|]. cbn [fold_left].
    destruct (bat_update_quiet r m Hs) as (_ & Q1 & Q2 & Q3 & Q4 & Q5 & Q6 & Q7).
    destruct (IH _ Q1) as (I1 & I2 & I3 & I4 & I5 & I6 & I7). split; [done|].
    split; [intros t; by rewrite I2 | split_and!; congruence].
  - destruct (bat_update_quiet r m Hs) as ((Q1 & Q2 & Q3 & Q4 & Q5 & Q6 & Q7) & _).
    destruct (IH _ Q1) as (I1 & I2 & I3 & I4 & I5 & I6 & I7). split; [done|].
    split; [intros t; by rewrite I2 | split_and!; congruence].
Qed.

(** [ppc_mmu_init] in three steps. *)
Definition mmu_cleared (m : machine) : machine :=
  upd_mmu (set_tlb603_lru ∅) (upd_mmu (set_tlb603 ∅)
    (upd_mmu (set_last_ptab_area (mkEntry 0 0xFFFFFFFF 0xFFFFFFFF 0 0 0 0))
      (upd_mmu (set_gTrackedDEntries []) (upd_mmu (set_gTrackedIEntries [])
        (upd_mmu (set_gPendingDInvalidationSources 0) (upd_mmu (set_gPendingIInvalidationSources 0) m)))))).
Definition bats_decoded (m : machine) : machine :=
  fold_left (fun m reg => dbat_update reg m) [536; 537; 538; 539; 540; 541; 542; 543]
    (fold_left (fun m reg => ibat_update reg m) [528; 529; 530; 531; 532; 533; 534; 535] m).
Definition tlbs_emptied (m : machine) : machine := mmu_change_mode (upd_mmu (set_tlbs ∅) m).

Lemma ppc_mmu_init_eq m : ppc_mmu_init m = tlbs_emptied (bats_decoded (mmu_cleared m)).
Proof. unfold ppc_mmu_init, tlbs_emptied, bats_decoded, mmu_cleared. cbv zeta. reflexivity. Qed.

Lemma bats_decoded_ok m : machine_ok m -> machine_ok (bats_decoded m).
Proof.
  unfold bats_decoded. generalize [536; 537; 538; 539; 540; 541; 542; 543] as l2.
  generalize [528; 529; 530; 531; 532; 533; 534; 535] as l1. intros l1. revert m.
  induction l1 as [|r l1 IH]; intros m l2 Hm; cbn [fold_left]; [|apply IH; by apply mok_bat_update].
  revert m Hm. induction l2 as [|r l2 IH]; intros m Hm; [done|]. cbn [fold_left]. apply IH. by apply mok_bat_update.
Qed.

Lemma bats_decoded_quiet m : sync_wf m -> let m' := bats_decoded m in
  sync_wf m' /\ (forall t, tracked_entries t (mmu m') = tracked_entries t (mmu m)) /\
  timers m' = timers m /\ cfg m' = cfg m /\ cpu m' = cpu m /\ mem_ctrl m' = mem_ctrl m /\
  tlb603_lru (mmu m') = tlb603_lru (mmu m).
Proof. unfold bats_decoded. apply bat_updates_quiet. Qed.

Lemma bats_decoded_synced m : is_601 (cfg m) = false -> bats_synced (bats_decoded m).
Proof. exact (bats_reset m). Qed.

Lemma tlbs_emptied_inv m : machine_ok m -> timers_wf (timers m) -> sync_wf m ->
  (forall t, tracked_entries t (mmu m) = []) -> (is_601 (cfg m) = false -> bats_synced m) ->
  file_ok 8 (host_mem (mem_ctrl m)) -> lru603_ok (mmu m) ->
  machine_inv (tlbs_emptied m) /\ (forall s, tlb_at (mmu (tlbs_emptied m)) s = tlb_empty) /\
  (forall t, tracked_entries t (mmu (tlbs_emptied m)) = []) /\ cpu (tlbs_emptied m) = cpu m /\
  mem_ctrl (tlbs_emptied m) = mem_ctrl m.
Proof.
  intros Hok Ht Hs Htr Hb Hm Hl. unfold tlbs_emptied. set (m2 := upd_mmu (set_tlbs ∅) m).
  assert (forall s, tlb_at (mmu m2) s = tlb_empty) as He by done.
  assert (forall t, tracked_entries t (mmu m2) = []) as Htr2 by (intros t; rewrite <- (Htr t); by destruct t).
  assert (struct_inv m2) as H2.
  { split; [done | | | by intros H6; apply (bats_synced_ext m); [..|apply Hb]|].
    3: { split_and!; [done | intros s; rewrite He; by apply shape_invalid | exact Hl]. }
    - intros t. split; rewrite ?Htr2; [constructor | set_solver | |]; intros s Hts; rewrite He.
      + split; [by vm_compute | set_solver].
      + intros _. by destruct 1.
    - intros t Hp. apply Hs. by destruct t. }
  assert (tlbs (mmu (mmu_change_mode m2)) = ∅ /\
    forall t, tracked_entries t (mmu (mmu_change_mode m2)) = tracked_entries t (mmu m2)) as [E1 E2].
  { unfold mmu_change_mode. cbv zeta.
    repeat match goal with |- context [if ?b then _ else _] => destruct b end; split; try done; by intros []. }
  split_and!.
  - split; [apply mok_change_mode; by apply mok_mmu | by apply si_change_mode].
  - intros s. unfold tlb_at. by rewrite E1, lookup_empty.
  - intros t. by rewrite E2.
  - exact (proj1 (mmu_change_mode_frame m2)).
  - destruct (mmu_change_mode_frame m2) as (_ & _ & (_ & _ & _ & E & _)). exact E.
Qed.

Lemma mmu_init_effect m : machine_ok m -> timers_wf (timers m) -> file_ok 8 (host_mem (mem_ctrl m)) ->
  machine_inv (ppc_mmu_init m) /\
  (forall s, tlb_at (mmu (ppc_mmu_init m)) s = tlb_empty) /\
  (forall t, tracked_entries t (mmu (ppc_mmu_init m)) = []) /\ cpu (ppc_mmu_init m) = cpu m /\
  mem_ctrl (ppc_mmu_init m) = mem_ctrl m.
Proof.
  intros Hok Ht Hm. rewrite ppc_mmu_init_eq.
  assert (sync_wf (mmu_cleared m)) as Hs0 by (intros []; by destruct 1).
  destruct (bats_decoded_quiet (mmu_cleared m) Hs0) as (Q1 & Q2 & Q3 & Q4 & Q5 & Q6 & Q7).
  pose proof (bats_decoded_synced (mmu_cleared m)) as Hb.
  destruct (tlbs_emptied_inv (bats_decoded (mmu_cleared m))) as (T1 & T2 & T3 & T4 & T5).
  - apply bats_decoded_ok. unfold mmu_cleared. by repeat apply mok_mmu.
  - by rewrite Q3.
  - done.
  - intros t. rewrite Q2. by destruct t.
  - rewrite Q4. exact Hb.
  - by rewrite Q6.
  - intros t set. unfold t603_lru_at. rewrite Q7. cbn. rewrite lookup_empty. cbn. lia.
  - split; [exact T1|]. split; [exact T2|]. split; [exact T3|].
    split; [by rewrite T4, Q5 | by rewrite T5, Q6].
Qed.

(** Reset establishes the invariant.  Whatever state the MMU was in, after
    [ppc_mmu_init] no TLB slot is valid, nothing is tracked, and the decoded BATs
    are those of the registers; with sound registers, timers and memory contents
    the invariant of the machine holds. *)
Theorem mmu_init_establishes m : machine_ok m -> timers_wf (timers m) -> file_ok 8 (host_mem (mem_ctrl m)) ->
  machine_inv (ppc_mmu_init m) /\
  (forall s, tlb_at (mmu (ppc_mmu_init m)) s = tlb_empty) /\
  (forall t, tracked_entries t (mmu (ppc_mmu_init m)) = []) /\ cpu (ppc_mmu_init m) = cpu m.
Proof. intros Hok Ht Hm. destruct (mmu_init_effect m Hok Ht Hm) as (H1 & H2 & H3 & H4 & _). by split_and!. Qed.

Lemma empty_timers_wf : timers_wf (timers demo_machine).
Proof. split; [constructor|]. intros ti. split; [done | set_solver]. Qed.

Lemma demo_memory_ok : file_ok 8 (host_mem (mem_ctrl demo_machine)).
Proof. apply file_ok_empty. lia. Qed.

Lemma mmu_init_establishes_witness : machine_ok demo_machine /\ machine_inv (ppc_mmu_init demo_machine).
Proof.
  split; [exact demo_machine_ok|]. exact (proj1 (mmu_init_establishes demo_machine demo_machine_ok empty_timers_wf demo_memory_ok)).
Defined.

(** A machine after reset. *)
Definition reset_machine : machine := ppc_mmu_init demo_machine.

Lemma reset_machine_inv : machine_inv reset_machine.
Proof. exact (proj1 (mmu_init_effect demo_machine demo_machine_ok empty_timers_wf demo_memory_ok)). Qed.

Lemma machine_invariant_witness : machine_inv reset_machine /\ machine_inv (ppc_mtspr 0x7C1603A6 reset_machine).2.
Proof.
  split; [exact reset_machine_inv|].
  apply (proj1 (machine_invariant reset_machine reset_machine_inv) ppc_mtspr 0x7C1603A6).
  unfold system_operations. set_solver.
Defined.
