(* ===== verification/VmInv.v ===== *)
(** * The invariant through translation and memory accesses (cpu/ppc/ppcmmu.cpp)

    Looking up, refilling and promoting TLB entries, walking page tables, taking
    storage interrupts, reading and writing guest memory keep the invariant of
    the machine, for any devices that do. *)
From S2P Require Import Prelude Word PpcState Timers MemCtrl HostMem Machine Mmu MmuBat Exceptions Translate PageWalk VMem SystemRegs Invariant.

(** What the machine expects of its devices. *)
Class DevicesOk `{Devices} := {
  dev_read_inv : forall dev start offset size, preserves machine_inv (dev_read dev start offset size);
  dev_write_inv : forall dev start offset value size, preserves machine_inv (dev_write dev start offset value size);
  dev_timer_inv : forall id a b, preserves machine_inv (dev_timer id a b)
}.

(** ** The software TLBs *)

(** A step of the TLBs leaves the rest of the MMU alone. *)
Definition tlb_frame (u u' : mmu_state) : Prop :=
  ibat_array u' = ibat_array u /\ dbat_array u' = dbat_array u /\
  gPendingIInvalidationSources u' = gPendingIInvalidationSources u /\
  gPendingDInvalidationSources u' = gPendingDInvalidationSources u /\
  pCurITLB u' = pCurITLB u /\ pCurDTLB u' = pCurDTLB u /\
  CurITLBMode u' = CurITLBMode u /\ CurDTLBMode u' = CurDTLBMode u /\
  last_ptab_area u' = last_ptab_area u /\ tlb603 u' = tlb603 u /\ tlb603_lru u' = tlb603_lru u.

Lemma tlb_frame_refl u : tlb_frame u u.
Proof. by split_and!. Qed.
Lemma tlb_frame_trans u1 u2 u3 : tlb_frame u1 u2 -> tlb_frame u2 u3 -> tlb_frame u1 u3.
Proof. unfold tlb_frame. intros (?&?&?&?&?&?&?&?&?&?&?) (?&?&?&?&?&?&?&?&?&?&?). split_and!; congruence. Qed.

Lemma frame_set_tlb s e u : tlb_frame u (set_tlb s e u).
Proof. by split_and!. Qed.
Lemma frame_upd_tlb s f u : tlb_frame u (upd_tlb s f u).
Proof. by split_and!. Qed.
Lemma frame_track t s u : tlb_frame u (track_translated_entry t s u).
Proof. unfold track_translated_entry. destruct (_ || _); [apply tlb_frame_refl|]. by destruct t. Qed.
Lemma frame_promote t s1 s2 u : tlb_frame u (promote_tlb_entry t s1 s2 u).
Proof. eapply tlb_frame_trans; [apply frame_set_tlb | apply frame_track]. Qed.
Lemma frame_touch t va way u : tlb_frame u (tlb2_touch_way t va way u).
Proof.
  unfold tlb2_touch_way. destruct (way <? 2);
    repeat (eapply tlb_frame_trans; [|apply frame_upd_tlb]); apply tlb_frame_refl.
Qed.

(** What a step of the TLBs keeps. *)
Definition tlb_wf (u : mmu_state) : Prop := tracking_wf u /\ shapes_ok u.

Lemma shape_flags s e e' : tag e' = tag e -> target e' = target e ->
  test (flags e') TLBFlags.PAGE_MEM = test (flags e) TLBFlags.PAGE_MEM ->
  test (flags e') TLBFlags.PAGE_IO = test (flags e) TLBFlags.PAGE_IO -> tlb_shape s e -> tlb_shape s e'.
Proof. unfold tlb_shape. by intros -> -> -> ->. Qed.

Lemma shapes_upd s f u : (forall e, tag (f e) = tag e /\ target (f e) = target e /\ flags (f e) = flags e) ->
  shapes_ok u -> shapes_ok (upd_tlb s f u).
Proof.
  intros Hf Hu. apply shapes_set; [done|]. destruct (Hf (tlb_at u s)) as (E1 & E2 & E3).
  apply (shape_flags s (tlb_at u s)); rewrite ?E3; auto.
Qed.

Lemma touch_wf t va way u : tlb_wf u -> tlb_wf (tlb2_touch_way t va way u).
Proof.
  intros [Hw Hs]. split; [by apply touch_way_wf|]. unfold tlb2_touch_way.
  destruct (way <? 2); by repeat (apply shapes_upd; [done|]).
Qed.

Lemma test_lor f g mask : Z.land g mask = 0 -> test (Z.lor f g) mask = test f mask.
Proof. intros H. unfold test. by rewrite Z.land_lor_distr_l, H, Z.lor_0_r. Qed.

Lemma track_shapes t s u : shapes_ok u -> shapes_ok (track_translated_entry t s u).
Proof.
  intros Hu. unfold track_translated_entry. destruct (_ || _); [done|].
  apply (shapes_ext (set_tlb s (with_flags (Z.lor (flags (tlb_at u s)) TLBFlags.TLBE_CTX_TRACKED) (tlb_at u s)) u)).
  { intros s'. apply tlb_at_tracked. }
  apply shapes_set; [done|]. apply (shape_flags s (tlb_at u s)); try done; cbn [flags with_flags]; by rewrite test_lor.
Qed.

(** Filling a slot with an entry that keeps its tracking flag. *)
Lemma fill_wf t s e u : tlb_wf u -> sl_type s = t -> is_tracked e = is_tracked (tlb_at u s) -> tlb_shape s e ->
  tlb_wf (track_translated_entry t s (set_tlb s e u)).
Proof. intros [Hw Hs] Ht He Hsh. split; [by apply store_track_wf | by apply track_shapes, shapes_set]. Qed.

(** A memory entry moves up; so does any entry of an instruction TLB. *)
Lemma promote_tlb_wf t s1 s2 u : tlb_wf u -> sl_type s1 = t ->
  (test (flags (tlb_at u s2)) TLBFlags.PAGE_MEM = true \/ sl_type s2 = ITLB) ->
  tlb_wf (promote_tlb_entry t s1 s2 u).
Proof.
  intros [Hw Hs] Ht Hm. split; [by apply promote_wf|]. apply track_shapes, shapes_set; [done|].
  assert (tlb_shape s1 (tlb_at u s2)) as H2.
  { destruct (Hs s2) as [H|[(H1 & H2 & H3)|(H1 & H2 & H3 & H4 & H5)]]; [by left | right; by left|].
    destruct Hm as [E|E]; [by rewrite E in H1 | by rewrite E in H4]. }
  apply (shape_flags s1 (untrack (tlb_at u s2))); [done | done | | |by apply shape_untrack];
    cbn [flags with_flags]; rewrite test_lor; try done; by rewrite <- Z.land_assoc, Z.land_0_r.
Qed.

(** ** Lookups *)

Lemma lookup_secondary_wf t va tg u : tlb_wf u -> let r := lookup_secondary_tlb t va tg u in
  tlb_wf r.2 /\ tlb_frame u r.2 /\
  (forall s, r.1 = Some s -> sl_type s = t /\ sl_second s = true).
Proof.
  intros Hu r. subst r. unfold lookup_secondary_tlb.
  repeat match goal with |- context [if ?b then _ else _] => destruct b end; cbn [fst snd];
    (refine (conj _ (conj _ _)); [by try apply touch_wf | first [apply frame_touch | apply tlb_frame_refl] | by intros s [= <-]]).
Qed.

Lemma lookup_tlb_wf t va tg u : tlb_wf u -> let r := lookup_tlb t va tg u in
  tlb_wf r.2 /\ tlb_frame u r.2 /\ primary_entry r.1 = tlb1_slot t va u /\
  (forall s, matched_entry r.1 = Some s -> sl_type s = t) /\
  primary_hit r.1 = (tag (tlb_at u (tlb1_slot t va u)) =? tg).
Proof.
  intros Hu r. subst r. unfold lookup_tlb. destruct (_ =? tg) eqn:E; cbn [fst snd primary_entry matched_entry primary_hit].
  { refine (conj _ (conj _ (conj _ (conj _ _)))); try done. by intros s [= <-]. }
  pose proof (lookup_secondary_wf t va tg u Hu) as (H1 & H2 & H3).
  destruct (lookup_secondary_tlb t va tg u) as [o v]. cbn in *.
  refine (conj _ (conj _ (conj _ (conj _ _)))); try done. intros s ->. by apply H3.
Qed.

Lemma target_entry_wf t va u : tlb_wf u -> let r := tlb2_target_entry t va u in tlb_wf r.2 /\ tlb_frame u r.2.
Proof.
  intros Hu r. subst r. unfold tlb2_target_entry.
  repeat match goal with |- context [if ?b then _ else _] => destruct b end; cbn [fst snd];
    (split; [by apply touch_wf | apply frame_touch]).
Qed.

(** ** The invariant under the steps *)

Lemma inv_tlb_wf m : machine_inv m -> tlb_wf (mmu m).
Proof. intros [_ [_ Hw _ _ (_ & Hs & _)]]. by split. Qed.

Lemma inv_set_mmu u m : machine_inv m -> tlb_wf u -> tlb_frame (mmu m) u -> machine_inv (set_mmu u m).
Proof.
  intros [Hok [Ht Hw Hs Hb Hx]] [Hw' Hs'] (E1&E2&E3&E4&_&_&_&_&_&_&E5). split.
  { destruct Hok. by split. }
  split; cbn [mmu set_mmu timers cfg]; [done | done | | |].
  - intros t. specialize (Hs t). destruct t; cbn [pending_sources mmu set_mmu ex] in *; by rewrite ?E3, ?E4.
  - intros H. by apply (bats_synced_ext m); [..|apply Hb].
  - destruct Hx as (H1 & H2 & H3). split_and!; [done | done|]. intros t set. unfold t603_lru_at. cbn. rewrite E5. apply H3.
Qed.

Lemma inv_upd_host f m : machine_inv m -> (file_ok 8 (host_mem_of m) -> file_ok 8 (f (host_mem_of m))) ->
  machine_inv (upd_host f m).
Proof.
  intros [Hok [Ht Hw Hs Hb (H1 & H2 & H3)]] Hf. split; [by destruct Hok|].
  split; try done. split_and!; [by apply Hf | done..].
Qed.

Lemma inv_area area m : machine_inv m -> machine_inv (with_area area m).
Proof. intros [Hok Hs]. split; [by apply mok_mmu | by apply si_mmu]. Qed.

Lemma inv_lru603 t set v m : machine_inv m -> 0 <= v <= 1 -> machine_inv (upd_mmu (set_t603_lru t set v) m).
Proof.
  intros [Hok [Ht Hw Hs Hb (H1 & H2 & H3)]] Hv. split; [by apply mok_mmu|].
  split; try done; [by apply (tracking_wf_proj (mmu m))|]. split_and!; [done | by apply (shapes_ext (mmu m))|].
  intros t' set'. unfold t603_lru_at. cbn. destruct (decide ((t, set) = (t', set'))) as [E|E].
  - by rewrite E, lookup_insert_eq.
  - rewrite lookup_insert_ne by done. apply H3.
Qed.

Lemma inv_set_spr r v : ~ (528 <= r <= 543) -> 0 <= v < 2 ^ 32 -> preserves machine_inv (set_m_spr r v).
Proof. intros Hr Hv. apply inv_both; [by apply set_m_spr_ok | by apply struct_set_spr]. Qed.

(** ** The page table walk *)

Lemma storage_inv bits la wr : 0 <= bits < 2 ^ 32 -> 0 <= la < 2 ^ 32 -> preserves machine_inv (data_storage bits la wr).
Proof.
  intros Hb Hl. unfold data_storage. apply preserves_bind; [|intros _; apply preserves_bind; [|intros _]].
  - apply inv_set_spr; [unfold SPR.DSISR; lia|]. apply lor_range; [lia | done|]. destruct wr; by vm_compute.
  - by apply inv_set_spr; [unfold SPR.DAR; lia|].
  - by apply handler_inv.
Qed.

Lemma protection_inv la fetch wr : 0 <= la < 2 ^ 32 -> preserves machine_inv (protection_fault la fetch wr).
Proof. intros Hl. unfold protection_fault. destruct fetch; [by apply handler_inv | by apply storage_inv]. Qed.

Lemma calc_pteg_inv hash : preserves machine_inv (calc_pteg_addr hash).
Proof.
  intros m Hm. unfold calc_pteg_addr. destruct (_ && _); [done|]. destruct (find_range _ _); [|done].
  destruct (test _ _); [|done]. by apply (inv_area _ m).
Qed.

Lemma calc_pteg_range hash m : machine_ok m -> 0 <= calc_pteg_phys hash m < 2 ^ 32.
Proof.
  intros Hm. pose proof (mok_get_spr m SPR.SDR1 Hm : 0 <= m_spr m SPR.SDR1 < 2 ^ 32) as Hs. unfold calc_pteg_phys.
  assert (forall x, 0 <= Z.shiftl (Z.land x 0x3FF) 6 < 2 ^ 32) as H1.
  { intros x. change 0x3FF with (Z.ones 10). rewrite Z.land_ones, Z.shiftl_mul_pow2 by lia. zlia. }
  assert (forall x, 0 <= Z.shiftl (Z.land x 0x1FF) 16 < 2 ^ 32) as H2.
  { intros x. change 0x1FF with (Z.ones 9). rewrite Z.land_ones, Z.shiftl_mul_pow2 by lia. zlia. }
  repeat apply lor_range; try lia; [by apply land_range_l | by apply land_range_l | done].
Qed.

Lemma segment_key_range sr_val pr : 0 <= segment_key sr_val pr < 2.
Proof.
  assert (forall x, 0 <= Z.land x 1 < 2 ^ 1) as H by (intros x; destruct (way_cases x) as [-> | ->]; lia).
  unfold segment_key. change 2 with (2 ^ 1). by apply lor_range; [lia|..]; (apply land_range_l; [lia|]).
Qed.

Lemma tlb_miss_inv la sr_val fetch wr key way : 0 <= la < 2 ^ 32 -> 0 <= sr_val < 2 ^ 32 -> 0 <= key < 2 -> -1 <= way <= 1 ->
  preserves machine_inv (mpc603_tlb_miss la sr_val fetch wr key way).
Proof.
  intros Hl Hs Hk Hw. unfold mpc603_tlb_miss. cbv zeta. set (pi := Z.land (Z.shiftr la 12) 0xFFFF).
  set (cmp := Z.lor _ (Z.shiftr pi 10)).
  assert (0 <= cmp < 2 ^ 32) as Hc.
  { unfold cmp. repeat apply lor_range; try lia.
    - change 0xFFFFFF with (Z.ones 24). rewrite Z.land_ones, Z.shiftl_mul_pow2 by lia. zlia.
    - apply shiftr_range; try lia. apply land_range_l; [lia|]. by apply shiftr_range. }
  clearbody cmp. apply preserves_bind.
  { destruct fetch; (apply preserves_bind; [|intros _]); (apply inv_set_spr; [|done]);
      unfold SPR.IMISS, SPR.ICMP, SPR.DMISS, SPR.DCMP; lia. }
  intros _ m Hm. rewrite bind_gets. revert m Hm.
  assert (forall hash r (k : M machine unit), ~ (528 <= r <= 543) -> preserves machine_inv k ->
    preserves machine_inv (fun m => (set_m_spr r (calc_pteg_phys hash m) ;;; k) m)) as Hset.
  { intros hash r k Hr Hp m Hm. apply (preserves_bind machine_inv _ _
      (inv_set_spr r _ Hr (calc_pteg_range hash m (proj1 Hm))) (fun _ => Hp) m Hm). }
  apply Hset; [unfold SPR.HASH1; lia|]. intros m Hm. rewrite bind_gets. revert m Hm.
  apply Hset; [unfold SPR.HASH2; lia|]. intros m Hm. rewrite !bind_gets. apply handler_inv; [|done].
  set (w := if 0 <=? way then way else _).
  assert (0 <= w <= 1) as Hw2.
  { assert (0 <= t603_lru_at (mmu m) (if fetch then ITLB else DTLB) (tlb603_set la) <= 1) by apply Hm.
    unfold w. repeat case_if; lia. }
  clearbody w. pose proof (ok_cr _ (mo_cpu _ (proj1 Hm))) as Hcr.
  repeat apply lor_range; try lia; rewrite ?Z.shiftl_mul_pow2 by lia; try (destruct fetch, wr; cbn; lia).
  by apply land_range_l.
Qed.

Lemma pat603_inv la sr_val fetch user wr : 0 <= la < 2 ^ 32 -> 0 <= sr_val < 2 ^ 32 ->
  preserves machine_inv (mpc603_page_address_translation la sr_val fetch user wr).
Proof.
  intros Hl Hs. unfold mpc603_page_address_translation. cbv zeta.
  pose proof (segment_key_range sr_val user) as Hk.
  apply preserves_bind; [apply preserves_gets|intros ways].
  set (way := if entry603_matches _ _ (ways 0) then 0 else _).
  assert (way = 0 \/ way = 1 \/ way = 2) as Hw by (unfold way; repeat case_if; auto). clearbody way.
  destruct (Z.eqb_spec way 2) as [->|Hne].
  - apply preserves_bind; [apply tlb_miss_inv; lia | intros _; apply preserves_ret].
  - apply preserves_bind.
    { apply preserves_modify. intros m Hm. apply inv_lru603; [done|]. by destruct Hw as [-> | [-> | ?]]. }
    intros _. apply preserves_bind; [apply preserves_when; by apply protection_inv|]. intros _.
    apply preserves_bind; [apply preserves_when, tlb_miss_inv; lia | intros _; apply preserves_ret].
Qed.

Lemma or_byte_inv a v : 0 <= v < 256 -> preserves machine_inv (or_byte a v).
Proof.
  intros Hv. apply preserves_modify. intros m Hm. apply inv_upd_host; [done|]. intros Hh.
  apply file_ok_set; [done|]. apply (lor_range 8); [lia | apply Hh | done].
Qed.

Lemma use_pte_inv la sr_val pte fetch user wr : 0 <= la < 2 ^ 32 ->
  preserves machine_inv (use_pte la sr_val pte fetch user wr).
Proof.
  intros Hl. unfold use_pte. apply preserves_bind; [apply preserves_gets|intros w]. cbv zeta.
  apply preserves_bind; [apply preserves_when; by apply protection_inv|intros _].
  apply preserves_bind; [by apply or_byte_inv|intros _].
  apply preserves_bind; [apply preserves_when; by apply or_byte_inv | intros _; apply preserves_ret].
Qed.

Lemma search_inv la hash vsid pi fetch wr : 0 <= la < 2 ^ 32 ->
  preserves machine_inv (search_page_table la hash vsid pi fetch wr).
Proof.
  intros Hl. unfold search_page_table. apply preserves_bind; [apply calc_pteg_inv|intros g].
  apply preserves_bind; [apply preserves_gets|intros [a|]; [apply preserves_ret|]].
  apply preserves_bind; [apply calc_pteg_inv|intros g2].
  apply preserves_bind; [apply preserves_gets|intros [a|]; [apply preserves_ret|]].
  apply preserves_bind; [|intros _; apply preserves_longjmp].
  destruct fetch; [by apply handler_inv | by apply storage_inv].
Qed.

Lemma page_translation_inv la fetch user wr : 0 <= la < 2 ^ 32 ->
  preserves machine_inv (page_address_translation la fetch user wr).
Proof.
  intros Hl m Hm. unfold page_address_translation. rewrite bind_gets. cbv beta.
  pose proof (ok_sr _ (mo_cpu _ (proj1 Hm)) (Z.land (Z.shiftr la 28) 0x0F)) as Hs.
  set (sr_val := (sr (cpu m)).[_]) in *. clearbody sr_val.
  destruct (test sr_val 0x80000000); [by destruct (_ =? 0x7F)|].
  match goal with |- machine_inv (?k m).2 => enough (preserves machine_inv k) by auto end.
  apply preserves_bind; [apply preserves_when; by apply handler_inv|intros _].
  apply preserves_bind; [apply preserves_gets|intros b]. apply preserves_if; [by apply pat603_inv|].
  apply preserves_bind; [by apply search_inv|intros pte]. by apply use_pte_inv.
Qed.

(** ** Refills *)

Lemma is_tracked_refill f new e e' : Z.land (Z.lor f new) TLBFlags.TLBE_CTX_TRACKED = 0 ->
  flags e' = refill_flags f new e -> is_tracked e' = is_tracked e.
Proof.
  intros H E. unfold is_tracked, test. rewrite E. unfold refill_flags.
  rewrite Z.land_lor_distr_l, H, Z.lor_0_l, <- Z.land_assoc. by rewrite Z.land_diag.
Qed.

Lemma refill_flags_mask f new e mask : Z.land TLBFlags.TLBE_CTX_TRACKED mask = 0 ->
  test (refill_flags f new e) mask = test (Z.lor f new) mask.
Proof.
  intros H. unfold refill_flags, test. by rewrite Z.land_lor_distr_l, <- Z.land_assoc, H, Z.land_0_r, Z.lor_0_r.
Qed.

(** The flags a translation gives: the sources, writable, changed. *)
Definition xlat_flags (f : Z) : Prop := Z.land f (Z.lnot 0x78) = 0.

Lemma xlat_clean f mask : xlat_flags f -> Z.land 0x78 mask = 0 -> Z.land f mask = 0.
Proof.
  intros Hf Hm. apply Z.bits_inj'. intros i Hi. unfold xlat_flags in Hf.
  apply (f_equal (fun z => Z.testbit z i)) in Hf, Hm. rewrite !Z.land_spec, ?Z.lnot_spec, Z.bits_0 in * by lia.
  destruct (Z.testbit f i), (Z.testbit mask i); [|done..]. rewrite andb_true_l, andb_true_r in *. 
  by destruct (Z.testbit 0x78 i).
Qed.

(** A refilled slot, for a memory page or a device page. *)
Lemma refill_wf t s f new tg tgt l p u : tlb_wf u -> sl_type s = t -> sl_second s = true -> xlat_flags f ->
  (new = TLBFlags.PAGE_MEM /\ (exists r w, tgt = TlbMem r w)) \/
  (t = DTLB /\ new = TLBFlags.PAGE_IO /\ (exists r b, tgt = TlbIo r b)) ->
  tlb_wf (track_translated_entry t s (set_tlb s (mkTLBEntry tg (refill_flags f new (tlb_at u s)) l tgt p) u)).
Proof.
  intros Hu Ht H2 Hf Hn. apply fill_wf; [done | done | |].
  - apply (is_tracked_refill f new); [|done]. rewrite Z.land_lor_distr_l, (xlat_clean f) by done.
    by destruct Hn as [(-> & _)|(_ & -> & _)].
  - unfold tlb_shape. cbn [tag flags target]. rewrite !refill_flags_mask by done. unfold test.
    rewrite !Z.land_lor_distr_l, !(xlat_clean f) by done.
    destruct Hn as [(-> & r & w & ->)|(-> & -> & r & b & ->)]; right; [by left | by right].
Qed.

Lemma refill_inv t s u f new tg tgt l p m : machine_inv m -> tlb_wf u -> tlb_frame (mmu m) u ->
  sl_type s = t -> sl_second s = true -> xlat_flags f ->
  (new = TLBFlags.PAGE_MEM /\ (exists r w, tgt = TlbMem r w)) \/
  (t = DTLB /\ new = TLBFlags.PAGE_IO /\ (exists r b, tgt = TlbIo r b)) ->
  machine_inv (set_mmu (track_translated_entry t s
    (set_tlb s (mkTLBEntry tg (refill_flags f new (tlb_at u s)) l tgt p) u)) m).
Proof.
  intros Hm Hu Hf Ht H2 Hx Hn. apply inv_set_mmu; [done | by apply refill_wf|].
  eapply tlb_frame_trans; [exact Hf|]. eapply tlb_frame_trans; [apply frame_set_tlb | apply frame_track].
Qed.

Definition slot_of (t : TLBType) (s : slot) : Prop := sl_type s = t /\ sl_second s = true.

Lemma itlb2_refill_yields va : 0 <= va < 2 ^ 32 -> yields machine_inv (itlb2_refill va) (slot_of ITLB).
Proof.
  intros Hv. unfold itlb2_refill.
  apply (yields_bind _ _ _ (fun _ => True)); [by apply yields_gets|intros ir _].
  apply (yields_bind _ _ _ (fun x => xlat_flags x.2)).
  { destruct ir; [|by apply yields_ret].
    apply yields_then; [apply preserves_gets|intros bat]. destruct (br_hit bat).
    - apply yields_then; [apply preserves_when; by apply handler_inv|intros _]. by apply yields_ret.
    - apply yields_then; [apply preserves_gets|intros pr].
      apply yields_then; [by apply page_translation_inv|intros pat]. by apply yields_ret. }
  intros [pa f] Hf. cbn [snd] in Hf. apply yields_then; [apply preserves_gets|intros [e|]]; [|apply yields_abort].
  destruct (test _ RT.RT_MMIO); [apply yields_abort|]. intros m Hm.
  pose proof (target_entry_wf ITLB (page_tag va) (mmu m) (inv_tlb_wf m Hm)) as [H1 H2].
  destruct (tlb2_target_entry _ _ _) as [way u]. cbn [fst snd] in *. split; [|by intros s [= <-]].
  apply refill_inv; try done. left. split; [done|]. by do 2 eexists.
Qed.

Lemma dtlb2_refill_yields va wr : 0 <= va < 2 ^ 32 ->
  yields machine_inv (dtlb2_refill va wr) (fun o => forall s, o = Some s -> slot_of DTLB s).
Proof.
  intros Hv. unfold dtlb2_refill.
  apply (yields_bind _ _ _ (fun _ => True)); [by apply yields_gets|intros dr _].
  apply (yields_bind _ _ _ (fun x => xlat_flags x.2)).
  { destruct dr; [|by apply yields_ret].
    apply yields_then; [apply preserves_gets|intros bat]. destruct (br_hit bat).
    - apply yields_then; [apply preserves_when; by apply storage_inv|intros _].
      apply yields_ret. by destruct (_ =? 2).
    - apply yields_then; [apply preserves_gets|intros pr].
      apply yields_then; [by apply page_translation_inv|intros pat]. apply yields_ret.
      by destruct (_ || _), (_ || _). }
  intros [pa f] Hf. cbn [snd] in Hf. apply yields_then; [apply preserves_gets|intros [e|]]; [|by apply yields_ret].
  intros m Hm. pose proof (target_entry_wf DTLB (page_tag va) (mmu m) (inv_tlb_wf m Hm)) as [H1 H2].
  destruct (tlb2_target_entry _ _ _) as [way u]. cbn [fst snd] in *.
  destruct (test (e_type e) RT.RT_MMIO) eqn:Et; (split; [|by intros o [= <-] s [= <-]]);
    apply refill_inv; try done; [right | left]; (split; [done|]); [split; [done|]|]; by do 2 eexists.
Qed.

Lemma set_c_inv s m : machine_inv m -> machine_inv (upd_mmu (set_c_flag s) m).
Proof.
  intros Hm. pose proof (inv_tlb_wf m Hm) as [Hw Hs]. apply (inv_set_mmu (set_c_flag s (mmu m)) m Hm); [|exact (frame_upd_tlb s _ (mmu m))].
  set (e := tlb_at (mmu m) s). assert (forall mask, Z.land TLBFlags.PTE_SET_C mask = 0 ->
    test (flags (with_flags (Z.lor (flags e) TLBFlags.PTE_SET_C) e)) mask = test (flags e) mask) as Hf
    by (intros; cbn [flags with_flags]; by rewrite test_lor).
  split.
  - assert (forall s', let e' := tlb_at (set_c_flag s (mmu m)) s' in
      is_tracked e' = is_tracked (tlb_at (mmu m) s') /\ src e' = src (tlb_at (mmu m) s') /\
      tag e' = tag (tlb_at (mmu m) s')) as H.
    { intros s'. unfold set_c_flag, upd_tlb. rewrite tlb_at_set. case_decide; [subst|done].
      split_and!; [by apply Hf | | done]. unfold src. cbn [flags with_flags]. by rewrite Z.land_lor_distr_l, Z.lor_0_r. }
    intros t. destruct (Hw t) as [A1 A2 A3 A4].
    split; rewrite ?tracked_set_tlb; try done; intros s' Hs'; destruct (H s') as (E1 & E2 & E3);
      rewrite ?E1, ?E2, ?E3; auto.
  - unfold set_c_flag, upd_tlb. fold e. apply shapes_set; [exact Hs|]. apply (shape_flags s e); try done; by apply Hf.
Qed.

Lemma prepare_write_inv s va : 0 <= va < 2 ^ 32 -> preserves machine_inv (prepare_dtlb_write s va).
Proof.
  intros Hv. unfold prepare_dtlb_write. apply preserves_bind; [apply preserves_gets|intros fl].
  apply preserves_bind.
  { apply preserves_when. apply preserves_bind; [|intros _; apply preserves_bind; [|intros _]].
    - apply inv_set_spr; [unfold SPR.DSISR; lia | by vm_compute].
    - by apply inv_set_spr; [unfold SPR.DAR; lia|].
    - by apply handler_inv. }
  intros _. apply preserves_if; [apply preserves_ret|].
  apply preserves_bind; [apply preserves_gets|intros pr].
  apply preserves_bind; [by apply page_translation_inv|intros _].
  apply preserves_bind; [apply preserves_modify; intros; by apply set_c_inv | intros _; apply preserves_ret].
Qed.

Lemma m_lookup_yields t va tg : yields machine_inv (m_lookup t va tg) (fun r =>
  sl_type (primary_entry r) = t /\ forall s, matched_entry r = Some s -> sl_type s = t).
Proof.
  intros m Hm. unfold m_lookup. pose proof (lookup_tlb_wf t va tg (mmu m) (inv_tlb_wf m Hm)) as (H1 & H2 & H3 & H4 & _).
  destruct (lookup_tlb t va tg (mmu m)) as [r u]. cbn [fst snd] in *. split; [by apply inv_set_mmu|].
  intros a [= <-]. split; [by rewrite H3 | done].
Qed.

Lemma promote_inv t s1 s2 m : machine_inv m -> sl_type s1 = t ->
  (test (flags (tlb_at (mmu m) s2)) TLBFlags.PAGE_MEM = true \/ sl_type s2 = ITLB) ->
  machine_inv (upd_mmu (promote_tlb_entry t s1 s2) m).
Proof. intros Hm Ht H2. apply inv_set_mmu; [done | | apply frame_promote]. apply promote_tlb_wf; [by apply inv_tlb_wf | done..]. Qed.

Lemma translate_imem_inv va : 0 <= va < 2 ^ 32 -> preserves machine_inv (mmu_translate_imem va).
Proof.
  intros Hv. unfold mmu_translate_imem. cbv zeta. apply (yields_preserves _ _ (fun _ => True)).
  eapply yields_bind; [apply m_lookup_yields|]. intros r [H1 H2].
  apply yields_then; [|intros _; apply preserves_yields, preserves_bind; auto with preserve].
  apply preserves_if; [apply preserves_ret|]. apply (yields_preserves _ _ (fun _ => True)).
  apply (yields_bind _ _ _ (fun s => sl_type s = ITLB)).
  { destruct (matched_entry r) as [s|]; [by apply yields_ret; auto|].
    eapply yields_weaken; [by apply itlb2_refill_yields|]. by intros s []. }
  intros s Hs. apply preserves_yields, preserves_modify. intros m Hm. apply promote_inv; auto.
Qed.

(** ** Reads and writes *)

Section Accesses.
Context `{DevicesOk}.

Definition word_of (sz : Z) (v : Z) : Prop := 0 <= v < 2 ^ (8 * sz).

Lemma inv_log l m : machine_inv m -> machine_inv (set_io_log l m).
Proof. intros [Hok [Ht Hw Hs Hb Hx]]. split; [by destruct Hok | by split]. Qed.

Lemma devobj_read_yields s addr size : yields machine_inv (devobj_read s addr size) (fun v => 0 <= v < 2 ^ 32).
Proof.
  intros m Hm. unfold devobj_read. destruct (target _) as [r w|r b]; [by split|].
  revert m Hm. change (yields machine_inv (log_io (IoRead (devobj r) (e_start r) (u32 (addr - b)) size) ;;;
    v <- dev_read (devobj r) (e_start r) (u32 (addr - b)) size ;; ret (u32 v)) (fun v => 0 <= v < 2 ^ 32)).
  apply yields_then; [apply preserves_modify; intros; by apply inv_log|intros _].
  apply yields_then; [apply dev_read_inv|intros v]. apply yields_ret, u32_range.
Qed.

Lemma devobj_write_inv s addr value size : preserves machine_inv (devobj_write s addr value size).
Proof.
  intros m Hm. unfold devobj_write. destruct (target _) as [r w|r b]; [done|].
  refine (preserves_bind machine_inv (log_io _) (fun _ => dev_write _ _ _ _ _) _ (fun _ => dev_write_inv _ _ _ _ _) m Hm).
  apply preserves_modify. intros; by apply inv_log.
Qed.

Lemma alignment_dsisr_range opcode : 0 <= alignment_dsisr opcode < 2 ^ 32.
Proof.
  assert (forall x y, 0 <= y < 2 ^ 32 -> 0 <= Z.land x y < 2 ^ 32) as Hl
    by (intros x y Hy; rewrite Z.land_comm; by apply land_range_l).
  unfold alignment_dsisr. cbv zeta.
  repeat match goal with |- context [if ?b then _ else _] => destruct b end;
    repeat first [apply lor_range; [lia|..] | apply Hl; lia | lia].
Qed.

Lemma alignment_inv opcode ea : 0 <= ea < 2 ^ 32 -> preserves machine_inv (ppc_alignment_exception opcode ea).
Proof.
  intros He. unfold ppc_alignment_exception. apply preserves_bind; [|intros _; apply preserves_bind; [|intros _]].
  - apply inv_set_spr; [unfold SPR.DSISR; lia | apply alignment_dsisr_range].
  - by apply inv_set_spr; [unfold SPR.DAR; lia|].
  - by apply handler_inv.
Qed.

Lemma read_device_yields sz opcode va s : access_size sz -> 0 <= va < 2 ^ 32 ->
  yields machine_inv (read_device sz opcode va s) (word_of sz).
Proof.
  intros Hsz Hv. unfold read_device. destruct (Z.eqb_spec sz 8) as [->|Hne].
  - apply yields_then; [apply preserves_when; by apply alignment_inv|intros _].
    eapply yields_bind; [apply devobj_read_yields|]. intros lo Hlo.
    eapply yields_bind; [apply devobj_read_yields|]. intros hi Hhi. apply yields_ret.
    apply (lor_range 64); [lia | apply u64_range | cbn in *; lia].
  - eapply yields_bind; [apply devobj_read_yields|]. intros v Hr. apply yields_ret, uwrap_range.
    destruct Hsz as [-> | [-> | [-> | ->]]]; lia.
Qed.

Lemma read_host_yields sz ha (aligned : bool) : access_size sz ->
  yields machine_inv (gets (fun m => (if aligned then host_read_a else host_read_u) sz ha (host_mem_of m))) (word_of sz).
Proof.
  intros Hsz. apply yields_gets. intros m [_ [_ _ _ _ [Hh _]]].
  destruct (host_read_bytes sz ha (host_mem_of m) Hsz Hh) as [Ea Eu].
  pose proof (host_read_range sz ha (host_mem_of m) Hsz Hh). destruct aligned; unfold word_of; by rewrite ?Ea, ?Eu.
Qed.

Lemma read_vmem_yields sz ru opcode va : access_size sz -> 0 <= va < 2 ^ 32 ->
  (forall ha, yields machine_inv (ru opcode va ha) (word_of sz)) ->
  yields machine_inv (read_vmem sz ru opcode va) (word_of sz).
Proof.
  intros Hsz Hv Hu. unfold read_vmem. cbv zeta.
  eapply yields_bind; [apply m_lookup_yields|]. intros r [H1 H2].
  apply (yields_bind _ _ _ (fun a => match a with HostAt _ => True | Done v => word_of sz v end)).
  - apply yields_if; [by apply yields_gets|].
    apply (yields_bind _ _ _ (fun o => forall s, o = Some s -> sl_type s = DTLB)).
    { destruct (matched_entry r) as [s|]; [apply yields_ret; intros s' [= <-]; by apply H2|].
      eapply yields_weaken; [by apply dtlb2_refill_yields|]. intros o Ho s Hs. by apply Ho. }
    intros [s|] Hs; [|apply yields_ret, uwrap_range; destruct Hsz as [-> | [-> | [-> | ->]]]; lia].
    apply yields_at. intros m Hm. rewrite bind_gets. destruct (test _ TLBFlags.PAGE_MEM) eqn:Em.
    + exists (fun _ => (gets (fun m => HostAt (host_va_offs_r (tlb_at (mmu m) (primary_entry r)) + va)))
        (upd_mmu (promote_tlb_entry DTLB (primary_entry r) s) m)). split; [done|].
      intros m' _. split; [|by intros a [= <-]]. apply promote_inv; auto.
    + eexists. split; [reflexivity|]. eapply yields_bind; [by apply read_device_yields|]. intros v Hvr. by apply yields_ret.
  - intros [ha|v] Ha; [|by apply yields_ret]. apply yields_if; [apply Hu | by apply (read_host_yields sz ha true)].
Qed.

Lemma read8_yields opcode va : 0 <= va < 2 ^ 32 -> yields machine_inv (mmu_read_vmem8 opcode va) (word_of 1).
Proof. intros Hv. apply read_vmem_yields; [by left | done|]. intros _. by apply yields_ret. Qed.

Lemma read_loop_yields n sz opcode va acc : access_size sz -> 0 <= va < 2 ^ 32 -> word_of sz acc ->
  yields machine_inv (read_bytes_loop n sz opcode va acc) (word_of sz).
Proof.
  intros Hsz. revert va acc. induction n as [|n IH]; intros va acc Hv Ha; cbn [read_bytes_loop]; [by apply yields_ret|].
  eapply yields_bind; [by apply read8_yields|]. intros b Hb. apply IH; [apply u32_range|].
  assert (8 <= 8 * sz) by (destruct Hsz as [-> | [-> | [-> | ->]]]; lia).
  apply lor_range; [lia | apply uwrap_range; lia|]. unfold word_of in Hb.
  assert (2 ^ (8 * 1) <= 2 ^ (8 * sz)) by (apply Z.pow_le_mono_r; lia). lia.
Qed.

Lemma read_vmem_inv sz opcode va : access_size sz -> 0 <= va < 2 ^ 32 ->
  yields machine_inv (mmu_read_vmem sz opcode va) (word_of sz).
Proof.
  intros Hsz Hv. apply read_vmem_yields; [done..|]. intros ha. unfold read_unaligned.
  apply yields_then; [apply preserves_when; by apply alignment_inv|intros _].
  apply yields_if; [|by apply (read_host_yields sz ha false)]. apply read_loop_yields; try done. unfold word_of. pose proof (Z.pow_pos_nonneg 2 (8 * sz)).
  destruct Hsz as [-> | [-> | [-> | ->]]]; lia.
Qed.

(** Writing. *)
Lemma write_device_inv sz opcode va v s : 0 <= va < 2 ^ 32 -> preserves machine_inv (write_device sz opcode va v s).
Proof.
  intros Hv. unfold write_device. apply preserves_if; [|apply devobj_write_inv].
  apply preserves_bind; [apply preserves_when; by apply alignment_inv|intros _].
  apply preserves_bind; [apply devobj_write_inv | intros _; apply devobj_write_inv].
Qed.

Lemma write_host_inv sz ha v (aligned : bool) : access_size sz ->
  preserves machine_inv (modify (upd_host ((if aligned then host_write_a else host_write_u) sz ha v))).
Proof.
  intros Hsz. apply preserves_modify. intros m Hm. apply inv_upd_host; [done|]. intros Hh.
  destruct (host_write_bytes sz ha v (host_mem_of m) Hsz) as [Ea Eu]. destruct aligned; rewrite ?Ea, ?Eu;
    by apply host_write_ok.
Qed.

Lemma secondary_c_inv va tg m : machine_inv m -> machine_inv (upd_mmu (fun u =>
  let '(tlb2_entry, u) := lookup_secondary_tlb DTLB va tg u in
  match tlb2_entry with Some s => set_c_flag s u | None => u end) m).
Proof.
  intros Hm. pose proof (lookup_secondary_wf DTLB va tg (mmu m) (inv_tlb_wf m Hm)) as (H1 & H2 & H3).
  unfold upd_mmu. destruct (lookup_secondary_tlb _ _ _ _) as [[s|] u]; cbn [fst snd] in *; [|by apply inv_set_mmu].
  apply (set_c_inv s (set_mmu u m)). by apply inv_set_mmu.
Qed.

Lemma write_vmem_preserves sz wu opcode va v : access_size sz -> 0 <= va < 2 ^ 32 ->
  (forall ha, preserves machine_inv (wu opcode va ha v)) -> preserves machine_inv (write_vmem sz wu opcode va v).
Proof.
  intros Hsz Hv Hu. unfold write_vmem. cbv zeta. apply (yields_preserves _ _ (fun _ => True)).
  eapply yields_bind; [apply m_lookup_yields|]. intros r [H1 H2]. apply preserves_yields. apply preserves_bind.
  - apply preserves_if.
    { apply preserves_bind; [by apply prepare_write_inv|intros upd].
      apply preserves_bind; [|intros _; apply preserves_gets].
      apply preserves_when, preserves_modify. intros; by apply secondary_c_inv. }
    apply (yields_preserves _ _ (fun _ => True)).
    apply (yields_bind _ _ _ (fun o => forall s, o = Some s -> sl_type s = DTLB)).
    { destruct (matched_entry r) as [s|]; [apply yields_ret; intros s' [= <-]; by apply H2|].
      eapply yields_weaken; [by apply dtlb2_refill_yields|]. intros o Ho s Hs. by apply Ho. }
    intros [s|] Hs; [|by apply yields_ret]. apply preserves_yields.
    apply preserves_bind; [by apply prepare_write_inv|intros _ m Hm].
    rewrite bind_gets. destruct (test _ TLBFlags.PAGE_MEM) eqn:Em.
    + change (machine_inv (upd_mmu (promote_tlb_entry DTLB (primary_entry r) s) m)). apply promote_inv; auto.
    + refine (preserves_bind machine_inv _ _ (write_device_inv sz opcode va v s Hv) (fun _ => _) m Hm). apply preserves_ret.
  - intros [ha|w]; [|apply preserves_ret]. apply preserves_if; [apply Hu | by apply (write_host_inv sz ha v true)].
Qed.

Lemma write8_inv opcode va v : 0 <= va < 2 ^ 32 -> preserves machine_inv (mmu_write_vmem8 opcode va v).
Proof. intros Hv. apply write_vmem_preserves; [by left | done|]. intros _. apply preserves_ret. Qed.

Lemma write_loop_inv n opcode va v shift : 0 <= va < 2 ^ 32 -> preserves machine_inv (write_bytes_loop n opcode va v shift).
Proof.
  revert va shift. induction n as [|n IH]; intros va shift Hv; cbn [write_bytes_loop]; [apply preserves_ret|].
  apply preserves_bind; [by apply write8_inv | intros _; apply IH, u32_range].
Qed.

Lemma write_vmem_inv sz opcode va v : access_size sz -> 0 <= va < 2 ^ 32 ->
  preserves machine_inv (mmu_write_vmem sz opcode va v).
Proof.
  intros Hsz Hv. apply write_vmem_preserves; [done..|]. intros ha. unfold write_unaligned.
  apply preserves_bind; [apply preserves_when; by apply alignment_inv|intros _].
  apply preserves_if; [by apply write_loop_inv | by apply (write_host_inv sz ha v false)].
Qed.

Lemma dcbz_inv opcode va : 0 <= va < 2 ^ 32 -> preserves machine_inv (mmu_dcbz opcode va).
Proof.
  intros Hv. unfold mmu_dcbz. cbv zeta. apply (yields_preserves _ _ (fun _ => True)).
  eapply yields_bind; [apply m_lookup_yields|]. intros r _. apply preserves_yields.
  apply preserves_bind.
  { destruct (matched_entry r); [apply preserves_ret | by eapply yields_preserves, dtlb2_refill_yields]. }
  intros o. apply preserves_bind; [apply preserves_gets|intros fl]. apply preserves_if.
  - destruct o; [|apply preserves_ret]. apply preserves_bind; [by apply prepare_write_inv | intros _; apply preserves_ret].
  - repeat (apply preserves_bind; [apply write_vmem_inv; [by do 3 right | apply u32_range]|intros _]).
    apply write_vmem_inv; [by do 3 right | apply u32_range].
Qed.
End Accesses.
