(* ===== verification/RealMode.v ===== *)
(** * Virtual memory with translation off (cpu/ppc/ppcmmu.cpp)

    With MSR[DR] clear, guest memory is a flat array of bytes: whatever the
    software TLBs hold, a read returns the big-endian value of the bytes at its
    address, a write replaces them, also across pages and at any alignment.  The
    theorems need the regions of the address map to consist of whole pages, as the
    TLB does. *)
From S2P Require Import Prelude Word PpcState Timers MemCtrl HostMem Machine Mmu MmuBat Exceptions Translate PageWalk VMem SystemRegs Invariant VmInv.

(** ** Entries that mean the same *)

(** The LRU bits and the tracking flag do not matter to an access. *)
Definition agree (e e' : TLBEntry) : Prop :=
  tag e' = tag e /\ target e' = target e /\
  forall mask, Z.land TLBFlags.TLBE_CTX_TRACKED mask = 0 -> test (flags e') mask = test (flags e) mask.
Definition agree_all (u u' : mmu_state) : Prop := forall s, agree (tlb_at u s) (tlb_at u' s).

Lemma agree_refl e : agree e e.
Proof. by split_and!. Qed.
Lemma agree_trans e1 e2 e3 : agree e1 e2 -> agree e2 e3 -> agree e1 e3.
Proof. intros (A1&A2&A3) (B1&B2&B3). split_and!; [congruence..|]. intros mask Hm. by rewrite B3, A3. Qed.
Lemma agree_all_trans u1 u2 u3 : agree_all u1 u2 -> agree_all u2 u3 -> agree_all u1 u3.
Proof. intros H1 H2 s. by eapply agree_trans. Qed.

Lemma agree_upd s f u : (forall e, agree e (f e)) -> agree_all u (upd_tlb s f u).
Proof. intros Hf s'. unfold upd_tlb. rewrite tlb_at_set. case_decide; [subst; apply Hf | apply agree_refl]. Qed.

Lemma agree_lru v e : agree e (with_lru v e).
Proof. by split_and!. Qed.

Lemma agree_lor e : agree e (with_flags (Z.lor (flags e) TLBFlags.TLBE_CTX_TRACKED) e).
Proof. split_and!; [done..|]. intros mask Hm. cbn [flags with_flags]. by apply test_lor. Qed.

Lemma agree_touch t va way u : agree_all u (tlb2_touch_way t va way u).
Proof.
  unfold tlb2_touch_way. destruct (way <? 2);
    repeat (eapply agree_all_trans; [|apply agree_upd; intros; apply agree_lru]); intros s; apply agree_refl.
Qed.

Lemma agree_track t s u : agree_all u (track_translated_entry t s u).
Proof.
  unfold track_translated_entry. destruct (_ || _); [intros s'; apply agree_refl|].
  intros s'. rewrite tlb_at_tracked. exact (agree_upd s (fun e => with_flags _ e) u agree_lor s').
Qed.

Lemma agree_promote t s1 s2 u s : agree (tlb_at u (if decide (s = s1) then s2 else s))
  (tlb_at (promote_tlb_entry t s1 s2 u) s).
Proof.
  unfold promote_tlb_entry. cbv zeta. set (e := untrack (tlb_at u s2)).
  set (e1 := with_flags _ e).
  eapply agree_trans; [|apply (agree_track t s1 (set_tlb s1 e1 u) s)]. rewrite tlb_at_set.
  repeat case_decide; try congruence; [subst s1 | apply agree_refl]. split_and!; [done..|].
  intros mask Hm. unfold e1. cbn [flags with_flags]. rewrite test_lor; [by apply test_untrack|].
  by rewrite <- Z.land_assoc, Hm, Z.land_0_r.
Qed.

(** ** Coherence *)

(** A region of whole pages. *)
Definition paged (c : MemCtrlBase) : Prop :=
  forall e, e ∈ address_map c -> e_start e mod 4096 = 0 /\ (e_end e + 1) mod 4096 = 0.

(** A valid entry is what the refill of its page makes it. *)
Definition real_entry (c : MemCtrlBase) (e : TLBEntry) : Prop :=
  tag e = TLB_INVALID_TAG \/
  page_tag (tag e) = tag e /\
  test (flags e) TLBFlags.PAGE_WRITABLE = true /\ test (flags e) TLBFlags.PTE_SET_C = true /\
  exists r, find_range (tag e) c = Some r /\
    if test (e_type r) RT.RT_MMIO then
      test (flags e) TLBFlags.PAGE_MEM = false /\ test (flags e) TLBFlags.PAGE_IO = true /\
      target e = TlbIo r (e_start r)
    else
      test (flags e) TLBFlags.PAGE_MEM = true /\ test (flags e) TLBFlags.PAGE_IO = false /\
      target e = TlbMem (mem_ptr r - e_start r)
        (if test (e_type r) RT.RT_ROM then dummy_page - tag e else mem_ptr r - e_start r).

Definition real_tlbs (c : MemCtrlBase) (u : mmu_state) : Prop :=
  forall s, sl_type s = DTLB -> sl_mode s = 1 -> real_entry c (tlb_at u s) /\
    (sl_second s = false -> tag (tlb_at u s) <> TLB_INVALID_TAG -> test (flags (tlb_at u s)) TLBFlags.PAGE_MEM = true).

(** The data side runs without translation, on coherent TLBs. *)
Record real_mode (m : machine) : Prop := mk_real_mode {
  rm_dr : msr_bit MSR.DR m = false;
  rm_mode : pCurDTLB (mmu m) = 1;
  rm_tlbs : real_tlbs (mem_ctrl m) (mmu m);
  rm_wf : map_wf (mem_ctrl m);
  rm_paged : paged (mem_ctrl m)
}.

Lemma real_entry_agree c e e' : agree e e' -> real_entry c e -> real_entry c e'.
Proof. intros (E1 & E2 & E3). unfold real_entry. by rewrite E1, E2, !E3. Qed.

Lemma real_tlbs_agree c u u' : agree_all u u' -> real_tlbs c u -> real_tlbs c u'.
Proof.
  intros Ha Hu s H1 H2. destruct (Hu s H1 H2) as [H3 H4]. split; [by apply (real_entry_agree c (tlb_at u s))|].
  destruct (Ha s) as (E1 & _ & E3). rewrite E1, E3 by done. exact H4.
Qed.

(** The TLBs may change. *)
Definition tlb_step (m m' : machine) : Prop :=
  exists u, m' = set_mmu u m /\ tlb_frame (mmu m) u /\ real_tlbs (mem_ctrl m) u /\ tlb_wf u.

Lemma tlb_step_trans m1 m2 m3 : tlb_step m1 m2 -> tlb_step m2 m3 -> tlb_step m1 m3.
Proof.
  intros (u & -> & F1 & R1 & _) (v & -> & F2 & R2 & W). exists v. split; [done|].
  split; [by eapply tlb_frame_trans | done].
Qed.

Lemma tlb_step_real m m' : tlb_step m m' -> real_mode m -> real_mode m'.
Proof. intros (u & -> & F & R & _) [H1 H2 H3 H4 H5]. destruct F as (_&_&_&_&_&F&_). split; try done. cbn. congruence. Qed.

Lemma tlb_step_inv m m' : tlb_step m m' -> machine_inv m -> machine_inv m'.
Proof. intros (u & -> & F & R & W) Hm. by apply inv_set_mmu. Qed.

Lemma page_tag_div va : page_tag va = 4096 * (va / 4096).
Proof.
  unfold page_tag. change 0xFFF with (Z.ones 12). rewrite land_lnot_ones by lia. zlia.
Qed.

Lemma page_tag_valid va : page_tag va <> TLB_INVALID_TAG.
Proof. rewrite page_tag_div. unfold TLB_INVALID_TAG. zlia. Qed.

(** A region that covers one address of a page covers the page. *)
Lemma find_range_page c va : map_wf c -> paged c -> find_range (page_tag va) c = find_range va c.
Proof.
  intros Hw Hp. assert (forall e, e ∈ address_map c -> covers e (page_tag va) <-> covers e va) as Hc.
  { intros e He. destruct (Hp e He) as [P1 P2]. unfold covers. rewrite page_tag_div. zlia. }
  destruct (find_range va c) as [e|] eqn:E.
  - destruct (find_range_spec _ _ _ E) as [Hin Hcov]. apply find_range_wf; [done..|]. by apply Hc.
  - destruct (find_range (page_tag va) c) as [e|] eqn:E'; [|done].
    destruct (find_range_spec _ _ _ E') as [Hin Hcov]. destruct (find_range_none _ _ E e Hin). by apply Hc.
Qed.

(** ** Steps of an access *)

Definition holds (m : machine) (va : Z) (s : slot) : Prop :=
  sl_type s = DTLB /\ sl_mode s = 1 /\ tag (tlb_at (mmu m) s) = page_tag va.

(** What the entry of an address says. *)
Lemma holds_entry m va s : real_mode m -> holds m va s -> let e := tlb_at (mmu m) s in
  test (flags e) TLBFlags.PAGE_WRITABLE = true /\ test (flags e) TLBFlags.PTE_SET_C = true /\
  (sl_second s = false -> test (flags e) TLBFlags.PAGE_MEM = true) /\
  exists r, find_range va (mem_ctrl m) = Some r /\
    if test (e_type r) RT.RT_MMIO then
      test (flags e) TLBFlags.PAGE_MEM = false /\ test (flags e) TLBFlags.PAGE_IO = true /\
      target e = TlbIo r (e_start r)
    else
      test (flags e) TLBFlags.PAGE_MEM = true /\ test (flags e) TLBFlags.PAGE_IO = false /\
      target e = TlbMem (mem_ptr r - e_start r)
        (if test (e_type r) RT.RT_ROM then dummy_page - page_tag va else mem_ptr r - e_start r).
Proof.
  intros [_ _ Ht Hw Hp] (H1 & H2 & H3) e. destruct (Ht s H1 H2) as [[E|(E1 & E2 & E3 & r & E4 & E5)] Hm].
  { rewrite H3 in E. by destruct (page_tag_valid va). }
  fold e in E1, E2, E3, E4, E5, Hm, H3. rewrite H3 in E4, E5, Hm. split_and!; [done | done | |].
  - intros Hs. apply Hm; [done|]. apply page_tag_valid.
  - exists r. by rewrite <- (find_range_page _ va) by done.
Qed.

Lemma lookup_secondary_spec t va tg u : let r := lookup_secondary_tlb t va tg u in
  agree_all u r.2 /\
  forall s, r.1 = Some s -> sl_mode s = cur_mode t u /\ tag (tlb_at u s) = tg.
Proof.
  intros r. subst r. unfold lookup_secondary_tlb.
  repeat match goal with |- context [if ?a =? ?b then _ else _] => destruct (Z.eqb_spec a b) end; cbn [fst snd];
    (split; [first [apply agree_touch | by intros s; apply agree_refl]|by intros s [= <-]]).
Qed.

Lemma real_lookup va m : real_mode m -> machine_inv m -> exists r m', m_lookup DTLB va (page_tag va) m = (Ret r, m') /\
  tlb_step m m' /\ sl_type (primary_entry r) = DTLB /\ sl_mode (primary_entry r) = 1 /\
  sl_second (primary_entry r) = false /\
  (primary_hit r = true -> holds m' va (primary_entry r)) /\
  (forall s, matched_entry r = Some s -> holds m' va s).
Proof.
  intros Hm Hi. pose proof (lookup_tlb_wf DTLB va (page_tag va) (mmu m) (inv_tlb_wf m Hi)) as (Hwf & F & E & Ht & Eh).
  assert (agree_all (mmu m) (lookup_tlb DTLB va (page_tag va) (mmu m)).2 /\
    forall s, matched_entry (lookup_tlb DTLB va (page_tag va) (mmu m)).1 = Some s -> sl_mode s = 1 /\
      tag (tlb_at (mmu m) s) = page_tag va) as [Ha Hs].
  { unfold lookup_tlb. destruct (Z.eqb_spec (tag (tlb_at (mmu m) (tlb1_slot DTLB va (mmu m)))) (page_tag va)) as [Eg|Eg].
    - split; [intros s; apply agree_refl|]. intros s [= <-]. split; [apply Hm | done].
    - pose proof (lookup_secondary_spec DTLB va (page_tag va) (mmu m)) as [H1 H2].
      destruct (lookup_secondary_tlb _ _ _ _) as [o v]. cbn [fst snd matched_entry] in *. split; [done|].
      intros s Hs. destruct (H2 s Hs) as [-> ?]. split; [apply Hm | done]. }
  unfold m_lookup. destruct (lookup_tlb DTLB va (page_tag va) (mmu m)) as [r u]. cbn [fst snd] in *.
  exists r, (set_mmu u m). split; [done|].
  assert (forall s, sl_type s = DTLB -> sl_mode s = 1 -> tag (tlb_at (mmu m) s) = page_tag va -> holds (set_mmu u m) va s) as Hh.
  { intros s H1 H2 H3. split_and!; [done..|]. destruct (Ha s) as (E1 & _ & _). cbn [mmu set_mmu]. congruence. }
  rewrite E. refine (conj _ (conj eq_refl (conj _ (conj eq_refl (conj _ _))))).
  - exists u. split; [done|]. split; [done|]. split; [apply (real_tlbs_agree _ (mmu m)); [done | apply Hm] | done].
  - apply Hm.
  - rewrite Eh. intros Hg%Z.eqb_eq. apply Hh; [done | apply Hm | done].
  - intros s Hms. destruct (Hs s Hms). apply Hh; auto.
Qed.

Lemma target_entry_agree t va u : agree_all u (tlb2_target_entry t va u).2.
Proof.
  unfold tlb2_target_entry. repeat match goal with |- context [if ?b then _ else _] => destruct b end; cbn [snd];
    apply agree_touch.
Qed.

Lemma page_tag_idem va : page_tag (page_tag va) = page_tag va.
Proof. rewrite !page_tag_div. zlia. Qed.

(** Storing a coherent entry in a secondary slot, or a memory entry anywhere. *)
Lemma real_tlbs_store c s e u : real_tlbs c u -> real_entry c e ->
  (sl_second s = false -> tag e <> TLB_INVALID_TAG -> test (flags e) TLBFlags.PAGE_MEM = true) ->
  real_tlbs c (set_tlb s e u).
Proof. intros Hu He Hm s' H1 H2. rewrite tlb_at_set. case_decide; [by subst | by apply Hu]. Qed.

Lemma real_refill va wr m : 0 <= va < 2 ^ 32 -> real_mode m -> machine_inv m ->
  match find_range va (mem_ctrl m) with
  | None => dtlb2_refill va wr m = (Ret None, m)
  | Some _ => exists s m', dtlb2_refill va wr m = (Ret (Some s), m') /\ tlb_step m m' /\ holds m' va s
  end.
Proof.
  intros Hva Hm Hi. pose proof (proj1 (dtlb2_refill_yields va wr Hva m Hi)) as Hfin. revert Hfin.
  unfold dtlb2_refill. cbv zeta. rewrite bind_gets, (rm_dr m Hm), bind_ret_l. cbv beta iota. rewrite bind_gets.
  destruct (find_range va (mem_ctrl m)) as [r|] eqn:Er; [|reflexivity]. intros Hfin.
  pose proof (target_entry_wf DTLB (page_tag va) (mmu m) (inv_tlb_wf m Hi)) as [_ F].
  pose proof (target_entry_agree DTLB (page_tag va) (mmu m)) as Ha.
  destruct (tlb2_target_entry DTLB (page_tag va) (mmu m)) as [way u]. cbn [snd] in F, Ha.
  set (s := tlb2_slot DTLB (page_tag va) way u).
  match goal with |- context [let '(_, _) := ?x in _] => destruct x as [new tgt] eqn:Ex end.
  set (e := mkTLBEntry _ _ _ tgt _).
  assert (real_tlbs (mem_ctrl m) u) as Hu by (apply (real_tlbs_agree _ (mmu m)); [done | apply Hm]).
  assert (sl_mode s = 1) as Hs1.
  { unfold s, tlb2_slot, cur_mode. cbn [sl_mode]. destruct F as (_&_&_&_&_&F&_). rewrite F. apply Hm. }
  assert (real_entry (mem_ctrl m) e) as He.
  { right. cbn [tag e flags target]. rewrite page_tag_idem, !refill_flags_mask by done.
    assert (find_range (page_tag va) (mem_ctrl m) = Some r) as Er' by (rewrite find_range_page; [done | apply Hm..]).
    destruct (test (e_type r) RT.RT_MMIO) eqn:Et; injection Ex as <- <-;
      (split_and!; [done..|]; exists r; split; [done|]; rewrite Et; split_and!; [done..|]).
    - f_equal. lia.
    - f_equal; [lia|]. destruct (test _ RT.RT_ROM); [done|lia]. }
  exists s. eexists. split; [reflexivity|]. split.
  - eexists. split; [reflexivity|]. split.
    + eapply tlb_frame_trans; [exact F|]. eapply tlb_frame_trans; [apply frame_set_tlb | apply frame_track].
    + split; [|exact (inv_tlb_wf _ Hfin)].
      eapply real_tlbs_agree; [apply agree_track|]. apply real_tlbs_store; [done | exact He | done].
  - split_and!; [done | done|]. cbn [mmu set_mmu].
    destruct (agree_track DTLB s (set_tlb s e u) s) as (-> & _). by rewrite tlb_at_set, decide_True.
Qed.

Lemma real_promote m va s1 s2 : real_mode m -> machine_inv m -> holds m va s2 -> sl_type s1 = DTLB -> sl_mode s1 = 1 ->
  test (flags (tlb_at (mmu m) s2)) TLBFlags.PAGE_MEM = true ->
  let m' := upd_mmu (promote_tlb_entry DTLB s1 s2) m in tlb_step m m' /\ holds m' va s1.
Proof.
  intros Hm Hi (H1 & H2 & H3) Ht1 Hm1 Hp m'.
  pose proof (agree_promote DTLB s1 s2 (mmu m)) as Ha. split.
  - exists (promote_tlb_entry DTLB s1 s2 (mmu m)). split; [done|]. split; [apply frame_promote|].
    split; [|by apply promote_tlb_wf; [apply inv_tlb_wf|..]; auto]. intros s Hs1 Hs2. specialize (Ha s). case_decide as Hs.
    + destruct (rm_tlbs m Hm s2 H1 H2) as [He _]. split; [by apply (real_entry_agree _ (tlb_at (mmu m) s2))|].
      intros _ _. destruct Ha as (_ & _ & E3). by rewrite E3.
    + destruct (rm_tlbs m Hm s Hs1 Hs2) as [He Hse]. split; [by apply (real_entry_agree _ (tlb_at (mmu m) s))|].
      destruct Ha as (E1 & _ & E3). rewrite E1, E3 by done. exact Hse.
  - split_and!; [done..|]. specialize (Ha s1). rewrite decide_True in Ha by done. destruct Ha as (E1 & _).
    cbn. congruence.
Qed.

Lemma real_prepare m va s : real_mode m -> holds m va s -> prepare_dtlb_write s va m = (Ret false, m).
Proof.
  intros Hm Hh. destruct (holds_entry m va s Hm Hh) as (E1 & E2 & _).
  unfold prepare_dtlb_write. rewrite bind_gets, E1. cbn [negb when]. rewrite bind_ret_l. by rewrite E2.
Qed.

(** ** Guest memory as bytes *)

(** The physical address is memory, not a device and not unmapped. *)
Definition plain (c : MemCtrlBase) (pa : Z) : Prop :=
  exists r, find_range pa c = Some r /\ test (e_type r) RT.RT_MMIO = false.

(** The host address that backs it, and the one that a write goes to. *)
Definition guest_addr (c : MemCtrlBase) (pa : Z) : Z :=
  match find_range pa c with Some r => area_host r pa | None => 0 end.
Definition guest_waddr (c : MemCtrlBase) (pa : Z) : Z :=
  match find_range pa c with
  | Some r => if test (e_type r) RT.RT_ROM then dummy_page + pa mod 4096 else area_host r pa
  | None => 0
  end.

(** The [n] bytes from an address on; addresses wrap around. *)
Definition guest_bytes (m : machine) (va : Z) (n : nat) : list Z :=
  map (fun i => (host_mem_of m).[guest_addr (mem_ctrl m) (u32 (va + i))]) (zrange n).

(** Storing bytes one after the other. *)
Fixpoint store_bytes (c : MemCtrlBase) (va : Z) (l : list Z) (h : gmap Z Z) : gmap Z Z :=
  match l with
  | [] => h
  | b :: l => store_bytes c (u32 (va + 1)) l (h.[guest_waddr c va := b])
  end.

Definition in_page (sz va : Z) : Prop := va mod 4096 + sz <= 4096.

Lemma crosses_spec sz va : access_size sz -> crosses_page sz va = false <-> in_page sz va.
Proof.
  intros Hs. unfold crosses_page, in_page. change 0xFFF with (Z.ones 12). rewrite Z.land_ones by lia. change (2 ^ 12) with 4096.
  destruct Hs as [-> | [-> | [-> | ->]]]; cbn [Z.ltb andb Z.compare Pos.compare Pos.compare_cont]; zlia.
Qed.

Lemma aligned_spec sz va : access_size sz -> unaligned sz va = false -> in_page sz va /\ va mod sz = 0.
Proof.
  intros Hs. unfold unaligned, in_page, test. destruct Hs as [-> | [-> | [-> | ->]]].
  - intros _. zlia.
  - change (2 - 1) with (Z.ones 1). rewrite Z.land_ones by lia. intros H. bool_to_prop. destruct H as [H|H]; [done|].
    bool_to_prop. change (2 ^ 1) with 2 in H. zlia.
  - change (4 - 1) with (Z.ones 2). rewrite Z.land_ones by lia. intros H. bool_to_prop. destruct H as [H|H]; [done|].
    bool_to_prop. change (2 ^ 2) with 4 in H. zlia.
  - change (8 - 1) with (Z.ones 3). rewrite Z.land_ones by lia. intros H. bool_to_prop. destruct H as [H|H]; [done|].
    bool_to_prop. change (2 ^ 3) with 8 in H. zlia.
Qed.

Lemma find_range_in_page c va i : map_wf c -> paged c -> 0 <= i < 4096 - va mod 4096 ->
  find_range (va + i) c = find_range va c.
Proof.
  intros Hw Hp Hi. rewrite <- (find_range_page c (va + i)), <- (find_range_page c va) by done.
  f_equal. rewrite !page_tag_div. zlia.
Qed.

Lemma no_wrap va i : 0 <= va < 2 ^ 32 -> 0 <= i < 4096 - va mod 4096 -> u32 (va + i) = va + i.
Proof. intros Hv Hi. apply uwrap_small. zlia. Qed.

(** Inside a page the bytes are consecutive on the host. *)
Lemma guest_bytes_page m va n r : real_mode m -> 0 <= va < 2 ^ 32 -> in_page (Z.of_nat n) va ->
  find_range va (mem_ctrl m) = Some r -> guest_bytes m va n = bytes_at (host_mem_of m) (area_host r va) n.
Proof.
  intros Hm Hv Hn Hr. unfold guest_bytes, bytes_at. apply map_ext_in. intros i Hi. unfold zrange in Hi.
  apply in_map_iff in Hi as (k & <- & Hk%in_seq). unfold in_page in Hn.
  rewrite no_wrap by lia. unfold guest_addr. rewrite find_range_in_page by (apply Hm || lia). rewrite Hr.
  unfold area_host. f_equal. lia.
Qed.

Lemma u32_step va k : u32 (u32 (va + k) + 1) = u32 (va + (k + 1)).
Proof. unfold u32, uwrap. rewrite Zplus_mod_idemp_l. f_equal. lia. Qed.

Lemma store_bytes_page m va l r : real_mode m -> 0 <= va < 2 ^ 32 -> in_page (Z.of_nat (length l)) va ->
  find_range va (mem_ctrl m) = Some r -> forall h,
  store_bytes (mem_ctrl m) va l h = memcpy (guest_waddr (mem_ctrl m) va) l h.
Proof.
  intros Hm Hv Hl Hr. unfold in_page in Hl.
  enough (forall k h, 0 <= k -> va mod 4096 + k + Z.of_nat (length l) <= 4096 ->
    store_bytes (mem_ctrl m) (u32 (va + k)) l h = memcpy (guest_waddr (mem_ctrl m) va + k) l h) as He.
  { intros h. specialize (He 0 h ltac:(lia) ltac:(lia)). rewrite !Z.add_0_r in He.
    by rewrite (uwrap_small 32 va Hv : u32 va = va) in He. }
  clear Hl. induction l as [|b l IH]; intros k h Hk Hl; [done|]. cbn [store_bytes memcpy length] in *.
  rewrite u32_step. rewrite IH by lia. rewrite no_wrap by lia.
  assert (guest_waddr (mem_ctrl m) (va + k) = guest_waddr (mem_ctrl m) va + k) as ->.
  { unfold guest_waddr. rewrite find_range_in_page by (apply Hm || lia). rewrite Hr. unfold area_host.
    destruct (test _ _); zlia. }
  by rewrite Z.add_assoc.
Qed.

(** ** Reading *)

Section RealMode.
Context `{Devices}.

(** The steps before the access proper: a slot that holds the page, in the
    primary TLB for memory. *)
Lemma real_reach va wr m : 0 <= va < 2 ^ 32 -> real_mode m -> machine_inv m ->
  exists r m1, m_lookup DTLB va (page_tag va) m = (Ret r, m1) /\ tlb_step m m1 /\ real_mode m1 /\ machine_inv m1 /\
  sl_type (primary_entry r) = DTLB /\ sl_mode (primary_entry r) = 1 /\ sl_second (primary_entry r) = false /\
  (primary_hit r = true -> holds m1 va (primary_entry r)) /\
  let next := match matched_entry r with Some s => ret (Some s) | None => dtlb2_refill va wr end in
  match find_range va (mem_ctrl m) with
  | Some _ => exists s m2, next m1 = (Ret (Some s), m2) /\ tlb_step m m2 /\ real_mode m2 /\ machine_inv m2 /\ holds m2 va s
  | None => matched_entry r = None /\ primary_hit r = false /\ next m1 = (Ret None, m1)
  end.
Proof.
  intros Hva Hm Hi. destruct (real_lookup va m Hm Hi) as (r & m1 & E & S & H1 & H2 & H3 & H4 & H5).
  pose proof (tlb_step_real _ _ S Hm) as Hm1. pose proof (tlb_step_inv _ _ S Hi) as Hi1.
  assert (mem_ctrl m1 = mem_ctrl m) as Ec by (by destruct S as (u & -> & _)).
  exists r, m1. refine (conj E (conj S (conj Hm1 (conj Hi1 (conj H1 (conj H2 (conj H3 (conj H4 _)))))))). cbv zeta.
  pose proof (real_refill va wr m1 Hva Hm1 Hi1) as Hr. rewrite Ec in Hr.
  destruct (matched_entry r) as [s|] eqn:Es.
  - specialize (H5 s eq_refl). destruct (holds_entry m1 va s Hm1 H5) as (_ & _ & _ & e & Ee & _). rewrite Ec in Ee.
    rewrite Ee. exists s, m1. by split_and!.
  - destruct (find_range va (mem_ctrl m)) as [e|] eqn:Ee.
    + destruct Hr as (s & m2 & E2 & S2 & Hh). exists s, m2. split; [done|].
      split; [by eapply tlb_step_trans|]. split; [by eapply tlb_step_real|]. split; [by eapply tlb_step_inv | done].
    + split; [done|]. split; [|done]. destruct (primary_hit r) eqn:Eh; [|done].
      destruct (holds_entry m1 va _ Hm1 (H4 eq_refl)) as (_ & _ & _ & e & Ee2 & _). congruence.
Qed.

(** The host address behind an entry that holds the page. *)
Lemma holds_memory m va s : real_mode m -> holds m va s -> test (flags (tlb_at (mmu m) s)) TLBFlags.PAGE_MEM = true ->
  exists r, find_range va (mem_ctrl m) = Some r /\ test (e_type r) RT.RT_MMIO = false /\
    host_va_offs_r (tlb_at (mmu m) s) + va = area_host r va /\
    host_va_offs_w (tlb_at (mmu m) s) + va =
      if test (e_type r) RT.RT_ROM then dummy_page + va mod 4096 else area_host r va.
Proof.
  intros Hm Hh Hp. destruct (holds_entry m va s Hm Hh) as (_ & _ & _ & r & Er & Ht).
  exists r. split; [done|]. destruct (test (e_type r) RT.RT_MMIO); destruct Ht as (T1 & T2 & T3); [congruence|].
  split; [done|]. unfold host_va_offs_r, host_va_offs_w, area_host. rewrite T3. split; [lia|].
  destruct (test (e_type r) RT.RT_ROM); [|lia]. rewrite page_tag_div. zlia.
Qed.

Lemma real_read_vmem sz ru opcode va m : 0 <= va < 2 ^ 32 -> real_mode m -> machine_inv m ->
  exists m', tlb_step m m' /\
  match find_range va (mem_ctrl m) with
  | None => read_vmem sz ru opcode va m = (Ret (uwrap (8 * sz) (-1)), m')
  | Some r =>
      if test (e_type r) RT.RT_MMIO then
        exists s, target (tlb_at (mmu m') s) = TlbIo r (e_start r) /\
          read_vmem sz ru opcode va m = read_device sz opcode va s m'
      else read_vmem sz ru opcode va m =
        (if unaligned sz va then ru opcode va (area_host r va)
         else gets (fun m => host_read_a sz (area_host r va) (host_mem_of m))) m'
  end.
Proof.
  intros Hva Hm Hi. destruct (real_reach va false m Hva Hm Hi)
    as (r & m1 & E & S & Hm1 & Hi1 & H1 & H2 & H3 & H4 & Hn).
  assert (forall m2, tlb_step m m2 -> mem_ctrl m2 = mem_ctrl m) as Ec by (by intros m2 (u & -> & _)).
  unfold read_vmem. cbv zeta. rewrite (bind_ret _ _ _ _ _ E).
  destruct (primary_hit r) eqn:Eh.
  { destruct (holds_entry m1 va _ Hm1 (H4 eq_refl)) as (_ & _ & Hp & _).
    destruct (holds_memory m1 va _ Hm1 (H4 eq_refl) (Hp H3)) as (e & Ee & Et & Ea & _).
    rewrite (Ec m1 S) in Ee. exists m1. split; [done|]. rewrite Ee, Et, bind_gets, Ea. by destruct (unaligned sz va). }
  cbv zeta in Hn. destruct (find_range va (mem_ctrl m)) as [e|] eqn:Ee.
  2: { destruct Hn as (_ & _ & En). exists m1. split; [done|].
    unfold bind at 1. rewrite (bind_ret _ _ _ _ _ En). reflexivity. }
  destruct Hn as (s & m2 & En & S2 & Hm2 & Hi2 & Hh).
  destruct (holds_entry m2 va s Hm2 Hh) as (_ & _ & _ & e' & Ee' & Ht). rewrite (Ec m2 S2), Ee in Ee'. injection Ee' as <-.
  destruct (test (e_type e) RT.RT_MMIO) eqn:Et.
  - destruct Ht as (T1 & T2 & T3). exists m2. split; [done|]. exists s. split; [done|].
    rewrite bind_assoc, (bind_ret _ _ _ _ _ En), bind_assoc, bind_gets, T1, bind_assoc. unfold bind at 1. by destruct (read_device sz opcode va s m2) as [[]].
  - destruct Ht as (T1 & T2 & T3).
    rewrite bind_assoc, (bind_ret _ _ _ _ _ En), bind_assoc, bind_gets, T1, bind_assoc, bind_modify, bind_gets.
    destruct (real_promote m2 va (primary_entry r) s Hm2 Hi2 Hh H1 H2 T1) as [S3 Hh3].
    set (m3 := upd_mmu _ m2) in *. pose proof (tlb_step_trans _ _ _ S2 S3) as S03.
    pose proof (tlb_step_real _ _ S03 Hm) as Hm3.
    destruct (holds_entry m3 va _ Hm3 Hh3) as (_ & _ & Hp & _).
    destruct (holds_memory m3 va _ Hm3 Hh3 (Hp H3)) as (e' & Ee' & _ & Ea & _).
    rewrite (Ec m3 S03), Ee in Ee'. injection Ee' as <-. exists m3. split; [done|].
    rewrite Ea. by destruct (unaligned sz va).
Qed.

Definition real_ok (m : machine) : Prop := real_mode m /\ machine_inv m.

Lemma tlb_step_ok m m' : tlb_step m m' -> real_ok m -> real_ok m'.
Proof. intros S [H1 H2]. split; [by eapply tlb_step_real | by eapply tlb_step_inv]. Qed.

Lemma tlb_step_mem m m' : tlb_step m m' -> mem_ctrl m' = mem_ctrl m.
Proof. by intros (u & -> & _). Qed.

Lemma guest_bytes_mem m m' va n : mem_ctrl m' = mem_ctrl m -> guest_bytes m' va n = guest_bytes m va n.
Proof. intros E. unfold guest_bytes, host_mem_of. by rewrite E. Qed.

Lemma u32_id va : 0 <= va < 2 ^ 32 -> u32 va = va.
Proof. apply uwrap_small. Qed.

(** An access that stays in its page. *)
Lemma real_read_page sz ru opcode va m : access_size sz -> 0 <= va < 2 ^ 32 -> real_ok m ->
  plain (mem_ctrl m) va -> in_page sz va ->
  (forall r, find_range va (mem_ctrl m) = Some r -> unaligned sz va = true -> forall m', tlb_step m m' ->
     ru opcode va (area_host r va) m' = (Ret (be_val (bytes_at (host_mem_of m) (area_host r va) (Z.to_nat sz))), m')) ->
  exists m', read_vmem sz ru opcode va m = (Ret (be_val (guest_bytes m va (Z.to_nat sz))), m') /\ tlb_step m m'.
Proof.
  intros Hs Hv [Hm Hi] (r & Hr & Ht) Hp Hu. destruct (real_read_vmem sz ru opcode va m Hv Hm Hi) as (m' & S & E).
  assert (Z.of_nat (Z.to_nat sz) = sz) as Hz by (destruct Hs as [-> | [-> | [-> | ->]]]; done).
  rewrite Hr, Ht in E. exists m'. split; [|done].
  rewrite (guest_bytes_page m va (Z.to_nat sz) r) by (by rewrite ?Hz). rewrite E. clear E.
  destruct (unaligned sz va) eqn:Eu; [by apply Hu|]. unfold gets, host_mem_of. rewrite (tlb_step_mem _ _ S).
  assert (file_ok 8 (host_mem (mem_ctrl m))) as Hf by apply Hi.
  by rewrite (proj1 (host_read_bytes sz (area_host r va) _ Hs Hf)).
Qed.

Lemma real_read8 opcode va m : 0 <= va < 2 ^ 32 -> real_ok m -> plain (mem_ctrl m) va ->
  exists m', mmu_read_vmem8 opcode va m = (Ret (host_mem_of m).[guest_addr (mem_ctrl m) va], m') /\ tlb_step m m'.
Proof.
  intros Hv Hm Hp.
  destruct (real_read_page 1 (fun _ _ _ => ret 0) opcode va m) as (m' & E & S); try done; [by left | |].
  - unfold in_page. zlia.
  - exists m'. split; [|done]. unfold mmu_read_vmem8. rewrite E.
    change (be_val (guest_bytes m va (Z.to_nat 1))) with ((host_mem_of m).[guest_addr (mem_ctrl m) (u32 (va + 0))]).
    by rewrite Z.add_0_r, (u32_id va Hv).
Qed.

Lemma be_val_bound l : (forall b, b ∈ l -> 0 <= b < 256) -> 0 <= be_val l < 2 ^ (8 * Z.of_nat (length l)).
Proof. apply be_val_range. Qed.

Lemma join_byte l b sz : (forall x, x ∈ l -> 0 <= x < 256) -> 0 <= b < 256 -> Z.of_nat (length l) < sz ->
  Z.lor (uwrap (8 * sz) (Z.shiftl (be_val l) 8)) b = be_val (l ++ [b]).
Proof.
  intros Hl Hb Hs. pose proof (be_val_bound l Hl) as H1. rewrite be_val_snoc, Z.shiftl_mul_pow2 by lia.
  assert (2 ^ (8 * Z.of_nat (length l)) * 2 ^ 8 <= 2 ^ (8 * sz)) as H2.
  { rewrite <- Z.pow_add_r by lia. apply Z.pow_le_mono_r; lia. }
  rewrite uwrap_small by lia. rewrite (Z.mul_comm _ (2 ^ 8)), lor_low by lia. lia.
Qed.

Lemma real_read_loop n sz opcode va k l m : real_ok m -> (forall b, b ∈ l -> 0 <= b < 256) ->
  Z.of_nat (length l) + Z.of_nat n <= sz ->
  (forall i, k <= i < k + Z.of_nat n -> plain (mem_ctrl m) (u32 (va + i))) ->
  exists m', read_bytes_loop n sz opcode (u32 (va + k)) (be_val l) m =
    (Ret (be_val (l ++ map (fun i => (host_mem_of m).[guest_addr (mem_ctrl m) (u32 (va + (k + i)))]) (zrange n))), m') /\
    tlb_step m m' \/ n = 0%nat.
Proof.
  revert k l m. induction n as [|n IH]; intros k l m Hm Hl Hn Hp; [exists m; by right|].
  cbn [read_bytes_loop].
  destruct (real_read8 opcode (u32 (va + k)) m) as (m1 & E1 & S1); [apply u32_range | done | apply Hp; lia|].
  rewrite (bind_ret _ _ _ _ _ E1), u32_step. set (b := (host_mem_of m).[_]).
  assert (0 <= b < 256) as Hb by (apply (file_ok_get 8); apply Hm).
  rewrite join_byte by (done || lia).
  pose proof (tlb_step_mem _ _ S1) as Em.
  assert (map (fun i => (host_mem_of m).[guest_addr (mem_ctrl m) (u32 (va + (k + i)))]) (zrange (S n)) =
    b :: map (fun i => (host_mem_of m).[guest_addr (mem_ctrl m) (u32 (va + (k + 1 + i)))]) (zrange n)) as ->.
  { unfold zrange. cbn [seq map]. rewrite <- seq_shift, !map_map. cbn [Z.of_nat]. rewrite Z.add_0_r. f_equal.
    apply map_ext. intros i. do 4 f_equal. lia. }
  destruct (IH (k + 1) (l ++ [b]) m1) as (m2 & [[E2 S2] | ->]).
  - by apply (tlb_step_ok m).
  - intros x [Hx|Hx%list_elem_of_singleton]%elem_of_app; [by apply Hl | by subst].
  - rewrite length_app. cbn [length]. lia.
  - intros i Hi. rewrite Em. apply Hp. lia.
  - exists m2. left. split; [|by eapply tlb_step_trans]. rewrite E2, <- app_assoc. unfold host_mem_of. by rewrite Em.
  - exists m1. left. by split.
Qed.

Lemma test_low va n : 0 <= n -> test va (2 ^ n - 1) = negb (va mod 2 ^ n =? 0).
Proof. intros Hn. unfold test. by rewrite <- Z.land_ones, Z.ones_equiv. Qed.

Lemma real_read sz opcode va m : access_size sz -> 0 <= va < 2 ^ 32 -> real_ok m ->
  (forall i, 0 <= i < sz -> plain (mem_ctrl m) (u32 (va + i))) -> (sz = 8 -> va mod 4 = 0) ->
  exists m', mmu_read_vmem sz opcode va m = (Ret (be_val (guest_bytes m va (Z.to_nat sz))), m') /\ tlb_step m m'.
Proof.
  intros Hs Hv [Hm Hi] Hp H8.
  assert (Z.of_nat (Z.to_nat sz) = sz) as Hz by (destruct Hs as [-> | [-> | [-> | ->]]]; done).
  assert ((sz =? 8) && test va 3 = false) as Ha.
  { destruct (Z.eqb_spec sz 8) as [E8|]; [|done]. change 3 with (2 ^ 2 - 1). rewrite test_low by lia.
    change (2 ^ 2) with 4. by rewrite (H8 E8). }
  assert (plain (mem_ctrl m) va) as Hp0.
  { rewrite <- (u32_id va Hv), <- (Z.add_0_r va). apply Hp. destruct Hs as [-> | [-> | [-> | ->]]]; lia. }
  destruct (crosses_page sz va) eqn:Ec.
  - destruct (real_read_vmem sz (read_unaligned sz) opcode va m Hv Hm Hi) as (m1 & S1 & E).
    destruct Hp0 as (r & Hr & Ht). rewrite Hr, Ht in E.
    destruct (unaligned sz va) eqn:Eu.
    2: { apply (aligned_spec sz va Hs) in Eu as [Eu _]. apply (crosses_spec sz va Hs) in Eu. congruence. }
    change (read_vmem sz (read_unaligned sz) opcode va m) with (mmu_read_vmem sz opcode va m) in E.
    unfold read_unaligned in E. rewrite Ha, Ec in E. unfold when in E. rewrite bind_ret_l in E.
    pose proof (tlb_step_mem _ _ S1) as Em.
    destruct (real_read_loop (Z.to_nat sz) sz opcode va 0 [] m1) as (m2 & [[E2 S2] | E0]).
    + by apply (tlb_step_ok m).
    + by intros b ?%elem_of_nil.
    + cbn [length]. lia.
    + intros i Hin. rewrite Em. apply Hp. lia.
    + rewrite Z.add_0_r, (u32_id va Hv) in E2. exists m2. split; [|by eapply tlb_step_trans].
      rewrite E. unfold guest_bytes, host_mem_of. rewrite <- Em. exact E2.
    + rewrite E0 in Hz. cbn in Hz. destruct Hs as [-> | [-> | [-> | ->]]]; lia.
  - apply (crosses_spec sz va Hs) in Ec as Hin. apply real_read_page; try done.
    intros r Hr Hu m1 S1. unfold read_unaligned. rewrite Ha, Ec. unfold when. rewrite bind_ret_l.
    unfold gets, host_mem_of. rewrite (tlb_step_mem _ _ S1).
    assert (file_ok 8 (host_mem (mem_ctrl m))) as Hf by apply Hi.
    by rewrite (proj2 (host_read_bytes sz (area_host r va) _ Hs Hf)).
Qed.

(** Reading guest memory with translation off.  For 1, 2, 4 and 8 bytes, at any
    alignment (8 bytes at multiples of 4: others are an alignment exception),
    inside a page or across two, whatever the TLBs cache: when every byte of the
    operand is RAM or ROM the read returns their big-endian value, wrapping at the
    end of the address space, and changes nothing but the TLBs, which stay
    coherent. *)
Theorem real_mode_read_correct sz opcode va m : access_size sz -> 0 <= va < 2 ^ 32 ->
  real_mode m -> machine_inv m ->
  (forall i, 0 <= i < sz -> plain (mem_ctrl m) (u32 (va + i))) -> (sz = 8 -> va mod 4 = 0) ->
  exists u, mmu_read_vmem sz opcode va m = (Ret (be_val (guest_bytes m va (Z.to_nat sz))), set_mmu u m) /\
    tlb_frame (mmu m) u /\ real_mode (set_mmu u m) /\ machine_inv (set_mmu u m).
Proof.
  intros Hs Hv Hm Hi Hp H8. destruct (real_read sz opcode va m Hs Hv (conj Hm Hi) Hp H8) as (m' & E & S).
  destruct (tlb_step_ok _ _ S (conj Hm Hi)) as [Hm' Hi']. destruct S as (u & -> & F & _).
  exists u. by split_and!.
Qed.

(** ** Writing *)

Lemma upd_host_id m : upd_host (fun h => h) m = m.
Proof. by destruct m as [? ? ? ? ? ? []]. Qed.

Lemma upd_host_upd f g m : upd_host g (upd_host f m) = upd_host (fun h => g (f h)) m.
Proof. reflexivity. Qed.

Lemma real_mode_host f m : real_mode m -> real_mode (upd_host f m).
Proof. intros [H1 H2 H3 [W1 W2 W3] H5]. by split. Qed.

Lemma real_write_vmem sz wu opcode va v m : 0 <= va < 2 ^ 32 -> real_mode m -> machine_inv m ->
  exists m', tlb_step m m' /\
  match find_range va (mem_ctrl m) with
  | None => write_vmem sz wu opcode va v m = (Ret tt, m')
  | Some r =>
      if test (e_type r) RT.RT_MMIO then
        exists s, target (tlb_at (mmu m') s) = TlbIo r (e_start r) /\
          write_vmem sz wu opcode va v m = write_device sz opcode va v s m'
      else write_vmem sz wu opcode va v m =
        (if unaligned sz va then wu opcode va (guest_waddr (mem_ctrl m) va) v
         else modify (upd_host (host_write_a sz (guest_waddr (mem_ctrl m) va) v))) m'
  end.
Proof.
  intros Hva Hm Hi. destruct (real_reach va true m Hva Hm Hi)
    as (r & m1 & E & S & Hm1 & Hi1 & H1 & H2 & H3 & H4 & Hn).
  assert (forall m2, tlb_step m m2 -> mem_ctrl m2 = mem_ctrl m) as Ec by (by intros m2 (u & -> & _)).
  unfold write_vmem, guest_waddr. cbv zeta. rewrite (bind_ret _ _ _ _ _ E).
  destruct (primary_hit r) eqn:Eh.
  { destruct (holds_entry m1 va _ Hm1 (H4 eq_refl)) as (_ & _ & Hp & _).
    destruct (holds_memory m1 va _ Hm1 (H4 eq_refl) (Hp H3)) as (e & Ee & Et & _ & Ea).
    rewrite (Ec m1 S) in Ee. exists m1. split; [done|]. rewrite Ee, Et, bind_assoc.
    rewrite (bind_ret _ _ _ _ _ (real_prepare m1 va _ Hm1 (H4 eq_refl))). unfold when.
    rewrite bind_assoc, bind_ret_l, bind_gets, Ea. by destruct (unaligned sz va). }
  cbv zeta in Hn. destruct (find_range va (mem_ctrl m)) as [e|] eqn:Ee.
  2: { destruct Hn as (_ & _ & En). exists m1. split; [done|].
    rewrite bind_assoc, (bind_ret _ _ _ _ _ En). reflexivity. }
  destruct Hn as (s & m2 & En & S2 & Hm2 & Hi2 & Hh).
  destruct (holds_entry m2 va s Hm2 Hh) as (_ & _ & _ & e' & Ee' & Ht). rewrite (Ec m2 S2), Ee in Ee'. injection Ee' as <-.
  destruct (test (e_type e) RT.RT_MMIO) eqn:Et; destruct Ht as (T1 & T2 & T3).
  - exists m2. split; [done|]. exists s. split; [done|].
    rewrite bind_assoc, (bind_ret _ _ _ _ _ En), bind_assoc, (bind_ret _ _ _ _ _ (real_prepare m2 va s Hm2 Hh)),
      bind_assoc, bind_gets, T1, bind_assoc. unfold bind at 1. by destruct (write_device sz opcode va v s m2) as [[[]| |] ?].
  - rewrite bind_assoc, (bind_ret _ _ _ _ _ En), bind_assoc, (bind_ret _ _ _ _ _ (real_prepare m2 va s Hm2 Hh)),
      bind_assoc, bind_gets, T1, bind_assoc, bind_modify, bind_gets.
    destruct (real_promote m2 va (primary_entry r) s Hm2 Hi2 Hh H1 H2 T1) as [S3 Hh3].
    set (m3 := upd_mmu _ m2) in *. pose proof (tlb_step_trans _ _ _ S2 S3) as S03.
    pose proof (tlb_step_real _ _ S03 Hm) as Hm3.
    destruct (holds_entry m3 va _ Hm3 Hh3) as (_ & _ & Hp & _).
    destruct (holds_memory m3 va _ Hm3 Hh3 (Hp H3)) as (e' & Ee' & _ & _ & Ea).
    rewrite (Ec m3 S03), Ee in Ee'. injection Ee' as <-. exists m3. split; [done|].
    rewrite Ea. by destruct (unaligned sz va).
Qed.

(** The TLBs changed, then bytes were stored. *)
Definition stored (va : Z) (l : list Z) (m m' : machine) : Prop :=
  exists m1, tlb_step m m1 /\ m' = upd_host (store_bytes (mem_ctrl m) va l) m1.

Lemma store_bytes_ok c va l h : file_ok 8 h -> (forall b, b ∈ l -> 0 <= b < 256) -> file_ok 8 (store_bytes c va l h).
Proof.
  revert va h. induction l as [|b l IH]; intros va h Hh Hl; [done|]. cbn [store_bytes]. apply IH; [|set_solver].
  apply file_ok_set; [done|]. apply Hl. set_solver.
Qed.

Lemma stored_ok va l m m' : (forall b, b ∈ l -> 0 <= b < 256) -> stored va l m m' -> real_ok m -> real_ok m'.
Proof.
  intros Hl (m1 & S & ->) Hm. destruct (tlb_step_ok _ _ S Hm) as [H1 H2].
  split; [by apply real_mode_host|]. apply inv_upd_host; [done|]. intros Hh. by apply store_bytes_ok.
Qed.

Lemma real_write_page sz wu opcode va v m : access_size sz -> 0 <= va < 2 ^ 32 -> real_ok m ->
  plain (mem_ctrl m) va -> in_page sz va ->
  (unaligned sz va = true -> forall a m', wu opcode va a v m' =
     (Ret tt, upd_host (memcpy a (be_bytes (Z.to_nat sz) v)) m')) ->
  exists m', write_vmem sz wu opcode va v m = (Ret tt, m') /\ stored va (be_bytes (Z.to_nat sz) v) m m'.
Proof.
  intros Hs Hv [Hm Hi] (r & Hr & Ht) Hp Hu. destruct (real_write_vmem sz wu opcode va v m Hv Hm Hi) as (m' & S & E).
  assert (Z.of_nat (Z.to_nat sz) = sz) as Hz by (destruct Hs as [-> | [-> | [-> | ->]]]; done).
  rewrite Hr, Ht in E. exists (upd_host (memcpy (guest_waddr (mem_ctrl m) va) (be_bytes (Z.to_nat sz) v)) m').
  split.
  - rewrite E. destruct (unaligned sz va) eqn:Eu; [by apply Hu|]. unfold modify, upd_host.
    by rewrite (proj1 (host_write_bytes sz _ v _ Hs)).
  - exists m'. split; [done|]. unfold upd_host. rewrite (store_bytes_page m va _ r); [done..| |done].
    by rewrite be_bytes_length, Hz.
Qed.

Lemma be_bytes_head n v : be_bytes (S n) v = v / 2 ^ (8 * Z.of_nat n) mod 256 :: be_bytes n v.
Proof.
  revert v. induction n as [|n IH]; intros v; [cbn; by rewrite Z.div_1_r|].
  change (be_bytes (S (S n)) v) with (be_bytes (S n) (v / 256) ++ [v mod 256]). rewrite IH. cbn [app].
  change (be_bytes (S n) v) with (be_bytes n (v / 256) ++ [v mod 256]). f_equal. f_equal.
  rewrite Z.div_div by lia. f_equal. change 256 with (2 ^ 8). rewrite <- Z.pow_add_r by lia. f_equal. lia.
Qed.

Lemma write_byte v n : 0 <= n -> u8 (Z.land (Z.shiftr v (8 * n)) 0xFF) = v / 2 ^ (8 * n) mod 256.
Proof.
  intros Hn. change 0xFF with (Z.ones 8). rewrite Z.land_ones, Z.shiftr_div_pow2 by lia.
  apply uwrap_small. apply Z.mod_pos_bound. lia.
Qed.

Lemma store_bytes_host h c va l h' : store_bytes (with_host h c) va l h' = store_bytes c va l h'.
Proof. revert va h'. induction l as [|b l IH]; intros va h'; [done|]. cbn [store_bytes]. by rewrite IH. Qed.

Lemma stored_cons va b l m m1 m2 : 0 <= va < 2 ^ 32 ->
  stored va [b] m m1 -> stored (u32 (va + 1)) l m1 m2 -> stored va (b :: l) m m2.
Proof.
  intros Hv (n1 & S1 & ->) (n2 & (u & -> & F & R & W) & ->). cbn [mmu upd_host set_mem_ctrl] in F.
  exists (set_mmu u n1). split; [|rewrite <- (tlb_step_mem _ _ S1); unfold upd_host;
    cbn [mem_ctrl set_mem_ctrl set_mmu]; by rewrite store_bytes_host].
  eapply tlb_step_trans; [exact S1|]. exists u. by split_and!.
Qed.

Lemma real_write8 opcode va v m : 0 <= va < 2 ^ 32 -> real_ok m -> plain (mem_ctrl m) va ->
  exists m', mmu_write_vmem8 opcode va v m = (Ret tt, m') /\ stored va [u8 v] m m'.
Proof.
  intros Hv Hm Hp. apply (real_write_page 1); try done; [by left | unfold in_page; zlia].
Qed.

Lemma stored_plain va l m m' : stored va l m m' -> forall pa, plain (mem_ctrl m) pa -> plain (mem_ctrl m') pa.
Proof. intros (m1 & S & ->) pa (r & Hr & Ht). exists r. by rewrite <- (tlb_step_mem _ _ S) in Hr. Qed.

Lemma real_write_loop n opcode va k v m : 0 <= k -> real_ok m ->
  (forall i, k <= i < k + Z.of_nat (S n) -> plain (mem_ctrl m) (u32 (va + i))) ->
  exists m', write_bytes_loop (S n) opcode (u32 (va + k)) v (8 * Z.of_nat n) m = (Ret tt, m') /\
    stored (u32 (va + k)) (be_bytes (S n) v) m m'.
Proof.
  revert k m. induction n as [|n IH]; intros k m Hk Hm Hp; rewrite be_bytes_head; cbn [write_bytes_loop];
    match goal with |- context [mmu_write_vmem8 opcode ?a ?x] =>
      destruct (real_write8 opcode a x m) as (m1 & E1 & S1); [apply u32_range | done | apply Hp; lia|] end;
    rewrite write_byte in S1 by lia; rewrite (bind_ret _ _ _ _ _ E1); [by exists m1|].
  destruct (IH (k + 1) m1) as (m2 & E2 & S2); [lia | | |].
  - refine (stored_ok _ _ _ _ _ S1 Hm). intros x ->%list_elem_of_singleton. apply Z.mod_pos_bound. lia.
  - intros i Hin. apply (stored_plain _ _ _ _ S1). apply Hp. lia.
  - exists m2. rewrite u32_step. replace (8 * Z.of_nat (S n) - 8) with (8 * Z.of_nat n) by lia. split; [exact E2|].
    apply (stored_cons _ _ _ _ m1); [apply u32_range | done|]. by rewrite u32_step.
Qed.

Lemma real_write sz opcode va v m : access_size sz -> 0 <= va < 2 ^ 32 -> real_ok m ->
  (forall i, 0 <= i < sz -> plain (mem_ctrl m) (u32 (va + i))) -> (sz = 8 -> va mod 4 = 0) ->
  exists m', mmu_write_vmem sz opcode va v m = (Ret tt, m') /\ stored va (be_bytes (Z.to_nat sz) v) m m'.
Proof.
  intros Hs Hv [Hm Hi] Hp H8.
  assert (Z.of_nat (Z.to_nat sz) = sz) as Hz by (destruct Hs as [-> | [-> | [-> | ->]]]; done).
  assert ((sz =? 8) && test va 3 = false) as Ha.
  { destruct (Z.eqb_spec sz 8) as [E8|]; [|done]. change 3 with (2 ^ 2 - 1). rewrite test_low by lia.
    change (2 ^ 2) with 4. by rewrite (H8 E8). }
  assert (plain (mem_ctrl m) va) as Hp0.
  { rewrite <- (u32_id va Hv), <- (Z.add_0_r va). apply Hp. destruct Hs as [-> | [-> | [-> | ->]]]; lia. }
  destruct (crosses_page sz va) eqn:Ec.
  - destruct (real_write_vmem sz (write_unaligned sz) opcode va v m Hv Hm Hi) as (m1 & S1 & E).
    destruct Hp0 as (r & Hr & Ht). rewrite Hr, Ht in E.
    destruct (unaligned sz va) eqn:Eu.
    2: { apply (aligned_spec sz va Hs) in Eu as [Eu _]. apply (crosses_spec sz va Hs) in Eu. congruence. }
    change (write_vmem sz (write_unaligned sz) opcode va v m) with (mmu_write_vmem sz opcode va v m) in E.
    unfold write_unaligned in E. rewrite Ha, Ec in E. unfold when in E. rewrite bind_ret_l in E.
    pose proof (tlb_step_mem _ _ S1) as Em.
    destruct (Z.to_nat sz) as [|n] eqn:En; [destruct Hs as [-> | [-> | [-> | ->]]]; done|].
    destruct (real_write_loop n opcode va 0 v m1) as (m2 & E2 & (n1 & S2 & ->)).
    + lia.
    + by apply (tlb_step_ok m).
    + intros i Hin. rewrite Em. apply Hp. lia.
    + rewrite Z.add_0_r, (u32_id va Hv) in E2. eexists. split.
      * rewrite E. replace ((sz - 1) * 8) with (8 * Z.of_nat n) by lia. exact E2.
      * exists n1. split; [by eapply tlb_step_trans|]. by rewrite Em.
  - apply (crosses_spec sz va Hs) in Ec as Hin. apply real_write_page; try done.
    intros Hu a m1. unfold write_unaligned. rewrite Ha, Ec. unfold when. rewrite bind_ret_l.
    unfold modify, upd_host. by rewrite (proj2 (host_write_bytes sz _ v _ Hs)).
Qed.

(** Writing guest memory with translation off: 1, 2, 4 and 8 bytes at any
    alignment (8 bytes at multiples of 4), inside a page or across two.  When every
    byte of the operand is RAM or ROM, the write puts the bytes of the value, most
    significant first, at the host addresses that back the operand - for ROM, into
    the dummy page instead - and changes nothing else but the TLBs, which stay
    coherent. *)
Theorem real_mode_write_correct sz opcode va v m : access_size sz -> 0 <= va < 2 ^ 32 ->
  real_mode m -> machine_inv m ->
  (forall i, 0 <= i < sz -> plain (mem_ctrl m) (u32 (va + i))) -> (sz = 8 -> va mod 4 = 0) ->
  exists u,
    let m' := upd_host (store_bytes (mem_ctrl m) va (be_bytes (Z.to_nat sz) v)) (set_mmu u m) in
    mmu_write_vmem sz opcode va v m = (Ret tt, m') /\ tlb_frame (mmu m) u /\ real_mode m' /\ machine_inv m'.
Proof.
  intros Hs Hv Hm Hi Hp H8. destruct (real_write sz opcode va v m Hs Hv (conj Hm Hi) Hp H8) as (m' & E & S).
  assert (real_ok m') as [Hm' Hi'] by (eapply stored_ok; [intros b; apply be_bytes_range | exact S | by split]).
  destruct S as (m1 & (u & -> & F & R & W) & ->). exists u. by split_and!.
Qed.

(** ** What is written is read back *)

(** Distinct bytes of an operand in RAM have distinct host bytes, and the write
    goes where the read looks. *)
Definition ram_operand (c : MemCtrlBase) (va sz : Z) : Prop :=
  (forall i, 0 <= i < sz -> exists r, find_range (u32 (va + i)) c = Some r /\
     test (e_type r) RT.RT_MMIO = false /\ test (e_type r) RT.RT_ROM = false) /\
  forall i j, 0 <= i < sz -> 0 <= j < sz ->
    guest_addr c (u32 (va + i)) = guest_addr c (u32 (va + j)) -> i = j.

Lemma store_bytes_other c va l h x : (forall i, 0 <= i < Z.of_nat (length l) -> guest_waddr c (u32 (va + i)) <> x) ->
  (store_bytes c (u32 va) l h).[x] = h.[x].
Proof.
  revert va h. induction l as [|b l IH]; intros va h Hx; [done|]. cbn [store_bytes length] in *.
  rewrite <- (Z.add_0_r va) at 1. rewrite u32_step. cbn [Z.add]. rewrite IH.
  - rewrite rget_rset_ne; [done|]. specialize (Hx 0 ltac:(lia)). by rewrite Z.add_0_r in Hx.
  - intros i Hi. rewrite <- Z.add_assoc. apply Hx. lia.
Qed.

Lemma store_bytes_read c va l h : (forall i j, 0 <= i < Z.of_nat (length l) -> 0 <= j < Z.of_nat (length l) ->
    guest_waddr c (u32 (va + i)) = guest_waddr c (u32 (va + j)) -> i = j) ->
  map (fun i => (store_bytes c (u32 va) l h).[guest_waddr c (u32 (va + i))]) (zrange (length l)) = l.
Proof.
  revert va h. induction l as [|b l IH]; intros va h Hx; [done|]. cbn [store_bytes length] in *.
  assert (u32 (u32 va + 1) = u32 (va + 1)) as Eu by (rewrite <- (Z.add_0_r va) at 1; by rewrite u32_step).
  rewrite Eu. unfold zrange. cbn [seq map]. cbn [Z.of_nat]. rewrite Z.add_0_r. f_equal.
  - rewrite store_bytes_other; [by rewrite rget_rset_eq|]. intros i Hi E.
    rewrite <- Z.add_assoc in E. rewrite <- (Z.add_0_r va) in E at 2. apply Hx in E; lia.
  - rewrite <- seq_shift, !map_map. rewrite <- (IH (va + 1) (h.[guest_waddr c (u32 va) := b])) at 2.
    + unfold zrange. rewrite map_map. apply map_ext. intros i. do 3 f_equal. lia.
    + intros i j Hi Hj. rewrite <- !Z.add_assoc. intros E. apply Hx in E; lia.
Qed.

Lemma ram_waddr c va sz i : ram_operand c va sz -> 0 <= i < sz -> guest_waddr c (u32 (va + i)) = guest_addr c (u32 (va + i)).
Proof. intros [Hr _] Hi. destruct (Hr i Hi) as (r & E & _ & Ht). unfold guest_waddr, guest_addr. by rewrite E, Ht. Qed.

Lemma ram_plain c va sz : ram_operand c va sz -> forall i, 0 <= i < sz -> plain c (u32 (va + i)).
Proof. intros [Hr _] i Hi. destruct (Hr i Hi) as (r & E & Ht & _). by exists r. Qed.

Lemma store_then_bytes m u va sz v : 0 <= va < 2 ^ 32 -> 0 <= sz -> ram_operand (mem_ctrl m) va sz ->
  let m' := upd_host (store_bytes (mem_ctrl m) va (be_bytes (Z.to_nat sz) v)) (set_mmu u m) in
  guest_bytes m' va (Z.to_nat sz) = be_bytes (Z.to_nat sz) v.
Proof.
  intros Hv Hs Ho m'. assert (Z.of_nat (length (be_bytes (Z.to_nat sz) v)) = sz) as Hl by (rewrite be_bytes_length; lia).
  rewrite <- (store_bytes_read (mem_ctrl m) va (be_bytes (Z.to_nat sz) v) (host_mem (mem_ctrl m))).
  - rewrite be_bytes_length. unfold guest_bytes, m', host_mem_of, upd_host.
    cbn [mem_ctrl set_mem_ctrl set_mmu host_mem with_host]. rewrite (u32_id va Hv).
    apply map_ext_in. intros i Hi. unfold zrange in Hi. apply in_map_iff in Hi as (k & <- & Hk%in_seq).
    rewrite (ram_waddr _ _ sz) by (done || lia). reflexivity.
  - rewrite Hl. intros i j Hi Hj. rewrite !(ram_waddr _ _ sz) by done. by apply Ho.
Qed.

(** C13: memory holds what was written.  With translation off, a value written to
    RAM and read back with the same size from the same address, by any
    instructions, is the value modulo its width, at every alignment and across
    pages, and no host byte outside the operand has changed. *)
Theorem real_mode_roundtrip sz opcode opcode' va v m : access_size sz -> 0 <= va < 2 ^ 32 ->
  real_mode m -> machine_inv m -> ram_operand (mem_ctrl m) va sz -> (sz = 8 -> va mod 4 = 0) ->
  exists m1 m2,
    mmu_write_vmem sz opcode va v m = (Ret tt, m1) /\
    mmu_read_vmem sz opcode' va m1 = (Ret (v mod 2 ^ (8 * sz)), m2) /\
    (forall x, (forall i, 0 <= i < sz -> guest_addr (mem_ctrl m) (u32 (va + i)) <> x) ->
       (host_mem_of m2).[x] = (host_mem_of m).[x]) /\
    cpu m2 = cpu m /\ real_mode m2 /\ machine_inv m2.
Proof.
  intros Hs Hv Hm Hi Ho H8.
  assert (0 < sz) as Hpos by (destruct Hs as [-> | [-> | [-> | ->]]]; lia).
  destruct (real_write sz opcode va v m Hs Hv (conj Hm Hi) (ram_plain _ _ _ Ho) H8) as (m1 & E1 & S1).
  assert (real_ok m1) as Hm1 by (eapply stored_ok; [intros b; apply be_bytes_range | exact S1 | by split]).
  destruct S1 as (n1 & (u & -> & F & R & W) & ->).
  set (m1 := upd_host _ _) in *.
  assert (forall i, 0 <= i < sz -> plain (mem_ctrl m1) (u32 (va + i))) as Hp1 by apply (ram_plain _ _ _ Ho).
  destruct (real_read sz opcode' va m1 Hs Hv Hm1 Hp1 H8) as (m2 & E2 & S2).
  exists m1, m2. split; [exact E1|]. split.
  { rewrite E2. unfold m1. rewrite store_then_bytes by (done || lia). rewrite be_val_bytes. by rewrite Z2Nat.id by lia. }
  destruct (tlb_step_ok _ _ S2 Hm1) as [Hm2 Hi2]. destruct S2 as (u2 & -> & _). split; [|by split_and!].
  intros x Hx. unfold host_mem_of, m1, upd_host. cbn [mem_ctrl set_mem_ctrl set_mmu host_mem with_host].
  rewrite <- (u32_id va Hv) at 1. apply store_bytes_other. intros i Hin. rewrite be_bytes_length, Z2Nat.id in Hin by lia.
  rewrite (ram_waddr _ _ sz) by done. by apply Hx.
Qed.
End RealMode.

(** ** Reset *)

(** The arrays in use belong to the mode on record. *)
Definition modes_ok (u : mmu_state) : Prop := CurDTLBMode u = 0 \/ CurDTLBMode u = 1 -> pCurDTLB u = 1.

Lemma empty_real_tlbs c u : (forall s, tlb_at u s = tlb_empty) -> real_tlbs c u.
Proof. intros E s _ _. rewrite E. split; [by left | done]. Qed.

Lemma change_mode_real m : msr_bit MSR.DR m = false -> modes_ok (mmu m) -> pCurDTLB (mmu (mmu_change_mode m)) = 1.
Proof.
  intros Hd Hm. unfold mmu_change_mode. cbv zeta.
  set (m1 := if negb (CurITLBMode (mmu m) =? _) then _ else m).
  assert (msr_bit MSR.DR m1 = false /\ modes_ok (mmu m1) /\ msr_bit MSR.PR m1 = msr_bit MSR.PR m) as (Hd1 & Hm1 & Hp).
  { unfold m1. destruct (negb _); [|done]. destruct (_ =? 2); [done|]. by destruct (_ =? 3). }
  clearbody m1. rewrite Hd1. assert (forall b, Z.lor (Z.shiftl (b2z false) 1) (b2z b) = b2z b) as Eb by (by intros []).
  rewrite Eb. destruct (msr_bit MSR.PR m); cbn [b2z Z.b2z].
  - destruct (Z.eqb_spec (CurDTLBMode (mmu m1)) 1) as [E|E]; [|done]. apply Hm1. by right.
  - destruct (Z.eqb_spec (CurDTLBMode (mmu m1)) 0) as [E|E]; [|done]. apply Hm1. by left.
Qed.

Lemma empty_real_mode m : msr_bit MSR.DR m = false -> pCurDTLB (mmu m) = 1 ->
  (forall s, tlb_at (mmu m) s = tlb_empty) -> map_wf (mem_ctrl m) -> paged (mem_ctrl m) -> real_mode m.
Proof. intros H1 H2 H3 H4 H5. split; try done. by apply empty_real_tlbs. Qed.

(** A machine after reset, with a megabyte of RAM at 0. *)
Definition ram_demo : machine :=
  set_mem_ctrl (mkMemCtrl [0x100000] [walk_entry] ∅ 0x200000 2) demo_machine.
Definition ram_machine : machine := ppc_mmu_init ram_demo.

Lemma silent_devices_ok : @DevicesOk silent_devices.
Proof. split; intros; apply preserves_ret. Qed.

Lemma ram_demo_ok : machine_ok ram_demo.
Proof. destruct demo_machine_ok. by split. Qed.

Lemma ram_machine_ok : real_mode ram_machine /\ machine_inv ram_machine /\ mem_ctrl ram_machine = mem_ctrl ram_demo.
Proof.
  assert (machine_inv ram_machine /\ (forall s, tlb_at (mmu ram_machine) s = tlb_empty) /\
    cpu ram_machine = cpu ram_demo /\ mem_ctrl ram_machine = mem_ctrl ram_demo) as H.
  { destruct (mmu_init_effect ram_demo ram_demo_ok empty_timers_wf) as (H1 & H2 & H3 & H4 & H5).
    - apply file_ok_empty. lia.
    - unfold ram_machine. revert H1 H2 H4 H5. generalize (ppc_mmu_init ram_demo). intros; split_and!; assumption. }
  assert (pCurDTLB (mmu ram_machine) = 1) as Hc by (vm_compute; reflexivity).
  revert Hc H. generalize ram_machine. intros m Hc (H1 & H2 & H4 & H5). split; [|by split].
  apply empty_real_mode; [unfold msr_bit; by rewrite H4 | exact Hc | exact H2|..]; rewrite H5.
  - destruct (map_wf_single walk_entry ∅ 0x200000 2) as [W1 W2 W3]; [cbn; lia..|]. by split.
  - intros e ->%list_elem_of_singleton. done.
Qed.

Lemma ram_demo_operand va sz : 0 <= va -> va + sz <= 0x100000 -> ram_operand (mem_ctrl ram_demo) va sz.
Proof.
  intros Hv Hs.
  assert (forall i, 0 <= i < sz -> find_range (u32 (va + i)) (mem_ctrl ram_demo) = Some walk_entry /\ u32 (va + i) = va + i) as H.
  { intros i Hi. rewrite (uwrap_small 32 (va + i) ltac:(lia) : u32 (va + i) = va + i). split; [|done].
    unfold find_range. cbn [address_map mem_ctrl ram_demo set_mem_ctrl List.find walk_entry e_start e_end].
    by rewrite (proj2 (Z.leb_le 0 (va + i))), (proj2 (Z.leb_le (va + i) 0xFFFFF)) by lia. }
  split.
  - intros i Hi. exists walk_entry. by rewrite (proj1 (H i Hi)).
  - intros i j Hi Hj. unfold guest_addr. destruct (H i Hi) as [-> Ei], (H j Hj) as [-> Ej]. rewrite Ei, Ej.
    unfold area_host. lia.
Qed.

Lemma real_mode_roundtrip_witness :
  exists m1 m2, @mmu_write_vmem silent_devices 4 0 0x1FFE 0x12345678 ram_machine = (Ret tt, m1) /\
    @mmu_read_vmem silent_devices 4 0 0x1FFE m1 = (Ret 0x12345678, m2).
Proof.
  destruct ram_machine_ok as (Hm & Hi & Em).
  destruct (@real_mode_roundtrip silent_devices 4 0 0 0x1FFE 0x12345678 ram_machine
    ltac:(unfold access_size; auto) ltac:(lia) Hm Hi) as (m1 & m2 & E1 & E2 & _).
  - rewrite Em. apply ram_demo_operand; lia.
  - done.
  - exists m1, m2. exact (conj E1 E2).
Defined.

Lemma real_mode_read_correct_witness : exists m',
  @mmu_read_vmem silent_devices 8 0 0x1FFC ram_machine = (Ret 0, m').
Proof.
  destruct ram_machine_ok as (Hm & Hi & Em).
  destruct (@real_mode_read_correct silent_devices 8 0 0x1FFC ram_machine
    ltac:(unfold access_size; auto) ltac:(lia) Hm Hi) as (u & E & _); [| done |].
  - rewrite Em. apply (ram_plain _ _ 8), ram_demo_operand; lia.
  - eexists. exact E.
Defined.

Lemma real_mode_write_correct_witness : exists m',
  @mmu_write_vmem silent_devices 2 0 0xFFF 0xABCD ram_machine = (Ret tt, m') /\ real_mode m'.
Proof.
  destruct ram_machine_ok as (Hm & Hi & Em).
  destruct (@real_mode_write_correct silent_devices 2 0 0xFFF 0xABCD ram_machine
    ltac:(unfold access_size; auto) ltac:(lia) Hm Hi) as (u & E & _ & R & _); [| done |].
  - rewrite Em. apply (ram_plain _ _ 2), ram_demo_operand; lia.
  - eexists. exact (conj E R).
Defined.
