(* ===== verification/LoadStoreInv.v ===== *)
(** * Loads and stores keep the invariant (cpu/ppc/ppcopcodes.cpp)

    Every load, store, cache and TLB instruction keeps the invariant of the
    machine, whatever interrupt it takes and however many registers it moves. *)
From S2P Require Import Prelude Word PpcState IntArith Timers MemCtrl HostMem Machine Mmu MmuBat Exceptions Translate PageWalk VMem LoadStore SystemRegs Invariant VmInv.
Import Endian.

Lemma inv_mcpu f : (forall s, ppc_ok s -> ppc_ok (f s)) ->
  (forall s r, 528 <= r <= 543 -> (spr (f s)).[r] = (spr s).[r]) -> preserves machine_inv (mcpu f).
Proof. intros H1 H2. apply inv_both; [by apply mcpu_ok | by apply struct_mcpu_spr]. Qed.

Lemma inv_gpr r v : 0 <= v < 2 ^ 32 -> preserves machine_inv (mcpu (set_gpr r v)).
Proof. intros Hv. apply inv_mcpu; [|done]. intros s Hs. by apply set_gpr_ok. Qed.

Lemma yields_cpu : yields machine_inv (gets cpu) ppc_ok.
Proof. apply yields_gets. intros m Hm. apply Hm. Qed.

Lemma inv_illegal opcode : preserves machine_inv (ppc_illegalop opcode).
Proof. by apply handler_inv. Qed.

Lemma small_word sz v : access_size sz -> sz <= 4 -> word_of sz v -> 0 <= v < 2 ^ 32.
Proof. unfold word_of. intros [-> | [-> | [-> | ->]]] Hs Hv; cbn in *; lia. Qed.

Lemma base_range reg_a a : 0 <= a < 2 ^ 32 -> 0 <= base_of reg_a a < 2 ^ 32.
Proof. intros Ha. unfold base_of. destruct (reg_a =? 0); lia. Qed.

Lemma shl32_range x n : 0 <= shl32 x n < 2 ^ 32.
Proof. apply u32_range. Qed.

(** An operand is fetched, then the instruction goes on. *)
Lemma fetch_inv {A B} (f : ppc_state -> A) (k : A -> M machine B) (Q : A -> Prop) :
  (forall s, ppc_ok s -> Q (f s)) -> (forall a, Q a -> preserves machine_inv (k a)) ->
  preserves machine_inv (s <- gets cpu ;; k (f s)).
Proof.
  intros Hf Hk. apply (yields_preserves _ _ (fun _ => True)). eapply yields_bind; [apply yields_cpu|].
  intros s Hs. by apply preserves_yields, Hk, Hf.
Qed.

Section LoadStoreInv.
Context `{DevicesOk}.

Lemma write_T_inv sz opcode ea v : access_size sz -> 0 <= ea < 2 ^ 32 -> preserves machine_inv (mmu_write_T sz opcode ea v).
Proof. apply write_vmem_inv. Qed.

(** A value is loaded and goes on to a register. *)
Lemma load_inv sz opcode ea (k : Z -> M machine unit) : access_size sz -> sz <= 4 -> 0 <= ea < 2 ^ 32 ->
  (forall v, 0 <= v < 2 ^ 32 -> preserves machine_inv (k v)) ->
  preserves machine_inv (v <- mmu_read_vmem sz opcode ea ;; k v).
Proof.
  intros Hs Hz He Hk. apply (yields_preserves _ _ (fun _ => True)).
  eapply yields_bind; [by apply read_vmem_inv|]. intros v Hv. apply preserves_yields, Hk. by apply (small_word sz).
Qed.

Lemma store_reg_inv r v : 0 <= v < 2 ^ 32 -> preserves machine_inv (store_reg r v).
Proof. apply inv_gpr. Qed.

Definition size_reg (sz : Z) : Prop := access_size sz /\ sz <= 4.

Ltac size := first [assumption | by unfold access_size; auto | unfold size_reg in *; tauto | lia].
Ltac ranges := first [apply u32_range | apply shl32_range | assumption].
Ltac regs s Hs := apply (yields_preserves _ _ (fun _ => True)); eapply yields_bind; [apply yields_cpu|];
  intros s Hs; apply preserves_yields; cbv beta iota zeta delta
    [ppc_grab_regsab ppc_grab_regssa ppc_grab_regssab ppc_grab_regsdasimm ppc_grab_regsdab ppc_grab_regssa_stmw
     ppc_grab_regsda ppc_grab_regssash_stswi ppc_grab_regssab_stswx decode_ops_sa decode_ops_sab decode_ops_dasimm
     decode_ops_dab decode_ops_da].

Lemma stores_inv sz opcode : size_reg sz ->
  preserves machine_inv (ppc_st sz opcode) /\ preserves machine_inv (ppc_stx sz opcode) /\
  preserves machine_inv (ppc_stu sz opcode) /\ preserves machine_inv (ppc_stux sz opcode).
Proof.
  intros [Hz Hs]. split_and!; regs s Hok.
  1, 2: apply write_T_inv; [size | ranges].
  all: apply preserves_if;
    [apply preserves_bind; [apply write_T_inv; [size | ranges] | intros _; apply inv_gpr; ranges]|
     apply preserves_bind; [auto with preserve|intros b]; apply preserves_if;
       [apply write_T_inv; [size | first [ranges | apply Hok]] | apply inv_illegal]].
Qed.

Lemma loads_inv sz opcode : size_reg sz ->
  preserves machine_inv (ppc_lz sz opcode) /\ preserves machine_inv (ppc_lzx sz opcode) /\
  preserves machine_inv (ppc_lzu sz opcode) /\ preserves machine_inv (ppc_lzux sz opcode).
Proof.
  intros [Hz Hs]. split_and!; regs s Hok.
  1, 2: apply load_inv; [size | size | ranges | intros v Hv; by apply store_reg_inv].
  all: apply preserves_if; [|apply inv_illegal]; apply load_inv; [size | size | ranges | intros v Hv];
    (apply preserves_bind; [by apply store_reg_inv | intros _; apply store_reg_inv; ranges]).
Qed.

Lemma byteswap_half_range x : 0 <= x < 2 ^ 16 -> 0 <= BYTESWAP_16 x < 2 ^ 32.
Proof.
  intros Hx. rewrite byteswap_16_bytes by done. pose proof (be_val_range (rev (be_bytes 2 x))) as H1.
  rewrite length_rev, be_bytes_length in H1. change (2 ^ (8 * Z.of_nat 2)) with (2 ^ 16) in H1.
  assert (0 <= be_val (rev (be_bytes 2 x)) < 2 ^ 16); [|lia]. apply H1. intros b.
  rewrite list_elem_of_In, <- in_rev, <- list_elem_of_In. apply be_bytes_range.
Qed.

Lemma other_loads_inv opcode :
  preserves machine_inv (ppc_lha opcode) /\ preserves machine_inv (ppc_lhax opcode) /\
  preserves machine_inv (ppc_lhau opcode) /\ preserves machine_inv (ppc_lhaux opcode) /\
  preserves machine_inv (ppc_lhbrx opcode) /\ preserves machine_inv (ppc_lwbrx opcode) /\
  preserves machine_inv (ppc_lwarx opcode) /\ preserves machine_inv (ppc_eciwx opcode).
Proof.
  split_and!; regs s Hok.
  1, 2: apply load_inv; [size | size | ranges | intros v Hv; apply store_reg_inv; ranges].
  1, 2: apply preserves_if; [|apply inv_illegal]; apply load_inv; [size | size | ranges | intros v Hv];
    (apply preserves_bind; [apply store_reg_inv; ranges | intros _; apply store_reg_inv; ranges]).
  1: apply load_inv; [size | size | ranges | intros v Hv; apply store_reg_inv; ranges].
  1: apply load_inv; [size | size | ranges | intros v Hv; by apply store_reg_inv, byteswap_32_range].
  1: apply preserves_bind; [by apply inv_mcpu; [intros; apply with_reserve_ok|]|intros _];
    apply load_inv; [size | size | ranges | intros v Hv; by apply store_reg_inv].
  apply preserves_if; [by apply handler_inv|].
  apply preserves_bind; [apply preserves_when, alignment_inv; ranges|intros _].
  apply load_inv; [size | size | ranges | intros v Hv; by apply store_reg_inv].
Qed.

Lemma cr_inv f : (forall s, ppc_ok s -> 0 <= f s < 2 ^ 32) -> preserves machine_inv (mcpu (fun s => with_cr (f s) s)).
Proof. intros Hf. apply inv_mcpu; [|done]. intros s Hs. apply with_cr_ok; [done | by apply Hf]. Qed.

Lemma so_range s : ppc_ok s -> 0 <= Z.shiftr (Z.land (spr s).[SPR.XER] XERB.SO) 3 < 2 ^ 32.
Proof. intros Hs. apply shiftr_range; try lia. apply land_range_l; [lia|]. apply (ok_spr s Hs). Qed.

Lemma other_stores_inv opcode :
  preserves machine_inv (ppc_sthbrx opcode) /\ preserves machine_inv (ppc_stwbrx opcode) /\
  preserves machine_inv (ppc_stwcx opcode) /\ preserves machine_inv (ppc_ecowx opcode) /\
  preserves machine_inv (ppc_dcbz opcode).
Proof.
  split_and!; regs s Hok.
  1, 2: apply write_T_inv; [size | ranges].
  - apply preserves_bind; [apply cr_inv; intros; apply land_range_l; [lia|]; by apply ok_cr|intros _].
    apply preserves_bind.
    { apply cr_inv. intros s' Hs'. apply lor_range; [lia | by apply ok_cr | by apply so_range]. }
    intros _. apply preserves_bind; [auto with preserve|intros r]. apply preserves_if; [|apply preserves_ret].
    apply preserves_bind; [apply write_T_inv; [size|]; destruct (_ =? 0); [apply Hok | ranges]|intros _].
    apply preserves_bind; [by apply inv_mcpu; [intros; apply with_reserve_ok|]|intros _].
    apply cr_inv. intros s' Hs'. apply lor_range; [lia | by apply ok_cr | lia].
  - apply preserves_if.
    { apply preserves_bind; [apply inv_set_spr; unfold SPR.DSISR; lia | intros _; by apply handler_inv]. }
    apply preserves_bind; [apply preserves_when, alignment_inv; ranges|intros _]. apply write_T_inv; [size | ranges].
  - apply dcbz_inv. apply land_range_l; [lia | ranges].
Qed.

Lemma stmw_loop_inv n opcode r ea : 0 <= ea < 2 ^ 32 -> preserves machine_inv (stmw_loop n opcode r ea).
Proof.
  revert r ea. induction n as [|n IH]; intros r ea He; [apply preserves_ret|]. cbn [stmw_loop].
  apply preserves_bind; [auto with preserve|intros v].
  apply preserves_bind; [by apply write_T_inv; [size|] | intros _; apply IH; ranges].
Qed.

Lemma lmw_loop_inv n opcode r ea : 0 <= ea < 2 ^ 32 -> preserves machine_inv (lmw_loop n opcode r ea).
Proof.
  revert r ea. induction n as [|n IH]; intros r ea He; [apply preserves_ret|]. cbn [lmw_loop].
  apply load_inv; [size | size | ranges | intros v Hv].
  apply preserves_bind; [by apply inv_gpr | intros _; apply IH; ranges].
Qed.

Lemma store_words_inv n opcode r ea k : 0 <= ea < 2 ^ 32 ->
  (forall r ea, 0 <= ea < 2 ^ 32 -> preserves machine_inv (k r ea)) -> preserves machine_inv (store_words n opcode r ea k).
Proof.
  intros He Hk. revert r ea He. induction n as [|n IH]; intros r ea He; [by apply Hk|]. cbn [store_words].
  apply preserves_bind; [auto with preserve|intros v].
  apply preserves_bind; [by apply write_T_inv; [size|] | intros _; apply IH; ranges].
Qed.

Lemma load_words_inv n opcode r ea k : 0 <= ea < 2 ^ 32 ->
  (forall r ea, 0 <= ea < 2 ^ 32 -> preserves machine_inv (k r ea)) -> preserves machine_inv (load_words n opcode r ea k).
Proof.
  intros He Hk. revert r ea He. induction n as [|n IH]; intros r ea He; [by apply Hk|]. cbn [load_words].
  apply load_inv; [size | size | ranges | intros v Hv].
  apply preserves_bind; [by apply inv_gpr | intros _; apply IH; ranges].
Qed.

Lemma store_tail_inv opcode n r ea : 0 <= ea < 2 ^ 32 -> preserves machine_inv (store_tail opcode n r ea).
Proof.
  intros He. apply preserves_bind; [auto with preserve|intros v].
  repeat apply preserves_if; try (apply write_T_inv; [size | done]); [|apply preserves_ret].
  apply preserves_bind; [by apply write_T_inv; [size|]|intros _].
  apply preserves_bind; [auto with preserve|intros w]. apply write_T_inv; [size | ranges].
Qed.

Lemma shift8_range b : 0 <= b < 2 ^ 8 -> 0 <= Z.shiftl b 8 < 2 ^ 32.
Proof. intros Hb. rewrite Z.shiftl_mul_pow2 by lia. lia. Qed.

Lemma load_byte_inv opcode ea (k : Z -> M machine unit) : 0 <= ea < 2 ^ 32 ->
  (forall v, 0 <= v < 2 ^ 8 -> preserves machine_inv (k v)) ->
  preserves machine_inv (v <- mmu_read_vmem 1 opcode ea ;; k v).
Proof.
  intros He Hk. apply (yields_preserves _ _ (fun _ => True)).
  eapply yields_bind; [apply read_vmem_inv; [size | done]|]. intros v Hv. by apply preserves_yields, Hk.
Qed.

Lemma lswx_loop_inv n opcode skip r ea inb : 0 <= ea < 2 ^ 32 -> preserves machine_inv (lswx_loop n opcode skip r ea inb).
Proof.
  revert r ea inb. induction n as [|n IH]; intros r ea inb He; [apply preserves_ret|]. cbn [lswx_loop]. cbv zeta.
  apply preserves_if; [apply preserves_ret|]. apply preserves_if; [apply IH; ranges|].
  apply preserves_if; [apply load_inv; [size | size | done | intros v Hv; apply inv_gpr; ranges]|].
  apply preserves_if; [apply load_inv; [size | size | done | intros v Hv; apply inv_gpr; ranges]|].
  apply preserves_if.
  - apply load_inv; [size | size | done | intros h Hh]. apply load_byte_inv; [ranges|]. intros b Hb.
    apply inv_gpr, lor_range; [lia | ranges | by apply shift8_range].
  - apply load_inv; [size | size | done | intros v Hv]. apply preserves_bind; [by apply inv_gpr | intros _; apply IH; ranges].
Qed.

Lemma strings_inv opcode :
  preserves machine_inv (ppc_stmw opcode) /\ preserves machine_inv (ppc_lmw opcode) /\
  preserves machine_inv (ppc_lswi opcode) /\ preserves machine_inv (ppc_lswx opcode) /\
  preserves machine_inv (ppc_stswi opcode) /\ preserves machine_inv (ppc_stswx opcode).
Proof.
  split_and!.
  - regs s Hok. apply preserves_bind; [apply preserves_when, alignment_inv; ranges|intros _]. apply stmw_loop_inv; ranges.
  - regs s Hok. apply lmw_loop_inv; ranges.
  - regs s Hok. apply load_words_inv; [apply base_range, Hok|]. intros r ea He.
    repeat apply preserves_if; [..|apply preserves_ret];
      (apply load_inv; [size | size | done | intros v Hv]); try (apply inv_gpr; ranges).
    apply preserves_bind; [apply inv_gpr; ranges|intros _]. apply load_byte_inv; [ranges|]. intros b Hb.
    apply inv_mcpu; [|done]. intros s' Hs'. apply set_gpr_ok; [done | ranges].
  - apply (yields_preserves _ _ (fun _ => True)). apply (yields_bind _ _ _ (fun m => machine_inv m)).
    { by apply yields_gets. }
    intros m Hm. apply preserves_yields. cbv beta iota zeta delta [ppc_grab_regsdab decode_ops_dab].
    apply lswx_loop_inv; ranges.
  - regs s Hok. apply store_words_inv; [apply base_range, Hok|]. intros. by apply store_tail_inv.
  - regs s Hok. apply store_words_inv; [ranges|]. intros. by apply store_tail_inv.
Qed.

(** What the loop of [lscbx] ends with. *)
Definition lscbx_out (n : nat) (r : Z * Z * Z * Z * bool) : Prop :=
  let '(_, d, shift, rest, _) := r in 0 <= d < 2 ^ 32 /\ 0 <= rest <= Z.of_nat n.

Lemma lscbx_loop_yields n opcode ra rb mb rd d shift ea : 0 <= ea < 2 ^ 32 -> 0 <= d < 2 ^ 32 ->
  shift ∈ [0; 8; 16; 24] -> yields machine_inv (lscbx_loop n opcode ra rb mb rd d shift ea) (lscbx_out n).
Proof.
  revert rd d shift ea. induction n as [|n IH]; intros rd d shift ea He Hd Hsh; [apply yields_ret; by cbn|].
  cbn [lscbx_loop]. eapply yields_bind; [apply read_vmem_inv; [size | done]|]. intros v Hv.
  cbv zeta. set (d' := Z.lor d (Z.shiftl v shift)).
  assert (0 <= d' < 2 ^ 32) as Hd'.
  { apply lor_range; [lia | done|]. unfold word_of in Hv. rewrite !elem_of_cons, elem_of_nil in Hsh.
    destruct Hsh as [->|[->|[->|[->|[]]]]]; rewrite Z.shiftl_mul_pow2 by lia; lia. }
  apply yields_then.
  { apply preserves_if; [|apply preserves_ret]. apply preserves_when. by apply store_reg_inv. }
  intros _. match goal with |- context [let '(_, _) := ?x in _] => destruct x as [[rd2 d2] sh2] eqn:Ex end.
  assert (0 <= d2 < 2 ^ 32 /\ sh2 ∈ [0; 8; 16; 24]) as [Hd2 Hsh2].
  { destruct (Z.eqb_spec shift 0); injection Ex as <- <- <-; [split; [lia | set_solver]|]. split; [done|].
    rewrite !elem_of_cons, elem_of_nil in *. lia. }
  destruct (v =? mb); [apply yields_ret; cbn; lia|].
  eapply yields_weaken; [apply IH; [ranges | done..]|]. intros [[[[a b] c] l] m]. cbn. lia.
Qed.

Lemma lscbx_inv rec opcode : preserves machine_inv (power_lscbx rec opcode).
Proof.
  regs s Hok. apply (yields_preserves _ _ (fun _ => True)).
  assert (0 <= Z.land (spr s).[SPR.XER] 0x7F < 128) as Hn.
  { change 0x7F with (Z.ones 7). rewrite Z.land_ones by lia. apply Z.mod_pos_bound. lia. }
  eapply yields_bind; [apply lscbx_loop_yields; [ranges | lia | set_solver]|].
  intros [[[[rd d] shift] rest] mt] [Hd Hl]. apply preserves_yields.
  apply preserves_bind; [apply preserves_when; by apply store_reg_inv|intros _].
  apply preserves_bind.
  { apply inv_mcpu; [|intros s' r Hr; apply rget_rset_ne; unfold SPR.XER; lia]. intros s' Hs'. apply set_spr_ok; [done|].
    apply lor_range; [lia | apply land_range_l; [lia|]; by apply ok_get_spr | lia]. }
  intros _. apply preserves_when, cr_inv. intros s' Hs'. repeat apply lor_range; try lia.
  - apply land_range_l; [lia|]. by apply ok_cr.
  - by destruct mt.
  - by apply so_range.
Qed.

End LoadStoreInv.

(** ** TLB instructions *)

Lemma inv_mmu u m : machine_inv m -> tlb_wf u -> lru603_ok u ->
  ibat_array u = ibat_array (mmu m) /\ dbat_array u = dbat_array (mmu m) /\
  (forall t, pending_sources t u = pending_sources t (mmu m)) -> machine_inv (set_mmu u m).
Proof.
  intros [Hok [Ht Hw Hs Hb (H1 & _)]] [Hw' Hs'] Hl (E1 & E2 & E3). split; [by destruct Hok|].
  split; cbn [mmu set_mmu timers cfg]; [done | done | | |by split_and!].
  - intros t. cbn [mmu set_mmu]. rewrite E3. apply Hs.
  - intros H. by apply (bats_synced_ext m); [..|apply Hb].
Qed.

Lemma frame_invalidate t sources u : tlb_frame u (tlb_invalidate_tracked_entries t sources u).
Proof.
  unfold tlb_invalidate_tracked_entries.
  assert (forall l acc v, tlb_frame u v -> tlb_frame u (fold_left (invalidate_step sources) l (acc, v)).2) as H.
  { induction l as [|s l IH]; intros acc v Hv; [done|]. cbn [fold_left invalidate_step].
    destruct (test _ _); [|destruct (negb _)]; apply IH; try done;
      (eapply tlb_frame_trans; [exact Hv | apply frame_upd_tlb]). }
  specialize (H (tracked_entries t u) [] u (tlb_frame_refl u)). destruct (fold_left _ _ _) as [r v].
  eapply tlb_frame_trans; [exact H|]. by destruct t.
Qed.

Lemma invalidate_wf t sources u : tlb_wf u -> tlb_wf (tlb_invalidate_tracked_entries t sources u).
Proof.
  intros [Hw Hs]. split; [|by apply shapes_invalidate]. intros t'. destruct (decide (t' = t)) as [->|Hne].
  - by apply invalidate_tracked_effect.
  - destruct (invalidate_other t' t sources u Hne (Hw t)) as (E1 & _ & E3). by apply (tracked_wf_ext t' u).
Qed.

Lemma flush_all_inv m : machine_inv m -> machine_inv (tlb_flush_all_pat m).
Proof.
  intros Hm. unfold tlb_flush_all_pat. apply (inv_set_mmu _ m Hm).
  - by apply invalidate_wf, invalidate_wf, inv_tlb_wf.
  - eapply tlb_frame_trans; apply frame_invalidate.
Qed.

Lemma frame_flush_page t ea u : tlb_frame u (tlb_flush_pat_page t ea u).
Proof.
  unfold tlb_flush_pat_page. match goal with |- context [fold_left _ ?l _] => generalize l end.
  intros l. assert (forall v, tlb_frame u v -> tlb_frame u (fold_left (flush_slot (Z.land ea 0xFFFFF000)) l v)) as H;
    [|apply H, tlb_frame_refl].
  induction l as [|s l IH]; intros v Hv; [done|]. cbn [fold_left]. apply IH.
  unfold flush_slot. destruct (_ && _); [|done]. eapply tlb_frame_trans; [exact Hv | apply frame_set_tlb].
Qed.

Lemma flush_page_shapes t ea u : shapes_ok u -> shapes_ok (tlb_flush_pat_page t ea u).
Proof.
  unfold tlb_flush_pat_page. match goal with |- context [fold_left _ ?l _] => generalize l end.
  intros l. revert u. induction l as [|s l IH]; intros u Hu; [done|]. cbn [fold_left]. apply IH.
  unfold flush_slot. destruct (_ && _); [|done]. apply shapes_set; [done | by apply shape_invalid].
Qed.

(** Steps that also change the 603 TLBs. *)
Definition frame603 (u u' : mmu_state) : Prop :=
  ibat_array u' = ibat_array u /\ dbat_array u' = dbat_array u /\
  (forall t, pending_sources t u' = pending_sources t u) /\ (lru603_ok u -> lru603_ok u') /\ (tlb_wf u -> tlb_wf u').

Lemma frame603_trans u1 u2 u3 : frame603 u1 u2 -> frame603 u2 u3 -> frame603 u1 u3.
Proof.
  intros (A1&A2&A3&A4&A5) (B1&B2&B3&B4&B5). split_and!; [congruence..|intros t; by rewrite B3, A3 | auto | auto].
Qed.

Lemma frame603_refl u : frame603 u u.
Proof. by split_and!. Qed.

Lemma frame603_flush t ea u : frame603 u (tlb_flush_pat_page t ea u).
Proof.
  destruct (frame_flush_page t ea u) as (E1&E2&E3&E4&_&_&_&_&_&_&E5). split_and!; [done..| | |].
  - by intros [].
  - intros Hl t' set. unfold t603_lru_at. rewrite E5. apply Hl.
  - intros [Hw Hs]. split; [by apply flush_page_wf | by apply flush_page_shapes].
Qed.

Lemma frame603_set t set way e u : frame603 u (set_t603 t set way e u).
Proof.
  split_and!; [done..| | |].
  - by intros [].
  - done.
  - intros [Hw Hs]. split; [by apply (tracking_wf_proj u) | by apply (shapes_ext u)].
Qed.

Lemma frame603_lru t set v u : 0 <= v <= 1 -> frame603 u (set_t603_lru t set v u).
Proof.
  intros Hv. split_and!; [done..| | |].
  - by intros [].
  - intros Hl t' set'. unfold t603_lru_at. cbn. destruct (decide ((t, set) = (t', set'))) as [E|E].
    + by rewrite E, lookup_insert_eq.
    + rewrite lookup_insert_ne by done. apply Hl.
  - intros [Hw Hs]. split; [by apply (tracking_wf_proj u) | by apply (shapes_ext u)].
Qed.

Lemma frame603_inv f m : (forall u, frame603 u (f u)) -> machine_inv m -> machine_inv (upd_mmu f m).
Proof.
  intros Hf Hm. destruct (Hf (mmu m)) as (E1 & E2 & E3 & E4 & E5).
  apply inv_mmu; [done | by apply E5, inv_tlb_wf | by apply E4, Hm | done].
Qed.

Lemma tlb_load_inv t ea m : machine_inv m -> machine_inv (mmu_603_tlb_load t ea m).
Proof.
  intros Hm. unfold mmu_603_tlb_load. cbv zeta. apply frame603_inv; [|done]. intros u. cbv beta zeta.
  eapply frame603_trans; [|apply frame603_flush].
  set (way := Z.land (Z.shiftr (m_spr m SPR.SRR1) 17) 1).
  assert (0 <= Z.lxor way 1 <= 1) as Hw by (unfold way; destruct (way_cases (Z.shiftr (m_spr m SPR.SRR1) 17)) as [-> | ->]; by vm_compute).
  match goal with |- context [if _ && _ && _ then set_t603 _ _ _ _ ?x else _] => set (u1 := x) end.
  assert (frame603 u u1) as H1.
  { unfold u1. eapply frame603_trans; [|by apply frame603_lru]. eapply frame603_trans; [|apply frame603_set].
    destruct (t603_valid _); [apply frame603_flush | apply frame603_refl]. }
  destruct (_ && _ && _); [|done]. eapply frame603_trans; [exact H1 | apply frame603_set].
Qed.

Lemma tlb_invalidate_set_inv ea m : machine_inv m -> machine_inv (mmu_603_tlb_invalidate_set ea m).
Proof.
  intros Hm. unfold mmu_603_tlb_invalidate_set. cbv zeta. apply frame603_inv; [|done]. intros u. cbv beta.
  repeat (eapply frame603_trans; [|apply frame603_set]). apply frame603_refl.
Qed.

Lemma inv_privileged k : preserves machine_inv k -> preserves machine_inv (privileged k).
Proof.
  intros Hk. apply preserves_bind; [auto with preserve|]. intros []; [by apply handler_inv | done].
Qed.

Lemma tlb_instructions_inv opcode :
  preserves machine_inv (ppc_tlbie opcode) /\ preserves machine_inv (ppc_tlbia opcode) /\
  preserves machine_inv (ppc_tlbld opcode) /\ preserves machine_inv (ppc_tlbli opcode) /\
  preserves machine_inv (ppc_tlbsync opcode).
Proof.
  split_and!; apply inv_privileged; try apply preserves_ret; intros m Hm; cbn [snd].
  - apply flush_all_inv. destruct (is_603 (cfg m)); [by apply tlb_invalidate_set_inv | done].
  - destruct (is_603 (cfg m)); [by apply tlb_load_inv | done].
  - destruct (is_603 (cfg m)); [by apply tlb_load_inv | done].
Qed.

(** ** Privilege *)

(** C36: privileged instructions.  In problem state rfi, dcbi, the moves to and
    from segment registers and MSR, the TLB instructions, and the moves to and from
    every special purpose register whose number has bit 4 set do exactly what
    entering the program exception with the not-allowed cause does: SRR0 is the
    instruction itself, and beside the registers of the exception nothing has
    changed - no segment, condition, floating-point or general register, no other
    special purpose register, no memory, and of the MMU only the mode. *)
Theorem privileged_instructions_trap op opcode m : msr_bit MSR.PR m = true ->
  op ∈ [ppc_rfi; ppc_dcbi; ppc_mtsr; ppc_mtsrin; ppc_mfsr; ppc_mfsrin; ppc_mfmsr; ppc_mtmsr;
        ppc_tlbie; ppc_tlbia; ppc_tlbld; ppc_tlbli; ppc_tlbsync] \/
  (op ∈ [ppc_mfspr; ppc_mtspr] /\ Z.testbit (spr_field opcode) 4 = true) ->
  op opcode m = ppc_exception_handler EXC_PROGRAM Exc_Cause.NOT_ALLOWED m /\
  exists m', op opcode m = (Longjmp, m') /\
    exception_entry EXC_PROGRAM (Z.land (pc (cpu m)) 0xFFFFFFFC) Exc_Cause.NOT_ALLOWED m m'.
Proof.
  intros Hpr Hop.
  destruct (exception_handler_entry EXC_PROGRAM Exc_Cause.NOT_ALLOWED m _ eq_refl) as (m' & E & H).
  assert (forall k, privileged k m = ppc_exception_handler EXC_PROGRAM Exc_Cause.NOT_ALLOWED m) as Hp.
  { intros k. unfold privileged, bind, gets. by rewrite Hpr. }
  enough (op opcode m = ppc_exception_handler EXC_PROGRAM Exc_Cause.NOT_ALLOWED m) as Eop
    by (split; [exact Eop|]; exists m'; split; [|exact H]; by rewrite Eop, E).
  destruct Hop as [Hop|[Hop Hb]].
  - apply list_elem_of_In in Hop. cbn [In] in Hop. decompose [or] Hop; try done; subst op; apply Hp.
  - assert (forall r k, Z.testbit r 4 = true -> spr_access r k m = privileged k m) as Ha.
    { intros r k Hr. unfold spr_access. change 0x10 with (2 ^ 4). by rewrite test_pow2, Hr by lia. }
    rewrite !elem_of_cons, elem_of_nil in Hop. destruct Hop as [->|[->|[]]].
    + unfold ppc_mfspr. cbv zeta beta iota delta [ppc_grab_dab decode_ops_dab]. by rewrite Ha.
    + unfold ppc_mtspr. cbv zeta beta iota delta [ppc_grab_dab decode_ops_dab]. by rewrite Ha.
Qed.

Definition demo_user : machine := upd_cpu (with_msr 0x4000) demo_machine.

Lemma privileged_instructions_trap_witness :
  exists m', ppc_tlbie 0x7C000264 demo_user = (Longjmp, m') /\ m_spr m' SPR.SRR0 = pc (cpu demo_user) /\
    sr (cpu m') = sr (cpu demo_user) /\ cr (cpu m') = cr (cpu demo_user).
Proof.
  destruct (privileged_instructions_trap ppc_tlbie 0x7C000264 demo_user eq_refl) as (_ & m' & E & H).
  - left. apply list_elem_of_In. cbn [In]. tauto.
  - exists m'. split; [exact E|]. rewrite (ee_srr0 _ _ _ _ _ H). split; [vm_compute; reflexivity|].
    rewrite (ee_cpu _ _ _ _ _ H). by split.
Defined.
