(* ===== verification/FpuInv.v ===== *)
(** * The floating-point instructions keep the invariant (cpu/ppc/ppcfpopcodes.cpp)

    Those on registers because of what they may touch ([FpuType]), the loads and
    stores because translation and memory do. *)
From S2P Require Import Prelude Word Float PpcState IntArith Timers MemCtrl HostMem Machine Mmu MmuBat Exceptions Translate PageWalk VMem LoadStore Fpu FpuMem FpuProps FpuType SystemRegs Invariant VmInv LoadStoreInv.

Lemma fp_step_inv m m' : fp_step m m' -> machine_inv m -> machine_inv m'.
Proof.
  intros (f & v & c & fl & -> & Hok) [[H1 H2 H3 H4 H5] Hs]. split; [by split|]. by apply (si_frame m); [split_and!|].
Qed.

Lemma fp_runs_inv {A} (Q : A -> Prop) k : fp_runs Q k -> yields machine_inv k Q.
Proof.
  intros Hk m Hm. destruct (Hk m) as (a & m' & E & Hs & Ha); [apply Hm|]. rewrite E. split; [by apply (fp_step_inv m)|].
  by intros b [= <-].
Qed.

Lemma fp_runs_preserves {A} (k : M machine A) : fp_runs any k -> preserves machine_inv k.
Proof. intros Hk. eapply yields_preserves, fp_runs_inv, Hk. Qed.

Section FpuInv.
Context `{DevicesOk} `{HostFpuOk}.

Definition transfer_ok (t : Z -> Z -> Z -> M machine unit) : Prop :=
  forall opcode ea reg, 0 <= ea < 2 ^ 32 -> preserves machine_inv (t opcode ea reg).

Lemma transfer_load sz (cv : Z -> Z) : access_size sz -> (forall v, word_of sz v -> word64 (cv v)) ->
  transfer_ok (fun opcode ea reg => v <- mmu_read_vmem sz opcode ea ;; mcpu (ppc_store_fpresult_int reg (cv v))).
Proof.
  intros Hs Hc opcode ea reg He. apply (yields_preserves _ _ (fun _ => True)).
  eapply yields_bind; [by apply read_vmem_inv|]. intros v Hv. by apply preserves_yields, fp_runs_preserves, fr_store, Hc.
Qed.

Lemma transfer_store sz (f : ppc_state -> Z -> Z) : access_size sz ->
  transfer_ok (fun opcode ea reg => s <- gets cpu ;; mmu_write_vmem sz opcode ea (f s reg)).
Proof. intros Hs opcode ea reg He. apply preserves_bind; [auto with preserve|intros s]. by apply write_vmem_inv. Qed.

Lemma transfers_ok : transfer_ok load_single /\ transfer_ok load_double /\ transfer_ok store_single /\ transfer_ok store_double /\
  transfer_ok (fun opcode ea reg_s => s <- gets cpu ;; mmu_write_vmem 4 opcode ea (u32 (FPR_INT s reg_s))).
Proof.
  assert (access_size 4 /\ access_size 8) as [H4 H8] by (unfold access_size; auto).
  split_and!.
  - apply (transfer_load 4 of_single); [done|]. intros v Hv. apply of_single_word.
  - by apply (transfer_load 8 (fun v => v)).
  - intros opcode ea reg He. apply preserves_bind; [auto with preserve|intros s]. apply preserves_bind; [|intros v; by apply write_vmem_inv].
    eapply yields_preserves, fp_runs_inv, fr_host. intros. apply single_word64.
  - by apply (transfer_store 8 GET_FPR).
  - by apply (transfer_store 4 (fun s r => u32 (GET_FPR s r))).
Qed.

Lemma forms_inv t opcode : transfer_ok t -> preserves machine_inv (fp_d_form t opcode) /\ preserves machine_inv (fp_d_update t opcode) /\
  preserves machine_inv (fp_x_form t opcode) /\ preserves machine_inv (fp_x_update t opcode).
Proof.
  intros Ht. split_and!; (apply preserves_bind; [auto with preserve|intros s]);
    cbv beta iota zeta delta [ppc_grab_regsfpdia ppc_grab_regsfpdiab decode_ops_da decode_ops_dab].
  2, 4: apply preserves_if; [apply inv_illegal|]; apply preserves_bind; [|intros _; apply inv_gpr, u32_range].
  all: apply Ht, u32_range.
Qed.

(** The floating-point loads and stores. *)
Definition fp_memory_instructions : list (Z -> M machine unit) :=
  [ppc_lfs; ppc_lfsu; ppc_lfsx; ppc_lfsux; ppc_lfd; ppc_lfdu; ppc_lfdx; ppc_lfdux; ppc_stfs; ppc_stfsu; ppc_stfsx; ppc_stfsux;
   ppc_stfd; ppc_stfdu; ppc_stfdx; ppc_stfdux; ppc_stfiwx].

Lemma fp_memory_inv k : In k fp_memory_instructions -> forall opcode, preserves machine_inv (k opcode).
Proof.
  intros Hk opcode. pose proof transfers_ok as (T1 & T2 & T3 & T4 & T5).
  pose proof (forms_inv _ opcode T1) as (?&?&?&?). pose proof (forms_inv _ opcode T2) as (?&?&?&?).
  pose proof (forms_inv _ opcode T3) as (?&?&?&?). pose proof (forms_inv _ opcode T4) as (?&?&?&?).
  pose proof (forms_inv _ opcode T5) as (_&_&?&_). cbn [fp_memory_instructions In] in Hk. decompose [or] Hk; subst; done.
Qed.
End FpuInv.
