(* ===== verification/LoadStoreReal.v ===== *)
(** * Loads and stores on flat memory (cpu/ppc/ppcopcodes.cpp)

    With data translation off: what every single-register load and store does to
    registers and memory; storing and loading multiple words; reservations. *)
From S2P Require Import Prelude Word PpcState IntArith Timers MemCtrl HostMem Machine Mmu MmuBat Exceptions Translate PageWalk VMem VmFrame LoadStore SystemRegs Invariant VmInv RealMode LoadStoreInv.
Import Endian.

(** Effective addresses: displacement and indexed. *)
Definition ea_d (opcode : Z) (s : ppc_state) : Z := u32 (s16 opcode + base_of (field_a opcode) (gpr s).[field_a opcode]).
Definition ea_x (opcode : Z) (s : ppc_state) : Z :=
  u32 ((gpr s).[field_b opcode] + base_of (field_a opcode) (gpr s).[field_a opcode]).

Lemma base_nonzero r a : r <> 0 -> base_of r a = a.
Proof. intros Hr. unfold base_of. by destruct (Z.eqb_spec r 0). Qed.

Lemma swap16_bytes l : length l = 2%nat -> (forall b, b ∈ l -> 0 <= b < 256) -> BYTESWAP_16 (be_val l) = le_val l.
Proof.
  intros Hn Hl. pose proof (be_val_range l Hl) as Hr. rewrite Hn in Hr.
  rewrite byteswap_16_bytes by (by cbn in *). unfold le_val. by rewrite <- Hn, be_bytes_val.
Qed.

Lemma swap32_bytes l : length l = 4%nat -> (forall b, b ∈ l -> 0 <= b < 256) -> BYTESWAP_32 (be_val l) = le_val l.
Proof. intros Hn Hl. rewrite byteswap_32_bytes. unfold le_val. by rewrite <- Hn, be_bytes_val. Qed.

Lemma guest_bytes_length m va n : length (guest_bytes m va n) = n.
Proof. unfold guest_bytes, zrange. by rewrite !length_map, length_seq. Qed.

Lemma guest_bytes_range m va n b : machine_inv m -> b ∈ guest_bytes m va n -> 0 <= b < 256.
Proof. intros [_ [_ _ _ _ [Hh _]]] (i & -> & _)%list_elem_of_fmap. apply Hh. Qed.

Section LoadStoreReal.
Context `{Devices}.

Definition operand_plain (m : machine) (ea sz : Z) : Prop := forall i, 0 <= i < sz -> plain (mem_ctrl m) (u32 (ea + i)).

(** [op] loads [sz] bytes at [ea] into [rD], interpreted by [val]; the update
    forms then put [ea] into [rA]. *)
Definition loads (opcode : Z) (m : machine) (op : Z -> M machine unit) (sz ea : Z) (val : list Z -> Z) (update : bool) : Prop :=
  operand_plain m ea sz ->
  exists u, tlb_frame (mmu m) u /\ real_mode (set_mmu u m) /\
    op opcode m = (Ret tt, upd_cpu (fun s =>
      let s := set_gpr (field_d opcode) (val (guest_bytes m ea (Z.to_nat sz))) s in
      if update then set_gpr (field_a opcode) ea s else s) (set_mmu u m)).

(** [op] stores the bytes at [ea]. *)
Definition stores (opcode : Z) (m : machine) (op : Z -> M machine unit) (ea : Z) (bytes : list Z) (update : bool) : Prop :=
  operand_plain m ea (Z.of_nat (length bytes)) ->
  exists u, tlb_frame (mmu m) u /\ real_mode (set_mmu u m) /\
    op opcode m = (Ret tt, upd_cpu (fun s => if update then set_gpr (field_a opcode) ea s else s)
      (upd_host (store_bytes (mem_ctrl m) ea bytes) (set_mmu u m))).

Lemma real_load sz opcode m (op : Z -> M machine unit) ea (f : Z -> Z) val (update : bool) :
  size_reg sz -> 0 <= ea < 2 ^ 32 -> real_mode m -> machine_inv m ->
  (op opcode m = (v <- mmu_read_vmem sz opcode ea ;;
     (if update then store_reg (field_d opcode) (f v) ;;; store_reg (field_a opcode) ea
      else store_reg (field_d opcode) (f v))) m) ->
  (forall l, length l = Z.to_nat sz -> (forall b, b ∈ l -> 0 <= b < 256) -> f (be_val l) = val l) ->
  loads opcode m op sz ea val update.
Proof.
  intros [Hs H4] He Hm Hi Eop Hf Hp.
  destruct (real_read sz opcode ea m Hs He (conj Hm Hi) Hp) as (m' & E & S); [lia|].
  pose proof (tlb_step_real _ _ S Hm) as Hm'. destruct S as (u & -> & F & _). exists u. split; [done|]. split; [done|].
  rewrite Eop, (bind_ret _ _ _ _ _ E), Hf.
  - by destruct update.
  - apply guest_bytes_length.
  - intros b. by apply guest_bytes_range.
Qed.

Lemma real_store sz opcode m (op : Z -> M machine unit) ea v bytes (update : bool) :
  size_reg sz -> 0 <= ea < 2 ^ 32 -> real_mode m -> machine_inv m ->
  op opcode m = (if update then mmu_write_T sz opcode ea v ;;; mcpu (set_gpr (field_a opcode) ea)
                 else mmu_write_T sz opcode ea v) m ->
  be_bytes (Z.to_nat sz) v = bytes -> stores opcode m op ea bytes update.
Proof.
  intros [Hs H4] He Hm Hi Eop <- Hp. rewrite be_bytes_length in Hp.
  assert (Z.of_nat (Z.to_nat sz) = sz) as Hz by (destruct Hs as [-> | [-> | [-> | ->]]]; done). rewrite Hz in Hp.
  destruct (real_write sz opcode ea (uwrap (8 * sz) v) m Hs He (conj Hm Hi) Hp) as (m' & E & m1 & S & ->); [lia|].
  pose proof (tlb_step_real _ _ S Hm) as Hm'. destruct S as (u & -> & F & _). exists u. split; [done|]. split; [done|].
  assert (be_bytes (Z.to_nat sz) (uwrap (8 * sz) v) = be_bytes (Z.to_nat sz) v) as Eb.
  { unfold uwrap. rewrite <- (be_bytes_mod (Z.to_nat sz) v), Hz. done. }
  rewrite Eb in E. rewrite Eop. destruct update; [by rewrite (bind_ret _ _ _ _ _ E)|]. unfold mmu_write_T. by rewrite E.
Qed.

Lemma ea_ranges opcode s : 0 <= ea_d opcode s < 2 ^ 32 /\ 0 <= ea_x opcode s < 2 ^ 32.
Proof. split; apply u32_range. Qed.

Definition sign_extend16 (l : list Z) : Z := u32 (s16 (be_val l)).

Lemma update_eas opcode s : field_a opcode <> 0 ->
  u32 (s16 opcode + (gpr s).[field_a opcode]) = ea_d opcode s /\
  u32 ((gpr s).[field_a opcode] + (gpr s).[field_b opcode]) = ea_x opcode s /\
  u32 ((gpr s).[field_a opcode] + s16 opcode) = ea_d opcode s.
Proof.
  intros Ha. unfold ea_d, ea_x. rewrite base_nonzero by done. split_and!; f_equal; lia.
Qed.

(** The update forms of the loads. *)
Lemma update_load opcode (k : M machine unit) m : field_a opcode <> 0 -> field_a opcode <> field_d opcode ->
  (if negb (field_a opcode =? field_d opcode) && negb (field_a opcode =? 0) then k else ppc_illegalop opcode) m = k m.
Proof. intros H1 H2. by rewrite (proj2 (Z.eqb_neq _ _) H1), (proj2 (Z.eqb_neq _ _) H2). Qed.

(** C15: the loads, on flat memory.  When the operand is RAM or ROM, every
    single-register load puts the bytes at its effective address - displacement or
    index, RA = 0 meaning zero, modulo 2^32 - into RD: zero-extended, sign-extended
    for the algebraic loads, in reverse order for the byte-reversed ones.  The
    update forms then write the address to RA.  Nothing else changes but the
    TLBs. *)
Theorem real_loads_correct opcode m : real_mode m -> machine_inv m ->
  let d := ea_d opcode (cpu m) in
  let x := ea_x opcode (cpu m) in
  (forall sz, size_reg sz -> loads opcode m (ppc_lz sz) sz d be_val false /\ loads opcode m (ppc_lzx sz) sz x be_val false) /\
  loads opcode m ppc_lha 2 d sign_extend16 false /\ loads opcode m ppc_lhax 2 x sign_extend16 false /\
  loads opcode m ppc_lhbrx 2 x le_val false /\ loads opcode m ppc_lwbrx 4 x le_val false /\
  (field_a opcode <> 0 -> field_a opcode <> field_d opcode ->
     (forall sz, size_reg sz -> loads opcode m (ppc_lzu sz) sz d be_val true /\ loads opcode m (ppc_lzux sz) sz x be_val true) /\
     loads opcode m ppc_lhau 2 d sign_extend16 true /\ loads opcode m ppc_lhaux 2 x sign_extend16 true) /\
  (field_a opcode = 0 \/ field_a opcode = field_d opcode ->
     forall op, op ∈ [ppc_lzu 1; ppc_lzu 2; ppc_lzu 4; ppc_lzux 1; ppc_lzux 2; ppc_lzux 4; ppc_lhau; ppc_lhaux] ->
     op opcode m = ppc_illegalop opcode m).
Proof.
  intros Hm Hi d x. destruct (ea_ranges opcode (cpu m)) as [Hd Hx]. fold d in Hd. fold x in Hx.
  assert (forall f val sz (op : Z -> M machine unit) ea, size_reg sz -> 0 <= ea < 2 ^ 32 ->
    (forall l, length l = Z.to_nat sz -> (forall b, b ∈ l -> 0 <= b < 256) -> f (be_val l) = val l) -> forall upd : bool,
    (op opcode m = (v <- mmu_read_vmem sz opcode ea ;;
     (if upd then store_reg (field_d opcode) (f v) ;;; store_reg (field_a opcode) ea
      else store_reg (field_d opcode) (f v))) m) -> loads opcode m op sz ea val upd) as L
    by (intros; by apply (real_load sz _ _ _ _ f)).
  assert (size_reg 2 /\ size_reg 4) as [S2 S4] by (unfold size_reg, access_size; split; split; auto; lia).
  pose proof (fun (l : list Z) (_ : length l = Z.to_nat 2) (_ : forall b, b ∈ l -> 0 <= b < 256) =>
    eq_refl : (fun v => u32 (s16 v)) (be_val l) = sign_extend16 l) as Hsx.
  refine (conj _ (conj _ (conj _ (conj _ (conj _ (conj _ _)))))).
  - intros sz Hs. split; apply (L (fun v => v)); done.
  - by apply (L (fun v => u32 (s16 v))).
  - by apply (L (fun v => u32 (s16 v))).
  - apply (L (fun v => u32 (BYTESWAP_16 v))); try done. intros l Hn Hl. rewrite swap16_bytes by done.
    apply uwrap_small. unfold le_val. pose proof (be_val_range (rev l)) as Hr. rewrite length_rev, Hn in Hr.
    cbn in Hr. assert (0 <= be_val (rev l) < 65536); [|lia]. apply Hr. intros b.
    rewrite list_elem_of_In, <- in_rev, <- list_elem_of_In. apply Hl.
  - apply (L BYTESWAP_32); try done. apply swap32_bytes.
  - intros Ha Hne. destruct (update_eas opcode (cpu m) Ha) as (E1 & E2 & _). fold d in E1. fold x in E2.
    assert (forall k : M machine unit, (if negb (field_a opcode =? field_d opcode) && negb (field_a opcode =? 0)
      then k else ppc_illegalop opcode) m = k m) as Hu by (intros; by apply update_load).
    split; [intros sz Hs; split; apply (L (fun v => v)); try done|
      split; apply (L (fun v => u32 (s16 v))); try done];
      (etransitivity; [apply (Hu _)|]); rewrite ?E1, ?E2; reflexivity.
  - intros Hbad op Hop.
    assert (negb (field_a opcode =? field_d opcode) && negb (field_a opcode =? 0) = false) as Hb.
    { destruct (Z.eqb_spec (field_a opcode) 0), (Z.eqb_spec (field_a opcode) (field_d opcode)); try done. tauto. }
    rewrite !elem_of_cons, elem_of_nil in Hop.
    assert (forall k : M machine unit, (if negb (field_a opcode =? field_d opcode) && negb (field_a opcode =? 0)
      then k else ppc_illegalop opcode) m = ppc_illegalop opcode m) as Hu by (intros; by rewrite Hb).
    decompose [or] Hop; subst; try done; apply (Hu _).
Qed.

(** C16: the stores, on flat memory.  When the operand is RAM or ROM, every
    single-register store puts the low bytes of RS at its effective address - most
    significant first, or last for the byte-reversed ones - and changes nothing
    else but the TLBs; the update forms then write the address to RA.  An update
    form with RA = 0 is illegal, except on the 601, where it does not update. *)
Theorem real_stores_correct opcode m : real_mode m -> machine_inv m ->
  let d := ea_d opcode (cpu m) in
  let x := ea_x opcode (cpu m) in
  let bytes sz := be_bytes (Z.to_nat sz) (gpr (cpu m)).[field_d opcode] in
  (forall sz, size_reg sz -> stores opcode m (ppc_st sz) d (bytes sz) false /\ stores opcode m (ppc_stx sz) x (bytes sz) false) /\
  stores opcode m ppc_sthbrx x (rev (bytes 2)) false /\ stores opcode m ppc_stwbrx x (rev (bytes 4)) false /\
  (field_a opcode <> 0 -> forall sz, size_reg sz ->
     stores opcode m (ppc_stu sz) d (bytes sz) true /\ stores opcode m (ppc_stux sz) x (bytes sz) true) /\
  (field_a opcode = 0 -> forall sz, size_reg sz ->
     if is_601 (cfg m) then
       stores opcode m (ppc_stu sz) d (bytes sz) false /\ stores opcode m (ppc_stux sz) x (bytes sz) false
     else ppc_stu sz opcode m = ppc_illegalop opcode m /\ ppc_stux sz opcode m = ppc_illegalop opcode m).
Proof.
  intros Hm Hi d x bytes. destruct (ea_ranges opcode (cpu m)) as [Hd Hx]. fold d in Hd. fold x in Hx.
  pose proof (mok_get_gpr m (field_d opcode) (proj1 Hi)) as Hv.
  set (v := (gpr (cpu m)).[field_d opcode]) in *.
  assert (forall w l sz (op : Z -> M machine unit) ea, size_reg sz -> 0 <= ea < 2 ^ 32 -> be_bytes (Z.to_nat sz) w = l ->
    forall upd : bool, op opcode m = (if upd then mmu_write_T sz opcode ea w ;;; mcpu (set_gpr (field_a opcode) ea)
                 else mmu_write_T sz opcode ea w) m -> stores opcode m op ea l upd) as L
    by (intros w l sz op ea ? ? ? upd ?; by apply (real_store sz _ _ _ _ w)).
  assert (size_reg 2 /\ size_reg 4) as [S2 S4] by (unfold size_reg, access_size; split; split; auto; lia).
  refine (conj _ (conj _ (conj _ (conj _ _)))).
  - intros sz Hs. split; by apply (L v _ sz).
  - apply (L (BYTESWAP_16 (u16 v)) _ 2); try done. rewrite byteswap_16_bytes by (apply uwrap_range; lia).
    unfold bytes. change (Z.to_nat 2) with 2%nat. rewrite <- (be_bytes_mod 2 v).
    change (v mod 2 ^ (8 * Z.of_nat 2)) with (u16 v).
    rewrite <- (be_bytes_length 2 (u16 v)) at 1. rewrite <- length_rev. apply be_bytes_val.
    intros b. rewrite list_elem_of_In, <- in_rev, <- list_elem_of_In. apply be_bytes_range.
  - apply (L (BYTESWAP_32 v) _ 4); try done. rewrite byteswap_32_bytes.
    unfold bytes. change (Z.to_nat 4) with 4%nat. rewrite <- (be_bytes_length 4 v) at 1. rewrite <- length_rev. apply be_bytes_val.
    intros b. rewrite list_elem_of_In, <- in_rev, <- list_elem_of_In. apply be_bytes_range.
  - intros Ha sz Hs. destruct (update_eas opcode (cpu m) Ha) as (_ & E2 & E1). fold d in E1. fold x in E2.
    assert (forall k1 k2 : M machine unit, (if negb (field_a opcode =? 0) then k1 else k2) m = k1 m) as Hu
      by (intros; by rewrite (proj2 (Z.eqb_neq _ _) Ha)).
    split; apply (L v _ sz); try done; (etransitivity; [apply (Hu _)|]); rewrite ?E1, ?E2; reflexivity.
  - intros Ha sz Hs.
    assert (forall k1 k2 : M machine unit, (if negb (field_a opcode =? 0) then k1 else k2) m = k2 m) as Hu
      by (intros; by rewrite Ha).
    assert (u32 (s16 opcode) = d /\ (gpr (cpu m)).[field_b opcode] = x) as [Ed Ex].
    { unfold d, x, ea_d, ea_x. rewrite Ha. unfold base_of. cbn [Z.eqb]. rewrite !Z.add_0_r. split; [done|].
      symmetry. apply uwrap_small. by apply mok_get_gpr, Hi. }
    destruct (is_601 (cfg m)) eqn:E6.
    + split; apply (L v _ sz); try done; (etransitivity; [apply (Hu _)|]); rewrite bind_gets, E6, ?Ed; try reflexivity.
      by rewrite Ex.
    + split; (etransitivity; [apply (Hu _)|]); by rewrite bind_gets, E6.
Qed.

(** ** Saving and restoring registers *)

Lemma u32_next va k : u32 (u32 va + k) = u32 (va + k).
Proof. unfold u32, uwrap. by rewrite Zplus_mod_idemp_l. Qed.

Lemma store_bytes_app c va l1 l2 h : store_bytes c (u32 va) (l1 ++ l2) h =
  store_bytes c (u32 (va + Z.of_nat (length l1))) l2 (store_bytes c (u32 va) l1 h).
Proof.
  revert va h. induction l1 as [|b l1 IH]; intros va h; [cbn [app length]; by rewrite Z.add_0_r|].
  cbn [app store_bytes length]. rewrite u32_next, IH. do 2 f_equal. lia.
Qed.

Lemma stored_app va l1 l2 m m1 m2 :
  stored (u32 va) l1 m m1 -> stored (u32 (va + Z.of_nat (length l1))) l2 m1 m2 -> stored (u32 va) (l1 ++ l2) m m2.
Proof.
  intros (n1 & S1 & ->) (n2 & (u & -> & F & R & W) & ->). cbn [mmu upd_host set_mem_ctrl] in F.
  exists (set_mmu u n1). split; [eapply tlb_step_trans; [exact S1|]; exists u; by split_and!|].
  rewrite <- (tlb_step_mem _ _ S1). unfold upd_host.
  cbn [mem_ctrl set_mem_ctrl set_mmu]. by rewrite store_bytes_host, store_bytes_app.
Qed.

Lemma store_bytes_nth c va l h i : (forall i j, 0 <= i < Z.of_nat (length l) -> 0 <= j < Z.of_nat (length l) ->
    guest_waddr c (u32 (va + i)) = guest_waddr c (u32 (va + j)) -> i = j) -> (i < length l)%nat ->
  (store_bytes c (u32 va) l h).[guest_waddr c (u32 (va + Z.of_nat i))] = nth i l 0.
Proof.
  intros Hd Hi. rewrite <- (store_bytes_read c va l h Hd) at 2. by rewrite nth_map_seq.
Qed.

Lemma nth_concat (ls : list (list Z)) w k t : (forall l, l ∈ ls -> length l = w) -> (k < length ls)%nat -> (t < w)%nat ->
  nth (w * k + t) (concat ls) 0 = nth t (nth k ls []) 0.
Proof.
  revert k. induction ls as [|l ls IH]; intros k Hl Hk Ht; [cbn in Hk; lia|]. cbn [concat].
  assert (length l = w) as El by (apply Hl; set_solver). destruct k as [|k].
  - rewrite Nat.mul_0_r. cbn [Nat.add nth]. by rewrite app_nth1 by lia.
  - rewrite app_nth2 by lia. replace (w * S k + t - length l)%nat with (w * k + t)%nat by lia.
    cbn [nth]. apply IH; [set_solver | cbn in Hk; lia | done].
Qed.

Ltac cmp_cases :=
  repeat match goal with
  | |- context [Z.leb ?a ?b] => destruct (Z.leb_spec a b)
  | |- context [Z.ltb ?a ?b] => destruct (Z.ltb_spec a b)
  end; cbn [andb].

(** The words of [n] registers from [r] on. *)
Definition reg_words (s : ppc_state) (r : Z) (n : nat) : list (list Z) :=
  map (fun j => be_bytes 4 (gpr s).[r + j]) (zrange n).

Lemma reg_words_S s r n : reg_words s r (S n) = be_bytes 4 (gpr s).[r] :: reg_words s (r + 1) n.
Proof.
  unfold reg_words, zrange. cbn [seq map]. rewrite <- seq_shift, !map_map. cbn [Z.of_nat]. rewrite Z.add_0_r. f_equal.
  apply map_ext. intros i. do 2 f_equal. lia.
Qed.

Lemma reg_words_length s r n : length (concat (reg_words s r n)) = (4 * n)%nat.
Proof.
  revert r. induction n as [|n IH]; intros r; [done|]. rewrite reg_words_S. cbn [concat].
  rewrite length_app, IH, be_bytes_length. lia.
Qed.

Lemma stored_cpu va l m m' : stored va l m m' -> cpu m' = cpu m.
Proof. by intros (m1 & (u & -> & _) & ->). Qed.

Lemma stored_operand va l m m' ea sz : stored va l m m' -> operand_plain m ea sz -> operand_plain m' ea sz.
Proof. intros S Hp i Hi. by apply (stored_plain _ _ _ _ S), Hp. Qed.

Lemma write_word ea v opcode m : 0 <= v < 2 ^ 32 -> real_ok m -> operand_plain m (u32 ea) 4 ->
  exists m', mmu_write_T 4 opcode (u32 ea) v m = (Ret tt, m') /\ stored (u32 ea) (be_bytes 4 v) m m' /\ real_ok m'.
Proof.
  intros Hv Hm Hp. unfold mmu_write_T. rewrite (uwrap_small (8 * 4) v) by done.
  destruct (real_write 4 opcode (u32 ea) v m) as (m' & E & S); [unfold access_size; auto | apply u32_range | done | done | lia|].
  exists m'. split; [done|]. split; [done|]. eapply stored_ok; [|exact S | done]. intros b. apply be_bytes_range.
Qed.

Lemma stmw_stores n opcode r ea m : real_ok m -> operand_plain m (u32 ea) (4 * Z.of_nat n) ->
  exists m', stmw_loop n opcode r (u32 ea) m = (Ret tt, m') /\
    (n = 0%nat /\ m' = m \/ stored (u32 ea) (concat (reg_words (cpu m) r n)) m m') /\ real_ok m'.
Proof.
  revert r ea m. induction n as [|n IH]; intros r ea m Hm Hp; [exists m; split; [done|]; split; [by left | done]|].
  cbn [stmw_loop]. rewrite bind_gets.
  destruct (write_word ea (gpr (cpu m)).[r] opcode m) as (m1 & E1 & S1 & Hm1); [apply mok_get_gpr, Hm | done | |].
  { intros i Hi. apply Hp. lia. }
  rewrite (bind_ret _ _ _ _ _ E1).
  rewrite u32_next.
  destruct (IH (r + 1) (ea + 4) m1 Hm1) as (m2 & E2 & S2 & Hm2).
  { apply (stored_operand _ _ _ _ _ _ S1). intros i Hi.
    rewrite u32_next, <- Z.add_assoc, <- u32_next. apply Hp. lia. }
  exists m2. split; [done|]. split; [|done]. right. rewrite reg_words_S. cbn [concat].
  destruct S2 as [[-> ->]|S2]; [by rewrite app_nil_r|].
  rewrite (stored_cpu _ _ _ _ S1) in S2. apply (stored_app _ _ _ _ m1); [done|]. by rewrite be_bytes_length.
Qed.

Lemma real_ok_gpr r v m : 0 <= v < 2 ^ 32 -> real_ok m -> real_ok (upd_cpu (set_gpr r v) m).
Proof. intros Hv [[H1 H2 H3 H4 H5] Hi]. split; [by split|]. by apply (inv_gpr r v Hv m). Qed.

Lemma lmw_loads n opcode r ea m : real_ok m -> operand_plain m (u32 ea) (4 * Z.of_nat n) ->
  exists m', lmw_loop n opcode r (u32 ea) m = (Ret tt, m') /\ real_ok m' /\ mem_ctrl m' = mem_ctrl m /\
    forall j, (gpr (cpu m')).[j] =
      if (r <=? j) && (j <? r + Z.of_nat n) then be_val (guest_bytes m (u32 (ea + 4 * (j - r))) 4) else (gpr (cpu m)).[j].
Proof.
  revert r ea m. induction n as [|n IH]; intros r ea m Hm Hp.
  { exists m. split_and!; try done. intros j. cmp_cases; lia || done. }
  cbn [lmw_loop].
  destruct (real_read 4 opcode (u32 ea) m) as (m1 & E1 & S1); [unfold access_size; auto | apply u32_range | done | | done |].
  { intros i Hi. apply Hp. lia. }
  rewrite (bind_ret _ _ _ _ _ E1). change (Z.to_nat 4) with 4%nat. set (v := be_val _).
  assert (0 <= v < 2 ^ 32) as Hv.
  { pose proof (be_val_range (guest_bytes m (u32 ea) 4)) as Hr. rewrite guest_bytes_length in Hr. apply Hr.
    intros b. by apply guest_bytes_range, Hm. }
  unfold mcpu at 1. rewrite bind_modify. pose proof (tlb_step_mem _ _ S1) as Em.
  pose proof (real_ok_gpr r v m1 Hv (tlb_step_ok _ _ S1 Hm)) as Hm2. set (m2 := upd_cpu (set_gpr r v) m1) in *.
  rewrite u32_next.
  destruct (IH (r + 1) (ea + 4) m2 Hm2) as (m3 & E3 & Hm3 & Em3 & G3).
  { intros i Hi. change (mem_ctrl m2) with (mem_ctrl m1). rewrite Em.
    rewrite u32_next, <- Z.add_assoc, <- u32_next. apply Hp. lia. }
  exists m3. split; [done|]. split; [done|]. split; [rewrite Em3; exact Em|]. intros j. rewrite G3.
  rewrite (guest_bytes_mem m m2) by exact Em.
  replace (ea + 4 + 4 * (j - (r + 1))) with (ea + 4 * (j - r)) by lia.
  assert (cpu m2 = set_gpr r v (cpu m)) as -> by (destruct S1 as (u & -> & _); reflexivity).
  cbn [gpr set_gpr with_gpr]. rewrite rget_rset. unfold v.
  destruct (decide (r = j)) as [->|Hne].
  - rewrite Z.sub_diag, Z.mul_0_r, Z.add_0_r.
    cmp_cases; try lia; done.
  - cmp_cases; try lia; done.
Qed.

Lemma stored_word ea n s r m m' k : real_ok m -> ram_operand (mem_ctrl m) ea (4 * Z.of_nat n) ->
  0 <= ea < 2 ^ 32 -> stored (u32 ea) (concat (reg_words s r n)) m m' -> (k < n)%nat ->
  guest_bytes m' (u32 (ea + 4 * Z.of_nat k)) 4 = be_bytes 4 (gpr s).[r + Z.of_nat k].
Proof.
  intros Hm Ho He (m1 & S & ->) Hk. pose proof (tlb_step_mem _ _ S) as Em.
  set (l := concat (reg_words s r n)). assert (length l = (4 * n)%nat) as Hl by apply reg_words_length.
  assert (forall i, (i < 4 * n)%nat ->
    guest_waddr (mem_ctrl m) (u32 (ea + Z.of_nat i)) = guest_addr (mem_ctrl m) (u32 (ea + Z.of_nat i))) as Hw
    by (intros i Hi; apply (ram_waddr _ _ _ _ Ho); lia).
  apply (nth_ext _ _ 0 0); [by rewrite guest_bytes_length, be_bytes_length|]. rewrite guest_bytes_length. intros t Ht.
  unfold guest_bytes. rewrite nth_map_seq by done. rewrite u32_next.
  assert (nth t (be_bytes 4 (gpr s).[r + Z.of_nat k]) 0 = nth (4 * k + t) l 0) as ->.
  { unfold l. rewrite nth_concat; [|..|done].
    - unfold reg_words. rewrite (nth_indep _ [] (be_bytes 4 (gpr s).[r + 0])) by (unfold zrange; rewrite !length_map, length_seq; lia).
      unfold zrange. rewrite map_map, (map_nth (fun x => be_bytes 4 (gpr s).[r + Z.of_nat x]) _ 0%nat), seq_nth by done. done.
    - intros l' (i & -> & _)%list_elem_of_fmap. apply be_bytes_length.
    - unfold reg_words, zrange. by rewrite !length_map, length_seq. }
  replace (ea + 4 * Z.of_nat k + Z.of_nat t) with (ea + Z.of_nat (4 * k + t)) by lia.
  unfold host_mem_of, upd_host. cbn [mem_ctrl set_mem_ctrl host_mem with_host]. rewrite Em.
  change (guest_addr (with_host ?h (mem_ctrl m)) ?a) with (guest_addr (mem_ctrl m) a).
  rewrite <- Hw by lia. rewrite store_bytes_nth; [done | | lia].
  rewrite Hl. intros i j Hi Hj. replace i with (Z.of_nat (Z.to_nat i)) by lia. replace j with (Z.of_nat (Z.to_nat j)) by lia.
  rewrite !Hw by lia. apply Ho; lia.
Qed.

Lemma field_range_d opcode : 0 <= field_d opcode < 32.
Proof. unfold field_d. change 0x1F with (Z.ones 5). rewrite Z.land_ones by lia. apply Z.mod_pos_bound. lia. Qed.

(** C17: saving and restoring registers.  On flat memory, [stmw] of RS..R31 to an
    aligned address in RAM changes no register; [lmw] of the same registers from
    the same address, at any later point where memory still is what [stmw] left,
    whatever has become of the registers, gives RS..R31 their saved values back
    and leaves the others alone. *)
Theorem stmw_lmw_roundtrip opcode m : real_mode m -> machine_inv m ->
  let r := field_d opcode in
  let ea := ea_d opcode (cpu m) in
  ea mod 4 = 0 -> ram_operand (mem_ctrl m) ea (4 * (32 - r)) ->
  exists m1, ppc_stmw opcode m = (Ret tt, m1) /\ cpu m1 = cpu m /\ real_mode m1 /\ machine_inv m1 /\
  forall opcode' m2, real_mode m2 -> machine_inv m2 -> mem_ctrl m2 = mem_ctrl m1 ->
    field_d opcode' = r -> ea_d opcode' (cpu m2) = ea ->
  exists m3, ppc_lmw opcode' m2 = (Ret tt, m3) /\
    forall j, (gpr (cpu m3)).[j] = if (r <=? j) && (j <? 32) then (gpr (cpu m)).[j] else (gpr (cpu m2)).[j].
Proof.
  intros Hm Hi r ea Hal Ho. pose proof (field_range_d opcode) as Hr. fold r in Hr.
  destruct (ea_ranges opcode (cpu m)) as [He _]. fold ea in He.
  assert (Z.of_nat (Z.to_nat (32 - r)) = 32 - r) as Hn by lia.
  assert (operand_plain m (u32 ea) (4 * Z.of_nat (Z.to_nat (32 - r)))) as Hp.
  { rewrite Hn. intros i Hin. rewrite u32_next. by apply (ram_plain _ _ _ Ho). }
  destruct (stmw_stores (Z.to_nat (32 - r)) opcode r ea m (conj Hm Hi) Hp) as (m1 & E1 & [[E0 _]|S1] & Hm1); [lia|].
  exists m1. split.
  { unfold ppc_stmw. rewrite bind_gets. cbv beta iota delta [ppc_grab_regssa_stmw decode_ops_sa].
    change (u32 (s16 opcode + base_of (field_a opcode) (gpr (cpu m)).[field_a opcode])) with ea.
    change 3 with (2 ^ 2 - 1). rewrite test_low by lia. change (2 ^ 2) with 4. rewrite Hal.
    rewrite (u32_id ea He) in E1. exact E1. }
  split; [exact (stored_cpu _ _ _ _ S1)|]. split; [apply Hm1|]. split; [apply Hm1|]. intros opcode' m2 Hm2 Hi2 Em Ed Ee.
  destruct (lmw_loads (Z.to_nat (32 - r)) opcode' r ea m2 (conj Hm2 Hi2)) as (m3 & E3 & _ & _ & G).
  { intros i Hin. rewrite Em. by apply (stored_operand _ _ _ _ _ _ S1 Hp). }
  exists m3. split.
  { unfold ppc_lmw. rewrite bind_gets. cbv beta iota delta [ppc_grab_regsdasimm decode_ops_dasimm].
    change (u32 (s16 opcode' + base_of (field_a opcode') (gpr (cpu m2)).[field_a opcode'])) with (ea_d opcode' (cpu m2)).
    rewrite Ee, Ed. rewrite (u32_id ea He) in E3. exact E3. }
  intros j. rewrite G, Hn. replace (r + (32 - r)) with 32 by lia. destruct ((r <=? j) && (j <? 32)) eqn:Ej; [|done].
  bool_to_prop. rewrite (guest_bytes_mem m1 m2 _ _ Em).
  assert (4 * (j - r) = 4 * Z.of_nat (Z.to_nat (j - r))) as -> by lia.
  rewrite (stored_word ea (Z.to_nat (32 - r)) (cpu m) r m m1); [|by split | by rewrite Hn | done | done | lia].
  rewrite be_val_bytes. replace (r + Z.of_nat (Z.to_nat (j - r))) with j by lia.
  apply Z.mod_small. apply mok_get_gpr, Hi.
Qed.

(** ** Reservations *)

(** CR when [stwcx.] has taken its condition: the summary overflow, and not equal. *)
Definition cr_stwcx (s : ppc_state) : Z := Z.lor (Z.land (cr s) 0x0FFFFFFF) (Z.shiftr (Z.land (spr s).[SPR.XER] XERB.SO) 3).

Lemma cr_stwcx_ok s : ppc_ok s -> 0 <= cr_stwcx s < 2 ^ 32.
Proof. intros Hs. apply lor_range; [lia | apply land_range_l; [lia | by apply ok_cr] | by apply so_range]. Qed.

Lemma real_ok_cpu f m : (forall s, ppc_ok s -> ppc_ok (f s)) -> (forall s, msr (f s) = msr s /\ spr (f s) = spr s) -> real_ok m -> real_ok (upd_cpu f m).
Proof.
  intros Hf Hm [[H1 H2 H3 H4 H5] Hi]. split.
  - split; unfold msr_bit in *; cbn [cpu upd_cpu set_cpu mmu mem_ctrl]; rewrite ?(proj1 (Hm _)); done.
  - apply (inv_mcpu f Hf (fun s r _ => f_equal (fun g => g.[r]) (proj2 (Hm s))) m Hi).
Qed.

(** The instruction, by whether there is a reservation. *)
Lemma stwcx_steps opcode m : machine_ok m ->
  ppc_stwcx opcode m =
    (if reserve (cpu m)
     then mmu_write_vmem 4 opcode (ea_x opcode (cpu m)) (gpr (cpu m)).[field_d opcode] ;;;
          mcpu (fun s => with_cr (Z.lor (cr s) 0x20000000) (with_reserve false s))
     else ret tt) (upd_cpu (fun s => with_cr (cr_stwcx s) s) m).
Proof.
  intros Hok. assert ((if field_a opcode =? 0 then (gpr (cpu m)).[field_b opcode]
             else u32 ((gpr (cpu m)).[field_a opcode] + (gpr (cpu m)).[field_b opcode])) = ea_x opcode (cpu m)) as Ea.
  { unfold ea_x, base_of. pose proof (mok_get_gpr m (field_b opcode) Hok).
    destruct (field_a opcode =? 0); [rewrite Z.add_0_r; symmetry; by apply uwrap_small | f_equal; lia]. }
  unfold ppc_stwcx. rewrite bind_gets. cbv beta iota delta [ppc_grab_regssab decode_ops_sab].
  unfold mcpu. rewrite !bind_modify, bind_gets. cbn [reserve cpu upd_cpu set_cpu with_cr]. rewrite Ea.
  destruct (reserve (cpu m)); [|done]. unfold mmu_write_T. rewrite (uwrap_small (8 * 4)) by (by apply mok_get_gpr).
  unfold bind at 1 3. by destruct (mmu_write_vmem 4 opcode _ _ _) as [[] m1].
Qed.

End LoadStoreReal.

(** ** Witnesses *)

(** R3..R31 are saved below the stack pointer in R1 and restored. *)
Definition frame_machine : machine := upd_cpu (set_gpr 1 0x8000) ram_machine.

Lemma frame_machine_ok : real_mode frame_machine /\ machine_inv frame_machine /\ mem_ctrl frame_machine = mem_ctrl ram_demo.
Proof.
  destruct ram_machine_ok as (Hm & Hi & Em). unfold frame_machine. revert Hm Hi Em. generalize ram_machine.
  intros m Hm Hi Em. destruct (real_ok_gpr 1 0x8000 m ltac:(lia) (conj Hm Hi)) as [H1 H2]. by split_and!.
Qed.

(** stmw r3,-128(r1); lmw r3,-128(r1) *)
Lemma stmw_lmw_roundtrip_witness : exists m1 m3,
  @ppc_stmw silent_devices 0xBC61FF80 frame_machine = (Ret tt, m1) /\
  @ppc_lmw silent_devices 0xB861FF80 m1 = (Ret tt, m3) /\ (gpr (cpu m3)).[5] = (gpr (cpu frame_machine)).[5].
Proof.
  destruct frame_machine_ok as (Hm & Hi & Em).
  assert (ea_d 0xBC61FF80 (cpu frame_machine) = 0x7F80 /\ ea_d 0xB861FF80 (cpu frame_machine) = 0x7F80) as [E E']
    by (vm_compute; by split).
  destruct (@stmw_lmw_roundtrip silent_devices 0xBC61FF80 frame_machine Hm Hi) as (m1 & S & Ec & Hm1 & Hi1 & L).
  - by rewrite E.
  - rewrite E, Em. change (field_d 0xBC61FF80) with 3. apply ram_demo_operand; lia.
  - destruct (L 0xB861FF80 m1 Hm1 Hi1 eq_refl eq_refl) as (m3 & E3 & G); [by rewrite Ec, E', E|].
    exists m1, m3. split; [exact S|]. split; [exact E3|]. rewrite G. reflexivity.
Defined.

(** lwz r5,0(r1) *)
Lemma real_loads_correct_witness : exists u,
  @ppc_lz silent_devices 4 0x80A10000 frame_machine =
    (Ret tt, upd_cpu (set_gpr 5 (be_val (guest_bytes frame_machine 0x8000 4))) (set_mmu u frame_machine)).
Proof.
  destruct frame_machine_ok as (Hm & Hi & Em).
  assert (ea_d 0x80A10000 (cpu frame_machine) = 0x8000) as E by (vm_compute; reflexivity).
  destruct (@real_loads_correct silent_devices 0x80A10000 frame_machine Hm Hi) as (L & _).
  destruct (L 4) as [L4 _]; [by split; [unfold access_size; auto|]|]. rewrite E in L4.
  destruct L4 as (u & _ & _ & H).
  - unfold operand_plain. rewrite Em. apply (ram_plain _ _ 4), ram_demo_operand; lia.
  - exists u. exact H.
Defined.

(** stbu r5,-1(r1) *)
Lemma real_stores_correct_witness : exists u,
  @ppc_stu silent_devices 1 0x9CA1FFFF frame_machine =
    (Ret tt, upd_cpu (set_gpr 1 0x7FFF) (upd_host (store_bytes (mem_ctrl frame_machine) 0x7FFF [1])
      (set_mmu u frame_machine))).
Proof.
  destruct frame_machine_ok as (Hm & Hi & Em).
  assert (ea_d 0x9CA1FFFF (cpu frame_machine) = 0x7FFF /\ (gpr (cpu frame_machine)).[5] = 1) as [E E5] by (vm_compute; by split).
  destruct (@real_stores_correct silent_devices 0x9CA1FFFF frame_machine Hm Hi) as (_ & _ & _ & S & _).
  destruct (S ltac:(vm_compute; discriminate) 1) as [S1 _]; [by split; [left|]|]. rewrite E in S1.
  change (field_d 0x9CA1FFFF) with 5 in S1. rewrite E5 in S1. destruct S1 as (u & _ & _ & H).
  - unfold operand_plain. rewrite Em. apply (ram_plain _ _ 1), ram_demo_operand; cbn; lia.
  - exists u. exact H.
Defined.

(** stwcx. r5,0,r1 with a reservation, data translation on and an empty page table:
    the storage interrupt finds CR0 already cleared and the reservation kept. *)
Definition unmapped_machine : machine :=
  upd_cpu (fun s => with_cr 0x20000000 (with_reserve true (with_msr 0x10 (set_gpr 1 0x8000 s)))) ram_machine.

Lemma unmapped_machine_ok : machine_ok unmapped_machine.
Proof.
  destruct ram_machine_ok as (_ & [Hok _] & _). unfold unmapped_machine. revert Hok. generalize ram_machine. intros m [H1 H2 H3 H4 H5].
  split; cbn [cpu upd_cpu set_cpu ex mem_ctrl fenv]; try assumption.
  apply with_cr_ok; [|lia]. apply with_reserve_ok, with_msr_ok; [|lia]. apply set_gpr_ok; [assumption | lia].
Qed.

Lemma silent_keeps : @DevicesKeep silent_devices.
Proof. split; intros; apply preserves_ret. Qed.

