(* ===== verification/FpuReal.v ===== *)
(** * Floating-point loads and stores on flat memory (cpu/ppc/ppcfpopcodes.cpp)

    With data translation off, what is stored can be loaded back: any double, and
    any number a single holds, through the two conversions. *)
From S2P Require Import Prelude Word Float PpcState IntArith Timers MemCtrl HostMem Machine Mmu MmuBat Exceptions Translate PageWalk VMem LoadStore Fpu FpuMem FpuProps FpuType SystemRegs Invariant VmInv RealMode LoadStoreInv FpuInv LoadStoreReal.

Section FpuReal.
Context `{Devices} `{HostFpu}.

Lemma fp_disp_ea opcode s : fp_disp opcode (base_of (field_a opcode) (gpr s).[field_a opcode]) = ea_d opcode s.
Proof. unfold fp_disp, ea_d, u32, uwrap. by rewrite Zplus_mod_idemp_l. Qed.

(** A step of the FPU on a machine on flat memory. *)
Lemma fp_step_real m m' : fp_step m m' -> real_ok m -> real_ok m'.
Proof.
  intros Hs [Hm Hi]. split; [|by apply (fp_step_inv m)]. destruct Hs as (f & v & c & fl & -> & _). destruct Hm. by split.
Qed.

Lemma fp_step_mem m m' : fp_step m m' -> mem_ctrl m' = mem_ctrl m.
Proof. by intros (f & v & c & fl & -> & _). Qed.

(** The operand holds the bytes of [v]. *)
Definition holds (m : machine) (ea sz v : Z) : Prop := guest_bytes m ea (Z.to_nat sz) = be_bytes (Z.to_nat sz) v.

Lemma write_then_holds sz opcode ea v m : access_size sz -> 0 <= ea < 2 ^ 32 -> real_ok m -> ram_operand (mem_ctrl m) ea sz ->
  (sz = 8 -> ea mod 4 = 0) ->
  exists m', mmu_write_vmem sz opcode ea v m = (Ret tt, m') /\ cpu m' = cpu m /\ real_ok m' /\ holds m' ea sz v /\
    (forall i, 0 <= i < sz -> plain (mem_ctrl m') (u32 (ea + i))).
Proof.
  intros Hs He Hm Ho H8. destruct (real_write sz opcode ea v m Hs He Hm (ram_plain _ _ _ Ho) H8) as (m1 & E & S).
  assert (0 < sz) as Hpos by (destruct Hs as [-> | [-> | [-> | ->]]]; lia).
  exists m1. split; [done|]. split; [by apply (stored_cpu _ _ _ _ S)|]. split; [eapply stored_ok; [|exact S | done]; intros b; apply be_bytes_range|].
  split.
  - destruct S as (m' & (u & -> & F & R & W) & ->). unfold holds. pose proof (store_then_bytes m u ea sz v He ltac:(lia) Ho) as Hb. exact Hb.
  - intros i Hi. apply (stored_plain _ _ _ _ S). by apply (ram_plain _ _ _ Ho).
Qed.

Lemma read_held sz opcode ea v m : access_size sz -> 0 <= ea < 2 ^ 32 -> real_ok m ->
  (forall i, 0 <= i < sz -> plain (mem_ctrl m) (u32 (ea + i))) -> (sz = 8 -> ea mod 4 = 0) -> 0 <= v < 2 ^ (8 * sz) -> holds m ea sz v ->
  exists m', mmu_read_vmem sz opcode ea m = (Ret v, m') /\ tlb_step m m'.
Proof.
  intros Hs He Hm Hp H8 Hv Hh. destruct (real_read sz opcode ea m Hs He Hm Hp H8) as (m' & E & S). exists m'. split; [|done].
  rewrite E, Hh, be_val_bytes. do 2 f_equal. apply Z.mod_small. by destruct Hs as [-> | [-> | [-> | ->]]].
Qed.

Lemma holds_mem m m' ea sz v : mem_ctrl m' = mem_ctrl m -> holds m ea sz v -> holds m' ea sz v.
Proof. intros Em Hh. unfold holds. by rewrite (guest_bytes_mem m m') by exact Em. Qed.

(** [store] at [ea] leaves memory such that [load] of the same address gives [v]. *)
Definition load_back (store load : Z -> M machine unit) (opcode : Z) (m : machine) (v : Z) : Prop :=
  let ea := ea_d opcode (cpu m) in
  exists m1, store opcode m = (Ret tt, m1) /\ cpu m1 = cpu m /\ real_mode m1 /\ machine_inv m1 /\
  forall opcode' m2, real_mode m2 -> machine_inv m2 -> mem_ctrl m2 = mem_ctrl m1 -> ea_d opcode' (cpu m2) = ea ->
  exists m3, load opcode' m2 = (Ret tt, m3) /\ cpu m3 = with_fpr ((fpr (cpu m2)).[field_d opcode' := v]) (cpu m2).

Lemma loads_held sz cv opcode ea v w m : access_size sz -> 0 <= ea < 2 ^ 32 -> real_ok m ->
  (forall i, 0 <= i < sz -> plain (mem_ctrl m) (u32 (ea + i))) -> (sz = 8 -> ea mod 4 = 0) -> 0 <= v < 2 ^ (8 * sz) -> holds m ea sz v ->
  cv v = w -> exists m3, bind (mmu_read_vmem sz opcode ea) (fun r => mcpu (ppc_store_fpresult_int (field_d opcode) (cv r))) m = (Ret tt, m3) /\
    cpu m3 = with_fpr ((fpr (cpu m)).[field_d opcode := w]) (cpu m).
Proof.
  intros Hs He Hm Hp H8 Hv Hh <-. destruct (read_held sz opcode ea v m Hs He Hm Hp H8 Hv Hh) as (m' & E & (u & -> & _)).
  exists (upd_cpu (ppc_store_fpresult_int (field_d opcode) (cv v)) (set_mmu u m)). split; [by rewrite (bind_ret _ _ _ _ _ E)|]. done.
Qed.

(** What is stored can be loaded back.  On flat memory, [stfd] to a word-aligned
    operand in RAM followed - once memory still is what it left - by [lfd] of the
    same address gives the register its bits, whatever they are; [stfs] followed by
    [lfs] gives a register that holds a single-precision number, infinity or zero
    back unchanged, with any alignment and in every rounding direction of the
    host. *)
Theorem fp_store_load_roundtrip opcode m : real_mode m -> machine_inv m ->
  let ea := ea_d opcode (cpu m) in
  let x := (fpr (cpu m)).[field_d opcode] in
  (ea mod 4 = 0 -> ram_operand (mem_ctrl m) ea 8 -> load_back ppc_stfd ppc_lfd opcode m x) /\
  (forall w, 0 <= w < 2 ^ 32 -> is_nan binary32 w = false -> x = of_single w -> ram_operand (mem_ctrl m) ea 4 ->
     load_back ppc_stfs ppc_lfs opcode m x).
Proof.
  intros Hm Hi ea x. destruct (ea_ranges opcode (cpu m)) as [He _]. fold ea in He.
  assert (word64 x) as Hx by (apply (ok_fpr _ (mo_cpu _ (proj1 Hi)))).
  split.
  - intros Hal Ho. destruct (write_then_holds 8 opcode ea x m) as (m1 & E & Ec & Hm1 & Hh & Hp); [by do 3 right | done | by split | done | done |].
    exists m1. split.
    { unfold ppc_stfd, fp_d_form. rewrite bind_gets. cbv beta iota zeta delta [ppc_grab_regsfpdia decode_ops_da]. rewrite fp_disp_ea.
      unfold store_double. rewrite bind_gets. exact E. }
    split; [done|]. split; [apply Hm1|]. split; [apply Hm1|]. intros opcode' m2 Hm2 Hi2 Em Ee.
    unfold ppc_lfd, fp_d_form. rewrite bind_gets. cbv beta iota zeta delta [ppc_grab_regsfpdia decode_ops_da]. rewrite fp_disp_ea, Ee.
    apply (loads_held 8 (fun v => v) opcode' ea x x); [by do 3 right | done | by split | | done | done | | done].
    + rewrite Em. exact Hp.
    + by apply (holds_mem m1).
  - intros w Hw Hn Ex Ho. destruct (fr_host (fun rm => to_single rm x) (fun rm => single_word64 rm x) m (mo_cpu _ (proj1 Hi))) as (r & m0 & E0 & S0 & _).
    assert (r = w) as ->.
    { revert E0. unfold host_fp. rewrite Ex, single_roundtrip, Hn by done. by intros [= <- _]. }
    assert (cpu m0 = cpu m) as Ec0 by (revert E0; unfold host_fp; destruct (to_single _ _); by intros [= _ <-]).
    destruct (write_then_holds 4 opcode ea w m0) as (m1 & E & Ec & Hm1 & Hh & Hp);
      [by do 2 right; left | done | by apply (fp_step_real m) | by rewrite (fp_step_mem m) | done |].
    exists m1. split.
    { unfold ppc_stfs, fp_d_form. rewrite bind_gets. cbv beta iota zeta delta [ppc_grab_regsfpdia decode_ops_da]. rewrite fp_disp_ea.
      unfold store_single. rewrite bind_gets. rewrite (bind_ret _ _ _ _ _ E0). exact E. }
    split; [congruence|]. split; [apply Hm1|]. split; [apply Hm1|]. intros opcode' m2 Hm2 Hi2 Em Ee.
    unfold ppc_lfs, fp_d_form. rewrite bind_gets. cbv beta iota zeta delta [ppc_grab_regsfpdia decode_ops_da]. rewrite fp_disp_ea, Ee.
    apply (loads_held 4 of_single opcode' ea w x); [by do 2 right; left | done | by split | | done | done | | done].
    + rewrite Em. exact Hp.
    + by apply (holds_mem m1).
Qed.
End FpuReal.

(** stfd f1,-8(r1); lfd f2,-8(r1) *)
Lemma fp_store_load_roundtrip_witness : exists m1 m3,
  @ppc_stfd silent_devices 0xD821FFF8 frame_machine = (Ret tt, m1) /\
  @ppc_lfd silent_devices 0xC841FFF8 m1 = (Ret tt, m3) /\ (fpr (cpu m3)).[2] = (fpr (cpu frame_machine)).[1].
Proof.
  destruct frame_machine_ok as (Hm & Hi & Em).
  assert (ea_d 0xD821FFF8 (cpu frame_machine) = 0x7FF8 /\ ea_d 0xC841FFF8 (cpu frame_machine) = 0x7FF8) as [E E']
    by (vm_compute; by split).
  destruct (@fp_store_load_roundtrip silent_devices default_fpu 0xD821FFF8 frame_machine Hm Hi) as (L & _).
  rewrite E, Em in L. destruct (L eq_refl (ram_demo_operand 0x7FF8 8 ltac:(lia) ltac:(lia))) as (m1 & S & Ec & Hm1 & Hi1 & B).
  destruct (B 0xC841FFF8 m1 Hm1 Hi1 eq_refl) as (m3 & E3 & F); [by rewrite Ec, E', E|].
  exists m1, m3. split; [exact S|]. split; [exact E3|]. rewrite F. apply rget_rset_eq.
Defined.
