(* ===== verification/RegSafe.v ===== *)
(** * The register instructions keep the registers sound

    An instruction on registers keeps every register to its width and leaves the
    block address translation registers alone; both follow from what the component
    files prove each of them to compute. *)
From S2P Require Import Prelude Word PpcState IntArith IntLogic PowerOps CondReg.

Create HintDb safe.

Definition reg_safe (s s' : ppc_state) : Prop := ppc_ok s' /\ forall r, 528 <= r <= 543 -> (spr s').[r] = (spr s).[r].

(** A register operation, on every instruction word. *)
Definition safe (f : Z -> ppc_state -> ppc_state) : Prop := forall w s, ppc_ok s -> reg_safe s (f w s).

Lemma safe_int s s' reg d ca ov rec : int_effect s s' reg d ca ov rec -> reg_safe s s'.
Proof. intros []. split; [done|]. intros r Hr. apply ie_spr. unfold SPR.XER. lia. Qed.

Lemma safe_power s s' reg d v mq ca ov rec : power_effect s s' reg d v mq ca ov rec -> reg_safe s s'.
Proof.
  intros He. split; [by eapply power_effect_ok|]. destruct He as (s1 & H1 & -> & _). intros r Hr.
  cbn [spr set_gpr with_gpr]. rewrite (ie_spr _ _ _ _ _ _ _ H1) by (unfold SPR.XER; lia).
  destruct mq; [|done]. cbn [with_mq set_spr with_spr spr]. apply rget_rset_ne. unfold SPR.MQ. lia.
Qed.

Lemma safe_shifted s w res fill s' mq ca rec : shift_spec s w res fill s' mq ca rec -> reg_safe s s'.
Proof. intros (d & _ & H). by eapply safe_power. Qed.

Lemma safe_cr s s' f : cr_effect s s' f -> reg_safe s s'.
Proof. intros [H1 H2 _]. split; [done|]. rewrite H2. by destruct s. Qed.

Lemma safe_gpr s i v : ppc_ok s -> 0 <= v < 2 ^ 32 -> reg_safe s (set_gpr i v s).
Proof. intros Hs Hv. split; [by apply set_gpr_ok | done]. Qed.

Lemma safe_ex s s' reg (P : Z -> Prop) ca ov rec : (exists d, P d /\ int_effect s s' reg d ca ov rec) -> reg_safe s s'.
Proof. intros (d & _ & H). by eapply safe_int. Qed.

Ltac by_int E := intros w s Hs; eapply safe_int, E; done.
Ltac by_ex E := intros w s Hs; eapply safe_ex, E; done.
Ltac by_shift E := intros w s Hs; eapply safe_shifted, E; done.
Ltac by_power E := intros w s Hs; eapply safe_power, E; done.

(** ** The instructions with a proved effect *)

Lemma safe_add carry rec ov : safe (ppc_add carry rec ov).
Proof. by_int add_effect. Qed.
Lemma safe_adde rec ov : safe (ppc_adde rec ov).
Proof. by_int adde_effect. Qed.
Lemma safe_addme rec ov : safe (ppc_addme rec ov).
Proof. by_int addme_effect. Qed.
Lemma safe_addze rec ov : safe (ppc_addze rec ov).
Proof. by_int addze_effect. Qed.
Lemma safe_addic rec : safe (ppc_addic rec).
Proof. by_int addic_effect. Qed.
Lemma safe_subf carry rec ov : safe (ppc_subf carry rec ov).
Proof. by_int subf_effect. Qed.
Lemma safe_subfe rec ov : safe (ppc_subfe rec ov).
Proof. by_int subfe_effect. Qed.
Lemma safe_subfic : safe (ppc_subfic).
Proof. by_int subfic_effect. Qed.
Lemma safe_subfme rec ov : safe (ppc_subfme rec ov).
Proof. by_int subfme_effect. Qed.
Lemma safe_subfze rec ov : safe (ppc_subfze rec ov).
Proof. by_int subfze_effect. Qed.
Lemma safe_neg rec ov : safe (ppc_neg rec ov).
Proof. by_int neg_effect. Qed.
Lemma safe_mulhwu rec : safe (ppc_mulhwu rec).
Proof. by_int mulhwu_effect. Qed.
Lemma safe_mulhw rec : safe (ppc_mulhw rec).
Proof. by_int mulhw_effect. Qed.
Lemma safe_mullw rec ov : safe (ppc_mullw rec ov).
Proof. by_int mullw_effect. Qed.
Lemma safe_mulli : safe (ppc_mulli).
Proof. by_int mulli_effect. Qed.
Lemma safe_divw is_601 rec ov : safe (ppc_divw is_601 rec ov).
Proof. by_int divw_effect. Qed.
Lemma safe_divwu is_601 rec ov : safe (ppc_divwu is_601 rec ov).
Proof. by_int divwu_effect. Qed.
Lemma safe_cntlzw rec : safe (ppc_cntlzw rec).
Proof. by_int cntlzw_effect. Qed.
Lemma safe_shift dir rec : safe (ppc_shift dir rec).
Proof. by_int shift_effect. Qed.
Lemma safe_srawi rec : safe (ppc_srawi rec).
Proof. by_int srawi_effect. Qed.
Lemma safe_sraw rec : safe (ppc_sraw rec).
Proof. by_int sraw_effect. Qed.
Lemma safe_logical op rec : safe (ppc_logical op rec).
Proof. by_int logical_effect. Qed.
Lemma safe_rlwinm : safe (ppc_rlwinm).
Proof. by_ex rlwinm_effect. Qed.
Lemma safe_rlwnm : safe (ppc_rlwnm).
Proof. by_ex rlwnm_effect. Qed.
Lemma safe_rlwimi : safe (ppc_rlwimi).
Proof. by_ex rlwimi_effect. Qed.
Lemma safe_abs rec ov : safe (power_abs rec ov).
Proof. by_int abs_effect. Qed.
Lemma safe_nabs rec ov : safe (power_nabs rec ov).
Proof. by_int nabs_effect. Qed.
Lemma safe_doz rec ov : safe (power_doz rec ov).
Proof. by_int doz_effect. Qed.
Lemma safe_dozi : safe (power_dozi).
Proof. by_int dozi_effect. Qed.
Lemma safe_maskg rec : safe (power_maskg rec).
Proof. by_int maskg_effect. Qed.
Lemma safe_maskir rec : safe (power_maskir rec).
Proof. by_ex maskir_effect. Qed.
Lemma safe_rlmi : safe (power_rlmi).
Proof. by_ex rlmi_effect. Qed.
Lemma safe_rrib rec : safe (power_rrib rec).
Proof. by_ex rrib_effect. Qed.
Lemma safe_mul rec ov : safe (power_mul rec ov).
Proof. by_power mul_effect. Qed.
Lemma safe_divs rec ov : safe (power_divs rec ov).
Proof. by_power divs_effect. Qed.
Lemma safe_sle rec : safe (power_sle rec).
Proof. by_shift sle_effect. Qed.
Lemma safe_sleq rec : safe (power_sleq rec).
Proof. by_shift sleq_effect. Qed.
Lemma safe_sliq rec : safe (power_sliq rec).
Proof. by_shift sliq_effect. Qed.
Lemma safe_slliq rec : safe (power_slliq rec).
Proof. by_shift slliq_effect. Qed.
Lemma safe_slq rec : safe (power_slq rec).
Proof. by_shift slq_effect. Qed.
Lemma safe_sllq rec : safe (power_sllq rec).
Proof. by_shift sllq_effect. Qed.
Lemma safe_sre rec : safe (power_sre rec).
Proof. by_shift sre_effect. Qed.
Lemma safe_sriq rec : safe (power_sriq rec).
Proof. by_shift sriq_effect. Qed.
Lemma safe_srliq rec : safe (power_srliq rec).
Proof. by_shift srliq_effect. Qed.
Lemma safe_srq rec : safe (power_srq rec).
Proof. by_shift srq_effect. Qed.
Lemma safe_sreq rec : safe (power_sreq rec).
Proof. by_shift sreq_effect. Qed.
Lemma safe_srlq rec : safe (power_srlq rec).
Proof. by_shift srlq_effect. Qed.
Lemma safe_sraiq rec : safe (power_sraiq rec).
Proof. by_shift sraiq_effect. Qed.
Lemma safe_srea rec : safe (power_srea rec).
Proof. by_shift srea_effect. Qed.
Lemma safe_sraq rec : safe (power_sraq rec).
Proof. by_shift sraq_effect. Qed.

Lemma safe_exts width rec : 0 < width <= 32 -> safe (ppc_exts width rec).
Proof. intros Hw. by_int exts_effect. Qed.

(** ** The others *)

Lemma safe_addi shift : safe (ppc_addi shift).
Proof.
  intros w s Hs. unfold ppc_addi. cbv beta iota zeta delta [ppc_grab_regsdasimm decode_ops_dasimm].
  repeat case_match; apply safe_gpr; (done || apply u32_range).
Qed.

Lemma safe_immediates shift : safe (ppc_ori shift) /\ safe (ppc_xori shift) /\ safe (ppc_andirc shift).
Proof.
  assert (forall x, 0 <= shl32 x 16 < 2 ^ 32) as Hsh by (intros; apply u32_range).
  split_and!; intros w s Hs; pose proof (ok_get_gpr s Hs (field_d w)); pose proof (uwrap_range 16 w ltac:(lia));
    unfold ppc_ori, ppc_xori, ppc_andirc; cbv beta iota zeta delta [ppc_grab_regssauimm decode_ops_sauimm ppc_store_iresult_reg].
  1, 2: apply safe_gpr; [done|]; destruct (shf shift); first [apply lor_range | apply lxor_range]; (lia || done || auto).
  split; [|done]. apply set_gpr_ok; [by apply ppc_changecrf0_ok|]. destruct (shf shift); apply land_range_l; (lia || done).
Qed.

Lemma safe_compares : safe ppc_cmp /\ safe ppc_cmpi /\ safe ppc_cmpl /\ safe ppc_cmpli.
Proof.
  split_and!; intros w s Hs; (split; [|by destruct s]); unfold ppc_cmp, ppc_cmpi, ppc_cmpl, ppc_cmpli;
    cbv beta iota zeta delta [ppc_grab_regsab ppc_grab_regsasimm ppc_grab_crfd_regsauimm]; (apply with_cr_ok; [done | apply u32_range]).
Qed.

Lemma safe_choose s d (b : bool) : ppc_ok s -> 0 <= d < 32 ->
  reg_safe s (if b then cr_on d s else cr_off d s) /\ reg_safe s (if b then cr_off d s else cr_on d s).
Proof. intros Hs Hd. split; eapply safe_cr; [by apply cr_choose_effect | by apply cr_choose_not_effect]. Qed.

Lemma safe_cr_logic f : In f [ppc_crand; ppc_crandc; ppc_creqv; ppc_crnand; ppc_crnor; ppc_cror; ppc_crorc; ppc_crxor] -> safe f.
Proof.
  intros Hf w s Hs. cbn [In] in Hf. decompose [or] Hf; subst; try done;
    unfold ppc_crand, ppc_crandc, ppc_creqv, ppc_crnand, ppc_crnor, ppc_cror, ppc_crorc, ppc_crxor;
    cbv beta iota zeta delta [ppc_grab_dab]; apply safe_choose; (done || apply field_d_range).
Qed.

Lemma safe_cr_moves : safe ppc_mfcr /\ safe ppc_mtcrf /\ safe ppc_mcrf /\ safe ppc_mcrxr.
Proof.
  split_and!; intros w s Hs.
  - apply safe_gpr; [done | by apply ok_cr].
  - eapply safe_cr, mtcrf_effect, Hs.
  - eapply safe_cr, mcrf_effect, Hs.
  - destruct (mcrxr_effect s w Hs) as [[H1 H2 _] ->]. split.
    + apply set_spr_ok; [done|]. apply land_range_l; [lia | apply Hs].
    + intros r Hr. cbn [spr set_spr with_spr]. by rewrite rget_rset_ne by (unfold SPR.XER; lia).
Qed.

Lemma safe_clcs is_601 : safe (power_clcs is_601).
Proof.
  intros w s Hs. unfold power_clcs. cbv beta iota zeta delta [ppc_grab_da ppc_store_iresult_reg].
  apply safe_gpr; [done|]. repeat case_match; lia.
Qed.

(** [div] traps in the host or is sound. *)
Lemma safe_div rec ov w s s' : ppc_ok s -> power_div rec ov w s = Some s' -> reg_safe s s'.
Proof.
  intros Hs E. destruct (div_effect s Hs w rec ov) as (s2 & E2 & He).
  - intros [E1 E2]. revert E. unfold power_div. cbv beta iota zeta delta [ppc_grab_regsdab decode_ops_dab].
    pose proof (dividend_eq s Hs w) as Ed. fold (field_a w) (field_b w) in *. rewrite Ed, E1, E2. by vm_compute.
  - rewrite E in E2. injection E2 as <-. by eapply safe_power.
Qed.

#[export] Hint Resolve safe_add safe_adde safe_addme safe_addze safe_addic safe_subf safe_subfe safe_subfic safe_subfme safe_subfze safe_neg safe_mulhwu safe_mulhw safe_mullw safe_mulli safe_divw safe_divwu safe_cntlzw safe_shift safe_srawi safe_sraw safe_logical safe_rlwinm safe_rlwnm safe_rlwimi safe_abs safe_nabs safe_doz safe_dozi safe_maskg safe_maskir safe_rlmi safe_rrib safe_mul safe_divs safe_sle safe_sleq safe_sliq safe_slliq safe_slq safe_sllq safe_sre safe_sriq safe_srliq safe_srq safe_sreq safe_srlq safe_sraiq safe_srea safe_sraq safe_addi safe_clcs : safe.
