(* ===== verification/Decode.v ===== *)
(** * Decoding (cpu/ppc/ppcexec.cpp)

    The two tables of [initialize_ppc_opcode_table], as the sequence of writes that
    fills them, and the dispatch of an instruction word through them.  A table is
    indexed by the primary opcode and the low eleven bits of the word; a write
    covers one index, all those of a primary opcode or, for branches, those with
    given low bits. *)
From S2P Require Import Prelude Word Float PpcState IntArith IntLogic PowerOps CondReg Timers MemCtrl HostMem Machine Branch Mmu MmuBat Exceptions Translate PageWalk VMem LoadStore Fpu FpuMem SystemRegs.

(** ** Indices and writes *)

Inductive pattern :=
| P_op (op : Z)
| P_mod (op modifier : Z)
| P_la (op sub : Z).

Definition covers (p : pattern) (i : Z) : bool :=
  match p with
  | P_op op => Z.shiftr i 11 =? op
  | P_mod op modifier => i =? Z.lor (Z.shiftl op 11) modifier
  | P_la op sub => (Z.shiftr i 11 =? op) && (Z.land i 3 =? sub)
  end.

Definition PPCOpcode : Type := Z -> M machine unit.

(** A write of the table; [e_fp] is whether it also disables the index in the table
    for a disabled FPU. *)
Record entry := mk_entry { e_pattern : pattern; e_fp : bool; e_handler : PPCOpcode }.

(* [cpu/ppc/ppcexec.cpp:679-682] *)
Definition OPr (op modifier : Z) (fn : PPCOpcode) : list entry := [mk_entry (P_mod op modifier) false fn].
(* [cpu/ppc/ppcexec.cpp:684-688] *)
Definition OPr_fp (op modifier : Z) (fn : PPCOpcode) : list entry := [mk_entry (P_mod op modifier) true fn].
(* [cpu/ppc/ppcexec.cpp:690-695] *)
Definition OP (op : Z) (fn : PPCOpcode) : list entry := [mk_entry (P_op op) false fn].
(* [cpu/ppc/ppcexec.cpp:697-702] *)
Definition OP_fp (op : Z) (fn : PPCOpcode) : list entry := [mk_entry (P_op op) true fn].
(* [cpu/ppc/ppcexec.cpp:704-704] *)
Definition OPX (op sub : Z) (fn : PPCOpcode) : list entry := OPr op (Z.shiftl sub 1) fn.
(* [cpu/ppc/ppcexec.cpp:706-706] *)
Definition OPX_fp (op sub : Z) (fn : PPCOpcode) : list entry := OPr_fp op (Z.shiftl sub 1) fn.
(* [cpu/ppc/ppcexec.cpp:708-712] *)
Definition OPXd (op sub : Z) (fn : field_rc -> PPCOpcode) : list entry :=
  OPr op (Z.lor (Z.shiftl sub 1) 0) (fn RC0) ++ OPr op (Z.lor (Z.shiftl sub 1) 1) (fn RC1).
(* [cpu/ppc/ppcexec.cpp:714-718] *)
Definition OPXd_fp (op sub : Z) (fn : field_rc -> PPCOpcode) : list entry :=
  OPr_fp op (Z.lor (Z.shiftl sub 1) 0) (fn RC0) ++ OPr_fp op (Z.lor (Z.shiftl sub 1) 1) (fn RC1).
(* [cpu/ppc/ppcexec.cpp:720-726] *)
Definition OPXod (op sub : Z) (fn : field_rc -> field_ov -> PPCOpcode) : list entry :=
  OPr op (Z.lor (Z.shiftl sub 1) 0x000) (fn RC0 OV0) ++ OPr op (Z.lor (Z.shiftl sub 1) 0x001) (fn RC1 OV0) ++
  OPr op (Z.lor (Z.shiftl sub 1) 0x400) (fn RC0 OV1) ++ OPr op (Z.lor (Z.shiftl sub 1) 0x401) (fn RC1 OV1).
(* [cpu/ppc/ppcexec.cpp:748-753] *)
Definition OPla (op sub : Z) (fn : PPCOpcode) : list entry := [mk_entry (P_la op sub) false fn].
(* [cpu/ppc/ppcexec.cpp:768-773] *)
Definition OP59cd (sub : Z) (fn : field_rc -> PPCOpcode) : list entry :=
  concat (map (fun ccccc => OPXd_fp 59 (Z.lor (Z.shiftl ccccc 5) sub) fn) (zrange 32)).

(** ** Handlers *)

(** Instructions on registers, branches, instructions that look at [is_601] when
    they run, and POWER's [div], whose quotient the host may trap on. *)
Definition reg (f : Z -> ppc_state -> ppc_state) : PPCOpcode := fun opcode => mcpu (f opcode).
Definition br (f : Z -> machine -> machine) : PPCOpcode := fun opcode => modify (f opcode).
Definition reg_601 (f : bool -> Z -> ppc_state -> ppc_state) : PPCOpcode := fun opcode =>
  is601 <- gets (fun m => is_601 (cfg m)) ;; mcpu (f is601 opcode).
Definition reg_opt (f : Z -> ppc_state -> option ppc_state) : PPCOpcode := fun opcode =>
  s <- gets cpu ;;
  match f opcode s with
  | Some s' => mcpu (fun _ => s')
  | None => abort_f
  end.

(** What the tables depend on when they are built. *)
Record table_config := mk_table_config { tc_is_601 : bool; tc_include_601 : bool; tc_970mp : bool }.

(** [if (c) ...] around writes. *)
Definition only (c : bool) (l : list entry) : list entry := if c then l else [].

Section Tables.
Context `{Devices} `{HostFpu} (tc : table_config).

(* [cpu/ppc/ppcexec.cpp:780-825 ppc_twi] *)
Definition ops_primary : list entry :=
  OP 3 ppc_twi ++
  OP 7 (reg ppc_mulli) ++
  OP 8 (reg ppc_subfic) ++
  only (tc_is_601 tc || tc_include_601 tc) (OP 9 (reg power_dozi)) ++
  OP 10 (reg ppc_cmpli) ++
  OP 11 (reg ppc_cmpi) ++
  OP 12 (reg (ppc_addic RC0)) ++
  OP 13 (reg (ppc_addic RC1)) ++
  OP 14 (reg (ppc_addi SHFT0)) ++
  OP 15 (reg (ppc_addi SHFT1)) ++
  OP 17 ppc_sc ++
  OP 20 (reg ppc_rlwimi) ++
  OP 21 (reg ppc_rlwinm) ++
  only (tc_is_601 tc || tc_include_601 tc) (OP 22 (reg power_rlmi)) ++
  OP 23 (reg ppc_rlwnm) ++
  OP 24 (reg (ppc_ori SHFT0)) ++
  OP 25 (reg (ppc_ori SHFT1)) ++
  OP 26 (reg (ppc_xori SHFT0)) ++
  OP 27 (reg (ppc_xori SHFT1)) ++
  OP 28 (reg (ppc_andirc SHFT0)) ++
  OP 29 (reg (ppc_andirc SHFT1)) ++
  OP 32 (ppc_lz 4) ++
  OP 33 (ppc_lzu 4) ++
  OP 34 (ppc_lz 1) ++
  OP 35 (ppc_lzu 1) ++
  OP 36 (ppc_st 4) ++
  OP 37 (ppc_stu 4) ++
  OP 38 (ppc_st 1) ++
  OP 39 (ppc_stu 1) ++
  OP 40 (ppc_lz 2) ++
  OP 41 (ppc_lzu 2) ++
  OP 42 ppc_lha ++
  OP 43 ppc_lhau ++
  OP 44 (ppc_st 2) ++
  OP 45 (ppc_stu 2) ++
  OP 46 ppc_lmw ++
  OP 47 ppc_stmw ++
  OP_fp 48 ppc_lfs ++
  OP_fp 49 ppc_lfsu ++
  OP_fp 50 ppc_lfd ++
  OP_fp 51 ppc_lfdu ++
  OP_fp 52 ppc_stfs ++
  OP_fp 53 ppc_stfsu ++
  OP_fp 54 ppc_stfd ++
  OP_fp 55 ppc_stfdu.

(* [cpu/ppc/ppcexec.cpp:827-835 ppc_bc] *)
Definition ops_bc : list entry :=
  OPla 16 0 (br (ppc_bc LK0 AA0)) ++
  OPla 16 1 (br (ppc_bc LK1 AA0)) ++
  OPla 16 2 (br (ppc_bc LK0 AA1)) ++
  OPla 16 3 (br (ppc_bc LK1 AA1)) ++
  OPla 18 0 (br (ppc_b LK0 AA0)) ++
  OPla 18 1 (br (ppc_b LK1 AA0)) ++
  OPla 18 2 (br (ppc_b LK0 AA1)) ++
  OPla 18 3 (br (ppc_b LK1 AA1)).

(* [cpu/ppc/ppcexec.cpp:837-851 ppc_mcrf] *)
Definition ops_19 : list entry :=
  OPr 19 0 (reg ppc_mcrf) ++
  OPr 19 32 (br (ppc_bclr LK0)) ++
  OPr 19 33 (br (ppc_bclr LK1)) ++
  OPr 19 66 (reg ppc_crnor) ++
  OPr 19 100 ppc_rfi ++
  OPr 19 258 (reg ppc_crandc) ++
  OPr 19 300 ppc_isync ++
  OPr 19 386 (reg ppc_crxor) ++
  OPr 19 450 (reg ppc_crnand) ++
  OPr 19 514 (reg ppc_crand) ++
  OPr 19 578 (reg ppc_creqv) ++
  OPr 19 834 (reg ppc_crorc) ++
  OPr 19 898 (reg ppc_cror) ++
  OPr 19 1056 (br (ppc_bcctr LK0 (if tc_is_601 tc then IS601 else NOT601))) ++
  OPr 19 1057 (br (ppc_bcctr LK1 (if tc_is_601 tc then IS601 else NOT601))).

(* [cpu/ppc/ppcexec.cpp:853-874 ppc_cmp] *)
Definition ops_31_arith : list entry :=
  OPX 31 0 (reg ppc_cmp) ++
  OPX 31 4 ppc_tw ++
  OPX 31 32 (reg ppc_cmpl) ++
  OPXod 31 8 (fun rec ov => reg (ppc_subf CARRY1 rec ov)) ++
  OPXod 31 40 (fun rec ov => reg (ppc_subf CARRY0 rec ov)) ++
  OPXod 31 104 (fun rec ov => reg (ppc_neg rec ov)) ++
  OPXod 31 136 (fun rec ov => reg (ppc_subfe rec ov)) ++
  OPXod 31 200 (fun rec ov => reg (ppc_subfze rec ov)) ++
  OPXod 31 232 (fun rec ov => reg (ppc_subfme rec ov)) ++
  OPXod 31 10 (fun rec ov => reg (ppc_add CARRY1 rec ov)) ++
  OPXod 31 138 (fun rec ov => reg (ppc_adde rec ov)) ++
  OPXod 31 202 (fun rec ov => reg (ppc_addze rec ov)) ++
  OPXod 31 234 (fun rec ov => reg (ppc_addme rec ov)) ++
  OPXod 31 266 (fun rec ov => reg (ppc_add CARRY0 rec ov)) ++
  OPXd 31 11 (fun rec => reg (ppc_mulhwu rec)) ++
  OPXd 31 75 (fun rec => reg (ppc_mulhw rec)) ++
  OPXod 31 235 (fun rec ov => reg (ppc_mullw rec ov)) ++
  OPXod 31 459 (fun rec ov => reg_601 (fun is601 => ppc_divwu is601 rec ov)) ++
  OPXod 31 491 (fun rec ov => reg_601 (fun is601 => ppc_divw is601 rec ov)).

(* [cpu/ppc/ppcexec.cpp:876-912 ppc_lwarx] *)
Definition ops_31_memory : list entry :=
  OPX 31 20 ppc_lwarx ++
  OPX 31 23 (ppc_lzx 4) ++
  OPX 31 55 (ppc_lzux 4) ++
  OPX 31 87 (ppc_lzx 1) ++
  OPX 31 119 (ppc_lzux 1) ++
  OPX 31 279 (ppc_lzx 2) ++
  OPX 31 311 (ppc_lzux 2) ++
  OPX 31 343 ppc_lhax ++
  OPX 31 375 ppc_lhaux ++
  OPX 31 533 ppc_lswx ++
  OPX 31 534 ppc_lwbrx ++
  OPX_fp 31 535 ppc_lfsx ++
  OPX_fp 31 567 ppc_lfsux ++
  OPX 31 597 ppc_lswi ++
  OPX_fp 31 599 ppc_lfdx ++
  OPX_fp 31 631 ppc_lfdux ++
  OPX 31 790 ppc_lhbrx ++
  OPr 31 (Z.lor (Z.shiftl 150 1) 1) ppc_stwcx ++
  OPX 31 151 (ppc_stx 4) ++
  OPX 31 183 (ppc_stux 4) ++
  OPX 31 215 (ppc_stx 1) ++
  OPX 31 247 (ppc_stux 1) ++
  OPX 31 407 (ppc_stx 2) ++
  OPX 31 439 (ppc_stux 2) ++
  OPX 31 661 ppc_stswx ++
  OPX 31 662 ppc_stwbrx ++
  OPX_fp 31 663 ppc_stfsx ++
  OPX_fp 31 695 ppc_stfsux ++
  OPX 31 725 ppc_stswi ++
  OPX_fp 31 727 ppc_stfdx ++
  OPX_fp 31 759 ppc_stfdux ++
  OPX 31 918 ppc_sthbrx ++
  only (negb (tc_is_601 tc)) (OPX_fp 31 983 ppc_stfiwx) ++
  OPX 31 310 ppc_eciwx ++
  OPX 31 438 ppc_ecowx.

(* [cpu/ppc/ppcexec.cpp:914-929 ppc_shift] *)
Definition ops_31_logical : list entry :=
  OPXd 31 24 (fun rec => reg (ppc_shift LEFT1 rec)) ++
  OPXd 31 28 (fun rec => reg (ppc_logical ppc_and rec)) ++
  OPXd 31 60 (fun rec => reg (ppc_logical ppc_andc rec)) ++
  OPXd 31 124 (fun rec => reg (ppc_logical ppc_nor rec)) ++
  OPXd 31 284 (fun rec => reg (ppc_logical ppc_eqv rec)) ++
  OPXd 31 316 (fun rec => reg (ppc_logical ppc_xor rec)) ++
  OPXd 31 412 (fun rec => reg (ppc_logical ppc_orc rec)) ++
  OPXd 31 444 (fun rec => reg (ppc_logical ppc_or rec)) ++
  OPXd 31 476 (fun rec => reg (ppc_logical ppc_nand rec)) ++
  OPXd 31 536 (fun rec => reg (ppc_shift RIGHT0 rec)) ++
  OPXd 31 792 (fun rec => reg (ppc_sraw rec)) ++
  OPXd 31 824 (fun rec => reg (ppc_srawi rec)) ++
  OPXd 31 922 (fun rec => reg (ppc_exts 16 rec)) ++
  OPXd 31 954 (fun rec => reg (ppc_exts 8 rec)) ++
  OPXd 31 26 (fun rec => reg (ppc_cntlzw rec)).

(* [cpu/ppc/ppcexec.cpp:931-950 ppc_mfcr] *)
Definition ops_31_system : list entry :=
  OPX 31 19 (reg ppc_mfcr) ++
  OPX 31 83 ppc_mfmsr ++
  OPX 31 144 (reg ppc_mtcrf) ++
  OPX 31 146 ppc_mtmsr ++
  OPX 31 210 ppc_mtsr ++
  OPX 31 242 ppc_mtsrin ++
  OPX 31 339 ppc_mfspr ++
  only (negb (tc_is_601 tc)) (OPX 31 371 ppc_mftb) ++
  OPX 31 467 ppc_mtspr ++
  OPX 31 512 (reg ppc_mcrxr) ++
  OPX 31 595 ppc_mfsr ++
  OPX 31 659 ppc_mfsrin ++
  OPX 31 54 ppc_dcbst ++
  OPX 31 86 ppc_dcbf ++
  OPX 31 246 ppc_dcbtst ++
  OPX 31 278 ppc_dcbt ++
  OPX 31 598 ppc_sync ++
  OPX 31 470 ppc_dcbi ++
  OPX 31 1014 ppc_dcbz.

(* [cpu/ppc/ppcexec.cpp:952-979 power_maskg] *)
Definition ops_31_power : list entry := only (tc_is_601 tc || tc_include_601 tc) (
  OPXd 31 29 (fun rec => reg (power_maskg rec)) ++
  OPXod 31 107 (fun rec ov => reg (power_mul rec ov)) ++
  OPXd 31 152 (fun rec => reg (power_slq rec)) ++
  OPXd 31 153 (fun rec => reg (power_sle rec)) ++
  OPXd 31 184 (fun rec => reg (power_sliq rec)) ++
  OPXd 31 216 (fun rec => reg (power_sllq rec)) ++
  OPXd 31 217 (fun rec => reg (power_sleq rec)) ++
  OPXd 31 248 (fun rec => reg (power_slliq rec)) ++
  OPXod 31 264 (fun rec ov => reg (power_doz rec ov)) ++
  OPXd 31 277 power_lscbx ++
  OPXod 31 331 (fun rec ov => reg_opt (power_div rec ov)) ++
  OPXod 31 360 (fun rec ov => reg (power_abs rec ov)) ++
  OPXod 31 363 (fun rec ov => reg (power_divs rec ov)) ++
  OPXod 31 488 (fun rec ov => reg (power_nabs rec ov)) ++
  OPX 31 531 (reg_601 power_clcs) ++
  OPXd 31 537 (fun rec => reg (power_rrib rec)) ++
  OPXd 31 541 (fun rec => reg (power_maskir rec)) ++
  OPXd 31 664 (fun rec => reg (power_srq rec)) ++
  OPXd 31 665 (fun rec => reg (power_sre rec)) ++
  OPXd 31 696 (fun rec => reg (power_sriq rec)) ++
  OPXd 31 728 (fun rec => reg (power_srlq rec)) ++
  OPXd 31 729 (fun rec => reg (power_sreq rec)) ++
  OPXd 31 760 (fun rec => reg (power_srliq rec)) ++
  OPXd 31 920 (fun rec => reg (power_sraq rec)) ++
  OPXd 31 921 (fun rec => reg (power_srea rec)) ++
  OPXd 31 952 (fun rec => reg (power_sraiq rec))).

(* [cpu/ppc/ppcexec.cpp:981-987 ppc_tlbie] *)
Definition ops_31_tlb : list entry :=
  OPX 31 306 ppc_tlbie ++
  only (negb (tc_is_601 tc)) (OPX 31 370 ppc_tlbia) ++
  only (negb (tc_is_601 tc)) (OPX 31 566 ppc_tlbsync) ++
  OPX 31 854 ppc_eieio ++
  OPX 31 982 ppc_icbi ++
  only (negb (tc_is_601 tc)) (OPX 31 978 ppc_tlbld) ++
  only (negb (tc_is_601 tc)) (OPX 31 1010 ppc_tlbli).

(* [cpu/ppc/ppcexec.cpp:989-998 ppc_fdivs] *)
Definition ops_59 : list entry :=
  OPXd_fp 59 18 ppc_fdivs ++
  OPXd_fp 59 20 ppc_fsubs ++
  OPXd_fp 59 21 ppc_fadds ++
  only (tc_970mp tc) (OPXd_fp 59 22 ppc_fsqrts) ++
  only (negb (tc_is_601 tc)) (OPXd_fp 59 24 ppc_fres) ++
  OP59cd 25 ppc_fmuls ++
  OP59cd 28 ppc_fmsubs ++
  OP59cd 29 ppc_fmadds ++
  OP59cd 30 ppc_fnmsubs ++
  OP59cd 31 ppc_fnmadds.

(* [cpu/ppc/ppcexec.cpp:1000-1019 ppc_fcmpu] *)
Definition ops_63 : list entry :=
  OPX_fp 63 0 ppc_fcmpu ++
  OPXd_fp 63 12 ppc_frsp ++
  OPXd_fp 63 14 ppc_fctiw ++
  OPXd_fp 63 15 ppc_fctiwz ++
  OPXd_fp 63 18 ppc_fdiv ++
  OPXd_fp 63 20 ppc_fsub ++
  OPXd_fp 63 21 ppc_fadd ++
  only (tc_970mp tc) (OPXd_fp 63 22 ppc_fsqrt) ++
  only (negb (tc_is_601 tc)) (OPXd_fp 63 26 ppc_frsqrte) ++
  OPX_fp 63 32 ppc_fcmpo ++
  OPXd_fp 63 38 ppc_mtfsb1 ++
  OPXd_fp 63 40 ppc_fneg ++
  OPX_fp 63 64 ppc_mcrfs ++
  OPXd_fp 63 70 ppc_mtfsb0 ++
  OPXd_fp 63 72 ppc_fmr ++
  OPXd_fp 63 134 ppc_mtfsfi ++
  OPXd_fp 63 136 ppc_fnabs ++
  OPXd_fp 63 264 ppc_fabs ++
  OPXd_fp 63 583 (fun rec => ppc_mffs (if tc_is_601 tc then IS601 else NOT601) rec) ++
  OPXd_fp 63 711 ppc_mtfsf.

(* [cpu/ppc/ppcexec.cpp:1021-1028 ppc_fsel] *)
Definition ops_63_abc : list entry := concat (map (fun i =>
  only (negb (tc_is_601 tc)) (OPXd_fp 63 (i + 23) ppc_fsel) ++
  OPXd_fp 63 (i + 25) ppc_fmul ++
  OPXd_fp 63 (i + 28) ppc_fmsub ++
  OPXd_fp 63 (i + 29) ppc_fmadd ++
  OPXd_fp 63 (i + 30) ppc_fnmsub ++
  OPXd_fp 63 (i + 31) ppc_fnmadd) (map (fun k => 32 * k) (zrange 32))).

(** All the writes, in order. *)
(* [cpu/ppc/ppcexec.cpp:775-778] *)
Definition initialize_ppc_opcode_table : list entry :=
  ops_primary ++ ops_bc ++ ops_19 ++ ops_31_arith ++ ops_31_memory ++ ops_31_logical ++ ops_31_system ++
  ops_31_power ++ ops_31_tlb ++ ops_59 ++ ops_63 ++ ops_63_abc.

(** The element at an index: the last write that covers it. *)
Definition table_at (writes : list entry) (i : Z) : PPCOpcode :=
  fold_left (fun h e => if covers (e_pattern e) i then e_handler e else h) writes ppc_illegalop.

(* [cpu/ppc/ppcexec.cpp:236-236] *)
Definition OpcodeGrabber (i : Z) : PPCOpcode := table_at initialize_ppc_opcode_table i.

(** Filled with [ppc_fpu_off] where a floating-point instruction was written and
    with the other table's element elsewhere. *)
(* [cpu/ppc/ppcexec.cpp:1030-1034] *)
Definition OpcodeGrabberNoFPU (i : Z) : PPCOpcode :=
  if existsb (fun e => e_fp e && covers (e_pattern e) i) initialize_ppc_opcode_table then ppc_fpu_off
  else OpcodeGrabber i.

Definition opcode_index (opcode : Z) : Z := Z.lor (Z.land (Z.shiftr opcode 15) 0x1F800) (Z.land opcode 0x7FF).

(* [cpu/ppc/ppcexec.cpp:327-357] *)
Definition ppc_main_opcode (fpu_grabber : bool) (opcode : Z) : M machine unit :=
  (if fpu_grabber then OpcodeGrabber else OpcodeGrabberNoFPU) (opcode_index opcode) opcode.
End Tables.

(** ** Decoding by the fields of the word *)

(** The words a write stands for: by the primary opcode (the top six bits), the low
    eleven bits, the low two bits. *)
Definition matches (p : pattern) (opcode : Z) : bool :=
  match p with
  | P_op op => Z.shiftr opcode 26 =? op
  | P_mod op modifier => (Z.shiftr opcode 26 =? op) && (Z.land opcode 0x7FF =? modifier)
  | P_la op sub => (Z.shiftr opcode 26 =? op) && (Z.land opcode 3 =? sub)
  end.

Definition pattern_ok (p : pattern) : bool :=
  match p with
  | P_op op => (0 <=? op) && (op <? 64)
  | P_mod op modifier => (0 <=? op) && (op <? 64) && (0 <=? modifier) && (modifier <? 2048)
  | P_la op sub => (0 <=? op) && (op <? 64) && (0 <=? sub) && (sub <? 4)
  end.

Definition primary_of (p : pattern) : Z := match p with P_op a | P_mod a _ | P_la a _ => a end.

(** Two writes that no word can both be meant by. *)
Definition disjoint (p q : pattern) : bool :=
  match p, q with
  | P_mod a x, P_mod b y | P_la a x, P_la b y => negb (a =? b) || negb (x =? y)
  | _, _ => negb (primary_of p =? primary_of q)
  end.
Fixpoint all_disjoint (l : list pattern) : bool :=
  match l with
  | [] => true
  | p :: l => pattern_ok p && forallb (disjoint p) l && all_disjoint l
  end.

Lemma disjoint_sound p q w : disjoint p q = true -> matches p w = true -> matches q w = false.
Proof.
  destruct p, q; cbn [disjoint matches primary_of]; intros Hd Hm; bool_to_prop; subst; rewrite ?andb_false_iff, ?Z.eqb_neq; auto.
  all: try (rewrite Z.eqb_refl in Hd; cbn in Hd; discriminate).
  all: try (destruct Hd; bool_to_prop; auto).
Qed.

Lemma opcode_index_fields w : 0 <= w < 2 ^ 32 ->
  opcode_index w = Z.lor (Z.shiftl (Z.shiftr w 26) 11) (Z.land w 0x7FF) /\
  Z.shiftr (opcode_index w) 11 = Z.shiftr w 26 /\ Z.land (opcode_index w) 3 = Z.land w 3 /\
  Z.land (opcode_index w) 0x7FF = Z.land w 0x7FF.
Proof.
  intros Hw.
  assert (Z.land (Z.shiftr w 15) 0x1F800 = Z.shiftl (Z.shiftr w 26) 11) as E.
  { change 0x1F800 with (Z.shiftl (Z.ones 6) 11). apply Z.bits_inj'. intros n Hn.
    rewrite Z.land_spec, Z.shiftr_spec, !Z.shiftl_spec by lia.
    destruct (Z.ltb_spec n 11); [by rewrite !(Z.testbit_neg_r _ (n - 11)), andb_false_r by lia|].
    rewrite Z.shiftr_spec by lia. replace (n - 11 + 26) with (n + 15) by lia.
    rewrite Z.testbit_ones_nonneg by lia. destruct (Z.ltb_spec (n - 11) 6); [by rewrite andb_true_r|].
    rewrite andb_false_r. symmetry. apply (Z.bits_above_log2 w); [lia|].
    destruct (Z.eq_dec w 0) as [->|]; [cbn; lia|]. apply Z.log2_lt_pow2; [lia|].
    apply Z.lt_le_trans with (2 ^ 32); [lia|]. apply Z.pow_le_mono_r; lia. }
  unfold opcode_index. rewrite E. split; [done|].
  assert (forall n, 11 <= n -> Z.testbit 0x7FF n = false) as Hhi.
  { intros n Hn. change 0x7FF with (Z.ones 11). rewrite Z.testbit_ones_nonneg by lia. apply Z.ltb_ge. lia. }
  split_and!; apply Z.bits_inj'; intros n Hn.
  - rewrite !Z.shiftr_spec, Z.lor_spec, Z.shiftl_spec, Z.shiftr_spec, Z.land_spec, (Hhi (n + 11)), andb_false_r, orb_false_r by lia.
    f_equal. lia.
  - rewrite !Z.land_spec, Z.lor_spec, Z.land_spec. destruct (Z.ltb_spec n 2).
    + rewrite Z.shiftl_spec, Z.testbit_neg_r, orb_false_l by lia. change 0x7FF with (Z.ones 11).
      rewrite Z.testbit_ones_nonneg by lia. by rewrite (proj2 (Z.ltb_lt n 11)), andb_true_r by lia.
    + change 3 with (Z.ones 2). rewrite Z.testbit_ones_nonneg by lia. by rewrite (proj2 (Z.ltb_ge n 2)), !andb_false_r by lia.
  - rewrite !Z.land_spec, Z.lor_spec, Z.land_spec. destruct (Z.ltb_spec n 11).
    + rewrite Z.shiftl_spec, Z.testbit_neg_r, orb_false_l by lia. by destruct (Z.testbit w n), (Z.testbit 0x7FF n).
    + by rewrite Hhi, !andb_false_r by lia.
Qed.

Lemma covers_matches p w : 0 <= w < 2 ^ 32 -> pattern_ok p = true -> covers p (opcode_index w) = matches p w.
Proof.
  intros Hw Hp. destruct (opcode_index_fields w Hw) as (E & E1 & E2 & E3).
  destruct p as [op|op md|op sub]; cbn [covers matches pattern_ok] in *; rewrite ?E1, ?E2; [done | | done].
  bool_to_prop. destruct (Z.eqb_spec (opcode_index w) (Z.lor (Z.shiftl op 11) md)) as [Hi|Hn].
  - assert (Z.land md 0x7FF = md) as Em.
    { change 0x7FF with (Z.ones 11). rewrite Z.land_ones, Z.mod_small by lia. done. }
    assert (Z.land md (Z.lnot 0x7FF) = 0) as El.
    { rewrite <- Em. apply Z.bits_inj'. intros n Hn. rewrite !Z.land_spec, Z.lnot_spec, Z.bits_0 by lia.
      by destruct (Z.testbit 0x7FF n); rewrite ?andb_false_r. }
    assert (Z.shiftr md 11 = 0) as Es by (rewrite Z.shiftr_div_pow2 by lia; apply Z.div_small; lia).
    rewrite <- E1, <- E3, Hi. symmetry. apply andb_true_intro. split; apply Z.eqb_eq.
    + rewrite Z.shiftr_lor, Es, Z.lor_0_r, Z.shiftr_shiftl_l by lia. apply Z.shiftl_0_r.
    + rewrite Z.land_lor_distr_l, Em. change 0x7FF with (Z.ones 11).
      rewrite Z.land_ones, Z.shiftl_mul_pow2, Z.mod_mul by lia. done.
  - symmetry. apply andb_false_iff. rewrite !Z.eqb_neq.
    destruct (Z.eq_dec (Z.shiftr w 26) op) as [<-|]; [right | by left]. intros <-. by apply Hn.
Qed.

(** ** No two instructions share a word *)

Section Decoding.
Context `{Devices} `{HostFpu} (tc : table_config).

Lemma table_disjoint : all_disjoint (map e_pattern (initialize_ppc_opcode_table tc)) = true.
Proof. destruct tc as [[] [] []]; vm_compute; reflexivity. Qed.

Lemma table_at_app l1 l2 i : table_at (l1 ++ l2) i =
  fold_left (fun h e => if covers (e_pattern e) i then e_handler e else h) l2 (table_at l1 i).
Proof. apply fold_left_app. Qed.

Lemma untouched l i h : (forall e, In e l -> covers (e_pattern e) i = false) ->
  fold_left (fun h e => if covers (e_pattern e) i then e_handler e else h) l h = h.
Proof.
  revert h. induction l as [|e l IH]; intros h Hl; [done|]. cbn [fold_left].
  rewrite (Hl e) by by left. apply IH. intros e' He. apply Hl. by right.
Qed.

Lemma in_disjoint (l : list entry) e : all_disjoint (map e_pattern l) = true -> In e l ->
  pattern_ok (e_pattern e) = true.
Proof.
  induction l as [|x l IH]; intros Hd; [done|]. cbn [map all_disjoint] in Hd. bool_to_prop. intros [<-|]; auto.
Qed.

Lemma split_disjoint l1 e l2 : all_disjoint (map e_pattern (l1 ++ e :: l2)) = true ->
  (forall e', In e' l2 -> disjoint (e_pattern e) (e_pattern e') = true) /\
  (forall e', In e' l1 -> disjoint (e_pattern e') (e_pattern e) = true).
Proof.
  induction l1 as [|x l1 IH]; cbn [app map all_disjoint]; rewrite !andb_true_iff, forallb_forall; intros [[_ Hf] Ha].
  - split; [|done]. intros e' He. by apply Hf, in_map.
  - destruct (IH Ha) as [I1 I2]. split; [done|]. intros e' [<-|He]; [|by apply I2].
    apply Hf, in_map, in_or_app. right. by left.
Qed.

(** The element a word selects is the handler of the only write it is meant by. *)
Lemma selected e w : 0 <= w < 2 ^ 32 -> In e (initialize_ppc_opcode_table tc) -> matches (e_pattern e) w = true ->
  OpcodeGrabber tc (opcode_index w) = e_handler e /\
  (forall e', In e' (initialize_ppc_opcode_table tc) -> matches (e_pattern e') w = true -> e_fp e' = e_fp e).
Proof.
  intros Hw He Hm. pose proof table_disjoint as Hd. destruct (in_split _ _ He) as (l1 & l2 & El).
  pose proof (fun x => in_disjoint _ x Hd) as Hok. unfold OpcodeGrabber. rewrite El in Hd, Hok |- *.
  destruct (split_disjoint _ _ _ Hd) as [D2 D1]. split.
  - rewrite table_at_app. cbn [fold_left]. rewrite (covers_matches (e_pattern e)), Hm by (done || apply Hok, in_elt).
    apply untouched. intros e' He'. rewrite covers_matches; [|done | apply Hok, in_or_app; right; by right].
    by apply (disjoint_sound (e_pattern e)); [apply D2|].
  - intros e' Hin Hm'. apply in_app_or in Hin as [Hin|[<-|Hin]]; [|done|].
    + pose proof (disjoint_sound _ _ w (D1 e' Hin) Hm'). congruence.
    + pose proof (disjoint_sound _ _ w (D2 e' Hin) Hm). congruence.
Qed.

Lemma fp_disabled_index w : 0 <= w < 2 ^ 32 ->
  existsb (fun e => e_fp e && covers (e_pattern e) (opcode_index w)) (initialize_ppc_opcode_table tc) =
  existsb (fun e => e_fp e && matches (e_pattern e) w) (initialize_ppc_opcode_table tc).
Proof.
  intros Hw. pose proof (fun e => in_disjoint _ e table_disjoint) as Hok. revert Hok.
  generalize (initialize_ppc_opcode_table tc). intros l Hok. induction l as [|e l IH]; [done|]. cbn [existsb].
  rewrite covers_matches, IH; [done | | done | apply Hok; by left]. intros e' He. apply Hok. by right.
Qed.

(** The instruction a word runs, with either table. *)
Lemma main_opcode_selects fpu w : 0 <= w < 2 ^ 32 ->
  (forall e, In e (initialize_ppc_opcode_table tc) -> matches (e_pattern e) w = true ->
   ppc_main_opcode tc fpu w = if fpu || negb (e_fp e) then e_handler e w else ppc_fpu_off w) /\
  ((forall e, In e (initialize_ppc_opcode_table tc) -> matches (e_pattern e) w = false) ->
   ppc_main_opcode tc fpu w = ppc_illegalop w).
Proof.
  intros Hw. unfold ppc_main_opcode. split.
  - intros e He Hm. destruct (selected e w Hw He Hm) as [Es Hu]. destruct fpu; cbn [orb]; [by rewrite Es|].
    unfold OpcodeGrabberNoFPU. rewrite fp_disabled_index by done. destruct (e_fp e) eqn:Ef; cbn [negb].
    + rewrite (proj2 (existsb_exists _ _)); [done|]. exists e. by rewrite Ef, Hm.
    + destruct (existsb _ _) eqn:Ex; [|by rewrite Es]. apply existsb_exists in Ex as (e' & He' & Hb). bool_to_prop.
      rewrite (Hu e' He') in *; done.
  - intros Hno.
    assert (OpcodeGrabber tc (opcode_index w) = ppc_illegalop) as E1.
    { unfold OpcodeGrabber, table_at. apply untouched. intros e He. rewrite covers_matches; [by apply Hno | done|].
      by apply (in_disjoint _ e table_disjoint). }
    destruct fpu; [by rewrite E1|]. unfold OpcodeGrabberNoFPU. rewrite fp_disabled_index, E1 by done.
    destruct (existsb _ _) eqn:Ex; [|done]. apply existsb_exists in Ex as (e & He & Hb). bool_to_prop.
    rewrite (Hno e He) in *. done.
Qed.
(** C2: decoding.  For every processor model, an instruction word whose primary
    opcode and low bits are those of an instruction runs that instruction - whatever
    the order in which the table was filled, since no two instructions share a word -
    except that a floating-point instruction raises the FPU-unavailable exception
    when the other table is in use; a word of no instruction is illegal with both
    tables. *)
Theorem decode_correct fpu w : 0 <= w < 2 ^ 32 ->
  (forall e, In e (initialize_ppc_opcode_table tc) -> matches (e_pattern e) w = true ->
   ppc_main_opcode tc fpu w = if fpu || negb (e_fp e) then e_handler e w else ppc_fpu_off w) /\
  ((forall e, In e (initialize_ppc_opcode_table tc) -> matches (e_pattern e) w = false) ->
   ppc_main_opcode tc fpu w = ppc_illegalop w).
Proof. exact (main_opcode_selects fpu w). Qed.
End Decoding.

(** [fadd. f2,f1,f2] on a 750 with the FPU disabled, and the word 0. *)
Lemma decode_correct_witness :
  let d := {| dev_read := fun _ _ _ _ => ret 0; dev_write := fun _ _ _ _ _ => ret tt; dev_timer := fun _ _ _ => ret tt |} in
  let h := {| host_nan := fun _ _ => quiet_NaN; tiny_after_rounding := true |} in
  let tc := mk_table_config false false false in
  @ppc_main_opcode d h tc false 0xFC41102B = ppc_fpu_off 0xFC41102B /\
  @ppc_main_opcode d h tc true 0xFC41102B = @ppc_fadd h RC1 0xFC41102B /\
  @ppc_main_opcode d h tc true 0 = ppc_illegalop 0.
Proof.
  intros d h tc.
  assert (exists e, In e (@initialize_ppc_opcode_table d h tc) /\ matches (e_pattern e) 0xFC41102B = true /\
    e_fp e = true /\ e_handler e = @ppc_fadd h RC1) as (e & He & Hm & Hf & Hh).
  { exists (mk_entry (P_mod 63 43) true (@ppc_fadd h RC1)). split; [|by split_and!].
    unfold initialize_ppc_opcode_table. do 10 (apply in_or_app; right). apply in_or_app; left.
    unfold ops_63. do 6 (apply in_or_app; right). apply in_or_app; left. right. by left. }
  split; [|split].
  - rewrite (proj1 (@decode_correct d h tc false 0xFC41102B ltac:(lia)) e He Hm). by rewrite Hf.
  - rewrite (proj1 (@decode_correct d h tc true 0xFC41102B ltac:(lia)) e He Hm). by rewrite Hh.
  - apply (proj2 (@decode_correct d h tc true 0 ltac:(lia))).
    assert (forallb (fun e => negb (matches (e_pattern e) 0)) (@initialize_ppc_opcode_table d h tc) = true) as Ha
      by (vm_compute; reflexivity).
    intros e' He'. rewrite forallb_forall in Ha. specialize (Ha e' He'). by apply negb_true_iff.
Defined.
