(* ===== verification/Clock.v ===== *)
(** * The instruction clock (cpu/ppc/ppcexec.cpp)

    Virtual time advances with the executed instructions, at a rate the speed
    keys change, or with the host's clock; [process_events] runs the due timers and
    answers the instruction count at which the interpreter looks again. *)
From S2P Require Import Prelude Word PpcState Timers MemCtrl Machine Mmu Exceptions SystemRegs.

(** ** Setting the time *)

(** The host's clock when the routine next reads it. *)
Definition at_host_time (n : Z) (m : machine) : machine := upd_vt (set_cpu_now_ns n) m.

(** [n1] and [n2] are the successive readings of the host's clock. *)
(* [cpu/ppc/ppcexec.cpp:377-391] *)
Definition set_virt_time_ns (n1 n2 : Z) (time_now : Z) (m : machine) : machine :=
  let m := if g_realtime (vt m)
           then upd_vt (set_g_nanoseconds_base (u64 (n1 - time_now - 5000))) m
           else upd_vt (fun v => set_icnt_time_offset_ns (time_now mod icnt_period_ns v)
                                   (set_g_icycles (time_now / icnt_period_ns v) v)) m in
  let m := at_host_time n2 m in
  let time_new := get_virt_time_ns m in
  if g_realtime (vt m) && (time_now <? time_new)
  then upd_vt (fun v => set_g_nanoseconds_base (u64 (g_nanoseconds_base v + u64 (2 * u64 (time_new - time_now)))) v) m
  else m.

(* [cpu/ppc/ppcexec.cpp:428-432] *)
Definition update_icnt_period (m : machine) : machine :=
  upd_vt (fun v => set_icnt_period_ns
    (Z.max 1 (Z.shiftr (u64 (Z.shiftl (icnt_default_period_ns v) (icnt_factor v))) 4)) v) m.

(* [cpu/ppc/ppcexec.cpp:434-443] *)
Definition increment_icnt_factor (n1 n2 : Z) (m : machine) : Z * machine :=
  let time_now := get_virt_time_ns m in
  let m := if icnt_factor (vt m) <? 31 then upd_vt (fun v => set_icnt_factor (icnt_factor v + 1) v) m else m in
  let m := update_icnt_period m in
  let m := set_virt_time_ns n1 n2 time_now m in
  let m := force_cycle_counter_reload m in
  (icnt_factor (vt m), m).

(* [cpu/ppc/ppcexec.cpp:445-455] *)
Definition decrement_icnt_factor (n1 n2 : Z) (m : machine) : Z * machine :=
  let m := if 0 <? icnt_factor (vt m) then
             let time_now := get_virt_time_ns m in
             let m := upd_vt (fun v => set_icnt_factor (icnt_factor v - 1) v) m in
             let m := update_icnt_period m in
             let m := set_virt_time_ns n1 n2 time_now m in
             force_cycle_counter_reload m
           else m in
  (icnt_factor (vt m), m).

(* [cpu/ppc/ppcexec.cpp:457-460] *)
Definition get_icnt_factor (m : machine) : Z := icnt_factor (vt m).

(* [cpu/ppc/ppcexec.cpp:462-469] *)
Definition toggle_g_realtime (n1 n2 : Z) (m : machine) : bool * machine :=
  let time_now := get_virt_time_ns m in
  let m := upd_vt (fun v => set_g_realtime (negb (g_realtime v)) v) m in
  let m := set_virt_time_ns n1 n2 time_now m in
  let m := force_cycle_counter_reload m in
  (g_realtime (vt m), m).

(** ** The deadline of the interpreter *)

(* [cpu/ppc/ppcexec.cpp:393-393] *)
Definition TIMER_POLL_INTERVAL_NS := 500000.

(** The count from the deadline [process_timers] answered, [0] for none. *)
(* [cpu/ppc/ppcexec.cpp:399-419 next_ns] *)
Definition next_cycles (next_ns : Z) (m : machine) : Z :=
  let v := vt m in
  if g_realtime v then
    let time_now := get_virt_time_ns m in
    let delay_ns := if negb (next_ns =? 0) then (if time_now <? next_ns then u64 (next_ns - time_now) else 0)
                    else TIMER_POLL_INTERVAL_NS in
    u64 (g_icycles v + Z.min delay_ns TIMER_POLL_INTERVAL_NS / icnt_period_ns v + 1)
  else
    let next_ns := if next_ns =? 0 then u64 (get_virt_time_ns m + TIMER_POLL_INTERVAL_NS) else next_ns in
    u64 (u64 (next_ns - Z.min next_ns (icnt_time_offset_ns v)) / icnt_period_ns v + 1).

Section Events.
Context `{Devices}.

(** [None] when the timers are not done within [fuel] callbacks. *)
(* [cpu/ppc/ppcexec.cpp:395-420] *)
Definition process_events (fuel : nat) : M machine (option Z) :=
  modify (upd_ex (set_exec_timer false)) ;;;
  next_ns <- process_timers fuel ;;
  match next_ns with
  | Some next_ns => gets (fun m => Some (next_cycles next_ns m))
  | None => ret None
  end.
End Events.

(** ** Virtual time is kept when the rate changes *)

Record clock_ok (v : virtual_time) : Prop := mk_clock_ok {
  co_period : 1 <= icnt_period_ns v < 2 ^ 64;
  co_cycles : 0 <= g_icycles v < 2 ^ 64;
  co_offset : 0 <= icnt_time_offset_ns v < 2 ^ 64;
  co_default : 1 <= icnt_default_period_ns v < 2 ^ 32;
  co_factor : 0 <= icnt_factor v <= 31
}.

Lemma virt_time_cycles m : g_realtime (vt m) = false ->
  get_virt_time_ns m = (icnt_time_offset_ns (vt m) + g_icycles (vt m) * icnt_period_ns (vt m)) mod 2 ^ 64.
Proof.
  intros E. unfold get_virt_time_ns, uwrap. rewrite E, Z.add_mod_idemp_r by lia. done.
Qed.

(** With instructions as the clock, setting the time is exact. *)
Lemma set_virt_time_exact n1 n2 t m : g_realtime (vt m) = false -> clock_ok (vt m) -> 0 <= t < 2 ^ 64 ->
  let m' := set_virt_time_ns n1 n2 t m in
  get_virt_time_ns m' = t /\ clock_ok (vt m') /\ g_realtime (vt m') = false /\
  icnt_time_offset_ns (vt m') < icnt_period_ns (vt m') /\ icnt_period_ns (vt m') = icnt_period_ns (vt m) /\
  icnt_factor (vt m') = icnt_factor (vt m).
Proof.
  intros Hr [Hp Hc Ho Hd Hf] Ht. unfold set_virt_time_ns. rewrite Hr.
  set (v1 := set_cpu_now_ns n2 _ : virtual_time) || set (m1 := at_host_time n2 _). cbv zeta.
  assert (g_realtime (vt m1) = false) as Hr1 by (cbn; done). rewrite Hr1. cbn [andb].
  split.
  - rewrite virt_time_cycles by done. unfold m1. cbn.
    replace (_ + _) with t by (rewrite (Z.div_mod t (icnt_period_ns (vt m))) at 1; lia). apply Z.mod_small. lia.
  - unfold m1. cbn. split_and!; try done; [|zlia]. split; cbn; try lia; [split; [apply Z.div_pos; lia | zify; znia] | zlia].
Qed.

Lemma update_period_ok m : clock_ok (vt m) ->
  let m' := update_icnt_period m in
  clock_ok (vt m') /\ icnt_factor (vt m') = icnt_factor (vt m) /\ g_realtime (vt m') = g_realtime (vt m) /\
  icnt_period_ns (vt m') = Z.max 1 (icnt_default_period_ns (vt m) * 2 ^ icnt_factor (vt m) / 16).
Proof.
  intros [Hp Hc Ho Hd Hf]. cbv zeta.
  assert (icnt_period_ns (vt (update_icnt_period m)) =
    Z.max 1 (icnt_default_period_ns (vt m) * 2 ^ icnt_factor (vt m) / 16)) as E.
  { cbn. rewrite Z.shiftl_mul_pow2, Z.shiftr_div_pow2 by lia. change (2 ^ 4) with 16. do 2 f_equal. apply uwrap_small.
    pose proof (Z.pow_le_mono_r 2 (icnt_factor (vt m)) 31 ltac:(lia) ltac:(lia)).
    pose proof (Z.pow_pos_nonneg 2 (icnt_factor (vt m)) ltac:(lia) ltac:(lia)). split; [nia|].
    apply Z.le_lt_trans with ((2 ^ 32 - 1) * 2 ^ 31); [|by vm_compute]. apply Z.mul_le_mono_nonneg; lia. }
  split; [|by split_and!]. split; [|done..]. rewrite E.
  pose proof (Z.pow_le_mono_r 2 (icnt_factor (vt m)) 31 ltac:(lia) ltac:(lia)).
  pose proof (Z.pow_pos_nonneg 2 (icnt_factor (vt m)) ltac:(lia) ltac:(lia)).
  assert (icnt_default_period_ns (vt m) * 2 ^ icnt_factor (vt m) <= 2 ^ 32 * 2 ^ 31) by (apply Z.mul_le_mono_nonneg; lia).
  zlia.
Qed.

(** Entering real time reads the host's clock twice and corrects by twice the
    difference: time goes back by the 5000 ns that were meant to cover the call and
    by what the call took. *)
Lemma enter_realtime n1 n2 t m : g_realtime (vt m) = true -> 0 <= t -> n1 <= n2 -> t + 5000 + (n2 - n1) < 2 ^ 64 ->
  get_virt_time_ns (set_virt_time_ns n1 n2 t m) = u64 (t - 5000 - (n2 - n1)).
Proof.
  intros Hr Ht Hn Hb. unfold set_virt_time_ns. rewrite Hr. cbv zeta. set (m1 := at_host_time n2 _).
  assert (g_realtime (vt m1) = true) as Hr1 by done. rewrite Hr1. cbn [andb].
  assert (get_virt_time_ns m1 = t + 5000 + (n2 - n1)) as E1.
  { unfold get_virt_time_ns. rewrite Hr1. unfold m1. cbn. rewrite uwrap_sub_r. replace (n2 - _) with (t + 5000 + (n2 - n1)) by lia.
    apply uwrap_small. lia. }
  rewrite E1. destruct (Z.ltb_spec t (t + 5000 + (n2 - n1))); [|lia].
  unfold get_virt_time_ns, m1. cbn. rewrite Hr.
  rewrite (uwrap_small 64 (t + 5000 + (n2 - n1) - t)), uwrap_sub_r by lia.
  rewrite <- (uwrap_sub_r 64 n2 (_ + _)), uwrap_add_l, uwrap_add_r, uwrap_sub_r.
  apply (uwrap_eq_mod 64 _ _ 0). lia.
Qed.

(** C7: what the speed keys do to virtual time.  While instructions are the clock,
    incrementing or decrementing the rate - even at its two ends - leaves
    [get_virt_time_ns] as it was, keeps the period between 1 ns and its largest
    value without overflow, and answers the new factor; so does leaving real time,
    whatever the host's clock reads.  Entering real time moves it back by 5000 ns
    and the time between the two readings of the host's clock; and so does every
    speed key in real time, except the decrement of a factor that is already 0. *)
Theorem rate_change_keeps_time n1 n2 m : clock_ok (vt m) ->
  (g_realtime (vt m) = false ->
   let up := increment_icnt_factor n1 n2 m in let down := decrement_icnt_factor n1 n2 m in
   (get_virt_time_ns up.2 = get_virt_time_ns m /\ clock_ok (vt up.2) /\ up.1 = Z.min 31 (icnt_factor (vt m) + 1)) /\
   (get_virt_time_ns down.2 = get_virt_time_ns m /\ clock_ok (vt down.2) /\ down.1 = Z.max 0 (icnt_factor (vt m) - 1))) /\
  (g_realtime (vt m) = true ->
   let m' := (toggle_g_realtime n1 n2 m).2 in
   g_realtime (vt m') = false /\ get_virt_time_ns m' = get_virt_time_ns m /\ clock_ok (vt m')) /\
  (g_realtime (vt m) = false -> n1 <= n2 -> get_virt_time_ns m + 5000 + (n2 - n1) < 2 ^ 64 ->
   get_virt_time_ns (toggle_g_realtime n1 n2 m).2 = u64 (get_virt_time_ns m - 5000 - (n2 - n1))) /\
  (g_realtime (vt m) = true -> n1 <= n2 -> get_virt_time_ns m + 5000 + (n2 - n1) < 2 ^ 64 ->
   get_virt_time_ns (increment_icnt_factor n1 n2 m).2 = u64 (get_virt_time_ns m - 5000 - (n2 - n1)) /\
   get_virt_time_ns (decrement_icnt_factor n1 n2 m).2 =
     if icnt_factor (vt m) =? 0 then get_virt_time_ns m else u64 (get_virt_time_ns m - 5000 - (n2 - n1))).
Proof.
  intros Hm. pose proof (virt_time_range m) as Ht.
  assert (forall f, let m1 := upd_vt (set_icnt_factor f) m in 0 <= f <= 31 -> g_realtime (vt m) = false ->
    let m2 := force_cycle_counter_reload (set_virt_time_ns n1 n2 (get_virt_time_ns m) (update_icnt_period m1)) in
    get_virt_time_ns m2 = get_virt_time_ns m /\ clock_ok (vt m2) /\ icnt_factor (vt m2) = f) as Hkey.
  { intros f m1 Hf Hr m2. assert (clock_ok (vt m1)) as H1 by (destruct Hm; by split).
    destruct (update_period_ok m1 H1) as (H2 & E2 & R2 & _).
    destruct (set_virt_time_exact n1 n2 (get_virt_time_ns m) (update_icnt_period m1)) as (T & C & _ & _ & _ & F); [by rewrite R2|done..|].
    unfold m2, force_cycle_counter_reload. cbn. split; [exact T|]. split; [exact C|]. by rewrite F, E2. }
  pose proof (co_factor _ Hm) as Hf. split; [|split; [|split]].
  - intros Hr. cbv zeta. unfold increment_icnt_factor, decrement_icnt_factor. cbv zeta. cbn [fst snd]. split.
    + destruct (Z.ltb_spec (icnt_factor (vt m)) 31).
      * destruct (Hkey (icnt_factor (vt m) + 1) ltac:(lia) Hr) as (A & B & C). split_and!; [exact A | exact B | etransitivity; [exact C | lia]].
      * destruct (Hkey (icnt_factor (vt m)) ltac:(lia) Hr) as (A & B & C).
        assert (upd_vt (set_icnt_factor (icnt_factor (vt m))) m = m) as E by (by destruct m as [? ? ? [] ? ? ? ? ? ?]).
        rewrite E in A, B, C. split_and!; [exact A | exact B | etransitivity; [exact C | lia]].
    + destruct (Z.ltb_spec 0 (icnt_factor (vt m))); cbn [fst snd].
      * destruct (Hkey (icnt_factor (vt m) - 1) ltac:(lia) Hr) as (A & B & C). split_and!; [exact A | exact B | etransitivity; [exact C | lia]].
      * split_and!; [done | done | lia].
  - intros Hr. unfold toggle_g_realtime. cbv zeta. cbn [fst snd]. set (m1 := upd_vt _ m).
    assert (clock_ok (vt m1) /\ g_realtime (vt m1) = false) as [H1 R1] by (split; [destruct Hm; by split | cbn; by rewrite Hr]).
    destruct (set_virt_time_exact n1 n2 (get_virt_time_ns m) m1 R1 H1 Ht) as (T & C & R & _).
    split_and!; [exact R | exact T | exact C].
  - intros Hr Hn Hb. apply (enter_realtime n1 n2 _ (upd_vt (fun v => set_g_realtime (negb (g_realtime v)) v) m));
      [cbn; by rewrite Hr | lia | done..].
  - intros Hr Hn Hb. split.
    + unfold increment_icnt_factor. cbv zeta. cbn [snd].
      match goal with |- get_virt_time_ns (force_cycle_counter_reload ?x) = _ => change (get_virt_time_ns x = u64 (get_virt_time_ns m - 5000 - (n2 - n1))) end.
      apply (enter_realtime n1 n2 (get_virt_time_ns m)); [by destruct (icnt_factor (vt m) <? 31) | lia | done | done].
    + unfold decrement_icnt_factor. cbv zeta. cbn [snd].
      destruct (Z.ltb_spec 0 (icnt_factor (vt m))), (Z.eqb_spec (icnt_factor (vt m)) 0); try (exfalso; lia); [|done].
      match goal with |- get_virt_time_ns (force_cycle_counter_reload ?x) = _ => change (get_virt_time_ns x = u64 (get_virt_time_ns m - 5000 - (n2 - n1))) end.
      apply (enter_realtime n1 n2 (get_virt_time_ns m)); [done | lia | done | done].
Qed.

Lemma rate_change_keeps_time_witness : clock_ok (vt demo_machine) /\
  get_virt_time_ns (increment_icnt_factor 0 0 demo_machine).2 = get_virt_time_ns demo_machine.
Proof.
  assert (clock_ok (vt demo_machine)) as H by (split; cbn; lia). split; [exact H|].
  exact (proj1 (proj1 (proj1 (rate_change_keeps_time 0 0 demo_machine H) eq_refl))).
Defined.

(** ** The deadline *)

(** Virtual time when [g] instructions have been executed, at the rate of [v]. *)
Definition time_at (g : Z) (v : virtual_time) : Z := icnt_time_offset_ns v + g * icnt_period_ns v.

Lemma next_cycles_bound next_ns m : clock_ok (vt m) -> 0 <= next_ns < 2 ^ 63 ->
  let deadline := if next_ns =? 0 then get_virt_time_ns m + 500000 else next_ns in
  let v := vt m in
  (g_realtime v = false -> deadline < 2 ^ 63 ->
   let g := next_cycles next_ns m in
   1 <= g /\ Z.max deadline (icnt_time_offset_ns v) < time_at g v <= Z.max deadline (icnt_time_offset_ns v) + icnt_period_ns v) /\
  (g_realtime v = true -> g_icycles v < 2 ^ 63 ->
   g_icycles v < next_cycles next_ns m <= g_icycles v + 500000 / icnt_period_ns v + 1).
Proof.
  intros [Hp Hc Ho Hd Hf] Hn. cbv zeta. pose proof (virt_time_range m). split.
  - intros Hr Hb. unfold next_cycles. cbv zeta. rewrite Hr.
    assert ((if next_ns =? 0 then u64 (get_virt_time_ns m + TIMER_POLL_INTERVAL_NS) else next_ns) =
      if next_ns =? 0 then get_virt_time_ns m + 500000 else next_ns) as ->.
    { destruct (_ =? 0); [|done]. apply uwrap_small. unfold TIMER_POLL_INTERVAL_NS. lia. }
    set (d := if next_ns =? 0 then _ else _) in *.
    assert (0 <= d) by (unfold d; case_match; lia).
    set (p := icnt_period_ns (vt m)) in *. set (o := icnt_time_offset_ns (vt m)) in *.
    rewrite (uwrap_small 64 (d - Z.min d o)) by lia.
    assert (0 <= (d - Z.min d o) / p <= d - Z.min d o) by (split; [apply Z.div_pos; lia | apply Z.div_le_upper_bound; nia]).
    rewrite uwrap_small by lia. unfold time_at. fold p o.
    pose proof (Z.div_mod (d - Z.min d o) p ltac:(lia)). pose proof (Z.mod_pos_bound (d - Z.min d o) p ltac:(lia)).
    split; [lia | nia].
  - intros Hr Hb. unfold next_cycles. cbv zeta. rewrite Hr.
    set (delay := if negb _ then _ else _). assert (0 <= delay) by (unfold delay, TIMER_POLL_INTERVAL_NS; repeat case_match; try lia; apply u64_range).
    unfold TIMER_POLL_INTERVAL_NS. set (q := Z.min delay 500000 / icnt_period_ns (vt m)).
    assert (0 <= q <= 500000 / icnt_period_ns (vt m)) by (split; [apply Z.div_pos; lia | apply Z.div_le_mono; lia]).
    assert (500000 / icnt_period_ns (vt m) <= 500000) by (apply Z.div_le_upper_bound; nia).
    rewrite uwrap_small; lia.
Qed.

(** When the interpreter looks at the timers again.  With instructions as the
    clock, the count it is given is the first at which virtual time is past the next
    timer's deadline (or past the next half millisecond, when no timer is queued):
    it is past it there and by one instruction at most.  With the host's clock the
    count is ahead, and by no more than half a millisecond of instructions. *)
Theorem next_cycles_deadline next_ns m : clock_ok (vt m) -> 0 <= next_ns < 2 ^ 63 ->
  let deadline := if next_ns =? 0 then get_virt_time_ns m + 500000 else next_ns in
  let v := vt m in
  (g_realtime v = false -> deadline < 2 ^ 63 ->
   let g := next_cycles next_ns m in
   1 <= g /\ Z.max deadline (icnt_time_offset_ns v) < time_at g v <= Z.max deadline (icnt_time_offset_ns v) + icnt_period_ns v) /\
  (g_realtime v = true -> g_icycles v < 2 ^ 63 ->
   g_icycles v < next_cycles next_ns m <= g_icycles v + 500000 / icnt_period_ns v + 1).
Proof. exact (next_cycles_bound next_ns m). Qed.

Lemma next_cycles_deadline_witness : clock_ok (vt demo_machine) /\ next_cycles 1000 demo_machine = 63 /\
  1000 < time_at (next_cycles 1000 demo_machine) (vt demo_machine) <= 1016.
Proof.
  assert (clock_ok (vt demo_machine)) as H by (split; cbn; lia). split; [exact H|]. split; [reflexivity|].
  exact (proj2 (proj1 (next_cycles_deadline 1000 demo_machine H ltac:(lia)) eq_refl ltac:(reflexivity))).
Defined.
