(* ===== verification/Reset.v ===== *)
(** * Reset of the processor (cpu/ppc/ppcexec.cpp)

    [ppc_cpu_init] and what it establishes, from whatever a previous machine of the
    same process left in the globals. *)
From S2P Require Import Prelude Word Float PpcState Timers MemCtrl HostMem Machine Mmu MmuBat Exceptions Fpu SystemRegs Invariant Decode Clock.

Module PPC_VER.
(* [cpu/ppc/ppcemu.h:143-143] *)
Definition MPC601 := 0x00010001.
(* [cpu/ppc/ppcemu.h:144-144] *)
Definition MPC603 := 0x00030001.
(* [cpu/ppc/ppcemu.h:145-145] *)
Definition MPC604 := 0x00040001.
(* [cpu/ppc/ppcemu.h:146-146] *)
Definition MPC603E := 0x00060101.
(* [cpu/ppc/ppcemu.h:147-147] *)
Definition MPC603EV := 0x00070101.
(* [cpu/ppc/ppcemu.h:148-148] *)
Definition MPC750 := 0x00080200.
(* [cpu/ppc/ppcemu.h:149-149] *)
Definition MPC604E := 0x00090202.
(* [cpu/ppc/ppcemu.h:150-150] *)
Definition MPC970MP := 0x00440100.
End PPC_VER.

(* [cpu/ppc/ppcexec.cpp:55-58] *)
Definition HID0_POWER_SAVE_MASK := Z.lor (Z.lor 0x00800000 0x00400000) 0x00200000.

(* [core/timermanager.h:34-34] *)
Definition NS_PER_SEC := 1000000000.

(** The processor model: the flags and the power-saving mode. *)
(* [cpu/ppc/ppcexec.cpp:1047-1070 is_601] *)
Definition init_config (cpu_version : Z) (do_include_601 : bool) : cpu_config :=
  let is_601 := Z.shiftr cpu_version 16 =? 1 in
  let is_603 := (cpu_version =? PPC_VER.MPC603) || (cpu_version =? PPC_VER.MPC603E) || (cpu_version =? PPC_VER.MPC603EV) in
  let include_601 := negb is_601 && do_include_601 in
  let '(mode, mask) :=
    if (cpu_version =? PPC_VER.MPC603) || (cpu_version =? PPC_VER.MPC603E) || (cpu_version =? PPC_VER.MPC603EV) ||
       (cpu_version =? PPC_VER.MPC750) then (PowHID0, HID0_POWER_SAVE_MASK)
    else if (cpu_version =? PPC_VER.MPC604) || (cpu_version =? PPC_VER.MPC604E) then (PowUnconditional, 0)
    else (PowNone, 0) in
  mk_cpu_config is_601 is_603 include_601 mode mask.

(** What [initialize_ppc_opcode_table] looks at when it is called. *)
Definition init_tables (cpu_version : Z) (do_include_601 : bool) : table_config :=
  let c := init_config cpu_version do_include_601 in
  mk_table_config (is_601 c) (include_601 c) (cpu_version =? PPC_VER.MPC970MP).

(** [for (x = ...; x >> 32; x >>= 1) tbr_freq_shift++;] *)
(* [cpu/ppc/ppcexec.cpp:1096-1097 tbr_freq_shift] *)
Fixpoint freq_loop (fuel : nat) (x shift : Z) : option (Z * Z) :=
  if Z.shiftr x 32 =? 0 then Some (x, shift) else
  match fuel with
  | O => None
  | S n => freq_loop n (Z.shiftr x 1) (shift + 1)
  end.

(** The time base: the frequency as a fraction of 1 GHz and the period.  [None] only
    when the loop is longer than its fuel, which three iterations never are. *)
(* [cpu/ppc/ppcexec.cpp:1089-1099 tbr_wr_timestamp] *)
Definition init_timebase (is_601 : bool) (tb_freq : Z) (b : timebase) : option timebase :=
  let b := set_tbr_wr_value 0 (set_rtc_timestamp 0 (set_tbr_wr_timestamp 0 b)) in
  let tb_freq := if is_601 then u64 (Z.shiftl tb_freq 7) else tb_freq in
  match freq_loop 3 (u64 (Z.shiftl tb_freq 32) / NS_PER_SEC) 0 with
  | Some (x, shift) =>
      Some (set_tbr_period_ns (Z.shiftl NS_PER_SEC 32 / tb_freq)
             (set_tbr_freq_ghz (u32 x) (set_tbr_freq_shift shift b)))
  | None => None
  end.

(* [cpu/ppc/ppcexec.cpp:1081-1087 g_icycles] *)
Definition init_clock (instruction_period_ns : Z) (m : machine) : machine :=
  update_icnt_period (upd_vt (fun v =>
    set_icnt_time_offset_ns 0 (set_icnt_default_period_ns (Z.max 1 instruction_period_ns)
      (set_icnt_factor 4 (set_g_icycles 0 (set_g_nanoseconds_base (u64 (cpu_now_ns v)) v))))) m).

(** [ppc_opcode_grabber], the pending exceptions and [rtc_lo], [rtc_hi] and
    [dec_wr_timestamp] are not written. *)
(* [cpu/ppc/ppcexec.cpp:1037-1130] *)
Definition ppc_cpu_init (mem_ctrl : MemCtrlBase) (cpu_version : Z) (do_include_601 : bool) (tb_freq instruction_period_ns : Z)
    (m : machine) : option machine :=
  let m := set_mem_ctrl mem_ctrl m in
  let m := upd_ex (set_int_pin false) m in
  let m := set_cpu ppc_zero m in
  let m := set_host_rounding_mode 0 m in
  let m := upd_cpu (set_spr SPR.PVR cpu_version) m in
  let m := set_cfg (init_config cpu_version do_include_601) m in
  let m := upd_ex (set_ppc_shadow_gprs ∅) m in
  let m := init_clock instruction_period_ns m in
  match init_timebase (is_601 (cfg m)) tb_freq (tb m) with
  | None => None
  | Some b =>
      let m := set_tb b m in
      let m := upd_ex (fun e => set_exec_timer false (set_exec_flags 0 e)) m in
      let m := upd_tb (set_dec_wr_value 0) m in
      let '(new_msr_val, m) :=
        if is_601 (cfg m) then (MSR.ME + MSR.IP, m)
        else let m := upd_cpu (set_spr SPR.DEC_S 0xFFFFFFFF) m in
             (MSR.IP, ppc_change_endian (test MSR.IP MSR.LE) m) in
      let m := ppc_msr_did_change new_msr_val new_msr_val false m in
      let m := ppc_mmu_init m in
      Some (upd_cpu (with_pc 0xFFF00100) m)
  end.

(** ** What reset leaves alone in the MMU's part *)

(** The globals outside of the MMU that its routines do not write. *)
Definition env_frame (m m' : machine) : Prop :=
  vt m' = vt m /\ tb m' = tb m /\ cfg m' = cfg m /\ fpu_grabber (ex m') = fpu_grabber (ex m) /\ fenv m' = fenv m.

Lemma env_refl m : env_frame m m.
Proof. done. Qed.
Lemma env_trans m1 m2 m3 : env_frame m1 m2 -> env_frame m2 m3 -> env_frame m1 m3.
Proof. unfold env_frame. intuition congruence. Qed.

Lemma env_schedule t v m : env_frame m (schedule_tlb_invalidation t v m).
Proof. unfold schedule_tlb_invalidation. destruct t; cbn; repeat case_match; done. Qed.

Lemma env_mmu f m : env_frame m (upd_mmu f m).
Proof. done. Qed.

Lemma env_bat_update r m : env_frame m (ibat_update r m) /\ env_frame m (dbat_update r m).
Proof.
  unfold ibat_update, dbat_update, mpc601_bat_update, mpc601_dbat_update, ppc_ibat_update, ppc_dbat_update.
  destruct (is_601 (cfg m)); cbv zeta; try destruct (test _ 0x40); split;
    repeat (eapply env_trans; [|apply env_schedule]); repeat (eapply env_trans; [|apply env_mmu]); apply env_refl.
Qed.

Lemma env_change_mode m : env_frame m (mmu_change_mode m).
Proof. unfold mmu_change_mode. cbv zeta. repeat case_match; done. Qed.

Lemma env_fold (f : Z -> machine -> machine) l m : (forall r m, env_frame m (f r m)) ->
  env_frame m (fold_left (fun m r => f r m) l m).
Proof.
  intros Hf. revert m. induction l as [|r l IH]; intros m; cbn; [done|]. eapply env_trans; [apply Hf | apply IH].
Qed.

Lemma env_mmu_init m : env_frame m (ppc_mmu_init m).
Proof.
  rewrite ppc_mmu_init_eq. unfold tlbs_emptied, bats_decoded, mmu_cleared.
  eapply env_trans; [|apply env_change_mode]. eapply env_trans; [|apply env_mmu].
  eapply env_trans; [|apply env_fold; intros; apply env_bat_update].
  eapply env_trans; [|apply env_fold; intros; apply env_bat_update].
  repeat (eapply env_trans; [|apply env_mmu]). apply env_refl.
Qed.

(** ** Reset establishes the invariant *)

Lemma freq_loop_spec n x k : 0 <= x < 2 ^ (32 + Z.of_nat n) -> 0 <= k ->
  exists j, freq_loop n x k = Some (x / 2 ^ j, k + j) /\ 0 <= j <= Z.of_nat n /\ 0 <= x / 2 ^ j < 2 ^ 32 /\
    (0 < j -> 2 ^ 31 <= x / 2 ^ j).
Proof.
  revert x k. induction n as [|n IH]; intros x k Hx Hk.
  - exists 0. cbn [freq_loop]. rewrite Z.shiftr_div_pow2, (Z.div_small x) by lia. cbn. rewrite Z.div_1_r, Z.add_0_r.
    split_and!; done || lia.
  - cbn [freq_loop]. rewrite Z.shiftr_div_pow2 by lia. destruct (Z.eqb_spec (x / 2 ^ 32) 0) as [E|E].
    + exists 0. change (2 ^ 0) with 1. rewrite Z.div_1_r, Z.add_0_r.
      assert (x < 2 ^ 32) by (apply Z.div_small_iff in E; lia). split_and!; done || lia.
    + rewrite Z.shiftr_div_pow2 by lia. change (2 ^ 1) with 2.
      rewrite Nat2Z.inj_succ in Hx. replace (32 + Z.succ (Z.of_nat n)) with (Z.succ (32 + Z.of_nat n)) in Hx by lia.
      rewrite Z.pow_succ_r in Hx by lia.
      assert (2 ^ 32 <= x) by (destruct (Z.le_gt_cases (2 ^ 32) x); [done | destruct E; apply Z.div_small; lia]).
      destruct (IH (x / 2) (k + 1)) as (j & -> & Hj & Hb & Hl); [zlia | lia|].
      exists (j + 1). rewrite Z.pow_add_r by lia. change (2 ^ 1) with 2. rewrite (Z.mul_comm (2 ^ j)), <- Z.div_div by lia.
      split; [do 2 f_equal; lia|]. split; [lia|]. split; [done|]. intros _.
      destruct (Z.eq_dec j 0) as [->|]; [|apply Hl; lia]. change (2 ^ 0) with 1. rewrite Z.div_1_r. zlia.
Qed.

(** The frequency the time base is driven with. *)
Definition driving_frequency (cpu_version tb_freq : Z) : Z :=
  if Z.shiftr cpu_version 16 =? 1 then tb_freq * 2 ^ 7 else tb_freq.

Lemma init_timebase_ok (is601 : bool) (tb_freq : Z) b : tb_ok b -> let f := if is601 then tb_freq * 2 ^ 7 else tb_freq in
  0 < tb_freq -> f < 2 ^ 32 ->
  exists b', init_timebase is601 tb_freq b = Some b' /\ tb_ok b' /\ tbr_wr_value b' = 0 /\ tbr_wr_timestamp b' = 0 /\
    tbr_period_ns b' = 10 ^ 9 * 2 ^ 32 / f /\ 0 <= tbr_freq_shift b' <= 3 /\
    tbr_freq_ghz b' = f * 2 ^ 32 / 10 ^ 9 / 2 ^ tbr_freq_shift b'.
Proof.
  intros [B1 B2 B3 B4 B5 B6 B7] f Hp Hf. unfold init_timebase.
  assert ((if is601 then u64 (Z.shiftl tb_freq 7) else tb_freq) = f) as ->.
  { unfold f in *. destruct is601; [|done]. rewrite Z.shiftl_mul_pow2 by lia. apply uwrap_small. lia. }
  assert (0 < f) by (unfold f in *; destruct is601; lia).
  rewrite Z.shiftl_mul_pow2 by lia. rewrite (uwrap_small 64) by lia. unfold NS_PER_SEC.
  destruct (freq_loop_spec 3 (f * 2 ^ 32 / 1000000000) 0) as (j & -> & Hj & Hb & _); [zlia | lia|].
  eexists. split; [reflexivity|]. rewrite Z.add_0_l, (uwrap_small 32) by lia.
  split; [|cbn [tbr_wr_value tbr_wr_timestamp tbr_period_ns tbr_freq_shift tbr_freq_ghz set_tbr_period_ns set_tbr_freq_ghz
    set_tbr_freq_shift set_tbr_wr_value set_rtc_timestamp set_tbr_wr_timestamp];
    rewrite Z.shiftl_mul_pow2 by lia; split_and!; done || lia].
  split; cbn [tbr_wr_value tbr_wr_timestamp tbr_period_ns tbr_freq_shift tbr_freq_ghz set_tbr_period_ns set_tbr_freq_ghz
    set_tbr_freq_shift set_tbr_wr_value set_rtc_timestamp set_tbr_wr_timestamp rtc_lo rtc_hi dec_wr_value]; try done; try lia.
  rewrite Z.shiftl_mul_pow2 by lia. split; [apply Z.div_pos; lia|].
  apply Z.le_lt_trans with (1000000000 * 2 ^ 32); [apply Z.div_le_upper_bound; nia | by vm_compute].
Qed.

Lemma init_clock_ok period m : 0 <= period < 2 ^ 32 ->
  clock_ok (vt (init_clock period m)) /\ get_virt_time_ns (init_clock period m) = 0.
Proof.
  intros Hp. unfold init_clock. set (m1 := upd_vt _ m).
  destruct (update_period_ok (upd_vt (set_icnt_period_ns 1) m1)) as (H1 & _).
  { unfold m1. split; cbn; lia. }
  split; [exact H1|]. unfold get_virt_time_ns, m1. cbn.
  destruct (g_realtime (vt m)); [|done]. rewrite uwrap_sub_r. by rewrite Z.sub_diag.
Qed.

(** The machine just before the MMU is reset. *)
Definition before_mmu (mem : MemCtrlBase) (cpu_version : Z) (inc : bool) (period : Z) (b : timebase) (m : machine) : machine :=
  let is601 := Z.shiftr cpu_version 16 =? 1 in
  let s := set_spr SPR.PVR cpu_version ppc_zero in
  let s := if is601 then with_msr (MSR.ME + MSR.IP) s else with_msr MSR.IP (set_spr SPR.DEC_S 0xFFFFFFFF s) in
  mk_machine s (init_config cpu_version inc)
    (set_exec_timer false (set_exec_flags 0 (set_ppc_shadow_gprs ∅ (set_int_pin false (ex m)))))
    (vt (init_clock period m)) (set_dec_wr_value 0 b) (mmu m) mem (timers m) (io_log m)
    (mk_fp_env 0 (fe_except (fenv m))).

Lemma config_601 v inc : is_601 (init_config v inc) = (Z.shiftr v 16 =? 1).
Proof. unfold init_config. by repeat case_match. Qed.

Lemma cpu_init_eq mem v inc f period m b : init_timebase (Z.shiftr v 16 =? 1) f (tb m) = Some b ->
  ppc_cpu_init mem v inc f period m = Some (upd_cpu (with_pc 0xFFF00100) (ppc_mmu_init (before_mmu mem v inc period b m))).
Proof.
  intros E. unfold ppc_cpu_init. cbv zeta.
  match goal with |- context [init_timebase (is_601 (cfg ?x)) f (tb ?x)] =>
    assert (is_601 (cfg x) = (Z.shiftr v 16 =? 1)) as E1 by exact (config_601 v inc);
    assert (tb x = tb m) as E2 by done; assert (cfg x = init_config v inc) as E3 by done; rewrite E1, E2, E end.
  cbn [cfg upd_tb upd_ex set_tb set_ex]. rewrite E3, config_601. unfold before_mmu. cbv zeta.
  destruct (Z.shiftr v 16 =? 1); cbn [fst snd]; unfold ppc_msr_did_change; rewrite Z.lxor_nilpotent;
    rewrite !andb_false_r; change (test 0 MSR.FP) with false; cbv iota; done.
Qed.

Lemma before_mmu_ok mem v inc period b m : machine_ok m -> 0 <= v < 2 ^ 32 -> tb_ok b ->
  machine_ok (before_mmu mem v inc period b m).
Proof.
  intros [H1 H2 H3 H4 H5] Hv Hb. split; cbn [cpu ex tb before_mmu ppc_next_instruction_address exec_flags ppc_shadow_gprs
    set_exec_timer set_exec_flags set_ppc_shadow_gprs set_int_pin]; try done.
  - assert (ppc_ok (set_spr SPR.PVR v ppc_zero)) as Hs by (apply set_spr_ok; [exact ppc_zero_ok | done]).
    case_match; [apply with_msr_ok; [done | by vm_compute]|]. apply with_msr_ok; [apply set_spr_ok; [done | lia] | by vm_compute].
  - destruct Hb. by split.
Qed.

(** C4: reset of the processor.  Whatever the previous machine of the process left
    behind, [ppc_cpu_init] ends and establishes the invariant of the machine with
    empty registers, PVR and MSR set for the model and the program counter at the
    reset vector; virtual time starts at 0 with a positive period; and the time base
    runs at the driving frequency: [tbr_freq_ghz] and [tbr_freq_shift] are the
    fraction of 1 GHz cut to 32 bits.  The one thing carried over is which opcode
    table is in use. *)
Theorem cpu_init_establishes mem v inc tb_freq period m : machine_ok m -> timers_wf (timers m) ->
  file_ok 8 (host_mem mem) -> 0 <= v < 2 ^ 32 -> 0 <= period < 2 ^ 32 ->
  0 < tb_freq -> driving_frequency v tb_freq < 2 ^ 32 ->
  exists m', ppc_cpu_init mem v inc tb_freq period m = Some m' /\ machine_inv m' /\
    (let is601 := Z.shiftr v 16 =? 1 in let s := set_spr SPR.PVR v ppc_zero in
     cpu m' = with_pc 0xFFF00100 (if is601 then with_msr (MSR.ME + MSR.IP) s
                                  else with_msr MSR.IP (set_spr SPR.DEC_S 0xFFFFFFFF s))) /\
    cfg m' = init_config v inc /\ (clock_ok (vt m') /\ get_virt_time_ns m' = 0) /\
    (let f := driving_frequency v tb_freq in let b := tb m' in
     0 <= tbr_freq_shift b <= 3 /\
     tbr_freq_ghz b * 2 ^ tbr_freq_shift b <= f * 2 ^ 32 / 10 ^ 9 < (tbr_freq_ghz b + 1) * 2 ^ tbr_freq_shift b /\
     tbr_period_ns b = 10 ^ 9 * 2 ^ 32 / f) /\
    fpu_grabber (ex m') = fpu_grabber (ex m).
Proof.
  intros Hok Ht Hm Hv Hp Hf Hd.
  destruct (init_timebase_ok (Z.shiftr v 16 =? 1) tb_freq (tb m)) as (b & Eb & Hb & W1 & W2 & Wp & Ws & Wg); [apply Hok | done..|].
  destruct (mmu_init_effect (before_mmu mem v inc period b m)) as (Hi & _ & _ & Ec & _);
    [by apply before_mmu_ok | exact Ht | exact Hm|].
  destruct (env_mmu_init (before_mmu mem v inc period b m)) as (Ev & Et & Ecf & Eg & _).
  destruct (init_clock_ok period m Hp) as [Hc Hz].
  exists (upd_cpu (with_pc 0xFFF00100) (ppc_mmu_init (before_mmu mem v inc period b m))).
  split; [by apply cpu_init_eq|]. revert Hi Ec Ev Et Ecf Eg. generalize (ppc_mmu_init (before_mmu mem v inc period b m)).
  intros m2 [Hi1 Hi2] Ec Ev Et Ecf Eg. split.
  { split; [apply mok_cpu; [done|]; destruct (mo_cpu _ Hi1); by split | by apply (si_frame m2)]. }
  split; [cbn [cpu upd_cpu set_cpu]; by rewrite Ec|]. split; [exact Ecf|]. split.
  { split; [cbn [vt upd_cpu set_cpu]; by rewrite Ev|]. rewrite <- Hz. unfold get_virt_time_ns. cbn [vt upd_cpu set_cpu]. by rewrite Ev. }
  split; [|exact Eg]. cbn [tb upd_cpu set_cpu]. rewrite Et. cbn [tb before_mmu set_dec_wr_value tbr_freq_shift tbr_freq_ghz tbr_period_ns].
  unfold driving_frequency. split; [done|]. split; [|done]. rewrite Wg.
  pose proof (Z.pow_pos_nonneg 2 (tbr_freq_shift b) ltac:(lia) ltac:(lia)).
  set (x := _ / 10 ^ 9). pose proof (Z.div_mod x (2 ^ tbr_freq_shift b) ltac:(lia)). pose proof (Z.mod_pos_bound x (2 ^ tbr_freq_shift b) ltac:(lia)).
  nia.
Qed.

(** A 750 with a 25 MHz bus, after a machine that ran with the FPU enabled. *)
Definition previous_machine : machine := upd_ex (set_fpu_grabber true) demo_machine.

Lemma cpu_init_establishes_witness :
  exists m', ppc_cpu_init empty_ctrl PPC_VER.MPC750 false 25000000 16 previous_machine = Some m' /\ machine_inv m' /\
    pc (cpu m') = 0xFFF00100 /\ fpu_grabber (ex m') = true /\ test (msr (cpu m')) MSR.FP = false.
Proof.
  destruct (cpu_init_establishes empty_ctrl PPC_VER.MPC750 false 25000000 16 previous_machine) as (m' & E & Hi & Hc & _ & _ & _ & Hg).
  - destruct demo_machine_ok. by split.
  - exact empty_timers_wf.
  - exact demo_memory_ok.
  - split; by vm_compute.
  - lia.
  - lia.
  - by vm_compute.
  - exists m'. split; [exact E|]. split; [exact Hi|]. rewrite Hc. split; [reflexivity|]. split; [exact Hg | reflexivity].
Defined.
