(* ===== verification/Exec.v ===== *)
(** * The interpreter loop and reset (cpu/ppc/ppcexec.cpp)

    [ppc_exec_inner] is a loop over [iteration], one instruction with its events
    and the computation of where execution goes on; [run_outer] is the code around
    it, which an exception re-enters through [setjmp].  The host pointer [pc_real]
    is an address of the host memory of [HostMem].  Loops take fuel and answer
    [None] when it runs out.  The build is big-endian
    ([SUPPORTS_PPC_LITTLE_ENDIAN_MODE] is off). *)
From S2P Require Import Prelude Word Float PpcState Timers MemCtrl HostMem Machine Mmu MmuBat Exceptions Translate Fpu SystemRegs Decode Clock.

(* [cpu/ppc/ppcmmu.h:84-84] *)
Definition PPC_PAGE_SIZE := 4096.
(* [cpu/ppc/ppcmmu.h:85-85] *)
Definition PPC_PAGE_MASK := 0xFFFFF000.

(** ** One iteration *)

(* [cpu/ppc/ppcexec.cpp:471-475] *)
Inductive ppc_exec_type_t := main | until | debug.

(** The locals of the loop. *)
(* [cpu/ppc/ppcexec.cpp:481-485 max_cycles] *)
Record loop_state := mk_loop_state {
  max_cycles : Z;
  page_start : Z;
  eb_end : Z;
  opcode_grabber : bool;
  pc_real : Z
}.
Definition set_max_cycles (v : Z) (l : loop_state) : loop_state :=
  mk_loop_state v (page_start l) (eb_end l) (opcode_grabber l) (pc_real l).
Definition set_opcode_grabber (v : bool) (l : loop_state) : loop_state :=
  mk_loop_state (max_cycles l) (page_start l) (eb_end l) v (pc_real l).
Definition set_pc_real (v : Z) (l : loop_state) : loop_state :=
  mk_loop_state (max_cycles l) (page_start l) (eb_end l) (opcode_grabber l) v.

(** [page_start] and [pc_real] are not initialised: [eb_end = 0] makes the first
    iteration set them. *)
Definition enter_inner (m : machine) : loop_state := mk_loop_state 0 0 0 (fpu_grabber (ex m)) 0.

(** [for (a in page) ...]: the boundaries of the page of [eb_start] and its host
    address. *)
Definition execution_block (eb_start : Z) (l : loop_state) : M machine loop_state :=
  let page_start := Z.land eb_start PPC_PAGE_MASK in
  let eb_end := u32 (page_start + PPC_PAGE_SIZE - 1) in
  host <- mmu_translate_imem eb_start ;;
  ret (mk_loop_state (max_cycles l) page_start eb_end (opcode_grabber l) (fst host)).

(* [cpu/ppc/ppcexec.cpp:492-500 eb_start] *)
Definition begin_block (l : loop_state) : M machine loop_state :=
  pc <- gets (fun m => pc (cpu m)) ;;
  if eb_end l <=? pc then set_flags 0 ;;; execution_block pc l else ret l.

(* [cpu/ppc/ppcemu.h:419-429] *)
Definition ppc_read_instruction (ptr : Z) : M machine Z :=
  gets (fun m => READ_DWORD_BE_A (host_mem (mem_ctrl m)) ptr).

Definition power_off_of (m : machine) : bool := negb (power_on (ex m)).
Definition flag_set (f : Z) (m : machine) : bool := test (exec_flags (ex m)) f.
Definition in_range (start_addr size : Z) (m : machine) : bool :=
  (start_addr <=? pc (cpu m)) && (pc (cpu m) <? u32 (start_addr + size)).

Inductive step_result := Go (l : loop_state) | Break.

Section Loop.
Context `{Devices} `{HostFpu} (tc : table_config).

(* [cpu/ppc/ppcexec.cpp:504-505 max_cycles] *)
Definition count_instruction (fuel : nat) (l : loop_state) : M machine (option loop_state) :=
  g <- gets (fun m => g_icycles (vt m)) ;;
  modify (upd_vt (set_g_icycles (u64 (g + 1)))) ;;;
  reload <- gets (fun m => exec_timer (ex m)) ;;
  if (max_cycles l <=? g) || reload
  then mc <-? process_events fuel ;; ret (Some (set_max_cycles mc l))
  else ret (Some l).

(* [cpu/ppc/ppcexec.cpp:509-519 max_cycles] *)
Fixpoint sleep_loop (fuel : nat) (l : loop_state) : M machine (option loop_state) :=
  match fuel with
  | O => ret None
  | S n =>
      asleep <- gets (fun m => power_on (ex m) && flag_set EXEF.EXEF_SLEEP m) ;;
      if negb asleep then ret (Some l) else
      mc <-? process_events n ;;
      let l := set_max_cycles mc l in
      still <- gets (flag_set EXEF.EXEF_SLEEP) ;;
      if negb still then ret (Some l) else
      modify (upd_vt (fun v => if g_icycles v <? mc then set_g_icycles mc v
                               else set_g_icycles (u64 (g_icycles v + 1)) v)) ;;;
      sleep_loop n l
  end.

(** Where execution goes on when a flag is set. *)
(* [cpu/ppc/ppcexec.cpp:521-537 eb_start] *)
Definition next_block (l : loop_state) : M machine loop_state :=
  m <- gets (fun m => m) ;;
  let l := if flag_set EXEF.EXEF_OPC_DECODER m then set_opcode_grabber (fpu_grabber (ex m)) l else l in
  let eb_start := ppc_next_instruction_address (ex m) in
  l <- (if negb (flag_set EXEF.EXEF_RFI m) && (Z.land eb_start PPC_PAGE_MASK =? page_start l)
        then ret (set_pc_real (pc_real l + (s32 eb_start - s32 (pc (cpu m)))) l)
        else execution_block eb_start l) ;;
  mcpu (with_pc eb_start) ;;;
  set_flags 0 ;;;
  ret l.

(* [cpu/ppc/ppcexec.cpp:507-544 exec_flags] *)
Definition go_on (fuel : nat) (l : loop_state) : M machine (option loop_state) :=
  flags <- gets (fun m => exec_flags (ex m)) ;;
  if negb (flags =? 0) then
    l <-? (if test flags EXEF.EXEF_SLEEP && negb (test flags EXEF.EXEF_EXCEPTION) then sleep_loop fuel l else ret (Some l)) ;;
    l <- next_block l ;;
    ret (Some l)
  else
    mcpu (fun s => with_pc (u32 (pc s + 4)) s) ;;;
    ret (Some (set_pc_real (pc_real l + 4) l)).

(* [cpu/ppc/ppcexec.cpp:487-549 max_cycles] *)
Definition iteration (exec_type : ppc_exec_type_t) (start_addr size : Z) (fuel : nat) (l : loop_state) :
    M machine (option step_result) :=
  stop <- gets (fun m => match exec_type with debug => in_range start_addr size m | _ => false end) ;;
  if stop then ret (Some Break) else
  l <- begin_block l ;;
  opcode <- ppc_read_instruction (pc_real l) ;;
  ppc_main_opcode tc (opcode_grabber l) opcode ;;;
  l <-? count_instruction fuel l ;;
  l <-? go_on fuel l ;;
  stop <- gets (fun m => match exec_type with until => pc (cpu m) =? start_addr | _ => false end) ;;
  ret (Some (if stop then Break else Go l)).

(** [fuel] bounds the iterations, and [fuel] the events of each. *)
Fixpoint inner_loop (exec_type : ppc_exec_type_t) (start_addr size : Z) (fuel : nat) (l : loop_state) : M machine (option unit) :=
  off <- gets power_off_of ;;
  if off then ret (Some tt) else
  match fuel with
  | O => ret None
  | S n =>
      r <-? iteration exec_type start_addr size n l ;;
      match r with
      | Break => ret (Some tt)
      | Go l => inner_loop exec_type start_addr size n l
      end
  end.

(* [cpu/ppc/ppcexec.cpp:477-550] *)
Definition ppc_exec_inner (exec_type : ppc_exec_type_t) (start_addr size : Z) (fuel : nat) : M machine (option unit) :=
  l <- gets enter_inner ;;
  inner_loop exec_type start_addr size fuel l.

(** ** The outer loops *)

(** [setjmp] returning again. *)
(* [cpu/ppc/ppcexec.cpp:561-565 exc_env] *)
Definition resume (m : machine) : machine := upd_cpu (with_pc (ppc_next_instruction_address (ex m))) m.

(* [cpu/ppc/ppcexec.cpp:576-578 power_on] *)
Definition restart_endian (m : machine) : machine :=
  if negb (power_on (ex m)) && bool_decide (power_off_reason (ex m) = po_endian_switch)
  then upd_ex (set_power_on true) m else m.

(** The condition of the [while], and the test at the end of its body. *)
Definition outer_continues (exec_type : ppc_exec_type_t) (start_addr size : Z) (m : machine) : bool :=
  power_on (ex m) && match exec_type with debug => negb (in_range start_addr size m) | _ => true end.
Definition outer_done (exec_type : ppc_exec_type_t) (start_addr : Z) (m : machine) : bool :=
  match exec_type with until => pc (cpu m) =? start_addr | _ => false end.

(* [cpu/ppc/ppcexec.cpp:567-579 power_on] *)
Fixpoint run_outer (exec_type : ppc_exec_type_t) (start_addr size : Z) (fuel : nat) : M machine (option unit) := fun m =>
  if negb (outer_continues exec_type start_addr size m) then (Ret (Some tt), m) else
  match fuel with
  | O => (Ret None, m)
  | S n =>
      match ppc_exec_inner exec_type start_addr size n m with
      | (Ret (Some _), m) =>
          let m := restart_endian m in
          if outer_done exec_type start_addr m then (Ret (Some tt), m) else run_outer exec_type start_addr size n m
      | (Longjmp, m) => run_outer exec_type start_addr size n (resume m)
      | (Ret None, m) => (Ret None, m)
      | (Fatal, m) => (Fatal, m)
      end
  end.

(* [cpu/ppc/ppcexec.cpp:559-580] *)
Definition ppc_exec (fuel : nat) : M machine (option unit) := run_outer main 0 0 fuel.
(* [cpu/ppc/ppcexec.cpp:614-636] *)
Definition ppc_exec_until (goal_addr : Z) (fuel : nat) : M machine (option unit) := run_outer until goal_addr 0 fuel.
(* [cpu/ppc/ppcexec.cpp:645-666] *)
Definition ppc_exec_dbg (start_addr size : Z) (fuel : nat) : M machine (option unit) := run_outer debug start_addr size fuel.

(** One instruction; [None] when its events ran out of fuel. *)
(* [cpu/ppc/ppcexec.cpp:592-604 pc_real] *)
Definition exec_single_body (fuel : nat) : M machine (option unit) :=
  pc0 <- gets (fun m => pc (cpu m)) ;;
  host <- mmu_translate_imem pc0 ;;
  opcode <- ppc_read_instruction (fst host) ;;
  grabber <- gets (fun m => fpu_grabber (ex m)) ;;
  ppc_main_opcode tc grabber opcode ;;;
  modify (upd_vt (fun v => set_g_icycles (u64 (g_icycles v + 1)) v)) ;;;
  _ <-? process_events fuel ;;
  flags <- gets (fun m => exec_flags (ex m)) ;;
  (if negb (flags =? 0) then
     modify resume ;;; set_flags 0
   else mcpu (fun s => with_pc (u32 (pc s + 4)) s)) ;;;
  ret (Some tt).

(* [cpu/ppc/ppcexec.cpp:583-605] *)
Definition ppc_exec_single (fuel : nat) : M machine (option unit) := fun m =>
  match exec_single_body fuel m with
  | (Longjmp, m) => (Ret (Some tt), upd_ex (set_exec_flags 0) (resume m))
  | r => r
  end.
End Loop.
