(* ===== verification/ExecInv.v ===== *)
(** * Every instruction and every pass of the interpreter keep the invariant

    The invariant of the machine is kept by the handler of every instruction of
    every opcode table, by the timers' callbacks, and so by every pass of the
    interpreter loops, for any device that keeps it. *)
From S2P Require Import Prelude Word Float PpcState IntArith IntLogic PowerOps CondReg Timers MemCtrl HostMem Machine Branch Mmu MmuBat Exceptions Translate PageWalk VMem LoadStore Fpu FpuMem FpuType SystemRegs Invariant VmInv RealMode LoadStoreInv FpuInv RegSafe Decode Clock Exec.

(** ** Registers, branches and traps *)

Lemma safe_machine s m : machine_inv m -> reg_safe (cpu m) s -> machine_inv (set_cpu s m).
Proof.
  intros [[H1 H2 H3 H4 H5] Hs] [Hok Hsp]. split; [by split|]. apply (si_frame m); [|done]. by split_and!.
Qed.

Lemma reg_inv f : safe f -> forall w, preserves machine_inv (reg f w).
Proof. intros Hf w m Hm. unfold reg, mcpu, modify. cbn [snd]. apply safe_machine; [done|]. apply Hf, Hm. Qed.

Lemma reg_601_inv f : (forall b, safe (f b)) -> forall w, preserves machine_inv (reg_601 f w).
Proof. intros Hf w. apply preserves_bind; [apply preserves_gets|]. intros b. exact (reg_inv (f b) (Hf b) w). Qed.

Lemma reg_opt_inv f : (forall w s s', ppc_ok s -> f w s = Some s' -> reg_safe s s') ->
  forall w, preserves machine_inv (reg_opt f w).
Proof.
  intros Hf w m Hm. unfold reg_opt, bind, gets. destruct (f w (cpu m)) as [s'|] eqn:E; [|done].
  apply (safe_machine s'); [done|]. eapply Hf; [apply Hm | exact E].
Qed.

Lemma inv_spr r v m : 0 <= v < 2 ^ 32 -> ~ (528 <= r <= 543) -> machine_inv m -> machine_inv (upd_cpu (set_spr r v) m).
Proof.
  intros Hv Hr [Hok Hs]. split; [by apply mok_spr | by apply (si_frame m); [apply frame_spr|]].
Qed.

Lemma inv_ex f m : (ex_ok (ex m) -> ex_ok (f (ex m))) -> gCtxSyncCallbacks (f (ex m)) = gCtxSyncCallbacks (ex m) ->
  machine_inv m -> machine_inv (upd_ex f m).
Proof. intros Hf Hc [Hok Hs]. split; [by apply mok_ex | by apply (si_frame m); [apply frame_ex|]]. Qed.

Lemma inv_flags v m : 0 <= v < 2 ^ 32 -> machine_inv m -> machine_inv (upd_ex (set_exec_flags v) m).
Proof. intros Hv. apply inv_ex; [|done]. by intros (?&?&?). Qed.

Lemma inv_branch a m : machine_inv m -> machine_inv (take_branch a m).
Proof. apply inv_ex; [|done]. intros (?&?&?). split_and!; try done; cbn; apply u32_range || by vm_compute. Qed.

Lemma branch_effect_inv counts link taken dest w m m' : branch_effect counts link taken dest w m m' -> machine_inv m -> machine_inv m'.
Proof.
  unfold branch_effect. cbv zeta. intros -> Hm.
  assert (forall x, 0 <= x mod 2 ^ 32 < 2 ^ 32) as Hr by (intros; apply Z.mod_pos_bound; lia).
  assert (~ (528 <= SPR.CTR <= 543) /\ ~ (528 <= SPR.LR <= 543)) as [H1 H2] by (unfold SPR.CTR, SPR.LR; lia).
  set (m1 := if counts && _ then _ else m). assert (machine_inv m1) by (unfold m1; case_match; [by apply inv_spr | done]).
  set (m2 := if taken then _ else m1). assert (machine_inv m2) by (unfold m2; case_match; [by apply inv_branch | done]).
  case_match; [by apply inv_spr | done].
Qed.

Lemma branches_inv l a is601 w : preserves machine_inv (br (ppc_bc l a) w) /\ preserves machine_inv (br (ppc_bclr l) w) /\
  preserves machine_inv (br (ppc_bcctr l is601) w) /\ preserves machine_inv (br (ppc_b l a) w).
Proof.
  split_and!; intros m Hm; unfold br, modify; cbn [snd].
  - eapply branch_effect_inv; [apply bc_effect | done].
  - eapply branch_effect_inv; [apply bclr_effect | done].
  - eapply branch_effect_inv; [apply bcctr_effect | done].
  - unfold ppc_b. cbv zeta. apply inv_flags; [by vm_compute|]. set (nia := if aa a then _ else _).
    assert (machine_inv (upd_ex (set_ppc_next_instruction_address nia) m)).
    { apply inv_ex; [|done..]. intros (?&?&?). assert (0 <= nia < 2 ^ 32) by (unfold nia; destruct (aa a); apply u32_range). by split; [|split]. }
    destruct (lk l); [apply inv_spr; [apply u32_range | unfold SPR.LR; lia | done] | done].
Qed.

Lemma traps_inv w : preserves machine_inv (ppc_tw w) /\ preserves machine_inv (ppc_twi w).
Proof.
  assert (forall m, machine_inv m -> machine_inv (ppc_exception_handler EXC_PROGRAM Exc_Cause.TRAP m).2) as Ht
    by (intros m; by apply handler_inv).
  split; intros m Hm; unfold ppc_tw, ppc_twi; cbv beta iota zeta delta [ppc_grab_regsab ppc_grab_regsasimm].
  all: match goal with |- context [if ?b then _ else _] => destruct b end; [by apply Ht | done].
Qed.

(** ** The tables *)

Section Handlers.
Context `{DevicesOk} `{HostFpuOk} (tc : table_config).

Definition good (e : entry) : Prop := forall w, preserves machine_inv (e_handler e w).
Definition inv_op (h : PPCOpcode) : Prop := forall w, preserves machine_inv (h w).

Lemma good_OP op h : inv_op h -> Forall good (OP op h).
Proof. intros Hh. by apply Forall_singleton. Qed.
Lemma good_OP_fp op h : inv_op h -> Forall good (OP_fp op h).
Proof. intros Hh. by apply Forall_singleton. Qed.
Lemma good_OPr op md h : inv_op h -> Forall good (OPr op md h).
Proof. intros Hh. by apply Forall_singleton. Qed.
Lemma good_OPX op sub h : inv_op h -> Forall good (OPX op sub h).
Proof. intros Hh. by apply Forall_singleton. Qed.
Lemma good_OPX_fp op sub h : inv_op h -> Forall good (OPX_fp op sub h).
Proof. intros Hh. by apply Forall_singleton. Qed.
Lemma good_OPla op sub h : inv_op h -> Forall good (OPla op sub h).
Proof. intros Hh. by apply Forall_singleton. Qed.
Lemma good_OPXd op sub h : (forall r, inv_op (h r)) -> Forall good (OPXd op sub h).
Proof. intros Hh. repeat first [apply Forall_app; split | apply Forall_singleton; intros w; apply Hh]. Qed.
Lemma good_OPXd_fp op sub h : (forall r, inv_op (h r)) -> Forall good (OPXd_fp op sub h).
Proof. intros Hh. repeat first [apply Forall_app; split | apply Forall_singleton; intros w; apply Hh]. Qed.
Lemma good_OPXod op sub h : (forall r o, inv_op (h r o)) -> Forall good (OPXod op sub h).
Proof. intros Hh. repeat first [apply Forall_app; split | apply Forall_singleton; intros w; apply Hh]. Qed.
Lemma good_OP59cd sub h : (forall r, inv_op (h r)) -> Forall good (OP59cd sub h).
Proof.
  intros Hh. unfold OP59cd. apply Forall_concat, Forall_map, Forall_forall. intros c _. by apply good_OPXd_fp.
Qed.
Lemma good_only c l : Forall good l -> Forall good (only c l).
Proof. by destruct c; [|constructor]. Qed.

Lemma op_reg f : safe f -> inv_op (reg f).
Proof. intros Hf w. by apply reg_inv. Qed.
Lemma op_reg_601 f : (forall b, safe (f b)) -> inv_op (reg_601 f).
Proof. intros Hf w. by apply reg_601_inv. Qed.
Lemma op_nop : inv_op (fun _ => ret tt).
Proof. intros w. apply preserves_ret. Qed.
Lemma op_system k : k ∈ system_operations -> inv_op k.
Proof. intros Hk w. by apply system_operations_inv. Qed.
Lemma op_fp_memory k : In k fp_memory_instructions -> inv_op k.
Proof. intros Hk w. by apply fp_memory_inv. Qed.
Lemma op_fp k : (forall w, fp_runs any (k w)) -> inv_op k.
Proof. intros Hk w. by apply fp_runs_preserves. Qed.

(** The writes of a group one by one, then the instruction of each. *)
Ltac each_entry := repeat match goal with
  | |- Forall _ (_ ++ _) => apply Forall_app; split
  | |- Forall _ (only _ _) => apply good_only
  | |- Forall _ (OP _ _) => apply good_OP
  | |- Forall _ (OP_fp _ _) => apply good_OP_fp
  | |- Forall _ (OPr _ _ _) => apply good_OPr
  | |- Forall _ (OPX _ _ _) => apply good_OPX
  | |- Forall _ (OPX_fp _ _ _) => apply good_OPX_fp
  | |- Forall _ (OPla _ _ _) => apply good_OPla
  | |- Forall _ (OPXd _ _ _) => apply good_OPXd; intros ?
  | |- Forall _ (OPXd_fp _ _ _) => apply good_OPXd_fp; intros ?
  | |- Forall _ (OPXod _ _ _) => apply good_OPXod; intros ? ?
  | |- Forall _ (OP59cd _ _) => apply good_OP59cd; intros ?
  end.

Ltac reg_entry := match goal with
  | |- inv_op (reg _) => apply op_reg
  | |- inv_op (reg_601 _) => apply op_reg_601; intros ?
  end; first [solve [auto with safe] | apply safe_immediates | apply safe_compares | apply safe_cr_moves |
    apply safe_cr_logic; cbn [In]; tauto | apply safe_exts; lia].

Ltac branch_entry := intros w; match goal with
  | |- preserves _ (br (ppc_bc ?l ?a) w) => exact (proj1 (branches_inv l a NOT601 w))
  | |- preserves _ (br (ppc_bclr ?l) w) => exact (proj1 (proj2 (branches_inv l AA0 NOT601 w)))
  | |- preserves _ (br (ppc_bcctr ?l ?x) w) => exact (proj1 (proj2 (proj2 (branches_inv l AA0 x w))))
  | |- preserves _ (br (ppc_b ?l ?a) w) => exact (proj2 (proj2 (proj2 (branches_inv l a NOT601 w))))
  end.

(** Membership in an explicit list. *)
Ltac is_in := match goal with
  | |- In ?x (?x :: _) => left; reflexivity
  | |- ?x ∈ ?x :: _ => apply list_elem_of_here
  | |- In _ (_ :: _) => right; is_in
  | |- _ ∈ _ :: _ => apply list_elem_of_further; is_in
  end.

Ltac system_entry := apply op_system; unfold system_operations; is_in.
Ltac fp_memory_entry := apply op_fp_memory; unfold fp_memory_instructions; is_in.

(** The instruction by what is known of it. *)
Ltac known := match goal with H : ?P |- ?Q => constr_eq P Q; exact H end.

Lemma sizes : size_reg 1 /\ size_reg 2 /\ size_reg 4.
Proof. unfold size_reg, access_size. lia. Qed.

Ltac loads_entry := intros w; pose proof sizes as (Z1 & Z2 & Z4);
  pose proof (loads_inv 4 w Z4) as (?&?&?&?); pose proof (loads_inv 2 w Z2) as (?&?&?&?); pose proof (loads_inv 1 w Z1) as (?&?&?&?);
  pose proof (stores_inv 4 w Z4) as (?&?&?&?); pose proof (stores_inv 2 w Z2) as (?&?&?&?); pose proof (stores_inv 1 w Z1) as (?&?&?&?);
  pose proof (other_loads_inv w) as (?&?&?&?&?&?&?&?); pose proof (other_stores_inv w) as (?&?&?&?&?);
  pose proof (strings_inv w) as (?&?&?&?&?&?); pose proof (traps_inv w) as (?&?); pose proof (tlb_instructions_inv w) as (?&?&?&?&?);
  known.

Lemma good_primary : Forall good (ops_primary tc).
Proof. unfold ops_primary. each_entry. all: try reg_entry. all: try fp_memory_entry. all: try system_entry. all: loads_entry. Qed.

Lemma good_branches : Forall good ops_bc.
Proof. unfold ops_bc. each_entry; branch_entry. Qed.

Lemma good_19 : Forall good (ops_19 tc).
Proof.
  unfold ops_19. each_entry. all: try reg_entry. all: try system_entry. all: branch_entry.
Qed.

Lemma good_31_arith : Forall good ops_31_arith.
Proof. unfold ops_31_arith. each_entry. all: try reg_entry. all: loads_entry. Qed.

Lemma good_31_memory : Forall good (ops_31_memory tc).
Proof. unfold ops_31_memory. each_entry. all: try fp_memory_entry. all: loads_entry. Qed.

Lemma good_31_logical : Forall good ops_31_logical.
Proof. unfold ops_31_logical. each_entry; reg_entry. Qed.

Lemma good_31_system : Forall good (ops_31_system tc).
Proof. unfold ops_31_system. each_entry. all: try reg_entry. all: try system_entry. all: try apply op_nop. all: loads_entry. Qed.

Lemma op_div rec ov : inv_op (reg_opt (power_div rec ov)).
Proof. intros w. apply reg_opt_inv. intros. by eapply safe_div. Qed.

Lemma good_31_power : Forall good (ops_31_power tc).
Proof.
  unfold ops_31_power. each_entry. all: try reg_entry.
  - intros w. apply lscbx_inv.
  - apply op_div.
Qed.

Lemma good_31_tlb : Forall good (ops_31_tlb tc).
Proof. unfold ops_31_tlb. each_entry. all: try apply op_nop. all: loads_entry. Qed.

Ltac fp_entry := apply op_fp; intros w; match goal with r : field_rc |- _ =>
    pose proof (fr_adds r w) as (?&?&?&?); pose proof (fr_products r w) as (?&?&?&?); pose proof (fr_fused r w) as (?&?&?&?);
    pose proof (fr_fused_single r w) as (?&?&?&?); pose proof (fr_estimates r w) as (?&?&?&?&?);
    pose proof (fr_signs r w) as (?&?&?&?&?); pose proof (fr_conversions r w) as (?&?);
    pose proof (fr_fpscr_instructions r w (if tc_is_601 tc then IS601 else NOT601)) as (?&?&?&?&?&?); known end.

Lemma good_59 : Forall good (ops_59 tc).
Proof. unfold ops_59. each_entry. all: fp_entry. Qed.

Lemma good_63 : Forall good (ops_63 tc).
Proof.
  unfold ops_63. each_entry. all: try fp_entry.
  - apply op_fp. intros w. exact (proj2 (fr_compares w)).
  - apply op_fp. intros w. exact (proj1 (fr_compares w)).
  - apply op_fp. intros w. by destruct (fr_fpscr_instructions RC0 w NOT601) as (_&_&_&_&?&_).
Qed.

Lemma good_63_abc : Forall good (ops_63_abc tc).
Proof.
  unfold ops_63_abc. apply Forall_concat, Forall_map, Forall_forall. intros i _. each_entry. all: fp_entry.
Qed.

Lemma table_good : Forall good (initialize_ppc_opcode_table tc).
Proof.
  unfold initialize_ppc_opcode_table.
  rewrite !Forall_app. split_and!; [apply good_primary | apply good_branches | apply good_19 | apply good_31_arith |
    apply good_31_memory | apply good_31_logical | apply good_31_system | apply good_31_power | apply good_31_tlb |
    apply good_59 | apply good_63 | apply good_63_abc].
Qed.

Lemma table_at_inv l i w : Forall good l -> preserves machine_inv (table_at l i w).
Proof.
  unfold table_at. assert (inv_op ppc_illegalop) as Hi by (intros v; apply inv_illegal). revert Hi.
  generalize ppc_illegalop. induction l as [|e l IH]; intros h Hh Hl; [apply Hh|]. apply Forall_cons_1 in Hl as [He Hl].
  cbn [fold_left]. apply IH; [|done]. by destruct (covers _ _).
Qed.

(** Whatever the instruction and the table. *)
Lemma main_opcode_inv fpu w : preserves machine_inv (ppc_main_opcode tc fpu w).
Proof.
  assert (forall i v, preserves machine_inv (OpcodeGrabber tc i v)) as Ho by (intros; apply table_at_inv, table_good).
  unfold ppc_main_opcode. destruct fpu; [apply Ho|]. unfold OpcodeGrabberNoFPU.
  destruct (existsb _ _); [by apply handler_inv | apply Ho].
Qed.

(** ** The loops *)

Lemma inv_vt f m : machine_inv m -> machine_inv (upd_vt f m).
Proof. intros [[? ? ? ? ?] ?]. split; [by split | by apply (si_frame m)]. Qed.

Lemma inv_timers t m : timers_wf t -> machine_inv m -> machine_inv (set_timers t m).
Proof. intros Ht [[? ? ? ? ?] [? ? ? ? ?]]. split; by split. Qed.

Lemma inv_upd_timers f : (forall t, timers_wf t -> timers_wf (f t)) ->
  preserves machine_inv (upd (S := machine) (CB := timer_callback) f).
Proof. intros Hf m Hm. apply inv_timers; [apply Hf, Hm | done]. Qed.

Lemma wf_cb_active b (t : TimerManager timer_callback) : timers_wf t -> timers_wf (set_cb_active b t).
Proof. intros [? ?]. by split. Qed.

Lemma invoke_inv c a b : preserves machine_inv (machine_timer_invoke c a b).
Proof.
  destruct c as [| | |id]; cbn [machine_timer_invoke].
  - intros m Hm. unfold trigger_timed_decrementer_exception, bind at 1, gets at 1.
    apply decrementer_callbacks_inv; [|done]. pose proof (calc_dec_range m). case_if; lia.
  - intros m Hm. unfold trigger_immediate_decrementer_exception, bind at 1, gets at 1.
    apply decrementer_callbacks_inv; [|done]. apply mok_get_spr, Hm.
  - apply inv_both; [apply update_thermal_ok | apply struct_thermal].
  - apply dev_timer_inv.
Qed.

Lemma process_loop_inv n now ti m : ti ∈ timer_queue (timers m) -> machine_inv m ->
  machine_inv (process_loop (S := machine) n now ti m).2.
Proof.
  revert ti m. induction n as [|n IH]; intros ti m Hti Hm; [done|]. cbn [process_loop]. rewrite bind_gets.
  case_match; [|done]. unfold upd at 1. rewrite bind_modify. cbn [get_tm machine_timer_host set_tm].
  set (m1 := set_timers _ m). assert (machine_inv m1) as Hm1 by (apply inv_timers; [apply wf_expire; [apply Hm | done] | done]).
  refine (preserves_bind machine_inv _ _ (inv_upd_timers _ (wf_cb_active true)) (fun _ => _) m1 Hm1).
  apply preserves_bind; [apply invoke_inv|intros _]. apply preserves_bind; [apply inv_upd_timers, wf_cb_active|intros _].
  intros m2 Hm2. rewrite bind_gets. destruct (queue_top _) as [tj|] eqn:E; [|done]. apply IH; [|done].
  by destruct (queue_top_spec _ _ E).
Qed.

Lemma process_timers_inv n : preserves machine_inv (process_timers (S := machine) n).
Proof.
  intros m Hm. unfold process_timers. rewrite !bind_gets. destruct (queue_top _) as [ti|] eqn:E; [|done].
  apply process_loop_inv; [|done]. by destruct (queue_top_spec _ _ E).
Qed.

Lemma process_events_inv n : preserves machine_inv (process_events n).
Proof.
  apply preserves_bind; [|intros _; apply preserves_bind; [apply process_timers_inv|]].
  - apply preserves_modify. intros m. apply inv_ex; [|done]. by intros (?&?&?).
  - intros [next|]; auto with preserve.
Qed.

Lemma set_flags_inv v : 0 <= v < 2 ^ 32 -> preserves machine_inv (set_flags v).
Proof. intros Hv m Hm. by apply inv_flags. Qed.

Lemma with_pc_inv f : (forall s, ppc_ok s -> 0 <= f s < 2 ^ 32) -> preserves machine_inv (mcpu (fun s => with_pc (f s) s)).
Proof.
  intros Hf. apply inv_mcpu; [|done]. intros s Hs. specialize (Hf s Hs). destruct Hs. by split.
Qed.

Lemma execution_block_inv a l : 0 <= a < 2 ^ 32 -> preserves machine_inv (execution_block a l).
Proof. intros Ha. apply preserves_bind; [by apply translate_imem_inv | intros h; apply preserves_ret]. Qed.

Lemma begin_block_inv l : preserves machine_inv (begin_block l).
Proof.
  apply (yields_preserves _ _ (fun _ => True)). apply (yields_bind _ _ _ (fun p => 0 <= p < 2 ^ 32)).
  { apply yields_gets. intros m Hm. apply Hm. }
  intros p Hp. apply preserves_yields. apply preserves_if; [|apply preserves_ret].
  apply preserves_bind; [by apply set_flags_inv | intros _; by apply execution_block_inv].
Qed.

Lemma count_inv n l : preserves machine_inv (count_instruction n l).
Proof.
  apply preserves_bind; [apply preserves_gets|intros g].
  apply preserves_bind; [apply preserves_modify; intros; by apply inv_vt|intros _].
  apply preserves_bind; [apply preserves_gets|intros b]. apply preserves_if; [|apply preserves_ret].
  apply preserves_fuelled; [apply process_events_inv | intros; apply preserves_ret].
Qed.

Lemma sleep_inv n l : preserves machine_inv (sleep_loop n l).
Proof.
  revert l. induction n as [|n IH]; intros l; [apply preserves_ret|]. cbn [sleep_loop].
  apply preserves_bind; [apply preserves_gets|intros b]. apply preserves_if; [apply preserves_ret|].
  apply preserves_fuelled; [apply process_events_inv|intros mc]. cbv zeta.
  apply preserves_bind; [apply preserves_gets|intros c]. apply preserves_if; [apply preserves_ret|].
  apply preserves_bind; [apply preserves_modify; intros; by apply inv_vt | intros _; apply IH].
Qed.

Lemma next_block_inv l : preserves machine_inv (next_block l).
Proof.
  apply (yields_preserves _ _ (fun _ => True)). apply (yields_bind _ _ _ machine_inv); [by apply yields_gets|].
  intros m Hm. cbv zeta. apply preserves_yields.
  assert (0 <= ppc_next_instruction_address (ex m) < 2 ^ 32) as Hn by apply Hm.
  apply preserves_bind; [apply preserves_if; [apply preserves_ret | by apply execution_block_inv]|intros l'].
  apply preserves_bind; [by apply with_pc_inv|intros _]. apply preserves_bind; [by apply set_flags_inv | intros _; apply preserves_ret].
Qed.

Lemma go_on_inv n l : preserves machine_inv (go_on n l).
Proof.
  apply preserves_bind; [apply preserves_gets|intros fl]. apply preserves_if.
  - apply preserves_fuelled; [apply preserves_if; [apply sleep_inv | apply preserves_ret]|intros l'].
    apply preserves_bind; [apply next_block_inv | intros; apply preserves_ret].
  - apply preserves_bind; [apply with_pc_inv; intros; apply u32_range | intros; apply preserves_ret].
Qed.

Lemma iteration_inv t a s n l : preserves machine_inv (iteration tc t a s n l).
Proof.
  unfold iteration. apply preserves_bind; [apply preserves_gets|intros b]. apply preserves_if; [apply preserves_ret|].
  apply preserves_bind; [apply begin_block_inv|intros l1]. apply preserves_bind; [apply preserves_gets|intros w].
  apply preserves_bind; [apply main_opcode_inv|intros _].
  apply preserves_fuelled; [apply count_inv|intros l2]. apply preserves_fuelled; [apply go_on_inv|intros l3].
  apply preserves_bind; [apply preserves_gets | intros; apply preserves_ret].
Qed.

Lemma inner_loop_inv t a s n l : preserves machine_inv (inner_loop tc t a s n l).
Proof.
  revert l. induction n as [|n IH]; intros l; cbn [inner_loop]; (apply preserves_bind; [apply preserves_gets|intros b]);
    (apply preserves_if; [apply preserves_ret|]); [apply preserves_ret|].
  apply preserves_fuelled; [apply iteration_inv|]. intros [l'|]; [apply IH | apply preserves_ret].
Qed.

Lemma inv_resume m : machine_inv m -> machine_inv (resume m).
Proof.
  intros Hm. apply (with_pc_inv (fun _ => ppc_next_instruction_address (ex m))); [|done]. intros. apply Hm.
Qed.

Lemma run_outer_inv t a s n : preserves machine_inv (run_outer tc t a s n).
Proof.
  induction n as [|n IH]; intros m Hm; cbn [run_outer]; (case_match; [done|]); [done|].
  assert (machine_inv (ppc_exec_inner tc t a s n m).2) as Hi
    by exact (preserves_bind machine_inv _ _ (preserves_gets machine_inv enter_inner) (fun l => inner_loop_inv t a s n l) m Hm).
  destruct (ppc_exec_inner tc t a s n m) as [[[[]|]| |] m1]; cbn [snd] in *; [|done | by apply IH, inv_resume | done].
  assert (machine_inv (restart_endian m1)).
  { unfold restart_endian. destruct (_ && _); [|exact Hi]. apply inv_ex; [by intros (?&?&?) | done | exact Hi]. }
  case_match; [done | by apply IH].
Qed.

Lemma exec_single_inv n : preserves machine_inv (ppc_exec_single tc n).
Proof.
  intros m Hm. unfold ppc_exec_single.
  assert (preserves machine_inv (exec_single_body tc n)) as Hb.
  { apply (yields_preserves _ _ (fun _ => True)). apply (yields_bind _ _ _ (fun p => 0 <= p < 2 ^ 32)).
    { apply yields_gets. intros x Hx. apply Hx. }
    intros p Hp. apply preserves_yields. apply preserves_bind; [by apply translate_imem_inv|intros h].
    apply preserves_bind; [apply preserves_gets|intros w]. apply preserves_bind; [apply preserves_gets|intros g].
    apply preserves_bind; [apply main_opcode_inv|intros _].
    apply preserves_bind; [apply preserves_modify; intros; by apply inv_vt|intros _].
    apply preserves_fuelled; [apply process_events_inv|intros _]. apply preserves_bind; [apply preserves_gets|intros fl].
    apply preserves_bind; [|intros _; apply preserves_ret]. apply preserves_if.
    - apply preserves_bind; [apply preserves_modify; intros; by apply inv_resume | intros _; by apply set_flags_inv].
    - apply with_pc_inv. intros. apply u32_range. }
  specialize (Hb m Hm). destruct (exec_single_body tc n m) as [[|  |] m1]; cbn [snd] in *; [done | | done].
  apply inv_flags; [lia|]. by apply inv_resume.
Qed.
End Handlers.

(** C1: the interpreter keeps the invariant of the machine.  Whatever the processor
    model, the program in memory and the devices (that keep it), the handler of
    every instruction word keeps the invariant with either opcode table, and so does
    every pass of the interpreter - the fetch with its translation, the instruction,
    the timers that are due, power saving and the computation of the next address -
    and hence every run of [ppc_exec], [ppc_exec_until], [ppc_exec_dbg] and
    [ppc_exec_single], however many exceptions it takes. *)
Theorem interpreter_invariant `{DevicesOk} `{HostFpuOk} tc m : machine_inv m ->
  (forall fpu w, machine_inv (ppc_main_opcode tc fpu w m).2) /\
  (forall t start size fuel l, machine_inv (iteration tc t start size fuel l m).2) /\
  (forall fuel, machine_inv (ppc_exec tc fuel m).2 /\ machine_inv (ppc_exec_single tc fuel m).2) /\
  (forall start size fuel, machine_inv (ppc_exec_until tc start fuel m).2 /\ machine_inv (ppc_exec_dbg tc start size fuel m).2).
Proof.
  intros Hm. split; [|split; [|split]].
  - intros fpu w. exact (main_opcode_inv tc fpu w m Hm).
  - intros t start size fuel l. exact (iteration_inv tc t start size fuel l m Hm).
  - intros fuel. exact (conj (run_outer_inv tc main 0 0 fuel m Hm) (exec_single_inv tc fuel m Hm)).
  - intros start size fuel. exact (conj (run_outer_inv tc until start 0 fuel m Hm) (run_outer_inv tc debug start size fuel m Hm)).
Qed.

Lemma interpreter_invariant_witness :
  machine_inv reset_machine /\
  machine_inv (@ppc_exec silent_devices default_fpu (mk_table_config false false false) 100 reset_machine).2.
Proof.
  split; [exact reset_machine_inv|].
  pose proof (@interpreter_invariant silent_devices silent_devices_ok default_fpu default_fpu_ok
    (mk_table_config false false false) reset_machine reset_machine_inv) as (_ & _ & H & _).
  exact (proj1 (H 100%nat)).
Defined.
