(* ===== verification/ExecProps.v ===== *)
(** * Where the interpreter goes (cpu/ppc/ppcexec.cpp)

    The host pointer follows the program counter, the opcode table the loop uses
    against the one MSR asks for, and waking up from power saving. *)
From S2P Require Import Prelude Word Float PpcState Timers MemCtrl HostMem Machine Mmu MmuBat Exceptions Translate Fpu SystemRegs FpuType Invariant VmInv RealMode Decode Clock Reset Exec.

(** ** The host pointer *)

(** [pc_real l] is the address of [p] in the page whose host address is [base], and
    [l] knows where that page starts and ends. *)
Definition in_block (base : Z) (l : loop_state) (p : Z) : Prop :=
  page_start l = Z.land p PPC_PAGE_MASK /\ eb_end l = page_start l + 0xFFF /\ pc_real l = base + p mod 4096.

Lemma page_split p : 0 <= p < 2 ^ 32 -> Z.land p PPC_PAGE_MASK = p - p mod 4096.
Proof.
  intros Hp. unfold PPC_PAGE_MASK. change 0xFFFFF000 with (Z.shiftl (Z.ones 20) 12).
  assert (Z.land p (Z.shiftl (Z.ones 20) 12) = Z.shiftl (Z.land (Z.shiftr p 12) (Z.ones 20)) 12) as ->.
  { apply Z.bits_inj'. intros n Hn. rewrite Z.land_spec, !Z.shiftl_spec, Z.land_spec by lia.
    destruct (Z.ltb_spec n 12); [rewrite !(Z.testbit_neg_r _ (n - 12)) by lia; by rewrite andb_false_r|].
    rewrite Z.shiftr_spec by lia. by replace (n - 12 + 12) with n by lia. }
  rewrite Z.land_ones, Z.shiftl_mul_pow2, Z.shiftr_div_pow2 by lia. change (2 ^ 12) with 4096. change (2 ^ 20) with 1048576.
  rewrite Z.mod_small by zlia. zlia.
Qed.

Lemma execution_block_ok a l m l' m' : 0 <= a < 2 ^ 32 -> execution_block a l m = (Ret l', m') ->
  exists h, mmu_translate_imem a m = (Ret h, m') /\ in_block (fst h - a mod 4096) l' a /\ opcode_grabber l' = opcode_grabber l.
Proof.
  intros Ha. unfold execution_block, bind. destruct (mmu_translate_imem a m) as [[h| |] m1]; [|done..].
  unfold ret. intros [= <- <-]. exists h. split; [done|]. split; [|done]. unfold in_block. cbn [page_start eb_end pc_real].
  split; [done|]. split; [|lia]. rewrite page_split by done. unfold PPC_PAGE_SIZE.
  rewrite uwrap_small; [lia|]. pose proof (Z.mod_pos_bound a 4096 ltac:(lia)). zlia.
Qed.

(** The translation of [p] in the machine [m] - which leaves [m'] - puts [l] where it
    is. *)
Definition translated (m m' : machine) (l : loop_state) (p : Z) : Prop :=
  exists h, mmu_translate_imem p m = (Ret h, m') /\ in_block (fst h - p mod 4096) l p.

Lemma begin_block_ok l m l' m' : 0 <= pc (cpu m) < 2 ^ 32 -> begin_block l m = (Ret l', m') ->
  if eb_end l <=? pc (cpu m) then translated (upd_ex (set_exec_flags 0) m) m' l' (pc (cpu m)) else l' = l /\ m' = m.
Proof.
  intros Hp. unfold begin_block. rewrite bind_gets. destruct (eb_end l <=? pc (cpu m)).
  - unfold set_flags. rewrite bind_modify. intros E. apply execution_block_ok in E as (h & Eh & Hb & _); [|done].
    by exists h.
  - by intros [= <- <-].
Qed.

(** The part of a pass after the instruction, when the processor does not go to
    sleep. *)
Definition stays_awake (m : machine) : bool :=
  negb (flag_set EXEF.EXEF_SLEEP m && negb (flag_set EXEF.EXEF_EXCEPTION m)).

Lemma s32_same_page p q : 0 <= p < 2 ^ 32 -> 0 <= q < 2 ^ 32 -> p - p mod 4096 = q - q mod 4096 ->
  s32 q - s32 p = q mod 4096 - p mod 4096.
Proof.
  intros Hp Hq E. rewrite !s32_alt by done.
  destruct (Z.ltb_spec p (2 ^ 31)), (Z.ltb_spec q (2 ^ 31)); try lia; zlia.
Qed.

(** The machine when the interpreter has moved on to [nia]. *)
Definition moved_on (nia : Z) (m : machine) : machine := upd_ex (set_exec_flags 0) (upd_cpu (with_pc nia) m).

Lemma next_block_ok base l m l' m' : in_block base l (pc (cpu m)) -> 0 <= pc (cpu m) < 2 ^ 32 ->
  let nia := ppc_next_instruction_address (ex m) in 0 <= nia < 2 ^ 32 ->
  next_block l m = (Ret l', m') ->
  if negb (flag_set EXEF.EXEF_RFI m) && (Z.land nia PPC_PAGE_MASK =? Z.land (pc (cpu m)) PPC_PAGE_MASK)
  then in_block base l' nia /\ m' = moved_on nia m
  else exists mt, translated m mt l' nia /\ m' = moved_on nia mt.
Proof.
  intros (B1 & B2 & B3) Hp nia Hn. unfold next_block. rewrite bind_gets. cbv zeta. fold nia.
  set (l1 := if flag_set EXEF.EXEF_OPC_DECODER m then _ else l).
  assert (page_start l1 = page_start l /\ eb_end l1 = eb_end l /\ pc_real l1 = pc_real l) as (L1 & L2 & L3)
    by (unfold l1; by case_match).
  clearbody l1. rewrite L1, B1. destruct (negb (flag_set EXEF.EXEF_RFI m) && _) eqn:Eb.
  - rewrite bind_ret_l. unfold mcpu, set_flags. rewrite !bind_modify. intros [= <- <-]. split; [|done].
    bool_to_prop. match goal with H : Z.land nia _ = _ |- _ => rename H into Hpg end.
    unfold in_block. cbn [page_start eb_end pc_real set_pc_real].
    rewrite L1, L2, L3, B2, B3, B1, Hpg. split; [done|]. split; [done|].
    rewrite !page_split in Hpg by done. rewrite (s32_same_page (pc (cpu m)) nia) by done. lia.
  - unfold bind at 1. destruct (execution_block nia l1 m) as [[l2| |] m2] eqn:E; [|done..].
    apply execution_block_ok in E as (h & Eh & Hb & _); [|done]. unfold mcpu, set_flags. rewrite !bind_modify.
    intros [= <- <-]. exists m2. split; [by exists h | done].
Qed.

(** C3: the host pointer follows the program counter.  After an instruction of the
    page at [base], the next one is read
    - within the page, at the same host page and the offset of the new program
      counter, without asking for a translation: in sequence, or by a branch or
      another change of context other than a return from interrupt;
    - after the last instruction of the page, where the translation of the new
      program counter in the machine at that moment says;
    - after a branch, an exception or a return from interrupt that leaves the page
      (the return from interrupt also inside it), where the translation of the
      target, in the machine the instruction left, says.
    The one exception is running off the last page of the address space: the program
    counter wraps to 0, no translation is asked for, and the loop goes on with the
    host bytes after the page. *)
Theorem host_pointer_follows_pc `{Devices} base fuel l m l1 m1 l2 m2 :
  let p := pc (cpu m) in let nia := ppc_next_instruction_address (ex m) in
  in_block base l p -> 0 <= p < 2 ^ 32 -> p mod 4 = 0 -> 0 <= nia < 2 ^ 32 -> nia mod 4 = 0 ->
  stays_awake m = true ->
  go_on fuel l m = (Ret (Some l1), m1) -> begin_block l1 m1 = (Ret l2, m2) ->
  if exec_flags (ex m) =? 0 then
    let p' := (p + 4) mod 2 ^ 32 in
    m1 = upd_cpu (with_pc p') m /\
    if p =? 0xFFFFFFFC then p' = 0 /\ m2 = m1 /\ pc_real l2 = base + 4096
    else if p mod 4096 =? 4092 then translated (upd_ex (set_exec_flags 0) m1) m2 l2 p'
    else m2 = m1 /\ in_block base l2 p' /\ Z.land p' PPC_PAGE_MASK = Z.land p PPC_PAGE_MASK
  else
    m2 = m1 /\
    if negb (flag_set EXEF.EXEF_RFI m) && (Z.land nia PPC_PAGE_MASK =? Z.land p PPC_PAGE_MASK)
    then m1 = moved_on nia m /\ in_block base l2 nia
    else exists mt, translated m mt l2 nia /\ m1 = moved_on nia mt.
Proof.
  intros p nia Hb Hp Hal Hn Hna Ha Hg Hbeg. revert Hg. unfold go_on. rewrite bind_gets.
  destruct (Z.eqb_spec (exec_flags (ex m)) 0) as [E0|E0]; cbn [negb].
  - unfold mcpu. rewrite bind_modify. intros [= <- <-]. split; [by destruct m as [[]]|]. destruct Hb as (B1 & B2 & B3).
    pose proof (begin_block_ok _ _ _ _ (u32_range (p + 4) : 0 <= pc (cpu (upd_cpu (fun s => with_pc (u32 (pc s + 4)) s) m)) < _) Hbeg) as Hc.
    cbn [cpu upd_cpu set_cpu pc with_pc eb_end set_pc_real] in Hc. fold p in Hc. rewrite B2, B1, page_split in Hc by done.
    pose proof (Z.mod_pos_bound p 4096 ltac:(lia)). destruct (Z.eqb_spec p 0xFFFFFFFC) as [Ep|Ep].
    + rewrite Ep in Hc. destruct Hc as [-> ->]. split; [by rewrite Ep|]. split; [done|]. cbn [pc_real set_pc_real]. rewrite B3. fold p. rewrite Ep. zlia.
    + change ((p + 4) mod 2 ^ 32) with (u32 (p + 4)). assert (u32 (p + 4) = p + 4) as Eu by (apply uwrap_small; zlia). rewrite Eu in Hc. rewrite Eu.
      destruct (Z.leb_spec (p - p mod 4096 + 4095) (p + 4)).
      { rewrite (proj2 (Z.eqb_eq (p mod 4096) 4092)) by zlia. exact Hc. }
      rewrite (proj2 (Z.eqb_neq (p mod 4096) 4092)) by zlia. destruct Hc as [-> ->]. split; [done|].
      assert ((p + 4) mod 4096 = p mod 4096 + 4) as Em by zlia.
      unfold in_block. cbn [page_start eb_end pc_real set_pc_real]. rewrite B2, B3, Em, !page_split, Em, B1, page_split by zlia. lia.
  - assert (test (exec_flags (ex m)) EXEF.EXEF_SLEEP && negb (test (exec_flags (ex m)) EXEF.EXEF_EXCEPTION) = false) as ->
      by (by apply negb_true_iff).
    unfold fuelled at 1. rewrite bind_ret_l. unfold bind at 1. destruct (next_block l m) as [[l3| |] m3] eqn:En; [|done..].
    intros [= <- <-]. pose proof (next_block_ok base l m l3 m3 Hb Hp Hn En) as Hor. fold p nia in Hor.
    assert (pc (cpu m3) = nia /\ eb_end l3 = Z.land nia PPC_PAGE_MASK + 0xFFF) as [P1 P2].
    { destruct (negb _ && _); [destruct Hor as [(B1 & B2 & _) ->] | destruct Hor as (mt & (h & _ & B1 & B2 & _) & ->)]; by rewrite B2, B1. }
    pose proof (begin_block_ok _ _ _ _ (eq_rect_r (fun x => 0 <= x < _) Hn P1) Hbeg) as Hc. rewrite P1, P2, page_split in Hc by done.
    pose proof (Z.mod_pos_bound nia 4096 ltac:(lia)). destruct (Z.leb_spec (nia - nia mod 4096 + 4095) nia); [exfalso; zlia|].
    destruct Hc as [-> ->]. split; [done|]. destruct (negb _ && _); [by destruct Hor | exact Hor].
Qed.

(** At 0x2000 in a page at host address 0x10000, and at the last word of memory. *)
Definition demo_block : loop_state := mk_loop_state 9 0x2000 0x2FFF false 0x10000.
Definition last_block : loop_state := mk_loop_state 9 0xFFFFF000 0xFFFFFFFF false 0x10FFC.
Definition last_machine : machine := upd_cpu (with_pc 0xFFFFFFFC) demo_machine.

Lemma demo_next : @go_on silent_devices 1 demo_block demo_machine =
  (Ret (Some (set_pc_real 0x10004 demo_block)), upd_cpu (with_pc 0x2004) demo_machine).
Proof. vm_compute. reflexivity. Qed.
Lemma last_next : @go_on silent_devices 1 last_block last_machine =
  (Ret (Some (set_pc_real 0x11000 last_block)), upd_cpu (with_pc 0) last_machine).
Proof. vm_compute. reflexivity. Qed.
Lemma demo_begin : begin_block (set_pc_real 0x10004 demo_block) (upd_cpu (with_pc 0x2004) demo_machine) =
  (Ret (set_pc_real 0x10004 demo_block), upd_cpu (with_pc 0x2004) demo_machine).
Proof. vm_compute. reflexivity. Qed.
Lemma last_begin : begin_block (set_pc_real 0x11000 last_block) (upd_cpu (with_pc 0) last_machine) =
  (Ret (set_pc_real 0x11000 last_block), upd_cpu (with_pc 0) last_machine).
Proof. vm_compute. reflexivity. Qed.

Lemma host_pointer_follows_pc_witness :
  in_block 0x10000 (set_pc_real 0x10004 demo_block) 0x2004 /\
  pc_real (set_pc_real 0x11000 last_block) = 0x10000 + 4096.
Proof.
  split.
  - exact (proj1 (proj2 (proj2 (@host_pointer_follows_pc silent_devices 0x10000 1 demo_block demo_machine _ _ _ _
      (conj eq_refl (conj eq_refl eq_refl)) ltac:(cbn; lia) eq_refl ltac:(cbn; lia) eq_refl eq_refl demo_next demo_begin)))).
  - exact (proj2 (proj2 (proj2 (@host_pointer_follows_pc silent_devices 0x10000 1 last_block last_machine _ _ _ _
      (conj eq_refl (conj eq_refl eq_refl)) ltac:(cbn; lia) eq_refl ltac:(cbn; lia) eq_refl eq_refl last_next last_begin)))).
Defined.

(** ** The opcode table of the loop *)

Lemma swap_shadow_grabber l m : fpu_grabber (ex (fold_left (fun m i => swap_shadow i m) l m)) = fpu_grabber (ex m).
Proof. revert m. induction l as [|i l IH]; intros m; [done|]. cbn [fold_left]. by rewrite IH. Qed.

Lemma msr_change_grabber old new b m : fpu_grabber (ex (ppc_msr_did_change old new b m)) =
  if test (Z.lxor old new) MSR.FP then test new MSR.FP else fpu_grabber (ex m).
Proof.
  unfold ppc_msr_did_change. set (m1 := if is_603 _ && _ then _ else _).
  assert (fpu_grabber (ex m1) = fpu_grabber (ex m)) as E by (unfold m1; case_match; [by rewrite swap_shadow_grabber | done]).
  clearbody m1. destruct (test (Z.lxor old new) MSR.FP); [by destruct b | done].
Qed.

Lemma exc_msr_fp e m : test (exc_msr e m) MSR.FP = false.
Proof. unfold MSR.FP. change (2 ^ (63 - 50)) with (2 ^ 13). rewrite test_pow2, exc_msr_bit by lia. by rewrite andb_false_r. Qed.

Lemma handler_grabber e bits m : delivered_between e = true -> test (msr (cpu m)) MSR.FP = true ->
  fpu_grabber (ex (ppc_exception_handler e bits m).2) = false.
Proof.
  intros He Hfp. unfold ppc_exception_handler. destruct (exc_srr0 e m) as [srr0|] eqn:E; [|by destruct e].
  set (m3 := upd_cpu _ (upd_ex _ (upd_cpu _ m))). cbv zeta.
  assert (msr (cpu m3) = msr (cpu m) /\ exc_msr e m3 = exc_msr e m) as [M1 M2] by done.
  set (m4 := if is_601 (cfg m3) then m3 else _).
  set (m5 := ppc_msr_did_change (msr (cpu m3)) (exc_msr e m3) false m4).
  assert (fpu_grabber (ex m5) = false) as H5.
  { unfold m5. rewrite msr_change_grabber, M1, M2, exc_msr_fp. unfold MSR.FP in *. change (2 ^ (63 - 50)) with (2 ^ 13) in *.
    rewrite test_pow2, Z.lxor_spec by lia. rewrite test_pow2 in Hfp by lia. rewrite Hfp, exc_msr_bit by lia.
    by rewrite andb_false_r. }
  clearbody m5. set (m6 := if test (msr (cpu m5)) MSR.IP then _ else m5).
  assert (fpu_grabber (ex m6) = false) as H6 by (unfold m6; by case_match). clearbody m6.
  set (m7 := upd_ex (set_exec_flags EXEF.EXEF_EXCEPTION) m6).
  assert (fpu_grabber (ex (mmu_change_mode (do_ctx_sync m7))) = false) as H8.
  { rewrite (proj1 (proj2 (mmu_change_mode_frame _))). destruct (do_ctx_sync_frame m7) as (_ & S2 & _). by rewrite S2. }
  by destruct e.
Qed.

(** C6: an interrupt between instructions leaves the loop with the wrong opcode
    table.  When an external or decrementer interrupt arrives with MSR[FP] set, its
    handler runs with MSR[FP] clear and [ppc_opcode_grabber] is the table without
    floating point - but [exec_flags] is overwritten, so [EXEF_OPC_DECODER] is lost
    and the loop keeps its own copy of the table: in the interrupt handler a
    floating-point instruction executes, where [ppc_exec_single], which has no copy,
    raises the FPU-unavailable exception. *)
Theorem interrupt_keeps_stale_table `{Devices} `{HostFpu} tc e bits fuel l m : delivered_between e = true ->
  test (msr (cpu m)) MSR.FP = true ->
  exists m1, ppc_exception_handler e bits m = (Ret tt, m1) /\ test (msr (cpu m1)) MSR.FP = false /\
    fpu_grabber (ex m1) = false /\
    (forall l' m2, go_on fuel l m1 = (Ret (Some l'), m2) ->
     opcode_grabber l' = opcode_grabber l /\ pc (cpu m2) = vector e m) /\
    (forall op w, 0 <= w < 2 ^ 32 -> In op (initialize_ppc_opcode_table tc) -> matches (e_pattern op) w = true -> e_fp op = true ->
     ppc_main_opcode tc true w = e_handler op w /\ ppc_main_opcode tc (fpu_grabber (ex m1)) w = ppc_fpu_off w).
Proof.
  intros He Hfp. destruct (exc_srr0 e m) as [srr0|] eqn:E; [|by destruct e].
  destruct (exception_handler_entry e bits m srr0 E) as (m1 & E1 & H1). rewrite He in E1. exists m1.
  pose proof (handler_grabber e bits m He Hfp) as Hg. rewrite E1 in Hg. cbn [snd] in Hg.
  split; [done|]. split; [rewrite (ee_msr _ _ _ _ _ H1); apply exc_msr_fp|]. split; [done|]. split.
  - intros l' m2. unfold go_on. rewrite bind_gets. rewrite (ee_flags _ _ _ _ _ H1).
    change (negb (EXEF.EXEF_EXCEPTION =? 0)) with true. cbv iota.
    change (test EXEF.EXEF_EXCEPTION EXEF.EXEF_SLEEP && _) with false. cbv iota. unfold fuelled. rewrite bind_ret_l.
    unfold bind at 1. destruct (next_block l m1) as [[l3| |] m3] eqn:En; [|done..]. intros [= <- <-]. revert En.
    unfold next_block. rewrite bind_gets. cbv zeta.
    assert (flag_set EXEF.EXEF_OPC_DECODER m1 = false) as -> by (unfold flag_set; by rewrite (ee_flags _ _ _ _ _ H1)).
    rewrite (ee_nia _ _ _ _ _ H1). unfold bind at 1. destruct (negb _ && _).
    + unfold ret at 1, mcpu, set_flags. rewrite !bind_modify. by intros [= <- <-].
    + unfold execution_block, bind at 1. destruct (mmu_translate_imem _ m1) as [[h| |] m4]; [|done..].
      unfold ret at 1, mcpu, set_flags. rewrite !bind_modify. by intros [= <- <-].
  - intros op w Hw Hin Hm Hf. rewrite Hg.
    rewrite (proj1 (main_opcode_selects tc true w Hw) op Hin Hm), (proj1 (main_opcode_selects tc false w Hw) op Hin Hm), Hf. done.
Qed.

(** The decrementer interrupts a program that uses the FPU. *)
Definition fp_program : machine := upd_ex (set_fpu_grabber true) (upd_cpu (with_msr 0xA030) demo_machine).

Lemma interrupt_keeps_stale_table_witness : test (msr (cpu fp_program)) MSR.FP = true /\
  exists m1, ppc_exception_handler EXC_DECR 0 fp_program = (Ret tt, m1) /\ fpu_grabber (ex m1) = false /\
    flag_set EXEF.EXEF_OPC_DECODER m1 = false.
Proof.
  split; [reflexivity|].
  destruct (@interrupt_keeps_stale_table silent_devices default_fpu (mk_table_config false false false) EXC_DECR 0 1%nat demo_block
    fp_program eq_refl eq_refl) as (m1 & E1 & _ & Hg & _).
  exists m1. split; [exact E1|]. split; [exact Hg|].
  assert (flag_set EXEF.EXEF_OPC_DECODER (ppc_exception_handler EXC_DECR 0 fp_program).2 = false) as Hf by (vm_compute; reflexivity).
  by rewrite E1 in Hf.
Defined.
