(* ===== verification/Sleep.v ===== *)
(** * Waking up from power saving (cpu/ppc/ppcexec.cpp)

    The loop that waits while [EXEF_SLEEP] is set ends, with the decrementer
    interrupt and not before its time. *)
From S2P Require Import Prelude Word PpcState Timers MemCtrl Machine Mmu Exceptions SystemRegs Fpu Invariant VmInv RealMode Decode Clock Exec.

Section Sleep.
Context `{Devices}.

(** The decrementer is queued for [d], and every other timer for after [b]. *)
Record decrementer_first (d b : Z) (m : machine) : Prop := {
  df_queued : decrementer_timer ∈ timer_queue (timers m);
  df_info : info decrementer_timer (timers m) = mkTimerInfo d 0 true cb_timed_decrementer;
  df_others : forall ti, ti ∈ timer_queue (timers m) -> ti <> decrementer_timer -> b < timeout_ns (info ti (timers m))
}.

Lemma top_first d b m : decrementer_first d b m -> d <= b -> queue_top (timers m) = Some decrementer_timer.
Proof.
  intros [Hin Hi Ho] Hb. destruct (queue_top (timers m)) as [ti|] eqn:Et.
  - destruct (queue_top_spec _ _ Et) as [Hq Hmin]. destruct (decide (ti = decrementer_timer)) as [->|Hne]; [done|].
    specialize (Ho ti Hq Hne). specialize (Hmin _ Hin). apply before_spec in Hmin. rewrite Hi in Hmin. cbn [timeout_ns] in Hmin. lia.
  - unfold queue_top in Et. destruct (timer_queue (timers m)); [by apply elem_of_nil in Hin | done].
Qed.

Lemma events_before d b n m : decrementer_first d b m -> get_virt_time_ns m < d <= b ->
  process_events (S n) m = (Ret (Some (next_cycles d m)), upd_ex (set_exec_timer false) m).
Proof.
  intros Ho [Hd Hb]. unfold process_events. rewrite bind_modify. unfold bind at 1, process_timers. rewrite !bind_gets.
  change (get_tm (upd_ex (set_exec_timer false) m)) with (timers m). rewrite (top_first d b m Ho Hb).
  change (get_time_now (upd_ex (set_exec_timer false) m)) with (get_virt_time_ns m).
  cbn [process_loop]. rewrite bind_gets. change (get_tm (upd_ex (set_exec_timer false) m)) with (timers m).
  rewrite (df_info _ _ _ Ho). cbn [timeout_ns]. destruct (Z.leb_spec d (get_virt_time_ns m)); [lia|]. reflexivity.
Qed.

(** The queue after the decrementer has been set again: its top lies after [b]. *)
Lemma rescheduled_top i b m m' : rescheduled decrementer_timer i m m' -> active i = true -> b < timeout_ns i ->
  (forall ti, ti ∈ timer_queue (timers m) -> ti <> decrementer_timer -> b < timeout_ns (info ti (timers m))) ->
  exists ti, queue_top (timers m') = Some ti /\ b < timeout_ns (info ti (timers m')).
Proof.
  intros [_ Hw Hi Ho] Ha Hb Hq.
  assert (decrementer_timer ∈ timer_queue (timers m')) as Hin by (apply Hw; by rewrite Hi).
  destruct (queue_top (timers m')) as [ti|] eqn:Et.
  - destruct (queue_top_spec _ _ Et) as [Hti _]. exists ti. split; [done|].
    destruct (decide (ti = decrementer_timer)) as [->|Hne]; [by rewrite Hi|]. destruct (Ho ti Hne) as [-> Hqi]. apply Hq; [by apply Hqi | done].
  - unfold queue_top in Et. destruct (timer_queue (timers m')); [by apply elem_of_nil in Hin | done].
Qed.

Lemma queue_top_cb_active b (t : TimerManager timer_callback) : queue_top (set_cb_active b t) = queue_top t.
Proof.
  unfold queue_top. change (timer_queue (set_cb_active b t)) with (timer_queue t). destruct (timer_queue t) as [|x l]; [done|].
  f_equal. revert x. induction l as [|y l IH]; intros x; [done|]. cbn [least]. apply IH.
Qed.

(** The state in which the decrementer's callback runs. *)
Definition firing (m : machine) : machine :=
  set_timers (set_cb_active true (expire decrementer_timer (get_virt_time_ns m) (timers m))) (upd_ex (set_exec_timer false) m).

Lemma firing_spec d b m : decrementer_first d b m -> machine_ok m -> timers_wf (timers m) ->
  machine_ok (firing m) /\ timers_wf (timers (firing m)) /\
  forall ti, ti ∈ timer_queue (timers (firing m)) -> ti <> decrementer_timer -> b < timeout_ns (info ti (timers (firing m))).
Proof.
  intros [Eq Ei Eo] [? ? ? ? ?] Hw. split; [by split|].
  assert (timers_wf (expire decrementer_timer (get_virt_time_ns m) (timers m))) as [Hn Ha] by (by apply wf_expire).
  split; [by split|]. intros ti Hti Hne.
  destruct (expire_ne decrementer_timer ti (get_virt_time_ns m) (timers m) (not_eq_sym Hne) (wf_nodup _ Hw)) as [Hi Hq].
  change (info ti (timers (firing m))) with (info ti (expire decrementer_timer (get_virt_time_ns m) (timers m))). rewrite Hi.
  apply Eo; [by apply Hq | done].
Qed.

(** The decrementer's interrupt, taken between instructions. *)
Lemma events_due d b n m : decrementer_first d b m -> machine_ok m -> timers_wf (timers m) -> msr_bit MSR.EE m = true ->
  d <= get_virt_time_ns m <= b -> d <= b < 2 ^ 62 -> 2 ^ 33 <= tbr_period_ns (tb m) < 2 ^ 62 ->
  exists mc m', process_events (S (S n)) m = (Ret (Some mc), m') /\ vt m' = vt m /\
    exists m1, cpu m1 = cpu m /\ exec_flags (ex m1) = exec_flags (ex m) /\
      ppc_next_instruction_address (ex m1) = ppc_next_instruction_address (ex m) /\
    exists m2, exception_entry EXC_DECR (if test (exec_flags (ex m)) (Z.lnot EXEF.EXEF_OPC_DECODER)
                                then ppc_next_instruction_address (ex m)
                                else u32 (Z.land (pc (cpu m)) 0xFFFFFFFC + 4)) 0 m1 m2 /\
      cpu m' = cpu m2 /\ ex m' = ex m2.
Proof.
  intros Ho Hok Hw Hee Hd Hb Hp. destruct (firing_spec d b m Ho Hok Hw) as (Fok & Fw & Fq).
  destruct (decrementer_fires (firing m) Fok Fw) as (m1 & m2 & R & E & Et & Etb & _ & Hx).
  change (msr_bit MSR.EE (firing m)) with (msr_bit MSR.EE m) in Hx. rewrite Hee in Hx.
  pose proof (rs_frame _ _ _ _ R) as (Fc & Ff & Fm & Fv & Ftb & Fr & Fl & tf & Fe).
  destruct (ee_env _ _ _ _ _ Hx) as (_ & Gv & _).
  assert (get_virt_time_ns (firing m) = get_virt_time_ns m) as Ev by done.
  assert (get_virt_time_ns m < dec_deadline 0xFFFFFFFF (firing m)) as Hlate.
  { unfold dec_deadline. rewrite Ev. change (tbr_period_ns (tb (firing m))) with (tbr_period_ns (tb m)).
    assert (dec_ticks 0xFFFFFFFF (firing m) = 0xFFFFFFFF) as -> by (unfold dec_ticks; by destruct (is_601 _)).
    pose proof (virt_time_range m). rewrite uwrap_small by zlia. zlia. }
  destruct (rescheduled_top _ (get_virt_time_ns m) _ _ R eq_refl) as (top & Ht & Hi); [cbn [timeout_ns]; lia | |].
  { intros ti Hti Hne. change (timers (dec_written true 0xFFFFFFFF (firing m))) with (timers (firing m)) in *. specialize (Fq ti Hti Hne). lia. }
  set (m3 := set_timers (set_cb_active false (timers m2)) m2).
  assert (get_virt_time_ns m < timeout_ns (info top (timers m3))) as Hi3
    by (rewrite <- Et in Hi; exact Hi).
  exists (next_cycles (timeout_ns (info top (timers m3))) m3), m3. split; [|split].
  - unfold process_events. rewrite bind_modify. unfold bind at 1, process_timers. rewrite !bind_gets.
    change (get_tm (upd_ex (set_exec_timer false) m)) with (timers m). rewrite (top_first d b m Ho) by lia.
    change (get_time_now (upd_ex (set_exec_timer false) m)) with (get_virt_time_ns m).
    cbn [process_loop]. rewrite bind_gets. change (get_tm (upd_ex (set_exec_timer false) m)) with (timers m).
    rewrite (df_info _ _ _ Ho). cbn [timeout_ns cb]. destruct (Z.leb_spec d (get_virt_time_ns m)); [|lia].
    unfold upd. rewrite !bind_modify.
    match goal with |- context [bind (invoke _ _ _) _ ?x] => change x with (firing m) end.
    unfold bind at 1. change (invoke cb_timed_decrementer (get_virt_time_ns m) d (firing m))
      with (trigger_timed_decrementer_exception (firing m)). rewrite E. rewrite bind_modify, bind_gets.
    change (get_tm (set_tm (set_cb_active false (get_tm m2)) m2)) with (set_cb_active false (timers m2)).
    rewrite queue_top_cb_active, Et, Ht.
    rewrite bind_gets. match goal with |- context [info top ?t] => change t with (timers m3) end.
    destruct (Z.leb_spec (timeout_ns (info top (timers m3))) (get_virt_time_ns m)); [lia|]. reflexivity.
  - unfold m3. cbn [vt set_timers]. rewrite Gv, Fv. done.
  - exists m1. split; [exact Fc|]. rewrite Fe. split; [done|]. split; [done|]. exists m2. split; [exact Hx | done].
Qed.

Lemma sleep_again n l m : power_on (ex m) = true -> flag_set EXEF.EXEF_SLEEP m = true ->
  sleep_loop (S n) l m = (mc <-? process_events n ;;
    still <- gets (flag_set EXEF.EXEF_SLEEP) ;;
    if negb still then ret (Some (set_max_cycles mc l)) else
    modify (upd_vt (fun v => if g_icycles v <? mc then set_g_icycles mc v
                             else set_g_icycles (u64 (g_icycles v + 1)) v)) ;;;
    sleep_loop n (set_max_cycles mc l)) m.
Proof. intros Hp Hs. cbn [sleep_loop]. rewrite bind_gets, Hp, Hs. reflexivity. Qed.

Lemma time_at_virt m : g_realtime (vt m) = false -> 0 <= time_at (g_icycles (vt m)) (vt m) < 2 ^ 64 ->
  get_virt_time_ns m = time_at (g_icycles (vt m)) (vt m).
Proof. intros Hr Ht. rewrite virt_time_cycles by done. by apply Z.mod_small. Qed.
End Sleep.

(** C5: a sleeping processor is woken by the decrementer.  While instructions are the
    clock (not in real time), with interrupts enabled, the decrementer counting
    towards [d], and no other timer - however many are queued - due by then, the loop
    that waits while [EXEF_SLEEP] is set ends - it
    looks at the timers twice - with the decrementer's interrupt: execution is to
    continue at its vector, SRR0 holds the instruction after the one that put the
    processor to sleep, and virtual time has been moved past [d] by one instruction
    period at most. *)
Theorem sleep_ends `{Devices} d n l m : machine_ok m -> timers_wf (timers m) -> clock_ok (vt m) ->
  g_realtime (vt m) = false -> power_on (ex m) = true -> flag_set EXEF.EXEF_SLEEP m = true -> msr_bit MSR.EE m = true ->
  decrementer_first d (d + icnt_period_ns (vt m)) m -> time_at (g_icycles (vt m)) (vt m) < d -> d + icnt_period_ns (vt m) < 2 ^ 62 ->
  2 ^ 33 <= tbr_period_ns (tb m) < 2 ^ 62 ->
  exists l' m', sleep_loop (4 + n) l m = (Ret (Some l'), m') /\
    exec_flags (ex m') = EXEF.EXEF_EXCEPTION /\ ppc_next_instruction_address (ex m') = vector EXC_DECR m /\
    m_spr m' SPR.SRR0 = ppc_next_instruction_address (ex m) /\
    d < get_virt_time_ns m' <= d + icnt_period_ns (vt m).
Proof.
  intros Hok Hw Hc Hr Hp Hs Hee Ho Hd Hb Htb. pose proof Hc as [C1 C2 C3 C4 C5].
  assert (0 <= time_at (g_icycles (vt m)) (vt m)) as H0 by (unfold time_at; nia).
  pose proof (time_at_virt m Hr ltac:(lia)) as Ev.
  destruct (next_cycles_bound d m Hc ltac:(lia)) as [Hnc _].
  rewrite (proj2 (Z.eqb_neq d 0)) in Hnc by lia. destruct (Hnc Hr ltac:(lia)) as [G1 G2]. clear Hnc.
  set (mc := next_cycles d m) in *.
  assert (icnt_time_offset_ns (vt m) <= time_at (g_icycles (vt m)) (vt m)) by (unfold time_at; nia).
  rewrite Z.max_l in G2 by lia.
  assert (g_icycles (vt m) < mc) as Hg by (unfold time_at in *; nia).
  change (4 + n)%nat with (S (S (S (S n)))). rewrite sleep_again by done. unfold fuelled at 1, bind at 1.
  rewrite (events_before d (d + icnt_period_ns (vt m))) by (done || lia). fold mc. cbv iota. rewrite bind_gets.
  change (flag_set EXEF.EXEF_SLEEP (upd_ex (set_exec_timer false) m)) with (flag_set EXEF.EXEF_SLEEP m). rewrite Hs. cbn [negb].
  rewrite bind_modify. set (m1 := upd_vt _ (upd_ex _ m)).
  assert (vt m1 = set_g_icycles mc (vt m)) as Evt.
  { unfold m1. cbn [vt upd_vt set_vt upd_ex set_ex]. by rewrite (proj2 (Z.ltb_lt _ _) Hg). }
  assert (get_virt_time_ns m1 = time_at mc (vt m)) as Ev1.
  { rewrite time_at_virt; rewrite Evt; [done | done | change (time_at (g_icycles (set_g_icycles mc (vt m))) (set_g_icycles mc (vt m))) with (time_at mc (vt m)); lia]. }
  destruct (events_due d (d + icnt_period_ns (vt m)) n m1) as (mc2 & m2 & E2 & Vt2 & m3 & Ec & Ef & En & m4 & Hx & Ec2 & Ex2).
  - destruct Ho. by split.
  - destruct Hok. by split.
  - exact Hw.
  - exact Hee.
  - rewrite Ev1. lia.
  - lia.
  - exact Htb.
  - rewrite sleep_again by done. unfold fuelled at 1, bind at 1. rewrite E2. rewrite bind_gets.
    assert (flag_set EXEF.EXEF_SLEEP m2 = false) as -> by (unfold flag_set; by rewrite Ex2, (ee_flags _ _ _ _ _ Hx)).
    exists (set_max_cycles mc2 (set_max_cycles mc l)), m2. split; [reflexivity|].
    rewrite Ex2. split; [apply Hx|]. split; [rewrite (ee_nia _ _ _ _ _ Hx); unfold vector; by rewrite Ec|].
    split; [|unfold get_virt_time_ns; rewrite Vt2; fold (get_virt_time_ns m1); rewrite Ev1; lia].
    unfold m_spr. rewrite Ec2. fold (m_spr m4 SPR.SRR0). rewrite (ee_srr0 _ _ _ _ _ Hx).
    assert (test (exec_flags (ex m1)) (Z.lnot EXEF.EXEF_OPC_DECODER) = true) as ->; [|done].
    change (exec_flags (ex m1)) with (exec_flags (ex m)). unfold flag_set, EXEF.EXEF_SLEEP in Hs. rewrite test_pow2 in Hs by lia.
    unfold test. apply negb_true_iff, Z.eqb_neq. intros E0.
    assert (Z.testbit (Z.land (exec_flags (ex m)) (Z.lnot EXEF.EXEF_OPC_DECODER)) 4 = true) as Hbit
      by (rewrite Z.land_spec, Hs; reflexivity).
    rewrite E0 in Hbit. discriminate.
Qed.

(** Asleep at 0x2000, with the decrementer due after 1000 ns and a device's timer
    after a second. *)
Definition sleeping : machine :=
  set_timers (mkTimerManager [7; decrementer_timer]
      (<[ decrementer_timer := mkTimerInfo 1000 0 true cb_timed_decrementer ]> {[ 7 := mkTimerInfo 1000000000 0 true (cb_device 0) ]}) false)
    (upd_ex (fun e => set_ppc_next_instruction_address 0x2004 (set_exec_flags EXEF.EXEF_SLEEP e))
      (upd_cpu (with_msr 0x8030) demo_machine)).

Lemma sleeping_ok : machine_ok sleeping /\ timers_wf (timers sleeping) /\ clock_ok (vt sleeping).
Proof.
  split; [|split; [|split; cbn; lia]].
  - destruct demo_machine_ok as [H1 H2 H3 H4 H5].
    split; [apply with_msr_ok; [exact H1 | lia] | cbn; lia | by vm_compute | exact H4 | exact H5].
  - split; [cbn; constructor; [by intros ?%list_elem_of_singleton | apply NoDup_singleton]|].
    intros ti. cbn [sleeping timers set_timers timer_queue]. rewrite elem_of_cons, list_elem_of_singleton.
    unfold info. cbn [infos]. destruct (decide (ti = decrementer_timer)) as [->|Hne]; [rewrite lookup_insert_eq; cbn; tauto|].
    rewrite lookup_insert_ne by done. destruct (decide (ti = 7)) as [->|H7]; [rewrite lookup_singleton_eq; cbn; tauto|].
    rewrite lookup_singleton_ne by done. cbn. split; [done | by intros [->| ->]].
Qed.

Lemma sleep_ends_witness : exists l' m',
  @sleep_loop silent_devices 4 (mk_loop_state 0 0x2000 0x2FFF false 0) sleeping = (Ret (Some l'), m') /\
  ppc_next_instruction_address (ex m') = 0x900 /\ m_spr m' SPR.SRR0 = 0x2004.
Proof.
  destruct sleeping_ok as (H1 & H2 & H3).
  assert (decrementer_first 1000 (1000 + icnt_period_ns (vt sleeping)) sleeping) as Ho.
  { split; [apply list_elem_of_In; right; by left | vm_compute; reflexivity|].
    intros ti Hti Hne. apply elem_of_cons in Hti as [->|Hd%list_elem_of_singleton]; [vm_compute; reflexivity | done]. }
  destruct (@sleep_ends silent_devices 1000 0 (mk_loop_state 0 0x2000 0x2FFF false 0) sleeping H1 H2 H3 eq_refl eq_refl eq_refl eq_refl Ho
    ltac:(reflexivity) ltac:(reflexivity) ltac:(cbn; lia)) as (l' & m' & E & _ & En & E0 & _).
  exists l', m'. split; [exact E|]. split; [exact En | exact E0].
Defined.
