(* ===== verification/MacIo.v ===== *)
(** * The MacIO interrupt controllers (devices/ioctrl)

    Grand Central, O'Hare, Heathrow and Paddington collect the interrupt lines of the
    devices, latch their edges as events and drive the processor's interrupt pin.
    The interrupt logic of MacIoBase works on 64-bit registers and is repeated in
    GrandCentral with 32-bit ones; the definitions take the width's truncation as an
    argument.  What the controller sits in is a class: where its registers are, and
    the processor's pin.  The registers of the cells behind the controller are
    reached through the class [SubDevices]. *)
From S2P Require Import Prelude Word PpcState Timers MemCtrl Machine Exceptions.
Import Endian.

(** ** State *)

(* [devices/ioctrl/macio.h:56-56] *)
Definition MACIO_INT_CLR := 0x80000000.
(* [devices/ioctrl/macio.h:57-57] *)
Definition MACIO_INT_MODE := 0x80000000.
(* [devices/ioctrl/macio.h:59-59] *)
Definition INT_TO_IRQ_ID (intx : Z) : Z := Z.shiftl 1 intx.

(* [devices/ioctrl/macio.h:151-155 int_mask] *)
Record int_ctrl := mk_int_ctrl {
  int_mask : Z;
  cpu_int_latch : bool;
  int_levels : Z;
  int_events : Z
}.
Definition set_int_mask v (c : int_ctrl) := mk_int_ctrl v (cpu_int_latch c) (int_levels c) (int_events c).
Definition set_cpu_int_latch v (c : int_ctrl) := mk_int_ctrl (int_mask c) v (int_levels c) (int_events c).
Definition set_int_levels v (c : int_ctrl) := mk_int_ctrl (int_mask c) (cpu_int_latch c) v (int_events c).
Definition set_int_events v (c : int_ctrl) := mk_int_ctrl (int_mask c) (cpu_int_latch c) (int_levels c) v.

(** What the controller is part of: its registers in the state, the processor. *)
Class IntHost (S : Type) := {
  get_ic : S -> int_ctrl;
  set_ic : int_ctrl -> S -> S;
  cpu_assert_int : M S unit;
  cpu_release_int : M S unit
}.

(** What it may rely on: the processor's routines return and leave its registers
    alone, and the pin is where they put it. *)
Class IntHostLaws (S : Type) `{IntHost S} := {
  cpu_pin : S -> bool;
  get_set_ic : forall c s, get_ic (set_ic c s) = c;
  set_set_ic : forall c d s, set_ic c (set_ic d s) = set_ic c s;
  pin_set_ic : forall c s, cpu_pin (set_ic c s) = cpu_pin s;
  assert_int_law : forall s, exists s', cpu_assert_int s = (Ret tt, s') /\ get_ic s' = get_ic s /\ cpu_pin s' = true;
  release_int_law : forall s, exists s', cpu_release_int s = (Ret tt, s') /\ get_ic s' = get_ic s /\ cpu_pin s' = false
}.

Definition upd_ic {S} `{IntHost S} (f : int_ctrl -> int_ctrl) : M S unit := modify (fun s => set_ic (f (get_ic s)) s).

(** ** The interrupt logic *)

Section IntLogic.
Context {S : Type} `{IntHost S}.
(** [uint64_t] in MacIoBase, [uint32_t] in GrandCentral. *)
Variable w : Z.

(* [devices/ioctrl/maciobase.cpp:193-202] *)
Definition signal_cpu_int : M S unit :=
  c <- gets get_ic ;;
  when (test (int_events c) (int_mask c)) (
    if negb (cpu_int_latch c) then
      upd_ic (set_cpu_int_latch true) ;;;
      cpu_assert_int
    else ret tt).

(* [devices/ioctrl/maciobase.cpp:204-210] *)
Definition clear_cpu_int : M S unit :=
  c <- gets get_ic ;;
  when (negb (test (int_events c) (int_mask c)) && cpu_int_latch c) (
    upd_ic (set_cpu_int_latch false) ;;;
    cpu_release_int).

(* [devices/ioctrl/maciobase.cpp:135-165] *)
Definition ack_int_common (irq_id irq_line_state : Z) : M S unit :=
  c <- gets get_ic ;;
  let old_levels := int_levels c in
  let old_events := int_events c in
  upd_ic (set_int_levels (if negb (irq_line_state =? 0) then Z.lor old_levels (uwrap w irq_id)
                          else Z.land old_levels (Z.lnot (uwrap w irq_id)))) ;;;
  when (negb (irq_line_state =? b2z (test old_levels irq_id)) &&
        (negb (irq_line_state =? 0) || test (int_mask c) MACIO_INT_MODE)) (
    upd_ic (fun c => set_int_events (Z.lor (int_events c) (uwrap w irq_id)) c) ;;;
    c' <- gets get_ic ;;
    when (negb (old_events =? int_events c')) signal_cpu_int).

(** [~clear_flags] is a 32-bit complement. *)
(* [devices/ioctrl/maciobase.cpp:175-191] *)
Definition clear_dma_int (clear_flags : Z) : M S unit :=
  let clear_flags := Z.land clear_flags 0x7FF in
  if clear_flags =? 0 then ret tt
  else
    c <- gets get_ic ;;
    if test (int_mask c) MACIO_INT_MODE then
      upd_ic (fun c => set_int_events (Z.lor (int_events c) (Z.land (int_levels c) clear_flags)) c) ;;;
      upd_ic (fun c => set_int_levels (Z.land (int_levels c) (not32 clear_flags)) c) ;;;
      signal_cpu_int
    else upd_ic (fun c => set_int_levels (Z.land (int_levels c) (not32 clear_flags)) c).

End IntLogic.

(* [devices/ioctrl/maciobase.cpp:167-169] *)
Definition ack_int {S} `{IntHost S} : Z -> Z -> M S unit := ack_int_common 64.
(* [devices/ioctrl/maciobase.cpp:171-173] *)
Definition ack_dma_int {S} `{IntHost S} : Z -> Z -> M S unit := ack_int_common 64.

(** ** Interrupt sources *)

(* [devices/common/hwinterrupt.h:30-98] *)
Inductive IntSrc :=
| INT_UNKNOWN | VIA_CUDA | VIA2 | SCSI_MESH | SCSI_CURIO | SWIM3 | ESCC | SCCA | SCCB | ETHERNET | NMI | EXT1
| IDE0 | IDE1 | DAVBUS | PERCH1 | PERCH2 | PCI_A | PCI_B | PCI_C | PCI_D | PCI_E | PCI_F | PCI_GPU | PCI_PERCH
| BANDIT1 | BANDIT2 | CONTROL | SIXTY6 | PLANB | VCI | PLATINUM | DMA_ALL | DMA_SCSI_MESH | DMA_SCSI_CURIO
| DMA_SWIM3 | DMA_IDE0 | DMA_IDE1 | DMA_SCCA_Tx | DMA_SCCA_Rx | DMA_SCCB_Tx | DMA_SCCB_Rx | DMA_DAVBUS_Tx
| DMA_DAVBUS_Rx | DMA_ETHERNET_Tx | DMA_ETHERNET_Rx | FIREWIRE | PCI_J12 | PCI_J11 | PCI_J10 | PCI_J9 | ATA
| USB | PIPPIN_E | PIPPIN_F | ZIVA | PCI_CARDBUS | MEDIA_BAY | SLOT_ALL | SLOT_0 | SLOT_1 | SLOT_2 | SLOT_PDS
| SLOT_VDS | VBL | VALKYRIE | SCSI_CURIO2.

#[export] Instance IntSrc_eq_dec : EqDecision IntSrc.
Proof. solve_decision. Defined.

(** [None] is [ABORT_F]. *)
(* [devices/ioctrl/maciobase.cpp:120-133 register_dma_int] *)
Definition register_dma_int_base (src_id : IntSrc) : option Z :=
  match src_id with
  | DMA_SWIM3 => Some (INT_TO_IRQ_ID 0x01)
  | DMA_SCCA_Tx => Some (INT_TO_IRQ_ID 0x04)
  | DMA_SCCA_Rx => Some (INT_TO_IRQ_ID 0x05)
  | DMA_SCCB_Tx => Some (INT_TO_IRQ_ID 0x06)
  | DMA_SCCB_Rx => Some (INT_TO_IRQ_ID 0x07)
  | DMA_DAVBUS_Tx => Some (INT_TO_IRQ_ID 0x08)
  | DMA_DAVBUS_Rx => Some (INT_TO_IRQ_ID 0x09)
  | _ => None
  end.

Module GrandCentral.
(* [devices/ioctrl/grandcentral.cpp:470-507] *)
Definition register_dev_int (src_id : IntSrc) : option Z :=
  match src_id with
  | SCSI_CURIO => Some (INT_TO_IRQ_ID 0x0C)
  | SCSI_MESH => Some (INT_TO_IRQ_ID 0x0D)
  | ETHERNET => Some (INT_TO_IRQ_ID 0x0E)
  | SCCA => Some (INT_TO_IRQ_ID 0x0F)
  | SCCB => Some (INT_TO_IRQ_ID 0x10)
  | DAVBUS => Some (INT_TO_IRQ_ID 0x11)
  | VIA_CUDA => Some (INT_TO_IRQ_ID 0x12)
  | SWIM3 => Some (INT_TO_IRQ_ID 0x13)
  | NMI => Some (INT_TO_IRQ_ID 0x14)
  | EXT1 => Some (INT_TO_IRQ_ID 0x15)
  | BANDIT1 => Some (INT_TO_IRQ_ID 0x16)
  | PCI_A => Some (INT_TO_IRQ_ID 0x17)
  | PCI_B => Some (INT_TO_IRQ_ID 0x18)
  | PCI_C => Some (INT_TO_IRQ_ID 0x19)
  | BANDIT2 => Some (INT_TO_IRQ_ID 0x1A)
  | PCI_D => Some (INT_TO_IRQ_ID 0x1B)
  | PCI_E => Some (INT_TO_IRQ_ID 0x1C)
  | PCI_F => Some (INT_TO_IRQ_ID 0x1D)
  | CONTROL => Some (INT_TO_IRQ_ID 0x1A)
  | SIXTY6 => Some (INT_TO_IRQ_ID 0x1B)
  | PLANB => Some (INT_TO_IRQ_ID 0x1C)
  | VCI => Some (INT_TO_IRQ_ID 0x1D)
  | PLATINUM => Some (INT_TO_IRQ_ID 0x1E)
  | PIPPIN_F => Some (INT_TO_IRQ_ID 0x1D)
  | PIPPIN_E => Some (INT_TO_IRQ_ID 0x1E)
  | _ => None
  end.
(* [devices/ioctrl/grandcentral.cpp:509-526] *)
Definition register_dma_int (src_id : IntSrc) : option Z :=
  match src_id with
  | DMA_SCSI_CURIO => Some (INT_TO_IRQ_ID 0x00)
  | DMA_SWIM3 => Some (INT_TO_IRQ_ID 0x01)
  | DMA_ETHERNET_Tx => Some (INT_TO_IRQ_ID 0x02)
  | DMA_ETHERNET_Rx => Some (INT_TO_IRQ_ID 0x03)
  | DMA_SCCA_Tx => Some (INT_TO_IRQ_ID 0x04)
  | DMA_SCCA_Rx => Some (INT_TO_IRQ_ID 0x05)
  | DMA_SCCB_Tx => Some (INT_TO_IRQ_ID 0x06)
  | DMA_SCCB_Rx => Some (INT_TO_IRQ_ID 0x07)
  | DMA_DAVBUS_Tx => Some (INT_TO_IRQ_ID 0x08)
  | DMA_DAVBUS_Rx => Some (INT_TO_IRQ_ID 0x09)
  | DMA_SCSI_MESH => Some (INT_TO_IRQ_ID 0x0A)
  | _ => None
  end.

Section Logic.
Context {S : Type} `{IntHost S}.
(* [devices/ioctrl/grandcentral.cpp:528-552] *)
Definition ack_int_common : Z -> Z -> M S unit := ack_int_common 32.
(* [devices/ioctrl/grandcentral.cpp:554-556] *)
Definition ack_int : Z -> Z -> M S unit := ack_int_common.
(* [devices/ioctrl/grandcentral.cpp:558-560] *)
Definition ack_dma_int : Z -> Z -> M S unit := ack_int_common.
(* [devices/ioctrl/grandcentral.cpp:562-578] *)
Definition clear_dma_int : Z -> M S unit := clear_dma_int.
(* [devices/ioctrl/grandcentral.cpp:580-589] *)
Definition signal_cpu_int : M S unit := signal_cpu_int.
(* [devices/ioctrl/grandcentral.cpp:591-597] *)
Definition clear_cpu_int : M S unit := clear_cpu_int.
End Logic.
End GrandCentral.

(** ** The cells behind the controllers

    A register of a cell is read and written with an access size; the cells whose
    accessors take none get 1. *)

Inductive cell :=
| Curio | Mace | Escc | Awacs | SndCodec | Swim3Ctrl | ViaCuda | Mesh | Bmac | Ide_0 | Ide_1 | NVramCell
| DmaChan (dma_channel : Z)
| Iobus (dev_num : Z).

Class SubDevices (S : Type) := {
  cell_read : cell -> Z -> Z -> M S Z;
  cell_write : cell -> Z -> Z -> Z -> M S unit;
  cell_present : cell -> bool
}.

(* [devices/serial/escc.cpp:41-45] *)
Definition compat_to_macrisc (i : Z) : Z := nth (Z.to_nat i) [0; 2; 1; 3; 4; 5] 0.

(** Access to the serial controller through the compatible (case 2) or the MacRISC
    addresses (case 3); [None] is an access to neither. *)
Definition escc_reg (compat : bool) (offset : Z) : option Z :=
  if compat && (Z.land offset 0xFF <? 0x0C) then Some (compat_to_macrisc (Z.land (Z.shiftr offset 1) 0xF))
  else if compat && (Z.land offset 0xFF <? 0x60) then None
  else Some (Z.land (Z.shiftr offset 4) 0xF).

Module MIO.
(* [devices/ioctrl/macio.h:63-63 MIO_INT_EVENTS2] *)
Definition INT_EVENTS2 := 0x10.
(* [devices/ioctrl/macio.h:64-64 MIO_INT_MASK2] *)
Definition INT_MASK2 := 0x14.
(* [devices/ioctrl/macio.h:65-65 MIO_INT_CLEAR2] *)
Definition INT_CLEAR2 := 0x18.
(* [devices/ioctrl/macio.h:66-66 MIO_INT_LEVELS2] *)
Definition INT_LEVELS2 := 0x1C.
(* [devices/ioctrl/macio.h:67-67 MIO_INT_EVENTS1] *)
Definition INT_EVENTS1 := 0x20.
(* [devices/ioctrl/macio.h:68-68 MIO_INT_MASK1] *)
Definition INT_MASK1 := 0x24.
(* [devices/ioctrl/macio.h:69-69 MIO_INT_CLEAR1] *)
Definition INT_CLEAR1 := 0x28.
(* [devices/ioctrl/macio.h:70-70 MIO_INT_LEVELS1] *)
Definition INT_LEVELS1 := 0x2C.
(* [devices/ioctrl/macio.h:247-247 MIO_OHARE_ENTRY_SPT] *)
Definition OHARE_ENTRY_SPT := 0x30.
(* [devices/ioctrl/macio.h:248-248 MIO_OHARE_ID] *)
Definition OHARE_ID := 0x34.
(* [devices/ioctrl/macio.h:249-249 MIO_OHARE_FEAT_CTRL] *)
Definition OHARE_FEAT_CTRL := 0x38.
(* [devices/ioctrl/macio.h:250-250 MIO_HEATH_AUX_CTRL] *)
Definition HEATH_AUX_CTRL := 0x3C.
End MIO.

(** ** O'Hare, Heathrow, Paddington *)

(* [devices/ioctrl/macio.h:359-365 feat_ctrl] *)
Record macio_two := mk_macio_two {
  is_ohare : bool;  (* device_id == MIO_DEV_ID_OHARE *)
  feat_ctrl : Z;
  aux_ctrl : Z;
  mio_cpu_id : Z;
  mb_id : Z;
  mon_id : Z;
  fp_id : Z
}.
Definition set_feat_ctrl v r := mk_macio_two (is_ohare r) v (aux_ctrl r) (mio_cpu_id r) (mb_id r) (mon_id r) (fp_id r).
Definition set_aux_ctrl v r := mk_macio_two (is_ohare r) (feat_ctrl r) v (mio_cpu_id r) (mb_id r) (mon_id r) (fp_id r).

Class MacIoTwoHost (S : Type) := {
  get_mio : S -> macio_two;
  set_mio : macio_two -> S -> S
}.
Definition upd_mio {S} `{MacIoTwoHost S} (f : macio_two -> macio_two) : M S unit := modify (fun s => set_mio (f (get_mio s)) s).

Module MacIoTwo.
(** [None] is [ABORT_F]. *)
(* [devices/ioctrl/maciotwo.cpp:441-495] *)
Definition register_dev_int (ohare : bool) (src_id : IntSrc) : option Z :=
  if ohare && bool_decide (src_id = ETHERNET) then None
  else match src_id with
  | SCSI_MESH => Some (INT_TO_IRQ_ID 0x0C)
  | IDE0 => Some (INT_TO_IRQ_ID 0x0D)
  | IDE1 => Some (INT_TO_IRQ_ID 0x0E)
  | SCCA => Some (INT_TO_IRQ_ID 0x0F)
  | SCCB => Some (INT_TO_IRQ_ID 0x10)
  | DAVBUS => Some (INT_TO_IRQ_ID 0x11)
  | VIA_CUDA => Some (INT_TO_IRQ_ID 0x12)
  | SWIM3 => Some (INT_TO_IRQ_ID 0x13)
  | NMI => Some (INT_TO_IRQ_ID 0x14)
  | BANDIT1 => Some (INT_TO_IRQ_ID 0x16)
  | PCI_E => Some (if ohare then INT_TO_IRQ_ID 0x16 else INT_TO_IRQ_ID 0x18)
  | PCI_F => Some (INT_TO_IRQ_ID 0x18)
  | PCI_A => Some (INT_TO_IRQ_ID 0x17)
  | PCI_B => Some (if ohare then INT_TO_IRQ_ID 0x19 else INT_TO_IRQ_ID 0x18)
  | PCI_C => Some (if ohare then INT_TO_IRQ_ID 0x1C else INT_TO_IRQ_ID 0x19)
  | VALKYRIE => Some (INT_TO_IRQ_ID 0x18)
  | PERCH2 => Some (INT_TO_IRQ_ID 0x15)
  | PCI_GPU => Some (INT_TO_IRQ_ID 0x16)
  | PERCH1 => Some (INT_TO_IRQ_ID 0x1A)
  | PCI_PERCH => Some (INT_TO_IRQ_ID 0x1C)
  | FIREWIRE => Some (INT_TO_IRQ_ID 0x15)
  | PCI_J12 => Some (INT_TO_IRQ_ID 0x16)
  | PCI_J11 => Some (INT_TO_IRQ_ID 0x17)
  | PCI_J10 => Some (INT_TO_IRQ_ID 0x18)
  | PCI_J9 => Some (INT_TO_IRQ_ID 0x19)
  | ATA => Some (INT_TO_IRQ_ID 0x1A)
  | USB => Some (INT_TO_IRQ_ID 0x1C)
  | ETHERNET => Some (INT_TO_IRQ_ID 0x2A)
  | _ => None
  end.

(* [devices/ioctrl/maciotwo.cpp:497-514] *)
Definition register_dma_int (ohare : bool) (src_id : IntSrc) : option Z :=
  if ohare && (bool_decide (src_id = DMA_ETHERNET_Tx) || bool_decide (src_id = DMA_ETHERNET_Rx)) then None
  else match src_id with
  | DMA_SCSI_MESH => Some (INT_TO_IRQ_ID 0x00)
  | DMA_IDE0 => Some (INT_TO_IRQ_ID 0x02)
  | DMA_IDE1 => Some (INT_TO_IRQ_ID 0x03)
  | DMA_ETHERNET_Tx => Some (INT_TO_IRQ_ID 0x20)
  | DMA_ETHERNET_Rx => Some (INT_TO_IRQ_ID 0x21)
  | _ => register_dma_int_base src_id
  end.

Section Registers.
Context {S : Type} `{IntHost S} `{MacIoTwoHost S} `{SubDevices S}.

(** The value a read finds at a register, before the bytes are put in order. *)
(* [devices/ioctrl/maciotwo.cpp:289-331 mio_ctrl_read] *)
Definition mio_ctrl_reg (offset : Z) (s : S) : Z :=
  let c := get_ic s in
  let r := get_mio s in
  let reg := Z.land offset (not32 3) in
  if reg =? MIO.INT_EVENTS2 then u32 (Z.shiftr (Z.land (int_events c) (int_mask c)) 32)
  else if reg =? MIO.INT_MASK2 then u32 (Z.shiftr (int_mask c) 32)
  else if reg =? MIO.INT_LEVELS2 then u32 (Z.shiftr (int_levels c) 32)
  else if reg =? MIO.INT_EVENTS1 then u32 (Z.land (int_events c) (int_mask c))
  else if reg =? MIO.INT_MASK1 then u32 (int_mask c)
  else if reg =? MIO.INT_LEVELS1 then u32 (int_levels c)
  else if (reg =? MIO.INT_CLEAR1) || (reg =? MIO.INT_CLEAR2) then 0
  else if reg =? MIO.OHARE_ID then
    Z.lor (Z.lor (Z.lor (shl32 (fp_id r) 24) (Z.shiftl (mon_id r) 16)) (Z.shiftl (mb_id r) 8)) (mio_cpu_id r)
  else if reg =? MIO.OHARE_FEAT_CTRL then feat_ctrl r
  else 0.

(** A 64-bit word of two registers, the bytes from [pos] on. *)
(* [devices/common/pci/pcihost.h:208-210] *)
Definition REG_READ_HELPER (val_hi val_lo pos size : Z) : Z :=
  Z.land (Z.shiftr (Z.lor (Z.shiftl val_hi 32) val_lo) ((8 - pos - size) * 8)) (2 ^ (size * 8) - 1).

(* [devices/ioctrl/maciotwo.cpp:332-349] *)
Definition mio_ctrl_read (offset size : Z) (s : S) : Z :=
  let value := mio_ctrl_reg offset s in
  if negb (test (Z.lor offset size) 3) then BYTESWAP_32 value
  else
    let mask := u32 (2 ^ (size * 8) - 1) in
    if Z.land offset 3 + size <=? 4 then
      Z.land (BYTESWAP_SIZED (Z.shiftr value (Z.land offset 3 * 8)) size) mask
    else
      let value2 := BYTESWAP_32 (mio_ctrl_reg (u32 (Z.land offset (not32 3) + 4)) s) in
      u32 (REG_READ_HELPER (BYTESWAP_32 value) value2 (Z.land offset 3) size).

(* [devices/ioctrl/maciotwo.cpp:431-439] *)
Definition feature_control (value : Z) : M S unit := upd_mio (set_feat_ctrl value).

(** The value a write stores: the bytes of a partial write are merged. *)
(* [devices/ioctrl/maciotwo.cpp:351-365 mio_ctrl_write] *)
Definition mio_write_value (offset value size : Z) (s : S) : Z :=
  let mask := u32 (2 ^ (size * 8) - 1) in
  if negb (test (Z.lor offset size) 3) then BYTESWAP_32 value
  else
    let value := shl32 (BYTESWAP_SIZED value size) (Z.land offset 3 * 8) in
    let mask := shl32 mask (Z.land offset 3) in
    if (offset <=? MIO.OHARE_ENTRY_SPT) || (MIO.OHARE_FEAT_CTRL <=? offset) then
      Z.lor (Z.land (mio_ctrl_read (Z.land offset (not32 3)) 4 s) (not32 mask)) value
    else value.

(* [devices/ioctrl/maciotwo.cpp:386-395 MIO_INT_CLEAR1] *)
Definition write_int_clear1 (value : Z) : M S unit :=
  c <- gets get_ic ;;
  if test (int_mask c) MACIO_INT_MODE && test value MACIO_INT_CLR then
    upd_ic (set_int_events 0) ;;;
    clear_cpu_int
  else
    upd_ic (fun c => set_int_events (Z.land (int_events c) (Z.lnot (Z.land value 0x7FFFFFFF))) c) ;;;
    clear_cpu_int ;;;
    clear_dma_int value.

(* [devices/ioctrl/maciotwo.cpp:351-429] *)
Definition mio_ctrl_write (offset value size : Z) : M S unit :=
  value <- gets (mio_write_value offset value size) ;;
  let reg := Z.land offset (not32 3) in
  if reg =? MIO.INT_MASK2 then
    upd_ic (fun c => set_int_mask (Z.lor (Z.land (int_mask c) 0x80000000FFFFFFFF)
                                     (Z.shiftl (Z.land value (not32 MACIO_INT_MODE)) 32)) c) ;;;
    clear_cpu_int ;;;
    signal_cpu_int
  else if reg =? MIO.INT_CLEAR2 then
    upd_ic (fun c => set_int_events (Z.land (int_events c) (Z.lnot (Z.shiftl (Z.land value 0x7FFFFFFF) 32))) c) ;;;
    clear_cpu_int
  else if reg =? MIO.INT_MASK1 then
    upd_ic (fun c => set_int_mask (Z.lor (Z.land (int_mask c) 0x7FFFFFFF00000000) value) c) ;;;
    upd_ic (fun c => set_int_mask (Z.lor (int_mask c) (Z.shiftl (Z.land (int_mask c) MACIO_INT_MODE) 32)) c) ;;;
    clear_cpu_int ;;;
    signal_cpu_int
  else if reg =? MIO.INT_CLEAR1 then write_int_clear1 value
  else if reg =? MIO.OHARE_FEAT_CTRL then feature_control value
  else if reg =? MIO.HEATH_AUX_CTRL then upd_mio (set_aux_ctrl value)
  else ret tt.

(** The DMA channels that are there; another number reads as 0. *)
Definition dma_channel_mapped (dma_channel : Z) : bool :=
  existsb (Z.eqb dma_channel) [0; 1; 2; 3; 4; 5; 6; 7; 8; 0xB; 0xC].

(* [devices/ioctrl/maciotwo.cpp:206-241] *)
Definition dma_read (offset size : Z) : M S Z :=
  let dma_channel := Z.shiftr offset 8 in
  if dma_channel_mapped dma_channel then cell_read (DmaChan dma_channel) (Z.land offset 0xFF) size else ret 0.

(* [devices/ioctrl/maciotwo.cpp:243-287] *)
Definition dma_write (offset value size : Z) : M S unit :=
  let dma_channel := Z.shiftr offset 8 in
  when (dma_channel_mapped dma_channel) (cell_write (DmaChan dma_channel) (Z.land offset 0xFF) value size).

(* [devices/ioctrl/maciotwo.cpp:63-126] *)
Definition read (rgn_start offset size : Z) : M S Z :=
  let sub_addr := Z.land (Z.shiftr offset 12) 0x7F in
  let escc compat :=
    match escc_reg compat offset with Some reg => cell_read Escc reg 1 | None => ret 0 end in
  match sub_addr with
  | 0 => gets (mio_ctrl_read offset size)
  | 8 => dma_read (Z.land offset 0x7FFF) size
  | 0x10 => cell_read Mesh (Z.land (Z.shiftr offset 4) 0xF) 1
  | 0x11 => v <- cell_read Bmac (Z.land offset 0xFFF) 2 ;; ret (BYTESWAP_SIZED v size)
  | 0x12 => escc true
  | 0x13 => escc false
  | 0x14 => cell_read SndCodec (Z.land offset 0xFF) size
  | 0x15 => cell_read Swim3Ctrl (Z.land (Z.shiftr offset 4) 0xF) 1
  | 0x16 | 0x17 => cell_read ViaCuda (Z.land (Z.shiftr offset 9) 0xF) 1
  | 0x20 => cell_read Ide_0 (Z.land (Z.shiftr offset 4) 0xFF) size
  | 0x21 => if cell_present Ide_1 then cell_read Ide_1 (Z.land (Z.shiftr offset 4) 0xFF) size else ret 0
  | _ => if 0x60 <=? sub_addr then cell_read NVramCell (Z.land (Z.shiftr offset 4) 0x1FFF) 1 else ret 0
  end.

(* [devices/ioctrl/maciotwo.cpp:128-186] *)
Definition write (rgn_start offset value size : Z) : M S unit :=
  let sub_addr := Z.land (Z.shiftr offset 12) 0x7F in
  let escc compat :=
    match escc_reg compat offset with Some reg => cell_write Escc reg value 1 | None => ret tt end in
  match sub_addr with
  | 0 => mio_ctrl_write offset value size
  | 8 => dma_write (Z.land offset 0x7FFF) value size
  | 0x10 => cell_write Mesh (Z.land (Z.shiftr offset 4) 0xF) value 1
  | 0x11 => cell_write Bmac (Z.land offset 0xFFF) (BYTESWAP_SIZED value size) 2
  | 0x12 => escc true
  | 0x13 => escc false
  | 0x14 => cell_write SndCodec (Z.land offset 0xFF) value size
  | 0x15 => cell_write Swim3Ctrl (Z.land (Z.shiftr offset 4) 0xF) value 1
  | 0x16 | 0x17 => cell_write ViaCuda (Z.land (Z.shiftr offset 9) 0xF) value 1
  | 0x20 => cell_write Ide_0 (Z.land (Z.shiftr offset 4) 0xFF) value size
  | 0x21 => when (cell_present Ide_1) (cell_write Ide_1 (Z.land (Z.shiftr offset 4) 0xFF) value size)
  | _ => when (0x60 <=? sub_addr) (cell_write NVramCell (Z.shiftr (u32 (offset - 0x60000)) 4) value 1)
  end.
End Registers.
End MacIoTwo.

(** ** Grand Central *)

Module GrandCentralRegs.
(* [devices/ioctrl/grandcentral.cpp:46-46] *)
Definition mac_address : list Z := [0x08; 0x00; 0x07; 0x44; 0x55; 0x66; 0x00; 0x00].
(* [devices/ioctrl/grandcentral.cpp:47-47] *)
Definition bit_flip_0x08 := true.

(* [devices/ioctrl/grandcentral.cpp:220-231 mac_address] *)
Definition enet_rom (offset : Z) : Z :=
  let i := Z.land (Z.shiftr offset 4) 0x7 in
  let val := nth (Z.to_nat i) mac_address 0 in
  if i <? 6 then
    if (nth 0 mac_address 0 =? 0x08) && bit_flip_0x08
    then u8 (Z.land (u64 (val * 0x0202020202)) 0x010884422010 mod 1023)
    else val
  else val.

Section Registers.
Context {S : Type} `{IntHost S} `{SubDevices S}.

(** A register of an IOBus device, two bytes wide, seen through an access. *)
(* [devices/ioctrl/grandcentral.cpp:239-246 iodev_read] *)
Definition iobus_value (offset size v : Z) : Z :=
  let value := Z.lor v (Z.shiftl v 32) in
  let shift := Z.land offset 3 * 8 in
  match size with
  | 1 => u8 (Z.shiftr value shift)
  | 2 => BYTESWAP_16 (u16 (Z.shiftr value shift))
  | 4 => BYTESWAP_32 (u32 (Z.shiftr value shift))
  | _ => 0
  end.

(* [devices/ioctrl/grandcentral.cpp:300-311 MIO_INT_EVENTS1] *)
Definition int_read (offset : Z) (s : S) : Z :=
  let c := get_ic s in
  if offset =? MIO.INT_EVENTS1 then BYTESWAP_32 (Z.land (int_events c) (int_mask c))
  else if offset =? MIO.INT_MASK1 then BYTESWAP_32 (int_mask c)
  else if offset =? MIO.INT_CLEAR1 then 0
  else if offset =? MIO.INT_LEVELS1 then BYTESWAP_32 (Z.lor (int_levels c) (Z.shiftl 1 0x0B))
  else 0.

(* [devices/ioctrl/grandcentral.cpp:434-457 MIO_INT_MASK1] *)
Definition int_write (offset value : Z) : M S unit :=
  if offset =? MIO.INT_MASK1 then
    upd_ic (set_int_mask (BYTESWAP_32 value)) ;;;
    GrandCentral.clear_cpu_int ;;;
    GrandCentral.signal_cpu_int
  else if offset =? MIO.INT_CLEAR1 then
    let value := BYTESWAP_32 value in
    c <- gets get_ic ;;
    if test (int_mask c) MACIO_INT_MODE && test value MACIO_INT_CLR then
      upd_ic (set_int_events 0) ;;;
      GrandCentral.clear_cpu_int
    else
      upd_ic (fun c => set_int_events (Z.land (int_events c) (Z.lnot (Z.land value 0x7FFFFFFF))) c) ;;;
      GrandCentral.clear_cpu_int ;;;
      GrandCentral.clear_dma_int value
  else ret tt.

(** Channels 4 to 7 are stubbed out. *)
Definition dma_mapped (dma_channel : Z) : bool :=
  existsb (Z.eqb dma_channel) [0; 1; 2; 3; 8; 9] || ((dma_channel =? 0xA) && cell_present (DmaChan 0xA)).

(* [devices/ioctrl/grandcentral.cpp:190-317] *)
Definition read (rgn_start offset size : Z) : M S Z :=
  if test offset 0x10000 then
    let subdev_num := Z.land (Z.shiftr offset 12) 0xF in
    let escc compat :=
      match escc_reg compat offset with Some reg => cell_read Escc reg 1 | None => ret 0 end in
    match subdev_num with
    | 0 => cell_read Curio (Z.land (Z.shiftr offset 4) 0xF) 1
    | 1 => cell_read Mace (Z.land (Z.shiftr offset 4) 0x1F) 1
    | 2 => escc true
    | 3 => escc false
    | 4 => cell_read Awacs (Z.land offset 0xFF) size
    | 5 => cell_read Swim3Ctrl (Z.land (Z.shiftr offset 4) 0xF) 1
    | 6 | 7 => cell_read ViaCuda (Z.land (Z.shiftr offset 9) 0xF) 1
    | 8 => cell_read Mesh (Z.land (Z.shiftr offset 4) 0xF) 1
    | 9 => ret (enet_rom offset)
    | _ =>
        if cell_present (Iobus (subdev_num - 10)) then
          v <- cell_read (Iobus (subdev_num - 10)) (Z.land (Z.shiftr offset 4) 0x1F) 2 ;;
          ret (iobus_value offset size v)
        else ret 0
    end
  else if test offset 0x8000 then
    let dma_channel := Z.land (Z.shiftr offset 8) 0x7F in
    if dma_mapped dma_channel then cell_read (DmaChan dma_channel) (Z.land offset 0xFF) size else ret 0
  else gets (int_read offset).

(* [devices/ioctrl/grandcentral.cpp:319-459] *)
Definition write (rgn_start offset value size : Z) : M S unit :=
  if test offset 0x10000 then
    let subdev_num := Z.land (Z.shiftr offset 12) 0xF in
    let escc compat :=
      match escc_reg compat offset with Some reg => cell_write Escc reg value 1 | None => ret tt end in
    match subdev_num with
    | 0 => cell_write Curio (Z.land (Z.shiftr offset 4) 0xF) value 1
    | 1 => cell_write Mace (Z.land (Z.shiftr offset 4) 0x1F) value 1
    | 2 => escc true
    | 3 => escc false
    | 4 => cell_write Awacs (Z.land offset 0xFF) value size
    | 5 => cell_write Swim3Ctrl (Z.land (Z.shiftr offset 4) 0xF) value 1
    | 6 | 7 => cell_write ViaCuda (Z.land (Z.shiftr offset 9) 0xF) value 1
    | 8 => cell_write Mesh (Z.land (Z.shiftr offset 4) 0xF) value 1
    | 9 => ret tt
    | _ =>
        let val := match size with
                   | 1 => u8 value
                   | 2 => BYTESWAP_16 (u16 value)
                   | 4 => u16 (BYTESWAP_32 value)
                   | _ => 0
                   end in
        when (cell_present (Iobus (subdev_num - 10)))
          (cell_write (Iobus (subdev_num - 10)) (Z.land (Z.shiftr offset 4) 0x1F) val 2)
    end
  else if test offset 0x8000 then
    let dma_channel := Z.land (Z.shiftr offset 8) 0x7F in
    when (dma_mapped dma_channel) (cell_write (DmaChan dma_channel) (Z.land offset 0xFF) value size)
  else int_write offset value.
End Registers.

(** The address PROM holds the bytes of the station address bit-reversed. *)
Definition bit_reverse8 (b : Z) : Z := fold_left (fun acc i => 2 * acc + b2z (Z.testbit b i)) (zrange 8) 0.

Lemma enet_rom_reversed offset : Z.land (Z.shiftr offset 4) 7 < 6 ->
  enet_rom offset = bit_reverse8 (nth (Z.to_nat (Z.land (Z.shiftr offset 4) 7)) mac_address 0).
Proof.
  intros H. unfold enet_rom. rewrite (proj2 (Z.ltb_lt _ _) H).
  assert (0 <= Z.land (Z.shiftr offset 4) 7) by (apply Z.land_nonneg; lia).
  remember (Z.land (Z.shiftr offset 4) 7) as i eqn:E. clear E.
  assert (i = 0 \/ i = 1 \/ i = 2 \/ i = 3 \/ i = 4 \/ i = 5) as Hi by lia.
  destruct Hi as [->|[->|[->|[->|[->| ->]]]]]; vm_compute; reflexivity.
Qed.
End GrandCentralRegs.
