(* ===== verification/MacIoProps.v ===== *)
(** * The MacIO interrupt controllers against their specification

    Bit by bit, the controller of MacIoTwo is a set of edge detectors with an enable
    mask; the processor's pin is high exactly while an enabled event is latched, and
    an interrupt reaches the processor's exception handler. *)
From S2P Require Import Prelude Word PpcState Timers MemCtrl HostMem Machine Mmu Exceptions MacIo.
Import Endian.

(** ** The specification *)

(** What software and devices can do to a controller; registers are written with
    aligned four-byte accesses, [v] is the register value. *)
Inductive int_op :=
| Line (k : Z) (high : bool)
| WriteMask1 (v : Z)
| WriteMask2 (v : Z)
| WriteClear1 (v : Z)
| WriteClear2 (v : Z).

Definition op_ok (o : int_op) : Prop :=
  match o with
  | Line k _ => 0 <= k < 64
  | WriteMask1 v | WriteMask2 v | WriteClear1 v | WriteClear2 v => 0 <= v < 2 ^ 32
  end.

(** A controller as sources: level, latched event, enabled; emulated mode. *)
Record sources := mk_sources {
  level : Z -> bool;
  event : Z -> bool;
  enabled : Z -> bool;
  emulated : bool
}.

Definition clears_all (v : Z) (a : sources) : bool := emulated a && Z.testbit v 31.
(** A write that acknowledges a DMA channel. *)
Definition dma_flags (v : Z) : bool := negb (v mod 2 ^ 11 =? 0).

Definition spec_level (o : int_op) (a : sources) (i : Z) : bool :=
  match o with
  | Line k high => if i =? k then high else level a i
  | WriteClear1 v =>
      if clears_all v a || negb (dma_flags v) then level a i
      else level a i && (i <? 32) && negb ((i <? 11) && Z.testbit v i)
  | _ => level a i
  end.

Definition spec_event (o : int_op) (a : sources) (i : Z) : bool :=
  match o with
  | Line k high => event a i || ((i =? k) && xorb high (level a i) && (high || emulated a))
  | WriteClear1 v =>
      if clears_all v a then false
      else event a i && negb ((i <? 31) && Z.testbit v i) || (emulated a && (i <? 11) && Z.testbit v i && level a i)
  | WriteClear2 v => event a i && negb ((32 <=? i) && (i <? 63) && Z.testbit v (i - 32))
  | _ => event a i
  end.

Definition spec_enabled (o : int_op) (a : sources) (i : Z) : bool :=
  match o with
  | WriteMask1 v => if i <? 32 then Z.testbit v i else if i =? 63 then Z.testbit v 31 else enabled a i
  | WriteMask2 v => if (32 <=? i) && (i <? 63) then Z.testbit v (i - 32) else enabled a i
  | _ => enabled a i
  end.

(** ** The implementation *)

Definition sources_of (c : int_ctrl) : sources :=
  mk_sources (Z.testbit (int_levels c)) (Z.testbit (int_events c)) (Z.testbit (int_mask c)) (Z.testbit (int_mask c) 31).

Definition pending (c : int_ctrl) : bool := test (int_events c) (int_mask c).

Definition ic_range (c : int_ctrl) : Prop :=
  0 <= int_mask c < 2 ^ 64 /\ 0 <= int_levels c < 2 ^ 64 /\ 0 <= int_events c < 2 ^ 64.

Lemma test_existsb (n : nat) x y : 0 <= x < 2 ^ Z.of_nat n ->
  test x y = existsb (fun i => Z.testbit x i && Z.testbit y i) (zrange n).
Proof.
  intros Hx. destruct (existsb _ _) eqn:E.
  - apply existsb_exists in E as (i & _ & Hi). apply andb_true_iff in Hi as [H1 H2].
    unfold test. rewrite negb_true_iff, Z.eqb_neq. intros E.
    assert (Z.testbit (Z.land x y) i = true) as Ht by (by rewrite Z.land_spec, H1, H2). by rewrite E, Z.bits_0 in Ht.
  - unfold test. rewrite negb_false_iff, Z.eqb_eq. apply Z.bits_inj'. intros i Hi.
    rewrite Z.land_spec, Z.bits_0. destruct (Z.lt_ge_cases i (Z.of_nat n)); [|by rewrite (testbit_high (Z.of_nat n))].
    rewrite <- not_true_iff_false in E. apply not_true_iff_false. intros Ht. apply E, existsb_exists.
    exists i. split; [|done]. apply in_map_iff. exists (Z.to_nat i). split; [lia|]. apply in_seq. lia.
Qed.

Lemma pending_spec c : ic_range c ->
  pending c = existsb (fun i => event (sources_of c) i && enabled (sources_of c) i) (zrange 64).
Proof. intros (_&_&He). by apply (test_existsb 64). Qed.

Lemma pending_mono c d : ic_range c -> ic_range d ->
  (forall i, Z.testbit (int_events c) i && Z.testbit (int_mask c) i = true ->
             Z.testbit (int_events d) i && Z.testbit (int_mask d) i = true) ->
  pending c = true -> pending d = true.
Proof.
  intros Hc Hd H. rewrite !pending_spec by done. rewrite !existsb_exists. intros (i & Hi & He). eauto.
Qed.

Section Controller.
Context {S : Type} `{HI : IntHost S} `{!IntHostLaws S} `{HM : MacIoTwoHost S} `{HS : SubDevices S}.
Implicit Types (s : S).

(** The operations of MacIoTwo. *)
Definition run_op (o : int_op) : M S unit :=
  match o with
  | Line k high => ack_int (INT_TO_IRQ_ID k) (b2z high)
  | WriteMask1 v => MacIoTwo.mio_ctrl_write MIO.INT_MASK1 (BYTESWAP_32 v) 4
  | WriteMask2 v => MacIoTwo.mio_ctrl_write MIO.INT_MASK2 (BYTESWAP_32 v) 4
  | WriteClear1 v => MacIoTwo.mio_ctrl_write MIO.INT_CLEAR1 (BYTESWAP_32 v) 4
  | WriteClear2 v => MacIoTwo.mio_ctrl_write MIO.INT_CLEAR2 (BYTESWAP_32 v) 4
  end.

(** Between operations the latch and the pin say whether an enabled event is pending. *)
Definition settled s : Prop := ic_range (get_ic s) /\ cpu_int_latch (get_ic s) = pending (get_ic s) /\ cpu_pin s = pending (get_ic s).

(** A piece of the controller: what it does to the registers, and that latch and pin
    agree. *)
Definition steps_to (k : M S unit) s (c : int_ctrl) : Prop :=
  exists s', k s = (Ret tt, s') /\ get_ic s' = c /\ (cpu_pin s = cpu_int_latch (get_ic s) -> cpu_pin s' = cpu_int_latch c).

Lemma steps_bind k1 k2 s c1 c2 : steps_to k1 s c1 ->
  (forall s1, get_ic s1 = c1 -> steps_to k2 s1 c2) -> steps_to (k1 ;;; k2) s c2.
Proof.
  intros (s1 & E1 & G1 & P1) H. destruct (H s1 G1) as (s2 & E2 & G2 & P2).
  exists s2. unfold bind. rewrite E1. split; [done|]. split; [done|]. rewrite G1 in P2. auto.
Qed.
Lemma steps_upd f s : cpu_int_latch (f (get_ic s)) = cpu_int_latch (get_ic s) -> steps_to (upd_ic f) s (f (get_ic s)).
Proof.
  intros E. exists (set_ic (f (get_ic s)) s). split; [done|]. rewrite get_set_ic, pin_set_ic. split; [done|]. congruence.
Qed.
Lemma steps_ret s : steps_to (ret tt) s (get_ic s).
Proof. by exists s. Qed.

Lemma steps_when b k s c : (b = true -> steps_to k s c) -> (b = false -> c = get_ic s) -> steps_to (when b k) s c.
Proof. destruct b; intros H1 H2; [by apply H1 | rewrite H2 by done; apply steps_ret]. Qed.

Lemma latch_same b c : cpu_int_latch c = b -> set_cpu_int_latch b c = c.
Proof. destruct c. cbn. by intros ->. Qed.

Lemma signal_steps s : steps_to signal_cpu_int s (set_cpu_int_latch (pending (get_ic s) || cpu_int_latch (get_ic s)) (get_ic s)).
Proof.
  unfold signal_cpu_int, steps_to. rewrite bind_gets. fold (pending (get_ic s)).
  destruct (pending (get_ic s)); cbn [when orb]; [|rewrite latch_same by done; by exists s].
  destruct (cpu_int_latch (get_ic s)) eqn:El; cbn [negb]; [rewrite latch_same by done; exists s; by rewrite ?El|].
  unfold upd_ic. rewrite bind_modify. set (s1 := set_ic _ s).
  destruct (assert_int_law s1) as (s' & E & G & P). exists s'. split; [done|]. unfold s1 in G. by rewrite G, get_set_ic.
Qed.
Lemma clear_steps s : steps_to clear_cpu_int s (set_cpu_int_latch (pending (get_ic s) && cpu_int_latch (get_ic s)) (get_ic s)).
Proof.
  unfold clear_cpu_int, steps_to. rewrite bind_gets. fold (pending (get_ic s)).
  destruct (pending (get_ic s)); cbn [when andb negb]; [rewrite latch_same by done; by exists s|].
  destruct (cpu_int_latch (get_ic s)) eqn:El; cbn [when]; [|rewrite latch_same by done; exists s; by rewrite ?El].
  unfold upd_ic. rewrite bind_modify. set (s1 := set_ic _ s).
  destruct (release_int_law s1) as (s' & E & G & P). exists s'. split; [done|]. unfold s1 in G. by rewrite G, get_set_ic.
Qed.

(** Clearing and then signalling settles latch and pin from any latch. *)
Lemma settle_steps s : steps_to (clear_cpu_int ;;; signal_cpu_int) s (set_cpu_int_latch (pending (get_ic s)) (get_ic s)).
Proof.
  eapply steps_bind; [apply clear_steps|]. intros s1 G. pose proof (signal_steps s1) as H. rewrite G in H.
  change (pending (set_cpu_int_latch _ (get_ic s))) with (pending (get_ic s)) in H. cbn [cpu_int_latch set_cpu_int_latch] in H.
  destruct (get_ic s) as [mk lt lv ev]; unfold set_cpu_int_latch in *; cbn in *. by destruct (pending _), lt.
Qed.

Lemma settled_of k s c : settled s -> ic_range c -> steps_to k s (set_cpu_int_latch (pending c) c) ->
  exists s', k s = (Ret tt, s') /\ settled s' /\ get_ic s' = set_cpu_int_latch (pending c) c.
Proof.
  intros (_ & Hl & Hp) Hc (s' & E & G & P). exists s'. split; [done|]. split; [|done]. unfold settled. rewrite G.
  split; [done|]. split; [done|]. rewrite P by congruence. done.
Qed.

(** Settled afterwards, with the given registers. *)
Lemma latch_pending b c : pending (set_cpu_int_latch b c) = pending c.
Proof. done. Qed.
Lemma latch_set b b' c : set_cpu_int_latch b (set_cpu_int_latch b' c) = set_cpu_int_latch b c.
Proof. done. Qed.

(** Raising events and signalling, from a settled controller. *)
Lemma raise_steps f s : settled s -> (forall c, cpu_int_latch (f c) = cpu_int_latch c) ->
  (pending (get_ic s) = true -> pending (f (get_ic s)) = true) ->
  steps_to (upd_ic f ;;; signal_cpu_int) s (set_cpu_int_latch (pending (f (get_ic s))) (f (get_ic s))).
Proof.
  intros (_ & Hl & _) Hf Hp. eapply steps_bind; [apply steps_upd, Hf|]. intros s1 G.
  pose proof (signal_steps s1) as H. rewrite G, Hf, Hl in H.
  destruct (pending (f (get_ic s))); [done|]. destruct (pending (get_ic s)); [by discriminate Hp | done].
Qed.

(** Dropping events and clearing. *)
Lemma drop_steps f s : settled s -> (forall c, cpu_int_latch (f c) = cpu_int_latch c) ->
  (pending (f (get_ic s)) = true -> pending (get_ic s) = true) ->
  steps_to (upd_ic f ;;; clear_cpu_int) s (set_cpu_int_latch (pending (f (get_ic s))) (f (get_ic s))).
Proof.
  intros (_ & Hl & _) Hf Hp. eapply steps_bind; [apply steps_upd, Hf|]. intros s1 G.
  pose proof (clear_steps s1) as H. rewrite G, Hf, Hl in H.
  destruct (pending (f (get_ic s))); [|done]. by rewrite Hp in H.
Qed.

(** Changing the mask, or anything else, and doing both. *)
Lemma change_steps f s : (forall c, cpu_int_latch (f c) = cpu_int_latch c) ->
  steps_to (upd_ic f ;;; clear_cpu_int ;;; signal_cpu_int) s (set_cpu_int_latch (pending (f (get_ic s))) (f (get_ic s))).
Proof.
  intros Hf. eapply steps_bind; [apply steps_upd, Hf|]. intros s1 G. pose proof (settle_steps s1) as H. by rewrite G in H.
Qed.
End Controller.

(** ** The registers after each operation *)

(** The registers an operation leaves, apart from the latch. *)
Definition regs_after (o : int_op) (c : int_ctrl) : int_ctrl :=
  match o with
  | Line k high =>
      let irq := INT_TO_IRQ_ID k in
      let c' := set_int_levels (if high then Z.lor (int_levels c) irq else Z.land (int_levels c) (Z.lnot irq)) c in
      if negb (b2z high =? b2z (test (int_levels c) irq)) && (high || test (int_mask c) MACIO_INT_MODE)
      then set_int_events (Z.lor (int_events c) irq) c' else c'
  | WriteMask1 v =>
      let m := Z.lor (Z.land (int_mask c) 0x7FFFFFFF00000000) v in
      set_int_mask (Z.lor m (Z.shiftl (Z.land m MACIO_INT_MODE) 32)) c
  | WriteMask2 v =>
      set_int_mask (Z.lor (Z.land (int_mask c) 0x80000000FFFFFFFF) (Z.shiftl (Z.land v (not32 MACIO_INT_MODE)) 32)) c
  | WriteClear1 v =>
      if test (int_mask c) MACIO_INT_MODE && test v MACIO_INT_CLR then set_int_events 0 c
      else
        let c1 := set_int_events (Z.land (int_events c) (Z.lnot (Z.land v 0x7FFFFFFF))) c in
        let fl := Z.land v 0x7FF in
        if fl =? 0 then c1
        else if test (int_mask c) MACIO_INT_MODE then
          set_int_levels (Z.land (int_levels c) (not32 fl)) (set_int_events (Z.lor (int_events c1) (Z.land (int_levels c) fl)) c1)
        else set_int_levels (Z.land (int_levels c) (not32 fl)) c1
  | WriteClear2 v => set_int_events (Z.land (int_events c) (Z.lnot (Z.shiftl (Z.land v 0x7FFFFFFF) 32))) c
  end.

Lemma event_mono f c : ic_range c -> ic_range (f c) -> int_mask (f c) = int_mask c ->
  (forall i, 0 <= i -> Z.testbit (int_events c) i = true -> Z.testbit (int_events (f c)) i = true) ->
  pending c = true -> pending (f c) = true.
Proof.
  intros Hc Hf Em H. apply pending_mono; [done..|]. intros i Hi. apply andb_true_iff in Hi as [H1 H2].
  rewrite Em, H2, H; [done | | done]. destruct (Z.lt_ge_cases i 0); [|done]. by rewrite Z.testbit_neg_r in H1 by done.
Qed.

Lemma irq_range k : 0 <= k < 64 -> 0 <= INT_TO_IRQ_ID k < 2 ^ 64.
Proof.
  intros Hk. unfold INT_TO_IRQ_ID. rewrite Z.shiftl_1_l. split; [apply Z.pow_nonneg; lia | by apply Z.pow_lt_mono_r; lia].
Qed.
Lemma irq_bit k i : 0 <= k -> 0 <= i -> Z.testbit (INT_TO_IRQ_ID k) i = (i =? k).
Proof. intros. unfold INT_TO_IRQ_ID. rewrite Z.shiftl_1_l, Z.pow2_bits_eqb, Z.eqb_sym by lia. done. Qed.

Lemma land_hi v m : 0 <= m < 2 ^ 32 -> 0 <= Z.shiftl (Z.land v m) 32 < 2 ^ 64.
Proof. intros H. rewrite Z.shiftl_mul_pow2 by lia. pose proof (land_range_r 32 v m ltac:(lia) H). lia. Qed.

Lemma regs_range o c : op_ok o -> ic_range c -> ic_range (regs_after o c).
Proof.
  intros Ho (Hm & Hl & He).
  assert (forall x y, 0 <= x < 2 ^ 64 -> 0 <= y < 2 ^ 64 -> 0 <= Z.lor x y < 2 ^ 64) as Hor by (intros; by apply lor_range).
  assert (forall x y, 0 <= x < 2 ^ 64 -> 0 <= Z.land x y < 2 ^ 64) as Hand by (intros; by apply land_range_l).
  destruct o as [k h|v|v|v|v]; cbn in Ho; unfold regs_after.
  - pose proof (irq_range k Ho). destruct (_ && _), h; refine (conj _ (conj _ _)); cbn; auto.
  - assert (0 <= v < 2 ^ 64) by lia. refine (conj _ (conj _ _)); cbn [int_mask int_levels int_events set_int_mask]; auto.
    apply Hor; [by apply Hor; [apply Hand|] | by apply land_hi].
  - refine (conj _ (conj _ _)); cbn [int_mask int_levels int_events set_int_mask]; auto.
    apply Hor; [by apply Hand | by apply land_hi].
  - assert (0 <= Z.land v 0x7FF < 2 ^ 64) by (apply Hand; lia).
    destruct (_ && _); [by refine (conj _ (conj _ _))|]. destruct (_ =? 0); [|destruct (test _ _)];
      refine (conj _ (conj _ _)); cbn [int_mask int_levels int_events set_int_mask set_int_levels set_int_events]; auto.
  - refine (conj _ (conj _ _)); cbn [int_mask int_levels int_events set_int_events]; auto.
Qed.

Section Refinement.
Context {S : Type} `{HI : IntHost S} `{!IntHostLaws S} `{HM : MacIoTwoHost S} `{HS : SubDevices S}.
Implicit Types (s : S).

Lemma aligned_write_value off v s : 0 <= v < 2 ^ 32 -> test (Z.lor off 4) 3 = false ->
  MacIoTwo.mio_write_value off (BYTESWAP_32 v) 4 s = v.
Proof. intros Hv H. unfold MacIoTwo.mio_write_value. rewrite H. by apply byteswap_32_involutive. Qed.

Lemma line_steps k h s : settled s -> 0 <= k < 64 ->
  steps_to (run_op (Line k h)) s (set_cpu_int_latch (pending (regs_after (Line k h) (get_ic s))) (regs_after (Line k h) (get_ic s))).
Proof.
  intros Hs Hk. pose proof Hs as (Hr & Hl & Hp). pose proof (irq_range k Hk) as Hirq.
  unfold run_op, ack_int, ack_int_common, steps_to. rewrite bind_gets. rewrite (uwrap_small 64) by done.
  set (irq := INT_TO_IRQ_ID k) in *.
  replace (negb (b2z h =? 0)) with h by (by destruct h).
  set (lv := if h then _ else _). cbv zeta. unfold upd_ic at 1. rewrite bind_modify.
  set (s1 := set_ic (set_int_levels lv (get_ic s)) s).
  assert (settled s1) as Hs1.
  { unfold settled, s1. rewrite get_set_ic, pin_set_ic. split; [|done].
    destruct (regs_range (Line k h) (get_ic s) Hk Hr) as (_ & Hlv & _). destruct Hr as (? & _ & ?). unfold ic_range. cbn.
    unfold regs_after in Hlv. fold irq in Hlv. cbv zeta in Hlv. fold lv in Hlv. by destruct (_ && _). }
  assert (get_ic s1 = set_int_levels lv (get_ic s)) as G1 by apply get_set_ic.
  assert (cpu_pin s1 = cpu_pin s) as P1 by apply pin_set_ic.
  unfold regs_after. fold irq. cbv zeta. fold lv.
  destruct (negb (b2z h =? b2z (test (int_levels (get_ic s)) irq)) && _); cbn [when].
  2:{ exists s1. rewrite G1, P1. split; [done|]. split; [by rewrite latch_same|]. intros _.
      change (pending (set_int_levels lv (get_ic s))) with (pending (get_ic s)). cbn. congruence. }
  set (f := fun c => set_int_events (Z.lor (int_events c) irq) c).
  assert (forall i, 0 <= i -> Z.testbit (int_events (get_ic s1)) i = true -> Z.testbit (int_events (f (get_ic s1))) i = true) as Hmono
    by (intros i Hi E; cbn; by rewrite Z.lor_spec, E).
  assert (ic_range (f (get_ic s1))) as Hfr.
  { destruct Hs1 as ((?&?&?)&_). refine (conj _ (conj _ _)); cbn; auto. by apply lor_range. }
  destruct (raise_steps f s1 Hs1 ltac:(done) (event_mono f (get_ic s1) (proj1 Hs1) Hfr eq_refl Hmono))
    as (s' & E & G & P).
  assert (f (get_ic s1) = set_int_events (Z.lor (int_events (get_ic s)) irq) (set_int_levels lv (get_ic s))) as Ef by (by rewrite G1).
  rewrite Ef in G, P. unfold upd_ic in E. rewrite bind_modify in E. unfold upd_ic. rewrite bind_modify.
  fold f. set (s2 := set_ic (f (get_ic s1)) s1) in *. rewrite bind_gets.
  assert (get_ic s2 = set_int_events (Z.lor (int_events (get_ic s)) irq) (set_int_levels lv (get_ic s))) as G2
    by (unfold s2; rewrite get_set_ic; apply Ef).
  rewrite G2. cbn [int_events set_int_events].
  destruct (Z.eqb_spec (int_events (get_ic s)) (Z.lor (int_events (get_ic s)) irq)) as [Ee|Ee]; cbn [negb when].
  - exists s2. rewrite G2, <- Ee. split; [done|].
    assert (cpu_pin s2 = cpu_pin s) as P2 by (unfold s2; by rewrite pin_set_ic).
    rewrite P2. unfold pending. cbn [int_events set_int_events int_mask set_int_levels set_cpu_int_latch cpu_int_latch].
    fold (pending (get_ic s)). rewrite <- Hl. split; [by rewrite latch_same | done].
  - exists s'. split; [exact E|]. split; [exact G|]. intros _. apply P. rewrite P1, G1. cbn. congruence.
Qed.

(** An aligned write of a register stores [v] through the code of that register. *)
Lemma write_reg off v s : 0 <= v < 2 ^ 32 -> test (Z.lor off 4) 3 = false ->
  MacIoTwo.mio_ctrl_write off (BYTESWAP_32 v) 4 s =
  (let reg := Z.land off (not32 3) in
   if reg =? MIO.INT_MASK2 then
     upd_ic (fun c => set_int_mask (Z.lor (Z.land (int_mask c) 0x80000000FFFFFFFF)
                                     (Z.shiftl (Z.land v (not32 MACIO_INT_MODE)) 32)) c) ;;; clear_cpu_int ;;; signal_cpu_int
   else if reg =? MIO.INT_CLEAR2 then
     upd_ic (fun c => set_int_events (Z.land (int_events c) (Z.lnot (Z.shiftl (Z.land v 0x7FFFFFFF) 32))) c) ;;; clear_cpu_int
   else if reg =? MIO.INT_MASK1 then
     upd_ic (fun c => set_int_mask (Z.lor (Z.land (int_mask c) 0x7FFFFFFF00000000) v) c) ;;;
     upd_ic (fun c => set_int_mask (Z.lor (int_mask c) (Z.shiftl (Z.land (int_mask c) MACIO_INT_MODE) 32)) c) ;;;
     clear_cpu_int ;;; signal_cpu_int
   else if reg =? MIO.INT_CLEAR1 then MacIoTwo.write_int_clear1 v
   else if reg =? MIO.OHARE_FEAT_CTRL then MacIoTwo.feature_control v
   else if reg =? MIO.HEATH_AUX_CTRL then upd_mio (set_aux_ctrl v)
   else ret tt) s.
Proof. intros Hv H. unfold MacIoTwo.mio_ctrl_write. rewrite bind_gets, aligned_write_value by done. reflexivity. Qed.

Lemma steps_eq k1 k2 s c : k1 s = k2 s -> steps_to k2 s c -> steps_to k1 s c.
Proof. unfold steps_to. by intros ->. Qed.

Lemma settled_steps k s c : settled s -> ic_range c -> steps_to k s (set_cpu_int_latch (pending c) c) ->
  exists s', k s = (Ret tt, s') /\ settled s' /\ get_ic s' = set_cpu_int_latch (pending c) c.
Proof. apply settled_of. Qed.

Lemma drop_pending m c : ic_range c ->
  pending (set_int_events (Z.land (int_events c) m) c) = true -> pending c = true.
Proof.
  intros Hr. apply pending_mono; [|done|].
  - destruct Hr as (?&?&?). refine (conj _ (conj _ _)); cbn; auto. by apply land_range_l.
  - intros i. cbn. rewrite Z.land_spec. by intros [[-> _]%andb_true_iff ->]%andb_true_iff.
Qed.

Lemma clear1_steps v s : settled s -> 0 <= v < 2 ^ 32 ->
  steps_to (MacIoTwo.write_int_clear1 v) s (set_cpu_int_latch (pending (regs_after (WriteClear1 v) (get_ic s))) (regs_after (WriteClear1 v) (get_ic s))).
Proof.
  intros Hs Hv. pose proof Hs as (Hr & Hl & Hp). unfold MacIoTwo.write_int_clear1, regs_after.
  apply (steps_eq _ _ _ _ (bind_gets _ _ _)). destruct (test (int_mask (get_ic s)) MACIO_INT_MODE && test v MACIO_INT_CLR).
  { apply (drop_steps (set_int_events 0)); [done..|]. by unfold pending. }
  set (f := fun c => set_int_events _ c).
  assert (pending (f (get_ic s)) = true -> pending (get_ic s) = true) as Hpf by (apply drop_pending, Hr).
  destruct (drop_steps f s Hs ltac:(done) Hpf) as (s1 & E1 & G1 & P1). specialize (P1 ltac:(congruence)).
  assert (steps_to (clear_dma_int v) s1 (let fl := Z.land v 0x7FF in let c1 := f (get_ic s) in
    let c2 := if fl =? 0 then c1 else if test (int_mask (get_ic s)) MACIO_INT_MODE
      then set_int_levels (Z.land (int_levels (get_ic s)) (not32 fl)) (set_int_events (Z.lor (int_events c1) (Z.land (int_levels (get_ic s)) fl)) c1)
      else set_int_levels (Z.land (int_levels (get_ic s)) (not32 fl)) c1 in set_cpu_int_latch (pending c2) c2)) as (s2 & E2 & G2 & P2).
  2:{ exists s2. rewrite <- bind_assoc. unfold bind at 1. rewrite E1. split; [exact E2|]. split; [exact G2|]. intros _.
      apply P2. by rewrite G1. }
  cbv zeta. set (fl := Z.land v 0x7FF).
  assert (settled s1) as Hs1.
  { unfold settled. rewrite G1. split; [|by rewrite P1]. destruct Hr as (?&?&?). refine (conj _ (conj _ _)); cbn; auto. by apply land_range_l. }
  assert (0 <= fl < 2 ^ 64) by (apply land_range_r; lia).
  unfold clear_dma_int. fold fl. destruct (fl =? 0).
  { pose proof (steps_ret s1) as Hret. by rewrite G1 in Hret. }
  apply (steps_eq _ _ _ _ (bind_gets _ _ _)). rewrite G1.
  change (int_mask (set_cpu_int_latch _ (f (get_ic s)))) with (int_mask (get_ic s)).
  destruct (test (int_mask (get_ic s)) MACIO_INT_MODE).
  - set (g := fun c => set_int_levels (Z.land (int_levels c) (not32 fl)) (set_int_events (Z.lor (int_events c) (Z.land (int_levels c) fl)) c)).
    assert (ic_range (g (get_ic s1))) as Hgr.
    { destruct Hs1 as ((?&?&?)&_). refine (conj _ (conj _ _)); cbn; auto; try (by apply land_range_l).
      apply lor_range; [lia|done|by apply land_range_l]. }
    pose proof (raise_steps g s1 Hs1 ltac:(done) (event_mono g _ (proj1 Hs1) Hgr eq_refl ltac:(intros i Hi E; cbn; by rewrite Z.lor_spec, E))) as Hg.
    rewrite G1 in Hg. refine (steps_eq _ _ _ _ _ Hg). unfold upd_ic. rewrite !bind_modify.
    by rewrite get_set_ic, set_set_ic.
  - pose proof (steps_upd (fun c => set_int_levels (Z.land (int_levels c) (not32 fl)) c) s1 ltac:(done)) as Hu. rewrite G1 in Hu. exact Hu.
Qed.

Lemma op_steps o s : settled s -> op_ok o ->
  steps_to (run_op o) s (set_cpu_int_latch (pending (regs_after o (get_ic s))) (regs_after o (get_ic s))).
Proof.
  intros Hs Ho. destruct o as [k h|v|v|v|v]; cbn [run_op].
  - by apply line_steps.
  - refine (steps_eq _ _ _ _ (write_reg MIO.INT_MASK1 v s Ho eq_refl) _). cbn [Z.eqb].
    pose proof (change_steps (fun c => set_int_mask (Z.lor (Z.lor (Z.land (int_mask c) 0x7FFFFFFF00000000) v)
      (Z.shiftl (Z.land (Z.lor (Z.land (int_mask c) 0x7FFFFFFF00000000) v) MACIO_INT_MODE) 32)) c) s ltac:(done)) as Hc.
    refine (steps_eq _ _ _ _ _ Hc). change (Z.land MIO.INT_MASK1 (not32 3)) with MIO.INT_MASK1. cbv zeta.
    change (MIO.INT_MASK1 =? MIO.INT_MASK2) with false. change (MIO.INT_MASK1 =? MIO.INT_CLEAR2) with false.
    change (MIO.INT_MASK1 =? MIO.INT_MASK1) with true. cbv iota.
    unfold upd_ic. rewrite !bind_modify. by rewrite get_set_ic, set_set_ic.
  - refine (steps_eq _ _ _ _ (write_reg MIO.INT_MASK2 v s Ho eq_refl) _). by apply change_steps.
  - refine (steps_eq _ _ _ _ (write_reg MIO.INT_CLEAR1 v s Ho eq_refl) _). by apply clear1_steps.
  - refine (steps_eq _ _ _ _ (write_reg MIO.INT_CLEAR2 v s Ho eq_refl) _).
    apply (drop_steps (fun c => set_int_events (Z.land (int_events c) (Z.lnot (Z.shiftl (Z.land v 0x7FFFFFFF) 32))) c)); [done..|].
    apply drop_pending, Hs.
Qed.
End Refinement.

(** ** Bit by bit *)

Lemma mode_bit m : test m MACIO_INT_MODE = Z.testbit m 31.
Proof. by apply (test_pow2 m 31). Qed.
Lemma clr_bit v : test v MACIO_INT_CLR = Z.testbit v 31.
Proof. by apply (test_pow2 v 31). Qed.

Lemma land_ones_bits v n i : 0 <= n -> 0 <= i -> Z.testbit (Z.land v (2 ^ n - 1)) i = Z.testbit v i && (i <? n).
Proof.
  intros. replace (2 ^ n - 1) with (Z.ones n) by (rewrite Z.ones_equiv; lia).
  rewrite Z.land_spec. f_equal. destruct (Z.ltb_spec i n); [by apply Z.ones_spec_low | by apply Z.ones_spec_high].
Qed.
Lemma low31_bits v i : 0 <= i -> Z.testbit (Z.land v 0x7FFFFFFF) i = Z.testbit v i && (i <? 31).
Proof. intros. by apply (land_ones_bits v 31). Qed.
Lemma low11_bits v i : 0 <= i -> Z.testbit (Z.land v 0x7FF) i = Z.testbit v i && (i <? 11).
Proof. intros. by apply (land_ones_bits v 11). Qed.
Lemma hi31_bits i : 0 <= i < 64 -> Z.testbit 0x7FFFFFFF00000000 i = (32 <=? i) && (i <? 63).
Proof. intros Hi. apply eqb_prop. revert i Hi. apply (range_forall 64). vm_compute. reflexivity. Qed.
Lemma keep_bits i : 0 <= i < 64 -> Z.testbit 0x80000000FFFFFFFF i = (i <? 32) || (i =? 63).
Proof. intros Hi. apply eqb_prop. revert i Hi. apply (range_forall 64). vm_compute. reflexivity. Qed.
Lemma mode_const_bits i : 0 <= i < 64 -> Z.testbit MACIO_INT_MODE i = (i =? 31).
Proof. intros Hi. apply eqb_prop. revert i Hi. apply (range_forall 64). vm_compute. reflexivity. Qed.
Lemma shl32_bits x i : 0 <= i -> Z.testbit (Z.shiftl x 32) i = (32 <=? i) && Z.testbit x (i - 32).
Proof.
  intros. rewrite Z.shiftl_spec by lia. destruct (Z.leb_spec 32 i); [done|]. by rewrite Z.testbit_neg_r by lia.
Qed.

Lemma flags_zero v : 0 <= v -> (Z.land v 0x7FF =? 0) = negb (dma_flags v).
Proof. intros. unfold dma_flags. rewrite negb_involutive. change 0x7FF with (Z.ones 11). by rewrite Z.land_ones by lia. Qed.

Lemma xorb_levels (high old : bool) : negb (b2z high =? b2z old) = xorb high old.
Proof. by destruct high, old. Qed.

Lemma level_bits o c i : op_ok o -> 0 <= i < 64 ->
  level (sources_of (regs_after o c)) i = spec_level o (sources_of c) i.
Proof.
  intros Ho Hi. destruct o as [k h|v|v|v|v]; try done; cbn in Ho.
  - unfold regs_after, spec_level. cbv zeta. transitivity (Z.testbit (if h then Z.lor (int_levels c) (INT_TO_IRQ_ID k)
      else Z.land (int_levels c) (Z.lnot (INT_TO_IRQ_ID k))) i); [by destruct (_ && _)|].
    destruct h; [rewrite Z.lor_spec | rewrite Z.land_spec, Z.lnot_spec by lia]; rewrite irq_bit by lia; cbn;
      destruct (i =? k); cbn; by rewrite ?orb_true_r, ?orb_false_r, ?andb_true_r, ?andb_false_r.
  - unfold regs_after, spec_level, clears_all. rewrite mode_bit, clr_bit. cbn [emulated sources_of level].
    destruct (Z.testbit (int_mask c) 31 && Z.testbit v 31); [done|]. cbv zeta. rewrite flags_zero by lia. cbn [orb].
    destruct (dma_flags v); cbn [negb]; [|done]. assert (Z.testbit (Z.land (int_levels c) (not32 (Z.land v 0x7FF))) i =
      Z.testbit (int_levels c) i && (i <? 32) && negb ((i <? 11) && Z.testbit v i)) as <-.
    { rewrite Z.land_spec. unfold not32. rewrite testbit_uwrap by lia. rewrite Z.lnot_spec, low11_bits by lia.
      by rewrite (andb_comm (Z.testbit v i)), andb_assoc. }
    by destruct (Z.testbit (int_mask c) 31).
Qed.

Lemma test_irq x k : 0 <= k -> test x (INT_TO_IRQ_ID k) = Z.testbit x k.
Proof. intros. unfold INT_TO_IRQ_ID. rewrite Z.shiftl_1_l. by apply test_pow2. Qed.

Lemma event_bits o c i : op_ok o -> 0 <= i < 64 ->
  event (sources_of (regs_after o c)) i = spec_event o (sources_of c) i.
Proof.
  intros Ho Hi. destruct o as [k h|v|v|v|v]; try done; cbn in Ho.
  - unfold regs_after, spec_event. cbv zeta. rewrite mode_bit, xorb_levels, test_irq by lia. cbn [emulated sources_of event level].
    destruct (Z.eqb_spec i k) as [->|Hne].
    + cbn [andb]. destruct (xorb h _ && _) eqn:E; cbn; [|by rewrite orb_false_r].
      rewrite Z.lor_spec, irq_bit by lia. by rewrite Z.eqb_refl.
    + cbn [andb]. rewrite orb_false_r. destruct (xorb h _ && _); cbn; [|done].
      rewrite Z.lor_spec, irq_bit by lia. by rewrite (proj2 (Z.eqb_neq i k)), orb_false_r.
  - unfold regs_after, spec_event, clears_all. rewrite mode_bit, clr_bit. cbn [emulated sources_of event level].
    destruct (Z.testbit (int_mask c) 31 && Z.testbit v 31); [by cbn; rewrite Z.bits_0|]. cbv zeta.
    assert (Z.testbit (Z.land (int_events c) (Z.lnot (Z.land v 0x7FFFFFFF))) i =
      Z.testbit (int_events c) i && negb ((i <? 31) && Z.testbit v i)) as E1.
    { rewrite Z.land_spec, Z.lnot_spec, low31_bits by lia. by rewrite (andb_comm (Z.testbit v i)). }
    rewrite flags_zero by lia. destruct (dma_flags v) eqn:Ef; cbn [negb].
    + destruct (Z.testbit (int_mask c) 31) eqn:Em; cbn [sources_of event int_events set_int_levels set_int_events].
      * rewrite Z.lor_spec, E1, Z.land_spec, low11_bits by lia. cbn [andb]. f_equal.
        destruct (i <? 11), (Z.testbit v i), (Z.testbit (int_levels c) i); done.
      * rewrite E1. cbn [andb]. by rewrite orb_false_r.
    + cbn [sources_of event int_events set_int_events]. rewrite E1. destruct (Z.ltb_spec i 11) as [H11|]; cbn [andb].
      2:{ by rewrite andb_false_r, orb_false_r. }
      assert (Z.testbit v i = false) as Hv0.
      { unfold dma_flags in Ef. apply negb_false_iff, Z.eqb_eq in Ef. rewrite <- (Z.mod_pow2_bits_low v 11) by lia.
        by rewrite Ef, Z.bits_0. }
      rewrite Hv0, ?andb_true_r, ?andb_false_r. cbn. by rewrite ?orb_false_r.
  - unfold regs_after, spec_event. cbn [sources_of event int_events set_int_events].
    rewrite Z.land_spec, Z.lnot_spec, shl32_bits by lia. f_equal. f_equal. destruct (Z.leb_spec 32 i); cbn [andb]; [|done].
    rewrite low31_bits by lia. rewrite andb_comm. f_equal. destruct (Z.ltb_spec (i - 32) 31), (Z.ltb_spec i 63); lia || done.
Qed.

Lemma enabled_bits o c i : op_ok o -> 0 <= i < 64 ->
  enabled (sources_of (regs_after o c)) i = spec_enabled o (sources_of c) i.
Proof.
  intros Ho Hi. destruct o as [k h|v|v|v|v]; cbn in Ho.
  - unfold regs_after. cbv zeta. by destruct (_ && _).
  - unfold regs_after, spec_enabled. cbn [sources_of enabled int_mask set_int_mask]. cbv zeta.
    rewrite Z.lor_spec, shl32_bits, !Z.land_spec by lia. rewrite Z.lor_spec, Z.land_spec, hi31_bits by lia.
    destruct (Z.leb_spec 32 i); cbn [andb].
    + rewrite mode_const_bits by lia. rewrite (testbit_high 32 v i) by lia. rewrite (proj2 (Z.ltb_ge i 32)) by lia.
      destruct (Z.ltb_spec i 63), (Z.eqb_spec i 63), (Z.eqb_spec (i - 32) 31); try lia; cbn [andb orb];
        rewrite ?andb_true_r, ?andb_false_r, ?orb_false_r; [done|]. subst i. change (63 - 32) with 31.
      rewrite Z.lor_spec, Z.land_spec, hi31_bits by lia. cbn. by rewrite andb_false_r.
    + rewrite (proj2 (Z.ltb_lt i 32)) by lia. by rewrite andb_false_r, orb_false_r.
  - unfold regs_after, spec_enabled. cbn [sources_of enabled int_mask set_int_mask].
    rewrite Z.lor_spec, shl32_bits, !Z.land_spec, keep_bits by lia.
    destruct (Z.leb_spec 32 i); cbn [andb].
    + change (not32 MACIO_INT_MODE) with 0x7FFFFFFF. rewrite <- Z.land_spec, low31_bits by lia. rewrite (proj2 (Z.ltb_ge i 32)) by lia. cbn [orb].
      destruct (Z.ltb_spec i 63), (Z.eqb_spec i 63), (Z.ltb_spec (i - 32) 31); try lia; cbn; by rewrite ?andb_true_r, ?andb_false_r, ?orb_false_r.
    + rewrite (proj2 (Z.ltb_lt i 32)) by lia. cbn. by rewrite andb_true_r, orb_false_r.
  - unfold regs_after. cbv zeta. destruct (_ && _); [done|]. destruct (_ =? 0); [done|]. by destruct (test _ _).
  - done.
Qed.

(** ** Sequences of operations *)

Definition spec_step (o : int_op) (a : sources) : sources :=
  mk_sources (spec_level o a) (spec_event o a) (spec_enabled o a) (spec_enabled o a 31).
Definition spec_run (ops : list int_op) (a : sources) : sources := fold_left (fun a o => spec_step o a) ops a.

(** Equal on the 64 sources there are. *)
Definition agrees (a b : sources) : Prop :=
  (forall i, 0 <= i < 64 -> level a i = level b i /\ event a i = event b i /\ enabled a i = enabled b i) /\
  emulated a = emulated b.

Lemma spec_step_agrees o a b : agrees a b -> agrees (spec_step o a) (spec_step o b).
Proof.
  intros [H E]. assert (forall i, 0 <= i < 64 -> spec_enabled o a i = spec_enabled o b i) as Hen.
  { intros i Hi. destruct (H i Hi) as (_ & _ & He). destruct o; cbn; by rewrite ?He. }
  split; [|by apply Hen]. intros i Hi. split_and!; [..|by apply Hen]; cbn; destruct (H i Hi) as (H1 & H2 & _);
    destruct o; cbn; unfold clears_all; by rewrite ?E, ?H1, ?H2.
Qed.

Lemma spec_run_agrees ops : forall a b, agrees a b -> agrees (spec_run ops a) (spec_run ops b).
Proof. induction ops as [|o ops IH]; intros a b Hab; [done|]. by apply IH, spec_step_agrees. Qed.

Lemma regs_agree o c b : op_ok o -> agrees (sources_of (set_cpu_int_latch b (regs_after o c))) (spec_step o (sources_of c)).
Proof.
  intros Ho. split; [intros i Hi; split_and!; [by apply level_bits | by apply event_bits | by apply enabled_bits]|].
  by apply (enabled_bits o c 31).
Qed.

Fixpoint run_ops {S} `{IntHost S} `{MacIoTwoHost S} (ops : list int_op) : M S unit :=
  match ops with [] => ret tt | o :: ops => run_op o ;;; run_ops ops end.

(** C8: a MacIO interrupt controller implements its specification by sources.  After any sequence of line changes and register writes every source's level, latched event and enable bit are those of the edge-detector specification (in native mode rising edges, in emulated mode all edges; acknowledging; the shared mode bit), and the processor's interrupt pin is high exactly while some enabled event is latched. *)
Theorem interrupt_controller_refines {S} `{IntHostLaws S} `{MacIoTwoHost S} (ops : list int_op) (s : S) :
  settled s -> Forall op_ok ops ->
  exists s', run_ops ops s = (Ret tt, s') /\ settled s' /\
    agrees (sources_of (get_ic s')) (spec_run ops (sources_of (get_ic s))) /\
    cpu_pin s' = existsb (fun i => event (spec_run ops (sources_of (get_ic s))) i &&
                                   enabled (spec_run ops (sources_of (get_ic s))) i) (zrange 64).
Proof.
  revert s. induction ops as [|o ops IH]; intros s Hs Hops.
  - exists s. split; [done|]. split; [done|]. split; [by split|]. destruct Hs as (Hr & _ & ->). by apply pending_spec.
  - apply Forall_cons_1 in Hops as [Ho Hops].
    destruct (settled_of (run_op o) s (regs_after o (get_ic s)) Hs (regs_range o _ Ho (proj1 Hs)) (op_steps o s Hs Ho)) as (s1 & E1 & Hs1 & G1).
    destruct (IH s1 Hs1 Hops) as (s' & E & Hs' & Ha & Hp). exists s'.
    split; [cbn [run_ops]; unfold bind; by rewrite E1|]. split; [done|].
    assert (agrees (spec_run ops (sources_of (get_ic s1))) (spec_run (o :: ops) (sources_of (get_ic s)))) as Hag.
    { apply (spec_run_agrees ops). rewrite G1. by apply regs_agree. }
    split.
    + destruct Ha as [Ha1 Ha2], Hag as [Hg1 Hg2]. split; [|congruence]. intros i Hi.
      destruct (Ha1 i Hi) as (-> & -> & ->). by apply Hg1.
    + rewrite Hp. apply existsb_same. intros i Hin. apply in_map_iff in Hin as (n & <- & Hn%in_seq).
      destruct (proj1 Hag (Z.of_nat n) ltac:(lia)) as (_ & -> & ->). done.
Qed.

(** ** With the processor *)

Record platform := mk_platform { p_mach : machine; p_ic : int_ctrl; p_mio : macio_two }.

Definition on_machine {A} (k : M machine A) : M platform A := fun p =>
  let '(r, m) := k (p_mach p) in (r, mk_platform m (p_ic p) (p_mio p)).

#[export] Instance platform_int_host : IntHost platform := {
  get_ic := p_ic;
  set_ic := fun c p => mk_platform (p_mach p) c (p_mio p);
  cpu_assert_int := on_machine ppc_assert_int;
  cpu_release_int := on_machine ppc_release_int
}.
#[export] Instance platform_mio_host : MacIoTwoHost platform := {
  get_mio := p_mio;
  set_mio := fun r p => mk_platform (p_mach p) (p_ic p) r
}.

(** Asserting the pin takes the external interrupt at once if it is enabled. *)
Lemma assert_int_taken m : exists m', ppc_assert_int m = (Ret tt, m') /\
  int_pin (ex m') = true /\
  (if msr_bit MSR.EE m
   then exists srr0, exc_srr0 EXC_EXT_INT m = Some srr0 /\ exception_entry EXC_EXT_INT srr0 0 (upd_ex (set_int_pin true) m) m'
   else m' = upd_ex (set_int_pin true) m).
Proof.
  unfold ppc_assert_int. rewrite bind_modify, bind_gets.
  change (msr_bit MSR.EE (upd_ex (set_int_pin true) m)) with (msr_bit MSR.EE m).
  destruct (msr_bit MSR.EE m); cbn [when]; [|eexists; split; [done|]; by split].
  destruct (exception_handler_entry EXC_EXT_INT 0 (upd_ex (set_int_pin true) m) _ eq_refl) as (m' & E & Hm).
  exists m'. split; [exact E|]. split; [by rewrite (proj1 (ee_pending _ _ _ _ _ Hm))|]. by eexists.
Qed.

#[export] Instance platform_int_laws : IntHostLaws platform.
Proof.
  refine {| cpu_pin := fun p => int_pin (ex (p_mach p)) |}; try done.
  - intros p. cbn. unfold on_machine. destruct (assert_int_taken (p_mach p)) as (m' & -> & P & _). by eexists.
  - intros p. by eexists.
Defined.

Lemma pending_event k c : 0 <= k < 64 -> ic_range c -> Z.testbit (int_events c) k = true -> Z.testbit (int_mask c) k = true ->
  pending c = true.
Proof.
  intros Hk Hr He Hm. rewrite pending_spec by done. apply existsb_exists. exists k. split; [|by apply andb_true_iff].
  apply in_map_iff. exists (Z.to_nat k). split; [lia|]. apply in_seq. lia.
Qed.

(** Raising a low line, on the platform: events, latch and processor. *)
Lemma raise_line k m c r : 0 <= k < 64 -> 0 <= int_events c -> Z.testbit (int_levels c) k = false -> cpu_int_latch c = pending c ->
  let c' := regs_after (Line k true) c in
  ack_int (INT_TO_IRQ_ID k) 1 (mk_platform m c r) =
  if negb (pending c) && pending c'
  then let '(o, m') := ppc_assert_int m in (o, mk_platform m' (set_cpu_int_latch true c') r)
  else (Ret tt, mk_platform m c' r).
Proof.
  intros Hk He Hl Hlt. pose proof (irq_range k Hk). cbv zeta. unfold ack_int, ack_int_common. rewrite bind_gets.
  rewrite uwrap_small by done. cbn [get_ic platform_int_host p_ic]. rewrite test_irq, Hl by lia.
  change (negb (1 =? 0)) with true. change (negb (1 =? b2z false)) with true. cbv zeta. cbn [andb orb].
  unfold upd_ic. rewrite bind_modify. cbn [get_ic set_ic platform_int_host p_ic p_mach p_mio when].
  rewrite bind_modify, bind_gets. cbn [get_ic set_ic platform_int_host p_ic p_mach p_mio].
  unfold regs_after. rewrite test_irq, Hl by lia. change (negb (b2z true =? b2z false)) with true. cbn [andb orb].
  set (c' := set_int_events _ (set_int_levels _ c)).
  change (set_int_events (Z.lor (int_events (set_int_levels (Z.lor (int_levels c) (INT_TO_IRQ_ID k)) c)) (INT_TO_IRQ_ID k))
    (set_int_levels (Z.lor (int_levels c) (INT_TO_IRQ_ID k)) c)) with c'.
  change (int_events c') with (Z.lor (int_events c) (INT_TO_IRQ_ID k)).
  destruct (Z.eqb_spec (int_events c) (Z.lor (int_events c) (INT_TO_IRQ_ID k))) as [Ee|Ee]; cbn [negb when].
  - assert (pending c' = pending c) as -> by (unfold pending, c'; cbn; by rewrite <- Ee). by destruct (pending c).
  - unfold signal_cpu_int. rewrite bind_gets. cbn [get_ic platform_int_host p_ic]. fold (pending c').
    change (cpu_int_latch c') with (cpu_int_latch c). rewrite Hlt.
    destruct (pending c'), (pending c); cbn [when negb andb]; try done.
Qed.

(** C10: an enabled interrupt reaches the processor, once.  When a device raises its line on a MacIO controller with nothing pending and the source enabled, the event is latched and the interrupt pin goes high; if the processor accepts external interrupts it enters the handler at vector 0x500 with the return address in SRR0 in the same step, otherwise only its pin changes.  While an enabled event is already latched, another line going high leaves the processor alone. *)
Theorem interrupt_delivered k p : settled p -> 0 <= k < 64 -> Z.testbit (int_levels (p_ic p)) k = false ->
  let m := p_mach p in
  exists p', ack_int (INT_TO_IRQ_ID k) 1 p = (Ret tt, p') /\ settled p' /\
    Z.testbit (int_events (p_ic p')) k = true /\
    (pending (p_ic p) = true -> p_mach p' = m) /\
    (pending (p_ic p) = false -> Z.testbit (int_mask (p_ic p)) k = true ->
      int_pin (ex (p_mach p')) = true /\
      if msr_bit MSR.EE m
      then exists srr0, exc_srr0 EXC_EXT_INT m = Some srr0 /\
        exception_entry EXC_EXT_INT srr0 0 (upd_ex (set_int_pin true) m) (p_mach p') /\
        ppc_next_instruction_address (ex (p_mach p')) = vector EXC_EXT_INT m
      else p_mach p' = upd_ex (set_int_pin true) m).
Proof.
  intros Hs Hk Hl m. destruct p as [m0 c r]. cbn [p_mach p_ic] in *. subst m. pose proof Hs as (Hr & Hlt & Hp).
  destruct (settled_of (run_op (Line k true)) _ (regs_after (Line k true) c) Hs (regs_range (Line k true) c Hk Hr) (op_steps (Line k true) _ Hs Hk))
    as (p' & E & Hs' & G).
  exists p'. split; [exact E|]. split; [exact Hs'|]. cbn [get_ic platform_int_host] in G. rewrite G.
  pose proof (event_bits (Line k true) c k Hk Hk) as Hev. cbn [event sources_of spec_event] in Hev.
  rewrite Z.eqb_refl in Hev. cbn [level sources_of] in Hev. rewrite Hl, orb_true_r in Hev.
  split; [exact Hev|]. cbn [run_op b2z] in E. rewrite raise_line in E by (done || apply Hr).
  pose proof (enabled_bits (Line k true) c k Hk Hk) as Hen. cbn [enabled sources_of spec_enabled] in Hen.
  split.
  - intros Hpd. rewrite Hpd in E. cbn [negb andb] in E. by injection E as <-.
  - intros Hpd Hm. rewrite Hpd, (pending_event k _ Hk (regs_range (Line k true) c Hk Hr) Hev (eq_trans Hen Hm)) in E.
    cbn [negb andb] in E. destruct (assert_int_taken m0) as (m' & E' & P & H). rewrite E' in E. injection E as <-.
    split; [exact P|]. cbn [p_mach]. destruct (msr_bit MSR.EE m0); [|exact H]. destruct H as (srr0 & H1 & H2).
    exists srr0. split; [exact H1|]. split; [exact H2|]. exact (ee_nia _ _ _ _ _ H2).
Qed.

(** ** Concrete controllers *)

Definition demo_platform (c : int_ctrl) : platform :=
  mk_platform (upd_cpu (with_msr 0x8000) demo_machine) c (mk_macio_two true 0 0 0xF0 0x70 0x10 0x70).

Lemma demo_settled c : ic_range c -> cpu_int_latch c = false -> pending c = false -> settled (demo_platform c).
Proof. intros H1 H2 H3. split; [exact H1|]. split; cbn [get_ic platform_int_host p_ic demo_platform]; [congruence|]. by rewrite H3. Qed.

Lemma interrupt_controller_refines_witness : exists p',
  run_ops [WriteMask1 0x40000; Line 18 true; Line 18 false] (demo_platform (mk_int_ctrl 0 false 0 0)) = (Ret tt, p') /\
  cpu_pin p' = true.
Proof.
  assert (settled (demo_platform (mk_int_ctrl 0 false 0 0))) as Hs.
  { apply demo_settled; [|reflexivity..]. unfold ic_range. cbn. lia. }
  destruct (interrupt_controller_refines [WriteMask1 0x40000; Line 18 true; Line 18 false] _ Hs
    ltac:(repeat constructor; cbn; lia)) as (p' & E & _ & _ & P).
  exists p'. split; [exact E|]. rewrite P. vm_compute. reflexivity.
Defined.

Lemma interrupt_delivered_witness : exists p',
  ack_int (INT_TO_IRQ_ID 18) 1 (demo_platform (mk_int_ctrl 0x40000 false 0 0)) = (Ret tt, p') /\
  ppc_next_instruction_address (ex (p_mach p')) = 0x500.
Proof.
  assert (settled (demo_platform (mk_int_ctrl 0x40000 false 0 0))) as Hs.
  { apply demo_settled; [|reflexivity..]. unfold ic_range. cbn. lia. }
  destruct (interrupt_delivered 18 _ Hs ltac:(lia) eq_refl) as (p' & E & _ & _ & _ & H).
  exists p'. split; [exact E|]. destruct (H eq_refl eq_refl) as [_ Hx].
  change (msr_bit MSR.EE (p_mach (demo_platform (mk_int_ctrl 0x40000 false 0 0)))) with true in Hx.
  destruct Hx as (srr0 & _ & _ & En). rewrite En. vm_compute. reflexivity.
Defined.

(** ** Two things the registers do not mean to do *)

(** Acknowledging any DMA interrupt forgets the levels of the second bank: the
    complement of the 32-bit flags has zeroes there. *)
Lemma dma_ack_drops_second_bank v c i : 0 <= v < 2 ^ 32 -> clears_all v (sources_of c) = false -> dma_flags v = true ->
  32 <= i < 64 -> level (sources_of (regs_after (WriteClear1 v) c)) i = false.
Proof.
  intros Hv Hc Hd Hi. rewrite level_bits by (done || lia). cbn [spec_level]. rewrite Hc, Hd. cbn [orb negb].
  rewrite (proj2 (Z.ltb_ge i 32)) by lia. by rewrite andb_false_r.
Qed.

(** A byte written to the feature control register keeps the other bytes of the
    register in reversed order. *)
Lemma feature_byte_write {S} `{IntHost S} `{MacIoTwoHost S} b (s : S) : 0 <= b < 256 ->
  MacIoTwo.mio_write_value MIO.OHARE_FEAT_CTRL b 1 s =
  Z.lor (Z.land (BYTESWAP_32 (feat_ctrl (get_mio s))) 0xFFFFFF00) b.
Proof.
  intros Hb. unfold MacIoTwo.mio_write_value. change (test (Z.lor MIO.OHARE_FEAT_CTRL 1) 3) with true. cbn [negb].
  change ((MIO.OHARE_FEAT_CTRL <=? MIO.OHARE_ENTRY_SPT) || (MIO.OHARE_FEAT_CTRL <=? MIO.OHARE_FEAT_CTRL)) with true. cbv iota.
  f_equal. change (Z.land MIO.OHARE_FEAT_CTRL 3 * 8) with 0. change (BYTESWAP_SIZED b 1) with b. unfold shl32.
  rewrite Z.shiftl_0_r. apply uwrap_small. lia.
Qed.
