(* ===== verification/Dbdma.v ===== *)
(** * Descriptor-based DMA (devices/common/dbdma.cpp)

    A DMA channel interprets a program of 16-byte commands in guest memory: it hands
    buffers to its device, stores and loads words, writes status back into the
    commands, branches, waits and raises interrupts.  The device, the callbacks and
    the registers of other devices are a class; the device may call the channel back,
    which is why [interpret_until_blocked] can find itself running.  Fuel bounds the
    passes of its loop and the depth of that recursion.  [uint8_t*] pointers into guest
    memory are addresses of the host memory; log messages are not modelled. *)
From S2P Require Import Prelude Word Timers MemCtrl HostMem.
Import Endian.

(** ** Mapping guest memory (cpu/ppc/ppcmmu.cpp) *)

(* [cpu/ppc/ppcmmu.h:72-81] *)
Record MapDmaResult := mkMapDma {
  md_type : Z;
  md_size : Z;
  md_is_writable : bool;
  md_host_va : Z;
  md_dev_obj : Z;
  md_dev_base : Z
}.

(** [None] is [ABORT_F]; a debugger's access that fails has type [RT_NONE]. *)
(* [cpu/ppc/ppcmmu.cpp:501-595] *)
Definition mmu_map_dma_mem (addr size : Z) (allow_mmio allow_partial is_dbg : bool) (m : MemCtrlBase) : option MapDmaResult :=
  let fail := if is_dbg then Some (mkMapDma RT.RT_NONE 0 false 0 0 0) else None in
  match find_range addr m with
  | None => fail
  | Some cur =>
      let mem e := Z.land (e_type e) (Z.lor RT.RT_ROM RT.RT_RAM) in
      let last := u32 (addr + size - 1) in
      let fits :=
        if last >? e_end cur then
          let joined := match find_range (u32 (e_end cur + 1)) m with
                        | Some next =>
                            negb (mem cur =? 0) && (mem cur =? mem next) &&
                            (mem_ptr next =? mem_ptr cur + e_end cur - e_start cur + 1) && (last <=? e_end next)
                        | None => false
                        end in
          if joined then Some size
          else if allow_partial then Some (u32 (e_end cur - addr + 1))
          else None
        else Some size in
      match fits with
      | None => fail
      | Some size =>
          if test (e_type cur) RT.RT_MMIO && negb allow_mmio then fail
          else if negb (mem cur =? 0)
          then Some (mkMapDma (e_type cur) size (test (e_type cur) RT.RT_RAM) (mem_ptr cur + u32 (addr - e_start cur)) 0 0)
          else Some (mkMapDma (e_type cur) size true 0 (devobj cur) (e_start cur))
      end
  end.

(** ** Registers and commands *)

Module DMAReg.
(* [devices/common/dbdma.h:42-42] *)
Definition CH_CTRL := 0.
(* [devices/common/dbdma.h:43-43] *)
Definition CH_STAT := 4.
(* [devices/common/dbdma.h:44-44] *)
Definition CMD_PTR_HI := 8.
(* [devices/common/dbdma.h:45-45] *)
Definition CMD_PTR_LO := 12.
(* [devices/common/dbdma.h:46-46] *)
Definition INT_SELECT := 16.
(* [devices/common/dbdma.h:47-47] *)
Definition BRANCH_SELECT := 20.
(* [devices/common/dbdma.h:48-48] *)
Definition WAIT_SELECT := 24.
End DMAReg.

(* [devices/common/dbdma.h:72-72] *)
Definition CH_STAT_BT := 0x0100.
(* [devices/common/dbdma.h:73-73] *)
Definition CH_STAT_ACTIVE := 0x0400.
(* [devices/common/dbdma.h:74-74] *)
Definition CH_STAT_DEAD := 0x0800.
(* [devices/common/dbdma.h:75-75] *)
Definition CH_STAT_WAKE := 0x1000.
(* [devices/common/dbdma.h:76-76] *)
Definition CH_STAT_FLUSH := 0x2000.
(* [devices/common/dbdma.h:77-77] *)
Definition CH_STAT_PAUSE := 0x4000.
(* [devices/common/dbdma.h:78-78] *)
Definition CH_STAT_RUN := 0x8000.

Module DBDMA_Cmd.
(* [devices/common/dbdma.h:94-94] *)
Definition OUTPUT_MORE := 0.
(* [devices/common/dbdma.h:95-95] *)
Definition OUTPUT_LAST := 1.
(* [devices/common/dbdma.h:96-96] *)
Definition INPUT_MORE := 2.
(* [devices/common/dbdma.h:97-97] *)
Definition INPUT_LAST := 3.
(* [devices/common/dbdma.h:98-98] *)
Definition STORE_QUAD := 4.
(* [devices/common/dbdma.h:99-99] *)
Definition LOAD_QUAD := 5.
(* [devices/common/dbdma.h:100-100] *)
Definition NOP := 6.
(* [devices/common/dbdma.h:101-101] *)
Definition STOP := 7.
End DBDMA_Cmd.

(* [devices/common/dmacore.h:90-95] *)
Inductive DmaMsg := DMA_MSG_START | DMA_MSG_STOP | DMA_MSG_FLUSH | DMA_MSG_DATA_AVAIL.
(* [devices/common/dmacore.h:99-99] *)
Definition DMA_DIR_UNDEF := 0.
(* [devices/common/dmacore.h:100-100] *)
Definition DMA_DIR_TO_DEV := 1.
(* [devices/common/dmacore.h:101-101] *)
Definition DMA_DIR_FROM_DEV := 2.

(* [devices/common/dbdma.h:82-90] *)
Record DMACmd := mkDMACmd {
  req_count : Z;
  cmd_bits : Z;
  cmd_key : Z;
  address : Z;
  cmd_arg : Z;
  cmd_res_count : Z;
  xfer_stat : Z
}.

(** The members of a channel; the pointer [cur_host] starts as the null pointer, and
    [cur_cmd], which has no initialiser, is not read before [fetch_cmd] sets it. *)
(* [devices/common/dbdma.h:174-191 ch_stat] *)
Record channel := mk_channel {
  ch_stat : Z;
  cmd_ptr : Z;
  queue_len : Z;
  queue_data : Z;
  res_count : Z;
  int_select : Z;
  branch_select : Z;
  wait_select : Z;
  cmd_in_progress : bool;
  is_paused : bool;
  in_interpret_loop : bool;
  interpret_again : bool;
  xfer_ended : bool;
  end_dev_stat : Z;
  cur_cmd : Z;
  cur_host : Z;
  cur_is_writable : bool;
  xfer_dir : Z
}.
Definition set_ch_stat (v : Z) (c : channel) : channel :=
  mk_channel v (cmd_ptr c) (queue_len c) (queue_data c) (res_count c) (int_select c) (branch_select c) (wait_select c)
    (cmd_in_progress c) (is_paused c) (in_interpret_loop c) (interpret_again c) (xfer_ended c)
    (end_dev_stat c) (cur_cmd c) (cur_host c) (cur_is_writable c) (xfer_dir c).
Definition set_cmd_ptr (v : Z) (c : channel) : channel :=
  mk_channel (ch_stat c) v (queue_len c) (queue_data c) (res_count c) (int_select c) (branch_select c) (wait_select c)
    (cmd_in_progress c) (is_paused c) (in_interpret_loop c) (interpret_again c) (xfer_ended c)
    (end_dev_stat c) (cur_cmd c) (cur_host c) (cur_is_writable c) (xfer_dir c).
Definition set_queue_len (v : Z) (c : channel) : channel :=
  mk_channel (ch_stat c) (cmd_ptr c) v (queue_data c) (res_count c) (int_select c) (branch_select c) (wait_select c)
    (cmd_in_progress c) (is_paused c) (in_interpret_loop c) (interpret_again c) (xfer_ended c)
    (end_dev_stat c) (cur_cmd c) (cur_host c) (cur_is_writable c) (xfer_dir c).
Definition set_queue_data (v : Z) (c : channel) : channel :=
  mk_channel (ch_stat c) (cmd_ptr c) (queue_len c) v (res_count c) (int_select c) (branch_select c) (wait_select c)
    (cmd_in_progress c) (is_paused c) (in_interpret_loop c) (interpret_again c) (xfer_ended c)
    (end_dev_stat c) (cur_cmd c) (cur_host c) (cur_is_writable c) (xfer_dir c).
Definition set_res_count (v : Z) (c : channel) : channel :=
  mk_channel (ch_stat c) (cmd_ptr c) (queue_len c) (queue_data c) v (int_select c) (branch_select c) (wait_select c)
    (cmd_in_progress c) (is_paused c) (in_interpret_loop c) (interpret_again c) (xfer_ended c)
    (end_dev_stat c) (cur_cmd c) (cur_host c) (cur_is_writable c) (xfer_dir c).
Definition set_int_select (v : Z) (c : channel) : channel :=
  mk_channel (ch_stat c) (cmd_ptr c) (queue_len c) (queue_data c) (res_count c) v (branch_select c) (wait_select c)
    (cmd_in_progress c) (is_paused c) (in_interpret_loop c) (interpret_again c) (xfer_ended c)
    (end_dev_stat c) (cur_cmd c) (cur_host c) (cur_is_writable c) (xfer_dir c).
Definition set_branch_select (v : Z) (c : channel) : channel :=
  mk_channel (ch_stat c) (cmd_ptr c) (queue_len c) (queue_data c) (res_count c) (int_select c) v (wait_select c)
    (cmd_in_progress c) (is_paused c) (in_interpret_loop c) (interpret_again c) (xfer_ended c)
    (end_dev_stat c) (cur_cmd c) (cur_host c) (cur_is_writable c) (xfer_dir c).
Definition set_wait_select (v : Z) (c : channel) : channel :=
  mk_channel (ch_stat c) (cmd_ptr c) (queue_len c) (queue_data c) (res_count c) (int_select c) (branch_select c) v
    (cmd_in_progress c) (is_paused c) (in_interpret_loop c) (interpret_again c) (xfer_ended c)
    (end_dev_stat c) (cur_cmd c) (cur_host c) (cur_is_writable c) (xfer_dir c).
Definition set_cmd_in_progress (v : bool) (c : channel) : channel :=
  mk_channel (ch_stat c) (cmd_ptr c) (queue_len c) (queue_data c) (res_count c) (int_select c) (branch_select c) (wait_select c) v (is_paused c) (in_interpret_loop c) (interpret_again c) (xfer_ended c)
    (end_dev_stat c) (cur_cmd c) (cur_host c) (cur_is_writable c) (xfer_dir c).
Definition set_is_paused (v : bool) (c : channel) : channel :=
  mk_channel (ch_stat c) (cmd_ptr c) (queue_len c) (queue_data c) (res_count c) (int_select c) (branch_select c) (wait_select c)
    (cmd_in_progress c) v (in_interpret_loop c) (interpret_again c) (xfer_ended c)
    (end_dev_stat c) (cur_cmd c) (cur_host c) (cur_is_writable c) (xfer_dir c).
Definition set_in_interpret_loop (v : bool) (c : channel) : channel :=
  mk_channel (ch_stat c) (cmd_ptr c) (queue_len c) (queue_data c) (res_count c) (int_select c) (branch_select c) (wait_select c)
    (cmd_in_progress c) (is_paused c) v (interpret_again c) (xfer_ended c)
    (end_dev_stat c) (cur_cmd c) (cur_host c) (cur_is_writable c) (xfer_dir c).
Definition set_interpret_again (v : bool) (c : channel) : channel :=
  mk_channel (ch_stat c) (cmd_ptr c) (queue_len c) (queue_data c) (res_count c) (int_select c) (branch_select c) (wait_select c)
    (cmd_in_progress c) (is_paused c) (in_interpret_loop c) v (xfer_ended c)
    (end_dev_stat c) (cur_cmd c) (cur_host c) (cur_is_writable c) (xfer_dir c).
Definition set_xfer_ended (v : bool) (c : channel) : channel :=
  mk_channel (ch_stat c) (cmd_ptr c) (queue_len c) (queue_data c) (res_count c) (int_select c) (branch_select c) (wait_select c)
    (cmd_in_progress c) (is_paused c) (in_interpret_loop c) (interpret_again c) v
    (end_dev_stat c) (cur_cmd c) (cur_host c) (cur_is_writable c) (xfer_dir c).
Definition set_end_dev_stat (v : Z) (c : channel) : channel :=
  mk_channel (ch_stat c) (cmd_ptr c) (queue_len c) (queue_data c) (res_count c) (int_select c) (branch_select c) (wait_select c)
    (cmd_in_progress c) (is_paused c) (in_interpret_loop c) (interpret_again c) (xfer_ended c) v (cur_cmd c) (cur_host c) (cur_is_writable c) (xfer_dir c).
Definition set_cur_cmd (v : Z) (c : channel) : channel :=
  mk_channel (ch_stat c) (cmd_ptr c) (queue_len c) (queue_data c) (res_count c) (int_select c) (branch_select c) (wait_select c)
    (cmd_in_progress c) (is_paused c) (in_interpret_loop c) (interpret_again c) (xfer_ended c)
    (end_dev_stat c) v (cur_host c) (cur_is_writable c) (xfer_dir c).
Definition set_cur_host (v : Z) (c : channel) : channel :=
  mk_channel (ch_stat c) (cmd_ptr c) (queue_len c) (queue_data c) (res_count c) (int_select c) (branch_select c) (wait_select c)
    (cmd_in_progress c) (is_paused c) (in_interpret_loop c) (interpret_again c) (xfer_ended c)
    (end_dev_stat c) (cur_cmd c) v (cur_is_writable c) (xfer_dir c).
Definition set_cur_is_writable (v : bool) (c : channel) : channel :=
  mk_channel (ch_stat c) (cmd_ptr c) (queue_len c) (queue_data c) (res_count c) (int_select c) (branch_select c) (wait_select c)
    (cmd_in_progress c) (is_paused c) (in_interpret_loop c) (interpret_again c) (xfer_ended c)
    (end_dev_stat c) (cur_cmd c) (cur_host c) v (xfer_dir c).
Definition set_xfer_dir (v : Z) (c : channel) : channel :=
  mk_channel (ch_stat c) (cmd_ptr c) (queue_len c) (queue_data c) (res_count c) (int_select c) (branch_select c) (wait_select c)
    (cmd_in_progress c) (is_paused c) (in_interpret_loop c) (interpret_again c) (xfer_ended c)
    (end_dev_stat c) (cur_cmd c) (cur_host c) (cur_is_writable c) v.
Definition idle_channel : channel := mk_channel 0 0 0 0 0 0 0 0 false false false false false 0 0 0 false 0.

(** ** Where the channel lives and what it talks to *)

Class DmaHost (S : Type) := {
  get_ch : S -> channel;
  set_ch : channel -> S -> S;
  get_mc : S -> MemCtrlBase;
  set_mc : MemCtrlBase -> S -> S
}.

(** The device of the channel ([dev_obj]; [dma_dev] says there is one), the two
    callbacks of [set_callbacks], the interrupt controller ([int_ctrl]; the interrupt
    is a timer whose callback calls [ack_dma_int]) and other devices' registers. *)
Class DmaEnv (S CB : Type) := {
  dma_dev : bool;
  dev_notify : DmaMsg -> M S unit;
  dev_xfer_from : Z -> Z -> M S Z;
  dev_xfer_to : Z -> Z -> M S Z;
  start_cb : M S unit;
  stop_cb : M S unit;
  has_int_ctrl : bool;
  interrupt_timer : Z;
  interrupt_cb : CB;
  mmio_read : Z -> Z -> Z -> Z -> M S Z;
  mmio_write : Z -> Z -> Z -> Z -> Z -> M S unit
}.

Definition upd_ch {S} `{DmaHost S} (f : channel -> channel) : M S unit := modify (fun s => set_ch (f (get_ch s)) s).
Definition dma_mem {S} `{DmaHost S} (s : S) : gmap Z Z := host_mem (get_mc s).
Definition upd_mem {S} `{DmaHost S} (f : gmap Z Z -> gmap Z Z) : M S unit :=
  modify (fun s => set_mc (with_host (f (dma_mem s)) (get_mc s)) s).
Definition set_bits (mask : Z) (c : channel) : channel := set_ch_stat (Z.lor (ch_stat c) mask) c.
Definition clear_bits (mask : Z) (c : channel) : channel := set_ch_stat (Z.land (ch_stat c) (Z.lnot mask)) c.

(* [devices/common/dbdma.cpp:636-643] *)
Definition is_active (c : channel) : bool :=
  if test (ch_stat c) CH_STAT_DEAD || negb (test (ch_stat c) CH_STAT_ACTIVE) then false else true.

(** The condition of a command's [i], [b] or [w] field: [bits] is 1, 2 or 3 times
    [unit], 3 being "always", 2 "if false". *)
Definition cond_bits (bits unit select stat : Z) : bool :=
  if bits =? 3 * unit then true
  else
    let mask := u16 (Z.shiftr select 16) in
    let cond := Z.land stat mask =? Z.land select mask in
    if bits =? 2 * unit then negb cond else cond.

Section Channel.
Context {S CB : Type} `{DmaHost S} `{TimerHost S CB} `{DmaEnv S CB}.

Definition map_dma (addr size : Z) (allow_mmio : bool) : M S MapDmaResult := fun s =>
  match mmu_map_dma_mem addr size allow_mmio false false (get_mc s) with
  | Some res => (Ret res, s)
  | None => (Fatal, s)
  end.

(** The command at a host address. *)
(* [devices/common/dbdma.cpp:48-54 req_count] *)
Definition read_cmd (h : gmap Z Z) (cmd_host : Z) : DMACmd :=
  mkDMACmd (READ_WORD_LE_A h cmd_host) h.[cmd_host + 2] h.[cmd_host + 3] (READ_DWORD_LE_A h (cmd_host + 4))
    (READ_DWORD_LE_A h (cmd_host + 8)) (READ_WORD_LE_A h (cmd_host + 12)) (READ_WORD_LE_A h (cmd_host + 14)).

(* [devices/common/dbdma.cpp:44-56] *)
Definition fetch_cmd (cmd_addr : Z) : M S (Z * DMACmd * bool) :=
  res <- map_dma cmd_addr 16 false ;;
  h <- gets dma_mem ;;
  ret (md_host_va res, read_cmd h (md_host_va res), md_is_writable res).

(* [devices/common/dbdma.cpp:183-193] *)
Definition update_cmd : M S unit :=
  c <- gets get_ch ;;
  when (cur_is_writable c) (
    when (cur_cmd c <? DBDMA_Cmd.STOP)
      (upd_mem (WRITE_WORD_LE_A (cur_host c + 14) (Z.lor (ch_stat c) CH_STAT_ACTIVE))) ;;;
    when (cur_cmd c <? DBDMA_Cmd.NOP)
      (upd_mem (WRITE_WORD_LE_A (cur_host c + 12) (res_count c)))) ;;;
  upd_ch (clear_bits (Z.lor CH_STAT_FLUSH CH_STAT_BT)).

(* [devices/common/dbdma.cpp:315-340] *)
Definition update_irq (bits : Z) : M S unit :=
  c <- gets get_ch ;;
  when ((cur_cmd c <? DBDMA_Cmd.STOP) && test bits 0x30) (
    let cond := cond_bits (Z.land bits 0x30) 0x10 (int_select c) (ch_stat c) in
    when (cond && has_int_ctrl) (
      act <- gets (fun s => active (info interrupt_timer (get_tm s))) ;;
      when (negb act) (add_immediate_timer interrupt_timer interrupt_cb))).

(* [devices/common/dbdma.cpp:195-250] *)
Definition finish_cmd : M S unit :=
  c <- gets get_ch ;;
  h <- gets dma_mem ;;
  let bits := h.[cur_host c + 2] in
  if (cur_cmd c <? DBDMA_Cmd.STOP) && test bits 3 && cond_bits (Z.land bits 3) 1 (wait_select c) (ch_stat c)
  then ret tt
  else
    let branch_taken := (cur_cmd c <? DBDMA_Cmd.STOP) && test bits 0xC &&
      cond_bits (Z.land bits 0xC) 4 (branch_select c) (Z.land (ch_stat c) (Z.lnot CH_STAT_BT)) in
    when (cur_cmd c <? DBDMA_Cmd.STOP) (upd_ch (clear_bits CH_STAT_BT)) ;;;
    when branch_taken (
      upd_ch (set_cmd_ptr (READ_DWORD_LE_A h (cur_host c + 8))) ;;;
      upd_ch (set_bits CH_STAT_BT)) ;;;
    update_cmd ;;;
    when ((cur_cmd c <? DBDMA_Cmd.STOP) && negb branch_taken)
      (upd_ch (fun c => set_cmd_ptr (u32 (cmd_ptr c + 16)) c)) ;;;
    when (cur_cmd c <? DBDMA_Cmd.STOP) (update_irq bits) ;;;
    upd_ch (set_cmd_in_progress false).

(* [devices/common/dbdma.cpp:532-545] *)
Definition finish_ended_cmd : M S unit :=
  c <- gets get_ch ;;
  if negb (xfer_ended c) then finish_cmd
  else
    let dev_stat := end_dev_stat c in
    upd_ch (set_xfer_ended false) ;;;
    upd_ch (set_end_dev_stat 0) ;;;
    upd_ch (set_bits dev_stat) ;;;
    finish_cmd ;;;
    upd_ch (clear_bits dev_stat).

(* [devices/common/dbdma.cpp:252-313] *)
Definition xfer_quad (is_store : bool) : M S unit :=
  c <- gets get_ch ;;
  h <- gets dma_mem ;;
  let addr := READ_DWORD_LE_A h (cur_host c + 4) in
  let count := READ_WORD_LE_A h (cur_host c) in
  let arg := READ_DWORD_LE_A h (cur_host c + 8) in
  let xfer_size := let n := Z.land count 7 in if test n 4 then 4 else if test n 2 then 2 else 1 in
  upd_ch (set_res_count count) ;;;
  let addr := if test addr (xfer_size - 1) then Z.land addr (not32 (xfer_size - 1)) else addr in
  res <- map_dma addr xfer_size true ;;
  (if is_store then
     if test (md_type res) RT.RT_MMIO then
       mmio_write (md_dev_obj res) (md_dev_base res) (u32 (addr - md_dev_base res)) (BYTESWAP_SIZED arg xfer_size) xfer_size
     else when (md_is_writable res) (upd_mem (
       match xfer_size with
       | 1 => fun h => h.[md_host_va res := u8 arg]
       | 2 => WRITE_WORD_LE_A (md_host_va res) arg
       | _ => WRITE_DWORD_LE_A (md_host_va res) arg
       end))
   else
     value <- (if test (md_type res) RT.RT_MMIO then
                 mmio_read (md_dev_obj res) (md_dev_base res) (u32 (addr - md_dev_base res)) xfer_size
               else gets (fun s =>
                 match xfer_size with
                 | 1 => (dma_mem s).[md_host_va res]
                 | 2 => READ_WORD_LE_A (dma_mem s) (md_host_va res)
                 | _ => READ_DWORD_LE_A (dma_mem s) (md_host_va res)
                 end)) ;;
     c <- gets get_ch ;;
     when (cur_is_writable c) (upd_mem (WRITE_DWORD_LE_A (cur_host c + 8) value))) ;;;
  c <- gets get_ch ;;
  h <- gets dma_mem ;;
  if test h.[cur_host c + 2] 0xC then abort_f else finish_cmd.

(** ** The interpreter *)

Section Interpret.
(** [interpret_until_blocked], called again from inside a command. *)
Variable self : M S (option unit).

(** What follows a device's part of a transfer. *)
Definition got (got_bytes : Z) (c : channel) : channel :=
  set_queue_len (u32 (queue_len c - got_bytes)) (set_res_count (u32 (res_count c - got_bytes))
    (set_queue_data (queue_data c + got_bytes) c)).

(* [devices/common/dbdma.cpp:492-510] *)
Definition xfer_from_device : M S (option unit) :=
  if negb dma_dev then ret (Some tt)
  else
    upd_ch (set_xfer_dir DMA_DIR_FROM_DEV) ;;;
    c <- gets get_ch ;;
    got_bytes <- dev_xfer_from (queue_data c) (queue_len c) ;;
    upd_ch (got got_bytes) ;;;
    c <- gets get_ch ;;
    when ((queue_len c =? 0) || xfer_ended c) finish_ended_cmd ;;;
    self.

(* [devices/common/dbdma.cpp:512-527] *)
Definition xfer_to_device : M S (option unit) :=
  if negb dma_dev then ret (Some tt)
  else
    upd_ch (set_xfer_dir DMA_DIR_TO_DEV) ;;;
    c <- gets get_ch ;;
    got_bytes <- dev_xfer_to (queue_data c) (queue_len c) ;;
    upd_ch (got got_bytes) ;;;
    c <- gets get_ch ;;
    when ((queue_len c =? 0) || xfer_ended c) finish_ended_cmd ;;;
    self.

(** Fetching the command at [cmd_ptr] and starting it. *)
(* [devices/common/dbdma.cpp:72-138 fetch_cmd] *)
Definition execute_cmd : M S (option unit) :=
  c <- gets get_ch ;;
  fetched <- fetch_cmd (cmd_ptr c) ;;
  let '(cmd_host, cmd, writable) := fetched in
  upd_ch (set_cur_is_writable writable) ;;;
  upd_ch (set_cur_host cmd_host) ;;;
  upd_ch (clear_bits CH_STAT_WAKE) ;;;
  let op := Z.shiftr (cmd_key cmd) 4 in
  upd_ch (set_cur_cmd op) ;;;
  if op <=? DBDMA_Cmd.INPUT_LAST then
    if negb (Z.land (cmd_key cmd) 7 =? 0) then ret (Some tt)
    else if negb (req_count cmd =? 0) then
      res <- map_dma (address cmd) (req_count cmd) false ;;
      upd_ch (set_queue_data (md_host_va res)) ;;;
      upd_ch (set_res_count (req_count cmd)) ;;;
      upd_ch (set_queue_len (req_count cmd)) ;;;
      upd_ch (set_cmd_in_progress true) ;;;
      if op <=? DBDMA_Cmd.OUTPUT_LAST then xfer_to_device else xfer_from_device
    else
      upd_ch (set_queue_len 0) ;;;
      upd_ch (set_res_count 0) ;;;
      finish_cmd ;;;
      ret (Some tt)
  else if op =? DBDMA_Cmd.STORE_QUAD then xfer_quad true ;;; ret (Some tt)
  else if op =? DBDMA_Cmd.LOAD_QUAD then xfer_quad false ;;; ret (Some tt)
  else if op =? DBDMA_Cmd.NOP then finish_cmd ;;; ret (Some tt)
  else if op =? DBDMA_Cmd.STOP then
    upd_ch (clear_bits CH_STAT_ACTIVE) ;;;
    upd_ch (set_cmd_in_progress false) ;;;
    finish_cmd ;;;
    ret (Some tt)
  else
    upd_ch (set_bits CH_STAT_DEAD) ;;;
    upd_ch (clear_bits CH_STAT_ACTIVE) ;;;
    ret (Some tt).

(* [devices/common/dbdma.cpp:58-138] *)
Definition interpret_cmd : M S (option unit) :=
  c <- gets get_ch ;;
  if cmd_in_progress c && negb (queue_len c =? 0) then ret (Some tt)
  else
    when (cmd_in_progress c) finish_cmd ;;;
    execute_cmd.

(** [n] commands may still be run before the channel counts as running away. *)
(* [devices/common/dbdma.cpp:159-177 cmds_run] *)
Fixpoint run_cmds (n : nat) : M S (option unit) :=
  c <- gets get_ch ;;
  if negb (is_active c) then ret (Some tt)
  else
    match n with
    | O =>
        upd_ch (set_bits CH_STAT_DEAD) ;;;
        upd_ch (clear_bits CH_STAT_ACTIVE) ;;;
        upd_ch (set_interpret_again false) ;;;
        ret (Some tt)
    | Datatypes.S n =>
        _ <-? interpret_cmd ;;
        c <- gets get_ch ;;
        if cmd_in_progress c then ret (Some tt) else run_cmds n
    end.
End Interpret.

(* [devices/common/dbdma.cpp:142-142] *)
Definition MAX_CMDS_PER_RUN : nat := Z.to_nat 65536.

(** The outer loop: passes while a nested call asked for another. *)
(* [devices/common/dbdma.cpp:156-179 interpret_again] *)
Fixpoint passes (self : M S (option unit)) (fuel : nat) : M S (option unit) :=
  match fuel with
  | O => ret None
  | Datatypes.S fuel =>
      upd_ch (set_interpret_again false) ;;;
      _ <-? run_cmds self MAX_CMDS_PER_RUN ;;
      c <- gets get_ch ;;
      if interpret_again c then passes self fuel else ret (Some tt)
  end.

(* [devices/common/dbdma.cpp:144-181] *)
Fixpoint interpret_until_blocked (depth fuel : nat) : M S (option unit) :=
  match depth with
  | O => ret None
  | Datatypes.S depth =>
      c <- gets get_ch ;;
      if in_interpret_loop c then
        upd_ch (set_interpret_again true) ;;;
        ret (Some tt)
      else
        upd_ch (set_in_interpret_loop true) ;;;
        _ <-? passes (interpret_until_blocked depth fuel) fuel ;;
        upd_ch (set_in_interpret_loop false) ;;;
        ret (Some tt)
  end.
(** ** The device's side

    The entry points run the interpreter with fuel [n]: its depth is 2, because a
    call from inside the loop returns at once. *)

Definition interpret (n : nat) : M S (option unit) := interpret_until_blocked 2 n.

(* [devices/common/dbdma.cpp:547-555] *)
Definition xfer_retry (n : nat) : M S (option unit) :=
  c <- gets get_ch ;;
  if xfer_dir c =? DMA_DIR_UNDEF then ret (Some tt)
  else if xfer_dir c =? DMA_DIR_FROM_DEV then xfer_from_device (interpret n)
  else xfer_to_device (interpret n).

(* [devices/common/dbdma.cpp:557-564] *)
Definition dma_is_ready (c : channel) : bool :=
  if negb (is_active c) || (xfer_dir c =? DMA_DIR_UNDEF) || (DBDMA_Cmd.NOP <=? cur_cmd c) then false else true.

(* [devices/common/dbdma.h:128-131] *)
Definition end_xfer (dev_stat : Z) : M S unit :=
  upd_ch (set_end_dev_stat dev_stat) ;;;
  upd_ch (set_xfer_ended true).

(* [devices/common/dbdma.h:133-136] *)
Definition is_last_xfer (c : channel) : bool :=
  (cur_cmd c =? DBDMA_Cmd.OUTPUT_LAST) || (cur_cmd c =? DBDMA_Cmd.INPUT_LAST).

(* [devices/common/dbdma.h:116-118] *)
Definition set_stat (new_stat : Z) : M S unit :=
  upd_ch (fun c => set_ch_stat (Z.lor (Z.land (ch_stat c) 0xff00) new_stat) c).

(* [devices/common/dbdma.h:120-122] *)
Definition update_ch_stat (mask new_val : Z) : M S unit :=
  upd_ch (fun c => set_ch_stat (Z.lor (Z.land (ch_stat c) (Z.lnot mask)) new_val) c).

(** [Some (p_data, avail_len)] is [MoreData], [None] is [NoMoreData]. *)
(* [devices/common/dbdma.cpp:566-600] *)
Definition pull_data (n : nat) (req_len : Z) : M S (option (option (Z * Z))) :=
  c <- gets get_ch ;;
  if negb (is_active c) then ret (Some None)
  else
    _ <-? interpret n ;;
    c <- gets get_ch ;;
    if negb (queue_len c =? 0) then
      if req_len <=? queue_len c then
        upd_ch (fun c => set_queue_len (queue_len c - req_len) (set_res_count (u32 (res_count c - req_len))
                           (set_queue_data (queue_data c + req_len) c))) ;;;
        ret (Some (Some (queue_data c, req_len)))
      else
        upd_ch (fun c => set_queue_len 0 (set_res_count (u32 (res_count c - queue_len c)) c)) ;;;
        ret (Some (Some (queue_data c, queue_len c)))
    else ret (Some None).

(** [false] is [NoData]. *)
(* [devices/common/dbdma.cpp:602-626] *)
Definition push_data (n : nat) (src : list Z) : M S (option bool) :=
  c <- gets get_ch ;;
  if negb (is_active c) then ret (Some false)
  else
    _ <-? interpret n ;;
    c <- gets get_ch ;;
    when (negb (queue_len c =? 0)) (
      let len := Z.min (queue_len c) (Z.of_nat (length src)) in
      upd_mem (memcpy (queue_data c) (take (Z.to_nat len) src)) ;;;
      upd_ch (got len)) ;;;
    c <- gets get_ch ;;
    _ <-? (if queue_len c =? 0 then interpret n else ret (Some tt)) ;;
    ret (Some true).

(** ** Starting and stopping *)

(* [devices/common/dbdma.cpp:645-664] *)
Definition start (n : nat) : M S (option unit) :=
  c <- gets get_ch ;;
  if test (ch_stat c) CH_STAT_PAUSE then
    upd_ch (clear_bits CH_STAT_ACTIVE) ;;;
    ret (Some tt)
  else
    upd_ch (set_queue_len 0) ;;;
    upd_ch (set_cmd_in_progress false) ;;;
    when dma_dev (dev_notify DMA_MSG_START) ;;;
    start_cb ;;;
    interpret n.

(* [devices/common/dbdma.cpp:666-676] *)
Definition resume (n : nat) : M S (option unit) :=
  c <- gets get_ch ;;
  if test (ch_stat c) CH_STAT_PAUSE then ret (Some tt) else interpret n.

(* [devices/common/dbdma.cpp:678-684] *)
Definition abort : M S unit :=
  when dma_dev (dev_notify DMA_MSG_STOP) ;;;
  stop_cb.

(* [devices/common/dbdma.cpp:686-693] *)
Definition pause : M S unit :=
  when dma_dev (dev_notify DMA_MSG_STOP) ;;;
  stop_cb ;;;
  upd_ch (set_is_paused true).

(** ** The registers *)

(* [devices/common/dbdma.cpp:342-373] *)
Definition reg_read (offset size : Z) (s : S) : Z :=
  let c := get_ch s in
  let reg := Z.land offset (not32 3) in
  let result :=
    if reg =? DMAReg.CH_CTRL then 0
    else if reg =? DMAReg.CH_STAT then ch_stat c
    else if reg =? DMAReg.CMD_PTR_LO then cmd_ptr c
    else if reg =? DMAReg.INT_SELECT then int_select c
    else if reg =? DMAReg.BRANCH_SELECT then branch_select c
    else if reg =? DMAReg.WAIT_SELECT then wait_select c
    else 0 in
  if test offset 3 || negb (size =? 4)
  then BYTESWAP_SIZED (Z.shiftr result (Z.land offset 3 * 8)) size
  else BYTESWAP_32 result.

(** The flush bit of ChannelControl. *)
(* [devices/common/dbdma.cpp:398-415 CH_STAT_FLUSH] *)
Definition write_flush (mask data : Z) : M S unit :=
  when (test mask CH_STAT_FLUSH) (
    c <- gets get_ch ;;
    when (test data CH_STAT_FLUSH &&
          (((cur_cmd c =? DBDMA_Cmd.INPUT_MORE) || (cur_cmd c =? DBDMA_Cmd.INPUT_LAST)) && is_active c)) (
      upd_ch (set_bits CH_STAT_FLUSH) ;;;
      when dma_dev (dev_notify DMA_MSG_FLUSH) ;;;
      update_cmd) ;;;
    upd_ch (clear_bits CH_STAT_FLUSH)).

(** The run bit of ChannelControl. *)
(* [devices/common/dbdma.cpp:417-441 CH_STAT_RUN] *)
Definition write_run (n : nat) (mask data : Z) : M S (option unit) :=
  if test data CH_STAT_RUN then
    if test mask CH_STAT_PAUSE && test data CH_STAT_PAUSE then abort_f
    else
      when (test mask CH_STAT_PAUSE) (upd_ch (clear_bits CH_STAT_PAUSE)) ;;;
      c <- gets get_ch ;;
      if negb (test (ch_stat c) CH_STAT_ACTIVE) then
        upd_ch (set_bits (Z.lor CH_STAT_ACTIVE CH_STAT_RUN)) ;;;
        start n
      else ret (Some tt)
  else
    c <- gets get_ch ;;
    when (test (ch_stat c) CH_STAT_ACTIVE) (
      abort ;;;
      bits <- gets (fun s => (dma_mem s).[cur_host (get_ch s) + 2]) ;;
      update_irq bits ;;;
      upd_ch (set_cmd_in_progress false)) ;;;
    upd_ch (clear_bits (Z.lor CH_STAT_RUN (Z.lor CH_STAT_ACTIVE CH_STAT_DEAD))) ;;;
    ret (Some tt).

(** The pause and wake bits. *)
(* [devices/common/dbdma.cpp:442-462 CH_STAT_PAUSE] *)
Definition write_pause_wake (n : nat) (mask data : Z) : M S (option unit) :=
  c <- gets get_ch ;;
  if test mask CH_STAT_PAUSE then
    if test data CH_STAT_PAUSE then
      when (test (ch_stat c) CH_STAT_ACTIVE) pause ;;;
      upd_ch (set_bits CH_STAT_PAUSE) ;;;
      upd_ch (clear_bits CH_STAT_ACTIVE) ;;;
      ret (Some tt)
    else
      upd_ch (clear_bits CH_STAT_PAUSE) ;;;
      c <- gets get_ch ;;
      if negb (test (ch_stat c) CH_STAT_ACTIVE) && is_paused c then
        upd_ch (set_is_paused false) ;;;
        upd_ch (set_bits CH_STAT_ACTIVE) ;;;
        resume n
      else ret (Some tt)
  else if test mask CH_STAT_WAKE && (test data CH_STAT_WAKE && negb (test (ch_stat c) CH_STAT_ACTIVE)) then
    upd_ch (set_bits CH_STAT_ACTIVE) ;;;
    resume n
  else ret (Some tt).

(* [devices/common/dbdma.cpp:375-490] *)
Definition reg_write (n : nat) (offset value size : Z) : M S (option unit) :=
  if negb (size =? 4) then abort_f
  else
    let value := BYTESWAP_32 value in
    if offset =? DMAReg.CH_CTRL then
      let mask := u16 (Z.shiftr value 16) in
      let data := Z.land value 0xFFFF in
      when (test mask 0xFF) (upd_ch (fun c =>
        set_ch_stat (Z.lor (Z.land (ch_stat c) (Z.lnot (Z.land mask 0xFF))) (Z.land (Z.land data mask) 0xFF)) c)) ;;;
      write_flush mask data ;;;
      if test mask CH_STAT_RUN then write_run n mask data else write_pause_wake n mask data
    else if offset =? DMAReg.CMD_PTR_LO then
      c <- gets get_ch ;;
      when (negb (test (ch_stat c) CH_STAT_ACTIVE)) (upd_ch (set_cmd_ptr value)) ;;;
      ret (Some tt)
    else if offset =? DMAReg.INT_SELECT then
      upd_ch (set_int_select (Z.land value 0xFF00FF)) ;;;
      ret (Some tt)
    else if offset =? DMAReg.BRANCH_SELECT then
      upd_ch (set_branch_select (Z.land value 0xFF00FF)) ;;;
      ret (Some tt)
    else if offset =? DMAReg.WAIT_SELECT then
      upd_ch (set_wait_select (Z.land value 0xFF00FF)) ;;;
      ret (Some tt)
    else ret (Some tt).
End Channel.
