(* ===== verification/DbdmaProps.v ===== *)
(** * A DMA channel as a stream (devices/common/dbdma.cpp)

    For a device that pulls its data, a channel whose program is a list of output
    commands is a queue of bytes: every pull returns the next bytes of the buffers, in
    order, none lost or repeated, and the end of the program ends the stream.  A wait
    condition, however, does not wait. *)
From S2P Require Import Prelude Word Timers MemCtrl HostMem Dbdma.
Import Endian.

(** The channel, memory and the timer manager are separate parts of the state. *)
Class DmaLaws (S CB : Type) `{DmaHost S} `{TimerHost S CB} := {
  ch_get_set : forall c s, get_ch (set_ch c s) = c;
  mc_get_set : forall m s, get_mc (set_mc m s) = m;
  ch_set_mc : forall m s, get_ch (set_mc m s) = get_ch s;
  mc_set_ch : forall c s, get_mc (set_ch c s) = get_mc s;
  ch_set_tm : forall t s, get_ch (set_tm t s) = get_ch s;
  mc_set_tm : forall t s, get_mc (set_tm t s) = get_mc s;
  ch_notify : forall s, get_ch (notify_timer_changes s) = get_ch s;
  mc_notify : forall s, get_mc (notify_timer_changes s) = get_mc s
}.

(** ** Running a routine

    [does k s a c m]: from [s], [k] returns [a] and leaves the channel [c] and the
    memory [m]. *)

Section Does.
Context {S CB : Type} `{HD : DmaHost S} `{HT : TimerHost S CB} `{HE : !DmaEnv S CB} `{HL : !DmaLaws S CB}.
Implicit Types (s : S) (c : channel).

Definition does {A} (k : M S A) s (a : A) c (m : MemCtrlBase) : Prop :=
  exists s', k s = (Ret a, s') /\ get_ch s' = c /\ get_mc s' = m.

Lemma does_ret {A} (a : A) s : does (ret a) s a (get_ch s) (get_mc s).
Proof. by exists s. Qed.

Lemma does_bind {A B} (k1 : M S A) (k2 : A -> M S B) s a c1 m1 b c2 m2 : does k1 s a c1 m1 ->
  (forall s1, get_ch s1 = c1 -> get_mc s1 = m1 -> does (k2 a) s1 b c2 m2) -> does (bind k1 k2) s b c2 m2.
Proof.
  intros (s1 & E1 & G1 & M1) Hk. destruct (Hk s1 G1 M1) as (s2 & E2 & G2 & M2).
  exists s2. unfold bind. by rewrite E1.
Qed.

Lemma does_run {A B} (k1 : M S A) (k2 : A -> M S B) s a s1 b c2 m2 : k1 s = (Ret a, s1) -> does (k2 a) s1 b c2 m2 ->
  does (bind k1 k2) s b c2 m2.
Proof. unfold does, bind. by intros ->. Qed.

Lemma does_gets {A B} (f : S -> A) (k : A -> M S B) s b c m : does (k (f s)) s b c m -> does (bind (gets f) k) s b c m.
Proof. done. Qed.

Lemma does_upd f s : does (upd_ch f) s tt (f (get_ch s)) (get_mc s).
Proof. eexists. split; [reflexivity|]. by rewrite ch_get_set, mc_set_ch. Qed.

Lemma does_mem f s : does (upd_mem f) s tt (get_ch s) (with_host (f (host_mem (get_mc s))) (get_mc s)).
Proof. eexists. split; [reflexivity|]. rewrite ch_set_mc, mc_get_set. done. Qed.

Lemma does_when (b : bool) (k : M S unit) s c m : (b = true -> does k s tt c m) -> (b = false -> c = get_ch s /\ m = get_mc s) ->
  does (when b k) s tt c m.
Proof. destruct b; intros H1 H2; [by apply H1 |]. destruct (H2 eq_refl) as [-> ->]. apply does_ret. Qed.

Lemma does_fuelled {A B} (k1 : M S (option A)) (k2 : A -> M S (option B)) s a c1 m1 b c2 m2 : does k1 s (Some a) c1 m1 ->
  (forall s1, get_ch s1 = c1 -> get_mc s1 = m1 -> does (k2 a) s1 b c2 m2) -> does (fuelled k1 k2) s b c2 m2.
Proof. intros H1 H2. by apply (does_bind _ _ _ (Some a) c1 m1). Qed.

(** Raising the interrupt only starts a timer. *)
Lemma does_upd_tm (f : TimerManager CB -> TimerManager CB) s : does (upd f) s tt (get_ch s) (get_mc s).
Proof. eexists. split; [reflexivity|]. by rewrite ch_set_tm, mc_set_tm. Qed.

Lemma does_update_irq bits s : does (update_irq bits) s tt (get_ch s) (get_mc s).
Proof.
  unfold update_irq. apply does_gets. apply does_when; [intros _|done]. cbv zeta. apply does_when; [intros _|done].
  apply does_gets. apply does_when; [intros _|done]. unfold add_immediate_timer, add_absolute_timer.
  eapply does_bind; [apply does_upd_tm|]. intros s1 G1 M1. eapply does_bind; [apply does_upd_tm|]. intros s2 G2 M2.
  rewrite <- G1, <- G2, <- M1, <- M2. apply does_gets. apply does_when; [intros _|done].
  eexists. split; [reflexivity|]. by rewrite ch_notify, mc_notify.
Qed.

(** ** The end of a command *)

(** Where [update_cmd] writes. *)
Definition status_mem c (h : gmap Z Z) : gmap Z Z :=
  if cur_is_writable c then
    let h := if cur_cmd c <? DBDMA_Cmd.STOP then WRITE_WORD_LE_A (cur_host c + 14) (Z.lor (ch_stat c) CH_STAT_ACTIVE) h else h in
    if cur_cmd c <? DBDMA_Cmd.NOP then WRITE_WORD_LE_A (cur_host c + 12) (res_count c) h else h
  else h.

Lemma does_update_cmd s : does update_cmd s tt (clear_bits (Z.lor CH_STAT_FLUSH CH_STAT_BT) (get_ch s))
  (with_host (status_mem (get_ch s) (host_mem (get_mc s))) (get_mc s)).
Proof.
  unfold update_cmd. apply does_gets.
  apply (does_bind _ _ _ tt (get_ch s) (with_host (status_mem (get_ch s) (host_mem (get_mc s))) (get_mc s))).
  2:{ intros s1 G1 M1. pose proof (does_upd (clear_bits (Z.lor CH_STAT_FLUSH CH_STAT_BT)) s1) as H. by rewrite G1, M1 in H. }
  unfold status_mem. apply does_when; intros ->.
  2:{ split; [done|]. by destruct (get_mc s). }
  set (h := host_mem (get_mc s)).
  apply (does_bind _ _ _ tt (get_ch s) (with_host (if cur_cmd (get_ch s) <? DBDMA_Cmd.STOP
    then WRITE_WORD_LE_A (cur_host (get_ch s) + 14) (Z.lor (ch_stat (get_ch s)) CH_STAT_ACTIVE) h else h) (get_mc s))).
  - apply does_when; intros ->; [apply does_mem|]. split; [done|]. unfold h. by destruct (get_mc s).
  - intros s1 G1 M1. cbv zeta. apply does_when; intros ->.
    + pose proof (does_mem (WRITE_WORD_LE_A (cur_host (get_ch s) + 12) (res_count (get_ch s))) s1) as Hm.
      by rewrite G1, M1 in Hm.
    + by rewrite G1, M1.
Qed.

(** A command that neither waits nor branches. *)
Definition finished c : channel :=
  set_cmd_in_progress false (set_cmd_ptr (u32 (cmd_ptr c + 16)) (clear_bits (Z.lor CH_STAT_FLUSH CH_STAT_BT) (clear_bits CH_STAT_BT c))).

Lemma no_cond bits : Z.land bits 0xF = 0 -> test bits 3 = false /\ test bits 0xC = false.
Proof.
  intros H. unfold test. change 3 with (Z.land 0xF 3). change 0xC with (Z.land 0xF 0xC). by rewrite !Z.land_assoc, H.
Qed.

Lemma does_then {B} (k1 : M S unit) (k2 : M S B) s c1 m1 b c2 m2 : does k1 s tt c1 m1 ->
  (forall s1, get_ch s1 = c1 -> get_mc s1 = m1 -> does k2 s1 b c2 m2) -> does (k1 ;;; k2) s b c2 m2.
Proof. intros H1 H2. by apply (does_bind _ _ _ tt c1 m1). Qed.

Lemma does_finish s : let c := get_ch s in let h := host_mem (get_mc s) in
  cur_cmd c < DBDMA_Cmd.STOP -> Z.land h.[cur_host c + 2] 0xF = 0 ->
  does finish_cmd s tt (finished c) (with_host (status_mem (clear_bits CH_STAT_BT c) h) (get_mc s)).
Proof.
  intros c h Hc Hb. destruct (no_cond _ Hb) as [B3 BC]. unfold finish_cmd. apply does_gets, does_gets.
  fold c. change (dma_mem s) with h. rewrite B3, BC, (proj2 (Z.ltb_lt _ _) Hc). cbv zeta. cbn [andb negb when].
  eapply does_then; [apply does_upd|]. intros s1 G1 M1. fold c in G1. eapply does_then; [apply does_ret|]. intros s2 G2 M2.
  rewrite G1 in G2. rewrite M1 in M2.
  eapply does_then; [apply does_update_cmd|]. intros s3 G3 M3. rewrite G2 in G3. rewrite G2, M2 in M3. fold h in M3.
  eapply does_then; [apply does_upd|]. intros s4 G4 M4. rewrite G3 in G4. rewrite M3 in M4.
  eapply does_then; [apply does_update_irq|]. intros s5 G5 M5. rewrite G4 in G5. rewrite M4 in M5.
  pose proof (does_upd (set_cmd_in_progress false) s5) as H. by rewrite G5, M5 in H.
Qed.

Definition stopped c : channel := set_cmd_in_progress false (clear_bits (Z.lor CH_STAT_FLUSH CH_STAT_BT) c).

Lemma with_host_id (m : MemCtrlBase) : with_host (host_mem m) m = m.
Proof. by destruct m. Qed.

Lemma does_finish_stop s : let c := get_ch s in cur_cmd c = DBDMA_Cmd.STOP -> does finish_cmd s tt (stopped c) (get_mc s).
Proof.
  intros c Hc. unfold finish_cmd. apply does_gets, does_gets. fold c. rewrite Hc. change (DBDMA_Cmd.STOP <? DBDMA_Cmd.STOP) with false.
  cbv zeta. cbn [andb when].
  do 2 (eapply does_then; [apply does_ret|]; intros ?s ?G ?M). rewrite G in G0. rewrite M in M0. fold c in G0.
  eapply does_then; [apply does_update_cmd|]. intros s3 G3 M3. rewrite G0 in G3. rewrite G0, M0 in M3.
  assert (status_mem c (host_mem (get_mc s)) = host_mem (get_mc s)) as E.
  { unfold status_mem. rewrite Hc. by destruct (cur_is_writable c). }
  rewrite E, with_host_id in M3.
  do 2 (eapply does_then; [apply does_ret|]; intros ?s ?G ?M). rewrite G1, G3 in G2. rewrite M1, M3 in M2.
  pose proof (does_upd (set_cmd_in_progress false) s4) as H. by rewrite G2, M2 in H.
Qed.

(** ** Fetching *)

Definition mapped (m : MemCtrlBase) (addr size va : Z) : Prop :=
  exists r, mmu_map_dma_mem addr size false false false m = Some r /\ md_host_va r = va.

Lemma does_map s addr size va : mapped (get_mc s) addr size va ->
  exists r, md_host_va r = va /\ does (map_dma addr size false) s r (get_ch s) (get_mc s).
Proof. intros (r & E & Hr). exists r. split; [done|]. exists s. unfold map_dma. by rewrite E. Qed.

Lemma does_fetch s addr va : mapped (get_mc s) addr 16 va ->
  exists w, does (fetch_cmd addr) s (va, read_cmd (host_mem (get_mc s)) va, w) (get_ch s) (get_mc s).
Proof.
  intros Hm. destruct (does_map s addr 16 va Hm) as (r & <- & Hr). exists (md_is_writable r). unfold fetch_cmd.
  eapply does_bind; [apply Hr|]. intros s1 G1 M1. rewrite <- G1, <- M1. apply does_gets, does_ret.
Qed.
End Does.

(** ** Programs *)

(** An output command at guest address [ptr], host address [va]: a buffer of [len]
    bytes at host address [buf], no wait, no branch. *)
Definition output_cmd (m : MemCtrlBase) (ptr va buf len : Z) : Prop :=
  let cmd := read_cmd (host_mem m) va in
  mapped m ptr 16 va /\ (cmd_key cmd = 0 \/ cmd_key cmd = 16) /\ Z.land (cmd_bits cmd) 0xF = 0 /\
  req_count cmd = len /\ 0 < len < 2 ^ 16 /\ mapped m (address cmd) len buf.

(** Output commands one after the other, then a stop. *)
Fixpoint program (m : MemCtrlBase) (ptr va : Z) (bufs : list (Z * Z)) : Prop :=
  match bufs with
  | [] => mapped m ptr 16 va /\ Z.shiftr (cmd_key (read_cmd (host_mem m) va)) 4 = DBDMA_Cmd.STOP
  | (buf, len) :: bufs => output_cmd m ptr va buf len /\ program m (u32 (ptr + 16)) (va + 16) bufs
  end.

(** The buffers avoid the commands, [n] of them from [lo]. *)
Definition avoids (lo n : Z) (b : Z * Z) : Prop := b.1 + b.2 <= lo \/ lo + 16 * n <= b.1.

Definition buffer (h : gmap Z Z) (b : Z * Z) : list Z := bytes_at h b.1 (Z.to_nat b.2).
Definition contents (h : gmap Z Z) (bufs : list (Z * Z)) : list Z := concat (map (buffer h) bufs).

(** Two memories that differ at most in the status words of the command at [va]. *)
Definition status_only (va : Z) (h h' : gmap Z Z) : Prop := forall x, x < va + 12 \/ va + 16 <= x -> h'.[x] = h.[x].

Lemma write_word_frame a v (h : gmap Z Z) x : x < a \/ a + 2 <= x -> (WRITE_WORD_LE_A a v h).[x] = h.[x].
Proof. intros Hx. unfold WRITE_WORD_LE_A, WRITE_WORD_LE_U. by rewrite !rget_rset_ne by lia. Qed.

Lemma status_mem_only c h : status_only (cur_host c) h (status_mem c h).
Proof.
  intros x Hx. unfold status_mem. destruct (cur_is_writable c); [|done].
  destruct (cur_cmd c <? _), (cur_cmd c <? _); rewrite ?write_word_frame by lia; done.
Qed.

(** The status words aside, a command is its first twelve bytes. *)
Lemma read_cmd_same (h h' : gmap Z Z) va : (forall x, va <= x < va + 12 -> h'.[x] = h.[x]) ->
  let a := read_cmd h va in let b := read_cmd h' va in
  req_count b = req_count a /\ cmd_bits b = cmd_bits a /\ cmd_key b = cmd_key a /\ address b = address a.
Proof.
  intros Hx. cbn. unfold READ_WORD_LE_A, READ_DWORD_LE_A, READ_WORD_LE_U, READ_DWORD_LE_U. by rewrite !Hx by lia.
Qed.

Lemma mapped_with_host h m addr size va : mapped m addr size va -> mapped (with_host h m) addr size va.
Proof. done. Qed.

Lemma program_same bufs : forall m h' ptr va lo, lo + 16 <= va -> status_only lo (host_mem m) h' ->
  program m ptr va bufs -> program (with_host h' m) ptr va bufs.
Proof.
  induction bufs as [|[buf len] bufs IH]; intros m h' ptr va lo Hlo Hh; cbn [program].
  all: destruct (read_cmd_same (host_mem m) h' va) as (E1&E2&E3&E4); [intros; apply Hh; lia|].
  - intros [Hm Hk]. cbn [host_mem with_host]. rewrite E3. split; [by apply mapped_with_host | done].
  - intros [(Hm&Hk&Hb&Hr&Hl&Ha) Hp]. split; [|apply (IH m h' _ _ lo); [lia|done|done]].
    unfold output_cmd. cbn [host_mem with_host]. rewrite E1, E2, E3, E4. split_and!; try done; lia.
Qed.

Lemma buffer_same (h h' : gmap Z Z) lo n b : 1 <= n -> status_only lo h h' -> avoids lo n b -> buffer h' b = buffer h b.
Proof.
  intros Hn Hh Ha. unfold buffer, bytes_at. apply map_ext_in. intros i Hi. apply in_map_iff in Hi as (k & <- & Hk%in_seq).
  apply Hh. destruct Ha; [left|right]; lia.
Qed.

Lemma contents_same (h h' : gmap Z Z) lo n bufs : 1 <= n -> status_only lo h h' -> Forall (avoids lo n) bufs -> contents h' bufs = contents h bufs.
Proof.
  intros Hn Hh Hf. unfold contents. f_equal. apply map_ext_in. intros b Hb. eapply buffer_same; [exact Hn | exact Hh |].
  rewrite List.Forall_forall in Hf. by apply Hf.
Qed.

Lemma avoids_next lo n bufs : Forall (avoids lo (n + 1)) bufs -> Forall (avoids (lo + 16) n) bufs.
Proof. apply Forall_impl. intros b [H|H]; [left|right]; lia. Qed.

(** ** Commands of a channel without a device of its own *)

Definition begun (op va : Z) (w : bool) (c : channel) : channel :=
  set_cur_cmd op (clear_bits CH_STAT_WAKE (set_cur_host va (set_cur_is_writable w c))).
Definition queued (buf len : Z) (c : channel) : channel :=
  set_cmd_in_progress true (set_queue_len len (set_res_count len (set_queue_data buf c))).

Lemma active_bits c : is_active c = Z.testbit (ch_stat c) 10 && negb (Z.testbit (ch_stat c) 11).
Proof.
  unfold is_active. rewrite <- (test_pow2 (ch_stat c) 10), <- (test_pow2 (ch_stat c) 11) by lia.
  change (2 ^ 10) with CH_STAT_ACTIVE. change (2 ^ 11) with CH_STAT_DEAD. by destruct (test _ _), (test _ _).
Qed.
Lemma active_clear mask c : Z.testbit mask 10 = false -> Z.testbit mask 11 = false -> is_active (clear_bits mask c) = is_active c.
Proof. intros H1 H2. rewrite !active_bits. unfold clear_bits. cbn [ch_stat set_ch_stat]. by rewrite !Z.land_spec, !Z.lnot_spec, H1, H2, !andb_true_r by lia. Qed.

(** The stream a channel still has to deliver: the rest of the buffer it is in, and
    the buffers of the commands to come. *)
Inductive feeding (c : channel) (m : MemCtrlBase) : list Z -> Prop :=
| feeding_next va bufs : is_active c = true -> cmd_in_progress c = false -> queue_len c = 0 ->
    program m (cmd_ptr c) va bufs -> Forall (avoids va (Z.of_nat (length bufs) + 1)) bufs ->
    feeding c m (contents (host_mem m) bufs)
| feeding_queue bufs : is_active c = true -> cmd_in_progress c = true -> 0 <= queue_len c < 2 ^ 32 ->
    cur_cmd c = 0 \/ cur_cmd c = 1 -> Z.land (host_mem m).[cur_host c + 2] 0xF = 0 ->
    program m (u32 (cmd_ptr c + 16)) (cur_host c + 16) bufs -> Forall (avoids (cur_host c) (Z.of_nat (length bufs) + 2)) bufs ->
    feeding c m (buffer (host_mem m) (queue_data c, queue_len c) ++ contents (host_mem m) bufs).

(** In the middle of a buffer. *)
Definition filled (c : channel) : Prop := cmd_in_progress c = true /\ 0 < queue_len c.
(** At the end of the program. *)
Definition ended (c : channel) : Prop := is_active c = false /\ cmd_in_progress c = false /\ queue_len c = 0.

Lemma feeding_active c m rem : feeding c m rem -> is_active c = true.
Proof. by destruct 1. Qed.

(** The two flags of the loop do not matter. *)
Definition flags_only (c c' : channel) : Prop :=
  exists l a, c' = set_in_interpret_loop l (set_interpret_again a c).
Lemma feeding_flags c c' m rem : flags_only c c' -> feeding c m rem -> feeding c' m rem.
Proof. intros (l & a & ->) [va bufs|bufs]; [by eapply feeding_next | by apply (feeding_queue (set_in_interpret_loop l (set_interpret_again a c)))]. Qed.

(** Running the next assignment to the channel. *)
Ltac assign :=
  eapply does_then; [apply does_upd|];
  let s := fresh "s" in let G := fresh "G" in let M := fresh "M" in
  intros s G M;
  match type of G with _ = ?r => match r with context [get_ch ?a] =>
    try match goal with H : get_ch a = _, H' : get_mc a = _ |- _ => rewrite H in G; rewrite H' in M end end end.
(** Returning. *)
Ltac finish_does :=
  match goal with |- does (ret ?a) ?x _ _ _ =>
    let H := fresh in pose proof (does_ret a x) as H;
    match goal with G : get_ch x = _, M : get_mc x = _ |- _ => rewrite G, M in H; exact H end end.
(** Fetching the command at [cmd_ptr]. *)
Ltac fetch Hm :=
  let w := fresh "w" in let Hf := fresh "Hf" in
  destruct (does_fetch _ _ _ Hm) as (w & Hf); exists w; unfold execute_cmd; apply does_gets;
  eapply does_bind; [exact Hf|];
  let s := fresh "s" in let G := fresh "G" in let M := fresh "M" in
  intros s G M; do 3 assign; cbv zeta; assign.

Section Pulled.
Context {S CB : Type} `{HD : DmaHost S} `{HT : TimerHost S CB} `{HE : !DmaEnv S CB} `{HL : !DmaLaws S CB}.
Implicit Types (s : S) (c : channel).
Hypothesis no_device : dma_dev (S := S) (CB := CB) = false.

Lemma exec_output self s va buf len : output_cmd (get_mc s) (cmd_ptr (get_ch s)) va buf len ->
  exists op w, (op = 0 \/ op = 1) /\ does (execute_cmd self) s (Some tt) (queued buf len (begun op va w (get_ch s))) (get_mc s).
Proof.
  intros (Hm & Hkey & Hb & Hr & Hl & Ha). set (cmd := read_cmd (host_mem (get_mc s)) va) in *.
  assert (Z.shiftr (cmd_key cmd) 4 = 0 \/ Z.shiftr (cmd_key cmd) 4 = 1) as Hop by (destruct Hkey as [-> | ->]; auto).
  assert (Z.land (cmd_key cmd) 7 = 0) as H7 by (by destruct Hkey as [-> | ->]).
  exists (Z.shiftr (cmd_key cmd) 4). cut (exists w, does (execute_cmd self) s (Some tt) (queued buf len (begun (Z.shiftr (cmd_key cmd) 4) va w (get_ch s))) (get_mc s)).
  { intros (w & Hw). by exists w. }
  fetch Hm. fold cmd. fold cmd in G3.
  rewrite (proj2 (Z.leb_le _ _)) by (unfold DBDMA_Cmd.INPUT_LAST; lia). rewrite H7. cbn [Z.eqb negb]. rewrite Hr.
  rewrite (proj2 (Z.eqb_neq len 0)) by lia. cbn [negb].
  rewrite <- M3 in Ha. destruct (does_map _ _ _ _ Ha) as (r & Er & Hmap).
  eapply does_bind; [exact Hmap|]. intros s5 G5 M5. rewrite G3 in G5. rewrite M3 in M5. rewrite Er. do 4 assign.
  rewrite (proj2 (Z.leb_le _ _)) by (unfold DBDMA_Cmd.OUTPUT_LAST; lia). unfold xfer_to_device. rewrite no_device. cbn [negb].
  finish_does.
Qed.

Lemma exec_stop self s va : mapped (get_mc s) (cmd_ptr (get_ch s)) 16 va ->
  Z.shiftr (cmd_key (read_cmd (host_mem (get_mc s)) va)) 4 = DBDMA_Cmd.STOP ->
  exists w, does (execute_cmd self) s (Some tt)
    (stopped (set_cmd_in_progress false (clear_bits CH_STAT_ACTIVE (begun DBDMA_Cmd.STOP va w (get_ch s))))) (get_mc s).
Proof.
  intros Hm Hk. fetch Hm. rewrite Hk in *. cbn [Z.leb Z.eqb Z.compare Pos.compare Pos.compare_cont Pos.eqb DBDMA_Cmd.STOP DBDMA_Cmd.INPUT_LAST DBDMA_Cmd.STORE_QUAD DBDMA_Cmd.LOAD_QUAD DBDMA_Cmd.NOP].
  do 2 assign. eapply does_then; [apply does_finish_stop; by rewrite G5|]. intros s7 G7 M7.
  rewrite G5 in G7. rewrite M5 in M7. finish_does.
Qed.

(** The next command of a program. *)
Lemma exec_next self s va bufs : is_active (get_ch s) = true -> cmd_in_progress (get_ch s) = false -> queue_len (get_ch s) = 0 ->
  program (get_mc s) (cmd_ptr (get_ch s)) va bufs -> Forall (avoids va (Z.of_nat (length bufs) + 1)) bufs ->
  exists c', does (execute_cmd self) s (Some tt) c' (get_mc s) /\
    in_interpret_loop c' = in_interpret_loop (get_ch s) /\ interpret_again c' = interpret_again (get_ch s) /\
    ((contents (host_mem (get_mc s)) bufs = [] /\ ended c') \/ (feeding c' (get_mc s) (contents (host_mem (get_mc s)) bufs) /\ filled c')).
Proof.
  intros Ha Hp Hq Hprog Hav. destruct bufs as [|[buf len] bufs]; cbn [program] in Hprog.
  - destruct Hprog as [Hm Hk]. destruct (exec_stop self s va Hm Hk) as (w & Hw). eexists. split; [exact Hw|].
    split; [done|]. split; [done|]. left. split; [done|]. split; [|split; [done|exact Hq]].
    rewrite active_bits. unfold stopped, clear_bits. cbn [ch_stat set_cmd_in_progress set_ch_stat].
    rewrite !Z.land_spec. change (Z.testbit (Z.lnot CH_STAT_ACTIVE) 10) with false. by rewrite andb_false_r.
  - destruct Hprog as [Ho Hrest]. destruct (exec_output self s va buf len Ho) as (op & w & Hop & Hw).
    destruct Ho as (_ & _ & Hb & Hr & Hl & _). eexists. split; [exact Hw|]. split; [done|]. split; [done|]. right.
    apply Forall_cons_1 in Hav as [_ Hav].
    split; [|split; [done | cbn; lia]]. refine (feeding_queue (queued buf len (begun op va w (get_ch s))) (get_mc s) bufs _ eq_refl _ Hop Hb Hrest _).
    + change (is_active (queued buf len (begun op va w (get_ch s)))) with (is_active (clear_bits CH_STAT_WAKE (get_ch s))).
      by rewrite active_clear.
    + cbn. lia.
    + cbn [length] in Hav. rewrite Nat2Z.inj_succ in Hav. cbn [cur_host queued begun set_cur_cmd set_cur_host set_cmd_in_progress].
      eapply Forall_impl; [|exact Hav]. intros b. cbn. unfold avoids. lia.
Qed.

(** A step of the interpreter. *)
Lemma interpret_step self s rem : feeding (get_ch s) (get_mc s) rem ->
  exists c' m', does (interpret_cmd self) s (Some tt) c' m' /\
    in_interpret_loop c' = in_interpret_loop (get_ch s) /\ interpret_again c' = interpret_again (get_ch s) /\
    ((rem = [] /\ ended c') \/ (feeding c' m' rem /\ filled c')).
Proof.
  intros Hf. unfold interpret_cmd. pose proof Hf as Hf0. destruct Hf as [va bufs Ha Hp Hq Hprog Hav | bufs Ha Hp Hq Hc Hb Hprog Hav].
  - destruct (exec_next self s va bufs Ha Hp Hq Hprog Hav) as (c' & Hw & Hr). exists c', (get_mc s).
    split; [|exact Hr]. apply does_gets. rewrite Hp. cbn [andb when]. exact Hw.
  - destruct (Z.eqb_spec (queue_len (get_ch s)) 0) as [Hz|Hz].
    2:{ exists (get_ch s), (get_mc s). split.
        - apply does_gets. rewrite Hp. rewrite (proj2 (Z.eqb_neq _ _) Hz). apply does_ret.
        - split; [done|]. split; [done|]. right. split; [done|]. split; [done | lia]. }
    assert (cur_cmd (get_ch s) < DBDMA_Cmd.STOP) as Hcc by (unfold DBDMA_Cmd.STOP; lia).
    destruct (does_finish s Hcc Hb) as (s1 & E1 & G1 & M1).
    set (c := get_ch s) in *. set (h' := status_mem (clear_bits CH_STAT_BT c) (host_mem (get_mc s))) in *.
    assert (status_only (cur_host c) (host_mem (get_mc s)) h') as Hso by apply (status_mem_only (clear_bits CH_STAT_BT c)).
    assert (program (get_mc s1) (cmd_ptr (get_ch s1)) (cur_host c + 16) bufs) as Hprog1.
    { rewrite M1, G1. cbn. apply (program_same bufs _ _ _ _ (cur_host c)); [lia | done | done]. }
    assert (Forall (avoids (cur_host c + 16) (Z.of_nat (length bufs) + 1)) bufs) as Hav1.
    { apply avoids_next. eapply Forall_impl; [|exact Hav]. intros b. unfold avoids. lia. }
    assert (is_active (get_ch s1) = true) as Ha1.
    { rewrite G1. unfold finished. change (is_active (clear_bits (Z.lor CH_STAT_FLUSH CH_STAT_BT) (clear_bits CH_STAT_BT c)) = true).
      by rewrite !active_clear. }
    destruct (exec_next self s1 (cur_host c + 16) bufs Ha1) as (c' & Hw & H1 & H2 & H3); try done; [by rewrite G1..|].
    exists c', (get_mc s1). rewrite G1 in H1, H2. split; [|split; [exact H1|split; [exact H2|]]].
    + apply does_gets. fold c. rewrite Hp, Hz. cbn [andb negb Z.eqb when]. by apply (does_run _ _ _ tt s1).
    + assert (contents (host_mem (get_mc s1)) bufs = contents (host_mem (get_mc s)) bufs) as Ec.
      { rewrite M1. apply (contents_same _ _ (cur_host c) (Z.of_nat (length bufs) + 2)); [lia | done | done]. }
      rewrite Ec in H3. fold c. unfold buffer. cbn [fst snd]. rewrite Hz. exact H3.
Qed.

(** A pass of the interpreter runs at most two commands of such a program. *)
Lemma run_feeding self n s rem : feeding (get_ch s) (get_mc s) rem ->
  exists c' m', does (run_cmds self (2 + n)) s (Some tt) c' m' /\
    in_interpret_loop c' = in_interpret_loop (get_ch s) /\ interpret_again c' = interpret_again (get_ch s) /\
    ((rem = [] /\ ended c') \/ (feeding c' m' rem /\ filled c')).
Proof.
  intros Hf. destruct (interpret_step self s rem Hf) as (c' & m' & Hd & H1 & H2 & H3). exists c', m'.
  split; [|by split_and!]. cbn [run_cmds Nat.add]. apply does_gets. rewrite (feeding_active _ _ _ Hf). cbn [negb].
  eapply does_fuelled; [exact Hd|]. intros s1 G1 M1. apply does_gets. rewrite G1.
  destruct H3 as [(_ & Ha & Hp & _)|(_ & Hp & _)]; rewrite Hp; cbv iota; [|by rewrite <- G1, <- M1; apply does_ret].
  apply does_gets. rewrite G1, Ha. cbn [negb]. rewrite <- G1, <- M1. apply does_ret.
Qed.

Lemma max_cmds : MAX_CMDS_PER_RUN = (2 + Z.to_nat 65534)%nat.
Proof. unfold MAX_CMDS_PER_RUN. lia. Qed.

Lemma interpret_feeding n s rem : in_interpret_loop (get_ch s) = false -> feeding (get_ch s) (get_mc s) rem ->
  exists c' m', does (interpret (1 + n)) s (Some tt) c' m' /\ in_interpret_loop c' = false /\
    ((rem = [] /\ ended c') \/ (feeding c' m' rem /\ filled c')).
Proof.
  intros Hl Hf. unfold interpret. set (self := interpret_until_blocked 1 (1 + n)).
  set (c1 := set_interpret_again false (set_in_interpret_loop true (get_ch s))).
  set (s1 := set_ch c1 (set_ch (set_in_interpret_loop true (get_ch s)) s)).
  assert (get_ch s1 = c1) as G1 by apply ch_get_set. assert (get_mc s1 = get_mc s) as M1 by (unfold s1; by rewrite !mc_set_ch).
  assert (feeding (get_ch s1) (get_mc s1) rem) as Hf1.
  { rewrite G1, M1. eapply feeding_flags; [|exact Hf]. exists true, false. unfold c1. by destruct (get_ch s). }
  destruct (run_feeding self (Z.to_nat 65534) s1 rem Hf1) as (c' & m' & Hd & H1 & H2 & H3). rewrite <- max_cmds in Hd. rewrite G1 in H2.
  exists (set_in_interpret_loop false c'), m'. split; [|split; [done|]].
  - change (interpret_until_blocked 2 (1 + n)) with (c <- gets get_ch ;;
      if in_interpret_loop c then upd_ch (set_interpret_again true) ;;; ret (Some tt)
      else upd_ch (set_in_interpret_loop true) ;;; _ <-? passes self (1 + n) ;; upd_ch (set_in_interpret_loop false) ;;; ret (Some tt)).
    apply does_gets. rewrite Hl. apply (does_run _ _ _ tt (set_ch (set_in_interpret_loop true (get_ch s)) s)); [done|].
    apply (does_fuelled _ _ _ tt c' m').
    + cbn [passes Nat.add]. apply (does_run _ _ _ tt s1); [unfold upd_ch, modify, s1; by rewrite ch_get_set|].
      eapply does_fuelled; [exact Hd|]. intros s2 G2 M2. apply does_gets. rewrite G2, H2. change (interpret_again c1) with false. cbv iota. finish_does.
    + intros s2 G2 M2. assign. finish_does.
  - destruct H3 as [(He & Ha & Hp)|(Hf' & Hp & Hq)]; [left | right].
    + split; [done|]. split; [exact Ha | exact Hp].
    + split; [|by split]. eapply feeding_flags; [|exact Hf']. exists false, (interpret_again c'). by destruct c'.
Qed.

Lemma bytes_at_snoc (h : gmap Z Z) a n : bytes_at h a (Datatypes.S n) = bytes_at h a n ++ [h.[a + Z.of_nat n]].
Proof. unfold bytes_at, zrange. by rewrite seq_S, !map_app. Qed.

Lemma bytes_at_add (h : gmap Z Z) a k d : bytes_at h a (k + d) = bytes_at h a k ++ bytes_at h (a + Z.of_nat k) d.
Proof.
  induction d as [|d IH]; [by rewrite Nat.add_0_r, app_nil_r|].
  rewrite Nat.add_succ_r, !bytes_at_snoc, IH, <- app_assoc. do 3 f_equal. f_equal. lia.
Qed.

Lemma bytes_at_split (h : gmap Z Z) a k n : (k <= n)%nat -> bytes_at h a n = bytes_at h a k ++ bytes_at h (a + Z.of_nat k) (n - k).
Proof. intros Hk. rewrite <- bytes_at_add. f_equal. lia. Qed.

(** What is still to come, also after the end. *)
Definition streaming s (rem : list Z) : Prop :=
  in_interpret_loop (get_ch s) = false /\ (feeding (get_ch s) (get_mc s) rem \/ (rem = [] /\ ended (get_ch s))).

Lemma take_pulled c m rem len : feeding c m rem -> filled c -> 0 <= len <= queue_len c ->
  take (Z.to_nat len) rem = bytes_at (host_mem m) (queue_data c) (Z.to_nat len) /\
  forall q r, (queue_len c - len = 0 \/ q = queue_data c + len) ->
    feeding (set_queue_len (queue_len c - len) (set_res_count r (set_queue_data q c))) m (drop (Z.to_nat len) rem).
Proof.
  intros Hf [Hp Hq] Hl. destruct Hf as [va bufs ? Hp'|bufs Ha _ Hr Hc Hb Hprog Hav]; [congruence|].
  unfold buffer. cbn [fst snd]. rewrite (bytes_at_split _ _ (Z.to_nat len) (Z.to_nat (queue_len c))) by lia.
  assert (length (bytes_at (host_mem m) (queue_data c) (Z.to_nat len)) = Z.to_nat len) as El by apply bytes_at_length.
  rewrite <- app_assoc. split; [by rewrite take_app_length'|]. intros q r Hqr. rewrite drop_app_length' by done.
  set (c' := set_queue_len _ _).
  assert (bytes_at (host_mem m) (queue_data c + Z.of_nat (Z.to_nat len)) (Z.to_nat (queue_len c) - Z.to_nat len) =
          buffer (host_mem m) (queue_data c', queue_len c')) as ->.
  { unfold buffer, c'. cbn [fst snd queue_data queue_len set_queue_len set_res_count set_queue_data].
    replace (Z.to_nat (queue_len c) - Z.to_nat len)%nat with (Z.to_nat (queue_len c - len)) by lia.
    destruct Hqr as [-> | ->]; [done|]. by rewrite Z2Nat.id by lia. }
  apply (feeding_queue c'); try done. unfold c'. cbn. lia.
Qed.

(** One pull. *)
Lemma pull_step n req s rem : streaming s rem -> 0 < req -> exists r s', pull_data (1 + n) req s = (Ret (Some r), s') /\
  match r with
  | None => rem = [] /\ ended (get_ch s') /\ streaming s' []
  | Some (p, len) => 0 < len <= req /\ (Z.to_nat len <= length rem)%nat /\
      bytes_at (dma_mem s') p (Z.to_nat len) = take (Z.to_nat len) rem /\ streaming s' (drop (Z.to_nat len) rem)
  end.
Proof.
  intros [Hl [Hf|[-> He]]] Hreq; unfold pull_data.
  2:{ exists None, s. rewrite bind_gets. rewrite (proj1 He). split; [done|]. split; [done|]. split; [done|]. split; [done|]. by right. }
  rewrite bind_gets, (feeding_active _ _ _ Hf). cbn [negb].
  destruct (interpret_feeding n s rem Hl Hf) as (c' & m' & (s1 & E1 & G1 & M1) & Hl' & Hcase).
  unfold fuelled. rewrite (bind_ret _ _ _ _ _ E1), bind_gets, G1.
  destruct Hcase as [[-> He]|[Hf' Hfill]].
  - exists None, s1. pose proof He as (_ & _ & Hq). rewrite Hq. split; [done|]. rewrite G1. split; [done|]. split; [done|].
    split; [by rewrite G1 | right; by rewrite G1].
  - pose proof Hfill as [_ Hq]. rewrite (proj2 (Z.eqb_neq (queue_len c') 0)) by lia. cbn [negb].
    assert (forall len, 0 <= len <= queue_len c' -> (Z.to_nat len <= length rem)%nat) as Hlen.
    { intros len Hb. destruct Hf' as [? ? ? Hp'|bufs]; [by destruct Hfill; congruence|]. rewrite length_app.
      unfold buffer. cbn [fst snd]. rewrite bytes_at_length. lia. }
    destruct (Z.leb_spec req (queue_len c')) as [Hle|Hgt].
    + destruct (take_pulled c' m' rem req Hf' Hfill ltac:(lia)) as [Ht Hd].
      eexists (Some (queue_data c', req)), _. split; [reflexivity|]. split; [lia|]. split; [apply Hlen; lia|].
      unfold streaming, dma_mem. rewrite ch_get_set, mc_set_ch, M1, G1. split; [done|]. split; [exact Hl'|]. left.
      apply (Hd (queue_data c' + req)). by right.
    + destruct (take_pulled c' m' rem (queue_len c') Hf' Hfill ltac:(lia)) as [Ht Hd].
      eexists (Some (queue_data c', queue_len c')), _. split; [reflexivity|]. split; [lia|]. split; [apply Hlen; lia|].
      unfold streaming, dma_mem. rewrite ch_get_set, mc_set_ch, M1, G1. split; [done|]. split; [exact Hl'|]. left.
      specialize (Hd (queue_data c') (u32 (res_count c' - queue_len c')) ltac:(left; lia)). rewrite Z.sub_diag in Hd.
      by destruct c'.
Qed.

(** A device pulling until there is no more data. *)
Fixpoint pull_all (k n : nat) (req : Z) : M S (option (list Z)) :=
  match k with
  | O => ret None
  | Datatypes.S k =>
      r <-? pull_data n req ;;
      match r with
      | None => ret (Some [])
      | Some (p, len) =>
          chunk <- gets (fun s => bytes_at (dma_mem s) p (Z.to_nat len)) ;;
          rest <-? pull_all k n req ;;
          ret (Some (chunk ++ rest))
      end
  end.

Lemma pull_all_streams k : forall n req s rem, streaming s rem -> 0 < req -> (length rem < k)%nat ->
  exists s', pull_all k (1 + n) req s = (Ret (Some rem), s') /\ ended (get_ch s').
Proof.
  induction k as [|k IH]; intros n req s rem Hs Hreq Hk; [lia|]. cbn [pull_all].
  destruct (pull_step n req s rem Hs Hreq) as (r & s1 & E & Hr). unfold fuelled at 1. rewrite (bind_ret _ _ _ _ _ E).
  destruct r as [[p len]|].
  - destruct Hr as (Hlen & Hle & Eb & Hs1). rewrite bind_gets, Eb.
    destruct (IH n req s1 _ Hs1 Hreq ltac:(rewrite length_drop; lia)) as (s' & E' & He).
    exists s'. split; [|exact He]. unfold fuelled. rewrite (bind_ret _ _ _ _ _ E'). by rewrite take_drop.
  - destruct Hr as (-> & He & _). by exists s1.
Qed.

(** Software starts the channel: the address of the program, then the run bit. *)
Definition start_program (n : nat) (ptr : Z) : M S (option unit) :=
  _ <-? reg_write n DMAReg.CMD_PTR_LO (BYTESWAP_32 ptr) 4 ;;
  reg_write n DMAReg.CH_CTRL (BYTESWAP_32 0x80008000) 4.

(** The channel when software may start it. *)
Definition startable (c : channel) : Prop :=
  test (ch_stat c) CH_STAT_ACTIVE = false /\ test (ch_stat c) CH_STAT_DEAD = false /\
  test (ch_stat c) CH_STAT_PAUSE = false /\ in_interpret_loop c = false.

Hypothesis start_quiet : forall s, does start_cb s tt (get_ch s) (get_mc s).

Lemma write_cmd_ptr n ptr s : 0 <= ptr < 2 ^ 32 -> test (ch_stat (get_ch s)) CH_STAT_ACTIVE = false ->
  does (reg_write n DMAReg.CMD_PTR_LO (BYTESWAP_32 ptr) 4) s (Some tt) (set_cmd_ptr ptr (get_ch s)) (get_mc s).
Proof.
  intros Hptr Ha. unfold reg_write. cbn [Z.eqb Pos.eqb negb]. rewrite byteswap_32_involutive by done.
  change (DMAReg.CMD_PTR_LO =? DMAReg.CH_CTRL) with false. change (DMAReg.CMD_PTR_LO =? DMAReg.CMD_PTR_LO) with true. cbv iota zeta.
  apply does_gets. rewrite Ha. cbn [negb when]. eapply does_then; [apply does_upd|]. intros s1 G M. finish_does.
Qed.

Definition started (c : channel) : channel :=
  set_cmd_in_progress false (set_queue_len 0 (set_bits (Z.lor CH_STAT_ACTIVE CH_STAT_RUN) c)).

Lemma write_run_bit n s : test (ch_stat (get_ch s)) CH_STAT_ACTIVE = false -> test (ch_stat (get_ch s)) CH_STAT_PAUSE = false ->
  exists s1, get_ch s1 = started (get_ch s) /\ get_mc s1 = get_mc s /\
    reg_write n DMAReg.CH_CTRL (BYTESWAP_32 0x80008000) 4 s = interpret n s1.
Proof.
  intros Ha Hp. unfold reg_write. cbn [Z.eqb Pos.eqb negb]. rewrite byteswap_32_involutive by done.
  change (DMAReg.CH_CTRL =? DMAReg.CH_CTRL) with true. cbv iota zeta.
  change (u16 (Z.shiftr 0x80008000 16)) with 0x8000. change (Z.land 0x80008000 0xFFFF) with 0x8000.
  change (test 0x8000 0xFF) with false. change (test 0x8000 CH_STAT_RUN) with true. cbn [when]. rewrite bind_ret_l.
  change (write_flush 0x8000 0x8000) with (@ret S unit tt). rewrite bind_ret_l. unfold write_run.
  change (test 0x8000 CH_STAT_RUN) with true. change (test 0x8000 CH_STAT_PAUSE) with false. cbn [andb when].
  rewrite bind_ret_l, bind_gets, Ha. cbn [negb]. unfold upd_ch at 1. rewrite bind_modify. unfold start. rewrite bind_gets, ch_get_set.
  assert (test (ch_stat (set_bits (Z.lor CH_STAT_ACTIVE CH_STAT_RUN) (get_ch s))) CH_STAT_PAUSE = false) as ->.
  { change CH_STAT_PAUSE with (2 ^ 14) in *. rewrite test_pow2 in Hp |- * by lia. unfold set_bits. cbn [ch_stat set_ch_stat].
    by rewrite Z.lor_spec, Hp. }
  unfold upd_ch. rewrite !bind_modify, no_device. cbn [when]. rewrite bind_ret_l.
  match goal with |- exists s1, _ /\ _ /\ bind start_cb _ ?x = _ => destruct (start_quiet x) as (s1 & E & G & M) end.
  exists s1. rewrite (bind_ret _ _ _ _ _ E), G, M. rewrite !ch_get_set, !mc_set_ch. done.
Qed.

Lemma start_streams n ptr va bufs s : startable (get_ch s) -> 0 <= ptr < 2 ^ 32 ->
  program (get_mc s) ptr va bufs -> Forall (avoids va (Z.of_nat (length bufs) + 1)) bufs ->
  exists s', start_program (1 + n) ptr s = (Ret (Some tt), s') /\ streaming s' (contents (dma_mem s) bufs).
Proof.
  intros (Hact & Hdead & Hpause & Hl) Hptr Hprog Hav.
  destruct (write_cmd_ptr (1 + n) ptr s Hptr Hact) as (s1 & E1 & G1 & M1).
  destruct (write_run_bit (1 + n) s1) as (s2 & G2 & M2 & E2); [by rewrite G1..|].
  rewrite G1 in G2. rewrite M1 in M2.
  assert (feeding (get_ch s2) (get_mc s2) (contents (dma_mem s) bufs)) as Hf.
  { rewrite G2, M2. apply (feeding_next _ _ va); try done.
    change CH_STAT_DEAD with (2 ^ 11) in Hdead. rewrite test_pow2 in Hdead by lia. rewrite active_bits.
    unfold started, set_bits. cbn [ch_stat set_cmd_in_progress set_queue_len set_ch_stat set_cmd_ptr].
    rewrite !Z.lor_spec, Hdead. by rewrite orb_true_r. }
  destruct (interpret_feeding n s2 _ ltac:(by rewrite G2) Hf) as (c' & m' & (s' & E & G & M) & Hl' & Hcase).
  exists s'. unfold start_program, fuelled. rewrite (bind_ret _ _ _ _ _ E1), E2. split; [exact E|].
  split; [by rewrite G|]. rewrite G, M. destruct Hcase as [[-> He]|[Hf' _]]; [by right | by left].
Qed.
End Pulled.

(** C9: output through a DMA channel is a first-in first-out stream.  When software starts a channel on a program of output commands and the device pulls its data in pieces of any size, what it receives until there is no more is exactly the bytes of the buffers in order, although the channel writes status into the commands meanwhile; then the channel is inactive. *)
Theorem dma_output_stream {S CB} `{DmaHost S} `{TimerHost S CB} `{!DmaEnv S CB} `{!DmaLaws S CB} n k ptr va req bufs (s : S) :
  dma_dev (S := S) (CB := CB) = false -> (forall s, does start_cb s tt (get_ch s) (get_mc s)) ->
  startable (get_ch s) -> 0 <= ptr < 2 ^ 32 -> 0 < req ->
  program (get_mc s) ptr va bufs -> Forall (avoids va (Z.of_nat (length bufs) + 1)) bufs ->
  (length (contents (dma_mem s) bufs) < k)%nat ->
  exists s', (_ <-? start_program (1 + n) ptr ;; pull_all k (1 + n) req) s = (Ret (Some (contents (dma_mem s) bufs)), s') /\
    ended (get_ch s').
Proof.
  intros Hdev Hstart Hs Hptr Hreq Hprog Hav Hk.
  destruct (start_streams Hdev Hstart n ptr va bufs s Hs Hptr Hprog Hav) as (s1 & E1 & Hst).
  destruct (pull_all_streams Hdev k n req s1 _ Hst Hreq Hk) as (s' & E & He).
  exists s'. split; [|exact He]. unfold fuelled at 1. by rewrite (bind_ret _ _ _ _ _ E1).
Qed.

(** ** Waiting *)

Section Waiting.
Context {S CB : Type} `{HD : DmaHost S} `{HT : TimerHost S CB} `{HE : !DmaEnv S CB} `{HL : !DmaLaws S CB}.
Implicit Types (s : S) (c : channel).

(** The command at [ptr] with its [w] field "always". *)
Definition always_waits (m : MemCtrlBase) (ptr va op : Z) : Prop :=
  let cmd := read_cmd (host_mem m) va in
  mapped m ptr 16 va /\ Z.shiftr (cmd_key cmd) 4 = op /\ Z.land (cmd_bits cmd) 3 = 3.

Lemma finish_waits s va : cur_host (get_ch s) = va -> Z.land (cmd_bits (read_cmd (host_mem (get_mc s)) va)) 3 = 3 ->
  cur_cmd (get_ch s) < DBDMA_Cmd.STOP -> does finish_cmd s tt (get_ch s) (get_mc s).
Proof.
  intros Hh Hb Hc. unfold finish_cmd. apply does_gets, does_gets. rewrite (proj2 (Z.ltb_lt _ _) Hc), Hh.
  change ((dma_mem s).[va + 2]) with (cmd_bits (read_cmd (host_mem (get_mc s)) va)).
  unfold test. rewrite Hb. apply does_ret.
Qed.

Lemma nop_stuck self s va : always_waits (get_mc s) (cmd_ptr (get_ch s)) va DBDMA_Cmd.NOP -> cmd_in_progress (get_ch s) = false ->
  exists w, does (interpret_cmd self) s (Some tt) (begun DBDMA_Cmd.NOP va w (get_ch s)) (get_mc s).
Proof.
  intros (Hm & Hk & Hb) Hp.
  cut (exists w, does (execute_cmd self) s (Some tt) (begun DBDMA_Cmd.NOP va w (get_ch s)) (get_mc s)).
  { intros (w & Hw). exists w. unfold interpret_cmd. apply does_gets. rewrite Hp. cbn [andb when]. exact Hw. }
  fetch Hm. rewrite Hk in *.
  change (DBDMA_Cmd.NOP <=? DBDMA_Cmd.INPUT_LAST) with false. change (DBDMA_Cmd.NOP =? DBDMA_Cmd.STORE_QUAD) with false.
  change (DBDMA_Cmd.NOP =? DBDMA_Cmd.LOAD_QUAD) with false. change (DBDMA_Cmd.NOP =? DBDMA_Cmd.NOP) with true. cbv iota.
  eapply does_then; [apply (finish_waits _ va); [by rewrite G3 | by rewrite M3 | by rewrite G3]|].
  intros s5 G5 M5. rewrite G3 in G5. rewrite M3 in M5. finish_does.
Qed.

Lemma nop_runs_out self n : forall s va, always_waits (get_mc s) (cmd_ptr (get_ch s)) va DBDMA_Cmd.NOP ->
  is_active (get_ch s) = true -> cmd_in_progress (get_ch s) = false ->
  exists c', does (run_cmds self n) s (Some tt) c' (get_mc s) /\ test (ch_stat c') CH_STAT_DEAD = true /\
    cmd_ptr c' = cmd_ptr (get_ch s) /\ interpret_again c' = false.
Proof.
  induction n as [|n IH]; intros s va Hw Ha Hp; cbn [run_cmds].
  - eexists. split.
    + apply does_gets. rewrite Ha. cbn [negb].
      eapply does_then; [apply does_upd|]. intros s0 G M. do 2 assign. finish_does.
    + split; [|done]. change CH_STAT_DEAD with (2 ^ 11). rewrite test_pow2 by lia. unfold clear_bits, set_bits.
      cbn [ch_stat set_ch_stat set_interpret_again]. rewrite Z.land_spec, Z.lor_spec.
      change (Z.testbit (2 ^ 11) 11) with true. change (Z.testbit (Z.lnot CH_STAT_ACTIVE) 11) with true. by rewrite orb_true_r.
  - destruct (nop_stuck self s va Hw Hp) as (w & s1 & E1 & G1 & M1).
    destruct (IH s1 va) as (c' & Hd & H1 & H2 & H3).
    + rewrite G1, M1. exact Hw.
    + rewrite G1. change (is_active (clear_bits CH_STAT_WAKE (get_ch s)) = true). by rewrite active_clear.
    + by rewrite G1.
    + exists c'. split; [|rewrite H2, G1; by split_and!]. apply does_gets. rewrite Ha. cbn [negb].
      unfold fuelled. apply (does_run _ _ _ (Some tt) s1); [done|]. apply does_gets. rewrite G1. cbn [cmd_in_progress begun set_cur_cmd clear_bits set_ch_stat set_cur_host set_cur_is_writable].
      rewrite Hp. rewrite <- M1. exact Hd.
Qed.

(** An output command that always waits, for a device that takes everything at once. *)
Record repeats (va : Z) (c : channel) (m : MemCtrlBase) : Prop := {
  rp_active : is_active c = true;
  rp_loop : in_interpret_loop c = true;
  rp_ended : xfer_ended c = false;
  rp_cmd : exists op buf, op <= DBDMA_Cmd.OUTPUT_LAST /\ always_waits m (cmd_ptr c) va op /\
    Z.land (cmd_key (read_cmd (host_mem m) va)) 7 = 0 /\
    0 < req_count (read_cmd (host_mem m) va) < 2 ^ 16 /\
    mapped m (address (read_cmd (host_mem m) va)) (req_count (read_cmd (host_mem m) va)) buf;
  rp_state : cmd_in_progress c = true -> queue_len c = 0 /\ cur_cmd c < DBDMA_Cmd.STOP /\ cur_host c = va
}.

Hypothesis with_device : dma_dev (S := S) (CB := CB) = true.
Hypothesis takes_all : forall buf len s, does (dev_xfer_to buf len) s len (get_ch s) (get_mc s).

Lemma interpret_loop n s : in_interpret_loop (get_ch s) = false ->
  interpret (CB := CB) n s = (_ <-? passes (interpret_until_blocked 1 n) n ;; upd_ch (set_in_interpret_loop false) ;;; ret (Some tt))
    (set_ch (set_in_interpret_loop true (get_ch s)) s).
Proof.
  intros Hl. change (interpret n) with (c <- gets get_ch ;;
    if in_interpret_loop c then upd_ch (set_interpret_again true) ;;; ret (Some tt)
    else upd_ch (set_in_interpret_loop true) ;;; _ <-? passes (interpret_until_blocked 1 n) n ;; upd_ch (set_in_interpret_loop false) ;;; ret (Some tt)).
  by rewrite bind_gets, Hl.
Qed.

Lemma again_call d n s : in_interpret_loop (get_ch s) = true ->
  does (interpret_until_blocked (1 + d) n) s (Some tt) (set_interpret_again true (get_ch s)) (get_mc s).
Proof.
  intros Hl. cbn [interpret_until_blocked Nat.add]. apply does_gets. rewrite Hl.
  eapply does_then; [apply does_upd|]. intros s1 G M. finish_does.
Qed.

Lemma repeat_step d n va s : repeats va (get_ch s) (get_mc s) ->
  exists c', does (interpret_cmd (interpret_until_blocked (1 + d) n)) s (Some tt) c' (get_mc s) /\
    repeats va c' (get_mc s) /\ cmd_in_progress c' = true /\ interpret_again c' = true.
Proof.
  intros [Ha Hl He (op & buf & Hop & (Hm & Hk & Hb) & H7 & Hr & Hmap) Hst].
  set (cmd := read_cmd (host_mem (get_mc s)) va) in *. set (len := req_count cmd) in *.
  set (final w := set_interpret_again true (got len (set_xfer_dir DMA_DIR_TO_DEV (queued buf len (begun op va w (get_ch s)))))).
  assert (exists w, does (interpret_cmd (interpret_until_blocked (1 + d) n)) s (Some tt) (final w) (get_mc s)) as (w & Hw).
  { cut (exists w, does (execute_cmd (interpret_until_blocked (1 + d) n)) s (Some tt) (final w) (get_mc s)).
    { intros (w & s' & E & G & M). exists w. unfold interpret_cmd. apply does_gets.
      destruct (cmd_in_progress (get_ch s)) eqn:Ep; cbn [andb when]; [|by exists s'].
      destruct (Hst eq_refl) as (Hq & Hc & Hh). rewrite Hq. cbn [negb Z.eqb].
      assert (finish_cmd (CB := CB) s = (Ret tt, s)) as Ef.
      { unfold finish_cmd. rewrite !bind_gets, (proj2 (Z.ltb_lt _ _) Hc), Hh.
        change ((dma_mem s).[va + 2]) with (cmd_bits cmd). unfold test. by rewrite Hb. }
      apply (does_run _ _ _ tt s); [exact Ef|]. by exists s'. }
    fetch Hm. fold cmd. fold cmd in G3. rewrite Hk in *. fold len.
    rewrite (proj2 (Z.leb_le _ _)) by (unfold DBDMA_Cmd.INPUT_LAST, DBDMA_Cmd.OUTPUT_LAST in *; lia). rewrite H7. cbn [Z.eqb negb].
    rewrite (proj2 (Z.eqb_neq len 0)) by lia. cbn [negb].
    rewrite <- M3 in Hmap. destruct (does_map _ _ _ _ Hmap) as (r & Er & Hd).
    eapply does_bind; [exact Hd|]. intros s5 G5 M5. rewrite G3 in G5. rewrite M3 in M5. rewrite Er. do 4 assign.
    rewrite (proj2 (Z.leb_le _ _) Hop). unfold xfer_to_device. rewrite with_device. cbn [negb]. assign. apply does_gets.
    match goal with G : get_ch ?x = set_xfer_dir _ _ |- context [get_ch ?x] => rewrite G end.
    change (queue_len (set_xfer_dir _ _)) with len.
    eapply does_bind; [apply takes_all|]. intros s20 G20 M20.
    match goal with G : get_ch ?x = set_xfer_dir _ _, M : get_mc ?x = _ |- _ => rewrite G in G20; rewrite M in M20 end.
    assign. apply does_gets.
    match goal with G : get_ch ?x = got _ _ |- context [get_ch ?x] => rewrite G end.
    set (gc := got len _) in *.
    assert (queue_len gc = 0) as Hgq by (cbn; by rewrite Z.sub_diag). rewrite Hgq. cbn [Z.eqb orb when].
    match goal with G : get_ch ?x = gc, M : get_mc ?x = _ |- _ => rename x into sg, G into Gg, M into Mg end.
    eapply does_then.
    { unfold finish_ended_cmd. apply does_gets. rewrite Gg. change (xfer_ended gc) with (xfer_ended (get_ch s)). rewrite He. cbn [negb].
      apply (finish_waits _ va); [by rewrite Gg | by rewrite Mg | rewrite Gg]. unfold DBDMA_Cmd.STOP. cbn. unfold DBDMA_Cmd.OUTPUT_LAST in Hop. lia. }
    intros sf Gf Mf. rewrite Gg in Gf. rewrite Mg in Mf.
    assert (in_interpret_loop (get_ch sf) = true) as Hlf by (by rewrite Gf).
    pose proof (again_call d n sf Hlf) as Hag. rewrite Gf, Mf in Hag. exact Hag. }
  exists (final w). split; [exact Hw|]. split; [|done]. split.
  - change (is_active (final w)) with (is_active (clear_bits CH_STAT_WAKE (get_ch s))). by rewrite active_clear.
  - exact Hl.
  - exact He.
  - exists op, buf. split; [exact Hop|]. split; [done|]. done.
  - intros _. split; [cbn; by rewrite Z.sub_diag|]. split; [|done]. unfold DBDMA_Cmd.STOP. cbn. unfold DBDMA_Cmd.OUTPUT_LAST in Hop. lia.
Qed.

(** The loop never ends: there is no fuel with which it returns. *)
Lemma passes_forever d n va fuel : forall s, repeats va (get_ch s) (get_mc s) ->
  exists s', passes (interpret_until_blocked (1 + d) n) fuel s = (Ret None, s').
Proof.
  induction fuel as [|fuel IH]; intros s Hr; [by exists s|]. cbn [passes].
  set (s1 := set_ch (set_interpret_again false (get_ch s)) s).
  assert (repeats va (get_ch s1) (get_mc s1)) as Hr1.
  { unfold s1. rewrite ch_get_set, mc_set_ch. by destruct Hr. }
  destruct (repeat_step d n va s1 Hr1) as (c' & (s2 & E & G & M) & Hr2 & Hp & Hagain).
  assert (run_cmds (interpret_until_blocked (1 + d) n) MAX_CMDS_PER_RUN s1 = (Ret (Some tt), s2)) as Erun.
  { rewrite max_cmds. cbn [Nat.add run_cmds]. rewrite bind_gets, (rp_active _ _ _ Hr1). cbn [negb].
    unfold fuelled at 1. by rewrite (bind_ret _ _ _ _ _ E), bind_gets, G, Hp. }
  destruct (IH s2) as (s' & E'); [by rewrite G, M|]. exists s'.
  unfold upd_ch. rewrite bind_modify. fold s1. unfold fuelled. by rewrite (bind_ret _ _ _ _ _ Erun), bind_gets, G, Hagain.
Qed.
End Waiting.

(** C38: a wait condition does not wait.  The interpreter runs a command whose condition says wait again at once: a NOP that always waits runs until the channel is declared dead instead of idling until software wakes it, and a transfer to a device that takes everything is started over and over, the buffer sent again each time, in a loop that never returns. *)
Theorem dma_wait_does_not_wait {S CB} `{DmaHost S} `{TimerHost S CB} `{!DmaEnv S CB} `{!DmaLaws S CB} n va (s : S) :
  is_active (get_ch s) = true -> cmd_in_progress (get_ch s) = false -> in_interpret_loop (get_ch s) = false ->
  (always_waits (get_mc s) (cmd_ptr (get_ch s)) va DBDMA_Cmd.NOP ->
    exists c', does (interpret (1 + n)) s (Some tt) c' (get_mc s) /\ test (ch_stat c') CH_STAT_DEAD = true /\
      cmd_ptr c' = cmd_ptr (get_ch s)) /\
  (dma_dev (S := S) (CB := CB) = true -> (forall buf len s, does (dev_xfer_to buf len) s len (get_ch s) (get_mc s)) ->
    xfer_ended (get_ch s) = false ->
    (exists op buf len, op <= DBDMA_Cmd.OUTPUT_LAST /\ always_waits (get_mc s) (cmd_ptr (get_ch s)) va op /\
      Z.land (cmd_key (read_cmd (dma_mem s) va)) 7 = 0 /\ req_count (read_cmd (dma_mem s) va) = len /\
      0 < len < 2 ^ 16 /\ mapped (get_mc s) (address (read_cmd (dma_mem s) va)) len buf) ->
    exists s', interpret n s = (Ret None, s')).
Proof.
  intros Ha Hp Hl. set (s0 := set_ch (set_in_interpret_loop true (get_ch s)) s).
  assert (get_ch s0 = set_in_interpret_loop true (get_ch s)) as G0 by apply ch_get_set.
  assert (get_mc s0 = get_mc s) as M0 by apply mc_set_ch.
  split.
  - intros Hw. set (s1 := set_ch (set_interpret_again false (get_ch s0)) s0).
    assert (get_ch s1 = set_interpret_again false (get_ch s0)) as G1 by apply ch_get_set.
    assert (get_mc s1 = get_mc s0) as M1 by apply mc_set_ch.
    destruct (nop_runs_out (interpret_until_blocked 1 (1 + n)) MAX_CMDS_PER_RUN s1 va) as (c' & (s2 & E & G2 & M2) & Hd & Hc & Hi).
    1-3: rewrite ?G1, ?M1, ?G0, ?M0; done.
    exists (set_in_interpret_loop false c'). split; [|split; [exact Hd | by rewrite G1, G0 in Hc]].
    unfold does. rewrite (interpret_loop _ _ Hl). fold s0.
    assert (passes (interpret_until_blocked 1 (1 + n)) (1 + n) s0 = (Ret (Some tt), s2)) as Ep.
    { cbn [passes Nat.add]. unfold upd_ch at 1. rewrite bind_modify. unfold fuelled at 1. fold s1.
      by rewrite (bind_ret _ _ _ _ _ E), bind_gets, G2, Hi. }
    unfold fuelled. rewrite (bind_ret _ _ _ _ _ Ep). unfold upd_ch. rewrite bind_modify. eexists. split; [reflexivity|].
    by rewrite ch_get_set, mc_set_ch, G2, M2, M1, M0.
  - intros Hdev Htakes He (op & buf & len & Hop & Hw & H7 & Hlen & Hpos & Hmap).
    destruct (passes_forever Hdev Htakes 0 n va n s0) as (s' & E).
    { rewrite G0, M0. split; try done.
      - exists op, buf. unfold dma_mem in *. rewrite <- Hlen in Hmap, Hpos. done.
      - cbn. congruence. }
    exists s'. rewrite (interpret_loop _ _ Hl). fold s0. unfold fuelled. by rewrite (bind_ret _ _ _ _ _ E).
Qed.

(** ** Concrete channels *)

(** A channel on a machine of 64 KB of memory: two output commands and a stop, and two
    commands that always wait. *)
Module DmaDemo.
Record world := mk_world { w_ch : channel; w_mc : MemCtrlBase; w_tm : TimerManager Z }.

#[export] Instance world_host : DmaHost world := {
  get_ch := w_ch;
  set_ch c w := mk_world c (w_mc w) (w_tm w);
  get_mc := w_mc;
  set_mc m w := mk_world (w_ch w) m (w_tm w)
}.
#[export] Instance world_timers : TimerHost world Z := {
  get_tm := w_tm;
  set_tm t w := mk_world (w_ch w) (w_mc w) t;
  get_time_now := fun _ => 0;
  notify_timer_changes := fun w => w;
  default_cb := 0
}.
#[export] Instance world_laws : DmaLaws world Z.
Proof. by split. Defined.

(** A device that takes everything at once ([dev]), or that pulls. *)
Definition env (dev : bool) : DmaEnv world Z := {|
  dma_dev := dev;
  dev_notify := fun _ => ret tt;
  dev_xfer_from := fun _ _ => ret 0;
  dev_xfer_to := fun _ len => ret len;
  start_cb := ret tt;
  stop_cb := ret tt;
  has_int_ctrl := false;
  interrupt_timer := 0;
  interrupt_cb := 0;
  mmio_read := fun _ _ _ _ => ret 0;
  mmio_write := fun _ _ _ _ _ => ret tt
|}.

Definition commands : list Z :=
  [4; 0; 0; 0x00; 0x00; 0x20; 0; 0] ++ repeat 0 8 ++
  [3; 0; 0; 0x10; 0x04; 0x20; 0; 0] ++ repeat 0 8 ++
  [0; 0; 0; 0x70; 0; 0; 0; 0] ++ repeat 0 8 ++
  [0; 0; 3; 0x60; 0; 0; 0; 0] ++ repeat 0 8 ++
  [2; 0; 3; 0x10; 0x00; 0x20; 0; 0] ++ repeat 0 8.

Definition mc : MemCtrlBase :=
  mkMemCtrl [] [mkEntry 1 0 0xFFFF 0 RT.RT_RAM 0 0x10000]
    (memcpy 0x11000 commands (memcpy 0x12000 [11; 12; 13; 14; 15; 16; 17] ∅)) 0x20000 2.

Definition at_rest : world := mk_world idle_channel mc (mkTimerManager [] ∅ false).
(** Active on the command at [ptr]. *)
Definition running (ptr : Z) : world :=
  mk_world (set_cmd_ptr ptr (set_bits CH_STAT_ACTIVE idle_channel)) mc (mkTimerManager [] ∅ false).

Lemma mapped_at addr size va : mmu_map_dma_mem addr size false false false mc = Some (mkMapDma RT.RT_RAM size true va 0 0) -> mapped mc addr size va.
Proof. intros E. by eexists. Qed.
End DmaDemo.
Import DmaDemo.

Lemma dma_output_stream_witness : exists s',
  (_ <-? start_program (HE := DmaDemo.env false) 2 0x1000 ;; pull_all (HE := DmaDemo.env false) 8 2 3) DmaDemo.at_rest =
    (Ret (Some [11; 12; 13; 14; 15; 16; 17]), s') /\ ended (get_ch s').
Proof.
  change [11; 12; 13; 14; 15; 16; 17] with (contents (dma_mem DmaDemo.at_rest) [(0x12000, 4); (0x12004, 3)]).
  apply (dma_output_stream (DmaEnv0 := DmaDemo.env false) 1 8 0x1000 0x11000 3 [(0x12000, 4); (0x12004, 3)] DmaDemo.at_rest).
  - reflexivity.
  - intros s. by exists s.
  - by split_and!.
  - lia.
  - lia.
  - cbn [program]. split; [|split; [|split; [|reflexivity]]].
    + split_and!; try reflexivity; [apply DmaDemo.mapped_at; reflexivity | left; reflexivity | apply DmaDemo.mapped_at; reflexivity].
    + split_and!; try reflexivity; [apply DmaDemo.mapped_at; reflexivity | right; reflexivity | apply DmaDemo.mapped_at; reflexivity].
    + apply DmaDemo.mapped_at; reflexivity.
  - repeat apply Forall_cons_2; try apply Forall_nil_2; right; cbn; lia.
  - vm_compute. lia.
Defined.

Lemma dma_wait_does_not_wait_witness :
  (exists c', does (interpret (H1 := DmaDemo.env true) 1) (DmaDemo.running 0x1030) (Some tt) c' DmaDemo.mc /\
    test (ch_stat c') CH_STAT_DEAD = true /\ cmd_ptr c' = 0x1030) /\
  exists s', interpret (H1 := DmaDemo.env true) 5 (DmaDemo.running 0x1040) = (Ret None, s').
Proof.
  split.
  - refine (proj1 (dma_wait_does_not_wait (DmaEnv0 := DmaDemo.env true) 0 0x11030 (DmaDemo.running 0x1030) eq_refl eq_refl eq_refl) _).
    split_and!; try reflexivity. apply DmaDemo.mapped_at; reflexivity.
  - refine (proj2 (dma_wait_does_not_wait (DmaEnv0 := DmaDemo.env true) 5 0x11040 (DmaDemo.running 0x1040) eq_refl eq_refl eq_refl) eq_refl _ eq_refl _).
    + intros buf len s. by exists s.
    + exists 1, 0x12000, 2. split_and!; try reflexivity; try (vm_compute; congruence).
      * split_and!; try reflexivity. apply DmaDemo.mapped_at; reflexivity.
      * apply DmaDemo.mapped_at; reflexivity.
Defined.
