(* ===== verification/Adb.v ===== *)
(** * The Apple Desktop Bus (devices/common/adb)

    The bus hands the host's commands to its devices: a keyboard that queues key
    events, a mouse that accumulates motion, and a gamepad that is also a mouse.
    Virtual methods are dispatched on [adb_kind]; the buffers a device shares with
    the bus are in [adb_host].  Registering devices and log messages are not
    modelled. *)
From S2P Require Import Prelude Word.

(** ** State *)

(** What the devices see of the bus. *)
(* [devices/common/adb/adbbus.h:76-80 got_answer] *)
Record adb_host := mk_adb_host {
  got_answer : bool;
  input_buf : list Z;
  output_buf : gmap Z Z;
  input_count : Z;
  output_count : Z
}.
Definition set_got_answer (v : bool) (a : adb_host) : adb_host :=
  mk_adb_host v (input_buf a) (output_buf a) (input_count a) (output_count a).
Definition set_input_buf (v : list Z) (a : adb_host) : adb_host :=
  mk_adb_host (got_answer a) v (output_buf a) (input_count a) (output_count a).
Definition set_output_buf (v : gmap Z Z) (a : adb_host) : adb_host :=
  mk_adb_host (got_answer a) (input_buf a) v (input_count a) (output_count a).
Definition set_input_count (v : Z) (a : adb_host) : adb_host :=
  mk_adb_host (got_answer a) (input_buf a) (output_buf a) v (output_count a).
Definition set_output_count (v : Z) (a : adb_host) : adb_host :=
  mk_adb_host (got_answer a) (input_buf a) (output_buf a) (input_count a) v.
Definition input_byte (h : adb_host) (i : nat) : Z := nth i (input_buf h) 0.

(* [devices/common/adb/adbdevice.h:69-74 exc_event_flag] *)
Record adb_base := mk_adb_base {
  exc_event_flag : Z;
  srq_flag : Z;
  led_state : Z;
  my_addr : Z;
  dev_handler_id : Z;
  got_collision : bool
}.
Definition set_exc_event_flag (v : Z) (a : adb_base) : adb_base :=
  mk_adb_base v (srq_flag a) (led_state a) (my_addr a) (dev_handler_id a) (got_collision a).
Definition set_srq_flag (v : Z) (a : adb_base) : adb_base :=
  mk_adb_base (exc_event_flag a) v (led_state a) (my_addr a) (dev_handler_id a) (got_collision a).
Definition set_led_state (v : Z) (a : adb_base) : adb_base :=
  mk_adb_base (exc_event_flag a) (srq_flag a) v (my_addr a) (dev_handler_id a) (got_collision a).
Definition set_my_addr (v : Z) (a : adb_base) : adb_base :=
  mk_adb_base (exc_event_flag a) (srq_flag a) (led_state a) v (dev_handler_id a) (got_collision a).
Definition set_dev_handler_id (v : Z) (a : adb_base) : adb_base :=
  mk_adb_base (exc_event_flag a) (srq_flag a) (led_state a) (my_addr a) v (got_collision a).
Definition set_got_collision (v : bool) (a : adb_base) : adb_base :=
  mk_adb_base (exc_event_flag a) (srq_flag a) (led_state a) (my_addr a) (dev_handler_id a) v.

(* [core/hostevents.h:75-82] *)
Record KeyboardEvent := mkKeyboardEvent {
  ke_flags : Z;
  ke_key : Z
}.
(* [core/hostevents.h:62-73] *)
Record MouseEvent := mkMouseEvent {
  me_flags : Z;
  xrel : Z;
  yrel : Z;
  xabs : Z;
  yabs : Z;
  me_buttons_state : Z
}.
(* [core/hostevents.h:115-123] *)
Record GamepadEvent := mkGamepadEvent {
  ge_flags : Z;
  ge_button : Z
}.

(** [keys_down] is a 128-bit set. *)
(* [devices/common/adb/adbkeyboard.h:56-57 pending_events] *)
Record keyboard := mk_keyboard {
  pending_events : list KeyboardEvent;
  keys_down : Z
}.
Definition set_pending_events (v : list KeyboardEvent) (k : keyboard) : keyboard :=
  mk_keyboard v (keys_down k).
Definition set_keys_down (v : Z) (k : keyboard) : keyboard :=
  mk_keyboard (pending_events k) v.

(* [devices/common/adb/adbmouse.h:77-86 x_rel] *)
Record mouse := mk_mouse {
  x_rel : Z;
  y_rel : Z;
  x_abs : Z;
  y_abs : Z;
  buttons_state : Z;
  changed : bool;
  device_class : Z;
  num_buttons : Z;
  num_bits : Z;
  resolution : Z
}.
Definition set_x_rel (v : Z) (m : mouse) : mouse :=
  mk_mouse v (y_rel m) (x_abs m) (y_abs m) (buttons_state m) (changed m) (device_class m) (num_buttons m)
    (num_bits m) (resolution m).
Definition set_y_rel (v : Z) (m : mouse) : mouse :=
  mk_mouse (x_rel m) v (x_abs m) (y_abs m) (buttons_state m) (changed m) (device_class m) (num_buttons m)
    (num_bits m) (resolution m).
Definition set_x_abs (v : Z) (m : mouse) : mouse :=
  mk_mouse (x_rel m) (y_rel m) v (y_abs m) (buttons_state m) (changed m) (device_class m) (num_buttons m)
    (num_bits m) (resolution m).
Definition set_y_abs (v : Z) (m : mouse) : mouse :=
  mk_mouse (x_rel m) (y_rel m) (x_abs m) v (buttons_state m) (changed m) (device_class m) (num_buttons m)
    (num_bits m) (resolution m).
Definition set_buttons_state (v : Z) (m : mouse) : mouse :=
  mk_mouse (x_rel m) (y_rel m) (x_abs m) (y_abs m) v (changed m) (device_class m) (num_buttons m) (num_bits m)
    (resolution m).
Definition set_changed (v : bool) (m : mouse) : mouse :=
  mk_mouse (x_rel m) (y_rel m) (x_abs m) (y_abs m) (buttons_state m) v (device_class m) (num_buttons m)
    (num_bits m) (resolution m).
Definition set_device_class (v : Z) (m : mouse) : mouse :=
  mk_mouse (x_rel m) (y_rel m) (x_abs m) (y_abs m) (buttons_state m) (changed m) v (num_buttons m) (num_bits
    m) (resolution m).
Definition set_num_buttons (v : Z) (m : mouse) : mouse :=
  mk_mouse (x_rel m) (y_rel m) (x_abs m) (y_abs m) (buttons_state m) (changed m) (device_class m) v (num_bits
    m) (resolution m).
Definition set_num_bits (v : Z) (m : mouse) : mouse :=
  mk_mouse (x_rel m) (y_rel m) (x_abs m) (y_abs m) (buttons_state m) (changed m) (device_class m) (num_buttons
    m) v (resolution m).
Definition set_resolution (v : Z) (m : mouse) : mouse :=
  mk_mouse (x_rel m) (y_rel m) (x_abs m) (y_abs m) (buttons_state m) (changed m) (device_class m) (num_buttons
    m) (num_bits m) v.

(* [devices/common/adb/adbapplejack.h:55-57 aj_buttons_state] *)
Record applejack := mk_applejack {
  aj_buttons_state : Z;
  triggers_changed : bool;
  buttons_changed : bool
}.
Definition set_aj_buttons_state (v : Z) (a : applejack) : applejack :=
  mk_applejack v (triggers_changed a) (buttons_changed a).
Definition set_triggers_changed (v : bool) (a : applejack) : applejack :=
  mk_applejack (aj_buttons_state a) v (buttons_changed a).
Definition set_buttons_changed (v : bool) (a : applejack) : applejack :=
  mk_applejack (aj_buttons_state a) (triggers_changed a) v.

(** A device: the members of the base class and those of its own class. *)
Inductive adb_kind :=
| AdbKeyboard (k : keyboard)
| AdbMouse (m : mouse)
| AdbAppleJack (m : mouse) (a : applejack).
Record adb_device := mk_adb_device {
  base : adb_base;
  kind : adb_kind
}.
Definition upd_base (f : adb_base -> adb_base) (d : adb_device) : adb_device := mk_adb_device (f (base d)) (kind d).
Definition set_kind (k : adb_kind) (d : adb_device) : adb_device := mk_adb_device (base d) k.

(** What a Talk does: whether the device answers, the device and the buffers. *)
Definition answer : Type := (bool * adb_device * adb_host)%type.
Definition no_answer (d : adb_device) (h : adb_host) : answer := (false, d, h).
Definition write_out (h : adb_host) (i v : Z) : adb_host := set_output_buf ((output_buf h).[i := v]) h.

(* [devices/common/adb/adbdevice.h:33-33] *)
Definition ADB_ADDR_KBD := 2.
(* [devices/common/adb/adbdevice.h:34-34] *)
Definition ADB_ADDR_RELPOS := 3.
(* [devices/common/adb/adbbus.h:37-37] *)
Definition ADB_STAT_OK := 0.
(* [devices/common/adb/adbbus.h:39-39] *)
Definition ADB_STAT_TIMEOUT := 2.
(* [devices/common/adb/adbbus.h:40-40] *)
Definition ADB_STAT_AUTOPOLL := 0x40.
(* [devices/common/adb/adbbus.h:41-41] *)
Definition ADB_STAT_RESPONSE := 0x80.

(** ** Every device *)

(** [now] is the manager's current time, the source of the random address. *)
(* [devices/common/adb/adbdevice.cpp:131-133] *)
Definition gen_random_address (now : Z) : Z := Z.land now 0xF.

(* [devices/common/adb/adbdevice.cpp:103-110] *)
Definition get_register_3 (now : Z) (d : adb_device) (h : adb_host) : answer :=
  let b := base d in
  let h := write_out h 0 (u8 (Z.lor (Z.lor (gen_random_address now) (Z.shiftl (exc_event_flag b) 6)) (Z.shiftl (srq_flag b) 5))) in
  let h := write_out h 1 (dev_handler_id b) in
  (true, d, set_output_count 2 h).

(* [devices/common/adb/adbdevice.cpp:112-129 set_register_3] *)
Definition base_set_register_3 (h : adb_host) (b : adb_base) : adb_base :=
  let new_addr := Z.land (input_byte h 0) 0xF in
  if input_byte h 1 =? 0
  then set_srq_flag (b2z (test (input_byte h 0) 0x20)) (set_my_addr new_addr b)
  else if input_byte h 1 =? 0xFE
  then if negb (got_collision b) then set_my_addr new_addr b else b
  else b.

(** ** The keyboard *)

(* [core/hostevents.h:57-57] *)
Definition KEYBOARD_EVENT_UP := 2.

Module AdbKey.
(* [devices/common/adb/adbkeyboard.h:117-117 AdbKey_Delete] *)
Definition Delete := 0x33.
(* [devices/common/adb/adbkeyboard.h:128-128 AdbKey_Control] *)
Definition Control := 0x36.
(* [devices/common/adb/adbkeyboard.h:129-129 AdbKey_Shift] *)
Definition Shift := 0x38.
(* [devices/common/adb/adbkeyboard.h:130-130 AdbKey_Option] *)
Definition Option_ := 0x3a.
(* [devices/common/adb/adbkeyboard.h:131-131 AdbKey_Command] *)
Definition Command := 0x37.
(* [devices/common/adb/adbkeyboard.h:132-132 AdbKey_CapsLock] *)
Definition CapsLock := 0x39.
(* [devices/common/adb/adbkeyboard.h:133-133 AdbKey_Power] *)
Definition Power := 0x7f.
(* [devices/common/adb/adbkeyboard.h:135-135 AdbKey_RightControl] *)
Definition RightControl := 0x7d.
(* [devices/common/adb/adbkeyboard.h:136-136 AdbKey_RightShift] *)
Definition RightShift := 0x7b.
(* [devices/common/adb/adbkeyboard.h:137-137 AdbKey_RightOption] *)
Definition RightOption := 0x7c.
(* [devices/common/adb/adbkeyboard.h:161-161 AdbKey_KeypadClear] *)
Definition KeypadClear := 0x47.
(* [devices/common/adb/adbkeyboard.h:176-176 AdbKey_F14] *)
Definition F14 := 0x6b.
End AdbKey.

Module Keyboard.
(** [None] is the exception of [std::bitset::set] for a key it does not have. *)
(* [devices/common/adb/adbkeyboard.cpp:36-43] *)
Definition event_handler (e : KeyboardEvent) (b : adb_base) (k : keyboard) : option (adb_base * keyboard) :=
  if 128 <=? ke_key e then None
  else
    let k := set_keys_down (if test (ke_flags e) KEYBOARD_EVENT_UP then Z.clearbit (keys_down k) (ke_key e)
                            else Z.setbit (keys_down k) (ke_key e)) k in
    let k := set_pending_events (pending_events k ++ [e]) k in
    Some (if (length (pending_events k) =? 1)%nat then set_srq_flag 1 b else b, k).

(* [devices/common/adb/adbkeyboard.cpp:45-53] *)
Definition reset (b : adb_base) : adb_base * keyboard :=
  (mk_adb_base 1 0 7 ADB_ADDR_KBD 2 (got_collision b), mk_keyboard [] 0).

(* [devices/common/adb/adbkeyboard.cpp:71-94] *)
Definition consume_pending_event (b : adb_base) (k : keyboard) : Z * keyboard :=
  match pending_events k with
  | [] => (0xFF, k)
  | e :: rest =>
      let key_state := if test (ke_flags e) KEYBOARD_EVENT_UP then 1 else 0 in
      let key :=
        if negb (dev_handler_id b =? 3) then
          if ke_key e =? AdbKey.RightControl then AdbKey.Control
          else if ke_key e =? AdbKey.RightShift then AdbKey.Shift
          else if ke_key e =? AdbKey.RightOption then AdbKey.Option_
          else ke_key e
        else ke_key e in
      (Z.lor (Z.shiftl key_state 7) (Z.land key 0x7F), set_pending_events rest k)
  end.

(* [devices/common/adb/adbkeyboard.cpp:55-69] *)
Definition get_register_0 (b : adb_base) (k : keyboard) (h : adb_host) : bool * adb_base * keyboard * adb_host :=
  match pending_events k with
  | [] => (false, b, k, h)
  | _ =>
      let '(v, k) := consume_pending_event b k in
      let h := write_out h 0 v in
      let '(v, k) := consume_pending_event b k in
      let h := set_output_count 2 (write_out h 1 v) in
      (true, match pending_events k with [] => set_srq_flag 0 b | _ => b end, k, h)
  end.

(* [devices/common/adb/adbkeyboard.cpp:99-115 reg2_keys] *)
Definition reg2_keys : list (Z * Z) :=
  [(AdbKey.Delete, 14); (AdbKey.CapsLock, 13); (AdbKey.Power, 12); (AdbKey.Control, 11); (AdbKey.RightControl, 11);
   (AdbKey.Shift, 10); (AdbKey.RightShift, 10); (AdbKey.Option_, 9); (AdbKey.RightOption, 9); (AdbKey.Command, 8);
   (AdbKey.KeypadClear, 7); (AdbKey.F14, 6)].

(* [devices/common/adb/adbkeyboard.cpp:96-128] *)
Definition get_register_2 (b : adb_base) (k : keyboard) (h : adb_host) : adb_host :=
  let reg2 := fold_left (fun r kb => if Z.testbit (keys_down k) kb.1 then Z.land r (Z.lnot (Z.shiftl 1 kb.2)) else r)
                        reg2_keys (Z.lor 0xFFF8 (led_state b)) in
  set_output_count 2 (write_out (write_out h 0 (Z.shiftr reg2 8)) 1 (Z.land reg2 0xFF)).

(* [devices/common/adb/adbkeyboard.cpp:130-137] *)
Definition set_register_2 (h : adb_host) (b : adb_base) : adb_base :=
  if input_count h <? 2 then b else set_led_state (Z.land (input_byte h 1) 7) b.

(* [devices/common/adb/adbkeyboard.cpp:139-152] *)
Definition set_register_3 (h : adb_host) (b : adb_base) : adb_base :=
  let id := input_byte h 1 in
  if (id =? 1) || (id =? 2) then set_dev_handler_id id b
  else if id =? 3 then b
  else base_set_register_3 h b.
End Keyboard.

(** ** The mouse *)

(* [core/hostevents.h:54-54] *)
Definition MOUSE_EVENT_MOTION := 1.
(* [core/hostevents.h:55-55] *)
Definition MOUSE_EVENT_BUTTON := 2.
(* [devices/common/adb/adbmouse.h:40-40] *)
Definition TABLET := 0.
(* [devices/common/adb/adbmouse.h:41-41] *)
Definition MOUSE := 1.
(* [devices/common/adb/adbmouse.h:42-42] *)
Definition TRACKBALL := 2.

Module Mouse.
(** Motion is accumulated in [int32_t]; [xabs] and [yabs] are unsigned. *)
(* [devices/common/adb/adbmouse.cpp:40-54] *)
Definition event_handler (e : MouseEvent) (m : mouse) : mouse :=
  if test (me_flags e) MOUSE_EVENT_MOTION then
    let m := set_x_rel (s32 (x_rel m + xrel e)) m in
    let m := set_y_rel (s32 (y_rel m + yrel e)) m in
    let m := set_x_abs (s32 (xabs e)) m in
    let m := set_y_abs (s32 (yabs e)) m in
    if device_class m =? TABLET then set_changed true m else m
  else if test (me_flags e) MOUSE_EVENT_BUTTON then
    let m := set_buttons_state (Z.land (me_buttons_state e) (Z.shiftl 1 (num_buttons m) - 1)) m in
    let m := set_x_abs (s32 (xabs e)) m in
    let m := set_y_abs (s32 (yabs e)) m in
    set_changed true m
  else m.

(* [devices/common/adb/adbmouse.cpp:56-67] *)
Definition reset (b : adb_base) (m : mouse) : adb_base * mouse :=
  (mk_adb_base 1 1 (led_state b) ADB_ADDR_RELPOS 1 (got_collision b),
   mk_mouse 0 0 0 0 0 false (device_class m) (num_buttons m) (num_bits m) (resolution m)).

(* [devices/common/adb/adbmouse.cpp:76-76] *)
Definition buttons_to_bits : list Z := [0; 7; 7; 10; 10; 13; 13; 16; 16].
(* [devices/common/adb/adbmouse.cpp:77-77] *)
Definition bits_to_bits : list Z := [0; 7; 7; 7; 7; 7; 7; 7; 10; 10; 10; 13; 13; 13; 16; 16; 16].

(* [devices/common/adb/adbmouse.cpp:93-96 val] *)
Definition clamp (bits val : Z) : Z :=
  if val <? - 2 ^ (bits - 1) then - 2 ^ (bits - 1)
  else if 2 ^ (bits - 1) <=? val then 2 ^ (bits - 1) - 1
  else val.

(** The bytes of one axis: seven bits and a button in a byte of its own, then three
    bits and a button in half a byte shared with the other axis.  Every round takes
    at least three of the at most 16 bits, so [fuel] 6 is enough. *)
(* [devices/common/adb/adbmouse.cpp:103-110 bits_remaining] *)
Fixpoint axis_bytes (fuel : nat) (p bits val button bits_remaining buttons : Z) (out : gmap Z Z) : Z * gmap Z Z :=
  match fuel with
  | O => (p, out)
  | S fuel =>
      if 0 <? bits_remaining then
        let v := Z.lor (Z.lor (Z.land val (Z.shiftl 1 bits - 1)) (Z.shiftl (Z.land (Z.shiftr buttons button) 1) bits))
                       (Z.shiftl out.[p] (bits + 1)) in
        axis_bytes fuel (if bits =? 7 then 2 else p + 1) 3 (Z.shiftr val bits) (button + 2) (bits_remaining - bits)
          buttons out.[p := u8 v]
      else (p, out)
  end.

(** The number of bits of a coordinate and of the packet. *)
(* [devices/common/adb/adbmouse.cpp:78-86 total_bits] *)
Definition packet_bits (b : adb_base) (m : mouse) : Z * Z :=
  if (device_class m =? MOUSE) && (dev_handler_id b =? 1) then (7, 7)
  else (num_bits m, Z.max (nth (Z.to_nat (num_buttons m)) buttons_to_bits 0) (nth (Z.to_nat (num_bits m)) bits_to_bits 0)).

(* [devices/common/adb/adbmouse.cpp:69-123 get_register_0] *)
Definition report (buttons : Z) (force : bool) (b : adb_base) (m : mouse) (h : adb_host) : bool * mouse * adb_host :=
  let should_update := negb (x_rel m =? 0) || negb (y_rel m =? 0) || changed m || force in
  if should_update then
    let '(num_bits, total_bits) := packet_bits b m in
    let buttons := u8 (Z.lnot buttons) in
    let val axis := if axis =? 0 then (if device_class m =? TABLET then y_abs m else y_rel m)
                    else if device_class m =? TABLET then x_abs m else x_rel m in
    let '(_, out) := axis_bytes 6 0 7 (clamp num_bits (val 0)) 0 total_bits buttons (output_buf h) in
    let '(p, out) := axis_bytes 6 1 7 (clamp num_bits (val 1)) 1 total_bits buttons out in
    (should_update, set_x_rel 0 (set_y_rel 0 (set_changed false m)), set_output_count (u8 p) (set_output_buf out h))
  else (false, m, h).

(* [devices/common/adb/adbmouse.cpp:125-127] *)
Definition get_register_0 (b : adb_base) (m : mouse) (h : adb_host) : bool * mouse * adb_host :=
  report (buttons_state m) false b m h.

(* [devices/common/adb/adbmouse.cpp:129-142] *)
Definition get_register_1 (m : mouse) (h : adb_host) : adb_host :=
  let bytes := [0x61; 0x70; 0x70; 0x6C; Z.shiftr (resolution m) 8; Z.land (resolution m) 0xFF; device_class m; u8 (num_buttons m)] in
  set_output_count 8 (foldl (fun h iv => write_out h iv.1 iv.2) h (combine (zrange 8) bytes)).

(* [devices/common/adb/adbmouse.cpp:144-156] *)
Definition set_register_3 (h : adb_host) (b : adb_base) : adb_base :=
  let id := input_byte h 1 in
  if (id =? 1) || (id =? 2) || (id =? 4) then set_dev_handler_id id b else base_set_register_3 h b.
End Mouse.

(** ** The gamepad *)

(* [core/hostevents.h:58-58] *)
Definition GAMEPAD_EVENT_DOWN := 1.
(* [core/hostevents.h:59-59] *)
Definition GAMEPAD_EVENT_UP := 2.
(* [core/hostevents.h:106-106] *)
Definition LeftTrigger := 17.
(* [core/hostevents.h:107-107] *)
Definition RightTrigger := 16.
(* [devices/common/adb/adbapplejack.h:34-34] *)
Definition APPLEJACK_HANDLER_ID := 0x46.

Module AppleJack.
(* [devices/common/adb/adbapplejack.cpp:34-46] *)
Definition event_handler (e : GamepadEvent) (a : applejack) : applejack :=
  let button_bit := u32 (Z.shiftl 1 (ge_button e)) in
  let a := if test (ge_flags e) GAMEPAD_EVENT_DOWN then set_aj_buttons_state (Z.lor (aj_buttons_state a) button_bit) a
           else if test (ge_flags e) GAMEPAD_EVENT_UP then set_aj_buttons_state (Z.land (aj_buttons_state a) (not32 button_bit)) a
           else a in
  if test button_bit (Z.lor (Z.shiftl 1 LeftTrigger) (Z.shiftl 1 RightTrigger))
  then set_triggers_changed true a else set_buttons_changed true a.

(* [devices/common/adb/adbapplejack.cpp:48-54] *)
Definition reset (b : adb_base) (m : mouse) : adb_base * mouse * applejack :=
  (Mouse.reset b m, mk_applejack 0 false false).

(* [devices/common/adb/adbapplejack.cpp:56-77] *)
Definition get_register_0 (b : adb_base) (m : mouse) (a : applejack) (h : adb_host) : bool * mouse * applejack * adb_host :=
  let changed := triggers_changed a || buttons_changed a in
  let mouse_buttons := buttons_state m in
  let mouse_buttons := Z.lor mouse_buttons (Z.land (Z.shiftr (aj_buttons_state a) LeftTrigger) 1) in
  let mouse_buttons := Z.lor mouse_buttons (Z.land (Z.shiftr (aj_buttons_state a) (RightTrigger - 1)) 2) in
  let '(r, m, h) := Mouse.report mouse_buttons changed b m h in
  let changed := changed || r in
  let a := set_triggers_changed false a in
  if (dev_handler_id b =? APPLEJACK_HANDLER_ID) && buttons_changed a then
    let h := write_out h 2 (u8 (Z.shiftr (not32 (aj_buttons_state a)) 8)) in
    let h := write_out h 3 (Z.land (not32 (aj_buttons_state a)) 0xFF) in
    (changed, m, set_buttons_changed false a, set_output_count 4 h)
  else (changed, m, a, h).

(* [devices/common/adb/adbapplejack.cpp:79-91] *)
Definition set_register_3 (h : adb_host) (b : adb_base) : adb_base :=
  if input_byte h 1 =? APPLEJACK_HANDLER_ID then set_dev_handler_id (input_byte h 1) b else Mouse.set_register_3 h b.
End AppleJack.

(** ** Dispatch *)

Definition reset (d : adb_device) : adb_device :=
  match kind d with
  | AdbKeyboard _ => let '(b, k) := Keyboard.reset (base d) in mk_adb_device b (AdbKeyboard k)
  | AdbMouse m => let '(b, m) := Mouse.reset (base d) m in mk_adb_device b (AdbMouse m)
  | AdbAppleJack m _ => let '(b, m, a) := AppleJack.reset (base d) m in mk_adb_device b (AdbAppleJack m a)
  end.

Definition get_register_0 (d : adb_device) (h : adb_host) : answer :=
  match kind d with
  | AdbKeyboard k => let '(r, b, k, h) := Keyboard.get_register_0 (base d) k h in (r, mk_adb_device b (AdbKeyboard k), h)
  | AdbMouse m => let '(r, m, h) := Mouse.get_register_0 (base d) m h in (r, set_kind (AdbMouse m) d, h)
  | AdbAppleJack m a => let '(r, m, a, h) := AppleJack.get_register_0 (base d) m a h in (r, set_kind (AdbAppleJack m a) d, h)
  end.

(* [devices/common/adb/adbdevice.h:60-60] *)
Definition get_register_1 (d : adb_device) (h : adb_host) : answer :=
  match kind d with
  | AdbKeyboard _ => no_answer d h
  | AdbMouse m | AdbAppleJack m _ => (true, d, Mouse.get_register_1 m h)
  end.

(* [devices/common/adb/adbdevice.h:61-61] *)
Definition get_register_2 (d : adb_device) (h : adb_host) : answer :=
  match kind d with
  | AdbKeyboard k => (true, d, Keyboard.get_register_2 (base d) k h)
  | _ => no_answer d h
  end.

(* [devices/common/adb/adbdevice.cpp:58-81] *)
Definition talk (now dev_addr reg_num : Z) (d : adb_device) (h : adb_host) : answer :=
  if (dev_addr =? my_addr (base d)) && negb (got_collision (base d)) then
    if got_answer h then (false, upd_base (set_got_collision true) d, h)
    else
      let r := Z.land reg_num 3 in
      if r =? 0 then get_register_0 d h
      else if r =? 1 then get_register_1 d h
      else if r =? 2 then get_register_2 d h
      else get_register_3 now d h
  else no_answer d h.

(* [devices/common/adb/adbdevice.cpp:83-101] *)
Definition listen (dev_addr reg_num : Z) (h : adb_host) (d : adb_device) : adb_device :=
  if dev_addr =? my_addr (base d) then
    let r := Z.land reg_num 3 in
    if r =? 2 then
      match kind d with AdbKeyboard _ => upd_base (Keyboard.set_register_2 h) d | _ => d end
    else if (r =? 3) && (2 <=? input_count h) then
      upd_base (match kind d with
                | AdbKeyboard _ => Keyboard.set_register_3 h
                | AdbMouse _ => Mouse.set_register_3 h
                | AdbAppleJack _ _ => AppleJack.set_register_3 h
                end) d
    else d
  else d.

(** The Talk command of a device that has data, or 0. *)
(* [devices/common/adb/adbdevice.cpp:43-56 poll] *)
Definition poll_device (d : adb_device) (h : adb_host) : Z * adb_device * adb_host :=
  if srq_flag (base d) =? 0 then (0, d, h)
  else
    let '(has_data, d, h) := get_register_0 d h in
    (if has_data then u8 (Z.lor 0xC (Z.shiftl (my_addr (base d)) 4)) else 0, d, h).

(** ** The bus *)

Record adb_bus := mk_adb_bus {
  devices : list adb_device;
  host : adb_host
}.

(* [devices/common/adb/adbbus.cpp:61-63] *)
Definition register_device (d : adb_device) (s : adb_bus) : adb_bus := mk_adb_bus (devices s ++ [d]) (host s).

(* [devices/common/adb/adbbus.cpp:65-73 dev_poll] *)
Fixpoint poll_devices (ds : list adb_device) (h : adb_host) : Z * list adb_device * adb_host :=
  match ds with
  | [] => (0, [], h)
  | d :: ds =>
      let '(dev_poll, d, h) := poll_device d h in
      if negb (dev_poll =? 0) then (dev_poll, d :: ds, h)
      else let '(r, ds, h) := poll_devices ds h in (r, d :: ds, h)
  end.
(* [devices/common/adb/adbbus.cpp:65-73] *)
Definition poll (s : adb_bus) : Z * adb_bus :=
  let '(r, ds, h) := poll_devices (devices s) (host s) in (r, mk_adb_bus ds h).

(* [devices/common/adb/adbbus.cpp:113-118 got_answer] *)
Fixpoint talk_devices (now dev_addr dev_reg : Z) (ds : list adb_device) (h : adb_host) : list adb_device * adb_host :=
  match ds with
  | [] => ([], h)
  | d :: ds =>
      let '(r, d, h) := talk now dev_addr dev_reg d h in
      let h := set_got_answer r h in
      if r then (d :: ds, h)
      else let '(ds, h) := talk_devices now dev_addr dev_reg ds h in (d :: ds, h)
  end.

(** [in_data] starts with the command byte. *)
(* [devices/common/adb/adbbus.cpp:75-129] *)
Definition process_command (now : Z) (in_data : list Z) (data_size : Z) (s : adb_bus) : Z * adb_bus :=
  let h := set_output_count 0 (host s) in
  if data_size =? 0 then (ADB_STAT_OK, mk_adb_bus (devices s) h)
  else
    let cmd_byte := nth 0 in_data 0 in
    let cmd := Z.land cmd_byte 0xF in
    let dev_addr := Z.shiftr cmd_byte 4 in
    let dev_reg := Z.land cmd_byte 3 in
    if cmd =? 0 then (ADB_STAT_OK, mk_adb_bus (map reset (devices s)) h)
    else if cmd =? 1 then (ADB_STAT_OK, mk_adb_bus (devices s) h)
    else if Z.land cmd 0xC =? 8 then
      let h := set_input_count (u8 (data_size - 1)) (set_input_buf (drop 1 in_data) h) in
      (ADB_STAT_OK, mk_adb_bus (map (listen dev_addr dev_reg h) (devices s)) h)
    else if Z.land cmd 0xC =? 0xC then
      let '(ds, h) := talk_devices now dev_addr dev_reg (devices s) (set_got_answer false h) in
      (if negb (got_answer h) then ADB_STAT_TIMEOUT else ADB_STAT_OK, mk_adb_bus ds h)
    else (ADB_STAT_OK, mk_adb_bus (devices s) h).
