(* ===== verification/AdbProps.v ===== *)
(** * What the devices of the Apple Desktop Bus tell the host

    Key events arrive in order and none is lost; a mouse report decodes to the
    motion since the last one and the buttons. *)
From S2P Require Import Prelude Word Adb.

(** ** One device among others *)

(** The devices before it in the list have other addresses. *)
Definition others (addr : Z) (ds : list adb_device) : Prop := Forall (fun d => my_addr (base d) <> addr) ds.

Lemma talk_others now addr reg ds1 ds2 h : others addr ds1 ->
  talk_devices now addr reg (ds1 ++ ds2) h =
  let '(ds, h) := talk_devices now addr reg ds2 (match ds1 with [] => h | _ => set_got_answer false h end) in (ds1 ++ ds, h).
Proof.
  revert h. induction ds1 as [|d ds1 IH]; intros h Ho; [by destruct (talk_devices _ _ _ _ _)|].
  apply Forall_cons_1 in Ho as [Hd Ho]. cbn [talk_devices app]. unfold talk at 1.
  rewrite (proj2 (Z.eqb_neq _ _)) by congruence. cbn [andb no_answer].
  rewrite IH by done. destruct ds1; by destruct (talk_devices _ _ _ _ _).
Qed.

(** [Talk] register [reg] of the device at [addr]. *)
Definition Talk (addr reg : Z) : Z := Z.lor (Z.shiftl addr 4) (Z.lor 0xC reg).

Lemma talk_fields addr reg : 0 <= addr < 16 -> 0 <= reg < 4 ->
  Z.land (Talk addr reg) 0xF = Z.lor 0xC reg /\ Z.shiftr (Talk addr reg) 4 = addr /\ Z.land (Talk addr reg) 3 = reg.
Proof.
  intros Ha Hr. pose proof (range_forall2 16 4 (fun a r => (Z.land (Talk a r) 0xF =? Z.lor 0xC r) && (Z.shiftr (Talk a r) 4 =? a) && (Z.land (Talk a r) 3 =? r))
    ltac:(by vm_compute) addr reg ltac:(lia) ltac:(lia)) as H.
  cbv beta in H. bool_to_prop. by split_and!.
Qed.

Lemma talk_command now addr reg s : 0 <= addr < 16 -> 0 <= reg < 4 ->
  process_command now [Talk addr reg] 1 s =
  let '(ds, h) := talk_devices now addr reg (devices s) (set_got_answer false (set_output_count 0 (host s))) in
  (if negb (got_answer h) then ADB_STAT_TIMEOUT else ADB_STAT_OK, mk_adb_bus ds h).
Proof.
  intros Ha Hr. destruct (talk_fields addr reg Ha Hr) as (E1 & E2 & E3). unfold process_command.
  change (1 =? 0) with false. cbn [nth]. cbv iota zeta. rewrite E1, E2, E3.
  assert ((Z.lor 0xC reg =? 0) = false /\ (Z.lor 0xC reg =? 1) = false /\ (Z.land (Z.lor 0xC reg) 0xC =? 8) = false /\
          (Z.land (Z.lor 0xC reg) 0xC =? 0xC) = true) as (-> & -> & -> & ->); [|done].
  assert (reg = 0 \/ reg = 1 \/ reg = 2 \/ reg = 3) as [-> | [-> | [-> | ->]]] by lia; done.
Qed.

(** Talk to the device that owns the address. *)
Lemma talk_owner now addr reg ds1 d ds2 h r d' h' : 0 <= addr < 16 -> 0 <= reg < 4 -> others addr ds1 ->
  (forall h1, output_buf h1 = output_buf h -> output_count h1 = 0 -> got_answer h1 = false -> input_buf h1 = input_buf h -> input_count h1 = input_count h ->
     talk now addr reg d h1 = (r, d', h')) -> (r = false -> others addr ds2) ->
  exists h2, process_command now [Talk addr reg] 1 (mk_adb_bus (ds1 ++ d :: ds2) h) =
      (if r then ADB_STAT_OK else ADB_STAT_TIMEOUT, mk_adb_bus (ds1 ++ d' :: ds2) h2) /\
    output_buf h2 = output_buf h' /\ output_count h2 = output_count h'.
Proof.
  intros Ha Hr Ho Ht Hf. rewrite talk_command by done. cbn [devices host]. rewrite talk_others by done.
  set (h1 := match ds1 with [] => _ | _ => _ end). assert (talk now addr reg d h1 = (r, d', h')) as Et.
  { apply Ht; unfold h1; by destruct ds1. }
  cbn [talk_devices]. rewrite Et. destruct r; [by exists (set_got_answer true h')|].
  exists (set_got_answer false h'). pose proof (talk_others now addr reg ds2 [] (set_got_answer false h') (Hf eq_refl)) as E.
  rewrite app_nil_r in E. rewrite E. by destruct ds2; cbn; rewrite ?app_nil_r.
Qed.

(** ** The keyboard is a queue *)

(** The code of an event. *)
Definition key_code (e : KeyboardEvent) : Z :=
  let key := if ke_key e =? AdbKey.RightControl then AdbKey.Control
             else if ke_key e =? AdbKey.RightShift then AdbKey.Shift
             else if ke_key e =? AdbKey.RightOption then AdbKey.Option_ else ke_key e in
  Z.lor (Z.shiftl (if test (ke_flags e) KEYBOARD_EVENT_UP then 1 else 0) 7) (Z.land key 0x7F).

(** What the host reads: two codes at a time, 0xFF after the last. *)
Fixpoint key_pairs (es : list KeyboardEvent) : list (Z * Z) :=
  match es with
  | [] => []
  | [e] => [(key_code e, 0xFF)]
  | e1 :: e2 :: es => (key_code e1, key_code e2) :: key_pairs es
  end.

Section Keyboard.
Variable now : Z.
Variables ds1 ds2 : list adb_device.
Hypothesis others1 : others ADB_ADDR_KBD ds1.
Hypothesis others2 : others ADB_ADDR_KBD ds2.

Definition kbd_at (b : adb_base) : Prop := my_addr b = ADB_ADDR_KBD /\ got_collision b = false /\ dev_handler_id b <> 3.
Definition kbd_bus (b : adb_base) (k : keyboard) (h : adb_host) : adb_bus :=
  mk_adb_bus (ds1 ++ mk_adb_device b (AdbKeyboard k) :: ds2) h.

Lemma consume_code b e es n : dev_handler_id b <> 3 ->
  Keyboard.consume_pending_event b (mk_keyboard (e :: es) n) = (key_code e, mk_keyboard es n).
Proof.
  intros H. unfold Keyboard.consume_pending_event. cbn [pending_events]. by rewrite (proj2 (Z.eqb_neq _ _) H).
Qed.

(** One Talk. *)
Lemma talk_keys b k h : kbd_at b -> exists h',
  process_command now [Talk ADB_ADDR_KBD 0] 1 (kbd_bus b k h) =
  match pending_events k with
  | [] => (ADB_STAT_TIMEOUT, kbd_bus b k h')
  | es => (ADB_STAT_OK, kbd_bus (if (length es <=? 2)%nat then set_srq_flag 0 b else b) (set_pending_events (drop 2 es) k) h')
  end /\
  match key_pairs (pending_events k) with
  | [] => output_count h' = 0
  | (c1, c2) :: _ => output_count h' = 2 /\ (output_buf h').[0] = c1 /\ (output_buf h').[1] = c2
  end.
Proof.
  intros (Ha & Hc & Hi). destruct k as [es n]. unfold kbd_bus.
  set (h1 := set_got_answer false (set_output_count 0 h)).
  destruct es as [|e1 es].
  - destruct (talk_owner now ADB_ADDR_KBD 0 ds1 (mk_adb_device b (AdbKeyboard (mk_keyboard [] n))) ds2 h false
      (mk_adb_device b (AdbKeyboard (mk_keyboard [] n))) h1) as (h2 & E & Eb & Ec); try done.
    { intros [g i o ic oc] H1 H2 H3 H4 H5. cbn in H1, H2, H3, H4, H5. subst. unfold talk. cbn [base]. rewrite Ha, Hc. cbn. by destruct h. }
    exists h2. split; [exact E|]. by rewrite Ec.
  - set (h' := set_output_count 2 (write_out (write_out h1 0 (key_code e1)) 1 (match es with [] => 0xFF | e2 :: _ => key_code e2 end))).
    destruct (talk_owner now ADB_ADDR_KBD 0 ds1 (mk_adb_device b (AdbKeyboard (mk_keyboard (e1 :: es) n))) ds2 h true
      (mk_adb_device (if (length (e1 :: es) <=? 2)%nat then set_srq_flag 0 b else b) (AdbKeyboard (mk_keyboard (drop 2 (e1 :: es)) n))) h')
      as (h2 & E & Eb & Ec); try done.
    { intros [g i o ic oc] H1 H2 H3 H4 H5. cbn in H1, H2, H3, H4, H5. subst. unfold talk. cbn [base kind]. rewrite Ha, Hc. cbn [Z.eqb Pos.eqb andb negb got_answer].
      change (Z.land 0 3 =? 0) with true. cbv iota. unfold get_register_0. cbn [kind base]. unfold Keyboard.get_register_0. cbn [pending_events].
      rewrite consume_code by done. destruct es as [|e2 es]; [by destruct h|]. rewrite consume_code by done. cbn [pending_events].
      destruct es as [|e3 es]; by destruct h. }
    exists h2. split; [exact E|]. destruct es as [|e2 es]; cbn [pending_events key_pairs]; rewrite Ec, Eb; cbn [output_count output_buf h' set_output_count write_out set_output_buf];
      rewrite ?rget_rset_eq, ?rget_rset_ne by done; rewrite ?rget_rset_eq; done.
Qed.

(** Talking until the keyboard has nothing to say. *)
Fixpoint drain (fuel : nat) (s : adb_bus) : list (Z * Z) * adb_bus :=
  match fuel with
  | O => ([], s)
  | S fuel =>
      let '(stat, s) := process_command now [Talk ADB_ADDR_KBD 0] 1 s in
      if stat =? ADB_STAT_TIMEOUT then ([], s)
      else let '(l, s') := drain fuel s in (((output_buf (host s)).[0], (output_buf (host s)).[1]) :: l, s')
  end.

Lemma drain_keys fuel : forall b k h, kbd_at b -> (length (pending_events k) < fuel)%nat ->
  exists h' b', drain fuel (kbd_bus b k h) = (key_pairs (pending_events k), kbd_bus b' (set_pending_events [] k) h') /\
    kbd_at b' /\ (if pending_events k is [] then b' = b else srq_flag b' = 0).
Proof.
  induction fuel as [|fuel IH]; intros b k h Hb Hf; [lia|]. destruct (talk_keys b k h Hb) as (h1 & E & Ho).
  cbn [drain]. rewrite E. destruct k as [es n]. cbn [pending_events] in *. destruct es as [|e1 es].
  - by exists h1, b.
  - change (ADB_STAT_OK =? ADB_STAT_TIMEOUT) with false. cbv iota.
    set (b1 := if (length (e1 :: es) <=? 2)%nat then _ else _).
    assert (kbd_at b1) as Hb1 by (unfold b1; destruct (_ <=? _)%nat; exact Hb).
    destruct (IH b1 (set_pending_events (drop 2 (e1 :: es)) (mk_keyboard (e1 :: es) n)) h1 Hb1) as (h' & b' & E' & Hb' & Hs).
    { cbn [set_pending_events pending_events]. rewrite length_drop. cbn [length] in *. lia. }
    rewrite E'. exists h', b'. cbn [set_pending_events pending_events keys_down host kbd_bus] in *.
    destruct es as [|e2 es]; cbn [key_pairs drop] in *; destruct Ho as (_ & -> & ->); (split; [done|]); (split; [exact Hb'|]).
    + by rewrite Hs.
    + destruct es as [|e3 es]; [by rewrite Hs | done].
Qed.
End Keyboard.

(** The host's side of a key press: the event manager hands the events over. *)
Fixpoint post_keys (es : list KeyboardEvent) (b : adb_base) (k : keyboard) : option (adb_base * keyboard) :=
  match es with
  | [] => Some (b, k)
  | e :: es => match Keyboard.event_handler e b k with Some (b, k) => post_keys es b k | None => None end
  end.

Lemma post_keys_queue es : forall b k, Forall (fun e => 0 <= ke_key e < 128) es ->
  exists b' n, post_keys es b k = Some (b', mk_keyboard (pending_events k ++ es) n) /\
    (kbd_at b -> kbd_at b') /\ (srq_flag b = 1 \/ (pending_events k = [] /\ es <> []) -> srq_flag b' = 1).
Proof.
  induction es as [|e es IH]; intros b [p n] Hes; [exists b, n; rewrite app_nil_r; split_and!; [done | done | by intros [?|[]]]|].
  apply Forall_cons_1 in Hes as [He Hes]. cbn [post_keys]. unfold Keyboard.event_handler.
  rewrite (proj2 (Z.leb_gt _ _)) by lia. cbn [pending_events set_pending_events set_keys_down keys_down].
  set (b1 := if (length (p ++ [e]) =? 1)%nat then set_srq_flag 1 b else b).
  match goal with |- context [post_keys es b1 ?k1] => destruct (IH b1 k1 Hes) as (b' & n' & E & Hk & Hs) end.
  exists b', n'. rewrite E. cbn [pending_events set_pending_events]. split; [by rewrite <- app_assoc|]. split.
  - intros Hb. apply Hk. unfold b1. destruct (_ =? _)%nat; exact Hb.
  - intros H. apply Hs. left. unfold b1. destruct H as [H|[-> _]]; [|done]. by destruct (_ =? _)%nat.
Qed.

(** The keyboard is a first-in first-out queue.  Whatever other devices share the bus, after any sequence of key events the host, talking to the keyboard until it does not answer, reads the code of every event in order, two at a time and 0xFF after an odd last one; the keyboard asks for service until then and no longer. *)
Theorem adb_keyboard_fifo now ds1 ds2 b n h es : others ADB_ADDR_KBD ds1 -> others ADB_ADDR_KBD ds2 ->
  kbd_at b -> Forall (fun e => 0 <= ke_key e < 128) es -> es <> [] ->
  exists b1 n1 b2 h2, post_keys es b (mk_keyboard [] n) = Some (b1, mk_keyboard es n1) /\ srq_flag b1 = 1 /\
    drain now (1 + length es) (kbd_bus ds1 ds2 b1 (mk_keyboard es n1) h) =
      (key_pairs es, kbd_bus ds1 ds2 b2 (mk_keyboard [] n1) h2) /\ srq_flag b2 = 0.
Proof.
  intros H1 H2 Hb Hes Hne. destruct (post_keys_queue es b (mk_keyboard [] n) Hes) as (b1 & n1 & E & Hk & Hs).
  destruct (drain_keys now ds1 ds2 H1 H2 (1 + length es) b1 (mk_keyboard es n1) h (Hk Hb)) as (h2 & b2 & E2 & _ & H0).
  { cbn [pending_events]. lia. }
  exists b1, n1, b2, h2. split; [exact E|]. split; [apply Hs; by right|]. split; [exact E2|].
  cbn [pending_events] in H0. by destruct es.
Qed.

(** ** The mouse *)

(** One byte, or half a byte, of a report. *)
Lemma packed n v b old : 0 <= n -> Z.lor (Z.lor (Z.land v (Z.shiftl 1 n - 1)) (Z.shiftl (Z.land b 1) n)) (Z.shiftl old (n + 1)) =
  v mod 2 ^ n + 2 ^ n * (b mod 2) + 2 ^ (n + 1) * old.
Proof.
  intros Hn. rewrite (Z.shiftl_1_l n). change (2 ^ n - 1) with (Z.pred (2 ^ n)). rewrite <- Z.ones_equiv, land_ones_mod by done.
  change 1 with (Z.ones 1) at 1. rewrite land_ones_mod by lia. change (2 ^ 1) with 2. rewrite !Z.shiftl_mul_pow2 by lia.
  pose proof (Z.mod_pos_bound v (2 ^ n) ltac:(lia)). pose proof (Z.mod_pos_bound b 2 ltac:(lia)).
  rewrite (Z.mul_comm (b mod 2)), (Z.mul_comm old), (Z.lor_comm (v mod 2 ^ n)), lor_low by done.
  rewrite Z.lor_comm, lor_low; [lia | lia |]. rewrite Z.pow_add_r by lia. nia.
Qed.

Lemma packed_byte v b old : 
  u8 (Z.lor (Z.lor (Z.land v (Z.shiftl 1 7 - 1)) (Z.shiftl (Z.land b 1) 7)) (Z.shiftl old (7 + 1))) = v mod 128 + 128 * (b mod 2).
Proof. rewrite packed by done. unfold u8, uwrap. change (2 ^ 7) with 128. change (2 ^ (7 + 1)) with 256. change (2 ^ 8) with 256. zlia. Qed.
Lemma packed_half v b old : 
  u8 (Z.lor (Z.lor (Z.land v (Z.shiftl 1 3 - 1)) (Z.shiftl (Z.land b 1) 3)) (Z.shiftl old (3 + 1))) = v mod 8 + 8 * (b mod 2) + 16 * (old mod 16).
Proof. rewrite packed by done. unfold u8, uwrap. change (2 ^ 3) with 8. change (2 ^ (3 + 1)) with 16. change (2 ^ 8) with 256. zlia. Qed.

(** A packet of [7 + 3 * g] bits an axis, as the host takes it apart: the low seven
    bits in a byte per axis, three more bits in half a byte each. *)
Definition axis_part (out : gmap Z Z) (axis : Z) (k : nat) : Z :=
  if axis =? 0 then out.[2 + Z.of_nat k] / 16 mod 8 else out.[2 + Z.of_nat k] mod 8.
Fixpoint axis_high (out : gmap Z Z) (axis : Z) (g : nat) : Z :=
  match g with O => 0 | S g => axis_high out axis g + 2 ^ (7 + 3 * Z.of_nat g) * axis_part out axis g end.
Definition signed (n v : Z) : Z := if v <? 2 ^ (n - 1) then v else v - 2 ^ n.
Definition decode_axis (out : gmap Z Z) (axis : Z) (g : nat) : Z :=
  signed (7 + 3 * Z.of_nat g) (out.[axis] mod 128 + axis_high out axis g).
(** The bit of button [i], 1 when it is not pressed. *)
Definition button_bit (out : gmap Z Z) (i : Z) : bool :=
  if i <? 2 then Z.testbit out.[i] 7 else Z.testbit out.[1 + i / 2] (if Z.even i then 7 else 3).

Lemma half_bytes g : forall fuel p v button buttons out, (g < fuel)%nat ->
  exists out', Mouse.axis_bytes fuel p 3 v button (3 * Z.of_nat g) buttons out = (p + Z.of_nat g, out') /\
    (forall i, i < p \/ p + Z.of_nat g <= i -> out'.[i] = out.[i]) /\
    forall k, (k < g)%nat -> out'.[p + Z.of_nat k] =
      (v / 2 ^ (3 * Z.of_nat k)) mod 8 + 8 * (Z.shiftr buttons (button + 2 * Z.of_nat k) mod 2) + 16 * (out.[p + Z.of_nat k] mod 16).
Proof.
  induction g as [|g IH]; intros fuel p v button buttons out Hf; (destruct fuel as [|fuel]; [lia|]); cbn [Mouse.axis_bytes].
  - exists out. rewrite Z.add_0_r. split; [done|]. split; [done|]. lia.
  - rewrite (proj2 (Z.ltb_lt _ _)) by lia. change (3 =? 7) with false. cbv iota zeta. rewrite packed_half.
    replace (3 * Z.of_nat (S g) - 3) with (3 * Z.of_nat g) by lia. set (out1 := out.[p := _]).
    destruct (IH fuel (p + 1) (Z.shiftr v 3) (button + 2) buttons out1 ltac:(lia)) as (out' & E & Hsame & Hk).
    exists out'. split; [rewrite E; f_equal; lia|]. split.
    + intros i Hi. rewrite Hsame by lia. unfold out1. rewrite rget_rset_ne by lia. done.
    + intros k Hlt. destruct k as [|k].
      * rewrite Hsame by lia. rewrite Z.add_0_r, Z.mul_0_r, Z.add_0_r, Z.pow_0_r, Z.div_1_r. unfold out1. by rewrite rget_rset_eq.
      * replace (p + Z.of_nat (S k)) with (p + 1 + Z.of_nat k) by lia. rewrite Hk by lia. unfold out1. rewrite rget_rset_ne by lia.
        rewrite (Z.shiftr_div_pow2 v 3), (Z.div_div v (2 ^ 3)), <- Z.pow_add_r by lia.
        replace (3 + 3 * Z.of_nat k) with (3 * Z.of_nat (S k)) by lia.
        by replace (button + 2 + 2 * Z.of_nat k) with (button + 2 * Z.of_nat (S k)) by lia.
Qed.

Lemma axis_bytes_eq (g : nat) axis v buttons out : (g <= 3)%nat -> axis = 0 \/ axis = 1 ->
  let bit i := Z.shiftr buttons i mod 2 in
  exists out', Mouse.axis_bytes 6 axis 7 v axis (7 + 3 * Z.of_nat g) buttons out = (2 + Z.of_nat g, out') /\
    out'.[axis] = v mod 128 + 128 * bit axis /\ out'.[1 - axis] = out.[1 - axis] /\
    forall k, (k < g)%nat -> out'.[2 + Z.of_nat k] =
      (v / 2 ^ (7 + 3 * Z.of_nat k)) mod 8 + 8 * bit (axis + 2 * Z.of_nat (S k)) + 16 * (out.[2 + Z.of_nat k] mod 16).
Proof.
  intros Hg Ha bit. cbn [Mouse.axis_bytes]. rewrite (proj2 (Z.ltb_lt _ _)) by lia. change (7 =? 7) with true. cbv iota zeta.
  rewrite packed_byte. replace (7 + 3 * Z.of_nat g - 7) with (3 * Z.of_nat g) by lia. set (out1 := out.[axis := _]).
  destruct (half_bytes g 5 2 (Z.shiftr v 7) (axis + 2) buttons out1 ltac:(lia)) as (out' & E & Hsame & Hk).
  exists out'. split; [exact E|]. split; [|split].
  - rewrite Hsame by lia. unfold out1. by rewrite rget_rset_eq.
  - rewrite Hsame by lia. unfold out1. by rewrite rget_rset_ne by lia.
  - intros k Hlt. rewrite Hk by done. unfold out1. rewrite rget_rset_ne by lia. rewrite (Z.shiftr_div_pow2 v 7), (Z.div_div v (2 ^ 7)), <- Z.pow_add_r by lia.
    by replace (axis + 2 + 2 * Z.of_nat k) with (axis + 2 * Z.of_nat (S k)) by lia.
Qed.

Lemma signed_mod n v : 0 < n -> - 2 ^ (n - 1) <= v < 2 ^ (n - 1) -> signed n (v mod 2 ^ n) = v.
Proof.
  intros Hn Hv. assert (2 ^ n = 2 * 2 ^ (n - 1)) as E by (rewrite <- Z.pow_succ_r by lia; f_equal; lia). unfold signed. rewrite E.
  destruct (Z.leb_spec 0 v).
  - rewrite Z.mod_small by lia. case_if; lia.
  - replace (v mod _) with (v + 2 * 2 ^ (n - 1)); [case_if; lia|]. apply Z.mod_unique_pos with (-1); lia.
Qed.

Lemma high_part out axis v g : (forall k, (k < g)%nat -> axis_part out axis k = (v / 2 ^ (7 + 3 * Z.of_nat k)) mod 8) ->
  v mod 128 + axis_high out axis g = v mod 2 ^ (7 + 3 * Z.of_nat g).
Proof.
  induction g as [|g IH]; intros Hk; cbn [axis_high]; [by rewrite Z.add_0_r|].
  rewrite Z.add_assoc, IH by (intros; apply Hk; lia). rewrite Hk by lia.
  replace (7 + 3 * Z.of_nat (S g)) with (7 + 3 * Z.of_nat g + 3) by lia. rewrite (Z.pow_add_r 2 _ 3) by lia.
  by rewrite Z.rem_mul_r by lia.
Qed.

(** The fields of a byte and of two half bytes. *)
Lemma byte_fields a b : 0 <= a < 128 -> 0 <= b < 2 -> (a + 128 * b) mod 128 = a /\ Z.testbit (a + 128 * b) 7 = (b =? 1).
Proof. intros. rewrite Z.testbit_eqb by lia. change (2 ^ 7) with 128. split; [zlia|]. f_equal. zlia. Qed.

Lemma half_fields a b c d : 0 <= a < 8 -> 0 <= b < 2 -> 0 <= c < 8 -> 0 <= d < 2 -> let x := a + 8 * b + 16 * (c + 8 * d) in
  x mod 8 = a /\ x / 16 mod 8 = c /\ Z.testbit x 3 = (b =? 1) /\ Z.testbit x 7 = (d =? 1).
Proof.
  intros. unfold x. rewrite !Z.testbit_eqb by lia. change (2 ^ 3) with 8. change (2 ^ 7) with 128.
  assert (x / 8 mod 2 = b /\ x / 128 mod 2 = d) as [E1 E2] by (unfold x; zlia). fold x. rewrite E1, E2. unfold x. split_and!; zlia || done.
Qed.

Lemma half_mod a b c : 0 <= a < 8 -> 0 <= b < 2 -> (a + 8 * b + 16 * c) mod 16 = a + 8 * b.
Proof. intros. zlia. Qed.

Lemma report_bytes g vy vx buttons out : (g <= 3)%nat -> 0 <= buttons ->
  exists out', (let '(_, o) := Mouse.axis_bytes 6 0 7 vy 0 (7 + 3 * Z.of_nat g) buttons out in
      Mouse.axis_bytes 6 1 7 vx 1 (7 + 3 * Z.of_nat g) buttons o) = (2 + Z.of_nat g, out') /\
    out'.[0] mod 128 + axis_high out' 0 g = vy mod 2 ^ (7 + 3 * Z.of_nat g) /\
    out'.[1] mod 128 + axis_high out' 1 g = vx mod 2 ^ (7 + 3 * Z.of_nat g) /\
    forall i, 0 <= i < 2 + 2 * Z.of_nat g -> button_bit out' i = Z.testbit buttons i.
Proof.
  intros Hg Hb.
  destruct (axis_bytes_eq g 0 vy buttons out Hg (or_introl eq_refl)) as (o & E0 & Y0 & _ & Yk).
  destruct (axis_bytes_eq g 1 vx buttons o Hg (or_intror eq_refl)) as (o' & E1 & X1 & X0 & Xk).
  change (1 - 1) with 0 in X0. rewrite Y0 in X0. exists o'. rewrite E0. split; [exact E1|].
  set (bit i := Z.shiftr buttons i mod 2). change (o'.[0] = vy mod 128 + 128 * bit 0) in X0. change (o'.[1] = vx mod 128 + 128 * bit 1) in X1.
  assert (forall i, 0 <= bit i < 2) as Hbit by (intros; apply Z.mod_pos_bound; lia).
  assert (forall i, 0 <= i -> Z.testbit buttons i = (bit i =? 1)) as Ht.
  { intros i Hi. rewrite <- (Z.add_0_l i), <- Z.shiftr_spec by lia. rewrite Z.bit0_odd. unfold bit. by rewrite Zmod_odd; destruct (Z.odd _). }
  assert (forall k, 0 <= (vy / 2 ^ (7 + 3 * Z.of_nat k)) mod 8 < 8 /\ 0 <= (vx / 2 ^ (7 + 3 * Z.of_nat k)) mod 8 < 8) as Hpart.
  { intros k. split; apply Z.mod_pos_bound; lia. }
  assert (forall k, (k < g)%nat -> o'.[2 + Z.of_nat k] = (vx / 2 ^ (7 + 3 * Z.of_nat k)) mod 8 + 8 * bit (1 + 2 * Z.of_nat (S k)) +
     16 * ((vy / 2 ^ (7 + 3 * Z.of_nat k)) mod 8 + 8 * bit (0 + 2 * Z.of_nat (S k)))) as Hk.
  { intros k Hlt. rewrite Xk, Yk by done. pose proof (Hbit (0 + 2 * Z.of_nat (S k))) as H0. destruct (Hpart k) as [H1 _].
    by rewrite (half_mod _ _ _ H1 H0). }
  assert (forall k, (k < g)%nat -> axis_part o' 0 k = (vy / 2 ^ (7 + 3 * Z.of_nat k)) mod 8 /\ axis_part o' 1 k = (vx / 2 ^ (7 + 3 * Z.of_nat k)) mod 8 /\
     Z.testbit o'.[2 + Z.of_nat k] 3 = (bit (1 + 2 * Z.of_nat (S k)) =? 1) /\ Z.testbit o'.[2 + Z.of_nat k] 7 = (bit (0 + 2 * Z.of_nat (S k)) =? 1)) as Hpk.
  { intros k Hlt. unfold axis_part. cbn [Z.eqb]. rewrite Hk by done. destruct (Hpart k) as [P0 P1].
    destruct (half_fields _ _ _ _ P1 (Hbit (1 + 2 * Z.of_nat (S k))) P0 (Hbit (0 + 2 * Z.of_nat (S k)))) as (-> & -> & -> & ->). done. }
  destruct (byte_fields (vy mod 128) (bit 0) (Z.mod_pos_bound vy 128 eq_refl) (Hbit 0)) as [By0 By7].
  destruct (byte_fields (vx mod 128) (bit 1) (Z.mod_pos_bound vx 128 eq_refl) (Hbit 1)) as [Bx0 Bx7].
  rewrite X0, X1, By0, Bx0. split; [apply high_part; intros k Hlt; apply (Hpk k Hlt)|].
  split; [apply high_part; intros k Hlt; apply (Hpk k Hlt)|]. intros i Hi. rewrite Ht by lia. unfold button_bit.
  destruct (Z.ltb_spec i 2) as [Hs|Hs].
  - assert (i = 0 \/ i = 1) as [-> | ->] by lia; [by rewrite X0 | by rewrite X1].
  - set (k := Z.to_nat (i / 2 - 1)). assert (k < g)%nat as Hlt by (unfold k; zlia).
    destruct (Hpk k Hlt) as (_ & _ & B3 & B7). assert (1 + i / 2 = 2 + Z.of_nat k) as -> by (unfold k; zlia).
    destruct (Z.even i) eqn:Ev; rewrite ?B3, ?B7; do 2 f_equal.
    + apply Z.even_spec in Ev as [q ->]. unfold k. zlia.
    + rewrite <- Z.negb_odd, negb_false_iff in Ev. apply Z.odd_spec in Ev as [q ->]. unfold k. zlia.
Qed.

(** A mouse or trackball as the driver configures them. *)
Definition mouse_ok (m : mouse) : Prop :=
  device_class m <> TABLET /\ 0 <= num_buttons m <= 8 /\ 7 <= num_bits m <= 16.
(** The groups of three bits that follow the first seven. *)
Definition groups (b : adb_base) (m : mouse) : nat := Z.to_nat (((Mouse.packet_bits b m).2 - 7) / 3).

Lemma packet_groups b m : mouse_ok m -> let '(nb, tb) := Mouse.packet_bits b m in
  tb = 7 + 3 * Z.of_nat (groups b m) /\ 7 <= nb <= tb /\ (groups b m <= 3)%nat.
Proof.
  intros (Hc & Hb & Hn). unfold groups, Mouse.packet_bits. destruct (_ && _); [change (Z.to_nat _) with 0%nat; lia|]. cbn [snd].
  pose proof (range_forall2 9 17 (fun x y => (y <? 7) || (let tb := Z.max (nth (Z.to_nat x) Mouse.buttons_to_bits 0) (nth (Z.to_nat y) Mouse.bits_to_bits 0) in
    (tb =? 7 + 3 * ((tb - 7) / 3)) && (y <=? tb) && (0 <=? (tb - 7) / 3) && ((tb - 7) / 3 <=? 3))) ltac:(by vm_compute) (num_buttons m) (num_bits m) ltac:(lia) ltac:(lia)) as H.
  cbv beta zeta in H. destruct (Z.ltb_spec (num_bits m) 7); [lia|]. cbn [orb] in H.
  set (tb := Z.max _ _) in *. set (q := (tb - 7) / 3) in *. clearbody q. bool_to_prop. lia.
Qed.

(** What the mouse has to tell. *)
Definition has_news (m : mouse) : bool := negb (x_rel m =? 0) || negb (y_rel m =? 0) || changed m.
Definition settle_mouse (m : mouse) : mouse := set_x_rel 0 (set_y_rel 0 (set_changed false m)).

Lemma clamp_range n v : 7 <= n -> - 2 ^ (n - 1) <= Mouse.clamp n v < 2 ^ (n - 1).
Proof. intros Hn. unfold Mouse.clamp. repeat case_if; lia. Qed.

(** A mouse report is decoded to what the mouse did.  Whatever other devices share
    the bus, the answer to a Talk, in the standard and in the extended protocol,
    carries the motion since the last one on both axes (saturated to the protocol's
    width) and the state of every button; then the mouse has nothing to say until
    it is moved or clicked again. *)
Theorem adb_mouse_report now ds1 ds2 b m h : others (my_addr b) ds1 -> others (my_addr b) ds2 ->
  0 <= my_addr b < 16 -> got_collision b = false -> mouse_ok m -> 
  let bus m := mk_adb_bus (ds1 ++ mk_adb_device b (AdbMouse m) :: ds2) in
  let nb := (Mouse.packet_bits b m).1 in
  exists h', process_command now [Talk (my_addr b) 0] 1 (bus m h) =
      (if has_news m then ADB_STAT_OK else ADB_STAT_TIMEOUT, bus (settle_mouse m) h') /\
    (has_news m = true ->
      output_count h' = 2 + Z.of_nat (groups b m) /\
      decode_axis (output_buf h') 0 (groups b m) = Mouse.clamp nb (y_rel m) /\
      decode_axis (output_buf h') 1 (groups b m) = Mouse.clamp nb (x_rel m) /\
      forall i, 0 <= i < 2 + 2 * Z.of_nat (groups b m) ->
        button_bit (output_buf h') i = negb (Z.testbit (buttons_state m) i)).
Proof.
  intros H1 H2 Ha Hc Hm bus nb. pose proof (packet_groups b m Hm) as Hp. destruct (Mouse.packet_bits b m) as [nb' tb] eqn:Ep.
  cbn [fst] in nb. subst nb. destruct Hp as (-> & Hnb & Hg). set (g := groups b m) in *.
  destruct (report_bytes g (Mouse.clamp nb' (y_rel m)) (Mouse.clamp nb' (x_rel m)) (u8 (Z.lnot (buttons_state m))) (output_buf h) Hg (proj1 (uwrap_range 8 _ ltac:(lia))))
    as (out & Eo & Y & X & B).
  destruct (has_news m) eqn:En.
  - set (h1 := set_output_count (2 + Z.of_nat g) (set_output_buf out (set_got_answer false h))).
    destruct (talk_owner now (my_addr b) 0 ds1 (mk_adb_device b (AdbMouse m)) ds2 h true (mk_adb_device b (AdbMouse (settle_mouse m))) h1)
      as (h2 & E & Eb & Ec); try done.
    { intros [gg i o ic oc] H3 H4 H5 H6 H7. cbn in H3, H4, H5, H6, H7. subst. unfold talk. cbn [base kind]. rewrite Z.eqb_refl, Hc.
      change (Z.land 0 3 =? 0) with true. cbn [andb negb got_answer]. cbv iota. unfold get_register_0. cbn [kind base].
      unfold Mouse.get_register_0, Mouse.report. rewrite orb_false_r. fold (has_news m). rewrite En, Ep.
      destruct Hm as (Hcl & _). rewrite (proj2 (Z.eqb_neq _ _) Hcl). cbn [Z.eqb output_buf].
      destruct (Mouse.axis_bytes 6 0 _ _ _ _ _ _) as [p0 o0]. rewrite Eo. cbn. rewrite (uwrap_small 8) by lia. by destruct h. }
    exists h2. split; [exact E|]. intros _. rewrite Ec, Eb. cbn [output_buf output_count h1 set_output_count set_output_buf].
    split; [done|]. unfold decode_axis. rewrite Y, X.
    pose proof (clamp_range nb' (y_rel m) ltac:(lia)) as Hy. pose proof (clamp_range nb' (x_rel m) ltac:(lia)) as Hx.
    assert (2 ^ (nb' - 1) <= 2 ^ (7 + 3 * Z.of_nat g - 1)) by (apply Z.pow_le_mono_r; lia).
    split; [apply signed_mod; lia|]. split; [apply signed_mod; lia|]. intros i Hi. rewrite B by done.
    rewrite testbit_uwrap, Z.lnot_spec by lia. by rewrite (proj2 (Z.ltb_lt i 8)) by lia.
  - destruct (talk_owner now (my_addr b) 0 ds1 (mk_adb_device b (AdbMouse m)) ds2 h false (mk_adb_device b (AdbMouse m)) (set_got_answer false (set_output_count 0 h)))
      as (h2 & E & Eb & Ec); try done.
    { intros [gg i o ic oc] H3 H4 H5 H6 H7. cbn in H3, H4, H5, H6, H7. subst. unfold talk. cbn [base kind]. rewrite Z.eqb_refl, Hc.
      change (Z.land 0 3 =? 0) with true. cbn [andb negb got_answer]. cbv iota. unfold get_register_0. cbn [kind base].
      unfold Mouse.get_register_0, Mouse.report. rewrite orb_false_r. fold (has_news m). rewrite En. by destruct h. }
    exists h2. split; [|done]. assert (settle_mouse m = m) as Hs; [|unfold bus; rewrite Hs; exact E].
    unfold has_news in En. bool_to_prop. unfold settle_mouse, set_x_rel, set_y_rel, set_changed. destruct m. cbn in *. congruence.
Qed.

(** ** Concrete devices *)

Definition demo_base (addr id : Z) : adb_base := mk_adb_base 1 0 7 addr id false.
Definition demo_host : adb_host := mk_adb_host false [] ∅ 0 0.
Definition demo_mouse : mouse := mk_mouse (-3) 700 0 0 1 false MOUSE 3 10 300.

Lemma adb_keyboard_fifo_witness : exists b1 n1 b2 h2,
  post_keys [mkKeyboardEvent 1 AdbKey.RightShift; mkKeyboardEvent 1 0; mkKeyboardEvent 2 0] (demo_base 2 2) (mk_keyboard [] 0) =
    Some (b1, mk_keyboard [mkKeyboardEvent 1 AdbKey.RightShift; mkKeyboardEvent 1 0; mkKeyboardEvent 2 0] n1) /\ srq_flag b1 = 1 /\
  drain 0 4 (kbd_bus [mk_adb_device (demo_base 3 2) (AdbMouse demo_mouse)] [] b1 (mk_keyboard [mkKeyboardEvent 1 AdbKey.RightShift; mkKeyboardEvent 1 0; mkKeyboardEvent 2 0] n1) demo_host) =
    ([(0x38, 0x00); (0x80, 0xFF)], kbd_bus [mk_adb_device (demo_base 3 2) (AdbMouse demo_mouse)] [] b2 (mk_keyboard [] n1) h2) /\ srq_flag b2 = 0.
Proof.
  apply (adb_keyboard_fifo 0 [mk_adb_device (demo_base 3 2) (AdbMouse demo_mouse)] [] (demo_base 2 2) 0 demo_host
    [mkKeyboardEvent 1 AdbKey.RightShift; mkKeyboardEvent 1 0; mkKeyboardEvent 2 0]).
  - by apply Forall_cons_2; [|apply Forall_nil_2].
  - apply Forall_nil_2.
  - by split_and!.
  - repeat (apply Forall_cons_2; [done|]). apply Forall_nil_2.
  - done.
Defined.

Lemma adb_mouse_report_witness : exists h',
  process_command 0 [0x3C] 1 (mk_adb_bus [mk_adb_device (demo_base 3 2) (AdbMouse demo_mouse)] demo_host) =
    (ADB_STAT_OK, mk_adb_bus [mk_adb_device (demo_base 3 2) (AdbMouse (settle_mouse demo_mouse))] h') /\
  (true = true -> output_count h' = 3 /\ decode_axis (output_buf h') 0 1 = 511 /\ decode_axis (output_buf h') 1 1 = -3 /\
    forall i, 0 <= i < 4 -> button_bit (output_buf h') i = negb (Z.testbit 1 i)).
Proof.
  apply (adb_mouse_report 0 [] [] (demo_base 3 2) demo_mouse demo_host); try apply Forall_nil_2; try done.
Defined.

(** ** Collisions and the gamepad *)

(** No Talk ever marks a device: the bus records an answer only after the device has
    answered, and then stops asking. *)
Lemma talk_no_collision now addr reg ds : forall h, got_answer h = false -> Forall (fun d => got_collision (base d) = false) ds ->
  Forall (fun d => got_collision (base d) = false) (talk_devices now addr reg ds h).1.
Proof.
  induction ds as [|d ds IH]; intros h Hh Hds; [done|]. apply Forall_cons_1 in Hds as [Hd Hds]. cbn [talk_devices].
  destruct (talk now addr reg d h) as [[r d'] h'] eqn:E.
  assert (got_collision (base d') = false) as Hd'.
  { unfold talk in E. rewrite Hh, Hd in E. cbn [negb] in E. rewrite andb_true_r in E.
    destruct (_ =? my_addr _); [|by injection E as <- <- <-].
    repeat match type of E with (if ?b then _ else _) = _ => destruct b end.
    - unfold get_register_0 in E. destruct (kind d) as [k|m|m a].
      + unfold Keyboard.get_register_0 in E. destruct (pending_events k); [by injection E as <- <- <-|].
        destruct (Keyboard.consume_pending_event _ _) as [v1 k1]. destruct (Keyboard.consume_pending_event _ _) as [v2 k2].
        destruct (pending_events k2); by injection E as <- <- <-.
      + destruct (Mouse.get_register_0 _ _ _) as [[r1 m1] h1]. by injection E as <- <- <-.
      + destruct (AppleJack.get_register_0 _ _ _ _) as [[[r1 m1] a1] h1]. by injection E as <- <- <-.
    - unfold get_register_1 in E. by destruct (kind d); injection E as <- <- <-.
    - unfold get_register_2 in E. by destruct (kind d); injection E as <- <- <-.
    - unfold get_register_3 in E. by injection E as <- <- <-. }
  destruct r; [by apply Forall_cons_2|]. specialize (IH (set_got_answer false h') eq_refl Hds).
  destruct (talk_devices now addr reg ds (set_got_answer false h')) as [ds' h'']. by apply Forall_cons_2.
Qed.

(** A gamepad used as a mouse that has seen one of its own buttons answers every Talk
    from then on. *)
Lemma applejack_never_quiet b m a h : dev_handler_id b <> APPLEJACK_HANDLER_ID -> buttons_changed a = true ->
  exists m' a' h', AppleJack.get_register_0 b m a h = (true, m', a', h') /\ buttons_changed a' = true.
Proof.
  intros Hid Hb. unfold AppleJack.get_register_0. rewrite Hb, orb_true_r. destruct (Mouse.report _ _ _ _ _) as [[r m'] h'].
  rewrite (proj2 (Z.eqb_neq _ _) Hid). cbn [andb orb]. by eexists _, _, _.
Qed.
