(* ===== verification/Nvram.v ===== *)
(** * Non-volatile memory and the Open Firmware configuration in it
    (devices/common/nvram.cpp, devices/common/ofnvram.cpp)

    The battery-backed memory with its file, the two layouts of the Open Firmware
    variables (Apple's of the Old World machines, CHRP's of the New World), and the
    debugger's setenv and printenv on them.  Strings are lists of bytes; messages are
    not modelled; an exception nobody catches ends the emulator ([Fatal]). *)
From Stdlib Require Import Ascii String.
From S2P Require Import Prelude Word MemCtrl HostMem.
Import Endian.
Open Scope list_scope.
Abbreviation length := List.length.

Definition str (s : string) : list Z := map (fun c => Z.of_nat (nat_of_ascii c)) (list_ascii_of_string s).

(** ** The memory and its file *)

(* [devices/common/nvram.h:52-54 ram_size] *)
Record NVram := mk_nvram {
  ram_size : Z;
  storage : gmap Z Z;
  of_nvram_offset : Z
}.
Definition set_ram_size (v : Z) (N : NVram) : NVram :=
  mk_nvram v (storage N) (of_nvram_offset N).
Definition set_storage (v : gmap Z Z) (N : NVram) : NVram :=
  mk_nvram (ram_size N) v (of_nvram_offset N).
Definition set_of_nvram_offset (v : Z) (N : NVram) : NVram :=
  mk_nvram (ram_size N) (storage N) v.

(* [devices/common/ofnvram.h:36-36] *)
Definition OF_NVRAM_OFFSET := 0x1800.
(* [devices/common/ofnvram.h:37-37] *)
Definition OF_NVRAM_SIG := 0x1275.
(* [devices/common/ofnvram.h:38-38] *)
Definition OF_CFG_SIZE := 0x800.

(** The array is null-terminated, and the terminator is part of the signature. *)
(* [devices/common/nvram.cpp:39-39] *)
Definition NVRAM_FILE_ID : list Z := str "CHUNGUSPPCNVRAM" ++ [0].

(* [devices/common/nvram.cpp:63-65] *)
Definition read_byte (offset : Z) (n : NVram) : Z := (storage n).[offset].
(* [devices/common/nvram.cpp:67-69] *)
Definition write_byte (offset val : Z) (n : NVram) : NVram := set_storage ((storage n).[offset := val]) n.

(** [file] is the content of the backing file, if it can be opened. *)
(* [devices/common/nvram.cpp:71-86] *)
Definition init (file : option (list Z)) (n : NVram) : NVram :=
  let fail := set_storage ∅ n in
  match file with
  | None => fail
  | Some f =>
      let sig := take 16 f in
      let f := drop 16 f in
      let size_bytes := take 2 f in
      let data := drop 2 f in
      if negb (length sig =? 16)%nat || negb (length size_bytes =? 2)%nat then fail
      else if negb (bool_decide (sig = NVRAM_FILE_ID)) || negb (le_val size_bytes =? ram_size n) then fail
      else if (length data <? Z.to_nat (ram_size n))%nat then fail
      else set_storage (memcpy 0 (take (Z.to_nat (ram_size n)) data) ∅) n
  end.

(** What the file holds afterwards. *)
(* [devices/common/nvram.cpp:88-103] *)
Definition save (is_deterministic : bool) (file : option (list Z)) (n : NVram) : option (list Z) :=
  if is_deterministic then file
  else Some (NVRAM_FILE_ID ++ [u8 (ram_size n); Z.shiftr (ram_size n) 8] ++ bytes_at (storage n) 0 (Z.to_nat (ram_size n))).

(* [devices/common/nvram.cpp:41-57 ram_size] *)
Definition new_nvram (ram_size : Z) (file : option (list Z)) : NVram :=
  init file (mk_nvram (u16 ram_size) ∅ (if ram_size =? 8192 then OF_NVRAM_OFFSET else 0)).

(** Grand Central's window on it: 32 bytes at an address held by another device. *)
(* [devices/ioctrl/macio.h:114-116 iodev_read] *)
Definition iodev_read (nvram_addr_hi address : Z) (n : NVram) : Z := read_byte (u32 (Z.shiftl nvram_addr_hi 5 + address)) n.
(* [devices/ioctrl/macio.h:118-120 iodev_write] *)
Definition iodev_write (nvram_addr_hi address value : Z) (n : NVram) : NVram := write_byte (u32 (Z.shiftl nvram_addr_hi 5 + address)) (u8 value) n.

(** ** Numbers *)

(* [devices/common/ofnvram.cpp:41-46] *)
Definition hex2str (n : Z) : list Z :=
  map (fun i => let d := Z.land (Z.shiftr n (4 * (7 - i))) 0xF in if d <? 10 then 48 + d else 87 + d) (zrange 8).

(** The standard library's conversion of a string to an unsigned number. *)
Inductive conv := Number (v : Z) | Invalid_argument | Out_of_range.

Definition digit (c : Z) : Z :=
  if (48 <=? c) && (c <=? 57) then c - 48
  else if (97 <=? c) && (c <=? 122) then c - 87
  else if (65 <=? c) && (c <=? 90) then c - 55
  else 36.

(** The value of the digits at the front, and their number. *)
Fixpoint digits (base acc : Z) (n : nat) (l : list Z) : Z * nat :=
  match l with
  | c :: l => if digit c <? base then digits base (acc * base + digit c) (S n) l else (acc, n)
  | [] => (acc, n)
  end.

Fixpoint skip_spaces (l : list Z) : list Z :=
  match l with c :: l' => if ((9 <=? c) && (c <=? 13)) || (c =? 32) then skip_spaces l' else l | [] => [] end.

(** [stoul(s, NULL, 0)] with a 64-bit [unsigned long]. *)
Definition stoul (s : list Z) : conv :=
  let s := skip_spaces s in
  let '(neg, s) := match s with
                   | c :: s' => if c =? 45 then (true, s') else if c =? 43 then (false, s') else (false, s)
                   | [] => (false, s)
                   end in
  let '(v, n) := match s with
                 | a :: b :: c :: s' => if (a =? 48) && ((b =? 120) || (b =? 88)) && (digit c <? 16) then digits 16 0 0 (c :: s')
                                        else if a =? 48 then digits 8 0 0 s else digits 10 0 0 s
                 | a :: _ => if a =? 48 then digits 8 0 0 s else digits 10 0 0 s
                 | [] => (0, O)
                 end in
  if (n =? 0)%nat then Invalid_argument
  else if 2 ^ 64 <=? v then Out_of_range
  else Number (if neg : bool then u64 (- v) else v).

(* [devices/common/ofnvram.cpp:48-59] *)
Definition str2env (num_str : list Z) : conv :=
  match stoul num_str with
  | Number v => Number (u32 v)
  | Out_of_range => Out_of_range
  | Invalid_argument =>
      match stoul (str "0x" ++ num_str) with
      | Number v => Number (u32 v)
      | e => e
      end
  end.

(** ** The configuration objects

    The members of [OfConfigAppl] and [OfConfigChrp], with the NVRAM both point to. *)
(* [devices/common/ofnvram.h:123-127 nvram_obj] *)
Record of_cfg := mk_of_cfg {
  nv : NVram;
  buf : gmap Z Z;
  size : Z;
  data_offset : Z;
  data_length : Z;
  config_vars : list (list Z * list Z)
}.
Definition set_nv (v : NVram) (o : of_cfg) : of_cfg :=
  mk_of_cfg v (buf o) (size o) (data_offset o) (data_length o) (config_vars o).
Definition set_buf (v : gmap Z Z) (o : of_cfg) : of_cfg :=
  mk_of_cfg (nv o) v (size o) (data_offset o) (data_length o) (config_vars o).
Definition set_size (v : Z) (o : of_cfg) : of_cfg :=
  mk_of_cfg (nv o) (buf o) v (data_offset o) (data_length o) (config_vars o).
Definition set_data_offset (v : Z) (o : of_cfg) : of_cfg :=
  mk_of_cfg (nv o) (buf o) (size o) v (data_length o) (config_vars o).
Definition set_data_length (v : Z) (o : of_cfg) : of_cfg :=
  mk_of_cfg (nv o) (buf o) (size o) (data_offset o) v (config_vars o).
Definition set_config_vars (v : list (list Z * list Z)) (o : of_cfg) : of_cfg :=
  mk_of_cfg (nv o) (buf o) (size o) (data_offset o) (data_length o) v.
Definition upd_cfg (f : of_cfg -> of_cfg) : M of_cfg unit := modify f.
Definition cfg_nv (c : of_cfg) (i : Z) : Z := read_byte (of_nvram_offset (nv c) + i) (nv c).

(** ** Apple's layout *)

Module Appl.
(** The checksum of the 16-bit words, the carries added once. *)
(* [devices/common/ofnvram.cpp:94-102] *)
Definition checksum_partition (c : of_cfg) : Z :=
  let acc := fold_left (fun acc i => u32 (acc + READ_WORD_BE_A (buf c) (2 * i))) (zrange (Z.to_nat ((size c + 1) / 2))) 0 in
  u16 (acc + Z.shiftr acc 16).

(* [devices/common/ofnvram.cpp:61-92] *)
Definition validate : M of_cfg bool :=
  c <- gets id ;;
  let hdr i := cfg_nv c i in
  let sig := Z.lor (Z.shiftl (hdr 0) 8) (hdr 1) in
  if negb (sig =? OF_NVRAM_SIG) || negb (hdr 2 =? 5) then ret false
  else
    upd_cfg (set_size (hdr 3 * 256)) ;;;
    c <- gets id ;;
    if negb (size c =? OF_CFG_SIZE) then ret false
    else
      upd_cfg (fun c => set_buf (memcpy 0 (map (cfg_nv c) (zrange (Z.to_nat (size c)))) (buf c)) c) ;;;
      c <- gets id ;;
      ret (checksum_partition c =? 0xFFFF).

(* [devices/common/ofnvram.cpp:104-114] *)
Definition flag_names : list (list Z) :=
  map str ["little-endian?"; "real-mode?"; "auto-boot?"; "diag-switch?"; "fcode-debug?"; "oem-banner?"; "oem-logo?";
           "use-nvramrc?"; "f-segment?"]%string.

(* [devices/common/ofnvram.h:42-43 OF_VAR_TYPE_INT] *)
Inductive var_type := OF_VAR_TYPE_INT | OF_VAR_TYPE_STR.

(** A [std::map]: in the order of the names. *)
(* [devices/common/ofnvram.cpp:117-138] *)
Definition of_vars : list (list Z * (var_type * Z)) :=
  map (fun v => (str v.1, v.2))
   [("boot-command", (OF_VAR_TYPE_STR, 0x58)); ("boot-device", (OF_VAR_TYPE_STR, 0x34)); ("boot-file", (OF_VAR_TYPE_STR, 0x38));
    ("diag-device", (OF_VAR_TYPE_STR, 0x3C)); ("diag-file", (OF_VAR_TYPE_STR, 0x40)); ("input-device", (OF_VAR_TYPE_STR, 0x44));
    ("load-base", (OF_VAR_TYPE_INT, 0x20)); ("nvramrc", (OF_VAR_TYPE_STR, 0x54)); ("oem-banner", (OF_VAR_TYPE_STR, 0x4C));
    ("oem-logo", (OF_VAR_TYPE_STR, 0x50)); ("output-device", (OF_VAR_TYPE_STR, 0x48)); ("pci-probe-list", (OF_VAR_TYPE_INT, 0x24));
    ("real-base", (OF_VAR_TYPE_INT, 0x10)); ("real-size", (OF_VAR_TYPE_INT, 0x14)); ("screen-#columns", (OF_VAR_TYPE_INT, 0x28));
    ("screen-#rows", (OF_VAR_TYPE_INT, 0x2C)); ("selftest-#megs", (OF_VAR_TYPE_INT, 0x30)); ("virt-base", (OF_VAR_TYPE_INT, 0x18));
    ("virt-size", (OF_VAR_TYPE_INT, 0x1C))]%string.

(** A string read back from a character array ends at the first null. *)
Fixpoint c_str (l : list Z) : list Z :=
  match l with c :: l => if c =? 0 then [] else c :: c_str l | [] => [] end.

(** What a variable reads; a string that would leave the partition is skipped. *)
(* [devices/common/ofnvram.cpp:160-179 OF_VAR_TYPE_INT] *)
Definition var_value (c : of_cfg) (v : var_type * Z) : option (list Z) :=
  let '(type, offset) := v in
  match type with
  | OF_VAR_TYPE_INT => Some (hex2str (READ_DWORD_BE_A (buf c) offset))
  | OF_VAR_TYPE_STR =>
      let str_offset := u16 (READ_WORD_BE_A (buf c) offset - of_nvram_offset (nv c)) in
      let str_len := READ_WORD_BE_A (buf c) (offset + 2) in
      if OF_CFG_SIZE <? str_offset + str_len then None
      else Some (c_str (bytes_at (buf c) str_offset (Z.to_nat str_len)))
  end.

(* [devices/common/ofnvram.cpp:146-151 of_flags] *)
Definition flag_value (c : of_cfg) (i : Z) : list Z :=
  let of_flags := READ_DWORD_BE_A (buf c) 12 in
  if s32 (Z.shiftl of_flags i) <? 0 then str "true" else str "false".

(* [devices/common/ofnvram.cpp:140-183] *)
Definition get_config_vars : M of_cfg (list (list Z * list Z)) :=
  upd_cfg (set_config_vars []) ;;;
  valid <- validate ;;
  (if negb valid then ret tt
   else upd_cfg (fun c => set_config_vars
     (map (fun iv => (iv.2, flag_value c (Z.of_nat iv.1))) (combine (seq 0 9) flag_names) ++
      omap (fun v => match var_value c v.2 with Some val => Some (v.1, val) | None => None end) of_vars) c)) ;;;
  gets config_vars.

(* [devices/common/ofnvram.cpp:185-201] *)
Definition update_partition : M of_cfg unit :=
  upd_cfg (fun c => set_buf (buf c).[4 := 0].[5 := 0] c) ;;;
  upd_cfg (fun c => set_buf (WRITE_WORD_BE_A 4 (u16 (Z.lnot (checksum_partition c))) (buf c)) c) ;;;
  upd_cfg (fun c => set_nv (fold_left (fun n i => write_byte (of_nvram_offset n + i) (buf c).[i] n) (zrange (Z.to_nat (size c))) (nv c)) c).

(* [devices/common/ofnvram.cpp:211-231 flag_names] *)
Definition set_flag (i : nat) (value : list Z) : M of_cfg bool :=
  let go (flag : bool) :=
    let flag_bit := Z.shiftr 0x80000000 (Z.of_nat i) in
    upd_cfg (fun c =>
      let of_flags := READ_DWORD_BE_A (buf c) 12 in
      set_buf (WRITE_DWORD_BE_A 12 (if flag then Z.lor of_flags flag_bit else Z.land of_flags (not32 flag_bit)) (buf c)) c) ;;;
    update_partition ;;;
    ret true in
  if bool_decide (value = str "true") then go true
  else if bool_decide (value = str "false") then go false
  else ret false.

(** [memmove] of a negative size does not return. *)
Definition memmove (dst src n : Z) : M of_cfg unit :=
  if n <? 0 then abort_f else upd_cfg (fun c => set_buf (memcpy dst (bytes_at (buf c) src (Z.to_nat n)) (buf c)) c).

(** Taking [str_len] bytes out of the heap: the strings below move up. *)
(* [devices/common/ofnvram.cpp:273-282 i_str_offset] *)
Definition move_offsets (str_offset str_len : Z) (c : of_cfg) : of_cfg :=
  fold_left (fun c v =>
    match v.2 with
    | (OF_VAR_TYPE_STR, offset) =>
        let i_str_offset := READ_WORD_BE_A (buf c) offset in
        if i_str_offset <? str_offset then set_buf (WRITE_WORD_BE_A offset (i_str_offset + str_len) (buf c)) c else c
    | _ => c
    end) of_vars c.

(* [devices/common/ofnvram.cpp:254-301 str_offset] *)
Definition set_string (offset : Z) (value : list Z) : M of_cfg bool :=
  c <- gets id ;;
  let base := of_nvram_offset (nv c) in
  let str_offset := READ_WORD_BE_A (buf c) offset in
  let str_len := READ_WORD_BE_A (buf c) (offset + 2) in
  let here := READ_WORD_BE_A (buf c) 6 in
  let top := READ_WORD_BE_A (buf c) 8 in
  let new_top := u16 (top + str_len - Z.of_nat (length value)) in
  if new_top <? here then ret false
  else
    memmove (top + str_len - base) (top - base) (str_offset - top) ;;;
    upd_cfg (move_offsets str_offset str_len) ;;;
    let top := new_top in
    upd_cfg (fun c => set_buf (memcpy (top - base) (map (fun ch => if ch =? 10 then 13 else ch) value) (buf c)) c) ;;;
    upd_cfg (fun c => set_buf (WRITE_WORD_BE_A offset top (buf c)) c) ;;;
    upd_cfg (fun c => set_buf (WRITE_WORD_BE_A (offset + 2) (Z.of_nat (length value)) (buf c)) c) ;;;
    upd_cfg (fun c => set_buf (WRITE_WORD_BE_A 8 top (buf c)) c) ;;;
    update_partition ;;;
    ret true.

(** The position of a name in a list. *)
Fixpoint index_of (x : list Z) (l : list (list Z)) : option nat :=
  match l with
  | [] => None
  | y :: l => if bool_decide (x = y) then Some O else match index_of x l with Some n => Some (S n) | None => None end
  end.

(* [devices/common/ofnvram.cpp:203-304] *)
Definition set_var (var_name value : list Z) : M of_cfg bool :=
  valid <- validate ;;
  if negb valid then ret false
  else
    match index_of var_name flag_names with
    | Some i => set_flag i value
    | None =>
        match List.find (fun v => bool_decide (v.1 = var_name)) of_vars with
        | None => ret false
        | Some (_, (OF_VAR_TYPE_INT, offset)) =>
            match str2env value with
            | Invalid_argument => ret false
            | Out_of_range => abort_f
            | Number num =>
                upd_cfg (fun c => set_buf (WRITE_DWORD_BE_A offset num (buf c)) c) ;;;
                update_partition ;;;
                ret true
            end
        | Some (_, (OF_VAR_TYPE_STR, offset)) => set_string offset value
        end
    end.
End Appl.

(** ** CHRP's layout *)

Module Chrp.
(* [devices/common/ofnvram.h:62-62] *)
Definition NVRAM_SIG_DIAG := 0x5F.
(* [devices/common/ofnvram.h:63-63] *)
Definition NVRAM_SIG_OF_ENV := 0x70.
(* [devices/common/ofnvram.h:60-60] *)
Definition NVRAM_SIG_OF_CFG := 0x50.
(* [devices/common/ofnvram.h:61-61] *)
Definition NVRAM_SIG_VPD := 0x52.
(* [devices/common/ofnvram.h:64-64] *)
Definition NVRAM_SIG_ERR_LOG := 0x72.
(* [devices/common/ofnvram.h:66-66] *)
Definition NVRAM_SIG_MAC_OS := 0xA0.

(** Of the 16 bytes of a header; the checksum itself, byte 1, does not count. *)
(* [devices/common/ofnvram.cpp:306-317] *)
Definition checksum_hdr (data : Z -> Z) : Z :=
  u8 (fold_left (fun sum i => let sum := u16 (sum + data (2 + i)) in if 256 <=? sum then Z.land (sum + 1) 0xFF else sum)
        (zrange 14) (data 0)).

(** Walking the partitions: [Some (found, pos)], [None] when the walk does not
    progress ([break] only leaves the [switch]).  A partition takes at least 16
    bytes. *)
(* [devices/common/ofnvram.cpp:332-356 of_part_found] *)
Fixpoint find_partition (fuel : nat) (pos : Z) (n : NVram) : option (bool * Z) :=
  match fuel with
  | O => None
  | S fuel =>
      if pos <? 8192 then
        let sig := read_byte pos n in
        if sig =? NVRAM_SIG_OF_ENV then Some (true, pos)
        else if (sig =? NVRAM_SIG_VPD) || (sig =? NVRAM_SIG_DIAG) || (sig =? NVRAM_SIG_OF_CFG) || (sig =? NVRAM_SIG_MAC_OS)
                || (sig =? NVRAM_SIG_ERR_LOG) then
          let len := Z.lor (Z.shiftl (read_byte (pos + 2) n) 8) (read_byte (pos + 3) n) in
          if (len =? 0) || (8192 <=? len * 16) then find_partition fuel pos n
          else find_partition fuel (pos + len * 16) n
        else Some (false, pos)
      else Some (false, pos)
  end.

(* [devices/common/ofnvram.cpp:319-391] *)
Definition validate (fuel : nat) : M of_cfg (option bool) :=
  c <- gets id ;;
  match find_partition fuel 0 (nv c) with
  | None => ret None
  | Some (false, _) => ret (Some false)
  | Some (true, pos) =>
      let hdr i := read_byte (pos + i) (nv c) in
      let len := Z.lor (Z.shiftl (hdr 2) 8) (hdr 3) * 16 in
      if negb (hdr 0 =? NVRAM_SIG_OF_ENV) || (len <? 16) || (4096 + 16 <? len) then ret (Some false)
      else if negb (checksum_hdr hdr =? hdr 1) then ret (Some false)
      else
        let len := len - 16 in
        let pos := pos + 16 in
        upd_cfg (set_data_offset pos) ;;;
        upd_cfg (fun c => set_buf (memcpy 0 (bytes_at (storage (nv c)) pos (Z.to_nat len)) (buf c)) c) ;;;
        ret (Some true)
  end.

(** The length of the name at [start], if a name and its '=' are there. *)
(* [devices/common/ofnvram.cpp:409-436 got_name] *)
Fixpoint scan_name (fuel : nat) (b : gmap Z Z) (start len : Z) : option Z :=
  match fuel with
  | O => None
  | S fuel =>
      if 32 <=? len then None
      else if 4096 <=? start + len then None
      else if b.[start + len] =? 61 then (if negb (len =? 0) then Some len else None)
      else if b.[start + len] =? 0 then None
      else scan_name fuel b start (len + 1)
  end.

(** The first null from [pos], or the end of the buffer. *)
(* [devices/common/ofnvram.cpp:447-453 pval] *)
Fixpoint scan_value (fuel : nat) (b : gmap Z Z) (pos : Z) : Z :=
  match fuel with
  | O => pos
  | S fuel => if pos <? 4096 then (if b.[pos] =? 0 then pos else scan_value fuel b (pos + 1)) else pos
  end.

(** The variables from [pos], and the position after the last one.  Every variable
    takes at least three bytes. *)
(* [devices/common/ofnvram.cpp:403-465 prop_name] *)
Fixpoint parse_vars (fuel : nat) (b : gmap Z Z) (pos data_length : Z) : list (list Z * list Z) * Z :=
  match fuel with
  | O => ([], data_length)
  | S fuel =>
      if pos <? 4096 then
        match scan_name 33 b pos 0 with
        | None => ([], data_length)
        | Some len =>
            let prop_name := bytes_at b pos (Z.to_nat len) in
            let pval := pos + len + 1 in
            let pos := scan_value (Z.to_nat 4097) b pval in
            if 4096 <=? pos then ([], data_length)
            else
              let '(vars, n) := parse_vars fuel b (pos + 1) (pos + 1) in
              ((prop_name, bytes_at b pval (Z.to_nat (pos - pval))) :: vars, n)
        end
      else ([], data_length)
  end.

(* [devices/common/ofnvram.cpp:393-469] *)
Definition get_config_vars (fuel : nat) : M of_cfg (option (list (list Z * list Z))) :=
  upd_cfg (set_config_vars []) ;;;
  upd_cfg (set_data_length 0) ;;;
  valid <-? validate fuel ;;
  (if negb valid then ret tt
   else upd_cfg (fun c => let '(vars, n) := parse_vars (Z.to_nat 4096) (buf c) 0 0 in set_config_vars vars (set_data_length n c))) ;;;
  c <- gets id ;;
  ret (Some (config_vars c)).

(** Writing the variables one after the other, as long as they fit. *)
(* [devices/common/ofnvram.cpp:476-487 var] *)
Fixpoint print_vars (vars : list (list Z * list Z)) (pos : Z) (b : gmap Z Z) : bool * gmap Z Z :=
  match vars with
  | [] => (true, b)
  | (name, val) :: vars =>
      if 4096 <? pos + Z.of_nat (length name) + Z.of_nat (length val) + 2 then (false, b)
      else
        let b := memcpy pos name b in
        let pos := pos + Z.of_nat (length name) in
        let b := b.[pos := 61] in
        let b := memcpy (pos + 1) val b in
        let pos := pos + 1 + Z.of_nat (length val) in
        print_vars vars (pos + 1) b.[pos := 0]
  end.

(* [devices/common/ofnvram.cpp:471-496] *)
Definition update_partition : M of_cfg bool :=
  upd_cfg (fun c => set_buf (memcpy 0 (repeat 0 (Z.to_nat 4096)) (buf c)) c) ;;;
  c <- gets id ;;
  let '(fits, b) := print_vars (config_vars c) 0 (buf c) in
  upd_cfg (set_buf b) ;;;
  if fits then
    upd_cfg (fun c => set_nv (fold_left (fun n i => write_byte (data_offset c + i) (buf c).[i] n) (zrange (Z.to_nat 4096)) (nv c)) c) ;;;
    ret true
  else ret false.

(** Replacing a value: [Some None] when there is no room, [None] when there is no such
    variable. *)
(* [devices/common/ofnvram.cpp:514-528 found] *)
Fixpoint replace_var (var_name value : list Z) (free_space : Z) (vars : list (list Z * list Z)) : option (option (list (list Z * list Z))) :=
  match vars with
  | [] => None
  | (name, val) :: vars =>
      if bool_decide (name = var_name) then
        Some (if (length val <? length value)%nat && (free_space <? Z.of_nat (length value) - Z.of_nat (length val)) then None
              else Some ((name, value) :: vars))
      else match replace_var var_name value free_space vars with
           | Some (Some vars) => Some (Some ((name, val) :: vars))
           | r => r
           end
  end.

(* [devices/common/ofnvram.cpp:498-539] *)
Definition set_var (fuel : nat) (var_name value : list Z) : M of_cfg (option bool) :=
  valid <-? validate fuel ;;
  if negb valid then ret (Some false)
  else if (List.last var_name 0 =? 63) && negb (bool_decide (value = str "true")) && negb (bool_decide (value = str "false")) then ret (Some false)
  else
    c <- gets id ;;
    let free_space := 4096 - data_length c in
    match replace_var var_name value free_space (config_vars c) with
    | Some None => ret (Some false)
    | Some (Some vars) =>
        upd_cfg (set_config_vars vars) ;;;
        r <- update_partition ;;
        ret (Some r)
    | None =>
        if free_space <? Z.of_nat (length var_name) + Z.of_nat (length value) + 2 then ret (Some false)
        else
          upd_cfg (fun c => set_config_vars (config_vars c ++ [(var_name, value)]) c) ;;;
          r <- update_partition ;;
          ret (Some r)
    end.
End Chrp.

(** ** The debugger's commands *)

(* [devices/common/ofnvram.h:143-143 cfg_impl] *)
Inductive cfg_impl := OfConfigAppl | OfConfigChrp.

(** A new object of either class.  Its buffer is not initialised: what it holds is
    what the argument's held. *)
(* [devices/common/ofnvram.h:111-111 nvram_obj] *)
Definition new_cfg (c : of_cfg) : of_cfg := mk_of_cfg (nv c) (buf c) 0 0 0 [].

(** Which layout is there; the object is kept when there is one. *)
(* [devices/common/ofnvram.cpp:547-573] *)
Definition open_container (fuel : nat) (impl : option cfg_impl) : M of_cfg (option (option cfg_impl * bool)) :=
  match impl with
  | Some OfConfigAppl => r <- Appl.validate ;; ret (Some (impl, r))
  | Some OfConfigChrp => r <-? Chrp.validate fuel ;; ret (Some (impl, r))
  | None =>
      upd_cfg new_cfg ;;;
      r <- Appl.validate ;;
      if r : bool then ret (Some (Some OfConfigAppl, true))
      else
        upd_cfg new_cfg ;;;
        r <-? Chrp.validate fuel ;;
        ret (Some (if r : bool then Some OfConfigChrp else None, r))
  end.

(* [devices/common/ofnvram.cpp:599-607] *)
Definition setenv (fuel : nat) (impl : option cfg_impl) (var_name value : list Z) : M of_cfg (option (option cfg_impl * bool)) :=
  opened <-? open_container fuel impl ;;
  match opened with
  | (Some OfConfigAppl, true) => _ <- Appl.get_config_vars ;; r <- Appl.set_var var_name value ;; ret (Some (Some OfConfigAppl, r))
  | (Some OfConfigChrp, true) =>
      _ <-? Chrp.get_config_vars fuel ;; r <-? Chrp.set_var fuel var_name value ;; ret (Some (Some OfConfigChrp, r))
  | (impl, _) => ret (Some (impl, false))
  end.

(** The variables [printenv] prints. *)
(* [devices/common/ofnvram.cpp:584-588 get_config_vars] *)
Definition getenv (fuel : nat) (impl : option cfg_impl) : M of_cfg (option (option cfg_impl * list (list Z * list Z))) :=
  opened <-? open_container fuel impl ;;
  match opened with
  | (Some OfConfigAppl, true) => vars <- Appl.get_config_vars ;; ret (Some (Some OfConfigAppl, vars))
  | (Some OfConfigChrp, true) => vars <-? Chrp.get_config_vars fuel ;; ret (Some (Some OfConfigChrp, vars))
  | (impl, _) => ret (Some (impl, []))
  end.
