(* ===== verification/NvramProps.v ===== *)
(** * The Open Firmware variables survive

    The memory comes back from its file; what setenv stores, getenv shows, in both
    layouts; and where the code falls short of that. *)
From Stdlib Require Import Ascii String.
From S2P Require Import Prelude Word MemCtrl HostMem Nvram.
Import Endian.
Open Scope list_scope.
Abbreviation length := List.length.

(** ** The file *)

Lemma bytes_at_memcpy_take a l n : (n <= length l)%nat -> bytes_at (memcpy a l ∅) a n = take n l.
Proof.
  intros Hn. apply (nth_ext _ _ 0 0); [by rewrite bytes_at_length, length_take_le by done|]. intros i Hi.
  rewrite bytes_at_length in Hi. unfold bytes_at. rewrite nth_map_seq, memcpy_get by done.
  destruct (Z.leb_spec a (a + Z.of_nat i)), (Z.ltb_spec (a + Z.of_nat i) (a + Z.of_nat (length l))); cbn [andb]; try lia.
  replace (Z.to_nat (a + Z.of_nat i - a)) with i by lia. rewrite nth_firstn. by rewrite (proj2 (Nat.ltb_lt _ _)) by done.
Qed.

(** The memory comes back from its file.  What the emulator saves at the end is what the next one starts with, byte for byte, for a memory of the same size; with another size, without a file, or with one that is cut short, it starts with zeros; a deterministic run leaves the file alone. *)
Theorem nvram_file_roundtrip n m file : 0 <= ram_size n < 2 ^ 16 ->
  (ram_size m = ram_size n ->
    bytes_at (storage (init (save false file n) m)) 0 (Z.to_nat (ram_size n)) = bytes_at (storage n) 0 (Z.to_nat (ram_size n))) /\
  (ram_size m <> ram_size n -> storage (init (save false file n) m) = ∅) /\
  (forall f k, save false file n = Some f -> (k < length f)%nat -> storage (init (Some (take k f)) m) = ∅ \/ ram_size m <> ram_size n) /\
  storage (init None m) = ∅ /\ save true file n = file.
Proof.
  intros Hr. set (size := Z.to_nat (ram_size n)). set (data := bytes_at (storage n) 0 size).
  assert (length data = size) as Hd by apply bytes_at_length. set (w := [u8 (ram_size n); Z.shiftr (ram_size n) 8]).
  assert (le_val w = ram_size n) as Hw.
  { unfold w, le_val, be_val, uwrap. cbn [rev app fold_left]. rewrite Z.shiftr_div_pow2 by lia. zlia. }
  assert (save false file n = Some (NVRAM_FILE_ID ++ w ++ data)) as Es by done.
  assert (forall k, (18 + size <= k)%nat -> init (Some (take k (NVRAM_FILE_ID ++ w ++ data))) m =
     if ram_size n =? ram_size m then set_storage (memcpy 0 data ∅) m else set_storage ∅ m) as Hinit.
  { intros k Hk. rewrite take_ge by (rewrite !length_app, Hd; cbn; lia). unfold init.
    change (take 16 (NVRAM_FILE_ID ++ w ++ data)) with NVRAM_FILE_ID. change (drop 16 (NVRAM_FILE_ID ++ w ++ data)) with (w ++ data).
    change (take 2 (w ++ data)) with w. change (drop 2 (w ++ data)) with data. rewrite Hw, (bool_decide_true (NVRAM_FILE_ID = NVRAM_FILE_ID)) by done.
    cbn [negb orb]. change (negb (length NVRAM_FILE_ID =? 16)%nat || negb (length w =? 2)%nat) with false. cbv iota.
    destruct (Z.eqb_spec (ram_size n) (ram_size m)) as [E|]; cbn [negb]; [|done]. rewrite <- E. fold size. rewrite Hd, Nat.ltb_irrefl.
    by rewrite take_ge by lia. }
  pose proof (Hinit (18 + size)%nat (le_n _)) as Hall. rewrite take_ge in Hall by (rewrite !length_app, Hd; cbn; lia).
  split; [|split; [|split; [|done]]].
  - intros E. rewrite Es, Hall, E, Z.eqb_refl. cbn [storage set_storage]. rewrite <- Hd at 1. by rewrite bytes_at_memcpy.
  - intros E. rewrite Es, Hall. by rewrite (proj2 (Z.eqb_neq _ _)) by congruence.
  - intros f k Hf Hk. rewrite Es in Hf. assert (f = NVRAM_FILE_ID ++ w ++ data) as -> by congruence.
    destruct (decide (ram_size m = ram_size n)) as [E|]; [left | by right].
    rewrite !length_app, Hd in Hk. change (length NVRAM_FILE_ID) with 16%nat in Hk. change (length w) with 2%nat in Hk.
    set (g := take k (NVRAM_FILE_ID ++ w ++ data)). assert (length g = k) as Hg.
    { unfold g. rewrite length_take_le; [done|]. rewrite !length_app, Hd. change (length NVRAM_FILE_ID) with 16%nat. change (length w) with 2%nat. lia. }
    clearbody g. unfold init. rewrite E. fold size. rewrite !length_take, !length_drop, Hg.
    destruct (Nat.ltb_spec k 18) as [Hlt|Hge].
    + assert (negb (16 `min` k =? 16)%nat || negb (2 `min` (k - 16) =? 2)%nat = true) as ->; [|done].
      destruct (Nat.eqb_spec (16 `min` k) 16), (Nat.eqb_spec (2 `min` (k - 16)) 2); cbn; done || lia.
    + destruct (_ || _); [done|]. destruct (_ || _); [done|]. by rewrite (proj2 (Nat.ltb_lt _ _)) by lia.
Qed.

(** ** The image of the partition *)

Lemma zrange_S n : zrange (S n) = zrange n ++ [Z.of_nat n].
Proof. unfold zrange. by rewrite seq_S, map_app. Qed.

(** Writing the buffer back to the memory. *)
Lemma write_back (b : gmap Z Z) (off : NVram -> Z) k n : (forall n s, off (set_storage s n) = off n) ->
  let n' := fold_left (fun n i => write_byte (off n + i) b.[i] n) (zrange k) n in
  ram_size n' = ram_size n /\ of_nvram_offset n' = of_nvram_offset n /\ off n' = off n /\
  forall x, (storage n').[x] = if (off n <=? x) && (x <? off n + Z.of_nat k) then b.[x - off n] else (storage n).[x].
Proof.
  intros Hoff. induction k as [|k IH]; intros n'.
  - split_and!; try done. intros x. destruct (Z.leb_spec (off n) x), (Z.ltb_spec x (off n + Z.of_nat 0)); done || lia.
  - unfold n'. rewrite zrange_S, fold_left_app. cbn [fold_left]. destruct IH as (E1 & E2 & E3 & E4).
    set (m := fold_left _ _ _) in *. unfold write_byte. rewrite Hoff. split_and!; try done. intros x. cbn [storage set_storage].
    rewrite rget_rset, E3, E4. destruct (decide _) as [<-|Hne].
    + rewrite (proj2 (Z.leb_le _ _)), (proj2 (Z.ltb_lt _ _)) by lia. cbn [andb]. f_equal. lia.
    + destruct (Z.leb_spec (off n) x), (Z.ltb_spec x (off n + Z.of_nat k)), (Z.ltb_spec x (off n + Z.of_nat (S k))); cbn [andb]; done || lia.
Qed.

(** Two buffers that agree on a range. *)
Definition same_on (a n : Z) (b b' : gmap Z Z) : Prop := forall i, a <= i < a + n -> b'.[i] = b.[i].

Lemma same_on_bytes a n b b' x k : same_on a n b b' -> a <= x -> x + Z.of_nat k <= a + n -> bytes_at b' x k = bytes_at b x k.
Proof.
  intros Hs Hx Hk. unfold bytes_at. apply map_ext_in. intros i Hi. apply in_map_iff in Hi as (j & <- & Hj%in_seq). apply Hs. lia.
Qed.

Lemma same_on_word a n b b' x : same_on a n b b' -> a <= x -> x + 2 <= a + n -> READ_WORD_BE_A b' x = READ_WORD_BE_A b x.
Proof. intros Hs ? ?. unfold READ_WORD_BE_A, READ_WORD_LE_U. by rewrite !Hs by lia. Qed.
Lemma same_on_dword a n b b' x : same_on a n b b' -> a <= x -> x + 4 <= a + n -> READ_DWORD_BE_A b' x = READ_DWORD_BE_A b x.
Proof. intros Hs ? ?. unfold READ_DWORD_BE_A, READ_DWORD_LE_U. by rewrite !Hs by lia. Qed.
Lemma same_on_sub a n b b' x k : same_on a n b b' -> a <= x -> x + k <= a + n -> same_on x k b b'.
Proof. intros Hs ? ? i Hi. apply Hs. lia. Qed.

(** ** The checksum of Apple's layout *)

Module ApplProps.
Import Appl.

Definition zsum (f : Z -> Z) (n : nat) : Z := fold_left (fun acc i => acc + f i) (zrange n) 0.

Lemma zsum_S f n : zsum f (S n) = zsum f n + f (Z.of_nat n).
Proof. unfold zsum. by rewrite zrange_S, fold_left_app. Qed.
Lemma zsum_ext f g n : (forall i, 0 <= i < Z.of_nat n -> f i = g i) -> zsum f n = zsum g n.
Proof. induction n as [|n IH]; intros H; [done|]. rewrite !zsum_S, IH by (intros; apply H; lia). by rewrite H by lia. Qed.
Lemma zsum_range f n w : (forall i, 0 <= f i < w) -> 0 <= zsum f n <= Z.of_nat n * (w - 1).
Proof. intros H. induction n as [|n IH]; [by unfold zsum|]. rewrite zsum_S. specialize (H (Z.of_nat n)). nia. Qed.
Lemma zsum_update f g n k : (0 <= k < Z.of_nat n) -> (forall i, i <> k -> g i = f i) -> zsum g n = zsum f n - f k + g k.
Proof.
  induction n as [|n IH]; intros Hk H; [lia|]. rewrite !zsum_S. destruct (decide (k = Z.of_nat n)) as [->|Hne].
  - rewrite (zsum_ext g f) by (intros; apply H; lia). lia.
  - rewrite IH by (lia || done). rewrite (H (Z.of_nat n)) by done. lia.
Qed.

Definition word (b : gmap Z Z) (i : Z) : Z := READ_WORD_BE_A b (2 * i).
Lemma word_range b i : file_ok 8 b -> 0 <= word b i < 2 ^ 16.
Proof.
  intros Hb. unfold word. rewrite read_word_be_a by done. pose proof (be_val_range (bytes_at b (2 * i) 2) ltac:(intros; by eapply bytes_at_range)) as H.
  by rewrite bytes_at_length in H.
Qed.

(** The sum of the partition's words. *)
Definition words : nat := Z.to_nat 1024.
Definition total (b : gmap Z Z) : Z := zsum (word b) words.

Lemma total_range b : file_ok 8 b -> 0 <= total b < 2 ^ 26.
Proof. intros Hb. pose proof (zsum_range (word b) words (2 ^ 16) (fun i => word_range b i Hb)). unfold total, words in *. lia. Qed.

Lemma checksum_total c : size c = OF_CFG_SIZE -> file_ok 8 (buf c) ->
  checksum_partition c = (total (buf c) + total (buf c) / 2 ^ 16) mod 2 ^ 16.
Proof.
  intros Hs Hb. unfold checksum_partition. rewrite Hs. change (Z.to_nat ((OF_CFG_SIZE + 1) / 2)) with words.
  assert (forall n, (n <= words)%nat -> fold_left (fun acc i => u32 (acc + READ_WORD_BE_A (buf c) (2 * i))) (zrange n) 0 = zsum (word (buf c)) n) as E.
  { induction n as [|n IH]; intros Hn; [done|]. rewrite zrange_S, fold_left_app, zsum_S. cbn [fold_left]. rewrite IH by lia.
    pose proof (zsum_range (word (buf c)) n (2 ^ 16) (fun i => word_range _ i Hb)). pose proof (word_range (buf c) (Z.of_nat n) Hb) as Hw.
    unfold word in Hw at 1. fold (word (buf c) (Z.of_nat n)). rewrite uwrap_small; [done|]. unfold word, words in *. lia. }
  pose proof (E words (le_n _) : _ = total (buf c)) as Et. rewrite Et. rewrite Z.shiftr_div_pow2 by lia. done.
Qed.

(** Storing the complement of the checksum makes it all ones, unless adding the
    carries carries once more. *)
Lemma complemented S0 : 0 <= S0 < 2 ^ 26 -> let k := u16 (Z.lnot ((S0 + S0 / 2 ^ 16) mod 2 ^ 16)) in
  ((S0 + k + (S0 + k) / 2 ^ 16) mod 2 ^ 16 =? 0xFFFF) = (S0 mod 2 ^ 16 + S0 / 2 ^ 16 <? 2 ^ 16).
Proof.
  intros HS k. set (h := S0 / 2 ^ 16). set (l := S0 mod 2 ^ 16).
  assert (S0 = 2 ^ 16 * h + l /\ 0 <= h < 2 ^ 10 /\ 0 <= l < 2 ^ 16) as (E & Hh & Hl) by (unfold h, l; zlia).
  assert (k = 65535 - (l + h) mod 2 ^ 16) as Ek.
  { unfold k, uwrap, Z.lnot. fold h. rewrite E. replace (2 ^ 16 * h + l + h) with (l + h + h * 2 ^ 16) by lia. rewrite Z.mod_add by lia. zlia. }
  rewrite Ek, E. clearbody h l. clear k Ek E HS. destruct (Z.ltb_spec (l + h) (2 ^ 16)).
  - rewrite (Z.mod_small (l + h)) by lia. assert ((2 ^ 16 * h + l + (65535 - (l + h))) / 2 ^ 16 = h) as -> by zlia. zlia.
  - assert ((l + h) mod 2 ^ 16 = l + h - 2 ^ 16) as -> by zlia.
    assert ((2 ^ 16 * h + l + (65535 - (l + h - 2 ^ 16))) / 2 ^ 16 = h + 1) as -> by zlia. zlia.
Qed.

Lemma total_same b b' : same_on 0 2048 b b' -> total b' = total b.
Proof. intros H. apply zsum_ext. intros i Hi. unfold word, words in *. by apply (same_on_word 0 2048); [|lia..]. Qed.

(** The partition is in the memory. *)
Definition image (c : of_cfg) (b : gmap Z Z) : Prop := forall i, 0 <= i < 2048 -> cfg_nv c i = b.[i].

Definition header_ok (b : gmap Z Z) : bool :=
  (Z.lor (Z.shiftl b.[0] 8) b.[1] =? OF_NVRAM_SIG) && (b.[2] =? 5) && (b.[3] =? 8).
Definition sum_ok (b : gmap Z Z) : bool := (total b + total b / 2 ^ 16) mod 2 ^ 16 =? 0xFFFF.
Definition part_ok (b : gmap Z Z) : bool := header_ok b && sum_ok b.

Lemma header_same b b' : same_on 0 2048 b b' -> header_ok b' = header_ok b.
Proof. intros H. unfold header_ok. by rewrite !H by lia. Qed.
Lemma part_same b b' : same_on 0 2048 b b' -> part_ok b' = part_ok b.
Proof. intros H. unfold part_ok, sum_ok. by rewrite (header_same b b' H), (total_same b b' H). Qed.

(** Where the string of every variable is. *)
Definition cfg_ok (c : of_cfg) : Prop := file_ok 8 (storage (nv c)) /\ file_ok 8 (buf c).

Lemma validate_spec c b : cfg_ok c -> image c b -> exists c1,
  validate c = (Ret (part_ok b), c1) /\ nv c1 = nv c /\ config_vars c1 = config_vars c /\ file_ok 8 (buf c1) /\
  (part_ok b = true -> size c1 = OF_CFG_SIZE /\ same_on 0 2048 b (buf c1)).
Proof.
  intros [Hs Hb] Him. unfold validate, part_ok, header_ok. rewrite bind_gets. cbn [id]. rewrite !Him by lia.
  destruct (_ =? OF_NVRAM_SIG); cbn [negb orb andb]; [|by exists c].
  destruct (b.[2] =? 5); cbn [negb orb andb]; [|by exists c]. unfold upd_cfg at 1. rewrite bind_modify, bind_gets. cbn [id size set_size].
  assert ((b.[3] * 256 =? OF_CFG_SIZE) = (b.[3] =? 8)) as -> by (unfold OF_CFG_SIZE; lia).
  destruct (Z.eqb_spec b.[3] 8) as [->|]; cbn [negb andb]; [|by eexists].
  unfold upd_cfg. rewrite bind_modify, bind_gets. cbn [id].
  set (c1 := set_buf _ _). assert (same_on 0 2048 b (buf c1)) as Hsame.
  { intros i Hi. unfold c1. cbn [buf set_buf set_size size]. rewrite memcpy_get. change (8 * 256) with 2048.
    rewrite length_map. unfold zrange at 1. rewrite length_map, length_seq. change (Z.to_nat 2048) with (Z.to_nat 2048).
    destruct (Z.leb_spec 0 i), (Z.ltb_spec i (0 + Z.of_nat (Z.to_nat 2048))); cbn [andb]; try lia. rewrite Z.sub_0_r, nth_map_seq by lia.
    rewrite Z2Nat.id by lia. by apply Him. }
  assert (file_ok 8 (buf c1)) as Hf.
  { unfold c1. cbn [buf set_buf set_size]. apply memcpy_ok; [done|]. intros x (i & -> & _)%list_elem_of_fmap. apply Hs. }
  exists c1. split; [|split; [done|split; [done|split; [exact Hf|done]]]]. unfold gets, ret, bind. do 2 f_equal.
  rewrite checksum_total by done. unfold sum_ok. by rewrite (total_same _ _ Hsame).
Qed.

(** Without its checksum. *)
Definition cleared (b : gmap Z Z) : gmap Z Z := b.[4 := 0].[5 := 0].
(** Adding the carries of the sum does not carry. *)
Definition carry_free (b : gmap Z Z) : bool := total (cleared b) mod 2 ^ 16 + total (cleared b) / 2 ^ 16 <? 2 ^ 16.
(** The partition that is stored. *)
Definition stored (b : gmap Z Z) : gmap Z Z :=
  WRITE_WORD_BE_A 4 (u16 (Z.lnot ((total (cleared b) + total (cleared b) / 2 ^ 16) mod 2 ^ 16))) (cleared b).

Lemma cleared_ok b : file_ok 8 b -> file_ok 8 (cleared b).
Proof. intros Hb. do 2 (apply file_ok_set; [|lia]). exact Hb. Qed.

Lemma stored_image_ok b : file_ok 8 b -> file_ok 8 (stored b).
Proof.
  intros Hb. unfold stored. rewrite write_word_be_a. apply memcpy_ok; [by apply cleared_ok|]. intros x. apply be_bytes_range.
Qed.

Lemma stored_same b i : i < 4 \/ 6 <= i -> (stored b).[i] = b.[i].
Proof.
  intros Hi. unfold stored. rewrite write_word_be_a, memcpy_get. change (Z.of_nat (length (be_bytes 2 _))) with 2.
  destruct (Z.leb_spec 4 i), (Z.ltb_spec i (4 + 2)); cbn [andb]; try lia; unfold cleared; by rewrite !rget_rset_ne by lia.
Qed.

Lemma stored_image_word b i : file_ok 8 b -> word (stored b) i = if i =? 2 then u16 (Z.lnot ((total (cleared b) + total (cleared b) / 2 ^ 16) mod 2 ^ 16)) else word (cleared b) i.
Proof.
  intros Hb. unfold word, stored. set (k := u16 _). rewrite !write_word_be_a. destruct (Z.eqb_spec i 2) as [->|Hne].
  - change (2 * 2) with 4. rewrite read_word_be_a by (apply memcpy_ok; [by apply cleared_ok | intros x; apply be_bytes_range]).
    rewrite <- (be_bytes_length 2 k) at 1. rewrite bytes_at_memcpy, be_val_bytes. apply Z.mod_small. unfold k. apply uwrap_range. lia.
  - apply (same_on_word (2 * i) 2); [|lia..]. intros j Hj. rewrite memcpy_get, be_bytes_length.
    destruct (Z.leb_spec 4 j), (Z.ltb_spec j (4 + Z.of_nat 2)); cbn [andb]; done || lia.
Qed.

Lemma cleared_word b : word (cleared b) 2 = 0.
Proof.
  unfold word, READ_WORD_BE_A, READ_WORD_LE_U, cleared. change (2 * 2) with 4. change (4 + 1) with 5.
  by rewrite rget_rset_eq, rget_rset_ne, rget_rset_eq by lia.
Qed.

Lemma stored_sum_ok b : file_ok 8 b -> sum_ok (stored b) = carry_free b.
Proof.
  intros Hb. unfold sum_ok, carry_free. rewrite <- complemented by (apply total_range, cleared_ok, Hb). cbv zeta.
  set (k := u16 _). assert (total (stored b) = total (cleared b) + k) as ->; [|done].
  unfold total. rewrite (zsum_update (word (cleared b)) (word (stored b)) words 2).
  - rewrite stored_image_word by done. rewrite cleared_word. cbn [Z.eqb Pos.eqb]. unfold k. lia.
  - unfold words. lia.
  - intros i Hi. rewrite stored_image_word by done. by rewrite (proj2 (Z.eqb_neq _ _) Hi).
Qed.

Lemma update_spec c : size c = OF_CFG_SIZE -> cfg_ok c -> exists c1, update_partition c = (Ret tt, c1) /\
  buf c1 = stored (buf c) /\ image c1 (stored (buf c)) /\ cfg_ok c1 /\ size c1 = OF_CFG_SIZE /\
  of_nvram_offset (nv c1) = of_nvram_offset (nv c) /\ ram_size (nv c1) = ram_size (nv c) /\
  forall x, x < of_nvram_offset (nv c) \/ of_nvram_offset (nv c) + 2048 <= x -> (storage (nv c1)).[x] = (storage (nv c)).[x].
Proof.
  intros Hs [Hn Hb]. unfold update_partition, upd_cfg. rewrite !bind_modify. eexists. split; [reflexivity|].
  set (c2 := set_buf _ _). assert (buf c2 = stored (buf c)) as E2.
  { unfold c2. cbn [buf set_buf]. rewrite checksum_total by (done || apply cleared_ok, Hb). done. }
  assert (nv c2 = nv c) as En by done. assert (size c2 = 2048) as Es by done. clearbody c2.
  cbn [nv set_nv buf]. rewrite E2, En, Es. destruct (write_back (stored (buf c)) of_nvram_offset (Z.to_nat 2048) (nv c) ltac:(done)) as (W1 & W2 & _ & W3).
  set (n' := fold_left _ _ _) in *. rewrite W1, W2. split; [done|]. split; [|split; [|split; [done|split; [done|split; [done|]]]]].
  - intros i Hi. unfold cfg_nv. cbn [nv set_nv]. rewrite W2. unfold read_byte. rewrite W3.
    destruct (Z.leb_spec (of_nvram_offset (nv c)) (of_nvram_offset (nv c) + i)),
      (Z.ltb_spec (of_nvram_offset (nv c) + i) (of_nvram_offset (nv c) + Z.of_nat (Z.to_nat 2048))); cbn [andb]; try lia. f_equal. lia.
  - split; cbn [nv set_nv buf]; [|rewrite E2; by apply stored_image_ok]. intros x. rewrite W3. destruct (_ && _); [by apply stored_image_ok | apply Hn].
  - intros x Hx. rewrite W3. destruct (Z.leb_spec (of_nvram_offset (nv c)) x), (Z.ltb_spec x (of_nvram_offset (nv c) + Z.of_nat (Z.to_nat 2048))); cbn [andb]; try lia; done.
Qed.

(** ** What is shown *)

Definition offset_of (v : list Z * (var_type * Z)) : Z := v.2.2.

(** The layout: offsets of the header's end to the heap's start, four bytes each,
    every name once. *)
Lemma layout : forall v, In v of_vars -> 16 <= offset_of v /\ offset_of v + 4 <= 0x5C.
Proof.
  intros v Hv. assert (forallb (fun v => (16 <=? offset_of v) && (offset_of v + 4 <=? 0x5C)) of_vars = true) as H by by vm_compute.
  rewrite forallb_forall in H. specialize (H v Hv). bool_to_prop. done.
Qed.
Lemma layout_disjoint v w : In v of_vars -> In w of_vars -> v.1 <> w.1 -> offset_of v + 4 <= offset_of w \/ offset_of w + 4 <= offset_of v.
Proof.
  intros Hv Hw Hne. assert (forallb (fun v => forallb (fun w => bool_decide (v.1 = w.1) || (offset_of v + 4 <=? offset_of w) || (offset_of w + 4 <=? offset_of v)) of_vars) of_vars = true) as H by by vm_compute.
  rewrite forallb_forall in H. specialize (H v Hv). rewrite forallb_forall in H. specialize (H w Hw). rewrite bool_decide_false in H by done. bool_to_prop. lia.
Qed.
Lemma name_once v w : In v of_vars -> In w of_vars -> v.1 = w.1 -> v = w.
Proof.
  intros Hv Hw. assert (NoDup (map fst of_vars)) as Hn by (apply (bool_decide_unpack _); by vm_compute).
  apply list_elem_of_In, list_elem_of_lookup in Hv as [i Hi]. apply list_elem_of_In, list_elem_of_lookup in Hw as [j Hj]. intros E.
  assert (i = j) as <-; [|congruence]. apply (NoDup_lookup _ i j v.1 Hn); by rewrite list_lookup_fmap, ?Hi, ?Hj; cbn; congruence.
Qed.
Lemma flag_is_no_var n v : In n flag_names -> In v of_vars -> v.1 <> n.
Proof.
  intros Hn Hv E. assert (forallb (fun n => forallb (fun v => negb (bool_decide (v.1 = n))) of_vars) flag_names = true) as H by by vm_compute.
  rewrite forallb_forall in H. specialize (H n Hn). rewrite forallb_forall in H. specialize (H v Hv). by rewrite bool_decide_true in H.
Qed.

Definition shown (c : of_cfg) : list (list Z * list Z) :=
  map (fun iv => (iv.2, flag_value c (Z.of_nat iv.1))) (combine (seq 0 9) flag_names) ++
  omap (fun v => match var_value c v.2 with Some val => Some (v.1, val) | None => None end) of_vars.

(** Two objects that show the same value of a variable. *)
Lemma var_same c c' v : of_nvram_offset (nv c') = of_nvram_offset (nv c) -> same_on (offset_of v) 4 (buf c) (buf c') ->
  (v.2.1 = OF_VAR_TYPE_STR -> forall i, let o := u16 (READ_WORD_BE_A (buf c) (offset_of v) - of_nvram_offset (nv c)) in
     let len := READ_WORD_BE_A (buf c) (offset_of v + 2) in
     o <= i < o + len -> o + len <= OF_CFG_SIZE -> (buf c').[i] = (buf c).[i]) -> var_value c' v.2 = var_value c v.2.
Proof.
  intros Eo Hs Hstr. destruct v as [n [t o]]. cbn [snd fst offset_of] in *. unfold offset_of in *. cbn [snd] in *. unfold var_value. destruct t.
  - by rewrite (same_on_dword o 4 (buf c)) by (done || lia).
  - rewrite Eo, (same_on_word o 4 (buf c) (buf c') o), (same_on_word o 4 (buf c) (buf c') (o + 2)) by (done || lia).
    destruct (Z.ltb_spec OF_CFG_SIZE (u16 (READ_WORD_BE_A (buf c) o - of_nvram_offset (nv c)) + READ_WORD_BE_A (buf c) (o + 2))); [done|].
    do 2 f_equal. specialize (Hstr eq_refl). unfold bytes_at. apply map_ext_in. intros i Hi.
    apply in_map_iff in Hi as (j & <- & Hj%in_seq). apply Hstr; lia.
Qed.

Lemma flag_same c c' i : same_on 12 4 (buf c) (buf c') -> flag_value c' i = flag_value c i.
Proof. intros Hs. unfold flag_value. by rewrite (same_on_dword 12 4 (buf c)) by (done || lia). Qed.

Lemma shown_same c c' : of_nvram_offset (nv c') = of_nvram_offset (nv c) -> same_on 0 2048 (buf c) (buf c') -> shown c' = shown c.
Proof.
  intros Eo Hs. unfold shown. f_equal.
  - apply map_ext. intros [i n]. cbn [fst snd]. by rewrite (flag_same c c' (Z.of_nat i)) by (eapply same_on_sub; [exact Hs | lia..]).
  - apply list_omap_ext. apply Forall2_same_length_lookup_2; [done|]. intros i v w Hv Hw. assert (v = w) as <- by congruence. clear Hw.
    apply list_elem_of_lookup_2, list_elem_of_In in Hv. destruct (layout v Hv) as [L1 L2]. rewrite (var_same c c' v Eo); [done | eapply same_on_sub; [exact Hs | lia..] |].
    intros _ j o len Hj Hlen. apply Hs. unfold o, len, OF_CFG_SIZE in *. pose proof (uwrap_range 16 (READ_WORD_BE_A (buf c) (offset_of v) - of_nvram_offset (nv c))). lia.
Qed.

(** Reading the variables. *)
Lemma get_spec c b : cfg_ok c -> image c b -> exists c1 v, get_config_vars c = (Ret v, c1) /\ v = (if part_ok b then shown c1 else []) /\
  nv c1 = nv c /\ file_ok 8 (buf c1) /\ (part_ok b = true -> size c1 = OF_CFG_SIZE /\ same_on 0 2048 b (buf c1)).
Proof.
  intros Hc Him. unfold get_config_vars, upd_cfg. rewrite bind_modify.
  destruct (validate_spec (set_config_vars [] c) b Hc Him) as (c1 & E & En & Ev & Hf & Hp).
  rewrite (bind_ret _ _ _ _ _ E). destruct (part_ok b); cbn [negb].
  - rewrite bind_modify. exists (set_config_vars (shown c1) c1), (shown c1). by split_and!.
  - rewrite bind_ret_l. exists c1, []. unfold gets. rewrite Ev. by split_and!.
Qed.

(** The variables with one of them changed. *)
Definition updated (name value : list Z) (vars : list (list Z * list Z)) : list (list Z * list Z) :=
  map (fun nv => if bool_decide (nv.1 = name) then (name, value) else nv) vars.

(** The strings are in the heap, above the variables. *)
Definition heap_ok (c : of_cfg) : Prop := forall v, In v of_vars -> v.2.1 = OF_VAR_TYPE_STR ->
  READ_WORD_BE_A (buf c) (offset_of v + 2) = 0 \/ 0x5C <= u16 (READ_WORD_BE_A (buf c) (offset_of v) - of_nvram_offset (nv c)).

Lemma map_omap {A B C} (f : B -> C) (h : A -> option B) l : map f (omap h l) = omap (fun x => option_map f (h x)) l.
Proof. induction l as [|x l IH]; [done|]. cbn. destruct (h x); cbn; [by rewrite <- IH | exact IH]. Qed.

(** Writing four bytes at [o] and the checksum changes no variable elsewhere. *)
Lemma var_kept c c' o v : heap_ok c -> In v of_vars -> of_nvram_offset (nv c') = of_nvram_offset (nv c) -> 12 <= o -> o + 4 <= 0x5C ->
  (offset_of v + 4 <= o \/ o + 4 <= offset_of v) ->
  (forall i, 0 <= i < 2048 -> i < 4 \/ 6 <= i -> i < o \/ o + 4 <= i -> (buf c').[i] = (buf c).[i]) -> var_value c' v.2 = var_value c v.2.
Proof.
  intros Hh Hv Eo Ho1 Ho2 Hd Hs. destruct (layout v Hv) as [L1 L2]. apply var_same; [done | intros i Hi; apply Hs; lia |].
  intros Ht i j len Hi Hl. unfold OF_CFG_SIZE in Hl. destruct (Hh v Hv Ht) as [Hz|Hz]; [unfold len in *; lia|]. apply Hs; unfold j in *; lia.
Qed.

Lemma updated_vars c c' name value o t : heap_ok c -> of_nvram_offset (nv c') = of_nvram_offset (nv c) -> In (name, (t, o)) of_vars ->
  (forall i, 0 <= i < 2048 -> i < 4 \/ 6 <= i -> i < o \/ o + 4 <= i -> (buf c').[i] = (buf c).[i]) ->
  var_value c' (t, o) = Some value -> var_value c (t, o) <> None ->
  shown c' = updated name value (shown c).
Proof.
  intros Hh Eo Hin Hs Hval Hsome. pose proof (layout _ Hin) as [L1 L2]. unfold offset_of in L1, L2. cbn [snd] in L1, L2.
  unfold shown, updated. rewrite map_app. f_equal.
  - rewrite map_map. apply map_ext_in. intros [i n] Hi. cbn [fst snd]. rewrite bool_decide_false.
    + f_equal. apply flag_same. intros k Hk. apply Hs; lia.
    + intros ->. apply in_combine_r in Hi. exact (flag_is_no_var _ _ Hi Hin eq_refl).
  - rewrite map_omap. apply list_omap_ext, Forall2_same_length_lookup_2; [done|]. intros i v w Hv Hw. assert (v = w) as <- by congruence. clear Hw.
    apply list_elem_of_lookup_2, list_elem_of_In in Hv. destruct (decide (v.1 = name)) as [<-|Hne].
    + assert (v = (v.1, (t, o))) as -> by (by apply name_once). cbn [fst snd]. rewrite Hval.
      destruct (var_value c (t, o)); [|done]. cbn. by rewrite bool_decide_true.
    + rewrite (var_kept c c' o v); try done; [|lia|].
      * destruct (var_value c v.2); [|done]. cbn. by rewrite bool_decide_false.
      * apply (layout_disjoint v (name, (t, o)) Hv Hin Hne).
Qed.

(** The flag of a bit. *)
Lemma flag_bit c i : file_ok 8 (buf c) -> 0 <= i < 32 ->
  flag_value c i = if Z.testbit (READ_DWORD_BE_A (buf c) 12) (31 - i) then str "true" else str "false".
Proof.
  intros Hb Hi. unfold flag_value. set (v := READ_DWORD_BE_A (buf c) 12). rewrite <- (s32_u32 (Z.shiftl v i)), s32_neg_testbit by (apply uwrap_range; lia).
  by rewrite testbit_uwrap, Z.shiftl_spec by lia.
Qed.

Lemma names_once i j n : In (i, n) (combine (seq 0 9) flag_names) -> In (j, n) (combine (seq 0 9) flag_names) -> i = j.
Proof.
  intros Hi Hj. assert (forallb (fun p => forallb (fun q => negb (bool_decide (p.2 = q.2)) || bool_decide (p.1 = q.1)) (combine (seq 0 9) flag_names)) (combine (seq 0 9) flag_names) = true) as H by by vm_compute.
  rewrite forallb_forall in H. specialize (H _ Hi). rewrite forallb_forall in H. specialize (H _ Hj). cbn [fst snd] in H.
  rewrite (bool_decide_true (n = n)) in H by done. by apply bool_decide_eq_true in H.
Qed.

Lemma updated_flags c c' name (flag : bool) k : heap_ok c -> of_nvram_offset (nv c') = of_nvram_offset (nv c) -> In (k, name) (combine (seq 0 9) flag_names) ->
  (forall i, 0 <= i < 2048 -> i < 4 \/ 6 <= i -> i < 12 \/ 16 <= i -> (buf c').[i] = (buf c).[i]) -> file_ok 8 (buf c) -> file_ok 8 (buf c') ->
  (forall i, 0 <= i < 32 -> Z.testbit (READ_DWORD_BE_A (buf c') 12) i = if i =? 31 - Z.of_nat k then flag else Z.testbit (READ_DWORD_BE_A (buf c) 12) i) ->
  shown c' = updated name (if flag then str "true" else str "false") (shown c).
Proof.
  intros Hh Eo Hin Hs Hb Hb' Hbits. assert (In name flag_names) as Hname by (by apply in_combine_r in Hin).
  assert (forall i n, In (i, n) (combine (seq 0 9) flag_names) -> (i < 9)%nat) as Hlt.
  { intros i n H. apply in_combine_l, in_seq in H. lia. }
  unfold shown, updated. rewrite map_app. f_equal.
  - rewrite map_map. apply map_ext_in. intros [i n] Hi. cbn [fst snd]. pose proof (Hlt _ _ Hi). pose proof (Hlt _ _ Hin).
    rewrite !flag_bit, Hbits by (done || lia). case_bool_decide as E.
    + subst n. rewrite (names_once _ _ _ Hi Hin). by rewrite Z.eqb_refl.
    + rewrite (proj2 (Z.eqb_neq _ _)); [done|]. intros Ek. assert (i = k) as -> by lia. apply E.
      apply (In_nth _ _ (0%nat, [])) in Hi as (a & Ha & Hi). apply (In_nth _ _ (0%nat, [])) in Hin as (b & Hb2 & Hin).
      rewrite combine_nth in Hi, Hin by done. rewrite length_combine in Ha, Hb2. change (length (seq 0 9)) with 9%nat in *. change (length flag_names) with 9%nat in *.
      rewrite seq_nth in Hi, Hin by lia. rewrite Nat.add_0_l in Hi, Hin.
      injection Hi as Ea En. injection Hin as Eb Em. by rewrite <- En, <- Em, Ea, Eb.
  - rewrite map_omap. apply list_omap_ext, Forall2_same_length_lookup_2; [done|]. intros i v w Hv Hw. assert (v = w) as <- by congruence. clear Hw.
    apply list_elem_of_lookup_2, list_elem_of_In in Hv. destruct (layout v Hv) as [L1 L2].
    rewrite (var_kept c c' 12 v) by (done || lia).
    destruct (var_value c v.2); [|done]. cbn. rewrite bool_decide_false; [done|]. apply (flag_is_no_var name v Hname Hv).
Qed.

(** What an assignment makes a flag or a number show; strings aside. *)
Definition assigned (name value : list Z) : option (list Z) :=
  match index_of name flag_names with
  | Some _ => if bool_decide (value = str "true") || bool_decide (value = str "false") then Some value else None
  | None =>
      match List.find (fun v => bool_decide (v.1 = name)) of_vars with
      | Some (_, (OF_VAR_TYPE_INT, _)) => match str2env value with Number num => Some (hex2str num) | _ => None end
      | _ => None
      end
  end.

Lemma index_of_in name k : index_of name flag_names = Some k -> In (k, name) (combine (seq 0 9) flag_names).
Proof.
  intros H. assert (forall l s k, index_of name l = Some k -> In ((s + k)%nat, name) (combine (seq s (length l)) l)) as G.
  { clear. induction l as [|x l IH]; intros s k H; [done|]. cbn in H |- *. case_bool_decide as E.
    - injection H as <-. subst. left. f_equal. lia.
    - destruct (index_of name l) as [n|] eqn:En; [|done]. injection H as <-. right. rewrite Nat.add_succ_r. by apply (IH (S s) n). }
  exact (G flag_names 0%nat k H).
Qed.

Definition the_image (c : of_cfg) : gmap Z Z := memcpy 0 (map (cfg_nv c) (zrange (Z.to_nat 2048))) ∅.
Lemma the_image_ok c : image c (the_image c).
Proof.
  intros i Hi. unfold the_image. rewrite memcpy_get, length_map. unfold zrange at 1. rewrite length_map, length_seq.
  destruct (Z.leb_spec 0 i), (Z.ltb_spec i (0 + Z.of_nat (Z.to_nat 2048))); cbn [andb]; try lia.
  rewrite Z.sub_0_r, nth_map_seq by lia. by rewrite Z2Nat.id by lia.
Qed.

(** Changing the buffer and storing it. *)
Lemma change_spec f c : size c = OF_CFG_SIZE -> cfg_ok c -> file_ok 8 (f c) -> exists c1,
  (upd_cfg (fun c => set_buf (f c) c) ;;; update_partition ;;; ret true) c = (Ret true, c1) /\
  image c1 (stored (f c)) /\ cfg_ok c1 /\ of_nvram_offset (nv c1) = of_nvram_offset (nv c).
Proof.
  intros Hs [Hn Hb] Hf. unfold upd_cfg. rewrite bind_modify.
  destruct (update_spec (set_buf (f c) c) Hs (conj Hn Hf)) as (c1 & E & _ & Him & Hc & _ & Ho & _). exists c1.
  by rewrite (bind_ret _ _ _ _ _ E).
Qed.

Lemma stored_part_ok b b' : file_ok 8 b' -> header_ok b = true -> (forall i, 0 <= i < 4 -> b'.[i] = b.[i]) -> part_ok (stored b') = carry_free b'.
Proof.
  intros Hb' Hh Hs. unfold part_ok. rewrite stored_sum_ok by done. unfold header_ok in *. rewrite !stored_same by lia. rewrite !Hs by lia. by rewrite Hh.
Qed.

(** What is shown after a change. *)
Lemma shown_after c c1 b f vars' : file_ok 8 (f c) -> header_ok b = true -> same_on 0 2048 b (buf c) ->
  (forall i, 0 <= i < 4 -> (f c).[i] = (buf c).[i]) -> image c1 (stored (f c)) -> cfg_ok c1 -> of_nvram_offset (nv c1) = of_nvram_offset (nv c) ->
  (forall c3, of_nvram_offset (nv c3) = of_nvram_offset (nv c) -> same_on 0 2048 (stored (f c)) (buf c3) -> file_ok 8 (buf c3) -> shown c3 = vars') ->
  forall c2, nv c2 = nv c1 -> file_ok 8 (buf c2) -> exists c3, get_config_vars c2 = (Ret (if carry_free (f c) then vars' else []), c3).
Proof.
  intros Hf Hh Hb Hs Him Hc Ho Hsh c2 En Hb2.
  assert (image c2 (stored (f c))) as Him2 by (intros i Hi; unfold cfg_nv; rewrite En; by apply Him).
  assert (cfg_ok c2) as Hc2 by (split; [rewrite En; apply Hc | done]).
  destruct (get_spec c2 (stored (f c)) Hc2 Him2) as (c3 & v & E & Ev & En3 & Hf3 & Hp). exists c3. rewrite E, Ev.
  assert (part_ok (stored (f c)) = carry_free (f c)) as Ep.
  { apply (stored_part_ok b); [done..|]. intros i Hi. rewrite Hs by done. apply Hb. lia. }
  rewrite Ep in *. destruct (carry_free (f c)); [|done]. do 2 f_equal. apply Hsh; [by rewrite En3, En | by apply Hp | done].
Qed.

Lemma heap_same c c' : of_nvram_offset (nv c') = of_nvram_offset (nv c) -> same_on 0 2048 (buf c) (buf c') -> heap_ok c -> heap_ok c'.
Proof.
  intros Eo Hs Hh v Hv Ht. destruct (layout v Hv) as [L1 L2].
  rewrite Eo, (same_on_word 0 2048 _ _ _ Hs), (same_on_word 0 2048 _ _ (offset_of v) Hs) by lia. by apply Hh.
Qed.

Lemma str2env_range l n : str2env l = Number n -> u32 n = n.
Proof.
  unfold str2env. intros H. assert (forall v, u32 (u32 v) = u32 v) as Hu by (intros; by rewrite uwrap_idem by lia).
  destruct (stoul l); [by injection H as <-| |done]. destruct (stoul (str "0x" ++ l)); [by injection H as <- | done..].
Qed.

(** The body of [set_var] on a valid partition. *)
Definition set_valid (name value : list Z) : M of_cfg bool :=
  match index_of name flag_names with
  | Some i => set_flag i value
  | None =>
      match List.find (fun v => bool_decide (v.1 = name)) of_vars with
      | None => ret false
      | Some (_, (OF_VAR_TYPE_INT, offset)) =>
          match str2env value with
          | Invalid_argument => ret false
          | Out_of_range => abort_f
          | Number num => upd_cfg (fun c => set_buf (WRITE_DWORD_BE_A offset num (buf c)) c) ;;; update_partition ;;; ret true
          end
      | Some (_, (OF_VAR_TYPE_STR, offset)) => set_string offset value
      end
  end.

Lemma dword_back o v b : file_ok 8 b -> READ_DWORD_BE_A (WRITE_DWORD_BE_A o v b) o = u32 v /\ file_ok 8 (WRITE_DWORD_BE_A o v b) /\
  forall i, i < o \/ o + 4 <= i -> (WRITE_DWORD_BE_A o v b).[i] = b.[i].
Proof.
  intros Hb. assert (file_ok 8 (WRITE_DWORD_BE_A o v b)) as Hf.
  { rewrite write_dword_be_a. apply memcpy_ok; [done|]. intros x. apply be_bytes_range. }
  split; [|split; [exact Hf|]].
  - rewrite read_dword_be_a by done. rewrite write_dword_be_a. rewrite <- (be_bytes_length 4 v) at 1. by rewrite bytes_at_memcpy, be_val_bytes.
  - intros i Hi. rewrite write_dword_be_a, memcpy_get, be_bytes_length.
    destruct (Z.leb_spec o i), (Z.ltb_spec i (o + Z.of_nat 4)); cbn [andb]; done || lia.
Qed.

Lemma stored_dword b o : 6 <= o -> READ_DWORD_BE_A (stored b) o = READ_DWORD_BE_A b o.
Proof. intros Ho. apply (same_on_dword o 4); [|lia..]. intros i Hi. apply stored_same. lia. Qed.

(** Storing a number or the flags. *)
Lemma dword_change c1 b o num name sv : size c1 = OF_CFG_SIZE -> cfg_ok c1 -> header_ok b = true -> same_on 0 2048 b (buf c1) -> 12 <= o -> o + 4 <= 0x5C ->
  let f c := WRITE_DWORD_BE_A o num (buf c) in
  (forall c3, of_nvram_offset (nv c3) = of_nvram_offset (nv c1) -> READ_DWORD_BE_A (buf c3) o = u32 num -> file_ok 8 (buf c3) ->
    (forall i, 0 <= i < 2048 -> i < 4 \/ 6 <= i -> i < o \/ o + 4 <= i -> (buf c3).[i] = (buf c1).[i]) -> shown c3 = updated name sv (shown c1)) ->
  exists c2, (upd_cfg (fun c => set_buf (f c) c) ;;; update_partition ;;; ret true) c1 = (Ret true, c2) /\ image c2 (stored (f c1)) /\
    forall c3, nv c3 = nv c2 -> file_ok 8 (buf c3) -> exists c4,
      get_config_vars c3 = (Ret (if carry_free (f c1) then updated name sv (shown c1) else []), c4).
Proof.
  intros Hsz Hc Hh Hs Ho1 Ho2 f Hshown. destruct (dword_back o num (buf c1) (proj2 Hc)) as (Er & Hf & Hkeep).
  destruct (change_spec f c1 Hsz Hc Hf) as (c2 & E2 & Him2 & Hc2 & Eo2). exists c2. split; [exact E2|]. split; [exact Him2|].
  apply (shown_after c1 c2 b f (updated name sv (shown c1)) Hf Hh Hs); try done; [intros i Hi; apply Hkeep; lia|].
  intros c3 Eo3 Hs3 Hf3. apply Hshown; [done| |done|].
  - rewrite (same_on_dword 0 2048 _ _ o Hs3) by lia. rewrite stored_dword by lia. exact Er.
  - intros i Hi H1 H2. rewrite Hs3, stored_same by lia. apply Hkeep. lia.
Qed.

Lemma assignment c1 b name value sv : size c1 = OF_CFG_SIZE -> cfg_ok c1 -> header_ok b = true -> same_on 0 2048 b (buf c1) -> heap_ok c1 ->
  assigned name value = Some sv -> exists f c2, set_valid name value c1 = (Ret true, c2) /\ image c2 (stored (f c1)) /\
    forall c3, nv c3 = nv c2 -> file_ok 8 (buf c3) -> exists c4,
      get_config_vars c3 = (Ret (if carry_free (f c1) then updated name sv (shown c1) else []), c4).
Proof.
  intros Hsz Hc Hh Hs Hheap Has. unfold assigned in Has. unfold set_valid. destruct (index_of name flag_names) as [k|] eqn:Ek.
  - pose proof (index_of_in name k Ek) as Hin. assert (k < 9)%nat as Hk by (apply in_combine_l, in_seq in Hin; lia).
    assert (exists flag : bool, value = (if flag then str "true" else str "false") /\ sv = value) as (flag & -> & ->).
    { destruct (bool_decide_reflect (value = str "true")) as [->|]; [by exists true; injection Has|].
      destruct (bool_decide_reflect (value = str "false")) as [->|]; [by exists false; injection Has | done]. }
    set (bit := Z.shiftr 0x80000000 (Z.of_nat k)).
    set (num c := let of_flags := READ_DWORD_BE_A (buf c) 12 in if flag then Z.lor of_flags bit else Z.land of_flags (not32 bit)).
    assert (set_flag k (if flag then str "true" else str "false") c1 =
      (upd_cfg (fun c => set_buf (WRITE_DWORD_BE_A 12 (num c) (buf c)) c) ;;; update_partition ;;; ret true) c1) as ->.
    { unfold set_flag. by destruct flag. }
    assert (forall i, 0 <= i < 32 -> Z.testbit (u32 (num c1)) i = if i =? 31 - Z.of_nat k then flag else Z.testbit (READ_DWORD_BE_A (buf c1) 12) i) as Hbits.
    { intros i Hi. rewrite testbit_uwrap by lia. rewrite (proj2 (Z.ltb_lt i 32)) by lia. cbn [andb]. unfold num.
      assert (Z.testbit bit i = (i =? 31 - Z.of_nat k)) as Eb.
      { unfold bit. change 0x80000000 with (2 ^ 31). rewrite Z.shiftr_spec, Z.pow2_bits_eqb by lia. lia. }
      destruct flag; [rewrite Z.lor_spec | rewrite Z.land_spec, testbit_not32 by lia]; rewrite Eb; destruct (i =? _); by rewrite ?orb_true_r, ?orb_false_r, ?andb_false_r, ?andb_true_r. }
    exists (fun c => WRITE_DWORD_BE_A 12 (num c1) (buf c)).
    destruct (dword_change c1 b 12 (num c1) name (if flag then str "true" else str "false") Hsz Hc Hh Hs) as (c2 & E2 & Him2 & Hafter); [lia..| |].
    { intros c3 Eo3 Er Hf3 Hk3. apply (updated_flags c1 c3 name flag k Hheap Eo3 Hin Hk3 (proj2 Hc) Hf3). intros i Hi. by rewrite Er, Hbits. }
    exists c2. split; [|by split]. rewrite <- E2. unfold upd_cfg. by rewrite !bind_modify.
  - destruct (List.find _ of_vars) as [[n [[] o]]|] eqn:Ef; [|done..]. apply List.find_some in Ef as [Hin Hn]. apply bool_decide_eq_true in Hn. cbn [fst] in Hn. subst n.
    destruct (str2env value) as [num| |] eqn:Enum; [|done..]. injection Has as <-. destruct (layout _ Hin) as [L1 L2]. unfold offset_of in L1, L2. cbn [snd] in L1, L2.
    exists (fun c => WRITE_DWORD_BE_A o num (buf c)).
    destruct (dword_change c1 b o num name (hex2str num) Hsz Hc Hh Hs) as (c2 & E2 & Him2 & Hafter); [lia..| |by exists c2].
    intros c3 Eo3 Er Hf3 Hk3. apply (updated_vars c1 c3 name (hex2str num) o OF_VAR_TYPE_INT); try done. cbn [var_value]. rewrite Er.
    by rewrite (str2env_range _ _ Enum).
Qed.
End ApplProps.

(** What setenv stores, getenv shows (Old World layout).  Setting a flag to true or
    false or a number to anything that parses succeeds on a valid partition;
    afterwards, also for a new debugger object, the variable shows what was assigned
    and every other variable what it did before.  Unless adding the carries of the
    new contents' sum carries once more: then the checksum the code has stored is
    one it rejects itself, and no variable is shown any more. *)
Theorem of_setenv_getenv c c0 name value sv vars : ApplProps.cfg_ok c -> Appl.get_config_vars c = (Ret vars, c0) -> vars <> [] ->
  ApplProps.heap_ok c0 -> ApplProps.assigned name value = Some sv ->
  exists c1 b', Appl.set_var name value c = (Ret true, c1) /\ ApplProps.image c1 (ApplProps.stored b') /\
    forall c2, nv c2 = nv c1 -> file_ok 8 (buf c2) -> exists c3,
      Appl.get_config_vars c2 = (Ret (if ApplProps.carry_free b' then ApplProps.updated name sv vars else []), c3).
Proof.
  intros Hc Hget Hne Hheap Has. set (b := ApplProps.the_image c). pose proof (ApplProps.the_image_ok c : ApplProps.image c b) as Him. clearbody b.
  destruct (ApplProps.get_spec c b Hc Him) as (c0' & v & E0 & Ev & En0 & Hf0 & Hp0). rewrite Hget in E0. injection E0 as <- <-.
  destruct (ApplProps.part_ok b) eqn:Epart; [|done]. subst vars. destruct (Hp0 eq_refl) as [_ Hs0]. clear Hp0.
  destruct (ApplProps.validate_spec c b Hc Him) as (c1 & E1 & En1 & _ & Hf1 & Hp1). rewrite Epart in *. destruct (Hp1 eq_refl) as [Hsz Hs1]. clear Hp1.
  assert (ApplProps.cfg_ok c1) as Hc1 by (split; [rewrite En1; apply Hc | done]).
  assert (ApplProps.header_ok b = true) as Hhead by (unfold ApplProps.part_ok in Epart; by bool_to_prop).
  assert (same_on 0 2048 (buf c0) (buf c1)) as Hs01 by (intros i Hi; by rewrite Hs0, Hs1).
  assert (of_nvram_offset (nv c1) = of_nvram_offset (nv c0)) as Eo by (by rewrite En0, En1).
  rewrite <- (ApplProps.shown_same c0 c1 Eo Hs01).
  pose proof (ApplProps.heap_same c0 c1 Eo Hs01 Hheap) as Hheap1.
  pose proof (ApplProps.assignment c1 b name value sv Hsz Hc1 Hhead Hs1 Hheap1 Has) as (f & c2 & E2 & Him2 & Hafter).
  exists c2, (f c1). split; [|split; [exact Him2 | exact Hafter]]. unfold Appl.set_var. by rewrite (bind_ret _ _ _ _ _ E1).
Qed.

(** ** CHRP's layout *)

Module ChrpProps.
Import Chrp.

Definition name_ok (n : list Z) : Prop := (1 <= length n <= 31)%nat /\ Forall (fun x => x <> 0 /\ x <> 61) n.
Definition value_ok (v : list Z) : Prop := Forall (fun x => x <> 0) v.
Definition vars_ok (vars : list (list Z * list Z)) : Prop := Forall (fun nv => name_ok nv.1 /\ value_ok nv.2) vars.

(** The text of the variables. *)
Definition var_text (nv : list Z * list Z) : list Z := nv.1 ++ [61] ++ nv.2 ++ [0].
Definition text (vars : list (list Z * list Z)) : list Z := concat (map var_text vars).
Definition tlen (vars : list (list Z * list Z)) : Z := Z.of_nat (length (text vars)).

Lemma text_cons nv vars : text (nv :: vars) = var_text nv ++ text vars.
Proof. done. Qed.
Lemma var_text_length nv : length (var_text nv) = (length nv.1 + length nv.2 + 2)%nat.
Proof. unfold var_text. rewrite !length_app. cbn. lia. Qed.

(** Text at an address. *)
Definition at_ (b : gmap Z Z) (a : Z) (l : list Z) : Prop := forall i, (i < length l)%nat -> b.[a + Z.of_nat i] = nth i l 0.

Lemma at_app b a l k : at_ b a (l ++ k) <-> at_ b a l /\ at_ b (a + Z.of_nat (length l)) k.
Proof.
  unfold at_. split.
  - intros H. split; intros i Hi; [rewrite H by (rewrite length_app; lia); by rewrite app_nth1|].
    replace (a + Z.of_nat (length l) + Z.of_nat i) with (a + Z.of_nat (length l + i)) by lia. rewrite H by (rewrite length_app; lia).
    rewrite app_nth2 by lia. f_equal. lia.
  - intros [H1 H2] i Hi. rewrite length_app in Hi. destruct (decide (i < length l)%nat); [rewrite app_nth1 by done; by apply H1|].
    rewrite app_nth2 by lia. rewrite <- H2 by lia. f_equal. lia.
Qed.
Lemma at_one b a x : at_ b a [x] <-> b.[a] = x.
Proof. unfold at_. split; [intros H; specialize (H 0%nat); rewrite Z.add_0_r in H; apply H; cbn; lia|]. intros <- [|i] Hi; [by rewrite Z.add_0_r | cbn in Hi; lia]. Qed.
Lemma at_memcpy b a l : at_ (memcpy a l b) a l.
Proof.
  intros i Hi. rewrite memcpy_get. destruct (Z.leb_spec a (a + Z.of_nat i)), (Z.ltb_spec (a + Z.of_nat i) (a + Z.of_nat (length l))); cbn [andb]; try lia.
  f_equal. lia.
Qed.
Lemma at_same b b' a l : at_ b a l -> (forall x, a <= x < a + Z.of_nat (length l) -> b'.[x] = b.[x]) -> at_ b' a l.
Proof. intros H Hs i Hi. rewrite Hs by lia. by apply H. Qed.
Lemma at_bytes b a l : at_ b a l -> bytes_at b a (length l) = l.
Proof.
  intros H. apply (nth_ext _ _ 0 0); [by rewrite bytes_at_length|]. intros i Hi. rewrite bytes_at_length in Hi.
  unfold bytes_at. rewrite nth_map_seq by done. by apply H.
Qed.

(** Printing. *)
Lemma print_spec vars : forall pos b, 0 <= pos ->
  let '(fits, b') := print_vars vars pos b in
  fits = (pos + tlen vars <=? 4096) || bool_decide (vars = []) /\
  (fits = true -> at_ b' pos (text vars) /\ forall x, x < pos \/ pos + tlen vars <= x -> b'.[x] = b.[x]).
Proof.
  induction vars as [|[name val] vars IH]; intros pos b Hp; cbn [print_vars].
  { split; [by rewrite bool_decide_true, orb_true_r by done|]. intros _. split; [|done]. intros i Hi. cbn in Hi. lia. }
  remember (Z.of_nat (length name)) as n eqn:En. remember (Z.of_nat (length val)) as v eqn:Ev.
  assert (tlen ((name, val) :: vars) = n + v + 2 + tlen vars) as El.
  { unfold tlen. rewrite text_cons, length_app, var_text_length. cbn [fst snd]. lia. }
  rewrite El, bool_decide_false, orb_false_r by done. destruct (Z.ltb_spec 4096 (pos + n + v + 2)).
  { split; [|done]. unfold tlen. destruct (Z.leb_spec (pos + (n + v + 2 + Z.of_nat (length (text vars)))) 4096); [lia | done]. }
  set (b1 := _.[pos + n + 1 + v := 0]). specialize (IH (pos + n + 1 + v + 1) b1 ltac:(lia)).
  destruct (print_vars vars (pos + n + 1 + v + 1) b1) as [fits b']. destruct IH as [Hf Hb]. split.
  - rewrite Hf. replace (pos + (n + v + 2 + tlen vars)) with (pos + n + 1 + v + 1 + tlen vars) by lia.
    destruct (bool_decide_reflect (vars = [])) as [->|]; [|by rewrite orb_false_r]. rewrite orb_true_r. unfold tlen, text. cbn.
    symmetry. apply Z.leb_le. lia.
  - intros Ht. destruct (Hb Ht) as [H1 H2]. split.
    + rewrite text_cons. apply at_app. rewrite var_text_length. cbn [fst snd].
      replace (pos + Z.of_nat (length name + length val + 2)) with (pos + n + 1 + v + 1) by lia. split; [|exact H1].
      apply (at_same b1); [|intros x Hx; rewrite var_text_length in Hx; cbn [fst snd] in Hx; apply H2; lia].
      unfold var_text, b1. cbn [fst snd]. apply at_app. rewrite <- En. split; [|apply at_app; split; [|apply at_app; rewrite <- Ev; split]].
      * eapply at_same; [apply at_memcpy|]. intros x Hx. rewrite rget_rset_ne by lia. rewrite memcpy_get.
        destruct (Z.leb_spec (pos + n + 1) x); [lia|]. cbn [andb]. by rewrite rget_rset_ne by lia.
      * apply at_one. rewrite rget_rset_ne by lia. rewrite memcpy_get. destruct (Z.leb_spec (pos + n + 1) (pos + n)); [lia|]. cbn [andb]. apply rget_rset_eq.
      * change (Z.of_nat (length [61])) with 1. eapply at_same; [apply at_memcpy|]. intros x Hx. by rewrite rget_rset_ne by lia.
      * change (Z.of_nat (length [61])) with 1. apply at_one, rget_rset_eq.
    + assert (0 <= tlen vars) by (unfold tlen; lia). intros x Hx. rewrite H2 by lia. unfold b1. rewrite rget_rset_ne by lia. rewrite memcpy_get.
      destruct (Z.leb_spec (pos + n + 1) x), (Z.ltb_spec x (pos + n + 1 + Z.of_nat (length val))); cbn [andb]; try lia.
      all: rewrite rget_rset_ne by lia; rewrite memcpy_get; destruct (Z.leb_spec pos x), (Z.ltb_spec x (pos + Z.of_nat (length name))); cbn [andb]; done || lia.
Qed.

(** Parsing. *)
Lemma scan_name_spec b start name : at_ b start (name ++ [61]) -> name_ok name -> start + Z.of_nat (length name) < 4096 ->
  scan_name 33 b start 0 = Some (Z.of_nat (length name)).
Proof.
  intros Ha [Hl Hn] Hend. apply at_app in Ha as [Ha Heq]. rewrite at_one in Heq.
  assert (forall k j fuel, length name = (j + k)%nat -> (k < fuel)%nat -> scan_name fuel b start (Z.of_nat j) = Some (Z.of_nat (length name))) as G.
  { induction k as [|k IH]; intros j fuel E Hf; (destruct fuel as [|fuel]; [lia|]); cbn [scan_name].
    - destruct (Z.leb_spec 32 (Z.of_nat j)); [lia|]. destruct (Z.leb_spec 4096 (start + Z.of_nat j)); [lia|].
      replace j with (length name) by lia. rewrite Heq. cbn [Z.eqb Pos.eqb]. rewrite (proj2 (Z.eqb_neq (Z.of_nat (length name)) 0)) by lia. done.
    - destruct (Z.leb_spec 32 (Z.of_nat j)); [lia|]. destruct (Z.leb_spec 4096 (start + Z.of_nat j)); [lia|].
      rewrite Ha by lia. rewrite List.Forall_forall in Hn. destruct (Hn (nth j name 0)) as [Hz H61]; [apply nth_In; lia|].
      rewrite (proj2 (Z.eqb_neq _ _) H61), (Ha j ltac:(lia)), (proj2 (Z.eqb_neq _ _) Hz). replace (Z.of_nat j + 1) with (Z.of_nat (S j)) by lia. apply IH; lia. }
  apply (G (length name) 0%nat); lia.
Qed.

Lemma scan_value_spec b val : forall pos fuel, at_ b pos (val ++ [0]) -> value_ok val -> pos + Z.of_nat (length val) < 4096 -> (length val < fuel)%nat ->
  scan_value fuel b pos = pos + Z.of_nat (length val).
Proof.
  induction val as [|x val IH]; intros pos fuel Ha Hv Hend Hf; (destruct fuel as [|fuel]; [cbn in Hf; lia|]); cbn [scan_value length].
  - cbn [app] in Ha. rewrite at_one in Ha. rewrite (proj2 (Z.ltb_lt _ _)) by (cbn in Hend; lia). rewrite Ha. cbn. lia.
  - apply Forall_cons_1 in Hv as [Hx Hv]. change ((x :: val) ++ [0]) with ([x] ++ (val ++ [0])) in Ha. apply at_app in Ha as [H1 H2].
    rewrite at_one in H1. rewrite (proj2 (Z.ltb_lt _ _)) by (cbn in Hend; lia). rewrite H1, (proj2 (Z.eqb_neq _ _) Hx).
    cbn [length] in Hend, Hf. rewrite IH; [lia | exact H2 | done | lia | lia].
Qed.

Lemma parse_spec vars : forall fuel b pos n, vars_ok vars -> at_ b pos (text vars) -> 0 <= pos -> pos + tlen vars <= 4096 ->
  (pos + tlen vars < 4096 -> b.[pos + tlen vars] = 0) -> (length vars < fuel)%nat ->
  parse_vars fuel b pos n = (vars, if vars is [] then n else pos + tlen vars).
Proof.
  induction vars as [|[name val] vars IH]; intros fuel b pos n Hok Ha Hp Hend Hz Hf; (destruct fuel as [|fuel]; [cbn in Hf; lia|]); cbn [parse_vars].
  - unfold tlen, text in *. cbn in Hend, Hz. rewrite Z.add_0_r in *. destruct (Z.ltb_spec pos 4096); [|done].
    unfold scan_name. rewrite !Z.add_0_r, Hz by done. change (32 <=? 0) with false. cbv iota. by destruct (4096 <=? pos).
  - apply Forall_cons_1 in Hok as [[Hn Hv] Hok]. cbn [fst snd] in Hn, Hv. rewrite text_cons in Ha. apply at_app in Ha as [Ha Hrest].
    set (ln := Z.of_nat (length name)). set (lv := Z.of_nat (length val)).
    assert (tlen ((name, val) :: vars) = ln + lv + 2 + tlen vars) as El.
    { unfold tlen. rewrite text_cons, length_app, var_text_length. cbn [fst snd]. lia. }
    rewrite El in *. assert (0 <= tlen vars) by (unfold tlen; lia). unfold var_text in Ha. cbn [fst snd] in Ha. rewrite app_assoc in Ha.
    apply at_app in Ha as [Ha1 Ha2]. rewrite (proj2 (Z.ltb_lt pos 4096)) by lia. rewrite (scan_name_spec b pos name Ha1 Hn) by (fold ln; lia).
    fold ln. rewrite length_app in Ha2. change (length [61]) with 1%nat in Ha2. replace (pos + Z.of_nat (length name + 1)) with (pos + ln + 1) in Ha2 by lia.
    rewrite (scan_value_spec b val) by (done || (fold lv; lia)). fold lv. rewrite (proj2 (Z.leb_gt 4096 (pos + ln + 1 + lv))) by lia.
    rewrite var_text_length in Hrest. cbn [fst snd] in Hrest. replace (pos + Z.of_nat (length name + length val + 2)) with (pos + ln + 1 + lv + 1) in Hrest by lia.
    rewrite IH; [|done|exact Hrest|lia|lia| |cbn in Hf; lia].
    2:{ intros Hlt. replace (pos + ln + 1 + lv + 1 + tlen vars) with (pos + (ln + lv + 2 + tlen vars)) by lia. apply Hz. lia. }
    replace (pos + ln + 1 + lv - (pos + ln + 1)) with lv by lia. apply at_app in Ha1 as [Ha1 _]. apply at_app in Ha2 as [Ha2 _].
    unfold ln at 1, lv at 1. rewrite !Nat2Z.id, (at_bytes b pos name Ha1), (at_bytes b _ val Ha2).
    f_equal. destruct vars; [unfold tlen, text; cbn; lia | lia].
Qed.

(** What the parser finds is well formed, and as long as the text it read. *)
Lemma scan_name_some b start : forall fuel j len, (forall i, 0 <= i < j -> b.[start + i] <> 0 /\ b.[start + i] <> 61) -> 0 <= j ->
  scan_name fuel b start j = Some len ->
  1 <= len <= 31 /\ start + len < 4096 /\ forall i, 0 <= i < len -> b.[start + i] <> 0 /\ b.[start + i] <> 61.
Proof.
  induction fuel as [|fuel IH]; intros j len Hb Hj E; cbn [scan_name] in E; [done|].
  destruct (Z.leb_spec 32 j); [done|]. destruct (Z.leb_spec 4096 (start + j)); [done|].
  destruct (Z.eqb_spec b.[start + j] 61); [destruct (Z.eqb_spec j 0); cbn [negb] in E; [done|]; injection E as <-; split; [lia | by split]|].
  destruct (Z.eqb_spec b.[start + j] 0); [done|]. apply (IH (j + 1)); [|lia|done].
  intros i Hi. destruct (decide (i = j)) as [->|]; [done | apply Hb; lia].
Qed.

Lemma scan_value_out b : forall fuel pos, pos <= scan_value fuel b pos /\ forall x, pos <= x < scan_value fuel b pos -> b.[x] <> 0.
Proof.
  induction fuel as [|fuel IH]; intros pos; cbn [scan_value]; [split; lia|].
  destruct (Z.ltb_spec pos 4096); [|split; lia]. destruct (Z.eqb_spec b.[pos] 0); [split; lia|].
  destruct (IH (pos + 1)) as [H1 H2]. split; [lia|]. intros x Hx. destruct (decide (x = pos)) as [->|]; [done | apply H2; lia].
Qed.

Lemma Forall_bytes_at b (P : Z -> Prop) a n : (forall i, 0 <= i < n -> P b.[a + i]) -> Forall P (bytes_at b a (Z.to_nat n)).
Proof. intros H. unfold bytes_at. apply List.Forall_forall. intros x (i & <- & (j & <- & Hj%in_seq)%in_map_iff)%in_map_iff. apply H. lia. Qed.

Lemma parse_out : forall fuel b pos n vars m, 0 <= pos <= 4096 -> parse_vars fuel b pos n = (vars, m) ->
  vars_ok vars /\ pos + tlen vars <= 4096 /\ m = (if vars is [] then n else pos + tlen vars) /\ (length vars <= fuel)%nat.
Proof.
  assert (tlen [] = 0) as E0 by done.
  induction fuel as [|fuel IH]; intros b pos n vars m Hp E; cbn [parse_vars] in E.
  { injection E as <- <-. rewrite E0. split_and!; [by constructor | lia | done..]. }
  assert (([], n) = (vars, m) -> vars_ok vars /\ pos + tlen vars <= 4096 /\ m = (if vars is [] then n else pos + tlen vars) /\ (length vars <= S fuel)%nat) as G.
  { intros [= <- <-]. rewrite E0. split_and!; [by constructor | lia | done | cbn; lia]. }
  destruct (Z.ltb_spec pos 4096); [|by apply G]. destruct (scan_name 33 b pos 0) as [len|] eqn:En; [|by apply G].
  apply scan_name_some in En as (Hl & Hend & Hn); [|lia..].
  destruct (scan_value_out b (Z.to_nat 4097) (pos + len + 1)) as [Hv1 Hv2]. remember (scan_value (Z.to_nat 4097) b (pos + len + 1)) as stop eqn:Estop. clear Estop.
  destruct (Z.leb_spec 4096 stop); [by apply G|]. destruct (parse_vars fuel b (stop + 1) (stop + 1)) as [vs k] eqn:Ep.
  injection E as <- <-. apply IH in Ep as (Hok & Ht & Ek & Hlen); [|lia].
  assert (tlen ((bytes_at b pos (Z.to_nat len), bytes_at b (pos + len + 1) (Z.to_nat (stop - (pos + len + 1)))) :: vs) = stop + 1 - pos + tlen vs) as El.
  { unfold tlen. rewrite text_cons, length_app, var_text_length. cbn [fst snd]. rewrite !bytes_at_length. lia. }
  rewrite El. split_and!; [|lia | destruct vs; [rewrite Ek, E0; lia | lia] | cbn [length]; lia]. constructor; [|done]. cbn [fst snd]. split; [split|].
  - rewrite bytes_at_length. lia.
  - by apply Forall_bytes_at.
  - apply Forall_bytes_at. intros i Hi. apply Hv2. lia.
Qed.

(** The partition found, and what a walk over an equal prefix finds. *)
Lemma walk_same n n' : file_ok 8 (storage n) -> forall fuel p found pos, find_partition fuel p n = Some (found, pos) ->
  p <= pos /\ ((forall x, x < pos + 4 -> (storage n').[x] = (storage n).[x]) -> find_partition fuel p n' = Some (found, pos)).
Proof.
  intros Hb. induction fuel as [|fuel IH]; intros p found pos E; cbn [find_partition] in *; [done|].
  destruct (Z.ltb_spec p 8192); [|injection E as <- <-; split; [lia | done]]. unfold read_byte in *.
  destruct (Z.eqb_spec (storage n).[p] NVRAM_SIG_OF_ENV) as [Es|].
  { injection E as <- <-. split; [lia|]. intros H'. rewrite H', Es by lia. done. }
  destruct (_ || _) eqn:Ek; [|injection E as <- <-; split; [lia|]; intros H'; rewrite !H' by lia; rewrite Ek; by rewrite (proj2 (Z.eqb_neq _ _))].
  remember (Z.lor (Z.shiftl (storage n).[p + 2] 8) (storage n).[p + 3]) as len eqn:El.
  assert (0 <= len).
  { pose proof (Hb (p + 2)). pose proof (Hb (p + 3)). rewrite El. apply Z.lor_nonneg. rewrite Z.shiftl_nonneg. lia. }
  assert (exists q, p <= q /\ (if (len =? 0) || (8192 <=? len * 16) then find_partition fuel p n else find_partition fuel (p + len * 16) n) = find_partition fuel q n /\
    (if (len =? 0) || (8192 <=? len * 16) then find_partition fuel p n' else find_partition fuel (p + len * 16) n') = find_partition fuel q n') as (q & Hq & E1 & E2).
  { destruct ((len =? 0) || (8192 <=? len * 16)); [exists p | exists (p + len * 16)]; split; done || lia || split; done. }
  rewrite E1 in E. apply IH in E as [Hle Hsame]. split; [lia|]. intros H'. rewrite !H', Ek by lia. rewrite (proj2 (Z.eqb_neq _ _)) by done.
  rewrite <- El, E2. by apply Hsame.
Qed.

Definition plen (n : NVram) (pos : Z) : Z := Z.lor (Z.shiftl (read_byte (pos + 2) n) 8) (read_byte (pos + 3) n) * 16.
Definition hdr_ok (n : NVram) (pos : Z) : bool :=
  (read_byte (pos + 0) n =? NVRAM_SIG_OF_ENV) && negb ((plen n pos <? 16) || (4096 + 16 <? plen n pos)) &&
  (checksum_hdr (fun i => read_byte (pos + i) n) =? read_byte (pos + 1) n).
Definition loaded (pos : Z) (c : of_cfg) : of_cfg :=
  set_buf (memcpy 0 (bytes_at (storage (nv c)) (pos + 16) (Z.to_nat (plen (nv c) pos - 16))) (buf c)) (set_data_offset (pos + 16) c).

Lemma validate_found fuel c pos : find_partition fuel 0 (nv c) = Some (true, pos) -> hdr_ok (nv c) pos = true ->
  validate fuel c = (Ret (Some true), loaded pos c).
Proof.
  intros Ef Eh. unfold validate. rewrite bind_gets. cbn [id]. rewrite Ef. cbv zeta. fold (plen (nv c) pos).
  unfold hdr_ok in Eh. apply andb_true_iff in Eh as [[E1 E2]%andb_true_iff E3]. rewrite E1. apply negb_true_iff in E2.
  cbn [negb orb]. rewrite E2, E3. done.
Qed.
Lemma validate_true fuel c c1 : validate fuel c = (Ret (Some true), c1) -> exists pos,
  find_partition fuel 0 (nv c) = Some (true, pos) /\ hdr_ok (nv c) pos = true /\ c1 = loaded pos c.
Proof.
  unfold validate. rewrite bind_gets. cbn [id]. destruct (find_partition fuel 0 (nv c)) as [[[] pos]|]; [|done..].
  intros E. exists pos. split; [done|]. cbv zeta in E. fold (plen (nv c) pos) in E.
  destruct (negb (read_byte (pos + 0) (nv c) =? NVRAM_SIG_OF_ENV) || (plen (nv c) pos <? 16) || (4096 + 16 <? plen (nv c) pos)) eqn:E1; [done|].
  destruct (negb (checksum_hdr (fun i => read_byte (pos + i) (nv c)) =? read_byte (pos + 1) (nv c))) eqn:E2; [done|].
  split; [|by injection E as <-]. unfold hdr_ok. apply negb_false_iff in E2. rewrite E2, andb_true_r.
  apply orb_false_iff in E1 as [[E1 E3]%orb_false_iff E4]. rewrite E3, E4. apply negb_false_iff in E1. by rewrite E1.
Qed.

Lemma checksum_ext f g : (forall i, 0 <= i < 16 -> f i = g i) -> checksum_hdr f = checksum_hdr g.
Proof.
  intros H. unfold checksum_hdr. rewrite H by lia. f_equal.
  assert (forall i, In i (zrange 14) -> f (2 + i) = g (2 + i)) as Hl by (intros i (j & <- & Hj%in_seq)%in_map_iff; apply H; lia).
  generalize (g 0). revert Hl. generalize (zrange 14). induction l as [|x l IH]; intros Hl a; [done|]. cbn [fold_left].
  rewrite (Hl x) by (by left). apply IH. intros i Hi. apply Hl. by right.
Qed.

Lemma hdr_same n n' pos : (forall x, x < pos + 16 -> (storage n').[x] = (storage n).[x]) -> hdr_ok n' pos = hdr_ok n pos /\ plen n' pos = plen n pos.
Proof.
  intros H. assert (plen n' pos = plen n pos) as E by (unfold plen, read_byte; by rewrite !H by lia). split; [|done].
  unfold hdr_ok. rewrite E. rewrite (checksum_ext _ (fun i => read_byte (pos + i) n)) by (intros i Hi; apply H; lia).
  unfold read_byte at 1 3. by rewrite !H by lia.
Qed.

(** The variables with one of them changed, or a new one at the end. *)
Fixpoint updated (name value : list Z) (vars : list (list Z * list Z)) : list (list Z * list Z) :=
  match vars with
  | [] => [(name, value)]
  | (n, v) :: vars => if bool_decide (n = name) then (n, value) :: vars else (n, v) :: updated name value vars
  end.

Lemma tlen_cons n v vars : tlen ((n, v) :: vars) = Z.of_nat (length n) + Z.of_nat (length v) + 2 + tlen vars.
Proof. unfold tlen. rewrite text_cons, length_app, var_text_length. cbn [fst snd]. lia. Qed.

Lemma updated_ok name value vars : name_ok name -> value_ok value -> vars_ok vars -> vars_ok (updated name value vars).
Proof.
  intros Hn Hv. induction 1 as [|[n v] vars [H1 H2] H IH]; cbn [updated]; [by apply List.Forall_cons; [|constructor]|].
  destruct (bool_decide _); by apply List.Forall_cons.
Qed.

Lemma replace_updated name value free vars : 0 <= free ->
  match replace_var name value free vars with
  | None => updated name value vars = vars ++ [(name, value)] /\ tlen (updated name value vars) = tlen vars + Z.of_nat (length name) + Z.of_nat (length value) + 2
  | Some None => tlen vars + free < tlen (updated name value vars)
  | Some (Some vars') => vars' = updated name value vars /\ tlen vars' <= tlen vars + free
  end.
Proof.
  intros Hf. induction vars as [|[n v] vars IH]; cbn [replace_var updated].
  - split; [done|]. rewrite tlen_cons. change (tlen []) with 0. lia.
  - destruct (bool_decide _).
    + destruct (Nat.ltb_spec (length v) (length value)), (Z.ltb_spec free (Z.of_nat (length value) - Z.of_nat (length v))); cbn [andb]; rewrite !tlen_cons; try split; done || lia.
    + destruct (replace_var name value free vars) as [[vars'|]|]; rewrite ?tlen_cons; [| lia |].
      * destruct IH as [-> IH]. rewrite ?tlen_cons in *. split; [done | lia].
      * destruct IH as [E IH]. rewrite IH. split; [by rewrite E | lia].
Qed.

Lemma vars_length vars : vars_ok vars -> 3 * Z.of_nat (length vars) <= tlen vars.
Proof.
  induction 1 as [|[n v] vars [[Hn _] _] _ IH]; [done|]. rewrite tlen_cons. cbn [length fst] in *. lia.
Qed.
Lemma zeros_get n b x : 0 <= x < Z.of_nat n -> (memcpy 0 (repeat 0 n) b).[x] = 0.
Proof.
  intros Hx. rewrite memcpy_get, repeat_length. destruct (Z.leb_spec 0 x), (Z.ltb_spec x (0 + Z.of_nat n)); cbn [andb]; try lia.
  apply nth_repeat.
Qed.
Lemma loaded_get pos c x : plen (nv c) pos = 4096 + 16 -> 0 <= x < 4096 -> (buf (loaded pos c)).[x] = (storage (nv c)).[pos + 16 + x].
Proof.
  intros Hl Hx. unfold loaded. cbn [buf set_buf set_data_offset]. rewrite Hl, memcpy_get, bytes_at_length.
  destruct (Z.leb_spec 0 x), (Z.ltb_spec x (0 + Z.of_nat (Z.to_nat (4096 + 16 - 16)))); cbn [andb]; try lia.
  unfold bytes_at. rewrite nth_map_seq by lia. f_equal. lia.
Qed.

Lemma get_found fuel c pos : find_partition fuel 0 (nv c) = Some (true, pos) -> hdr_ok (nv c) pos = true ->
  let c' := loaded pos (set_data_length 0 (set_config_vars [] c)) in
  let '(vars, m) := parse_vars (Z.to_nat 4096) (buf c') 0 0 in
  get_config_vars fuel c = (Ret (Some vars), set_config_vars vars (set_data_length m c')).
Proof.
  intros Hf Hh c'. destruct (parse_vars _ _ _ _) as [vars m] eqn:E. unfold get_config_vars, upd_cfg. rewrite !bind_modify. unfold fuelled.
  rewrite (bind_ret _ _ _ _ _ (validate_found fuel (set_data_length 0 (set_config_vars [] c)) pos Hf Hh)). cbn [negb]. fold c'.
  rewrite bind_modify, bind_gets. by rewrite E.
Qed.

(** The parser reads the 4096 bytes only. *)
Lemma parse_same b b' : (forall x, 0 <= x < 4096 -> b'.[x] = b.[x]) -> forall fuel pos n, 0 <= pos ->
  parse_vars fuel b' pos n = parse_vars fuel b pos n.
Proof.
  intros H. assert (forall fuel start j, 0 <= start -> 0 <= j -> scan_name fuel b' start j = scan_name fuel b start j) as Hn.
  { induction fuel as [|fuel IH]; intros start j Hs Hj; [done|]. cbn [scan_name]. destruct (32 <=? j); [done|]. destruct (Z.leb_spec 4096 (start + j)); [done|].
    rewrite H by lia. by rewrite IH by lia. }
  assert (forall fuel pos, 0 <= pos -> scan_value fuel b' pos = scan_value fuel b pos) as Hv.
  { induction fuel as [|fuel IH]; intros pos Hp; [done|]. cbn [scan_value]. destruct (Z.ltb_spec pos 4096); [|done]. rewrite H by lia. by rewrite IH by lia. }
  induction fuel as [|fuel IH]; intros pos n Hp; [done|]. cbn [parse_vars]. rewrite Hn by lia. destruct (Z.ltb_spec pos 4096); [|done].
  destruct (scan_name 33 b pos 0) as [len|] eqn:En; [|done]. apply scan_name_some in En as (Hl & Hend & _); [|lia..].
  rewrite Hv by lia. destruct (scan_value_out b (Z.to_nat 4097) (pos + len + 1)) as [Hs _].
  remember (scan_value (Z.to_nat 4097) b (pos + len + 1)) as stop. destruct (Z.leb_spec 4096 stop); [done|]. rewrite IH by lia.
  rewrite !(same_on_bytes 0 4096 b b') by (lia || (intros i Hi; apply H; lia)). done.
Qed.

(** What the partition shows after a successful update. *)
Lemma update_shows fuel c vars pos : file_ok 8 (storage (nv c)) -> find_partition fuel 0 (nv c) = Some (true, pos) ->
  hdr_ok (nv c) pos = true -> plen (nv c) pos = 4096 + 16 -> data_offset c = pos + 16 -> vars_ok vars -> tlen vars <= 4096 ->
  exists c1, update_partition (set_config_vars vars c) = (Ret true, c1) /\
    forall c2, nv c2 = nv c1 -> exists c3, get_config_vars fuel c2 = (Ret (Some vars), c3).
Proof.
  intros Hb Hf Hh Hlen Hoff Hok Ht. unfold update_partition, upd_cfg. rewrite bind_modify, bind_gets. cbn [id config_vars set_buf set_config_vars buf nv data_offset].
  remember (memcpy 0 (repeat 0 (Z.to_nat 4096)) (buf c)) as z eqn:Ez. pose proof (print_spec vars 0 z ltac:(lia)) as Hp.
  destruct (print_vars vars 0 z) as [fits b]. destruct Hp as [Hfits Hb']. rewrite Z.add_0_l, (proj2 (Z.leb_le _ _)) in Hfits by done. cbn [orb] in Hfits.
  subst fits. destruct (Hb' eq_refl) as [Htext Hrest]. rewrite bind_modify, bind_modify. cbn [nv set_buf set_nv data_offset buf].
  eexists. split; [reflexivity|]. intros c2 E2. cbn [nv set_nv set_buf set_config_vars data_offset buf] in E2.
  destruct (write_back b (fun _ => data_offset c) (Z.to_nat 4096) (nv c) (fun _ _ => eq_refl)) as (_ & _ & _ & Hst).
  cbv beta in Hst. rewrite <- E2, Hoff in Hst.
  assert (forall x, x < pos + 16 -> (storage (nv c2)).[x] = (storage (nv c)).[x]) as Hlow.
  { intros x Hx. rewrite Hst. by destruct (Z.leb_spec (pos + 16) x); [lia|]. }
  assert (forall x, 0 <= x < 4096 -> (storage (nv c2)).[pos + 16 + x] = b.[x]) as Hhigh.
  { intros x Hx. rewrite Hst. destruct (Z.leb_spec (pos + 16) (pos + 16 + x)), (Z.ltb_spec (pos + 16 + x) (pos + 16 + Z.of_nat (Z.to_nat 4096))); cbn [andb]; try lia. f_equal. lia. }
  clear Hst E2. destruct (hdr_same (nv c) (nv c2) pos Hlow) as [Eh El]. rewrite Hh in Eh. rewrite Hlen in El.
  destruct (walk_same (nv c) (nv c2) Hb fuel 0 true pos Hf) as [_ Hwalk]. specialize (Hwalk ltac:(intros; apply Hlow; lia)).
  pose proof (get_found fuel c2 pos Hwalk Eh) as Hg. set (c' := set_data_length 0 _) in Hg. cbv zeta in Hg.
  assert (parse_vars (Z.to_nat 4096) (buf (loaded pos c')) 0 0 = (vars, if vars is [] then 0 else 0 + tlen vars)) as Ep.
  { assert (forall x, 0 <= x < 4096 -> (buf (loaded pos c')).[x] = b.[x]) as Hbuf.
    { intros x Hx. rewrite loaded_get by done. by apply Hhigh. }
    pose proof (vars_length vars Hok). apply parse_spec; [exact Hok | | lia | lia | | lia].
    - apply (at_same b); [done|]. intros x Hx. apply Hbuf. unfold tlen in *. lia.
    - intros Hlt. unfold tlen in *. rewrite Hbuf, Hrest, Ez, zeros_get by lia. done. }
  rewrite Ep in Hg. eexists. exact Hg.
Qed.

(** A flag takes true and false only. *)
Definition flag_ok (name value : list Z) : bool :=
  negb (List.last name 0 =? 63) || bool_decide (value = str "true") || bool_decide (value = str "false").

(** What setting does to a partition that has been read. *)
Lemma set_var_spec fuel c pos name value : file_ok 8 (storage (nv c)) -> find_partition fuel 0 (nv c) = Some (true, pos) ->
  hdr_ok (nv c) pos = true -> plen (nv c) pos = 4096 + 16 -> vars_ok (config_vars c) -> data_length c = tlen (config_vars c) /\ tlen (config_vars c) <= 4096 ->
  name_ok name -> value_ok value ->
  let r := flag_ok name value && (tlen (updated name value (config_vars c)) <=? 4096) in
  exists c1, set_var fuel name value c = (Ret (Some r), c1) /\
    if r then forall c2, nv c2 = nv c1 -> exists c3, get_config_vars fuel c2 = (Ret (Some (updated name value (config_vars c))), c3)
    else nv c1 = nv c.
Proof.
  intros Hb Hf Hh Hl Hok [Hd Ht] Hn Hv r. unfold set_var, fuelled. rewrite (bind_ret _ _ _ _ _ (validate_found fuel c pos Hf Hh)). cbn [negb].
  assert ((List.last name 0 =? 63) && negb (bool_decide (value = str "true")) && negb (bool_decide (value = str "false")) = negb (flag_ok name value)) as ->.
  { unfold flag_ok. by rewrite !negb_orb, negb_involutive. }
  unfold r. destruct (flag_ok name value); cbn [negb andb]; [|by eexists]. clear r. rewrite bind_gets. cbn [id].
  set (c' := loaded pos c). change (data_length c') with (data_length c). change (config_vars c') with (config_vars c).
  pose proof (replace_updated name value (4096 - data_length c) (config_vars c) ltac:(lia)) as Hr.
  pose proof (updated_ok name value (config_vars c) Hn Hv Hok) as Hok'.
  assert (tlen (updated name value (config_vars c)) <= 4096 -> exists c1,
    (upd_cfg (set_config_vars (updated name value (config_vars c))) ;;; x <- update_partition ;; ret (Some x)) c' = (Ret (Some true), c1) /\
    forall c2, nv c2 = nv c1 -> exists c3, get_config_vars fuel c2 = (Ret (Some (updated name value (config_vars c))), c3)) as Hup.
  { intros Hfit. destruct (update_shows fuel c' (updated name value (config_vars c)) pos) as (c1 & E1 & H1); try done.
    exists c1. split; [|exact H1]. unfold upd_cfg. rewrite bind_modify. by rewrite (bind_ret _ _ _ _ _ E1). }
  destruct (replace_var _ _ _ _) as [[vars'|]|].
  - destruct Hr as [-> Hr]. rewrite (proj2 (Z.leb_le _ _)) by lia. apply Hup. lia.
  - rewrite (proj2 (Z.leb_gt _ _)) by lia. by eexists.
  - destruct Hr as [Ha Hr]. destruct (Z.ltb_spec (4096 - data_length c) (Z.of_nat (length name) + Z.of_nat (length value) + 2)).
    + rewrite (proj2 (Z.leb_gt _ _)) by lia. by eexists.
    + rewrite (proj2 (Z.leb_le _ _)) by lia. destruct Hup as (c1 & E1 & H1); [lia|]. exists c1. split; [|exact H1]. rewrite <- E1, Ha.
      unfold upd_cfg. by rewrite !bind_modify.
Qed.
End ChrpProps.


(** An empty partition of the full size at the start of the memory, and the same
    after setting a variable. *)
Definition empty_partition : of_cfg :=
  mk_of_cfg (mk_nvram 8192 (∅.[0 := 0x70].[1 := 0x72].[2 := 1].[3 := 1]) 0x1800) ∅ 0 0 0 [].

Lemma empty_partition_ok : file_ok 8 (storage (nv empty_partition)).
Proof. cbn [nv storage empty_partition]. repeat (apply file_ok_set; [|lia]). apply file_ok_empty. lia. Qed.

